(* ===== verification/_CoqProject ===== *)
-Q . S2P
Prelude.v
RustText.v
Bytes.v
ProjectContract.v
ProjectSpec.v
ProjectTheorems.v
PgTx.v
Intent.v
Secrets.v
Jobs.v
JobsSpec.v
JobsTheorems.v
Admission.v
AdmissionSpec.v
AdmissionSteps.v
AdmissionFrame.v
AdmissionTheorems.v
Wire.v
SourceBundle.v
SourceTheorems.v
PolicyClock.v
ExecutionTables.v
Credentials.v
RuntimeEvidence.v
Runtime.v
RuntimeSpec.v
RuntimeSteps.v
RuntimeTheorems.v
BuildTables.v
BuildInputs.v
BuildJobs.v
BuildLedger.v
BuildSpec.v
BuildSteps.v
BuildTheorems.v
ReleaseTables.v
ReleaseEvidence.v
ReleaseReceipts.v
Migrations.v
Releases.v
ReleaseSpec.v
ReleaseSteps.v
ManifestText.v
ReleaseTheorems.v
TableHistory.v
TenantTables.v
TenantCompletion.v
Tenants.v
TenantLeases.v
TenantLedger.v
TenantSpec.v
ReleaseData.v
TenantSteps.v
TenantTheorems.v
TenantDemo.v
GraphTables.v
Graph.v
GraphSpec.v
GraphSteps.v
GraphInvariant.v
GraphReads.v
GraphAccounts.v
GraphPersist.v
GraphTheorems.v
GraphDemo.v
Ledger.v
LedgerDemo.v
JobsFrame.v
Vault.v
VaultSpec.v
VaultSteps.v
VaultTheorems.v
VaultDemo.v
Artifact.v
ArtifactSpec.v
ArtifactSteps.v
ArtifactInv.v
ArtifactTheorems.v
ArtifactDemo.v
