(* ===== verification/Prelude.v ===== *)
(** * Hostlet: a verification development

    Hostlet is a hosting platform.  Its control service (crates/control) stores
    all state in PostgreSQL and serves two kinds of clients over HTTP: owners,
    who describe projects and ask for builds, jobs and capacity, and workers,
    which lease work, receive the secrets bound to it and report outcomes.
    crates/protocol holds the contract both sides validate.

    ** How the program is modelled

    A handler is a computation [PgTx.M D A] over the tables [D] it uses: it may
    fail with an [ApiError] ([?] in the source), read [clock_timestamp()] and
    draw random identifiers.  [transaction] commits or restores.  Handlers lock
    the rows they depend on before reading them, so a transaction is one atomic
    step and concurrent requests are sequences of steps; only [SKIP LOCKED]
    queries see what others hold, through [Env.row_locked].  Table constraints
    (CHECK, UNIQUE, foreign keys) are boolean functions the statements consult.
    Each component has an abstract step relation with an invariant; refinement
    lemmas show that every handler, whatever its result, takes only such steps,
    and the theorems follow by induction on executions.

    ** Files

    - Prelude: tactics, the [hostlet] hint database, the result type, lemmas on
      lists, options and integers.
    - RustText, Bytes: the string functions of Rust and byte encodings.
    - ProjectContract, ProjectSpec, ProjectTheorems: the validator of standard
      projects (crates/protocol/src/project.rs), a declarative contract, and the
      proof that the validator decides it.
    - PgTx: API errors (crates/control/src/error.rs), transactions and tables.
    - Intent: request preconditions, idempotent replay and the audit trail
      (intent.rs), as the type class [IntentStore] with its laws; every component
      with such tables is an instance.
    - Secrets: the authenticated scope of a secret and the resolution of a job's
      secrets (secrets.rs, crypto.rs).
    - JobsFrame, Vault, VaultSpec, VaultSteps, VaultTheorems, VaultDemo: the secrets
      of an owner (secrets.rs, crypto.rs): their creation, their versions and the
      responses replayed for a key, over tables that contain those of jobs.
      [JobsFrame] says what a request to jobs leaves of them; [vault_step] and
      [vault_ok] are the specification.
    - Jobs, JobsSpec, JobsTheorems: bookkeeping jobs (jobs.rs): creation, leases
      with fences, renewal, credentials, completion, cancellation, reaping.
      [core_step] and [jobs_ok] are the specification.
    - Admission, AdmissionSpec, AdmissionSteps, AdmissionTheorems: capacity holds,
      slot reservations and build allowances (admission.rs).  [adm_step] and
      [adm_ok] are the specification; [adm_step] is indexed by the reservations a
      step may release, and [outside_step] is what other components write to the
      same tables: a debit, a retained reservation, a taken slot, a new project.
    - Wire: byte streams with short reads, I/O errors, UTF-8, paths.
    - SourceBundle, SourceTheorems: the HBS1 source bundle, from the control
      service (build_jobs.rs) over the padded disk (builder/src/vm.rs) to the
      workspace of the guest (builder/src/guest.rs).
    - PolicyClock: the shared lifecycle clock and the tokens of the worker roles
      (m3.rs), as the type class [ClockStore] of the tables that hold its row.
    - ExecutionTables, Credentials: the rows of migrations/0006_m3_execution.sql
      that several components read, and the runtime credential of a tenant
      database (tenant_databases.rs).
    - RuntimeEvidence, Runtime, RuntimeSpec, RuntimeSteps, RuntimeTheorems: runtime
      allocations (runtime_policy.rs): the criteria of an evaluation, the checks
      of receipts, the handlers.  [rt_step] and [rt_ok] are the specification, and
      the lifecycle of an allocation is a path of [transition_allowed].
    - BuildTables, BuildInputs, BuildJobs, BuildSpec, BuildSteps, BuildTheorems:
      build jobs (build_jobs.rs): what enqueueing fixes (profile, services,
      secrets), the content store, the handlers and the reaper, over the tables of
      a build and the admission tables that usage is debited to.  [bx_step] and
      [bx_ok] are the specification; [bx_step] is indexed by the builds that may be
      cancelled.  Other components leave the tables of builds alone and may change
      those of admission as they like ([bx_elsewhere]).
    - ReleaseTables, ReleaseEvidence, ReleaseReceipts, Migrations, Releases,
      ReleaseSpec, ReleaseSteps, ManifestText, ReleaseTheorems: application releases
      (releases.rs): staging, the plan of probes, leases, the receipts of a
      completion, the preparation and the switch of a route, rollbacks, and the
      backups and migrations of the tenant database that a release requests
      (tenant_databases.rs).  [rl_step] and [rl_ok] are the specification.  The
      portfolio component appears as the class [FactRefresh]; [ManifestText] is a
      concrete JSON codec of route manifests, for the witnesses.
    - TableHistory, TenantTables, TenantCompletion, Tenants, TenantLeases,
      TenantSpec, ReleaseData, TenantSteps, TenantTheorems, TenantDemo: tenant
      databases (tenant_databases.rs): creation, exports, recovery drills, the
      scheduler's tick, leases of operations, the credentials of a worker and what
      each kind of completion does, over the tables of releases, a lens of
      [TenantTables.TbDb].  The rows of a table evolve by a step relation per table
      ([TableHistory.evolves]); [data_moves] and [data_ok] are the specification,
      [ReleaseData] shows that the requests of releases respect it, and
      [TenantTheorems.tb_api] interleaves the requests of both components.
    - GraphTables, Graph, AdmissionFrame, GraphSpec, GraphSteps, GraphInvariant,
      GraphReads, GraphAccounts, GraphPersist, GraphTheorems, GraphDemo: the project
      graph (graph.rs): projects, configurations and their services, repositories,
      deployment requests and lifecycle intents, over tables that contain those of
      admission.  [AdmissionFrame] says what a request to admission leaves of the
      projects; the step relation and the invariant of the graph are in [GraphSpec]
      and [GraphInvariant]; [GraphAccounts] relates two states by what one account
      sees, and [GraphPersist] follows the creation of a configuration to its end.
    - BuildLedger, TenantLedger, Ledger, LedgerDemo: the tables of admission as all of
      the control service writes them.  [BuildLedger] shows that of these every handler
      of builds only adds debits, [TenantLedger] that every handler of tenant databases
      only retains reservations and takes the slots of their projects; in [Ledger] the
      requests of the project graph, admission, builds and tenant databases run on one
      database ([control_step]).
    - Artifact, ArtifactSpec, ArtifactSteps, ArtifactInv, ArtifactTheorems,
      ArtifactDemo: the output of a build as the builder receives it from its guest
      (builder/src/artifact.rs, digest.rs, build_protocol.rs): the framing of the
      port, the scan of every file for the credentials of the build, the canonical
      archive and the content store.  [artifact_ok] and [guest_output] describe what
      is accepted; [ArtifactSteps] shows that it is, [ArtifactInv] that nothing else
      is.

    ** What the theorems show

    - Project contract: no issue is reported exactly for the projects of the
      contract, and no path of an accepted project leaves its repository.
    - Jobs: the tables stay well formed and their history is kept; only the
      holder of the live lease of the current attempt, under its fence, gets
      secrets or ends the attempt; leasing takes the oldest job; a call of the reaper
      leaves no expired lease that is not locked, or has reaped 64 jobs; creation, completion and cancellation are idempotent.
    - Admission: whatever other components write to the ledger, no limit of slots or
      rollouts of an account, a pool or a project is ever exceeded, and no request to
      admission takes an account beyond its build seconds; a slot is
      released only by a confirmed cleanup; a hold is admitted once; usage events
      count once and are accounted exactly; hold requests are idempotent;
      reconciliation expires what is overdue.  A rollout hold granted for a
      pending rollback can never be admitted.
    - Secrets: the authenticated data determines the whole scope of a secret; a
      value that was stored is what the worker of a job that refers to it is given;
      versions are numbered by the revisions their requests expected, without gaps,
      and a repeated request changes nothing.
    - Source bundles: the guest extracts exactly what the control service wrote,
      accepts nothing else, and a bundle determines its files.
    - Build output: no file of an accepted output holds a credential of the build,
      however the reads split it; a framed output comes back as it was sent, and its
      archives are stored under their digests; the first credential ends the
      receiving; the content store only grows, and no temporary file is left.
    - Policy clock: a reading is never earlier than one before it.
    - Runtime: an allocation rests on an evaluation that passed every criterion
      for exactly its artifact; its observations are numbered without gaps and
      follow the lifecycle, a cleaned one having been stopped and proved clean;
      credentials go only to the current generation and fence of a live
      allocation; observations are recorded once; the percentile is exact.  A
      receipt of an incomplete cleanup passes the checks but is never recorded.
    - Build jobs: no request to builds takes the seconds that an entitlement's builds
      were debited and hold beyond the entitlement, or any further beyond it where
      others have lowered it or added debits; every build that can still run holds its
      seconds; credentials reach only the live attempt and are exactly those bound at
      enqueueing; a succeeded build registered every output; ends, artifacts,
      receipts and effects are final; completions replay.  An accepted
      acknowledgment of a cancellation is never replayed, and a retriable
      completion of the third attempt leaves a build that only its owner can end.
    - Releases: a route shows a healthy release and at most two others are kept; a
      project has one active reconciliation, whose expected generation is the
      route's; a prepared intent decodes; an activation switches to exactly the
      prepared route, which was prepared with every probe the lease required, keeps
      the two other healthy releases promoted last and retires exactly the rest; a
      superseded worker is refused everywhere; history is kept; the plan of probes
      covers every release and pair.  A waiting reconciliation with its attempts
      used is stuck; one ineligible release blocks all leasing; releases that share
      a binary never pass the migration gate.
    - Tenant databases: an execution that interleaves requests to databases and to
      releases is an execution of releases, which discharges what releases assume of
      the others; rows keep their history; the source generation of a database counts
      the migrations applied to it; a completion takes effect once; credentials go to
      the holder of the lease that is live at the clock of the request; after a tick
      every ready database has its backup and observation, and every expired archive
      that is usable or corrupt, with an object and a digest, its deletion.  A corrupt backup
      blocks its migration, a database whose failed provisioning kept resources never
      becomes ready, and an operation that used its attempts leaves what it was about
      unresolved, whatever else the worker that ends it is given to do.
    - Ledger: every execution of the project graph, admission, builds and tenant
      databases on their shared tables is an execution of admission with the steps
      it grants to others, so its limits hold of all of them.
    - Project graph: every project that exists can be
      read, with a current configuration that the contract accepts; a request with a
      valid project and matching preconditions is persisted as sent, unless a string
      of it holds a NUL; accounts see and change only their own projects; existing
      configurations never change; a refused request changes nothing but the audit
      trail; following the cursors lists every project of the account once, in
      order.  No code ends a lifecycle intent, so that a project with one accepts no
      further intent.

    ** Parameters, bounds and fuel

    Code outside the repository is a parameter where it is used: SHA-256 hashes
    of requests, the AEAD cipher, [Uuid::parse_str], what the secrets use
    ([Vault.VaultExternals]: HMAC, base64, nonces; that the cipher opens what it
    sealed is the hypothesis [cipher_opens]), the hexadecimal digits of SHA-256 and
    the JSON of a report of the builder's guest (that there are 64 lowercase digits
    is the hypothesis [sha256_digits]), and what the runtime handlers
    use ([Runtime.Externals]: JSON decoding, base64, the evidence directory) and what
    the build handlers use ([BuildInputs.BuildExternals]: JSON, the profile directory,
    the content store); the source snapshot of the GitHub integration is an argument
    of [BuildJobs.materialize].  Releases use [ReleaseEvidence.ReleaseExternals]; the
    round trip of a route manifest through JSON is a hypothesis of the theorem on
    prepared intents, and [ManifestText] has an instance of it.  Tenant databases
    add [TenantCompletion.TenantExternals] (RFC 3339 texts, passwords and nonces from
    random bytes, sealing); the JSON of a proof is what its accessors return
    ([TenantTables.JsonObject]).  That an identifier's text parses back to it is a
    hypothesis of the theorem on ticks.
    Nothing is assumed of it except in theorems that say so.  Floating-point
    numbers are those of the standard library's SpecFloat.  Clock readings and identifiers are arbitrary
    functions.  Revisions, fences and counters are integers whose database width
    is checked ([bigint_succ]); sums of usage seconds are taken exactly, as a
    bigint cannot overflow on the rows a database can hold.  The reaper's loop
    runs at most 64 times, as in the source; its theorem says what it leaves when
    these are not enough.  The loop that copies a file of an output has one unit of fuel for
    every byte the port holds and one more, as every read returns a byte or ends it.
    The other functions recurse on their data.

    ** Not modelled

    HTTP routing, the network, files, processes and virtual machines, and with them
    the workers that drive them (builder, database, runtime, publisher), recovery,
    sessions and the GitHub integration: they mostly call other programs and
    services, whose behaviour is not in this repository; of the builder, the
    extraction of source bundles and the receiving of an output are modelled.  The workflow of the portfolio page
    and its contract, and the analysis of repository files, stand beside the
    execution of projects: what other components read of them are rows of their
    tables or the class [FactRefresh].  Columns that are only written are left out
    of the rows, and JSON documents are the values they are made from where the
    code only encodes them.  In the executions of a
    component, transactions of other components appear as steps that leave its own
    tables alone.  Where components write the same tables both sides are modelled:
    releases and tenant databases ([TenantTheorems.tb_api]), jobs and secrets, and
    the ledger of admission ([Ledger.control_step]), where only steps of the rest of
    the service, such as the GitHub integration, are taken to keep it. *)

From stdpp Require Import base list option gmap strings pretty.
From Stdlib Require Import ZArith Lia.

(** ** Results: Rust's [Result] *)

Inductive res (E A : Type) : Type :=
| Ok (a : A)
| Err (e : E).
Arguments Ok {E A} a.
Arguments Err {E A} e.

Definition res_bind {E A B} (m : res E A) (f : A -> res E B) : res E B :=
  match m with
  | Ok a => f a
  | Err e => Err e
  end.

Definition is_ok {E A} (r : res E A) : bool :=
  match r with Ok _ => true | Err _ => false end.

Declare Scope hostlet_scope.
Delimit Scope hostlet_scope with hostlet.
Notation "'let?' x := m 'in' k" := (res_bind m (fun x => k))
  (at level 10, x pattern, m at level 100, k at level 200) : hostlet_scope.

(** [ok_or o e] is Rust's [Option::ok_or]. *)
Definition ok_or {E A} (o : option A) (e : E) : res E A :=
  match o with Some a => Ok a | None => Err e end.

(** [Option::is_none], [is_some_and] and [is_none_or]. *)
Definition is_none {A} (o : option A) : bool := negb (bool_decide (is_Some o)).
Definition is_some_and {A} (f : A -> bool) (o : option A) : bool :=
  match o with Some a => f a | None => false end.
Definition is_none_or {A} (f : A -> bool) (o : option A) : bool :=
  match o with Some a => f a | None => true end.

(** [guard_err b e]: [if b { return Err(e) }]. *)
Definition guard_err {E} (b : bool) (e : E) : res E unit :=
  if b then Err e else Ok tt.

Lemma res_bind_Ok {E A B} (m : res E A) (f : A -> res E B) b :
  res_bind m f = Ok b <-> exists a, m = Ok a /\ f a = Ok b.
Proof.
  destruct m as [a|e]; simpl; split.
  - intros H. by exists a.
  - by intros (a' & [= <-] & H).
  - done.
  - by intros (a' & ? & _).
Qed.

Lemma guard_err_Ok {E} (b : bool) (e : E) u : guard_err b e = Ok u <-> b = false.
Proof. destruct b, u; simpl; split; congruence. Qed.

(** ** Automation *)

Create HintDb hostlet discriminated.
Create Rewrite HintDb hostlet.
#[export] Hint Rewrite @guard_err_Ok @res_bind_Ok : hostlet.

(** Case analysis on the scrutinee of every [match]/[if] in the goal or in a
    hypothesis, keeping the equation. *)
Ltac case_hyp H :=
  match type of H with
  | context [match ?x with _ => _ end] => destruct x eqn:?
  end.
Ltac case_goal :=
  match goal with
  | |- context [match ?x with _ => _ end] => destruct x eqn:?
  end.

(** Turn boolean connectives and [bool_decide] hypotheses into propositions. *)
Ltac bool_simpl :=
  repeat first
    [ progress simplify_eq
    | match goal with
      | H : andb _ _ = true |- _ => apply andb_true_iff in H; destruct H
      | H : andb _ _ = false |- _ => apply andb_false_iff in H
      | H : orb _ _ = true |- _ => apply orb_true_iff in H
      | H : orb _ _ = false |- _ => apply orb_false_iff in H; destruct H
      | H : negb _ = true |- _ => apply negb_true_iff in H
      | H : negb _ = false |- _ => apply negb_false_iff in H
      | H : bool_decide _ = true |- _ => apply bool_decide_eq_true in H
      | H : bool_decide _ = false |- _ => apply bool_decide_eq_false in H
      | H : (_ <? _)%Z = true |- _ => apply Z.ltb_lt in H
      | H : (_ <? _)%Z = false |- _ => apply Z.ltb_ge in H
      | H : (_ <=? _)%Z = true |- _ => apply Z.leb_le in H
      | H : (_ <=? _)%Z = false |- _ => apply Z.leb_gt in H
      | H : (_ =? _)%Z = true |- _ => apply Z.eqb_eq in H
      | H : (_ =? _)%Z = false |- _ => apply Z.eqb_neq in H
      | H : (_ =? _)%N = true |- _ => apply N.eqb_eq in H
      | H : (_ =? _)%N = false |- _ => apply N.eqb_neq in H
      end ].

(** ** Lists *)

Lemma app_singleton_nil {A} (l : list A) (x : A) : l ++ [x] = [] <-> False.
Proof. split; [|done]. intros H. by destruct l. Qed.
#[export] Hint Rewrite @app_singleton_nil : hostlet.

Lemma Forall_forallb {A} (f : A -> bool) (P : A -> Prop) (l : list A) :
  (forall x, f x = true <-> P x) -> forallb f l = true <-> Forall P l.
Proof.
  intros Hf. rewrite forallb_forall, Forall_forall.
  setoid_rewrite list_elem_of_In. split; intros H x Hx; apply Hf; auto.
Qed.

(** When no element is dropped, [omap] is a total map. *)
Lemma length_omap_le {A B} (f : A -> option B) (l : list A) : length (omap f l) <= length l.
Proof. induction l as [|x l IH]; csimpl; [done|]. destruct (f x); csimpl; lia. Qed.

Lemma omap_full {A B} (f : A -> option B) (l : list A) :
  length (omap f l) = length l -> Forall2 (fun x y => f x = Some y) l (omap f l).
Proof.
  induction l as [|x l IH]; csimpl; [constructor|].
  destruct (f x) as [y|] eqn:E; csimpl; intros H.
  - constructor; [done|]. apply IH. lia.
  - pose proof (length_omap_le f l). lia.
Qed.

(** ** Machine integers *)

Definition max_i32 : Z := 2147483647.
Definition max_i64 : Z := 9223372036854775807.
Definition min_i64 : Z := -9223372036854775808.
Definition max_u32 : Z := 4294967295.
Definition max_u64 : Z := 18446744073709551615.

(** [i64] addition as the release profile compiles it. *)
Definition wrap_i64 (v : Z) : Z := ((v + 2 ^ 63) mod 2 ^ 64 - 2 ^ 63)%Z.

Lemma wrap_i64_succ v :
  (0 <= v <= max_i64)%Z -> (0 < wrap_i64 (v + 1))%Z ->
  wrap_i64 (v + 1) = (v + 1)%Z /\ (v + 1 <= max_i64)%Z.
Proof.
  unfold wrap_i64, max_i64. intros Hv Hpos.
  destruct (decide (v = 9223372036854775807)%Z) as [->|Hne]; [vm_compute in Hpos; done|].
  rewrite Z.mod_small by lia. lia.
Qed.
