(* ===== verification/RustText.v ===== *)
(** * Text as Rust sees it

    A Rust [&str] is a sequence of Unicode scalar values: it is modelled as the
    list of its code points, with the byte length of its UTF-8 encoding computed
    from them.  The functions below are the standard-library operations the
    contract crates call ([str::len], [str::trim], [str::split],
    [str::contains], [char::is_control], [char::is_whitespace]). *)

From stdpp Require Import base list option gmap strings pretty.
From Stdlib Require Import ZArith Lia Ascii String.
From S2P Require Import Prelude.

Abbreviation rchar := Z (only parsing).
Abbreviation rstr := (list Z).

(** A source literal. *)
Definition lit (s : string) : rstr :=
  map (fun a => Z.of_N (N_of_ascii a)) (list_ascii_of_string s).

Definition ch (a : ascii) : rchar := Z.of_N (N_of_ascii a).
Arguments ch a%_char.

(** Bytes of the UTF-8 encoding of one scalar value. *)
Definition utf8_len (c : rchar) : Z :=
  if (c <? 128)%Z then 1 else if (c <? 2048)%Z then 2 else if (c <? 65536)%Z then 3 else 4.

(** [str::len]. *)
Definition byte_len (s : rstr) : Z := foldr (fun c n => utf8_len c + n)%Z 0%Z s.

(** [char::is_control]: the general category Cc. *)
Definition is_control (c : rchar) : bool :=
  ((0 <=? c) && (c <=? 31) || (127 <=? c) && (c <=? 159))%Z.

(** [char::is_whitespace]: the Unicode property White_Space. *)
Definition is_whitespace (c : rchar) : bool :=
  ((9 <=? c) && (c <=? 13) || (c =? 32) || (c =? 133) || (c =? 160) || (c =? 5760)
   || (8192 <=? c) && (c <=? 8202) || (c =? 8232) || (c =? 8233) || (c =? 8239)
   || (c =? 8287) || (c =? 12288))%Z.

Fixpoint trim_start (s : rstr) : rstr :=
  match s with
  | [] => []
  | c :: s' => if is_whitespace c then trim_start s' else s
  end.

Definition trim_end (s : rstr) : rstr := rev (trim_start (rev s)).

Definition trim (s : rstr) : rstr := trim_end (trim_start s).

(** [str::contains] for a character. *)
Definition contains_char (c : rchar) (s : rstr) : bool := existsb (Z.eqb c) s.

(** [str::starts_with]. *)
Fixpoint starts_with (p s : rstr) : bool :=
  match p, s with
  | [], _ => true
  | a :: p', b :: s' => (a =? b)%Z && starts_with p' s'
  | _ :: _, [] => false
  end.

(** [str::strip_prefix]. *)
Fixpoint strip (p s : rstr) : option rstr :=
  match p, s with
  | [], _ => Some s
  | a :: p', b :: s' => if (a =? b)%Z then strip p' s' else None
  | _ :: _, [] => None
  end.

(** [str::split(char)]: never empty. *)
Fixpoint split_on (c : rchar) (s : rstr) : list rstr :=
  match s with
  | [] => [[]]
  | d :: s' =>
      if (d =? c)%Z then [] :: split_on c s'
      else match split_on c s' with
           | seg :: segs => (d :: seg) :: segs
           | [] => [[d]]
           end
  end.

(** [str::rsplit(char).next()]: the last segment. *)
Definition last_segment (c : rchar) (s : rstr) : option rstr := last (split_on c s).

Fixpoint join_with (c : rchar) (segs : list rstr) : rstr :=
  match segs with
  | [] => []
  | [seg] => seg
  | seg :: segs' => seg ++ c :: join_with c segs'
  end.

(** ** Lemmas *)

Lemma rstr_eqb_spec (a b : rstr) : bool_decide (a = b) = true <-> a = b.
Proof. apply bool_decide_eq_true. Qed.

Lemma contains_char_spec c s : contains_char c s = true <-> c ∈ s.
Proof.
  unfold contains_char. rewrite existsb_exists. setoid_rewrite <- list_elem_of_In.
  split.
  - intros (x & Hx & ->%Z.eqb_eq). done.
  - intros Hc. exists c. by rewrite Z.eqb_refl.
Qed.

Lemma contains_char_false c s : contains_char c s = false <-> c ∉ s.
Proof. rewrite <- contains_char_spec. destruct (contains_char c s); naive_solver. Qed.

Lemma split_on_nonempty c s : split_on c s <> [].
Proof.
  destruct s as [|d s]; simpl; [done|].
  destruct (d =? c)%Z; [done|]. by destruct (split_on c s).
Qed.

(** Splitting and joining are inverse: on any string ... *)
Lemma join_split c s : join_with c (split_on c s) = s.
Proof.
  induction s as [|d s IH]; simpl; [done|].
  destruct (Z.eqb_spec d c) as [->|Hne].
  - pose proof (split_on_nonempty c s) as Hn.
    destruct (split_on c s) as [|seg segs]; [done|].
    simpl in *. destruct segs; simpl in *; congruence.
  - pose proof (split_on_nonempty c s) as Hn.
    destruct (split_on c s) as [|seg segs] eqn:E; [done|].
    destruct segs as [|seg' segs]; simpl in *; congruence.
Qed.

(** ... and on any nonempty list of separator-free segments. *)
Lemma split_join c segs :
  segs <> [] -> Forall (fun seg => c ∉ seg) segs -> split_on c (join_with c segs) = segs.
Proof.
  induction segs as [|seg segs IH]; [done|]. intros _ Hall.
  apply Forall_cons in Hall as [Hseg Hsegs].
  assert (Hone : forall seg, c ∉ seg -> split_on c seg = [seg]).
  { clear. induction seg as [|d seg IH]; intros Hn; [done|].
    apply not_elem_of_cons in Hn as [Hd Hn]. simpl.
    destruct (Z.eqb_spec d c); [congruence|]. by rewrite IH. }
  destruct segs as [|seg' segs]; [by apply Hone|].
  change (join_with c (seg :: seg' :: segs)) with (seg ++ c :: join_with c (seg' :: segs)).
  specialize (IH ltac:(done) Hsegs).
  clear Hone. induction seg as [|d seg IHs].
  - simpl. rewrite Z.eqb_refl. by rewrite <- IH.
  - apply not_elem_of_cons in Hseg as [Hd Hn].
    specialize (IHs Hn). simpl.
    destruct (Z.eqb_spec d c); [congruence|]. simpl in IHs. by rewrite IHs.
Qed.

Lemma split_on_no_sep c s : Forall (fun seg => c ∉ seg) (split_on c s).
Proof.
  induction s as [|d s IH]; simpl; [repeat constructor; set_solver|].
  destruct (Z.eqb_spec d c) as [->|Hne]; [constructor; [set_solver|done]|].
  destruct (split_on c s) as [|seg segs]; [constructor; [set_solver|done]|].
  apply Forall_cons in IH as [? ?]. constructor; [set_solver|done].
Qed.

Lemma split_on_segs_subset c s seg x : seg ∈ split_on c s -> x ∈ seg -> x ∈ s.
Proof.
  revert seg. induction s as [|d s IH]; simpl; intros seg Hseg Hx.
  - apply list_elem_of_singleton in Hseg as ->. by apply not_elem_of_nil in Hx.
  - destruct (Z.eqb_spec d c) as [->|Hne].
    + apply elem_of_cons in Hseg as [->|Hseg]; [by apply not_elem_of_nil in Hx|].
      apply elem_of_cons; right; eauto.
    + destruct (split_on c s) as [|seg' segs].
      * apply list_elem_of_singleton in Hseg as ->. set_solver.
      * apply elem_of_cons in Hseg as [->|Hseg].
        -- apply elem_of_cons in Hx as [->|Hx]; [set_solver|].
           apply elem_of_cons; right. apply (IH seg'); [left|done].
        -- apply elem_of_cons; right. apply (IH seg); [by right|done].
Qed.

Lemma join_with_elem c segs x :
  x ∈ join_with c segs -> x = c \/ exists seg, seg ∈ segs /\ x ∈ seg.
Proof.
  induction segs as [|seg segs IH]; simpl; [intros Hx; by apply not_elem_of_nil in Hx|].
  destruct segs as [|seg' segs].
  - intros Hx. right. exists seg. split; [left|done].
  - intros [Hx|[->|Hx]%elem_of_cons]%elem_of_app.
    + right. exists seg. split; [left|done].
    + by left.
    + destruct (IH Hx) as [->|(sg & ? & ?)]; [by left|].
      right. exists sg. split; [by right|done].
Qed.
