(* ===== verification/Bytes.v ===== *)
(** * Bytes, big-endian integers and length-prefixed fields

    The wire encodings of the builder, the control API and the secret store are
    made of big-endian integers and length-prefixed byte strings.  A byte is a
    [Z] in [0, 256). *)

From stdpp Require Import base list option strings.
From Stdlib Require Import ZArith Lia Ascii.
From S2P Require Import Prelude RustText.

Local Open Scope Z_scope.

Abbreviation bytes := (list Z).

Definition is_byte (b : Z) : Prop := 0 <= b < 256.

(** The UTF-8 bytes of a string that is kept as bytes. *)
Definition as_bytes (s : string) : bytes := lit s.

(** [to_be_bytes] of an [n]-byte unsigned integer. *)
Fixpoint be_bytes (n : nat) (v : Z) : bytes :=
  match n with
  | O => []
  | S n' => be_bytes n' (v / 256) ++ [v mod 256]
  end.

(** [from_be_bytes]. *)
Definition be_val (bs : bytes) : Z := fold_left (fun acc b => acc * 256 + b) bs 0.

(** [write_all(prefix); write_all(value)] with an [n]-byte length prefix. *)
Definition length_prefixed (n : nat) (value : bytes) : bytes :=
  be_bytes n (Z.of_nat (length value)) ++ value.

(** ** UTF-8 validity ([String::from_utf8], the standard library's check) *)

Definition in_range (lo hi b : Z) : bool := ((lo <=? b) && (b <=? hi))%Z.
Definition continuation (b : Z) : bool := in_range 128 191 b.

Fixpoint utf8_valid (bs : bytes) : bool :=
  match bs with
  | [] => true
  | b0 :: r0 =>
      if in_range 0 127 b0 then utf8_valid r0
      else match r0 with
      | [] => false
      | b1 :: r1 =>
          if in_range 194 223 b0 then continuation b1 && utf8_valid r1
          else match r1 with
          | [] => false
          | b2 :: r2 =>
              if (b0 =? 224)%Z then in_range 160 191 b1 && continuation b2 && utf8_valid r2
              else if (b0 =? 237)%Z then in_range 128 159 b1 && continuation b2 && utf8_valid r2
              else if in_range 225 239 b0
              then continuation b1 && continuation b2 && utf8_valid r2
              else match r2 with
              | [] => false
              | b3 :: r3 =>
                  if (b0 =? 240)%Z
                  then in_range 144 191 b1 && continuation b2 && continuation b3 && utf8_valid r3
                  else if (b0 =? 244)%Z
                  then in_range 128 143 b1 && continuation b2 && continuation b3 && utf8_valid r3
                  else if in_range 241 243 b0
                  then continuation b1 && continuation b2 && continuation b3 && utf8_valid r3
                  else false
              end
          end
      end
  end.

(** The UTF-8 encoding of a string of scalar values. *)
Definition utf8_char (c : rchar) : bytes :=
  if (c <? 128)%Z then [c]
  else if (c <? 2048)%Z then [192 + c / 64; 128 + c mod 64]
  else if (c <? 65536)%Z then [224 + c / 4096; 128 + c / 64 mod 64; 128 + c mod 64]
  else [240 + c / 262144; 128 + c / 4096 mod 64; 128 + c / 64 mod 64; 128 + c mod 64].
Definition utf8_encode (s : rstr) : bytes := concat (map utf8_char s).

(** The scalar values of valid UTF-8. *)
Fixpoint utf8_chars (s : bytes) : list rchar :=
  match s with
  | [] => []
  | a :: s1 =>
      if (a <? 128)%Z then a :: utf8_chars s1
      else match s1 with
           | [] => []
           | b :: s2 =>
               if (a <? 224)%Z then ((a - 192) * 64 + (b - 128))%Z :: utf8_chars s2
               else match s2 with
                    | [] => []
                    | c :: s3 =>
                        if (a <? 240)%Z
                        then ((a - 224) * 4096 + (b - 128) * 64 + (c - 128))%Z :: utf8_chars s3
                        else match s3 with
                             | [] => []
                             | d :: s4 => ((a - 240) * 262144 + (b - 128) * 4096 + (c - 128) * 64
                                           + (d - 128))%Z :: utf8_chars s4
                             end
                    end
           end
  end.

(** Bytes kept as a string. *)
Definition to_text (bs : bytes) : string :=
  String.string_of_list_ascii (map (fun b => ascii_of_N (Z.to_N b)) bs).

(** ** Lemmas *)

Lemma be_val_snoc bs b : be_val (bs ++ [b]) = be_val bs * 256 + b.
Proof. unfold be_val. by rewrite fold_left_app. Qed.

Lemma length_be_bytes n v : length (be_bytes n v) = n.
Proof. revert v. induction n; intros v; simpl; [done|]. rewrite length_app, IHn. simpl. lia. Qed.

Lemma be_val_bytes n v : be_val (be_bytes n v) = v mod 256 ^ Z.of_nat n.
Proof.
  revert v. induction n as [|n IH]; intros v; [by rewrite Z.mod_1_r|].
  cbn [be_bytes]. rewrite be_val_snoc, IH, Nat2Z.inj_succ, Z.pow_succ_r by lia.
  rewrite Z.rem_mul_r by lia. lia.
Qed.

Lemma be_val_bytes_small n v : 0 <= v < 256 ^ Z.of_nat n -> be_val (be_bytes n v) = v.
Proof. intros. by rewrite be_val_bytes, Z.mod_small. Qed.

Lemma be_bytes_byte n v : Forall is_byte (be_bytes n v).
Proof.
  revert v. induction n as [|n IH]; intros v; [constructor|].
  apply Forall_app. split; [apply IH|]. constructor; [|constructor].
  apply Z.mod_pos_bound. lia.
Qed.

Lemma be_bytes_val bs : Forall is_byte bs -> be_bytes (length bs) (be_val bs) = bs.
Proof.
  induction bs as [|b bs IH] using rev_ind; [done|].
  intros [Hbs Hb]%Forall_app. rewrite Forall_singleton in Hb. unfold is_byte in Hb.
  rewrite length_app. simpl. rewrite Nat.add_1_r. cbn [be_bytes]. rewrite be_val_snoc.
  rewrite Z.div_add_l, (Z.div_small b 256), Z.add_0_r by lia. rewrite IH by done.
  rewrite Z.add_comm, Z.mod_add, Z.mod_small by lia. done.
Qed.

Lemma be_val_bound bs : Forall is_byte bs -> 0 <= be_val bs < 256 ^ Z.of_nat (length bs).
Proof.
  induction bs as [|b bs IH] using rev_ind; [done|].
  intros [Hbs Hb]%Forall_app. rewrite Forall_singleton in Hb. unfold is_byte in Hb.
  specialize (IH Hbs). rewrite be_val_snoc, length_app. simpl.
  rewrite Nat.add_1_r, Nat2Z.inj_succ, Z.pow_succ_r by lia. lia.
Qed.

Lemma be_bytes_inj n v v' :
  0 <= v < 256 ^ Z.of_nat n -> 0 <= v' < 256 ^ Z.of_nat n ->
  be_bytes n v = be_bytes n v' -> v = v'.
Proof.
  intros H H' E. apply (f_equal be_val) in E. by rewrite !be_val_bytes_small in E.
Qed.

(** Two length-prefixed fields followed by anything agree only when the fields
    and what follows them agree. *)
Lemma length_prefixed_inj n x y xs ys :
  Z.of_nat (length x) < 256 ^ Z.of_nat n -> Z.of_nat (length y) < 256 ^ Z.of_nat n ->
  length_prefixed n x ++ xs = length_prefixed n y ++ ys -> x = y /\ xs = ys.
Proof.
  unfold length_prefixed. intros Hx Hy E. rewrite <- !app_assoc in E.
  apply app_inj_1 in E as [El E]; [|by rewrite !length_be_bytes].
  apply be_bytes_inj in El; [|lia..].
  apply app_inj_1 in E; [done|lia].
Qed.

Lemma lit_inj s t : lit s = lit t -> s = t.
Proof.
  revert t. induction s as [|a s IH]; intros [|b t]; try done.
  cbn. intros [= Hab Hst]. f_equal; [|by apply IH].
  apply N2Z.inj in Hab. rewrite <- (ascii_N_embedding a), <- (ascii_N_embedding b). congruence.
Qed.

Lemma length_lit s : length (lit s) = String.length s.
Proof. induction s; simpl; [done|]. f_equal. done. Qed.

Lemma utf8_chars_2 a b s : 128 <= a < 224 -> utf8_chars (a :: b :: s) = (a - 192) * 64 + (b - 128) :: utf8_chars s.
Proof.
  intros. cbn [utf8_chars]. destruct (Z.ltb_spec a 128); [lia|]. by destruct (Z.ltb_spec a 224); [|lia].
Qed.
Lemma utf8_chars_3 a b c s : 224 <= a < 240 ->
  utf8_chars (a :: b :: c :: s) = (a - 224) * 4096 + (b - 128) * 64 + (c - 128) :: utf8_chars s.
Proof.
  intros. cbn [utf8_chars]. destruct (Z.ltb_spec a 128); [lia|]. destruct (Z.ltb_spec a 224); [lia|].
  by destruct (Z.ltb_spec a 240); [|lia].
Qed.
Lemma utf8_chars_4 a b c d s : 240 <= a ->
  utf8_chars (a :: b :: c :: d :: s) =
    (a - 240) * 262144 + (b - 128) * 4096 + (c - 128) * 64 + (d - 128) :: utf8_chars s.
Proof.
  intros. cbn [utf8_chars]. destruct (Z.ltb_spec a 128); [lia|]. destruct (Z.ltb_spec a 224); [lia|].
  by destruct (Z.ltb_spec a 240); [lia|].
Qed.

(** Decoding what was encoded. *)
Lemma utf8_chars_encode (s : rstr) :
  Forall (fun c => 0 <= c < 1114112) s -> utf8_chars (utf8_encode s) = s.
Proof.
  induction 1 as [|c s Hc Hs IH]; [done|]. unfold utf8_encode in *. cbn [map concat].
  unfold utf8_char at 1. destruct (Z.ltb_spec c 128).
  { cbn [app utf8_chars]. destruct (Z.ltb_spec c 128); [by rewrite IH|lia]. }
  pose proof (Z.div_mod c 64 ltac:(lia)). pose proof (Z.mod_pos_bound c 64 ltac:(lia)).
  destruct (Z.ltb_spec c 2048).
  { cbn [app]. rewrite utf8_chars_2, IH by lia. f_equal. lia. }
  pose proof (Z.div_mod (c / 64) 64 ltac:(lia)). pose proof (Z.mod_pos_bound (c / 64) 64 ltac:(lia)).
  assert (c / 4096 = c / 64 / 64) as E1 by (rewrite Z.div_div by lia; done).
  destruct (Z.ltb_spec c 65536).
  { cbn [app]. rewrite utf8_chars_3, IH by lia. f_equal. lia. }
  pose proof (Z.div_mod (c / 4096) 64 ltac:(lia)). pose proof (Z.mod_pos_bound (c / 4096) 64 ltac:(lia)).
  assert (c / 262144 = c / 4096 / 64) as E2 by (rewrite Z.div_div by lia; done).
  cbn [app]. rewrite utf8_chars_4, IH by lia. f_equal. lia.
Qed.
