(* ===== verification/ProjectContract.v ===== *)
(** * The standard-project contract (crates/protocol/src/project.rs)

    The wire values of a project and the pure validator
    [StandardProjectSpec::validate], which reports every departure from the
    one-repository, one-frontend, one-application, one-database contract and
    from the adopted resource benchmark.  Strings the owner supplies are [rstr]
    (lists of code points); issue paths and messages, which the validator
    builds itself, are ASCII [string]s.  Unsigned machine integers are [Z]. *)

From stdpp Require Import base list option gmap strings pretty.
From Stdlib Require Import ZArith Lia Ascii.
From S2P Require Import Prelude RustText.

Local Open Scope string_scope.

Definition PROJECT_CONTRACT_VERSION : rstr := lit "hostlet.project/v1".
Definition MAX_SERVICE_NAME_BYTES : Z := 64.
Definition MAX_COMMAND_BYTES : Z := 4096.
Definition MAX_RELATIVE_PATH_BYTES : Z := 1024.

(** ** Data *)

Inductive RepositoryLayout := SingleProject | Monorepo.

Inductive PackageManager := Npm | Pnpm | Yarn | OtherManager.

Record RepositorySpec := {
  layout : RepositoryLayout;
  package_manager : PackageManager;
  lockfile_path : option rstr;
}.

Inductive ServiceKind :=
| StaticFrontend | Application | Postgres | Worker | ScheduledJob | AdditionalBackend.

Inductive FrameworkPattern :=
| ViteStatic | StaticExport | NodeHttp | Nextjs16Standalone | Postgresql18
| DockerCompose | CustomNextServer | Unsupported.

Record NodeRuntime := { major : Z }.

Inductive HealthCheckProtocol := Http | Tcp | Command.

Record HealthCheck := { protocol : HealthCheckProtocol; hc_path : rstr }.

Record ServiceSpec := {
  name : rstr;
  kind : ServiceKind;
  root : option rstr;
  framework : FrameworkPattern;
  node : option NodeRuntime;
  build_command : option rstr;
  output_directory : option rstr;
  start_command : option rstr;
  health_check : option HealthCheck;
  uses_durable_data : bool;
}.

Inductive ResourceKind :=
| ApplicationMemory | ApplicationCpu | DatabaseStorage | DatabaseConnections
| ScratchStorage | BuildCpu | BuildMemory | BuildTimeout | ConcurrentBuilds
| MonthlyBuildExecution | StaticReleaseArtifact | RuntimeReleaseArtifact
| RetainedSuccessfulReleases | PublicOutboundTransfer | PortfolioAssets
| LogStorage | LogRetention.

Inductive ResourceUnit :=
| Mebibytes | Gibibytes | Millicpu | Connections | Minutes | Count | Days.

Inductive ResourceScope :=
| HostedProject | ProjectDatabase | Build | Account | PurchasedSlotBillingMonth
| Release | PortfolioAccount | ProjectLogs.

Inductive EnforcementBehavior :=
| ReportMemoryTerminationWithBoundedRestartBackoff | ThrottleCpu
| WarnAt80PreventGrowthPreserveReadsAndExport | CapApplicationConnections
| FailExcessEphemeralWrites | FailBuildPreserveLiveRelease
| TimeOutBuildPreserveLiveRelease | QueueBuildsUntilCapacity
| QueueBuildsUntilBillingRenewal | RejectOversizedReplacementPreserveCurrent
| RetainCurrentPlusTwoPrevious | WarnAt80And95ThenLimitPublicTraffic
| RejectNewAssetsPreservePublishedRevision | RotateOldestAndRedactSecrets.

Inductive LimitStatus := BenchmarkCandidate | ApprovedPromise | Unbounded.

Record BenchmarkLimit := {
  resource : ResourceKind;
  amount : option Z;
  unit_ : ResourceUnit;
  scope : ResourceScope;
  enforcement : EnforcementBehavior;
  status : LimitStatus;
}.

Record ResourceEnvelope := { limits : list BenchmarkLimit }.

Record StandardProjectSpec := {
  contract_version : rstr;
  repositories : list RepositorySpec;
  services : list ServiceSpec;
  resources : ResourceEnvelope;
}.

Inductive ProjectIssueCode :=
| UnsupportedContractVersion | RepositoryCount | MissingLockfile
| UnsupportedLockfile | UnsafeLockfilePath | MissingRunnableService
| InvalidServiceName | DuplicateServiceName | TextFieldTooLong
| UnsafeServiceRoot | ExtraStaticFrontend | ExtraApplicationService
| ExtraDatabase | UnsupportedServiceKind | UnsupportedFrameworkPattern
| MissingNodeRuntime | UnsupportedNodeVersion | MissingBuildCommand
| MissingOutputDirectory | MissingStartCommand | MissingHealthCheck
| UnsupportedHealthCheck | DatabaseRequired | DatabaseWithoutApplication
| UnexpectedServiceConfiguration | MissingResourceLimit
| DuplicateResourceLimit | UnboundedResourceLimit | ResourceAmountMismatch
| ResourceUnitMismatch | ResourceScopeMismatch | ResourceEnforcementMismatch
| ResourceNotBenchmarkCandidate.

Record ProjectValidationIssue := {
  code : ProjectIssueCode;
  path : string;
  message : string;
}.

(** ** Decidable equality *)

#[export] Instance PackageManager_eq : EqDecision PackageManager.
Proof. solve_decision. Defined.
#[export] Instance FrameworkPattern_eq : EqDecision FrameworkPattern.
Proof. solve_decision. Defined.
#[export] Instance HealthCheckProtocol_eq : EqDecision HealthCheckProtocol.
Proof. solve_decision. Defined.
#[export] Instance ResourceUnit_eq : EqDecision ResourceUnit.
Proof. solve_decision. Defined.
#[export] Instance ResourceScope_eq : EqDecision ResourceScope.
Proof. solve_decision. Defined.
#[export] Instance EnforcementBehavior_eq : EqDecision EnforcementBehavior.
Proof. solve_decision. Defined.
#[export] Instance LimitStatus_eq : EqDecision LimitStatus.
Proof. solve_decision. Defined.
#[export] Instance ProjectIssueCode_eq : EqDecision ProjectIssueCode.
Proof. solve_decision. Defined.
#[export] Instance ResourceKind_eq : EqDecision ResourceKind.
Proof. solve_decision. Defined.

Definition all_resource_kinds : list ResourceKind :=
  [ApplicationMemory; ApplicationCpu; DatabaseStorage; DatabaseConnections;
   ScratchStorage; BuildCpu; BuildMemory; BuildTimeout; ConcurrentBuilds;
   MonthlyBuildExecution; StaticReleaseArtifact; RuntimeReleaseArtifact;
   RetainedSuccessfulReleases; PublicOutboundTransfer; PortfolioAssets;
   LogStorage; LogRetention].

#[export] Program Instance ResourceKind_countable : Countable ResourceKind := {|
  encode k := Pos.of_succ_nat (default 0 (fst <$> list_find (k =.) all_resource_kinds));
  decode p := all_resource_kinds !! Nat.pred (Pos.to_nat p);
|}.
Next Obligation. by intros []. Qed.

(** ** Reporting *)

Definition issue (issues : list ProjectValidationIssue) (code : ProjectIssueCode)
    (path message : string) : list ProjectValidationIssue :=
  issues ++ [{| code := code; path := path; message := message |}].

(** [format!("{collection}[{index}]")] *)
Definition indexed (collection : string) (index : nat) : string :=
  collection +:+ "[" +:+ pretty index +:+ "]".

Definition safe_relative_path (path : rstr) : bool :=
  if bool_decide (path = lit ".") then true
  else if bool_decide (path = []) || starts_with (lit "/") path
          || starts_with (lit "\") path || contains_char (ch "\") path
          || contains_char 0 path || contains_char (ch ":") path
  then false
  else forallb (fun segment =>
         negb (bool_decide (segment = [])) && negb (bool_decide (segment = lit "."))
         && negb (bool_decide (segment = lit ".."))) (split_on (ch "/") path).

Definition safe_http_path (path : rstr) : bool :=
  starts_with (lit "/") path && negb (starts_with (lit "//") path)
  && negb (contains_char 13 path || contains_char 10 path).

Definition mismatch (condition : bool) (code : ProjectIssueCode) (path : string)
    (issues : list ProjectValidationIssue) : list ProjectValidationIssue :=
  if condition
  then issue issues code path "the value does not match the adopted starting benchmark"
  else issues.

Definition count_limit (count : nat) (code : ProjectIssueCode)
    (issues : list ProjectValidationIssue) : list ProjectValidationIssue :=
  if (1 <? count)%nat
  then issue issues code "services"
         "a standard project permits at most one service of this kind"
  else issues.

Definition bounded_text (value : option rstr) (maximum : Z) (path : string)
    (issues : list ProjectValidationIssue) : list ProjectValidationIssue :=
  match value with
  | Some v =>
      if (maximum <? byte_len v)%Z
      then issue issues TextFieldTooLong path
             ("the field must be at most " +:+ pretty maximum +:+ " bytes")
      else issues
  | None => issues
  end.

Definition require_safe_path (value : option rstr) (code : ProjectIssueCode)
    (path message : string) (issues : list ProjectValidationIssue)
    : list ProjectValidationIssue :=
  if match value with None => true | Some v => negb (safe_relative_path v) end
  then issue issues code path message else issues.

Definition require_text (value : option rstr) (code : ProjectIssueCode)
    (path message : string) (issues : list ProjectValidationIssue)
    : list ProjectValidationIssue :=
  if match value with None => true | Some v => bool_decide (trim v = []) end
  then issue issues code path message else issues.

Definition unsupported_framework (index : nat) (issues : list ProjectValidationIssue)
    : list ProjectValidationIssue :=
  issue issues UnsupportedFrameworkPattern (indexed "services" index +:+ ".framework")
    "the service framework does not match an initial supported pattern".

Definition validate_node (service : ServiceSpec) (index : nat)
    (issues : list ProjectValidationIssue) : list ProjectValidationIssue :=
  match node service with
  | None =>
      issue issues MissingNodeRuntime (indexed "services" index +:+ ".node")
        "a source service requires Node 24 or the tested Node 22 alternative"
  | Some runtime =>
      if negb ((major runtime =? 22)%Z || (major runtime =? 24)%Z)
      then issue issues UnsupportedNodeVersion (indexed "services" index +:+ ".node.major")
             "the initial contract supports Node 24 and Node 22"
      else issues
  end.

Definition validate_source_service (service : ServiceSpec) (index : nat)
    (issues : list ProjectValidationIssue) : list ProjectValidationIssue :=
  match root service with
  | None =>
      issue issues UnsafeServiceRoot (indexed "services" index +:+ ".root")
        "a service root must be a safe repository-relative path"
  | Some _ => issues
  end.

(** ** The adopted benchmark *)

Record ExpectedLimit := {
  e_resource : ResourceKind;
  e_amount : Z;
  e_unit : ResourceUnit;
  e_scope : ResourceScope;
  e_enforcement : EnforcementBehavior;
}.

Definition expected r a u s e : ExpectedLimit :=
  {| e_resource := r; e_amount := a; e_unit := u; e_scope := s; e_enforcement := e |}.

Definition EXPECTED_LIMITS : list ExpectedLimit := [
  expected ApplicationMemory 512 Mebibytes HostedProject
    ReportMemoryTerminationWithBoundedRestartBackoff;
  expected ApplicationCpu 250 Millicpu HostedProject ThrottleCpu;
  expected DatabaseStorage 1 Gibibytes ProjectDatabase
    WarnAt80PreventGrowthPreserveReadsAndExport;
  expected DatabaseConnections 10 Connections ProjectDatabase CapApplicationConnections;
  expected ScratchStorage 256 Mebibytes HostedProject FailExcessEphemeralWrites;
  expected BuildCpu 2000 Millicpu Build FailBuildPreserveLiveRelease;
  expected BuildMemory 2 Gibibytes Build FailBuildPreserveLiveRelease;
  expected BuildTimeout 10 Minutes Build TimeOutBuildPreserveLiveRelease;
  expected ConcurrentBuilds 1 Count Account QueueBuildsUntilCapacity;
  expected MonthlyBuildExecution 60 Minutes PurchasedSlotBillingMonth
    QueueBuildsUntilBillingRenewal;
  expected StaticReleaseArtifact 250 Mebibytes Release
    RejectOversizedReplacementPreserveCurrent;
  expected RuntimeReleaseArtifact 1 Gibibytes Release
    RejectOversizedReplacementPreserveCurrent;
  expected RetainedSuccessfulReleases 3 Count HostedProject RetainCurrentPlusTwoPrevious;
  expected PublicOutboundTransfer 10 Gibibytes PurchasedSlotBillingMonth
    WarnAt80And95ThenLimitPublicTraffic;
  expected PortfolioAssets 100 Mebibytes PortfolioAccount
    RejectNewAssetsPreservePublishedRevision;
  expected LogStorage 100 Mebibytes ProjectLogs RotateOldestAndRedactSecrets;
  expected LogRetention 7 Days ProjectLogs RotateOldestAndRedactSecrets
].

Definition expected_limit (r : ResourceKind) : option ExpectedLimit :=
  find (fun limit => bool_decide (e_resource limit = r)) EXPECTED_LIMITS.

(** [{:?}] of a [ResourceKind]. *)
Definition debug_resource (r : ResourceKind) : string :=
  match r with
  | ApplicationMemory => "ApplicationMemory" | ApplicationCpu => "ApplicationCpu"
  | DatabaseStorage => "DatabaseStorage" | DatabaseConnections => "DatabaseConnections"
  | ScratchStorage => "ScratchStorage" | BuildCpu => "BuildCpu"
  | BuildMemory => "BuildMemory" | BuildTimeout => "BuildTimeout"
  | ConcurrentBuilds => "ConcurrentBuilds"
  | MonthlyBuildExecution => "MonthlyBuildExecution"
  | StaticReleaseArtifact => "StaticReleaseArtifact"
  | RuntimeReleaseArtifact => "RuntimeReleaseArtifact"
  | RetainedSuccessfulReleases => "RetainedSuccessfulReleases"
  | PublicOutboundTransfer => "PublicOutboundTransfer"
  | PortfolioAssets => "PortfolioAssets" | LogStorage => "LogStorage"
  | LogRetention => "LogRetention"
  end.

(** ** Validation *)

Definition validate_limit (base : string) (limit : BenchmarkLimit) (expected : ExpectedLimit)
    (issues : list ProjectValidationIssue) : list ProjectValidationIssue :=
  let issues := match amount limit with
    | None =>
        issue issues UnboundedResourceLimit (base +:+ ".amount")
          "resource limits must be finite positive benchmark candidates"
    | Some a =>
        if (a =? 0)%Z
        then issue issues UnboundedResourceLimit (base +:+ ".amount")
               "resource limits must be finite positive benchmark candidates"
        else if negb (a =? e_amount expected)%Z
        then issue issues ResourceAmountMismatch (base +:+ ".amount")
               "the value does not match the adopted starting benchmark"
        else issues
    end in
  let issues := mismatch (negb (bool_decide (unit_ limit = e_unit expected)))
                  ResourceUnitMismatch (base +:+ ".unit") issues in
  let issues := mismatch (negb (bool_decide (scope limit = e_scope expected)))
                  ResourceScopeMismatch (base +:+ ".scope") issues in
  let issues := mismatch (negb (bool_decide (enforcement limit = e_enforcement expected)))
                  ResourceEnforcementMismatch (base +:+ ".enforcement") issues in
  if negb (bool_decide (status limit = BenchmarkCandidate))
  then issue issues ResourceNotBenchmarkCandidate (base +:+ ".status")
         "the starting limit is a benchmark candidate, not an approved promise"
  else issues.

(** The first loop of [validate_resources]: [seen] is its [HashSet]. *)
Fixpoint validate_limits (ls : list BenchmarkLimit) (index : nat) (seen : gset ResourceKind)
    (issues : list ProjectValidationIssue) : gset ResourceKind * list ProjectValidationIssue :=
  match ls with
  | [] => (seen, issues)
  | limit :: ls' =>
      let seen' := {[resource limit]} ∪ seen in
      if bool_decide (resource limit ∈ seen)
      then validate_limits ls' (S index) seen'
             (issue issues DuplicateResourceLimit
                (indexed "resources.limits" index +:+ ".resource")
                "each benchmark resource must appear exactly once")
      else match expected_limit (resource limit) with
           | None => validate_limits ls' (S index) seen' issues
           | Some expected =>
               validate_limits ls' (S index) seen'
                 (validate_limit (indexed "resources.limits" index) limit expected issues)
           end
  end.

Definition validate_resources (self : StandardProjectSpec)
    (issues : list ProjectValidationIssue) : list ProjectValidationIssue :=
  let '(seen, issues) := validate_limits (limits (resources self)) 0 ∅ issues in
  fold_left (fun issues expected =>
    if bool_decide (e_resource expected ∈ seen) then issues
    else issue issues MissingResourceLimit "resources.limits"
           ("missing starting benchmark for " +:+ debug_resource (e_resource expected)))
    EXPECTED_LIMITS issues.

Definition validate_repository (index : nat) (repository : RepositorySpec)
    (issues : list ProjectValidationIssue) : list ProjectValidationIssue :=
  let base := indexed "repositories" index in
  let issues :=
    if negb (bool_decide (package_manager repository = Npm))
    then issue issues UnsupportedLockfile (base +:+ ".package_manager")
           "the initial contract supports locked npm installs only"
    else issues in
  let lock := base +:+ ".lockfile_path" in
  let missing := issue issues MissingLockfile lock "an npm package-lock.json is required" in
  let issues := match lockfile_path repository with
    | None => missing
    | Some p =>
        if bool_decide (p = []) then missing
        else if negb (safe_relative_path p)
        then issue issues UnsafeLockfilePath lock
               "the lockfile path must be a safe repository-relative path"
        else if negb (bool_decide (last_segment (ch "/") p = Some (lit "package-lock.json")))
        then issue issues UnsupportedLockfile lock
               "the initial contract requires package-lock.json"
        else issues
    end in
  bounded_text (lockfile_path repository) MAX_RELATIVE_PATH_BYTES lock issues.

Fixpoint validate_repositories_from (rs : list RepositorySpec) (index : nat)
    (issues : list ProjectValidationIssue) : list ProjectValidationIssue :=
  match rs with
  | [] => issues
  | r :: rs' => validate_repositories_from rs' (S index) (validate_repository index r issues)
  end.

Definition validate_repositories (self : StandardProjectSpec)
    (issues : list ProjectValidationIssue) : list ProjectValidationIssue :=
  let issues :=
    if negb (length (repositories self) =? 1)%nat
    then issue issues RepositoryCount "repositories"
           "a standard project must contain exactly one repository or monorepo"
    else issues in
  validate_repositories_from (repositories self) 0 issues.

Definition validate_static (base : string) (index : nat) (service : ServiceSpec)
    (issues : list ProjectValidationIssue) : list ProjectValidationIssue :=
  let issues := validate_source_service service index issues in
  let issues := validate_node service index issues in
  let issues := if bool_decide (framework service = ViteStatic)
                   || bool_decide (framework service = StaticExport)
                then issues else unsupported_framework index issues in
  let issues := require_text (build_command service) MissingBuildCommand
                  (base +:+ ".build_command") "a static service requires a build command"
                  issues in
  require_safe_path (output_directory service) MissingOutputDirectory
    (base +:+ ".output_directory") "a static service requires a safe output directory" issues.

Definition validate_application (base : string) (index : nat) (service : ServiceSpec)
    (issues : list ProjectValidationIssue) : list ProjectValidationIssue :=
  let issues := validate_source_service service index issues in
  let issues := validate_node service index issues in
  let issues := if bool_decide (framework service = NodeHttp)
                   || bool_decide (framework service = Nextjs16Standalone)
                then issues else unsupported_framework index issues in
  let issues := if bool_decide (framework service = Nextjs16Standalone)
                then require_text (build_command service) MissingBuildCommand
                       (base +:+ ".build_command")
                       "a Next.js standalone service requires a build command" issues
                else issues in
  let issues := require_text (start_command service) MissingStartCommand
                  (base +:+ ".start_command")
                  "an application service requires a start command" issues in
  match health_check service with
  | None => issue issues MissingHealthCheck (base +:+ ".health_check")
              "an application service requires an HTTP health endpoint"
  | Some health =>
      if negb (bool_decide (protocol health = Http)) || negb (safe_http_path (hc_path health))
      then issue issues UnsupportedHealthCheck (base +:+ ".health_check")
             "the health check must be an absolute HTTP path"
      else issues
  end.

Definition validate_postgres (base : string) (index : nat) (service : ServiceSpec)
    (issues : list ProjectValidationIssue) : list ProjectValidationIssue :=
  let issues := if bool_decide (framework service = Postgresql18)
                then issues else unsupported_framework index issues in
  if bool_decide (is_Some (root service)) || bool_decide (is_Some (node service))
     || bool_decide (is_Some (build_command service))
     || bool_decide (is_Some (output_directory service))
     || bool_decide (is_Some (start_command service))
     || bool_decide (is_Some (health_check service)) || uses_durable_data service
  then issue issues UnexpectedServiceConfiguration base
         "the managed PostgreSQL service does not accept source, command, runtime, or health configuration"
  else issues.

(** The checks every service gets, whatever its kind (everything in the loop
    body that reads only the service itself). *)
Definition validate_service_fields (base : string) (service : ServiceSpec)
    (issues : list ProjectValidationIssue) : list ProjectValidationIssue :=
  let issues :=
    if bool_decide (trim (name service) = [])
       || (MAX_SERVICE_NAME_BYTES <? byte_len (name service))%Z
       || existsb is_control (name service)
    then issue issues InvalidServiceName (base +:+ ".name")
           "a service name must be nonblank, control-free, and at most 64 bytes"
    else issues in
  let issues := bounded_text (root service) MAX_RELATIVE_PATH_BYTES (base +:+ ".root") issues in
  let issues :=
    if match root service with None => false | Some p => negb (safe_relative_path p) end
    then issue issues UnsafeServiceRoot (base +:+ ".root")
           "a service root must be a safe repository-relative path"
    else issues in
  let issues := bounded_text (output_directory service) MAX_RELATIVE_PATH_BYTES
                  (base +:+ ".output_directory") issues in
  let issues := bounded_text (build_command service) MAX_COMMAND_BYTES
                  (base +:+ ".build_command") issues in
  let issues := bounded_text (start_command service) MAX_COMMAND_BYTES
                  (base +:+ ".start_command") issues in
  match health_check service with
  | Some health => bounded_text (Some (hc_path health)) MAX_RELATIVE_PATH_BYTES
                     (base +:+ ".health_check.path") issues
  | None => issues
  end.

(** The [match service.kind] at the end of the loop body, without its counters. *)
Definition validate_service_kind (base : string) (index : nat) (service : ServiceSpec)
    (issues : list ProjectValidationIssue) : list ProjectValidationIssue :=
  match kind service with
  | StaticFrontend => validate_static base index service issues
  | Application => validate_application base index service issues
  | Postgres => validate_postgres base index service issues
  | Worker | ScheduledJob | AdditionalBackend =>
      issue issues UnsupportedServiceKind (base +:+ ".kind")
        "extra workers, scheduled jobs, and additional backends are unsupported"
  end.

(** The mutable locals of [validate_services]. *)
Record ServiceScan := {
  service_names : gset rstr;
  static_count : nat;
  application_count : nat;
  database_count : nat;
  needs_database : bool;
}.

Definition scan_service (acc : ServiceScan) (service : ServiceSpec) : ServiceScan := {|
  service_names := {[name service]} ∪ service_names acc;
  static_count :=
    match kind service with StaticFrontend => S (static_count acc) | _ => static_count acc end;
  application_count :=
    match kind service with
    | Application => S (application_count acc) | _ => application_count acc end;
  database_count :=
    match kind service with Postgres => S (database_count acc) | _ => database_count acc end;
  needs_database := needs_database acc || uses_durable_data service;
|}.

Definition validate_service (index : nat) (acc : ServiceScan) (service : ServiceSpec)
    (issues : list ProjectValidationIssue) : list ProjectValidationIssue :=
  let base := indexed "services" index in
  let issues := validate_service_fields base service issues in
  let issues := if bool_decide (name service ∈ service_names acc)
                then issue issues DuplicateServiceName (base +:+ ".name")
                       "service names must be unique within a project"
                else issues in
  validate_service_kind base index service issues.

Fixpoint validate_services_from (ss : list ServiceSpec) (index : nat) (acc : ServiceScan)
    (issues : list ProjectValidationIssue) : ServiceScan * list ProjectValidationIssue :=
  match ss with
  | [] => (acc, issues)
  | s :: ss' => validate_services_from ss' (S index) (scan_service acc s)
                  (validate_service index acc s issues)
  end.

Definition scan_start : ServiceScan :=
  {| service_names := ∅; static_count := 0; application_count := 0; database_count := 0;
     needs_database := false |}.

Definition validate_services (self : StandardProjectSpec)
    (issues : list ProjectValidationIssue) : list ProjectValidationIssue :=
  let '(acc, issues) := validate_services_from (services self) 0 scan_start issues in
  let issues :=
    if (static_count acc + application_count acc =? 0)%nat
    then issue issues MissingRunnableService "services"
           "a standard project needs a static frontend or application service"
    else issues in
  let issues := count_limit (static_count acc) ExtraStaticFrontend issues in
  let issues := count_limit (application_count acc) ExtraApplicationService issues in
  let issues := count_limit (database_count acc) ExtraDatabase issues in
  let issues :=
    if needs_database acc && (database_count acc =? 0)%nat
    then issue issues DatabaseRequired "services"
           "a service with durable data requires the project PostgreSQL service"
    else issues in
  if (0 <? database_count acc)%nat && (application_count acc =? 0)%nat
  then issue issues DatabaseWithoutApplication "services"
         "a database requires an application service in the initial contract"
  else issues.

Definition validate (self : StandardProjectSpec) : list ProjectValidationIssue :=
  let issues : list ProjectValidationIssue := [] in
  let issues :=
    if negb (bool_decide (contract_version self = PROJECT_CONTRACT_VERSION))
    then issue issues UnsupportedContractVersion "contract_version"
           "the project contract version is not supported"
    else issues in
  let issues := validate_repositories self issues in
  let issues := validate_services self issues in
  validate_resources self issues.
