(* ===== verification/ProjectSpec.v ===== *)
(** * What a standard project is, and that [validate] decides it

    The declarative specification of the standard-project contract, written
    without the validator's control flow, and the theorems that relate
    [ProjectContract.validate] to it. *)

From stdpp Require Import base list option gmap strings pretty.
From Stdlib Require Import ZArith Lia Ascii.
From S2P Require Import Prelude RustText ProjectContract.


(** ** Paths *)

(** One component of a portable relative path. *)
Record plain_segment (seg : rstr) : Prop := {
  seg_nonempty : seg <> [];
  seg_not_dot : seg <> lit ".";
  seg_not_dotdot : seg <> lit "..";
  seg_chars : forall c, c ∈ seg -> c ∉ [ch "/"; ch "\"; 0%Z; ch ":"];
}.

(** A safe repository-relative path: [.] or plain components joined by [/]. *)
Definition safe_path (p : rstr) : Prop :=
  p = lit "." \/
  exists segs, segs <> [] /\ Forall plain_segment segs /\ p = join_with (ch "/") segs.

(** Lexical resolution of a path against a directory, both as lists of
    components: what [cd] does without consulting the file system. *)
Fixpoint resolve (dir segs : list rstr) : list rstr :=
  match segs with
  | [] => dir
  | seg :: segs' =>
      if bool_decide (seg = []) || bool_decide (seg = lit ".") then resolve dir segs'
      else if bool_decide (seg = lit "..") then resolve (removelast dir) segs'
      else resolve (dir ++ [seg]) segs'
  end.

Definition absolute (p : rstr) : bool := starts_with (lit "/") p.

(** ** Services *)

Definition within (o : option rstr) (maximum : Z) : Prop :=
  forall v, o = Some v -> (byte_len v <= maximum)%Z.

Definition text_present (o : option rstr) : Prop := exists v, o = Some v /\ trim v <> [].

Record service_fields_ok (s : ServiceSpec) : Prop := {
  name_nonblank : trim (name s) <> [];
  name_short : (byte_len (name s) <= MAX_SERVICE_NAME_BYTES)%Z;
  name_control_free : forall c, c ∈ name s -> is_control c = false;
  root_short : within (root s) MAX_RELATIVE_PATH_BYTES;
  root_safe : forall p, root s = Some p -> safe_path p;
  output_short : within (output_directory s) MAX_RELATIVE_PATH_BYTES;
  build_short : within (build_command s) MAX_COMMAND_BYTES;
  start_short : within (start_command s) MAX_COMMAND_BYTES;
  health_short : forall h, health_check s = Some h ->
    (byte_len (hc_path h) <= MAX_RELATIVE_PATH_BYTES)%Z;
}.

(** A service whose source lives in the repository and runs on Node. *)
Record source_service (s : ServiceSpec) : Prop := {
  has_root : is_Some (root s);
  node_tested : exists rt, node s = Some rt /\ (major rt = 22 \/ major rt = 24)%Z;
}.

Record static_service (s : ServiceSpec) : Prop := {
  static_source : source_service s;
  static_framework : framework s ∈ [ViteStatic; StaticExport];
  static_build : text_present (build_command s);
  static_output : exists p, output_directory s = Some p /\ safe_path p;
}.

Record application_service (s : ServiceSpec) : Prop := {
  app_source : source_service s;
  app_framework : framework s ∈ [NodeHttp; Nextjs16Standalone];
  app_build : framework s = Nextjs16Standalone -> text_present (build_command s);
  app_start : text_present (start_command s);
  app_health : exists h, health_check s = Some h /\ protocol h = Http /\
                         safe_http_path (hc_path h) = true;
}.

Record managed_postgres (s : ServiceSpec) : Prop := {
  pg_framework : framework s = Postgresql18;
  pg_bare : root s = None /\ node s = None /\ build_command s = None /\
            output_directory s = None /\ start_command s = None /\
            health_check s = None /\ uses_durable_data s = false;
}.

Definition service_kind_ok (s : ServiceSpec) : Prop :=
  match kind s with
  | StaticFrontend => static_service s
  | Application => application_service s
  | Postgres => managed_postgres s
  | Worker | ScheduledJob | AdditionalBackend => False
  end.

Definition is_static (s : ServiceSpec) : bool :=
  match kind s with StaticFrontend => true | _ => false end.
Definition is_application (s : ServiceSpec) : bool :=
  match kind s with Application => true | _ => false end.
Definition is_postgres (s : ServiceSpec) : bool :=
  match kind s with Postgres => true | _ => false end.

Definition tally (f : ServiceSpec -> bool) (ss : list ServiceSpec) : nat :=
  length (List.filter f ss).

Record standard_services (ss : list ServiceSpec) : Prop := {
  services_fields : Forall service_fields_ok ss;
  services_kinds : Forall service_kind_ok ss;
  services_names : NoDup (map name ss);
  one_static : (tally is_static ss <= 1)%nat;
  one_application : (tally is_application ss <= 1)%nat;
  one_database : (tally is_postgres ss <= 1)%nat;
  runnable : (0 < tally is_static ss + tally is_application ss)%nat;
  durable_has_database :
    existsb uses_durable_data ss = true -> (0 < tally is_postgres ss)%nat;
  database_has_application :
    (0 < tally is_postgres ss)%nat -> (0 < tally is_application ss)%nat;
}.

(** ** Repository and resources *)

Record standard_repository (r : RepositorySpec) : Prop := {
  repo_npm : package_manager r = Npm;
  repo_lockfile : exists p, lockfile_path r = Some p /\ safe_path p /\
    last_segment (ch "/") p = Some (lit "package-lock.json") /\
    (byte_len p <= MAX_RELATIVE_PATH_BYTES)%Z;
}.

(** The benchmark line a limit must be, as an entry of the envelope. *)
Definition as_candidate (e : ExpectedLimit) : BenchmarkLimit := {|
  resource := e_resource e; amount := Some (e_amount e); unit_ := e_unit e;
  scope := e_scope e; enforcement := e_enforcement e; status := BenchmarkCandidate |}.

Record standard_project (p : StandardProjectSpec) : Prop := {
  std_version : contract_version p = PROJECT_CONTRACT_VERSION;
  std_repository : exists r, repositories p = [r] /\ standard_repository r;
  std_services : standard_services (services p);
  std_resources : limits (resources p) ≡ₚ map as_candidate EXPECTED_LIMITS;
}.

(** ** Path lemmas *)

Lemma starts_with_single c p :
  starts_with [c] p = true <-> exists p', p = c :: p'.
Proof.
  destruct p as [|d p]; simpl; [naive_solver|].
  rewrite andb_true_r. split.
  - intros ->%Z.eqb_eq. eauto.
  - intros (p' & [= -> ->]). apply Z.eqb_refl.
Qed.

Lemma plain_segment_bool seg :
  ch "/" ∉ seg -> ch "\" ∉ seg -> 0%Z ∉ seg -> ch ":" ∉ seg ->
  negb (bool_decide (seg = [])) && negb (bool_decide (seg = lit "."))
    && negb (bool_decide (seg = lit "..")) = true <-> plain_segment seg.
Proof.
  intros H1 H2 H3 H4.
  rewrite !andb_true_iff, !negb_true_iff, !bool_decide_eq_false. split.
  - intros [[? ?] ?]. split; try done. intros c Hc Hin.
    repeat (apply elem_of_cons in Hin as [->|Hin]; [done|]). by apply not_elem_of_nil in Hin.
  - intros []. done.
Qed.

Lemma plain_segment_free seg c :
  plain_segment seg -> c ∈ [ch "/"; ch "\"; 0%Z; ch ":"] -> c ∉ seg.
Proof. intros [_ _ _ Hs] Hc Hin. by apply (Hs c). Qed.

Lemma safe_relative_path_spec p : safe_relative_path p = true <-> safe_path p.
Proof.
  unfold safe_relative_path, safe_path. case_bool_decide as Hdot; [tauto|].
  destruct (_ || _) eqn:Hbad.
  - split; [done|]. intros [?|(segs & Hne & Hall & ->)]; [done|]. exfalso.
    assert (Hfree : forall c, c ∈ [ch "\"; 0%Z; ch ":"] -> c ∉ join_with (ch "/") segs).
    { intros c Hc [->|(seg & Hseg & Hin)]%join_with_elem.
      - revert Hc. by apply (bool_decide_unpack (_ ∉ _)).
      - rewrite Forall_forall in Hall. apply (plain_segment_free seg c) in Hin; auto.
        by right. }
    destruct segs as [|seg segs]; [done|]. apply Forall_cons in Hall as [Hseg _].
    destruct (seg_nonempty _ Hseg). destruct seg as [|d seg]; [done|]. exfalso.
    assert (d <> ch "/").
    { intros ->. destruct (plain_segment_free _ (ch "/") Hseg); left. }
    assert (exists rest, join_with (ch "/") ((d :: seg) :: segs) = d :: rest) as [rest E]
      by (destruct segs; simpl; eauto).
    rewrite E in Hbad, Hfree.
    rewrite !orb_true_iff in Hbad.
    destruct Hbad as [[[[[Hbad|Hbad]|Hbad]|Hbad]|Hbad]|Hbad].
    + by apply bool_decide_eq_true in Hbad.
    + apply starts_with_single in Hbad as (? & [=]). done.
    + apply starts_with_single in Hbad as (? & [= -> ->]).
      destruct (Hfree (ch "\")); left.
    + apply contains_char_spec in Hbad. destruct (Hfree (ch "\")); [left|done].
    + apply contains_char_spec in Hbad. destruct (Hfree 0%Z); [right; left|done].
    + apply contains_char_spec in Hbad.
      destruct (Hfree (ch ":")); [right; right; left|done].
  - repeat (apply orb_false_iff in Hbad as [Hbad ?]).
    repeat match goal with H : contains_char _ _ = false |- _ =>
      apply contains_char_false in H end.
    assert (Heq : forallb (fun segment => negb (bool_decide (segment = []))
        && negb (bool_decide (segment = lit ".")) && negb (bool_decide (segment = lit "..")))
        (split_on (ch "/") p) = true <-> Forall plain_segment (split_on (ch "/") p)).
    { rewrite forallb_forall, Forall_forall. pose proof (split_on_no_sep (ch "/") p) as Hs.
      rewrite Forall_forall in Hs. setoid_rewrite <- list_elem_of_In.
      assert (forall seg, seg ∈ split_on (ch "/") p ->
        ch "\" ∉ seg /\ 0%Z ∉ seg /\ ch ":" ∉ seg).
      { intros seg Hseg; repeat split; intros Hin; eapply split_on_segs_subset in Hin; eauto. }
      split; intros HH seg Hseg; apply plain_segment_bool; naive_solver. }
    rewrite Heq. split.
    + intros Hall. right. exists (split_on (ch "/") p). split; [apply split_on_nonempty|].
      split; [done|]. by rewrite join_split.
    + intros [?|(segs & Hne & Hall & ->)]; [done|].
      rewrite split_join; [done|done|].
      eapply Forall_impl; [exact Hall|]. intros seg Hseg.
      apply (plain_segment_free seg); [done|left].
Qed.

Lemma plain_segments_resolve segs dir :
  Forall plain_segment segs -> resolve dir segs = dir ++ segs.
Proof.
  intros Hall. revert dir. induction Hall as [|seg segs Hseg _ IH]; intros dir; simpl.
  - by rewrite app_nil_r.
  - destruct Hseg as [H1 H2 H3 _].
    rewrite !bool_decide_eq_false_2 by done. simpl.
    rewrite IH. by rewrite <- app_assoc.
Qed.

(** ** When each check is silent

    Every validator function appends to the issue list it is given; the list it
    returns is empty exactly when it was given an empty one and its check
    passes. *)

Create Rewrite HintDb silent.

Lemma issue_nil issues c p m : issue issues c p m = [] <-> False.
Proof. unfold issue. by rewrite app_singleton_nil. Qed.

Lemma if_issue_nil (b : bool) issues c p m :
  (if b then issue issues c p m else issues) = [] <-> issues = [] /\ b = false.
Proof. destruct b; rewrite ?issue_nil; naive_solver. Qed.

Lemma unsupported_framework_nil (b : bool) index issues :
  (if b then issues else unsupported_framework index issues) = [] <->
  issues = [] /\ b = true.
Proof. unfold unsupported_framework. destruct b; rewrite ?issue_nil; naive_solver. Qed.

Lemma mismatch_nil b c p issues :
  mismatch b c p issues = [] <-> issues = [] /\ b = false.
Proof. apply if_issue_nil. Qed.

Lemma count_limit_nil n c issues :
  count_limit n c issues = [] <-> issues = [] /\ (n <= 1)%nat.
Proof. unfold count_limit. rewrite if_issue_nil, Nat.ltb_ge. done. Qed.

Lemma bounded_text_nil o maximum p issues :
  bounded_text o maximum p issues = [] <-> issues = [] /\ within o maximum.
Proof.
  unfold bounded_text, within. destruct o as [v|]; [|naive_solver].
  rewrite if_issue_nil, Z.ltb_ge. naive_solver.
Qed.

Lemma require_text_nil o c p m issues :
  require_text o c p m issues = [] <-> issues = [] /\ text_present o.
Proof.
  unfold require_text, text_present. rewrite if_issue_nil.
  destruct o as [v|]; [rewrite bool_decide_eq_false|]; naive_solver.
Qed.

Lemma require_safe_path_nil o c p m issues :
  require_safe_path o c p m issues = [] <->
  issues = [] /\ exists v, o = Some v /\ safe_path v.
Proof.
  unfold require_safe_path. rewrite if_issue_nil.
  destruct o as [v|]; [|naive_solver].
  rewrite negb_false_iff, safe_relative_path_spec. naive_solver.
Qed.

Lemma validate_node_nil s index issues :
  validate_node s index issues = [] <->
  issues = [] /\ exists rt, node s = Some rt /\ (major rt = 22 \/ major rt = 24)%Z.
Proof.
  unfold validate_node. destruct (node s) as [rt|]; [|rewrite issue_nil; naive_solver].
  rewrite if_issue_nil, negb_false_iff, orb_true_iff, !Z.eqb_eq. naive_solver.
Qed.

Lemma validate_source_service_nil s index issues :
  validate_source_service s index issues = [] <-> issues = [] /\ is_Some (root s).
Proof.
  unfold validate_source_service. destruct (root s); [naive_solver|].
  rewrite issue_nil. split; [done|]. by intros [_ [? ?]].
Qed.

#[export] Hint Rewrite issue_nil mismatch_nil count_limit_nil bounded_text_nil
  require_text_nil require_safe_path_nil validate_node_nil validate_source_service_nil
  unsupported_framework_nil if_issue_nil : silent.

(** Reduce "this validator adds nothing" to the conjunction of its checks. *)
Ltac silent := cbv zeta; repeat (autorewrite with silent).

(** Reflect the boolean tests the checks are made of. *)
Ltac reflect_checks :=
  rewrite ?negb_false_iff, ?orb_true_iff, ?orb_false_iff, ?negb_false_iff,
    ?bool_decide_eq_true, ?bool_decide_eq_false, ?Z.ltb_ge, ?Nat.eqb_eq, ?Nat.eqb_neq.

Lemma validate_static_nil base index s issues :
  validate_static base index s issues = [] <-> issues = [] /\ static_service s.
Proof.
  unfold validate_static. silent. reflect_checks.
  split.
  - intros (((((? & ?) & ?) & Hf) & ?) & ?). split; [done|]. constructor; [by constructor|..|done|done].
    destruct Hf as [->| ->]; set_solver.
  - intros (-> & [[] Hf ? ?]). repeat split; try done.
    rewrite !elem_of_cons in Hf. destruct Hf as [?|[?|[]%not_elem_of_nil]]; auto.
Qed.

Lemma validate_application_nil base index s issues :
  validate_application base index s issues = [] <-> issues = [] /\ application_service s.
Proof.
  unfold validate_application. cbv zeta.
  set (pre := require_text (start_command s) _ _ _ _).
  assert (Hpre : pre = [] <-> issues = [] /\ source_service s /\
      framework s ∈ [NodeHttp; Nextjs16Standalone] /\
      (framework s = Nextjs16Standalone -> text_present (build_command s)) /\
      text_present (start_command s)).
  { subst pre. silent.
    assert (Hs : source_service s <-> is_Some (root s) /\
        exists rt, node s = Some rt /\ (major rt = 22 \/ major rt = 24)%Z)
      by (split; [by intros []|intros []; by constructor]).
    rewrite Hs, !elem_of_cons, elem_of_nil.
    case_bool_decide; silent; reflect_checks; intuition congruence. }
  clearbody pre. destruct (health_check s) as [h|] eqn:Eh; silent; rewrite ?Hpre.
  - rewrite orb_false_iff, !negb_false_iff, bool_decide_eq_true. split.
    + intros ((-> & ? & ? & ? & ?) & ? & ?). split; [done|]. constructor; eauto.
    + intros (-> & [? ? ? ? (h' & [= <-]%(eq_trans (eq_sym Eh)) & ? & ?)]). done.
  - split; [done|]. intros (_ & [_ _ _ _ (? & ? & _)]). congruence.
Qed.

Lemma not_is_Some_bool {A} (o : option A) : bool_decide (is_Some o) = false <-> o = None.
Proof. by rewrite bool_decide_eq_false, eq_None_not_Some. Qed.

Lemma validate_postgres_nil base index s issues :
  validate_postgres base index s issues = [] <-> issues = [] /\ managed_postgres s.
Proof.
  unfold validate_postgres. silent.
  rewrite !orb_false_iff, !not_is_Some_bool, bool_decide_eq_true. split.
  - intros ((-> & ?) & ?). split; [done|]. constructor; intuition.
  - intros (-> & [? ?]). intuition.
Qed.

Lemma validate_service_kind_nil base index s issues :
  validate_service_kind base index s issues = [] <-> issues = [] /\ service_kind_ok s.
Proof.
  unfold validate_service_kind, service_kind_ok.
  destruct (kind s); silent; rewrite ?validate_static_nil, ?validate_application_nil,
    ?validate_postgres_nil; tauto.
Qed.

Lemma root_unsafe_false (o : option rstr) :
  match o with None => false | Some p => negb (safe_relative_path p) end = false <->
  forall p, o = Some p -> safe_path p.
Proof.
  destruct o as [p|]; [|naive_solver].
  rewrite negb_false_iff, safe_relative_path_spec. naive_solver.
Qed.

Lemma validate_service_fields_nil base s issues :
  validate_service_fields base s issues = [] <-> issues = [] /\ service_fields_ok s.
Proof.
  unfold validate_service_fields. cbv zeta.
  set (pre := bounded_text (start_command s) _ _ _).
  assert (Hpre : pre = [] <-> issues = [] /\
    (trim (name s) <> [] /\ (byte_len (name s) <= MAX_SERVICE_NAME_BYTES)%Z /\
     forall c, c ∈ name s -> is_control c = false) /\
    within (root s) MAX_RELATIVE_PATH_BYTES /\
    (forall p, root s = Some p -> safe_path p) /\
    within (output_directory s) MAX_RELATIVE_PATH_BYTES /\
    within (build_command s) MAX_COMMAND_BYTES /\
    within (start_command s) MAX_COMMAND_BYTES).
  { subst pre. silent. rewrite root_unsafe_false. reflect_checks.
    assert (Hc : existsb is_control (name s) = false <->
                 forall c, c ∈ name s -> is_control c = false).
    { rewrite <- not_true_iff_false, existsb_exists. setoid_rewrite <- list_elem_of_In.
      split; [intros Hn c Hc; apply not_true_iff_false; eauto|].
      intros Hf (x & Hx & Ht). by rewrite (Hf x Hx) in Ht. }
    rewrite Hc. tauto. }
  clearbody pre. split.
  - intros H. assert (pre = [] /\ forall h, health_check s = Some h ->
      (byte_len (hc_path h) <= MAX_RELATIVE_PATH_BYTES)%Z) as [Hp ?].
    { destruct (health_check s) as [h|]; [|naive_solver].
      apply bounded_text_nil in H as [? H]. split; [done|]. intros ? [= <-]. by apply H. }
    apply Hpre in Hp as (-> & (? & ? & ?) & ?). split; [done|]. by constructor; try tauto.
  - intros (-> & []). assert (Hp : pre = []) by (apply Hpre; tauto).
    destruct (health_check s) as [h|]; [|done].
    apply bounded_text_nil. split; [done|]. intros ? [= <-]. auto.
Qed.

(** ** The services loop *)

Lemma tally_cons f s ss :
  tally f (s :: ss) = ((if f s then 1 else 0) + tally f ss)%nat.
Proof. unfold tally. simpl. by destruct (f s). Qed.

(** What the loop's locals hold after the services [ss]. *)
Lemma scan_services ss index acc issues :
  let acc' := (validate_services_from ss index acc issues).1 in
  service_names acc' = service_names acc ∪ list_to_set (map name ss) /\
  static_count acc' = (static_count acc + tally is_static ss)%nat /\
  application_count acc' = (application_count acc + tally is_application ss)%nat /\
  database_count acc' = (database_count acc + tally is_postgres ss)%nat /\
  needs_database acc' = needs_database acc || existsb uses_durable_data ss.
Proof.
  revert index acc issues. induction ss as [|s ss IH]; intros index acc issues; simpl.
  - rewrite orb_false_r. unfold tally; simpl. repeat split; [set_solver|lia..].
  - destruct (IH (S index) (scan_service acc s) (validate_service index acc s issues))
      as (-> & -> & -> & -> & ->). rewrite !tally_cons. simpl.
    unfold is_static, is_application, is_postgres.
    split; [set_solver|]. rewrite orb_assoc.
    destruct (kind s); simpl; repeat split; lia.
Qed.

Lemma validate_service_nil index acc s issues :
  validate_service index acc s issues = [] <->
  issues = [] /\ service_fields_ok s /\ name s ∉ service_names acc /\ service_kind_ok s.
Proof.
  unfold validate_service. cbv zeta.
  rewrite validate_service_kind_nil, if_issue_nil, validate_service_fields_nil,
    bool_decide_eq_false. tauto.
Qed.

Lemma validate_services_from_nil ss index acc issues :
  (validate_services_from ss index acc issues).2 = [] <->
  issues = [] /\ Forall service_fields_ok ss /\ Forall service_kind_ok ss /\
  NoDup (map name ss) /\ Forall (fun s => name s ∉ service_names acc) ss.
Proof.
  revert index acc issues. induction ss as [|s ss IH]; intros index acc issues; simpl.
  - split; [intros ->; repeat split; constructor|by intros []].
  - rewrite IH, validate_service_nil, !Forall_cons, NoDup_cons. simpl.
    assert (Hacc : Forall (fun s0 => name s0 ∉ {[name s]} ∪ service_names acc) ss <->
        name s ∉ map name ss /\ Forall (fun s0 => name s0 ∉ service_names acc) ss).
    { rewrite !Forall_forall, list_elem_of_fmap. split.
      - intros H. split; [|set_solver]. intros (s0 & E & Hs0). apply (H s0 Hs0). set_solver.
      - intros [H1 H2] s0 Hs0. specialize (H2 s0 Hs0). set_solver. }
    rewrite Hacc. tauto.
Qed.

Lemma validate_services_nil p issues :
  validate_services p issues = [] <-> issues = [] /\ standard_services (services p).
Proof.
  unfold validate_services.
  pose proof (scan_services (services p) 0 scan_start issues) as Hscan.
  pose proof (validate_services_from_nil (services p) 0 scan_start issues) as Hnil.
  destruct (validate_services_from _ _ _ _) as [acc issues']; simpl in *.
  destruct Hscan as (_ & -> & -> & -> & ->).
  silent. rewrite Hnil. clear Hnil.
  rewrite !andb_false_iff, !Nat.eqb_neq, Nat.ltb_ge.
  assert (Hempty : Forall (fun s => name s ∉ (∅ : gset rstr)) (services p))
    by (apply Forall_true; set_solver).
  split.
  - intros (((((((? & ? & ? & ? & ?) & ?) & ?) & ?) & ?) & Hd) & Ha). split; [done|].
    constructor; try done; try lia.
    intros Hn. rewrite Hn in Hd. destruct Hd as [?|?]; [done|lia].
  - intros (-> & []). repeat split; try done; try lia.
    destruct (existsb _ _); [right|by left]. specialize (durable_has_database0 eq_refl). lia.
Qed.

(** ** Repositories *)

Lemma validate_repository_nil index r issues :
  validate_repository index r issues = [] <-> issues = [] /\ standard_repository r.
Proof.
  unfold validate_repository. cbv zeta. rewrite bounded_text_nil.
  set (issues1 := if negb _ then _ else issues).
  assert (H1 : issues1 = [] <-> issues = [] /\ package_manager r = Npm).
  { subst issues1. silent. by reflect_checks. }
  clearbody issues1.
  destruct (lockfile_path r) as [p|] eqn:Elock.
  - assert (Hp : (if bool_decide (p = [])
        then issue issues1 MissingLockfile (indexed "repositories" index +:+ ".lockfile_path")
               "an npm package-lock.json is required"
        else if negb (safe_relative_path p)
        then issue issues1 UnsafeLockfilePath (indexed "repositories" index +:+ ".lockfile_path")
               "the lockfile path must be a safe repository-relative path"
        else if negb (bool_decide (last_segment (ch "/") p = Some (lit "package-lock.json")))
        then issue issues1 UnsupportedLockfile (indexed "repositories" index +:+ ".lockfile_path")
               "the initial contract requires package-lock.json"
        else issues1) = [] <->
      issues1 = [] /\ safe_path p /\ last_segment (ch "/") p = Some (lit "package-lock.json")).
    { rewrite <- safe_relative_path_spec. case_bool_decide as Hp.
      - rewrite issue_nil. split; [done|]. by intros (_ & ? & _); subst p.
      - destruct (safe_relative_path p); simpl; [|rewrite issue_nil; naive_solver].
        rewrite if_issue_nil, negb_false_iff, bool_decide_eq_true. tauto. }
    rewrite Hp, H1. unfold within. split.
    + intros (((-> & ?) & ? & ?) & ?). split; [done|]. constructor; [done|]. exists p. auto.
    + intros (-> & [? (p' & [= <-]%(eq_trans (eq_sym Elock)) & ? & ? & ?)]).
      repeat split; try done. intros v [= <-]. done.
  - rewrite issue_nil. split; [tauto|].
    intros (_ & [_ (p' & ? & _)]). congruence.
Qed.

Lemma validate_repositories_from_nil rs index issues :
  validate_repositories_from rs index issues = [] <->
  issues = [] /\ Forall standard_repository rs.
Proof.
  revert index issues. induction rs as [|r rs IH]; intros index issues; simpl.
  - split; [intros ->; repeat split; constructor|by intros []].
  - rewrite IH, validate_repository_nil, Forall_cons. tauto.
Qed.

Lemma validate_repositories_nil p issues :
  validate_repositories p issues = [] <->
  issues = [] /\ exists r, repositories p = [r] /\ standard_repository r.
Proof.
  unfold validate_repositories. cbv zeta.
  rewrite validate_repositories_from_nil, if_issue_nil, negb_false_iff, Nat.eqb_eq.
  split.
  - intros ((-> & Hlen) & Hall). split; [done|].
    destruct (repositories p) as [|r [|]]; [done| |done].
    exists r. split; [done|]. by rewrite Forall_singleton in Hall.
  - intros (-> & r & -> & Hr). by rewrite Forall_singleton.
Qed.

(** ** Resources *)

Lemma expected_limit_spec e k :
  expected_limit k = Some e <-> e ∈ EXPECTED_LIMITS /\ e_resource e = k.
Proof.
  split.
  - unfold expected_limit. intros H. apply find_some in H as [Hin Hk].
    apply bool_decide_eq_true in Hk. by rewrite list_elem_of_In.
  - intros [Hin <-]. unfold EXPECTED_LIMITS in Hin. rewrite !elem_of_cons, elem_of_nil in Hin.
    repeat (destruct Hin as [->|Hin]; [reflexivity|]). done.
Qed.

Lemma expected_limit_total k : exists e, expected_limit k = Some e.
Proof. destruct k; eexists; reflexivity. Qed.

Lemma expected_amount_nonzero e : e ∈ EXPECTED_LIMITS -> e_amount e <> 0%Z.
Proof.
  unfold EXPECTED_LIMITS. rewrite !elem_of_cons, elem_of_nil.
  intros Hin. repeat (destruct Hin as [->|Hin]; [done|]). done.
Qed.

Lemma validate_limit_nil base l e issues :
  e ∈ EXPECTED_LIMITS -> resource l = e_resource e ->
  validate_limit base l e issues = [] <-> issues = [] /\ l = as_candidate e.
Proof.
  intros He Hr. apply expected_amount_nonzero in He as Hne.
  unfold validate_limit. silent. reflect_checks.
  assert (Ha : match amount l with
      | None => issue issues UnboundedResourceLimit (base +:+ ".amount")
                  "resource limits must be finite positive benchmark candidates"
      | Some a =>
          if (a =? 0)%Z
          then issue issues UnboundedResourceLimit (base +:+ ".amount")
                 "resource limits must be finite positive benchmark candidates"
          else if negb (a =? e_amount e)%Z
          then issue issues ResourceAmountMismatch (base +:+ ".amount")
                 "the value does not match the adopted starting benchmark"
          else issues
      end = [] <-> issues = [] /\ amount l = Some (e_amount e)).
  { destruct (amount l) as [a|]; [|rewrite issue_nil; naive_solver].
    destruct (Z.eqb_spec a 0) as [->|]; [rewrite issue_nil; naive_solver|].
    rewrite if_issue_nil, negb_false_iff, Z.eqb_eq. naive_solver. }
  rewrite Ha. destruct l as [r a u s en st]; simpl in *; subst r.
  unfold as_candidate. split; [naive_solver|]. intros (-> & [= -> -> -> -> ->]). done.
Qed.

Definition candidate (l : BenchmarkLimit) : Prop :=
  exists e, expected_limit (resource l) = Some e /\ l = as_candidate e.

Lemma validate_limits_seen ls index seen issues :
  (validate_limits ls index seen issues).1 = list_to_set (map resource ls) ∪ seen.
Proof.
  revert index seen issues. induction ls as [|l ls IH]; intros; simpl; [set_solver|].
  case_bool_decide; [|destruct (expected_limit _)]; rewrite IH; set_solver.
Qed.

Lemma validate_limits_nil ls index seen issues :
  (validate_limits ls index seen issues).2 = [] <->
  issues = [] /\ NoDup (map resource ls) /\
  Forall (fun l => resource l ∉ seen) ls /\ Forall candidate ls.
Proof.
  revert index seen issues. induction ls as [|l ls IH]; intros; simpl.
  - split; [intros ->; repeat split; constructor|by intros []].
  - rewrite NoDup_cons, !Forall_cons.
    case_bool_decide as Hseen; [rewrite IH, issue_nil; tauto|].
    destruct (expected_limit_total (resource l)) as [e He]. rewrite He.
    apply expected_limit_spec in He as He'. destruct He' as [Hin Hk].
    rewrite IH, validate_limit_nil by done.
    assert (Hc : candidate l <-> l = as_candidate e).
    { unfold candidate. rewrite He. naive_solver. }
    assert (Hacc : Forall (fun l0 => resource l0 ∉ {[resource l]} ∪ seen) ls <->
        resource l ∉ map resource ls /\ Forall (fun l0 => resource l0 ∉ seen) ls).
    { rewrite !Forall_forall, list_elem_of_fmap. split.
      - intros H. split; [|set_solver]. intros (l0 & E & Hl0). apply (H l0 Hl0). set_solver.
      - intros [H1 H2] l0 Hl0. specialize (H2 l0 Hl0). set_solver. }
    rewrite Hc, Hacc. tauto.
Qed.

Lemma missing_limits_nil es (seen : gset ResourceKind) issues :
  fold_left (fun issues expected =>
    if bool_decide (e_resource expected ∈ seen) then issues
    else issue issues MissingResourceLimit "resources.limits"
           ("missing starting benchmark for " +:+ debug_resource (e_resource expected)))
    es issues = [] <->
  issues = [] /\ Forall (fun e => e_resource e ∈ seen) es.
Proof.
  revert issues. induction es as [|e es IH]; intros issues; simpl.
  - split; [intros ->; repeat split; constructor|by intros []].
  - rewrite IH, Forall_cons. case_bool_decide; rewrite ?issue_nil; tauto.
Qed.

Lemma candidates_nodup : NoDup (map resource (map as_candidate EXPECTED_LIMITS)).
Proof. by apply (bool_decide_unpack _). Qed.

Lemma benchmark_permutation ls :
  ls ≡ₚ map as_candidate EXPECTED_LIMITS <->
  NoDup (map resource ls) /\ Forall candidate ls /\
  Forall (fun e => e_resource e ∈ map resource ls) EXPECTED_LIMITS.
Proof.
  assert (Hcand : forall l, candidate l <-> l ∈ map as_candidate EXPECTED_LIMITS).
  { intros l. rewrite list_elem_of_fmap. unfold candidate. split.
    - intros (e & [? ?]%expected_limit_spec & ->). eauto.
    - intros (e & -> & ?). exists e. split; [|done]. by apply expected_limit_spec. }
  split.
  - intros Hp. split; [|split].
    + rewrite Hp. apply candidates_nodup.
    + rewrite Hp. apply Forall_forall. intros l. apply Hcand.
    + apply Forall_forall. intros e He. rewrite Hp. apply list_elem_of_fmap.
      exists (as_candidate e). split; [done|]. by apply list_elem_of_fmap_2.
  - intros (Hnd & Hall & Hcov).
    rewrite Forall_forall in Hall. rewrite Forall_forall in Hcov.
    apply NoDup_Permutation.
    + by apply NoDup_fmap_1 in Hnd.
    + pose proof candidates_nodup as Hc. by apply NoDup_fmap_1 in Hc.
    + intros l. split; [intros Hl; by apply Hcand, Hall|].
      intros (e & -> & He)%list_elem_of_fmap.
      specialize (Hcov e He). apply list_elem_of_fmap in Hcov as (l & Hk & Hl).
      destruct (Hall l Hl) as (e' & He' & ->). simpl in Hk.
      assert (e' = e) as -> by (apply expected_limit_spec in He' as [? _];
        assert (Some e' = Some e) as [= ->]; [|done];
        rewrite <- (proj2 (expected_limit_spec e' (e_resource e))) by auto;
        by apply expected_limit_spec).
      done.
Qed.

Lemma validate_resources_nil p issues :
  validate_resources p issues = [] <->
  issues = [] /\ limits (resources p) ≡ₚ map as_candidate EXPECTED_LIMITS.
Proof.
  unfold validate_resources.
  pose proof (validate_limits_seen (limits (resources p)) 0 ∅ issues) as Hseen.
  pose proof (validate_limits_nil (limits (resources p)) 0 ∅ issues) as Hnil.
  destruct (validate_limits _ _ _ _) as [seen issues']; cbn [fst snd] in *. subst seen.
  rewrite missing_limits_nil, Hnil, benchmark_permutation.
  assert (Hempty : Forall (fun l => resource l ∉ (∅ : gset ResourceKind)) (limits (resources p)))
    by (apply Forall_true; set_solver).
  assert (Hcov : Forall (fun e => e_resource e ∈
        (list_to_set (map resource (limits (resources p))) ∪ ∅ : gset ResourceKind))
        EXPECTED_LIMITS <->
      Forall (fun e => e_resource e ∈ map resource (limits (resources p))) EXPECTED_LIMITS).
  { rewrite !Forall_forall. split; intros H e He; specialize (H e He); set_solver. }
  rewrite Hcov. tauto.
Qed.

Lemma validate_nil (p : StandardProjectSpec) : validate p = [] <-> standard_project p.
Proof.
  unfold validate. rewrite validate_resources_nil, validate_services_nil,
    validate_repositories_nil, if_issue_nil, negb_false_iff, bool_decide_eq_true.
  split.
  - intros ((((_ & ?) & ?) & ?) & ?). by split.
  - intros []. done.
Qed.
