(* ===== verification/ProjectTheorems.v ===== *)
(** * Guarantees of the standard-project validator

    [validate] decides the declarative contract, and the paths of a project it
    accepts stay inside the repository they are resolved against. *)

From stdpp Require Import base list option gmap strings pretty.
From Stdlib Require Import ZArith Lia Ascii.
From S2P Require Import Prelude RustText ProjectContract ProjectSpec.

(** C26: the validator decides the contract: it reports no issue exactly for the
    projects with one npm repository whose lockfile is safe, at most one
    frontend, application and database of the supported shapes, and the adopted
    resource benchmark, each limit once and in any order. *)
Theorem validate_decides_standard_project (p : StandardProjectSpec) :
  validate p = [] <-> standard_project p.
Proof. apply validate_nil. Qed.

(** The paths of a project that name places in its repository. *)
Definition repository_paths (p : StandardProjectSpec) : list rstr :=
  omap lockfile_path (repositories p) ++ omap root (services p)
  ++ omap output_directory (List.filter is_static (services p)).

(** A safe path is relative and only ever descends. *)
Lemma safe_path_descends q :
  safe_path q ->
  absolute q = false /\ forall dir, exists below, resolve dir (split_on (ch "/") q) = dir ++ below.
Proof.
  intros [->|(segs & Hne & Hall & ->)].
  - split; [reflexivity|]. intros dir. exists []. by rewrite app_nil_r.
  - rewrite split_join; [|done|].
    2: { eapply Forall_impl; [exact Hall|]. intros seg Hseg.
         apply (plain_segment_free seg); [done|left]. }
    split; [|intros dir; exists segs; by apply plain_segments_resolve].
    destruct segs as [|[|c seg] segs]; [done| |].
    + apply Forall_cons in Hall as [[? _ _ _] _]. done.
    + apply Forall_cons in Hall as [[_ _ _ Hc] _]. unfold absolute.
      apply not_true_iff_false. intros (p' & Hp)%starts_with_single.
      destruct segs; simpl in Hp; injection Hp as -> _; apply (Hc (ch "/")); left.
Qed.

(** no path of an accepted project can leave the repository: the lockfile,
    every service root and every static output directory is relative, and
    resolving it against any directory ends in or below that directory. *)
Theorem accepted_paths_stay_inside (p : StandardProjectSpec) (q : rstr) :
  validate p = [] -> q ∈ repository_paths p ->
  absolute q = false /\ forall dir, exists below, resolve dir (split_on (ch "/") q) = dir ++ below.
Proof.
  intros Hv Hq. apply safe_path_descends.
  unfold validate in Hv. rewrite validate_resources_nil, validate_services_nil,
    validate_repositories_nil in Hv.
  destruct Hv as (((_ & r & Hr & [_ (lock & Hlock & Hsafe & _)]) & Hs) & _).
  destruct Hs as [Hfields Hkinds]. rewrite Forall_forall in Hfields, Hkinds.
  unfold repository_paths in Hq. rewrite Hr in Hq.
  apply elem_of_app in Hq as [Hq|[Hq|Hq]%elem_of_app].
  - apply list_elem_of_omap in Hq as (r' & ->%list_elem_of_singleton & Hq).
    by simplify_eq.
  - apply list_elem_of_omap in Hq as (s & Hs & Hq). by apply (root_safe _ (Hfields _ Hs)).
  - apply list_elem_of_omap in Hq as (s & Hs & Hq).
    apply list_elem_of_In, filter_In in Hs as [Hs%list_elem_of_In Hst].
    specialize (Hkinds _ Hs). unfold service_kind_ok, is_static in *.
    destruct (kind s); try done. destruct (static_output _ Hkinds) as (q' & Hq' & ?).
    by simplify_eq.
Qed.

(** ** A project that is accepted *)

Definition sample_static : ServiceSpec := {|
  name := lit "web"; kind := StaticFrontend; root := Some (lit "apps/web");
  framework := ViteStatic; node := Some {| major := 24 |};
  build_command := Some (lit "npm run build"); output_directory := Some (lit "dist");
  start_command := None; health_check := None; uses_durable_data := false |}.

Definition sample_application : ServiceSpec := {|
  name := lit "api"; kind := Application; root := Some (lit "apps/api");
  framework := NodeHttp; node := Some {| major := 22 |}; build_command := None;
  output_directory := None; start_command := Some (lit "node server.js");
  health_check := Some {| protocol := Http; hc_path := lit "/health" |};
  uses_durable_data := true |}.

Definition sample_database : ServiceSpec := {|
  name := lit "db"; kind := Postgres; root := None; framework := Postgresql18; node := None;
  build_command := None; output_directory := None; start_command := None;
  health_check := None; uses_durable_data := false |}.

Definition sample_project : StandardProjectSpec := {|
  contract_version := PROJECT_CONTRACT_VERSION;
  repositories := [{| layout := Monorepo; package_manager := Npm;
                      lockfile_path := Some (lit "apps/package-lock.json") |}];
  services := [sample_database; sample_static; sample_application];
  resources := {| limits := map as_candidate (reverse EXPECTED_LIMITS) |} |}.

Example sample_accepted : validate sample_project = [].
Proof. vm_compute. reflexivity. Qed.

(** A root that climbs out is reported at its own path. *)
Example climbing_root_reported :
  map code (validate {| contract_version := PROJECT_CONTRACT_VERSION;
    repositories := repositories sample_project;
    services := [{| name := lit "web"; kind := StaticFrontend; root := Some (lit "apps/../..");
                    framework := ViteStatic; node := Some {| major := 24 |};
                    build_command := Some (lit "npm run build");
                    output_directory := Some (lit "dist");
                    start_command := None; health_check := None; uses_durable_data := true |}];
    resources := resources sample_project |}) = [UnsafeServiceRoot; DatabaseRequired].
Proof. vm_compute. reflexivity. Qed.

Lemma accepted_paths_stay_inside_witness :
  lit "apps/web" ∈ repository_paths sample_project /\
  absolute (lit "apps/web") = false /\
  forall dir, exists below, resolve dir (split_on (ch "/") (lit "apps/web")) = dir ++ below.
Proof.
  assert (H : lit "apps/web" ∈ repository_paths sample_project)
    by (apply (bool_decide_unpack _); vm_compute; exact I).
  split; [exact H|].
  apply (accepted_paths_stay_inside sample_project (lit "apps/web")); [vm_compute; reflexivity|].
  exact H.
Defined.
