(* ===== verification/PgTx.v ===== *)
(** * Database transactions

    The control API's handlers run SQL transactions against PostgreSQL.  This
    file models what they rely on:

    - [ApiError] and its constructors (crates/control/src/error.rs);
    - [M D A], a computation over a database state [D] that can fail with an
      [ApiError] (Rust's [?]) and that consumes two external supplies: the
      readings of [clock_timestamp()] and the identifiers of [Uuid::new_v4()];
    - [transaction], which commits what its body returns and restores the
      database when the body fails, as sqlx does when a [Transaction] is dropped;
    - statements on a table with a primary key ([insert_pk], [update_pk]) and
      [SELECT ... ORDER BY ... LIMIT 1] ([select_first]).

    A transaction is one atomic step: every handler locks the rows it depends on
    ([FOR UPDATE] or an advisory lock) before it reads them.  [SKIP LOCKED]
    queries are the exception; they see the rows other transactions hold, which
    [row_locked] supplies.  [clock_timestamp()] is read once per statement. *)

From stdpp Require Import base list option gmap strings.
From Stdlib Require Import ZArith Lia RelationClasses.
From S2P Require Import Prelude.

Local Open Scope string_scope.
Local Open Scope list_scope.

Abbreviation Uuid := N (only parsing).

(** ** API errors *)

Record ApiError := { http_status : Z; error_code : string; error_message : string }.

Definition bad_request (code message : string) : ApiError :=
  {| http_status := 400; error_code := code; error_message := message |}.
Definition unauthorized : ApiError :=
  {| http_status := 401; error_code := "authentication_required";
     error_message := "valid authentication is required" |}.
Definition not_found : ApiError :=
  {| http_status := 404; error_code := "not_found"; error_message := "resource not found" |}.
Definition conflict (code message : string) : ApiError :=
  {| http_status := 409; error_code := code; error_message := message |}.
Definition unprocessable (code message : string) : ApiError :=
  {| http_status := 422; error_code := code; error_message := message |}.
Definition unavailable (code message : string) : ApiError :=
  {| http_status := 503; error_code := code; error_message := message |}.
Definition precondition_required : ApiError :=
  {| http_status := 428; error_code := "if_match_required";
     error_message := "a quoted If-Match revision is required" |}.
Definition stale_revision : ApiError :=
  {| http_status := 412; error_code := "stale_revision";
     error_message := "the resource revision has changed" |}.
Definition database_unavailable : ApiError :=
  {| http_status := 503; error_code := "database_unavailable";
     error_message := "the durable database dependency is unavailable" |}.
Definition foundation_unavailable : ApiError :=
  {| http_status := 503; error_code := "foundation_unavailable";
     error_message := "the durable control foundation is unavailable" |}.
Definition internal : ApiError :=
  {| http_status := 500; error_code := "internal_error";
     error_message := "the request could not be completed" |}.

(** ** Computations *)

(** What the outside world supplies: successive clock readings and random
    identifiers, and the rows other transactions have locked at a given tick. *)
Record Env := {
  clock : nat -> Z;
  fresh : nat -> Uuid;
  row_locked : nat -> Uuid -> bool;
}.

Record World (D : Type) := MkWorld { db : D; ticks : nat; drawn : nat }.
Arguments MkWorld {D} _ _ _.
Arguments db {D} _.
Arguments ticks {D} _.
Arguments drawn {D} _.

Definition M (D A : Type) : Type := Env -> World D -> res ApiError A * World D.

Definition tret {D A} (a : A) : M D A := fun _ w => (Ok a, w).

Definition tbind {D A B} (m : M D A) (k : A -> M D B) : M D B := fun env w =>
  match m env w with
  | (Ok a, w') => k a env w'
  | (Err e, w') => (Err e, w')
  end.

Definition raise {D A} (e : ApiError) : M D A := fun _ w => (Err e, w).

(** [?] on a pure result. *)
Definition lift {D A} (r : res ApiError A) : M D A := fun _ w => (r, w).

Definition get_db {D} : M D D := fun _ w => (Ok (db w), w).
Definition put_db {D} (d : D) : M D unit := fun _ w =>
  (Ok tt, MkWorld d (ticks w) (drawn w)).

Definition clock_timestamp {D} : M D Z := fun env w =>
  (Ok (clock env (ticks w)), MkWorld (db w) (S (ticks w)) (drawn w)).

Definition new_uuid {D} : M D Uuid := fun env w =>
  (Ok (fresh env (drawn w)), MkWorld (db w) (ticks w) (S (drawn w))).

Definition locked_rows {D} : M D (Uuid -> bool) := fun env w =>
  (Ok (row_locked env (ticks w)), w).

(** [begin] ... [commit]: the body returns the handler's result once it has
    committed; if it fails instead, the transaction is dropped. *)
Definition transaction {D A} (body : M D (res ApiError A)) : M D A := fun env w =>
  match body env w with
  | (Ok r, w') => (r, w')
  | (Err e, w') => (Err e, MkWorld (db w) (ticks w') (drawn w'))
  end.

Declare Scope tx_scope.
Delimit Scope tx_scope with tx.
Notation "x '<~' m ';;' k" := (tbind m (fun x => k))
  (at level 100, m at next level, k at level 200, right associativity) : tx_scope.
Notation "''' p '<~' m ';;' k" := (tbind m (fun x => match x with p => k end))
  (at level 100, p pattern, m at next level, k at level 200, right associativity) : tx_scope.
Notation "m ';;;' k" := (tbind m (fun _ => k))
  (at level 100, k at level 200, right associativity) : tx_scope.
Open Scope tx_scope.

(** [if cond { return Err(e) }] inside a transaction that is then dropped. *)
Definition reject_if {D} (cond : bool) (e : ApiError) : M D unit :=
  if cond then raise e else tret tt.

(** The status of a response, 201 or 200, and its body. *)
Inductive Answer (A : Type) := Created (a : A) | Found (a : A).
Arguments Created {A} a.
Arguments Found {A} a.

(** A computation on one part of the database. *)
Definition zoom {D E A} (get : D -> E) (set : E -> D -> D) (m : M E A) : M D A := fun env w =>
  match m env (MkWorld (get (db w)) (ticks w) (drawn w)) with
  | (r, w') => (r, MkWorld (set (db w') (db w)) (ticks w') (drawn w'))
  end.

(** ** Statements *)

(** A failed constraint or a numeric overflow surfaces as a database error. *)
Definition sql {D A} (o : option A) : M D A :=
  match o with Some a => tret a | None => raise database_unavailable end.

(** [bigint + 1] and [integer + 1] in PostgreSQL raise on overflow. *)
Definition bigint_succ (v : Z) : option Z := if (v <? max_i64)%Z then Some (v + 1)%Z else None.

Section Tables.
Context {K : Type} `{Countable K} {R : Type}.

(** [INSERT]: fails when the primary key exists or a CHECK does not hold. *)
Definition insert_pk (check : R -> bool) (k : K) (r : R) (t : gmap K R) : option (gmap K R) :=
  match t !! k with
  | Some _ => None
  | None => if check r then Some (<[k := r]> t) else None
  end.

(** [UPDATE ... WHERE pk = k AND cond]: the table and [rows_affected()]. *)
Definition update_pk (check cond : R -> bool) (f : R -> option R) (k : K) (t : gmap K R)
    : option (gmap K R * nat) :=
  match t !! k with
  | Some r =>
      if cond r then
        match f r with
        | Some r' => if check r' then Some (<[k := r']> t, 1) else None
        | None => None
        end
      else Some (t, 0)
  | None => Some (t, 0)
  end.

(** The row a [SELECT ... WHERE keep ORDER BY le LIMIT 1] returns. *)
Definition select_first (keep : K -> R -> bool) (le : R -> R -> bool) (t : gmap K R)
    : option R :=
  fold_right (fun kr best =>
    if keep kr.1 kr.2 then
      match best with
      | Some b => if le kr.2 b then Some kr.2 else Some b
      | None => Some kr.2
      end
    else best) None (map_to_list t).

(** [SELECT EXISTS(... WHERE keep)]. *)
Definition exists_row (keep : R -> bool) (t : gmap K R) : bool :=
  existsb (fun kr => keep kr.2) (map_to_list t).

(** [SELECT count of rows WHERE keep]. *)
Definition count_where (keep : R -> bool) (t : gmap K R) : nat :=
  size (filter (fun kr => keep kr.2 = true) t).
End Tables.

(** ** Sums over a table *)

Section Sums.
Context {K : Type} `{Countable K} {R : Type}.
Implicit Types (f g : K -> R -> Z) (t : gmap K R).

Definition table_sum f t : Z := map_fold (fun k r acc => f k r + acc)%Z 0%Z t.

Lemma table_sum_insert f t k r :
  t !! k = None -> table_sum f (<[k := r]> t) = (f k r + table_sum f t)%Z.
Proof.
  intros Hk. unfold table_sum. rewrite map_fold_insert_L; [done|intros; lia|done].
Qed.

Lemma table_sum_delete f t k r :
  t !! k = Some r -> table_sum f t = (f k r + table_sum f (delete k t))%Z.
Proof.
  intros Hk. rewrite <- (insert_delete_id t k r Hk) at 1.
  by rewrite table_sum_insert by apply lookup_delete_eq.
Qed.

Lemma table_sum_ext f g t :
  (forall k r, t !! k = Some r -> f k r = g k r) -> table_sum f t = table_sum g t.
Proof.
  induction t as [|k r t Hk IH] using map_ind; intros Hfg; [done|].
  rewrite !table_sum_insert by done. rewrite (Hfg k r) by apply lookup_insert_eq.
  rewrite IH; [done|]. intros k0 r0 Hl. apply Hfg. rewrite lookup_insert_ne; [done|].
  intros <-. congruence.
Qed.

Lemma table_sum_nonneg f t :
  (forall k r, t !! k = Some r -> 0 <= f k r)%Z -> (0 <= table_sum f t)%Z.
Proof.
  induction t as [|k r t Hk IH] using map_ind; intros Hf; [done|].
  rewrite table_sum_insert by done.
  pose proof (Hf k r ltac:(apply lookup_insert_eq)).
  assert (0 <= table_sum f t)%Z; [|lia].
  apply IH. intros k0 r0 Hl. apply (Hf k0). rewrite lookup_insert_ne; [done|].
  intros <-. congruence.
Qed.
End Sums.

(** ** Lemmas *)

Section TableLemmas.
Context {K : Type} `{Countable K} {R : Type}.
Implicit Types (t : gmap K R) (k : K) (r : R).

Lemma insert_pk_Some check k r t t' :
  insert_pk check k r t = Some t' <->
  t !! k = None /\ check r = true /\ t' = <[k := r]> t.
Proof.
  unfold insert_pk. destruct (t !! k); [naive_solver|].
  destruct (check r); naive_solver.
Qed.

Lemma update_pk_Some check cond f k t t' n :
  update_pk check cond f k t = Some (t', n) ->
  (t' = t /\ n = 0 /\ forall r, t !! k = Some r -> cond r = false) \/
  (n = 1 /\ exists r r', t !! k = Some r /\ cond r = true /\ f r = Some r' /\
     check r' = true /\ t' = <[k := r']> t).
Proof.
  unfold update_pk. destruct (t !! k) as [r|] eqn:E; [|intros [= <- <-]; left; naive_solver].
  destruct (cond r) eqn:Ec; [|intros [= <- <-]; left; naive_solver].
  destruct (f r) as [r'|] eqn:Ef; [|done]. destruct (check r') eqn:Ek; [|done].
  intros [= <- <-]. right. split; [done|]. by exists r, r'.
Qed.

(** [select_first] returns a row of the table that satisfies the filter. *)
Lemma select_first_in keep le t r :
  select_first keep le t = Some r -> exists k, t !! k = Some r /\ keep k r = true.
Proof.
  unfold select_first. setoid_rewrite <- elem_of_map_to_list.
  induction (map_to_list t) as [|[k0 r0] l IH]; simpl; [done|].
  destruct (keep k0 r0) eqn:Ek.
  - destruct (fold_right _ _ l) as [b|] eqn:Eb.
    + destruct (le r0 b); intros [= <-].
      * exists k0. split; [left|done].
      * destruct (IH eq_refl) as (k & ? & ?). exists k. split; [by right|done].
    + intros [= <-]. exists k0. split; [left|done].
  - intros Hr. destruct (IH Hr) as (k & ? & ?). exists k. split; [by right|done].
Qed.

Lemma select_first_none keep le t :
  select_first keep le t = None -> forall k r, t !! k = Some r -> keep k r = false.
Proof.
  unfold select_first. setoid_rewrite <- elem_of_map_to_list.
  induction (map_to_list t) as [|[k0 r0] l IH]; simpl; intros Hn k r Hin.
  - by apply not_elem_of_nil in Hin.
  - destruct (keep k0 r0) eqn:Ek.
    + destruct (fold_right _ _ l); [destruct (le _ _)|]; done.
    + apply elem_of_cons in Hin as [[= -> ->]|Hin]; [done|]. by apply (IH Hn k).
Qed.

(** ... and no row that satisfies the filter comes strictly before it. *)
Lemma select_first_least keep (le : R -> R -> bool) t r :
  (forall a b c, le a b = true -> le b c = true -> le a c = true) ->
  (forall a b, le a b = true \/ le b a = true) ->
  select_first keep le t = Some r ->
  forall k r', t !! k = Some r' -> keep k r' = true -> le r r' = true.
Proof.
  intros Htrans Htot. unfold select_first. setoid_rewrite <- elem_of_map_to_list.
  assert (Hrefl : forall a, le a a = true) by (intros a; by destruct (Htot a a)).
  revert r. induction (map_to_list t) as [|[k0 r0] l IH]; simpl; intros r Hr k r' Hin Hk.
  - by apply not_elem_of_nil in Hin.
  - destruct (fold_right _ _ l) as [b|] eqn:Eb.
    + apply elem_of_cons in Hin as [[= <- <-]|Hin].
      * rewrite Hk in Hr. destruct (le r' b) eqn:El; injection Hr as <-; [done|].
        destruct (Htot r' b); congruence.
      * specialize (IH b eq_refl k r' Hin Hk).
        destruct (keep k0 r0); [|by injection Hr as <-].
        destruct (le r0 b) eqn:El; injection Hr as <-; eauto.
    + assert (Hl : forall k r, (k, r) ∈ l -> keep k r = false).
      { clear -Eb. induction l as [|[k1 r1] l IH]; simpl in *; intros k r Hin.
        - by apply not_elem_of_nil in Hin.
        - destruct (keep k1 r1) eqn:Ek.
          + destruct (fold_right _ _ l); [destruct (le _ _)|]; done.
          + apply elem_of_cons in Hin as [[= -> ->]|Hin]; [done|]. by apply IH. }
      apply elem_of_cons in Hin as [[= <- <-]|Hin].
      * rewrite Hk in Hr. injection Hr as <-. apply Hrefl.
      * rewrite (Hl k r' Hin) in Hk. done.
Qed.

(** Counting after an insertion, a replacement and a bulk update. *)
Lemma count_insert_new keep t k r :
  t !! k = None ->
  Z.of_nat (count_where keep (<[k := r]> t)) = (Z.of_nat (count_where keep t) + Z.b2z (keep r))%Z.
Proof.
  intros Hk. unfold count_where. destruct (keep r) eqn:E.
  - rewrite map_filter_insert_True by done. rewrite map_size_insert_None.
    2: { apply map_lookup_filter_None. by left. }
    simpl. lia.
  - rewrite map_filter_insert_False by (simpl; congruence).
    rewrite delete_id by done. simpl. lia.
Qed.

Lemma count_replace keep t k r r' :
  t !! k = Some r ->
  Z.of_nat (count_where keep (<[k := r']> t)) =
    (Z.of_nat (count_where keep t) - Z.b2z (keep r) + Z.b2z (keep r'))%Z.
Proof.
  intros Hk. rewrite <- (insert_delete_id t k r Hk) at 2.
  rewrite <- insert_delete_eq, !count_insert_new by apply lookup_delete_eq. lia.
Qed.

Lemma count_fmap_le keep (f : R -> R) t :
  (forall k r, t !! k = Some r -> keep (f r) = true -> keep r = true) ->
  (count_where keep (f <$> t) <= count_where keep t)%nat.
Proof.
  unfold count_where. induction t as [|k r t Hk IH] using map_ind; intros Hf.
  - by rewrite fmap_empty.
  - assert (Hf' : forall k0 r0, t !! k0 = Some r0 -> keep (f r0) = true -> keep r0 = true).
    { intros k0 r0 Hl. apply (Hf k0). rewrite lookup_insert_ne; [done|]. intros <-. congruence. }
    specialize (IH Hf'). specialize (Hf k r ltac:(by rewrite lookup_insert_eq)).
    apply Nat2Z.inj_le. rewrite fmap_insert.
    pose proof (count_insert_new keep t k r Hk) as H1. unfold count_where in H1. rewrite H1.
    pose proof (count_insert_new keep (f <$> t) k (f r)) as H2. unfold count_where in H2.
    rewrite H2 by (by rewrite lookup_fmap, Hk).
    destruct (keep (f r)); [rewrite Hf by done|]; destruct (keep r); simpl; lia.
Qed.

Lemma exists_row_spec keep t :
  exists_row keep t = true <-> exists k r, t !! k = Some r /\ keep r = true.
Proof.
  unfold exists_row. rewrite existsb_exists. split.
  - intros ([k r] & Hin%list_elem_of_In & Hk). apply elem_of_map_to_list in Hin. eauto.
  - intros (k & r & Hl & Hk). exists (k, r). split; [|done].
    by apply list_elem_of_In, elem_of_map_to_list.
Qed.

Lemma exists_row_false keep t :
  exists_row keep t = false -> forall k r, t !! k = Some r -> keep r = false.
Proof.
  intros Hf k r Hl. destruct (keep r) eqn:E; [|done].
  assert (exists_row keep t = true) by (apply exists_row_spec; eauto). congruence.
Qed.

Lemma count_where_0 keep t : (forall k r, t !! k = Some r -> keep r = false) -> count_where keep t = 0%nat.
Proof.
  intros Hn. unfold count_where. apply map_size_empty_iff, map_empty. intros k.
  apply map_lookup_filter_None. right. intros r Hr. simpl. by rewrite (Hn _ _ Hr).
Qed.
End TableLemmas.

(** ** Inverting computations

    [tx_inv H] turns a hypothesis [m env w = (Ok a, w')] into the values and
    worlds of the steps of [m], one level at a time. *)

Lemma tbind_Ok {D A B} (m : M D A) (k : A -> M D B) env w b w' :
  tbind m k env w = (Ok b, w') ->
  exists a w1, m env w = (Ok a, w1) /\ k a env w1 = (Ok b, w').
Proof. unfold tbind. destruct (m env w) as [[a|e] w1]; [eauto|done]. Qed.

(** Running the first step of a computation. *)
Lemma tbind_run {D A B} (m : M D A) (k : A -> M D B) env w r w1 :
  m env w = (r, w1) ->
  tbind m k env w = match r with Ok a => k a env w1 | Err e => (Err e, w1) end.
Proof. unfold tbind. by intros ->. Qed.

Lemma tret_Ok {D A} (a b : A) env (w w' : World D) :
  tret a env w = (Ok b, w') -> b = a /\ w' = w.
Proof. unfold tret. naive_solver. Qed.

Lemma raise_Ok {D A} e env (w w' : World D) (b : A) : raise e env w = (Ok b, w') -> False.
Proof. unfold raise. naive_solver. Qed.

Lemma lift_Ok {D A} (r : res ApiError A) env (w w' : World D) b :
  lift r env w = (Ok b, w') -> r = Ok b /\ w' = w.
Proof. unfold lift. naive_solver. Qed.

Lemma sql_Ok {D A} (o : option A) env (w w' : World D) b :
  sql o env w = (Ok b, w') -> o = Some b /\ w' = w.
Proof. unfold sql. destruct o; unfold tret, raise; naive_solver. Qed.

Lemma reject_if_Ok {D} cond e env (w w' : World D) u :
  reject_if cond e env w = (Ok u, w') -> cond = false /\ w' = w.
Proof. unfold reject_if. destruct cond; unfold tret, raise; naive_solver. Qed.

Lemma get_db_Ok {D} env (w w' : World D) d :
  get_db env w = (Ok d, w') -> d = db w /\ w' = w.
Proof. unfold get_db. naive_solver. Qed.

Lemma put_db_Ok {D} d env (w w' : World D) u :
  put_db d env w = (Ok u, w') -> w' = MkWorld d (ticks w) (drawn w).
Proof. unfold put_db. naive_solver. Qed.

Lemma clock_Ok {D} env (w w' : World D) t :
  clock_timestamp env w = (Ok t, w') ->
  t = clock env (ticks w) /\ w' = MkWorld (db w) (S (ticks w)) (drawn w).
Proof. unfold clock_timestamp. naive_solver. Qed.

Lemma new_uuid_Ok {D} env (w w' : World D) u :
  new_uuid env w = (Ok u, w') ->
  u = fresh env (drawn w) /\ w' = MkWorld (db w) (ticks w) (S (drawn w)).
Proof. unfold new_uuid. naive_solver. Qed.

Lemma locked_rows_Ok {D} env (w w' : World D) f :
  locked_rows env w = (Ok f, w') -> f = row_locked env (ticks w) /\ w' = w.
Proof. unfold locked_rows. naive_solver. Qed.

Lemma bigint_succ_Some v v' : bigint_succ v = Some v' -> v' = (v + 1)%Z /\ (v + 1 <= max_i64)%Z.
Proof. unfold bigint_succ. case_match; [|done]. intros [= <-]. bool_simpl. lia. Qed.

(** A transaction either leaves the database as it was or commits its body. *)
Lemma transaction_cases {D A} (body : M D (res ApiError A)) env w r w' :
  transaction body env w = (r, w') ->
  (exists e, r = Err e /\ db w' = db w) \/
  body env w = (Ok r, w').
Proof.
  unfold transaction. destruct (body env w) as [[r'|e] w1]; intros [= <- <-]; eauto.
Qed.

(** A handler whose input check fails changes nothing. *)
Lemma lift_cases {D A B} (m : res ApiError A) (k : A -> M D B) env (w : World D) r w' :
  tbind (lift m) k env w = (r, w') ->
  (exists e, m = Err e /\ r = Err e /\ w' = w) \/ exists a, m = Ok a /\ k a env w = (r, w').
Proof. unfold tbind, lift. destruct m; [eauto|]. intros [= <- <-]. eauto. Qed.

Ltac tx_step H :=
  let a := fresh "v" in let w1 := fresh "w" in let H1 := fresh "E" in
  match type of H with
  | tbind _ _ _ _ = (Ok _, _) =>
      apply tbind_Ok in H; destruct H as (a & w1 & H1 & H); tx_step H1
  | tret _ _ _ = (Ok _, _) => apply tret_Ok in H; destruct H as [H ?]; subst
  | raise _ _ _ = (Ok _, _) => apply raise_Ok in H; destruct H
  | lift _ _ _ = (Ok _, _) => apply lift_Ok in H; destruct H as [H ?]; subst
  | sql _ _ _ = (Ok _, _) => apply sql_Ok in H; destruct H as [H ?]; subst
  | reject_if _ _ _ _ = (Ok _, _) => apply reject_if_Ok in H; destruct H as [H ?]; subst
  | get_db _ _ = (Ok _, _) => apply get_db_Ok in H; destruct H as [H ?]; subst
  | put_db _ _ _ = (Ok _, _) => apply put_db_Ok in H; subst
  | clock_timestamp _ _ = (Ok _, _) => apply clock_Ok in H; destruct H as [H ?]; subst
  | new_uuid _ _ = (Ok _, _) => apply new_uuid_Ok in H; destruct H as [H ?]; subst
  | locked_rows _ _ = (Ok _, _) => apply locked_rows_Ok in H; destruct H as [H ?]; subst
  | _ => idtac
  end.

Ltac tx_inv H := repeat progress (tx_step H; cbn [db ticks drawn] in *).

(** ** Running computations

    [runs m env w Q]: the computation returns a value, and [Q] holds of it and
    of the world it leaves.  [tx_run] steps through the primitives. *)

Definition runs {D A} (m : M D A) (env : Env) (w : World D) (Q : A -> World D -> Prop) : Prop :=
  exists a w', m env w = (Ok a, w') /\ Q a w'.

Section Runs.
Context {D : Type} (env : Env).
Implicit Types w : World D.

Lemma runs_bind {A B} (m : M D A) (k : A -> M D B) w Q :
  runs m env w (fun a w1 => runs (k a) env w1 Q) -> runs (tbind m k) env w Q.
Proof.
  intros (a & w1 & Hm & b & w2 & Hk & HQ). exists b, w2. unfold tbind. by rewrite Hm.
Qed.

Lemma runs_ret {A} (a : A) w (Q : A -> World D -> Prop) : Q a w -> runs (tret a) env w Q.
Proof. intros HQ. by exists a, w. Qed.

Lemma runs_lift {A} (r : res ApiError A) a w (Q : A -> World D -> Prop) :
  r = Ok a -> Q a w -> runs (lift r) env w Q.
Proof. intros -> HQ. by exists a, w. Qed.

Lemma runs_sql {A} (o : option A) a w (Q : A -> World D -> Prop) :
  o = Some a -> Q a w -> runs (sql o) env w Q.
Proof. intros -> HQ. by exists a, w. Qed.

Lemma runs_get_db w (Q : D -> World D -> Prop) : Q (db w) w -> runs get_db env w Q.
Proof. intros HQ. by eexists _, w. Qed.

Lemma runs_put_db d w (Q : unit -> World D -> Prop) :
  Q tt (MkWorld d (ticks w) (drawn w)) -> runs (put_db d) env w Q.
Proof. intros HQ. by eexists _, _. Qed.

Lemma runs_clock w (Q : Z -> World D -> Prop) :
  Q (clock env (ticks w)) (MkWorld (db w) (S (ticks w)) (drawn w)) ->
  runs clock_timestamp env w Q.
Proof. intros HQ. by eexists _, _. Qed.

Lemma runs_uuid w (Q : Uuid -> World D -> Prop) :
  Q (fresh env (drawn w)) (MkWorld (db w) (ticks w) (S (drawn w))) -> runs new_uuid env w Q.
Proof. intros HQ. by eexists _, _. Qed.

Lemma runs_locked w (Q : (Uuid -> bool) -> World D -> Prop) :
  Q (row_locked env (ticks w)) w -> runs locked_rows env w Q.
Proof. intros HQ. by eexists _, w. Qed.

Lemma runs_transaction {A} (body : M D (res ApiError A)) w (Q : A -> World D -> Prop) :
  runs body env w (fun r w' => exists a, r = Ok a /\ Q a w') -> runs (transaction body) env w Q.
Proof.
  intros (r & w' & Hb & a & -> & HQ). exists a, w'. unfold transaction. by rewrite Hb.
Qed.

Lemma runs_eq {A} (m : M D A) w a w' (Q : A -> World D -> Prop) :
  m env w = (Ok a, w') -> Q a w' -> runs m env w Q.
Proof. intros Hm HQ. by exists a, w'. Qed.
End Runs.

Ltac tx_run :=
  repeat lazymatch goal with
  | |- runs (tbind _ _) _ _ _ => apply runs_bind
  | |- runs get_db _ _ _ => apply runs_get_db
  | |- runs (put_db _) _ _ _ => apply runs_put_db
  | |- runs clock_timestamp _ _ _ => apply runs_clock
  | |- runs new_uuid _ _ _ => apply runs_uuid
  | |- runs locked_rows _ _ _ => apply runs_locked
  | |- runs (tret _) _ _ _ => apply runs_ret
  | |- runs (transaction _) _ _ _ => apply runs_transaction
  end; cbn [db ticks drawn].

(** ** Computations that leave the database alone *)

Definition read_only {D A} (m : M D A) : Prop := forall env w r w',
  m env w = (r, w') -> db w' = db w.

Section ReadOnly.
Context {D : Type}.

Lemma ro_ret {A} (a : A) : read_only (D := D) (tret a).
Proof. intros env w r w' [= _ <-]. done. Qed.
Lemma ro_raise {A} e : read_only (D := D) (A := A) (raise e).
Proof. intros env w r w' [= _ <-]. done. Qed.
Lemma ro_lift {A} (r : res ApiError A) : read_only (D := D) (lift r).
Proof. intros env w r' w' [= _ <-]. done. Qed.
Lemma ro_get_db : read_only (D := D) get_db.
Proof. intros env w r w' [= _ <-]. done. Qed.
Lemma ro_clock : read_only (D := D) clock_timestamp.
Proof. intros env w r w' [= _ <-]. done. Qed.
Lemma ro_uuid : read_only (D := D) new_uuid.
Proof. intros env w r w' [= _ <-]. done. Qed.
Lemma ro_locked : read_only (D := D) locked_rows.
Proof. intros env w r w' [= _ <-]. done. Qed.

Lemma ro_bind {A B} (m : M D A) (k : A -> M D B) :
  read_only m -> (forall a, read_only (k a)) -> read_only (tbind m k).
Proof.
  intros Hm Hk env w r w'. unfold tbind. destruct (m env w) as [[a|e] w1] eqn:E.
  - intros H. rewrite (Hk _ _ _ _ _ H). exact (Hm _ _ _ _ E).
  - intros [= _ <-]. exact (Hm _ _ _ _ E).
Qed.

Lemma ro_transaction {A} (m : M D (res ApiError A)) : read_only m -> read_only (transaction m).
Proof.
  intros Hm env w r w' [(e & -> & ->)|H]%transaction_cases; [done|]. exact (Hm _ _ _ _ H).
Qed.

(** ... so the world they leave differs in its supplies only. *)
Lemma read_only_world {A} (m : M D A) env w r w' :
  read_only m -> m env w = (r, w') -> exists t n, w' = MkWorld (db w) t n.
Proof. intros Hm H. rewrite <- (Hm _ _ _ _ H). destruct w' as [d t n]. eauto. Qed.
End ReadOnly.

Create HintDb read_only.
#[export] Hint Resolve ro_ret ro_raise ro_lift ro_get_db ro_clock ro_uuid ro_locked : read_only.

(** Walk through a computation's text. *)
Ltac read_only :=
  repeat first
    [ progress intros
    | solve [auto with read_only]
    | apply ro_bind
    | apply ro_transaction
    | match goal with
      | |- read_only (reject_if _ _) => unfold reject_if
      | |- read_only (sql _) => unfold sql
      | |- context [match ?x with _ => _ end] => destruct x
      end ].

(** Replace the world a read-only step leaves. *)
Ltac tx_reads :=
  repeat match goal with
  | E : ?m ?env ?w = (_, ?w') |- _ =>
      is_var w';
      let Hr := fresh in let t := fresh "t" in let n := fresh "n" in
      assert (read_only m) as Hr by (auto with read_only);
      pose proof (read_only_world _ _ _ _ _ Hr E) as (t & n & ->);
      clear Hr; cbn [db ticks drawn] in *
  end.

(** ** Computations that relate the databases before and after

    Whatever the result: what a failing handler has committed counts. *)

Definition keeps {D A} (P : D -> D -> Prop) (m : M D A) : Prop := forall env w r w',
  m env w = (r, w') -> P (db w) (db w').

Section Keeps.
Context {D : Type} (P : D -> D -> Prop) `{!PreOrder P}.

Lemma keeps_read_only {A} (m : M D A) : read_only m -> keeps P m.
Proof. intros Hm env w r w' H. by rewrite (Hm _ _ _ _ H). Qed.

Lemma keeps_bind {A B} (m : M D A) (k : A -> M D B) :
  keeps P m -> (forall a, keeps P (k a)) -> keeps P (tbind m k).
Proof.
  intros Hm Hk env w r w'. unfold tbind. destruct (m env w) as [[a|e] w1] eqn:E.
  - intros H. etrans; [exact (Hm _ _ _ _ E)|exact (Hk _ _ _ _ _ H)].
  - intros [= _ <-]. exact (Hm _ _ _ _ E).
Qed.

Lemma keeps_lift {A B} (x : res ApiError A) (k : A -> M D B) :
  (forall a, x = Ok a -> keeps P (k a)) -> keeps P (tbind (lift x) k).
Proof.
  intros Hk env w r w' H. apply lift_cases in H as [(e & _ & _ & ->)|(a & Ha & H)]; [done|].
  exact (Hk a Ha _ _ _ _ H).
Qed.

Lemma keeps_reject {B} c e (k : unit -> M D B) :
  (c = false -> keeps P (k tt)) -> keeps P (tbind (reject_if c e) k).
Proof.
  intros Hk env w r w'. unfold reject_if. destruct c; cbn; [by intros [= _ <-]|].
  intros H. exact (Hk eq_refl _ _ _ _ H).
Qed.

Lemma keeps_transaction {A} (body : M D (res ApiError A)) :
  (forall env w r w', body env w = (Ok r, w') -> P (db w) (db w')) -> keeps P (transaction body).
Proof.
  intros Hb env w r w' [(e & -> & ->)|H]%transaction_cases; [done|]. exact (Hb _ _ _ _ H).
Qed.

Lemma keeps_ok_all {A} (m : M D A) :
  keeps P m -> forall env w a w', m env w = (Ok a, w') -> P (db w) (db w').
Proof. intros Hm env w a w'. apply Hm. Qed.
End Keeps.

(** Walk through the reads and checks at the head of a computation. *)
Ltac keeps_ro := apply keeps_read_only; [apply _|solve [read_only]].
Ltac keeps_step :=
  lazymatch goal with
  | |- keeps _ (tbind (lift _) _) => apply keeps_lift; [apply _|intros ? ?]
  | |- keeps _ (tbind (reject_if _ _) _) => apply keeps_reject; [apply _|intros ?]
  | |- keeps _ (tbind _ _) => apply keeps_bind; [apply _|try keeps_ro|intros ?]
  | |- keeps _ (transaction _) => apply keeps_transaction; [apply _|]
  | |- keeps _ _ => keeps_ro
  end.
