(* ===== verification/Intent.v ===== *)
(** * Request preconditions and idempotent replay (crates/control/src/intent.rs)

    The headers a mutating request must carry, and the table that makes such a
    request idempotent: a completed request stores its response under
    [(actor, operation, key)] with a hash of its payload, and is answered from
    that record when it is repeated. *)

From stdpp Require Import base list option gmap strings pretty.
From Stdlib Require Import ZArith Lia Ascii.
From S2P Require Import Prelude RustText Bytes PgTx.

Local Open Scope string_scope.
Local Open Scope list_scope.

Definition MAX_IDEMPOTENCY_KEY_BYTES : nat := 128.

(** ** Headers

    A header is absent ([None]), present with a value [to_str] refuses
    ([Some None]), or present with a string. *)
Record Headers := {
  h_idempotency_key : option (option string);
  h_if_match : option (option string);
}.

(** [u8::is_ascii_control], [u8::is_ascii_graphic], [u8::is_ascii_digit]. *)
Definition is_ascii_control (b : Z) : bool := ((b <? 32) || (b =? 127))%Z.
Definition is_ascii_graphic (b : Z) : bool := ((33 <=? b) && (b <=? 126))%Z.
Definition is_ascii_digit (b : Z) : bool := ((48 <=? b) && (b <=? 57))%Z.
Definition is_lower_hex_letter (b : Z) : bool := ((97 <=? b) && (b <=? 102))%Z.

Definition idempotency_key (headers : Headers) : res ApiError string :=
  match mjoin (h_idempotency_key headers) with
  | None => Err (bad_request "idempotency_key_required"
                   "a valid Idempotency-Key header is required")
  | Some key =>
      if bool_decide (key = "") || (MAX_IDEMPOTENCY_KEY_BYTES <? String.length key)%nat
         || existsb is_ascii_control (as_bytes key)
      then Err (bad_request "invalid_idempotency_key"
                  "Idempotency-Key must contain between 1 and 128 non-control bytes")
      else Ok key
  end.

(** [str::parse::<i64>]. *)
Definition digits_val (ds : bytes) : Z := fold_left (fun acc d => acc * 10 + (d - 48))%Z ds 0%Z.

Definition parse_digits (sign : Z) (ds : bytes) : option Z :=
  if bool_decide (ds = []) || negb (forallb is_ascii_digit ds) then None
  else let v := (sign * digits_val ds)%Z in
       if (min_i64 <=? v)%Z && (v <=? max_i64)%Z then Some v else None.

Definition parse_i64 (s : bytes) : option Z :=
  match s with
  | [] => None
  | c :: ds =>
      if (c =? 45)%Z then parse_digits (-1) ds
      else if (c =? 43)%Z then parse_digits 1 ds
      else parse_digits 1 s
  end.

(** [strip_prefix('"')] and [strip_suffix('"')]; 34 is the double quote. *)
Definition strip_prefix (c : Z) (s : bytes) : option bytes :=
  match s with d :: s' => if (d =? c)%Z then Some s' else None | [] => None end.
Definition strip_suffix (c : Z) (s : bytes) : option bytes :=
  match last s with
  | Some d => if (d =? c)%Z then Some (removelast s) else None
  | None => None
  end.

Definition malformed_if_match : ApiError :=
  bad_request "malformed_if_match" "If-Match must contain one quoted positive revision".

Definition if_match_revision (headers : Headers) : res ApiError Z :=
  match h_if_match headers with
  | None => Err precondition_required
  | Some None => Err malformed_if_match
  | Some (Some value) =>
      match strip_prefix 34 (as_bytes value) ≫= strip_suffix 34 with
      | None => Err malformed_if_match
      | Some unquoted =>
          match parse_i64 unquoted with
          | Some v => if (0 <? v)%Z then Ok v else Err malformed_if_match
          | None => Err malformed_if_match
          end
      end
  end.

(** The caller of an owner's request, once its session has been checked.  The
    account's identifier is the server's own, so [account_id()] returns it. *)
Record Authenticated := { account_id : Uuid; session_id : Uuid }.

(** [Uuid::parse_str] is third-party code: a parameter. *)
Definition path_uuid (parse_uuid : string -> option Uuid) (value : string) : res ApiError Uuid :=
  match parse_uuid value with
  | Some id => Ok id
  | None => Err (bad_request "invalid_id" "the resource id is invalid")
  end.

Definition idempotency_changed : ApiError :=
  conflict "idempotency_payload_changed"
    "the idempotency key was already used with a different request".

(** ** The idempotency table and the audit trail *)

Record IdemRow (B : Type) := MkIdemRow {
  request_hash : string;
  response_status : Z;
  response_body : B;
}.
Arguments MkIdemRow {B} _ _ _.
Arguments request_hash {B} _.
Arguments response_status {B} _.
Arguments response_body {B} _.

Record AuditEvent := {
  ae_account : option Uuid;
  ae_session : option Uuid;
  ae_event_type : string;
  ae_target_type : string;
  ae_target_id : option Uuid;
  ae_outcome : string;
  ae_worker : option (string * Uuid * Z);
}.

(** What a component's database offers to the request preconditions: the shared
    idempotency and audit tables, with the lens laws that keep them apart. *)
Class IntentStore (D B : Type) := {
  idempotency_records : D -> gmap (Uuid * string * string) (IdemRow B);
  set_idempotency_records : gmap (Uuid * string * string) (IdemRow B) -> D -> D;
  audit_events : D -> list AuditEvent;
  set_audit_events : list AuditEvent -> D -> D;
}.

Class IntentStoreLaws (D B : Type) `{IntentStore D B} := {
  idem_set_idem : forall t d, idempotency_records (set_idempotency_records t d) = t;
  idem_set_audit : forall l d, idempotency_records (set_audit_events l d) = idempotency_records d;
  audit_set_audit : forall l d, audit_events (set_audit_events l d) = l;
  audit_set_idem : forall t d, audit_events (set_idempotency_records t d) = audit_events d;
}.

Inductive Replay (T : Type) := Miss | Match (response : T) | Changed.
Arguments Miss {T}.
Arguments Match {T} response.
Arguments Changed {T}.

Section Store.
Context {D B : Type} `{IntentStore D B}.

(** [from_value] reads a stored response body back as a [T]. *)
Definition replay {T} (from_value : B -> option T) (actor : Uuid) (operation key hash : string)
    : M D (Replay T) :=
  d <~ get_db;;
  match idempotency_records d !! (actor, operation, key) with
  | None => tret Miss
  | Some row =>
      if negb (bool_decide (request_hash row = hash)) then tret Changed
      else match from_value (response_body row) with
           | Some t => tret (Match t)
           | None => raise internal
           end
  end.

Definition store_replay (actor : Uuid) (operation key hash : string) (status : Z) (body : B)
    : M D unit :=
  d <~ get_db;;
  t <~ sql (insert_pk (fun _ => true) (actor, operation, key) (MkIdemRow hash status body)
              (idempotency_records d));;
  put_db (set_idempotency_records t d).

Definition audit (actor session : Uuid) (event_type target_type : string)
    (target_id : option Uuid) (outcome : string) : M D unit :=
  d <~ get_db;;
  put_db (set_audit_events (audit_events d ++ [{|
    ae_account := Some actor; ae_session := Some session; ae_event_type := event_type;
    ae_target_type := target_type; ae_target_id := target_id; ae_outcome := outcome;
    ae_worker := None |}]) d).
End Store.

(** ** Lemmas *)

Lemma store_replay_Ok {D B} `{IntentStore D B} actor operation key hash status (body : B) env
    (w w' : World D) u :
  store_replay actor operation key hash status body env w = (Ok u, w') ->
  idempotency_records (db w) !! (actor, operation, key) = None /\
  w' = MkWorld (set_idempotency_records
    (<[(actor, operation, key) := MkIdemRow hash status body]> (idempotency_records (db w)))
    (db w)) (ticks w) (drawn w).
Proof.
  unfold store_replay. intros Hm. tx_inv Hm.
  apply insert_pk_Some in E as (? & _ & ->). done.
Qed.

Lemma audit_Ok {D B} `{IntentStore D B} actor session et tt ti oc env (w w' : World D) u :
  audit actor session et tt ti oc env w = (Ok u, w') ->
  exists ev, w' = MkWorld (set_audit_events (audit_events (db w) ++ [ev]) (db w))
                    (ticks w) (drawn w).
Proof. unfold audit. intros Hm. tx_inv Hm. eauto. Qed.

Lemma replay_Ok {D B} `{IntentStore D B} {T} (from_value : B -> option T)
    actor operation key hash env (w w' : World D) r :
  replay from_value actor operation key hash env w = (Ok r, w') ->
  w' = w /\
  match idempotency_records (db w) !! (actor, operation, key) with
  | None => r = Miss
  | Some row =>
      if bool_decide (request_hash row = hash)
      then exists t, from_value (response_body row) = Some t /\ r = Match t
      else r = Changed
  end.
Proof.
  unfold replay. intros Hm. tx_inv Hm.
  destruct (idempotency_records (db w) !! _) as [row|]; [|by tx_inv Hm].
  case_bool_decide; simpl in Hm; [|by tx_inv Hm].
  destruct (from_value (response_body row)); [tx_inv Hm; eauto|by apply raise_Ok in Hm].
Qed.

(** A completed request is recognised when it is repeated, and a different
    payload under its key is refused. *)
Lemma replay_after_store {D B} `{IntentStoreLaws D B} {T} (from_value : B -> option T)
    actor operation key hash hash' status (body : B) (t : T) env (w w' : World D) u :
  from_value body = Some t ->
  store_replay actor operation key hash status body env w = (Ok u, w') ->
  replay from_value actor operation key hash' env w' =
    (Ok (if bool_decide (hash = hash') then Match t else Changed), w').
Proof.
  intros Hb Hs. apply store_replay_Ok in Hs as (_ & ->).
  unfold replay, tbind, get_db. cbn [db ticks drawn].
  rewrite idem_set_idem, lookup_insert_eq. cbn.
  case_bool_decide; simpl; [by rewrite Hb|done].
Qed.

Lemma ro_replay {D B} `{IntentStore D B} {T} (from_value : B -> option T) actor operation key hash :
  read_only (replay from_value actor operation key hash).
Proof. unfold replay. read_only. Qed.
#[export] Hint Resolve ro_replay : read_only.
