(* ===== verification/Secrets.v ===== *)
(** * Sealed secret versions (crates/control/src/secrets.rs, crypto.rs)

    The additional data a secret version is sealed under, and the opening of a
    sealed version.  The XChaCha20-Poly1305 cipher itself is not code of the
    repository: it is the parameter [aead_open]. *)

From stdpp Require Import base list option gmap strings.
From Stdlib Require Import ZArith Lia.
From S2P Require Import Prelude RustText Bytes PgTx.

Local Open Scope string_scope.
Local Open Scope list_scope.

(** ** Additional data *)

Definition SECRET_AAD_DOMAIN : bytes := lit "hostlet-secret/v1".
Definition SECRET_REPLAY_DOMAIN : bytes := lit "hostlet-secret-replay/v1".
Definition MAX_JOB_SECRET_REFS : nat := 32.

(** [u32::try_from(len).unwrap_or(u32::MAX)] before each field. *)
Definition append_field (output value : bytes) : bytes :=
  let n := Z.of_nat (length value) in
  output ++ be_bytes 4 (if (n <=? max_u32)%Z then n else max_u32) ++ value.

(** [Uuid::as_bytes]. *)
Definition uuid_bytes (u : Uuid) : bytes := be_bytes 16 (Z.of_N u).

Definition secret_aad (account_id project_id service_id : Uuid)
    (operation credential_kind : string) (secret_id version_id : Uuid) : bytes :=
  let output := append_field [] SECRET_AAD_DOMAIN in
  let output := append_field output (uuid_bytes account_id) in
  let output := append_field output (uuid_bytes project_id) in
  let output := append_field output (uuid_bytes service_id) in
  let output := append_field output (as_bytes operation) in
  let output := append_field output (as_bytes credential_kind) in
  let output := append_field output (uuid_bytes secret_id) in
  append_field output (uuid_bytes version_id).

Definition version_request_bytes (account_id project_id service_id secret_id : Uuid)
    (value : bytes) : bytes :=
  let output := append_field [] SECRET_REPLAY_DOMAIN in
  let output := append_field output (uuid_bytes account_id) in
  let output := append_field output (uuid_bytes project_id) in
  let output := append_field output (uuid_bytes service_id) in
  let output := append_field output (uuid_bytes secret_id) in
  append_field output value.

(** ** Rows *)

Record SecretRow := {
  s_account : Uuid; s_project : Uuid; s_service : Uuid;
  s_name : string; s_operation : string; s_credential_kind : string;
  s_active : bool;
}.

Record SecretVersionRow := {
  sv_account : Uuid; sv_project : Uuid; sv_service : Uuid; sv_secret : Uuid;
  sv_key_version : string; sv_nonce : bytes; sv_ciphertext : bytes; sv_auth_tag : bytes;
}.

Record SecretKey := { key_bytes : bytes; key_version : string }.

Inductive SecretResolveError := SFenced | ScopeDenied | CredentialKindNotAllowed | Unavailable.

Definition into_api_error (e : SecretResolveError) : ApiError :=
  match e with
  | SFenced => conflict "job_fenced" "the job lease is no longer current"
  | ScopeDenied => not_found
  | CredentialKindNotAllowed =>
      unprocessable "credential_kind_not_allowed"
        "the credential kind is not available to this operation"
  | Unavailable => foundation_unavailable
  end.

Record ResolvedJobSecret := {
  rs_version : Uuid;
  rs_name : string;
  rs_value : bytes;
}.

(** [SecretKey::decrypt]: the nonce is 24 bytes and the tag 16. *)
Definition decrypt (aead_open : bytes -> bytes -> bytes -> bytes -> bytes -> option bytes)
    (key : SecretKey) (aad nonce ciphertext auth_tag : bytes) : option bytes :=
  if (length nonce =? 24)%nat && (length auth_tag =? 16)%nat
  then aead_open (key_bytes key) nonce aad ciphertext auth_tag
  else None.

(** ** The additional data determines its scope *)

Definition is_uuid (u : Uuid) : Prop := (u < 2 ^ 128)%N.

Lemma uuid_bytes_length u : length (uuid_bytes u) = 16%nat.
Proof. apply length_be_bytes. Qed.

Lemma uuid_bytes_inj u v : is_uuid u -> is_uuid v -> uuid_bytes u = uuid_bytes v -> u = v.
Proof.
  unfold is_uuid, uuid_bytes. intros Hu Hv E. apply be_bytes_inj in E; [lia|..].
  - change (256 ^ Z.of_nat 16)%Z with (Z.of_N (2 ^ 128)). lia.
  - change (256 ^ Z.of_nat 16)%Z with (Z.of_N (2 ^ 128)). lia.
Qed.

(** A field whose length fits its prefix. *)
Definition field_fits (value : bytes) : Prop := (Z.of_nat (length value) <= max_u32)%Z.

Lemma append_field_fits output value :
  field_fits value -> append_field output value = output ++ length_prefixed 4 value.
Proof.
  unfold append_field, field_fits, length_prefixed. intros H.
  by rewrite (proj2 (Z.leb_le _ _) H).
Qed.

Lemma uuid_field_fits u : field_fits (uuid_bytes u).
Proof. unfold field_fits. rewrite uuid_bytes_length. done. Qed.

Lemma length_prefixed_fits_inj x y xs ys :
  field_fits x -> field_fits y ->
  length_prefixed 4 x ++ xs = length_prefixed 4 y ++ ys -> x = y /\ xs = ys.
Proof.
  unfold field_fits, max_u32. intros Hx Hy. apply length_prefixed_inj; simpl; lia.
Qed.

(** the authenticated data of a sealed secret determines its whole scope:
    two secrets of different accounts, projects, services, operations, kinds,
    definitions or versions are never sealed under the same bytes. *)
Theorem secret_aad_injective a p s o k d v a' p' s' o' k' d' v' :
  is_uuid a -> is_uuid p -> is_uuid s -> is_uuid d -> is_uuid v ->
  is_uuid a' -> is_uuid p' -> is_uuid s' -> is_uuid d' -> is_uuid v' ->
  field_fits (as_bytes o) -> field_fits (as_bytes k) ->
  field_fits (as_bytes o') -> field_fits (as_bytes k') ->
  secret_aad a p s o k d v = secret_aad a' p' s' o' k' d' v' ->
  (a, p, s, o, k, d, v) = (a', p', s', o', k', d', v').
Proof.
  intros Ha Hp Hs Hd Hv Ha' Hp' Hs' Hd' Hv' Ho Hk Ho' Hk'.
  unfold secret_aad. rewrite !append_field_fits by (done || apply uuid_field_fits).
  rewrite <- !app_assoc, !app_nil_l.
  intros E. apply app_inv_head in E.
  do 6 (apply length_prefixed_fits_inj in E as [?E E]; [|done || apply uuid_field_fits..]).
  rewrite <- (app_nil_r (length_prefixed 4 (uuid_bytes v))),
    <- (app_nil_r (length_prefixed 4 (uuid_bytes v'))) in E.
  apply length_prefixed_fits_inj in E as [E _]; [|apply uuid_field_fits..].
  repeat match goal with
  | H : uuid_bytes _ = uuid_bytes _ |- _ => apply uuid_bytes_inj in H; [|done..]
  | H : as_bytes _ = as_bytes _ |- _ => apply lit_inj in H
  end.
  congruence.
Qed.

Lemma secret_aad_injective_witness :
  secret_aad 1 2 3 "build" "build_environment" 4 5
    = secret_aad 1 2 3 "build" "build_environment" 4 5 /\
  (1, 2, 3, "build", "build_environment", 4, 5)%N = (1, 2, 3, "build", "build_environment", 4, 5)%N.
Proof.
  split; [reflexivity|].
  apply secret_aad_injective; reflexivity || (unfold field_fits; vm_compute; discriminate).
Defined.
