(* ===== verification/Jobs.v ===== *)
(** * Bookkeeping jobs and their leases (crates/control/src/jobs.rs)

    A job is queued by its owner, leased by one worker at a time, and completed
    or retried under a fence: every lease increments [current_fence], and a
    worker acts on the job only while its attempt, its fence and its lease are
    the current ones.  The tables are those of migrations/0003_jobs_secrets.sql;
    text columns with a CHECK over literals are inductive types. *)

From stdpp Require Import base list option gmap strings pretty sorting.
From Stdlib Require Import ZArith Lia.
From S2P Require Import Prelude RustText Bytes PgTx Intent Secrets.

Local Open Scope string_scope.
Local Open Scope list_scope.

Definition JOB_KIND : string := "foundation_bookkeeping".
Definition JOB_OPERATION : string := "build".
Definition MAX_SECRET_REFS : nat := 32.

(** ** Tables *)

Inductive JobState := Queued | Running | Succeeded | Failed | Canceled | Retriable.
Inductive AttemptState := ARunning | ASucceeded | AFailed | ARetriable | AExpired | ACanceled.
Inductive OutcomeState := OSucceeded | OFailed.

#[export] Instance JobState_eq : EqDecision JobState.
Proof. solve_decision. Defined.
#[export] Instance AttemptState_eq : EqDecision AttemptState.
Proof. solve_decision. Defined.
#[export] Instance OutcomeState_eq : EqDecision OutcomeState.
Proof. solve_decision. Defined.

Record Job := {
  j_id : Uuid;
  j_account : Uuid;
  j_project : Uuid;
  j_service : Uuid;
  j_kind : string;
  j_operation : string;
  j_source_commit : string;
  j_state : JobState;
  j_revision : Z;
  j_attempt_count : Z;
  j_max_attempts : Z;
  j_current_attempt : option Uuid;
  j_fence : Z;
  j_lease : option Z;
  j_created : Z;
  j_updated : Z;
}.

Record Attempt := {
  a_id : Uuid;
  a_account : Uuid;
  a_project : Uuid;
  a_job : Uuid;
  a_number : Z;
  a_fence : Z;
  a_worker : string;
  a_state : AttemptState;
  a_lease_started : Z;
  a_lease : Z;
  a_finished : option Z;
  a_terminal_code : option string;
  a_completion_hash : option string;
}.

Record SecretRef := {
  sr_account : Uuid; sr_project : Uuid; sr_service : Uuid; sr_job : Uuid;
  sr_secret : Uuid; sr_version : Uuid; sr_operation : string; sr_credential_kind : string;
}.

(** ** Responses *)

Record JobRecord := {
  r_id : Uuid;
  r_project : Uuid;
  r_service : Uuid;
  r_kind : string;
  r_operation : string;
  r_source_commit : string;
  r_state : JobState;
  r_revision : Z;
  r_attempt_count : Z;
  r_current_attempt : option Uuid;
  r_current_fence : Z;
  r_lease : option Z;
  r_secret_versions : list (Uuid * Uuid);
  r_created : Z;
  r_updated : Z;
}.

Record JobEffectResponse := { fx_id : Uuid; fx_state : OutcomeState; fx_code : string }.
Record CompleteResponse := { cr_job : JobRecord; cr_effect : option JobEffectResponse }.

(** The JSON documents [job_effects.response_body] holds: a whole completion
    response, or the two fields the reaper writes. *)
Inductive EffectBody :=
| BodyCompletion (r : CompleteResponse)
| BodyExhausted (state code : string).

Record Effect := {
  e_id : Uuid;
  e_account : Uuid;
  e_project : Uuid;
  e_job : Uuid;
  e_attempt : Uuid;
  e_fence : Z;
  e_state : OutcomeState;
  e_code : string;
  e_body : EffectBody;
  e_completion_hash : string;
}.

(** [job_effects] is keyed by [job_id], which is UNIQUE. *)
Record JobsDb := MkJobsDb {
  services : gset (Uuid * Uuid * Uuid);
  secrets : gmap Uuid SecretRow;
  secret_versions : gmap Uuid SecretVersionRow;
  jobs : gmap Uuid Job;
  attempts : gmap Uuid Attempt;
  secret_refs : gmap (Uuid * Uuid) SecretRef;
  effects : gmap Uuid Effect;
  idem : gmap (Uuid * string * string) (IdemRow JobRecord);
  audits : list AuditEvent;
}.

Definition set_jobs t d := MkJobsDb (services d) (secrets d) (secret_versions d) t
  (attempts d) (secret_refs d) (effects d) (idem d) (audits d).
Definition set_attempts t d := MkJobsDb (services d) (secrets d) (secret_versions d) (jobs d)
  t (secret_refs d) (effects d) (idem d) (audits d).
Definition set_secret_refs t d := MkJobsDb (services d) (secrets d) (secret_versions d) (jobs d)
  (attempts d) t (effects d) (idem d) (audits d).
Definition set_effects t d := MkJobsDb (services d) (secrets d) (secret_versions d) (jobs d)
  (attempts d) (secret_refs d) t (idem d) (audits d).
Definition set_idem t d := MkJobsDb (services d) (secrets d) (secret_versions d) (jobs d)
  (attempts d) (secret_refs d) (effects d) t (audits d).
Definition set_audits l d := MkJobsDb (services d) (secrets d) (secret_versions d) (jobs d)
  (attempts d) (secret_refs d) (effects d) (idem d) l.

#[export] Instance jobs_intent_store : IntentStore JobsDb JobRecord := {
  idempotency_records := idem; set_idempotency_records := set_idem;
  audit_events := audits; set_audit_events := set_audits;
}.
#[export] Instance jobs_intent_store_laws : IntentStoreLaws JobsDb JobRecord.
Proof. by split. Qed.

(** ** Row constraints (the CHECKs of the migration) *)

Definition job_check (j : Job) : bool :=
  (0 <? j_revision j)%Z && (0 <=? j_attempt_count j)%Z && (j_attempt_count j <=? 3)%Z
  && (j_max_attempts j =? 3)%Z && (0 <=? j_fence j)%Z
  && (bool_decide (j_state j = Running) && bool_decide (is_Some (j_current_attempt j))
        && bool_decide (is_Some (j_lease j))
      || bool_decide (j_state j <> Running) && bool_decide (j_lease j = None)).

Definition attempt_check (a : Attempt) : bool :=
  (0 <? a_number a)%Z && (0 <? a_fence a)%Z
  && (1 <=? String.length (a_worker a))%nat && (String.length (a_worker a) <=? 128)%nat
  && (a_lease_started a <? a_lease a)%Z
  && (bool_decide (a_state a = ARunning) && bool_decide (a_finished a = None)
        && bool_decide (a_terminal_code a = None)
      || bool_decide (a_state a <> ARunning) && bool_decide (is_Some (a_finished a))
        && bool_decide (is_Some (a_terminal_code a))).

(** The mutable columns of a job, written together. *)
Definition with_job (j : Job) (state : JobState) (revision attempt_count : Z)
    (current : option Uuid) (fence : Z) (lease : option Z) (updated : Z) : Job := {|
  j_id := j_id j; j_account := j_account j; j_project := j_project j; j_service := j_service j;
  j_kind := j_kind j; j_operation := j_operation j; j_source_commit := j_source_commit j;
  j_state := state; j_revision := revision; j_attempt_count := attempt_count;
  j_max_attempts := j_max_attempts j; j_current_attempt := current; j_fence := fence;
  j_lease := lease; j_created := j_created j; j_updated := updated |}.

Definition with_attempt (a : Attempt) (state : AttemptState) (lease : Z) (finished : option Z)
    (code hash : option string) : Attempt := {|
  a_id := a_id a; a_account := a_account a; a_project := a_project a; a_job := a_job a;
  a_number := a_number a; a_fence := a_fence a; a_worker := a_worker a; a_state := state;
  a_lease_started := a_lease_started a; a_lease := lease; a_finished := finished;
  a_terminal_code := code; a_completion_hash := hash |}.

(** ** Input checks *)

Definition valid_source_commit (value : string) : bool :=
  ((String.length value =? 40)%nat || (String.length value =? 64)%nat)
  && forallb (fun b => is_ascii_digit b || is_lower_hex_letter b) (as_bytes value).

Definition valid_worker_id (value : string) : bool :=
  negb (bool_decide (value = "")) && (String.length value <=? 128)%nat
  && forallb is_ascii_graphic (as_bytes value).

Record CompletionOutcome := { oc_state : string; oc_code : string }.

Definition valid_outcome (outcome : CompletionOutcome) : bool :=
  bool_decide ((oc_state outcome, oc_code outcome) = ("succeeded", "bookkeeping_complete"))
  || bool_decide ((oc_state outcome, oc_code outcome) = ("failed", "bookkeeping_failed"))
  || bool_decide ((oc_state outcome, oc_code outcome) = ("retriable", "retry_requested")).

Definition as_u64 (value : Z) : res ApiError Z := if (value <? 0)%Z then Err internal else Ok value.
Definition as_u32 (value : Z) : res ApiError Z := if (value <? 0)%Z then Err internal else Ok value.

(** Statements on the two tables. *)
Definition update_job (id : Uuid) (cond : Job -> bool) (f : Job -> option Job) : M JobsDb unit :=
  d <~ get_db;;
  '(t, _) <~ sql (update_pk job_check cond f id (jobs d));;
  put_db (set_jobs t d).

Definition update_attempt (id : Uuid) (cond : Attempt -> bool) (f : Attempt -> Attempt)
    : M JobsDb unit :=
  d <~ get_db;;
  '(t, _) <~ sql (update_pk attempt_check cond (fun a => Some (f a)) id (attempts d));;
  put_db (set_attempts t d).

(** [WHERE account_id = ... AND project_id = ...] on a job or attempt. *)
Definition in_scope (account project : Uuid) (j : Job) : bool :=
  (j_account j =? account)%N && (j_project j =? project)%N.
Definition attempt_in_scope (account project job : Uuid) (a : Attempt) : bool :=
  (a_account a =? account)%N && (a_project a =? project)%N && (a_job a =? job)%N.

Definition worker_audit (account job : Uuid) (event_type worker : string) (attempt : Uuid)
    (fence : Z) (outcome : string) : M JobsDb unit :=
  d <~ get_db;;
  put_db (set_audits (audits d ++ [{|
    ae_account := Some account; ae_session := None; ae_event_type := event_type;
    ae_target_type := "job"; ae_target_id := Some job; ae_outcome := outcome;
    ae_worker := Some (worker, attempt, fence) |}]) d).

(** ** Reading a job *)

Definition job_version_ids (d : JobsDb) (account project job : Uuid) : list Uuid :=
  merge_sort N.le (map (fun kr => sr_version kr.2)
    (List.filter (fun kr => (sr_account kr.2 =? account)%N && (sr_project kr.2 =? project)%N
                            && (sr_job kr.2 =? job)%N)
       (map_to_list (secret_refs d)))).

Definition job_record (account : Uuid) (row : Job) : M JobsDb JobRecord :=
  d <~ get_db;;
  revision <~ lift (as_u64 (j_revision row));;
  attempt_count <~ lift (as_u32 (j_attempt_count row));;
  fence <~ lift (as_u64 (j_fence row));;
  tret {|
    r_id := j_id row; r_project := j_project row; r_service := j_service row;
    r_kind := j_kind row; r_operation := j_operation row;
    r_source_commit := j_source_commit row; r_state := j_state row;
    r_revision := revision; r_attempt_count := attempt_count;
    r_current_attempt := j_current_attempt row; r_current_fence := fence;
    r_lease := j_lease row;
    r_secret_versions := map (fun v => (j_service row, v))
      (job_version_ids d account (j_project row) (j_id row));
    r_created := j_created row; r_updated := j_updated row |}.

Definition load_job (account project job : Uuid) : M JobsDb JobRecord :=
  d <~ get_db;;
  match jobs d !! job with
  | Some row => if in_scope account project row then job_record account row else raise not_found
  | None => raise not_found
  end.

(** ** The reaper *)

Definition lex_leb (t1 : Z) (i1 : Uuid) (t2 : Z) (i2 : Uuid) : bool :=
  (t1 <? t2)%Z || (t1 =? t2)%Z && (i1 <=? i2)%N.

Definition lease_order (a b : Job) : bool :=
  lex_leb (default 0%Z (j_lease a)) (j_id a) (default 0%Z (j_lease b)) (j_id b).

Definition expired_at (now : Z) (j : Job) : bool :=
  bool_decide (j_state j = Running)
  && match j_lease j with Some l => (l <=? now)%Z | None => false end.

Definition exhausted_effect (id : Uuid) (sha256 : string -> string) (row : Job) (attempt : Uuid)
    : Effect := {|
  e_id := id; e_account := j_account row; e_project := j_project row; e_job := j_id row;
  e_attempt := attempt; e_fence := j_fence row; e_state := OFailed;
  e_code := "attempts_exhausted"; e_body := BodyExhausted "failed" "attempts_exhausted";
  e_completion_hash := sha256 "failed:attempts_exhausted" |}.

(** [INSERT INTO job_effects ... ON CONFLICT (job_id) DO NOTHING]. *)
Definition insert_effect_if_absent (e : Effect) : M JobsDb unit :=
  d <~ get_db;;
  put_db (match effects d !! e_job e with
          | Some _ => d
          | None => set_effects (<[e_job e := e]> (effects d)) d
          end).

(** One iteration of [reap_expired]; [false] when no lease has expired. *)
Definition reap_one (sha256 : string -> string) : M JobsDb bool :=
  transaction (
    d <~ get_db;;
    now <~ clock_timestamp;;
    locked <~ locked_rows;;
    match select_first (fun id j => expired_at now j && negb (locked id)) lease_order (jobs d) with
    | None => tret (Ok false)
    | Some row =>
        match j_current_attempt row with
        | None => raise database_unavailable
        | Some attempt =>
            finished <~ clock_timestamp;;
            update_attempt attempt
              (fun a => attempt_in_scope (j_account row) (j_project row) (j_id row) a
                        && (a_fence a =? j_fence row)%Z && bool_decide (a_state a = ARunning))
              (fun a => with_attempt a AExpired (a_lease a) (Some finished)
                          (Some "lease_expired") (a_completion_hash a));;;
            updated <~ clock_timestamp;;
            (if (3 <=? j_attempt_count row)%Z then
               update_job (j_id row) (in_scope (j_account row) (j_project row))
                 (fun j => r ← bigint_succ (j_revision j);
                    Some (with_job j Failed r (j_attempt_count j) None (j_fence j) None updated));;;
               id <~ new_uuid;;
               insert_effect_if_absent (exhausted_effect id sha256 row attempt)
             else
               update_job (j_id row) (in_scope (j_account row) (j_project row))
                 (fun j => r ← bigint_succ (j_revision j);
                    Some (with_job j Retriable r (j_attempt_count j) None (j_fence j) None updated)));;;
            d' <~ get_db;;
            match attempts d' !! attempt with
            | Some a =>
                if (a_job a =? j_id row)%N && (a_fence a =? j_fence row)%Z then
                  worker_audit (j_account row) (j_id row) "job.lease_expired" (a_worker a)
                    attempt (j_fence row)
                    (if (3 <=? j_attempt_count row)%Z then "failed" else "retriable");;;
                  tret (Ok true)
                else raise database_unavailable
            | None => raise database_unavailable
            end
        end
    end).

(** [for _ in 0..64], leaving the loop when no candidate is left. *)
Fixpoint reap_loop (sha256 : string -> string) (n : nat) : M JobsDb unit :=
  match n with
  | O => tret tt
  | S n' => more <~ reap_one sha256;; if (more : bool) then reap_loop sha256 n' else tret tt
  end.

Definition reap_expired (sha256 : string -> string) : M JobsDb unit := reap_loop sha256 64.

(** ** Leasing *)

Record LeaseRequest := { lq_worker_id : string; lq_kinds : list string }.

Record AttemptLease := {
  al_id : Uuid; al_attempt_number : Z; al_fence : Z; al_worker_id : string; al_lease_expires_at : Z;
}.
Record LeaseResponse := { lr_job : JobRecord; lr_attempt : AttemptLease }.

Definition claimable (j : Job) : bool :=
  (bool_decide (j_state j = Queued) || bool_decide (j_state j = Retriable))
  && (j_attempt_count j <? j_max_attempts j)%Z
  && bool_decide (j_kind j = "foundation_bookkeeping").

Definition created_order (a b : Job) : bool :=
  lex_leb (j_created a) (j_id a) (j_created b) (j_id b).


Definition insert_attempt (a : Attempt) : M JobsDb unit :=
  d <~ get_db;;
  t <~ sql (insert_pk attempt_check (a_id a) a (attempts d));;
  put_db (set_attempts t d).

Definition lease_candidate (lease_seconds : Z) (request : LeaseRequest)
    : M JobsDb (option LeaseResponse) :=
  transaction (
    d <~ get_db;;
    locked <~ locked_rows;;
    match select_first (fun id j => claimable j && negb (locked id)) created_order (jobs d) with
    | None => tret (Ok None)
    | Some row =>
        attempt_id <~ new_uuid;;
        let attempt_number := (j_attempt_count row + 1)%Z in
        let fence := wrap_i64 (j_fence row + 1) in
        t <~ clock_timestamp;;
        let lease_expires_at := (t + lease_seconds)%Z in
        updated <~ clock_timestamp;;
        update_job (j_id row) (in_scope (j_account row) (j_project row))
          (fun j => r ← bigint_succ (j_revision j);
             Some (with_job j Running r attempt_number (Some attempt_id) fence
                     (Some lease_expires_at) updated));;;
        started <~ clock_timestamp;;
        insert_attempt {|
          a_id := attempt_id; a_account := j_account row; a_project := j_project row;
          a_job := j_id row; a_number := attempt_number; a_fence := fence;
          a_worker := lq_worker_id request; a_state := ARunning; a_lease_started := started;
          a_lease := lease_expires_at; a_finished := None; a_terminal_code := None;
          a_completion_hash := None |};;;
        job <~ load_job (j_account row) (j_project row) (j_id row);;
        n <~ lift (as_u32 attempt_number);;
        f <~ lift (as_u64 fence);;
        let response := {|
          lr_job := job;
          lr_attempt := {| al_id := attempt_id; al_attempt_number := n; al_fence := f;
                           al_worker_id := lq_worker_id request;
                           al_lease_expires_at := lease_expires_at |} |} in
        worker_audit (j_account row) (j_id row) "job.lease" (lq_worker_id request) attempt_id
          fence "succeeded";;;
        tret (Ok (Some response))
    end).

Definition lease_job (sha256 : string -> string) (lease_seconds : Z) (request : LeaseRequest)
    : M JobsDb (option LeaseResponse) :=
  if negb (valid_worker_id (lq_worker_id request)) then
    raise (bad_request "invalid_worker_id"
             "worker_id must contain 1 to 128 visible ASCII characters")
  else if negb (bool_decide (lq_kinds request = [JOB_KIND])) then
    raise (unprocessable "unsupported_job_kind"
             "the M1 worker leases foundation bookkeeping jobs only")
  else
    reap_expired sha256;;;
    lease_candidate lease_seconds request.

(** ** Renewal *)

Definition fenced : ApiError :=
  conflict "job_fenced" "the worker no longer owns a live lease for this job".

Record LeaseIdentityRequest := { lid_worker_id : string; lid_attempt_id : Uuid; lid_fence : Z }.

Record RenewResponse := {
  rn_job_id : Uuid; rn_attempt_id : Uuid; rn_fence : Z; rn_lease_expires_at : Z;
}.

(** The join of a running job with its current attempt that [renew_job] and
    [complete_job] lock: [WHERE j.state = 'running' AND j.current_attempt_id = ...
    AND j.current_fence = ... AND a.worker_id = ... AND a.state = 'running']. *)
Definition locked_attempt (d : JobsDb) (job attempt : Uuid) (fence : Z) (worker : string)
    : option (Job * Attempt) :=
  j ← jobs d !! job;
  current ← j_current_attempt j;
  a ← attempts d !! current;
  if (a_account a =? j_account j)%N && (a_project a =? j_project j)%N && (a_job a =? j_id j)%N
     && bool_decide (j_state j = Running) && (current =? attempt)%N && (j_fence j =? fence)%Z
     && bool_decide (a_worker a = worker) && bool_decide (a_state a = ARunning)
  then Some (j, a) else None.

(** [COALESCE(j.lease_expires_at > clock AND a.lease_expires_at > clock, false)]. *)
Definition lease_live (now : Z) (j : Job) (a : Attempt) : bool :=
  match j_lease j with Some l => (now <? l)%Z && (now <? a_lease a)%Z | None => false end.

Section Handlers.
(** Third-party code the handlers call: the uuid parser, SHA-256 of a request's
    JSON text, and the AEAD cipher; and the configured lease. *)
Context (parse_uuid : string -> option Uuid).
Context (sha256 : string -> string).
Context (lease_seconds : Z).
Context (aead_open : bytes -> bytes -> bytes -> bytes -> bytes -> option bytes).

#[local] Notation path_uuid := (path_uuid parse_uuid).

(** [WorkerAuth::from_request_parts]: the header as [to_str] gives it. *)
Definition worker_auth (authorization : option (option string))
    (worker_token_hash : option string) : res ApiError unit :=
  let supplied :=
    match mjoin authorization with
    | Some value =>
        if starts_with (as_bytes "Bearer ") (as_bytes value)
        then let token := String.substring 7 (String.length value - 7) value in
             if bool_decide (token = "") then None else Some token
        else None
    | None => None
    end in
  match supplied, worker_token_hash with
  | Some token, Some expected =>
      if negb (bool_decide (sha256 token = expected)) then Err unauthorized else Ok tt
  | _, _ => Err unauthorized
  end.

Definition renew_job (job_id : string) (request : LeaseIdentityRequest)
    : M JobsDb RenewResponse :=
  job <~ lift (path_uuid job_id);;
  if negb (valid_worker_id (lid_worker_id request)) || (lid_fence request <=? 0)%Z then
    raise fenced
  else
  transaction (
    d <~ get_db;;
    match locked_attempt d job (lid_attempt_id request) (lid_fence request)
            (lid_worker_id request) with
    | None => raise fenced
    | Some (j, a) =>
        now <~ clock_timestamp;;
        if negb (lease_live now j a) then raise fenced
        else
        t <~ clock_timestamp;;
        let lease_expires_at := (t + lease_seconds)%Z in
        updated <~ clock_timestamp;;
        update_job job
          (fun j => bool_decide (j_current_attempt j = Some (lid_attempt_id request))
                    && (j_fence j =? lid_fence request)%Z)
          (fun j => Some (with_job j (j_state j) (j_revision j) (j_attempt_count j)
                     (j_current_attempt j) (j_fence j) (Some lease_expires_at) updated));;;
        update_attempt (lid_attempt_id request)
          (fun a => (a_job a =? job)%N && (a_fence a =? lid_fence request)%Z)
          (fun a => with_attempt a (a_state a) lease_expires_at (a_finished a)
                      (a_terminal_code a) (a_completion_hash a));;;
        worker_audit (j_account j) job "job.renew" (lid_worker_id request)
          (lid_attempt_id request) (lid_fence request) "succeeded";;;
        f <~ lift (as_u64 (lid_fence request));;
        tret (Ok {| rn_job_id := job; rn_attempt_id := lid_attempt_id request;
                    rn_fence := f; rn_lease_expires_at := lease_expires_at |})
    end).

(** ** Credentials *)

Record ResolveCredentialsRequest := {
  rq_worker_id : string; rq_attempt_id : Uuid; rq_fence : Z; rq_versions : list Uuid;
}.

Definition distinct (l : list Uuid) : bool := bool_decide (NoDup l).

(** One row of the three-way join that resolves a reference of the job. *)
Definition resolve_row (d : JobsDb) (j : Job) (version : Uuid)
    : option (SecretRef * SecretRow * SecretVersionRow) :=
  r ← secret_refs d !! (j_id j, version);
  s ← secrets d !! sr_secret r;
  sv ← secret_versions d !! version;
  if (sr_account r =? j_account j)%N && (sr_project r =? j_project j)%N
     && (sr_service r =? j_service j)%N && bool_decide (sr_operation r = j_operation j)
     && (s_account s =? sr_account r)%N && (s_project s =? sr_project r)%N
     && (s_service s =? sr_service r)%N && bool_decide (s_operation s = sr_operation r)
     && bool_decide (s_credential_kind s = sr_credential_kind r) && s_active s
     && (sv_account sv =? sr_account r)%N && (sv_project sv =? sr_project r)%N
     && (sv_service sv =? sr_service r)%N && (sv_secret sv =? sr_secret r)%N
  then Some (r, s, sv) else None.

(** The loop over the joined rows; rows come back in the order requested. *)
Fixpoint open_rows (key : SecretKey) (j : Job)
    (rows : list (Uuid * (SecretRef * SecretRow * SecretVersionRow)))
    : res SecretResolveError (list ResolvedJobSecret) :=
  match rows with
  | [] => Ok []
  | (version, (r, s, sv)) :: rows' =>
      if negb (bool_decide (s_operation s = "build"))
         || negb (bool_decide (j_operation j = "build"))
      then Err CredentialKindNotAllowed
      else if negb (bool_decide (s_credential_kind s = "source_repository_read")
                    || bool_decide (s_credential_kind s = "build_environment"))
      then Err CredentialKindNotAllowed
      else if negb (bool_decide (sv_key_version sv = key_version key)) then Err Unavailable
      else
        let aad := secret_aad (j_account j) (j_project j) (j_service j) (s_operation s)
                     (s_credential_kind s) (sr_secret r) version in
        match decrypt aead_open key aad (sv_nonce sv) (sv_ciphertext sv) (sv_auth_tag sv) with
        | None => Err Unavailable
        | Some plaintext =>
            if utf8_valid plaintext then
              res_bind (open_rows key j rows') (fun rest =>
                Ok ({| rs_version := version; rs_name := s_name s; rs_value := plaintext |}
                    :: rest))
            else Err Unavailable
        end
  end.

Definition resolve_for_locked_live_job (d : JobsDb) (now : Z) (key : SecretKey) (job : Uuid)
    (worker : string) (attempt : Uuid) (fence : Z) (requested : list Uuid)
    : res SecretResolveError (list ResolvedJobSecret) :=
  if (MAX_JOB_SECRET_REFS <? length requested)%nat || negb (distinct requested)
  then Err ScopeDenied
  else match jobs d !! job with
  | None => Err SFenced
  | Some _ =>
      match locked_attempt d job attempt fence worker with
      | None => Err SFenced
      | Some (j, a) =>
          if negb ((a_fence a =? fence)%Z && lease_live now j a) then Err SFenced
          else if bool_decide (requested = []) then Ok []
          else
            let rows := omap (fun v => pair v <$> resolve_row d j v) requested in
            if negb (length rows =? length requested)%nat then Err ScopeDenied
            else open_rows key j rows
      end
  end.

Definition resolve_credentials (secret_key : option SecretKey) (job_id : string)
    (request : ResolveCredentialsRequest) : M JobsDb (list ResolvedJobSecret) :=
  job <~ lift (path_uuid job_id);;
  if negb (valid_worker_id (rq_worker_id request)) || (rq_fence request <=? 0)%Z
     || (MAX_SECRET_REFS <? length (rq_versions request))%nat
     || negb (distinct (rq_versions request))
  then raise fenced
  else match secret_key with
  | None => raise foundation_unavailable
  | Some key =>
      transaction (
        d <~ get_db;;
        now <~ clock_timestamp;;
        match resolve_for_locked_live_job d now key job (rq_worker_id request)
                (rq_attempt_id request) (rq_fence request) (rq_versions request) with
        | Err e => raise (into_api_error e)
        | Ok resolved =>
            match jobs d !! job with
            | None => raise database_unavailable
            | Some j =>
                worker_audit (j_account j) job "job.credentials_resolve"
                  (rq_worker_id request) (rq_attempt_id request) (rq_fence request)
                  "succeeded";;;
                tret (Ok resolved)
            end
        end)
  end.

(** ** Completion *)

Record CompleteRequest := {
  cq_worker_id : string; cq_attempt_id : Uuid; cq_fence : Z; cq_outcome : CompletionOutcome;
}.

(** SHA-256 of the request's JSON text. *)
Context (complete_request_hash : CompleteRequest -> string).

Definition completion_conflict (message : string) : ApiError :=
  conflict "completion_conflict" message.

(** The [state] a completion writes, as the two tables' enumerations. *)
Definition effective_outcome (outcome : CompletionOutcome) (attempt_count : Z)
    : option (JobState * AttemptState * string) :=
  let exhausted := bool_decide (oc_state outcome = "retriable") && (3 <=? attempt_count)%Z in
  if exhausted then Some (Failed, AFailed, "attempts_exhausted")
  else if bool_decide (oc_state outcome = "succeeded")
  then Some (Succeeded, ASucceeded, oc_code outcome)
  else if bool_decide (oc_state outcome = "failed") then Some (Failed, AFailed, oc_code outcome)
  else if bool_decide (oc_state outcome = "retriable")
  then Some (Retriable, ARetriable, oc_code outcome)
  else None.

(** The replay of a completion that was already committed as a retry. *)
Definition replay_retry (job : Uuid) (j : Job) (request : CompleteRequest)
    : M JobsDb (res ApiError CompleteResponse) :=
  d <~ get_db;;
  match attempts d !! cq_attempt_id request with
  | Some a =>
      if attempt_in_scope (j_account j) (j_project j) job a
         && (a_fence a =? cq_fence request)%Z && bool_decide (a_state a = ARetriable)
      then
        match a_completion_hash a with
        | None => raise database_unavailable
        | Some stored_hash =>
            if negb (bool_decide (a_worker a = cq_worker_id request))
               || negb (bool_decide (stored_hash = complete_request_hash request))
            then raise (completion_conflict
                   "the retry completion was already committed with another outcome")
            else
              r <~ load_job (j_account j) (j_project j) job;;
              tret (Ok {| cr_job := r; cr_effect := None |})
        end
      else raise fenced
  | None => raise fenced
  end.

(** The replay of a terminal completion, from the recorded effect. *)
Definition replay_terminal (job : Uuid) (j : Job) (request : CompleteRequest)
    : M JobsDb (res ApiError CompleteResponse) :=
  d <~ get_db;;
  match attempts d !! cq_attempt_id request, effects d !! job with
  | Some a, Some e =>
      if attempt_in_scope (j_account j) (j_project j) job a
         && (a_fence a =? cq_fence request)%Z
         && (e_account e =? a_account a)%N && (e_project e =? a_project a)%N
         && (e_attempt e =? a_id a)%N && (e_fence e =? a_fence a)%Z
      then
        if negb (bool_decide (a_worker a = cq_worker_id request))
           || negb (bool_decide (e_completion_hash e = complete_request_hash request))
        then raise (completion_conflict
               "the terminal completion was already committed with another outcome")
        else match e_body e with
             | BodyCompletion response => tret (Ok response)
             | BodyExhausted _ _ => raise internal
             end
      else raise fenced
  | _, _ => raise fenced
  end.

Definition insert_effect (e : Effect) : M JobsDb unit :=
  d <~ get_db;;
  t <~ sql (insert_pk (fun e => (0 <? e_fence e)%Z) (e_job e) e (effects d));;
  put_db (set_effects t d).

(** The first completion of the current attempt. *)
Definition commit_completion (job : Uuid) (j : Job) (request : CompleteRequest)
    (job_state : JobState) (attempt_state : AttemptState) (code : string)
    : M JobsDb (res ApiError CompleteResponse) :=
  finished <~ clock_timestamp;;
  update_attempt (cq_attempt_id request)
    (fun a => attempt_in_scope (j_account j) (j_project j) job a
              && (a_fence a =? cq_fence request)%Z && bool_decide (a_state a = ARunning))
    (fun a => with_attempt a attempt_state (a_lease a) (Some finished) (Some code)
                (Some (complete_request_hash request)));;;
  let terminal := negb (bool_decide (job_state = Retriable)) in
  updated <~ clock_timestamp;;
  update_job job (in_scope (j_account j) (j_project j))
    (fun j => r ← bigint_succ (j_revision j);
       Some (with_job j job_state r (j_attempt_count j)
               (if terminal then j_current_attempt j else None) (j_fence j) None updated));;;
  record <~ load_job (j_account j) (j_project j) job;;
  (if terminal then
     id <~ new_uuid;;
     let outcome := if bool_decide (job_state = Succeeded) then OSucceeded else OFailed in
     let response := {| cr_job := record;
                        cr_effect := Some {| fx_id := id; fx_state := outcome;
                                             fx_code := code |} |} in
     insert_effect {|
       e_id := id; e_account := j_account j; e_project := j_project j; e_job := job;
       e_attempt := cq_attempt_id request; e_fence := cq_fence request; e_state := outcome;
       e_code := code; e_body := BodyCompletion response;
       e_completion_hash := complete_request_hash request |};;;
     worker_audit (j_account j) job "job.complete" (cq_worker_id request)
       (cq_attempt_id request) (cq_fence request)
       (if bool_decide (job_state = Succeeded) then "succeeded" else "failed");;;
     tret (Ok response)
   else
     worker_audit (j_account j) job "job.complete" (cq_worker_id request)
       (cq_attempt_id request) (cq_fence request) "retriable";;;
     tret (Ok {| cr_job := record; cr_effect := None |})).

Definition complete_job (job_id : string) (request : CompleteRequest)
    : M JobsDb CompleteResponse :=
  job <~ lift (path_uuid job_id);;
  if negb (valid_worker_id (cq_worker_id request)) || (cq_fence request <=? 0)%Z
     || negb (valid_outcome (cq_outcome request))
  then raise (bad_request "invalid_completion" "the completion outcome is not supported")
  else
  transaction (
    d <~ get_db;;
    match jobs d !! job with
    | None => raise fenced
    | Some j =>
        if bool_decide (j_state j = Retriable) && (j_fence j =? cq_fence request)%Z then
          replay_retry job j request
        else if (bool_decide (j_state j = Succeeded) || bool_decide (j_state j = Failed))
                && bool_decide (j_current_attempt j = Some (cq_attempt_id request))
                && (j_fence j =? cq_fence request)%Z then
          replay_terminal job j request
        else
          match locked_attempt d job (cq_attempt_id request) (cq_fence request)
                  (cq_worker_id request) with
          | None => raise fenced
          | Some (j', a) =>
              now <~ clock_timestamp;;
              if negb (lease_live now j' a) then raise fenced
              else match effective_outcome (cq_outcome request) (j_attempt_count j) with
              | Some (job_state, attempt_state, code) =>
                  commit_completion job j request job_state attempt_state code
              | None => raise database_unavailable
              end
          end
    end).

(** ** The owner's operations *)

Definition get_job (auth : Authenticated) (project_id job_id : string) : M JobsDb JobRecord :=
  project <~ lift (path_uuid project_id);;
  job <~ lift (path_uuid job_id);;
  transaction (r <~ load_job (account_id auth) project job;; tret (Ok r)).

(** [format!] of the operation names, with the uuid's text form. *)
Context (uuid_text : Uuid -> string).
Context (cancel_request_hash : string).

Definition terminal_state (s : JobState) : bool :=
  match s with Succeeded | Failed | Canceled => true | _ => false end.

Definition cancel_job (auth : Authenticated) (project_id job_id : string) (headers : Headers)
    : M JobsDb JobRecord :=
  project <~ lift (path_uuid project_id);;
  job <~ lift (path_uuid job_id);;
  key <~ lift (idempotency_key headers);;
  expected_revision <~ lift (if_match_revision headers);;
  let account := account_id auth in
  let operation := ("job.cancel/" +:+ uuid_text project +:+ "/" +:+ uuid_text job) in
  let note outcome := audit (B := JobRecord) account (session_id auth) "job.cancel" "job"
                        (Some job) outcome in
  transaction (
    prior <~ replay Some account operation key cancel_request_hash;;
    match prior with
    | Match response => tret (Ok response)
    | Changed => note "idempotency_conflict";;; tret (Err idempotency_changed)
    | Miss =>
        d <~ get_db;;
        match jobs d !! job with
        | None => raise not_found
        | Some j =>
            if negb (in_scope account project j) then raise not_found
            else if negb (j_revision j =? expected_revision)%Z then
              note "stale_revision";;; tret (Err stale_revision)
            else if terminal_state (j_state j) then
              note "terminal";;;
              tret (Err (conflict "job_terminal" "the job is already terminal"))
            else
              (match j_current_attempt j with
               | Some attempt =>
                   finished <~ clock_timestamp;;
                   update_attempt attempt
                     (fun a => attempt_in_scope account project job a
                               && bool_decide (a_state a = ARunning))
                     (fun a => with_attempt a ACanceled (a_lease a) (Some finished)
                                 (Some "owner_canceled") (a_completion_hash a))
               | None => tret tt
               end);;;
              updated <~ clock_timestamp;;
              update_job job (in_scope account project)
                (fun j => r ← bigint_succ (j_revision j); f ← bigint_succ (j_fence j);
                   Some (with_job j Canceled r (j_attempt_count j) None f None updated));;;
              response <~ load_job account project job;;
              note "succeeded";;;
              store_replay account operation key cancel_request_hash 200 response;;;
              tret (Ok response)
        end
    end).

Record SecretVersionReference := { svr_service_id : string; svr_secret_version_id : string }.

Record CreateJobRequest := {
  cj_kind : string;
  cj_operation : string;
  cj_service_id : string;
  cj_source_commit : string;
  cj_secret_version_refs : list SecretVersionReference;
}.

Context (create_request_hash : CreateJobRequest -> string).

(** The active secret a version belongs to, in the job's service. *)
Definition active_secret (d : JobsDb) (account project service version : Uuid)
    : option (Uuid * SecretRow) :=
  sv ← secret_versions d !! version;
  s ← secrets d !! sv_secret sv;
  if (sv_account sv =? account)%N && (sv_project sv =? project)%N
     && (sv_service sv =? service)%N && (s_account s =? sv_account sv)%N
     && (s_project s =? sv_project sv)%N && (s_service s =? sv_service sv)%N && s_active s
  then Some (sv_secret sv, s) else None.

Definition invalid_secret_reference : ApiError :=
  unprocessable "invalid_secret_reference"
    "secret references must be unique and belong to the job service".

(** The loop over [request.secret_version_refs]. *)
Fixpoint resolve_refs (d : JobsDb) (account project service : Uuid)
    (references : list SecretVersionReference) (seen_versions seen_secrets : gset Uuid)
    : res ApiError (list (Uuid * Uuid * string)) :=
  match references with
  | [] => Ok []
  | reference :: rest =>
      res_bind (path_uuid (svr_service_id reference)) (fun reference_service =>
      res_bind (path_uuid (svr_secret_version_id reference)) (fun version =>
      if negb (reference_service =? service)%N || bool_decide (version ∈ seen_versions)
      then Err invalid_secret_reference
      else match active_secret d account project service version with
      | None => Err not_found
      | Some (secret, row) =>
          if bool_decide (secret ∈ seen_secrets) then
            Err (unprocessable "duplicate_secret_definition"
                   "a job may bind only one version of each secret")
          else if negb (bool_decide (s_operation row = JOB_OPERATION)) then
            Err (unprocessable "secret_operation_mismatch"
                   "the secret version is not scoped to this job operation")
          else if negb (bool_decide (s_credential_kind row = "source_repository_read")
                        || bool_decide (s_credential_kind row = "build_environment")) then
            Err (unprocessable "credential_kind_not_allowed"
                   "build bookkeeping cannot bind production or management credentials")
          else
            res_bind (resolve_refs d account project service rest
                        ({[version]} ∪ seen_versions) ({[secret]} ∪ seen_secrets))
              (fun tail => Ok ((secret, version, s_credential_kind row) :: tail))
      end))
  end.

Definition insert_job (j : Job) : M JobsDb unit :=
  d <~ get_db;;
  t <~ sql (insert_pk job_check (j_id j) j (jobs d));;
  put_db (set_jobs t d).

Definition insert_secret_ref (r : SecretRef) : M JobsDb unit :=
  d <~ get_db;;
  t <~ sql (insert_pk (fun _ => true) (sr_job r, sr_version r) r (secret_refs d));;
  put_db (set_secret_refs t d).

Fixpoint insert_secret_refs (account project service job : Uuid)
    (resolved : list (Uuid * Uuid * string)) : M JobsDb unit :=
  match resolved with
  | [] => tret tt
  | (secret, version, kind) :: rest =>
      insert_secret_ref {|
        sr_account := account; sr_project := project; sr_service := service; sr_job := job;
        sr_secret := secret; sr_version := version; sr_operation := JOB_OPERATION;
        sr_credential_kind := kind |};;;
      insert_secret_refs account project service job rest
  end.

(** [INSERT INTO jobs (id, ..., source_commit)] with the column defaults. *)
Definition new_job (id account project service : Uuid) (source_commit : string) (now : Z)
    : Job := {|
  j_id := id; j_account := account; j_project := project; j_service := service;
  j_kind := JOB_KIND; j_operation := JOB_OPERATION; j_source_commit := source_commit;
  j_state := Queued; j_revision := 1; j_attempt_count := 0; j_max_attempts := 3;
  j_current_attempt := None; j_fence := 0; j_lease := None;
  j_created := now; j_updated := now |}.

Definition create_job (auth : Authenticated) (project_id : string) (headers : Headers)
    (request : CreateJobRequest) : M JobsDb JobRecord :=
  if negb (bool_decide (cj_kind request = JOB_KIND)) then
    raise (unprocessable "unsupported_job_kind" "M1 supports platform bookkeeping jobs only")
  else if negb (bool_decide (cj_operation request = JOB_OPERATION)) then
    raise (unprocessable "unsupported_job_operation"
      "M1 bookkeeping jobs support the build credential-policy operation only")
  else if negb (valid_source_commit (cj_source_commit request)) then
    raise (unprocessable "invalid_source_commit"
      "source_commit must be 40 or 64 lowercase hexadecimal characters")
  else if (MAX_SECRET_REFS <? length (cj_secret_version_refs request))%nat then
    raise (unprocessable "too_many_secret_references"
      "a job may bind at most 32 secret versions")
  else
  let account := account_id auth in
  project <~ lift (path_uuid project_id);;
  service <~ lift (path_uuid (cj_service_id request));;
  key <~ lift (idempotency_key headers);;
  let hash := create_request_hash request in
  let operation := ("job.create/" +:+ uuid_text project) in
  let note := audit (B := JobRecord) account (session_id auth) "job.create" in
  transaction (
    prior <~ replay Some account operation key hash;;
    match prior with
    | Match response => tret (Ok response)
    | Changed => note "job" None "idempotency_conflict";;; tret (Err idempotency_changed)
    | Miss =>
        d <~ get_db;;
        if negb (bool_decide ((account, project, service) ∈ services d)) then
          note "service" (Some service) "denied";;; tret (Err not_found)
        else
        resolved <~ lift (resolve_refs d account project service
                            (cj_secret_version_refs request) ∅ ∅);;
        job <~ new_uuid;;
        now <~ clock_timestamp;;
        insert_job (new_job job account project service (cj_source_commit request) now);;;
        insert_secret_refs account project service job resolved;;;
        response <~ load_job account project job;;
        note "job" (Some job) "succeeded";;;
        store_replay account operation key hash 201 response;;;
        tret (Ok response)
    end).
End Handlers.
