(* ===== verification/JobsSpec.v ===== *)
(** * What the job service promises

    An abstract transition system over the job, attempt and effect tables
    ([core_step]) with its invariant ([jobs_ok]), the proof that every handler
    of [Jobs] takes only these steps, and the guarantees clients rely on. *)

From stdpp Require Import base list option gmap strings pretty sorting relations.
From Stdlib Require Import ZArith Lia.
From S2P Require Import Prelude RustText Bytes PgTx Intent Secrets Jobs.

Local Open Scope string_scope.
Local Open Scope list_scope.

(** ** The invariant *)

Definition outcome_job_state (o : OutcomeState) : JobState :=
  match o with OSucceeded => Succeeded | OFailed => Failed end.

Record job_ok (d : JobsDb) (id : Uuid) (j : Job) : Prop := {
  ok_id : j_id j = id;
  ok_check : job_check j = true;
  ok_fence_bound : (j_fence j <= max_i64)%Z;
  (** the deferred foreign key [jobs_current_attempt_fk] *)
  ok_current : forall aid, j_current_attempt j = Some aid ->
    exists a, attempts d !! aid = Some a /\ a_job a = id /\ a_fence a = j_fence j;
  ok_running : j_state j = Running ->
    exists aid a, j_current_attempt j = Some aid /\ attempts d !! aid = Some a /\
      a_job a = id /\ a_fence a = j_fence j /\ a_state a = ARunning /\
      j_lease j = Some (a_lease a);
  ok_idle : j_state j ∈ [Queued; Retriable; Canceled] -> j_current_attempt j = None;
  ok_effect : (exists e, effects d !! id = Some e) <-> j_state j ∈ [Succeeded; Failed];
}.

Record attempt_ok (d : JobsDb) (id : Uuid) (a : Attempt) : Prop := {
  at_id : a_id a = id;
  at_check : attempt_check a = true;
  at_job : exists j, jobs d !! a_job a = Some j /\
    a_account a = j_account j /\ a_project a = j_project j /\
    (a_fence a <= j_fence j)%Z /\ (a_number a <= j_attempt_count j)%Z /\
    (a_state a = ARunning -> j_state j = Running /\ j_current_attempt j = Some id);
}.

Record effect_ok (d : JobsDb) (id : Uuid) (e : Effect) : Prop := {
  ef_job : e_job e = id;
  ef_state : exists j, jobs d !! id = Some j /\ j_state j = outcome_job_state (e_state e);
  ef_attempt : exists a, attempts d !! e_attempt e = Some a /\ a_job a = id /\
    a_fence a = e_fence e;
}.

Record jobs_ok (d : JobsDb) : Prop := {
  jobs_all : forall id j, jobs d !! id = Some j -> job_ok d id j;
  attempts_all : forall id a, attempts d !! id = Some a -> attempt_ok d id a;
  effects_all : forall id e, effects d !! id = Some e -> effect_ok d id e;
  (** [UNIQUE (job_id, fence)] and [UNIQUE (job_id, attempt_number)] *)
  attempts_unique : forall i1 a1 i2 a2,
    attempts d !! i1 = Some a1 -> attempts d !! i2 = Some a2 -> a_job a1 = a_job a2 ->
    a_fence a1 = a_fence a2 \/ a_number a1 = a_number a2 -> i1 = i2;
}.

(** ** The abstract steps *)

(** How a running attempt ends: the job's next state, the attempt's, the job's
    current attempt and fence afterwards, and whether an effect is recorded. *)
Inductive ending (j : Job) (a : Attempt) :
    JobState -> AttemptState -> option Uuid -> Z -> option OutcomeState -> Prop :=
| end_succeeded : ending j a Succeeded ASucceeded (Some (a_id a)) (j_fence j) (Some OSucceeded)
| end_failed : ending j a Failed AFailed (Some (a_id a)) (j_fence j) (Some OFailed)
| end_retry : ending j a Retriable ARetriable None (j_fence j) None
| end_expired : ending j a Retriable AExpired None (j_fence j) None
| end_exhausted : ending j a Failed AExpired None (j_fence j) (Some OFailed)
| end_canceled : ending j a Canceled ACanceled None (j_fence j + 1) None.

(** The job [j] is running under its current attempt [a]. *)
Definition running (d : JobsDb) (j : Job) (a : Attempt) : Prop :=
  jobs d !! j_id j = Some j /\ attempts d !! a_id a = Some a /\ a_job a = j_id j /\
  j_state j = Running /\ j_current_attempt j = Some (a_id a) /\ a_state a = ARunning /\
  a_fence a = j_fence j.

Definition effect_for (j : Job) (a : Attempt) (o : OutcomeState) (e : Effect) : Prop :=
  e_job e = j_id j /\ e_attempt e = a_id a /\ e_fence e = a_fence a /\ e_state e = o.

Inductive core_step (d d' : JobsDb) : Prop :=
| cs_same :
    jobs d' = jobs d -> attempts d' = attempts d -> effects d' = effects d -> core_step d d'
| cs_create j :
    jobs d !! j_id j = None -> job_check j = true ->
    j_state j = Queued -> j_current_attempt j = None -> j_fence j = 0%Z ->
    jobs d' = <[j_id j := j]> (jobs d) ->
    attempts d' = attempts d -> effects d' = effects d -> core_step d d'
| cs_lease j j' a :
    jobs d !! j_id j = Some j -> j_state j ∈ [Queued; Retriable] ->
    attempts d !! a_id a = None -> attempt_check a = true -> job_check j' = true ->
    a_job a = j_id j -> a_account a = j_account j -> a_project a = j_project j ->
    a_number a = (j_attempt_count j + 1)%Z -> a_fence a = (j_fence j + 1)%Z ->
    (a_fence a <= max_i64)%Z -> a_state a = ARunning ->
    (exists r u, j' = with_job j Running r (a_number a) (Some (a_id a)) (a_fence a)
                        (Some (a_lease a)) u) ->
    jobs d' = <[j_id j := j']> (jobs d) ->
    attempts d' = <[a_id a := a]> (attempts d) -> effects d' = effects d -> core_step d d'
| cs_renew j j' a a' lease :
    running d j a -> job_check j' = true -> attempt_check a' = true ->
    (exists u, j' = with_job j Running (j_revision j) (j_attempt_count j)
                      (j_current_attempt j) (j_fence j) (Some lease) u) ->
    a' = with_attempt a ARunning lease (a_finished a) (a_terminal_code a)
           (a_completion_hash a) ->
    jobs d' = <[j_id j := j']> (jobs d) ->
    attempts d' = <[a_id a := a']> (attempts d) -> effects d' = effects d -> core_step d d'
| cs_end j j' a a' js ats current fence o :
    running d j a -> ending j a js ats current fence o ->
    job_check j' = true -> attempt_check a' = true -> (fence <= max_i64)%Z ->
    (exists r u, j' = with_job j js r (j_attempt_count j) current fence None u) ->
    (exists f c h, a' = with_attempt a ats (a_lease a) f c h) ->
    jobs d' = <[j_id j := j']> (jobs d) ->
    attempts d' = <[a_id a := a']> (attempts d) ->
    match o with
    | None => effects d' = effects d
    | Some os => exists e, effect_for j a os e /\ effects d !! j_id j = None /\
                   effects d' = <[j_id j := e]> (effects d)
    end -> core_step d d'
| cs_cancel_idle j j' :
    jobs d !! j_id j = Some j -> j_state j ∈ [Queued; Retriable] ->
    job_check j' = true -> (j_fence j + 1 <= max_i64)%Z ->
    (exists r u, j' = with_job j Canceled r (j_attempt_count j) None (j_fence j + 1) None u) ->
    jobs d' = <[j_id j := j']> (jobs d) ->
    attempts d' = attempts d -> effects d' = effects d -> core_step d d'.

(** ** The invariant is inductive *)

Lemma job_ok_check_bounds j :
  job_check j = true ->
  (0 < j_revision j)%Z /\ (0 <= j_attempt_count j <= 3)%Z /\ (0 <= j_fence j)%Z /\
  j_max_attempts j = 3%Z.
Proof. unfold job_check. intros H. bool_simpl. lia. Qed.

Lemma attempt_check_bounds a :
  attempt_check a = true -> (0 < a_number a)%Z /\ (0 < a_fence a)%Z.
Proof. unfold attempt_check. intros H. bool_simpl. lia. Qed.

(** In a well-formed state an attempt of a running job that runs is the current one. *)
Lemma running_of_job d id j :
  jobs_ok d -> jobs d !! id = Some j -> j_state j = Running ->
  exists a, running d j a /\ j_lease j = Some (a_lease a).
Proof.
  intros Hok Hj Hs. destruct (jobs_all _ Hok _ _ Hj) as [Hid _ _ _ Hrun _ _].
  destruct (Hrun Hs) as (aid & a & Hc & Ha & Haj & Hf & Hst & Hl).
  pose proof (at_id _ _ _ (attempts_all _ Hok _ _ Ha)) as Haid. subst aid id.
  exists a. unfold running. naive_solver.
Qed.

(** Adding or rewriting rows of one job leaves the others' facts alone. *)
Lemma job_ok_frame d d' id j :
  job_ok d id j ->
  (forall aid a, attempts d !! aid = Some a -> a_job a = id -> attempts d' !! aid = Some a) ->
  effects d' !! id = effects d !! id ->
  job_ok d' id j.
Proof.
  intros [] Ha He. constructor; try done.
  - intros aid Hc. destruct (ok_current0 _ Hc) as (a & ? & ? & ?). eauto.
  - intros Hr. destruct (ok_running0 Hr) as (aid & a & ? & ? & ? & ?). exists aid, a. eauto.
  - by rewrite He.
Qed.

Lemma attempt_ok_frame d d' id a :
  attempt_ok d id a -> jobs d' !! a_job a = jobs d !! a_job a -> attempt_ok d' id a.
Proof. intros [] Hj. constructor; try done. by rewrite Hj. Qed.

Lemma effect_ok_frame d d' id e :
  effect_ok d id e -> jobs d' !! id = jobs d !! id ->
  (forall aid a, attempts d !! aid = Some a -> exists a', attempts d' !! aid = Some a' /\
     a_job a' = a_job a /\ a_fence a' = a_fence a) ->
  effect_ok d' id e.
Proof.
  intros [] Hj Ha. constructor; [done|by rewrite Hj|].
  destruct ef_attempt0 as (a & Hl & <- & <-).
  destruct (Ha _ _ Hl) as (a' & ? & ? & ?). eauto.
Qed.

(** Contradictory memberships of a state in literal lists. *)
Ltac states :=
  rewrite ?elem_of_cons, ?elem_of_nil in *; intuition congruence.

Ltac lookup_cases H :=
  rewrite lookup_insert in H; case_decide; simplify_eq.

Lemma same_ok d d' :
  jobs d' = jobs d -> attempts d' = attempts d -> effects d' = effects d ->
  jobs_ok d -> jobs_ok d'.
Proof.
  intros Ej Ea Ee []. constructor; rewrite ?Ej, ?Ea, ?Ee; [| | |done].
  - intros id j Hj. eapply job_ok_frame; [eauto|by rewrite Ea|by rewrite Ee].
  - intros id a Ha. eapply attempt_ok_frame; [eauto|by rewrite Ej].
  - intros id e He. eapply effect_ok_frame; [eauto|by rewrite Ej|rewrite Ea; eauto].
Qed.

(** No attempt and no effect mentions a job that does not exist. *)
Lemma no_rows_of_missing_job d id :
  jobs_ok d -> jobs d !! id = None ->
  (forall aid a, attempts d !! aid = Some a -> a_job a <> id) /\ effects d !! id = None.
Proof.
  intros [] Hn. split.
  - intros aid a Ha <-. destruct (at_job _ _ _ (attempts_all0 _ _ Ha)) as (j & Hj & _). congruence.
  - destruct (effects d !! id) as [e|] eqn:He; [|done].
    destruct (ef_state _ _ _ (effects_all0 _ _ He)) as (j & Hj & _). congruence.
Qed.

Lemma create_ok d d' j :
  jobs d !! j_id j = None -> job_check j = true ->
  j_state j = Queued -> j_current_attempt j = None -> j_fence j = 0%Z ->
  jobs d' = <[j_id j := j]> (jobs d) -> attempts d' = attempts d -> effects d' = effects d ->
  jobs_ok d -> jobs_ok d'.
Proof.
  intros Hn Hc Hs Hcur Hf Ej Ea Ee Hok.
  destruct (no_rows_of_missing_job _ _ Hok Hn) as [Hna Hne]. destruct Hok.
  constructor; rewrite ?Ej, ?Ea, ?Ee; [| | |done].
  - intros id j0 Hj. lookup_cases Hj.
    + constructor; rewrite ?Ea, ?Ee, ?Hcur, ?Hs; try done; [unfold max_i64; lia|].
      rewrite Hne. split; [by intros []|set_solver].
    + eapply job_ok_frame; [eauto|by rewrite Ea|by rewrite Ee].
  - intros id a Ha. eapply attempt_ok_frame; [eauto|]. rewrite Ej.
    rewrite lookup_insert_ne; [done|]. intros E. by apply (Hna _ _ Ha).
  - intros id e He. eapply effect_ok_frame; [eauto| |rewrite Ea; eauto].
    rewrite Ej, lookup_insert_ne; [done|]. intros <-. congruence.
Qed.

(** The columns of a job that no statement after its insertion writes, and
    those of an attempt. *)
Definition job_kept (j j' : Job) : Prop :=
  j_id j' = j_id j /\ j_account j' = j_account j /\ j_project j' = j_project j /\
  (j_fence j <= j_fence j')%Z /\ (j_attempt_count j <= j_attempt_count j')%Z.

Definition attempt_kept (a a' : Attempt) : Prop :=
  a_id a' = a_id a /\ a_account a' = a_account a /\ a_project a' = a_project a /\
  a_job a' = a_job a /\ a_number a' = a_number a /\ a_fence a' = a_fence a.

(** Replacing a job and an attempt of it. *)
Lemma rewrite_ok d d' j j' a a' :
  jobs_ok d -> running d j a -> job_kept j j' -> attempt_kept a a' ->
  attempt_check a' = true ->
  (a_state a' = ARunning -> j_state j' = Running /\ j_current_attempt j' = Some (a_id a)) ->
  jobs d' = <[j_id j := j']> (jobs d) ->
  attempts d' = <[a_id a := a']> (attempts d) ->
  (forall id, id <> j_id j -> effects d' !! id = effects d !! id) ->
  job_ok d' (j_id j) j' ->
  (forall e, effects d' !! j_id j = Some e -> effect_ok d' (j_id j) e) ->
  jobs_ok d'.
Proof.
  intros Hok (Hj & Ha & Haj & Hs & Hcur & Hast & Haf) Hjk Hak Hac Hr Ej Ea Ee Hjob Heff.
  destruct Hjk as (Hki & Hka & Hkp & Hkf & Hkc), Hak as (Hai & Haa & Hap & Hajb & Han & Hafe).
  pose proof (attempts_all _ Hok _ _ Ha) as [_ _ (j0 & Hj0 & Hsc)].
  rewrite Haj, Hj in Hj0. injection Hj0 as <-. destruct Hok. constructor.
  - intros id j0 Hl. rewrite Ej in Hl. lookup_cases Hl; [done|].
    eapply job_ok_frame; [eauto| |by apply Ee].
    intros aid a0 Hl0 Hja. rewrite Ea, lookup_insert. case_decide; [|done].
    subst aid. rewrite Ha in Hl0. congruence.
  - intros id a0 Hl. rewrite Ea in Hl. lookup_cases Hl.
    + constructor; [done..|]. exists j'. rewrite Hajb, Haj, Ej, lookup_insert_eq.
      split; [done|]. rewrite Haa, Hap, Hka, Hkp, Hafe, Han.
      destruct Hsc as (? & ? & ? & ? & _). split_and!; try done; lia.
    + destruct (decide (a_job a0 = j_id j)) as [E|Hne].
      * destruct (attempts_all0 _ _ Hl) as [? ? (j1 & Hj1 & ? & ? & ? & ? & Hrun)].
        rewrite E, Hj in Hj1. injection Hj1 as <-.
        constructor; [done..|]. exists j'. rewrite E, Ej, lookup_insert_eq, Hka, Hkp.
        split; [done|]. split_and!; try done; try lia.
        intros Hst. destruct (Hrun Hst) as [_ Hc]. rewrite Hcur in Hc. injection Hc as <-.
        congruence.
      * eapply attempt_ok_frame; [eauto|]. by rewrite Ej, lookup_insert_ne.
  - intros id e Hl. destruct (decide (id = j_id j)) as [->|Hne]; [by apply Heff|].
    rewrite Ee in Hl by done. eapply effect_ok_frame; [eauto|by rewrite Ej, lookup_insert_ne|].
    intros aid a0 Hl0. rewrite Ea, lookup_insert. case_decide; [|eauto].
    subst aid. rewrite Ha in Hl0. simplify_eq. eauto.
  - assert (Hback : forall i x, attempts d' !! i = Some x -> exists y, attempts d !! i = Some y /\
        a_job x = a_job y /\ a_fence x = a_fence y /\ a_number x = a_number y).
    { intros i x Hl. rewrite Ea in Hl. lookup_cases Hl; eauto 10. }
    intros i1 a1 i2 a2 H1 H2 Hjj Hor.
    destruct (Hback _ _ H1) as (y1 & ? & ? & ? & ?), (Hback _ _ H2) as (y2 & ? & ? & ? & ?).
    eapply attempts_unique0; eauto; [congruence|]. destruct Hor; [left|right]; congruence.
Qed.

Lemma renew_ok d d' j j' a a' lease :
  running d j a -> job_check j' = true -> attempt_check a' = true ->
  (exists u, j' = with_job j Running (j_revision j) (j_attempt_count j)
                    (j_current_attempt j) (j_fence j) (Some lease) u) ->
  a' = with_attempt a ARunning lease (a_finished a) (a_terminal_code a) (a_completion_hash a) ->
  jobs d' = <[j_id j := j']> (jobs d) ->
  attempts d' = <[a_id a := a']> (attempts d) -> effects d' = effects d ->
  jobs_ok d -> jobs_ok d'.
Proof.
  intros Hrun Hc Hac (u & ->) -> Ej Ea Ee Hok.
  pose proof Hrun as (Hj & Ha & Haj & Hs & Hcur & Hast & Haf).
  pose proof (jobs_all _ Hok _ _ Hj) as [_ _ Hfb _ _ _ Heff].
  refine (rewrite_ok _ _ _ _ _ _ Hok Hrun _ _ Hac _ Ej Ea _ _ _); simpl.
  - unfold job_kept; simpl. repeat split; lia.
  - by unfold attempt_kept.
  - done.
  - by rewrite Ee.
  - constructor; simpl; try done.
    + intros aid Hl. rewrite Hcur in Hl. injection Hl as <-. rewrite Ea, lookup_insert_eq. eauto.
    + intros _. rewrite Hcur, Ea. eexists _, _. rewrite lookup_insert_eq. repeat split; done.
    + set_solver.
    + rewrite Ee, Heff, Hs. set_solver.
  - rewrite Ee. intros e He. exfalso.
    assert (Hx : exists e, effects d !! j_id j = Some e) by eauto.
    apply Heff in Hx. rewrite Hs in Hx. set_solver.
Qed.

Lemma end_ok d d' j j' a a' js ats current fence o :
  running d j a -> ending j a js ats current fence o ->
  job_check j' = true -> attempt_check a' = true -> (fence <= max_i64)%Z ->
  (exists r u, j' = with_job j js r (j_attempt_count j) current fence None u) ->
  (exists f c h, a' = with_attempt a ats (a_lease a) f c h) ->
  jobs d' = <[j_id j := j']> (jobs d) ->
  attempts d' = <[a_id a := a']> (attempts d) ->
  match o with
  | None => effects d' = effects d
  | Some os => exists e, effect_for j a os e /\ effects d !! j_id j = None /\
                 effects d' = <[j_id j := e]> (effects d)
  end -> jobs_ok d -> jobs_ok d'.
Proof.
  intros Hrun Hend Hc Hac Hfb (r & u & ->) (f & c & h & ->) Ej Ea Ee Hok.
  pose proof Hrun as (Hj & Ha & Haj & Hs & Hcur & Hast & Haf).
  pose proof (jobs_all _ Hok _ _ Hj) as [_ _ _ _ _ _ Heff].
  assert (Hnone : effects d !! j_id j = None).
  { destruct (effects d !! j_id j) as [e|] eqn:E; [|done].
    assert (Hx : exists e, Some e = Some e) by (by exists e).
    assert (Hx' : exists e0, Some e = Some e0) by eauto.
    apply Heff in Hx'. rewrite Hs in Hx'. set_solver. }
  refine (rewrite_ok _ _ _ _ _ _ Hok Hrun _ _ Hac _ Ej Ea _ _ _); simpl.
  - unfold job_kept; simpl. repeat split; try lia. destruct Hend; lia.
  - by unfold attempt_kept.
  - by destruct Hend.
  - intros id Hne. destruct o; [|by rewrite Ee].
    destruct Ee as (e & _ & _ & ->). by rewrite lookup_insert_ne.
  - constructor; simpl; try done.
    + intros aid Hl. rewrite Ea. destruct Hend; simplify_eq; rewrite lookup_insert_eq; eauto.
    + by destruct Hend.
    + destruct Hend; set_solver.
    + destruct Hend.
      1,2,5: destruct Ee as (e & _ & _ & ->); rewrite lookup_insert_eq; split; [set_solver|eauto].
      all: rewrite Ee, Hnone; split; [by intros []|set_solver].
  - intros e He. destruct o as [os|]; [|rewrite Ee in He; congruence].
    destruct Ee as (e0 & (? & ? & ? & ?) & _ & E). rewrite E, lookup_insert_eq in He. simplify_eq.
    constructor; [done| |].
    + exists (with_job j js r (j_attempt_count j) current fence None u).
      rewrite Ej, lookup_insert_eq. split; [done|]. simpl. by inversion Hend; subst.
    + eexists. rewrite Ea. replace (e_attempt e) with (a_id a). rewrite lookup_insert_eq.
      split; [done|]. simpl. auto.
Qed.

Lemma lease_ok d d' j j' a :
  jobs d !! j_id j = Some j -> j_state j ∈ [Queued; Retriable] ->
  attempts d !! a_id a = None -> attempt_check a = true -> job_check j' = true ->
  a_job a = j_id j -> a_account a = j_account j -> a_project a = j_project j ->
  a_number a = (j_attempt_count j + 1)%Z -> a_fence a = (j_fence j + 1)%Z ->
  (a_fence a <= max_i64)%Z -> a_state a = ARunning ->
  (exists r u, j' = with_job j Running r (a_number a) (Some (a_id a)) (a_fence a)
                      (Some (a_lease a)) u) ->
  jobs d' = <[j_id j := j']> (jobs d) ->
  attempts d' = <[a_id a := a]> (attempts d) -> effects d' = effects d ->
  jobs_ok d -> jobs_ok d'.
Proof.
  intros Hj Hs Hfresh Hac Hc Haj Haa Hap Han Haf Hmax Hast (r & u & ->) Ej Ea Ee Hok.
  pose proof (jobs_all _ Hok _ _ Hj) as [_ _ _ _ _ Hidle Heff].
  assert (Hcur : j_current_attempt j = None) by (apply Hidle; set_solver).
  assert (Hne : effects d !! j_id j = None).
  { destruct (effects d !! j_id j) as [e|] eqn:E; [|done].
    destruct Heff as [Heff _]. specialize (Heff ltac:(eauto)). states. }
  assert (Hold : forall i x, attempts d !! i = Some x -> a_job x = j_id j ->
    (a_fence x <= j_fence j)%Z /\ (a_number x <= j_attempt_count j)%Z /\ a_state x <> ARunning /\
    a_account x = j_account j /\ a_project x = j_project j).
  { intros i x Hx Hxj. destruct (attempts_all _ Hok _ _ Hx) as [_ _ (j0 & Hj0 & ? & ? & ? & ? & Hr)].
    rewrite Hxj, Hj in Hj0. injection Hj0 as <-. split_and!; try done.
    intros Hx'. destruct (Hr Hx') as [Hr' _]. rewrite Hr' in Hs. states. }
  destruct Hok. constructor.
  - intros id j0 Hl. rewrite Ej in Hl. lookup_cases Hl.
    + constructor; simpl; try done.
      * intros aid [= <-]. rewrite Ea, lookup_insert_eq. eauto.
      * intros _. eexists _, a. rewrite Ea, lookup_insert_eq. done.
      * set_solver.
      * rewrite Ee, Hne. split; [by intros []|set_solver].
    + eapply job_ok_frame; [eauto| |by rewrite Ee].
      intros aid a0 Hl0 _. rewrite Ea, lookup_insert_ne; [done|]. intros <-. congruence.
  - intros id a0 Hl. rewrite Ea in Hl. lookup_cases Hl.
    + constructor; [done..|]. rewrite Haj, Ej. eexists. rewrite lookup_insert_eq.
      split; [done|]. simpl. split_and!; try done; lia.
    + destruct (decide (a_job a0 = j_id j)) as [E|Hn].
      * destruct (Hold _ _ Hl E) as (? & ? & ? & ? & ?). destruct (attempts_all0 _ _ Hl).
        constructor; [done..|]. rewrite E, Ej. eexists. rewrite lookup_insert_eq.
        split; [done|]. simpl. split_and!; try done; lia.
      * eapply attempt_ok_frame; [eauto|]. by rewrite Ej, lookup_insert_ne.
  - rewrite Ee. intros id e Hl. eapply effect_ok_frame; [eauto| |].
    + rewrite Ej, lookup_insert_ne; [done|]. intros <-. congruence.
    + intros aid a0 Hl0. exists a0. rewrite Ea, lookup_insert_ne; [done|].
      intros <-. congruence.
  - intros i1 a1 i2 a2 H1 H2 Hjj Hor. rewrite Ea in H1, H2.
    lookup_cases H1; lookup_cases H2; [done| | |by eapply attempts_unique0].
    + destruct (Hold _ _ H2 ltac:(congruence)) as (? & ? & _). lia.
    + destruct (Hold _ _ H1 ltac:(congruence)) as (? & ? & _). lia.
Qed.

Lemma cancel_idle_ok d d' j j' :
  jobs d !! j_id j = Some j -> j_state j ∈ [Queued; Retriable] ->
  job_check j' = true -> (j_fence j + 1 <= max_i64)%Z ->
  (exists r u, j' = with_job j Canceled r (j_attempt_count j) None (j_fence j + 1) None u) ->
  jobs d' = <[j_id j := j']> (jobs d) ->
  attempts d' = attempts d -> effects d' = effects d -> jobs_ok d -> jobs_ok d'.
Proof.
  intros Hj Hs Hc Hmax (r & u & ->) Ej Ea Ee Hok.
  pose proof (jobs_all _ Hok _ _ Hj) as [_ _ _ _ _ Hidle Heff].
  assert (Hne : effects d !! j_id j = None).
  { destruct (effects d !! j_id j) as [e|] eqn:E; [|done].
    destruct Heff as [Heff _]. specialize (Heff ltac:(eauto)). states. }
  destruct Hok. constructor; [| | |by rewrite Ea].
  - intros id j0 Hl. rewrite Ej in Hl. lookup_cases Hl.
    + constructor; simpl; try done. rewrite Ee, Hne. split; [by intros []|set_solver].
    + eapply job_ok_frame; [eauto|by rewrite Ea|by rewrite Ee].
  - intros id a Hl. rewrite Ea in Hl. destruct (decide (a_job a = j_id j)) as [E|Hn].
    + destruct (attempts_all0 _ _ Hl) as [? ? (j0 & Hj0 & ? & ? & ? & ? & Hr)].
      rewrite E, Hj in Hj0. injection Hj0 as <-.
      constructor; [done..|]. rewrite E, Ej. eexists. rewrite lookup_insert_eq.
      split; [done|]. simpl. split_and!; try done; try lia.
      intros Hx. destruct (Hr Hx) as [Hr' _]. rewrite Hr' in Hs. states.
    + eapply attempt_ok_frame; [eauto|]. by rewrite Ej, lookup_insert_ne.
  - rewrite Ee. intros id e Hl. eapply effect_ok_frame; [eauto| |rewrite Ea; eauto].
    rewrite Ej, lookup_insert_ne; [done|]. intros <-. congruence.
Qed.

(** The invariant is preserved by every abstract step. *)
Lemma core_step_ok d d' : core_step d d' -> jobs_ok d -> jobs_ok d'.
Proof.
  intros [] Hok; eauto using same_ok, create_ok, lease_ok, renew_ok, end_ok, cancel_idle_ok.
Qed.

Lemma core_steps_ok d d' : rtc core_step d d' -> jobs_ok d -> jobs_ok d'.
Proof. induction 1; eauto using core_step_ok. Qed.

#[export] Hint Resolve core_steps_ok core_step_ok : hostlet.

(** ** The handlers take abstract steps *)

Section Statements.
Context (env : Env).
Implicit Types (w : World JobsDb).

Lemma update_job_Ok id cond f w w' u j :
  update_job id cond f env w = (Ok u, w') ->
  jobs (db w) !! id = Some j -> cond j = true ->
  exists j', f j = Some j' /\ job_check j' = true /\
    w' = MkWorld (set_jobs (<[id := j']> (jobs (db w))) (db w)) (ticks w) (drawn w).
Proof.
  intros H Hj Hc. unfold update_job in H. tx_inv H. case_hyp H. tx_inv H.
  apply update_pk_Some in E as [(_ & _ & Hn)|(_ & r & j' & Hr & _ & Hf & Hk & ->)].
  - rewrite (Hn _ Hj) in Hc. done.
  - rewrite Hj in Hr. injection Hr as <-. eauto.
Qed.

Lemma update_attempt_Ok id cond f w w' u a :
  update_attempt id cond f env w = (Ok u, w') ->
  attempts (db w) !! id = Some a -> cond a = true ->
  attempt_check (f a) = true /\
    w' = MkWorld (set_attempts (<[id := f a]> (attempts (db w))) (db w)) (ticks w) (drawn w).
Proof.
  intros H Ha Hc. unfold update_attempt in H. tx_inv H. case_hyp H. tx_inv H.
  apply update_pk_Some in E as [(_ & _ & Hn)|(_ & r & a' & Hr & _ & Hf & Hk & ->)].
  - rewrite (Hn _ Ha) in Hc. done.
  - rewrite Ha in Hr. injection Hr as <-. injection Hf as <-. done.
Qed.

Lemma insert_attempt_Ok a w w' u :
  insert_attempt a env w = (Ok u, w') ->
  attempts (db w) !! a_id a = None /\ attempt_check a = true /\
  w' = MkWorld (set_attempts (<[a_id a := a]> (attempts (db w))) (db w)) (ticks w) (drawn w).
Proof.
  unfold insert_attempt. intros H. tx_inv H. apply insert_pk_Some in E as (? & ? & ->). done.
Qed.

Lemma insert_effect_Ok e w w' u :
  insert_effect e env w = (Ok u, w') ->
  effects (db w) !! e_job e = None /\
  w' = MkWorld (set_effects (<[e_job e := e]> (effects (db w))) (db w)) (ticks w) (drawn w).
Proof.
  unfold insert_effect. intros H. tx_inv H. apply insert_pk_Some in E as (? & ? & ->). done.
Qed.

Lemma insert_effect_if_absent_Ok e w w' u :
  effects (db w) !! e_job e = None ->
  insert_effect_if_absent e env w = (Ok u, w') ->
  w' = MkWorld (set_effects (<[e_job e := e]> (effects (db w))) (db w)) (ticks w) (drawn w).
Proof. unfold insert_effect_if_absent. intros Hn H. tx_inv H. by rewrite Hn. Qed.

Lemma worker_audit_Ok acc job et wk at_ f oc w w' u :
  worker_audit acc job et wk at_ f oc env w = (Ok u, w') ->
  exists l, w' = MkWorld (set_audits l (db w)) (ticks w) (drawn w).
Proof. unfold worker_audit. intros H. tx_inv H. eauto. Qed.

Lemma job_record_Ok acc j w w' r :
  job_record acc j env w = (Ok r, w') ->
  w' = w /\ r_id r = j_id j /\ r_state r = j_state j /\ r_current_fence r = j_fence j /\
  r_attempt_count r = j_attempt_count j /\ r_revision r = j_revision j /\
  r_current_attempt r = j_current_attempt j /\ r_lease r = j_lease j.
Proof.
  unfold job_record. intros H. tx_inv H. unfold as_u64, as_u32 in *.
  repeat case_match; simplify_eq. done.
Qed.

Lemma load_job_Ok acc proj id w w' r :
  load_job acc proj id env w = (Ok r, w') ->
  w' = w /\ exists j, jobs (db w) !! id = Some j /\ in_scope acc proj j = true /\
  r_id r = j_id j /\ r_state r = j_state j /\ r_current_fence r = j_fence j /\
  r_attempt_count r = j_attempt_count j /\ r_revision r = j_revision j /\
  r_current_attempt r = j_current_attempt j /\ r_lease r = j_lease j.
Proof.
  unfold load_job. intros H. tx_inv H.
  destruct (jobs (db w) !! id) as [j|] eqn:Hj; [|by apply raise_Ok in H].
  destruct (in_scope acc proj j) eqn:Hs; [|by apply raise_Ok in H].
  apply job_record_Ok in H as (-> & ?). eauto 10.
Qed.
End Statements.

(** The rows a lock or a scope test pins down. *)
Lemma in_scope_self j : in_scope (j_account j) (j_project j) j = true.
Proof. unfold in_scope. by rewrite !N.eqb_refl. Qed.

Lemma running_scope d j a :
  jobs_ok d -> running d j a ->
  attempt_in_scope (j_account j) (j_project j) (j_id j) a = true.
Proof.
  intros Hok (Hj & Ha & Haj & _).
  destruct (attempts_all _ Hok _ _ Ha) as [_ _ (j0 & Hj0 & Hacc & Hp & _)].
  rewrite Haj, Hj in Hj0. injection Hj0 as <-.
  unfold attempt_in_scope. by rewrite Hacc, Hp, Haj, !N.eqb_refl.
Qed.

Lemma locked_attempt_running d job attempt fence worker j a :
  jobs_ok d -> locked_attempt d job attempt fence worker = Some (j, a) ->
  running d j a /\ j_id j = job /\ a_id a = attempt /\ j_fence j = fence /\ a_worker a = worker /\
  j_lease j = Some (a_lease a).
Proof.
  intros Hok H. unfold locked_attempt in H.
  destruct (jobs d !! job) as [j0|] eqn:Hj; [|done]. simpl in H.
  destruct (j_current_attempt j0) as [aid|] eqn:Hc; [|done]. simpl in H.
  destruct (attempts d !! aid) as [a0|] eqn:Ha; [|done]. simpl in H.
  case_match; [|done]. bool_simpl.
  repeat match goal with H : (_ =? _)%N = true |- _ => apply N.eqb_eq in H end. subst.
  destruct (running_of_job _ _ _ Hok Hj) as (a1 & Hrun & Hl); [done|].
  pose proof (ok_id _ _ _ (jobs_all _ Hok _ _ Hj)) as Hid.
  pose proof Hrun as (_ & Ha1 & _ & _ & Hc1 & _ & Hf).
  rewrite Hc in Hc1. injection Hc1 as ->. rewrite Ha in Ha1. injection Ha1 as ->.
  done.
Qed.

(** Split the monadic steps of [H] and name the facts of the statements. *)
Ltac tx_audit :=
  repeat match goal with
  | H : worker_audit _ _ _ _ _ _ _ _ _ = (Ok _, _) |- _ =>
      apply worker_audit_Ok in H; destruct H as [? ->]
  | H : audit _ _ _ _ _ _ _ _ = (Ok _, _) |- _ =>
      apply audit_Ok in H; destruct H as [? ->]
  | H : store_replay _ _ _ _ _ _ _ _ = (Ok _, _) |- _ =>
      apply store_replay_Ok in H; destruct H as [_ ->]
  | H : load_job _ _ _ _ _ = (Ok _, _) |- _ =>
      apply load_job_Ok in H; destruct H as [-> ?]
  | H : replay _ _ _ _ _ _ _ = (Ok _, _) |- _ =>
      apply replay_Ok in H; destruct H as [-> ?]
  | H : insert_effect _ _ _ = (Ok _, _) |- _ =>
      apply insert_effect_Ok in H; destruct H as [_ ->]
  end.

Lemma reap_one_steps sha256 env w r w' :
  jobs_ok (db w) -> reap_one sha256 env w = (r, w') -> core_step (db w) (db w').
Proof.
  intros Hok H. apply transaction_cases in H as [(e & -> & ->)|H]; [by apply cs_same|].
  tx_inv H. case_hyp H; [|tx_inv H; by apply cs_same].
  destruct (j_current_attempt j) as [aid|] eqn:Hc; [|by apply raise_Ok in H].
  apply select_first_in in Heqo as (id & Hj & Hk).
  apply andb_true_iff in Hk as [Hexp _]. unfold expired_at in Hexp. bool_simpl.
  destruct (running_of_job _ _ _ Hok Hj) as (a & Hrun & Hl); [done|].
  pose proof (ok_id _ _ _ (jobs_all _ Hok _ _ Hj)) as Hid. subst id.
  pose proof Hrun as (_ & Ha & Haj & Hs & Hcur & Hast & Haf).
  rewrite Hcur in Hc. injection Hc as <-.
  pose proof (running_scope _ _ _ Hok Hrun) as Hscope.
  pose proof (ok_fence_bound _ _ _ (jobs_all _ Hok _ _ Hj)) as Hfb.
  assert (Hne : effects (db w) !! j_id j = None).
  { destruct (effects (db w) !! j_id j) as [e|] eqn:E; [|done].
    destruct (ok_effect _ _ _ (jobs_all _ Hok _ _ Hj)) as [He _].
    specialize (He ltac:(eauto)). rewrite Hs in He. states. }
  tx_inv H.
  destruct (update_attempt_Ok _ _ _ _ _ _ _ _ E Ha) as [Hac ->];
    [simpl; by rewrite Hscope, Haf, Z.eqb_refl, Hast|]. clear E.
  cbn [db ticks drawn] in *.
  case_hyp E0; tx_inv E0.
  - destruct (update_job_Ok _ _ _ _ _ _ _ _ E Hj (in_scope_self _)) as (j' & Hf & Hjc & ->).
    apply bind_Some in Hf as (rv & [-> _]%bigint_succ_Some & [= <-]).
    apply insert_effect_if_absent_Ok in E0; [|exact Hne]. subst. cbn [db ticks drawn] in *.
    case_hyp H; [|by apply raise_Ok in H]. case_hyp H; [|by apply raise_Ok in H].
    tx_inv H. tx_audit. simpl.
    eapply (cs_end _ _ j _ a _ _ _ _ _ (Some OFailed)); simpl; eauto using end_exhausted.
    eexists. split; [|eauto]. unfold effect_for. simpl. auto.
  - destruct (update_job_Ok _ _ _ _ _ _ _ _ E0 Hj (in_scope_self _)) as (j' & Hf & Hjc & ->).
    apply bind_Some in Hf as (rv & [-> _]%bigint_succ_Some & [= <-]). cbn [db ticks drawn] in *.
    case_hyp H; [|by apply raise_Ok in H]. case_hyp H; [|by apply raise_Ok in H].
    tx_inv H. tx_audit. simpl.
    eapply (cs_end _ _ j _ a _ _ _ _ _ None); simpl; eauto using end_expired.
Qed.

Lemma reap_loop_steps sha256 n env w r w' :
  jobs_ok (db w) -> reap_loop sha256 n env w = (r, w') -> rtc core_step (db w) (db w').
Proof.
  revert w. induction n as [|n IH]; intros w Hok H; simpl in H.
  - injection H as _ <-. apply rtc_refl.
  - unfold tbind in H. destruct (reap_one sha256 env w) as [[more|e] w1] eqn:E.
    + apply reap_one_steps in E as Hstep; [|done].
      destruct more.
      * eapply rtc_l; [exact Hstep|]. eapply IH; eauto with hostlet.
      * injection H as _ <-. by apply rtc_once.
    + injection H as _ <-. apply reap_one_steps in E; [|done]. by apply rtc_once.
Qed.

Lemma lease_candidate_steps lease_seconds request env w r w' :
  jobs_ok (db w) -> lease_candidate lease_seconds request env w = (r, w') ->
  core_step (db w) (db w').
Proof.
  intros Hok H. apply transaction_cases in H as [(e & -> & ->)|H]; [by apply cs_same|].
  tx_inv H. case_hyp H; [|tx_inv H; by apply cs_same].
  apply select_first_in in Heqo as (id & Hj & Hk).
  apply andb_true_iff in Hk as [[[Hcl _]%andb_true_iff _]%andb_true_iff _].
  apply orb_true_iff in Hcl.
  pose proof (ok_id _ _ _ (jobs_all _ Hok _ _ Hj)) as Hid. subst id.
  pose proof (ok_fence_bound _ _ _ (jobs_all _ Hok _ _ Hj)) as Hfb.
  pose proof (job_ok_check_bounds _ (ok_check _ _ _ (jobs_all _ Hok _ _ Hj))) as Hb.
  tx_inv H. tx_audit.
  destruct (update_job_Ok _ _ _ _ _ _ _ _ E Hj (in_scope_self _)) as (j' & Hf & Hjc & ->).
  apply bind_Some in Hf as (rv & [-> _]%bigint_succ_Some & [= <-]).
  apply insert_attempt_Ok in E0 as (Hnone & Hac & ->). cbn [db ticks drawn] in *.
  destruct (attempt_check_bounds _ Hac) as [_ Hpos]. simpl in Hpos.
  destruct (wrap_i64_succ (j_fence j)) as [Hw Hmax]; [lia|done|].
  simpl. eapply (cs_lease _ _ j _ _); simpl; eauto; try done; try lia.
  - rewrite !elem_of_cons. destruct Hcl; bool_simpl; auto.
  - cbn [a_fence]. lia.
Qed.

Lemma lease_job_steps sha256 lease_seconds request env w r w' :
  jobs_ok (db w) -> lease_job sha256 lease_seconds request env w = (r, w') ->
  rtc core_step (db w) (db w').
Proof.
  intros Hok H. unfold lease_job in H.
  case_hyp H; [by injection H as _ <-|]. case_hyp H; [by injection H as _ <-|].
  unfold tbind, reap_expired in H.
  destruct (reap_loop sha256 64 env w) as [[[]|e] w1] eqn:E.
  - pose proof (reap_loop_steps _ _ _ _ _ _ Hok E) as Hs.
    etrans; [exact Hs|]. apply rtc_once.
    eapply lease_candidate_steps; [|exact H]. eauto with hostlet.
  - injection H as _ <-. by eapply reap_loop_steps.
Qed.

(** What a completion makes of the job and its attempt is one of the endings. *)
Definition completion_effect (js : JobState) : option OutcomeState :=
  match js with
  | Succeeded => Some OSucceeded
  | Failed => Some OFailed
  | _ => None
  end.

Lemma effective_outcome_ending j a outcome count js ats code :
  effective_outcome outcome count = Some (js, ats, code) ->
  ending j a js ats (if negb (bool_decide (js = Retriable)) then Some (a_id a) else None)
    (j_fence j) (completion_effect js) /\ js ∈ [Succeeded; Failed; Retriable].
Proof.
  unfold effective_outcome. intros H.
  repeat case_match; simplify_eq; (split; [constructor|set_solver]).
Qed.

(** A running job has no effect yet. *)
Lemma no_effect_of_running d j a :
  jobs_ok d -> running d j a -> effects d !! j_id j = None.
Proof.
  intros Hok (Hj & _ & _ & Hs & _). destruct (effects d !! j_id j) as [e|] eqn:E; [|done].
  destruct (ok_effect _ _ _ (jobs_all _ Hok _ _ Hj)) as [He _].
  specialize (He ltac:(eauto)). rewrite Hs in He. states.
Qed.

Section HandlerSteps.
Context (parse_uuid : string -> option Uuid) (sha256 : string -> string)
  (lease_seconds : Z) (aead_open : bytes -> bytes -> bytes -> bytes -> bytes -> option bytes)
  (complete_request_hash : CompleteRequest -> string) (uuid_text : Uuid -> string)
  (cancel_request_hash : string) (create_request_hash : CreateJobRequest -> string).

Lemma renew_job_steps job_id request env w r w' :
  jobs_ok (db w) -> renew_job parse_uuid lease_seconds job_id request env w = (r, w') ->
  core_step (db w) (db w').
Proof.
  intros Hok H. unfold renew_job in H.
  apply lift_cases in H as [(e & _ & _ & ->)|(job & _ & H)]; [by apply cs_same|].
  case_hyp H; [injection H as _ <-; by apply cs_same|].
  apply transaction_cases in H as [(e & -> & ->)|H]; [by apply cs_same|].
  tx_inv H. case_hyp H; [|by apply raise_Ok in H].
  destruct p as [j a]. apply locked_attempt_running in Heqo
    as (Hrun & <- & Hid & Hf & _ & _); [|done].
  pose proof Hrun as (Hj & Ha & Haj & Hs & Hcur & Hast & Haf).
  tx_inv H. case_hyp H; [by apply raise_Ok in H|]. tx_inv H. tx_audit.
  destruct (update_job_Ok _ _ _ _ _ _ _ _ E Hj) as (j' & [= <-] & Hjc & ->).
  { rewrite Hcur, Hid, Hf, Z.eqb_refl. by rewrite bool_decide_eq_true_2. }
  rewrite <- Hid in E0.
  destruct (update_attempt_Ok _ _ _ _ _ _ _ _ E0 Ha) as (Hac & ->).
  { rewrite Haj, Haf, Hf, N.eqb_refl, Z.eqb_refl. done. }
  cbn [db ticks drawn] in *. rewrite Hs in *. rewrite Hast in *.
  eapply (cs_renew _ _ j _ a _); simpl; eauto.
Qed.

Lemma resolve_credentials_steps key job_id request env w r w' :
  resolve_credentials parse_uuid aead_open key job_id request env w = (r, w') ->
  core_step (db w) (db w').
Proof.
  intros H. unfold resolve_credentials in H.
  apply lift_cases in H as [(e & _ & _ & ->)|(job & _ & H)]; [by apply cs_same|].
  case_hyp H; [injection H as _ <-; by apply cs_same|].
  case_hyp H; [|injection H as _ <-; by apply cs_same].
  apply transaction_cases in H as [(e & -> & ->)|H]; [by apply cs_same|].
  tx_inv H. case_hyp H; [|by apply raise_Ok in H].
  case_hyp H; [|by apply raise_Ok in H].
  tx_inv H. tx_audit. by apply cs_same.
Qed.

Lemma get_job_steps account project_id job_id env w r w' :
  get_job parse_uuid account project_id job_id env w = (r, w') -> db w' = db w.
Proof.
  intros H. unfold get_job in H.
  apply lift_cases in H as [(e & _ & _ & ->)|(project & _ & H)]; [done|].
  apply lift_cases in H as [(e & _ & _ & ->)|(job & _ & H)]; [done|].
  apply transaction_cases in H as [(e & -> & ->)|H]; [done|].
  tx_inv H. tx_audit. done.
Qed.

Lemma commit_completion_steps j a request js ats code env w r w' :
  jobs_ok (db w) -> running (db w) j a -> a_id a = cq_attempt_id request ->
  j_fence j = cq_fence request ->
  ending j a js ats (if negb (bool_decide (js = Retriable)) then Some (a_id a) else None)
    (j_fence j) (completion_effect js) -> js ∈ [Succeeded; Failed; Retriable] ->
  commit_completion complete_request_hash (j_id j) j request js ats code env w = (Ok r, w') ->
  core_step (db w) (db w').
Proof.
  intros Hok Hrun Hid Hf Hend Hin H. unfold commit_completion in H.
  pose proof (no_effect_of_running _ _ _ Hok Hrun) as Hne.
  pose proof (running_scope _ _ _ Hok Hrun) as Hscope.
  pose proof Hrun as (Hj & Ha & Haj & Hs & Hcur & Hast & Haf).
  pose proof (ok_fence_bound _ _ _ (jobs_all _ Hok _ _ Hj)) as Hfb.
  tx_inv H. rewrite <- Hid, <- Hf in *.
  destruct (update_attempt_Ok _ _ _ _ _ _ _ _ E Ha) as [Hac ->];
    [by rewrite Hscope, Haf, Z.eqb_refl, Hast|]. clear E. cbn [db ticks drawn] in *.
  destruct (update_job_Ok _ _ _ _ _ _ _ _ E0 Hj (in_scope_self _)) as (j' & Hfj & Hjc & ->).
  apply bind_Some in Hfj as (rv & [-> _]%bigint_succ_Some & [= <-]). cbn [db ticks drawn] in *.
  tx_audit. rewrite Hcur in *.
  case_hyp H; tx_inv H; tx_audit.
  - cbn [db ticks drawn] in *.
    eapply (cs_end _ _ j _ a _ _ _ _ _ (completion_effect js)); simpl; eauto.
    destruct js; try discriminate; try (by states); eexists; (split; [|split; [exact Hne|reflexivity]]);
      unfold effect_for; simpl; auto.
  - assert (js = Retriable) as -> by (by bool_simpl).
    eapply (cs_end _ _ j _ a _ _ _ _ _ None); simpl; eauto.
Qed.

Lemma complete_job_steps job_id request env w r w' :
  jobs_ok (db w) ->
  complete_job parse_uuid complete_request_hash job_id request env w = (r, w') ->
  core_step (db w) (db w').
Proof.
  intros Hok H. unfold complete_job in H.
  apply lift_cases in H as [(e & _ & _ & ->)|(job & _ & H)]; [by apply cs_same|].
  case_hyp H; [injection H as _ <-; by apply cs_same|].
  apply transaction_cases in H as [(e & -> & ->)|H]; [by apply cs_same|].
  tx_inv H. case_hyp H; [|by apply raise_Ok in H]. rename j into j0.
  case_hyp H; [|case_hyp H].
  - unfold replay_retry in H. tx_inv H.
    repeat (case_hyp H; try (by apply raise_Ok in H)). tx_inv H. tx_audit. by apply cs_same.
  - unfold replay_terminal in H. tx_inv H.
    repeat (case_hyp H; try (by apply raise_Ok in H)). tx_inv H. by apply cs_same.
  - case_hyp H; [|by apply raise_Ok in H]. destruct p as [j a].
    apply locked_attempt_running in Heqo0 as (Hrun & <- & Hid & Hf & _); [|done].
    pose proof Hrun as (Hj & _). rewrite Heqo in Hj. injection Hj as ->.
    tx_inv H. case_hyp H; [by apply raise_Ok in H|].
    case_hyp H; [|by apply raise_Ok in H]. destruct p as [[js ats] code].
    destruct (effective_outcome_ending j a _ _ _ _ _ Heqo0) as [Hend Hin].
    by eapply (commit_completion_steps j a request js ats code env (MkWorld (db w) _ _)).
Qed.

Lemma cancel_job_steps auth project_id job_id headers env w r w' :
  jobs_ok (db w) ->
  cancel_job parse_uuid uuid_text cancel_request_hash auth project_id job_id headers env w
    = (r, w') ->
  core_step (db w) (db w').
Proof.
  intros Hok H. unfold cancel_job in H.
  apply lift_cases in H as [(e & _ & _ & ->)|(project & _ & H)]; [by apply cs_same|].
  apply lift_cases in H as [(e & _ & _ & ->)|(job & _ & H)]; [by apply cs_same|].
  apply lift_cases in H as [(e & _ & _ & ->)|(key & _ & H)]; [by apply cs_same|].
  apply lift_cases in H as [(e & _ & _ & ->)|(revision & _ & H)]; [by apply cs_same|].
  apply transaction_cases in H as [(e & -> & ->)|H]; [by apply cs_same|].
  tx_inv H. tx_audit. case_hyp H; [|tx_inv H; by apply cs_same|tx_inv H; tx_audit; by apply cs_same].
  tx_inv H. case_hyp H; [|by apply raise_Ok in H].
  case_hyp H; [by apply raise_Ok in H|].
  case_hyp H; [tx_inv H; tx_audit; by apply cs_same|].
  case_hyp H; [tx_inv H; tx_audit; by apply cs_same|].
  pose proof (ok_id _ _ _ (jobs_all _ Hok _ _ Heqo)) as Hid. subst job.
  assert (Hscope : in_scope (account_id auth) project j = true) by (by bool_simpl).
  tx_inv H. tx_audit.
  pose proof (ok_fence_bound _ _ _ (jobs_all _ Hok _ _ Heqo)) as Hfb.
  destruct (j_current_attempt j) as [aid|] eqn:Hcur.
  - assert (Hs : j_state j = Running).
    { pose proof (ok_idle _ _ _ (jobs_all _ Hok _ _ Heqo)) as Hidle.
      destruct (j_state j) eqn:Hst; try done; rewrite Hidle in Hcur; try done; set_solver. }
    destruct (running_of_job _ _ _ Hok Heqo Hs) as (a & Hrun & _).
    pose proof (running_scope _ _ _ Hok Hrun) as Hsc.
    pose proof Hrun as (_ & Ha & Haj & _ & Hc & Hast & Haf).
    rewrite Hcur in Hc. injection Hc as ->.
    assert (Hacc : account_id auth = j_account j /\ project = j_project j)
      by (unfold in_scope in Hscope; bool_simpl; done).
    destruct Hacc as [Hacc ->]. rewrite Hacc in *.
    tx_inv E. destruct (update_attempt_Ok _ _ _ _ _ _ _ _ E Ha) as [Hac ->];
      [by rewrite Hsc, Hast|]. clear E. cbn [db ticks drawn] in *.
    destruct (update_job_Ok _ _ _ _ _ _ _ _ E0 Heqo Hscope) as (j' & Hfj & Hjc & ->).
    apply bind_Some in Hfj as (rv & [-> _]%bigint_succ_Some & Hfj).
    apply bind_Some in Hfj as (fv & [-> Hmax]%bigint_succ_Some & [= <-]).
    eapply (cs_end _ _ j _ a _ _ _ _ _ None); simpl; eauto using end_canceled.
  - tx_inv E. destruct (update_job_Ok _ _ _ _ _ _ _ _ E0 Heqo Hscope) as (j' & Hfj & Hjc & ->).
    apply bind_Some in Hfj as (rv & [-> _]%bigint_succ_Some & Hfj).
    apply bind_Some in Hfj as (fv & [-> Hmax]%bigint_succ_Some & [= <-]).
    eapply (cs_cancel_idle _ _ j); simpl; eauto.
    pose proof (ok_running _ _ _ (jobs_all _ Hok _ _ Heqo)) as Hr.
    destruct (j_state j) eqn:Hst; try done; try set_solver.
Qed.

Lemma insert_job_Ok j env w w' u :
  insert_job j env w = (Ok u, w') ->
  jobs (db w) !! j_id j = None /\ job_check j = true /\
  w' = MkWorld (set_jobs (<[j_id j := j]> (jobs (db w))) (db w)) (ticks w) (drawn w).
Proof. unfold insert_job. intros H. tx_inv H. by apply insert_pk_Some in E as (? & ? & ->). Qed.

Lemma insert_secret_refs_Ok account project service job resolved env w w' u :
  insert_secret_refs account project service job resolved env w = (Ok u, w') ->
  exists t, w' = MkWorld (set_secret_refs t (db w)) (ticks w) (drawn w).
Proof.
  revert w. induction resolved as [|[[secret version] kind] rest IH]; simpl; intros w H.
  - tx_inv H. destruct w as [[] ? ?]. by eexists.
  - tx_inv H. unfold insert_secret_ref in E. tx_inv E. apply IH in H as (t & ->). by eexists.
Qed.

Lemma create_job_steps auth project_id headers request env w r w' :
  jobs_ok (db w) ->
  create_job parse_uuid uuid_text create_request_hash auth project_id headers request env w
    = (r, w') ->
  core_step (db w) (db w').
Proof.
  intros Hok H. unfold create_job in H.
  do 4 (case_hyp H; [injection H as _ <-; by apply cs_same|]).
  apply lift_cases in H as [(e & _ & _ & ->)|(project & _ & H)]; [by apply cs_same|].
  apply lift_cases in H as [(e & _ & _ & ->)|(service & _ & H)]; [by apply cs_same|].
  apply lift_cases in H as [(e & _ & _ & ->)|(key & _ & H)]; [by apply cs_same|].
  apply transaction_cases in H as [(e & -> & ->)|H]; [by apply cs_same|].
  tx_inv H. tx_audit. case_hyp H; [|tx_inv H; by apply cs_same|tx_inv H; tx_audit; by apply cs_same].
  tx_inv H. case_hyp H; [tx_inv H; tx_audit; by apply cs_same|].
  tx_inv H.
  match goal with E : insert_job _ _ _ = _ |- _ =>
    apply insert_job_Ok in E as (Hnone & Hjc & ->) end.
  match goal with E : insert_secret_refs _ _ _ _ _ _ _ = _ |- _ =>
    apply insert_secret_refs_Ok in E as (t & ->) end.
  tx_audit. cbn [db ticks drawn] in *.
  eapply (cs_create _ _ (new_job _ _ _ _ _ _)); simpl; eauto.
Qed.
End HandlerSteps.
