(* ===== verification/JobsTheorems.v ===== *)
(** * Guarantees of the job service

    The theorems clients of crates/control/src/jobs.rs rely on, over the
    executions of its handlers ([api_step]).  [Demo] instantiates the external
    functions to run the handlers on concrete tables. *)

From stdpp Require Import base list option gmap strings pretty sorting relations.
From Stdlib Require Import ZArith Lia.
From S2P Require Import Prelude RustText Bytes PgTx Intent Secrets Jobs JobsSpec.

Local Open Scope string_scope.
Local Open Scope list_scope.

(** ** Facts about every abstract step *)

(** Rows that have reached their end never change again. *)
Record history_kept (d d' : JobsDb) : Prop := {
  kept_job : forall id j, jobs d !! id = Some j -> terminal_state (j_state j) = true ->
    jobs d' !! id = Some j;
  kept_attempt : forall id a, attempts d !! id = Some a -> a_state a <> ARunning ->
    attempts d' !! id = Some a;
  kept_effect : forall id e, effects d !! id = Some e -> effects d' !! id = Some e;
}.

(** No job disappears, and its fence and its attempt count never decrease. *)
Definition fences_kept (d d' : JobsDb) : Prop := forall id j,
  jobs d !! id = Some j -> exists j', jobs d' !! id = Some j' /\ job_kept j j'.

#[export] Instance history_kept_preorder : PreOrder history_kept.
Proof.
  split; [by intros d; split|]. intros d1 d2 d3 [] []. split; eauto.
Qed.

#[export] Instance fences_kept_preorder : PreOrder fences_kept.
Proof.
  split.
  - intros d id j Hj. exists j. split; [done|]. unfold job_kept. split_and!; try done; lia.
  - intros d1 d2 d3 H12 H23 id j Hj. destruct (H12 _ _ Hj) as (j2 & H2 & Hk).
    destruct (H23 _ _ H2) as (j3 & H3 & Hk'). exists j3. split; [done|].
    unfold job_kept in *. split_and!; [| | |lia..]; intuition congruence.
Qed.

(** Writing a job that is not terminal, and an attempt that is running or new,
    keeps history; an effect is only ever added. *)
Lemma history_kept_intro d d' (j j' : Job) (aid : Uuid) (oa : option Attempt) :
  (forall j0, jobs d !! j_id j = Some j0 -> terminal_state (j_state j0) = false) ->
  (forall a0, attempts d !! aid = Some a0 -> oa <> None -> a_state a0 = ARunning) ->
  jobs d' = <[j_id j := j']> (jobs d) ->
  attempts d' = match oa with Some a => <[aid := a]> (attempts d) | None => attempts d end ->
  effects d ⊆ effects d' -> history_kept d d'.
Proof.
  intros Hj Ha Ej Ea Ee. split.
  - intros id j0 Hl Ht. rewrite Ej, lookup_insert_ne; [done|]. intros <-.
    rewrite (Hj _ Hl) in Ht. done.
  - intros id a Hl Hs. rewrite Ea. destruct oa as [a'|]; [|done].
    rewrite lookup_insert_ne; [done|]. intros <-. by apply Hs, Ha.
  - intros id e Hl. by eapply lookup_weaken.
Qed.

Lemma fences_kept_intro d d' (j j' : Job) :
  (forall j0, jobs d !! j_id j = Some j0 -> job_kept j0 j') ->
  jobs d' = <[j_id j := j']> (jobs d) -> fences_kept d d'.
Proof.
  intros Hk Ej id j0 Hl. rewrite Ej, lookup_insert. case_decide as E; [subst|].
  - eexists. split; [done|]. by apply Hk.
  - exists j0. split; [done|]. unfold job_kept. split_and!; try done; lia.
Qed.

Lemma non_terminal (s : JobState) :
  s ∈ [Queued; Retriable; Running] -> terminal_state s = false.
Proof. rewrite !elem_of_cons, elem_of_nil. naive_solver. Qed.

Lemma core_step_history d d' : core_step d d' -> history_kept d d'.
Proof.
  intros Hstep. destruct Hstep as [Ej Ea Ee|j Hn _ _ _ _ Ej Ea Ee
    |j j' a Hj Hs Hn _ _ _ _ _ _ _ _ _ _ Ej Ea Ee|j j' a a' l Hrun _ _ _ _ Ej Ea Ee
    |j j' a a' js ats c f o Hrun _ _ _ _ _ _ Ej Ea Ee|j j' Hj Hs _ _ _ Ej Ea Ee].
  - split; rewrite ?Ej, ?Ea, ?Ee; done.
  - eapply (history_kept_intro _ _ j _ 0%N None); eauto; try congruence; by rewrite Ee.
  - eapply (history_kept_intro _ _ j _ (a_id a) (Some a)); eauto; try congruence; try (by rewrite Ee).
    intros j0 Hj0. assert (j0 = j) as -> by congruence. apply non_terminal. set_solver.
  - destruct Hrun as (Hj & Ha & _ & Hs & _ & Hst & _).
    eapply (history_kept_intro _ _ j _ (a_id a) (Some a')); eauto; try congruence; try (by rewrite Ee).
    intros j0 Hj0. assert (j0 = j) as -> by congruence. by rewrite Hs.
  - destruct Hrun as (Hj & Ha & _ & Hs & _ & Hst & _).
    eapply (history_kept_intro _ _ j _ (a_id a) (Some a')); eauto; try congruence.
    + intros j0 Hj0. assert (j0 = j) as -> by congruence. by rewrite Hs.
    + destruct o as [os|]; [|by rewrite Ee]. destruct Ee as (e & _ & Hne & ->).
      by apply insert_subseteq.
  - eapply (history_kept_intro _ _ j _ 0%N None); eauto; try congruence; try (by rewrite Ee).
    intros j0 Hj0. assert (j0 = j) as -> by congruence. apply non_terminal. set_solver.
Qed.

Lemma core_step_fences d d' : core_step d d' -> fences_kept d d'.
Proof.
  intros Hstep. destruct Hstep as [Ej Ea Ee|j Hn _ _ _ _ Ej _ _
    |j j' a Hj _ _ _ _ _ _ _ Hnum Hf _ _ (r & u & ->) Ej _ _|j j' a a' l Hrun _ _ (u & ->) _ Ej _ _
    |j j' a a' js ats c f o Hrun Hend _ _ _ (r & u & ->) _ Ej _ _|j j' Hj _ _ _ (r & u & ->) Ej _ _].
  - intros id j Hj. exists j. rewrite Ej. split; [done|]. unfold job_kept. split_and!; try done; lia.
  - eapply fences_kept_intro; eauto. congruence.
  - eapply fences_kept_intro; eauto. intros j0 Hj0. assert (j0 = j) as -> by congruence.
    unfold job_kept. simpl. split_and!; try done; lia.
  - destruct Hrun as (Hj & _). eapply fences_kept_intro; eauto. intros j0 Hj0.
    assert (j0 = j) as -> by congruence. unfold job_kept. simpl. split_and!; try done; lia.
  - destruct Hrun as (Hj & _). eapply fences_kept_intro; eauto. intros j0 Hj0.
    assert (j0 = j) as -> by congruence. unfold job_kept. simpl.
    destruct Hend; split_and!; try done; lia.
  - eapply fences_kept_intro; eauto. intros j0 Hj0. assert (j0 = j) as -> by congruence.
    unfold job_kept. simpl. split_and!; try done; lia.
Qed.

#[export] Hint Resolve core_step_history core_step_fences : hostlet.

(** ** Executions *)

Section Executions.
Context (parse_uuid : string -> option Uuid) (sha256 : string -> string)
  (lease_seconds : Z) (aead_open : bytes -> bytes -> bytes -> bytes -> bytes -> option bytes)
  (complete_request_hash : CompleteRequest -> string) (uuid_text : Uuid -> string)
  (cancel_request_hash : string) (create_request_hash : CreateJobRequest -> string).

(** One request served, whatever its result, or a transaction of another
    component, which writes none of the three job tables. *)
Inductive api_step (env : Env) (w w' : World JobsDb) : Prop :=
| api_create auth project headers request r :
    create_job parse_uuid uuid_text create_request_hash auth project headers request env w
      = (r, w') -> api_step env w w'
| api_get auth project job r :
    get_job parse_uuid auth project job env w = (r, w') -> api_step env w w'
| api_cancel auth project job headers r :
    cancel_job parse_uuid uuid_text cancel_request_hash auth project job headers env w
      = (r, w') -> api_step env w w'
| api_lease request r :
    lease_job sha256 lease_seconds request env w = (r, w') -> api_step env w w'
| api_renew job request r :
    renew_job parse_uuid lease_seconds job request env w = (r, w') -> api_step env w w'
| api_resolve key job request r :
    resolve_credentials parse_uuid aead_open key job request env w = (r, w') ->
    api_step env w w'
| api_complete job request r :
    complete_job parse_uuid complete_request_hash job request env w = (r, w') ->
    api_step env w w'
| api_other :
    jobs (db w') = jobs (db w) -> attempts (db w') = attempts (db w) ->
    effects (db w') = effects (db w) -> api_step env w w'.

(** Every request is a sequence of abstract steps. *)
Lemma api_step_core env w w' :
  api_step env w w' -> jobs_ok (db w) -> rtc core_step (db w) (db w').
Proof.
  intros [] Hok.
  - eapply rtc_once, create_job_steps; eauto.
  - erewrite (get_job_steps _ _ _ _ _ _ _ w'); eauto. done.
  - eapply rtc_once, cancel_job_steps; eauto.
  - eapply lease_job_steps; eauto.
  - eapply rtc_once, renew_job_steps; eauto.
  - eapply rtc_once, resolve_credentials_steps; eauto.
  - eapply rtc_once, complete_job_steps; eauto.
  - by apply rtc_once, cs_same.
Qed.

Lemma api_steps_core env w w' :
  rtc (api_step env) w w' -> jobs_ok (db w) -> rtc core_step (db w) (db w').
Proof.
  induction 1 as [|w w1 w' Hs _ IH]; intros Hok; [done|].
  pose proof (api_step_core _ _ _ Hs Hok). etrans; [done|]. eauto with hostlet.
Qed.

Lemma core_steps_history d d' : rtc core_step d d' -> history_kept d d'.
Proof. induction 1; [done|]. etrans; eauto with hostlet. Qed.

Lemma core_steps_fences d d' : rtc core_step d d' -> fences_kept d d'.
Proof. induction 1; [done|]. etrans; eauto with hostlet. Qed.

Lemma api_steps_ok env w w' :
  rtc (api_step env) w w' -> jobs_ok (db w) -> jobs_ok (db w').
Proof. eauto using api_steps_core with hostlet. Qed.

Lemma api_steps_history env w w' :
  rtc (api_step env) w w' -> jobs_ok (db w) -> history_kept (db w) (db w').
Proof. eauto using api_steps_core, core_steps_history. Qed.

(** C1: every sequence of requests, successful or not, keeps the job tables
    well formed: a running job has exactly the attempt it names, with its fence
    and its lease, every terminal job has its one effect, fences and attempt
    numbers are unique per job, and a job is attempted at most three times. *)
Theorem executions_keep_jobs_ok env w w' :
  jobs_ok (db w) -> rtc (api_step env) w w' -> jobs_ok (db w').
Proof. eauto using api_steps_core with hostlet. Qed.

(** what has ended stays as it ended: through any sequence of requests a
    terminal job's row, an ended attempt's row and a recorded effect are never
    changed, and no job's fence or attempt count ever decreases. *)
Theorem executions_keep_history env w w' :
  jobs_ok (db w) -> rtc (api_step env) w w' ->
  history_kept (db w) (db w') /\ fences_kept (db w) (db w').
Proof.
  intros Hok Hs. pose proof (api_steps_core _ _ _ Hs Hok).
  split; eauto using core_steps_history, core_steps_fences.
Qed.

(** ** Fencing *)

(** The worker holds the live lease of the job's current attempt at time [now]. *)
Definition holds_lease (d : JobsDb) (now : Z) (job attempt : Uuid) (fence : Z)
    (worker : string) : Prop :=
  exists j a, running d j a /\ j_id j = job /\ a_id a = attempt /\ a_fence a = fence /\
    a_worker a = worker /\ (now < a_lease a)%Z.

Lemma live_holds d now job attempt fence worker j a :
  jobs_ok d -> locked_attempt d job attempt fence worker = Some (j, a) ->
  lease_live now j a = true -> holds_lease d now job attempt fence worker.
Proof.
  intros Hok Hl Hlive. apply locked_attempt_running in Hl as (Hr & ? & ? & ? & ? & Hle); [|done].
  exists j, a. unfold lease_live in Hlive. rewrite Hle in Hlive. bool_simpl.
  pose proof Hr as (_ & _ & _ & _ & _ & _ & ?). split_and!; try done; congruence.
Qed.

Lemma holds_locked d now job attempt fence worker :
  jobs_ok d -> holds_lease d now job attempt fence worker ->
  exists j a, locked_attempt d job attempt fence worker = Some (j, a) /\
    lease_live now j a = true /\ running d j a /\ j_id j = job /\ a_id a = attempt.
Proof.
  intros Hok (j & a & Hrun & <- & <- & <- & <- & Hlt). exists j, a.
  pose proof Hrun as (Hj & Ha & Haj & Hs & Hc & Hst & Hf).
  pose proof (running_scope _ _ _ Hok Hrun) as Hsc. unfold attempt_in_scope in Hsc.
  destruct (running_of_job _ _ _ Hok Hj Hs) as (a' & Hrun' & Hle).
  assert (a' = a) as ->.
  { destruct Hrun' as (_ & Ha' & _ & _ & Hc' & _). rewrite Hc in Hc'. congruence. }
  split_and!; try done.
  - unfold locked_attempt. rewrite Hj. simpl. rewrite Hc. simpl. rewrite Ha. simpl.
    rewrite Hsc, Hs, Hst, Hf, N.eqb_refl, Z.eqb_refl, !bool_decide_eq_true_2; done.
  - unfold lease_live. rewrite Hle. by apply Z.ltb_lt in Hlt as ->.
Qed.

(** A request that a worker without the lease makes, read at clock tick [t]. *)
Lemma not_held_renew job_id job request env w :
  jobs_ok (db w) -> parse_uuid job_id = Some job ->
  ~ holds_lease (db w) (clock env (ticks w)) job (lid_attempt_id request)
      (lid_fence request) (lid_worker_id request) ->
  exists w', renew_job parse_uuid lease_seconds job_id request env w = (Err fenced, w') /\
    db w' = db w.
Proof.
  intros Hok Hp Hn. unfold renew_job, path_uuid, tbind, lift. rewrite Hp. cbn beta iota.
  case_match; [by eexists|]. unfold transaction, tbind, get_db.
  destruct (locked_attempt _ _ _ _ _) as [[j a]|] eqn:Hl; [|by eexists].
  unfold clock_timestamp. destruct (lease_live _ j a) eqn:Hlive; simpl; [|by eexists].
  by eapply live_holds in Hl.
Qed.

Lemma resolve_locked_Ok d now key job worker attempt fence requested l :
  jobs_ok d ->
  resolve_for_locked_live_job aead_open d now key job worker attempt fence requested = Ok l ->
  (length requested <= MAX_JOB_SECRET_REFS)%nat /\ NoDup requested /\
  exists j a, holds_lease d now job attempt fence worker /\
    locked_attempt d job attempt fence worker = Some (j, a) /\
    (requested = [] /\ l = [] \/
     let rows := omap (fun v => pair v <$> resolve_row d j v) requested in
     length rows = length requested /\ open_rows aead_open key j rows = Ok l).
Proof.
  intros Hok H. unfold resolve_for_locked_live_job in H.
  case_hyp H; [done|]. case_hyp H; [|done].
  destruct (locked_attempt _ _ _ _ _) as [[j1 a]|] eqn:Hl; [|done].
  case_hyp H; [done|].
  unfold distinct in *. bool_simpl. match goal with H : (_ <? _)%nat = false |- _ =>
    apply Nat.ltb_ge in H end.
  split_and!; [done..|]. exists j1, a. split; [by eapply live_holds|]. split; [done|].
  case_hyp H; bool_simpl; [by left|]. right. case_hyp H; [done|]. split; [|done].
  bool_simpl. by apply Nat.eqb_eq.
Qed.

Lemma not_held_resolve key job_id job request env w :
  jobs_ok (db w) -> parse_uuid job_id = Some job ->
  ~ holds_lease (db w) (clock env (ticks w)) job (rq_attempt_id request)
      (rq_fence request) (rq_worker_id request) ->
  exists e w', resolve_credentials parse_uuid aead_open key job_id request env w = (Err e, w') /\
    db w' = db w.
Proof.
  intros Hok Hp Hn. unfold resolve_credentials, path_uuid, tbind, lift. rewrite Hp. cbn beta iota.
  case_match; [by eexists _, _|]. case_match; [|by eexists _, _].
  unfold transaction, tbind, get_db, clock_timestamp. cbn [db ticks drawn].
  destruct (resolve_for_locked_live_job _ _ _ _ _ _ _ _ _) as [l|e] eqn:E; [|by eexists _, _].
  by apply resolve_locked_Ok in E as (_ & _ & ? & ? & Hh & _).
Qed.

Lemma not_held_complete job_id job request env w r w' :
  jobs_ok (db w) -> parse_uuid job_id = Some job ->
  ~ holds_lease (db w) (clock env (ticks w)) job (cq_attempt_id request)
      (cq_fence request) (cq_worker_id request) ->
  complete_job parse_uuid complete_request_hash job_id request env w = (r, w') ->
  db w' = db w.
Proof.
  intros Hok Hp Hn H. unfold complete_job in H.
  apply lift_cases in H as [(e & _ & _ & ->)|(job' & Hj' & H)]; [done|].
  assert (job' = job) as ->.
  { unfold path_uuid in Hj'. rewrite Hp in Hj'. congruence. }
  case_hyp H; [by injection H as _ <-|].
  apply transaction_cases in H as [(e & -> & ->)|H]; [done|].
  tx_inv H. case_hyp H; [|by apply raise_Ok in H]. case_hyp H; [|case_hyp H].
  - unfold replay_retry in H. tx_inv H.
    repeat (case_hyp H; try (by apply raise_Ok in H)). tx_inv H. tx_audit. done.
  - unfold replay_terminal in H. tx_inv H.
    repeat (case_hyp H; try (by apply raise_Ok in H)). by tx_inv H.
  - case_hyp H; [|by apply raise_Ok in H]. destruct p as [j' a]. tx_inv H.
    destruct (lease_live _ j' a) eqn:Hlive; [|by apply raise_Ok in H].
    eapply live_holds in Hlive; done.
Qed.

(** C3: a worker acts only under the live lease it holds.  Whoever presents an
    attempt, fence or worker name that is not the job's current running attempt,
    or presents it after the lease ran out, gets no renewal and no credential,
    and a completion it sends changes nothing. *)
Theorem stale_workers_change_nothing key job_id job attempt fence worker outcome versions env w :
  jobs_ok (db w) -> parse_uuid job_id = Some job ->
  ~ holds_lease (db w) (clock env (ticks w)) job attempt fence worker ->
  (exists w', renew_job parse_uuid lease_seconds job_id
     {| lid_worker_id := worker; lid_attempt_id := attempt; lid_fence := fence |} env w
     = (Err fenced, w') /\ db w' = db w) /\
  (exists e w', resolve_credentials parse_uuid aead_open key job_id
     {| rq_worker_id := worker; rq_attempt_id := attempt; rq_fence := fence;
        rq_versions := versions |} env w = (Err e, w') /\ db w' = db w) /\
  (exists r w', complete_job parse_uuid complete_request_hash job_id
     {| cq_worker_id := worker; cq_attempt_id := attempt; cq_fence := fence;
        cq_outcome := outcome |} env w = (r, w') /\ db w' = db w).
Proof.
  intros Hok Hp Hn. split_and!.
  - by eapply not_held_renew.
  - by eapply not_held_resolve.
  - destruct (complete_job _ _ _ _ _ _) as [r w'] eqn:E. exists r, w'. split; [done|].
    by eapply not_held_complete in E.
Qed.

(** once a job has been canceled (or has otherwise ended), no later
    sequence of requests lets any worker hold its lease again. *)
Theorem ended_jobs_are_never_leased env w w' id j now attempt fence worker :
  jobs_ok (db w) -> jobs (db w) !! id = Some j -> terminal_state (j_state j) = true ->
  rtc (api_step env) w w' -> ~ holds_lease (db w') now id attempt fence worker.
Proof.
  intros Hok Hj Ht Hs (j' & a & (Hj' & _ & _ & Hr & _) & <- & _).
  pose proof (kept_job _ _ (api_steps_history _ _ _ Hs Hok) _ _ Hj Ht) as Hk.
  rewrite Hj' in Hk. injection Hk as ->. by rewrite Hr in Ht.
Qed.

(** ** Completions and their replays *)

Definition completion_valid (request : CompleteRequest) : bool :=
  negb (negb (valid_worker_id (cq_worker_id request)) || (cq_fence request <=? 0)%Z
        || negb (valid_outcome (cq_outcome request))).

(** [response] is the recorded outcome of [request] for the terminal [job]. *)
Definition completed (d : JobsDb) (job : Uuid) (request : CompleteRequest)
    (response : CompleteResponse) : Prop :=
  completion_valid request = true /\
  exists j a e, jobs d !! job = Some j /\ j_state j ∈ [Succeeded; Failed] /\
    j_current_attempt j = Some (cq_attempt_id request) /\ j_fence j = cq_fence request /\
    attempts d !! cq_attempt_id request = Some a /\ a_state a <> ARunning /\
    attempt_in_scope (j_account j) (j_project j) job a = true /\
    a_id a = cq_attempt_id request /\
    a_fence a = cq_fence request /\ a_worker a = cq_worker_id request /\
    effects d !! job = Some e /\ e_account e = a_account a /\ e_project e = a_project a /\
    e_attempt e = a_id a /\ e_fence e = a_fence a /\
    e_completion_hash e = complete_request_hash request /\ e_body e = BodyCompletion response.

Lemma completed_kept d d' job request response :
  history_kept d d' -> completed d job request response -> completed d' job request response.
Proof.
  intros [Hj Ha He] (Hv & j & a & e & Hl & Hs & Hc & Hf & Hla & Hst & Hsc & Hid & Haf & Hw & Hle & Hr).
  split; [done|]. exists j, a, e. split; [|split_and!; eauto; tauto].
  apply Hj; [done|]. rewrite !elem_of_cons, elem_of_nil in Hs. by destruct Hs as [->|[->|[]]].
Qed.

Lemma completed_replays job_id job request response env w :
  parse_uuid job_id = Some job -> completed (db w) job request response ->
  complete_job parse_uuid complete_request_hash job_id request env w = (Ok response, w).
Proof.
  intros Hp (Hv & j & a & e & Hl & Hs & Hc & Hf & Hla & Hst & Hsc & Hid & Haf & Hw & Hle &
    Hea & Hep & Hat & Hef & Hh & Hb).
  unfold complete_job, path_uuid, tbind, lift. rewrite Hp. cbn beta iota.
  unfold completion_valid in Hv. apply negb_true_iff in Hv. rewrite Hv.
  unfold transaction, tbind, get_db. rewrite Hl, Hf, Z.eqb_refl.
  assert (Hr : j_state j <> Retriable) by states.
  rewrite bool_decide_eq_false_2 by done. cbn [andb].
  assert (Ht : bool_decide (j_state j = Succeeded) || bool_decide (j_state j = Failed) = true).
  { rewrite orb_true_iff, !bool_decide_eq_true. states. }
  rewrite Ht, Hc, bool_decide_eq_true_2 by done. cbn [andb].
  unfold replay_terminal, tbind, get_db. rewrite Hla, Hle, Hsc.
  rewrite Hea, Hep, Hat, Hef, Haf, !Z.eqb_refl, !N.eqb_refl. cbn [andb].
  rewrite Hw, Hh, !bool_decide_eq_true_2 by done. cbn [negb orb].
  by rewrite Hb.
Qed.

(** The three ways a completion is accepted. *)
Lemma complete_job_Ok job_id request env w response w' :
  complete_job parse_uuid complete_request_hash job_id request env w = (Ok response, w') ->
  exists job j, parse_uuid job_id = Some job /\ completion_valid request = true /\
    jobs (db w) !! job = Some j /\
    (j_state j = Retriable /\ j_fence j = cq_fence request /\
       replay_retry complete_request_hash job j request env w = (Ok (Ok response), w') \/
     j_state j ∈ [Succeeded; Failed] /\ j_current_attempt j = Some (cq_attempt_id request) /\
       j_fence j = cq_fence request /\
       replay_terminal complete_request_hash job j request env w = (Ok (Ok response), w') \/
     exists j' a js ats code,
       locked_attempt (db w) job (cq_attempt_id request) (cq_fence request)
         (cq_worker_id request) = Some (j', a) /\
       lease_live (clock env (ticks w)) j' a = true /\
       effective_outcome (cq_outcome request) (j_attempt_count j) = Some (js, ats, code) /\
       commit_completion complete_request_hash job j request js ats code env
         (MkWorld (db w) (S (ticks w)) (drawn w)) = (Ok (Ok response), w')).
Proof.
  intros H. unfold complete_job in H.
  apply lift_cases in H as [(e & _ & [=] & _)|(job & Hj' & H)].
  unfold path_uuid in Hj'. destruct (parse_uuid job_id) as [id|] eqn:Hp; [|done].
  injection Hj' as ->. case_hyp H; [by apply raise_Ok in H|].
  apply transaction_cases in H as [(e & [=] & _)|H].
  tx_inv H. destruct (jobs (db w) !! job) as [j|] eqn:Hl; [|by apply raise_Ok in H].
  exists job, j. unfold completion_valid. apply negb_true_iff in Heqb.
  split_and!; [done|by apply negb_true_iff; apply negb_true_iff in Heqb|done|].
  case_hyp H; [|case_hyp H]; bool_simpl.
  - left. done.
  - right. left. split_and!; try done. rewrite !elem_of_cons.
    match goal with H : _ \/ _ |- _ => destruct H end; bool_simpl; auto.
  - right. right. case_hyp H; [|by apply raise_Ok in H]. destruct p as [j' a]. tx_inv H.
    destruct (lease_live _ j' a) eqn:Hlive; [|by apply raise_Ok in H].
    cbn [negb] in H. case_hyp H; [|by apply raise_Ok in H]. destruct p as [[js ats] code]. eauto 10.
Qed.

(** A terminal commit or its replay leaves the completion recorded. *)
Lemma commit_completed job j a request js ats code env w w' response :
  jobs_ok (db w) -> completion_valid request = true ->
  running (db w) j a -> j_id j = job -> a_id a = cq_attempt_id request ->
  j_fence j = cq_fence request -> a_worker a = cq_worker_id request ->
  ending j a js ats (if negb (bool_decide (js = Retriable)) then Some (a_id a) else None)
    (j_fence j) (completion_effect js) -> js ∈ [Succeeded; Failed; Retriable] ->
  commit_completion complete_request_hash job j request js ats code env w
    = (Ok (Ok response), w') ->
  cr_effect response <> None -> completed (db w') job request response.
Proof.
  intros Hok Hv Hrun <- Hid Hf Hw Hend Hin H Hne. split; [done|].
  pose proof (running_scope _ _ _ Hok Hrun) as Hscope.
  pose proof Hrun as (Hj & Ha & Haj & Hs & Hcur & Hast & Haf).
  unfold commit_completion in H. tx_inv H. rewrite <- Hid, <- Hf in *.
  destruct (update_attempt_Ok _ _ _ _ _ _ _ _ E Ha) as [_ ->];
    [by rewrite Hscope, Haf, Z.eqb_refl, Hast|]. clear E. cbn [db ticks drawn] in *.
  destruct (update_job_Ok _ _ _ _ _ _ _ _ E0 Hj (in_scope_self _)) as (j' & Hfj & _ & ->).
  apply bind_Some in Hfj as (rv & _ & [= <-]). cbn [db ticks drawn] in *.
  tx_audit. rewrite Hcur in *. case_hyp H; tx_inv H; tx_audit; simplify_eq/=.
  cbn [db ticks drawn] in *. eexists _, _, _. simpl. rewrite !lookup_insert_eq.
  split_and!; try done.
  - bool_simpl. rewrite !elem_of_cons in *. naive_solver.
  - destruct Hend; done.
  - unfold attempt_in_scope in Hscope; bool_simpl; simpl; congruence.
  - unfold attempt_in_scope in Hscope; bool_simpl; simpl; congruence.
Qed.

Lemma replay_terminal_completed job j request env w w' response :
  jobs_ok (db w) -> completion_valid request = true -> jobs (db w) !! job = Some j ->
  j_state j ∈ [Succeeded; Failed] -> j_current_attempt j = Some (cq_attempt_id request) ->
  j_fence j = cq_fence request ->
  replay_terminal complete_request_hash job j request env w = (Ok (Ok response), w') ->
  w' = w /\ completed (db w) job request response.
Proof.
  intros Hok Hv Hj Hs Hc Hf H. unfold replay_terminal in H. tx_inv H.
  destruct (attempts (db w) !! cq_attempt_id request) as [a|] eqn:Ha; [|by apply raise_Ok in H].
  case_hyp H; [|by apply raise_Ok in H]. case_hyp H; [|by apply raise_Ok in H].
  case_hyp H; [by apply raise_Ok in H|]. case_hyp H; [|by apply raise_Ok in H].
  tx_inv H. injection H as ->. split; [done|]. split; [done|].
  destruct (attempts_all _ Hok _ _ Ha) as [Hid _ (j0 & Hj0 & Hat)].
  assert (a_job a = job) as Hjob by (unfold attempt_in_scope in *; bool_simpl; done).
  rewrite Hjob, Hj in Hj0. injection Hj0 as <-.
  bool_simpl. eexists _, a, _. split_and!; try done.
  intros Hr. destruct Hat as (_ & _ & _ & _ & Hrun). destruct (Hrun Hr) as [Hst _].
  rewrite Hst in Hs. states.
Qed.

(** a terminal completion is answered once and for all.  After a completion
    was accepted with an effect, repeating the same request, after any number of
    other requests, returns the same response and changes nothing. *)
Theorem terminal_completion_replays job_id request env w response w1 w2 :
  jobs_ok (db w) ->
  complete_job parse_uuid complete_request_hash job_id request env w = (Ok response, w1) ->
  cr_effect response <> None -> rtc (api_step env) w1 w2 ->
  complete_job parse_uuid complete_request_hash job_id request env w2 = (Ok response, w2).
Proof.
  intros Hok H Hne Hs.
  assert (Hok1 : jobs_ok (db w1)) by (eapply core_step_ok; [by eapply complete_job_steps|done]).
  apply complete_job_Ok in H as (job & j & Hp & Hv & Hj & Hcases).
  eapply completed_replays; [exact Hp|].
  eapply completed_kept; [by eapply api_steps_history|].
  destruct Hcases as [(_ & _ & H)|[(Hst & Hc & Hf & H)|(j' & a & js & ats & code & Hl & _ & Ho & H)]].
  - unfold replay_retry in H. tx_inv H. repeat (case_hyp H; try (by apply raise_Ok in H)).
    tx_inv H. by simplify_eq/=.
  - by apply replay_terminal_completed in H as [-> ?].
  - apply locked_attempt_running in Hl as (Hrun & Hid & Haid & Hf & Hw & _); [|done].
    pose proof Hrun as (Hj' & _). rewrite Hid, Hj in Hj'. injection Hj' as ->.
    destruct (effective_outcome_ending j' a _ _ _ _ _ Ho) as [Hend Hin].
    by eapply (commit_completed job j' a request js ats code env (MkWorld (db w) _ _)).
Qed.

(** ** Credentials *)

(** What a released secret must be: the active secret that the job's own
    reference binds, decrypted under the job's authenticated data. *)
Definition released (d : JobsDb) (key : SecretKey) (job : Uuid) (s : ResolvedJobSecret) : Prop :=
  exists j r sec sv, jobs d !! job = Some j /\
    secret_refs d !! (job, rs_version s) = Some r /\ secrets d !! sr_secret r = Some sec /\
    secret_versions d !! rs_version s = Some sv /\ sv_secret sv = sr_secret r /\
    s_active sec = true /\ s_account sec = j_account j /\ s_project sec = j_project j /\
    s_service sec = j_service j /\ s_operation sec = "build" /\
    s_credential_kind sec ∈ ["source_repository_read"; "build_environment"] /\
    sv_key_version sv = key_version key /\ rs_name s = s_name sec /\
    utf8_valid (rs_value s) = true /\
    decrypt aead_open key
      (secret_aad (j_account j) (j_project j) (j_service j) (s_operation sec)
         (s_credential_kind sec) (sr_secret r) (rs_version s))
      (sv_nonce sv) (sv_ciphertext sv) (sv_auth_tag sv) = Some (rs_value s).

Lemma resolve_row_Some d j version r s sv :
  resolve_row d j version = Some (r, s, sv) ->
  secret_refs d !! (j_id j, version) = Some r /\ secrets d !! sr_secret r = Some s /\
  secret_versions d !! version = Some sv /\ s_account s = j_account j /\
  s_project s = j_project j /\ s_service s = j_service j /\
  sv_secret sv = sr_secret r /\ s_active s = true.
Proof.
  unfold resolve_row. intros H.
  apply bind_Some in H as (r0 & Hr & H). apply bind_Some in H as (s0 & Hs & H).
  apply bind_Some in H as (sv0 & Hv & H). case_match; [|done]. injection H as -> -> ->.
  bool_simpl. split_and!; congruence.
Qed.

Lemma open_rows_Ok key j rows l :
  open_rows aead_open key j rows = Ok l ->
  Forall2 (fun row s => rs_version s = row.1 /\
    let '(r, sec, sv) := row.2 in
    s_operation sec = "build" /\
    s_credential_kind sec ∈ ["source_repository_read"; "build_environment"] /\
    sv_key_version sv = key_version key /\ rs_name s = s_name sec /\
    utf8_valid (rs_value s) = true /\
    decrypt aead_open key
      (secret_aad (j_account j) (j_project j) (j_service j) (s_operation sec)
         (s_credential_kind sec) (sr_secret r) row.1)
      (sv_nonce sv) (sv_ciphertext sv) (sv_auth_tag sv) = Some (rs_value s)) rows l.
Proof.
  revert l. induction rows as [|[version [[r sec] sv]] rows IH]; simpl; intros l H.
  - injection H as <-. constructor.
  - case_hyp H; [done|]. case_hyp H; [done|]. case_hyp H; [done|].
    destruct (decrypt _ _ _ _ _ _) as [plaintext|] eqn:Hd; [|done].
    destruct (utf8_valid plaintext) eqn:Hu; [|done].
    apply res_bind_Ok in H as (rest & Hrest & [= <-]).
    constructor; [|by apply IH]. simpl. bool_simpl. split_and!; try done.
    rewrite !elem_of_cons.
    match goal with H : _ \/ _ |- _ => destruct H end; bool_simpl; auto.
Qed.

(** secrets reach only the worker that holds the job's live lease, exactly
    the versions it asked for and in that order, and each is the active secret
    the job's reference binds, in the job's account, project and service, of a
    build credential kind, decrypted under the data that names all of these. *)
Theorem credentials_released_to_the_lease_holder key job_id request env w l w' :
  jobs_ok (db w) ->
  resolve_credentials parse_uuid aead_open key job_id request env w = (Ok l, w') ->
  exists k job, key = Some k /\ parse_uuid job_id = Some job /\
    holds_lease (db w) (clock env (ticks w)) job (rq_attempt_id request) (rq_fence request)
      (rq_worker_id request) /\
    map rs_version l = rq_versions request /\ Forall (released (db w) k job) l.
Proof.
  intros Hok H. unfold resolve_credentials in H.
  apply lift_cases in H as [(e & _ & [=] & _)|(job & Hj' & H)].
  unfold path_uuid in Hj'. destruct (parse_uuid job_id) as [id|] eqn:Hp; [|done].
  injection Hj' as ->. case_hyp H; [by apply raise_Ok in H|].
  destruct key as [k|]; [|by apply raise_Ok in H].
  apply transaction_cases in H as [(e & [=] & _)|H]. tx_inv H.
  destruct (resolve_for_locked_live_job _ _ _ _ _ _ _ _ _) as [l'|e] eqn:E;
    [|by apply raise_Ok in H].
  case_hyp H; [|by apply raise_Ok in H]. tx_inv H. injection H as ->.
  exists k, job. split_and!; try done.
  all: apply resolve_locked_Ok in E as (_ & _ & j1 & a & Hh & Hl & Hrows); [|done].
  - done.
  - destruct Hrows as [[-> ->]|[Hlen Hopen]]; [done|].
    apply omap_full in Hlen. apply open_rows_Ok in Hopen.
    revert Hlen Hopen. generalize (omap (fun v => pair v <$> resolve_row (db w) j1 v)
      (rq_versions request)). intros rows Hf. revert l'. clear -Hf.
    induction Hf as [|v row vs rows Hv _ IH]; intros l Hl; inversion Hl as [|? s ? ss Hs Hss];
      subst; [done|]. simpl. f_equal; [|by apply IH]. destruct Hs as [-> _].
    apply fmap_Some in Hv as (? & _ & ->). done.
  - destruct Hrows as [[_ ->]|[Hlen Hopen]]; [done|].
    apply locked_attempt_running in Hl as (Hrun & <- & _); [|done].
    apply omap_full in Hlen. apply open_rows_Ok in Hopen.
    destruct Hrun as (Hj1 & _). revert Hlen Hopen.
    generalize (omap (fun v => pair v <$> resolve_row (db w) j1 v) (rq_versions request)).
    intros rows Hf. revert l'. clear -Hf Hj1.
    induction Hf as [|v row vs rows Hv _ IH]; intros l Hl; inversion Hl as [|? s ? ss Hs Hss];
      subst; [constructor|]. constructor; [|by apply IH].
    apply fmap_Some in Hv as ([[r sec] sv] & Hrow & ->). simpl in Hs.
    destruct Hs as (<- & ?). apply resolve_row_Some in Hrow.
    exists j1, r, sec, sv. naive_solver.
Qed.

(** ** Leasing *)

Lemma created_order_trans a b c :
  created_order a b = true -> created_order b c = true -> created_order a c = true.
Proof.
  unfold created_order, lex_leb. rewrite !orb_true_iff, !andb_true_iff.
  rewrite !Z.ltb_lt, !Z.eqb_eq, !N.leb_le. lia.
Qed.

Lemma created_order_total a b : created_order a b = true \/ created_order b a = true.
Proof.
  unfold created_order, lex_leb. rewrite !orb_true_iff, !andb_true_iff.
  rewrite !Z.ltb_lt, !Z.eqb_eq, !N.leb_le. lia.
Qed.

(** A job another transaction has not locked and that may be leased. *)
Definition available (env : Env) (w : World JobsDb) (id : Uuid) (j : Job) : Prop :=
  jobs (db w) !! id = Some j /\ claimable j = true /\ row_locked env (ticks w) id = false.

Lemma lease_candidate_Ok request env w r w' :
  jobs_ok (db w) -> lease_candidate lease_seconds request env w = (Ok r, w') ->
  match r with
  | None => w' = w /\ forall id j, ~ available env w id j
  | Some resp => exists j a, available env w (j_id j) j /\
      (forall id' j', available env w id' j' -> created_order j j' = true) /\
      jobs (db w') !! j_id j = Some a /\ j_id a = j_id j /\ r_id (lr_job resp) = j_id j /\
      al_fence (lr_attempt resp) = (j_fence j + 1)%Z /\
      al_attempt_number (lr_attempt resp) = (j_attempt_count j + 1)%Z /\
      al_worker_id (lr_attempt resp) = lq_worker_id request /\
      al_lease_expires_at (lr_attempt resp) = (clock env (ticks w) + lease_seconds)%Z /\
      exists at_, running (db w') a at_ /\ a_id at_ = al_id (lr_attempt resp) /\
        a_fence at_ = al_fence (lr_attempt resp) /\ a_worker at_ = lq_worker_id request /\
        a_lease at_ = al_lease_expires_at (lr_attempt resp)
  end.
Proof.
  intros Hok H. apply transaction_cases in H as [(e & [=] & _)|H].
  tx_inv H. case_hyp H.
  - pose proof Heqo as Hmin. apply select_first_in in Heqo as (id & Hj & Hk).
    pose proof (ok_id _ _ _ (jobs_all _ Hok _ _ Hj)) as Hid. subst id.
    pose proof (ok_fence_bound _ _ _ (jobs_all _ Hok _ _ Hj)) as Hfb.
    pose proof (job_ok_check_bounds _ (ok_check _ _ _ (jobs_all _ Hok _ _ Hj))) as Hb.
    tx_inv H. tx_audit. simplify_eq.
    destruct (update_job_Ok _ _ _ _ _ _ _ _ E Hj (in_scope_self _)) as (j' & Hf & Hjc & ->).
    apply bind_Some in Hf as (rv & [-> _]%bigint_succ_Some & [= <-]).
    match type of E0 with insert_attempt ?a0 _ _ = _ => pose (at0 := a0) end.
    apply insert_attempt_Ok in E0 as (Hnone & Hac & ->). cbn [db ticks drawn] in *.
    destruct (attempt_check_bounds _ Hac) as [_ Hpos]. simpl in Hpos.
    destruct (wrap_i64_succ (j_fence j)) as [Hw Hmax]; [lia|done|].
    apply andb_true_iff in Hk as [Hcl Hlk]. apply negb_true_iff in Hlk.
    exists j, (with_job j Running (j_revision j + 1) (j_attempt_count j + 1)
      (Some (fresh env (drawn w))) (wrap_i64 (j_fence j + 1))
      (Some (clock env (ticks w) + lease_seconds)%Z) (clock env (S (ticks w)))).
    split; [done|]. split.
    + intros id' j' (Hj' & Hcl' & Hlk').
      eapply (select_first_least _ _ _ _ created_order_trans created_order_total Hmin); [done|].
      by rewrite Hcl', Hlk'.
    + unfold as_u32, as_u64 in *. repeat case_match; simplify_eq.
      simpl. rewrite lookup_insert_eq. rewrite Hw. split_and!; try done.
      * match goal with H : exists _, _ |- _ => destruct H as (j0 & Hl0 & _ & Hr & _) end.
        simpl in Hl0. rewrite lookup_insert_eq in Hl0. by injection Hl0 as <-.
      * exists at0. unfold running, at0. simpl. rewrite !Hw, !lookup_insert_eq.
        split_and!; done.
  - tx_inv H. injection H as ->. split; [done|]. intros id j (Hj & Hcl & Hlk).
    pose proof (select_first_none _ _ _ Heqo _ _ Hj) as Hn. simpl in Hn.
    by rewrite Hcl, Hlk in Hn.
Qed.

(** leasing first reaps, then takes the oldest job that is queued or
    retriable with attempts left and that no other transaction has locked; the
    new attempt carries the next fence and the next number and is the job's
    running attempt.  No lease is granted only when there is no such job. *)
Theorem lease_takes_the_oldest_job request env w r w' :
  jobs_ok (db w) -> lease_job sha256 lease_seconds request env w = (Ok r, w') ->
  exists w1, reap_expired sha256 env w = (Ok tt, w1) /\
    match r with
    | None => w' = w1 /\ forall id j, ~ available env w1 id j
    | Some resp => exists j, available env w1 (r_id (lr_job resp)) j /\
        (forall id' j', available env w1 id' j' -> created_order j j' = true) /\
        al_fence (lr_attempt resp) = (j_fence j + 1)%Z /\
        al_attempt_number (lr_attempt resp) = (j_attempt_count j + 1)%Z /\
        al_lease_expires_at (lr_attempt resp) = (clock env (ticks w1) + lease_seconds)%Z /\
        forall now, (now < al_lease_expires_at (lr_attempt resp))%Z ->
          holds_lease (db w') now (r_id (lr_job resp)) (al_id (lr_attempt resp))
            (al_fence (lr_attempt resp)) (lq_worker_id request)
    end.
Proof.
  intros Hok H. unfold lease_job in H.
  case_hyp H; [by apply raise_Ok in H|]. case_hyp H; [by apply raise_Ok in H|].
  apply tbind_Ok in H as ([] & w1 & Hr & H). exists w1. split; [done|].
  assert (Hok1 : jobs_ok (db w1)).
  { eapply core_steps_ok; [by eapply reap_loop_steps|done]. }
  apply lease_candidate_Ok in H; [|done]. destruct r as [resp|]; [|done].
  destruct H as (j & j' & Hav & Hmin & Hj' & Hid & Hr' & Hf & Hn & Hwk & Hle & a & Hrun & Ha &
    Haf & Haw & Hal).
  exists j. rewrite Hr'. split_and!; try done.
  intros now Hnow. exists j', a. split_and!; try done. by rewrite Hal.
Qed.

End Executions.

(** ** The reaper *)

Section Reaper.
Context (sha256 : string -> string).

(** PostgreSQL can still increment the revision of every running job. *)
Definition revisions_left (d : JobsDb) : Prop :=
  forall id j, jobs d !! id = Some j -> j_state j = Running -> (j_revision j < max_i64)%Z.

Lemma update_job_run id cond f env w j j' :
  jobs (db w) !! id = Some j -> cond j = true -> f j = Some j' -> job_check j' = true ->
  update_job id cond f env w =
    (Ok tt, MkWorld (set_jobs (<[id := j']> (jobs (db w))) (db w)) (ticks w) (drawn w)).
Proof.
  intros Hj Hc Hf Hk. unfold update_job, tbind, get_db, update_pk. by rewrite Hj, Hc, Hf, Hk.
Qed.

Lemma update_attempt_run id cond f env w a :
  attempts (db w) !! id = Some a -> cond a = true -> attempt_check (f a) = true ->
  update_attempt id cond f env w =
    (Ok tt, MkWorld (set_attempts (<[id := f a]> (attempts (db w))) (db w)) (ticks w) (drawn w)).
Proof.
  intros Ha Hc Hk. unfold update_attempt, tbind, get_db, update_pk. by rewrite Ha, Hc, Hk.
Qed.

(** Ending a running row keeps the row constraints. *)
Lemma ended_job_check j js c u :
  job_check j = true -> js <> Running -> (j_revision j < max_i64)%Z ->
  job_check (with_job j js (j_revision j + 1) (j_attempt_count j) c (j_fence j) None u) = true.
Proof.
  unfold job_check. simpl. intros H Hs Hr. bool_simpl.
  rewrite !andb_true_iff, !Z.ltb_lt, !Z.leb_le, !Z.eqb_eq, orb_true_iff.
  split; [lia|]. right. rewrite andb_true_iff, !bool_decide_eq_true. done.
Qed.

Lemma ended_attempt_check a ats f code h :
  attempt_check a = true -> ats <> ARunning ->
  attempt_check (with_attempt a ats (a_lease a) (Some f) (Some code) h) = true.
Proof.
  unfold attempt_check. simpl. intros H Hs.
  rewrite andb_true_iff in *. split; [tauto|]. apply orb_true_iff. right.
  rewrite !andb_true_iff, !bool_decide_eq_true. eauto.
Qed.

Lemma reap_one_spec env w :
  jobs_ok (db w) -> revisions_left (db w) ->
  runs (reap_one sha256) env w (fun b w' =>
    if (b : bool) then
      exists j j', jobs (db w) !! j_id j = Some j /\ j_state j = Running /\
        j_state j' <> Running /\ jobs (db w') = <[j_id j := j']> (jobs (db w))
    else db w' = db w /\ ticks w' = S (ticks w) /\
      forall id j, jobs (db w) !! id = Some j -> row_locked env (ticks w') id = false ->
        expired_at (clock env (ticks w)) j = false).
Proof.
  intros Hok Hrev. unfold reap_one. tx_run.
  destruct (select_first _ _ _) as [row|] eqn:Hsel.
  2: { tx_run. exists false. split_and!; try done. intros id j Hj Hl.
       pose proof (select_first_none _ _ _ Hsel _ _ Hj) as Hn. simpl in *.
       by rewrite Hl, andb_true_r in Hn. }
  apply select_first_in in Hsel as (id & Hj & Hk).
  apply andb_true_iff in Hk as [Hexp _]. apply andb_true_iff in Hexp as [Hs _].
  apply bool_decide_eq_true in Hs.
  destruct (running_of_job _ _ _ Hok Hj Hs) as (a & Hrun & _).
  pose proof (ok_id _ _ _ (jobs_all _ Hok _ _ Hj)) as <-.
  pose proof Hrun as (_ & Ha & Haj & _ & Hcur & Hast & Haf).
  pose proof (running_scope _ _ _ Hok Hrun) as Hsc.
  pose proof (Hrev _ _ Hj Hs) as Hr.
  pose proof (no_effect_of_running _ _ _ Hok Hrun) as Hne.
  pose proof (ok_check _ _ _ (jobs_all _ Hok _ _ Hj)) as Hjc.
  pose proof (at_check _ _ _ (attempts_all _ Hok _ _ Ha)) as Hac.
  assert (Hbs : bigint_succ (j_revision row) = Some (j_revision row + 1)%Z).
  { unfold bigint_succ. by apply Z.ltb_lt in Hr as ->. }
  rewrite Hcur. tx_run.
  eapply runs_eq; [eapply update_attempt_run;
    [exact Ha|by rewrite Hsc, Haf, Z.eqb_refl, Hast|by apply ended_attempt_check]|].
  tx_run. destruct (3 <=? j_attempt_count row)%Z.
  - tx_run. eapply runs_eq; [eapply update_job_run;
      [exact Hj|apply in_scope_self|by rewrite Hbs|by apply ended_job_check]|].
    unfold insert_effect_if_absent. tx_run. cbn [effects set_jobs set_attempts e_job exhausted_effect].
    rewrite Hne. cbn [attempts set_effects set_jobs set_attempts]. rewrite lookup_insert_eq.
    cbn [a_job a_fence with_attempt]. rewrite Haj, Haf, N.eqb_refl, Z.eqb_refl. cbn [andb].
    unfold worker_audit. tx_run. exists true. split; [done|].
    eexists row, _. split_and!; [done|done| |reflexivity]. done.
  - tx_run. eapply runs_eq; [eapply update_job_run;
      [exact Hj|apply in_scope_self|by rewrite Hbs|by apply ended_job_check]|].
    tx_run. cbn [attempts set_effects set_jobs set_attempts]. rewrite lookup_insert_eq.
    cbn [a_job a_fence with_attempt]. rewrite Haj, Haf, N.eqb_refl, Z.eqb_refl. cbn [andb].
    unfold worker_audit. tx_run. exists true. split; [done|].
    eexists row, _. split_and!; [done|done| |reflexivity]. done.
Qed.

Definition running_jobs (d : JobsDb) : nat :=
  size (filter (fun kr => j_state kr.2 = Running) (jobs d)).

Lemma running_jobs_reaped d d' j j' :
  jobs d !! j_id j = Some j -> j_state j = Running -> j_state j' <> Running ->
  jobs d' = <[j_id j := j']> (jobs d) -> running_jobs d = S (running_jobs d').
Proof.
  intros Hj Hs Hs' Ej. unfold running_jobs. rewrite Ej.
  rewrite map_filter_insert_False by done.
  rewrite <- (insert_delete_id (jobs d) (j_id j) j Hj) at 1.
  rewrite map_filter_insert_True by done.
  rewrite map_size_insert_None; [done|].
  apply map_lookup_filter_None. left. by rewrite lookup_delete_eq.
Qed.

Lemma revisions_left_reaped d d' j j' :
  j_state j' <> Running -> jobs d' = <[j_id j := j']> (jobs d) ->
  revisions_left d -> revisions_left d'.
Proof. intros Hs Ej Hr id j0 Hl Hs0. rewrite Ej in Hl. lookup_cases Hl; eauto. Qed.

(** No job is left whose lease had run out when the clock was last read, but those that are locked. *)
Definition none_expired env (w : World JobsDb) : Prop := exists t, ticks w = S t /\
  forall id j, jobs (db w) !! id = Some j -> row_locked env (ticks w) id = false ->
    expired_at (clock env t) j = false.

Lemma reap_loop_spec n env w :
  jobs_ok (db w) -> revisions_left (db w) ->
  runs (reap_loop sha256 n) env w (fun _ w' =>
    none_expired env w' \/ running_jobs (db w) = (n + running_jobs (db w'))%nat).
Proof.
  revert w. induction n as [|n IH]; intros w Hok Hrev; simpl; [apply runs_ret; by right|].
  apply runs_bind. destruct (reap_one_spec env w Hok Hrev) as (b & w1 & H1 & Hb).
  eapply runs_eq; [exact H1|]. destruct b; simpl.
  - destruct Hb as (j & j' & Hj & Hs & Hs' & Ej).
    pose proof (running_jobs_reaped _ _ _ _ Hj Hs Hs' Ej).
    apply reap_one_steps in H1; [|done].
    destruct (IH w1) as (r & w' & Hr & Hw); [eauto with hostlet|by eapply revisions_left_reaped|].
    exists r, w'. split; [exact Hr|]. destruct Hw; [by left|right; lia].
  - destruct Hb as (Edb & Et & Hno). apply runs_ret. left. exists (ticks w).
    split; [done|]. intros id j Hl. rewrite Edb in Hl. by apply Hno.
Qed.

(** C32: One call of the reaper succeeds, unless the revision of a running job has reached the
    largest 64-bit integer, and it ends in one of two ways: no job is left whose lease had run
    out when the call last read the clock, except those other transactions hold; or it has
    reaped 64 jobs, the most that a call reaps, which are running no longer. With at most 63
    running jobs it is the first. *)
Theorem reaping_leaves_no_expired_lease env w :
  jobs_ok (db w) -> revisions_left (db w) ->
  exists w', reap_expired sha256 env w = (Ok tt, w') /\
    (none_expired env w' \/ running_jobs (db w) = (64 + running_jobs (db w'))%nat) /\
    ((running_jobs (db w) < 64)%nat -> none_expired env w').
Proof.
  intros Hok Hrev. destruct (reap_loop_spec 64 env w Hok Hrev) as ([] & w' & Hr & Hw).
  exists w'. split; [exact Hr|]. split; [exact Hw|]. destruct Hw as [Hw|Hw]; [done|lia].
Qed.

End Reaper.

(** ** The owner's requests *)

Section OwnerRequests.
Context (parse_uuid : string -> option Uuid) (uuid_text : Uuid -> string)
  (cancel_request_hash : string) (create_request_hash : CreateJobRequest -> string).

Definition cancel_key (auth : Authenticated) (project job : Uuid) (key : string) :=
  (account_id auth, "job.cancel/" +:+ uuid_text project +:+ "/" +:+ uuid_text job, key).

Definition create_key (auth : Authenticated) (project : Uuid) (key : string) :=
  (account_id auth, "job.create/" +:+ uuid_text project, key).

(** A stored response is replayed. *)
Lemma replay_stored {T} (from_value : JobRecord -> option T) actor operation key hash status
    (body : JobRecord) t env (w : World JobsDb) :
  idem (db w) !! (actor, operation, key) = Some (MkIdemRow hash status body) ->
  from_value body = Some t ->
  replay from_value actor operation key hash env w = (Ok (Match t), w).
Proof.
  intros Hl Hb. unfold replay, tbind, get_db. simpl. rewrite Hl. simpl.
  rewrite bool_decide_eq_true_2 by done. by rewrite Hb.
Qed.

Lemma create_job_Ok auth project_id headers request env w response w' :
  create_job parse_uuid uuid_text create_request_hash auth project_id headers request env w
    = (Ok response, w') ->
  exists project key status, parse_uuid project_id = Some project /\
    idempotency_key headers = Ok key /\
    idem (db w') !! create_key auth project key =
      Some (MkIdemRow (create_request_hash request) status response).
Proof.
  intros H. unfold create_job in H.
  do 4 (case_hyp H; [by apply raise_Ok in H|]).
  apply lift_cases in H as [(e & _ & [=] & _)|(project & Hp & H)].
  apply lift_cases in H as [(e & _ & [=] & _)|(service & _ & H)].
  apply lift_cases in H as [(e & _ & [=] & _)|(key & Hk & H)].
  unfold path_uuid in Hp. destruct (parse_uuid project_id) as [id|]; [|done].
  injection Hp as ->. exists project, key.
  apply transaction_cases in H as [(e & [=] & _)|H].
  tx_inv H. apply replay_Ok in E as [-> Hr]. destruct v as [|stored|].
  - tx_inv H. case_hyp H; [tx_inv H; done|]. tx_inv H.
    match goal with E : store_replay _ _ _ _ _ _ _ _ = _ |- _ =>
      apply store_replay_Ok in E as [_ ->] end.
    injection H as <-. eexists. split_and!; [done..|]. simpl. apply lookup_insert_eq.
  - tx_inv H. injection H as <-. simpl in Hr. unfold create_key.
    destruct (idem (db w) !! _) as [[hash status body]|]; [|done]. simpl in Hr.
    case_bool_decide; [|done]. destruct Hr as (t & [= <-] & [= ->]). subst. eauto.
  - tx_inv H. done.
Qed.

Lemma cancel_job_Ok auth project_id job_id headers env w response w' :
  cancel_job parse_uuid uuid_text cancel_request_hash auth project_id job_id headers env w
    = (Ok response, w') ->
  exists project job key status, parse_uuid project_id = Some project /\
    parse_uuid job_id = Some job /\ idempotency_key headers = Ok key /\
    idem (db w') !! cancel_key auth project job key =
      Some (MkIdemRow cancel_request_hash status response).
Proof.
  intros H. unfold cancel_job in H.
  apply lift_cases in H as [(e & _ & [=] & _)|(project & Hp & H)].
  apply lift_cases in H as [(e & _ & [=] & _)|(job & Hj & H)].
  apply lift_cases in H as [(e & _ & [=] & _)|(key & Hk & H)].
  apply lift_cases in H as [(e & _ & [=] & _)|(revision & _ & H)].
  unfold path_uuid in Hp, Hj. destruct (parse_uuid project_id) as [id|]; [|done].
  destruct (parse_uuid job_id) as [id'|]; [|done].
  injection Hp as ->. injection Hj as ->. exists project, job, key.
  apply transaction_cases in H as [(e & [=] & _)|H].
  tx_inv H. apply replay_Ok in E as [-> Hr]. destruct v as [|stored|].
  - tx_inv H. case_hyp H; [|by apply raise_Ok in H]. case_hyp H; [by apply raise_Ok in H|].
    case_hyp H; [by tx_inv H|]. case_hyp H; [by tx_inv H|]. tx_inv H.
    match goal with E : store_replay _ _ _ _ _ _ _ _ = _ |- _ =>
      apply store_replay_Ok in E as [_ ->] end.
    injection H as <-. eexists. split_and!; [done..|]. simpl. apply lookup_insert_eq.
  - tx_inv H. injection H as <-. simpl in Hr. unfold cancel_key.
    destruct (idem (db w) !! _) as [[hash status body]|]; [|done]. simpl in Hr.
    case_bool_decide; [|done]. destruct Hr as (t & [= <-] & [= ->]). subst. eauto.
  - by tx_inv H.
Qed.

(** a job is created once per idempotency key: once a creation succeeded,
    the same request returns the same job and changes nothing, as long as the
    stored response is kept. *)
Theorem create_job_idempotent auth project_id headers request env w response w1 w2 :
  create_job parse_uuid uuid_text create_request_hash auth project_id headers request env w
    = (Ok response, w1) ->
  idem (db w1) ⊆ idem (db w2) ->
  create_job parse_uuid uuid_text create_request_hash auth project_id headers request env w2
    = (Ok response, w2).
Proof.
  intros H Hsub.
  destruct (create_job_Ok _ _ _ _ _ _ _ _ H) as (project & key & status & Hp & Hk & Hrow).
  eapply lookup_weaken in Hrow; [|exact Hsub].
  unfold create_job in *. do 4 (case_hyp H; [by apply raise_Ok in H|]).
  unfold tbind at 1, lift at 1, path_uuid. rewrite Hp.
  apply lift_cases in H as [(e & _ & [=] & _)|(? & _ & H)].
  apply lift_cases in H as [(e & _ & [=] & _)|(service & Hs & _)].
  unfold path_uuid in Hs.
  unfold tbind at 1, lift at 1, path_uuid. destruct (parse_uuid (cj_service_id request)); [|done].
  unfold tbind at 1, lift at 1. rewrite Hk. unfold transaction, tbind at 1.
  erewrite replay_stored; [|exact Hrow|reflexivity]. done.
Qed.

(** Canceling is idempotent in the same way, also when the job's revision
    has since moved past the one the request names. *)
Theorem cancel_job_idempotent auth project_id job_id headers env w response w1 w2 :
  cancel_job parse_uuid uuid_text cancel_request_hash auth project_id job_id headers env w
    = (Ok response, w1) ->
  idem (db w1) ⊆ idem (db w2) ->
  cancel_job parse_uuid uuid_text cancel_request_hash auth project_id job_id headers env w2
    = (Ok response, w2).
Proof.
  intros H Hsub.
  destruct (cancel_job_Ok _ _ _ _ _ _ _ _ H) as (project & job & key & status & Hp & Hj & Hk & Hrow).
  eapply lookup_weaken in Hrow; [|exact Hsub].
  unfold cancel_job in *.
  unfold tbind at 1, lift at 1, path_uuid. rewrite Hp.
  unfold tbind at 1, lift at 1, path_uuid. rewrite Hj.
  do 3 apply lift_cases in H as [(e & _ & [=] & _)|(? & _ & H)].
  apply lift_cases in H as [(e & _ & [=] & _)|(revision & Hr & _)].
  unfold tbind at 1, lift at 1. rewrite Hk. unfold tbind at 1, lift at 1. rewrite Hr.
  unfold transaction, tbind at 1.
  erewrite replay_stored; [|exact Hrow|reflexivity]. done.
Qed.

(** a cancellation that is not a replay ends the job: it needs the job's
    current revision and a job that has not ended; the job becomes canceled
    under the next fence, its running attempt is canceled with it, and the
    response describes the job as it now is. *)
Theorem cancel_ends_the_job auth project_id job_id headers env w response w' :
  jobs_ok (db w) ->
  cancel_job parse_uuid uuid_text cancel_request_hash auth project_id job_id headers env w
    = (Ok response, w') ->
  db w' = db w \/
  exists job j j', parse_uuid job_id = Some job /\ jobs (db w) !! job = Some j /\
    j_account j = account_id auth /\ if_match_revision headers = Ok (j_revision j) /\
    terminal_state (j_state j) = false /\
    jobs (db w') = <[job := j']> (jobs (db w)) /\
    j_state j' = Canceled /\ j_fence j' = (j_fence j + 1)%Z /\ j_current_attempt j' = None /\
    r_id response = job /\ r_state response = Canceled /\ r_revision response = j_revision j' /\
    forall a, running (db w) j a ->
      exists a', attempts (db w') !! a_id a = Some a' /\ a_state a' = ACanceled.
Proof.
  intros Hok H. unfold cancel_job in H.
  apply lift_cases in H as [(e & _ & [=] & _)|(project & _ & H)].
  apply lift_cases in H as [(e & _ & [=] & _)|(job & Hp & H)].
  unfold path_uuid in Hp. destruct (parse_uuid job_id) as [id|]; [|done]. injection Hp as ->.
  apply lift_cases in H as [(e & _ & [=] & _)|(key & Hk & H)].
  apply lift_cases in H as [(e & _ & [=] & _)|(revision & Hrev & H)].
  apply transaction_cases in H as [(e & [=] & _)|H].
  tx_inv H. apply replay_Ok in E as [-> _]. destruct v as [|stored|];
    [|tx_inv H; by left|by tx_inv H].
  tx_inv H. destruct (jobs (db w) !! job) as [j|] eqn:Hj; [|by apply raise_Ok in H].
  case_hyp H; [by apply raise_Ok in H|]. case_hyp H; [by tx_inv H|]. case_hyp H; [by tx_inv H|].
  right. pose proof (ok_id _ _ _ (jobs_all _ Hok _ _ Hj)) as Hid. subst job.
  assert (Hscope : in_scope (account_id auth) project j = true) by (by bool_simpl).
  assert (Hsc' : account_id auth = j_account j /\ project = j_project j)
    by (unfold in_scope in Hscope; bool_simpl; done).
  destruct Hsc' as [Hacc ->]. rewrite Hacc in *. bool_simpl.
  tx_inv H. tx_audit. injection H as <-.
  assert (Ejobs : jobs (db w0) = jobs (db w) /\ forall a, running (db w) j a ->
    exists a', attempts (db w0) !! a_id a = Some a' /\ a_state a' = ACanceled).
  { destruct (j_current_attempt j) as [aid|] eqn:Hcur.
    - tx_inv E. unfold update_attempt in E. tx_inv E. case_hyp E. tx_inv E. simpl.
      split; [done|]. intros a Hrun. pose proof Hrun as (_ & Ha & _ & _ & Hc & Hst & _).
      rewrite Hcur in Hc. injection Hc as ->.
      pose proof (running_scope _ _ _ Hok Hrun) as Hsc.
      match goal with Hu : update_pk _ _ _ _ _ = _ |- _ =>
        apply update_pk_Some in Hu as [(_ & _ & Hn)|(_ & a0 & a' & Ha0 & _ & [= <-] & _ & ->)] end.
      + specialize (Hn _ Ha). by rewrite Hsc, Hst in Hn.
      + rewrite lookup_insert_eq. by eexists.
    - tx_inv E. split; [done|]. intros a (_ & _ & _ & _ & Hc & _). congruence. }
  destruct Ejobs as [Ejobs Hatt]. rewrite <- Ejobs in Hj.
  destruct (update_job_Ok _ _ _ _ _ _ _ _ E0 Hj Hscope) as (j' & Hfj & Hjc & ->).
  apply bind_Some in Hfj as (rv & [-> _]%bigint_succ_Some & Hfj).
  apply bind_Some in Hfj as (fv & [-> Hmax]%bigint_succ_Some & [= <-]).
  match goal with H : exists _, _ |- _ => destruct H as (j0 & Hl0 & _ & Hr) end.
  simpl in Hl0. rewrite lookup_insert_eq in Hl0. injection Hl0 as <-. simpl in Hr.
  eexists (j_id j), j, _. rewrite <- Ejobs, Hj. split_and!; try done; simpl; naive_solver.
Qed.
End OwnerRequests.

(** ** A run of the service *)

Module Demo.
Definition parse (s : string) : option Uuid :=
  if bool_decide (s = "10") then Some 10%N
  else if bool_decide (s = "20") then Some 20%N
  else if bool_decide (s = "31") then Some 31%N
  else if bool_decide (s = "100") then Some 100%N else None.
Definition text (u : Uuid) : string := pretty u.
Definition sha (s : string) : string := "sha256:" +:+ s.
Definition open_ (_ _ _ ciphertext _ : bytes) : option bytes := Some ciphertext.
Definition complete_hash (r : CompleteRequest) : string := oc_state (cq_outcome r).
Definition create_hash (r : CreateJobRequest) : string := cj_source_commit r.

Definition env : Env := {|
  clock := Z.of_nat; fresh := fun n => N.of_nat (100 + n); row_locked := fun _ _ => false |}.

Definition secret : SecretRow := {|
  s_account := 1; s_project := 10; s_service := 20; s_name := "TOKEN"; s_operation := "build";
  s_credential_kind := "build_environment"; s_active := true |}.
Definition version : SecretVersionRow := {|
  sv_account := 1; sv_project := 10; sv_service := 20; sv_secret := 30; sv_key_version := "v1";
  sv_nonce := repeat 0%Z 24; sv_ciphertext := lit "value"; sv_auth_tag := repeat 0%Z 16 |}.
Definition key : SecretKey := {| key_bytes := repeat 7%Z 32; key_version := "v1" |}.

Definition d0 : JobsDb :=
  MkJobsDb {[ (1, 10, 20)%N ]} {[ 30%N := secret ]} {[ 31%N := version ]} ∅ ∅ ∅ ∅ ∅ [].
Definition w0 : World JobsDb := MkWorld d0 0 0.

Definition owner : Authenticated := {| account_id := 1; session_id := 2 |}.
Definition commit : string := "0123456789abcdef0123456789abcdef01234567".
Definition create_request : CreateJobRequest := {|
  cj_kind := JOB_KIND; cj_operation := JOB_OPERATION; cj_service_id := "20";
  cj_source_commit := commit;
  cj_secret_version_refs := [{| svr_service_id := "20"; svr_secret_version_id := "31" |}] |}.
Definition headers (revision : option string) : Headers := {|
  h_idempotency_key := Some (Some "key-0123456789abcdef");
  h_if_match := Some <$> revision |}.

(** The owner creates a job, a worker leases it, reads its secret and completes it. *)
Definition created := create_job parse text create_hash owner "10" (headers None) create_request
                        env w0.
Definition w1 : World JobsDb := snd created.
Definition leased := lease_job sha 30 {| lq_worker_id := "w"; lq_kinds := [JOB_KIND] |} env w1.
Definition w2 : World JobsDb := snd leased.
Definition resolve_request : ResolveCredentialsRequest :=
  {| rq_worker_id := "w"; rq_attempt_id := 101; rq_fence := 1; rq_versions := [31%N] |}.
Definition resolved := resolve_credentials parse open_ (Some key) "100" resolve_request env w2.
Definition complete_request (attempt : Uuid) : CompleteRequest := {|
  cq_worker_id := "w"; cq_attempt_id := attempt; cq_fence := 1;
  cq_outcome := {| oc_state := "succeeded"; oc_code := "bookkeeping_complete" |} |}.
Definition finished := complete_job parse complete_hash "100" (complete_request 101) env w2.
Definition w3 : World JobsDb := snd finished.
Definition cancel_headers : Headers := headers
  (Some (String (Ascii.ascii_of_nat 34) ("2" +:+ String (Ascii.ascii_of_nat 34) EmptyString))).
Definition canceled := cancel_job parse text "cancel" owner "10" "100" cancel_headers env w2.
Definition w3' : World JobsDb := snd canceled.

Example run_results :
  is_ok (fst created) = true /\ is_ok (fst leased) = true /\ is_ok (fst resolved) = true /\
  is_ok (fst finished) = true /\ is_ok (fst canceled) = true.
Proof. vm_compute. done. Qed.

Lemma d0_ok : jobs_ok d0.
Proof.
  constructor; simpl; intros *; rewrite ?lookup_empty; intros; done.
Qed.

Definition step := api_step parse sha 30 open_ complete_hash text "cancel" create_hash env.

Lemma step_create : step w0 w1.
Proof. eapply api_create, surjective_pairing. Qed.
Lemma step_lease : step w1 w2.
Proof. eapply api_lease, surjective_pairing. Qed.
Lemma step_complete : step w2 w3.
Proof. eapply api_complete, surjective_pairing. Qed.
Lemma step_cancel : step w2 w3'.
Proof. eapply api_cancel, surjective_pairing. Qed.

Lemma w1_ok : jobs_ok (db w1).
Proof. eapply (api_steps_ok _ _ _ _ _ _ _ _ _ w0); [apply rtc_once, step_create|exact d0_ok]. Qed.
Lemma w2_ok : jobs_ok (db w2).
Proof. eapply (api_steps_ok _ _ _ _ _ _ _ _ _ w1); [apply rtc_once, step_lease|exact w1_ok]. Qed.
Lemma w3'_ok : jobs_ok (db w3').
Proof. eapply (api_steps_ok _ _ _ _ _ _ _ _ _ w2); [apply rtc_once, step_cancel|exact w2_ok]. Qed.

(** Nobody holds the lease under another fence. *)
Lemma not_holding d now job attempt fence worker :
  jobs_ok d -> locked_attempt d job attempt fence worker = None ->
  ~ holds_lease d now job attempt fence worker.
Proof.
  intros Hok Hn Hh. apply holds_locked in Hh as (? & ? & Hl & _); [congruence|done].
Qed.

Lemma executions_keep_jobs_ok_witness :
  jobs_ok (db w0) /\ rtc step w0 w3 /\ size (effects (db w3)) = 1%nat /\ jobs_ok (db w3).
Proof.
  assert (H : rtc step w0 w3) by (eauto using rtc_l, rtc_once, step_create, step_lease, step_complete).
  split; [exact d0_ok|]. split; [exact H|]. split; [vm_compute; reflexivity|].
  exact (executions_keep_jobs_ok parse sha 30 open_ complete_hash text "cancel" create_hash env
           w0 w3 d0_ok H).
Defined.

Lemma executions_keep_history_witness :
  rtc step w1 w3 /\ size (jobs (db w1)) = 1%nat /\
  history_kept (db w1) (db w3) /\ fences_kept (db w1) (db w3).
Proof.
  assert (H : rtc step w1 w3) by (eauto using rtc_l, rtc_once, step_lease, step_complete).
  split; [exact H|]. split; [vm_compute; reflexivity|].
  exact (executions_keep_history parse sha 30 open_ complete_hash text "cancel" create_hash env
           w1 w3 w1_ok H).
Defined.

(** After the cancellation the former worker is refused. *)
Lemma stale_workers_change_nothing_witness :
  size (attempts (db w3')) = 1%nat /\
  exists w', renew_job parse 30 "100"
    {| lid_worker_id := "w"; lid_attempt_id := 101; lid_fence := 1 |} env w3'
    = (Err fenced, w') /\ db w' = db w3'.
Proof.
  split; [vm_compute; reflexivity|].
  apply (stale_workers_change_nothing parse 30 open_ complete_hash (Some key) "100" 100 101 1 "w"
    {| oc_state := "succeeded"; oc_code := "bookkeeping_complete" |} [] env w3').
  - exact w3'_ok.
  - reflexivity.
  - apply not_holding; [exact w3'_ok|vm_compute; reflexivity].
Defined.

Lemma ended_jobs_are_never_leased_witness :
  (exists j, jobs (db w3') !! 100%N = Some j /\ terminal_state (j_state j) = true) /\
  ~ holds_lease (db w3') 0 100 101 1 "w".
Proof.
  assert (H : exists j, jobs (db w3') !! 100%N = Some j /\ terminal_state (j_state j) = true).
  { eexists. split; vm_compute; reflexivity. }
  split; [exact H|]. destruct H as (j & Hj & Ht).
  exact (ended_jobs_are_never_leased parse sha 30 open_ complete_hash text "cancel" create_hash
           env w3' w3' 100 j 0 101 1 "w" w3'_ok Hj Ht (rtc_refl _ _)).
Defined.

Lemma terminal_completion_replays_witness :
  exists response, finished = (Ok response, w3) /\
    complete_job parse complete_hash "100" (complete_request 101) env w3 = (Ok response, w3).
Proof.
  assert (H : exists response, fst finished = Ok response /\ cr_effect response <> None).
  { eexists. split; [vm_compute; reflexivity|discriminate]. }
  destruct H as (response & Hr & Hne). exists response.
  assert (Hf : finished = (Ok response, w3)) by (rewrite <- Hr; apply surjective_pairing).
  split; [exact Hf|].
  exact (terminal_completion_replays parse sha 30 open_ complete_hash text "cancel" create_hash
           "100" (complete_request 101) env w2 response w3 w3 w2_ok Hf Hne (rtc_refl _ _)).
Defined.

Lemma credentials_released_to_the_lease_holder_witness :
  exists l, fst resolved = Ok l /\ l <> [] /\
    exists k job, Some key = Some k /\ parse "100" = Some job /\
    holds_lease (db w2) (clock env (ticks w2)) job 101 1 "w" /\
    map rs_version l = [31%N] /\ Forall (released open_ (db w2) k job) l.
Proof.
  assert (H : exists l, fst resolved = Ok l /\ l <> []).
  { eexists. split; [vm_compute; reflexivity|discriminate]. }
  destruct H as (l & Hr & Hne). exists l. split; [exact Hr|]. split; [exact Hne|].
  apply (credentials_released_to_the_lease_holder parse open_ (Some key) "100" resolve_request
           env w2 l (snd resolved) w2_ok).
  fold resolved. rewrite <- Hr. apply surjective_pairing.
Defined.

Definition lease_request : LeaseRequest := {| lq_worker_id := "w"; lq_kinds := [JOB_KIND] |}.

Lemma lease_takes_the_oldest_job_witness :
  exists resp, fst leased = Ok (Some resp) /\
    forall now, (now < al_lease_expires_at (lr_attempt resp))%Z ->
      holds_lease (db w2) now (r_id (lr_job resp)) (al_id (lr_attempt resp))
        (al_fence (lr_attempt resp)) "w".
Proof.
  assert (H : exists resp, fst leased = Ok (Some resp)).
  { eexists. vm_compute. reflexivity. }
  destruct H as (resp & Hr). exists resp. split; [exact Hr|].
  assert (Hl : leased = (Ok (Some resp), w2)) by (rewrite <- Hr; apply surjective_pairing).
  destruct (lease_takes_the_oldest_job sha 30 lease_request env w1 (Some resp) w2 w1_ok Hl)
    as (? & _ & ? & _ & _ & _ & _ & _ & Hh).
  exact Hh.
Defined.

(** An hour later the worker's lease has run out. *)
Definition late : Env := {|
  clock := fun n => (3600 + Z.of_nat n)%Z; fresh := fun n => N.of_nat (100 + n);
  row_locked := fun _ _ => false |}.

Lemma reaping_leaves_no_expired_lease_witness :
  running_jobs (db w2) = 1%nat /\
  exists w', reap_expired sha late w2 = (Ok tt, w') /\ none_expired late w'.
Proof.
  split; [vm_compute; reflexivity|].
  destruct (reaping_leaves_no_expired_lease sha late w2) as (w' & Hr & _ & Hnone);
    [| |exists w'; split; [exact Hr|apply Hnone; vm_compute; lia]].
  - exact w2_ok.
  - intros id j Hj _.
    assert (Hall : forallb (fun kr => (j_revision kr.2 <? max_i64)%Z)
      (map_to_list (jobs (db w2))) = true) by (vm_compute; reflexivity).
    rewrite forallb_forall in Hall. apply Z.ltb_lt, (Hall (id, j)).
    by apply list_elem_of_In, elem_of_map_to_list.
Defined.

Lemma create_job_idempotent_witness :
  exists response, fst created = Ok response /\
    create_job parse text create_hash owner "10" (headers None) create_request env w3
      = (Ok response, w3).
Proof.
  assert (H : exists response, fst created = Ok response) by (eexists; vm_compute; reflexivity).
  destruct H as (response & Hr). exists response. split; [exact Hr|].
  apply (create_job_idempotent parse text create_hash owner "10" (headers None) create_request
           env w0 response w1 w3).
  - rewrite <- Hr. apply surjective_pairing.
  - assert (E : idem (db w3) = idem (db w1)) by (vm_compute; reflexivity). by rewrite E.
Defined.

Lemma cancel_job_idempotent_witness :
  exists response, fst canceled = Ok response /\
    cancel_job parse text "cancel" owner "10" "100" cancel_headers env w3'
      = (Ok response, w3').
Proof.
  assert (H : exists response, fst canceled = Ok response) by (eexists; vm_compute; reflexivity).
  destruct H as (response & Hr). exists response. split; [exact Hr|].
  apply (cancel_job_idempotent parse text "cancel" owner "10" "100" cancel_headers
           env w2 response w3' w3').
  - rewrite <- Hr. apply surjective_pairing.
  - reflexivity.
Defined.

Lemma cancel_ends_the_job_witness :
  exists response, fst canceled = Ok response /\
    (db w3' = db w2 \/
     exists job j j', parse "100" = Some job /\ jobs (db w2) !! job = Some j /\
       j_account j = 1%N /\ if_match_revision cancel_headers = Ok (j_revision j) /\
       terminal_state (j_state j) = false /\
       jobs (db w3') = <[job := j']> (jobs (db w2)) /\
       j_state j' = Canceled /\ j_fence j' = (j_fence j + 1)%Z /\ j_current_attempt j' = None /\
       r_id response = job /\ r_state response = Canceled /\ r_revision response = j_revision j' /\
       forall a, running (db w2) j a ->
         exists a', attempts (db w3') !! a_id a = Some a' /\ a_state a' = ACanceled).
Proof.
  assert (H : exists response, fst canceled = Ok response) by (eexists; vm_compute; reflexivity).
  destruct H as (response & Hr). exists response. split; [exact Hr|].
  apply (cancel_ends_the_job parse text "cancel" owner "10" "100" cancel_headers
           env w2 response w3' w2_ok).
  rewrite <- Hr. apply surjective_pairing.
Defined.
End Demo.
