(* ===== verification/Admission.v ===== *)
(** * Admission: holds, slots and build allowances (crates/control/src/admission.rs)

    An account's entitlement and the capacity pool it draws on bound how many
    projects it may host and how long it may build.  A hold reserves capacity
    for a short time; admitting it turns an initial hold into a slot reservation
    and a rollout hold into consumed headroom; trusted observations release
    them.  Build usage is a ledger of debits and platform-fault credits.  The
    tables are those of migrations/0005_onboarding.sql and 0002; columns that no
    statement of this component reads are left out, and text columns with a
    CHECK over literals are inductive types. *)

From stdpp Require Import base list option gmap strings pretty.
From Stdlib Require Import ZArith Lia.
From S2P Require Import Prelude RustText Bytes PgTx Intent.

Local Open Scope string_scope.
Local Open Scope list_scope.

(** ** Tables *)

Inductive HoldKind := Initial | Rollout.
Inductive HoldState := HActive | HConsumed | HReleased | HExpired.
Inductive ReservationState := Reserved | ResourcesRetained | ReleasePending | RReleased.
Inductive EntitlementState := EActive | EExpired | ERevoked.
Inductive ProofState := PValid | PSuperseded | PExpired.
Inductive UsageKind := Debit | PlatformFaultCredit.
Inductive Lifecycle :=
| LIntent | AdmissionRequired | LQueued | Healthy | FailedNoResources
| FailedResourcesRetained | RollbackRequested | LRemoved.
Inductive SlotState :=
| NoSlot | SAdmissionRequired | SReserved | SResourcesRetained | SReleasePending | SReleased.
Inductive IntentKind := Rollback | Removal.
Inductive IntentState := Requested | Completed | ICanceled.

#[export] Instance HoldKind_eq : EqDecision HoldKind.
Proof. solve_decision. Defined.
#[export] Instance HoldState_eq : EqDecision HoldState.
Proof. solve_decision. Defined.
#[export] Instance ReservationState_eq : EqDecision ReservationState.
Proof. solve_decision. Defined.
#[export] Instance EntitlementState_eq : EqDecision EntitlementState.
Proof. solve_decision. Defined.
#[export] Instance ProofState_eq : EqDecision ProofState.
Proof. solve_decision. Defined.
#[export] Instance UsageKind_eq : EqDecision UsageKind.
Proof. solve_decision. Defined.
#[export] Instance Lifecycle_eq : EqDecision Lifecycle.
Proof. solve_decision. Defined.
#[export] Instance SlotState_eq : EqDecision SlotState.
Proof. solve_decision. Defined.
#[export] Instance IntentKind_eq : EqDecision IntentKind.
Proof. solve_decision. Defined.
#[export] Instance IntentState_eq : EqDecision IntentState.
Proof. solve_decision. Defined.

Record Pool := { cp_profile : string; cp_slots : Z; cp_headroom : Z; cp_revision : Z }.

(** Keyed by the account, which is UNIQUE. *)
Record Entitlement := {
  en_id : Uuid; en_pool : string; en_slots : Z; en_build_seconds : Z;
  en_starts : Z; en_ends : Z; en_state : EntitlementState; en_revision : Z;
}.

Record SourceProof := {
  sp_account : Uuid; sp_project : Uuid; sp_deployment : Uuid; sp_config : Uuid;
  sp_commit : string; sp_inventory : Z; sp_state : ProofState; sp_expires : Z;
}.

Record Hold := {
  h_id : Uuid; h_account : Uuid; h_project : Uuid; h_deployment : Uuid; h_proof : Uuid;
  h_entitlement : Uuid; h_pool : string; h_reservation : option Uuid; h_epoch : option Uuid;
  h_kind : HoldKind; h_state : HoldState; h_expires : Z; h_consumed : option Z;
  h_released : option Z; h_created : Z;
}.

Record Reservation := {
  rv_id : Uuid; rv_account : Uuid; rv_project : Uuid; rv_first : Uuid; rv_entitlement : Uuid;
  rv_pool : string; rv_hold : Uuid; rv_epoch : Uuid; rv_state : ReservationState;
  rv_reason : option string; rv_observation : option Uuid; rv_released : option Z;
}.

Record Observation := {
  ob_account : Uuid; ob_project : Uuid; ob_deployment : Uuid; ob_reservation : Uuid;
  ob_epoch : Uuid; ob_hold : option Uuid; ob_outcome : string; ob_inventory : string;
  ob_proof : string;
}.

Record Usage := {
  u_account : Uuid; u_project : Uuid; u_deployment : Uuid; u_entitlement : Uuid;
  u_attempt : Uuid; u_kind : UsageKind; u_seconds : Z; u_debit : option Uuid;
  u_fault : option string;
}.

(** Keyed by the hold, which is UNIQUE; its kind, state and reason are fixed. *)
Record RefundIntent := { ri_account : Uuid; ri_project : Uuid; ri_deployment : Uuid }.

Record Project := {
  pj_account : Uuid; pj_slots : Z; pj_slot_state : SlotState; pj_config : option Uuid;
  pj_revision : Z;
}.

Record Deployment := {
  dp_account : Uuid; dp_project : Uuid; dp_config : Uuid; dp_commit : string;
  dp_lifecycle : Lifecycle;
}.

Record LifecycleIntent := {
  li_account : Uuid; li_project : Uuid; li_kind : IntentKind; li_target : option Uuid;
  li_state : IntentState;
}.

Record HostingEvent := { he_account : Uuid; he_project : Uuid; he_deployment : Uuid; he_reason : string }.

Record UserAuthorization := { ga_active : bool; ga_expires : option Z }.
Record Binding := {
  gb_id : Uuid; gb_account : Uuid; gb_project : Uuid; gb_repository : Uuid;
  gb_installation : Z; gb_active : bool;
}.
Record SourceRevision := {
  gs_binding : Uuid; gs_account : Uuid; gs_project : Uuid; gs_repository : Uuid;
  gs_owner_resolve : bool; gs_config : Uuid; gs_commit : string;
}.

(** ** Requests and responses *)

Record HoldRecord := {
  hr_id : Uuid; hr_kind : HoldKind; hr_state : HoldState; hr_project : Uuid;
  hr_deployment : Uuid; hr_proof : Uuid; hr_expires : Z;
}.

Record ReservationRecord := {
  rr_id : Uuid; rr_project : Uuid; rr_first_deployment : Uuid; rr_state : ReservationState;
  rr_epoch : Uuid; rr_reason : option string;
}.

Record AdmissionResponse := {
  ar_hold : HoldRecord; ar_reservation : option ReservationRecord;
  ar_admitted : bool; ar_enqueued : bool;
}.

Record EntitlementSummary := {
  es_slot_limit : Z; es_slots_used : Z; es_active_initial_holds : Z; es_build_limit : Z;
  es_debited : Z; es_credited : Z; es_remaining : Z; es_starts : Z; es_ends : Z;
}.

Record CreateHoldRequest := { chq_proof : Uuid; chq_ttl : Z }.
Record AdmitRequest := { adq_hold : Uuid }.

Record CapacityFixtureRequest := {
  cfq_event : Uuid; cfq_pool : string; cfq_profile : string; cfq_slots : Z; cfq_headroom : Z;
}.
Record CapacityFixtureResponse := {
  cfr_pool : string; cfr_profile : string; cfr_slots : Z; cfr_headroom : Z; cfr_revision : Z;
}.

Record EntitlementFixtureRequest := {
  efq_event : Uuid; efq_account : Uuid; efq_pool : string; efq_slots : Z; efq_build_seconds : Z;
  efq_starts : Z; efq_ends : Z; efq_state : string;
}.
Record EntitlementFixtureResponse := { efr_account : Uuid; efr_row : Entitlement }.

Record SourceProofFixtureRequest := {
  spq_event : Uuid; spq_account : Uuid; spq_project : Uuid; spq_deployment : Uuid;
  spq_config : Uuid; spq_commit : string; spq_inventory : Z; spq_expires : Z;
}.
Record SourceProofResponse := { spr_id : Uuid; spr_row : SourceProof }.

Record ResourceObservationRequest := {
  roq_event : Uuid; roq_account : Uuid; roq_project : Uuid; roq_deployment : Uuid;
  roq_reservation : Uuid; roq_epoch : Uuid; roq_outcome : string; roq_inventory : string;
  roq_proof : string; roq_hold : option Uuid;
}.
Record ResourceObservationResponse := {
  ror_id : Uuid; ror_outcome : string; ror_reservation : ReservationRecord;
  ror_released_hold : option Uuid;
}.

Record BuildUsageRequest := {
  buq_event : Uuid; buq_account : Uuid; buq_project : Uuid; buq_deployment : Uuid;
  buq_attempt : Uuid; buq_kind : string; buq_seconds : Z; buq_debit : option Uuid;
  buq_fault : option string;
}.
Record BuildUsageResponse := {
  bur_id : Uuid; bur_kind : string; bur_attempt : Uuid; bur_seconds : Z;
  bur_debit : option Uuid; bur_remaining : Z; bur_enqueued : bool;
}.

(** The requests and stored response bodies of the fixture endpoints. *)
Inductive FixtureRequest :=
| FxCapacity (r : CapacityFixtureRequest)
| FxEntitlement (r : EntitlementFixtureRequest)
| FxProof (r : SourceProofFixtureRequest)
| FxObservation (r : ResourceObservationRequest)
| FxUsage (r : BuildUsageRequest).

Inductive FixtureBody :=
| BCapacity (r : CapacityFixtureResponse)
| BEntitlement (r : EntitlementFixtureResponse)
| BProof (r : SourceProofResponse)
| BObservation (r : ResourceObservationResponse)
| BUsage (r : BuildUsageResponse).

Record Receipt := { rc_kind : string; rc_hash : string; rc_body : FixtureBody }.

(** ** The database *)

Record AdmDb := MkAdmDb {
  pools : gmap string Pool;
  entitlements : gmap Uuid Entitlement;
  proofs : gmap Uuid SourceProof;
  holds : gmap Uuid Hold;
  reservations : gmap Uuid Reservation;
  observations : gmap Uuid Observation;
  usage : gmap Uuid Usage;
  refunds : gmap Uuid RefundIntent;
  receipts : gmap Uuid Receipt;
  projects : gmap Uuid Project;
  deployments : gmap Uuid Deployment;
  lifecycle_intents : gmap Uuid LifecycleIntent;
  hosting_events : list HostingEvent;
  user_authorizations : gmap Uuid UserAuthorization;
  installations : gmap Z bool;
  bindings : gmap Uuid Binding;
  source_revisions : gmap Uuid SourceRevision;
  adm_idem : gmap (Uuid * string * string) (IdemRow AdmissionResponse);
  adm_audits : list AuditEvent;
}.

Definition set_pools t d := MkAdmDb t (entitlements d) (proofs d) (holds d) (reservations d)
  (observations d) (usage d) (refunds d) (receipts d) (projects d) (deployments d)
  (lifecycle_intents d) (hosting_events d) (user_authorizations d) (installations d) (bindings d)
  (source_revisions d) (adm_idem d) (adm_audits d).
Definition set_entitlements t d := MkAdmDb (pools d) t (proofs d) (holds d) (reservations d)
  (observations d) (usage d) (refunds d) (receipts d) (projects d) (deployments d)
  (lifecycle_intents d) (hosting_events d) (user_authorizations d) (installations d) (bindings d)
  (source_revisions d) (adm_idem d) (adm_audits d).
Definition set_proofs t d := MkAdmDb (pools d) (entitlements d) t (holds d) (reservations d)
  (observations d) (usage d) (refunds d) (receipts d) (projects d) (deployments d)
  (lifecycle_intents d) (hosting_events d) (user_authorizations d) (installations d) (bindings d)
  (source_revisions d) (adm_idem d) (adm_audits d).
Definition set_holds t d := MkAdmDb (pools d) (entitlements d) (proofs d) t (reservations d)
  (observations d) (usage d) (refunds d) (receipts d) (projects d) (deployments d)
  (lifecycle_intents d) (hosting_events d) (user_authorizations d) (installations d) (bindings d)
  (source_revisions d) (adm_idem d) (adm_audits d).
Definition set_reservations t d := MkAdmDb (pools d) (entitlements d) (proofs d) (holds d) t
  (observations d) (usage d) (refunds d) (receipts d) (projects d) (deployments d)
  (lifecycle_intents d) (hosting_events d) (user_authorizations d) (installations d) (bindings d)
  (source_revisions d) (adm_idem d) (adm_audits d).
Definition set_observations t d := MkAdmDb (pools d) (entitlements d) (proofs d) (holds d)
  (reservations d) t (usage d) (refunds d) (receipts d) (projects d) (deployments d)
  (lifecycle_intents d) (hosting_events d) (user_authorizations d) (installations d) (bindings d)
  (source_revisions d) (adm_idem d) (adm_audits d).
Definition set_usage t d := MkAdmDb (pools d) (entitlements d) (proofs d) (holds d)
  (reservations d) (observations d) t (refunds d) (receipts d) (projects d) (deployments d)
  (lifecycle_intents d) (hosting_events d) (user_authorizations d) (installations d) (bindings d)
  (source_revisions d) (adm_idem d) (adm_audits d).
Definition set_refunds t d := MkAdmDb (pools d) (entitlements d) (proofs d) (holds d)
  (reservations d) (observations d) (usage d) t (receipts d) (projects d) (deployments d)
  (lifecycle_intents d) (hosting_events d) (user_authorizations d) (installations d) (bindings d)
  (source_revisions d) (adm_idem d) (adm_audits d).
Definition set_receipts t d := MkAdmDb (pools d) (entitlements d) (proofs d) (holds d)
  (reservations d) (observations d) (usage d) (refunds d) t (projects d) (deployments d)
  (lifecycle_intents d) (hosting_events d) (user_authorizations d) (installations d) (bindings d)
  (source_revisions d) (adm_idem d) (adm_audits d).
Definition set_projects t d := MkAdmDb (pools d) (entitlements d) (proofs d) (holds d)
  (reservations d) (observations d) (usage d) (refunds d) (receipts d) t (deployments d)
  (lifecycle_intents d) (hosting_events d) (user_authorizations d) (installations d) (bindings d)
  (source_revisions d) (adm_idem d) (adm_audits d).
Definition set_deployments t d := MkAdmDb (pools d) (entitlements d) (proofs d) (holds d)
  (reservations d) (observations d) (usage d) (refunds d) (receipts d) (projects d) t
  (lifecycle_intents d) (hosting_events d) (user_authorizations d) (installations d) (bindings d)
  (source_revisions d) (adm_idem d) (adm_audits d).
Definition set_hosting_events l d := MkAdmDb (pools d) (entitlements d) (proofs d) (holds d)
  (reservations d) (observations d) (usage d) (refunds d) (receipts d) (projects d)
  (deployments d) (lifecycle_intents d) l (user_authorizations d) (installations d) (bindings d)
  (source_revisions d) (adm_idem d) (adm_audits d).
Definition set_adm_idem t d := MkAdmDb (pools d) (entitlements d) (proofs d) (holds d)
  (reservations d) (observations d) (usage d) (refunds d) (receipts d) (projects d)
  (deployments d) (lifecycle_intents d) (hosting_events d) (user_authorizations d)
  (installations d) (bindings d) (source_revisions d) t (adm_audits d).
Definition set_adm_audits l d := MkAdmDb (pools d) (entitlements d) (proofs d) (holds d)
  (reservations d) (observations d) (usage d) (refunds d) (receipts d) (projects d)
  (deployments d) (lifecycle_intents d) (hosting_events d) (user_authorizations d)
  (installations d) (bindings d) (source_revisions d) (adm_idem d) l.

#[export] Instance adm_intent_store : IntentStore AdmDb AdmissionResponse := {
  idempotency_records := adm_idem; set_idempotency_records := set_adm_idem;
  audit_events := adm_audits; set_audit_events := set_adm_audits;
}.
#[export] Instance adm_intent_store_laws : IntentStoreLaws AdmDb AdmissionResponse.
Proof. by split. Qed.

(** ** Row constraints *)

Definition pool_check (p : Pool) : bool :=
  (1 <=? String.length (cp_profile p))%nat && (String.length (cp_profile p) <=? 64)%nat
  && (0 <=? cp_slots p)%Z && (0 <=? cp_headroom p)%Z && (0 <? cp_revision p)%Z.

Definition entitlement_check (e : Entitlement) : bool :=
  (0 <=? en_slots e)%Z && (0 <=? en_build_seconds e)%Z && (0 <? en_revision e)%Z
  && (en_starts e <? en_ends e)%Z.

Definition hold_check (h : Hold) : bool :=
  match h_kind h with
  | Initial => bool_decide (h_reservation h = None) && bool_decide (h_epoch h = None)
  | Rollout => bool_decide (is_Some (h_reservation h)) && bool_decide (is_Some (h_epoch h))
  end
  && (h_created h <? h_expires h)%Z
  && match h_state h with
     | HActive => bool_decide (h_consumed h = None) && bool_decide (h_released h = None)
     | HConsumed => bool_decide (is_Some (h_consumed h)) && bool_decide (h_released h = None)
     | HReleased | HExpired => bool_decide (is_Some (h_released h))
     end.

Definition reservation_check (r : Reservation) : bool :=
  bool_decide (rv_state r = RReleased <-> is_Some (rv_released r))
  && bool_decide (rv_state r = ResourcesRetained <-> is_Some (rv_reason r))
  && match rv_reason r with
     | Some s => (1 <=? String.length s)%nat && (String.length s <=? 160)%nat
     | None => true
     end.

Definition observation_check (o : Observation) : bool :=
  bool_decide (ob_inventory o ∈ ["none"; "runtime"; "static_release"; "database"; "multiple"])
  && (1 <=? String.length (ob_proof o))%nat && (String.length (ob_proof o) <=? 256)%nat
  && (bool_decide (ob_outcome o = "cleanup_confirmed") && bool_decide (ob_inventory o = "none")
      || (bool_decide (ob_outcome o = "resources_retained")
          || bool_decide (ob_outcome o = "deployment_healthy"))
         && negb (bool_decide (ob_inventory o = "none"))
      || bool_decide (ob_outcome o = "rollout_released") && bool_decide (is_Some (ob_hold o))).

Definition usage_check (u : Usage) : bool :=
  (0 <? u_seconds u)%Z
  && match u_kind u with
     | Debit => bool_decide (u_debit u = None) && bool_decide (u_fault u = None)
     | PlatformFaultCredit => bool_decide (is_Some (u_debit u)) && bool_decide (is_Some (u_fault u))
     end
  && match u_fault u with
     | Some s => (1 <=? String.length s)%nat && (String.length s <=? 256)%nat
     | None => true
     end.

Definition project_check (p : Project) : bool :=
  (0 <? pj_revision p)%Z
  && ((pj_slots p =? 0)%Z
        && bool_decide (pj_slot_state p ∈ [NoSlot; SAdmissionRequired; SReleasePending; SReleased])
      || (pj_slots p =? 1)%Z
        && bool_decide (pj_slot_state p ∈ [SReserved; SResourcesRetained; SReleasePending])).

(** Foreign keys: the row of the entitlement, hold or reservation referred to. *)
Definition entitlement_fk (d : AdmDb) (id account : Uuid) (pool : string) : bool :=
  match entitlements d !! account with
  | Some e => (en_id e =? id)%N && bool_decide (en_pool e = pool)
  | None => false
  end.

Definition generation_fk (d : AdmDb) (h : Hold) : bool :=
  match h_reservation h, h_epoch h with
  | Some r, Some epoch =>
      match reservations d !! r with
      | Some rv => (rv_account rv =? h_account h)%N && (rv_project rv =? h_project h)%N
                   && bool_decide (rv_pool rv = h_pool h) && (rv_epoch rv =? epoch)%N
      | None => false
      end
  | _, _ => true
  end.

(** [capacity_holds_one_active_kind_idx]. *)
Definition hold_indexed (h : Hold) : bool :=
  match h_kind h, h_state h with
  | Initial, HActive | Rollout, HActive | Rollout, HConsumed => true
  | _, _ => false
  end.

Definition same_hold_slot (a b : Hold) : bool :=
  hold_indexed a && hold_indexed b && (h_project a =? h_project b)%N
  && (h_deployment a =? h_deployment b)%N && bool_decide (h_kind a = h_kind b).

Definition not_released (r : Reservation) : bool := negb (bool_decide (rv_state r = RReleased)).

(** ** Statements *)

Definition insert_hold (h : Hold) : M AdmDb unit :=
  d <~ get_db;;
  if negb (entitlement_fk d (h_entitlement h) (h_account h) (h_pool h)) || negb (generation_fk d h)
     || exists_row (same_hold_slot h) (holds d)
  then raise database_unavailable
  else
    t <~ sql (insert_pk hold_check (h_id h) h (holds d));;
    put_db (set_holds t d).

Definition update_hold (id : Uuid) (cond : Hold -> bool) (f : Hold -> Hold) : M AdmDb nat :=
  d <~ get_db;;
  ' (t, n) <~ sql (update_pk hold_check cond (fun h => Some (f h)) id (holds d));;
  put_db (set_holds t d);;;
  tret n.

Definition insert_reservation (r : Reservation) : M AdmDb unit :=
  d <~ get_db;;
  if negb (entitlement_fk d (rv_entitlement r) (rv_account r) (rv_pool r))
     || exists_row (fun x => (rv_hold x =? rv_hold r)%N || (rv_epoch x =? rv_epoch r)%N
                             || (rv_project x =? rv_project r)%N && not_released x && not_released r)
          (reservations d)
  then raise database_unavailable
  else
    t <~ sql (insert_pk reservation_check (rv_id r) r (reservations d));;
    put_db (set_reservations t d).

Definition update_reservation (id : Uuid) (f : Reservation -> Reservation) : M AdmDb unit :=
  d <~ get_db;;
  ' (t, _) <~ sql (update_pk reservation_check (fun _ => true) (fun r => Some (f r)) id
                    (reservations d));;
  put_db (set_reservations t d).

(** [UPDATE projects SET ..., revision = revision + 1 WHERE account_id AND id]. *)
Definition update_project (account project : Uuid) (slots : option (Z * SlotState)) : M AdmDb unit :=
  d <~ get_db;;
  ' (t, _) <~ sql (update_pk project_check (fun p => (pj_account p =? account)%N)
    (fun p => r ← bigint_succ (pj_revision p);
       Some {| pj_account := pj_account p;
               pj_slots := match slots with Some (n, _) => n | None => pj_slots p end;
               pj_slot_state := match slots with Some (_, s) => s | None => pj_slot_state p end;
               pj_config := pj_config p; pj_revision := r |}) project (projects d));;
  put_db (set_projects t d).

Definition update_lifecycle (account project deployment : Uuid) (from : Lifecycle -> bool)
    (to : Lifecycle) : M AdmDb nat :=
  d <~ get_db;;
  ' (t, n) <~ sql (update_pk (fun _ => true)
    (fun x => (dp_account x =? account)%N && (dp_project x =? project)%N && from (dp_lifecycle x))
    (fun x => Some {| dp_account := dp_account x; dp_project := dp_project x;
                      dp_config := dp_config x; dp_commit := dp_commit x; dp_lifecycle := to |})
    deployment (deployments d));;
  put_db (set_deployments t d);;;
  tret n.

Definition record_event (account project deployment : Uuid) (reason : string) : M AdmDb unit :=
  d <~ get_db;;
  put_db (set_hosting_events (hosting_events d ++ [{|
    he_account := account; he_project := project; he_deployment := deployment;
    he_reason := reason |}]) d).

(** ** Capacity in use *)

Definition slot_used (r : Reservation) : bool := not_released r.
Definition slot_held (h : Hold) : bool :=
  bool_decide (h_kind h = Initial) && bool_decide (h_state h = HActive).
Definition headroom_used (h : Hold) : bool :=
  bool_decide (h_kind h = Rollout)
  && (bool_decide (h_state h = HActive) || bool_decide (h_state h = HConsumed)).

Definition account_slot_use (d : AdmDb) (account : Uuid) : Z :=
  Z.of_nat (count_where (fun r => (rv_account r =? account)%N && slot_used r) (reservations d)
            + count_where (fun h => (h_account h =? account)%N && slot_held h) (holds d)).

Definition pool_slot_use (d : AdmDb) (pool : string) : Z :=
  Z.of_nat (count_where (fun r => bool_decide (rv_pool r = pool) && slot_used r) (reservations d)
            + count_where (fun h => bool_decide (h_pool h = pool) && slot_held h) (holds d)).

Definition pool_rollout_use (d : AdmDb) (pool : string) : Z :=
  Z.of_nat (count_where (fun h => bool_decide (h_pool h = pool) && headroom_used h) (holds d)).

(** [sum(seconds) FILTER (WHERE kind = ...)] over the account's events. *)
Definition usage_sum (kind : UsageKind) (account : Uuid) (t : gmap Uuid Usage) : Z :=
  table_sum (fun _ u => if (u_account u =? account)%N && bool_decide (u_kind u = kind)
                        then u_seconds u else 0)%Z t.

Definition usage_totals (d : AdmDb) (account : Uuid) : Z * Z :=
  (usage_sum Debit account (usage d), usage_sum PlatformFaultCredit account (usage d)).

(** ** Expiry *)

Definition with_hold (h : Hold) (state : HoldState) (consumed released : option Z) : Hold := {|
  h_id := h_id h; h_account := h_account h; h_project := h_project h;
  h_deployment := h_deployment h; h_proof := h_proof h; h_entitlement := h_entitlement h;
  h_pool := h_pool h; h_reservation := h_reservation h; h_epoch := h_epoch h;
  h_kind := h_kind h; h_state := state; h_expires := h_expires h; h_consumed := consumed;
  h_released := released; h_created := h_created h |}.

Definition expirable (now : Z) (keep : Hold -> bool) (h : Hold) : bool :=
  bool_decide (h_state h = HActive) && bool_decide (h_consumed h = None)
  && (h_expires h <=? now)%Z && keep h.

(** [UPDATE capacity_holds SET state = 'expired' ...] and the refund intents of
    the initial holds it expired, [ON CONFLICT (hold_id) DO NOTHING]; the number
    of holds expired. *)
Definition expire_holds (keep : Hold -> bool) : M AdmDb nat :=
  d <~ get_db;;
  now <~ clock_timestamp;;
  let refund h := if expirable now keep h && bool_decide (h_kind h = Initial)
                  then Some {| ri_account := h_account h; ri_project := h_project h;
                               ri_deployment := h_deployment h |} else None in
  put_db (set_refunds (refunds d ∪ omap refund (holds d))
    (set_holds ((fun h => if expirable now keep h
                          then with_hold h HExpired (h_consumed h) (Some now) else h) <$> holds d)
       d));;;
  tret (count_where (expirable now keep) (holds d)).

Definition expire_holds_for_scope (account : Uuid) (pool : string) : M AdmDb nat :=
  expire_holds (fun h => (h_account h =? account)%N || bool_decide (h_pool h = pool)).

Definition reconcile : M AdmDb nat := expire_holds (fun _ => true).

(** ** Reading holds and reservations *)

Definition hold_record (h : Hold) : HoldRecord := {|
  hr_id := h_id h; hr_kind := h_kind h; hr_state := h_state h; hr_project := h_project h;
  hr_deployment := h_deployment h; hr_proof := h_proof h; hr_expires := h_expires h |}.

Definition load_hold (account project id : Uuid) : M AdmDb HoldRecord :=
  d <~ get_db;;
  match holds d !! id with
  | Some h => if (h_account h =? account)%N && (h_project h =? project)%N
              then tret (hold_record h) else raise not_found
  | None => raise not_found
  end.

Definition reservation_record (r : Reservation) : ReservationRecord := {|
  rr_id := rv_id r; rr_project := rv_project r; rr_first_deployment := rv_first r;
  rr_state := rv_state r; rr_epoch := rv_epoch r; rr_reason := rv_reason r |}.

Definition load_reservation (account project id : Uuid) : M AdmDb ReservationRecord :=
  d <~ get_db;;
  match reservations d !! id with
  | Some r => if (rv_account r =? account)%N && (rv_project r =? project)%N
              then tret (reservation_record r) else raise not_found
  | None => raise not_found
  end.

(** The project's reservation that is not released; there is at most one. *)
Definition load_active_reservation (account project : Uuid) : M AdmDb (option ReservationRecord) :=
  d <~ get_db;;
  match select_first (fun _ r => (rv_account r =? account)%N && (rv_project r =? project)%N
                                 && not_released r) (fun _ _ => true) (reservations d) with
  | None => tret None
  | Some r => r' <~ load_reservation account project (rv_id r);; tret (Some r')
  end.

Definition refresh_admission_response (account : Uuid) (response : AdmissionResponse)
    : M AdmDb AdmissionResponse :=
  hold <~ load_hold account (hr_project (ar_hold response)) (hr_id (ar_hold response));;
  reservation <~ match ar_reservation response with
    | Some r => r' <~ load_reservation account (rr_project r) (rr_id r);; tret (Some r')
    | None => tret None
    end;;
  tret {| ar_hold := hold; ar_reservation := reservation; ar_admitted := ar_admitted response;
          ar_enqueued := ar_enqueued response |}.

(** ** Guards *)

Definition entitlement_unavailable (message : string) : ApiError :=
  conflict "entitlement_unavailable" message.

(** The account's entitlement, once its pool is locked. *)
Definition lock_entitlement_and_pool (account : Uuid) : M AdmDb Entitlement :=
  d <~ get_db;;
  match entitlements d !! account with
  | None => raise (entitlement_unavailable "an active synthetic entitlement is required")
  | Some e =>
      match pools d !! en_pool e with
      | None =>
          raise (entitlement_unavailable "the synthetic entitlement capacity pool is unavailable")
      | Some _ => tret e
      end
  end.

Definition ensure_entitlement_active (e : Entitlement) : M AdmDb unit :=
  now <~ clock_timestamp;;
  reject_if (negb (bool_decide (en_state e = EActive)) || (now <? en_starts e)%Z
             || (en_ends e <=? now)%Z)
    (entitlement_unavailable "an active synthetic entitlement is required").

Definition build_allowance_exhausted : ApiError :=
  conflict "build_allowance_exhausted" "the synthetic build allowance is exhausted".

Definition ensure_build_allowance (account : Uuid) (e : Entitlement) : M AdmDb unit :=
  d <~ get_db;;
  let '(debited, credited) := usage_totals d account in
  reject_if (en_build_seconds e <=? debited - credited)%Z build_allowance_exhausted.

Definition lock_project_revision (account project : Uuid) (expected_revision : Z) : M AdmDb unit :=
  d <~ get_db;;
  match projects d !! project with
  | Some p =>
      if negb (pj_account p =? account)%N then raise not_found
      else reject_if (negb (pj_revision p =? expected_revision)%Z) stale_revision
  | None => raise not_found
  end.

Definition source_stale (message : string) : ApiError :=
  conflict "admission_source_stale" message.
Definition source_not_authorized (message : string) : ApiError :=
  conflict "github_source_not_authorized" message.

Definition config_is_current (d : AdmDb) (account project config : Uuid) : bool :=
  match projects d !! project with
  | Some p => (pj_account p =? account)%N && bool_decide (pj_config p = Some config)
  | None => false
  end.

(** A requested rollback to this deployment, which is healthy. *)
Definition rollback_target (d : AdmDb) (account project deployment config : Uuid)
    (commit : string) : bool :=
  exists_row (fun li => (li_account li =? account)%N && (li_project li =? project)%N
    && bool_decide (li_kind li = Rollback) && bool_decide (li_state li = Requested)
    && bool_decide (li_target li = Some deployment)) (lifecycle_intents d)
  && match deployments d !! deployment with
     | Some x => (dp_account x =? account)%N && (dp_project x =? project)%N
                 && bool_decide (dp_lifecycle x = Healthy) && (dp_config x =? config)%N
                 && bool_decide (dp_commit x = commit)
     | None => false
     end.

(** The authority the project's repository binding requires, if it has one. *)
Definition ensure_github_authority (account project config : Uuid) (commit : string)
    : M AdmDb unit :=
  d <~ get_db;;
  let of_project b := (gb_account b =? account)%N && (gb_project b =? project)%N in
  if negb (exists_row of_project (bindings d)) then tret tt
  else
    now <~ clock_timestamp;;
    reject_if (match user_authorizations d !! account with
               | Some a => negb (ga_active a && match ga_expires a with
                                                | None => true
                                                | Some t => (now <? t)%Z
                                                end)
               | None => true
               end)
      (source_not_authorized
         "the project has binding history but its user authorization is unavailable");;;
    match select_first (fun _ b => of_project b && gb_active b) (fun _ _ => true) (bindings d) with
    | None =>
        raise (source_not_authorized "the project has binding history but no active binding")
    | Some b =>
        reject_if (negb (default false (installations d !! gb_installation b)))
          (source_not_authorized "the project installation is not active");;;
        reject_if (negb (exists_row (fun s => (gs_binding s =? gb_id b)%N
            && (gs_account s =? account)%N && (gs_project s =? project)%N
            && (gs_repository s =? gb_repository b)%N && gs_owner_resolve s
            && (gs_config s =? config)%N && bool_decide (gs_commit s = commit))
            (source_revisions d)))
          (source_not_authorized "the active binding has no exact owner-resolved source revision")
    end.

Definition ensure_source_context (account project deployment config : Uuid) (commit : string)
    : M AdmDb unit :=
  d <~ get_db;;
  reject_if (negb (config_is_current d account project config
                   || rollback_target d account project deployment config commit))
    (source_stale
       "the exact source and configuration are not current or an eligible rollback target");;;
  ensure_github_authority account project config commit.

Definition not_verified : ApiError :=
  source_stale "the exact source and current configuration were not verified".

(** [deployments WHERE account_id AND project_id AND id]. *)
Definition owned_deployment (d : AdmDb) (account project deployment : Uuid) : option Deployment :=
  x ← deployments d !! deployment;
  if (dp_account x =? account)%N && (dp_project x =? project)%N then Some x else None.

Definition validate_source_proof (account project deployment proof_id : Uuid) : M AdmDb unit :=
  d <~ get_db;;
  match proofs d !! proof_id with
  | None => raise not_verified
  | Some p =>
      if negb ((sp_account p =? account)%N && (sp_project p =? project)%N
               && (sp_deployment p =? deployment)%N)
      then raise not_verified
      else match owned_deployment d account project deployment with
      | None => raise not_found
      | Some x =>
          (if negb (sp_config p =? dp_config x)%N || negb (bool_decide (sp_state p = PValid))
           then raise not_verified
           else now <~ clock_timestamp;; reject_if (sp_expires p <=? now)%Z not_verified);;;
          ensure_source_context account project deployment (sp_config p) (sp_commit p)
      end
  end.

Definition pending_intent (d : AdmDb) (account project : Uuid) : option LifecycleIntent :=
  select_first (fun _ li => (li_account li =? account)%N && (li_project li =? project)%N
                            && bool_decide (li_state li = Requested)) (fun _ _ => true)
    (lifecycle_intents d).

Definition ensure_lifecycle_allows_hold (account project deployment : Uuid) : M AdmDb unit :=
  d <~ get_db;;
  match owned_deployment d account project deployment with
  | None => raise not_found
  | Some x =>
      match pending_intent d account project with
      | None =>
          reject_if (negb (bool_decide (dp_lifecycle x = AdmissionRequired)))
            (conflict "deployment_not_admissible" "the deployment is not awaiting admission")
      | Some li =>
          reject_if (negb (bool_decide (li_kind li = Rollback)
                           && bool_decide (li_target li = Some deployment)
                           && bool_decide (dp_lifecycle x = Healthy)))
            (conflict "lifecycle_intent_pending"
               "a conflicting project lifecycle intent is pending")
      end
  end.

Definition ensure_capacity_available (account : Uuid) (e : Entitlement) (kind : HoldKind)
    : M AdmDb unit :=
  d <~ get_db;;
  match kind with
  | Initial =>
      reject_if (en_slots e <=? account_slot_use d account)%Z
        (conflict "entitlement_capacity_exhausted"
           "the synthetic hosted-slot entitlement is exhausted");;;
      p <~ sql (pools d !! en_pool e);;
      reject_if (cp_slots p <=? pool_slot_use d (en_pool e))%Z
        (conflict "platform_capacity_exhausted" "the synthetic hosted capacity pool is exhausted")
  | Rollout =>
      p <~ sql (pools d !! en_pool e);;
      reject_if (cp_headroom p <=? pool_rollout_use d (en_pool e))%Z
        (conflict "rollout_capacity_exhausted" "the synthetic rollout headroom is exhausted")
  end.

(** ** Admission events *)

Definition project_reserved (account project deployment : Uuid) : M AdmDb unit :=
  update_lifecycle account project deployment
    (fun l => bool_decide (l = AdmissionRequired)) LQueued;;;
  update_project account project (Some (1%Z, SReserved));;;
  record_event account project deployment
    "M2 synthetic entitlement and capacity admission; no execution enqueued".

Definition rollout_admitted (account project deployment : Uuid) : M AdmDb unit :=
  changed <~ update_lifecycle account project deployment
    (fun l => bool_decide (l = AdmissionRequired)) LQueued;;
  reject_if (negb (changed =? 1)%nat) internal;;;
  update_project account project None;;;
  record_event account project deployment
    "rollout capacity admission consumed under the existing project slot; no execution enqueued".

Definition consume_hold (id : Uuid) : M AdmDb nat :=
  now <~ clock_timestamp;;
  update_hold id (fun _ => true) (fun h => with_hold h HConsumed (Some now) (h_released h)).

(** ** Owner requests *)

Section Owner.
Context (parse_uuid : string -> option Uuid) (uuid_text : Uuid -> string).
Context (hold_request_hash : CreateHoldRequest -> string).
Context (admit_request_hash : AdmitRequest -> string).

#[local] Notation path_uuid := (path_uuid parse_uuid).

Definition create_hold (auth : Authenticated) (project_id deployment_id : string)
    (headers : Headers) (request : CreateHoldRequest) : M AdmDb AdmissionResponse :=
  if negb ((5 <=? chq_ttl request)%Z && (chq_ttl request <=? 300)%Z) then
    raise (unprocessable "invalid_hold_ttl" "ttl_seconds must be between 5 and 300")
  else
  let account := account_id auth in
  project <~ lift (path_uuid project_id);;
  deployment <~ lift (path_uuid deployment_id);;
  expected_revision <~ lift (if_match_revision headers);;
  key <~ lift (idempotency_key headers);;
  let hash := hold_request_hash request in
  let operation := ("admission.hold.create/" +:+ uuid_text project +:+ "/"
                    +:+ uuid_text deployment) in
  transaction (
    created <~ clock_timestamp;;
    prior <~ replay Some account operation key hash;;
    match prior with
    | Match response => r <~ refresh_admission_response account response;; tret (Ok r)
    | Changed => raise idempotency_changed
    | Miss =>
        e <~ lock_entitlement_and_pool account;;
        expire_holds_for_scope account (en_pool e);;;
        ensure_entitlement_active e;;;
        ensure_build_allowance account e;;;
        lock_project_revision account project expected_revision;;;
        validate_source_proof account project deployment (chq_proof request);;;
        ensure_lifecycle_allows_hold account project deployment;;;
        active <~ load_active_reservation account project;;
        let kind := match active with Some _ => Rollout | None => Initial end in
        d <~ get_db;;
        reject_if (exists_row (fun h => (h_project h =? project)%N
                     && (h_deployment h =? deployment)%N && bool_decide (h_kind h = kind)
                     && hold_indexed h) (holds d))
          (conflict "capacity_hold_exists"
             "an in-flight capacity hold already exists for this deployment");;;
        ensure_capacity_available account e kind;;;
        id <~ new_uuid;;
        t <~ clock_timestamp;;
        insert_hold {|
          h_id := id; h_account := account; h_project := project; h_deployment := deployment;
          h_proof := chq_proof request; h_entitlement := en_id e; h_pool := en_pool e;
          h_reservation := rr_id <$> active; h_epoch := rr_epoch <$> active; h_kind := kind;
          h_state := HActive; h_expires := (t + chq_ttl request)%Z; h_consumed := None;
          h_released := None; h_created := created |};;;
        hold <~ load_hold account project id;;
        let response := {| ar_hold := hold; ar_reservation := active; ar_admitted := false;
                           ar_enqueued := false |} in
        audit (B := AdmissionResponse) account (session_id auth) "admission.hold.create"
          "capacity_hold" (Some id) "succeeded";;;
        store_replay account operation key hash 201 response;;;
        tret (Ok response)
    end).

(** The two ways an active hold is consumed. *)
Definition admit_initial (account project deployment hold : Uuid) (e : Entitlement)
    : M AdmDb ReservationRecord :=
  reservation <~ new_uuid;;
  epoch <~ new_uuid;;
  consume_hold hold;;;
  insert_reservation {|
    rv_id := reservation; rv_account := account; rv_project := project; rv_first := deployment;
    rv_entitlement := en_id e; rv_pool := en_pool e; rv_hold := hold; rv_epoch := epoch;
    rv_state := Reserved; rv_reason := None; rv_observation := None; rv_released := None |};;;
  project_reserved account project deployment;;;
  load_reservation account project reservation.

Definition admit_rollout (account project deployment hold : Uuid) : M AdmDb ReservationRecord :=
  consume_hold hold;;;
  active <~ load_active_reservation account project;;
  match active with
  | None => raise (conflict "slot_reservation_missing"
                     "rollout admission requires an active project slot")
  | Some r => rollout_admitted account project deployment;;; tret r
  end.

Definition capacity_hold_expired : ApiError :=
  conflict "capacity_hold_expired" "the capacity hold is no longer active".

Definition admit_hold (auth : Authenticated) (project_id deployment_id : string)
    (headers : Headers) (request : AdmitRequest) : M AdmDb AdmissionResponse :=
  let account := account_id auth in
  project <~ lift (path_uuid project_id);;
  deployment <~ lift (path_uuid deployment_id);;
  expected_revision <~ lift (if_match_revision headers);;
  key <~ lift (idempotency_key headers);;
  let hash := admit_request_hash request in
  let operation := ("admission.consume/" +:+ uuid_text project +:+ "/" +:+ uuid_text deployment) in
  transaction (
    prior <~ replay Some account operation key hash;;
    match prior with
    | Match response => r <~ refresh_admission_response account response;; tret (Ok r)
    | Changed => raise idempotency_changed
    | Miss =>
        e <~ lock_entitlement_and_pool account;;
        expire_holds_for_scope account (en_pool e);;;
        ensure_entitlement_active e;;;
        ensure_build_allowance account e;;;
        lock_project_revision account project expected_revision;;;
        d <~ get_db;;
        match holds d !! adq_hold request with
        | None => raise not_found
        | Some h =>
            if negb ((h_account h =? account)%N && (h_project h =? project)%N
                     && (h_deployment h =? deployment)%N)
            then raise not_found
            else
            over <~ (if negb (bool_decide (h_state h = HActive)) then tret true
                     else now <~ clock_timestamp;; tret (h_expires h <=? now)%Z);;
            if (over : bool) then tret (Err capacity_hold_expired)
            else
              validate_source_proof account project deployment (h_proof h);;;
              ensure_lifecycle_allows_hold account project deployment;;;
              reservation <~ match h_kind h with
                | Initial => admit_initial account project deployment (adq_hold request) e
                | Rollout => admit_rollout account project deployment (adq_hold request)
                end;;
              hold <~ load_hold account project (adq_hold request);;
              let response := {| ar_hold := hold; ar_reservation := Some reservation;
                                 ar_admitted := true; ar_enqueued := false |} in
              audit (B := AdmissionResponse) account (session_id auth) "admission.consume"
                "slot_reservation" (Some (rr_id reservation)) "succeeded";;;
              store_replay account operation key hash
                (match h_kind h with Initial => 201 | Rollout => 200 end) response;;;
              tret (Ok response)
        end
    end).

Definition created_last (a b : Hold) : bool :=
  (h_created b <? h_created a)%Z || (h_created a =? h_created b)%Z && (h_id b <=? h_id a)%N.

Definition get_hold (auth : Authenticated) (project_id deployment_id : string)
    : M AdmDb HoldRecord :=
  let account := account_id auth in
  project <~ lift (path_uuid project_id);;
  deployment <~ lift (path_uuid deployment_id);;
  transaction (
    d <~ get_db;;
    match select_first (fun _ h => (h_account h =? account)%N && (h_project h =? project)%N
                                   && (h_deployment h =? deployment)%N) created_last (holds d) with
    | None => raise not_found
    | Some h => r <~ load_hold account project (h_id h);; tret (Ok r)
    end).

Definition get_reservation (auth : Authenticated) (project_id : string)
    : M AdmDb ReservationRecord :=
  project <~ lift (path_uuid project_id);;
  transaction (
    active <~ load_active_reservation (account_id auth) project;;
    match active with Some r => tret (Ok r) | None => raise not_found end).

Definition get_entitlement (auth : Authenticated) : M AdmDb EntitlementSummary :=
  let account := account_id auth in
  transaction (
    d <~ get_db;;
    match entitlements d !! account with
    | None => raise (entitlement_unavailable "a synthetic entitlement has not been supplied")
    | Some e =>
        let '(debited, credited) := usage_totals d account in
        tret (Ok {|
          es_slot_limit := en_slots e;
          es_slots_used := Z.of_nat (count_where (fun r => (rv_account r =? account)%N && slot_used r)
                                       (reservations d));
          es_active_initial_holds :=
            Z.of_nat (count_where (fun h => (h_account h =? account)%N && slot_held h) (holds d));
          es_build_limit := en_build_seconds e; es_debited := debited; es_credited := credited;
          es_remaining := Z.max (en_build_seconds e - debited + credited) 0;
          es_starts := en_starts e; es_ends := en_ends e |})
    end).
End Owner.

(** ** Trusted events *)

Definition validate_label (value code : string) : res ApiError unit :=
  guard_err (bool_decide (value = "") || (64 <? String.length value)%nat
             || existsb is_ascii_control (as_bytes value))
    (unprocessable code "the fixture label is invalid").

Definition validate_observation (q : ResourceObservationRequest) : res ApiError unit :=
  let none := bool_decide (roq_inventory q = "none") in
  let valid :=
    if bool_decide (roq_outcome q = "cleanup_confirmed") then none
    else if bool_decide (roq_outcome q = "resources_retained") then negb none
    else if bool_decide (roq_outcome q = "deployment_healthy") then negb none
    else if bool_decide (roq_outcome q = "rollout_released") then bool_decide (is_Some (roq_hold q))
    else false in
  guard_err (negb valid || bool_decide (roq_proof q = "")
             || (256 <? String.length (roq_proof q))%nat)
    (unprocessable "invalid_resource_observation" "the resource observation is invalid").

Definition validate_build_usage (q : BuildUsageRequest) : res ApiError unit :=
  let valid :=
    (0 <? buq_seconds q)%Z
    && (if bool_decide (buq_kind q = "debit")
        then bool_decide (buq_debit q = None) && bool_decide (buq_fault q = None)
        else if bool_decide (buq_kind q = "platform_fault_credit")
        then bool_decide (is_Some (buq_debit q))
             && match buq_fault q with
                | Some v => negb (bool_decide (v = "")) && (String.length v <=? 256)%nat
                | None => false
                end
        else false) in
  guard_err (negb valid)
    (unprocessable "invalid_build_usage_event" "the synthetic build usage event is invalid").

Section Fixtures.
Context (fixture_hash : FixtureRequest -> string).

(** The stored answer to an event, or a conflict when its kind or payload changed. *)
Definition fixture_replay {T} (from_value : FixtureBody -> option T) (event : Uuid) (kind : string)
    (request : FixtureRequest) : M AdmDb (option T) :=
  d <~ get_db;;
  match receipts d !! event with
  | None => tret None
  | Some r =>
      if bool_decide (rc_kind r = kind) && bool_decide (rc_hash r = fixture_hash request)
      then match from_value (rc_body r) with
           | Some t => tret (Some t)
           | None => raise internal
           end
      else raise (conflict "fixture_event_payload_changed"
             "the fixture event id was reused with a different operation or payload")
  end.

Definition store_fixture (event : Uuid) (kind : string) (request : FixtureRequest)
    (body : FixtureBody) : M AdmDb unit :=
  d <~ get_db;;
  t <~ sql (insert_pk (fun _ => true) event
              {| rc_kind := kind; rc_hash := fixture_hash request; rc_body := body |} (receipts d));;
  put_db (set_receipts t d).

(** [INSERT ... ON CONFLICT (pool_key) DO UPDATE]. *)
Definition upsert_pool (key profile : string) (slots headroom : Z) : M AdmDb Pool :=
  d <~ get_db;;
  row <~ sql (match pools d !! key with
    | None => Some {| cp_profile := profile; cp_slots := slots; cp_headroom := headroom;
                      cp_revision := 1 |}
    | Some p => r ← bigint_succ (cp_revision p);
                Some {| cp_profile := profile; cp_slots := slots; cp_headroom := headroom;
                        cp_revision := r |}
    end);;
  if pool_check row && (1 <=? String.length key)%nat && (String.length key <=? 64)%nat then
    put_db (set_pools (<[key := row]> (pools d)) d);;;
    tret row
  else raise database_unavailable.

Definition put_capacity_fixture (q : CapacityFixtureRequest) : M AdmDb CapacityFixtureResponse :=
  lift (validate_label (cfq_pool q) "invalid_pool_key");;;
  lift (validate_label (cfq_profile q) "invalid_capacity_profile");;;
  if (cfq_slots q <? 0)%Z || (cfq_headroom q <? 0)%Z then
    raise (unprocessable "invalid_capacity_limit" "capacity limits must be nonnegative")
  else
  transaction (
    prior <~ fixture_replay (fun b => match b with BCapacity r => Some r | _ => None end)
               (cfq_event q) "capacity" (FxCapacity q);;
    match prior with
    | Some r => tret (Ok r)
    | None =>
        d <~ get_db;;
        reject_if ((cfq_slots q <? pool_slot_use d (cfq_pool q))%Z
                   || (cfq_headroom q <? pool_rollout_use d (cfq_pool q))%Z)
          (conflict "capacity_in_use" "capacity cannot be reduced below durable use");;;
        row <~ upsert_pool (cfq_pool q) (cfq_profile q) (cfq_slots q) (cfq_headroom q);;
        let response := {| cfr_pool := cfq_pool q; cfr_profile := cp_profile row;
                           cfr_slots := cp_slots row; cfr_headroom := cp_headroom row;
                           cfr_revision := cp_revision row |} in
        store_fixture (cfq_event q) "capacity" (FxCapacity q) (BCapacity response);;;
        tret (Ok response)
    end).

Definition entitlement_state (s : string) : option EntitlementState :=
  if bool_decide (s = "active") then Some EActive
  else if bool_decide (s = "expired") then Some EExpired
  else if bool_decide (s = "revoked") then Some ERevoked else None.

(** [INSERT ... ON CONFLICT (account_id) DO UPDATE]; the row keeps its id. *)
Definition upsert_entitlement (id : Uuid) (q : EntitlementFixtureRequest)
    (state : EntitlementState) : M AdmDb Entitlement :=
  d <~ get_db;;
  let row id revision := {|
    en_id := id; en_pool := efq_pool q; en_slots := efq_slots q;
    en_build_seconds := efq_build_seconds q; en_starts := efq_starts q; en_ends := efq_ends q;
    en_state := state; en_revision := revision |} in
  e <~ sql (match entitlements d !! efq_account q with
    | None => Some (row id 1%Z)
    | Some old => r ← bigint_succ (en_revision old); Some (row (en_id old) r)
    end);;
  if entitlement_check e then
    put_db (set_entitlements (<[efq_account q := e]> (entitlements d)) d);;;
    tret e
  else raise database_unavailable.

Definition put_entitlement_fixture (q : EntitlementFixtureRequest)
    : M AdmDb EntitlementFixtureResponse :=
  match entitlement_state (efq_state q) with
  | Some state =>
      if (efq_slots q <? 0)%Z || (efq_build_seconds q <? 0)%Z || (efq_ends q <=? efq_starts q)%Z
      then raise (unprocessable "invalid_entitlement_fixture"
                    "the synthetic entitlement fixture is invalid")
      else
      transaction (
        prior <~ fixture_replay (fun b => match b with BEntitlement r => Some r | _ => None end)
                   (efq_event q) "entitlement" (FxEntitlement q);;
        match prior with
        | Some r => tret (Ok r)
        | None =>
            d <~ get_db;;
            reject_if (negb (bool_decide (is_Some (pools d !! efq_pool q))))
              (conflict "capacity_pool_missing" "the synthetic capacity pool does not exist");;;
            let existing := entitlements d !! efq_account q in
            let '(debited, credited) := usage_totals d (efq_account q) in
            reject_if ((efq_slots q <? account_slot_use d (efq_account q))%Z
                       || (efq_build_seconds q <? debited - credited)%Z)
              (conflict "entitlement_in_use" "entitlement cannot be reduced below durable use");;;
            reject_if (match existing with
                       | Some e => negb (bool_decide (en_pool e = efq_pool q))
                                   || negb (en_starts e =? efq_starts q)%Z
                                   || negb (en_ends e =? efq_ends q)%Z
                       | None => false
                       end)
              (conflict "entitlement_period_immutable"
                 "the synthetic entitlement period and capacity pool cannot be replaced");;;
            id <~ match existing with Some e => tret (en_id e) | None => new_uuid end;;
            row <~ upsert_entitlement id q state;;
            let response := {| efr_account := efq_account q; efr_row := row |} in
            store_fixture (efq_event q) "entitlement" (FxEntitlement q) (BEntitlement response);;;
            tret (Ok response)
        end)
  | None => raise (unprocessable "invalid_entitlement_fixture"
                     "the synthetic entitlement fixture is invalid")
  end.

(** [SELECT max(inventory_revision)] of the deployment's proofs. *)
Definition latest_inventory (d : AdmDb) (account project deployment : Uuid) : option Z :=
  map_fold (fun _ p acc =>
    if (sp_account p =? account)%N && (sp_project p =? project)%N
       && (sp_deployment p =? deployment)%N
    then Some (match acc with Some m => Z.max m (sp_inventory p) | None => sp_inventory p end)
    else acc) None (proofs d).

Definition supersede (deployment : Uuid) (p : SourceProof) : SourceProof :=
  if (sp_deployment p =? deployment)%N && bool_decide (sp_state p = PValid) then {|
    sp_account := sp_account p; sp_project := sp_project p; sp_deployment := sp_deployment p;
    sp_config := sp_config p; sp_commit := sp_commit p; sp_inventory := sp_inventory p;
    sp_state := PSuperseded; sp_expires := sp_expires p |}
  else p.

Definition invalid_source_proof : ApiError :=
  unprocessable "invalid_source_proof"
    "the source proof revision and expiry must be in the future".

Definition put_source_proof (q : SourceProofFixtureRequest) : M AdmDb SourceProofResponse :=
  if (spq_inventory q <=? 0)%Z then raise invalid_source_proof
  else
  transaction (
    now <~ clock_timestamp;;
    reject_if (spq_expires q <=? now)%Z invalid_source_proof;;;
    prior <~ fixture_replay (fun b => match b with BProof r => Some r | _ => None end)
               (spq_event q) "source_proof" (FxProof q);;
    match prior with
    | Some r => tret (Ok r)
    | None =>
        d <~ get_db;;
        reject_if (match projects d !! spq_project q with
                   | Some p => negb (pj_account p =? spq_account q)%N
                   | None => true
                   end) not_found;;;
        reject_if (match owned_deployment d (spq_account q) (spq_project q) (spq_deployment q) with
                   | Some x => negb ((dp_config x =? spq_config q)%N
                                     && bool_decide (dp_commit x = spq_commit q))
                   | None => true
                   end) not_verified;;;
        ensure_source_context (spq_account q) (spq_project q) (spq_deployment q) (spq_config q)
          (spq_commit q);;;
        reject_if (match latest_inventory d (spq_account q) (spq_project q) (spq_deployment q) with
                   | Some latest => (spq_inventory q <=? latest)%Z
                   | None => false
                   end)
          (conflict "source_inventory_revision_stale"
             "the source inventory revision must advance monotonically");;;
        d <~ get_db;;
        put_db (set_proofs (supersede (spq_deployment q) <$> proofs d) d);;;
        id <~ new_uuid;;
        let row := {| sp_account := spq_account q; sp_project := spq_project q;
                      sp_deployment := spq_deployment q; sp_config := spq_config q;
                      sp_commit := spq_commit q; sp_inventory := spq_inventory q;
                      sp_state := PValid; sp_expires := spq_expires q |} in
        d <~ get_db;;
        t <~ sql (insert_pk (fun p => (0 <? sp_inventory p)%Z) id row (proofs d));;
        put_db (set_proofs t d);;;
        let response := {| spr_id := id; spr_row := row |} in
        store_fixture (spq_event q) "source_proof" (FxProof q) (BProof response);;;
        tret (Ok response)
    end).

(** ** Resource observations *)

Definition with_reservation (r : Reservation) (state : ReservationState) (reason : option string)
    (observation : option Uuid) (released : option Z) : Reservation := {|
  rv_id := rv_id r; rv_account := rv_account r; rv_project := rv_project r; rv_first := rv_first r;
  rv_entitlement := rv_entitlement r; rv_pool := rv_pool r; rv_hold := rv_hold r;
  rv_epoch := rv_epoch r; rv_state := state; rv_reason := reason; rv_observation := observation;
  rv_released := released |}.

(** The rollout hold belongs to the observed reservation generation. *)
Definition linked_hold (q : ResourceObservationRequest) (r : Reservation) (h : Hold) : bool :=
  (h_account h =? roq_account q)%N && (h_project h =? roq_project q)%N
  && (h_deployment h =? roq_deployment q)%N && bool_decide (h_pool h = rv_pool r)
  && bool_decide (h_reservation h = Some (roq_reservation q))
  && bool_decide (h_epoch h = Some (roq_epoch q)) && bool_decide (h_kind h = Rollout).

Definition insert_observation (q : ResourceObservationRequest) : M AdmDb unit :=
  d <~ get_db;;
  let row := {| ob_account := roq_account q; ob_project := roq_project q;
                ob_deployment := roq_deployment q; ob_reservation := roq_reservation q;
                ob_epoch := roq_epoch q; ob_hold := roq_hold q; ob_outcome := roq_outcome q;
                ob_inventory := roq_inventory q; ob_proof := roq_proof q |} in
  if bool_decide (is_Some (owned_deployment d (roq_account q) (roq_project q) (roq_deployment q)))
  then
    t <~ sql (insert_pk observation_check (roq_event q) row (observations d));;
    put_db (set_observations t d)
  else raise database_unavailable.

Definition slot_released (message : string) : ApiError :=
  conflict "slot_reservation_released" message.

(** [match request.outcome]: the rollout hold that was released, if any. *)
Definition apply_observation (q : ResourceObservationRequest) (r : Reservation)
    : M AdmDb (option Uuid) :=
  let account := roq_account q in
  let project := roq_project q in
  let released := bool_decide (rv_state r = RReleased) in
  if bool_decide (roq_outcome q = "resources_retained") then
    reject_if released (slot_released "a released slot cannot retain resources");;;
    update_reservation (roq_reservation q) (fun r =>
      with_reservation r ResourcesRetained (Some (roq_inventory q)) (rv_observation r)
        (rv_released r));;;
    update_project account project (Some (1%Z, SResourcesRetained));;;
    tret None
  else if bool_decide (roq_outcome q = "deployment_healthy") then
    reject_if released
      (slot_released "a released slot cannot receive a healthy deployment observation");;;
    update_lifecycle account project (roq_deployment q) (fun _ => true) Healthy;;;
    tret None
  else if bool_decide (roq_outcome q = "cleanup_confirmed") then
    (if released then tret tt
     else
       now <~ clock_timestamp;;
       update_reservation (roq_reservation q) (fun r =>
         with_reservation r RReleased None (Some (roq_event q)) (Some now));;;
       update_project account project (Some (0%Z, SReleased));;;
       update_lifecycle account project (roq_deployment q)
         (fun l => bool_decide (l = AdmissionRequired) || bool_decide (l = LQueued))
         FailedNoResources;;;
       tret tt);;;
    tret None
  else if bool_decide (roq_outcome q = "rollout_released") then
    match roq_hold q with
    | None => raise internal
    | Some hold =>
        now <~ clock_timestamp;;
        changed <~ update_hold hold
          (fun h => linked_hold q r h && bool_decide (h_state h = HConsumed))
          (fun h => with_hold h HReleased (h_consumed h) (Some now));;
        reject_if (negb (changed =? 1)%nat)
          (conflict "rollout_hold_not_active" "the rollout hold is not active for this project");;;
        tret (Some hold)
    end
  else raise internal.

Definition generation_mismatch (message : string) : ApiError :=
  conflict "observation_generation_mismatch" message.

Definition record_resource_observation (q : ResourceObservationRequest)
    : M AdmDb ResourceObservationResponse :=
  lift (validate_observation q);;;
  transaction (
    prior <~ fixture_replay (fun b => match b with BObservation r => Some r | _ => None end)
               (roq_event q) "resource_observation" (FxObservation q);;
    match prior with
    | Some r => tret (Ok r)
    | None =>
        d <~ get_db;;
        reject_if (match projects d !! roq_project q with
                   | Some p => negb (pj_account p =? roq_account q)%N
                   | None => true
                   end) not_found;;;
        match reservations d !! roq_reservation q with
        | None => raise not_found
        | Some r =>
            reject_if (negb ((rv_account r =? roq_account q)%N
                             && (rv_project r =? roq_project q)%N)) not_found;;;
            reject_if (negb (rv_epoch r =? roq_epoch q)%N)
              (conflict "reservation_epoch_stale"
                 "the observation does not apply to the current reservation epoch");;;
            match roq_hold q with
            | Some hold =>
                reject_if (negb (match holds d !! hold with
                                 | Some h => linked_hold q r h
                                     && (bool_decide (h_state h = HConsumed)
                                         || bool_decide (h_state h = HReleased))
                                 | None => false
                                 end))
                  (generation_mismatch
                     "the rollout hold does not belong to this reservation generation and deployment")
            | None =>
                reject_if (negb (roq_deployment q =? rv_first r)%N)
                  (generation_mismatch
                     "the deployment is not linked to this reservation generation")
            end;;;
            insert_observation q;;;
            released <~ apply_observation q r;;
            reservation <~ load_reservation (roq_account q) (roq_project q) (roq_reservation q);;
            let response := {| ror_id := roq_event q; ror_outcome := roq_outcome q;
                               ror_reservation := reservation; ror_released_hold := released |} in
            store_fixture (roq_event q) "resource_observation" (FxObservation q)
              (BObservation response);;;
            tret (Ok response)
        end
    end).

(** ** Build usage *)

(** [INSERT INTO build_usage_events] under its two unique indexes. *)
Definition insert_usage (id : Uuid) (u : Usage) : M AdmDb unit :=
  d <~ get_db;;
  let clash x := bool_decide (u_kind x = u_kind u)
    && match u_kind u with
       | Debit => (u_entitlement x =? u_entitlement u)%N && (u_attempt x =? u_attempt u)%N
       | PlatformFaultCredit => bool_decide (u_debit x = u_debit u)
       end in
  if exists_row clash (usage d) then raise database_unavailable
  else
    t <~ sql (insert_pk usage_check id u (usage d));;
    put_db (set_usage t d).

Definition record_debit (q : BuildUsageRequest) (e : Entitlement) : M AdmDb unit :=
  d <~ get_db;;
  reject_if (exists_row (fun u => (u_entitlement u =? en_id e)%N
               && (u_attempt u =? buq_attempt q)%N && bool_decide (u_kind u = Debit)) (usage d))
    (conflict "build_attempt_already_debited"
       "the synthetic build attempt already has a debit");;;
  let '(debited, credited) := usage_totals d (buq_account q) in
  reject_if (en_build_seconds e <? debited - credited + buq_seconds q)%Z
    build_allowance_exhausted;;;
  insert_usage (buq_event q) {|
    u_account := buq_account q; u_project := buq_project q; u_deployment := buq_deployment q;
    u_entitlement := en_id e; u_attempt := buq_attempt q; u_kind := Debit;
    u_seconds := buq_seconds q; u_debit := None; u_fault := None |}.

Definition record_credit (q : BuildUsageRequest) (e : Entitlement) : M AdmDb unit :=
  d <~ get_db;;
  match buq_debit q with
  | None => raise internal
  | Some debit_id =>
      match usage d !! debit_id with
      | None => raise not_found
      | Some debit =>
          reject_if (negb (bool_decide (u_kind debit = Debit))) not_found;;;
          reject_if (negb ((u_account debit =? buq_account q)%N
                           && (u_project debit =? buq_project q)%N
                           && (u_deployment debit =? buq_deployment q)%N
                           && (u_attempt debit =? buq_attempt q)%N
                           && (u_seconds debit =? buq_seconds q)%Z))
            (conflict "platform_fault_credit_mismatch"
               "the platform-fault credit does not exactly match its debit");;;
          reject_if (exists_row (fun u => bool_decide (u_debit u = Some debit_id)) (usage d))
            (conflict "platform_fault_already_credited"
               "the build debit already has a platform-fault credit");;;
          insert_usage (buq_event q) {|
            u_account := buq_account q; u_project := buq_project q;
            u_deployment := buq_deployment q; u_entitlement := en_id e;
            u_attempt := buq_attempt q; u_kind := PlatformFaultCredit;
            u_seconds := buq_seconds q; u_debit := Some debit_id; u_fault := buq_fault q |}
      end
  end.

Definition record_build_usage (q : BuildUsageRequest) : M AdmDb BuildUsageResponse :=
  lift (validate_build_usage q);;;
  transaction (
    let debit := bool_decide (buq_kind q = "debit") in
    let kind := if debit then "build_debit" else "platform_fault_credit" in
    prior <~ fixture_replay (fun b => match b with BUsage r => Some r | _ => None end)
               (buq_event q) kind (FxUsage q);;
    match prior with
    | Some r => tret (Ok r)
    | None =>
        e <~ lock_entitlement_and_pool (buq_account q);;
        (if debit then ensure_entitlement_active e else tret tt);;;
        d <~ get_db;;
        reject_if (negb (bool_decide (is_Some
          (owned_deployment d (buq_account q) (buq_project q) (buq_deployment q))))) not_found;;;
        (if debit then record_debit q e else record_credit q e);;;
        d <~ get_db;;
        let '(debited, credited) := usage_totals d (buq_account q) in
        let response := {| bur_id := buq_event q; bur_kind := buq_kind q;
                           bur_attempt := buq_attempt q; bur_seconds := buq_seconds q;
                           bur_debit := buq_debit q;
                           bur_remaining := (en_build_seconds e - debited + credited)%Z;
                           bur_enqueued := false |} in
        store_fixture (buq_event q) kind (FxUsage q) (BUsage response);;;
        tret (Ok response)
    end).
End Fixtures.
