(* ===== verification/AdmissionSpec.v ===== *)
(** * What admission promises

    The ledger behind admission (pools, entitlements, holds, reservations, build
    usage and the projects' slots) as an abstract transition system
    ([adm_step]), what other components may do to it ([outside_step]), and the
    invariant that no limit of slots or rollouts is ever exceeded ([adm_ok]). *)

From stdpp Require Import base list option gmap strings pretty relations.
From Stdlib Require Import ZArith Lia.
From S2P Require Import Prelude RustText Bytes PgTx Intent Admission.

Local Open Scope string_scope.
Local Open Scope list_scope.

(** ** The ledger and its invariant *)

(** A project's account and the number of slots it holds. *)
Definition slots (d : AdmDb) : gmap Uuid (Uuid * Z) :=
  (fun p => (pj_account p, pj_slots p)) <$> projects d.

(** A debit that some credit refers to. *)
Definition credited (t : gmap Uuid Usage) (id : Uuid) : bool :=
  exists_row (fun u => bool_decide (u_debit u = Some id)) t.

Definition account_debit (account : Uuid) (u : Usage) : Z :=
  if (u_account u =? account)%N && bool_decide (u_kind u = Debit) then u_seconds u else 0%Z.

(** The seconds of the account's debits that no credit has returned. *)
Definition uncredited (t : gmap Uuid Usage) (account : Uuid) : Z :=
  table_sum (fun id u => if credited t id then 0 else account_debit account u)%Z t.

Definition build_net (d : AdmDb) (account : Uuid) : Z :=
  let '(debited, credited) := usage_totals d account in (debited - credited)%Z.

Definition active_in (d : AdmDb) (project : Uuid) : Prop :=
  exists id r, reservations d !! id = Some r /\ rv_project r = project /\ not_released r = true.

Record adm_ok (d : AdmDb) : Prop := {
  hold_rows : forall id h, holds d !! id = Some h ->
    h_id h = id /\ entitlement_fk d (h_entitlement h) (h_account h) (h_pool h) = true;
  reservation_rows : forall id r, reservations d !! id = Some r ->
    rv_id r = id /\ entitlement_fk d (rv_entitlement r) (rv_account r) (rv_pool r) = true;
  one_active : forall i1 r1 i2 r2, reservations d !! i1 = Some r1 -> reservations d !! i2 = Some r2 ->
    rv_project r1 = rv_project r2 -> not_released r1 = true -> not_released r2 = true -> i1 = i2;
  entitlement_rows : forall a e, entitlements d !! a = Some e ->
    is_Some (pools d !! en_pool e) /\ (account_slot_use d a <= en_slots e)%Z;
  pool_rows : forall k p, pools d !! k = Some p ->
    (pool_slot_use d k <= cp_slots p)%Z /\ (pool_rollout_use d k <= cp_headroom p)%Z;
  usage_rows : forall id u, usage d !! id = Some u -> usage_check u = true;
  credit_rows : forall id u x, usage d !! id = Some u -> u_debit u = Some x ->
    u_kind u = PlatformFaultCredit /\ exists v, usage d !! x = Some v /\ u_kind v = Debit /\
    u_account v = u_account u /\ u_seconds v = u_seconds u;
  one_credit : forall i1 u1 i2 u2 x, usage d !! i1 = Some u1 -> usage d !! i2 = Some u2 ->
    u_debit u1 = Some x -> u_debit u2 = Some x -> i1 = i2;
  net_is_uncredited : forall a, build_net d a = uncredited (usage d) a;
  (** a project keeps its slot while a reservation of it is active, and possibly after:
      databases that could not be removed hold it, too *)
  slot_rows : forall p a n, slots d !! p = Some (a, n) -> (n = 1 \/ n = 0 /\ ~ active_in d p)%Z;
  (** the foreign key of a reservation's project *)
  active_rows : forall p, active_in d p -> is_Some (slots d !! p);
}.

(** ** The abstract steps *)

Definition core (d : AdmDb) :=
  (pools d, entitlements d, holds d, reservations d, usage d, slots d).

(** A hold changes state only; a reservation likewise. *)
Definition hold_moved (h h' : Hold) : Prop :=
  exists s c r, h' = with_hold h s c r.
Definition reservation_moved (r r' : Reservation) : Prop :=
  exists s reason o t, r' = with_reservation r s reason o t.

(** [may_release] says which reservations the step may release. *)
Inductive adm_step (may_release : Reservation -> Prop) (d d' : AdmDb) : Prop :=
| as_same : core d' = core d -> adm_step may_release d d'
| as_expire now keep :
    core d' = (pools d, entitlements d,
      (fun h => if expirable now keep h then with_hold h HExpired (h_consumed h) (Some now) else h)
        <$> holds d, reservations d, usage d, slots d) -> adm_step may_release d d'
| as_hold_initial h e p :
    holds d !! h_id h = None -> h_kind h = Initial -> h_state h = HActive ->
    entitlements d !! h_account h = Some e -> en_id e = h_entitlement h -> en_pool e = h_pool h ->
    pools d !! h_pool h = Some p ->
    (account_slot_use d (h_account h) < en_slots e)%Z -> (pool_slot_use d (h_pool h) < cp_slots p)%Z ->
    core d' = (pools d, entitlements d, <[h_id h := h]> (holds d), reservations d, usage d, slots d) ->
    adm_step may_release d d'
| as_hold_rollout h e p :
    holds d !! h_id h = None -> h_kind h = Rollout -> h_state h = HActive ->
    entitlements d !! h_account h = Some e -> en_id e = h_entitlement h -> en_pool e = h_pool h ->
    pools d !! h_pool h = Some p -> (pool_rollout_use d (h_pool h) < cp_headroom p)%Z ->
    core d' = (pools d, entitlements d, <[h_id h := h]> (holds d), reservations d, usage d, slots d) ->
    adm_step may_release d d'
| as_admit_initial h h' r n :
    holds d !! h_id h = Some h -> h_kind h = Initial -> h_state h = HActive ->
    hold_moved h h' -> h_state h' = HConsumed ->
    reservations d !! rv_id r = None -> not_released r = true -> rv_account r = h_account h ->
    rv_pool r = h_pool h -> rv_entitlement r = h_entitlement h ->
    ~ active_in d (rv_project r) -> slots d !! rv_project r = Some (rv_account r, n) ->
    core d' = (pools d, entitlements d, <[h_id h := h']> (holds d),
               <[rv_id r := r]> (reservations d), usage d,
               <[rv_project r := (rv_account r, 1%Z)]> (slots d)) ->
    adm_step may_release d d'
| as_admit_rollout h h' :
    holds d !! h_id h = Some h -> h_kind h = Rollout -> h_state h = HActive ->
    hold_moved h h' -> h_state h' = HConsumed ->
    core d' = (pools d, entitlements d, <[h_id h := h']> (holds d), reservations d, usage d, slots d) ->
    adm_step may_release d d'
| as_release_rollout h h' :
    holds d !! h_id h = Some h -> h_kind h = Rollout -> h_state h = HConsumed ->
    hold_moved h h' -> h_state h' = HReleased ->
    core d' = (pools d, entitlements d, <[h_id h := h']> (holds d), reservations d, usage d, slots d) ->
    adm_step may_release d d'
| as_retain r r' n :
    reservations d !! rv_id r = Some r -> not_released r = true ->
    reservation_moved r r' -> not_released r' = true ->
    slots d !! rv_project r = Some (rv_account r, n) ->
    core d' = (pools d, entitlements d, holds d, <[rv_id r := r']> (reservations d), usage d,
               <[rv_project r := (rv_account r, 1%Z)]> (slots d)) ->
    adm_step may_release d d'
| as_release r r' n :
    reservations d !! rv_id r = Some r -> not_released r = true -> may_release r ->
    reservation_moved r r' -> not_released r' = false ->
    slots d !! rv_project r = Some (rv_account r, n) ->
    core d' = (pools d, entitlements d, holds d, <[rv_id r := r']> (reservations d), usage d,
               <[rv_project r := (rv_account r, 0%Z)]> (slots d)) ->
    adm_step may_release d d'
| as_pool k p :
    (pool_slot_use d k <= cp_slots p)%Z -> (pool_rollout_use d k <= cp_headroom p)%Z ->
    core d' = (<[k := p]> (pools d), entitlements d, holds d, reservations d, usage d, slots d) ->
    adm_step may_release d d'
| as_entitlement a e :
    (forall old, entitlements d !! a = Some old -> en_id e = en_id old /\ en_pool e = en_pool old) ->
    is_Some (pools d !! en_pool e) -> (account_slot_use d a <= en_slots e)%Z ->
    (build_net d a <= en_build_seconds e)%Z ->
    core d' = (pools d, <[a := e]> (entitlements d), holds d, reservations d, usage d, slots d) ->
    adm_step may_release d d'
| as_debit id u e :
    usage d !! id = None -> usage_check u = true -> u_kind u = Debit ->
    entitlements d !! u_account u = Some e ->
    (build_net d (u_account u) + u_seconds u <= en_build_seconds e)%Z ->
    core d' = (pools d, entitlements d, holds d, reservations d, <[id := u]> (usage d), slots d) ->
    adm_step may_release d d'
| as_credit id u x v :
    usage d !! id = None -> usage_check u = true -> u_kind u = PlatformFaultCredit ->
    u_debit u = Some x -> usage d !! x = Some v -> u_kind v = Debit ->
    u_account v = u_account u -> u_seconds v = u_seconds u -> credited (usage d) x = false ->
    core d' = (pools d, entitlements d, holds d, reservations d, <[id := u]> (usage d), slots d) ->
    adm_step may_release d d'.

(** What other components do to the ledger: builds debit what they ran, whatever the
    entitlement; a database whose resources remain retains the reservation and takes the
    slot of its project; the project graph creates projects. *)
Inductive outside_step (d d' : AdmDb) : Prop :=
| os_same : core d' = core d -> outside_step d d'
| os_project p a :
    slots d !! p = None ->
    core d' = (pools d, entitlements d, holds d, reservations d, usage d,
               <[p := (a, 0%Z)]> (slots d)) -> outside_step d d'
| os_debit id u :
    usage d !! id = None -> usage_check u = true -> u_kind u = Debit ->
    core d' = (pools d, entitlements d, holds d, reservations d, <[id := u]> (usage d), slots d) ->
    outside_step d d'
| os_retain id r r' :
    reservations d !! id = Some r -> not_released r = true ->
    reservation_moved r r' -> not_released r' = true ->
    core d' = (pools d, entitlements d, holds d, <[id := r']> (reservations d), usage d,
               slots d) -> outside_step d d'
| os_take p a n :
    slots d !! p = Some (a, n) ->
    core d' = (pools d, entitlements d, holds d, reservations d, usage d,
               <[p := (a, 1%Z)]> (slots d)) -> outside_step d d'.

(** ** How use changes *)

Lemma account_use_Z d a :
  account_slot_use d a =
    (Z.of_nat (count_where (fun r => (rv_account r =? a)%N && slot_used r) (reservations d))
     + Z.of_nat (count_where (fun h => (h_account h =? a)%N && slot_held h) (holds d)))%Z.
Proof. unfold account_slot_use. lia. Qed.

Lemma pool_use_Z d k :
  pool_slot_use d k =
    (Z.of_nat (count_where (fun r => bool_decide (rv_pool r = k) && slot_used r) (reservations d))
     + Z.of_nat (count_where (fun h => bool_decide (h_pool h = k) && slot_held h) (holds d)))%Z.
Proof. unfold pool_slot_use. lia. Qed.

Lemma core_eq d d' :
  core d' = core d ->
  pools d' = pools d /\ entitlements d' = entitlements d /\ holds d' = holds d /\
  reservations d' = reservations d /\ usage d' = usage d /\ slots d' = slots d.
Proof. unfold core. intros [=]. done. Qed.

(** ** The invariant is inductive *)

Lemma entitlement_fk_spec d id a k :
  entitlement_fk d id a k = true <->
  exists e, entitlements d !! a = Some e /\ en_id e = id /\ en_pool e = k.
Proof.
  unfold entitlement_fk. destruct (entitlements d !! a) as [e|].
  - rewrite andb_true_iff, N.eqb_eq, bool_decide_eq_true. naive_solver.
  - naive_solver.
Qed.

Lemma entitlement_fk_ext d d' id a k :
  entitlements d' = entitlements d -> entitlement_fk d' id a k = entitlement_fk d id a k.
Proof. unfold entitlement_fk. by intros ->. Qed.

Lemma build_net_ext d d' a : usage d' = usage d -> build_net d' a = build_net d a.
Proof. unfold build_net, usage_totals. by intros ->. Qed.

Lemma active_in_ext d d' p : reservations d' = reservations d -> active_in d' p <-> active_in d p.
Proof. unfold active_in. by intros ->. Qed.

(** A step that leaves pools, entitlements and usage alone. *)
Lemma capacity_ok d d' :
  adm_ok d -> pools d' = pools d -> entitlements d' = entitlements d -> usage d' = usage d ->
  (forall id h, holds d' !! id = Some h ->
    h_id h = id /\ entitlement_fk d (h_entitlement h) (h_account h) (h_pool h) = true) ->
  (forall id r, reservations d' !! id = Some r ->
    rv_id r = id /\ entitlement_fk d (rv_entitlement r) (rv_account r) (rv_pool r) = true) ->
  (forall i1 r1 i2 r2, reservations d' !! i1 = Some r1 -> reservations d' !! i2 = Some r2 ->
    rv_project r1 = rv_project r2 -> not_released r1 = true -> not_released r2 = true -> i1 = i2) ->
  (forall a e, entitlements d !! a = Some e -> account_slot_use d' a <= en_slots e)%Z ->
  (forall k p, pools d !! k = Some p ->
    pool_slot_use d' k <= cp_slots p /\ pool_rollout_use d' k <= cp_headroom p)%Z ->
  (forall p a n, slots d' !! p = Some (a, n) -> n = 1 \/ n = 0 /\ ~ active_in d' p)%Z ->
  (forall p, active_in d' p -> is_Some (slots d' !! p)) ->
  adm_ok d'.
Proof.
  intros [] Ep Ee Eu Hh Hr Ho Ha Hk Hs Hf. constructor.
  - intros id h Hl. rewrite (entitlement_fk_ext _ _ _ _ _ Ee). by apply Hh.
  - intros id r Hl. rewrite (entitlement_fk_ext _ _ _ _ _ Ee). by apply Hr.
  - done.
  - intros a e Hl. rewrite Ee in Hl. rewrite Ep.
    destruct (entitlement_rows0 _ _ Hl) as (? & _). eauto.
  - intros k p Hl. rewrite Ep in Hl. eauto.
  - by rewrite Eu.
  - by rewrite Eu.
  - by rewrite Eu.
  - intros a. by rewrite Eu, (build_net_ext _ _ _ Eu).
  - done.
  - done.
Qed.

(** ... and that leaves reservations and slots alone, too. *)
Lemma holds_ok d d' :
  adm_ok d -> pools d' = pools d -> entitlements d' = entitlements d -> usage d' = usage d ->
  reservations d' = reservations d -> slots d' = slots d ->
  (forall id h, holds d' !! id = Some h ->
    h_id h = id /\ entitlement_fk d (h_entitlement h) (h_account h) (h_pool h) = true) ->
  (forall a e, entitlements d !! a = Some e -> account_slot_use d' a <= en_slots e)%Z ->
  (forall k p, pools d !! k = Some p ->
    pool_slot_use d' k <= cp_slots p /\ pool_rollout_use d' k <= cp_headroom p)%Z ->
  adm_ok d'.
Proof.
  intros Hok Ep Ee Eu Er Es Hh Ha Hk.
  apply (capacity_ok d d'); try done; try (rewrite Er; by apply Hok).
  - intros p a n Hl. rewrite Es in Hl. rewrite (active_in_ext _ _ _ Er). by eapply (slot_rows d).
  - intros p. rewrite (active_in_ext _ _ _ Er), Es. by apply active_rows.
Qed.

(** The use of a pool or an account after one hold was added or replaced. *)
Lemma use_insert d d' h a k :
  reservations d' = reservations d -> holds d !! h_id h = None ->
  holds d' = <[h_id h := h]> (holds d) ->
  (account_slot_use d' a = account_slot_use d a + Z.b2z ((h_account h =? a)%N && slot_held h))%Z /\
  (pool_slot_use d' k = pool_slot_use d k + Z.b2z (bool_decide (h_pool h = k) && slot_held h))%Z /\
  (pool_rollout_use d' k = pool_rollout_use d k
     + Z.b2z (bool_decide (h_pool h = k) && headroom_used h))%Z.
Proof.
  intros Er Hn Eh. rewrite !account_use_Z, !pool_use_Z. unfold pool_rollout_use.
  rewrite Er, Eh, !count_insert_new by done. lia.
Qed.

Lemma use_replace d d' h h' a k :
  reservations d' = reservations d -> holds d !! h_id h = Some h -> hold_moved h h' ->
  holds d' = <[h_id h := h']> (holds d) ->
  (account_slot_use d' a = account_slot_use d a - Z.b2z ((h_account h =? a)%N && slot_held h)
     + Z.b2z ((h_account h =? a)%N && slot_held h'))%Z /\
  (pool_slot_use d' k = pool_slot_use d k - Z.b2z (bool_decide (h_pool h = k) && slot_held h)
     + Z.b2z (bool_decide (h_pool h = k) && slot_held h'))%Z /\
  (pool_rollout_use d' k = pool_rollout_use d k
     - Z.b2z (bool_decide (h_pool h = k) && headroom_used h)
     + Z.b2z (bool_decide (h_pool h = k) && headroom_used h'))%Z.
Proof.
  intros Er Hl (s & c & r & ->) Eh. rewrite !account_use_Z, !pool_use_Z. unfold pool_rollout_use.
  rewrite Er, Eh, !(count_replace _ _ _ h) by done. simpl. lia.
Qed.

(** A hold that stays in its scope and takes no more than before. *)
Definition hold_shrunk (h h' : Hold) : Prop :=
  hold_moved h h' /\ (slot_held h' = true -> slot_held h = true) /\
  (headroom_used h' = true -> headroom_used h = true).

Lemma b2z_le (b c : bool) : (c = true -> b = true) -> (Z.b2z c <= Z.b2z b)%Z.
Proof. destruct b, c; simpl; naive_solver lia. Qed.

Lemma shrink_ok d d' h h' :
  adm_ok d -> holds d !! h_id h = Some h -> hold_shrunk h h' ->
  core d' = (pools d, entitlements d, <[h_id h := h']> (holds d), reservations d, usage d, slots d) ->
  adm_ok d'.
Proof.
  unfold core. intros Hok Hl (Hm & Hs & Hu) [= Ep Ee Eh Er Eu Es].
  apply (holds_ok d d'); try done.
  - intros id h0 Hl0. rewrite Eh in Hl0. destruct Hm as (s & c & r & ->).
    rewrite lookup_insert in Hl0. case_decide; [|exact (hold_rows d Hok _ _ Hl0)].
    simplify_eq. exact (hold_rows d Hok _ _ Hl).
  - intros a e He. destruct (use_replace d d' h h' a "" Er Hl Hm Eh) as (-> & _).
    destruct (entitlement_rows d Hok _ _ He) as (_ & ?).
    pose proof (b2z_le _ _ Hs). destruct (h_account h =? a)%N; simpl; lia.
  - intros k p Hp. destruct (use_replace d d' h h' 0%N k Er Hl Hm Eh) as (_ & -> & ->).
    destruct (pool_rows d Hok _ _ Hp) as (? & ?).
    pose proof (b2z_le _ _ Hs). pose proof (b2z_le _ _ Hu).
    destruct (bool_decide (h_pool h = k)); simpl; lia.
Qed.

Lemma expire_ok d d' now keep :
  adm_ok d ->
  core d' = (pools d, entitlements d,
    (fun h => if expirable now keep h then with_hold h HExpired (h_consumed h) (Some now) else h)
      <$> holds d, reservations d, usage d, slots d) ->
  adm_ok d'.
Proof.
  unfold core. intros Hok [= Ep Ee Eh Er Eu Es].
  assert (Hle : forall (f : Hold -> bool), (forall h s c r, f (with_hold h s c r) = true ->
      s <> HExpired) -> (count_where f (holds d') <= count_where f (holds d))%nat).
  { intros f Hf. rewrite Eh. apply count_fmap_le. intros k h _. destruct (expirable now keep h); [|done].
    intros Hx. by apply Hf in Hx. }
  apply (holds_ok d d'); try done.
  - intros id h Hl. rewrite Eh, lookup_fmap in Hl. apply fmap_Some in Hl as (h0 & Hl & ->).
    destruct (expirable now keep h0); exact (hold_rows d Hok _ _ Hl).
  - intros a e He. destruct (entitlement_rows d Hok _ _ He) as (_ & Hu).
    rewrite account_use_Z in *. rewrite Er.
    opose proof (Hle (fun h => (h_account h =? a)%N && slot_held h) _); [|lia].
    intros h s c r Hx ->. unfold slot_held in Hx. simpl in Hx. by bool_simpl.
  - intros k p Hp. destruct (pool_rows d Hok _ _ Hp) as (Hu & Hro).
    rewrite pool_use_Z in *. unfold pool_rollout_use in *. rewrite Er.
    opose proof (Hle (fun h => bool_decide (h_pool h = k) && slot_held h) _);
      [intros h s c r Hx ->; unfold slot_held in Hx; simpl in Hx; by bool_simpl|].
    opose proof (Hle (fun h => bool_decide (h_pool h = k) && headroom_used h) _);
      [intros h s c r Hx ->; unfold headroom_used in Hx; simpl in Hx; bool_simpl;
       naive_solver|].
    lia.
Qed.

(** A new hold, within the limits it is counted against. *)
Lemma new_hold_ok d d' h e p :
  adm_ok d -> holds d !! h_id h = None ->
  entitlements d !! h_account h = Some e -> en_id e = h_entitlement h -> en_pool e = h_pool h ->
  pools d !! h_pool h = Some p ->
  (slot_held h = true -> account_slot_use d (h_account h) < en_slots e /\
     pool_slot_use d (h_pool h) < cp_slots p)%Z ->
  (headroom_used h = true -> pool_rollout_use d (h_pool h) < cp_headroom p)%Z ->
  core d' = (pools d, entitlements d, <[h_id h := h]> (holds d), reservations d, usage d, slots d) ->
  adm_ok d'.
Proof.
  unfold core. intros Hok Hn He Hid Hpk Hp Hs Hu [= Ep Ee Eh Er Eu Es].
  apply (holds_ok d d'); try done.
  - intros id h0 Hl0. rewrite Eh, lookup_insert in Hl0. case_decide; simplify_eq.
    + split; [done|]. apply entitlement_fk_spec. eauto.
    + exact (hold_rows d Hok _ _ Hl0).
  - intros a e0 He0. destruct (use_insert d d' h a "" Er Hn Eh) as (-> & _).
    destruct (entitlement_rows d Hok _ _ He0) as (_ & ?).
    destruct (N.eqb_spec (h_account h) a) as [<-|]; simpl; [|lia].
    rewrite He in He0. simplify_eq. destruct (slot_held h); simpl; [|lia].
    destruct (Hs eq_refl). lia.
  - intros k p0 Hp0. destruct (use_insert d d' h 0%N k Er Hn Eh) as (_ & -> & ->).
    destruct (pool_rows d Hok _ _ Hp0) as (? & ?).
    case_bool_decide as Hk; simpl; [subst k|lia].
    rewrite Hp in Hp0. simplify_eq.
    destruct (slot_held h), (headroom_used h); simpl; naive_solver lia.
Qed.

(** Reservations: the uses after one is added or replaced. *)
Lemma slot_rows_insert d d' p0 a0 n :
  adm_ok d -> slots d' = <[p0 := (a0, n)]> (slots d) ->
  (n = 1 \/ n = 0 /\ ~ active_in d' p0)%Z ->
  (forall p, p <> p0 -> active_in d' p <-> active_in d p) ->
  forall p a m, slots d' !! p = Some (a, m) -> (m = 1 \/ m = 0 /\ ~ active_in d' p)%Z.
Proof.
  intros Hok Es Hn Ha p a m Hl. rewrite Es, lookup_insert in Hl. case_decide; simplify_eq; [done|].
  rewrite Ha by done. by eapply (slot_rows d).
Qed.

Lemma active_rows_insert d d' p0 v :
  adm_ok d -> slots d' = <[p0 := v]> (slots d) ->
  (forall p, p <> p0 -> active_in d' p <-> active_in d p) ->
  forall p, active_in d' p -> is_Some (slots d' !! p).
Proof.
  intros Hok Es Ha p. rewrite Es, lookup_insert. case_decide; [done|].
  rewrite Ha by done. by apply active_rows.
Qed.

Lemma admit_initial_ok d d' h h' r n :
  adm_ok d -> holds d !! h_id h = Some h -> h_kind h = Initial -> h_state h = HActive ->
  hold_moved h h' -> h_state h' = HConsumed ->
  reservations d !! rv_id r = None -> not_released r = true -> rv_account r = h_account h ->
  rv_pool r = h_pool h -> rv_entitlement r = h_entitlement h ->
  ~ active_in d (rv_project r) -> slots d !! rv_project r = Some (rv_account r, n) ->
  core d' = (pools d, entitlements d, <[h_id h := h']> (holds d),
             <[rv_id r := r]> (reservations d), usage d,
             <[rv_project r := (rv_account r, 1%Z)]> (slots d)) ->
  adm_ok d'.
Proof.
  unfold core. intros Hok Hl Hk Hst (s & c & t & ->) Hst' Hn Hnr Hra Hrp Hre Hnone Hslot
    [= Ep Ee Eh Er Eu Es]. simpl in Hst'. subst s.
  assert (Hheld : slot_held h = true) by (unfold slot_held; by rewrite Hk, Hst).
  assert (Hused : headroom_used h = false) by (unfold headroom_used; by rewrite Hk).
  assert (Hother : forall p, p <> rv_project r -> active_in d' p <-> active_in d p).
  { intros p Hp. unfold active_in. rewrite Er. split; intros (id & r0 & Hl0 & Hp0 & Hr0).
    * rewrite lookup_insert in Hl0. case_decide; simplify_eq. by exists id, r0.
    * exists id, r0. rewrite lookup_insert_ne; [done|]. intros <-. congruence. }
  apply (capacity_ok d d'); try done.
  - intros id h0 Hl0. rewrite Eh, lookup_insert in Hl0.
    case_decide; [|exact (hold_rows d Hok _ _ Hl0)]. simplify_eq. exact (hold_rows d Hok _ _ Hl).
  - intros id r0 Hl0. rewrite Er, lookup_insert in Hl0.
    case_decide; [|exact (reservation_rows d Hok _ _ Hl0)]. simplify_eq. split; [done|].
    rewrite Hra, Hrp, Hre. exact (proj2 (hold_rows d Hok _ _ Hl)).
  - intros i1 r1 i2 r2 H1 H2 Hpe Hn1 Hn2. rewrite Er in H1, H2.
    rewrite lookup_insert in H1, H2. repeat case_decide; simplify_eq; [done|..].
    + destruct Hnone. by eexists _, _.
    + destruct Hnone. by eexists _, _.
    + by eapply (one_active d).
  - intros a e He. destruct (entitlement_rows d Hok _ _ He) as (_ & Hu).
    rewrite account_use_Z in *. rewrite Er, Eh, count_insert_new by done.
    rewrite (count_replace _ _ _ h) by done. unfold slot_used in *. rewrite Hra, Hnr, Hheld. simpl.
    unfold slot_held at 2. simpl. rewrite Hk, ?andb_false_r, ?andb_true_r. simpl. lia.
  - intros k p Hp. destruct (pool_rows d Hok _ _ Hp) as (Hu & Hro).
    unfold pool_rollout_use in *. rewrite pool_use_Z in *. rewrite Er, Eh, count_insert_new by done.
    rewrite !(count_replace _ _ _ h) by done. unfold slot_used in *. rewrite Hrp, Hnr, Hheld, Hused.
    unfold slot_held at 2, headroom_used at 2. simpl.
    rewrite Hk, ?andb_false_r, ?andb_true_r. simpl. lia.
  - eapply slot_rows_insert; [exact Hok|exact Es| |exact Hother].
    by left.
  - by eapply active_rows_insert.
Qed.

(** A reservation that is not released moves; [S] is what becomes of the slots. *)
Lemma reservation_moved_ok d d' r r' S :
  adm_ok d -> reservations d !! rv_id r = Some r -> not_released r = true -> reservation_moved r r' ->
  S = slots d /\ not_released r' = true \/
    S = <[rv_project r := (rv_account r, Z.b2z (not_released r'))]> (slots d) ->
  core d' = (pools d, entitlements d, holds d, <[rv_id r := r']> (reservations d), usage d, S) ->
  adm_ok d'.
Proof.
  unfold core. intros Hok Hl Hnr (s & o & b & t & ->) HS [= Ep Ee Eh Er Eu Es].
  set (r' := with_reservation r s o b t) in *.
  assert (Hle : (Z.b2z (not_released r') <= Z.b2z (not_released r))%Z).
  { rewrite Hnr. destruct (not_released r'); simpl; lia. }
  assert (Hother : forall id r0, reservations d !! id = Some r0 -> not_released r0 = true ->
    rv_project r0 = rv_project r -> id = rv_id r).
  { intros id r0 H0 Hn0 Hp0. by eapply (one_active d Hok _ _ _ _ H0 Hl). }
  assert (Hact : forall p, p <> rv_project r -> active_in d' p <-> active_in d p).
  { intros p Hp. unfold active_in. rewrite Er.
    split; intros (id & r0 & Hl0 & Hp0 & Hr0); rewrite ?lookup_insert in *.
    * case_decide; simplify_eq. by exists id, r0.
    * exists id, r0. rewrite lookup_insert_ne; [done|]. intros <-.
      rewrite Hl in Hl0. simplify_eq. }
  apply (capacity_ok d d'); try done.
  - rewrite Eh. by apply hold_rows.
  - intros id r0 Hl0. rewrite Er, lookup_insert in Hl0.
    case_decide; [|exact (reservation_rows d Hok _ _ Hl0)].
    simplify_eq. exact (reservation_rows d Hok _ _ Hl).
  - intros i1 r1 i2 r2 H1 H2 Hpe Hn1 Hn2. rewrite Er in H1, H2.
    rewrite lookup_insert in H1, H2. repeat case_decide; simplify_eq; [done|..].
    + by eapply Hother.
    + symmetry. by eapply Hother.
    + by eapply (one_active d).
  - intros a e He. destruct (entitlement_rows d Hok _ _ He) as (_ & Hu).
    rewrite account_use_Z in *. rewrite Er, Eh, (count_replace _ _ _ r) by done.
    unfold slot_used in *. change (rv_account r') with (rv_account r).
    destruct (rv_account r =? a)%N; simpl; lia.
  - intros k p Hp. destruct (pool_rows d Hok _ _ Hp) as (Hu & Hro).
    unfold pool_rollout_use in *. rewrite pool_use_Z in *. rewrite Er, Eh.
    rewrite (count_replace _ _ _ r) by done. unfold slot_used in *.
    change (rv_pool r') with (rv_pool r). destruct (bool_decide (rv_pool r = k)); simpl; lia.
  - destruct HS as [[-> Hn]| ->].
    + rewrite Es. intros p a n [->|[-> Hna]]%(slot_rows d Hok); [by left|]. right. split; [done|].
      destruct (decide (p = rv_project r)) as [->|Hp]; [|by rewrite Hact].
      by destruct Hna; exists (rv_id r), r.
    + eapply slot_rows_insert; [exact Hok|exact Es| |exact Hact].
      destruct (not_released r') eqn:E; simpl; [by left|right]; (split; [done|]).
      intros (id & r0 & Hl0 & Hp0 & Hr0). rewrite Er, lookup_insert in Hl0.
      case_decide as Hd; [congruence|]. by apply Hd, eq_sym, (Hother id r0).
  - destruct HS as [[-> _]| ->]; [|by eapply active_rows_insert].
    intros p Hp. rewrite Es. apply (active_rows d Hok).
    destruct (decide (p = rv_project r)) as [->|Hne]; [by exists (rv_id r), r|by rewrite <- Hact].
Qed.

(** Limits: new rows of pools and entitlements leave use alone. *)
Lemma uses_ext d d' :
  holds d' = holds d -> reservations d' = reservations d ->
  (forall a, account_slot_use d' a = account_slot_use d a) /\
  (forall k, pool_slot_use d' k = pool_slot_use d k) /\
  (forall k, pool_rollout_use d' k = pool_rollout_use d k).
Proof.
  intros Eh Er. unfold account_slot_use, pool_slot_use, pool_rollout_use. by rewrite Eh, Er.
Qed.

Lemma pool_ok d d' k p :
  adm_ok d -> (pool_slot_use d k <= cp_slots p)%Z -> (pool_rollout_use d k <= cp_headroom p)%Z ->
  core d' = (<[k := p]> (pools d), entitlements d, holds d, reservations d, usage d, slots d) ->
  adm_ok d'.
Proof.
  unfold core. intros Hok Hs Hr [= Ep Ee Eh Er Eu Es].
  destruct (uses_ext d d' Eh Er) as (Ha & Hps & Hpr). constructor.
  - intros id h Hl. rewrite Eh in Hl. rewrite (entitlement_fk_ext _ _ _ _ _ Ee).
    exact (hold_rows d Hok _ _ Hl).
  - intros id r Hl. rewrite Er in Hl. rewrite (entitlement_fk_ext _ _ _ _ _ Ee).
    exact (reservation_rows d Hok _ _ Hl).
  - rewrite Er. apply (one_active d Hok).
  - intros a e Hl. rewrite Ee in Hl. destruct (entitlement_rows d Hok _ _ Hl) as (? & ?).
    rewrite Ep, Ha. split; [|done]. rewrite lookup_insert. by case_decide.
  - intros k0 p0 Hl. rewrite Hps, Hpr. rewrite Ep, lookup_insert in Hl.
    case_decide; simplify_eq; [done|]. exact (pool_rows d Hok _ _ Hl).
  - rewrite Eu. apply (usage_rows d Hok).
  - rewrite Eu. apply (credit_rows d Hok).
  - rewrite Eu. apply (one_credit d Hok).
  - intros a. rewrite Eu, (build_net_ext _ _ _ Eu). apply (net_is_uncredited d Hok).
  - intros q a n Hl. rewrite Es in Hl. rewrite (active_in_ext _ _ _ Er).
    exact (slot_rows d Hok _ _ _ Hl).
  - intros q. rewrite Es, (active_in_ext _ _ _ Er). apply (active_rows d Hok).
Qed.

Lemma entitlement_ok d d' a e :
  adm_ok d ->
  (forall old, entitlements d !! a = Some old -> en_id e = en_id old /\ en_pool e = en_pool old) ->
  is_Some (pools d !! en_pool e) -> (account_slot_use d a <= en_slots e)%Z ->
  core d' = (pools d, <[a := e]> (entitlements d), holds d, reservations d, usage d, slots d) ->
  adm_ok d'.
Proof.
  unfold core. intros Hok Hold Hp Hs [= Ep Ee Eh Er Eu Es].
  destruct (uses_ext d d' Eh Er) as (Ha & Hps & Hpr).
  assert (Hfk : forall i b k, entitlement_fk d i b k = true -> entitlement_fk d' i b k = true).
  { intros i b k (e0 & Hl & <- & <-)%entitlement_fk_spec. apply entitlement_fk_spec.
    rewrite Ee, lookup_insert. case_decide; subst; [|by eauto].
    exists e. by destruct (Hold _ Hl) as (-> & ->). }
  constructor.
  - intros id h Hl. rewrite Eh in Hl. destruct (hold_rows d Hok _ _ Hl) as (? & ?). auto.
  - intros id r Hl. rewrite Er in Hl. destruct (reservation_rows d Hok _ _ Hl) as (? & ?). auto.
  - rewrite Er. apply (one_active d Hok).
  - intros b e0 Hl. rewrite Ep, Ha. rewrite Ee, lookup_insert in Hl.
    case_decide; simplify_eq; [done|]. exact (entitlement_rows d Hok _ _ Hl).
  - intros k p0 Hl. rewrite Hps, Hpr. rewrite Ep in Hl. exact (pool_rows d Hok _ _ Hl).
  - rewrite Eu. apply (usage_rows d Hok).
  - rewrite Eu. apply (credit_rows d Hok).
  - rewrite Eu. apply (one_credit d Hok).
  - intros b. rewrite Eu, (build_net_ext _ _ _ Eu). apply (net_is_uncredited d Hok).
  - intros q b n Hl. rewrite Es in Hl. rewrite (active_in_ext _ _ _ Er).
    exact (slot_rows d Hok _ _ _ Hl).
  - intros q. rewrite Es, (active_in_ext _ _ _ Er). apply (active_rows d Hok).
Qed.

(** Build usage: the ledger after one event. *)
Definition account_credit (account : Uuid) (u : Usage) : Z :=
  if (u_account u =? account)%N && bool_decide (u_kind u = PlatformFaultCredit)
  then u_seconds u else 0%Z.

Lemma build_net_insert d d' id u a :
  usage d !! id = None -> usage d' = <[id := u]> (usage d) ->
  build_net d' a = (build_net d a + account_debit a u - account_credit a u)%Z.
Proof.
  intros Hn Eu. unfold build_net, usage_totals, usage_sum. rewrite Eu, !table_sum_insert by done.
  unfold account_debit, account_credit. lia.
Qed.

Lemma build_net_debit d d' id u a :
  usage d !! id = None -> usage d' = <[id := u]> (usage d) -> u_kind u = Debit ->
  build_net d' a = (build_net d a + if (u_account u =? a)%N then u_seconds u else 0)%Z.
Proof.
  intros Hn Eu Hk. rewrite (build_net_insert d d' id u a Hn Eu).
  unfold account_debit, account_credit. rewrite Hk. cbn. rewrite andb_false_r, andb_true_r. lia.
Qed.

Lemma build_net_credit d d' id u a :
  usage d !! id = None -> usage d' = <[id := u]> (usage d) -> u_kind u = PlatformFaultCredit ->
  build_net d' a = (build_net d a - if (u_account u =? a)%N then u_seconds u else 0)%Z.
Proof.
  intros Hn Eu Hk. rewrite (build_net_insert d d' id u a Hn Eu).
  unfold account_debit, account_credit. rewrite Hk. cbn. rewrite andb_false_r, andb_true_r. lia.
Qed.

Lemma credited_insert t id u x :
  t !! id = None ->
  credited (<[id := u]> t) x = bool_decide (u_debit u = Some x) || credited t x.
Proof.
  intros Hn. apply eq_true_iff_eq. unfold credited.
  rewrite orb_true_iff, !exists_row_spec, bool_decide_eq_true. split.
  - intros (k & r & Hl & Hd). rewrite lookup_insert in Hl. case_decide; simplify_eq.
    + left. by apply bool_decide_eq_true in Hd.
    + right. eauto.
  - intros [Hd|(k & r & Hl & Hd)].
    + exists id, u. rewrite lookup_insert_eq. split; [done|]. by apply bool_decide_eq_true.
    + exists k, r. rewrite lookup_insert_ne; [done|]. intros <-. congruence.
Qed.

(** Nothing refers to a debit that does not exist. *)
Lemma credited_missing d id : adm_ok d -> usage d !! id = None -> credited (usage d) id = false.
Proof.
  intros Hok Hn. apply not_true_iff_false. unfold credited.
  rewrite exists_row_spec. intros (k & r & Hl & Hd%bool_decide_eq_true).
  destruct (credit_rows d Hok _ _ _ Hl Hd) as (_ & v & Hv & _). congruence.
Qed.

Lemma usage_check_debit u : usage_check u = true -> u_kind u = Debit -> u_debit u = None.
Proof.
  unfold usage_check. intros Hc Hk. rewrite Hk in Hc. by bool_simpl.
Qed.

Lemma usage_check_pos u : usage_check u = true -> (0 < u_seconds u)%Z.
Proof. unfold usage_check. intros Hc. bool_simpl. lia. Qed.

Lemma uncredited_debit d id u a :
  adm_ok d -> usage d !! id = None -> u_debit u = None ->
  uncredited (<[id := u]> (usage d)) a = (account_debit a u + uncredited (usage d) a)%Z.
Proof.
  intros Hok Hn Hd. unfold uncredited. rewrite table_sum_insert by done.
  rewrite credited_insert, Hd, credited_missing by done. simpl. f_equal.
  apply table_sum_ext. intros k r Hl. by rewrite credited_insert, Hd.
Qed.

Lemma uncredited_credit d id u x v a :
  usage d !! id = None -> u_kind u = PlatformFaultCredit -> u_debit u = Some x ->
  usage d !! x = Some v -> credited (usage d) x = false ->
  uncredited (<[id := u]> (usage d)) a = (uncredited (usage d) a - account_debit a v)%Z.
Proof.
  intros Hn Hk Hd Hv Hc. assert (id <> x) by congruence. unfold uncredited.
  rewrite table_sum_insert, !(table_sum_delete _ (usage d) x v Hv) by done.
  rewrite !credited_insert, Hc, Hd by done. rewrite (bool_decide_eq_true_2 (Some x = Some x)) by done.
  replace (account_debit a u) with 0%Z
    by (unfold account_debit; rewrite Hk; simpl; by rewrite andb_false_r).
  rewrite (table_sum_ext (fun id0 u0 => if credited (<[id:=u]> (usage d)) id0 then 0 else account_debit a u0)%Z
             (fun id0 u0 => if credited (usage d) id0 then 0 else account_debit a u0)%Z).
  - simpl. destruct (bool_decide _ || _); lia.
  - intros k r Hl. rewrite credited_insert, Hd by done. rewrite bool_decide_eq_false_2; [done|].
    intros [= ->]. by rewrite lookup_delete_eq in Hl.
Qed.

(** One more usage event, whose effect on the ledger is given. *)
Lemma usage_ok d d' id u :
  adm_ok d -> usage d !! id = None -> usage_check u = true ->
  (forall x, u_debit u = Some x ->
    u_kind u = PlatformFaultCredit /\ credited (usage d) x = false /\
    exists v, usage d !! x = Some v /\ u_kind v = Debit /\ u_account v = u_account u /\
      u_seconds v = u_seconds u) ->
  (forall a, build_net d' a = uncredited (<[id := u]> (usage d)) a) ->
  core d' = (pools d, entitlements d, holds d, reservations d, <[id := u]> (usage d), slots d) ->
  adm_ok d'.
Proof.
  unfold core. intros Hok Hn Hc Hd Hnet [= Ep Ee Eh Er Eu Es].
  destruct (uses_ext d d' Eh Er) as (Ha & Hps & Hpr).
  assert (Hnew : forall i w x, usage d !! i = Some w -> u_debit w = Some x -> u_debit u <> Some x).
  { intros i w x Hi Hw Hx. destruct (Hd _ Hx) as (_ & Hcr & _).
    pose proof (exists_row_false _ _ Hcr _ _ Hi) as Hf. by apply bool_decide_eq_false in Hf. }
  constructor.
  - intros i h Hl. rewrite Eh in Hl. rewrite (entitlement_fk_ext _ _ _ _ _ Ee).
    exact (hold_rows d Hok _ _ Hl).
  - intros i r Hl. rewrite Er in Hl. rewrite (entitlement_fk_ext _ _ _ _ _ Ee).
    exact (reservation_rows d Hok _ _ Hl).
  - rewrite Er. apply (one_active d Hok).
  - intros a e Hl. rewrite Ee in Hl. destruct (entitlement_rows d Hok _ _ Hl) as (? & ?).
    rewrite Ep, Ha. eauto.
  - intros k p0 Hl. rewrite Hps, Hpr. rewrite Ep in Hl. exact (pool_rows d Hok _ _ Hl).
  - intros i w Hl. rewrite Eu, lookup_insert in Hl. case_decide; simplify_eq; [done|].
    exact (usage_rows d Hok _ _ Hl).
  - intros i w x Hl Hx. rewrite Eu, lookup_insert in Hl. case_decide; simplify_eq.
    + destruct (Hd _ Hx) as (? & _ & v & Hv & ?). split; [done|]. exists v.
      rewrite Eu, lookup_insert_ne; [done|]. intros <-. congruence.
    + destruct (credit_rows d Hok _ _ _ Hl Hx) as (? & v & Hv & ?). split; [done|]. exists v.
      rewrite Eu, lookup_insert_ne; [done|]. intros <-. congruence.
  - intros i1 u1 i2 u2 x H1 H2 Hx1 Hx2. rewrite Eu in H1, H2. rewrite lookup_insert in H1, H2.
    repeat case_decide; simplify_eq; [done|..].
    + by destruct (Hnew i1 u1 x).
    + by destruct (Hnew i2 u2 x).
    + by eapply (one_credit d).
  - intros a. by rewrite Eu.
  - intros q b n Hl. rewrite Es in Hl. rewrite (active_in_ext _ _ _ Er).
    exact (slot_rows d Hok _ _ _ Hl).
  - intros q. rewrite Es, (active_in_ext _ _ _ Er). apply (active_rows d Hok).
Qed.

Lemma debit_ok d d' id u :
  adm_ok d -> usage d !! id = None -> usage_check u = true -> u_kind u = Debit ->
  core d' = (pools d, entitlements d, holds d, reservations d, <[id := u]> (usage d), slots d) ->
  adm_ok d'.
Proof.
  intros Hok Hn Hc Hk Ec. pose proof (usage_check_debit _ Hc Hk) as Hd.
  assert (Eu : usage d' = <[id := u]> (usage d)) by (unfold core in Ec; congruence).
  assert (Hnet : forall a, build_net d' a = (build_net d a + account_debit a u)%Z).
  { intros a. rewrite (build_net_debit d d' id u a Hn Eu Hk). unfold account_debit.
    by rewrite Hk, andb_true_r. }
  apply (usage_ok d d' id u); try done.
  - by rewrite Hd.
  - intros a. rewrite Hnet, uncredited_debit by done. rewrite (net_is_uncredited d Hok). lia.
Qed.

Lemma credit_ok d d' id u x v :
  adm_ok d -> usage d !! id = None -> usage_check u = true -> u_kind u = PlatformFaultCredit ->
  u_debit u = Some x -> usage d !! x = Some v -> u_kind v = Debit ->
  u_account v = u_account u -> u_seconds v = u_seconds u -> credited (usage d) x = false ->
  core d' = (pools d, entitlements d, holds d, reservations d, <[id := u]> (usage d), slots d) ->
  adm_ok d'.
Proof.
  intros Hok Hn Hc Hk Hd Hv Hvk Hva Hvs Hcr Ec.
  assert (Eu : usage d' = <[id := u]> (usage d)) by (unfold core in Ec; congruence).
  assert (Hnet : forall a, build_net d' a = (build_net d a - account_debit a v)%Z).
  { intros a. rewrite (build_net_credit d d' id u a Hn Eu Hk). unfold account_debit.
    by rewrite Hvk, Hva, Hvs, andb_true_r. }
  apply (usage_ok d d' id u); try done.
  - intros y Hy. rewrite Hd in Hy. simplify_eq. eauto 10.
  - intros a. rewrite Hnet, (uncredited_credit _ _ _ x v), (net_is_uncredited d Hok) by done. done.
Qed.

Lemma same_adm_ok d d' : core d' = core d -> adm_ok d -> adm_ok d'.
Proof.
  intros (Ep & Ee & Eh & Er & Eu & Es)%core_eq Hok. destruct (uses_ext d d' Eh Er) as (Ha & Hk & Hr).
  apply (capacity_ok d d'); try done; rewrite ?Eh, ?Er, ?Es.
  - apply (hold_rows d Hok).
  - apply (reservation_rows d Hok).
  - apply (one_active d Hok).
  - intros a e He. rewrite Ha. by destruct (entitlement_rows d Hok _ _ He) as (_ & ?).
  - intros k p Hp. rewrite Hk, Hr. exact (pool_rows d Hok _ _ Hp).
  - intros p a n Hl. rewrite (active_in_ext _ _ _ Er). exact (slot_rows d Hok _ _ _ Hl).
  - intros p. rewrite (active_in_ext _ _ _ Er). apply (active_rows d Hok).
Qed.

(** A project's slot is taken. *)
Lemma take_ok d d' p a n :
  adm_ok d -> slots d !! p = Some (a, n) ->
  core d' = (pools d, entitlements d, holds d, reservations d, usage d, <[p := (a, 1%Z)]> (slots d)) ->
  adm_ok d'.
Proof.
  unfold core. intros Hok Hn [= Ep Ee Eh Er Eu Es]. destruct (uses_ext d d' Eh Er) as (Ha & Hk & Hr).
  pose proof (fun q (_ : q <> p) => active_in_ext d d' q Er) as Hact.
  apply (capacity_ok d d'); try done; rewrite ?Eh, ?Er.
  - apply (hold_rows d Hok).
  - apply (reservation_rows d Hok).
  - apply (one_active d Hok).
  - intros b e He. rewrite Ha. by destruct (entitlement_rows d Hok _ _ He) as (_ & ?).
  - intros k x Hx. rewrite Hk, Hr. exact (pool_rows d Hok _ _ Hx).
  - eapply slot_rows_insert; [exact Hok|exact Es|by left|exact Hact].
  - by eapply active_rows_insert.
Qed.

(** A new project has no slot. *)
Lemma project_ok d d' p a :
  adm_ok d -> slots d !! p = None ->
  core d' = (pools d, entitlements d, holds d, reservations d, usage d, <[p := (a, 0%Z)]> (slots d)) ->
  adm_ok d'.
Proof.
  unfold core. intros Hok Hn [= Ep Ee Eh Er Eu Es]. destruct (uses_ext d d' Eh Er) as (Ha & Hk & Hr).
  pose proof (fun q (_ : q <> p) => active_in_ext d d' q Er) as Hact.
  apply (capacity_ok d d'); try done; rewrite ?Eh, ?Er.
  - apply (hold_rows d Hok).
  - apply (reservation_rows d Hok).
  - apply (one_active d Hok).
  - intros b e He. rewrite Ha. by destruct (entitlement_rows d Hok _ _ He) as (_ & ?).
  - intros k x Hx. rewrite Hk, Hr. exact (pool_rows d Hok _ _ Hx).
  - eapply slot_rows_insert; [exact Hok|exact Es| |exact Hact]. right. split; [done|].
    rewrite (active_in_ext _ _ _ Er). intros Hx%(active_rows d Hok). destruct Hx as [? Hx]. congruence.
  - by eapply active_rows_insert.
Qed.

Lemma adm_step_ok may_release d d' : adm_step may_release d d' -> adm_ok d -> adm_ok d'.
Proof.
  intros Hs Hok. destruct Hs as [|now keep|h e p Hn Hk Hst|h e p Hn Hk Hst|h h' r n|
    h h' Hl Hk Hst Hm Hst'|h h' Hl Hk Hst Hm Hst'|r r' n Hl Hnr Hm Hnr'|r r' n Hl Hnr _ Hm Hnr'|k p|a e|id u e|id u x v].
  - by eapply same_adm_ok.
  - by eapply expire_ok.
  - eapply new_hold_ok; eauto. unfold headroom_used. by rewrite Hk.
  - eapply new_hold_ok; eauto. unfold slot_held. by rewrite Hk.
  - by eapply admit_initial_ok.
  - eapply (shrink_ok d d' h h'); eauto. split_and!; [done| |].
    + unfold slot_held. rewrite Hst'. by rewrite andb_false_r.
    + intros _. unfold headroom_used. by rewrite Hk, Hst.
  - eapply (shrink_ok d d' h h'); eauto. split_and!; [done| |].
    + unfold slot_held. rewrite Hst'. by rewrite andb_false_r.
    + unfold headroom_used. rewrite Hst'. by rewrite andb_false_r.
  - eapply (reservation_moved_ok d d' r r'); last done; try done. right. by rewrite Hnr'.
  - eapply (reservation_moved_ok d d' r r'); last done; try done. right. by rewrite Hnr'.
  - by eapply pool_ok.
  - by eapply entitlement_ok.
  - by eapply debit_ok.
  - by eapply credit_ok.
Qed.

Lemma outside_step_ok d d' : outside_step d d' -> adm_ok d -> adm_ok d'.
Proof.
  intros [|p a|id u|id r r' Hl Hnr Hm Hnr'|p a n] Hok.
  - by eapply same_adm_ok.
  - by eapply project_ok.
  - by eapply debit_ok.
  - destruct (reservation_rows d Hok _ _ Hl) as [<- _].
    eapply (reservation_moved_ok d d' r r'); last done; try done. by left.
  - by eapply take_ok.
Qed.

#[export] Hint Resolve adm_step_ok outside_step_ok : hostlet.

Lemma adm_steps_ok may_release d d' : rtc (adm_step may_release) d d' -> adm_ok d -> adm_ok d'.
Proof. induction 1; eauto with hostlet. Qed.

#[export] Hint Resolve adm_steps_ok : hostlet.

(** Steps that release nothing, and what they may be seen as. *)
Definition no_release (r : Reservation) : Prop := False.
Definition any_release (r : Reservation) : Prop := True.

Lemma adm_step_mono (P Q : Reservation -> Prop) d d' :
  (forall r, P r -> Q r) -> adm_step P d d' -> adm_step Q d d'.
Proof.
  intros HPQ []; [eapply as_same|eapply as_expire|eapply as_hold_initial
    |eapply as_hold_rollout|eapply as_admit_initial|eapply as_admit_rollout|eapply as_release_rollout
    |eapply as_retain|eapply as_release|eapply as_pool|eapply as_entitlement|eapply as_debit
    |eapply as_credit]; eauto.
Qed.

Lemma adm_steps_mono (P Q : Reservation -> Prop) d d' :
  (forall r, P r -> Q r) -> rtc (adm_step P) d d' -> rtc (adm_step Q) d d'.
Proof. intros HPQ. induction 1; [done|]. eapply rtc_l; eauto using adm_step_mono. Qed.

Lemma outside_steps_ok d d' : rtc outside_step d d' -> adm_ok d -> adm_ok d'.
Proof. induction 1; eauto with hostlet. Qed.

#[export] Hint Resolve outside_steps_ok : hostlet.

(** ** Build seconds *)

(** The account's build time is within what its entitlement allows. *)
Definition builds_within (d : AdmDb) (a : Uuid) : Prop :=
  forall e, entitlements d !! a = Some e -> (build_net d a <= en_build_seconds e)%Z.

Lemma adm_step_builds may_release d d' a : adm_step may_release d d' -> builds_within d a -> builds_within d' a.
Proof.
  intros Hs Hb.
  assert (Hsame : usage d' = usage d -> entitlements d' = entitlements d -> builds_within d' a).
  { intros Eu Ee e. rewrite Ee, (build_net_ext d d' a Eu). apply Hb. }
  destruct Hs; match goal with H : core d' = _ |- _ => unfold core in H; injection H as ? ? ? ? Eu ? end;
    try (by apply Hsame).
  - intros e'. rewrite (build_net_ext d d' a Eu). match goal with E : entitlements d' = _ |- _ => rewrite E end.
    rewrite lookup_insert. case_decide; [|apply Hb]. intros [= <-]. by subst.
  - intros e'. match goal with E : entitlements d' = _ |- _ => rewrite E end. intros He'.
    rewrite (build_net_debit d d' id u a) by done. specialize (Hb _ He').
    destruct (N.eqb_spec (u_account u) a) as [<-|]; [|lia]. simplify_eq. lia.
  - intros e'. match goal with E : entitlements d' = _ |- _ => rewrite E end. intros He'.
    rewrite (build_net_credit d d' id u a) by done. specialize (Hb _ He').
    pose proof (usage_check_pos u ltac:(done)). case_match; lia.
Qed.

Lemma adm_steps_builds may_release d d' a :
  rtc (adm_step may_release) d d' -> builds_within d a -> builds_within d' a.
Proof. induction 1; eauto using adm_step_builds. Qed.
