(* ===== verification/AdmissionSteps.v ===== *)
(** * The admission handlers take only the steps of the ledger

    What each statement and guard of [Admission] guarantees, and for every
    handler the proof that a request, whatever its result, is a sequence of
    the steps [adm_step] of [AdmissionSpec]. *)

From stdpp Require Import base list option gmap strings pretty relations.
From Stdlib Require Import ZArith Lia.
From S2P Require Import Prelude RustText Bytes PgTx Intent Admission AdmissionSpec.

Local Open Scope string_scope.
Local Open Scope list_scope.

(** ** Guards and reads *)

Lemma ro_load_hold account project id : read_only (load_hold account project id).
Proof. unfold load_hold. read_only. Qed.
Lemma ro_load_reservation account project id : read_only (load_reservation account project id).
Proof. unfold load_reservation. read_only. Qed.
#[export] Hint Resolve ro_load_hold ro_load_reservation : read_only.

Lemma ro_load_active account project : read_only (load_active_reservation account project).
Proof. unfold load_active_reservation. read_only. Qed.
Lemma ro_refresh account response : read_only (refresh_admission_response account response).
Proof. unfold refresh_admission_response. read_only. Qed.
Lemma ro_lock_entitlement account : read_only (lock_entitlement_and_pool account).
Proof. unfold lock_entitlement_and_pool. read_only. Qed.
Lemma ro_entitlement_active e : read_only (ensure_entitlement_active e).
Proof. unfold ensure_entitlement_active. read_only. Qed.
Lemma ro_build_allowance account e : read_only (ensure_build_allowance account e).
Proof. unfold ensure_build_allowance. read_only. Qed.
Lemma ro_lock_project account project revision :
  read_only (lock_project_revision account project revision).
Proof. unfold lock_project_revision. read_only. Qed.
Lemma ro_github account project config commit :
  read_only (ensure_github_authority account project config commit).
Proof. unfold ensure_github_authority. read_only. Qed.
#[export] Hint Resolve ro_load_active ro_refresh ro_lock_entitlement ro_entitlement_active
  ro_build_allowance ro_lock_project ro_github : read_only.

Lemma ro_source_context account project deployment config commit :
  read_only (ensure_source_context account project deployment config commit).
Proof. unfold ensure_source_context. read_only. Qed.
#[export] Hint Resolve ro_source_context : read_only.

Lemma ro_source_proof account project deployment proof :
  read_only (validate_source_proof account project deployment proof).
Proof. unfold validate_source_proof. read_only. Qed.
Lemma ro_lifecycle account project deployment :
  read_only (ensure_lifecycle_allows_hold account project deployment).
Proof. unfold ensure_lifecycle_allows_hold. read_only. Qed.
Lemma ro_capacity account e kind : read_only (ensure_capacity_available account e kind).
Proof. unfold ensure_capacity_available. read_only. Qed.
Lemma ro_fixture_replay {T} hash (from_value : FixtureBody -> option T) event kind request :
  read_only (fixture_replay hash from_value event kind request).
Proof. unfold fixture_replay. read_only. Qed.
#[export] Hint Resolve ro_source_proof ro_lifecycle ro_capacity ro_fixture_replay : read_only.

(** What a passed guard says. *)
Lemma lock_entitlement_Ok account env w e w' :
  lock_entitlement_and_pool account env w = (Ok e, w') ->
  entitlements (db w) !! account = Some e /\ exists p, pools (db w) !! en_pool e = Some p.
Proof.
  unfold lock_entitlement_and_pool. intros H. tx_inv H.
  case_hyp H; [|by apply raise_Ok in H]. case_hyp H; [|by apply raise_Ok in H].
  tx_inv H. eauto.
Qed.

Lemma lock_project_Ok account project revision env w u w' :
  lock_project_revision account project revision env w = (Ok u, w') ->
  exists p, projects (db w) !! project = Some p /\ pj_account p = account /\
    pj_revision p = revision.
Proof.
  unfold lock_project_revision. intros H. tx_inv H.
  case_hyp H; [|by apply raise_Ok in H]. case_hyp H; [by apply raise_Ok in H|].
  tx_inv H. bool_simpl. eauto.
Qed.

Lemma capacity_Ok account e kind env w u w' :
  ensure_capacity_available account e kind env w = (Ok u, w') ->
  exists p, pools (db w) !! en_pool e = Some p /\
  match kind with
  | Initial => (account_slot_use (db w) account < en_slots e)%Z /\
               (pool_slot_use (db w) (en_pool e) < cp_slots p)%Z
  | Rollout => (pool_rollout_use (db w) (en_pool e) < cp_headroom p)%Z
  end.
Proof.
  unfold ensure_capacity_available. intros H. destruct kind; tx_inv H; bool_simpl; eauto.
Qed.

Lemma load_hold_Ok account project id env w r w' :
  load_hold account project id env w = (Ok r, w') <->
  w' = w /\ exists h, holds (db w) !! id = Some h /\ h_account h = account /\
    h_project h = project /\ r = hold_record h.
Proof.
  unfold load_hold, tbind, get_db. cbn. split.
  - intros H. case_hyp H; [|done]. case_hyp H; [|done]. unfold tret in H. bool_simpl. eauto 10.
  - intros (-> & h & -> & <- & <- & ->). by rewrite !N.eqb_refl.
Qed.

Lemma load_reservation_Ok account project id env w rec w' :
  load_reservation account project id env w = (Ok rec, w') <->
  w' = w /\ exists r, reservations (db w) !! id = Some r /\ rv_account r = account /\
    rv_project r = project /\ rec = reservation_record r.
Proof.
  unfold load_reservation, tbind, get_db. cbn. split.
  - intros H. case_hyp H; [|done]. case_hyp H; [|done]. unfold tret in H. bool_simpl. eauto 10.
  - intros (-> & r & -> & <- & <- & ->). by rewrite !N.eqb_refl.
Qed.

Lemma load_active_Ok account project env w o w' :
  adm_ok (db w) -> load_active_reservation account project env w = (Ok o, w') ->
  w' = w /\ match o with
  | None => True
  | Some rec => load_reservation account (rr_project rec) (rr_id rec) env w = (Ok rec, w)
  end.
Proof.
  unfold load_active_reservation. intros Hok H. tx_inv H.
  case_hyp H; [|by tx_inv H]. tx_inv H.
  apply load_reservation_Ok in E as (-> & r1 & Hl & Ha & Hp & ->). split; [done|].
  apply load_reservation_Ok. split; [done|].
  exists r1. simpl. rewrite (proj1 (reservation_rows _ Hok _ _ Hl)). done.
Qed.

Lemma refresh_Ok account response env w r w' :
  refresh_admission_response account response env w = (Ok r, w') <->
  w' = w /\
  load_hold account (hr_project (ar_hold response)) (hr_id (ar_hold response)) env w
    = (Ok (ar_hold r), w) /\
  match ar_reservation response with
  | Some rv => exists rv', load_reservation account (rr_project rv) (rr_id rv) env w = (Ok rv', w) /\
                 ar_reservation r = Some rv'
  | None => ar_reservation r = None
  end /\
  ar_admitted r = ar_admitted response /\ ar_enqueued r = ar_enqueued response.
Proof.
  unfold refresh_admission_response. split.
  - intros H. tx_inv H. pose proof E as [-> _]%load_hold_Ok. case_hyp E0.
    + tx_inv E0. pose proof E1 as [-> _]%load_reservation_Ok. eauto 10.
    + tx_inv E0. done.
  - intros (-> & Hh & Hr & Ha & He). unfold tbind. rewrite Hh.
    destruct (ar_reservation response), r; simpl in *.
    + destruct Hr as (rv' & -> & ->). unfold tret. by subst.
    + unfold tret. by subst.
Qed.

(** ** Statements *)

Lemma slots_lookup d project p :
  projects d !! project = Some p -> slots d !! project = Some (pj_account p, pj_slots p).
Proof. intros H. unfold slots. by rewrite lookup_fmap, H. Qed.

Lemma update_project_Ok account project s env w u w' :
  update_project account project s env w = (Ok u, w') ->
  exists t, w' = MkWorld (set_projects t (db w)) (ticks w) (drawn w) /\
    (fun p => (pj_account p, pj_slots p)) <$> t =
      match projects (db w) !! project with
      | Some p => if (pj_account p =? account)%N
                  then <[project := (account, match s with Some (n, _) => n | None => pj_slots p end)]>
                         (slots (db w))
                  else slots (db w)
      | None => slots (db w)
      end.
Proof.
  unfold update_project. intros H. tx_inv H. destruct v as [t n]. tx_inv H.
  exists t. split; [done|]. apply update_pk_Some in E as [(-> & _ & Hf)|(_ & p & p' & Hl & Hc & Hp & _ & ->)].
  - case_match; [|done]. by rewrite (Hf _ eq_refl).
  - rewrite Hl, Hc, fmap_insert. apply bind_Some in Hp as (r & _ & [= <-]). bool_simpl. done.
Qed.

(** A project that keeps its number of slots. *)
Lemma slots_kept d account project :
  match projects d !! project with
  | Some p => if (pj_account p =? account)%N
              then <[project := (account, pj_slots p)]> (slots d) else slots d
  | None => slots d
  end = slots d.
Proof.
  destruct (projects d !! project) as [p|] eqn:E; [|done]. case_match eqn:Ha; [|done].
  bool_simpl. apply insert_id. by apply slots_lookup.
Qed.

Lemma update_lifecycle_Ok account project deployment from to env w n w' :
  update_lifecycle account project deployment from to env w = (Ok n, w') ->
  exists t, w' = MkWorld (set_deployments t (db w)) (ticks w) (drawn w) /\
    (n = 1%nat -> exists x, deployments (db w) !! deployment = Some x /\ from (dp_lifecycle x) = true).
Proof.
  unfold update_lifecycle. intros H. tx_inv H. destruct v as [t m]. tx_inv H.
  exists t. split; [done|]. intros ->.
  apply update_pk_Some in E as [(_ & [=] & _)|(_ & x & _ & Hl & Hc & _)].
  exists x. bool_simpl. done.
Qed.

Lemma record_event_Ok account project deployment reason env w u w' :
  record_event account project deployment reason env w = (Ok u, w') ->
  exists l, w' = MkWorld (set_hosting_events l (db w)) (ticks w) (drawn w).
Proof. unfold record_event. intros H. tx_inv H. eauto. Qed.

Lemma store_fixture_Ok hash event kind request body env w u w' :
  store_fixture hash event kind request body env w = (Ok u, w') ->
  receipts (db w) !! event = None /\
  w' = MkWorld (set_receipts (<[event := {| rc_kind := kind; rc_hash := hash request;
                                            rc_body := body |}]> (receipts (db w))) (db w))
         (ticks w) (drawn w).
Proof.
  unfold store_fixture. intros H. tx_inv H. by apply insert_pk_Some in E as (? & _ & ->).
Qed.

Lemma update_hold_Ok id cond f env w n w' :
  update_hold id cond f env w = (Ok n, w') ->
  (n = 0%nat /\ (forall h, holds (db w) !! id = Some h -> cond h = false) /\
     w' = MkWorld (set_holds (holds (db w)) (db w)) (ticks w) (drawn w)) \/
  (n = 1%nat /\ exists h, holds (db w) !! id = Some h /\ cond h = true /\ hold_check (f h) = true /\
     w' = MkWorld (set_holds (<[id := f h]> (holds (db w))) (db w)) (ticks w) (drawn w)).
Proof.
  unfold update_hold. intros H. tx_inv H. destruct v as [t m]. tx_inv H.
  apply update_pk_Some in E as [(-> & -> & Hf)|(-> & h & h' & ? & ? & [= <-] & ? & ->)]; [by left|].
  right. eauto 10.
Qed.

Lemma update_reservation_Ok id f env w u w' r :
  update_reservation id f env w = (Ok u, w') -> reservations (db w) !! id = Some r ->
  reservation_check (f r) = true /\
  w' = MkWorld (set_reservations (<[id := f r]> (reservations (db w))) (db w)) (ticks w) (drawn w).
Proof.
  unfold update_reservation. intros H Hl. tx_inv H. destruct v as [t m]. tx_inv H.
  apply update_pk_Some in E as [(_ & _ & Hf)|(_ & r0 & r' & Hl' & _ & [= <-] & ? & ->)].
  - by specialize (Hf _ Hl).
  - rewrite Hl in Hl'. by simplify_eq.
Qed.

Lemma insert_hold_Ok h env w u w' :
  insert_hold h env w = (Ok u, w') ->
  holds (db w) !! h_id h = None /\ hold_check h = true /\ generation_fk (db w) h = true /\
  w' = MkWorld (set_holds (<[h_id h := h]> (holds (db w))) (db w)) (ticks w) (drawn w).
Proof.
  unfold insert_hold. intros H. tx_inv H. case_hyp H; [by apply raise_Ok in H|].
  tx_inv H. apply insert_pk_Some in E as (? & ? & ->). bool_simpl. done.
Qed.

Lemma insert_reservation_Ok r env w u w' :
  insert_reservation r env w = (Ok u, w') ->
  reservations (db w) !! rv_id r = None /\
  (not_released r = true -> ~ active_in (db w) (rv_project r)) /\
  w' = MkWorld (set_reservations (<[rv_id r := r]> (reservations (db w))) (db w)) (ticks w) (drawn w).
Proof.
  unfold insert_reservation. intros H. tx_inv H. case_hyp H; [by apply raise_Ok in H|].
  tx_inv H. apply insert_pk_Some in E as (? & _ & ->). bool_simpl. split_and!; [done| |done].
  intros Hr (id & r0 & Hl & Hp & Hn).
  match goal with Hx : exists_row _ _ = false |- _ =>
    pose proof (exists_row_false _ _ Hx _ _ Hl) as Hf end.
  simpl in Hf. rewrite Hp, Hn, Hr, N.eqb_refl in Hf. simpl in Hf. by rewrite orb_true_r in Hf.
Qed.

Lemma consume_hold_Ok id env w n w' h :
  consume_hold id env w = (Ok n, w') -> holds (db w) !! id = Some h ->
  exists now, w' = MkWorld (set_holds (<[id := with_hold h HConsumed (Some now) (h_released h)]>
                     (holds (db w))) (db w)) (S (ticks w)) (drawn w).
Proof.
  unfold consume_hold. intros H Hl. tx_inv H. exists (clock env (ticks w)).
  apply update_hold_Ok in H as [(_ & Hf & _)|(_ & h0 & Hl0 & _ & _ & ->)]; cbn [db ticks drawn] in *.
  - by specialize (Hf _ Hl).
  - rewrite Hl in Hl0. by simplify_eq.
Qed.

Lemma expire_holds_step keep env w n w' :
  expire_holds keep env w = (Ok n, w') ->
  exists d, w' = MkWorld d (S (ticks w)) (drawn w) /\ adm_step no_release (db w) d /\
    pools d = pools (db w) /\ entitlements d = entitlements (db w) /\
    projects d = projects (db w) /\ reservations d = reservations (db w) /\
    deployments d = deployments (db w) /\ lifecycle_intents d = lifecycle_intents (db w) /\
    (forall id h, holds d !! id = Some h -> h_state h = HActive -> holds (db w) !! id = Some h).
Proof.
  unfold expire_holds. intros H. tx_inv H. eexists. split; [done|].
  split; [by apply (as_expire _ _ _ (clock env (ticks w)) keep)|]. split_and!; try done.
  intros id h Hl Hs. cbn in Hl. rewrite lookup_fmap in Hl. apply fmap_Some in Hl as (h0 & Hl & ->).
  by destruct (expirable _ _ h0).
Qed.

(** Split the monadic steps of [H] and name the facts of the statements. *)
Ltac adm_side :=
  repeat match goal with
  | H : audit _ _ _ _ _ _ _ _ = (Ok _, _) |- _ =>
      apply audit_Ok in H; destruct H as [? ->]
  | H : store_replay _ _ _ _ _ _ _ _ = (Ok _, _) |- _ =>
      apply store_replay_Ok in H; destruct H as [_ ->]
  | H : store_fixture _ _ _ _ _ _ _ = (Ok _, _) |- _ =>
      apply store_fixture_Ok in H; destruct H as [_ ->]
  | H : record_event _ _ _ _ _ _ = (Ok _, _) |- _ =>
      apply record_event_Ok in H; destruct H as [? ->]
  end; cbn [db ticks drawn] in *.

(** ** Admission *)

(** In a well-formed ledger a hold carries its account's entitlement and pool. *)
Lemma hold_entitlement d id h e :
  adm_ok d -> holds d !! id = Some h -> entitlements d !! h_account h = Some e ->
  h_id h = id /\ h_entitlement h = en_id e /\ h_pool h = en_pool e.
Proof.
  intros Hok Hl He. destruct (hold_rows d Hok _ _ Hl) as (Hi & (e0 & He0 & <- & <-)%entitlement_fk_spec).
  rewrite He in He0. by simplify_eq.
Qed.

Lemma project_reserved_core account project deployment env w u w' p :
  project_reserved account project deployment env w = (Ok u, w') ->
  projects (db w) !! project = Some p -> pj_account p = account ->
  core (db w') = (pools (db w), entitlements (db w), holds (db w), reservations (db w),
                  usage (db w), <[project := (account, 1%Z)]> (slots (db w))).
Proof.
  unfold project_reserved. intros H Hp Ha. tx_inv H.
  apply update_lifecycle_Ok in E as (t1 & -> & _). cbn [db ticks drawn] in *.
  apply update_project_Ok in E0 as (t2 & -> & Es). adm_side.
  cbn in Es. rewrite Hp, Ha, N.eqb_refl in Es. unfold core. cbn. unfold slots at 1. cbn. by rewrite Es.
Qed.

Lemma rollout_admitted_core account project deployment env w u w' :
  rollout_admitted account project deployment env w = (Ok u, w') ->
  core (db w') = core (db w) /\
  exists x, deployments (db w) !! deployment = Some x /\ dp_lifecycle x = AdmissionRequired.
Proof.
  unfold rollout_admitted. intros H. tx_inv H.
  apply update_lifecycle_Ok in E as (t1 & -> & Hx). cbn [db ticks drawn] in *.
  apply update_project_Ok in E1 as (t2 & -> & Es). adm_side. bool_simpl. split.
  - cbn in Es. unfold core. cbn. unfold slots at 1. cbn. rewrite Es. by rewrite (slots_kept (db w)).
  - match goal with Hn : (_ =? _)%nat = true |- _ => apply Nat.eqb_eq in Hn; subst end.
    destruct (Hx eq_refl) as (dep & ? & ?). exists dep. by bool_simpl.
Qed.

Lemma admit_initial_step account project deployment hold e h p env w r w' :
  admit_initial account project deployment hold e env w = (Ok r, w') ->
  adm_ok (db w) -> holds (db w) !! hold = Some h -> h_kind h = Initial -> h_state h = HActive ->
  h_account h = account -> entitlements (db w) !! account = Some e ->
  projects (db w) !! project = Some p -> pj_account p = account -> adm_step no_release (db w) (db w').
Proof.
  intros H Hok Hl Hk Hs Ha He Hp Hpa. unfold admit_initial in H. tx_inv H. tx_reads.
  destruct (consume_hold_Ok _ _ _ _ _ h E Hl) as (now & ->). cbn [db ticks drawn] in *.
  apply insert_reservation_Ok in E0 as (Hn & Hact & ->). cbn [db ticks drawn] in *.
  eapply project_reserved_core in E1; [|exact Hp|exact Hpa].
  destruct (hold_entitlement _ _ _ _ Hok Hl He) as (Hi & Hen & Hpk).
  set (r0 := {| rv_state := Reserved |}) in *. rewrite <- Hi in *.
  eapply (as_admit_initial _ _ _ h (with_hold h HConsumed (Some now) (h_released h)) r0 (pj_slots p));
    try done.
  - by eexists _, _, _.
  - by apply Hact.
  - simpl. rewrite (slots_lookup _ _ _ Hp). by rewrite Hpa.
Qed.

Lemma admit_rollout_step account project deployment hold h env w r w' :
  admit_rollout account project deployment hold env w = (Ok r, w') ->
  adm_ok (db w) -> holds (db w) !! hold = Some h -> h_kind h = Rollout -> h_state h = HActive ->
  adm_step no_release (db w) (db w').
Proof.
  intros H Hok Hl Hk Hs. unfold admit_rollout in H. tx_inv H.
  destruct (consume_hold_Ok _ _ _ _ _ h E Hl) as (now & ->). cbn [db ticks drawn] in *. tx_reads.
  case_hyp H; [|by apply raise_Ok in H]. tx_inv H.
  apply rollout_admitted_core in E1 as (Ec & _). destruct (hold_rows _ Hok _ _ Hl) as (Hi & _).
  rewrite <- Hi in *.
  eapply (as_admit_rollout _ _ _ h (with_hold h HConsumed (Some now) (h_released h))); try done.
  - by eexists _, _, _.
Qed.

(** ** The owner's requests *)

Section OwnerSteps.
Context (parse_uuid : string -> option Uuid) (uuid_text : Uuid -> string)
  (hold_request_hash : CreateHoldRequest -> string) (admit_request_hash : AdmitRequest -> string).

Lemma create_hold_steps auth project_id deployment_id headers request env w r w' :
  adm_ok (db w) ->
  create_hold parse_uuid uuid_text hold_request_hash auth project_id deployment_id headers request
    env w = (r, w') ->
  rtc (adm_step no_release) (db w) (db w').
Proof.
  intros Hok H. unfold create_hold in H. case_hyp H; [by injection H as _ <-|].
  do 4 (apply lift_cases in H as [(? & _ & _ & ->)|(? & _ & H)]; [done|]).
  apply transaction_cases in H as [(? & -> & ->)|H]; [done|].
  tx_inv H. tx_reads. case_hyp H; [|by tx_inv H; tx_reads|by apply raise_Ok in H].
  tx_inv H. tx_reads.
  repeat match goal with
  | E : expire_holds_for_scope _ _ _ _ = _ |- _ =>
      apply expire_holds_step in E as (d & -> & Hexp & Hp & He & _)
  | E : lock_entitlement_and_pool _ _ _ = _ |- _ => apply lock_entitlement_Ok in E as (Hent & _)
  | E : ensure_capacity_available _ _ _ _ _ = _ |- _ => apply capacity_Ok in E as (p & Hpool & Hcap)
  | E : insert_hold _ _ _ = _ |- _ => apply insert_hold_Ok in E as (Hnone & _ & _ & ->)
  end.
  cbn [db ticks drawn] in *. adm_side. rewrite <- He in Hent.
  eapply rtc_l; [exact Hexp|]. apply rtc_once.
  match goal with |- context [set_holds (<[_ := ?h]> _)] => set (h0 := h) in * end.
  match type of Hcap with context [match ?o with Some _ => _ | None => _ end] => destruct o end.
  - by eapply (as_hold_rollout _ _ _ h0).
  - by destruct Hcap; eapply (as_hold_initial _ _ _ h0).
Qed.

Lemma admit_steps auth project_id deployment_id headers request env w r w' :
  adm_ok (db w) ->
  admit_hold parse_uuid uuid_text admit_request_hash auth project_id deployment_id headers request
    env w = (r, w') ->
  rtc (adm_step no_release) (db w) (db w').
Proof.
  intros Hok H. unfold admit_hold in H.
  do 4 (apply lift_cases in H as [(? & _ & _ & ->)|(? & _ & H)]; [done|]).
  apply transaction_cases in H as [(? & -> & ->)|H]; [done|].
  tx_inv H. tx_reads. case_hyp H; [|by tx_inv H; tx_reads|by apply raise_Ok in H].
  tx_inv H. tx_reads.
  repeat match goal with
  | E : expire_holds_for_scope _ _ _ _ = _ |- _ =>
      apply expire_holds_step in E as (d & -> & Hexp & Hp & He & _)
  | E : lock_entitlement_and_pool _ _ _ = _ |- _ => apply lock_entitlement_Ok in E as (Hent & _)
  | E : lock_project_revision _ _ _ _ _ = _ |- _ => apply lock_project_Ok in E as (p & Hproj & Hpa & _)
  end.
  cbn [db ticks drawn] in *. rewrite <- He in Hent.
  eapply rtc_l; [exact Hexp|]. apply adm_step_ok in Hexp as Hok'; [|done].
  case_hyp H; [|by apply raise_Ok in H]. case_hyp H; [by apply raise_Ok in H|].
  tx_step H. assert (db w0 = d /\ (v = false -> h_state h = HActive)) as [<- Hact].
  { case_hyp E0; tx_inv E0; bool_simpl; by split. }
  case_hyp H; [by tx_inv H|]. tx_inv H. tx_reads.
  assert (adm_step no_release (db w0) (db w3)) as Hs.
  { match goal with
    | Hh : context [match h_kind h with Initial => admit_initial _ _ _ _ _ | _ => _ end] |- _ =>
        destruct (h_kind h) eqn:Hk; [eapply admit_initial_step in Hh|eapply admit_rollout_step in Hh]
    end; cbn [db ticks drawn] in *; eauto; by bool_simpl. }
  adm_side. eapply rtc_l; [exact Hs|]. by apply rtc_once, as_same.
Qed.

Lemma read_steps {A} (m : M AdmDb A) env w r w' :
  read_only m -> m env w = (r, w') -> rtc (adm_step no_release) (db w) (db w').
Proof. intros Hm H. by rewrite (Hm _ _ _ _ H). Qed.

Lemma ro_get_hold auth project_id deployment_id :
  read_only (get_hold parse_uuid auth project_id deployment_id).
Proof. unfold get_hold. read_only. Qed.
Lemma ro_get_reservation auth project_id : read_only (get_reservation parse_uuid auth project_id).
Proof. unfold get_reservation. read_only. Qed.
Lemma ro_get_entitlement auth : read_only (get_entitlement auth).
Proof. unfold get_entitlement. read_only. Qed.

Lemma reconcile_step env w r w' : reconcile env w = (r, w') -> rtc (adm_step no_release) (db w) (db w').
Proof.
  destruct r as [n|e]; intros H.
  - apply expire_holds_step in H as (d & -> & Hs & _). by apply rtc_once.
  - by unfold reconcile, expire_holds, tbind, get_db, clock_timestamp, put_db, tret in H.
Qed.
End OwnerSteps.

(** ** Trusted events *)

Section FixtureSteps.
Context (fixture_hash : FixtureRequest -> string).

(** Nothing of the core changed. *)
Lemma same_step d d' : core d' = core d -> adm_step no_release d d'.
Proof. apply as_same. Qed.

Lemma upsert_pool_Ok key profile slot_limit headroom env w row w' :
  upsert_pool key profile slot_limit headroom env w = (Ok row, w') ->
  cp_slots row = slot_limit /\ cp_headroom row = headroom /\ cp_profile row = profile /\
  w' = MkWorld (set_pools (<[key := row]> (pools (db w))) (db w)) (ticks w) (drawn w).
Proof.
  unfold upsert_pool. intros H. tx_inv H. case_hyp H; [|by apply raise_Ok in H]. tx_inv H.
  case_hyp E; [apply bind_Some in E as (rv & _ & [= <-])|injection E as <-]; done.
Qed.

Lemma put_capacity_fixture_steps q env w r w' :
  put_capacity_fixture fixture_hash q env w = (r, w') -> adm_step no_release (db w) (db w').
Proof.
  intros H. unfold put_capacity_fixture in H.
  do 2 (apply lift_cases in H as [(? & _ & _ & ->)|(? & _ & H)]; [by apply same_step|]).
  case_hyp H; [injection H as _ <-; by apply same_step|].
  apply transaction_cases in H as [(? & -> & ->)|H]; [by apply same_step|].
  tx_inv H. tx_reads. case_hyp H; [tx_inv H; by apply same_step|]. tx_inv H.
  match goal with E : upsert_pool _ _ _ _ _ _ = _ |- _ =>
    apply upsert_pool_Ok in E as (Hs & Hr & _ & ->) end.
  adm_side. bool_simpl. eapply (as_pool _ _ _ (cfq_pool q)); [..|done]; rewrite ?Hs, ?Hr; lia.
Qed.

Lemma upsert_entitlement_Ok id q state env w e w' :
  upsert_entitlement id q state env w = (Ok e, w') ->
  en_id e = match entitlements (db w) !! efq_account q with
            | Some old => en_id old | None => id end /\
  en_pool e = efq_pool q /\ en_slots e = efq_slots q /\ en_build_seconds e = efq_build_seconds q /\
  w' = MkWorld (set_entitlements (<[efq_account q := e]> (entitlements (db w))) (db w))
         (ticks w) (drawn w).
Proof.
  unfold upsert_entitlement. intros H. tx_inv H. case_hyp H; [|by apply raise_Ok in H]. tx_inv H.
  case_hyp E; [apply bind_Some in E as (rv & _ & [= <-])|injection E as <-]; done.
Qed.

Lemma put_entitlement_fixture_steps q env w r w' :
  put_entitlement_fixture fixture_hash q env w = (r, w') -> adm_step no_release (db w) (db w').
Proof.
  intros H. unfold put_entitlement_fixture in H.
  case_hyp H; [|injection H as _ <-; by apply same_step].
  case_hyp H; [injection H as _ <-; by apply same_step|].
  apply transaction_cases in H as [(? & -> & ->)|H]; [by apply same_step|].
  tx_inv H. tx_reads. case_hyp H; [tx_inv H; by apply same_step|]. tx_inv H.
  destruct (usage_totals (db w) (efq_account q)) as [debited credits] eqn:Hu.
  tx_inv H.
  match goal with E : match entitlements _ !! _ with _ => _ end _ _ = (Ok ?i, ?w1) |- _ =>
    assert (db w1 = db w) as Hw by (case_hyp E; by tx_inv E); clear E end.
  match goal with E : upsert_entitlement _ _ _ _ _ = _ |- _ =>
    apply upsert_entitlement_Ok in E as (Hi & Hp & Hs & Hb & ->) end.
  adm_side. rewrite Hw in *. bool_simpl.
  eapply (as_entitlement _ _ _ (efq_account q)); [..|done]; rewrite ?Hs, ?Hp, ?Hb; [|done|lia|].
  - intros old Hold. rewrite Hold in *. bool_simpl. done.
  - unfold build_net. rewrite Hu. lia.
Qed.

Lemma put_source_proof_steps q env w r w' :
  put_source_proof fixture_hash q env w = (r, w') -> adm_step no_release (db w) (db w').
Proof.
  intros H. unfold put_source_proof in H.
  case_hyp H; [injection H as _ <-; by apply same_step|].
  apply transaction_cases in H as [(? & -> & ->)|H]; [by apply same_step|].
  tx_inv H. tx_reads. case_hyp H; [tx_inv H; by apply same_step|]. tx_inv H. tx_reads.
  adm_side. by apply same_step.
Qed.

(** The reservation an observation names, and its project's row. *)
Definition observed (d : AdmDb) (q : ResourceObservationRequest) (r : Reservation) : Prop :=
  reservations d !! roq_reservation q = Some r /\ rv_account r = roq_account q /\
  rv_project r = roq_project q /\
  exists p, projects d !! roq_project q = Some p /\ pj_account p = roq_account q.

Lemma observed_slots d q r :
  observed d q r ->
  exists n, slots d !! rv_project r = Some (rv_account r, n).
Proof.
  intros (_ & -> & -> & p & Hp & <-). exists (pj_slots p). by apply slots_lookup.
Qed.

Lemma update_slots_Ok d q r n s w env u w' :
  observed d q r -> projects (db w) = projects d ->
  update_project (roq_account q) (roq_project q) (Some (n, s)) env w = (Ok u, w') ->
  core (db w') = (pools (db w), entitlements (db w), holds (db w), reservations (db w), usage (db w),
                  <[rv_project r := (rv_account r, n)]> (slots d)).
Proof.
  intros (_ & -> & -> & p & Hp & Ha) Hd H. apply update_project_Ok in H as (t & -> & Es).
  unfold core. cbn. unfold slots at 1. cbn. rewrite Es, Hd, Hp, Ha, N.eqb_refl.
  unfold slots. by rewrite Hd.
Qed.

(** The reservation whose cleanup the observation confirms. *)
Definition confirmed_by (q : ResourceObservationRequest) (r : Reservation) : Prop :=
  roq_outcome q = "cleanup_confirmed" /\ rv_id r = roq_reservation q /\
  rv_epoch r = roq_epoch q /\ rv_account r = roq_account q /\ rv_project r = roq_project q.

Lemma apply_observation_step q rv env w o w' :
  apply_observation q rv env w = (Ok o, w') -> adm_ok (db w) -> observed (db w) q rv ->
  rv_epoch rv = roq_epoch q -> adm_step (confirmed_by q) (db w) (db w').
Proof.
  intros H Hok Hobs Hep. unfold apply_observation in H. destruct (observed_slots _ _ _ Hobs) as (n & Hn).
  pose proof (proj1 Hobs) as Hl. pose proof (proj1 (reservation_rows _ Hok _ _ Hl)) as Hi.
  case_hyp H; [|case_hyp H; [|case_hyp H; [|case_hyp H; [|by apply raise_Ok in H]]]].
  - tx_inv H. bool_simpl.
    match goal with E : update_reservation _ _ _ _ = _ |- _ =>
      destruct (update_reservation_Ok _ _ _ _ _ _ _ E Hl) as (_ & ->) end.
    match goal with E : update_project _ _ _ _ _ = _ |- _ =>
      eapply update_slots_Ok in E; [|exact Hobs|done] end.
    match goal with E : context [<[_ := ?rv']> (reservations _)] |- _ =>
      eapply (as_retain _ _ _ rv rv' n); [by rewrite Hi| | | |done|by rewrite Hi] end.
    + unfold not_released. by rewrite bool_decide_eq_false_2.
    + by eexists _, _, _, _.
    + done.
  - tx_inv H. match goal with E : update_lifecycle _ _ _ _ _ _ _ = _ |- _ =>
      apply update_lifecycle_Ok in E as (t & -> & _) end. by apply as_same.
  - tx_inv H. case_hyp E; [tx_inv E; by apply as_same|]. tx_inv E. bool_simpl.
    match goal with E : update_reservation _ _ _ _ = _ |- _ =>
      destruct (update_reservation_Ok _ _ _ _ _ _ _ E Hl) as (_ & ->) end.
    match goal with E : update_project _ _ _ _ _ = _ |- _ =>
      eapply update_slots_Ok in E; [|exact Hobs|done] end.
    match goal with E : update_lifecycle _ _ _ _ _ _ _ = _ |- _ =>
      apply update_lifecycle_Ok in E as (t & -> & _) end.
    match goal with E : context [<[_ := ?rv']> (reservations _)] |- _ =>
      eapply (as_release _ _ _ rv rv' n); [by rewrite Hi| | | | |done|by rewrite Hi] end.
    + unfold not_released. by rewrite bool_decide_eq_false_2.
    + split_and!; try done; apply Hobs.
    + by eexists _, _, _, _.
    + done.
  - case_hyp H; [|by apply raise_Ok in H]. tx_inv H.
    match goal with E : update_hold _ _ _ _ _ = _ |- _ =>
      apply update_hold_Ok in E as [(-> & _ & _)|(_ & h & Hh & Hc & _ & ->)]; [done|] end.
    cbn [db] in *. destruct (hold_rows _ Hok _ _ Hh) as (Hhi & _). subst.
    unfold linked_hold in Hc. bool_simpl. 
    match goal with |- context [<[_ := ?h']> _] => eapply (as_release_rollout _ _ _ h h'); try done end.
    by eexists _, _, _.
Qed.

Lemma insert_observation_Ok q env w u w' :
  insert_observation q env w = (Ok u, w') ->
  exists t, w' = MkWorld (set_observations t (db w)) (ticks w) (drawn w).
Proof.
  unfold insert_observation. intros H. tx_inv H. case_hyp H; [|by apply raise_Ok in H].
  tx_inv H. eauto.
Qed.

Lemma record_resource_observation_steps q env w r w' :
  adm_ok (db w) -> record_resource_observation fixture_hash q env w = (r, w') ->
  rtc (adm_step (confirmed_by q)) (db w) (db w').
Proof.
  intros Hok H. unfold record_resource_observation in H.
  apply lift_cases in H as [(? & _ & _ & ->)|(? & _ & H)]; [done|].
  apply transaction_cases in H as [(? & -> & ->)|H]; [done|].
  tx_inv H. tx_reads. case_hyp H; [by tx_inv H|]. tx_inv H.
  case_hyp H; [|by apply raise_Ok in H]. tx_inv H. tx_reads.
  match goal with E : match roq_hold q with _ => _ end _ _ = (Ok ?i, ?w1) |- _ =>
    assert (db w1 = db w) as Hw by (case_hyp E; by tx_inv E); clear E end.
  match goal with E : insert_observation _ _ _ = _ |- _ =>
    apply insert_observation_Ok in E as (tb & ->) end.
  match goal with E : apply_observation _ _ _ _ = _ |- _ =>
    apply apply_observation_step in E as Hs end; cbn [db ticks drawn] in *; rewrite Hw in *.
  - adm_side. apply (rtc_l _ _ (set_observations tb (db w))); [by apply as_same|].
    eapply rtc_l; [exact Hs|].
    apply rtc_once. by apply as_same.
  - eapply same_adm_ok; [|exact Hok]. done.
  - bool_simpl. unfold observed. cbn. destruct (projects (db w) !! _) as [p|] eqn:Hp; bool_simpl. eauto 10.
  - by bool_simpl.
Qed.

(** ** Build usage *)

Lemma insert_usage_Ok id u env w x w' :
  insert_usage id u env w = (Ok x, w') ->
  usage (db w) !! id = None /\ usage_check u = true /\
  w' = MkWorld (set_usage (<[id := u]> (usage (db w))) (db w)) (ticks w) (drawn w).
Proof.
  unfold insert_usage. intros H. tx_inv H. case_hyp H; [by apply raise_Ok in H|].
  tx_inv H. by apply insert_pk_Some in E as (? & ? & ->).
Qed.

Lemma record_debit_step q e env w u w' :
  record_debit q e env w = (Ok u, w') -> entitlements (db w) !! buq_account q = Some e ->
  adm_step no_release (db w) (db w').
Proof.
  intros H He. unfold record_debit in H. tx_inv H.
  destruct (usage_totals (db w) (buq_account q)) as [debited credits] eqn:Hu. tx_inv H.
  apply insert_usage_Ok in H as (Hn & Hc & ->). bool_simpl.
  eapply (as_debit _ _ _ (buq_event q) _ e); try done.
  simpl. unfold build_net. rewrite Hu. lia.
Qed.

Lemma record_credit_step q e env w u w' :
  record_credit q e env w = (Ok u, w') -> adm_step no_release (db w) (db w').
Proof.
  intros H. unfold record_credit in H. tx_inv H.
  case_hyp H; [|by apply raise_Ok in H]. case_hyp H; [|by apply raise_Ok in H]. tx_inv H.
  apply insert_usage_Ok in H as (Hn & Hc & ->). bool_simpl.
  by eapply (as_credit _ _ _ (buq_event q)).
Qed.

Lemma record_build_usage_steps q env w r w' :
  record_build_usage fixture_hash q env w = (r, w') -> rtc (adm_step no_release) (db w) (db w').
Proof.
  intros H. unfold record_build_usage in H.
  apply lift_cases in H as [(? & _ & _ & ->)|(? & _ & H)]; [done|].
  apply transaction_cases in H as [(? & -> & ->)|H]; [done|].
  tx_inv H. tx_reads. case_hyp H; [by tx_inv H|]. tx_inv H. tx_reads.
  match goal with E : lock_entitlement_and_pool _ _ _ = _ |- _ =>
    apply lock_entitlement_Ok in E as (He & _) end.
  assert (Hro : forall (b : bool) e, read_only (if b then ensure_entitlement_active e else tret tt))
    by (intros [] ?; auto with read_only).
  tx_reads.
  match goal with E : (if _ then record_debit _ _ else record_credit _ _) _ _ = (_, ?w1) |- _ =>
    assert (adm_step no_release (db w) (db w1)) as Hs by
      (case_hyp E; [eapply record_debit_step in E|eapply record_credit_step in E]; eauto); clear E end.
  cbn [db ticks drawn] in *. destruct (usage_totals _ _) as [debited credits]. tx_inv H. adm_side.
  eapply rtc_l; [exact Hs|]. apply rtc_once. by apply same_step.
Qed.
End FixtureSteps.
