(* ===== verification/AdmissionFrame.v ===== *)
(** * What admission leaves alone

    The project graph shares its tables of projects, deployments and lifecycle intents
    with admission.  Admission moves a project's slots and revision and a deployment's
    lifecycle, and nothing else of these tables, whatever it is asked. *)

From stdpp Require Import base list option gmap strings relations.
From Stdlib Require Import ZArith Lia.
From S2P Require Import Prelude RustText Bytes PgTx Intent Admission AdmissionSteps.

Local Open Scope string_scope.
Local Open Scope list_scope.

Definition project_identity (p : Project) : Uuid * option Uuid := (pj_account p, pj_config p).
Definition deployment_identity (x : Deployment) : Uuid * Uuid * Uuid * string :=
  (dp_account x, dp_project x, dp_config x, dp_commit x).

Record adm_frame (d d' : AdmDb) : Prop := {
  kf_projects : project_identity <$> projects d' = project_identity <$> projects d;
  kf_checked : forall p r, projects d' !! p = Some r -> projects d !! p = Some r \/ project_check r = true;
  kf_deployments : deployment_identity <$> deployments d' = deployment_identity <$> deployments d;
  kf_intents : lifecycle_intents d' = lifecycle_intents d;
}.

#[export] Instance adm_frame_preorder : PreOrder adm_frame.
Proof.
  split; [by intros d; split; auto|]. intros d1 d2 d3 [P1 C1 D1 I1] [P2 C2 D2 I2].
  split; [congruence| |congruence..]. intros p r Hr. destruct (C2 p r Hr); auto.
Qed.

(** Looking up a row in a table that kept its identities. *)
Lemma identity_lookup {K A B} `{Countable K} (f : A -> B) (t t' : gmap K A) k r :
  f <$> t' = f <$> t -> t !! k = Some r -> exists r', t' !! k = Some r' /\ f r' = f r.
Proof.
  intros E Hr. assert (f <$> t' !! k = Some (f r)) as Hf by (by rewrite <- lookup_fmap, E, lookup_fmap, Hr).
  apply fmap_Some in Hf as (r' & ? & ?). eauto.
Qed.

(** ** Statements *)

Lemma adm_frame_same d d' : projects d' = projects d -> deployments d' = deployments d ->
  lifecycle_intents d' = lifecycle_intents d -> adm_frame d d'.
Proof. intros Ep Ed Ei. split; rewrite ?Ep, ?Ed, ?Ei; auto. Qed.

Lemma identity_update {K A B} `{Countable K} (f : A -> B) (t : gmap K A) k r r' :
  t !! k = Some r -> f r' = f r -> f <$> <[k := r']> t = f <$> t.
Proof. intros Hr E. rewrite fmap_insert, E. apply insert_id. by rewrite lookup_fmap, Hr. Qed.

(** A statement either fails and changes nothing, or puts its table. *)
Ltac framed :=
  intros ? ? ? ?; unfold tbind, get_db, sql, put_db, raise, tret, clock_timestamp, new_uuid;
  repeat case_match; intros; simplify_eq; try done; by apply adm_frame_same.

Lemma update_project_frame account project s : keeps adm_frame (update_project account project s).
Proof.
  intros env w r w'. unfold update_project, tbind, get_db, sql, put_db, raise, tret.
  destruct (update_pk _ _ _ _ _) as [[t n]|] eqn:E; intros [= <- <-]; [cbn [db]|done].
  apply update_pk_Some in E as [(-> & _)|(_ & p & p' & Hp & _ & Hf & Hc & ->)]; [by apply adm_frame_same|].
  destruct (bigint_succ _) in Hf; [|done]. injection Hf as Hf. split; try done; cbn.
  - apply (identity_update _ _ _ p); [done|]. by rewrite <- Hf.
  - intros q x. rewrite lookup_insert. case_decide; [|auto]. intros [= <-]. by right.
Qed.

Lemma update_lifecycle_frame account project deployment from to :
  keeps adm_frame (update_lifecycle account project deployment from to).
Proof.
  intros env w r w'. unfold update_lifecycle, tbind, get_db, sql, put_db, raise, tret.
  destruct (update_pk _ _ _ _ _) as [[t n]|] eqn:E; intros [= <- <-]; [cbn [db]|done].
  apply update_pk_Some in E as [(-> & _)|(_ & x & x' & Hx & _ & [= <-] & _ & ->)]; [by apply adm_frame_same|].
  split; [done|auto| |done]. by apply (identity_update _ _ _ x).
Qed.

Lemma insert_hold_frame h : keeps adm_frame (insert_hold h).
Proof. unfold insert_hold. framed. Qed.
Lemma update_hold_frame id cond f : keeps adm_frame (update_hold id cond f).
Proof. unfold update_hold. framed. Qed.
Lemma insert_reservation_frame r : keeps adm_frame (insert_reservation r).
Proof. unfold insert_reservation. framed. Qed.
Lemma update_reservation_frame id f : keeps adm_frame (update_reservation id f).
Proof. unfold update_reservation. framed. Qed.
Lemma record_event_frame account project deployment reason :
  keeps adm_frame (record_event account project deployment reason).
Proof. unfold record_event. framed. Qed.
Lemma expire_holds_frame keep : keeps adm_frame (expire_holds keep).
Proof. unfold expire_holds. framed. Qed.
Lemma store_fixture_frame hash event kind request body : keeps adm_frame (store_fixture hash event kind request body).
Proof. unfold store_fixture. framed. Qed.
Lemma upsert_pool_frame key profile n m : keeps adm_frame (upsert_pool key profile n m).
Proof. unfold upsert_pool. framed. Qed.
Lemma upsert_entitlement_frame id q state : keeps adm_frame (upsert_entitlement id q state).
Proof. unfold upsert_entitlement. framed. Qed.
Lemma insert_observation_frame q : keeps adm_frame (insert_observation q).
Proof. unfold insert_observation. framed. Qed.
Lemma insert_usage_frame id u : keeps adm_frame (insert_usage id u).
Proof. unfold insert_usage. framed. Qed.
Lemma adm_store_replay_frame actor operation key hash status (r : AdmissionResponse) :
  keeps adm_frame (store_replay (D := AdmDb) actor operation key hash status r).
Proof. unfold store_replay. framed. Qed.
Lemma adm_audit_frame actor session et tt ti oc :
  keeps adm_frame (audit (D := AdmDb) (B := AdmissionResponse) actor session et tt ti oc).
Proof. unfold audit. framed. Qed.

Create HintDb adm_frame.
#[export] Hint Resolve update_project_frame update_lifecycle_frame insert_hold_frame update_hold_frame
  insert_reservation_frame update_reservation_frame record_event_frame expire_holds_frame store_fixture_frame
  upsert_pool_frame upsert_entitlement_frame insert_observation_frame insert_usage_frame
  adm_store_replay_frame adm_audit_frame : adm_frame.

(** ** Handlers *)

Lemma adm_frame_atomic {A} (body : M AdmDb (res ApiError A)) :
  keeps adm_frame body -> keeps adm_frame (transaction body).
Proof. intros Hb. apply keeps_transaction; [apply _|]. intros env w r w' H. exact (Hb _ _ _ _ H). Qed.

Ltac frame_steps :=
  repeat (intros; lazymatch goal with
  | |- keeps _ (let _ := _ in _) => cbv zeta
  | |- keeps _ (tbind (lift _) _) => apply keeps_lift; [apply _|intros ? ?]
  | |- keeps _ (tbind (reject_if _ _) _) => apply keeps_reject; [apply _|intros ?]
  | |- keeps _ (tbind _ _) => apply keeps_bind; [apply _|first [keeps_ro|solve [auto with adm_frame]|idtac]|intros ?]
  | |- keeps _ (transaction _) => apply adm_frame_atomic
  | |- keeps _ ?m =>
      first [ keeps_ro | solve [auto with adm_frame]
            | match m with context [match ?x with _ => _ end] => destruct x end ]
  end).

Section Handlers.
Context (parse_uuid : string -> option Uuid) (uuid_text : Uuid -> string)
  (hold_request_hash : CreateHoldRequest -> string) (admit_request_hash : AdmitRequest -> string)
  (fixture_hash : FixtureRequest -> string).

Lemma expire_scope_frame account pool : keeps adm_frame (expire_holds_for_scope account pool).
Proof. apply expire_holds_frame. Qed.
Lemma consume_hold_frame id : keeps adm_frame (consume_hold id).
Proof. unfold consume_hold. frame_steps. Qed.
Lemma project_reserved_frame account project deployment : keeps adm_frame (project_reserved account project deployment).
Proof. unfold project_reserved. frame_steps. Qed.
Lemma rollout_admitted_frame account project deployment : keeps adm_frame (rollout_admitted account project deployment).
Proof. unfold rollout_admitted. frame_steps. Qed.
#[local] Hint Resolve expire_scope_frame consume_hold_frame project_reserved_frame rollout_admitted_frame : adm_frame.
Lemma admit_initial_frame account project deployment hold e :
  keeps adm_frame (admit_initial account project deployment hold e).
Proof. unfold admit_initial. frame_steps. Qed.
Lemma admit_rollout_frame account project deployment hold :
  keeps adm_frame (admit_rollout account project deployment hold).
Proof. unfold admit_rollout. frame_steps. Qed.
#[local] Hint Resolve admit_initial_frame admit_rollout_frame : adm_frame.

Lemma create_hold_frame auth project deployment headers q :
  keeps adm_frame (create_hold parse_uuid uuid_text hold_request_hash auth project deployment headers q).
Proof. unfold create_hold. frame_steps. Qed.
Lemma admit_hold_frame auth project deployment headers q :
  keeps adm_frame (admit_hold parse_uuid uuid_text admit_request_hash auth project deployment headers q).
Proof. unfold admit_hold. frame_steps. Qed.
Lemma reconcile_frame : keeps adm_frame reconcile.
Proof. apply expire_holds_frame. Qed.
Lemma put_capacity_frame q : keeps adm_frame (put_capacity_fixture fixture_hash q).
Proof. unfold put_capacity_fixture. frame_steps. Qed.
Lemma put_entitlement_frame q : keeps adm_frame (put_entitlement_fixture fixture_hash q).
Proof. unfold put_entitlement_fixture. frame_steps. Qed.
Lemma apply_observation_frame q r : keeps adm_frame (apply_observation q r).
Proof. unfold apply_observation. frame_steps. Qed.
Lemma record_debit_frame q e : keeps adm_frame (record_debit q e).
Proof. unfold record_debit. frame_steps. Qed.
Lemma record_credit_frame q e : keeps adm_frame (record_credit q e).
Proof. unfold record_credit. frame_steps. Qed.
#[local] Hint Resolve apply_observation_frame record_debit_frame record_credit_frame : adm_frame.
Lemma record_observation_frame q : keeps adm_frame (record_resource_observation fixture_hash q).
Proof. unfold record_resource_observation. frame_steps. Qed.
Lemma record_usage_frame q : keeps adm_frame (record_build_usage fixture_hash q).
Proof. unfold record_build_usage. frame_steps. Qed.
Lemma put_source_proof_frame q : keeps adm_frame (put_source_proof fixture_hash q).
Proof.
  intros env w r w' H. unfold put_source_proof in H. case_hyp H; [by injection H as _ <-|].
  apply transaction_cases in H as [(? & -> & ->)|H]; [done|].
  tx_inv H. tx_reads. case_hyp H; [by tx_inv H|]. tx_inv H. tx_reads. adm_side. by apply adm_frame_same.
Qed.

(** One admission request served, whatever its result. *)
Inductive adm_request (env : Env) (w w' : World AdmDb) : Prop :=
| aq_create_hold auth project deployment headers request r :
    create_hold parse_uuid uuid_text hold_request_hash auth project deployment headers request env w = (r, w') ->
    adm_request env w w'
| aq_admit auth project deployment headers request r :
    admit_hold parse_uuid uuid_text admit_request_hash auth project deployment headers request env w = (r, w') ->
    adm_request env w w'
| aq_get_hold auth project deployment r :
    get_hold parse_uuid auth project deployment env w = (r, w') -> adm_request env w w'
| aq_get_reservation auth project r :
    get_reservation parse_uuid auth project env w = (r, w') -> adm_request env w w'
| aq_get_entitlement auth r : get_entitlement auth env w = (r, w') -> adm_request env w w'
| aq_reconcile r : reconcile env w = (r, w') -> adm_request env w w'
| aq_capacity q r : put_capacity_fixture fixture_hash q env w = (r, w') -> adm_request env w w'
| aq_entitlement q r : put_entitlement_fixture fixture_hash q env w = (r, w') -> adm_request env w w'
| aq_source_proof q r : put_source_proof fixture_hash q env w = (r, w') -> adm_request env w w'
| aq_observation q r : record_resource_observation fixture_hash q env w = (r, w') -> adm_request env w w'
| aq_usage q r : record_build_usage fixture_hash q env w = (r, w') -> adm_request env w w'.

Lemma adm_request_frame env w w' : adm_request env w w' -> adm_frame (db w) (db w').
Proof.
  intros []; lazymatch goal with H : _ = (_, _) |- _ => revert H end; intros Hm.
  - by eapply create_hold_frame.
  - by eapply admit_hold_frame.
  - by rewrite (ro_get_hold _ _ _ _ _ _ _ _ Hm).
  - by rewrite (ro_get_reservation _ _ _ _ _ _ _ Hm).
  - by rewrite (ro_get_entitlement _ _ _ _ _ Hm).
  - by eapply reconcile_frame.
  - by eapply put_capacity_frame.
  - by eapply put_entitlement_frame.
  - by eapply put_source_proof_frame.
  - by eapply record_observation_frame.
  - by eapply record_usage_frame.
Qed.
End Handlers.
