(* ===== verification/AdmissionTheorems.v ===== *)
(** * Guarantees of admission

    The theorems clients of crates/control/src/admission.rs rely on, over the
    executions of its handlers ([adm_api]).  [Demo] instantiates the external
    functions to run the handlers on concrete tables. *)

From stdpp Require Import base list option gmap strings pretty relations.
From Stdlib Require Import ZArith Lia.
From S2P Require Import Prelude RustText Bytes PgTx Intent Admission AdmissionSpec AdmissionSteps AdmissionFrame.

Local Open Scope string_scope.
Local Open Scope list_scope.

(** ** Facts about every ledger step *)

(** A hold that moves forward: its scope never changes, and it only goes from
    active to consumed, expired or (a rollout) released, and from a consumed
    rollout to released. *)
Inductive hold_forward (h h' : Hold) : Prop :=
| hf_same : h' = h -> hold_forward h h'
| hf_moved : hold_moved h h' -> h_state h = HActive -> h_state h' <> HActive -> hold_forward h h'
| hf_released : hold_moved h h' -> h_kind h = Rollout -> h_state h = HConsumed ->
    h_state h' = HReleased -> hold_forward h h'.

Inductive reservation_forward (r r' : Reservation) : Prop :=
| rf_same : r' = r -> reservation_forward r r'
| rf_moved : reservation_moved r r' -> not_released r = true -> reservation_forward r r'.

Lemma hold_moved_trans h1 h2 h3 : hold_moved h1 h2 -> hold_moved h2 h3 -> hold_moved h1 h3.
Proof. intros (s & c & r & ->) (s' & c' & r' & ->). by eexists _, _, _. Qed.

#[export] Instance hold_forward_preorder : PreOrder hold_forward.
Proof.
  split; [intros h; by apply hf_same|]. intros h1 h2 h3 H12 H23.
  destruct H23 as [->|Hm Hs Hs'|Hm Hk Hs Hs']; [done|..]; destruct H12 as [->|Hm0 ? Hn|Hm0 ? ? ?];
    try congruence; try by (econstructor; eauto).
  apply hf_moved; [by eapply hold_moved_trans|done|congruence].
Qed.

#[export] Instance reservation_forward_preorder : PreOrder reservation_forward.
Proof.
  split; [intros r; by apply rf_same|]. intros r1 r2 r3 H12 H23.
  destruct H23 as [->|(s & o & b & t & ->) Hn]; [done|].
  destruct H12 as [->|(s' & o' & b' & t' & ->) Hn']; apply rf_moved; try done; by eexists _, _, _, _.
Qed.

(** The ledger only grows, and its rows only move forward. *)
Record ledger_kept (d d' : AdmDb) : Prop := {
  kept_hold : forall id h, holds d !! id = Some h ->
    exists h', holds d' !! id = Some h' /\ hold_forward h h';
  kept_reservation : forall id r, reservations d !! id = Some r ->
    exists r', reservations d' !! id = Some r' /\ reservation_forward r r';
  kept_usage : usage d ⊆ usage d';
}.

#[export] Instance ledger_kept_preorder : PreOrder ledger_kept.
Proof.
  split; [intros d; split; eauto|].
  - intros id h Hl. exists h. by split.
  - intros id r Hl. exists r. by split.
  - intros d1 d2 d3 [H1 R1 U1] [H2 R2 U2]. split; [..|by etrans].
    + intros id h Hl. destruct (H1 _ _ Hl) as (h2 & Hl2 & Hf). destruct (H2 _ _ Hl2) as (h3 & ? & ?).
      exists h3. split; [done|]. by etrans.
    + intros id r Hl. destruct (R1 _ _ Hl) as (r2 & Hl2 & Hf). destruct (R2 _ _ Hl2) as (r3 & ? & ?).
      exists r3. split; [done|]. by etrans.
Qed.

(** Replacing one row by a row it may move to, or adding one. *)
Lemma row_kept {R} (fwd : R -> R -> Prop) `{!Reflexive fwd} (t t' : gmap Uuid R) k r' :
  t' = <[k := r']> t -> (forall r, t !! k = Some r -> fwd r r') ->
  forall id r, t !! id = Some r -> exists r1, t' !! id = Some r1 /\ fwd r r1.
Proof.
  intros -> Hf id r Hl. rewrite lookup_insert. case_decide as Hd; [subst|]; eexists; eauto.
Qed.

Lemma rows_same {R} (fwd : R -> R -> Prop) `{!Reflexive fwd} (t t' : gmap Uuid R) :
  t' = t -> forall id r, t !! id = Some r -> exists r1, t' !! id = Some r1 /\ fwd r r1.
Proof. intros -> id r Hl. eauto. Qed.

Lemma adm_step_kept P d d' : adm_step P d d' -> ledger_kept d d'.
Proof.
  intros Hs. destruct Hs as [Ec|now keep Ec|h e p Hn _ _ _ _ _ _ _ _ Ec|h e p Hn _ _ _ _ _ _ _ Ec
    |h h' r n Hl Hk Hst Hm Hst' Hn _ _ _ _ _ _ Ec|h h' Hl Hk Hst Hm Hst' Ec|h h' Hl Hk Hst Hm Hst' Ec
    |r r' n Hl Hnr Hm Hnr' _ Ec|r r' n Hl Hnr _ Hm Hnr' _ Ec|k p _ _ Ec|a e _ _ _ _ Ec
    |id u e Hn _ _ _ _ Ec|id u x v Hn _ _ _ _ _ _ _ _ Ec];
    unfold core in Ec; injection Ec as Ep Ee Eh Er Eu Es; split;
    try (apply rows_same; [apply _|done]); rewrite ?Eu; try done;
    try (by apply insert_subseteq).
  - intros id h Hl. rewrite Eh, lookup_fmap, Hl. eexists. split; [done|].
    destruct (expirable now keep h) eqn:Hx; [|by apply hf_same].
    unfold expirable in Hx. bool_simpl. apply hf_moved; [by eexists _, _, _|done|done].
  - eapply row_kept; [apply _|exact Eh|]. congruence.
  - eapply row_kept; [apply _|exact Eh|]. congruence.
  - eapply row_kept; [apply _|exact Eh|]. intros h0 Hl0. rewrite Hl in Hl0. simplify_eq.
    apply hf_moved; [done|done|congruence].
  - eapply row_kept; [apply _|exact Er|]. congruence.
  - eapply row_kept; [apply _|exact Eh|]. intros h0 Hl0. rewrite Hl in Hl0. simplify_eq.
    apply hf_moved; [done|done|congruence].
  - eapply row_kept; [apply _|exact Eh|]. intros h0 Hl0. rewrite Hl in Hl0. simplify_eq.
    by apply hf_released.
  - eapply row_kept; [apply _|exact Er|]. intros r0 Hl0. rewrite Hl in Hl0. simplify_eq.
    by apply rf_moved.
  - eapply row_kept; [apply _|exact Er|]. intros r0 Hl0. rewrite Hl in Hl0. simplify_eq.
    by apply rf_moved.
Qed.

Lemma adm_steps_kept P d d' : rtc (adm_step P) d d' -> ledger_kept d d'.
Proof. induction 1; [done|]. etrans; eauto using adm_step_kept. Qed.

Lemma outside_step_kept d d' : outside_step d d' -> ledger_kept d d'.
Proof.
  intros [Ec|p a _ Ec|id u Hn _ _ Ec|id r r' Hl Hnr Hm Hnr' Ec|p a n _ Ec];
    unfold core in Ec; injection Ec as Ep Ee Eh Er Eu Es; split;
    try (apply rows_same; [apply _|done]); rewrite ?Eu; try done.
  - by apply insert_subseteq.
  - eapply row_kept; [apply _|exact Er|]. intros r0 Hl0. rewrite Hl in Hl0. simplify_eq.
    by apply rf_moved.
Qed.

(** A step releases only the reservations it may release. *)
Lemma adm_step_releases P d d' id r r' :
  adm_step P d d' -> adm_ok d -> reservations d !! id = Some r -> reservations d' !! id = Some r' ->
  not_released r = true -> not_released r' = false -> P r.
Proof.
  intros Hs Hok Hl Hl' Hn Hn'. destruct Hs as [Ec|now keep Ec|h e p _ _ _ _ _ _ _ _ _ Ec
    |h e p _ _ _ _ _ _ _ _ Ec|h h' r0 n _ _ _ _ _ Hnone _ _ _ _ _ _ Ec|h h' _ _ _ _ _ Ec|h h' _ _ _ _ _ Ec
    |r0 r1 n Hl0 _ _ Hn1 _ Ec|r0 r1 n Hl0 _ HP _ _ _ Ec|k p _ _ Ec|a e _ _ _ _ Ec
    |u_id u e _ _ _ _ _ Ec|u_id u x v _ _ _ _ _ _ _ _ _ Ec];
    unfold core in Ec; injection Ec as Ep Ee Eh Er Eu Es; rewrite Er in Hl'; try congruence.
  - rewrite lookup_insert in Hl'. case_decide; congruence.
  - rewrite lookup_insert in Hl'. case_decide; congruence.
  - rewrite lookup_insert in Hl'. case_decide; simplify_eq; [done|congruence].
Qed.

Lemma outside_step_releases d d' id r r' :
  outside_step d d' -> reservations d !! id = Some r -> reservations d' !! id = Some r' ->
  not_released r = true -> not_released r' = true.
Proof.
  intros Hs Hl Hl' Hn. destruct Hs as [Ec|p a _ Ec|u_id u _ _ _ Ec|id0 r0 r1 Hl0 _ _ Hn1 Ec|p a n _ Ec];
    unfold core in Ec; injection Ec as Ep Ee Eh Er Eu Es; rewrite Er in Hl'; try congruence.
  rewrite lookup_insert in Hl'. case_decide; congruence.
Qed.

Lemma adm_steps_release P d d' id r r' :
  (forall x s b o t, P (with_reservation x s b o t) -> P x) ->
  rtc (adm_step P) d d' -> adm_ok d -> reservations d !! id = Some r ->
  reservations d' !! id = Some r' -> not_released r = true -> not_released r' = false -> P r.
Proof.
  intros HP Hs. revert r. induction Hs as [d|d1 d2 d3 H12 _ IH]; intros r Hok Hl Hl' Hn Hn';
    [congruence|].
  destruct (kept_reservation _ _ (adm_step_kept _ _ _ H12) _ _ Hl) as (r2 & Hl2 & Hf).
  destruct (not_released r2) eqn:Hn2.
  - assert (P r2) as HP2 by eauto with hostlet.
    destruct Hf as [->|(s & b & o & t & ->) _]; eauto.
  - by eapply adm_step_releases.
Qed.

(** ** Executions *)

Section Executions.
Context (parse_uuid : string -> option Uuid) (uuid_text : Uuid -> string)
  (hold_request_hash : CreateHoldRequest -> string) (admit_request_hash : AdmitRequest -> string)
  (fixture_hash : FixtureRequest -> string).

(** One request served, whatever its result; or a transaction of another component. *)
Inductive adm_api (env : Env) (w w' : World AdmDb) : Prop :=
| ad_request :
    adm_request parse_uuid uuid_text hold_request_hash admit_request_hash fixture_hash env w w' ->
    adm_api env w w'
| ad_outside : outside_step (db w) (db w') -> adm_api env w w'.

Lemma failed_observation q env w e w' :
  record_resource_observation fixture_hash q env w = (Err e, w') -> db w' = db w.
Proof.
  unfold record_resource_observation. intros H.
  apply lift_cases in H as [(? & _ & _ & ->)|(? & _ & H)]; [done|].
  apply transaction_cases in H as [(? & _ & ->)|H]; [done|].
  tx_inv H. case_hyp H; [by tx_inv H|]. tx_inv H. case_hyp H; [|by apply raise_Ok in H].
  by tx_inv H.
Qed.

(** The reservation whose cleanup this very step was told of. *)
Definition confirmed_in (env : Env) (w w' : World AdmDb) (r : Reservation) : Prop :=
  exists q res, record_resource_observation fixture_hash q env w = (res, w') /\ confirmed_by q r.

(** Every request is a sequence of ledger steps. *)
Lemma adm_request_steps env w w' :
  adm_request parse_uuid uuid_text hold_request_hash admit_request_hash fixture_hash env w w' ->
  adm_ok (db w) -> rtc (adm_step (confirmed_in env w w')) (db w) (db w').
Proof.
  intros Hs Hok.
  assert (Hno : rtc (adm_step no_release) (db w) (db w') ->
    rtc (adm_step (confirmed_in env w w')) (db w) (db w')) by (apply adm_steps_mono; intros r []).
  destruct Hs; lazymatch goal with
    | H : record_resource_observation _ _ _ _ = _ |- _ => clear Hno
    | _ => apply Hno
    end.
  - by eapply create_hold_steps.
  - by eapply admit_steps.
  - by eapply read_steps; [apply ro_get_hold|].
  - by eapply read_steps; [apply ro_get_reservation|].
  - by eapply read_steps; [apply ro_get_entitlement|].
  - by eapply reconcile_step.
  - by eapply rtc_once, put_capacity_fixture_steps.
  - by eapply rtc_once, put_entitlement_fixture_steps.
  - by eapply rtc_once, put_source_proof_steps.
  - eapply adm_steps_mono; [|by eapply record_resource_observation_steps].
    intros x Hx. by exists q, r.
  - by eapply record_build_usage_steps.
Qed.

Lemma adm_api_ok env w w' : adm_api env w w' -> adm_ok (db w) -> adm_ok (db w').
Proof.
  intros [Hr|Ho] Hok; [|by eapply outside_step_ok].
  eapply adm_steps_ok; [|exact Hok]. by eapply adm_request_steps.
Qed.

Lemma adm_apis_ok env w w' : rtc (adm_api env) w w' -> adm_ok (db w) -> adm_ok (db w').
Proof. induction 1; eauto using adm_api_ok. Qed.

Lemma adm_apis_kept env w w' : rtc (adm_api env) w w' -> adm_ok (db w) -> ledger_kept (db w) (db w').
Proof.
  induction 1 as [|w w1 w2 Hs _ IH]; intros Hok; [done|]. etrans; [|by eapply IH, adm_api_ok].
  destruct Hs as [Hr|Ho]; [|by apply outside_step_kept]. by eapply adm_steps_kept, adm_request_steps.
Qed.

(** An empty ledger, in which no project has a slot, is well formed. *)
Definition fresh_ledger (d : AdmDb) : Prop :=
  pools d = ∅ /\ entitlements d = ∅ /\ holds d = ∅ /\ reservations d = ∅ /\ usage d = ∅ /\
  forall p row, projects d !! p = Some row -> pj_slots row = 0%Z.

Lemma fresh_ledger_ok d : fresh_ledger d -> adm_ok d.
Proof.
  intros (Ep & Ee & Eh & Er & Eu & Es).
  assert (Hno : forall p, ~ active_in d p)
    by (intros p (id & r & Hl & _); by rewrite Er, lookup_empty in Hl).
  constructor.
  all: rewrite ?Ep, ?Ee, ?Eh, ?Er, ?Eu; intros *; rewrite ?lookup_empty; try done.
  - unfold build_net, usage_totals. by rewrite Eu.
  - unfold slots. rewrite lookup_fmap. intros (row & Hl & [= -> ->])%fmap_Some.
    right. by rewrite (Es _ _ Hl).
  - by intros ?%Hno.
Qed.

(** What the limits promise. *)
Record within_limits (d : AdmDb) : Prop := {
  account_slots : forall a e, entitlements d !! a = Some e ->
    (0 <= account_slot_use d a <= en_slots e)%Z;
  pool_slots : forall k p, pools d !! k = Some p -> (0 <= pool_slot_use d k <= cp_slots p)%Z;
  pool_headroom : forall k p, pools d !! k = Some p ->
    (0 <= pool_rollout_use d k <= cp_headroom p)%Z;
  one_slot : forall p row, projects d !! p = Some row -> pj_slots row = 0%Z \/ pj_slots row = 1%Z;
  credits_are_debited : forall a, (0 <= build_net d a)%Z;
}.

Lemma adm_ok_limits d : adm_ok d -> within_limits d.
Proof.
  intros Hok. constructor.
  - intros a e He. destruct (entitlement_rows d Hok _ _ He) as (_ & ?).
    split; [|done]. unfold account_slot_use. lia.
  - intros k p Hp. destruct (pool_rows d Hok _ _ Hp) as (? & _). split; [|done].
    unfold pool_slot_use. lia.
  - intros k p Hp. destruct (pool_rows d Hok _ _ Hp) as (_ & ?). split; [|done].
    unfold pool_rollout_use. lia.
  - intros p row Hp%slots_lookup. destruct (slot_rows d Hok _ _ _ Hp) as [->|[-> _]]; auto.
  - intros a. rewrite (net_is_uncredited d Hok). apply table_sum_nonneg. intros id u Hu.
    pose proof (usage_check_pos _ (usage_rows d Hok _ _ Hu)). unfold account_debit.
    repeat case_match; lia.
Qed.

(** C2: starting from an empty ledger, no interleaving of requests with what builds,
    tenant databases and the project graph do to the ledger ever oversells: an account
    never holds more slots than its entitlement, a pool never serves more slots or
    rollouts than it has, no project ever holds more than one slot, and no more build
    seconds are credited than were debited.  Builds debit what they ran, whatever the
    entitlement; but no request to admission takes an account beyond the build seconds
    of its entitlement. *)
Theorem admission_never_oversells env w w' :
  fresh_ledger (db w) -> rtc (adm_api env) w w' ->
  within_limits (db w') /\
  forall w2 a, adm_request parse_uuid uuid_text hold_request_hash admit_request_hash fixture_hash env w' w2 ->
    builds_within (db w') a -> builds_within (db w2) a.
Proof.
  intros Hf%fresh_ledger_ok Hs. pose proof (adm_apis_ok _ _ _ Hs Hf) as Hok.
  split; [by apply adm_ok_limits|]. intros w2 a Hr Hb.
  eapply adm_steps_builds; [|exact Hb]. by eapply adm_request_steps.
Qed.

(** every request, successful or not, keeps the ledger well formed. *)
Theorem admission_keeps_adm_ok env w w' :
  adm_ok (db w) -> rtc (adm_api env) w w' -> adm_ok (db w').
Proof. eauto using adm_apis_ok. Qed.

(** through any sequence of requests holds only move forward, released
    reservations stay released, and no usage event is ever changed. *)
Theorem admission_keeps_history env w w' :
  adm_ok (db w) -> rtc (adm_api env) w w' -> ledger_kept (db w) (db w').
Proof. eauto using adm_apis_kept. Qed.

(** C4: a project loses its slot only through a resource observation that
    confirms the cleanup of exactly that reservation, in its current epoch. *)
Theorem slots_released_by_confirmed_cleanup env w w' id r r' :
  adm_ok (db w) -> adm_api env w w' ->
  reservations (db w) !! id = Some r -> not_released r = true ->
  reservations (db w') !! id = Some r' -> not_released r' = false ->
  exists q resp, record_resource_observation fixture_hash q env w = (Ok resp, w') /\
    roq_outcome q = "cleanup_confirmed" /\ roq_reservation q = id /\ roq_epoch q = rv_epoch r.
Proof.
  intros Hok Hs Hl Hn Hl' Hn'.
  destruct Hs as [Hs|Ho]; [|by rewrite (outside_step_releases _ _ _ _ _ Ho Hl Hl' Hn) in Hn'].
  assert (confirmed_in env w w' r) as (q & res & Hq & Hout & Hid & Hep & _).
  { eapply (adm_steps_release (confirmed_in env w w')); eauto using adm_request_steps. }
  destruct res as [resp|e].
  - exists q, resp. rewrite <- (proj1 (reservation_rows _ Hok _ _ Hl)). done.
  - apply failed_observation in Hq. congruence.
Qed.
End Executions.

(** ** The owner's requests *)

Section OwnerRequests.
Context (parse_uuid : string -> option Uuid) (uuid_text : Uuid -> string)
  (hold_request_hash : CreateHoldRequest -> string) (admit_request_hash : AdmitRequest -> string).

(** An earlier answer to the same request of the account is stored. *)
Definition answered_before (d : AdmDb) (account : Uuid) (hash : string) : Prop :=
  exists operation key row, adm_idem d !! (account, operation, key) = Some row /\
    request_hash row = hash.

Lemma answered_before_row d account hash :
  answered_before d account hash ->
  exists_row (fun row => bool_decide (request_hash row = hash)) (adm_idem d) = true.
Proof.
  intros (operation & key & row & Hl & Hh). apply exists_row_spec.
  exists (account, operation, key), row. split; [done|]. by apply bool_decide_eq_true.
Qed.

Lemma replay_Match {T} (from_value : AdmissionResponse -> option T) actor operation key hash env w t w' :
  replay from_value actor operation key hash env w = (Ok (Match t), w') ->
  answered_before (db w) actor hash.
Proof.
  intros (-> & H)%replay_Ok. cbn in H. case_hyp H; [|done]. case_bool_decide; [|done].
  by eexists _, _, _.
Qed.

Lemma lifecycle_Ok account project deployment env w u w' li :
  ensure_lifecycle_allows_hold account project deployment env w = (Ok u, w') ->
  pending_intent (db w) account project = Some li ->
  exists x, deployments (db w) !! deployment = Some x /\ dp_lifecycle x = Healthy.
Proof.
  unfold ensure_lifecycle_allows_hold. intros H Hp. tx_inv H.
  case_hyp H; [|by apply raise_Ok in H]. rewrite Hp in H. tx_inv H. bool_simpl.
  unfold owned_deployment in Heqo. apply bind_Some in Heqo as (x & Hl & Hx).
  case_match; simplify_eq. eauto.
Qed.

Lemma admit_rollout_lifecycle account project deployment hold env w r w' :
  admit_rollout account project deployment hold env w = (Ok r, w') ->
  exists x, deployments (db w) !! deployment = Some x /\ dp_lifecycle x = AdmissionRequired.
Proof.
  unfold admit_rollout, consume_hold. intros H. tx_inv H.
  assert (exists t, w0 = MkWorld (set_holds t (db w)) (S (ticks w)) (drawn w)) as (t & ->).
  { apply update_hold_Ok in E as [(_ & _ & ->)|(_ & h & _ & _ & _ & ->)]; by eexists. }
  tx_reads. case_hyp H; [|by apply raise_Ok in H]. tx_inv H.
  apply rollout_admitted_core in E1 as (_ & Hx). exact Hx.
Qed.

(** What a successful admission that is not a replay has checked. *)
Lemma admit_Ok auth project_id deployment_id headers request env w resp w' :
  admit_hold parse_uuid uuid_text admit_request_hash auth project_id deployment_id headers request
    env w = (Ok resp, w') ->
  (db w' = db w /\ answered_before (db w) (account_id auth) (admit_request_hash request)) \/
  exists h, holds (db w) !! adq_hold request = Some h /\ h_state h = HActive /\
    h_account h = account_id auth /\
    (h_kind h = Rollout -> pending_intent (db w) (account_id auth) (h_project h) = None).
Proof.
  intros H. unfold admit_hold in H.
  do 4 (apply lift_cases in H as [(? & _ & [=] & _)|(? & _ & H)]).
  apply transaction_cases in H as [(? & [=] & _)|H].
  tx_inv H. tx_reads. case_hyp H; [|tx_inv H; tx_reads; left; split; [done|]; by eapply replay_Match|by apply raise_Ok in H].
  tx_inv H. tx_reads. right.
  match goal with E : expire_holds_for_scope _ _ _ _ = _ |- _ =>
    apply expire_holds_step in E as (d & -> & _ & _ & _ & _ & _ & Hdep & Hli & Hback) end.
  cbn [db ticks drawn] in *.
  case_hyp H; [|by apply raise_Ok in H]. case_hyp H; [by apply raise_Ok in H|].
  tx_step H. assert (db w0 = d /\ (v = false -> h_state h = HActive)) as [<- Hact].
  { match goal with E : (if _ then tret true else _) _ _ = _ |- _ => case_hyp E; tx_inv E end;
    bool_simpl; by split. }
  case_hyp H; [by tx_inv H|]. specialize (Hact eq_refl). bool_simpl.
  exists h. split_and!; [by apply Hback|done|done|]. intros Hk.
  destruct (pending_intent (db w) (account_id auth) (h_project h)) as [li|] eqn:Hp; [|done].
  exfalso. tx_inv H. tx_reads. rewrite Hk in *.
  match goal with E : ensure_lifecycle_allows_hold _ _ _ _ _ = _ |- _ =>
    eapply lifecycle_Ok in E as (y & Hy & Hh) end.
  - match goal with E : admit_rollout _ _ _ _ _ _ = _ |- _ =>
      apply admit_rollout_lifecycle in E as (z & Hz & Hr) end. cbn [db] in *. congruence.
  - cbn [db]. unfold pending_intent in *. by rewrite Hli.
Qed.

(** a hold that has been consumed, released or has expired is never admitted
    again: whatever requests follow, an admission of it fails, or repeats the
    stored answer of an earlier one and changes nothing. *)
Theorem holds_are_admitted_once fixture_hash env w0 w auth project_id deployment_id headers request
    h resp w' :
  adm_ok (db w0) -> holds (db w0) !! adq_hold request = Some h -> h_state h <> HActive ->
  rtc (adm_api parse_uuid uuid_text hold_request_hash admit_request_hash fixture_hash env) w0 w ->
  admit_hold parse_uuid uuid_text admit_request_hash auth project_id deployment_id headers request
    env w = (Ok resp, w') ->
  db w' = db w /\ answered_before (db w) (account_id auth) (admit_request_hash request).
Proof.
  intros Hok Hl Hs Hrun [H|(h' & Hl' & Hs' & _)]%admit_Ok; [done|].
  apply adm_apis_kept in Hrun; [|done].
  destruct (kept_hold _ _ Hrun _ _ Hl) as (h1 & Hl1 & Hf). rewrite Hl1 in Hl'. simplify_eq.
  destruct Hf; congruence.
Qed.

(** C33: while a lifecycle intent of the project is pending - a rollback, say -
    no rollout hold of the project can be admitted, although such holds are
    granted for the rollback's target: the admission requires the deployment to
    await admission, the pending rollback requires it to be healthy. *)
Theorem rollback_rollouts_are_never_admitted env w auth project_id deployment_id headers request
    h li r w' :
  holds (db w) !! adq_hold request = Some h -> h_kind h = Rollout ->
  pending_intent (db w) (account_id auth) (h_project h) = Some li ->
  ~ answered_before (db w) (account_id auth) (admit_request_hash request) ->
  admit_hold parse_uuid uuid_text admit_request_hash auth project_id deployment_id headers request
    env w = (r, w') ->
  exists e, r = Err e.
Proof.
  intros Hl Hk Hp Hno H. destruct r as [resp|e]; [|by exists e].
  apply admit_Ok in H as [(_ & ?)|(h' & Hl' & _ & _ & Hn)]; [done|].
  rewrite Hl in Hl'. simplify_eq. rewrite Hn in Hp by done. done.
Qed.

(** The record of a hold that was just read is refreshed to itself. *)
Lemma load_hold_again account project id rec env w :
  load_hold account project id env w = (Ok rec, w) -> adm_ok (db w) ->
  load_hold account (hr_project rec) (hr_id rec) env w = (Ok rec, w).
Proof.
  intros (_ & h & Hl & Ha & Hp & ->)%load_hold_Ok Hok. apply load_hold_Ok. split; [done|].
  exists h. simpl. by rewrite (proj1 (hold_rows _ Hok _ _ Hl)).
Qed.

(** Reads depend on the tables only. *)
Lemma refresh_other_world account response env w w2 r :
  refresh_admission_response account response env w = (Ok r, w) ->
  holds (db w2) = holds (db w) -> reservations (db w2) = reservations (db w) ->
  refresh_admission_response account response env w2 = (Ok r, w2).
Proof.
  intros (_ & Hh & Hr & Ha & He)%refresh_Ok Eh Er. apply refresh_Ok. split_and!; try done.
  - apply load_hold_Ok in Hh as (_ & Hh). apply load_hold_Ok. by rewrite Eh.
  - destruct (ar_reservation response); [|done]. destruct Hr as (rv' & Hl & ?). exists rv'.
    split; [|done]. apply load_reservation_Ok in Hl as (_ & Hl). apply load_reservation_Ok.
    by rewrite Er.
Qed.

(** Serving a request whose answer is stored, wherever the clock stands. *)
Lemma create_hold_replays auth project_id deployment_id headers request env w row resp
    project deployment revision key :
  path_uuid parse_uuid project_id = Ok project -> path_uuid parse_uuid deployment_id = Ok deployment ->
  if_match_revision headers = Ok revision -> idempotency_key headers = Ok key ->
  (5 <=? chq_ttl request)%Z && (chq_ttl request <=? 300)%Z = true ->
  adm_idem (db w) !! (account_id auth,
    "admission.hold.create/" +:+ uuid_text project +:+ "/" +:+ uuid_text deployment, key) = Some row ->
  request_hash row = hold_request_hash request ->
  refresh_admission_response (account_id auth) (response_body row) env w = (Ok resp, w) ->
  runs (create_hold parse_uuid uuid_text hold_request_hash auth project_id deployment_id headers
          request) env w (fun r w' => r = resp /\ db w' = db w).
Proof.
  intros Hp Hd Hrev Hkey Httl Hrow Hhash Href. unfold create_hold. rewrite Httl. simpl.
  tx_run. eapply runs_lift; [exact Hp|]. tx_run. eapply runs_lift; [exact Hd|].
  tx_run. eapply runs_lift; [exact Hrev|]. tx_run. eapply runs_lift; [exact Hkey|].
  tx_run. set (w1 := MkWorld _ _ _).
  eapply (runs_eq _ _ _ (Match (response_body row))).
  { unfold replay, tbind, get_db. cbn. rewrite Hrow, Hhash, bool_decide_eq_true_2 by done. done. }
  cbn. tx_run. eapply runs_eq; [by eapply refresh_other_world|]. tx_run. by exists resp.
Qed.


(** The stored answer of a request that succeeded; it is refreshed to itself. *)
Definition hold_answered (account project deployment : Uuid) (key hash : string)
    (resp : AdmissionResponse) (env : Env) (w : World AdmDb) : Prop :=
  exists row, adm_idem (db w) !! (account, "admission.hold.create/" +:+
    uuid_text project +:+ "/" +:+ uuid_text deployment, key) = Some row /\
    request_hash row = hash /\
    refresh_admission_response account (response_body row) env w = (Ok resp, w).

Lemma replayed_answer account project deployment key hash t env w w1 w2 resp :
  replay Some account ("admission.hold.create/" +:+ uuid_text project +:+ "/" +:+
    uuid_text deployment) key hash env w = (Ok (Match t), w1) ->
  refresh_admission_response account t env w1 = (Ok resp, w2) ->
  w2 = w /\ hold_answered account project deployment key hash resp env w.
Proof.
  intros [-> Hm]%replay_Ok Hr. pose proof Hr as [-> _]%refresh_Ok. split; [done|].
  cbn in Hm. case_hyp Hm; [|done]. case_bool_decide; [|done].
  destruct Hm as (? & [= <-] & [= ->]). eexists. split; [eassumption|]. by split.
Qed.

Lemma create_hold_stored auth project_id deployment_id headers request env w resp w' :
  adm_ok (db w) -> adm_ok (db w') ->
  create_hold parse_uuid uuid_text hold_request_hash auth project_id deployment_id headers request
    env w = (Ok resp, w') ->
  exists project deployment revision key,
    path_uuid parse_uuid project_id = Ok project /\
    path_uuid parse_uuid deployment_id = Ok deployment /\
    if_match_revision headers = Ok revision /\ idempotency_key headers = Ok key /\
    (5 <=? chq_ttl request)%Z && (chq_ttl request <=? 300)%Z = true /\
    hold_answered (account_id auth) project deployment key (hold_request_hash request) resp env w'.
Proof.
  intros Hok Hok' H. unfold create_hold in H. case_hyp H; [done|].
  apply lift_cases in H as [(? & _ & [=] & _)|(project & Hp & H)].
  apply lift_cases in H as [(? & _ & [=] & _)|(deployment & Hd & H)].
  apply lift_cases in H as [(? & _ & [=] & _)|(revision & Hrev & H)].
  apply lift_cases in H as [(? & _ & [=] & _)|(key & Hkey & H)].
  apply transaction_cases in H as [(? & [=] & _)|H].
  exists project, deployment, revision, key. split_and!; try done; [by apply negb_false_iff|].
  tx_inv H. case_hyp H; [|tx_inv H|by apply raise_Ok in H].
  2: { injection H as ->. by destruct (replayed_answer _ _ _ _ _ _ _ _ _ _ _ E E0) as [-> ?]. }
  tx_inv H. tx_reads. injection H as ->.
  repeat match goal with
  | E : expire_holds_for_scope _ _ _ _ = _ |- _ =>
      apply expire_holds_step in E as (d & -> & Hexp & _)
  | E : insert_hold _ _ _ = _ |- _ => apply insert_hold_Ok in E as (_ & _ & _ & ->)
  end.
  adm_side. eexists. split; [apply lookup_insert_eq|]. split; [done|]. cbn [response_body].
  apply adm_step_ok in Hexp; [|done].
  match goal with E : load_active_reservation _ _ _ _ = _ |- _ =>
    apply load_active_Ok in E as (_ & Hact); [|done] end.
  match goal with E : load_hold _ _ _ _ _ = (Ok ?rec, _) |- _ => apply load_hold_Ok in E as (_ & Hh) end.
  apply refresh_Ok. split_and!; try done.
  - eapply load_hold_again; [|done]. apply load_hold_Ok. split; [done|exact Hh].
  - cbn [ar_reservation] in *. case_match; [|done]. eexists. split; [|done].
    apply load_reservation_Ok. apply load_reservation_Ok in Hact as (_ & Hact). by split.
Qed.

(** repeating a hold request under its idempotency key returns the same hold
    and reserves nothing more. *)
Theorem create_hold_idempotent env w auth project_id deployment_id headers request resp w' w2 :
  adm_ok (db w) ->
  create_hold parse_uuid uuid_text hold_request_hash auth project_id deployment_id headers request
    env w = (Ok resp, w') ->
  db w2 = db w' ->
  exists w3, create_hold parse_uuid uuid_text hold_request_hash auth project_id deployment_id headers
    request env w2 = (Ok resp, w3) /\ db w3 = db w2.
Proof.
  intros Hok H E2. pose proof (create_hold_steps _ _ _ _ _ _ _ _ _ _ _ _ Hok H) as Hsteps.
  apply adm_steps_ok in Hsteps as Hok'; [|done].
  destruct (create_hold_stored _ _ _ _ _ _ _ _ _ Hok Hok' H)
    as (project & deployment & revision & key & Hp & Hd & Hrev & Hkey & Httl & row & Hrow & Hhash & Href).
  destruct (create_hold_replays auth project_id deployment_id headers request env w2 row resp
    project deployment revision key) as (r & w3 & Hr & -> & ?);
    [done|done|done|done|done|by rewrite E2|done| |by eauto].
  by eapply refresh_other_world; [exact Href|rewrite E2..].
Qed.
End OwnerRequests.

(** ** Trusted events *)

Section TrustedEvents.
Context (fixture_hash : FixtureRequest -> string).

(** What is due is expired, the rest is left alone. *)
Definition overdue (now : Z) (h : Hold) : bool := expirable now (fun _ => true) h.

(** reconciling always succeeds; it expires exactly the active holds whose
    time has passed, whatever their account, and records the refund intent of
    each initial hold among them. *)
Theorem reconcile_expires_overdue_holds env w :
  exists n w', reconcile env w = (Ok n, w') /\
  let now := clock env (ticks w) in
  (forall id h, holds (db w) !! id = Some h ->
    if overdue now h
    then holds (db w') !! id = Some (with_hold h HExpired (h_consumed h) (Some now)) /\
         (h_kind h = Initial -> is_Some (refunds (db w') !! id))
    else holds (db w') !! id = Some h) /\
  (forall id h, holds (db w') !! id = Some h -> overdue now h = false).
Proof.
  unfold reconcile, expire_holds, tbind, get_db, clock_timestamp, put_db, tret.
  eexists _, _. split; [reflexivity|]. cbn. split.
  - intros id h Hl. unfold overdue. destruct (expirable _ _ h) eqn:Hx.
    + rewrite lookup_fmap, Hl. cbn. rewrite Hx. split; [done|]. intros Hk.
      rewrite lookup_union_is_Some, lookup_omap, Hl. cbn.
      rewrite Hx, bool_decide_eq_true_2 by done. eauto.
    + rewrite lookup_fmap, Hl. cbn. by rewrite Hx.
  - intros id h Hl. rewrite lookup_fmap in Hl. apply fmap_Some in Hl as (h0 & _ & ->).
    unfold overdue. destruct (expirable _ _ h0) eqn:Hx; [|done].
    unfold expirable. simpl. done.
Qed.

(** How an event ends up in the ledger. *)
Definition usage_accounted (d d' : AdmDb) (q : BuildUsageRequest) (limit : Z) : Prop :=
  let a := buq_account q in
  if bool_decide (buq_kind q = "debit")
  then build_net d' a = (build_net d a + buq_seconds q)%Z /\ (build_net d' a <= limit)%Z
  else build_net d' a = (build_net d a - buq_seconds q)%Z /\
       exists x v, buq_debit q = Some x /\ usage d !! x = Some v /\ u_kind v = Debit /\
         u_account v = a /\ u_seconds v = buq_seconds q /\ credited (usage d) x = false.

Lemma record_debit_accounted q e env w u w' :
  buq_kind q = "debit" -> record_debit q e env w = (Ok u, w') ->
  usage_accounted (db w) (db w') q (en_build_seconds e) /\
  (forall a, a <> buq_account q -> build_net (db w') a = build_net (db w) a).
Proof.
  intros Hk H. unfold record_debit in H. tx_inv H.
  destruct (usage_totals (db w) (buq_account q)) as [debited credits] eqn:Hu. tx_inv H.
  apply insert_usage_Ok in H as (Hn & Hc & ->). bool_simpl. cbn [db].
  assert (Hb : build_net (db w) (buq_account q) = (debited - credits)%Z)
    by (unfold build_net; by rewrite Hu).
  match goal with |- usage_accounted _ ?d' _ _ /\ _ =>
    pose proof (fun a => build_net_debit (db w) d' _ _ a Hn eq_refl eq_refl) as Hnet end.
  cbn [u_account u_seconds] in Hnet. unfold usage_accounted. rewrite Hk, bool_decide_eq_true_2 by done.
  split; [|intros a Ha]; rewrite Hnet.
  - rewrite N.eqb_refl. lia.
  - apply not_eq_sym, N.eqb_neq in Ha. rewrite Ha. lia.
Qed.

Lemma record_credit_accounted q e env w u w' :
  buq_kind q <> "debit" -> record_credit q e env w = (Ok u, w') ->
  usage_accounted (db w) (db w') q (en_build_seconds e) /\
  (forall a, a <> buq_account q -> build_net (db w') a = build_net (db w) a).
Proof.
  intros Hk H. unfold record_credit in H. tx_inv H.
  case_hyp H; [|by apply raise_Ok in H]. case_hyp H; [|by apply raise_Ok in H]. tx_inv H.
  apply insert_usage_Ok in H as (Hn & Hc & ->). bool_simpl. cbn [db].
  match goal with |- usage_accounted _ ?d' _ _ /\ _ =>
    pose proof (fun a => build_net_credit (db w) d' _ _ a Hn eq_refl eq_refl) as Hnet end.
  cbn [u_account u_seconds] in Hnet. unfold usage_accounted. rewrite bool_decide_eq_false_2 by done.
  split; [|intros a Ha]; rewrite Hnet.
  - rewrite N.eqb_refl. split; [lia|]. eauto 10.
  - apply not_eq_sym, N.eqb_neq in Ha. rewrite Ha. lia.
Qed.

(** a build-usage event that is not a repetition is accounted exactly: a
    debit adds its seconds to the account's use, which stays within the
    entitlement; a credit takes back precisely the seconds of one debit of the
    account that no other credit has taken back; no other account is affected,
    and the answer states what is left. *)
Theorem build_usage_is_accounted env w q resp w' :
  receipts (db w) !! buq_event q = None ->
  record_build_usage fixture_hash q env w = (Ok resp, w') ->
  exists e, entitlements (db w) !! buq_account q = Some e /\
    usage_accounted (db w) (db w') q (en_build_seconds e) /\
    (forall a, a <> buq_account q -> build_net (db w') a = build_net (db w) a) /\
    bur_remaining resp = (en_build_seconds e - build_net (db w') (buq_account q))%Z.
Proof.
  intros Hnew H. unfold record_build_usage in H.
  apply lift_cases in H as [(? & _ & [=] & _)|(? & _ & H)].
  apply transaction_cases in H as [(? & [=] & _)|H].
  tx_inv H. tx_reads.
  match goal with E : fixture_replay _ _ _ _ _ _ _ = _ |- _ =>
    unfold fixture_replay in E; tx_inv E; rewrite Hnew in E; tx_inv E end.
  tx_inv H. tx_reads.
  match goal with E : lock_entitlement_and_pool _ _ _ = (Ok ?e, _) |- _ =>
    rename e into ent; apply lock_entitlement_Ok in E as (He & _); exists ent end.
  match goal with E : (if _ then ensure_entitlement_active _ else _) _ _ = (_, ?w1) |- _ =>
    assert (db w1 = db w) as Hw by (case_hyp E; [apply ro_entitlement_active in E|]; by tx_inv E);
    clear E end.
  destruct (usage_totals _ _) as [debited credits] eqn:Hu. tx_inv H. adm_side.
  injection H as ->. cbn [bur_remaining]. split; [done|].
  match goal with E : (if _ then record_debit _ _ else record_credit _ _) _ _ = (_, ?w1) |- _ =>
    assert (usage_accounted (db w) (db w1) q (en_build_seconds ent) /\
      (forall a, a <> buq_account q -> build_net (db w1) a = build_net (db w) a)) as (Hacc & Hothers);
    [rewrite <- Hw; case_hyp E;
       [eapply record_debit_accounted|eapply record_credit_accounted]; try exact E; by bool_simpl|]
  end.
  split; [exact Hacc|]. split; [exact Hothers|].
  unfold usage_totals in Hu. injection Hu as <- <-. unfold build_net, usage_totals. cbn. lia.
Qed.

Lemma fixture_replay_stored {T} (from_value : FixtureBody -> option T) event kind kind' request
    request' body t env w :
  receipts (db w) !! event = Some {| rc_kind := kind; rc_hash := fixture_hash request; rc_body := body |} ->
  from_value body = Some t ->
  fixture_replay fixture_hash from_value event kind' request' env w =
    (if bool_decide (kind = kind') && bool_decide (fixture_hash request = fixture_hash request')
     then Ok (Some t)
     else Err (conflict "fixture_event_payload_changed"
                 "the fixture event id was reused with a different operation or payload"), w).
Proof.
  intros Hr Ht. unfold fixture_replay, tbind, get_db. cbn. rewrite Hr. cbn.
  case_match; [|done]. by rewrite Ht.
Qed.

Lemma fixture_replay_Ok {T} (from_value : FixtureBody -> option T) event kind request env w t w' :
  fixture_replay fixture_hash from_value event kind request env w = (Ok (Some t), w') ->
  exists body, w' = w /\ from_value body = Some t /\
    receipts (db w) !! event =
      Some {| rc_kind := kind; rc_hash := fixture_hash request; rc_body := body |}.
Proof.
  unfold fixture_replay. intros H. tx_inv H. case_hyp H; [|by tx_inv H].
  case_hyp H; [|by apply raise_Ok in H]. case_hyp H; [|by apply raise_Ok in H]. tx_inv H.
  bool_simpl. destruct r; simpl in *; subst. eauto.
Qed.

Definition usage_kind_name (q : BuildUsageRequest) : string :=
  if bool_decide (buq_kind q = "debit") then "build_debit" else "platform_fault_credit".

Lemma build_usage_stored env w q resp w' :
  record_build_usage fixture_hash q env w = (Ok resp, w') ->
  validate_build_usage q = Ok tt /\
  receipts (db w') !! buq_event q = Some {| rc_kind := usage_kind_name q;
    rc_hash := fixture_hash (FxUsage q); rc_body := BUsage resp |}.
Proof.
  intros H. unfold record_build_usage in H.
  apply lift_cases in H as [(? & _ & [=] & _)|([] & Hv & H)]. split; [done|].
  apply transaction_cases in H as [(? & [=] & _)|H].
  tx_inv H. case_hyp H.
  - apply fixture_replay_Ok in E as (body & -> & Hb & Hr). tx_inv H. injection H as ->.
    rewrite Hr. destruct body; simplify_eq/=. done.
  - tx_inv H. destruct (usage_totals _ _) as [debited credits]. tx_inv H.
    match goal with E : store_fixture _ _ _ _ _ _ _ = _ |- _ =>
      apply store_fixture_Ok in E as (_ & ->) end.
    injection H as ->. cbn. by rewrite lookup_insert_eq.
Qed.

(** a build-usage event counts once: delivering it again returns the first
    answer and changes nothing, and delivering another payload under its event
    id is refused without effect. *)
Theorem build_usage_counts_once env w q resp w' w2 q2 :
  record_build_usage fixture_hash q env w = (Ok resp, w') -> db w2 = db w' ->
  buq_event q2 = buq_event q -> validate_build_usage q2 = Ok tt ->
  exists w3, db w3 = db w2 /\
  record_build_usage fixture_hash q2 env w2 =
    (if bool_decide (usage_kind_name q = usage_kind_name q2)
        && bool_decide (fixture_hash (FxUsage q) = fixture_hash (FxUsage q2))
     then Ok resp
     else Err (conflict "fixture_event_payload_changed"
                 "the fixture event id was reused with a different operation or payload"), w3).
Proof.
  intros H E2 He Hv. apply build_usage_stored in H as (_ & Hr). rewrite <- E2, <- He in Hr.
  eexists (MkWorld (db w2) (ticks w2) (drawn w2)). split; [done|].
  pose proof (fixture_replay_stored (fun b => match b with BUsage r => Some r | _ => None end)
    _ _ (usage_kind_name q2) _ (FxUsage q2) _ resp env w2 Hr eq_refl) as Hrep.
  unfold record_build_usage.
  rewrite (tbind_run (lift (validate_build_usage q2)) _ env w2 (Ok tt) w2) by (unfold lift; by rewrite Hv).
  unfold transaction. fold (usage_kind_name q2). rewrite (tbind_run _ _ _ _ _ _ Hrep).
  by destruct w2; case_match.
Qed.
End TrustedEvents.

(** ** A concrete run *)

Module Demo.
Definition parse (s : string) : option Uuid :=
  if bool_decide (s = "10") then Some 10%N else if bool_decide (s = "20") then Some 20%N else None.
Definition text (u : Uuid) : string := pretty u.
Definition hold_hash (r : CreateHoldRequest) : string := pretty (chq_proof r).
Definition admit_hash (r : AdmitRequest) : string := pretty (adq_hold r).
Definition event_hash (q : FixtureRequest) : string :=
  match q with FxUsage u => "usage:" +:+ pretty (buq_seconds u) | _ => "event" end.

Definition env : Env := {|
  clock := Z.of_nat; fresh := fun n => N.of_nat (100 + n); row_locked := fun _ _ => false |}.
Definition owner : Authenticated := {| account_id := 1; session_id := 2 |}.
Definition quoted (s : string) : string :=
  String (Ascii.ascii_of_nat 34) (s +:+ String (Ascii.ascii_of_nat 34) EmptyString).
Definition headers (key revision : string) : Headers := {|
  h_idempotency_key := Some (Some key); h_if_match := Some (Some (quoted revision)) |}.

Definition project : Project := {|
  pj_account := 1; pj_slots := 0; pj_slot_state := SAdmissionRequired; pj_config := Some 30%N;
  pj_revision := 1 |}.
Definition deployment : Deployment := {|
  dp_account := 1; dp_project := 10; dp_config := 30; dp_commit := "c0ffee";
  dp_lifecycle := AdmissionRequired |}.
Definition proof : SourceProof := {|
  sp_account := 1; sp_project := 10; sp_deployment := 20; sp_config := 30; sp_commit := "c0ffee";
  sp_inventory := 1; sp_state := PValid; sp_expires := 1000 |}.
Definition d0 : AdmDb := MkAdmDb ∅ ∅ {[ 40%N := proof ]} ∅ ∅ ∅ ∅ ∅ ∅ {[ 10%N := project ]}
  {[ 20%N := deployment ]} ∅ [] ∅ ∅ ∅ ∅ ∅ [].
Definition w0 : World AdmDb := MkWorld d0 0 0.

(** A pool and an entitlement with one slot each are supplied, the owner reserves
    the slot and admits the deployment, and an hour of building is debited. *)
Definition pooled := put_capacity_fixture event_hash {|
  cfq_event := 201; cfq_pool := "pool"; cfq_profile := "standard"; cfq_slots := 1;
  cfq_headroom := 1 |} env w0.
Definition w1 := snd pooled.
Definition entitled := put_entitlement_fixture event_hash {|
  efq_event := 202; efq_account := 1; efq_pool := "pool"; efq_slots := 1;
  efq_build_seconds := 7200; efq_starts := 0; efq_ends := 5000; efq_state := "active" |} env w1.
Definition w2 := snd entitled.
Definition hold_request : CreateHoldRequest := {| chq_proof := 40; chq_ttl := 300 |}.
Definition held := create_hold parse text hold_hash owner "10" "20" (headers "hold" "1") hold_request
                     env w2.
Definition w3 := snd held.
Definition admit_request : AdmitRequest := {| adq_hold := 101 |}.
Definition admitted := admit_hold parse text admit_hash owner "10" "20" (headers "admit" "1") admit_request
                         env w3.
Definition w4 := snd admitted.
Definition usage_event (seconds : Z) : BuildUsageRequest := {|
  buq_event := 203; buq_account := 1; buq_project := 10; buq_deployment := 20; buq_attempt := 50;
  buq_kind := "debit"; buq_seconds := seconds; buq_debit := None; buq_fault := None |}.
Definition debited := record_build_usage event_hash (usage_event 3600) env w4.
Definition w5 := snd debited.
Definition cleanup : ResourceObservationRequest := {|
  roq_event := 204; roq_account := 1; roq_project := 10; roq_deployment := 20;
  roq_reservation := 102; roq_epoch := 103; roq_outcome := "cleanup_confirmed";
  roq_inventory := "none"; roq_proof := "receipt"; roq_hold := None |}.
Definition cleaned := record_resource_observation event_hash cleanup env w5.
Definition w6 := snd cleaned.

Example demo_run :
  is_ok (fst pooled) = true /\ is_ok (fst entitled) = true /\ is_ok (fst held) = true /\
  is_ok (fst admitted) = true /\ is_ok (fst debited) = true /\ is_ok (fst cleaned) = true.
Proof. vm_compute. split_and!; reflexivity. Qed.

Definition step := adm_api parse text hold_hash admit_hash event_hash env.

Lemma d0_fresh : fresh_ledger d0.
Proof.
  unfold fresh_ledger. split_and!; try reflexivity. intros p row Hl. cbn in Hl.
  rewrite lookup_singleton in Hl. case_decide; by simplify_eq.
Qed.

Lemma step1 : step w0 w1.
Proof. eapply ad_request, aq_capacity. exact (surjective_pairing pooled). Qed.
Lemma step2 : step w1 w2.
Proof. eapply ad_request, aq_entitlement. exact (surjective_pairing entitled). Qed.
Lemma step3 : step w2 w3.
Proof. eapply ad_request, aq_create_hold. exact (surjective_pairing held). Qed.
Lemma step4 : step w3 w4.
Proof. eapply ad_request, aq_admit. exact (surjective_pairing admitted). Qed.
Lemma step5 : step w4 w5.
Proof. eapply ad_request, aq_usage. exact (surjective_pairing debited). Qed.
Lemma step6 : step w5 w6.
Proof. eapply ad_request, aq_observation. exact (surjective_pairing cleaned). Qed.

Lemma steps_ok w w' : step w w' -> adm_ok (db w) -> adm_ok (db w').
Proof. apply adm_api_ok. Qed.

Lemma supplied_ok : adm_ok (db w2).
Proof. exact (steps_ok w1 w2 step2 (steps_ok w0 w1 step1 (fresh_ledger_ok d0 d0_fresh))). Qed.
Lemma admitted_ok : adm_ok (db w4).
Proof. exact (steps_ok w3 w4 step4 (steps_ok w2 w3 step3 supplied_ok)). Qed.
Lemma debited_ok : adm_ok (db w5).
Proof. exact (steps_ok w4 w5 step5 admitted_ok). Qed.

Lemma run_2_4 : rtc step w2 w4.
Proof. exact (rtc_l step w2 w3 w4 step3 (rtc_once w3 w4 step4)). Qed.
Lemma run_0_4 : rtc step w0 w4.
Proof. exact (rtc_l step w0 w1 w4 step1 (rtc_l step w1 w2 w4 step2 run_2_4)). Qed.
Lemma run_4_6 : rtc step w4 w6.
Proof. exact (rtc_l step w4 w5 w6 step5 (rtc_once w5 w6 step6)). Qed.

(** A build then runs longer than the entitlement allows, and is debited all the same. *)
Definition overrun : Usage := {|
  u_account := 1; u_project := 10; u_deployment := 20; u_entitlement := 100; u_attempt := 51;
  u_kind := Debit; u_seconds := 9000; u_debit := None; u_fault := None |}.
Definition w4' : World AdmDb := MkWorld (set_usage (<[300%N := overrun]> (usage (db w4))) (db w4)) 9 9.
Lemma step_overrun : step w4 w4'.
Proof. apply ad_outside. apply (os_debit _ _ 300%N overrun); vm_compute; reflexivity. Qed.
Lemma run_0_4' : rtc step w0 w4'.
Proof. eapply rtc_r; [exact run_0_4|exact step_overrun]. Qed.
Lemma usage_request_4 : adm_request parse text hold_hash admit_hash event_hash env w4 w5.
Proof. eapply aq_usage. exact (surjective_pairing debited). Qed.
Lemma builds_within_4 : builds_within (db w4) 1.
Proof.
  intros e He. assert (option_map en_build_seconds (entitlements (db w4) !! 1%N) = Some 7200%Z) as H
    by (vm_compute; reflexivity). rewrite He in H. injection H as ->. vm_compute. discriminate.
Qed.

(** The one slot of the account and of the pool is taken; the hour is within the
    allowance; and the limits hold when a build overruns it. *)
Lemma admission_never_oversells_witness :
  account_slot_use (db w4) 1 = 1%Z /\ pool_slot_use (db w4) "pool" = 1%Z /\ within_limits (db w4) /\
  builds_within (db w5) 1 /\ build_net (db w4') 1 = 9000%Z /\ within_limits (db w4').
Proof.
  split; [vm_compute; reflexivity|]. split; [vm_compute; reflexivity|].
  destruct (admission_never_oversells parse text hold_hash admit_hash event_hash env w0 w4
    d0_fresh run_0_4) as [Hl Hb].
  split; [exact Hl|]. split; [exact (Hb w5 1%N usage_request_4 builds_within_4)|].
  split; [vm_compute; reflexivity|].
  exact (proj1 (admission_never_oversells parse text hold_hash admit_hash event_hash env w0 w4'
    d0_fresh run_0_4')).
Defined.

Lemma admission_keeps_adm_ok_witness : size (holds (db w4)) = 1%nat /\ adm_ok (db w4).
Proof.
  split; [vm_compute; reflexivity|].
  exact (admission_keeps_adm_ok parse text hold_hash admit_hash event_hash env w2 w4 supplied_ok run_2_4).
Defined.

Lemma admission_keeps_history_witness :
  size (usage (db w6)) = 1%nat /\ ledger_kept (db w4) (db w6).
Proof.
  split; [vm_compute; reflexivity|].
  exact (admission_keeps_history parse text hold_hash admit_hash event_hash env w4 w6 admitted_ok run_4_6).
Defined.

Lemma slots_released_by_confirmed_cleanup_witness :
  exists r q resp, reservations (db w5) !! 102%N = Some r /\
    record_resource_observation event_hash q env w5 = (Ok resp, w6) /\
    roq_outcome q = "cleanup_confirmed" /\ roq_reservation q = 102%N /\ roq_epoch q = rv_epoch r.
Proof.
  assert (exists r, reservations (db w5) !! 102%N = Some r /\ not_released r = true) as (r & Hl & Hn)
    by (eexists; split; vm_compute; reflexivity).
  assert (exists r, reservations (db w6) !! 102%N = Some r /\ not_released r = false) as (r' & Hl' & Hn')
    by (eexists; split; vm_compute; reflexivity).
  destruct (slots_released_by_confirmed_cleanup parse text hold_hash admit_hash event_hash env w5 w6
    102 r r' debited_ok step6 Hl Hn Hl' Hn') as (q & resp & H).
  exists r, q, resp. split; [exact Hl|exact H].
Defined.

(** Admitting the hold again, under the same key, repeats the stored answer. *)
Definition admitted_again :=
  admit_hold parse text admit_hash owner "10" "20" (headers "admit" "1") admit_request env w6.

Lemma holds_are_admitted_once_witness :
  is_ok (fst admitted_again) = true /\
  db (snd admitted_again) = db w6 /\ answered_before (db w6) 1 (admit_hash admit_request).
Proof.
  assert (exists resp, fst admitted_again = Ok resp) as (resp & Hr) by (eexists; vm_compute; reflexivity).
  assert (exists h, holds (db w4) !! adq_hold admit_request = Some h /\ h_state h <> HActive)
    as (h & Hl & Hs) by (eexists; split; [vm_compute; reflexivity|discriminate]).
  split; [by rewrite Hr|].
  apply (holds_are_admitted_once parse text hold_hash admit_hash event_hash env w4 w6 owner "10" "20"
    (headers "admit" "1") admit_request h resp (snd admitted_again) admitted_ok Hl Hs run_4_6).
  rewrite <- Hr. exact (surjective_pairing admitted_again).
Defined.

Lemma create_hold_idempotent_witness :
  exists resp w', fst held = Ok resp /\
    create_hold parse text hold_hash owner "10" "20" (headers "hold" "1") hold_request env w3
      = (Ok resp, w') /\ db w' = db w3.
Proof.
  assert (exists resp, fst held = Ok resp) as (resp & Hr) by (eexists; vm_compute; reflexivity).
  assert (Hh : held = (Ok resp, w3)) by (rewrite <- Hr; exact (surjective_pairing held)).
  destruct (create_hold_idempotent parse text hold_hash env w2 owner "10" "20" (headers "hold" "1")
    hold_request resp w3 w3 supplied_ok Hh eq_refl) as (w' & H & E).
  exists resp, w'. split; [exact Hr|]. split; [exact H|exact E].
Defined.

Lemma build_usage_is_accounted_witness :
  exists resp e, fst debited = Ok resp /\ entitlements (db w4) !! 1%N = Some e /\
    build_net (db w5) 1 = 3600%Z /\
    bur_remaining resp = (en_build_seconds e - build_net (db w5) 1)%Z.
Proof.
  assert (exists resp, fst debited = Ok resp) as (resp & Hr) by (eexists; vm_compute; reflexivity).
  destruct (build_usage_is_accounted event_hash env w4 (usage_event 3600) resp w5)
    as (e & He & (Hn & _) & _ & Hrem).
  - vm_compute. reflexivity.
  - rewrite <- Hr. exact (surjective_pairing debited).
  - exists resp, e. split; [exact Hr|]. split; [exact He|]. split; [|exact Hrem].
    vm_compute. reflexivity.
Defined.

(** The same event with other seconds is refused. *)
Lemma build_usage_counts_once_witness :
  exists w', db w' = db w5 /\
    record_build_usage event_hash (usage_event 1800) env w5 =
      (Err (conflict "fixture_event_payload_changed"
              "the fixture event id was reused with a different operation or payload"), w').
Proof.
  assert (exists resp, fst debited = Ok resp) as (resp & Hr) by (eexists; vm_compute; reflexivity).
  apply (build_usage_counts_once event_hash env w4 (usage_event 3600) resp w5 w5 (usage_event 1800)).
  - rewrite <- Hr. exact (surjective_pairing debited).
  - reflexivity.
  - reflexivity.
  - vm_compute. reflexivity.
Defined.

(** A rollback to the healthy deployment: its rollout hold is granted, and its
    admission fails with an internal error. *)
Definition healthy : ResourceObservationRequest := {|
  roq_event := 205; roq_account := 1; roq_project := 10; roq_deployment := 20;
  roq_reservation := 102; roq_epoch := 103; roq_outcome := "deployment_healthy";
  roq_inventory := "runtime"; roq_proof := "receipt"; roq_hold := None |}.
Definition serving := snd (record_resource_observation event_hash healthy env w4).
Definition rollback : LifecycleIntent := {|
  li_account := 1; li_project := 10; li_kind := Rollback; li_target := Some 20%N;
  li_state := Requested |}.
Definition with_intent (d : AdmDb) : AdmDb :=
  MkAdmDb (pools d) (entitlements d) (proofs d) (holds d) (reservations d) (observations d)
    (usage d) (refunds d) (receipts d) (projects d) (deployments d) {[ 60%N := rollback ]}
    (hosting_events d) (user_authorizations d) (installations d) (bindings d) (source_revisions d)
    (adm_idem d) (adm_audits d).
Definition asked := MkWorld (with_intent (db serving)) (ticks serving) (drawn serving).
Definition granted :=
  create_hold parse text hold_hash owner "10" "20" (headers "rollback" "2") hold_request env asked.
Definition rollout_request : AdmitRequest := {| adq_hold := 104 |}.

Lemma rollback_rollouts_are_never_admitted_witness :
  is_ok (fst granted) = true /\
  fst (admit_hold parse text admit_hash owner "10" "20" (headers "rollout" "2") rollout_request env
         (snd granted)) = Err internal /\
  exists e, fst (admit_hold parse text admit_hash owner "10" "20" (headers "rollout" "2") rollout_request
    env (snd granted)) = Err e.
Proof.
  split; [vm_compute; reflexivity|]. split; [vm_compute; reflexivity|].
  assert (exists h, holds (db (snd granted)) !! adq_hold rollout_request = Some h /\
    h_kind h = Rollout /\ pending_intent (db (snd granted)) (account_id owner) (h_project h) = Some rollback)
    as (h & Hl & Hk & Hp) by (eexists; split_and!; vm_compute; reflexivity).
  eapply (rollback_rollouts_are_never_admitted parse text admit_hash env (snd granted) owner "10" "20"
    (headers "rollout" "2") rollout_request h rollback _ _ Hl Hk Hp); [|apply surjective_pairing].
  intros Hans%answered_before_row.
  assert (exists_row (fun row => bool_decide (request_hash row = admit_hash rollout_request))
    (adm_idem (db (snd granted))) = false) as Hno by (vm_compute; reflexivity).
  rewrite Hno in Hans. discriminate Hans.
Defined.
End Demo.
