(* ===== verification/Wire.v ===== *)
(** * Streams, frames and paths of the build protocol

    What crates/builder and its counterpart in the control service read and
    write: byte streams whose reads may return fewer bytes than asked for,
    big-endian integers and length-prefixed strings, and the components of a path
    ([Path::components]).
    Strings are the bytes of their UTF-8 encoding.  A read fails only at the end
    of the data; other I/O errors are not modelled. *)

From stdpp Require Import base list option gmap strings.
From Stdlib Require Import ZArith Lia.
From S2P Require Import Prelude RustText Bytes.

Local Open Scope Z_scope.
Local Open Scope list_scope.

(** ** Errors *)

Inductive ErrorKind :=
| InvalidData | UnexpectedEof | FileTooLarge | AlreadyExists | NotADirectory | NotFound | Other.

#[export] Instance ErrorKind_eq : EqDecision ErrorKind.
Proof. solve_decision. Defined.

(** [io::Error]: its kind, and its message or the typed cause it carries. *)
Inductive Cause :=
| Message (message : string)
| OutputLimitExceeded (code : string)
| OutputInvalid.
Record IoError := IoErr { kind : ErrorKind; cause : Cause }.

Definition invalid (message : string) : IoError := IoErr InvalidData (Message message).
Definition unexpected_eof (message : string) : IoError := IoErr UnexpectedEof (Message message).

(** ** Computations

    State passing with errors; what was done before an error stays done. *)
Definition IO (S A : Type) : Type := S -> res IoError A * S.

Definition io_ret {S A} (a : A) : IO S A := fun s => (Ok a, s).
Definition io_raise {S A} (e : IoError) : IO S A := fun s => (Err e, s).
Definition io_lift {S A} (r : res IoError A) : IO S A := fun s => (r, s).
Definition io_get {S} : IO S S := fun s => (Ok s, s).
Definition io_put {S} (s : S) : IO S unit := fun _ => (Ok tt, s).
Definition io_bind {S A B} (m : IO S A) (k : A -> IO S B) : IO S B := fun s =>
  match m s with
  | (Ok a, s') => k a s'
  | (Err e, s') => (Err e, s')
  end.
Definition io_reject {S} (cond : bool) (e : IoError) : IO S unit :=
  if cond then io_raise e else io_ret tt.

Declare Scope io_scope.
Delimit Scope io_scope with io.
Notation "'let!' x := m 'in' k" := (io_bind m (fun x => k))
  (at level 10, x pattern, m at level 100, k at level 200) : io_scope.
Notation "'do!' m 'in' k" := (io_bind m (fun _ => k))
  (at level 10, m at level 100, k at level 200) : io_scope.
Open Scope io_scope.

(** ** Streams *)

(** The bytes still to come, and how many bytes the successive reads return. *)
Record Stream := MkStream { pending : bytes; reads : nat; sizes : nat -> nat }.

(** A state with an input stream. *)
Class HasStream (S : Type) := {
  stream : S -> Stream;
  set_stream : Stream -> S -> S;
}.
Class HasStreamLaws (S : Type) `{HasStream S} := {
  stream_set : forall t s, stream (set_stream t s) = t;
  set_set : forall t t' s, set_stream t (set_stream t' s) = set_stream t s;
  set_same : forall s, set_stream (stream s) s = s;
}.

Definition skip (n : nat) (t : Stream) : Stream :=
  MkStream (drop n (pending t)) (reads t) (sizes t).

(** How many bytes the next [read] into a buffer of [wanted] bytes returns. *)
Definition read_size (wanted : nat) (t : Stream) : nat :=
  Nat.min (Nat.max 1 (sizes t (reads t))) (Nat.min wanted (length (pending t))).

Section Reading.
Context {S : Type} `{HasStream S}.

(** [Read::read] into a buffer of [wanted] bytes: no bytes only at the end. *)
Definition read (wanted : nat) : IO S bytes := fun s =>
  let t := stream s in
  let n := read_size wanted t in
  (Ok (take n (pending t)), set_stream (MkStream (drop n (pending t)) (Datatypes.S (reads t)) (sizes t)) s).

(** [Read::read_exact]. *)
Definition read_exact (n : nat) : IO S bytes := fun s =>
  let t := stream s in
  if (n <=? length (pending t))%nat
  then (Ok (take n (pending t)), set_stream (skip n t) s)
  else (Err (unexpected_eof "failed to fill whole buffer"), set_stream (skip (length (pending t)) t) s).

(** [read_u8], [read_u16], [read_u32] and [read_u64]. *)
Definition read_be (n : nat) : IO S Z :=
  let! bs := read_exact n in io_ret (be_val bs).
End Reading.

(** [io::copy(reader.take(size), file)]: what was copied. *)
Definition copy_take {S} `{HasStream S} (size : Z) : IO S bytes := fun s =>
  let t := stream s in
  let n := Z.to_nat (Z.min size (Z.of_nat (length (pending t)))) in
  (Ok (take n (pending t)), set_stream (skip n t) s).

(** ** Order *)

(** [str]'s order: that of the bytes. *)
Fixpoint bytes_lt (a b : bytes) : bool :=
  match a, b with
  | _, [] => false
  | [], _ :: _ => true
  | x :: a', y :: b' => (x <? y) || (x =? y) && bytes_lt a' b'
  end.

(** ** Paths *)

Inductive Component := RootDir | CurDir | ParentDir | Normal (name : bytes).

Definition slash : Z := 47.
Definition dot : bytes := [46].
Definition dotdot : bytes := [46; 46].

(** [Path::components] on Unix: empty segments and inner [.] are dropped. *)
Definition component (segment : bytes) : option Component :=
  if bool_decide (segment = []) || bool_decide (segment = dot) then None
  else if bool_decide (segment = dotdot) then Some ParentDir
  else Some (Normal segment).

Definition is_absolute (path : bytes) : bool := starts_with [slash] path.

Definition components (path : bytes) : list Component :=
  match split_on slash path with
  | first :: rest =>
      (if is_absolute path then [RootDir]
       else if bool_decide (first = dot) then [CurDir] else [])
      ++ omap component (first :: rest)
  | [] => []
  end.

Definition is_normal (c : Component) : bool := match c with Normal _ => true | _ => false end.

(** Relative, and made of ordinary names only. *)
Definition plain_path (path : bytes) : bool :=
  negb (is_absolute path) && forallb is_normal (components path).

(** The names a path resolves to. *)
Definition names (path : bytes) : list bytes :=
  omap (fun c => match c with Normal n => Some n | _ => None end) (components path).

(** ** Frames *)

(** [to_be_bytes] of a length and the bytes. *)
Definition framed (n : nat) (value : bytes) : bytes := length_prefixed n value.

(** ** Lemmas *)

Section ReadingLemmas.
Context {S : Type} `{HasStreamLaws S}.
Implicit Types s : S.

(** Reading what a frame starts with. *)
Lemma read_exact_run s bs rest :
  pending (stream s) = bs ++ rest ->
  read_exact (length bs) s =
    (Ok bs, set_stream (MkStream rest (reads (stream s)) (sizes (stream s))) s).
Proof.
  intros E. unfold read_exact. rewrite E, length_app.
  rewrite (proj2 (Nat.leb_le _ _)) by lia. unfold skip. rewrite E.
  by rewrite take_app_length, drop_app_length.
Qed.

Lemma read_exact_Ok n s bs s' :
  read_exact n s = (Ok bs, s') ->
  length bs = n /\ pending (stream s) = bs ++ pending (stream s') /\
  exists t, s' = set_stream t s /\ reads t = reads (stream s) /\ sizes t = sizes (stream s).
Proof.
  unfold read_exact. case_match eqn:Hle; intros [= <- <-].
  apply Nat.leb_le in Hle. rewrite stream_set. cbn. split; [rewrite length_take; lia|].
  split; [by rewrite take_drop|]. by eexists.
Qed.

Lemma read_be_run n v s rest :
  0 <= v < 256 ^ Z.of_nat n -> pending (stream s) = be_bytes n v ++ rest ->
  read_be n s = (Ok v, set_stream (MkStream rest (reads (stream s)) (sizes (stream s))) s).
Proof.
  intros Hv E. unfold read_be, io_bind.
  rewrite <- (length_be_bytes n v) at 1. rewrite (read_exact_run s _ rest E). unfold io_ret.
  by rewrite be_val_bytes_small.
Qed.

Lemma read_be_Ok n s v s' :
  Forall is_byte (pending (stream s)) -> read_be n s = (Ok v, s') ->
  0 <= v < 256 ^ Z.of_nat n /\ pending (stream s) = be_bytes n v ++ pending (stream s') /\
  exists t, s' = set_stream t s /\ reads t = reads (stream s) /\ sizes t = sizes (stream s).
Proof.
  intros Hb. unfold read_be, io_bind. destruct (read_exact n s) as [[bs|e] s1] eqn:E; [|done].
  intros [= <- <-]. apply read_exact_Ok in E as (Hl & Hp & Ht).
  rewrite Hp in Hb. apply Forall_app in Hb as [Hbs _]. subst n.
  split; [by apply be_val_bound|]. split; [by rewrite be_bytes_val|done].
Qed.
End ReadingLemmas.

(** The order of byte strings is strict and total. *)
Lemma bytes_lt_irrefl a : bytes_lt a a = false.
Proof. induction a as [|x a IH]; [done|]. simpl. rewrite IH, Z.ltb_irrefl. by destruct (x =? x). Qed.

Lemma bytes_lt_trans a b c :
  bytes_lt a b = true -> bytes_lt b c = true -> bytes_lt a c = true.
Proof.
  revert b c. induction a as [|x a IH]; intros [|y b] [|z c]; simpl; try done.
  intros [Hxy|[Hxy Hab]%andb_true_iff]%orb_true_iff [Hyz|[Hyz Hbc]%andb_true_iff]%orb_true_iff;
    bool_simpl; apply orb_true_iff;
    first [left; apply Z.ltb_lt; lia | right; rewrite Z.eqb_refl; by eapply IH].
Qed.

Lemma bytes_lt_total a b : bytes_lt a b = false -> bytes_lt b a = false -> a = b.
Proof.
  revert b. induction a as [|x a IH]; intros [|y b]; simpl; try done.
  intros [Hxy Hab]%orb_false_iff [Hyx Hba]%orb_false_iff.
  assert (x = y) as -> by lia. rewrite Z.eqb_refl in *. f_equal. by apply IH.
Qed.

Lemma bytes_lt_neq a b : bytes_lt a b = true -> a <> b.
Proof. intros H ->. by rewrite bytes_lt_irrefl in H. Qed.

Lemma bytes_lt_asym a b : bytes_lt a b = true -> bytes_lt b a = false.
Proof.
  intros H. destruct (bytes_lt b a) eqn:E; [|done].
  pose proof (bytes_lt_trans _ _ _ H E) as Hc. by rewrite bytes_lt_irrefl in Hc.
Qed.

Lemma bytes_le_trans a b c :
  bytes_lt b a = false -> bytes_lt c b = false -> bytes_lt c a = false.
Proof.
  intros Hab Hbc. destruct (bytes_lt c a) eqn:Hca; [|done].
  destruct (bytes_lt a b) eqn:E.
  - by rewrite (bytes_lt_trans _ _ _ Hca E) in Hbc.
  - rewrite (bytes_lt_total a b E Hab) in Hca. congruence.
Qed.
