(* ===== verification/SourceBundle.v ===== *)
(** * Source bundles (control/src/build_jobs.rs, builder/src/vm.rs, builder/src/guest.rs)

    The control service writes the files of a commit as one HBS1 bundle; the
    worker pads it to whole disk sectors and attaches it to the build machine,
    whose guest extracts it into an empty workspace. *)

From stdpp Require Import base list option gmap sets strings sorting.
From Stdlib Require Import ZArith Lia Ascii.
From S2P Require Import Prelude RustText Bytes PgTx Intent Wire.

Local Open Scope Z_scope.
Local Open Scope list_scope.

(** ** The control service: writing a bundle *)

Record BuildSourceFile := {
  file_path : bytes;
  executable : bool;
  blob_sha : string;
  content : bytes;
}.

(** An entry of the source-tree manifest. *)
Record SourceEntry := {
  se_path : bytes; se_mode : Z; se_size : Z; se_blob_sha1 : string; se_sha256 : string;
}.

Definition source_path_invalid (message : string) : ApiError :=
  unprocessable "source_path_invalid" message.

Definition validate_bundle_path (value : bytes) : res ApiError unit :=
  guard_err (bool_decide (value = []) || (1024 <? length value)%nat || contains_char (ch "\") value
             || existsb is_ascii_control value || is_absolute value
             || existsb (fun c => negb (is_normal c)) (components value))
    (source_path_invalid "the source contains an unsafe path").

(** [a.path.as_bytes().cmp(b.path.as_bytes())] is not [Greater]. *)
Definition path_le (a b : BuildSourceFile) : Prop := bytes_lt (file_path b) (file_path a) = false.
#[export] Instance path_le_dec a b : Decision (path_le a b).
Proof. unfold path_le. apply _. Defined.

Definition source_mode (executable : bool) : Z := if executable then 493 else 420.

Definition SOURCE_MAGIC : bytes := lit "HBS1".

(** One file of the bundle. *)
Definition source_frame (f : BuildSourceFile) : bytes :=
  framed 2 (file_path f) ++ be_bytes 4 (source_mode (executable f))
  ++ be_bytes 8 (Z.of_nat (length (content f))) ++ content f.

Section Writing.
Context (to_lowercase : bytes -> bytes) (sha256 : bytes -> string).

Definition source_entry (f : BuildSourceFile) : SourceEntry := {|
  se_path := file_path f; se_mode := source_mode (executable f);
  se_size := Z.of_nat (length (content f)); se_blob_sha1 := blob_sha f;
  se_sha256 := sha256 (content f) |}.

(** The loop over the ordered files: paths seen so far, bundle, manifest and total. *)
Fixpoint bundle_files (files : list BuildSourceFile) (folded : list bytes)
    (bundle : bytes) (entries : list SourceEntry) (total : Z)
    : res ApiError (bytes * list SourceEntry * Z) :=
  match files with
  | [] => Ok (bundle, entries, total)
  | f :: rest =>
      res_bind (validate_bundle_path (file_path f)) (fun _ =>
      if bool_decide (to_lowercase (file_path f) ∈ folded) then
        Err (unprocessable "unsupported_github_source"
               "source paths collide when compared without case")
      else if 65535 <? Z.of_nat (length (file_path f)) then
        Err (source_path_invalid "a source path exceeds the materializer limit")
      else if max_u64 <? total + Z.of_nat (length (content f)) then Err internal
      else
        bundle_files rest (to_lowercase (file_path f) :: folded) (bundle ++ source_frame f)
          (entries ++ [source_entry f]) (total + Z.of_nat (length (content f))))
  end.

Definition canonical_source_bundle (files : list BuildSourceFile)
    : res ApiError (bytes * list SourceEntry * Z) :=
  let ordered := merge_sort path_le files in
  if 10000 <? Z.of_nat (length ordered) then
    Err (unprocessable "source_limit_exceeded" "the source contains too many entries")
  else
    bundle_files ordered [] (SOURCE_MAGIC ++ be_bytes 4 (Z.of_nat (length ordered))) [] 0.
End Writing.

(** ** The worker: padding to sectors *)

Definition make_padded_source (source : bytes) : bytes :=
  let copied := Z.of_nat (length source) in
  let padded := (copied + 511) / 512 * 512 in
  source ++ replicate (Z.to_nat (padded - copied)) 0.

(** ** The guest: extraction *)

Definition MAX_SOURCE_PATH : nat := 1024.
Definition MAX_SOURCE_PADDING : nat := 511.

(** The workspace: files with their mode, once it is set, and directories. *)
Record Workspace := MkWorkspace {
  files : gmap (list bytes) (option Z * bytes);
  dirs : gset (list bytes);
}.
Record Extraction := MkExtraction { input : Stream; workspace : Workspace }.

#[export] Instance extraction_stream : HasStream Extraction := {
  stream := input; set_stream := fun t s => MkExtraction t (workspace s);
}.
#[export] Instance extraction_stream_laws : HasStreamLaws Extraction.
Proof. by split; [| |intros []]. Qed.

(** The directories on the way to a name, and itself. *)
Fixpoint prefixes (p : list bytes) : list (list bytes) :=
  match p with
  | [] => []
  | n :: p' => [n] :: map (cons n) (prefixes p')
  end.

Definition create_dir_all (p : list bytes) : IO Extraction unit :=
  let! s := io_get in
  let w := workspace s in
  if bool_decide (is_Some (files w !! p))
  then io_raise (IoErr AlreadyExists (Message "file exists"))
  else if existsb (fun q => bool_decide (is_Some (files w !! q))) (prefixes p)
  then io_raise (IoErr NotADirectory (Message "not a directory"))
  else io_put (MkExtraction (input s) (MkWorkspace (files w) (list_to_set (prefixes p) ∪ dirs w))).

(** The path does not end in a separator or in [.]: the system refuses to create
    a file under such a name. *)
Definition ends_in_name (path : bytes) : bool :=
  match last_segment slash path with
  | Some segment => negb (bool_decide (segment = [])) && negb (bool_decide (segment = dot))
  | None => false
  end.

(** [OpenOptions::create_new]. *)
Definition create_new (path : bytes) : IO Extraction unit :=
  let! s := io_get in
  let w := workspace s in
  let p := names path in
  if negb (ends_in_name path) then io_raise (IoErr Other (Message "is a directory"))
  else if bool_decide (is_Some (files w !! p)) || bool_decide (p ∈ dirs w)
  then io_raise (IoErr AlreadyExists (Message "file exists"))
  else io_put (MkExtraction (input s) (MkWorkspace (<[p := (None, [])]> (files w)) (dirs w))).

Definition write_file (p : list bytes) (mode : option Z) (bs : bytes) : IO Extraction unit :=
  let! s := io_get in
  let w := workspace s in
  io_put (MkExtraction (input s) (MkWorkspace (<[p := (mode, bs)]> (files w)) (dirs w))).

Definition validate_relative_path (value : bytes) : res IoError unit :=
  guard_err (bool_decide (value = []) || (MAX_SOURCE_PATH <? length value)%nat
             || existsb (fun c => contains_char c value) [ch "\"; 0; 13; 10]
             || is_absolute value || existsb (fun c => negb (is_normal c)) (components value))
    (invalid "unsafe path").

(** One entry of the bundle; the result is its path. *)
Definition extract_entry (previous : option bytes) : IO Extraction bytes :=
  let! path_length := read_be 2 in
  do! io_reject ((path_length =? 0) || (Z.of_nat MAX_SOURCE_PATH <? path_length))
        (invalid "source path length") in
  let! relative := read_exact (Z.to_nat path_length) in
  do! io_reject (negb (utf8_valid relative)) (invalid "source path UTF-8") in
  do! io_lift (validate_relative_path relative) in
  do! io_reject (match previous with Some v => negb (bytes_lt v relative) | None => false end)
        (invalid "source ordering") in
  let! mode := read_be 4 in
  do! io_reject (negb ((mode =? 420) || (mode =? 493))) (invalid "source mode") in
  let! size := read_be 8 in
  let target := names relative in
  do! create_dir_all (removelast target) in
  do! create_new relative in
  let! copied := copy_take size in
  do! write_file target None copied in
  do! io_reject (negb (Z.of_nat (length copied) =? size)) (unexpected_eof "source bytes") in
  do! write_file target (Some mode) copied in
  io_ret relative.

Fixpoint extract_entries (n : nat) (previous : option bytes) : IO Extraction unit :=
  match n with
  | O => io_ret tt
  | S n' => let! p := extract_entry previous in extract_entries n' (Some p)
  end.

(** The zero bytes that fill the last sector; the fuel is more than a sector. *)
Fixpoint check_padding (fuel : nat) (len : nat) : IO Extraction unit :=
  match fuel with
  | O => io_raise (IoErr Other (Message "unreachable"))
  | S fuel' =>
      let! bs := read (MAX_SOURCE_PADDING - len) in
      if bool_decide (bs = []) then io_ret tt
      else
        do! io_reject (existsb (fun b => negb (b =? 0)) bs) (invalid "source trailing bytes") in
        if (len + length bs =? MAX_SOURCE_PADDING)%nat then
          let! extra := read 1 in
          io_reject (negb (bool_decide (extra = []))) (invalid "source padding length")
        else check_padding fuel' (len + length bs)
  end.

Definition extract_source : IO Extraction unit :=
  let! magic := read_exact 4 in
  do! io_reject (negb (bool_decide (magic = SOURCE_MAGIC))) (invalid "source magic") in
  let! entries := read_be 4 in
  do! io_reject (100000 <? entries) (invalid "source entries") in
  do! extract_entries (Z.to_nat entries) None in
  check_padding 512 0.
