(* ===== verification/SourceTheorems.v ===== *)
(** * Properties of source bundles

    A bundle determines the files of a commit and is determined by them, and the
    guest extracts exactly the files the control service put into it.  The
    extraction accepts nothing but the encoding of a sorted list of plain paths,
    followed by the zero bytes of the last sector. *)

From stdpp Require Import base list option gmap sets strings sorting.
From Stdlib Require Import ZArith Lia Ascii.
From S2P Require Import Prelude RustText Bytes PgTx Intent Wire SourceBundle.

Local Open Scope Z_scope.
Local Open Scope list_scope.

(** ** Specification *)

(** The bundle of a list of files. *)
Definition encode_bundle (fs : list BuildSourceFile) : bytes :=
  SOURCE_MAGIC ++ be_bytes 4 (Z.of_nat (length fs)) ++ concat (map source_frame fs).

Definition path_lt (f g : BuildSourceFile) : Prop := bytes_lt (file_path f) (file_path g) = true.

Definition content_total (fs : list BuildSourceFile) : Z :=
  foldr (fun f n => Z.of_nat (length (content f)) + n) 0 fs.

(** What both sides ask of a path, and the sizes the frame can hold. *)
Record frame_ok (f : BuildSourceFile) : Prop := {
  fo_path : validate_bundle_path (file_path f) = Ok tt;
  fo_size : Z.of_nat (length (content f)) <= max_u64;
}.

(** What identifies a file of a bundle. *)
Definition bundled (f : BuildSourceFile) : bytes * bool * bytes :=
  (file_path f, executable f, content f).

(** No file is, or lies below, another. *)
Definition unambiguous (fs : list BuildSourceFile) : Prop :=
  forall f g, f ∈ fs -> g ∈ fs -> names (file_path f) ∈ prefixes (names (file_path g)) ->
  file_path f = file_path g.

(** A workspace with exactly these files, and the directories on their way. *)
Record holds_exactly (w : Workspace) (fs : list BuildSourceFile) : Prop := {
  he_files : forall p v, files w !! p = Some v <->
    exists f, f ∈ fs /\ p = names (file_path f)
      /\ v = (Some (source_mode (executable f)), content f);
  he_dirs : forall d, d ∈ dirs w <->
    exists f, f ∈ fs /\ d ∈ prefixes (removelast (names (file_path f)));
}.

(** ** The order of the files *)

#[export] Instance path_le_trans : Transitive path_le.
Proof. intros f g h Hfg Hgh. by eapply bytes_le_trans. Qed.

#[export] Instance path_le_total : Total path_le.
Proof.
  intros f g. unfold path_le. destruct (bytes_lt (file_path g) (file_path f)) eqn:E; [|by left].
  right. by apply bytes_lt_asym.
Qed.

Lemma sorted_strict fs :
  StronglySorted path_le fs -> NoDup (map file_path fs) -> StronglySorted path_lt fs.
Proof.
  induction 1 as [|f fs Hfs IH Hf]; [constructor|].
  cbn. intros [Hnot Hnd]%NoDup_cons. constructor; [by apply IH|].
  rewrite Forall_forall in *. intros g Hg. specialize (Hf g Hg).
  unfold path_lt. destruct (bytes_lt (file_path f) (file_path g)) eqn:E; [done|].
  destruct Hnot. rewrite (bytes_lt_total _ _ E Hf). by apply list_elem_of_fmap_2.
Qed.

(** ** Writing *)

Section WritingLemmas.
Context (to_lowercase : bytes -> bytes) (sha256 : bytes -> string).

Lemma bundle_files_Ok fs folded b es t r :
  bundle_files to_lowercase sha256 fs folded b es t = Ok r -> 0 <= t ->
  r = (b ++ concat (map source_frame fs), es ++ map (source_entry sha256) fs,
       t + content_total fs)
  /\ Forall frame_ok fs
  /\ NoDup (map file_path fs)
  /\ (forall f, f ∈ fs -> to_lowercase (file_path f) ∉ folded).
Proof.
  revert folded b es t. induction fs as [|f fs IH]; intros folded b es t; cbn [bundle_files].
  { intros [= <-] _. cbn. rewrite !app_nil_r, Z.add_0_r.
    split_and!; [done|constructor..|]. set_solver. }
  intros H Ht. apply res_bind_Ok in H as ([] & Hv & H).
  destruct (bool_decide (to_lowercase (file_path f) ∈ folded)) eqn:Hd; [done|].
  do 2 (case_hyp H; [done|]). bool_simpl.
  apply IH in H as (-> & Hok & Hnd & Hfold); [|lia].
  split_and!.
  - unfold content_total. cbn [map concat foldr]. by rewrite <- !(app_assoc b), <- (app_assoc es), Z.add_assoc.
  - constructor; [split; [done|lia]|done].
  - cbn. constructor; [|done]. intros (g & Hg & Hin)%list_elem_of_fmap.
    destruct (Hfold g Hin). rewrite <- Hg. left.
  - intros g [->|Hin]%elem_of_cons; [done|]. specialize (Hfold g Hin). set_solver.
Qed.

Lemma canonical_source_bundle_Ok fs b es t :
  canonical_source_bundle to_lowercase sha256 fs = Ok (b, es, t) ->
  let ordered := merge_sort path_le fs in
  b = encode_bundle ordered /\ es = map (source_entry sha256) ordered
  /\ t = content_total ordered /\ Forall frame_ok ordered
  /\ StronglySorted path_lt ordered /\ Z.of_nat (length ordered) <= 10000.
Proof.
  unfold canonical_source_bundle. case_match eqn:Hlen; [done|]. intros H.
  apply bundle_files_Ok in H as ([= -> -> ->] & Hok & Hnd & _); [|done].
  apply Z.ltb_ge in Hlen.
  split_and!; [reflexivity|done|done|done| |done].
  apply sorted_strict; [apply StronglySorted_merge_sort; apply _|done].
Qed.
End WritingLemmas.

(** ** Extraction of what was written *)

Lemma validate_bundle_relative p :
  validate_bundle_path p = Ok tt ->
  validate_relative_path p = Ok tt /\ (0 < length p <= 1024)%nat.
Proof.
  unfold validate_bundle_path, validate_relative_path. rewrite !guard_err_Ok.
  intros [[[[[He Hl]%orb_false_iff Hb]%orb_false_iff Ha]%orb_false_iff
    Hr]%orb_false_iff Hn]%orb_false_iff.
  assert (Hc : forall c, is_ascii_control c = true -> contains_char c p = false).
  { intros c Hc. apply contains_char_false. intros Hin.
    assert (existsb is_ascii_control p = true); [|congruence].
    apply existsb_exists. exists c. by rewrite <- list_elem_of_In. }
  split.
  - unfold MAX_SOURCE_PATH. cbn [existsb]. by rewrite He, Hl, Hb, Hr, Hn, !Hc.
  - apply Nat.ltb_ge in Hl. apply bool_decide_eq_false in He. destruct p; [done|]. cbn in *. lia.
Qed.

(** What extracting a file does to the workspace. *)
Definition place (f : BuildSourceFile) (w : Workspace) : Workspace :=
  MkWorkspace
    (<[names (file_path f) := (Some (source_mode (executable f)), content f)]> (files w))
    (list_to_set (prefixes (removelast (names (file_path f)))) ∪ dirs w).

(** There is room for the file in the workspace. *)
Definition room_for (f : BuildSourceFile) (w : Workspace) : Prop :=
  let target := names (file_path f) in
  files w !! target = None /\ target ∉ dirs w
  /\ files w !! removelast target = None
  /\ (forall q, q ∈ prefixes (removelast target) -> files w !! q = None).

Definition follows (previous : option bytes) (p : bytes) : Prop :=
  match previous with Some v => bytes_lt v p = true | None => True end.

Lemma in_prefixes p q : q ∈ prefixes p -> exists r, p = q ++ r /\ q <> [].
Proof.
  revert q. induction p as [|n p IH]; intros q; cbn; [by intros ?%not_elem_of_nil|].
  intros [->|(q' & -> & Hq)%list_elem_of_fmap]%elem_of_cons; [by exists p|].
  apply IH in Hq as (r & -> & _). by exists r.
Qed.

Lemma prefixes_self p : p <> [] -> p ∈ prefixes p.
Proof.
  induction p as [|n p IH]; [done|]. intros _. cbn. destruct p as [|m p]; [left|].
  right. apply list_elem_of_fmap_2. by apply IH.
Qed.

Lemma prefixes_app q r : q <> [] -> q ∈ prefixes (q ++ r).
Proof.
  induction q as [|n q IH]; [done|]. intros _. cbn. destruct q as [|m q]; [left|].
  right. apply list_elem_of_fmap_2. by apply IH.
Qed.

Lemma not_below_itself p : p ∉ prefixes (removelast p).
Proof.
  intros (r & E & Hp)%in_prefixes. apply (f_equal length) in E. rewrite length_app in E.
  pose proof (app_removelast_last [] Hp) as H. apply (f_equal length) in H.
  rewrite length_app in H. cbn in H. lia.
Qed.

Lemma create_dir_all_run p i w :
  files w !! p = None -> (forall q, q ∈ prefixes p -> files w !! q = None) ->
  create_dir_all p (MkExtraction i w) =
    (Ok tt, MkExtraction i (MkWorkspace (files w) (list_to_set (prefixes p) ∪ dirs w))).
Proof.
  intros Hp Hq. unfold create_dir_all, io_bind, io_get. cbn [workspace input].
  rewrite bool_decide_eq_false_2 by (rewrite Hp; by intros []).
  destruct (existsb _ _) eqn:E; [|done].
  apply existsb_exists in E as (q & Hin & H). apply list_elem_of_In in Hin. bool_simpl.
  rewrite Hq in H by done. by destruct H.
Qed.

Lemma create_new_run path i w :
  ends_in_name path = true -> files w !! names path = None -> names path ∉ dirs w ->
  create_new path (MkExtraction i w) =
    (Ok tt, MkExtraction i (MkWorkspace (<[names path := (None, [])]> (files w)) (dirs w))).
Proof.
  intros He Hf Hd. unfold create_new, io_bind, io_get. cbn [workspace input].
  rewrite He, !bool_decide_eq_false_2; [done|done|rewrite Hf; by intros []].
Qed.

Lemma copy_take_run size bs rest r z w :
  Z.of_nat (length bs) = size ->
  copy_take size (MkExtraction (MkStream (bs ++ rest) r z) w) =
    (Ok bs, MkExtraction (MkStream rest r z) w).
Proof.
  intros <-. unfold copy_take, skip. cbn [stream set_stream extraction_stream input workspace pending reads sizes].
  rewrite length_app, Z.min_l, Nat2Z.id by lia. by rewrite take_app_length, drop_app_length.
Qed.

Lemma io_bind_Ok {S A B} (m : IO S A) (k : A -> IO S B) s a s' :
  m s = (Ok a, s') -> io_bind m k s = k a s'.
Proof. unfold io_bind. by intros ->. Qed.

Lemma io_reject_run {S B} (c : bool) e (k : unit -> IO S B) s :
  c = false -> io_bind (io_reject c e) k s = k tt s.
Proof. by intros ->. Qed.

(** A value fits its width. *)
Ltac width :=
  match goal with
  | |- context [Z.pow 256 ?e] =>
      let v := eval vm_compute in (256 ^ e) in change (256 ^ e) with v; lia
  end.

(** The frame of a file is read back, and the file is placed. *)
Lemma extract_entry_run f rest previous r z w :
  frame_ok f -> utf8_valid (file_path f) = true -> ends_in_name (file_path f) = true ->
  follows previous (file_path f) -> room_for f w ->
  extract_entry previous (MkExtraction (MkStream (source_frame f ++ rest) r z) w) =
    (Ok (file_path f), MkExtraction (MkStream rest r z) (place f w)).
Proof.
  intros [Hv Hs] Hu He Hp (Hf & Hd & Hl & Hq).
  apply validate_bundle_relative in Hv as [Hv Hlen]. unfold max_u64 in Hs.
  unfold extract_entry, source_frame, framed, length_prefixed. rewrite <- !app_assoc.
  erewrite io_bind_Ok by (eapply read_be_run; [|done]; width).
  rewrite io_reject_run by (unfold MAX_SOURCE_PATH; apply orb_false_iff;
    split; [apply Z.eqb_neq | apply Z.ltb_ge]; lia). rewrite Nat2Z.id.
  erewrite io_bind_Ok by (eapply read_exact_run; done).
  rewrite io_reject_run by (by rewrite Hu).
  erewrite io_bind_Ok by (unfold io_lift; by rewrite Hv).
  rewrite io_reject_run by (destruct previous; [by cbn in *; rewrite Hp|done]).
  erewrite io_bind_Ok by (eapply read_be_run; [|done]; by destruct (executable f)).
  rewrite io_reject_run by (by destruct (executable f)).
  erewrite io_bind_Ok by (eapply read_be_run; [|done]; width).
  cbn [stream set_stream extraction_stream input workspace reads sizes pending].
  erewrite io_bind_Ok by (by apply create_dir_all_run).
  erewrite io_bind_Ok.
  2:{ apply create_new_run; cbn [files dirs]; [done..|]. intros [Hin|Hin]%elem_of_union; [|done].
      apply elem_of_list_to_set in Hin. by apply not_below_itself in Hin. }
  rewrite io_bind_Ok with (1 := copy_take_run _ _ _ _ _ _ eq_refl).
  cbn. rewrite Z.eqb_refl. cbn. by rewrite !insert_insert_eq.
Qed.

(** A path that extraction accepts resolves to some name. *)
Lemma names_nonempty p :
  validate_bundle_path p = Ok tt -> ends_in_name p = true -> names p <> [].
Proof.
  unfold validate_bundle_path. rewrite guard_err_Ok. intros [_ Hn]%orb_false_iff He E.
  unfold ends_in_name in He. case_match eqn:Hl; [|done].
  apply andb_true_iff in He as [Hne Hnd]. bool_simpl. apply last_Some in Hl as (front & Hl).
  assert (exists c, component l = Some c) as (c & Hcomp).
  { unfold component. rewrite !bool_decide_eq_false_2 by done. cbn [orb]. case_match; eauto. }
  assert (Hc : c ∈ components p).
  { unfold components. rewrite Hl.
    destruct front as [|s front]; cbn [app]; apply elem_of_app; right;
      apply list_elem_of_omap; exists l; (split; [|done]); set_solver. }
  assert (is_normal c = true) as Hnorm.
  { destruct (is_normal c) eqn:Ec; [done|].
    assert (existsb (fun c => negb (is_normal c)) (components p) = true) as Hx; [|congruence].
    apply existsb_exists. exists c. rewrite Ec. split; [by apply list_elem_of_In|done]. }
  destruct c as [| | |n]; try done. unfold names in E.
  assert (n ∈ @nil bytes) as Hin; [|by apply elem_of_nil in Hin].
  rewrite <- E. apply list_elem_of_omap. by exists (Normal n).
Qed.

Lemma prefixes_removelast p q : q ∈ prefixes (removelast p) -> q ∈ prefixes p.
Proof.
  intros (r & E & Hq)%in_prefixes. destruct (decide (p = [])) as [->|Hp]; [by destruct q|].
  rewrite (app_removelast_last [] Hp), E, <- app_assoc. by apply prefixes_app.
Qed.

(** What is asked of each file before it is extracted. *)
Definition extractable (f : BuildSourceFile) : Prop :=
  frame_ok f /\ utf8_valid (file_path f) = true /\ ends_in_name (file_path f) = true.

Lemma extractable_names f : extractable f -> names (file_path f) <> [].
Proof. intros ([Hv _] & _ & He). by apply names_nonempty. Qed.

Lemma extractable_room f fs w :
  holds_exactly w fs -> extractable f -> Forall extractable fs ->
  unambiguous (fs ++ [f]) -> file_path f ∉ map file_path fs -> room_for f w.
Proof.
  intros [Hfiles Hdirs] Hf Hfs Hu Hnew. rewrite Forall_forall in Hfs.
  pose proof (extractable_names f Hf) as Hne.
  assert (Hdiff : forall g, g ∈ fs -> file_path f <> file_path g).
  { intros g Hg E. apply Hnew. rewrite E. by apply list_elem_of_fmap_2. }
  assert (Hbelow : forall g, g ∈ fs -> names (file_path f) ∈ prefixes (names (file_path g)) -> False).
  { intros g Hg Hp. apply (Hdiff g Hg), Hu; [set_solver..|done]. }
  assert (Habove : forall g, g ∈ fs -> names (file_path g) ∈ prefixes (names (file_path f)) -> False).
  { intros g Hg Hp. apply (Hdiff g Hg). symmetry. apply Hu; [set_solver..|done]. }
  assert (Hnone : forall q, q ∈ prefixes (names (file_path f)) -> files w !! q = None).
  { intros q Hq. destruct (files w !! q) as [v|] eqn:E; [|done].
    apply Hfiles in E as (g & Hg & -> & _). by destruct (Habove g Hg). }
  unfold room_for. split_and!.
  - by apply Hnone, prefixes_self.
  - intros (g & Hg & Hin)%Hdirs. by apply (Hbelow g Hg), prefixes_removelast.
  - destruct (files w !! removelast (names (file_path f))) as [v|] eqn:E; [|done].
    apply Hfiles in E as (g & Hg & E & _).
    destruct (Habove g Hg). apply prefixes_removelast. rewrite E.
    by apply prefixes_self, extractable_names, Hfs.
  - intros q Hq. by apply Hnone, prefixes_removelast.
Qed.

Lemma place_holds f fs w :
  holds_exactly w fs -> files w !! names (file_path f) = None ->
  holds_exactly (place f w) (fs ++ [f]).
Proof.
  intros [Hfiles Hdirs] Hnone. split.
  - intros p v. cbn [files place]. rewrite lookup_insert. case_decide as Hp.
    + subst p. split.
      * intros [= <-]. exists f. set_solver.
      * intros (g & [Hg|Hg%list_elem_of_singleton]%elem_of_app & E & ->); [|by subst g].
        assert (files w !! names (file_path f) <> None) as Hx; [|done].
        rewrite (proj2 (Hfiles _ (Some (source_mode (executable g)), content g))); [done|eauto].
    + rewrite Hfiles. split.
      * intros (g & Hg & H). exists g. set_solver.
      * intros (g & [Hg|Hg%list_elem_of_singleton]%elem_of_app & -> & H); [eauto|by subst g].
  - intros d. cbn [dirs place]. rewrite elem_of_union, elem_of_list_to_set, Hdirs. split.
    + intros [H|(g & Hg & H)]; [exists f|exists g]; set_solver.
    + intros (g & [Hg|Hg%list_elem_of_singleton]%elem_of_app & H); [|subst g]; eauto.
Qed.

Lemma holds_nothing : holds_exactly (MkWorkspace ∅ ∅) [].
Proof.
  split; [intros p v|intros d]; cbn [files dirs].
  - rewrite lookup_empty. split; [done|]. by intros (f & ?%not_elem_of_nil & _).
  - split; [|intros (f & ?%not_elem_of_nil & _); done]. set_solver.
Qed.

Lemma extract_entries_run todo :
  forall fs previous r z w rest,
  holds_exactly w fs -> Forall extractable (fs ++ todo) -> unambiguous (fs ++ todo) ->
  NoDup (map file_path (fs ++ todo)) -> StronglySorted path_lt todo ->
  (forall f, f ∈ todo -> follows previous (file_path f)) ->
  exists w',
    extract_entries (length todo) previous
      (MkExtraction (MkStream (concat (map source_frame todo) ++ rest) r z) w)
      = (Ok tt, MkExtraction (MkStream rest r z) w')
    /\ holds_exactly w' (fs ++ todo).
Proof.
  induction todo as [|f todo IH]; intros fs previous r z w rest Hw Hok Hu Hnd Hs Hp.
  { exists w. by rewrite app_nil_r in *. }
  apply Forall_app in Hok as [Hfs [Hf Htodo]%Forall_cons].
  rewrite map_app in Hnd. apply NoDup_app in Hnd as (Hndfs & Hnot & Hnd).
  apply StronglySorted_inv in Hs as [Hs Hlt].
  assert (Hroom : room_for f w).
  { apply (extractable_room f fs); [done..| |].
    - intros g h Hg Hh. apply Hu; set_solver.
    - intros Hin. by eapply Hnot; [|left]. }
  assert (Hassoc : (fs ++ [f]) ++ todo = fs ++ f :: todo) by (by rewrite <- app_assoc).
  destruct (IH (fs ++ [f]) (Some (file_path f)) r z (place f w) rest) as (w' & Hrun & Hw').
  - apply place_holds; [done|]. by destruct Hroom.
  - rewrite Hassoc. apply Forall_app. split; [done|by constructor].
  - by rewrite Hassoc.
  - rewrite Hassoc, map_app. by apply NoDup_app.
  - done.
  - intros g Hg. rewrite Forall_forall in Hlt. by apply Hlt.
  - exists w'. rewrite <- Hassoc. split; [|done].
    cbn [length extract_entries map concat]. rewrite <- (app_assoc (source_frame f)).
    destruct Hf as (Hf & Hutf & Hend).
    erewrite io_bind_Ok by (apply extract_entry_run; [done..|apply Hp; left|done]). done.
Qed.

(** ** Padding *)

Lemma read_run n t w :
  read n (MkExtraction t w) =
    (Ok (take (read_size n t) (pending t)),
     MkExtraction (MkStream (drop (read_size n t) (pending t)) (S (reads t)) (sizes t)) w).
Proof. done. Qed.

Lemma zeros_are_zero k : existsb (fun b => negb (b =? 0)) (replicate k 0) = false.
Proof. by induction k. Qed.

(** At most 511 zero bytes are read to the end, whatever the reads return. *)
Lemma check_padding_run fuel :
  forall len k r z w, (len + k <= MAX_SOURCE_PADDING)%nat -> (k < fuel)%nat ->
  exists r', check_padding fuel len (MkExtraction (MkStream (replicate k 0) r z) w)
    = (Ok tt, MkExtraction (MkStream [] r' z) w).
Proof.
  induction fuel as [|fuel IH]; intros len k r z w Hlen Hk; [lia|].
  cbn [check_padding]. unfold io_bind at 1. rewrite read_run. cbn [pending reads sizes].
  set (n := read_size _ _).
  assert (Hn : (n <= k)%nat /\ (len < MAX_SOURCE_PADDING -> 0 < k -> 0 < n)%nat).
  { subst n. unfold read_size. cbn [pending reads sizes]. rewrite length_replicate. lia. }
  rewrite take_replicate, drop_replicate, Nat.min_l by lia.
  case_bool_decide as E.
  { apply (f_equal length) in E. rewrite length_replicate in E. cbn in E. exists (S r).
    replace (k - n)%nat with 0%nat by lia. done. }
  destruct n as [|n]; [done|].
  rewrite io_reject_run, length_replicate by apply zeros_are_zero. case_match eqn:Hfull.
  - apply Nat.eqb_eq in Hfull. replace (k - S n)%nat with 0%nat by lia.
    exists (S (S r)). unfold io_bind. rewrite read_run. unfold read_size.
    cbn [pending reads sizes replicate length]. by rewrite !Nat.min_0_r.
  - apply Nat.eqb_neq in Hfull. apply IH; lia.
Qed.

Lemma padding_replicate source :
  exists k, make_padded_source source = source ++ replicate k 0 /\ (k <= MAX_SOURCE_PADDING)%nat.
Proof.
  unfold make_padded_source. eexists. split; [done|]. unfold MAX_SOURCE_PADDING.
  pose proof (Z.div_mod (Z.of_nat (length source) + 511) 512).
  pose proof (Z.mod_pos_bound (Z.of_nat (length source) + 511) 512). lia.
Qed.

(** Every encoding of a sorted list of extractable files is extracted. *)
Lemma extract_source_run fs k r z :
  Forall extractable fs -> unambiguous fs -> StronglySorted path_lt fs ->
  Z.of_nat (length fs) <= 100000 -> (k <= MAX_SOURCE_PADDING)%nat ->
  exists r' w,
    extract_source (MkExtraction (MkStream (encode_bundle fs ++ replicate k 0) r z) (MkWorkspace ∅ ∅))
      = (Ok tt, MkExtraction (MkStream [] r' z) w)
    /\ holds_exactly w fs.
Proof.
  intros Hok Hu Hs Hlen Hk.
  destruct (extract_entries_run fs [] None r z (MkWorkspace ∅ ∅) (replicate k 0))
    as (w & Hrun & Hw); cbn [app]; try done.
  { apply holds_nothing. }
  { clear - Hs. induction Hs as [|f fs Hs IH Hf]; [constructor|]. cbn. constructor; [|done].
    intros (g & E & Hg)%list_elem_of_fmap. rewrite Forall_forall in Hf.
    by apply (bytes_lt_neq _ _ (Hf g Hg)). }
  destruct (check_padding_run 512 0 k r z w) as (r' & Hpad); [lia| |].
  { unfold MAX_SOURCE_PADDING in Hk. lia. }
  exists r', w. split; [|done]. unfold extract_source, encode_bundle. rewrite <- !app_assoc.
  erewrite io_bind_Ok by (eapply (read_exact_run _ SOURCE_MAGIC); done).
  rewrite io_reject_run by (by rewrite bool_decide_eq_true_2).
  erewrite io_bind_Ok by (eapply read_be_run; [|done]; width).
  rewrite io_reject_run by (apply Z.ltb_ge; lia). rewrite Nat2Z.id.
  cbn [stream set_stream extraction_stream input workspace reads sizes pending].
  by erewrite io_bind_Ok by done.
Qed.

(** ** What extraction accepts *)

Lemma io_bind_inv {S A B} (m : IO S A) (k : A -> IO S B) s b s' :
  io_bind m k s = (Ok b, s') -> exists a s1, m s = (Ok a, s1) /\ k a s1 = (Ok b, s').
Proof. unfold io_bind. destruct (m s) as [[a|e] s1]; [eauto|done]. Qed.

Lemma io_reject_inv {S B} (c : bool) e (k : unit -> IO S B) s b s' :
  io_bind (io_reject c e) k s = (Ok b, s') -> c = false /\ k tt s = (Ok b, s').
Proof. by destruct c. Qed.

(** Name the result and the state of the first action of a successful run. *)
Ltac io_step H x s E := apply io_bind_inv in H as (x & s & E & H).
Ltac io_reject_step H E := apply io_reject_inv in H as (E & H).

Lemma create_dir_all_inv p i w u s' :
  create_dir_all p (MkExtraction i w) = (Ok u, s') ->
  s' = MkExtraction i (MkWorkspace (files w) (list_to_set (prefixes p) ∪ dirs w)).
Proof.
  unfold create_dir_all, io_bind, io_get. cbn [workspace input].
  case_bool_decide; [done|]. case_match; [done|]. by intros [= _ <-].
Qed.

Lemma create_new_inv path i w u s' :
  create_new path (MkExtraction i w) = (Ok u, s') ->
  s' = MkExtraction i (MkWorkspace (<[names path := (None, [])]> (files w)) (dirs w))
  /\ ends_in_name path = true /\ files w !! names path = None /\ names path ∉ dirs w.
Proof.
  unfold create_new, io_bind, io_get. cbn [workspace input].
  destruct (ends_in_name path); [|done]. cbn [negb].
  case_match eqn:E; [done|]. intros [= _ <-]. bool_simpl.
  destruct (files w !! names path) eqn:Ef; [|done]. by destruct H.
Qed.

Lemma copy_take_inv size t w bs s' :
  copy_take size (MkExtraction t w) = (Ok bs, s') ->
  pending t = bs ++ pending (input s') /\ workspace s' = w.
Proof. unfold copy_take. intros [= <- <-]. cbn. by rewrite take_drop. Qed.

Lemma read_be_inv n t w v s' :
  Forall is_byte (pending t) -> read_be n (MkExtraction t w) = (Ok v, s') ->
  0 <= v < 256 ^ Z.of_nat n /\ pending t = be_bytes n v ++ pending (input s')
  /\ workspace s' = w.
Proof.
  intros Hb H. apply read_be_Ok in H as (Hv & Hp & t' & -> & _); [|done]. split; [done|by split].
Qed.

Lemma bytes_rest a t : Forall is_byte (a ++ t) -> Forall is_byte t.
Proof. by intros [_ ?]%Forall_app. Qed.

(** What extraction has checked about a file. *)
Record accepted (f : BuildSourceFile) : Prop := {
  ac_path : validate_relative_path (file_path f) = Ok tt;
  ac_utf8 : utf8_valid (file_path f) = true;
  ac_name : ends_in_name (file_path f) = true;
  ac_size : Z.of_nat (length (content f)) <= max_u64;
}.

Lemma extract_entry_inv previous t w p s' :
  Forall is_byte (pending t) ->
  extract_entry previous (MkExtraction t w) = (Ok p, s') ->
  exists f, file_path f = p /\ accepted f /\ follows previous p
    /\ pending t = source_frame f ++ pending (input s')
    /\ workspace s' = place f w /\ files w !! names p = None.
Proof.
  intros Hb H. unfold extract_entry in H.
  io_step H n s1 E1. apply read_be_inv in E1 as (Hn & P1 & W1); [|done].
  rewrite P1 in Hb. apply bytes_rest in Hb.
  io_reject_step H C1. io_step H path s2 E2.
  apply read_exact_Ok in E2 as (Hl & P2 & t2 & -> & _). cbn [stream set_stream extraction_stream input] in P2.
  rewrite P2 in Hb. apply bytes_rest in Hb.
  io_reject_step H C2. io_step H u s3 E3. unfold io_lift in E3. injection E3 as Hpath <-.
  io_reject_step H C3.
  io_step H mode s4 E4. apply read_be_inv in E4 as (Hm & P4 & W4); [|done].
  rewrite P4 in Hb. apply bytes_rest in Hb. io_reject_step H C4.
  io_step H sz s5 E5. destruct s4 as [t4 w4].
  apply read_be_inv in E5 as (Hs & P5 & W5); [|done]. destruct s5 as [t5 w5].
  io_step H u6 s6 E6. apply create_dir_all_inv in E6 as ->.
  io_step H u7 s7 E7. apply create_new_inv in E7 as (-> & Hend & Hnone & _).
  io_step H bs s8 E8. apply copy_take_inv in E8 as [P8 W8]. destruct s8 as [t8 w8].
  io_step H u9 s9 E9. injection E9 as _ <-. io_reject_step H C9.
  io_step H u10 s10 E10. injection E10 as _ <-. injection H as <- <-.
  cbn in P1, P2, P4, P5, P8, W1, W4, W5, W8, Hnone. subst.
  destruct u. bool_simpl. exists (Build_BuildSourceFile path (mode =? 493) EmptyString bs).
  assert (Hmode : source_mode (mode =? 493) = mode).
  { by destruct C4 as [->%Z.eqb_eq| ->%Z.eqb_eq]. }
  split_and!; try done.
  - split; [done..|]. cbn [content]. unfold max_u64.
    change (256 ^ Z.of_nat 8) with 18446744073709551616 in Hs. lia.
  - destruct previous; [|done]. by apply negb_false_iff.
  - unfold source_frame, framed, length_prefixed. cbn [file_path executable content].
    rewrite Hmode, Hl, Z2Nat.id, P1, P2, P4, P5 by lia. by rewrite P8, <- !app_assoc.
  - unfold place. cbn. by rewrite Hmode, !insert_insert_eq.
Qed.

Lemma extract_entries_inv n :
  forall fs previous t w s' u,
  Forall is_byte (pending t) -> holds_exactly w fs ->
  extract_entries n previous (MkExtraction t w) = (Ok u, s') ->
  exists todo, length todo = n /\ Forall accepted todo /\ StronglySorted path_lt todo
    /\ (forall f, f ∈ todo -> follows previous (file_path f))
    /\ pending t = concat (map source_frame todo) ++ pending (input s')
    /\ holds_exactly (workspace s') (fs ++ todo).
Proof.
  induction n as [|n IH]; intros fs previous t w s' u Hb Hw H; cbn [extract_entries] in H.
  { injection H as _ <-. exists []. rewrite app_nil_r.
    split_and!; try done; [constructor..|]. set_solver. }
  io_step H p s1 E. apply extract_entry_inv in E as (f & <- & Hf & Hp & Ht & Hw1 & Hnone); [|done].
  rewrite Ht in Hb. apply bytes_rest in Hb. destruct s1 as [t1 w1]. cbn in Ht, Hw1, Hb. subst w1.
  apply (IH (fs ++ [f])) in H as (todo & <- & Hok & Hs & Hfol & Hrest & Hw'); [|done|by apply place_holds].
  exists (f :: todo). rewrite <- app_assoc in Hw'. split_and!; [done|by constructor| | | |done].
  - constructor; [done|]. apply Forall_forall, Hfol.
  - intros g [->|Hg]%elem_of_cons; [done|]. destruct previous as [v|]; [|done].
    by eapply bytes_lt_trans, Hfol.
  - cbn. by rewrite Ht, Hrest, app_assoc.
Qed.

Lemma not_nonzero bs : existsb (fun b => negb (b =? 0)) bs = false -> bs = replicate (length bs) 0.
Proof.
  induction bs as [|b bs IH]; [done|]. cbn [existsb length replicate]. intros [Hb Hbs]%orb_false_iff.
  bool_simpl. by rewrite <- IH.
Qed.

Lemma check_padding_inv fuel :
  forall len t w s' u, (len < MAX_SOURCE_PADDING)%nat ->
  check_padding fuel len (MkExtraction t w) = (Ok u, s') ->
  exists k, pending t = replicate k 0 /\ (len + k <= MAX_SOURCE_PADDING)%nat /\ workspace s' = w.
Proof.
  induction fuel as [|fuel IH]; intros len t w s' u Hlen H; [done|]. cbn [check_padding] in H.
  io_step H bs s1 E. rewrite read_run in E. injection E as <- <-.
  set (n := read_size _ t) in *.
  assert (Hn : (n <= length (pending t))%nat /\ (n <= MAX_SOURCE_PADDING - len)%nat
               /\ (0 < length (pending t) -> 0 < n)%nat) by (unfold n, read_size; lia).
  assert (Hlt : length (take n (pending t)) = n) by (rewrite length_take; lia).
  case_bool_decide as Hnil.
  { injection H as _ <-. exists 0%nat. rewrite Hnil in Hlt. cbn in Hlt.
    split_and!; [|lia|done]. destruct (pending t); [done|]. cbn in Hn. lia. }
  io_reject_step H Hz. apply not_nonzero in Hz. rewrite Hlt in Hz, H.
  case_match eqn:Hfull.
  - io_step H extra s2 E. rewrite read_run in E. injection E as <- <-.
    unfold io_reject in H. case_match eqn:Hextra; [done|]. injection H as _ <-.
    apply negb_false_iff, bool_decide_eq_true, (f_equal length) in Hextra.
    rewrite length_take in Hextra. unfold read_size in Hextra. cbn [pending reads sizes] in Hextra.
    rewrite length_drop in Hextra. cbn [length] in Hextra. apply Nat.eqb_eq in Hfull.
    exists n. split_and!; [|lia|done].
    rewrite <- (take_drop n (pending t)), Hz, (drop_ge (pending t)) by lia. by rewrite app_nil_r.
  - apply Nat.eqb_neq in Hfull. apply IH in H as (k & Hk & Hle & Hw); [|lia].
    exists (n + k)%nat. cbn [pending] in Hk. split_and!; [|lia|done].
    by rewrite <- (take_drop n (pending t)), Hz, Hk, replicate_add.
Qed.

(** ** A bundle determines its files *)

Lemma source_frame_inj f g r r' :
  frame_ok f -> frame_ok g -> source_frame f ++ r = source_frame g ++ r' ->
  bundled f = bundled g /\ r = r'.
Proof.
  intros [Hvf Hsf] [Hvg Hsg] E.
  apply validate_bundle_relative in Hvf as [_ Hlf], Hvg as [_ Hlg]. unfold max_u64 in Hsf, Hsg.
  unfold source_frame, framed in E. rewrite <- !app_assoc in E.
  apply length_prefixed_inj in E as [Hp E];
    [|change (256 ^ Z.of_nat 2) with 65536; lia..].
  apply app_inj_1 in E as [Hm E]; [|by rewrite !length_be_bytes].
  apply be_bytes_inj in Hm; [|by destruct (executable f)|by destruct (executable g)].
  rewrite !(app_assoc (be_bytes 8 _)) in E. apply (length_prefixed_inj 8) in E as [Hc E];
    [|change (256 ^ Z.of_nat 8) with 18446744073709551616; lia..].
  split; [|done]. unfold bundled. rewrite Hp, Hc. f_equal. f_equal.
  by destruct (executable f), (executable g).
Qed.

Lemma frames_inj fs :
  forall gs, length fs = length gs -> Forall frame_ok fs -> Forall frame_ok gs ->
  concat (map source_frame fs) = concat (map source_frame gs) -> map bundled fs = map bundled gs.
Proof.
  induction fs as [|f fs IH]; intros [|g gs] Hlen Hfs Hgs E; try done.
  apply Forall_cons in Hfs as [Hf Hfs], Hgs as [Hg Hgs]. cbn [map concat] in *.
  apply source_frame_inj in E as [Hfg E]; [|done..]. rewrite Hfg. f_equal.
  apply IH; [by injection Hlen|done..].
Qed.

Lemma encode_bundle_inj fs gs :
  Z.of_nat (length fs) <= 10000 -> Z.of_nat (length gs) <= 10000 ->
  Forall frame_ok fs -> Forall frame_ok gs ->
  encode_bundle fs = encode_bundle gs -> map bundled fs = map bundled gs.
Proof.
  intros Hlf Hlg Hf Hg E. unfold encode_bundle in E.
  apply app_inj_1 in E as [_ E]; [|done].
  apply app_inj_1 in E as [El E]; [|by rewrite !length_be_bytes].
  apply be_bytes_inj in El; [|change (256 ^ Z.of_nat 4) with 4294967296; lia..].
  apply frames_inj; [lia|done..].
Qed.

Lemma encode_bundle_bundled fs gs :
  map bundled fs = map bundled gs -> encode_bundle fs = encode_bundle gs.
Proof.
  intros E. unfold encode_bundle.
  assert (Hl : length fs = length gs) by (rewrite <- (length_map bundled), E; apply length_map).
  rewrite Hl. do 2 f_equal.
  set (fr := fun t : bytes * bool * bytes =>
    source_frame (Build_BuildSourceFile (fst (fst t)) (snd (fst t)) EmptyString (snd t))).
  assert (Hfr : forall l, map source_frame l = map fr (map bundled l)).
  { intros l. rewrite map_map. by apply map_ext. }
  by rewrite !Hfr, E.
Qed.

(** Strictly sorted lists with the same elements are the same. *)
Definition bundled_lt (t u : bytes * bool * bytes) : Prop :=
  bytes_lt (fst (fst t)) (fst (fst u)) = true.

#[export] Instance bundled_lt_antisymm : AntiSymm (=) bundled_lt.
Proof. intros t u H H'. unfold bundled_lt in *. apply bytes_lt_asym in H. congruence. Qed.

Lemma sorted_bundled fs : StronglySorted path_lt fs -> StronglySorted bundled_lt (map bundled fs).
Proof.
  induction 1 as [|f fs Hs IH Hf]; [constructor|]. cbn. constructor; [done|].
  by apply Forall_fmap.
Qed.

(** ** Properties *)

(** C27: What the control service writes for the files of a commit, once the worker
    has padded it to whole sectors, the guest extracts, whatever its reads return: it
    consumes the whole disk and the workspace then holds exactly those files with
    their contents and modes, and the directories on their way.  The files are those
    of a tree: their paths are UTF-8, end in a name, and none lies below another. *)
Theorem guest_extracts_the_bundle to_lowercase sha256 fs bundle entries total reads sizes
    (Hbundle : canonical_source_bundle to_lowercase sha256 fs = Ok (bundle, entries, total))
    (Hutf8 : Forall (fun f => utf8_valid (file_path f) = true) fs)
    (Hname : Forall (fun f => ends_in_name (file_path f) = true) fs)
    (Htree : unambiguous fs) :
  exists s,
    extract_source (MkExtraction (MkStream (make_padded_source bundle) reads sizes) (MkWorkspace ∅ ∅))
      = (Ok tt, s)
    /\ pending (input s) = [] /\ holds_exactly (workspace s) fs.
Proof.
  apply canonical_source_bundle_Ok in Hbundle as (-> & _ & _ & Hok & Hs & Hlen).
  set (ordered := merge_sort path_le fs) in *.
  assert (Hperm : ordered ≡ₚ fs) by apply merge_sort_Permutation.
  destruct (padding_replicate (encode_bundle ordered)) as (k & -> & Hk).
  destruct (extract_source_run ordered k reads sizes) as (r' & w & Hrun & Hw); [| |done|lia|done|].
  - rewrite Forall_forall in *. intros f Hf. assert (f ∈ fs) by (by rewrite <- Hperm).
    split_and!; auto.
  - intros f g Hf Hg. apply Htree; by rewrite <- Hperm.
  - exists (MkExtraction (MkStream [] r' sizes) w). split_and!; [done..|].
    destruct Hw as [Hfiles Hdirs]. split; intros; [rewrite Hfiles|rewrite Hdirs];
      by setoid_rewrite Hperm.
Qed.

(** C34: The guest accepts nothing else: a source that it extracts is the encoding
    of files in strict path order, each under a plain relative path, followed by at
    most 511 zero bytes, and its workspace holds exactly those files. *)
Theorem extraction_accepts_only_bundles source reads sizes u s
    (Hbytes : Forall is_byte source)
    (Hrun : extract_source (MkExtraction (MkStream source reads sizes) (MkWorkspace ∅ ∅)) = (Ok u, s)) :
  exists fs k,
    source = encode_bundle fs ++ replicate k 0 /\ (k <= MAX_SOURCE_PADDING)%nat
    /\ Forall accepted fs /\ StronglySorted path_lt fs /\ Z.of_nat (length fs) <= 100000
    /\ holds_exactly (workspace s) fs.
Proof.
  unfold extract_source in Hrun. rename Hrun into H.
  io_step H magic s1 E1. apply read_exact_Ok in E1 as (_ & P1 & t1 & -> & _).
  cbn [stream set_stream extraction_stream input pending] in P1. subst source.
  apply bytes_rest in Hbytes. io_reject_step H C1. apply negb_false_iff, bool_decide_eq_true in C1 as ->.
  io_step H n s2 E2. apply read_be_inv in E2 as (Hn & P2 & W2); [|done].
  rewrite P2 in *. apply bytes_rest in Hbytes. io_reject_step H C2. apply Z.ltb_ge in C2.
  io_step H u3 s3 E3. destruct s2 as [t2 w2]. cbn [workspace input] in *. subst w2.
  apply (extract_entries_inv _ []) in E3 as (fs & Hlen & Hok & Hs & _ & P3 & Hw);
    [|done|apply holds_nothing].
  destruct s3 as [t3 w3]. apply check_padding_inv in H as (k & P4 & Hk & <-);
    [|unfold MAX_SOURCE_PADDING; lia].
  exists fs, k. split_and!; [|done|done|done|lia|done].
  unfold encode_bundle. rewrite Hlen, Z2Nat.id, P3 by lia. cbn [input]. by rewrite P4, <- !app_assoc.
Qed.

(** The bundle is canonical: two commits have the same bundle exactly when they
    have the same files, whatever the order in which they are listed. *)
Theorem bundle_determines_files to_lowercase sha256 fs gs b es t b' es' t'
    (Hfs : canonical_source_bundle to_lowercase sha256 fs = Ok (b, es, t))
    (Hgs : canonical_source_bundle to_lowercase sha256 gs = Ok (b', es', t')) :
  b = b' <-> map bundled fs ≡ₚ map bundled gs.
Proof.
  apply canonical_source_bundle_Ok in Hfs as (-> & _ & _ & Hf & Hsf & Hlf).
  apply canonical_source_bundle_Ok in Hgs as (-> & _ & _ & Hg & Hsg & Hlg).
  pose proof (fun l => Permutation_map bundled (merge_sort_Permutation path_le l)) as Hp. split.
  - intros E. etrans; [symmetry; apply Hp|]. by rewrite (encode_bundle_inj _ _ Hlf Hlg Hf Hg E).
  - intros E. apply encode_bundle_bundled.
    apply (StronglySorted_unique bundled_lt); [by apply sorted_bundled..|].
    etrans; [apply Hp|]. etrans; [exact E|]. symmetry. apply Hp.
Qed.

(** ** A concrete commit *)

Module SourceDemo.

Definition lower (p : bytes) : bytes :=
  map (fun c => if in_range 65 90 c then c + 32 else c) p.

Definition commit : list BuildSourceFile := [
  Build_BuildSourceFile (lit "src/Main.js") false "b1" (lit "main()");
  Build_BuildSourceFile (lit "build.sh") true "b2" (lit "#!/bin/sh")].

Definition bundle : bytes := encode_bundle (rev commit).

(** One byte at a time, then as many as there are. *)
Definition slowly (n : nat) : nat := if (n <? 3)%nat then 1%nat else 512%nat.

Lemma bundle_ok : exists entries,
  canonical_source_bundle lower (fun _ => "digest"%string) commit = Ok (bundle, entries, 15).
Proof. eexists. vm_compute. reflexivity. Qed.

Lemma commit_tree : unambiguous commit.
Proof.
  intros f g Hf Hg. unfold commit in Hf, Hg.
  repeat (apply elem_of_cons in Hf as [->|Hf]); [..|by apply elem_of_nil in Hf];
  repeat (apply elem_of_cons in Hg as [->|Hg]); try by apply elem_of_nil in Hg.
  all: intros H; try done; exfalso; revert H; apply (bool_decide_unpack (_ ∉ _)); by vm_compute.
Qed.

Lemma guest_extracts_the_bundle_witness : exists s,
  extract_source (MkExtraction (MkStream (make_padded_source bundle) 0 slowly) (MkWorkspace ∅ ∅))
    = (Ok tt, s)
  /\ pending (input s) = [] /\ holds_exactly (workspace s) commit.
Proof.
  destruct bundle_ok as (entries & H).
  apply (guest_extracts_the_bundle lower (fun _ => "digest"%string) commit bundle entries 15);
    [exact H|repeat constructor..|exact commit_tree].
Defined.

Lemma extraction_accepts_only_bundles_witness : exists s fs k,
  make_padded_source bundle = encode_bundle fs ++ replicate k 0 /\ (k <= MAX_SOURCE_PADDING)%nat
  /\ Forall accepted fs /\ StronglySorted path_lt fs /\ Z.of_nat (length fs) <= 100000
  /\ holds_exactly (workspace s) fs.
Proof.
  set (run := extract_source
    (MkExtraction (MkStream (make_padded_source bundle) 0 slowly) (MkWorkspace ∅ ∅))).
  exists (snd run). apply (extraction_accepts_only_bundles _ 0 slowly tt).
  - apply (Forall_forallb (fun b => (0 <=? b) && (b <? 256))); [|vm_compute; reflexivity].
    intros b. unfold is_byte. rewrite andb_true_iff, Z.leb_le, Z.ltb_lt. done.
  - assert (Hok : fst run = Ok tt) by (vm_compute; reflexivity).
    rewrite <- Hok. exact (surjective_pairing run).
Defined.

Lemma bundle_determines_files_witness :
  bundle = bundle <-> map bundled commit ≡ₚ map bundled (rev commit).
Proof.
  destruct bundle_ok as (entries & H).
  apply (bundle_determines_files lower (fun _ => "digest"%string) _ _ _ entries 15 _ entries 15);
    [exact H|]. rewrite <- H. vm_compute. reflexivity.
Defined.

End SourceDemo.
