(* ===== verification/PolicyClock.v ===== *)
(** * The policy clock and the worker roles (crates/control/src/m3.rs)

    Lifecycle decisions take their time from one shared clock, which may be a file
    that an operator advances; the database refuses a reading that goes back.  A
    worker proves its role by one of four distinct tokens. *)

From stdpp Require Import base list option gmap strings relations.
From Stdlib Require Import ZArith Lia Ascii.
From S2P Require Import Prelude RustText Bytes PgTx Intent.

Local Open Scope string_scope.
Local Open Scope list_scope.

(** ** Configuration *)

Record PolicyTime := { schema_version : Z; pt_generation : Z; pt_now : Z }.

(** What the clock's file shows when it is read: [None] when it cannot be. *)
Record ClockFile := {
  ck_regular : bool; ck_length : Z; ck_private : bool; ck_canonical : bool;
  ck_value : option PolicyTime;
}.

(** [policy_clock] is [None] when real time is used. *)
Record M3Config := {
  policy_clock : option (option ClockFile);
  worker_hashes : list bytes;
}.

Definition require_enabled (m3 : option M3Config) : res ApiError M3Config :=
  ok_or m3 (unavailable "internal_execution_disabled" "owned-fixture execution is not configured").

(** ** Reading the clock *)

Definition read_policy_time (config : M3Config) (utc_now : Z) : option PolicyTime :=
  match policy_clock config with
  | None => Some {| schema_version := 1; pt_generation := 0; pt_now := utc_now |}
  | Some None => None
  | Some (Some f) =>
      if negb (ck_regular f) || (1024 <? ck_length f)%Z || negb (ck_private f) || negb (ck_canonical f)
      then None
      else match ck_value f with
           | Some v => if negb (schema_version v =? 1)%Z || (pt_generation v <? 1)%Z then None else Some v
           | None => None
           end
  end.

(** The row of m3_policy_clock: generation and instant. *)
Class ClockStore (D : Type) := {
  clock_row : D -> option (Z * Z);
  set_clock_row : option (Z * Z) -> D -> D;
}.
Class ClockStoreLaws (D : Type) `{ClockStore D} := {
  clock_set_clock : forall c d, clock_row (set_clock_row c d) = c;
}.

Section Clock.
Context {D : Type} `{ClockStore D}.

(** [INSERT ... ON CONFLICT DO UPDATE ... WHERE ... RETURNING]: was the row written? *)
Definition upsert_clock (generation now : Z) : M D bool :=
  d <~ get_db;;
  match clock_row d with
  | None =>
      if (0 <? generation)%Z then put_db (set_clock_row (Some (generation, now)) d);;; tret true
      else raise database_unavailable
  | Some (g, t) =>
      if (g <? generation)%Z && (t <=? now)%Z || (generation =? g)%Z && (now =? t)%Z
      then put_db (set_clock_row (Some (generation, now)) d);;; tret true
      else tret false
  end.

Definition policy_time (m3 : option M3Config) : M D PolicyTime :=
  config <~ lift (require_enabled m3);;
  utc_now <~ clock_timestamp;;
  clock <~ lift (ok_or (read_policy_time config utc_now)
    (unavailable "policy_clock_unavailable" "the lifecycle policy clock is unavailable"));;
  match policy_clock config with
  | None => tret clock
  | Some _ =>
      accepted <~ upsert_clock (pt_generation clock) (pt_now clock);;
      if accepted : bool then tret clock
      else raise (conflict "policy_clock_regressed"
                    "the shared lifecycle policy clock must advance monotonically")
  end.

Definition policy_now (m3 : option M3Config) : M D Z :=
  t <~ policy_time m3;; tret (pt_now t).

(** A transaction whose body reads the policy clock: the clock's row is written on a
    connection of its own and stays when the transaction is dropped. *)
Definition clock_transaction {A} (body : M D (res ApiError A)) : M D A := fun env w =>
  match body env w with
  | (Ok r, w') => (r, w')
  | (Err e, w') => (Err e, MkWorld (set_clock_row (clock_row (db w')) (db w)) (ticks w') (drawn w'))
  end.
End Clock.

(** ** Worker roles *)

Inductive Role := BuildWorker | DatabaseWorker | RuntimeWorker | PublisherWorker.
Definition role_index (r : Role) : nat :=
  match r with BuildWorker => 0 | DatabaseWorker => 1 | RuntimeWorker => 2 | PublisherWorker => 3 end.

(** The Bearer token of the Authorization header. *)
Definition supplied_token (authorization : option bytes) : option bytes :=
  token ← authorization ≫= strip (lit "Bearer ");
  if (32 <=? length token)%nat && (length token <=? 256)%nat then Some token else None.

Section Workers.
Context (sha256 : bytes -> bytes).

(** The role's own token; any of the four for the clock ([None]). *)
Definition check_worker (m3 : option M3Config) (role : option Role) (authorization : option bytes)
    : res ApiError unit :=
  res_bind (require_enabled m3) (fun config =>
  res_bind (ok_or (supplied_token authorization) unauthorized) (fun supplied =>
  let hash := sha256 supplied in
  guard_err (negb (match role with
    | Some r => bool_decide (worker_hashes config !! role_index r = Some hash)
    | None => existsb (fun expected => bool_decide (expected = hash)) (worker_hashes config)
    end)) unauthorized)).

(** Start-up refuses tokens that are too short, too long, not graphic, or equal. *)
Definition token_ok (token : rstr) : bool :=
  (32 <=? byte_len token)%Z && (byte_len token <=? 256)%Z
  && negb (existsb (fun c => is_whitespace c || is_control c) token).

Definition worker_hashes_of (encode : rstr -> bytes) (tokens : list (option rstr)) : option (list bytes) :=
  hashes ← mapM (fun t => token ← t; if token_ok token then Some (sha256 (encode token)) else None) tokens;
  if bool_decide (NoDup hashes) then Some hashes else None.
End Workers.

(** ** Lemmas *)

(** The clock's row only moves forward. *)
Definition clock_le (c c' : option (Z * Z)) : Prop :=
  match c, c' with
  | None, _ => True
  | Some (g, t), Some (g', t') => (g < g' /\ t <= t' \/ g = g' /\ t = t')%Z
  | Some _, None => False
  end.

#[export] Instance clock_le_preorder : PreOrder clock_le.
Proof.
  split.
  - intros [[g t]|]; simpl; [by right|done].
  - intros [[g t]|] [[g' t']|] [[g'' t'']|]; simpl; lia || done.
Qed.

Section ClockLemmas.
Context {D : Type} `{ClockStoreLaws D}.

Lemma clock_transaction_cases {A} (body : M D (res ApiError A)) env w r w' :
  clock_transaction body env w = (r, w') ->
  (exists e c, r = Err e /\ db w' = set_clock_row c (db w)) \/ body env w = (Ok r, w').
Proof.
  unfold clock_transaction. destruct (body env w) as [[r'|e] w1]; intros [= <- <-]; eauto.
Qed.

Lemma upsert_clock_Ok generation now env (w w' : World D) b :
  upsert_clock generation now env w = (Ok b, w') ->
  if b then db w' = set_clock_row (Some (generation, now)) (db w)
            /\ clock_le (clock_row (db w)) (Some (generation, now))
  else w' = w.
Proof.
  unfold upsert_clock. intros Hm. tx_inv Hm.
  destruct (clock_row (db w)) as [[g t]|] eqn:Er.
  - case_match eqn:Hc; tx_inv Hm; [|done]. split; [done|]. simpl.
    apply orb_true_iff in Hc as [Hc|Hc]; bool_simpl; lia.
  - case_match; tx_inv Hm. by split.
Qed.

(** A reading is the configured one; it writes the row of a configured clock. *)
Lemma policy_time_Ok m3 env (w w' : World D) t :
  policy_time m3 env w = (Ok t, w') ->
  (db w' = db w \/ db w' = set_clock_row (Some (pt_generation t, pt_now t)) (db w)
                    /\ clock_le (clock_row (db w)) (Some (pt_generation t, pt_now t)))
  /\ exists config, m3 = Some config.
Proof.
  unfold policy_time. intros Hm. tx_inv Hm.
  assert (Hc : exists config, m3 = Some config).
  { unfold require_enabled in *. destruct m3; [eauto|done]. }
  split; [|done]. clear Hc. destruct (policy_clock v); tx_inv Hm; [|by left].
  match goal with E : upsert_clock _ _ _ _ = _ |- _ => apply upsert_clock_Ok in E end.
  match goal with b : bool |- _ => destruct b end; [|by apply raise_Ok in Hm].
  tx_inv Hm. by right.
Qed.
End ClockLemmas.

(** ** The clock over time *)

Section ClockHistory.
Context {D : Type} `{ClockStoreLaws D}.

(** Readings under any configuration, between steps that leave the row alone. *)
Inductive clock_api : World D -> World D -> Prop :=
| clock_read m3 env w r w' : policy_time m3 env w = (r, w') -> clock_api w w'
| clock_other w w' : clock_row (db w') = clock_row (db w) -> clock_api w w'.

Lemma upsert_clock_le generation now env (w w' : World D) r :
  upsert_clock generation now env w = (r, w') -> clock_le (clock_row (db w)) (clock_row (db w')).
Proof.
  destruct r as [b|e]; intros Hm.
  - apply upsert_clock_Ok in Hm. destruct b; [|by subst].
    destruct Hm as [-> Hle]. by rewrite clock_set_clock.
  - revert Hm. unfold upsert_clock, tbind, get_db. cbn. repeat case_match; by intros [= <- <-].
Qed.

Lemma policy_time_le m3 env (w w' : World D) r :
  policy_time m3 env w = (r, w') -> clock_le (clock_row (db w)) (clock_row (db w')).
Proof.
  intros Hm. unfold policy_time in Hm.
  apply lift_cases in Hm as [(e & _ & _ & ->)|(config & _ & Hm)]; [done|].
  unfold tbind at 1, clock_timestamp in Hm.
  apply lift_cases in Hm as [(e & _ & _ & ->)|(t & _ & Hm)]; [done|].
  destruct (policy_clock config); [|by injection Hm as <- <-].
  unfold tbind in Hm. destruct (upsert_clock _ _ _ _) as [b w1] eqn:Hu. apply upsert_clock_le in Hu.
  cbn [db] in Hu. destruct b as [[]|]; by injection Hm as <- <-.
Qed.

Lemma clock_apis_le w w' : rtc clock_api w w' -> clock_le (clock_row (db w)) (clock_row (db w')).
Proof.
  induction 1 as [|w1 w2 w3 Hs _ IH]; [done|]. etrans; [|exact IH].
  destruct Hs as [m3 env w1 r w2 Hr|w1 w2 ->]; [by eapply policy_time_le|done].
Qed.

(** A reading of a configured clock leaves its row behind. *)
Lemma policy_time_row config f env (w w' : World D) t :
  policy_clock config = Some f -> policy_time (Some config) env w = (Ok t, w') ->
  clock_row (db w') = Some (pt_generation t, pt_now t).
Proof.
  intros Hc Hm. unfold policy_time in Hm. tx_inv Hm.
  match goal with E : require_enabled _ = Ok ?v |- _ => injection E as <- end.
  rewrite Hc in Hm. tx_inv Hm.
  match goal with E : upsert_clock _ _ _ _ = _ |- _ => apply upsert_clock_Ok in E end.
  match goal with b : bool |- _ => destruct b end; [|by apply raise_Ok in Hm].
  tx_inv Hm. destruct_and!. match goal with E : db _ = _ |- _ => rewrite E end.
  by rewrite clock_set_clock.
Qed.

(** Whatever an operator writes to the policy clock's file and whichever services
    read it, a later reading is never earlier: its generation and its instant are at
    least those of every reading before it. *)
Theorem policy_time_never_goes_back config config' f f' env env' w w1 w2 w3 t t'
    (Hfile : policy_clock config = Some f) (Hfile' : policy_clock config' = Some f')
    (Hread : policy_time (Some config) env w = (Ok t, w1)) (Hbetween : rtc clock_api w1 w2)
    (Hagain : policy_time (Some config') env' w2 = (Ok t', w3)) :
  (pt_generation t <= pt_generation t')%Z /\ (pt_now t <= pt_now t')%Z.
Proof.
  pose proof (policy_time_row _ _ _ _ _ _ Hfile Hread) as E1.
  pose proof (policy_time_row _ _ _ _ _ _ Hfile' Hagain) as E3.
  assert (Hle : clock_le (clock_row (db w1)) (clock_row (db w3))).
  { etrans; [by apply clock_apis_le|by eapply policy_time_le]. }
  rewrite E1, E3 in Hle. cbn in Hle. lia.
Qed.
End ClockHistory.

Module ClockDemo.
#[local] Instance row_store : ClockStore (option (Z * Z)) := {
  clock_row d := d; set_clock_row c _ := c;
}.
#[local] Instance row_store_laws : ClockStoreLaws (option (Z * Z)).
Proof. by split. Qed.

Definition file (generation now : Z) : ClockFile := {|
  ck_regular := true; ck_length := 80; ck_private := true; ck_canonical := true;
  ck_value := Some {| schema_version := 1; pt_generation := generation; pt_now := now |} |}.
Definition config (generation now : Z) : M3Config :=
  {| policy_clock := Some (Some (file generation now)); worker_hashes := [] |}.
Definition env : Env :=
  {| clock := fun _ => 0%Z; fresh := fun _ => 0%N; row_locked := fun _ _ => false |}.
Definition first := policy_time (D := option (Z * Z)) (Some (config 1 100)) env (MkWorld None 0 0).
(** A file that goes back is refused in between. *)
Definition refused := policy_time (Some (config 2 50)) env (snd first).
Definition later := policy_time (Some (config 2 200)) env (snd refused).

Lemma policy_time_never_goes_back_witness :
  fst refused = Err (conflict "policy_clock_regressed"
                       "the shared lifecycle policy clock must advance monotonically")
  /\ (1 <= 2)%Z /\ (100 <= 200)%Z.
Proof.
  split; [vm_compute; reflexivity|].
  apply (policy_time_never_goes_back (config 1 100) (config 2 200) (Some (file 1 100))
    (Some (file 2 200)) env env (MkWorld None 0 0) (snd first) (snd refused) (snd later)
    {| schema_version := 1; pt_generation := 1; pt_now := 100 |}
    {| schema_version := 1; pt_generation := 2; pt_now := 200 |});
    [reflexivity|reflexivity|vm_compute; reflexivity| |vm_compute; reflexivity].
  apply rtc_once. exact (clock_read _ _ _ _ _ (surjective_pairing refused)).
Defined.
End ClockDemo.
