(* ===== verification/ExecutionTables.v ===== *)
(** * Tables of the execution schema (migrations/0006_m3_execution.sql)

    The rows that build jobs, tenant databases and runtime allocations share, the
    text formats of their constraints, and the queries that join them.  A table
    whose rows other components write is keyed by its primary key; instants are in
    microseconds; [text] is the bytes of its UTF-8 encoding. *)

From stdpp Require Import base list option gmap strings.
From Stdlib Require Import ZArith Lia Ascii.
From S2P Require Import Prelude RustText Bytes PgTx Intent Admission.

Local Open Scope string_scope.
Local Open Scope list_scope.

(** ** Text formats *)

Definition is_lower_hex (b : Z) : bool := is_ascii_digit b || is_lower_hex_letter b.

(** [^sha256:[0-9a-f]{64}$]. *)
Definition is_digest (value : string) : bool :=
  match strip (lit "sha256:") (as_bytes value) with
  | Some hex => (length hex =? 64)%nat && forallb is_lower_hex hex
  | None => false
  end.

(** [^[0-9a-f]{64}$]. *)
Definition is_raw_digest (value : string) : bool :=
  (String.length value =? 64)%nat && forallb is_lower_hex (as_bytes value).

(** [^[0-9a-f]{40}$]. *)
Definition is_commit (value : string) : bool :=
  (String.length value =? 40)%nat && forallb is_lower_hex (as_bytes value).

(** Lower-case hexadecimal text of bytes. *)
Definition hex_digit (v : Z) : Z := if (v <? 10)%Z then (48 + v)%Z else (87 + v)%Z.
Definition hex_encode (bs : bytes) : bytes :=
  concat (map (fun b => [hex_digit (b / 16); hex_digit (b mod 16)]) bs).

(** [chars().any(char::is_control)] on UTF-8: one byte below U+0080, two above. *)
Fixpoint has_control (s : bytes) : bool :=
  match s with
  | [] => false
  | b :: s' =>
      is_ascii_control b
      || (b =? 194)%Z && match s' with c :: _ => (128 <=? c)%Z && (c <=? 159)%Z | [] => false end
      || has_control s'
  end.

Definition is_nil (id : Uuid) : bool := (id =? 0)%N.

(** ** Build jobs *)

Inductive BuildState := BQueued | BRunning | BSucceeded | BFailed | BCanceled | BRetriable.
Inductive CleanupStatus := NotStarted | Confirmed | CleanupPending.
Inductive ServiceKind := StaticFrontend | ApplicationService.
Inductive ArtifactKind := StaticArtifact | ApplicationArtifact.
Inductive UsageState := UReserved | UFinalized | UReleased.

#[export] Instance BuildState_eq : EqDecision BuildState.
Proof. solve_decision. Defined.
#[export] Instance CleanupStatus_eq : EqDecision CleanupStatus.
Proof. solve_decision. Defined.
#[export] Instance ServiceKind_eq : EqDecision ServiceKind.
Proof. solve_decision. Defined.
#[export] Instance ArtifactKind_eq : EqDecision ArtifactKind.
Proof. solve_decision. Defined.
#[export] Instance UsageState_eq : EqDecision UsageState.
Proof. solve_decision. Defined.

Record BuildJob := {
  bj_id : Uuid; bj_account : Uuid; bj_project : Uuid; bj_deployment : Uuid;
  bj_reservation : Uuid; bj_epoch : Uuid; bj_proof : Uuid; bj_source : Uuid;
  bj_compatibility : Uuid; bj_config : Uuid; bj_commit : string; bj_tree : string;
  bj_profile : string; bj_profile_digest : string; bj_materialization : option Uuid;
  bj_bundle : option string; bj_tree_manifest : option string; bj_input_digest : string;
  bj_state : BuildState; bj_revision : Z; bj_attempts : Z; bj_current : option Uuid;
  bj_fence : Z; bj_lease : option Z; bj_code : option string; bj_cleanup : CleanupStatus;
  bj_created : Z;
}.

(** Keyed by the job and the service. *)
Record BuildService := {
  bs_ordinal : Z; bs_kind : ServiceKind; bs_root : option string; bs_node_major : Z;
  bs_framework : string; bs_lockfile : string; bs_build_command : string; bs_output : string;
  bs_start_command : option string; bs_health_path : option string;
}.

Record Artifact := {
  at_id : Uuid; at_account : Uuid; at_project : Uuid; at_job : Uuid; at_attempt : Uuid;
  at_fence : Z; at_service : Uuid; at_kind : ArtifactKind; at_archive : string;
  at_manifest : string; at_packed : Z; at_unpacked : Z; at_entries : Z;
  at_argv : option (list string);
}.

(** Keyed by the job. *)
Record UsageReservation := {
  ur_account : Uuid; ur_project : Uuid; ur_deployment : Uuid; ur_entitlement : Uuid;
  ur_seconds : option Z; ur_state : UsageState; ur_debit : option Uuid; ur_finalized : option Z;
}.

(** ** Tenant databases *)

Inductive DatabaseState :=
| ProvisionRequested | Provisioning | DbReady | RecoveryAttention
| DbFailedResourcesRetained | DbRemoved.
Inductive GrowthMode := Writable | ReadOnlyOverLimit.
Inductive CredentialPurpose := RuntimePurpose | MigrationPurpose | BackupPurpose.
Inductive CredentialStatus := CActive | CSuperseded | CRevoked.
Inductive RecoveryState := RRequested | RRestoring | RValidated | RFailed | RCleaned.
Inductive OperationKind :=
| Provision | BackupDaily | BackupPreMigration | Export | RestoreDrill | ObserveStorage
| MigrationTrial | MigrationLiveApply | ArchiveExpire.
Inductive OperationState := OQueued | ORunning | ORetriable | OSucceeded | OFailed | OCanceled.

#[export] Instance DatabaseState_eq : EqDecision DatabaseState.
Proof. solve_decision. Defined.
#[export] Instance GrowthMode_eq : EqDecision GrowthMode.
Proof. solve_decision. Defined.
#[export] Instance CredentialPurpose_eq : EqDecision CredentialPurpose.
Proof. solve_decision. Defined.
#[export] Instance CredentialStatus_eq : EqDecision CredentialStatus.
Proof. solve_decision. Defined.
#[export] Instance RecoveryState_eq : EqDecision RecoveryState.
Proof. solve_decision. Defined.
#[export] Instance OperationKind_eq : EqDecision OperationKind.
Proof. solve_decision. Defined.
#[export] Instance OperationState_eq : EqDecision OperationState.
Proof. solve_decision. Defined.

(** Columns that are only written are left out. *)
Record TenantDatabase := {
  td_id : Uuid; td_account : Uuid; td_project : Uuid; td_service : Uuid; td_config : Uuid;
  td_deployment : Uuid; td_reservation : Uuid; td_epoch : Uuid; td_generation : Uuid;
  td_state : DatabaseState; td_connections : Z; td_limit : Z; td_ref : string; td_source : Z;
  td_mode : GrowthMode; td_measured : option Z; td_observed : option Z; td_revision : Z;
  td_error : option string; td_created : Z; td_ready : option Z;
}.

Record DatabaseCredential := {
  dc_id : Uuid; dc_account : Uuid; dc_project : Uuid; dc_database : Uuid;
  dc_generation : Uuid; dc_purpose : CredentialPurpose; dc_role : string;
  dc_status : CredentialStatus; dc_key_version : string; dc_nonce : bytes;
  dc_ciphertext : bytes; dc_tag : bytes;
}.

Record Recovery := {
  rc_id : Uuid; rc_account : Uuid; rc_project : Uuid; rc_database : Uuid;
  rc_generation : Uuid; rc_archive : Uuid; rc_state : RecoveryState; rc_week : Z;
  rc_replacement_ref : option string; rc_replacement_identity : option Uuid;
  rc_restored : option Z; rc_validated : option Z; rc_elapsed : option Z;
  rc_error : option string; rc_created : Z;
}.

(** The artifact of a migration; its last member is the reference and the stage receipt
    of the file once it has been materialized. *)
Record MigrationArtifact := {
  mx_job : Uuid; mx_artifact : Uuid; mx_service : Uuid; mx_archive : string; mx_manifest : string;
  mx_entry : string; mx_file : string; mx_materialized : option (string * string);
}.

(** What an operation is to do. *)
Inductive OperationBody :=
| ProvisionBody (database_ref runtime migration backup : string) (management : Uuid) (connections limit : Z)
| ArchiveBody (kind namespace : string) (scheduled : option Z) (intended : option string) (source expires : Z)
| RestoreBody (namespace : string) (encrypted object : option string)
| StorageBody (limit : Z) (runtime migration backup : string)
| ExpireBody (namespace : string) (object encrypted : option string) (generation : Uuid) (expired : Z)
| TrialBody (migration : Uuid) (namespace : string) (encrypted : option string)
    (revision digest : string) (source : Z) (current candidate : string) (artifact : MigrationArtifact)
| ApplyBody (migration : Uuid) (revision digest : string) (artifact : MigrationArtifact) (source : Z)
    (current candidate apply_receipt : string).

(** The members of an operation's specification and result that are read, as
    [->>] and [#>>] return them. *)
Record OperationSpec := {
  os_recovery_id : option string; os_archive_id : option string; os_replacement_ref : option string;
  os_body : OperationBody;
}.
Record OperationProof := {
  op_code : option string; op_recovery_id : option string; op_archive_id : option string;
  op_replacement_ref : option string; op_replacement_identity : option string;
  op_elapsed : option string; op_endpoint : option string; op_rows : option string;
  op_relationships : option string; op_grants : option string; op_connection : option string;
  op_unchanged : option string;
}.
Record DatabaseOperation := {
  do_id : Uuid; do_account : Uuid; do_project : Uuid; do_database : Uuid; do_generation : Uuid;
  do_kind : OperationKind; do_state : OperationState; do_key : string;
  do_spec : OperationSpec; do_proof : option OperationProof; do_credentials : list Uuid;
  do_attempts : Z; do_current : option Uuid; do_fence : Z; do_lease : option Z; do_policy : Z;
  do_created : Z;
}.

(** ** The tables *)

Record Execution := {
  build_jobs : gmap Uuid BuildJob;
  build_services : gmap (Uuid * Uuid) BuildService;
  build_artifacts : gmap Uuid Artifact;
  build_usage : gmap Uuid UsageReservation;
  x_deployments : gmap Uuid Deployment;
  x_reservations : gmap Uuid Reservation;
  x_projects : gmap Uuid Project;
  tenant_databases : gmap Uuid TenantDatabase;
  database_credentials : gmap Uuid DatabaseCredential;
  recoveries : gmap Uuid Recovery;
  database_operations : gmap Uuid DatabaseOperation;
}.

(** [IN (...)]. *)
Definition one_of {A} `{EqDecision A} (x : A) (l : list A) : bool := bool_decide (x ∈ l).

(** [WHERE] inside a query written in the option monad. *)
Definition where_ (b : bool) : option unit := if b then Some tt else None.

(** A project whose slot is held. *)
Definition slot_held_by (p : Project) : bool :=
  (pj_slots p =? 1)%Z && one_of (pj_slot_state p) [SReserved; SResourcesRetained; SReleasePending].

(** The joins of a succeeded build with its artifact, deployment and reservation. *)
Record BuiltArtifact := {
  ba_job : BuildJob; ba_artifact : Artifact; ba_deployment : Deployment; ba_reservation : Reservation;
}.

Definition built_artifact (x : Execution) (job artifact : Uuid) : option BuiltArtifact :=
  j ← build_jobs x !! job;
  a ← build_artifacts x !! artifact;
  d ← x_deployments x !! bj_deployment j;
  r ← x_reservations x !! bj_reservation j;
  _ ← where_ (bool_decide (at_job a = bj_id j) && bool_decide (at_account a = bj_account j)
              && bool_decide (at_project a = bj_project j)
              && bool_decide (dp_account d = bj_account j) && bool_decide (dp_project d = bj_project j)
              && bool_decide (rv_account r = bj_account j) && bool_decide (rv_project r = bj_project j)
              && bool_decide (rv_epoch r = bj_epoch j)
              && bool_decide (bj_state j = BSucceeded) && bool_decide (at_kind a = ApplicationArtifact)
              && bool_decide (dp_config d = bj_config j) && bool_decide (dp_commit d = bj_commit j));
  Some {| ba_job := j; ba_artifact := a; ba_deployment := d; ba_reservation := r |}.
