(* ===== verification/Credentials.v ===== *)
(** * Runtime credentials of tenant databases (crates/control/src/tenant_databases.rs)

    The active runtime credential of a database is opened for whoever has
    established the database's owner and generation.  The cipher, the text forms of
    a UUID and its parser are parameters. *)

From stdpp Require Import base list option gmap strings.
From Stdlib Require Import ZArith Lia Ascii.
From S2P Require Import Prelude RustText Bytes PgTx Intent Secrets Admission ExecutionTables.

Local Open Scope string_scope.
Local Open Scope list_scope.

Definition purpose_text (p : CredentialPurpose) : string :=
  match p with RuntimePurpose => "runtime" | MigrationPurpose => "migration" | BackupPurpose => "backup" end.

Record ResolvedRuntimeCredential := {
  rr_credential : Uuid; rr_database_ref : string; rr_role_ref : string;
  rr_database_name : string; rr_role_name : string; rr_value : bytes;
}.

Section Credentials.
Context (aead_open : bytes -> bytes -> bytes -> bytes -> bytes -> option bytes).
Context (parse_uuid : string -> option Uuid) (uuid_text uuid_simple : Uuid -> string).

Definition credential_aad (account project database generation : Uuid) (purpose : string)
    (credential : Uuid) : bytes :=
  lit "hostlet-tenant-database-credential/v1"
  ++ 0%Z :: as_bytes (uuid_text account) ++ 0%Z :: as_bytes (uuid_text project)
  ++ 0%Z :: as_bytes (uuid_text database) ++ 0%Z :: as_bytes (uuid_text generation)
  ++ 0%Z :: as_bytes purpose ++ 0%Z :: as_bytes (uuid_text credential).

Definition database_name (identity : Uuid) : string := "hdb_" +:+ uuid_simple identity.
Definition role_name (identity : Uuid) : string := "ha_" +:+ uuid_simple identity.

(** The database of a credential, while its reservation is not released. *)
Definition credential_database (x : Execution) (c : DatabaseCredential) : option TenantDatabase :=
  d ← tenant_databases x !! dc_database c;
  r ← x_reservations x !! td_reservation d;
  _ ← where_ (bool_decide (td_account d = dc_account c) && bool_decide (td_project d = dc_project c)
              && bool_decide (td_generation d = dc_generation c)
              && bool_decide (rv_account r = td_account d) && bool_decide (rv_project r = td_project d)
              && bool_decide (rv_epoch r = td_epoch d) && negb (bool_decide (rv_state r = RReleased))
              && one_of (td_state d) [DbReady; RecoveryAttention]);
  Some d.

Definition active_runtime (account project database generation : Uuid) (x : Execution)
    (_ : Uuid) (c : DatabaseCredential) : bool :=
  bool_decide (dc_account c = account) && bool_decide (dc_project c = project)
  && bool_decide (dc_database c = database) && bool_decide (dc_generation c = generation)
  && bool_decide (dc_purpose c = RuntimePurpose) && bool_decide (dc_status c = CActive)
  && bool_decide (is_Some (credential_database x c)).

Definition resolve_runtime_credential (x : Execution) (key : SecretKey)
    (account project database generation : Uuid) : res ApiError ResolvedRuntimeCredential :=
  match select_first (active_runtime account project database generation x) (fun _ _ => true)
          (database_credentials x) with
  | None => Err not_found
  | Some c =>
      res_bind (ok_or (credential_database x c) not_found) (fun d =>
      res_bind (guard_err (negb (bool_decide (dc_key_version c = key_version key)))
                  foundation_unavailable) (fun _ =>
      let aad := credential_aad account project database generation
                   (purpose_text (dc_purpose c)) (dc_id c) in
      res_bind (ok_or (decrypt aead_open key aad (dc_nonce c) (dc_ciphertext c) (dc_tag c))
                  foundation_unavailable) (fun plaintext =>
      res_bind (guard_err (negb (utf8_valid plaintext)) foundation_unavailable) (fun _ =>
      res_bind (ok_or (parse_uuid (td_ref d)) internal) (fun database_identity =>
      res_bind (ok_or (parse_uuid (dc_role c)) internal) (fun role_identity =>
      Ok {| rr_credential := dc_id c; rr_database_ref := td_ref d; rr_role_ref := dc_role c;
            rr_database_name := database_name database_identity;
            rr_role_name := role_name role_identity; rr_value := plaintext |}))))))
  end.
End Credentials.
