(* ===== verification/RuntimeEvidence.v ===== *)
(** * Runtime evidence (crates/control/src/runtime_policy.rs)

    The receipts of the runtime executor and the checks the control service makes
    of them: the envelope of an evaluation, the criteria a passing evaluation
    meets, and the receipts that support each observed lifecycle state.  [f64] is
    IEEE binary64, as the standard library specifies it; the digits of the JSON
    documents and SHA-256 are not modelled here. *)

From stdpp Require Import base list option gmap strings sorting.
From Stdlib Require Import ZArith Lia Ascii SpecFloat.
From S2P Require Import Prelude RustText Bytes PgTx Intent Admission ExecutionTables.

Local Open Scope string_scope.
Local Open Scope list_scope.

(** ** Floating-point numbers *)

Abbreviation f64 := spec_float.

Definition f64_mul : f64 -> f64 -> f64 := SFmul 53 1024.
Definition f64_add : f64 -> f64 -> f64 := SFadd 53 1024.
Definition f64_sub : f64 -> f64 -> f64 := SFsub 53 1024.
(** [f64::max]: the other argument when one is not a number. *)
Definition f64_max (a b : f64) : f64 :=
  match a, b with
  | S754_nan, _ => b
  | _, S754_nan => a
  | _, _ => if SFltb a b then b else a
  end.

(** The literals of the source. *)
Definition f64_zero : f64 := S754_zero false.
Definition f64_half : f64 := S754_finite false 4503599627370496 (-53).
Definition f64_two : f64 := S754_finite false 4503599627370496 (-51).
Definition f64_25 : f64 := S754_finite false 7036874417766400 (-48).
Definition f64_thousandth : f64 := S754_finite false 4611686018427388 (-62).

Definition is_finite (v : f64) : bool :=
  match v with S754_zero _ | S754_finite _ _ _ => true | _ => false end.
Definition finite_positive (v : f64) : bool := is_finite v && SFltb f64_zero v.
Definition approximately_equal (left right : f64) : bool :=
  is_finite left && is_finite right && SFleb (SFabs (f64_sub left right)) f64_thousandth.

(** The rank of the 95th percentile of [n] samples, counted from zero. *)
Definition percentile_index (n : nat) : nat := (n * 95 + 99) / 100 - 1.

(** [total_cmp] is the numerical order on the finite positive numbers it is used on. *)
Definition f64_le (a b : f64) : Prop := SFleb a b = true.
#[export] Instance f64_le_dec a b : Decision (f64_le a b).
Proof. unfold f64_le. apply _. Defined.

Definition percentile_95 (values : list f64) : f64 :=
  if bool_decide (values = []) || existsb (fun v => negb (finite_positive v)) values then S754_nan
  else nth (percentile_index (length values)) (merge_sort f64_le values) S754_nan.

Definition percentile_95_u32 (values : list Z) : option Z :=
  match values with
  | [] => None
  | _ => merge_sort Z.le values !! percentile_index (length values)
  end.

(** ** What an evaluation reports *)

Record PatternFacts := {
  pf_framework : string; pf_node_major : Z; pf_artifact : string; pf_manifest : string;
  pf_profile : string; pf_commit : string; pf_assertions_passed : Z; pf_assertions_total : Z;
  pf_cold_healthy : Z; pf_cold_total : Z; pf_cold_ms : list Z; pf_warm_idle : Z;
}.

Record CompatibilityFacts := {
  cf_warm_run : Z; cf_p95_startup : Z; cf_baseline_samples : Z; cf_sandbox_samples : Z;
  cf_baseline_p95 : f64; cf_sandbox_p95 : f64; cf_baseline_rps : f64; cf_sandbox_rps : f64;
}.

Record PerformanceFacts := {
  pm_decision : string; pm_ratio : f64; pm_target_met : bool; pm_production_ready : bool;
}.

Record NetworkFacts := {
  nf_forbidden_passed : Z; nf_forbidden_total : Z; nf_allowed_passed : Z; nf_allowed_total : Z;
  nf_independent : bool;
}.

Record BenchmarkFacts := {
  bf_baseline_cpu : Z; bf_sandbox_cpu : Z; bf_baseline_memory : Z; bf_sandbox_memory : Z;
  bf_baseline_requests : list f64; bf_sandbox_requests : list f64; bf_startups : list Z;
}.

Record ResourceFacts := {
  rf_cpu_max : string; rf_memory_max : Z; rf_swap_max : Z; rf_pids_max : Z; rf_scratch_max : Z;
  rf_connections : Z; rf_per_second : Z; rf_burst : Z; rf_reasons : list string;
  rf_restart_delays : list Z; rf_restart_limit : Z; rf_restart_window : Z; rf_healthy_reset : Z;
  rf_idle_stop : bool;
}.

Record EvaluationFacts := {
  ef_evaluator : string; ef_oci_schema : string; ef_unpack_tool : string;
  ef_patterns : list PatternFacts; ef_compatibility : CompatibilityFacts;
  ef_performance : PerformanceFacts; ef_network : NetworkFacts; ef_resources : ResourceFacts;
  ef_benchmark : BenchmarkFacts;
}.

Definition pattern_well_formed (p : PatternFacts) : bool :=
  one_of (pf_framework p) ["node_http"; "nextjs16_standalone"] && one_of (pf_node_major p) [22; 24]%Z
  && is_digest (pf_artifact p) && is_digest (pf_manifest p) && is_digest (pf_profile p)
  && is_commit (pf_commit p) && (0 <? pf_assertions_total p)%Z && (0 <? pf_cold_total p)%Z
  && (pf_cold_total p =? Z.of_nat (length (pf_cold_ms p)))%Z && (length (pf_cold_ms p) <=? 100)%nat.

Definition pattern_passes (p : PatternFacts) : bool :=
  pattern_well_formed p && (pf_assertions_passed p =? pf_assertions_total p)%Z
  && (3 <=? pf_cold_total p)%Z && (pf_cold_healthy p =? pf_cold_total p)%Z
  && forallb (fun ms => (ms <=? 10000)%Z) (pf_cold_ms p) && (60 <=? pf_warm_idle p)%Z.

Definition performance_assessment_matches (facts : EvaluationFacts) : bool :=
  let c := ef_compatibility facts in
  let p := ef_performance facts in
  bool_decide (pm_decision p = "owned_fixture_only") && SFeqb (pm_ratio p) f64_half
  && negb (pm_production_ready p)
  && finite_positive (cf_baseline_rps c) && finite_positive (cf_sandbox_rps c)
  && Bool.eqb (pm_target_met p) (SFleb (f64_mul (cf_baseline_rps c) (pm_ratio p)) (cf_sandbox_rps c)).

Definition enforced_reasons : list string :=
  ["cpu_throttled"; "runtime_oom"; "process_limit_exceeded"; "scratch_limit_exceeded";
   "network_connection_limit"; "crash_loop_backoff"].

Definition fits (n bound : Z) : bool := (n <=? bound)%Z.
Definition count {A} (l : list A) : Z := Z.of_nat (length l).

Definition samples_match (c : CompatibilityFacts) (b : BenchmarkFacts) : bool :=
  (60 <=? cf_warm_run c)%Z && (cf_p95_startup c <=? 5000)%Z
  && (0 <? cf_baseline_samples c)%Z && (0 <? cf_sandbox_samples c)%Z
  && (cf_baseline_samples c =? count (bf_baseline_requests b))%Z
  && (cf_sandbox_samples c =? count (bf_sandbox_requests b))%Z
  && negb (bool_decide (bf_startups b = []))
  && (0 <? bf_baseline_cpu b)%Z && (0 <? bf_sandbox_cpu b)%Z
  && (0 <? bf_baseline_memory b)%Z && (0 <? bf_sandbox_memory b)%Z
  && fits (count (bf_baseline_requests b)) 10000 && fits (count (bf_sandbox_requests b)) 10000
  && fits (count (bf_startups b)) 1000.

Definition latency_matches (c : CompatibilityFacts) (b : BenchmarkFacts) : bool :=
  finite_positive (cf_baseline_p95 c) && finite_positive (cf_sandbox_p95 c)
  && approximately_equal (cf_baseline_p95 c) (percentile_95 (bf_baseline_requests b))
  && approximately_equal (cf_sandbox_p95 c) (percentile_95 (bf_sandbox_requests b))
  && (cf_p95_startup c =? default max_u32 (percentile_95_u32 (bf_startups b)))%Z
  && SFleb (cf_sandbox_p95 c)
       (f64_max (f64_mul f64_two (cf_baseline_p95 c)) (f64_add (cf_baseline_p95 c) f64_25))
  && finite_positive (cf_baseline_rps c) && finite_positive (cf_sandbox_rps c).

Definition network_passes (n : NetworkFacts) : bool :=
  (0 <? nf_forbidden_total n)%Z && (nf_forbidden_passed n =? nf_forbidden_total n)%Z
  && (0 <? nf_allowed_total n)%Z && (nf_allowed_passed n =? nf_allowed_total n)%Z && nf_independent n.

Definition resources_pass (r : ResourceFacts) : bool :=
  bool_decide (rf_cpu_max r = "25000 100000") && (rf_memory_max r =? 536870912)%Z
  && (rf_swap_max r =? 0)%Z && (rf_pids_max r =? 128)%Z && (rf_scratch_max r =? 268435456)%Z
  && (rf_connections r =? 128)%Z && (rf_per_second r =? 20)%Z && (rf_burst r =? 40)%Z
  && forallb (fun reason => existsb (fun found => bool_decide (found = reason)) (rf_reasons r))
       enforced_reasons
  && bool_decide (rf_restart_delays r = [1; 2; 4; 8; 16; 30]%Z) && (rf_restart_limit r =? 6)%Z
  && (rf_restart_window r =? 600)%Z && (rf_healthy_reset r =? 600)%Z && negb (rf_idle_stop r).

Definition passes_on (major : Z) (p : PatternFacts) : bool :=
  bool_decide (pf_framework p = "node_http") && (pf_node_major p =? major)%Z && pattern_passes p.

Definition evaluation_passes (facts : EvaluationFacts) : bool :=
  negb (bool_decide (ef_patterns facts = [])) && (length (ef_patterns facts) <=? 8)%nat
  && is_digest (ef_evaluator facts) && is_digest (ef_oci_schema facts) && is_digest (ef_unpack_tool facts)
  && forallb pattern_well_formed (ef_patterns facts)
  && existsb (passes_on 22) (ef_patterns facts) && existsb (passes_on 24) (ef_patterns facts)
  && samples_match (ef_compatibility facts) (ef_benchmark facts)
  && latency_matches (ef_compatibility facts) (ef_benchmark facts)
  && performance_assessment_matches facts
  && network_passes (ef_network facts) && resources_pass (ef_resources facts).

(** ** Receipts

    The members that no check reads are left out. *)

Record ObservedLimits := {
  ol_cgroup : string; ol_cpu_max : string; ol_memory_max : Z; ol_swap_max : Z; ol_pids_max : Z;
}.
Record HealthCheck := {
  hc_kind : string; hc_address : string; hc_port : Z; hc_path : string;
  hc_status : option Z; hc_passed : bool; hc_reason : string;
}.
Record HealthReceipt := { hr_passing : bool; hr_checks : list HealthCheck }.
Record NetworkReceipt := {
  nr_rules : option string; nr_application_inode : option Z; nr_gateway_inode : option Z;
  nr_counters : list string;
}.
Record ScratchObservation := { so_capacity : Z; so_available : Z }.
Record CleanupReceipt := {
  cr_sandbox_absent : bool; cr_application_absent : bool; cr_gateway_absent : bool;
  cr_cgroup_absent : bool; cr_mounts_absent : bool; cr_state_retained : bool;
}.

(** The members that [EvaluationReceipt] and [ExecutorReceipt] share. *)
Record RuntimeReceipt := {
  rx_schema : string; rx_allocation : Uuid; rx_generation : Z; rx_fence : Z; rx_operation : string;
  rx_result : string; rx_status : string; rx_reason : string; rx_artifact : string;
  rx_binary : string; rx_policy : string; rx_capability : option string; rx_platform : string;
  rx_profile : string; rx_sandbox : option string; rx_oci_config : option string;
  rx_runsc : option string; rx_inodes : list Z; rx_limits : option ObservedLimits;
  rx_network : option NetworkReceipt; rx_health : option HealthReceipt;
  rx_cleanup : option CleanupReceipt; rx_observed_ms : Z;
}.
Record EvaluationReceipt := { ev_receipt : RuntimeReceipt; ev_evaluation : EvaluationFacts }.
Record ExecutorReceipt := {
  xr_receipt : RuntimeReceipt; xr_scratch : option ScratchObservation; xr_evaluation : bool;
}.

Definition evidence_missing : ApiError :=
  unprocessable "runtime_evidence_missing" "the digest-addressed runtime evidence file is unavailable".
Definition evidence_invalid : ApiError :=
  unprocessable "runtime_evidence_invalid" "the runtime evidence file is invalid or unsafe".
Definition receipt_invalid (message : string) : ApiError :=
  unprocessable "runtime_receipt_invalid" message.

Definition MINUTE : Z := 60000000.
Definition DAY : Z := 86400000000.
Definition EVIDENCE_LIFETIME_DAYS : Z := 7.
Definition EVIDENCE_RECEIPT_MAX_AGE_MINUTES : Z := 30.

Definition safe_health_path (value : string) : bool :=
  let s := as_bytes value in
  negb (bool_decide (s = [])) && (length s <=? 256)%nat && starts_with (lit "/") s
  && negb (contains_char (ch "?") s || contains_char (ch "#") s) && negb (has_control s).

(** [timestamp_millis_opt] of the chrono crate, in microseconds. *)
Section Envelope.
Context (timestamp_millis : Z -> option Z).

Definition receipt_time (unix_ms : Z) : res ApiError Z := ok_or (timestamp_millis unix_ms) evidence_invalid.

Definition envelope_invalid (r : RuntimeReceipt) (observed_at real_now : Z) : bool :=
  negb (bool_decide (rx_schema r = "hostlet.runtime.executor-receipt/v1"))
  || negb (bool_decide (rx_profile r = "owned_fixture_evaluation"))
  || negb (bool_decide (rx_operation r = "validate")) || is_nil (rx_allocation r)
  || negb (is_none (rx_capability r)) || negb (is_none (rx_sandbox r))
  || negb (is_none (rx_oci_config r)) || negb (is_none (rx_runsc r))
  || negb (bool_decide (rx_inodes r = [])) || negb (is_none (rx_limits r))
  || negb (is_none (rx_network r)) || negb (is_none (rx_health r)) || negb (is_none (rx_cleanup r))
  || (rx_generation r =? 0)%Z || (rx_fence r =? 0)%Z
  || negb (one_of (rx_platform r) ["systrap"; "kvm"])
  || negb (is_digest (rx_artifact r)) || negb (is_digest (rx_binary r)) || negb (is_digest (rx_policy r))
  || negb (one_of (rx_result r) ["passed"; "failed"]) || negb (bool_decide (rx_status r = "prepared"))
  || bool_decide (rx_reason r = "") || (96 <? String.length (rx_reason r))%nat
  || (real_now + 5 * MINUTE <? observed_at)%Z
  || (observed_at <? real_now - EVIDENCE_RECEIPT_MAX_AGE_MINUTES * MINUTE)%Z.

Definition validate_evaluation_envelope (r : EvaluationReceipt) (real_now : Z) : res ApiError unit :=
  res_bind (receipt_time (rx_observed_ms (ev_receipt r))) (fun observed_at =>
  res_bind (guard_err (envelope_invalid (ev_receipt r) observed_at real_now) evidence_invalid) (fun _ =>
  guard_err (negb (performance_assessment_matches (ev_evaluation r)))
    (unprocessable "runtime_evidence_invalid"
       "the evaluation performance assessment is missing, unsupported, or inconsistent"))).
End Envelope.

Definition reason_codes : list string :=
  ["runtime_prepared"; "runtime_started"; "runtime_stopped"; "runtime_cleaned"; "runtime_exit";
   "runtime_oom"; "cpu_throttled"; "process_limit_exceeded"; "scratch_limit_exceeded";
   "network_connection_limit"; "health_failed"; "crash_loop_backoff"; "runtime_isolation_unverified";
   "runtime_internal_failure"; "runtime_cleanup_incomplete"].

Definition counter_invalid (name : string) : bool :=
  bool_decide (name = "") || (64 <? String.length name)%nat || has_control (as_bytes name).
Definition network_invalid (n : NetworkReceipt) : bool :=
  (64 <? length (nr_counters n))%nat || is_some_and (fun v => negb (is_digest v)) (nr_rules n)
  || existsb counter_invalid (nr_counters n).
Definition check_invalid (c : HealthCheck) : bool :=
  negb (bool_decide (hc_kind c = "http")) || bool_decide (hc_address c = "")
  || (128 <? String.length (hc_address c))%nat || (hc_port c =? 0)%Z
  || negb (safe_health_path (hc_path c)) || bool_decide (hc_reason c = "")
  || (96 <? String.length (hc_reason c))%nat
  || hc_passed c && negb (bool_decide (hc_status c = Some 200%Z)).

Definition executor_receipt_invalid (x : ExecutorReceipt) : bool :=
  let r := xr_receipt x in
  negb (bool_decide (rx_schema r = "hostlet.runtime.executor-receipt/v1"))
  || negb (bool_decide (rx_profile r = "evidence_gated_owned_fixture"))
  || (rx_generation r =? 0)%Z || (rx_fence r =? 0)%Z
  || negb (one_of (rx_platform r) ["systrap"; "kvm"])
  || negb (is_digest (rx_artifact r)) || negb (is_digest (rx_binary r)) || negb (is_digest (rx_policy r))
  || negb (is_some_and is_digest (rx_capability r))
  || negb (one_of (rx_result r) ["passed"; "failed"]) || xr_evaluation x
  || bool_decide (rx_reason r = "") || (96 <? String.length (rx_reason r))%nat
  || negb (one_of (rx_reason r) reason_codes)
  || (8 <? length (rx_inodes r))%nat
  || is_some_and (fun v => bool_decide (v = "") || (128 <? String.length v)%nat || has_control (as_bytes v))
       (rx_sandbox r)
  || is_some_and (fun v => negb (is_digest v)) (rx_oci_config r)
  || is_some_and (fun v => negb (one_of v ["created"; "running"; "stopped"])) (rx_runsc r)
  || is_some_and (fun h => (32 <? length (hr_checks h))%nat) (rx_health r)
  || is_some_and network_invalid (rx_network r)
  || is_some_and (fun l => (256 <? String.length (ol_cgroup l))%nat) (rx_limits r)
  || is_some_and (fun s => negb (so_capacity s =? 268435456)%Z || (so_capacity s <? so_available s)%Z)
       (xr_scratch x)
  || bool_decide (rx_reason r = "scratch_limit_exceeded")
     && is_none_or (fun s => negb (so_available s =? 0)%Z) (xr_scratch x)
  || is_some_and (fun h => existsb check_invalid (hr_checks h)) (rx_health r).

Definition validate_executor_receipt (x : ExecutorReceipt) : res ApiError unit :=
  guard_err (executor_receipt_invalid x)
    (receipt_invalid "the runtime receipt does not match the supported schema").

(** ** Lifecycle states *)

Definition limits_match (r : RuntimeReceipt) : bool :=
  is_some_and (fun l => bool_decide (ol_cpu_max l = "25000 100000") && (ol_memory_max l =? 536870912)%Z
    && (ol_swap_max l =? 0)%Z && (ol_pids_max l =? 128)%Z) (rx_limits r).

Definition namespace_proof (r : RuntimeReceipt) : bool :=
  (2 <=? length (rx_inodes r))%nat
  && is_some_and (fun n => is_some_and is_digest (nr_rules n) && negb (is_none (nr_application_inode n))
       && negb (is_none (nr_gateway_inode n))) (rx_network r).

Definition cleanup_complete (c : CleanupReceipt) : bool :=
  cr_sandbox_absent c && cr_application_absent c && cr_gateway_absent c && cr_cgroup_absent c
  && cr_mounts_absent c && negb (cr_state_retained c).

(** The receipt supports the state that is claimed. *)
Definition state_supported (state : string) (r : RuntimeReceipt) : bool :=
  if bool_decide (state = "running") then
    one_of (rx_operation r) ["start"; "inspect"; "reconcile"] && bool_decide (rx_status r = "running")
    && bool_decide (rx_runsc r = Some "running") && limits_match r && namespace_proof r
    && is_none_or (fun h => negb (hr_passing h)) (rx_health r)
  else if bool_decide (state = "healthy") then
    one_of (rx_operation r) ["inspect"; "reconcile"] && bool_decide (rx_status r = "running")
    && bool_decide (rx_result r = "passed") && bool_decide (rx_runsc r = Some "running")
    && limits_match r && namespace_proof r
    && is_some_and (fun h => hr_passing h && negb (bool_decide (hr_checks h = []))
         && forallb hc_passed (hr_checks h)) (rx_health r)
  else if bool_decide (state = "backoff") then
    one_of (rx_operation r) ["record_exit"; "inspect"; "reconcile"] && limits_match r && namespace_proof r
    && one_of (rx_status r) ["restart_scheduled"; "crash_loop_backoff"]
  else if bool_decide (state = "stopped") then
    one_of (rx_operation r) ["stop"; "record_exit"] && bool_decide (rx_status r = "stopped")
  else if bool_decide (state = "cleaned") then
    bool_decide (rx_operation r = "cleanup") && bool_decide (rx_status r = "cleaned")
    && bool_decide (rx_result r = "passed") && is_some_and cleanup_complete (rx_cleanup r)
  else false.

Definition validate_state_receipt (state : string) (x : ExecutorReceipt) : res ApiError unit :=
  guard_err (negb (state_supported state (xr_receipt x)))
    (conflict "runtime_observation_mismatch"
       "the requested lifecycle state does not match the executor receipt").

Definition transition_allowed (from to : string) : bool :=
  one_of (from, to)
    [("allocated", "running"); ("allocated", "backoff"); ("allocated", "stopped");
     ("running", "running"); ("running", "healthy"); ("running", "backoff"); ("running", "stopped");
     ("healthy", "healthy"); ("healthy", "backoff"); ("healthy", "stopped");
     ("backoff", "backoff"); ("backoff", "running"); ("backoff", "healthy"); ("backoff", "stopped");
     ("stopped", "stopped"); ("stopped", "cleaned"); ("cleaned", "cleaned")].
