(* ===== verification/Runtime.v ===== *)
(** * Runtime allocations (crates/control/src/runtime_policy.rs)

    An evaluation intent is bound to a built artifact and gets the database's
    credential; the evidence of the evaluation is registered once; a passing
    evaluation lets an allocation of exactly that artifact be made; the executor's
    receipts then move the allocation through its lifecycle.  Each table is keyed by
    its primary key.  Receipts are read from files named by their digest. *)

From stdpp Require Import base list option gmap strings pretty sorting.
From Stdlib Require Import ZArith Lia Ascii.
From S2P Require Import Prelude RustText Bytes PgTx Intent Secrets Admission PolicyClock.
From S2P Require Import ExecutionTables Credentials RuntimeEvidence.

Local Open Scope string_scope.
Local Open Scope list_scope.

(** ** Tables *)

Inductive IntentProgress := IRequested | ICredentialIssued | IConsumed.
#[export] Instance IntentProgress_eq : EqDecision IntentProgress.
Proof. solve_decision. Defined.

Record EvaluationIntent := {
  ei_id : Uuid; ei_subject : Uuid; ei_generation : Z; ei_fence : Z; ei_job : Uuid;
  ei_artifact : Uuid; ei_account : Uuid; ei_project : Uuid; ei_config : Uuid;
  ei_reservation : Uuid; ei_epoch : Uuid; ei_state : IntentProgress; ei_updated : Z;
}.

Record Evaluation := {
  ea_id : Uuid; ea_intent : Uuid; ea_subject : Uuid; ea_generation : Z; ea_fence : Z;
  ea_evidence : string; ea_capability : string; ea_result : string; ea_reason : string;
  ea_binary : string; ea_policy : string; ea_platform : string; ea_observed : Z;
  ea_expires : Z; ea_facts : EvaluationFacts; ea_created : Z;
}.

(** The application and health port are always 3000. *)
Record Allocation := {
  al_id : Uuid; al_account : Uuid; al_project : Uuid; al_deployment : Uuid; al_service : Uuid;
  al_job : Uuid; al_artifact : Uuid; al_evaluation : Uuid; al_reservation : Uuid; al_epoch : Uuid;
  al_config : Uuid; al_commit : string; al_generation : Z; al_fence : Z; al_state : string;
  al_reason : option string; al_archive : string; al_manifest : string; al_profile_digest : string;
  al_binary : string; al_policy : string; al_capability : string; al_platform : string;
  al_profile : string; al_argv : list string; al_health_path : string;
}.

Record ProbeIntent := {
  pi_id : Uuid; pi_intent : Uuid; pi_account : Uuid; pi_project : Uuid; pi_recovery : Uuid;
  pi_database : Uuid; pi_database_generation : Uuid; pi_allocation : Uuid; pi_generation : Z;
  pi_fence : Z; pi_state : IntentProgress;
}.

Record RtObservation := {
  rb_id : Uuid; rb_allocation : Uuid; rb_account : Uuid; rb_project : Uuid; rb_deployment : Uuid;
  rb_service : Uuid; rb_generation : Z; rb_fence : Z; rb_sequence : Z; rb_state : string;
  rb_reason : string; rb_digest : string; rb_receipt : ExecutorReceipt; rb_observed : Z;
}.

Record RtDb := MkRtDb {
  execution : Execution;
  policy_clock_row : option (Z * Z);
  eval_intents : gmap Uuid EvaluationIntent;
  evaluations : gmap Uuid Evaluation;
  allocations : gmap Uuid Allocation;
  probe_intents : gmap Uuid ProbeIntent;
  rt_observations : gmap Uuid RtObservation;
}.

#[export] Instance rt_clock : ClockStore RtDb := {
  clock_row := policy_clock_row;
  set_clock_row c d := MkRtDb (execution d) c (eval_intents d) (evaluations d) (allocations d)
                         (probe_intents d) (rt_observations d);
}.
#[export] Instance rt_clock_laws : ClockStoreLaws RtDb.
Proof. by split. Qed.

Definition set_eval_intents t d := MkRtDb (execution d) (policy_clock_row d) t (evaluations d)
  (allocations d) (probe_intents d) (rt_observations d).
Definition set_evaluations t d := MkRtDb (execution d) (policy_clock_row d) (eval_intents d) t
  (allocations d) (probe_intents d) (rt_observations d).
Definition set_allocations t d := MkRtDb (execution d) (policy_clock_row d) (eval_intents d)
  (evaluations d) t (probe_intents d) (rt_observations d).
Definition set_probe_intents t d := MkRtDb (execution d) (policy_clock_row d) (eval_intents d)
  (evaluations d) (allocations d) t (rt_observations d).
Definition set_rt_observations t d := MkRtDb (execution d) (policy_clock_row d) (eval_intents d)
  (evaluations d) (allocations d) (probe_intents d) t.

(** *** Constraints

    CHECK and UNIQUE, but for those that the types and keys express; the size of a
    JSON text is a parameter. *)
Definition sized (lo hi : nat) (s : string) : bool :=
  (lo <=? String.length s)%nat && (String.length s <=? hi)%nat.
(** [LIKE '/%']. *)
Definition rooted (s : string) : bool := starts_with (lit "/") (as_bytes s).

Definition PROFILES : list string :=
  ["node22-http-v1"; "node24-http-v1"; "nextjs16-node22-v1"; "nextjs16-node24-v1"].

Definition intent_check (i : EvaluationIntent) : bool := (0 <? ei_generation i)%Z && (0 <? ei_fence i)%Z.

Definition evaluation_check (facts_fit : EvaluationFacts -> bool) (e : Evaluation) : bool :=
  (0 <? ea_generation e)%Z && (0 <? ea_fence e)%Z && is_digest (ea_evidence e)
  && is_digest (ea_capability e) && one_of (ea_result e) ["passed"; "failed"]
  && sized 1 96 (ea_reason e) && is_digest (ea_binary e) && is_digest (ea_policy e)
  && one_of (ea_platform e) ["systrap"; "kvm"] && (ea_observed e <? ea_expires e)%Z
  && facts_fit (ea_facts e).

Definition evaluation_unique (t : gmap Uuid Evaluation) (e : Evaluation) : bool :=
  negb (exists_row (fun o => bool_decide (ea_intent o = ea_intent e)
    || bool_decide (ea_evidence o = ea_evidence e) || bool_decide (ea_capability o = ea_capability e)
    || bool_decide (ea_subject o = ea_subject e) && (ea_generation o =? ea_generation e)%Z
       && (ea_fence o =? ea_fence e)%Z) t).

Definition allocation_check (argv_fit : list string -> bool) (a : Allocation) : bool :=
  is_commit (al_commit a) && (0 <? al_generation a)%Z && (0 <? al_fence a)%Z
  && one_of (al_state a) ["allocated"; "running"; "healthy"; "backoff"; "stopped"; "cleaned"]
  && is_none_or (sized 1 96) (al_reason a) && is_digest (al_archive a) && is_digest (al_manifest a)
  && is_digest (al_profile_digest a) && is_digest (al_binary a) && is_digest (al_policy a)
  && is_digest (al_capability a) && one_of (al_platform a) ["systrap"; "kvm"]
  && one_of (al_profile a) PROFILES && (1 <=? length (al_argv a))%nat && (length (al_argv a) <=? 8)%nat
  && argv_fit (al_argv a) && sized 1 256 (al_health_path a) && rooted (al_health_path a).

Definition allocation_unique (t : gmap Uuid Allocation) (a : Allocation) : bool :=
  negb (exists_row (fun o =>
    bool_decide (al_service o = al_service a)
      && ((al_generation o =? al_generation a)%Z || (al_fence o =? al_fence a)%Z)
    || bool_decide (al_artifact o = al_artifact a) && bool_decide (al_evaluation o = al_evaluation a)) t).

Definition probe_check (p : ProbeIntent) : bool := (0 <? pi_generation p)%Z && (0 <? pi_fence p)%Z.

(** [runtime_cleanup_incomplete] is not among the codes of the table. *)
Definition observation_reasons : list string :=
  ["runtime_prepared"; "runtime_started"; "runtime_stopped"; "runtime_cleaned"; "runtime_exit";
   "runtime_oom"; "cpu_throttled"; "process_limit_exceeded"; "scratch_limit_exceeded";
   "network_connection_limit"; "health_failed"; "crash_loop_backoff"; "runtime_isolation_unverified";
   "runtime_internal_failure"].

Definition observation_check (receipt_fit : ExecutorReceipt -> bool) (o : RtObservation) : bool :=
  (0 <? rb_sequence o)%Z && one_of (rb_state o) ["running"; "healthy"; "backoff"; "stopped"; "cleaned"]
  && one_of (rb_reason o) observation_reasons && is_digest (rb_digest o) && receipt_fit (rb_receipt o).

Definition observation_unique (t : gmap Uuid RtObservation) (o : RtObservation) : bool :=
  negb (exists_row (fun p => bool_decide (rb_allocation p = rb_allocation o)
                             && (rb_sequence p =? rb_sequence o)%Z) t).

(** [COALESCE(max(f), 0)] over the rows that are kept. *)
Definition max_of {R} (keep : R -> bool) (f : R -> Z) (t : gmap Uuid R) : Z :=
  map_fold (fun _ r m => if keep r then Z.max (f r) m else m) 0%Z t.

Definition any_order {R} (_ _ : R) : bool := true.

(** ** Errors *)

Definition allocation_ineligible : ApiError :=
  conflict "runtime_allocation_ineligible"
    "the exact admitted build and runtime evidence tuple is not eligible".
Definition runtime_fenced (message : string) : ApiError := conflict "runtime_fence_stale" message.
Definition stale_fence : ApiError :=
  runtime_fenced "the runtime allocation generation or fence is stale".
Definition restore_probe_ineligible : ApiError :=
  conflict "runtime_restore_probe_ineligible"
    "the artifact, allocation, database generation, or validated recovery is ineligible".
Definition receipt_reused (message : string) : ApiError := conflict "runtime_receipt_reused" message.

(** ** Evidence files *)

Definition MAX_RECEIPT_BYTES : Z := 524288.

(** A file as [symlink_metadata], [canonicalize] and reading it show it. *)
Record EvidenceFile := {
  fl_regular : bool; fl_length : Z; fl_private : bool; fl_canonical : bool;
  fl_same : bool; fl_bytes : bytes;
}.

Definition digest_hex (value : string) : res ApiError bytes :=
  match strip (lit "sha256:") (as_bytes value) with
  | None => Err evidence_invalid
  | Some hex =>
      if negb (length hex =? 64)%nat || negb (forallb is_lower_hex hex) then Err evidence_invalid
      else Ok hex
  end.

Definition hex_value (c : Z) : Z := if is_ascii_digit c then (c - 48)%Z else (c - 87)%Z.
Fixpoint decode_hex (hex : bytes) : bytes :=
  match hex with
  | a :: b :: rest => (hex_value a * 16 + hex_value b)%Z :: decode_hex rest
  | _ => []
  end.


(** ** Requests and responses *)

Record EvaluationCredentialRequest := {
  ecq_job : Uuid; ecq_artifact : Uuid; ecq_subject : Uuid; ecq_generation : Z; ecq_fence : Z;
}.
Record ProbeCredentialRequest := {
  pcq_job : Uuid; pcq_artifact : Uuid; pcq_subject : Uuid; pcq_generation : Z; pcq_fence : Z;
  pcq_recovery : Uuid; pcq_database : Uuid; pcq_database_generation : Uuid;
}.
Record CreateAllocationRequest := { caq_job : Uuid; caq_artifact : Uuid; caq_evaluation : Uuid }.
Record RecordObservationRequest := {
  obq_allocation : Uuid; obq_generation : Z; obq_fence : Z; obq_state : string; obq_digest : string;
}.
Record EvaluationResponse := {
  er_id : Uuid; er_subject : Uuid; er_generation : Z; er_fence : Z; er_evidence : string;
  er_capability : string; er_result : string; er_reason : string; er_observed : Z; er_expires : Z;
}.
Record ObservationResponse := {
  or_id : Uuid; or_allocation : Uuid; or_generation : Z; or_fence : Z; or_sequence : Z;
  or_state : string; or_reason : string; or_observed : Z;
}.
Record CompatibilityProfile := {
  cpf_profile : string; cpf_framework : string; cpf_node_major : Z; cpf_result : string;
  cpf_reason : string; cpf_expires : Z;
}.
Record CredentialScope := {
  cs_account : Uuid; cs_project : Uuid; cs_config : Uuid; cs_reservation : Uuid; cs_epoch : Uuid;
}.

(** ** Handlers *)

(** Code outside the repository: the cipher, SHA-256, UUID text, base64, JSON and
    time conversion, and the evidence directory. *)
Record Externals := {
  x_aead : bytes -> bytes -> bytes -> bytes -> bytes -> option bytes;
  x_sha256 : bytes -> bytes;
  x_parse_uuid : string -> option Uuid;
  x_uuid_text : Uuid -> string;
  x_uuid_simple : Uuid -> string;
  x_base64 : bytes -> option bytes;
  x_millis : Z -> option Z;
  x_credential : bytes -> option (string * string * bytes);
  x_evaluation_receipt : bytes -> option EvaluationReceipt;
  x_executor_receipt : bytes -> option ExecutorReceipt;
  x_facts_fit : EvaluationFacts -> bool;
  x_argv_fit : list string -> bool;
  x_receipt_fit : ExecutorReceipt -> bool;
  x_evidence : bytes -> option EvidenceFile;
}.

(** A JSON string: 34 is the double quote. *)
Definition quoted (s : string) : string := String (ascii_of_nat 34) s +:+ String (ascii_of_nat 34) "".

(** The configuration of the service. *)
Record RtState := { st_m3 : option M3Config; st_key : option SecretKey }.

Definition RUNTIME_POLICY_DOCUMENT : bytes := flat_map lit [
  "{"; quoted "cpu_period_micros"; ":100000,"; quoted "cpu_quota_micros"; ":25000,";
  quoted "healthy_reset_seconds"; ":600,"; quoted "max_connections"; ":128,";
  quoted "memory_bytes"; ":536870912,"; quoted "memory_swap_bytes"; ":0,";
  quoted "new_connections_burst"; ":40,"; quoted "new_connections_per_second"; ":20,";
  quoted "pids"; ":128,"; quoted "restart_delays_seconds"; ":[1,2,4,8,16,30],";
  quoted "restart_limit"; ":6,"; quoted "restart_window_seconds"; ":600,";
  quoted "scratch_bytes"; ":268435456,"; quoted "schema"; ":"; quoted "hostlet.runtime.policy/v1"; "}"].

Section Handlers.
Context (X : Externals) (st : RtState).

Definition digest_text (bs : bytes) : string := "sha256:" +:+ to_text (hex_encode (x_sha256 X bs)).
Definition runtime_policy_digest : string := digest_text RUNTIME_POLICY_DOCUMENT.

Definition line (s : string) : bytes := as_bytes s ++ [10%Z].
Definition capability_digest (evidence_digest : string) (r : RuntimeReceipt) : string :=
  digest_text (line "hostlet.runtime.capability/v1" ++ line evidence_digest
    ++ line (x_uuid_text X (rx_allocation r)) ++ line (pretty (rx_generation r))
    ++ line (pretty (rx_fence r)) ++ line (rx_binary r) ++ line (rx_policy r) ++ line (rx_platform r)).

Definition read_cas_receipt (digest : string) : res ApiError bytes :=
  res_bind (digest_hex digest) (fun hex =>
  res_bind (require_enabled (st_m3 st)) (fun _ =>
  res_bind (ok_or (x_evidence X hex) evidence_missing) (fun f =>
  res_bind (guard_err (negb (fl_regular f) || (MAX_RECEIPT_BYTES <? fl_length f)%Z
                       || negb (fl_private f) || negb (fl_canonical f)) evidence_invalid) (fun _ =>
  res_bind (guard_err (negb (fl_same f)) evidence_invalid) (fun _ =>
  res_bind (guard_err (negb (Z.of_nat (length (fl_bytes f)) =? fl_length f)%Z
                       || negb (bool_decide (x_sha256 X (fl_bytes f) = decode_hex hex)))
              (conflict "runtime_evidence_digest_mismatch"
                 "the evidence file does not match its digest")) (fun _ =>
  Ok (fl_bytes f))))))).

(** *** Credentials *)

Definition parsed_credential_ok (c : ResolvedRuntimeCredential) : bool :=
  match x_credential X (rr_value c) with
  | None => false
  | Some (database_ref, role_ref, password) =>
      match x_parse_uuid X database_ref, x_parse_uuid X role_ref, x_base64 X password with
      | Some database, Some role, Some decoded =>
          bool_decide (database_ref = rr_database_ref c) && bool_decide (role_ref = rr_role_ref c)
          && bool_decide (rr_database_name c = database_name (x_uuid_simple X) database)
          && bool_decide (rr_role_name c = role_name (x_uuid_simple X) role)
          && (length decoded =? 32)%nat
      | _, _, _ => false
      end
  end.

Definition resolve_database_runtime_credential (x : Execution)
    (account project database generation : Uuid) (name : option string)
    : res ApiError ResolvedRuntimeCredential :=
  res_bind (ok_or (st_key st) foundation_unavailable) (fun key =>
  res_bind (resolve_runtime_credential (x_aead X) (x_parse_uuid X) (x_uuid_text X) (x_uuid_simple X)
              x key account project database generation) (fun c =>
  res_bind (guard_err (negb (parsed_credential_ok c)) foundation_unavailable) (fun _ =>
  Ok {| rr_credential := rr_credential c; rr_database_ref := rr_database_ref c;
        rr_role_ref := rr_role_ref c; rr_database_name := default (rr_database_name c) name;
        rr_role_name := rr_role_name c; rr_value := rr_value c |}))).

Definition scoped_database (s : CredentialScope) (_ : Uuid) (d : TenantDatabase) : bool :=
  bool_decide (td_account d = cs_account s) && bool_decide (td_project d = cs_project s)
  && bool_decide (td_config d = cs_config s) && bool_decide (td_reservation d = cs_reservation s)
  && bool_decide (td_epoch d = cs_epoch s) && one_of (td_state d) [DbReady; RecoveryAttention].

Definition resolve_scoped_runtime_credential (x : Execution) (s : CredentialScope)
    : res ApiError ResolvedRuntimeCredential :=
  res_bind (ok_or (select_first (scoped_database s) any_order (tenant_databases x)) not_found) (fun d =>
  resolve_database_runtime_credential x (cs_account s) (cs_project s) (td_id d) (td_generation d) None).

(** Only the current generation and fence of a live allocation. *)
Definition resolve_runtime_credential_handler (allocation : string) (generation fence : Z)
    : M RtDb ResolvedRuntimeCredential :=
  _ <~ lift (require_enabled (st_m3 st));;
  id <~ lift (path_uuid (x_parse_uuid X) allocation);;
  reject_if ((generation <=? 0)%Z || (fence <=? 0)%Z) stale_fence;;;
  d <~ get_db;;
  match allocations d !! id with
  | Some a =>
      if (al_generation a =? generation)%Z && (al_fence a =? fence)%Z
         && one_of (al_state a) ["allocated"; "running"; "healthy"; "backoff"]
      then lift (resolve_scoped_runtime_credential (execution d)
             {| cs_account := al_account a; cs_project := al_project a; cs_config := al_config a;
                cs_reservation := al_reservation a; cs_epoch := al_epoch a |})
      else raise stale_fence
  | None => raise stale_fence
  end.

(** *** Evaluation intents *)

Definition allocation_of (b : BuiltArtifact) (a : Allocation) : bool :=
  let j := ba_job b in
  bool_decide (al_account a = bj_account j) && bool_decide (al_project a = bj_project j)
  && bool_decide (al_deployment a = bj_deployment j) && bool_decide (al_job a = bj_id j)
  && bool_decide (al_artifact a = at_id (ba_artifact b)) && bool_decide (al_config a = bj_config j)
  && bool_decide (al_reservation a = bj_reservation j) && bool_decide (al_epoch a = bj_epoch j)
  && one_of (al_state a) ["running"; "healthy"; "stopped"].

(** What both credential queries ask of the build. *)
Definition fixture_build (x : Execution) (job artifact : Uuid) : option BuiltArtifact :=
  b ← built_artifact x job artifact;
  u ← build_usage x !! job;
  p ← x_projects x !! bj_project (ba_job b);
  _ ← where_ (negb (is_none (at_argv (ba_artifact b)))
              && bool_decide (bj_profile (ba_job b) = "m3-owned-node24-v1")
              && negb (bool_decide (rv_state (ba_reservation b) = RReleased))
              && bool_decide (ur_account u = bj_account (ba_job b))
              && bool_decide (ur_project u = bj_project (ba_job b))
              && bool_decide (ur_deployment u = bj_deployment (ba_job b))
              && bool_decide (ur_state u = UFinalized)
              && bool_decide (pj_account p = bj_account (ba_job b)) && slot_held_by p);
  Some b.

Definition job_scope (j : BuildJob) : CredentialScope :=
  {| cs_account := bj_account j; cs_project := bj_project j; cs_config := bj_config j;
     cs_reservation := bj_reservation j; cs_epoch := bj_epoch j |}.

Definition evaluation_scope (d : RtDb) (job artifact : Uuid) : option CredentialScope :=
  b ← fixture_build (execution d) job artifact;
  _ ← where_ (bool_decide (dp_lifecycle (ba_deployment b) = LQueued)
              || bool_decide (dp_lifecycle (ba_deployment b) = Healthy)
                 && exists_row (allocation_of b) (allocations d));
  Some (job_scope (ba_job b)).

Definition intent_key (subject : Uuid) (generation fence : Z) (_ : Uuid) (i : EvaluationIntent) : bool :=
  bool_decide (ei_subject i = subject) && (ei_generation i =? generation)%Z && (ei_fence i =? fence)%Z.

Definition open_progress (p : IntentProgress) : bool := one_of p [IRequested; ICredentialIssued].

Definition same_fixture (job artifact : Uuid) (s : CredentialScope) (i : EvaluationIntent) : bool :=
  bool_decide (ei_job i = job) && bool_decide (ei_artifact i = artifact)
  && bool_decide (ei_account i = cs_account s) && bool_decide (ei_project i = cs_project s)
  && bool_decide (ei_config i = cs_config s) && bool_decide (ei_reservation i = cs_reservation s)
  && bool_decide (ei_epoch i = cs_epoch s) && open_progress (ei_state i).

Definition with_progress (p : IntentProgress) (t : Z) (i : EvaluationIntent) : EvaluationIntent :=
  {| ei_id := ei_id i; ei_subject := ei_subject i; ei_generation := ei_generation i;
     ei_fence := ei_fence i; ei_job := ei_job i; ei_artifact := ei_artifact i;
     ei_account := ei_account i; ei_project := ei_project i; ei_config := ei_config i;
     ei_reservation := ei_reservation i; ei_epoch := ei_epoch i; ei_state := p; ei_updated := t |}.

(** [INSERT ... ON CONFLICT (evaluation_subject_id,generation,fence) DO UPDATE]. *)
Definition accept_evaluation_intent (subject : Uuid) (generation fence : Z) (job artifact : Uuid)
    (s : CredentialScope) : M RtDb Uuid :=
  intent_id <~ new_uuid;;
  t <~ clock_timestamp;;
  d <~ get_db;;
  match select_first (intent_key subject generation fence) any_order (eval_intents d) with
  | None =>
      rows <~ sql (insert_pk intent_check intent_id
        {| ei_id := intent_id; ei_subject := subject; ei_generation := generation; ei_fence := fence;
           ei_job := job; ei_artifact := artifact; ei_account := cs_account s;
           ei_project := cs_project s; ei_config := cs_config s; ei_reservation := cs_reservation s;
           ei_epoch := cs_epoch s; ei_state := IRequested; ei_updated := t |} (eval_intents d));;
      put_db (set_eval_intents rows d);;; tret intent_id
  | Some i =>
      if same_fixture job artifact s i
      then put_db (set_eval_intents (<[ei_id i := with_progress (ei_state i) t i]> (eval_intents d)) d);;;
           tret (ei_id i)
      else raise (conflict "runtime_evaluation_intent_conflict"
                    "the evaluation identity is already bound to another fixture")
  end.

(** [UPDATE ... SET state='credential_issued' ... WHERE id=$1 AND state IN (...)]. *)
Definition issue_evaluation_intent (id : Uuid) : M RtDb unit :=
  t <~ clock_timestamp;;
  d <~ get_db;;
  put_db (set_eval_intents
    (alter (fun i => if open_progress (ei_state i) then with_progress ICredentialIssued t i else i) id
       (eval_intents d)) d).

(** The three statements are separate transactions. *)
Definition resolve_evaluation_credential (q : EvaluationCredentialRequest)
    : M RtDb ResolvedRuntimeCredential :=
  _ <~ lift (require_enabled (st_m3 st));;
  reject_if (is_nil (ecq_subject q) || (ecq_generation q <=? 0)%Z || (ecq_fence q <=? 0)%Z) stale_fence;;;
  d <~ get_db;;
  scope <~ lift (ok_or (evaluation_scope d (ecq_job q) (ecq_artifact q)) allocation_ineligible);;
  id <~ accept_evaluation_intent (ecq_subject q) (ecq_generation q) (ecq_fence q) (ecq_job q)
          (ecq_artifact q) scope;;
  d' <~ get_db;;
  credential <~ lift (resolve_scoped_runtime_credential (execution d') scope);;
  issue_evaluation_intent id;;;
  tret credential.

(** *** Restore probes *)

(** [ORDER BY generation DESC,fence DESC,id DESC]. *)
Definition newest_first (a b : Allocation) : bool :=
  (al_generation b <? al_generation a)%Z
  || (al_generation b =? al_generation a)%Z
     && ((al_fence b <? al_fence a)%Z || (al_fence b =? al_fence a)%Z && (al_id b <=? al_id a)%N).

Definition is_current_allocation (d : RtDb) (b : BuiltArtifact) (a : Allocation) : bool :=
  match select_first (fun _ c => allocation_of b c && bool_decide (al_service c = al_service a))
          newest_first (allocations d) with
  | Some c => bool_decide (al_id c = al_id a)
  | None => false
  end.

Definition recovery_proved (rc : Recovery) (o : DatabaseOperation) : bool :=
  match do_proof o with
  | None => false
  | Some p =>
      bool_decide (op_code p = Some "recovery_validated")
      && bool_decide (os_recovery_id (do_spec o) = Some (x_uuid_text X (rc_id rc)))
      && bool_decide (os_archive_id (do_spec o) = Some (x_uuid_text X (rc_archive rc)))
      && bool_decide (os_replacement_ref (do_spec o) = Some (x_uuid_text X (rc_id rc)))
      && bool_decide (op_recovery_id p = Some (x_uuid_text X (rc_id rc)))
      && bool_decide (op_archive_id p = Some (x_uuid_text X (rc_archive rc)))
      && bool_decide (op_replacement_ref p = Some (x_uuid_text X (rc_id rc)))
      && is_some_and (fun i => bool_decide (op_replacement_identity p = Some (x_uuid_text X i)))
           (rc_replacement_identity rc)
      && is_some_and (fun e => bool_decide (op_elapsed p = Some (pretty e))) (rc_elapsed rc)
      && is_some_and is_digest (op_endpoint p)
      && bool_decide (op_rows p = Some "true") && bool_decide (op_relationships p = Some "true")
      && bool_decide (op_grants p = Some "true") && bool_decide (op_connection p = Some "true")
      && bool_decide (op_unchanged p = Some "true")
  end.

Definition drill_of (td : TenantDatabase) (rc : Recovery) (o : DatabaseOperation) : bool :=
  bool_decide (do_account o = td_account td) && bool_decide (do_project o = td_project td)
  && bool_decide (do_database o = td_id td) && bool_decide (do_generation o = td_generation td)
  && bool_decide (do_kind o = RestoreDrill) && bool_decide (do_key o = x_uuid_text X (rc_id rc))
  && bool_decide (do_state o = OSucceeded) && recovery_proved rc o.

Definition database_of (j : BuildJob) (generation : Uuid) (td : TenantDatabase) : bool :=
  bool_decide (td_account td = bj_account j) && bool_decide (td_project td = bj_project j)
  && bool_decide (td_generation td = generation) && bool_decide (td_config td = bj_config j)
  && bool_decide (td_reservation td = bj_reservation j) && bool_decide (td_epoch td = bj_epoch j)
  && one_of (td_state td) [DbReady; RecoveryAttention].

Definition recovery_of (td : TenantDatabase) (rc : Recovery) : bool :=
  bool_decide (rc_account rc = td_account td) && bool_decide (rc_project rc = td_project td)
  && bool_decide (rc_database rc = td_id td) && bool_decide (rc_generation rc = td_generation td)
  && bool_decide (rc_state rc = RValidated) && negb (is_none (rc_replacement_identity rc))
  && negb (is_none (rc_restored rc)) && negb (is_none (rc_validated rc))
  && negb (is_none (rc_elapsed rc))
  && bool_decide (rc_replacement_ref rc = Some (x_uuid_text X (rc_id rc))).

Definition probe_scope (d : RtDb) (q : ProbeCredentialRequest) : option (CredentialScope * Allocation) :=
  let x := execution d in
  b ← fixture_build x (pcq_job q) (pcq_artifact q);
  a ← select_first (fun _ a => allocation_of b a && is_current_allocation d b a) any_order (allocations d);
  td ← tenant_databases x !! pcq_database q;
  rc ← recoveries x !! pcq_recovery q;
  _ ← where_ (one_of (dp_lifecycle (ba_deployment b)) [LQueued; Healthy]
              && database_of (ba_job b) (pcq_database_generation q) td && recovery_of td rc
              && exists_row (drill_of td rc) (database_operations x));
  Some (job_scope (ba_job b), a).

Definition same_probe (q : ProbeCredentialRequest) (s : CredentialScope) (a : Allocation)
    (p : ProbeIntent) : bool :=
  bool_decide (pi_account p = cs_account s) && bool_decide (pi_project p = cs_project s)
  && bool_decide (pi_recovery p = pcq_recovery q) && bool_decide (pi_database p = pcq_database q)
  && bool_decide (pi_database_generation p = pcq_database_generation q)
  && bool_decide (pi_allocation p = al_id a) && (pi_generation p =? al_generation a)%Z
  && (pi_fence p =? al_fence a)%Z && open_progress (pi_state p).

Definition accept_probe_intent (q : ProbeCredentialRequest) (intent : Uuid) (s : CredentialScope)
    (a : Allocation) : M RtDb Uuid :=
  id <~ new_uuid;;
  d <~ get_db;;
  match select_first (fun _ p => bool_decide (pi_intent p = intent)) any_order (probe_intents d) with
  | None =>
      rows <~ sql (insert_pk probe_check id
        {| pi_id := id; pi_intent := intent; pi_account := cs_account s; pi_project := cs_project s;
           pi_recovery := pcq_recovery q; pi_database := pcq_database q;
           pi_database_generation := pcq_database_generation q; pi_allocation := al_id a;
           pi_generation := al_generation a; pi_fence := al_fence a; pi_state := IRequested |}
        (probe_intents d));;
      put_db (set_probe_intents rows d);;; tret id
  | Some p =>
      if same_probe q s a p then tret (pi_id p)
      else raise (conflict "runtime_restore_probe_intent_conflict"
                    "the evaluation identity is already bound to another restore probe")
  end.

Definition probe_progress (g : IntentProgress) (p : ProbeIntent) : ProbeIntent :=
  {| pi_id := pi_id p; pi_intent := pi_intent p; pi_account := pi_account p;
     pi_project := pi_project p; pi_recovery := pi_recovery p; pi_database := pi_database p;
     pi_database_generation := pi_database_generation p; pi_allocation := pi_allocation p;
     pi_generation := pi_generation p; pi_fence := pi_fence p; pi_state := g |}.

Definition issue_probe_intent (id : Uuid) : M RtDb unit :=
  d <~ get_db;;
  put_db (set_probe_intents
    (alter (fun p => if open_progress (pi_state p) then probe_progress ICredentialIssued p else p) id
       (probe_intents d)) d).

Definition resolve_restore_probe_credential (q : ProbeCredentialRequest)
    : M RtDb ResolvedRuntimeCredential :=
  _ <~ lift (require_enabled (st_m3 st));;
  reject_if (is_nil (pcq_subject q) || (pcq_generation q <=? 0)%Z || (pcq_fence q <=? 0)%Z
             || is_nil (pcq_recovery q) || is_nil (pcq_database q)
             || is_nil (pcq_database_generation q)) stale_fence;;;
  transaction (
    d <~ get_db;;
    scope <~ lift (ok_or (probe_scope d q) restore_probe_ineligible);;
    intent <~ accept_evaluation_intent (pcq_subject q) (pcq_generation q) (pcq_fence q) (pcq_job q)
            (pcq_artifact q) scope.1;;
    probe <~ accept_probe_intent q intent scope.1 scope.2;;
    d' <~ get_db;;
    credential <~ lift (resolve_database_runtime_credential (execution d') (cs_account scope.1)
      (cs_project scope.1) (pcq_database q) (pcq_database_generation q)
      (Some ("hdr_" +:+ x_uuid_simple X (pcq_recovery q))));;
    issue_evaluation_intent intent;;;
    issue_probe_intent probe;;;
    tret (Ok credential)).

(** *** Evaluations *)

Record IntentArtifact := {
  ia_id : Uuid; ia_archive : string; ia_manifest : string; ia_profile_digest : string;
  ia_commit : string; ia_framework : string; ia_node_major : Z;
}.

(** The artifact that an issued intent is bound to. *)
Definition intent_artifact (x : Execution) (i : EvaluationIntent) : option IntentArtifact :=
  j ← build_jobs x !! ei_job i;
  a ← build_artifacts x !! ei_artifact i;
  s ← build_services x !! (bj_id j, at_service a);
  _ ← where_ (bool_decide (bj_account j = ei_account i) && bool_decide (bj_project j = ei_project i)
              && bool_decide (at_job a = ei_job i));
  Some {| ia_id := ei_id i; ia_archive := at_archive a; ia_manifest := at_manifest a;
          ia_profile_digest := bj_profile_digest j; ia_commit := bj_commit j;
          ia_framework := bs_framework s; ia_node_major := bs_node_major s |}.

Definition evidence_intent (subject : Uuid) (generation fence oldest : Z) (d : RtDb) (k : Uuid)
    (i : EvaluationIntent) : bool :=
  intent_key subject generation fence k i && one_of (ei_state i) [ICredentialIssued; IConsumed]
  && (oldest <=? ei_updated i)%Z && negb (is_none (intent_artifact (execution d) i)).

(** A succeeded application artifact with the tuple of the pattern. *)
Definition pattern_recorded (x : Execution) (p : PatternFacts) : bool :=
  exists_row (fun a =>
    match build_jobs x !! at_job a, build_services x !! (at_job a, at_service a) with
    | Some j, Some s =>
        bool_decide (bj_account j = at_account a) && bool_decide (bj_project j = at_project a)
        && bool_decide (bj_state j = BSucceeded) && bool_decide (at_kind a = ApplicationArtifact)
        && bool_decide (at_archive a = pf_artifact p) && bool_decide (at_manifest a = pf_manifest p)
        && bool_decide (bj_profile_digest j = pf_profile p) && bool_decide (bj_commit j = pf_commit p)
        && bool_decide (bs_framework s = pf_framework p) && (bs_node_major s =? pf_node_major p)%Z
    | _, _ => false
    end) (build_artifacts x).

Definition observes_fixture (i : IntentArtifact) (p : PatternFacts) : bool :=
  pattern_well_formed p && bool_decide (pf_artifact p = ia_archive i)
  && bool_decide (pf_manifest p = ia_manifest i) && bool_decide (pf_profile p = ia_profile_digest i)
  && bool_decide (pf_commit p = ia_commit i) && bool_decide (pf_framework p = ia_framework i)
  && (pf_node_major p =? ia_node_major i)%Z.

Definition i64_of_u64 (v : Z) : res ApiError Z :=
  if (v <=? max_i64)%Z then Ok v else Err evidence_invalid.

Definition artifact_mismatch (message : string) : ApiError :=
  conflict "runtime_evaluation_artifact_mismatch" message.

(** [INSERT ... ON CONFLICT (evidence_digest) DO UPDATE ... RETURNING]. *)
Definition insert_evaluation (e : Evaluation) : M RtDb Evaluation :=
  d <~ get_db;;
  _ <~ sql (where_ (evaluation_check (x_facts_fit X) e));;
  match select_first (fun _ o => bool_decide (ea_evidence o = ea_evidence e)) any_order (evaluations d) with
  | Some o => tret o
  | None =>
      rows <~ sql (insert_pk (evaluation_unique (evaluations d)) (ea_id e) e (evaluations d));;
      put_db (set_evaluations rows d);;; tret e
  end.

Definition consume_intent (intent : Uuid) : M RtDb unit :=
  t <~ clock_timestamp;;
  d <~ get_db;;
  put_db (set_eval_intents (alter (with_progress IConsumed t) intent (eval_intents d)) d);;;
  d' <~ get_db;;
  put_db (set_probe_intents
    ((fun p => if bool_decide (pi_intent p = intent) && one_of (pi_state p) [ICredentialIssued; IConsumed]
               then probe_progress IConsumed p else p) <$> probe_intents d') d').

Definition evaluation_response (capability : string) (e : Evaluation) : EvaluationResponse :=
  {| er_id := ea_id e; er_subject := ea_subject e; er_generation := ea_generation e;
     er_fence := ea_fence e; er_evidence := ea_evidence e; er_capability := capability;
     er_result := ea_result e; er_reason := ea_reason e; er_observed := ea_observed e;
     er_expires := ea_expires e |}.

Definition register_evaluation (evidence_digest : string) : M RtDb EvaluationResponse :=
  now <~ policy_now (st_m3 st);;
  real_now <~ clock_timestamp;;
  bs <~ lift (read_cas_receipt evidence_digest);;
  receipt <~ lift (ok_or (x_evaluation_receipt X bs) (unprocessable "runtime_evidence_invalid"
    "the runtime evidence receipt does not match the supported schema"));;
  let r := ev_receipt receipt in
  let facts := ev_evaluation receipt in
  observed_at <~ lift (receipt_time (x_millis X) (rx_observed_ms r));;
  let expires_at := (now + EVIDENCE_LIFETIME_DAYS * DAY)%Z in
  _ <~ lift (validate_evaluation_envelope (x_millis X) receipt real_now);;
  let passed := evaluation_passes facts && bool_decide (rx_result r = "passed") in
  let result := if passed then "passed" else "failed" in
  let reason_code := if passed then "runtime_capability_verified" else "runtime_isolation_unverified" in
  reject_if (negb (bool_decide (rx_policy r = runtime_policy_digest)))
    (conflict "runtime_policy_mismatch" "the evidence was produced for a different runtime policy");;;
  let capability := capability_digest evidence_digest r in
  id <~ new_uuid;;
  transaction (
    generation <~ lift (i64_of_u64 (rx_generation r));;
    fence <~ lift (i64_of_u64 (rx_fence r));;
    d <~ get_db;;
    i <~ lift (ok_or (select_first (evidence_intent (rx_allocation r) generation fence
                        (real_now - EVIDENCE_RECEIPT_MAX_AGE_MINUTES * MINUTE)%Z d) any_order
                        (eval_intents d)
                      ≫= intent_artifact (execution d))
      (conflict "runtime_evaluation_intent_missing"
         "the evidence is not bound to an active owned-fixture evaluation intent"));;
    reject_if (negb (forallb (pattern_recorded (execution d)) (ef_patterns facts)))
      (artifact_mismatch "each evaluated pattern must bind an exact succeeded artifact record");;;
    reject_if (negb (existsb (observes_fixture i) (ef_patterns facts)))
      (artifact_mismatch "the evidence does not include the evaluation intent's exact artifact tuple");;;
    reject_if (exists_row (fun e => bool_decide (ea_intent e = ia_id i)
                                    && negb (bool_decide (ea_evidence e = evidence_digest)))
                 (evaluations d))
      (conflict "runtime_evaluation_intent_consumed"
         "the evaluation intent is already bound to different evidence");;;
    created <~ clock_timestamp;;
    row <~ insert_evaluation {|
      ea_id := id; ea_intent := ia_id i; ea_subject := rx_allocation r; ea_generation := generation;
      ea_fence := fence; ea_evidence := evidence_digest; ea_capability := capability;
      ea_result := result; ea_reason := reason_code; ea_binary := rx_binary r;
      ea_policy := runtime_policy_digest; ea_platform := rx_platform r; ea_observed := observed_at;
      ea_expires := expires_at; ea_facts := facts; ea_created := created |};;
    consume_intent (ia_id i);;;
    tret (Ok (evaluation_response capability row))).

(** *** Allocations *)

Record AllocationCandidate := {
  ac_built : BuiltArtifact; ac_framework : string; ac_node_major : Z; ac_health_path : option string;
}.

Definition allocation_candidate (x : Execution) (job artifact : Uuid) : option AllocationCandidate :=
  b ← built_artifact x job artifact;
  s ← build_services x !! (job, at_service (ba_artifact b));
  _ ← where_ (bool_decide (bs_kind s = ApplicationService));
  Some {| ac_built := b; ac_framework := bs_framework s; ac_node_major := bs_node_major s;
          ac_health_path := bs_health_path s |}.

Definition pattern_matches (c : AllocationCandidate) (p : PatternFacts) : bool :=
  let j := ba_job (ac_built c) in
  let a := ba_artifact (ac_built c) in
  pattern_passes p && bool_decide (pf_artifact p = at_archive a)
  && bool_decide (pf_manifest p = at_manifest a) && bool_decide (pf_profile p = bj_profile_digest j)
  && bool_decide (pf_commit p = bj_commit j) && bool_decide (pf_framework p = ac_framework c)
  && (pf_node_major p =? ac_node_major c)%Z.

Definition runtime_profile (p : PatternFacts) : res ApiError string :=
  if bool_decide (pf_framework p = "node_http") then
    if (pf_node_major p =? 22)%Z then Ok "node22-http-v1"
    else if (pf_node_major p =? 24)%Z then Ok "node24-http-v1" else Err allocation_ineligible
  else if bool_decide (pf_framework p = "nextjs16_standalone") then
    if (pf_node_major p =? 22)%Z then Ok "nextjs16-node22-v1"
    else if (pf_node_major p =? 24)%Z then Ok "nextjs16-node24-v1" else Err allocation_ineligible
  else Err allocation_ineligible.

Definition artifact_argv (framework : string) (value : option (list string)) : res ApiError (list string) :=
  res_bind (ok_or value allocation_ineligible) (fun argv =>
  res_bind (if bool_decide (framework = "node_http") then Ok ["node"; "dist/server.mjs"]
            else if bool_decide (framework = "nextjs16_standalone") then Ok ["node"; "server.js"]
            else Err allocation_ineligible) (fun expected =>
  res_bind (guard_err (negb (bool_decide (argv = expected))) allocation_ineligible) (fun _ =>
  Ok argv))).

(** An evaluation that still supports new allocations. *)
Definition evaluation_current (now : Z) (e : Evaluation) : bool :=
  bool_decide (ea_result e = "passed") && bool_decide (ea_reason e = "runtime_capability_verified")
  && (now <? ea_expires e)%Z && bool_decide (ea_policy e = runtime_policy_digest).

Definition exact_allocation (artifact evaluation : Uuid) (_ : Uuid) (a : Allocation) : bool :=
  bool_decide (al_artifact a = artifact) && bool_decide (al_evaluation a = evaluation).

(** The response carries the row and the fixed policy. *)
Definition create_allocation (q : CreateAllocationRequest) : M RtDb (Answer Allocation) :=
  _ <~ lift (require_enabled (st_m3 st));;
  now <~ policy_now (st_m3 st);;
  transaction (
    d <~ get_db;;
    c <~ lift (ok_or (allocation_candidate (execution d) (caq_job q) (caq_artifact q))
           allocation_ineligible);;
    let b := ac_built c in
    reject_if (negb (bool_decide (dp_lifecycle (ba_deployment b) = LQueued))
               || bool_decide (rv_state (ba_reservation b) = RReleased)) allocation_ineligible;;;
    e <~ lift (ok_or (evaluations d !! caq_evaluation q) allocation_ineligible);;
    reject_if (negb (evaluation_current now e)) allocation_ineligible;;;
    pattern <~ lift (ok_or (List.find (pattern_matches c) (ef_patterns (ea_facts e))) allocation_ineligible);;
    profile <~ lift (runtime_profile pattern);;
    argv <~ lift (artifact_argv (ac_framework c) (at_argv (ba_artifact b)));;
    health_path <~ lift (ok_or (ac_health_path c) allocation_ineligible);;
    reject_if (negb (safe_health_path health_path)) allocation_ineligible;;;
    match select_first (exact_allocation (at_id (ba_artifact b)) (ea_id e)) any_order (allocations d) with
    | Some existing => tret (Ok (Found existing))
    | None =>
        let service a := bool_decide (al_service a = at_service (ba_artifact b)) in
        generation <~ sql (bigint_succ (max_of service al_generation (allocations d)));;
        fence <~ sql (bigint_succ (max_of service al_fence (allocations d)));;
        id <~ new_uuid;;
        let a := {|
          al_id := id; al_account := bj_account (ba_job b); al_project := bj_project (ba_job b);
          al_deployment := bj_deployment (ba_job b); al_service := at_service (ba_artifact b);
          al_job := caq_job q; al_artifact := at_id (ba_artifact b); al_evaluation := ea_id e;
          al_reservation := bj_reservation (ba_job b); al_epoch := bj_epoch (ba_job b);
          al_config := bj_config (ba_job b); al_commit := bj_commit (ba_job b);
          al_generation := generation; al_fence := fence; al_state := "allocated"; al_reason := None;
          al_archive := at_archive (ba_artifact b); al_manifest := at_manifest (ba_artifact b);
          al_profile_digest := bj_profile_digest (ba_job b); al_binary := ea_binary e;
          al_policy := ea_policy e; al_capability := ea_capability e; al_platform := ea_platform e;
          al_profile := profile; al_argv := argv; al_health_path := health_path |} in
        rows <~ sql (insert_pk (fun r => allocation_check (x_argv_fit X) r
                                         && allocation_unique (allocations d) r) id a (allocations d));;
        put_db (set_allocations rows d);;; tret (Ok (Created a))
    end).

(** *** Observations *)

Definition observation_response (a : Allocation) (o : RtObservation) : ObservationResponse :=
  {| or_id := rb_id o; or_allocation := al_id a; or_generation := al_generation a;
     or_fence := al_fence a; or_sequence := rb_sequence o; or_state := rb_state o;
     or_reason := rb_reason o; or_observed := rb_observed o |}.

(** The request and the receipt speak of this allocation, generation and fence. *)
Definition observes_allocation (q : RecordObservationRequest) (r : RuntimeReceipt) (a : Allocation) : bool :=
  (obq_generation q =? al_generation a)%Z && (obq_fence q =? al_fence a)%Z
  && bool_decide (rx_allocation r = al_id a) && (rx_generation r =? al_generation a)%Z
  && (rx_fence r =? al_fence a)%Z && bool_decide (rx_artifact r = al_archive a)
  && bool_decide (rx_binary r = al_binary a) && bool_decide (rx_policy r = al_policy a)
  && bool_decide (rx_capability r = Some (al_capability a)) && bool_decide (rx_platform r = al_platform a).

Definition with_observation (state reason : string) (a : Allocation) : Allocation :=
  {| al_id := al_id a; al_account := al_account a; al_project := al_project a;
     al_deployment := al_deployment a; al_service := al_service a; al_job := al_job a;
     al_artifact := al_artifact a; al_evaluation := al_evaluation a;
     al_reservation := al_reservation a; al_epoch := al_epoch a; al_config := al_config a;
     al_commit := al_commit a; al_generation := al_generation a; al_fence := al_fence a;
     al_state := state; al_reason := Some reason; al_archive := al_archive a;
     al_manifest := al_manifest a; al_profile_digest := al_profile_digest a; al_binary := al_binary a;
     al_policy := al_policy a; al_capability := al_capability a; al_platform := al_platform a;
     al_profile := al_profile a; al_argv := al_argv a; al_health_path := al_health_path a |}.

Definition observation_of (digest : string) (allocation : Uuid) (_ : Uuid) (o : RtObservation) : bool :=
  bool_decide (rb_digest o = digest) && bool_decide (rb_allocation o = allocation).

(** [INSERT ... ON CONFLICT (receipt_digest) DO NOTHING RETURNING]. *)
Definition insert_observation (o : RtObservation) : M RtDb (option RtObservation) :=
  d <~ get_db;;
  _ <~ sql (where_ (observation_check (x_receipt_fit X) o));;
  if exists_row (fun p => bool_decide (rb_digest p = rb_digest o)) (rt_observations d) then tret None
  else
    rows <~ sql (insert_pk (observation_unique (rt_observations d)) (rb_id o) o (rt_observations d));;
    put_db (set_rt_observations rows d);;; tret (Some o).

Definition update_allocation (id : Uuid) (state reason : string) : M RtDb unit :=
  d <~ get_db;;
  rows <~ sql (update_pk (allocation_check (x_argv_fit X)) (fun _ => true)
                 (fun a => Some (with_observation state reason a)) id (allocations d));;
  put_db (set_allocations rows.1 d).

Definition record_observation (q : RecordObservationRequest) : M RtDb (Answer ObservationResponse) :=
  _ <~ lift (require_enabled (st_m3 st));;
  bs <~ lift (read_cas_receipt (obq_digest q));;
  receipt <~ lift (ok_or (x_executor_receipt X bs)
    (receipt_invalid "the runtime receipt does not match the supported schema"));;
  _ <~ lift (validate_executor_receipt receipt);;
  let r := xr_receipt receipt in
  observed_at <~ lift (receipt_time (x_millis X) (rx_observed_ms r));;
  utc_now <~ clock_timestamp;;
  reject_if (utc_now + 5 * MINUTE <? observed_at)%Z
    (receipt_invalid "the runtime receipt timestamp is invalid");;;
  transaction (
    d <~ get_db;;
    a <~ lift (ok_or (allocations d !! obq_allocation q) not_found);;
    reject_if (negb (observes_allocation q r a))
      (runtime_fenced "the observation does not match the current allocation generation and fence");;;
    match select_first (observation_of (obq_digest q) (al_id a)) any_order (rt_observations d) with
    | Some prior =>
        reject_if (negb (bool_decide (rb_state prior = obq_state q)))
          (receipt_reused "the receipt digest is already bound to a different observation");;;
        tret (Ok (Found (observation_response a prior)))
    | None =>
        _ <~ lift (validate_state_receipt (obq_state q) receipt);;
        reject_if (negb (transition_allowed (al_state a) (obq_state q)))
          (conflict "runtime_transition_forbidden"
             "the requested runtime lifecycle transition is not allowed");;;
        sequence <~ sql (bigint_succ (max_of (fun o => bool_decide (rb_allocation o = al_id a))
                                        rb_sequence (rt_observations d)));;
        id <~ new_uuid;;
        inserted <~ insert_observation {|
          rb_id := id; rb_allocation := al_id a; rb_account := al_account a;
          rb_project := al_project a; rb_deployment := al_deployment a; rb_service := al_service a;
          rb_generation := al_generation a; rb_fence := al_fence a; rb_sequence := sequence;
          rb_state := obq_state q; rb_reason := rx_reason r; rb_digest := obq_digest q;
          rb_receipt := receipt; rb_observed := observed_at |};;
        match inserted with
        | Some row =>
            update_allocation (al_id a) (obq_state q) (rx_reason r);;;
            tret (Ok (Created (observation_response a row)))
        | None =>
            row <~ lift (ok_or (select_first (observation_of (obq_digest q) (al_id a)) any_order
                                  (rt_observations d))
              (receipt_reused "the receipt digest is already bound to another allocation"));;
            tret (Ok (Created (observation_response a row)))
        end
    end).

(** *** What owners see *)

(** [ORDER BY created_at DESC,id DESC] and [ORDER BY observed_at DESC,id DESC]. *)
Definition later_evaluation (e f : Evaluation) : Prop :=
  (ea_created f < ea_created e \/ ea_created f = ea_created e /\ Z.of_N (ea_id f) <= Z.of_N (ea_id e))%Z.
#[local] Instance later_evaluation_dec e f : Decision (later_evaluation e f).
Proof. unfold later_evaluation. apply _. Defined.

Definition later_observation (o p : RtObservation) : Prop :=
  (rb_observed p < rb_observed o \/ rb_observed p = rb_observed o /\ Z.of_N (rb_id p) <= Z.of_N (rb_id o))%Z.
#[local] Instance later_observation_dec o p : Decision (later_observation o p).
Proof. unfold later_observation. apply _. Defined.

(** The stored profile when the pattern has none. *)
Definition compatibility_profile (e : Evaluation) (p : PatternFacts) : CompatibilityProfile :=
  {| cpf_profile := match runtime_profile p with Ok s => s | Err _ => "evidence_gated_owned_fixture" end;
     cpf_framework := pf_framework p; cpf_node_major := pf_node_major p; cpf_result := ea_result e;
     cpf_reason := ea_reason e; cpf_expires := ea_expires e |}.

Definition get_compatibility : M RtDb (list CompatibilityProfile) :=
  now <~ policy_now (st_m3 st);;
  d <~ get_db;;
  let rows := List.filter (fun e => bool_decide (ea_result e = "passed") && (now <? ea_expires e)%Z)
                (map snd (map_to_list (evaluations d))) in
  tret (flat_map (fun e => map (compatibility_profile e)
                             (List.filter pattern_passes (ef_patterns (ea_facts e))))
          (merge_sort later_evaluation rows)).

Definition get_owner_observations (caller : Authenticated) (project_id : string) : M RtDb (list RtObservation) :=
  _ <~ lift (require_enabled (st_m3 st));;
  project <~ lift (path_uuid (x_parse_uuid X) project_id);;
  d <~ get_db;;
  reject_if (negb (match x_projects (execution d) !! project with
                   | Some p => bool_decide (pj_account p = account_id caller)
                   | None => false end)) not_found;;;
  tret (take 200 (merge_sort later_observation
    (List.filter (fun o => bool_decide (rb_account o = account_id caller)
                           && bool_decide (rb_project o = project))
       (map snd (map_to_list (rt_observations d)))))).
End Handlers.
