(* ===== verification/RuntimeSpec.v ===== *)
(** * Runtime allocations: specification

    [rt_step] is what a statement may do to the runtime tables; [rt_ok] is their
    invariant.  Every statement of the handlers is such a step, and every step keeps
    the invariant; other components' transactions leave the runtime tables alone. *)

From stdpp Require Import base list option gmap strings relations.
From Stdlib Require Import ZArith Lia.
From S2P Require Import Prelude RustText Bytes PgTx Intent Secrets Admission PolicyClock.
From S2P Require Import ExecutionTables Credentials RuntimeEvidence Runtime.

Local Open Scope string_scope.
Local Open Scope list_scope.

(** ** Maxima over a table *)

Section MaxOf.
Context {R : Type} (keep : R -> bool) (f : R -> Z).
Implicit Types t : gmap Uuid R.

Lemma max_of_insert t k r :
  t !! k = None -> max_of keep f (<[k := r]> t) = if keep r then Z.max (f r) (max_of keep f t) else max_of keep f t.
Proof.
  intros Hk. unfold max_of. rewrite map_fold_insert_L; [done| |done].
  intros k1 k2 r1 r2 m _ _ _. destruct (keep r1), (keep r2); lia.
Qed.

Lemma max_of_spec t :
  (0 <= max_of keep f t)%Z
  /\ (forall k r, t !! k = Some r -> keep r = true -> (f r <= max_of keep f t)%Z)
  /\ (max_of keep f t = 0%Z \/ exists k r, t !! k = Some r /\ keep r = true /\ f r = max_of keep f t).
Proof.
  induction t as [|k r t Hk (IH0 & IHle & IHw)] using map_ind.
  { unfold max_of. rewrite map_fold_empty. split_and!; [done| |by left]. intros k r. by rewrite lookup_empty. }
  rewrite max_of_insert by done. split_and!.
  - destruct (keep r); lia.
  - intros k' r'. rewrite lookup_insert. case_decide as E.
    + intros [= <-] ->. lia.
    + intros Hl Hr. pose proof (IHle _ _ Hl Hr). destruct (keep r); lia.
  - destruct (keep r) eqn:Er.
    + destruct (decide (max_of keep f t <= f r)%Z).
      * right. exists k, r. rewrite lookup_insert_eq. split_and!; [done|done|lia].
      * rewrite Z.max_r by lia. destruct IHw as [?|(k' & r' & Hl & Hr & E)]; [by left|right].
        exists k', r'. rewrite lookup_insert_ne by (intros <-; congruence). done.
    + destruct IHw as [?|(k' & r' & Hl & Hr & E)]; [by left|right].
      exists k', r'. rewrite lookup_insert_ne by (intros <-; congruence). done.
Qed.

Lemma max_of_le t k r : t !! k = Some r -> keep r = true -> (f r <= max_of keep f t)%Z.
Proof. apply max_of_spec. Qed.
Lemma max_of_nonneg t : (0 <= max_of keep f t)%Z.
Proof. apply max_of_spec. Qed.
Lemma max_of_attained t :
  (0 < max_of keep f t)%Z -> exists k r, t !! k = Some r /\ keep r = true /\ f r = max_of keep f t.
Proof. pose proof (max_of_spec t) as (_ & _ & [?|?]); [lia|done]. Qed.

(** Rows that the filter or the value do not tell apart. *)
Lemma max_of_replace t k r r' :
  t !! k = Some r -> keep r' = keep r -> f r' = f r -> max_of keep f (<[k := r']> t) = max_of keep f t.
Proof.
  intros Hk Hkeep Hf. rewrite <- (insert_delete_id t k r Hk) at 2. rewrite <- insert_delete_eq.
  rewrite !max_of_insert by apply lookup_delete_eq. by rewrite Hkeep, Hf.
Qed.
End MaxOf.

(** ** What backs each row *)

Section Spec.
Context (X : Externals).

(** A passing pattern of the evaluation has the artifact tuple of the allocation. *)
Record pattern_backs (a : Allocation) (p : PatternFacts) : Prop := {
  pb_passes : pattern_passes p = true;
  pb_archive : pf_artifact p = al_archive a;
  pb_manifest : pf_manifest p = al_manifest a;
  pb_profile_digest : pf_profile p = al_profile_digest a;
  pb_commit : pf_commit p = al_commit a;
  pb_profile : runtime_profile p = Ok (al_profile a);
  pb_argv : artifact_argv (pf_framework p) (Some (al_argv a)) = Ok (al_argv a);
}.

(** The evaluation an allocation rests on. *)
Record evaluation_backs (a : Allocation) (e : Evaluation) : Prop := {
  eb_id : ea_id e = al_evaluation a;
  eb_passed : ea_result e = "passed";
  eb_criteria : evaluation_passes (ea_facts e) = true;
  eb_current_policy : ea_policy e = runtime_policy_digest X;
  eb_binary : al_binary a = ea_binary e;
  eb_policy : al_policy a = ea_policy e;
  eb_capability : al_capability a = ea_capability e;
  eb_platform : al_platform a = ea_platform e;
  eb_pattern : exists p, p ∈ ef_patterns (ea_facts e) /\ pattern_backs a p;
}.

(** The receipt of an observation speaks of the allocation and supports the state. *)
Record receipt_backs (a : Allocation) (o : RtObservation) : Prop := {
  rk_valid : executor_receipt_invalid (rb_receipt o) = false;
  rk_supports : state_supported (rb_state o) (xr_receipt (rb_receipt o)) = true;
  rk_allocation : rx_allocation (xr_receipt (rb_receipt o)) = al_id a;
  rk_generation : rx_generation (xr_receipt (rb_receipt o)) = al_generation a;
  rk_fence : rx_fence (xr_receipt (rb_receipt o)) = al_fence a;
  rk_artifact : rx_artifact (xr_receipt (rb_receipt o)) = al_archive a;
  rk_binary : rx_binary (xr_receipt (rb_receipt o)) = al_binary a;
  rk_capability : rx_capability (xr_receipt (rb_receipt o)) = Some (al_capability a);
  rk_reason : rb_reason o = rx_reason (xr_receipt (rb_receipt o));
}.

Definition same_allocation (a a' : Allocation) : Prop :=
  exists state reason, a' = with_observation state reason a.

(** Of the same allocation, with the sequence number before. *)
Definition precedes (o' o : RtObservation) : Prop :=
  rb_allocation o' = rb_allocation o /\ rb_sequence o = (rb_sequence o' + 1)%Z
  /\ transition_allowed (rb_state o') (rb_state o) = true.

Definition of_allocation (a : Uuid) (o : RtObservation) : bool := bool_decide (rb_allocation o = a).
Definition last_sequence (d : RtDb) (a : Uuid) : Z := max_of (of_allocation a) rb_sequence (rt_observations d).
Definition of_service (s : Uuid) (a : Allocation) : bool := bool_decide (al_service a = s).

(** ** The invariant *)

Record intents_ok (d : RtDb) : Prop := {
  io_id : forall k i, eval_intents d !! k = Some i -> ei_id i = k;
  io_key : forall k k' i i', eval_intents d !! k = Some i -> eval_intents d !! k' = Some i' ->
    ei_subject i = ei_subject i' -> ei_generation i = ei_generation i' -> ei_fence i = ei_fence i' -> k = k';
}.

Record evaluations_ok (d : RtDb) : Prop := {
  eo_id : forall k e, evaluations d !! k = Some e -> ea_id e = k;
  eo_policy : forall k e, evaluations d !! k = Some e -> ea_policy e = runtime_policy_digest X;
  eo_passed : forall k e, evaluations d !! k = Some e -> ea_result e = "passed" ->
    evaluation_passes (ea_facts e) = true;
  eo_intent : forall k e, evaluations d !! k = Some e -> exists i,
    eval_intents d !! ea_intent e = Some i /\ ei_state i = IConsumed /\ ei_subject i = ea_subject e
    /\ ei_generation i = ea_generation e /\ ei_fence i = ea_fence e;
  eo_unique : forall k k' e e', evaluations d !! k = Some e -> evaluations d !! k' = Some e' ->
    ea_evidence e = ea_evidence e' \/ ea_intent e = ea_intent e' \/ ea_capability e = ea_capability e' ->
    k = k';
}.

Record allocations_ok (d : RtDb) : Prop := {
  ao_id : forall k a, allocations d !! k = Some a -> al_id a = k;
  ao_backed : forall k a, allocations d !! k = Some a ->
    exists e, evaluations d !! al_evaluation a = Some e /\ evaluation_backs a e;
  ao_health : forall k a, allocations d !! k = Some a -> safe_health_path (al_health_path a) = true;
  ao_fence : forall k a, allocations d !! k = Some a -> (1 <= al_generation a)%Z /\ al_fence a = al_generation a;
  ao_before : forall k a, allocations d !! k = Some a -> (1 < al_generation a)%Z ->
    exists k' b, allocations d !! k' = Some b /\ al_service b = al_service a
      /\ al_generation a = (al_generation b + 1)%Z;
  ao_unique : forall k k' a a', allocations d !! k = Some a -> allocations d !! k' = Some a' ->
    al_service a = al_service a' /\ al_generation a = al_generation a'
    \/ al_artifact a = al_artifact a' /\ al_evaluation a = al_evaluation a' -> k = k';
}.

Record observations_ok (d : RtDb) : Prop := {
  oo_id : forall k o, rt_observations d !! k = Some o -> rb_id o = k;
  oo_backed : forall k o, rt_observations d !! k = Some o ->
    exists a, allocations d !! rb_allocation o = Some a /\ receipt_backs a o;
  oo_sequence : forall k o, rt_observations d !! k = Some o -> (1 <= rb_sequence o)%Z;
  oo_first : forall k o, rt_observations d !! k = Some o -> rb_sequence o = 1%Z ->
    transition_allowed "allocated" (rb_state o) = true;
  oo_before : forall k o, rt_observations d !! k = Some o -> (1 < rb_sequence o)%Z ->
    exists k' o', rt_observations d !! k' = Some o' /\ precedes o' o;
  oo_unique : forall k k' o o', rt_observations d !! k = Some o -> rt_observations d !! k' = Some o' ->
    rb_allocation o = rb_allocation o' /\ rb_sequence o = rb_sequence o' \/ rb_digest o = rb_digest o' ->
    k = k';
  oo_current : forall k a, allocations d !! k = Some a ->
    last_sequence d k = 0%Z /\ al_state a = "allocated"
    \/ exists k' o, rt_observations d !! k' = Some o /\ rb_allocation o = k
         /\ rb_sequence o = last_sequence d k /\ rb_state o = al_state a;
}.

Record rt_ok (d : RtDb) : Prop := {
  ro_intents : intents_ok d;
  ro_evaluations : evaluations_ok d;
  ro_allocations : allocations_ok d;
  ro_observations : observations_ok d;
}.

(** ** Steps *)

(** An intent keeps what it is bound to, and once consumed stays so. *)
Definition intent_moves (i i' : EvaluationIntent) : Prop :=
  exists p t, i' = with_progress p t i /\ (ei_state i = IConsumed -> p = IConsumed).

Definition runtime_rows_same (d d' : RtDb) : Prop :=
  eval_intents d' = eval_intents d /\ evaluations d' = evaluations d
  /\ allocations d' = allocations d /\ rt_observations d' = rt_observations d.

Inductive rt_step : RtDb -> RtDb -> Prop :=
| rt_elsewhere d d' : runtime_rows_same d d' -> rt_step d d'
| rt_new_intent d i :
    eval_intents d !! ei_id i = None ->
    (forall k j, eval_intents d !! k = Some j ->
       ~ (ei_subject j = ei_subject i /\ ei_generation j = ei_generation i /\ ei_fence j = ei_fence i)) ->
    rt_step d (set_eval_intents (<[ei_id i := i]> (eval_intents d)) d)
| rt_intent_moves d k i i' :
    eval_intents d !! k = Some i -> intent_moves i i' ->
    rt_step d (set_eval_intents (<[k := i']> (eval_intents d)) d)
| rt_evaluate d i t e :
    eval_intents d !! ea_intent e = Some i ->
    ei_subject i = ea_subject e -> ei_generation i = ea_generation e -> ei_fence i = ea_fence e ->
    evaluations d !! ea_id e = None -> evaluation_unique (evaluations d) e = true ->
    ea_policy e = runtime_policy_digest X ->
    (ea_result e = "passed" -> evaluation_passes (ea_facts e) = true) ->
    rt_step d (set_eval_intents (<[ea_intent e := with_progress IConsumed t i]> (eval_intents d))
                 (set_evaluations (<[ea_id e := e]> (evaluations d)) d))
| rt_allocate d a e :
    allocations d !! al_id a = None -> allocation_unique (allocations d) a = true ->
    evaluations d !! al_evaluation a = Some e -> evaluation_backs a e ->
    safe_health_path (al_health_path a) = true -> al_state a = "allocated" ->
    al_generation a = (max_of (of_service (al_service a)) al_generation (allocations d) + 1)%Z ->
    al_fence a = (max_of (of_service (al_service a)) al_fence (allocations d) + 1)%Z ->
    rt_step d (set_allocations (<[al_id a := a]> (allocations d)) d)
| rt_observe d a o :
    allocations d !! rb_allocation o = Some a -> rt_observations d !! rb_id o = None ->
    observation_unique (rt_observations d) o = true ->
    (forall k p, rt_observations d !! k = Some p -> rb_digest p <> rb_digest o) ->
    receipt_backs a o -> transition_allowed (al_state a) (rb_state o) = true ->
    rb_sequence o = (last_sequence d (rb_allocation o) + 1)%Z ->
    rt_step d (set_allocations (<[rb_allocation o := with_observation (rb_state o) (rb_reason o) a]> (allocations d))
                 (set_rt_observations (<[rb_id o := o]> (rt_observations d)) d)).

Abbreviation rt_steps := (rtc rt_step).

(** ** Steps keep the invariant *)

Lemma evaluation_unique_spec (t : gmap Uuid Evaluation) e :
  evaluation_unique t e = true -> forall k o, t !! k = Some o ->
  ea_intent o <> ea_intent e /\ ea_evidence o <> ea_evidence e /\ ea_capability o <> ea_capability e.
Proof.
  unfold evaluation_unique. rewrite negb_true_iff. intros H k o Ho.
  pose proof (exists_row_false _ _ H k o Ho) as Hf. cbn beta in Hf. bool_simpl. done.
Qed.

Lemma allocation_unique_spec (t : gmap Uuid Allocation) a :
  allocation_unique t a = true -> forall k o, t !! k = Some o ->
  ~ (al_service o = al_service a /\ (al_generation o = al_generation a \/ al_fence o = al_fence a))
  /\ ~ (al_artifact o = al_artifact a /\ al_evaluation o = al_evaluation a).
Proof.
  unfold allocation_unique. rewrite negb_true_iff. intros H k o Ho.
  pose proof (exists_row_false _ _ H k o Ho) as Hf. cbn beta in Hf.
  apply orb_false_iff in Hf as [H1 H2]. apply andb_false_iff in H1, H2.
  rewrite orb_false_iff, !Z.eqb_neq, !bool_decide_eq_false in *. naive_solver.
Qed.

Lemma observation_unique_spec (t : gmap Uuid RtObservation) o :
  observation_unique t o = true -> forall k p, t !! k = Some p ->
  ~ (rb_allocation p = rb_allocation o /\ rb_sequence p = rb_sequence o).
Proof.
  unfold observation_unique. rewrite negb_true_iff. intros H k p Hp.
  pose proof (exists_row_false _ _ H k p Hp) as Hf. cbn beta in Hf.
  apply andb_false_iff in Hf. rewrite Z.eqb_neq, bool_decide_eq_false in Hf. naive_solver.
Qed.

(** Each part of the invariant depends on its own tables. *)
Lemma intents_ok_ext d d' : eval_intents d' = eval_intents d -> intents_ok d -> intents_ok d'.
Proof. intros E [? ?]. split; rewrite E; done. Qed.

Lemma evaluations_ok_ext d d' :
  eval_intents d' = eval_intents d -> evaluations d' = evaluations d ->
  evaluations_ok d -> evaluations_ok d'.
Proof. intros E E' [? ? ? ? ?]. split; rewrite ?E, ?E'; done. Qed.

Lemma allocations_ok_ext d d' :
  evaluations d' = evaluations d -> allocations d' = allocations d ->
  allocations_ok d -> allocations_ok d'.
Proof. intros E E' [? ? ? ? ? ?]. split; rewrite ?E, ?E'; done. Qed.

Lemma observations_ok_ext d d' :
  allocations d' = allocations d -> rt_observations d' = rt_observations d ->
  observations_ok d -> observations_ok d'.
Proof.
  intros E E' [? ? ? ? ? ? ?]. split; unfold last_sequence in *; rewrite ?E, ?E'; done.
Qed.

(** The rows of a table after an insertion. *)
Ltac inserted H :=
  rewrite lookup_insert in H; case_decide; simplify_eq.

Lemma new_intent_ok d i :
  rt_ok d -> eval_intents d !! ei_id i = None ->
  (forall k j, eval_intents d !! k = Some j ->
     ~ (ei_subject j = ei_subject i /\ ei_generation j = ei_generation i /\ ei_fence j = ei_fence i)) ->
  rt_ok (set_eval_intents (<[ei_id i := i]> (eval_intents d)) d).
Proof.
  intros [[Hid Hkey] [? ? ? Hint ?] Ha Ho] Hn Hu.
  split; [| |by apply (allocations_ok_ext d)|by apply (observations_ok_ext d)].
  - split; cbn [eval_intents set_eval_intents].
    + intros k j Hj. inserted Hj; eauto.
    + intros k k' j j' Hj Hj' E1 E2 E3. inserted Hj; inserted Hj'; try done.
      * edestruct Hu; eauto.
      * edestruct Hu; eauto.
      * eauto.
  - split; cbn [eval_intents evaluations set_eval_intents]; try done.
    intros k e He. destruct (Hint k e He) as (j & Hj & ?). exists j. split; [|done].
    rewrite lookup_insert_ne; [done|]. intros E. rewrite <- E in Hj. congruence.
Qed.

Lemma intent_moves_ok d k i i' :
  rt_ok d -> eval_intents d !! k = Some i -> intent_moves i i' ->
  rt_ok (set_eval_intents (<[k := i']> (eval_intents d)) d).
Proof.
  intros [[Hid Hkey] [He1 He2 He3 Hint He5] Ha Ho] Hi (p & t & -> & Hp).
  split; [| |by apply (allocations_ok_ext d)|by apply (observations_ok_ext d)].
  - split; cbn [eval_intents set_eval_intents].
    + intros k' j Hj. inserted Hj; [by apply (Hid _ i)|by apply Hid].
    + intros k1 k2 j1 j2 H1 H2 E1 E2 E3. inserted H1; inserted H2; cbn in *; eauto.
  - split; cbn [eval_intents evaluations set_eval_intents]; [exact He1|exact He2|exact He3| |exact He5].
    intros k' e He. destruct (Hint k' e He) as (j & Hj & Hs & H). rewrite lookup_insert.
    case_decide; [|eauto]. subst k. assert (j = i) as -> by congruence.
    eexists. split; [done|]. cbn. by rewrite (Hp Hs).
Qed.

Lemma evaluate_ok d i t e :
  rt_ok d -> eval_intents d !! ea_intent e = Some i ->
  ei_subject i = ea_subject e -> ei_generation i = ea_generation e -> ei_fence i = ea_fence e ->
  evaluations d !! ea_id e = None -> evaluation_unique (evaluations d) e = true ->
  ea_policy e = runtime_policy_digest X ->
  (ea_result e = "passed" -> evaluation_passes (ea_facts e) = true) ->
  rt_ok (set_eval_intents (<[ea_intent e := with_progress IConsumed t i]> (eval_intents d))
           (set_evaluations (<[ea_id e := e]> (evaluations d)) d)).
Proof.
  intros Hok Hi E1 E2 E3 Hnone Hu Hpol Hpass.
  pose proof (evaluation_unique_spec _ _ Hu) as Hdiff.
  destruct (intent_moves_ok d _ i (with_progress IConsumed t i) Hok Hi) as [Hint [? ? ? Hcons ?] _ _];
    [by exists IConsumed, t|].
  destruct Hok as [_ [Hid Hp Hpp _ Hun] [? Hback ? ? ? ?] Ho].
  split; [by refine (intents_ok_ext _ _ _ Hint)| | |by apply (observations_ok_ext d)].
  - split; cbn [eval_intents evaluations set_eval_intents set_evaluations].
    + intros k f Hf. inserted Hf; eauto.
    + intros k f Hf. inserted Hf; eauto.
    + intros k f Hf. inserted Hf; eauto.
    + intros k f Hf. inserted Hf; [|by eapply Hcons]. rewrite lookup_insert_eq. by eexists.
    + intros k k' f f' Hf Hf' E. inserted Hf; inserted Hf'; [done| | |by eapply Hun].
      * destruct (Hdiff _ _ Hf') as (? & ? & ?). naive_solver.
      * destruct (Hdiff _ _ Hf) as (? & ? & ?). naive_solver.
  - split; cbn [allocations evaluations set_eval_intents set_evaluations]; try done.
    intros k a Hk. destruct (Hback k a Hk) as (f & Hf & Hb). exists f.
    rewrite lookup_insert_ne; [done|]. intros E. rewrite <- E in Hf. congruence.
Qed.

Lemma allocate_ok d a e :
  rt_ok d -> allocations d !! al_id a = None -> allocation_unique (allocations d) a = true ->
  evaluations d !! al_evaluation a = Some e -> evaluation_backs a e ->
  safe_health_path (al_health_path a) = true -> al_state a = "allocated" ->
  al_generation a = (max_of (of_service (al_service a)) al_generation (allocations d) + 1)%Z ->
  al_fence a = (max_of (of_service (al_service a)) al_fence (allocations d) + 1)%Z ->
  rt_ok (set_allocations (<[al_id a := a]> (allocations d)) d).
Proof.
  intros [Hi He [Hid Hback Hh Hf Hbef Hun] [Oid Oback Oseq Ofirst Obef Oun Ocur]]
    Hnone Hu Hea Hb Hhp Hst Hg Hfe.
  pose proof (allocation_unique_spec _ _ Hu) as Hdiff.
  set (keep := of_service (al_service a)) in *.
  assert (Hkeep : forall b, keep b = true <-> al_service b = al_service a).
  { intros b. unfold keep, of_service. by rewrite bool_decide_eq_true. }
  assert (Hsame : max_of keep al_fence (allocations d) = max_of keep al_generation (allocations d)).
  { apply Z.le_antisymm.
    - destruct (max_of_spec keep al_fence (allocations d)) as (_ & _ & [->|(k & b & Hk & Hkb & <-)]).
      + apply max_of_nonneg.
      + rewrite (proj2 (Hf k b Hk)). by apply max_of_le with k.
    - destruct (max_of_spec keep al_generation (allocations d)) as (_ & _ & [->|(k & b & Hk & Hkb & <-)]).
      + apply max_of_nonneg.
      + rewrite <- (proj2 (Hf k b Hk)). by apply max_of_le with k. }
  split; [by apply (intents_ok_ext d)|by apply (evaluations_ok_ext d)| |].
  - split; cbn [evaluations allocations set_allocations].
    + intros k b Hk. inserted Hk; eauto.
    + intros k b Hk. inserted Hk; eauto.
    + intros k b Hk. inserted Hk; eauto.
    + intros k b Hk. inserted Hk; [|eauto].
      pose proof (max_of_nonneg keep al_generation (allocations d)). lia.
    + intros k b Hk Hlt. inserted Hk.
      * destruct (max_of_attained keep al_generation (allocations d)) as (k0 & b0 & Hk0 & Hkb & E); [lia|].
        exists k0, b0. rewrite lookup_insert_ne by (intros <-; congruence).
        split_and!; [done|by apply Hkeep|lia].
      * destruct (Hbef k b Hk Hlt) as (k' & c & Hc & ?). exists k', c.
        rewrite lookup_insert_ne by (intros <-; congruence). done.
    + intros k k' b c Hk Hk' E. inserted Hk; inserted Hk'; [done| | |by eapply Hun].
      * destruct (Hdiff _ _ Hk'). naive_solver.
      * destruct (Hdiff _ _ Hk). naive_solver.
  - split; cbn [allocations rt_observations set_allocations]; try done.
    + intros k o Ho. destruct (Oback k o Ho) as (b & Hbk & Hr). exists b.
      rewrite lookup_insert_ne by (intros E; rewrite <- E in Hbk; congruence). done.
    + intros k b Hk. change (last_sequence (set_allocations _ d) k) with (last_sequence d k).
      inserted Hk; [|by apply Ocur]. left. split; [|done].
      unfold last_sequence.
      destruct (max_of_spec (of_allocation (al_id b)) rb_sequence (rt_observations d))
        as (_ & _ & [->|(k & o & Ho & Hko & _)]); [done|].
      apply bool_decide_eq_true in Hko. destruct (Oback k o Ho) as (c & Hc & _). congruence.
Qed.

Lemma observe_ok d a o :
  rt_ok d -> allocations d !! rb_allocation o = Some a -> rt_observations d !! rb_id o = None ->
  observation_unique (rt_observations d) o = true ->
  (forall k p, rt_observations d !! k = Some p -> rb_digest p <> rb_digest o) ->
  receipt_backs a o -> transition_allowed (al_state a) (rb_state o) = true ->
  rb_sequence o = (last_sequence d (rb_allocation o) + 1)%Z ->
  rt_ok (set_allocations (<[rb_allocation o := with_observation (rb_state o) (rb_reason o) a]> (allocations d))
           (set_rt_observations (<[rb_id o := o]> (rt_observations d)) d)).
Proof.
  intros [Hi He [Hid Hback Hh Hf Hbef Hun] [Oid Oback Oseq Ofirst Obef Oun Ocur]]
    Ha Hnone Hu Hdig Hb Htr Hseq.
  pose proof (observation_unique_spec _ _ Hu) as Hdiff.
  set (a' := with_observation (rb_state o) (rb_reason o) a).
  assert (Hlast : (0 <= last_sequence d (rb_allocation o))%Z) by apply max_of_nonneg.
  assert (Hmem : forall k p, rt_observations d !! k = Some p -> k <> rb_id o) by (intros k p ? ->; congruence).
  assert (Hmax : forall k, last_sequence (set_allocations (<[rb_allocation o := a']> (allocations d))
      (set_rt_observations (<[rb_id o := o]> (rt_observations d)) d)) k
    = if bool_decide (rb_allocation o = k) then rb_sequence o else last_sequence d k).
  { intros k. unfold last_sequence at 1. cbn [rt_observations set_allocations set_rt_observations].
    rewrite max_of_insert by done. unfold of_allocation at 1. case_bool_decide as E; [|done].
    subst k. unfold last_sequence in Hseq. lia. }
  split; [by apply (intents_ok_ext d)|by apply (evaluations_ok_ext d)| |].
  - split; cbn [evaluations allocations set_allocations set_rt_observations].
    + intros k b Hk. inserted Hk; [by apply (Hid _ a)|eauto].
    + intros k b Hk. inserted Hk; [|eauto]. destruct (Hback _ a Ha) as (e & Hea & Heb).
      exists e. split; [done|]. destruct Heb as [? ? ? ? ? ? ? ? (p & Hp & [])].
      split; try done. exists p. split; [done|]. by split.
    + intros k b Hk. inserted Hk; [by apply (Hh _ a Ha)|eauto].
    + intros k b Hk. inserted Hk; [by apply (Hf _ a Ha)|eauto].
    + intros k b Hk Hlt.
      assert (Hex : forall k0 c0, allocations d !! k0 = Some c0 -> exists k' c,
        <[rb_allocation o := a']> (allocations d) !! k' = Some c
        /\ al_service c = al_service c0 /\ al_generation c = al_generation c0).
      { intros k0 c0 Hc0. destruct (decide (k0 = rb_allocation o)) as [->|].
        - exists (rb_allocation o), a'. rewrite lookup_insert_eq. assert (c0 = a) as -> by congruence. done.
        - exists k0, c0. by rewrite lookup_insert_ne. }
      inserted Hk.
      * destruct (Hbef _ a Ha Hlt) as (k' & c & Hc & E1 & E2).
        destruct (Hex _ _ Hc) as (k2 & c2 & H2 & E3 & E4). exists k2, c2. cbn. by rewrite E3, E4.
      * destruct (Hbef k b Hk Hlt) as (k' & c & Hc & E1 & E2).
        destruct (Hex _ _ Hc) as (k2 & c2 & H2 & E3 & E4). exists k2, c2. by rewrite E3, E4.
    + intros k k' b c Hk Hk' E. inserted Hk; inserted Hk'; [done|eapply Hun; eauto..].
  - split; cbn [allocations rt_observations set_allocations set_rt_observations].
    + intros k p Hp. inserted Hp; eauto.
    + intros k p Hp. inserted Hp.
      * rewrite lookup_insert_eq. exists a'. split; [done|]. by destruct Hb.
      * destruct (Oback k p Hp) as (c & Hc & Hr). rewrite lookup_insert. case_decide; [|eauto].
        exists a'. split; [done|]. assert (c = a) as -> by congruence. by destruct Hr.
    + intros k p Hp. inserted Hp; [lia|eauto].
    + intros k p Hp E. inserted Hp; [|eauto].
      destruct (Ocur _ a Ha) as [(_ & Hs)|(k' & q & Hq & Hqa & Hqs & _)]; [by rewrite Hs in Htr|].
      pose proof (Oseq k' q Hq). lia.
    + intros k p Hp Hlt. inserted Hp.
      * destruct (Ocur _ a Ha) as [(Hz & _)|(k' & q & Hq & Hqa & Hqs & Hst)]; [lia|].
        exists k', q. rewrite lookup_insert_ne by (apply not_eq_sym; by eapply Hmem).
        split; [done|]. split_and!; [done|lia|by rewrite Hst].
      * destruct (Obef k p Hp Hlt) as (k' & q & Hq & ?). exists k', q.
        rewrite lookup_insert_ne by (apply not_eq_sym; by eapply Hmem). done.
    + intros k k' p q Hp Hq E. inserted Hp; inserted Hq; [done| | |by eapply Oun].
      * pose proof (Hdiff _ _ Hq). pose proof (Hdig _ _ Hq). naive_solver.
      * pose proof (Hdiff _ _ Hp). pose proof (Hdig _ _ Hp). naive_solver.
    + intros k b Hk. rewrite Hmax. inserted Hk.
      * right. exists (rb_id o), o. rewrite lookup_insert_eq, bool_decide_eq_true_2 by done. done.
      * rewrite bool_decide_eq_false_2 by done. destruct (Ocur k b Hk) as [?|(k' & q & Hq & ?)]; [by left|].
        right. exists k', q. rewrite lookup_insert_ne by (apply not_eq_sym; by eapply Hmem). done.
Qed.

Lemma rt_step_ok d d' : rt_step d d' -> rt_ok d -> rt_ok d'.
Proof.
  destruct 1 as [d d' (Ei & Ee & Ea & Eo)| | | | |]; intros Hok.
  - destruct Hok as [? ? ? ?]. split; [by eapply intents_ok_ext|by eapply evaluations_ok_ext
      |by eapply allocations_ok_ext|by eapply observations_ok_ext].
  - by apply new_intent_ok.
  - by eapply intent_moves_ok.
  - by eapply evaluate_ok.
  - by eapply allocate_ok.
  - by apply observe_ok.
Qed.

Lemma rt_steps_ok d d' : rt_steps d d' -> rt_ok d -> rt_ok d'.
Proof. induction 1; eauto using rt_step_ok. Qed.
End Spec.
