(* ===== verification/RuntimeSteps.v ===== *)
(** * Runtime allocations: the handlers refine the specification

    Every handler, whatever its result, takes only steps of [rt_step]. *)

From stdpp Require Import base list option gmap strings relations.
From Stdlib Require Import ZArith Lia.
From S2P Require Import Prelude RustText Bytes PgTx Intent Secrets Admission PolicyClock.
From S2P Require Import ExecutionTables Credentials RuntimeEvidence Runtime RuntimeSpec.

Local Open Scope string_scope.
Local Open Scope list_scope.

Section Steps.
Context (X : Externals) (st : RtState).

(** From well-formed tables, by steps of the specification. *)
Definition by_steps (d d' : RtDb) : Prop := rt_ok X d -> rtc (rt_step X) d d'.

#[export] Instance by_steps_preorder : PreOrder by_steps.
Proof.
  split; [intros d _; constructor|]. intros d1 d2 d3 H1 H2 Hok.
  etrans; [by apply H1|]. apply H2. by eapply rt_steps_ok; [apply H1|].
Qed.

Lemma one_step d d' : (rt_ok X d -> rt_step X d d') -> by_steps d d'.
Proof. intros H Hok. by apply rtc_once, H. Qed.

Lemma same_by_steps d d' : runtime_rows_same d d' -> by_steps d d'.
Proof. intros H. apply one_step. intros _. by apply rt_elsewhere. Qed.

Lemma keeps_policy_now : keeps by_steps (policy_now (st_m3 st)).
Proof.
  unfold policy_now, policy_time. keeps_step; [|keeps_step].
  do 3 keeps_step. destruct (policy_clock _); [|keeps_step].
  keeps_step; [|case_match; keeps_step].
  intros env w r w' Hm. unfold upsert_clock, tbind, get_db, put_db, tret, raise in Hm.
  apply same_by_steps. repeat case_match; simplify_eq; by split_and!.
Qed.

(** ** Intents *)

Lemma select_intent subject generation fence (d : RtDb) i :
  select_first (intent_key subject generation fence) any_order (eval_intents d) = Some i ->
  exists k, eval_intents d !! k = Some i
    /\ ei_subject i = subject /\ ei_generation i = generation /\ ei_fence i = fence.
Proof.
  intros (k & Hk & Hkey)%select_first_in. exists k. unfold intent_key in Hkey. bool_simpl. done.
Qed.

Lemma keeps_accept_intent subject generation fence job artifact s :
  keeps by_steps (accept_evaluation_intent subject generation fence job artifact s).
Proof.
  unfold accept_evaluation_intent. do 2 keeps_step. intros env w r w' Hm.
  unfold tbind at 1, get_db in Hm. destruct (select_first _ _ _) as [i|] eqn:Hsel.
  - apply select_intent in Hsel as (k & Hk & _). destruct (same_fixture _ _ _ _).
    + injection Hm as _ <-. apply one_step. intros Hok. cbn [db].
      rewrite (io_id _ (ro_intents _ _ Hok) k i Hk).
      eapply rt_intent_moves; [exact Hk|]. by eexists _, _.
    + by injection Hm as _ <-.
  - unfold tbind at 1, sql in Hm. destruct (insert_pk _ _ _ _) as [rows|] eqn:Hins; [|by injection Hm as _ <-].
    apply insert_pk_Some in Hins as (Hnone & _ & ->). injection Hm as _ <-.
    apply one_step. intros _. cbn [db]. apply (rt_new_intent X); [done|].
    intros k j Hj (E1 & E2 & E3). pose proof (select_first_none _ _ _ Hsel k j Hj) as Hf.
    unfold intent_key in Hf. cbn in E1, E2, E3.
    rewrite E1, E2, E3, bool_decide_eq_true_2, !Z.eqb_refl in Hf; done.
Qed.

Lemma alter_intent_step d k f :
  (forall i, intent_moves i (f i)) ->
  by_steps d (set_eval_intents (alter f k (eval_intents d)) d).
Proof.
  intros Hf. apply one_step. intros _. destruct (eval_intents d !! k) as [i|] eqn:Hi.
  - replace (alter f k (eval_intents d)) with (<[k := f i]> (eval_intents d)).
    + by eapply rt_intent_moves.
    + apply map_eq. intros k'. rewrite lookup_insert, lookup_alter. case_decide; [|done]. subst. by rewrite Hi.
  - apply rt_elsewhere. split_and!; try done. cbn. apply map_eq. intros k'. rewrite lookup_alter.
    case_decide; [|done]. subst. by rewrite Hi.
Qed.

Lemma intent_stays i : intent_moves i i.
Proof. exists (ei_state i), (ei_updated i). by destruct i. Qed.

Lemma keeps_issue_intent id : keeps by_steps (issue_evaluation_intent id).
Proof.
  unfold issue_evaluation_intent. keeps_step. intros env w r w' Hm.
  injection Hm as _ <-. apply alter_intent_step. intros i. case_match eqn:E; [|apply intent_stays].
  exists ICredentialIssued, a. split; [done|]. intros Hs. by rewrite Hs in E.
Qed.

Lemma keeps_probe_update (m : M RtDb unit) f :
  (forall env w, m env w = (Ok tt, MkWorld (set_probe_intents (f (db w)) (db w)) (ticks w) (drawn w))) ->
  keeps by_steps m.
Proof. intros Hrun env w r w' Hm. rewrite Hrun in Hm. injection Hm as _ <-. by apply same_by_steps. Qed.

Lemma keeps_issue_probe id : keeps by_steps (issue_probe_intent id).
Proof. eapply (keeps_probe_update _ (fun d => alter _ id (probe_intents d))). by intros. Qed.

Lemma keeps_accept_probe q intent s a : keeps by_steps (accept_probe_intent q intent s a).
Proof.
  unfold accept_probe_intent. keeps_step. intros env w r w' Hm. apply same_by_steps.
  unfold sql, tbind, get_db, put_db, tret, raise in Hm.
  repeat case_match; simplify_eq; by split_and!.
Qed.

Lemma resolve_evaluation_credential_steps q : keeps by_steps (resolve_evaluation_credential X st q).
Proof.
  unfold resolve_evaluation_credential. do 4 keeps_step.
  apply keeps_bind; [apply _|apply keeps_accept_intent|intros id]. do 2 keeps_step.
  apply keeps_bind; [apply _|apply keeps_issue_intent|intros _]. keeps_step.
Qed.

Lemma resolve_restore_probe_credential_steps q : keeps by_steps (resolve_restore_probe_credential X st q).
Proof.
  unfold resolve_restore_probe_credential. do 2 keeps_step.
  apply keeps_transaction; [apply _|]. apply (keeps_ok_all by_steps).
  do 2 keeps_step. apply keeps_bind; [apply _|apply keeps_accept_intent|intros id].
  apply keeps_bind; [apply _|apply keeps_accept_probe|intros probe]. do 2 keeps_step.
  apply keeps_bind; [apply _|apply keeps_issue_intent|intros _].
  apply keeps_bind; [apply _|apply keeps_issue_probe|intros _]. keeps_step.
Qed.

Lemma resolve_runtime_credential_steps a g f : keeps by_steps (resolve_runtime_credential_handler X st a g f).
Proof. unfold resolve_runtime_credential_handler. keeps_ro. Qed.

(** ** Evaluations *)

Lemma insert_evaluation_Ok e env (w w' : World RtDb) row :
  insert_evaluation X e env w = (Ok row, w') ->
  w' = w \/ evaluations (db w) !! ea_id e = None /\ evaluation_unique (evaluations (db w)) e = true
  /\ row = e
  /\ w' = MkWorld (set_evaluations (<[ea_id e := e]> (evaluations (db w))) (db w)) (ticks w) (drawn w).
Proof.
  unfold insert_evaluation. intros Hm. tx_inv Hm.
  destruct (select_first _ _ _); [by tx_inv Hm; left|].
  tx_inv Hm. match goal with E : insert_pk _ _ _ _ = _ |- _ => apply insert_pk_Some in E as (? & ? & ->) end.
  right. done.
Qed.

Lemma consume_intent_Ok intent env (w w' : World RtDb) u :
  consume_intent intent env w = (Ok u, w') ->
  exists t probes, db w' = set_probe_intents probes
    (set_eval_intents (alter (with_progress IConsumed t) intent (eval_intents (db w))) (db w)).
Proof. unfold consume_intent. intros Hm. tx_inv Hm. eauto. Qed.

Lemma evidence_intent_in subject generation fence oldest d k i :
  eval_intents d !! k = Some i -> evidence_intent subject generation fence oldest d k i = true ->
  ei_subject i = subject /\ ei_generation i = generation /\ ei_fence i = fence.
Proof. unfold evidence_intent, intent_key. intros _ H. bool_simpl. done. Qed.

Lemma intent_artifact_id x i ia : intent_artifact x i = Some ia -> ia_id ia = ei_id i.
Proof.
  unfold intent_artifact. intros H. simplify_option_eq. done.
Qed.

Lemma evaluation_step d d' i t e :
  eval_intents d !! ea_intent e = Some i ->
  ei_subject i = ea_subject e -> ei_generation i = ea_generation e -> ei_fence i = ea_fence e ->
  ea_policy e = runtime_policy_digest X ->
  (ea_result e = "passed" -> evaluation_passes (ea_facts e) = true) ->
  d' = d \/ evaluations d !! ea_id e = None /\ evaluation_unique (evaluations d) e = true
            /\ d' = set_evaluations (<[ea_id e := e]> (evaluations d)) d ->
  by_steps d (set_eval_intents (alter (with_progress IConsumed t) (ea_intent e) (eval_intents d')) d').
Proof.
  intros Hi E1 E2 E3 Hpol Hpass [->|(Hnone & Hu & ->)].
  - apply alter_intent_step. intros j. by exists IConsumed, t.
  - apply one_step. intros _. cbn [eval_intents set_evaluations].
    replace (alter _ _ _) with (<[ea_intent e := with_progress IConsumed t i]> (eval_intents d)).
    + by eapply rt_evaluate.
    + apply map_eq. intros k. rewrite lookup_insert, lookup_alter. case_decide; [|done]. subst. by rewrite Hi.
Qed.

Lemma register_evaluation_steps digest : keeps by_steps (register_evaluation X st digest).
Proof.
  unfold register_evaluation. apply keeps_bind; [apply _|apply keeps_policy_now|intros now].
  do 8 keeps_step. intros env w r w' Hm.
  apply tbind_Ok in Hm as (generation & w1 & [_ ->]%lift_Ok & Hm).
  apply tbind_Ok in Hm as (fence & w2 & [_ ->]%lift_Ok & Hm).
  apply tbind_Ok in Hm as (d & w3 & [-> ->]%get_db_Ok & Hm).
  apply tbind_Ok in Hm as (ia & w4 & [Hia ->]%lift_Ok & Hm).
  do 3 (apply tbind_Ok in Hm as (? & ? & [_ ->]%reject_if_Ok & Hm)).
  apply tbind_Ok in Hm as (created & w5 & [-> ->]%clock_Ok & Hm).
  apply tbind_Ok in Hm as (row & w6 & Hins & Hm).
  apply tbind_Ok in Hm as (? & w7 & Hcons & [_ ->]%tret_Ok).
  apply insert_evaluation_Ok in Hins. apply consume_intent_Ok in Hcons as (t & probes & Hdb).
  unfold ok_or in Hia. destruct (select_first _ _ _ ≫= _) as [ia'|] eqn:Hsel; [|done].
  injection Hia as ->. apply bind_Some in Hsel as (i & Hsel & Hart).
  apply intent_artifact_id in Hart. apply select_first_in in Hsel as (k & Hk & Hkey).
  pose proof (evidence_intent_in _ _ _ _ _ _ _ Hk Hkey) as (E1 & E2 & E3).
  intros Hok. pose proof (io_id _ (ro_intents _ _ Hok) k i Hk) as Hid.
  rewrite Hart, Hid in *. rewrite Hdb. cbn [db] in *.
  etrans; [|apply rtc_once, (rt_elsewhere X (set_eval_intents (alter (with_progress IConsumed t) k
    (eval_intents (db w6))) (db w6))); by split_and!].
  match type of Hins with context [evaluations _ !! ea_id ?e] =>
    apply (evaluation_step (db w) (db w6) i t e); [exact Hk|done..| | |done] end.
  - cbn. destruct (evaluation_passes _); [done|]. done.
  - destruct Hins as [->|(? & ? & _ & ->)]; [by left|by right].
Qed.

(** ** Allocations *)

Lemma built_artifact_Some x job artifact b :
  built_artifact x job artifact = Some b ->
  build_jobs x !! job = Some (ba_job b) /\ build_artifacts x !! artifact = Some (ba_artifact b)
  /\ at_kind (ba_artifact b) = ApplicationArtifact.
Proof.
  unfold built_artifact, where_. intros H. simplify_option_eq. bool_simpl. done.
Qed.

Lemma allocation_candidate_Some x job artifact c :
  allocation_candidate x job artifact = Some c -> built_artifact x job artifact = Some (ac_built c).
Proof. unfold allocation_candidate. intros H. by simplify_option_eq. Qed.

Lemma runtime_profile_framework p profile :
  runtime_profile p = Ok profile -> pf_framework p = "node_http" \/ pf_framework p = "nextjs16_standalone".
Proof. unfold runtime_profile. repeat case_bool_decide; auto. done. Qed.

Lemma artifact_argv_Ok framework value argv :
  artifact_argv framework value = Ok argv -> artifact_argv framework (Some argv) = Ok argv.
Proof.
  unfold artifact_argv. intros (v & Hv & H)%res_bind_Ok. apply res_bind_Ok in H as (expected & He & H).
  apply res_bind_Ok in H as (u & Hg & [= ->]). cbn [ok_or res_bind]. rewrite He. cbn [res_bind].
  by rewrite Hg.
Qed.

Lemma current_evaluation_backs d k e now :
  evaluations_ok X d -> evaluations d !! k = Some e -> evaluation_current X now e = true ->
  ea_result e = "passed" /\ evaluation_passes (ea_facts e) = true /\ ea_policy e = runtime_policy_digest X.
Proof.
  intros Hok Hk Hc. unfold evaluation_current in Hc. bool_simpl.
  split_and!; [done|by eapply eo_passed|done].
Qed.

Lemma create_allocation_steps q : keeps by_steps (create_allocation X st q).
Proof.
  unfold create_allocation. keeps_step. apply keeps_bind; [apply _|apply keeps_policy_now|intros now].
  keeps_step. intros env w r w' Hm.
  apply tbind_Ok in Hm as (d & w1 & [-> ->]%get_db_Ok & Hm).
  apply tbind_Ok in Hm as (c & w2 & [Hc ->]%lift_Ok & Hm).
  apply tbind_Ok in Hm as (? & w3 & [_ ->]%reject_if_Ok & Hm).
  apply tbind_Ok in Hm as (e & w4 & [He ->]%lift_Ok & Hm).
  apply tbind_Ok in Hm as (? & w5 & [Hcur ->]%reject_if_Ok & Hm).
  apply tbind_Ok in Hm as (p & w6 & [Hp ->]%lift_Ok & Hm).
  apply tbind_Ok in Hm as (profile & w7 & [Hprof ->]%lift_Ok & Hm).
  apply tbind_Ok in Hm as (argv & w8 & [Hargv ->]%lift_Ok & Hm).
  apply tbind_Ok in Hm as (path & w9 & [_ ->]%lift_Ok & Hm).
  apply tbind_Ok in Hm as (? & w10 & [Hpath ->]%reject_if_Ok & Hm).
  destruct (select_first _ _ _); [by apply tret_Ok in Hm as [_ ->]|].
  apply tbind_Ok in Hm as (generation & w11 & [Hgen ->]%sql_Ok & Hm).
  apply tbind_Ok in Hm as (fence & w12 & [Hfence ->]%sql_Ok & Hm).
  apply tbind_Ok in Hm as (id & w13 & [-> ->]%new_uuid_Ok & Hm).
  apply tbind_Ok in Hm as (rows & w14 & [Hins ->]%sql_Ok & Hm).
  apply tbind_Ok in Hm as (? & w15 & ->%put_db_Ok & [_ ->]%tret_Ok). cbn [db].
  apply insert_pk_Some in Hins as (Hnone & Hchk & ->). apply andb_true_iff in Hchk as [_ Huniq].
  unfold ok_or in He, Hp. destruct (evaluations (db w) !! _) as [e'|] eqn:Hek; [|done].
  injection He as ->. destruct (List.find _ _) as [p'|] eqn:Hfind; [|done]. injection Hp as ->.
  apply List.find_some in Hfind as [Hin Hmatch]. apply list_elem_of_In in Hin.
  apply negb_false_iff in Hcur, Hpath. apply one_step. intros [_ Hev _ _].
  pose proof (eo_id _ _ Hev _ _ Hek) as Hid.
  pose proof (current_evaluation_backs _ _ _ _ Hev Hek Hcur) as (Hpass & Hcrit & Hpol).
  assert (Hsucc : forall v n, bigint_succ v = Some n -> n = (v + 1)%Z).
  { intros v n. unfold bigint_succ. case_match; [by intros [= <-]|done]. }
  apply Hsucc in Hgen, Hfence. unfold pattern_matches in Hmatch. bool_simpl.
  match goal with |- rt_step _ _ (set_allocations (<[_ := ?a]> _) _) =>
    apply (rt_allocate X (db w) a e) end; cbn; try done; [by rewrite Hid|].
  split; cbn; try done. exists p. split; [done|]. split; cbn; try done.
  match goal with E : pf_framework p = _ |- _ => rewrite E end. by eapply artifact_argv_Ok.
Qed.

(** ** Observations *)

Lemma observes_allocation_true q r a :
  observes_allocation q r a = true ->
  rx_allocation r = al_id a /\ rx_generation r = al_generation a /\ rx_fence r = al_fence a
  /\ rx_artifact r = al_archive a /\ rx_binary r = al_binary a
  /\ rx_capability r = Some (al_capability a).
Proof. unfold observes_allocation. intros H. bool_simpl. done. Qed.

Lemma record_inserted_Ok o env (w w' : World RtDb) row :
  insert_observation X o env w = (Ok row, w') ->
  (row = None /\ w' = w) \/
  (row = Some o /\ rt_observations (db w) !! rb_id o = None
   /\ observation_unique (rt_observations (db w)) o = true
   /\ (forall k p, rt_observations (db w) !! k = Some p -> rb_digest p <> rb_digest o)
   /\ w' = MkWorld (set_rt_observations (<[rb_id o := o]> (rt_observations (db w))) (db w)) (ticks w) (drawn w)).
Proof.
  unfold insert_observation. intros Hm.
  apply tbind_Ok in Hm as (d & w1 & [-> ->]%get_db_Ok & Hm).
  apply tbind_Ok in Hm as (? & w2 & [_ ->]%sql_Ok & Hm).
  destruct (exists_row _ _) eqn:Hx; [apply tret_Ok in Hm as [-> ->]; by left|].
  apply tbind_Ok in Hm as (rows & w3 & [Hins ->]%sql_Ok & Hm).
  apply tbind_Ok in Hm as (? & w4 & ->%put_db_Ok & [-> ->]%tret_Ok).
  apply insert_pk_Some in Hins as (? & ? & ->). right. split_and!; try done.
  intros k p Hp. pose proof (exists_row_false _ _ Hx k p Hp) as Hf. by apply bool_decide_eq_false in Hf.
Qed.

Lemma update_allocation_Ok id state reason env (w w' : World RtDb) u a :
  allocations (db w) !! id = Some a ->
  update_allocation X id state reason env w = (Ok u, w') ->
  w' = MkWorld (set_allocations (<[id := with_observation state reason a]> (allocations (db w))) (db w))
         (ticks w) (drawn w).
Proof.
  intros Ha. unfold update_allocation. intros Hm.
  apply tbind_Ok in Hm as (d & w1 & [-> ->]%get_db_Ok & Hm).
  apply tbind_Ok in Hm as (rows & w2 & [Hup ->]%sql_Ok & ->%put_db_Ok). destruct rows as [t n].
  apply update_pk_Some in Hup as [(_ & _ & Hc)|(_ & a1 & a2 & Ha1 & _ & [= <-] & _ & ->)].
  - by specialize (Hc a Ha).
  - cbn. by assert (a1 = a) as -> by congruence.
Qed.

Lemma record_observation_steps q : keeps by_steps (record_observation X st q).
Proof.
  unfold record_observation. do 7 keeps_step. keeps_step. intros env w r w' Hm.
  apply tbind_Ok in Hm as (d & w1 & [-> ->]%get_db_Ok & Hm).
  apply tbind_Ok in Hm as (a' & w2 & [Ha ->]%lift_Ok & Hm).
  apply tbind_Ok in Hm as (? & w3 & [Hobs ->]%reject_if_Ok & Hm).
  destruct (select_first _ _ _).
  { by apply tbind_Ok in Hm as (? & w4 & [_ ->]%reject_if_Ok & [_ ->]%tret_Ok). }
  apply tbind_Ok in Hm as (? & w4 & [Hstate ->]%lift_Ok & Hm).
  apply tbind_Ok in Hm as (? & w5 & [Htr ->]%reject_if_Ok & Hm).
  apply tbind_Ok in Hm as (sequence & w6 & [Hseq ->]%sql_Ok & Hm).
  apply tbind_Ok in Hm as (id & w7 & [-> ->]%new_uuid_Ok & Hm).
  apply tbind_Ok in Hm as (row & w8 & Hins & Hm).
  apply record_inserted_Ok in Hins as [(-> & ->)|(-> & Hnone & Huniq & Hdig & ->)].
  { by apply tbind_Ok in Hm as (? & w9 & [_ ->]%lift_Ok & [_ ->]%tret_Ok). }
  apply tbind_Ok in Hm as (? & w9 & Hup & [_ ->]%tret_Ok). cbn [db ticks drawn] in *.
  unfold ok_or in Ha. destruct (allocations (db w) !! _) as [al|] eqn:Hak; [|done]. injection Ha as ->.
  intros Hok. pose proof (ao_id _ _ (ro_allocations _ _ Hok) _ _ Hak) as Hid.
  rewrite Hid in *. eapply update_allocation_Ok in Hup as ->; [|exact Hak]. cbn [db].
  apply negb_false_iff in Hobs, Htr. apply observes_allocation_true in Hobs as (? & ? & ? & ? & ? & ?).
  unfold validate_state_receipt in Hstate. rewrite guard_err_Ok, negb_false_iff in Hstate.
  match goal with Hv : validate_executor_receipt _ = Ok _ |- _ =>
    unfold validate_executor_receipt in Hv; rewrite guard_err_Ok in Hv end.
  apply rtc_once.
  match type of Hdig with forall k p, _ -> rb_digest p <> rb_digest ?o =>
    apply (rt_observe X (db w) a' o) end; cbn; try done.
  unfold bigint_succ in Hseq. case_match; [|done]. injection Hseq as <-. done.
Qed.

(** ** Reads *)

Lemma get_compatibility_steps : keeps by_steps (get_compatibility st).
Proof.
  unfold get_compatibility. apply keeps_bind; [apply _|apply keeps_policy_now|intros now].
  do 2 keeps_step.
Qed.

Lemma get_owner_observations_steps caller project :
  keeps by_steps (get_owner_observations X st caller project).
Proof. unfold get_owner_observations. keeps_ro. Qed.
End Steps.
