(* ===== verification/RuntimeTheorems.v ===== *)
(** * Properties of runtime allocations

    Executions are sequences of requests; the statements of the evaluation
    credential, which are transactions of their own, also occur alone, and other
    components change what the runtime tables refer to. *)

From stdpp Require Import base list option gmap strings relations sorting.
From Stdlib Require Import ZArith Lia Ascii.
From S2P Require Import Prelude RustText Bytes PgTx Intent Secrets Admission PolicyClock.
From S2P Require Import ExecutionTables Credentials RuntimeEvidence Runtime RuntimeSpec RuntimeSteps.

Local Open Scope string_scope.
Local Open Scope list_scope.

(** ** Executions *)

Section Executions.
Context (X : Externals) (st : RtState).

Inductive rt_api : World RtDb -> World RtDb -> Prop :=
| rt_evaluation_credential q env w r w' :
    resolve_evaluation_credential X st q env w = (r, w') -> rt_api w w'
| rt_accept subject generation fence job artifact s env w r w' :
    accept_evaluation_intent subject generation fence job artifact s env w = (r, w') -> rt_api w w'
| rt_issue id env w r w' : issue_evaluation_intent id env w = (r, w') -> rt_api w w'
| rt_probe_credential q env w r w' :
    resolve_restore_probe_credential X st q env w = (r, w') -> rt_api w w'
| rt_credential allocation generation fence env w r w' :
    resolve_runtime_credential_handler X st allocation generation fence env w = (r, w') -> rt_api w w'
| rt_register digest env w r w' : register_evaluation X st digest env w = (r, w') -> rt_api w w'
| rt_create q env w r w' : create_allocation X st q env w = (r, w') -> rt_api w w'
| rt_record q env w r w' : record_observation X st q env w = (r, w') -> rt_api w w'
| rt_compatibility env w r w' : get_compatibility st env w = (r, w') -> rt_api w w'
| rt_owner caller project env w r w' :
    get_owner_observations X st caller project env w = (r, w') -> rt_api w w'
| rt_others w w' : runtime_rows_same (db w) (db w') -> rt_api w w'.

Lemma rt_api_steps w w' : rt_api w w' -> by_steps X (db w) (db w').
Proof.
  destruct 1 as [q|subject generation fence job artifact s|id|q|al generation fence|digest|q|q| |caller project|].
  - by eapply resolve_evaluation_credential_steps.
  - by eapply keeps_accept_intent.
  - by eapply keeps_issue_intent.
  - by eapply resolve_restore_probe_credential_steps.
  - by eapply resolve_runtime_credential_steps.
  - by eapply register_evaluation_steps.
  - by eapply create_allocation_steps.
  - by eapply record_observation_steps.
  - by eapply get_compatibility_steps.
  - by eapply get_owner_observations_steps.
  - by apply same_by_steps.
Qed.

Lemma rt_apis_steps w w' : rtc rt_api w w' -> by_steps X (db w) (db w').
Proof. induction 1; [done|]. etrans; [by apply rt_api_steps|done]. Qed.

(** No runtime row yet. *)
Definition rt_fresh (d : RtDb) : Prop :=
  eval_intents d = ∅ /\ evaluations d = ∅ /\ allocations d = ∅ /\ rt_observations d = ∅.

Lemma fresh_ok d : rt_fresh d -> rt_ok X d.
Proof.
  intros (Ei & Ee & Ea & Eo). split; split; rewrite ?Ei, ?Ee, ?Ea, ?Eo; intros *; by rewrite lookup_empty.
Qed.

Lemma reachable_ok w w' : rt_fresh (db w) -> rtc rt_api w w' -> rt_ok X (db w').
Proof.
  intros Hf Hr. apply fresh_ok in Hf. eapply rt_steps_ok; [|exact Hf]. by apply rt_apis_steps.
Qed.

(** ** History *)

Record rt_history (d d' : RtDb) : Prop := {
  hi_evaluations : forall k e, evaluations d !! k = Some e -> evaluations d' !! k = Some e;
  hi_allocations : forall k a, allocations d !! k = Some a ->
    exists a', allocations d' !! k = Some a' /\ (a' = a \/ same_allocation a a');
  hi_observations : forall k o, rt_observations d !! k = Some o -> rt_observations d' !! k = Some o;
}.

Lemma same_allocation_trans a b c :
  a = b \/ same_allocation b a -> a = c \/ same_allocation a c -> c = b \/ same_allocation b c.
Proof.
  intros [->|(s & r & ->)]; [by intros [->|?]; auto|].
  intros [<-|(s' & r' & ->)]; right; by eexists _, _.
Qed.

#[export] Instance rt_history_preorder : PreOrder rt_history.
Proof.
  split.
  - intros d. split; eauto.
  - intros d1 d2 d3 [He Ha Ho] [He' Ha' Ho']. split; eauto. intros k a Hk.
    destruct (Ha k a Hk) as (b & Hb & Hab). destruct (Ha' k b Hb) as (c & Hc & Hbc). exists c.
    split; [done|]. apply (same_allocation_trans b); naive_solver.
Qed.

Lemma rt_step_history d d' : rt_step X d d' -> rt_history d d'.
Proof.
  assert (Hkeep : forall (R : Type) (t : gmap Uuid R) k r k' r', t !! k = None -> t !! k' = Some r' ->
    <[k := r]> t !! k' = Some r').
  { intros R t k r k' r' Hn Hk. rewrite lookup_insert_ne; [done|]. intros ->. congruence. }
  destruct 1 as [d d' (Ei & Ee & Ea & Eo)| | | | |]; split;
    cbn [evaluations allocations rt_observations set_eval_intents set_evaluations set_allocations
         set_rt_observations]; rewrite ?Ee, ?Ea, ?Eo; eauto.
  - intros k b Hk. rewrite lookup_insert. case_decide; [|eauto]. subst k.
    eexists. split; [done|]. right. exists (rb_state o), (rb_reason o). congruence.
Qed.

Lemma rt_steps_history d d' : rtc (rt_step X) d d' -> rt_history d d'.
Proof. induction 1; [done|]. etrans; [by apply rt_step_history|done]. Qed.

Lemma rt_apis_history w w' : rt_ok X (db w) -> rtc rt_api w w' -> rt_history (db w) (db w').
Proof. intros Hok Hr. apply rt_steps_history. by apply rt_apis_steps. Qed.
End Executions.

(** ** The lifecycle of an allocation *)

(** The observations lead from one state to another, each by an allowed transition. *)
Fixpoint lifecycle_path (from : string) (l : list RtObservation) (to : string) : Prop :=
  match l with
  | [] => from = to
  | o :: l' => transition_allowed from (rb_state o) = true /\ lifecycle_path (rb_state o) l' to
  end.

Lemma lifecycle_path_snoc from l mid o :
  lifecycle_path from l mid -> transition_allowed mid (rb_state o) = true ->
  lifecycle_path from (l ++ [o]) (rb_state o).
Proof. revert from. induction l as [|p l IH]; intros from; cbn; [by intros ->|]. intros [? ?]. auto. Qed.

(** The observations of an allocation, in order. *)
Record observations_of (d : RtDb) (k : Uuid) (l : list RtObservation) : Prop := {
  of_sequence : forall i o, l !! i = Some o -> rb_sequence o = Z.of_nat (S i);
  of_table : forall o, o ∈ l <-> rt_observations d !! rb_id o = Some o /\ rb_allocation o = k;
}.

Section Lifecycle.
Context (X : Externals) (d : RtDb) (k : Uuid) (a : Allocation).
Hypothesis Hok : rt_ok X d.
Hypothesis Hk : allocations d !! k = Some a.

(** Every sequence number up to the last is taken. *)
Lemma sequence_taken (m : nat) :
  (Z.of_nat m < last_sequence d k)%Z ->
  exists o, rt_observations d !! rb_id o = Some o /\ rb_allocation o = k
    /\ rb_sequence o = (last_sequence d k - Z.of_nat m)%Z.
Proof.
  destruct Hok as [_ _ _ [Oid _ _ _ Obef _ _]].
  induction m as [|m IH]; intros Hm.
  - destruct (max_of_attained (of_allocation k) rb_sequence (rt_observations d)) as (k' & o & Ho & Hko & E).
    { unfold last_sequence in Hm. lia. }
    exists o. rewrite (Oid _ _ Ho). apply bool_decide_eq_true in Hko.
    split_and!; [done|done|unfold last_sequence; lia].
  - destruct IH as (o & Ho & Hko & Hs); [lia|].
    destruct (Obef _ _ Ho) as (k' & p & Hp & Hpa & Hps & _); [lia|].
    exists p. rewrite (Oid _ _ Hp). split_and!; [done|congruence|lia].
Qed.

Lemma lifecycle_prefix (n : nat) :
  (Z.of_nat n <= last_sequence d k)%Z ->
  exists l, length l = n
    /\ (forall i o, l !! i = Some o ->
          rt_observations d !! rb_id o = Some o /\ rb_allocation o = k /\ rb_sequence o = Z.of_nat (S i))
    /\ lifecycle_path "allocated" l (default "allocated" (rb_state <$> last l)).
Proof.
  destruct Hok as [_ _ _ [Oid _ _ Ofirst Obef Oun _]].
  induction n as [|n IH]; intros Hn; [by exists []|].
  destruct IH as (l & Hlen & Hl & Hpath); [lia|].
  destruct (sequence_taken (Z.to_nat (last_sequence d k - Z.of_nat (S n)))) as (o & Ho & Hoa & Hos); [lia|].
  assert (Hseq : rb_sequence o = Z.of_nat (S n)) by lia. clear Hos.
  exists (l ++ [o]). split_and!.
  - rewrite length_app. cbn. lia.
  - intros i p Hp. apply lookup_app_Some in Hp as [Hp|[Hi Hp]]; [by apply Hl|].
    apply list_lookup_singleton_Some in Hp as [Hi0 <-].
    assert (i = n) as -> by lia. done.
  - rewrite last_snoc. cbn. apply (lifecycle_path_snoc _ _ _ _ Hpath).
    destruct n as [|n].
    + destruct l; [|done]. cbn. by eapply Ofirst.
    + destruct (Obef _ _ Ho) as (k' & p & Hp & Hpa & Hps & Htr); [lia|].
      rewrite last_lookup, Hlen. cbn [Nat.pred].
      destruct (lookup_lt_is_Some_2 l n) as [q Hq]; [lia|]. rewrite Hq. cbn.
      destruct (Hl n q Hq) as (Hqt & Hqa & Hqs).
      assert (p = q) as <-; [|done].
      assert (k' = rb_id q) as -> by (eapply Oun; [exact Hp|exact Hqt|left; split; [congruence|lia]]).
      congruence.
Qed.

Lemma lifecycle_exists :
  exists l, observations_of d k l /\ lifecycle_path "allocated" l (al_state a).
Proof.
  pose proof Hok as [_ _ _ [Oid _ Oseq _ _ Oun Ocur]].
  assert (H0 : (0 <= last_sequence d k)%Z) by apply max_of_nonneg.
  destruct (lifecycle_prefix (Z.to_nat (last_sequence d k))) as (l & Hlen & Hl & Hpath); [lia|].
  exists l. split; [split|].
  - intros i o Ho. by apply Hl.
  - intros o. split.
    + intros [i Hi]%list_elem_of_lookup. by destruct (Hl i o Hi) as (? & ? & _).
    + intros [Ho Hoa]. pose proof (Oseq _ _ Ho) as Hge.
      assert (Hle : (rb_sequence o <= last_sequence d k)%Z).
      { apply (max_of_le _ _ _ (rb_id o)); [done|]. by apply bool_decide_eq_true. }
      destruct (lookup_lt_is_Some_2 l (Z.to_nat (rb_sequence o - 1))) as [p Hp]; [lia|].
      destruct (Hl _ _ Hp) as (Hpt & Hpa & Hps). apply list_elem_of_lookup. eexists.
      assert (rb_id o = rb_id p) as E by (eapply Oun; [exact Ho|exact Hpt|left; split; [congruence|lia]]).
      rewrite E, Hpt in Ho. injection Ho as <-. exact Hp.
  - replace (al_state a) with (default "allocated" (rb_state <$> last l)); [done|].
    rewrite last_lookup, Hlen.
    destruct (Ocur k a Hk) as [(Hz & Hs)|(k' & o & Ho & Hoa & Hos & Hst)].
    + rewrite Hz in *. destruct l; [done|discriminate].
    + pose proof (Oseq _ _ Ho). destruct (lookup_lt_is_Some_2 l (Nat.pred (Z.to_nat (last_sequence d k)))) as [p Hp]; [lia|].
      rewrite Hp. cbn. destruct (Hl _ _ Hp) as (Hpt & Hpa & Hps).
      assert (k' = rb_id p) as -> by (eapply Oun; [exact Ho|exact Hpt|left; split; [congruence|lia]]).
      congruence.
Qed.

(** What an allocation that is cleaned has gone through. *)
Lemma cleaned_path from l :
  from <> "cleaned" -> lifecycle_path from l "cleaned" ->
  exists l1 o l2, l = l1 ++ o :: l2 /\ rb_state o = "cleaned" /\ lifecycle_path from l1 "stopped".
Proof.
  revert from. induction l as [|o l IH]; intros from Hne; [done|]. intros [Htr Hp].
  destruct (decide (rb_state o = "cleaned")) as [E|Hn].
  - exists [], o, l. split_and!; [done|done|]. cbn. unfold transition_allowed, one_of in Htr.
    apply bool_decide_eq_true in Htr. rewrite E in Htr.
    repeat (apply elem_of_cons in Htr as [Htr|Htr]; [by simplify_eq|]). by apply elem_of_nil in Htr.
  - destruct (IH _ Hn Hp) as (l1 & p & l2 & -> & Hs & Hl1). exists (o :: l1), p, l2. done.
Qed.
End Lifecycle.

(** ** Recording and repeating an observation *)

Section Recording.
Context (X : Externals) (st : RtState).

(** What the request and its receipt have passed before the tables are read. *)
Record receipt_accepted (q : RecordObservationRequest) (x : ExecutorReceipt) (observed : Z) : Prop := {
  rp_enabled : exists config, require_enabled (st_m3 st) = Ok config;
  rp_bytes : exists bs, read_cas_receipt X st (obq_digest q) = Ok bs /\ x_executor_receipt X bs = Some x;
  rp_valid : validate_executor_receipt x = Ok tt;
  rp_time : receipt_time (x_millis X) (rx_observed_ms (xr_receipt x)) = Ok observed;
}.

(** The observation that answers a request. *)
Record answers (q : RecordObservationRequest) (d : RtDb) (a : Allocation) (o : RtObservation) : Prop := {
  an_row : rt_observations d !! rb_id o = Some o;
  an_digest : rb_digest o = obq_digest q;
  an_allocation : rb_allocation o = al_id a;
  an_state : rb_state o = obq_state q;
  an_current : exists a', allocations d !! obq_allocation q = Some a' /\ (a' = a \/ same_allocation a a');
}.

Lemma answer_found q d a o :
  rt_ok X d -> allocations d !! obq_allocation q = Some a ->
  select_first (observation_of (obq_digest q) (al_id a)) any_order (rt_observations d) = Some o ->
  rb_state o = obq_state q -> answers q d a o.
Proof.
  intros [_ _ _ [Oid _ _ _ _ _ _]] Ha Hs Hst. apply select_first_in in Hs as (k & Ho & Hkey).
  unfold observation_of in Hkey. bool_simpl. rewrite <- (Oid _ _ Ho) in Ho. split; eauto.
Qed.

Lemma record_observation_Ok q env (w w' : World RtDb) ans :
  rt_ok X (db w) -> record_observation X st q env w = (Ok ans, w') ->
  exists x observed a o, receipt_accepted q x observed
    /\ (observed <= clock env (ticks w) + 5 * MINUTE)%Z
    /\ allocations (db w) !! obq_allocation q = Some a
    /\ observes_allocation q (xr_receipt x) a = true
    /\ answers q (db w') a o
    /\ (ans = Found (observation_response a o) \/ ans = Created (observation_response a o)).
Proof.
  intros Hok Hm. unfold record_observation in Hm.
  apply tbind_Ok in Hm as (config & w1 & [Hen ->]%lift_Ok & Hm).
  apply tbind_Ok in Hm as (bs & w2 & [Hbs ->]%lift_Ok & Hm).
  apply tbind_Ok in Hm as (x & w3 & [Hx ->]%lift_Ok & Hm).
  apply tbind_Ok in Hm as ([] & w4 & [Hv ->]%lift_Ok & Hm).
  apply tbind_Ok in Hm as (observed & w5 & [Ht ->]%lift_Ok & Hm).
  apply tbind_Ok in Hm as (now & w6 & [-> ->]%clock_Ok & Hm).
  apply tbind_Ok in Hm as (u & w7 & [Hnow ->]%reject_if_Ok & Hm). apply Z.ltb_ge in Hnow.
  unfold ok_or in Hx. destruct (x_executor_receipt X bs) as [x'|] eqn:Hparse; [|done]. injection Hx as ->.
  apply transaction_cases in Hm as [(e & He & _)|Hm]; [done|].
  apply tbind_Ok in Hm as (d & w8 & [-> ->]%get_db_Ok & Hm).
  apply tbind_Ok in Hm as (a & w9 & [Ha ->]%lift_Ok & Hm).
  apply tbind_Ok in Hm as (u2 & w10 & [Hobs ->]%reject_if_Ok & Hm). apply negb_false_iff in Hobs.
  cbn [db ticks drawn] in *. unfold ok_or in Ha.
  destruct (allocations (db w) !! _) as [a'|] eqn:Hak; [|done]. injection Ha as ->.
  exists x, observed, a.
  destruct (select_first _ _ _) as [o|] eqn:Hsel.
  { apply tbind_Ok in Hm as (u3 & w11 & [Hst ->]%reject_if_Ok & [[= ->] ->]%tret_Ok).
    apply negb_false_iff, bool_decide_eq_true in Hst. exists o.
    split_and!; [split; eauto|done|done|done|by apply answer_found|by left]. }
  apply tbind_Ok in Hm as (u3 & w11 & [_ ->]%lift_Ok & Hm).
  apply tbind_Ok in Hm as (u4 & w12 & [_ ->]%reject_if_Ok & Hm).
  apply tbind_Ok in Hm as (sequence & w13 & [_ ->]%sql_Ok & Hm).
  apply tbind_Ok in Hm as (id & w14 & [-> ->]%new_uuid_Ok & Hm).
  apply tbind_Ok in Hm as (row & w15 & Hins & Hm).
  apply record_inserted_Ok in Hins as [(-> & ->)|(-> & Hnone & Huniq & Hdig & ->)].
  { apply tbind_Ok in Hm as (row & w16 & [Hrow ->]%lift_Ok & Hm). done. }
  apply tbind_Ok in Hm as (u5 & w16 & Hup & [[= ->] ->]%tret_Ok). cbn [db ticks drawn] in *.
  pose proof (ao_id _ _ (ro_allocations _ _ Hok) _ _ Hak) as Hid.
  eapply update_allocation_Ok in Hup as ->; [|cbn; by rewrite Hid]. cbn [db].
  eexists. split_and!; [split; eauto|done|done|done| |by right].
  split; cbn; try done; [by rewrite lookup_insert_eq|]. rewrite Hid, lookup_insert_eq.
  eexists. split; [done|]. right. by eexists _, _.
Qed.

Lemma observes_same q r a a' :
  a' = a \/ same_allocation a a' -> observes_allocation q r a' = observes_allocation q r a.
Proof. by intros [->|(s & re & ->)]. Qed.

Lemma response_same a a' o :
  a' = a \/ same_allocation a a' -> observation_response a' o = observation_response a o.
Proof. by intros [->|(s & re & ->)]. Qed.

Lemma record_observation_again q x observed a o env (w : World RtDb) :
  rt_ok X (db w) -> receipt_accepted q x observed ->
  (observed <= clock env (ticks w) + 5 * MINUTE)%Z ->
  observes_allocation q (xr_receipt x) a = true -> answers q (db w) a o ->
  runs (record_observation X st q) env w (fun ans w' =>
    ans = Found (observation_response a o) /\ db w' = db w).
Proof.
  intros Hok [(config & Hen) (bs & Hbs & Hx) Hv Ht] Hnow Hobs [Hrow Hdig Hal Hst (a' & Ha' & Hsame)].
  assert (Hid : al_id a' = al_id a) by (by destruct Hsame as [->|(s & re & ->)]).
  destruct (select_first (observation_of (obq_digest q) (al_id a')) any_order (rt_observations (db w)))
    as [p|] eqn:Hsel.
  2: { pose proof (select_first_none _ _ _ Hsel _ _ Hrow) as Hf. unfold observation_of in Hf.
       rewrite Hdig, Hal, Hid, !bool_decide_eq_true_2 in Hf; done. }
  assert (p = o) as ->.
  { apply select_first_in in Hsel as (k & Hp & Hkey). unfold observation_of in Hkey. bool_simpl.
    assert (k = rb_id o) as -> by
      (eapply (oo_unique _ (ro_observations _ _ Hok)); [exact Hp|exact Hrow|right; congruence]).
    congruence. }
  unfold record_observation. apply runs_bind. eapply runs_lift; [exact Hen|].
  apply runs_bind. eapply runs_lift; [exact Hbs|].
  apply runs_bind. eapply runs_lift; [by rewrite Hx|].
  apply runs_bind. eapply runs_lift; [exact Hv|].
  apply runs_bind. eapply runs_lift; [exact Ht|].
  apply runs_bind. apply runs_clock. apply runs_bind.
  rewrite (proj2 (Z.ltb_ge _ _) Hnow). apply runs_ret. apply runs_transaction.
  apply runs_bind, runs_get_db. cbn [db]. apply runs_bind. eapply runs_lift; [by rewrite Ha'|].
  apply runs_bind. rewrite (observes_same _ _ _ _ Hsame), Hobs. apply runs_ret.
  rewrite Hsel. apply runs_bind. rewrite bool_decide_eq_true_2 by done. apply runs_ret, runs_ret.
  eexists. split; [done|]. by rewrite (response_same _ _ _ Hsame).
Qed.

(** A receipt whose reason the table does not know. *)
Lemma unknown_reason_not_inserted o env (w w' : World RtDb) r :
  one_of (rb_reason o) observation_reasons = false ->
  insert_observation X o env w = (r, w') -> r = Err database_unavailable /\ w' = w.
Proof.
  intros Hr. unfold insert_observation, tbind, get_db, sql, observation_check. rewrite Hr.
  rewrite !andb_false_r. cbn. by intros [= <- <-].
Qed.
End Recording.

(** ** Percentiles *)

Section Percentile.
Implicit Types (l : list Z) (r : Z).

Lemma list_filter_nil {A} (f : A -> bool) (l : list A) :
  (forall v, v ∈ l -> f v = false) -> List.filter f l = [].
Proof.
  induction l as [|v l IH]; intros H; [done|]. cbn. rewrite (H v) by set_solver.
  apply IH. intros u Hu. apply H. set_solver.
Qed.

Lemma sorted_split l i r :
  StronglySorted Z.le l -> l !! i = Some r ->
  (S i <= length (List.filter (fun v => (v <=? r)%Z) l))%nat
  /\ (length (List.filter (fun v => (v <? r)%Z) l) <= i)%nat.
Proof.
  revert i. induction l as [|v l IH]; intros i Hs Hi; [done|].
  apply StronglySorted_inv in Hs as [Hs Hv]. rewrite Forall_forall in Hv.
  destruct i as [|i]; cbn in Hi.
  - injection Hi as ->. cbn. rewrite Z.leb_refl, Z.ltb_irrefl. cbn. split; [lia|].
    replace (List.filter (fun v => (v <? r)%Z) l) with (@nil Z); [done|].
    symmetry. apply list_filter_nil. intros v Hin. apply Z.ltb_ge. by apply Hv.
  - destruct (IH i Hs Hi) as [H1 H2].
    assert (v <= r)%Z by (apply Hv, list_elem_of_lookup; eauto).
    cbn. rewrite (proj2 (Z.leb_le v r)) by done. destruct (v <? r)%Z; cbn; lia.
Qed.

Lemma filter_length_perm (f : Z -> bool) l l' :
  l ≡ₚ l' -> length (List.filter f l) = length (List.filter f l').
Proof.
  induction 1 as [|v l l' _ IH|v w l|l1 l2 l3 _ IH1 _ IH2]; cbn; [done| | |congruence].
  - destruct (f v); cbn; congruence.
  - by destruct (f v), (f w).
Qed.

Lemma percentile_index_spec n :
  (0 < n)%nat -> (percentile_index n < n)%nat
  /\ (95 * n <= 100 * S (percentile_index n))%nat /\ (100 * percentile_index n < 95 * n)%nat.
Proof.
  intros Hn. unfold percentile_index.
  pose proof (Nat.div_mod (n * 95 + 99) 100). pose proof (Nat.mod_upper_bound (n * 95 + 99) 100). lia.
Qed.
End Percentile.

(** ** Properties *)

(** C28: However requests follow one another, a runtime allocation rests on evidence: an
    evaluation that passed every criterion under the current policy, one of whose
    passing patterns has exactly the artifact, build profile and commit of the
    allocation, which takes its profile and command from it. *)
Theorem allocations_rest_on_passing_evidence X st w w' k a
    (Hfresh : rt_fresh (db w)) (Hrun : rtc (rt_api X st) w w')
    (Ha : allocations (db w') !! k = Some a) :
  exists e p, evaluations (db w') !! al_evaluation a = Some e
    /\ ea_result e = "passed" /\ evaluation_passes (ea_facts e) = true
    /\ ea_policy e = runtime_policy_digest X /\ al_capability a = ea_capability e
    /\ p ∈ ef_patterns (ea_facts e) /\ pattern_backs a p.
Proof.
  destruct (ao_backed _ _ (ro_allocations _ _ (reachable_ok X st w w' Hfresh Hrun)) k a Ha) as (e & He & Hb).
  destruct Hb as [? ? ? ? ? ? ? ? (p & Hp & Hpb)]. by exists e, p.
Qed.

(** C29: However requests follow one another, the observations of an allocation are
    numbered from one without gaps and lead by allowed transitions from [allocated]
    to its state, each backed by a receipt for its generation, fence and artifact;
    a cleaned allocation was stopped before, and a receipt proves that nothing of
    it is left. *)
Theorem allocations_follow_their_lifecycle X st w w' k a
    (Hfresh : rt_fresh (db w)) (Hrun : rtc (rt_api X st) w w')
    (Ha : allocations (db w') !! k = Some a) :
  exists l, observations_of (db w') k l /\ lifecycle_path "allocated" l (al_state a)
    /\ Forall (receipt_backs a) l
    /\ (al_state a = "cleaned" -> exists l1 o l2, l = l1 ++ o :: l2 /\ lifecycle_path "allocated" l1 "stopped"
          /\ is_some_and cleanup_complete (rx_cleanup (xr_receipt (rb_receipt o))) = true).
Proof.
  pose proof (reachable_ok X st w w' Hfresh Hrun) as Hok.
  destruct (lifecycle_exists X (db w') k a Hok Ha) as (l & Hl & Hpath).
  assert (Hback : Forall (receipt_backs a) l).
  { apply Forall_forall. intros o [Ho Hoa]%(of_table _ _ _ Hl).
    destruct (oo_backed _ (ro_observations _ _ Hok) _ _ Ho) as (b & Hb & Hr). congruence. }
  exists l. split_and!; [done..|]. intros Hc. rewrite Hc in Hpath.
  destruct (cleaned_path "allocated" l) as (l1 & o & l2 & -> & Ho & Hl1); [done..|].
  exists l1, o, l2. split_and!; [done..|].
  apply Forall_app in Hback as [_ [Hb _]%Forall_cons]. pose proof (rk_supports _ _ Hb) as Hs.
  rewrite Ho in Hs. change (state_supported "cleaned") with (fun r =>
    bool_decide (rx_operation r = "cleanup") && bool_decide (rx_status r = "cleaned")
    && bool_decide (rx_result r = "passed") && is_some_and cleanup_complete (rx_cleanup r)) in Hs.
  cbv beta in Hs. by apply andb_true_iff in Hs as [_ ?].
Qed.

(** A runtime credential is given only for the current generation and fence of a live
    allocation, and it is the active runtime credential of the tenant database of
    its reservation, which is not released. *)
Theorem runtime_credentials_only_for_live_allocations X st allocation generation fence env w w' c
    (Hres : resolve_runtime_credential_handler X st allocation generation fence env w = (Ok c, w')) :
  db w' = db w /\ exists id a t k r,
    x_parse_uuid X allocation = Some id /\ allocations (db w) !! id = Some a
    /\ al_generation a = generation /\ al_fence a = fence
    /\ al_state a ∈ ["allocated"; "running"; "healthy"; "backoff"]
    /\ tenant_databases (execution (db w)) !! dc_database k = Some t
    /\ td_account t = al_account a /\ td_project t = al_project a
    /\ dc_purpose k = RuntimePurpose /\ dc_status k = CActive /\ dc_id k = rr_credential c
    /\ x_reservations (execution (db w)) !! td_reservation t = Some r /\ rv_state r <> RReleased.
Proof.
  unfold resolve_runtime_credential_handler in Hres.
  apply tbind_Ok in Hres as (config & w1 & [_ ->]%lift_Ok & Hres).
  apply tbind_Ok in Hres as (id & w2 & [Hid ->]%lift_Ok & Hres).
  apply tbind_Ok in Hres as (? & w3 & [_ ->]%reject_if_Ok & Hres).
  apply tbind_Ok in Hres as (d & w4 & [-> ->]%get_db_Ok & Hres).
  destruct (allocations (db w) !! id) as [a|] eqn:Ha; [|by apply raise_Ok in Hres].
  destruct (_ && _) eqn:Hlive; [|by apply raise_Ok in Hres]. unfold one_of in Hlive. bool_simpl.
  apply lift_Ok in Hres as [Hres ->]. split; [done|].
  unfold resolve_scoped_runtime_credential, resolve_database_runtime_credential in Hres.
  apply res_bind_Ok in Hres as (t & _ & Hres). apply res_bind_Ok in Hres as (key & _ & Hres).
  apply res_bind_Ok in Hres as (c' & Hc & Hres). apply res_bind_Ok in Hres as (? & _ & [= <-]).
  unfold resolve_runtime_credential in Hc. destruct (select_first _ _ _) as [k|] eqn:Hsel; [|done].
  apply select_first_in in Hsel as (kk & _ & Hact). unfold active_runtime in Hact. bool_simpl.
  match goal with H : is_Some (credential_database _ _) |- _ => destruct H as [t' Ht'] end.
  rewrite Ht' in Hc. cbn [ok_or res_bind] in Hc.
  do 5 (apply res_bind_Ok in Hc as (? & _ & Hc)). injection Hc as <-.
  unfold credential_database, where_ in Ht'. simplify_option_eq. bool_simpl.
  match goal with Hr : x_reservations _ !! _ = Some ?r |- _ => exists id, a, t', k, r end.
  unfold path_uuid in Hid. destruct (x_parse_uuid X allocation); [|done]. injection Hid as ->.
  split_and!; done || congruence.
Qed.

(** An observation is recorded once: when a request that was answered is repeated,
    whatever happened in between, it gets the same answer as one already found, and
    nothing changes. *)
Theorem observations_are_recorded_once X st q env env' w w1 w2 ans r w3
    (Hok : rt_ok X (db w)) (Hfirst : record_observation X st q env w = (Ok ans, w1))
    (Hbetween : rtc (rt_api X st) w1 w2)
    (Hclock : (clock env (ticks w) <= clock env' (ticks w2))%Z)
    (Hagain : record_observation X st q env' w2 = (r, w3)) :
  db w3 = db w2 /\ exists response, r = Ok (Found response)
    /\ (ans = Created response \/ ans = Found response).
Proof.
  assert (Hok1 : rt_ok X (db w1)).
  { eapply rt_steps_ok; [|exact Hok]. by eapply record_observation_steps. }
  pose proof (rt_apis_history X st w1 w2 Hok1 Hbetween) as Hh.
  assert (Hok2 : rt_ok X (db w2)) by (exact (rt_steps_ok X _ _ (rt_apis_steps X st w1 w2 Hbetween Hok1) Hok1)).
  destruct (record_observation_Ok X st q env w w1 ans Hok Hfirst)
    as (x & observed & a & o & Hacc & Hnow & Ha & Hobs & [Hrow Hd Hal Hst (a' & Ha' & Hs)] & Hans).
  destruct (hi_allocations _ _ Hh _ _ Ha') as (b & Hb & Hsb).
  destruct (record_observation_again X st q x observed a o env' w2) as (ans2 & w' & Hrun & -> & Hdb);
    [done|done|lia|done| |].
  - split; [by apply (hi_observations _ _ Hh)|done..|]. exists b. split; [done|].
    apply (same_allocation_trans a' a b); [done|naive_solver].
  - rewrite Hrun in Hagain. injection Hagain as <- <-. split; [done|]. eexists. split; [done|].
    destruct Hans as [->| ->]; auto.
Qed.

(** A receipt that reports an incomplete cleanup is never recorded, although the
    checks of receipts accept its reason: the table of observations refuses it. *)
Theorem incomplete_cleanups_are_never_recorded X st q env w r w' bs x
    (Hbytes : read_cas_receipt X st (obq_digest q) = Ok bs)
    (Hparse : x_executor_receipt X bs = Some x)
    (Hreason : rx_reason (xr_receipt x) = "runtime_cleanup_incomplete")
    (Hrun : record_observation X st q env w = (r, w')) :
  db w' = db w /\ forall response, r <> Ok (Created response).
Proof.
  unfold record_observation in Hrun.
  apply lift_cases in Hrun as [(e & _ & -> & ->)|(config & _ & Hrun)]; [done|].
  apply lift_cases in Hrun as [(e & _ & -> & ->)|(bs' & Hbs & Hrun)]; [done|].
  assert (bs' = bs) as -> by congruence. rewrite Hparse in Hrun.
  apply lift_cases in Hrun as [(e & [=] & _)|(x' & [= <-] & Hrun)].
  apply lift_cases in Hrun as [(e & _ & -> & ->)|([] & _ & Hrun)]; [done|].
  apply lift_cases in Hrun as [(e & _ & -> & ->)|(observed & _ & Hrun)]; [done|].
  rewrite (tbind_run _ _ _ _ _ _ eq_refl) in Hrun. cbn [fst snd] in Hrun.
  unfold tbind at 1, reject_if in Hrun.
  destruct (_ <? observed)%Z; [by injection Hrun as <- <-|]. cbn [tret] in Hrun.
  apply transaction_cases in Hrun as [(e & -> & Hdb)|Hm]; [by rewrite Hdb|].
  apply tbind_Ok in Hm as (d & w8 & [-> ->]%get_db_Ok & Hm).
  apply tbind_Ok in Hm as (a & w9 & [_ ->]%lift_Ok & Hm).
  apply tbind_Ok in Hm as (? & w10 & [_ ->]%reject_if_Ok & Hm).
  destruct (select_first _ _ _) as [o|].
  { by apply tbind_Ok in Hm as (? & w11 & [_ ->]%reject_if_Ok & [-> ->]%tret_Ok). }
  apply tbind_Ok in Hm as (? & w11 & [_ ->]%lift_Ok & Hm).
  apply tbind_Ok in Hm as (? & w12 & [_ ->]%reject_if_Ok & Hm).
  apply tbind_Ok in Hm as (sequence & w13 & [_ ->]%sql_Ok & Hm).
  apply tbind_Ok in Hm as (id & w14 & [_ ->]%new_uuid_Ok & Hm).
  apply tbind_Ok in Hm as (row & w15 & Hins & _).
  apply unknown_reason_not_inserted in Hins as [[=] _]. cbn. by rewrite Hreason.
Qed.

(** The 95th percentile that an evaluation is checked against is the exact one: a
    sample that at least 95 in 100 samples do not exceed, and fewer lie below. *)
Theorem percentile_95_is_exact values (Hsome : values <> []) :
  exists r, percentile_95_u32 values = Some r /\ r ∈ values
    /\ (95 * length values <= 100 * length (List.filter (fun v => (v <=? r)%Z) values))%nat
    /\ (100 * length (List.filter (fun v => (v <? r)%Z) values) < 95 * length values)%nat.
Proof.
  assert (Hn : (0 < length values)%nat) by (destruct values; [done|cbn; lia]).
  pose proof (percentile_index_spec _ Hn) as (Hlt & Hge & Hbelow).
  pose proof (merge_sort_Permutation Z.le values) as Hperm.
  destruct (lookup_lt_is_Some_2 (merge_sort Z.le values) (percentile_index (length values))) as [r Hr].
  { by rewrite (Permutation_length Hperm). }
  exists r. split_and!.
  - unfold percentile_95_u32. by destruct values.
  - rewrite <- Hperm. apply list_elem_of_lookup. eauto.
  - destruct (sorted_split _ _ _ (StronglySorted_merge_sort Z.le values) Hr) as [H _].
    rewrite (filter_length_perm _ _ _ Hperm) in H. lia.
  - destruct (sorted_split _ _ _ (StronglySorted_merge_sort Z.le values) Hr) as [_ H].
    rewrite (filter_length_perm _ _ _ Hperm) in H. lia.
Qed.

(** ** A fixture from its evaluation to its cleanup *)

Module RuntimeDemo.

Definition text (c : Z) (n : nat) : string := to_text (replicate n c).
Definition zeros : string := "sha256:" +:+ text 48 64.
(** The file that holds the byte [n], and its digest. *)
Definition file_digest (n : Z) : string := "sha256:" +:+ to_text (hex_encode (replicate 32 n)).
Definition sum_digest (bs : bytes) : bytes := replicate 32 (fold_right Z.add 0 bs mod 256)%Z.
Definition evidence (hex : bytes) : option EvidenceFile :=
  match decode_hex hex with
  | n :: _ => Some {| fl_regular := true; fl_length := 1; fl_private := true; fl_canonical := true;
                      fl_same := true; fl_bytes := [n] |}
  | [] => None
  end.

(** Identifiers are written in unary. *)
Definition unary (n : Uuid) : string := text 97 (N.to_nat n).

Definition externals (ev : bytes -> option EvaluationReceipt) (ex : bytes -> option ExecutorReceipt)
    : Externals :=
  {| x_aead := fun _ _ _ sealed _ => Some sealed; x_sha256 := sum_digest;
     x_parse_uuid := fun s => Some (N.of_nat (String.length s)); x_uuid_text := unary;
     x_uuid_simple := unary; x_base64 := fun bs => Some bs; x_millis := fun ms => Some (ms * 1000)%Z;
     x_credential := fun bs => Some (unary 12, unary 13, bs);
     x_evaluation_receipt := ev; x_executor_receipt := ex; x_facts_fit := fun _ => true;
     x_argv_fit := fun _ => true; x_receipt_fit := fun _ => true; x_evidence := evidence |}.

Definition st : RtState :=
  {| st_m3 := Some {| policy_clock := None; worker_hashes := [] |};
     st_key := Some {| key_bytes := [1%Z]; key_version := "v1" |} |}.

(** *** Two builds of account 1's project 2 *)
Definition job (id : Uuid) (input : string) : BuildJob := {|
  bj_id := id; bj_account := 1; bj_project := 2; bj_deployment := 4; bj_reservation := 5; bj_epoch := 6;
  bj_proof := 7; bj_source := 8; bj_compatibility := 9; bj_config := 10; bj_commit := text 97 40;
  bj_tree := text 97 40; bj_profile := "m3-owned-node24-v1"; bj_profile_digest := zeros;
  bj_materialization := Some 24%N; bj_bundle := Some zeros; bj_tree_manifest := Some zeros;
  bj_input_digest := input;
  bj_state := BSucceeded; bj_revision := 1; bj_attempts := 1; bj_current := None; bj_fence := 1;
  bj_lease := None; bj_code := None; bj_cleanup := Confirmed; bj_created := 0 |}.
Definition artifact (id job service : Uuid) : Artifact := {|
  at_id := id; at_account := 1; at_project := 2; at_job := job; at_attempt := 14; at_fence := 1;
  at_service := service; at_kind := ApplicationArtifact; at_archive := zeros; at_manifest := zeros;
  at_packed := 1; at_unpacked := 1; at_entries := 1; at_argv := Some ["node"; "dist/server.mjs"] |}.
Definition service (major : Z) : BuildService := {|
  bs_ordinal := 0; bs_kind := ApplicationService; bs_root := None; bs_node_major := major;
  bs_framework := "node_http"; bs_lockfile := "package-lock.json"; bs_build_command := "npm run build";
  bs_output := "dist"; bs_start_command := Some "node dist/server.mjs"; bs_health_path := Some "/health" |}.
Definition reservation : Reservation := {|
  rv_id := 5; rv_account := 1; rv_project := 2; rv_first := 4; rv_entitlement := 17; rv_pool := "p";
  rv_hold := 18; rv_epoch := 6; rv_state := Reserved; rv_reason := None; rv_observation := None;
  rv_released := None |}.
Definition database : TenantDatabase := {|
  td_id := 11; td_account := 1; td_project := 2; td_service := 29; td_config := 10; td_deployment := 4;
  td_reservation := 5; td_epoch := 6; td_generation := 19; td_state := DbReady; td_connections := 10;
  td_limit := 1073741824; td_ref := unary 12; td_source := 1; td_mode := Writable; td_measured := None;
  td_observed := None; td_revision := 2; td_error := None; td_created := 0; td_ready := Some 1%Z |}.
Definition credential : DatabaseCredential := {|
  dc_id := 20; dc_account := 1; dc_project := 2; dc_database := 11; dc_generation := 19;
  dc_purpose := RuntimePurpose; dc_role := unary 13; dc_status := CActive; dc_key_version := "v1";
  dc_nonce := replicate 24 0%Z; dc_ciphertext := replicate 32 65%Z; dc_tag := replicate 16 0%Z |}.

Definition built : Execution := {|
  build_jobs := {[ 3%N := job 3 zeros; 23%N := job 23 (file_digest 9) ]};
  build_services := {[ (3%N, 16%N) := service 22; (23%N, 17%N) := service 24 ]};
  build_artifacts := {[ 15%N := artifact 15 3 16; 21%N := artifact 21 23 17 ]};
  build_usage := {[ 3%N := {| ur_account := 1; ur_project := 2; ur_deployment := 4; ur_entitlement := 17;
    ur_seconds := Some 60%Z; ur_state := UFinalized; ur_debit := None; ur_finalized := None |} ]};
  x_deployments := {[ 4%N := {| dp_account := 1; dp_project := 2; dp_config := 10;
    dp_commit := text 97 40; dp_lifecycle := LQueued |} ]};
  x_reservations := {[ 5%N := reservation ]};
  x_projects := {[ 2%N := {| pj_account := 1; pj_slots := 1; pj_slot_state := SReserved;
    pj_config := Some 10%N; pj_revision := 1 |} ]};
  tenant_databases := {[ 11%N := database ]}; database_credentials := {[ 20%N := credential ]};
  recoveries := ∅; database_operations := ∅ |}.

Definition start : World RtDb := MkWorld (MkRtDb built None ∅ ∅ ∅ ∅ ∅) 0 0.
Definition env : Env :=
  {| clock := fun _ => 1000000000%Z; fresh := fun n => N.of_nat (100 + n); row_locked := fun _ _ => false |}.

(** *** What was measured *)
Definition pattern (major : Z) : PatternFacts := {|
  pf_framework := "node_http"; pf_node_major := major; pf_artifact := zeros; pf_manifest := zeros;
  pf_profile := zeros; pf_commit := text 97 40; pf_assertions_passed := 5; pf_assertions_total := 5;
  pf_cold_healthy := 3; pf_cold_total := 3; pf_cold_ms := [700; 800; 900]%Z; pf_warm_idle := 60 |}.
Definition facts : EvaluationFacts := {|
  ef_evaluator := zeros; ef_oci_schema := zeros; ef_unpack_tool := zeros;
  ef_patterns := [pattern 22; pattern 24];
  ef_compatibility := {| cf_warm_run := 60; cf_p95_startup := 900; cf_baseline_samples := 1;
    cf_sandbox_samples := 1; cf_baseline_p95 := f64_two; cf_sandbox_p95 := f64_two;
    cf_baseline_rps := f64_25; cf_sandbox_rps := f64_25 |};
  ef_performance := {| pm_decision := "owned_fixture_only"; pm_ratio := f64_half; pm_target_met := true;
    pm_production_ready := false |};
  ef_network := {| nf_forbidden_passed := 9; nf_forbidden_total := 9; nf_allowed_passed := 2;
    nf_allowed_total := 2; nf_independent := true |};
  ef_resources := {| rf_cpu_max := "25000 100000"; rf_memory_max := 536870912; rf_swap_max := 0;
    rf_pids_max := 128; rf_scratch_max := 268435456; rf_connections := 128; rf_per_second := 20;
    rf_burst := 40; rf_reasons := enforced_reasons; rf_restart_delays := [1; 2; 4; 8; 16; 30]%Z;
    rf_restart_limit := 6; rf_restart_window := 600; rf_healthy_reset := 600; rf_idle_stop := false |};
  ef_benchmark := {| bf_baseline_cpu := 1; bf_sandbox_cpu := 1; bf_baseline_memory := 1;
    bf_sandbox_memory := 1; bf_baseline_requests := [f64_two]; bf_sandbox_requests := [f64_two];
    bf_startups := [900; 700; 800]%Z |} |}.

Definition receipt (allocation : Uuid) (operation result status reason profile : string)
    (capability : option string) (cleanup : option CleanupReceipt) : RuntimeReceipt := {|
  rx_schema := "hostlet.runtime.executor-receipt/v1"; rx_allocation := allocation; rx_generation := 1;
  rx_fence := 1; rx_operation := operation; rx_result := result; rx_status := status;
  rx_reason := reason; rx_artifact := zeros; rx_binary := zeros;
  rx_policy := runtime_policy_digest (externals (fun _ => None) (fun _ => None));
  rx_capability := capability; rx_platform := "systrap"; rx_profile := profile; rx_sandbox := None;
  rx_oci_config := None; rx_runsc := None; rx_inodes := []; rx_limits := None; rx_network := None;
  rx_health := None; rx_cleanup := cleanup; rx_observed_ms := 1000000 |}.

(** File 1 is the evaluation of subject 30. *)
Definition evaluation : EvaluationReceipt := {|
  ev_receipt := receipt 30 "validate" "passed" "prepared" "ok" "owned_fixture_evaluation" None None;
  ev_evaluation := facts |}.
Definition capability : string :=
  capability_digest (externals (fun _ => None) (fun _ => None)) (file_digest 1) (ev_receipt evaluation).

(** Files 2 to 4: stopped, not fully cleaned, cleaned. *)
Definition nothing_left : CleanupReceipt := {|
  cr_sandbox_absent := true; cr_application_absent := true; cr_gateway_absent := true;
  cr_cgroup_absent := true; cr_mounts_absent := true; cr_state_retained := false |}.
Definition observed (operation status reason : string) (cleanup : option CleanupReceipt) : ExecutorReceipt :=
  {| xr_receipt := receipt 102 operation "passed" status reason "evidence_gated_owned_fixture"
       (Some capability) cleanup;
     xr_scratch := None; xr_evaluation := false |}.
Definition executor_receipts (bs : bytes) : option ExecutorReceipt :=
  match bs with
  | [2%Z] => Some (observed "stop" "stopped" "runtime_stopped" None)
  | [3%Z] => Some (observed "stop" "stopped" "runtime_cleanup_incomplete" None)
  | [4%Z] => Some (observed "cleanup" "cleaned" "runtime_cleaned" (Some nothing_left))
  | _ => None
  end.
Definition X : Externals :=
  externals (fun bs => if bool_decide (bs = [1%Z]) then Some evaluation else None) executor_receipts.

(** *** The requests *)
Definition credential_request : EvaluationCredentialRequest :=
  {| ecq_job := 3; ecq_artifact := 15; ecq_subject := 30; ecq_generation := 1; ecq_fence := 1 |}.
Definition issued := resolve_evaluation_credential X st credential_request env start.
Definition registered := register_evaluation X st (file_digest 1) env (snd issued).
Definition allocation_request : CreateAllocationRequest :=
  {| caq_job := 3; caq_artifact := 15; caq_evaluation := 101 |}.
Definition allocated := create_allocation X st allocation_request env (snd registered).
Definition observation (state : string) (file : Z) : RecordObservationRequest := {|
  obq_allocation := 102; obq_generation := 1; obq_fence := 1; obq_state := state;
  obq_digest := file_digest file |}.
Definition stopped := record_observation X st (observation "stopped" 2) env (snd allocated).
Definition cleaned := record_observation X st (observation "cleaned" 4) env (snd stopped).

Lemma start_fresh : rt_fresh (db start).
Proof. by split_and!. Qed.
Lemma step_issued : rt_api X st start (snd issued).
Proof.
  exact (rt_evaluation_credential X st credential_request env start (fst issued) (snd issued) (surjective_pairing issued)).
Qed.
Lemma step_registered : rt_api X st (snd issued) (snd registered).
Proof.
  exact (rt_register X st (file_digest 1) env (snd issued) (fst registered) (snd registered) (surjective_pairing registered)).
Qed.
Lemma step_allocated : rt_api X st (snd registered) (snd allocated).
Proof.
  exact (rt_create X st allocation_request env (snd registered) (fst allocated) (snd allocated) (surjective_pairing allocated)).
Qed.
Lemma step_stopped : rt_api X st (snd allocated) (snd stopped).
Proof.
  exact (rt_record X st (observation "stopped" 2) env (snd allocated) (fst stopped) (snd stopped) (surjective_pairing stopped)).
Qed.
Lemma step_cleaned : rt_api X st (snd stopped) (snd cleaned).
Proof.
  exact (rt_record X st (observation "cleaned" 4) env (snd stopped) (fst cleaned) (snd cleaned) (surjective_pairing cleaned)).
Qed.

Lemma run_allocated : rtc (rt_api X st) start (snd allocated).
Proof.
  eapply rtc_l; [exact step_issued|]. eapply rtc_l; [exact step_registered|].
  apply rtc_once. exact step_allocated.
Qed.
Lemma run_cleaned : rtc (rt_api X st) start (snd cleaned).
Proof.
  etrans; [exact run_allocated|]. eapply rtc_l; [exact step_stopped|].
  apply rtc_once. exact step_cleaned.
Qed.

Definition allocation_in (w : World RtDb) : option string := al_state <$> allocations (db w) !! 102%N.
Lemma allocation_in_Some w s :
  allocation_in w = Some s -> exists a, allocations (db w) !! 102%N = Some a /\ al_state a = s.
Proof. intros (a & Ha & ->)%fmap_Some. eauto. Qed.
Lemma Ok_of {A} (r : res ApiError A) : (if r then true else false) = true -> exists a, r = Ok a.
Proof. destruct r; [eauto|done]. Qed.

Lemma allocations_rest_on_passing_evidence_witness : exists a e p,
  allocations (db (snd allocated)) !! 102%N = Some a
  /\ evaluations (db (snd allocated)) !! al_evaluation a = Some e
  /\ evaluation_passes (ea_facts e) = true /\ p ∈ ef_patterns (ea_facts e) /\ pattern_backs a p.
Proof.
  destruct (allocation_in_Some (snd allocated) "allocated") as (a & Ha & _); [vm_compute; reflexivity|].
  destruct (allocations_rest_on_passing_evidence X st start (snd allocated) 102 a start_fresh
              run_allocated Ha) as (e & p & He & _ & Hp & _ & _ & Hin & Hb).
  exists a, e, p. exact (conj Ha (conj He (conj Hp (conj Hin Hb)))).
Defined.

Lemma allocations_follow_their_lifecycle_witness : exists a l1 o l2,
  allocations (db (snd cleaned)) !! 102%N = Some a
  /\ observations_of (db (snd cleaned)) 102 (l1 ++ o :: l2) /\ lifecycle_path "allocated" l1 "stopped"
  /\ is_some_and cleanup_complete (rx_cleanup (xr_receipt (rb_receipt o))) = true.
Proof.
  destruct (allocation_in_Some (snd cleaned) "cleaned") as (a & Ha & Hs); [vm_compute; reflexivity|].
  destruct (allocations_follow_their_lifecycle X st start (snd cleaned) 102 a start_fresh run_cleaned Ha)
    as (l & Hl & _ & _ & Hc).
  destruct (Hc Hs) as (l1 & o & l2 & El & H1 & H2). rewrite El in Hl.
  exists a, l1, o, l2. exact (conj Ha (conj Hl (conj H1 H2))).
Defined.

Definition given := resolve_runtime_credential_handler X st (unary 102) 1 1 env (snd allocated).
Lemma runtime_credentials_only_for_live_allocations_witness : exists c id a,
  fst given = Ok c /\ allocations (db (snd allocated)) !! id = Some a /\ al_generation a = 1%Z.
Proof.
  destruct (Ok_of (fst given)) as [c Hc]; [vm_compute; reflexivity|].
  destruct (runtime_credentials_only_for_live_allocations X st (unary 102) 1 1 env (snd allocated)
    (snd given) c) as (_ & id & a & t & k & r & _ & Ha & Hgen & _).
  - rewrite <- Hc. exact (surjective_pairing given).
  - exists c, id, a. exact (conj Hc (conj Ha Hgen)).
Defined.

Definition again := record_observation X st (observation "stopped" 2) env (snd cleaned).
Lemma observations_are_recorded_once_witness :
  db (snd again) = db (snd cleaned) /\ exists response, fst again = Ok (Found response).
Proof.
  destruct (Ok_of (fst stopped)) as [ans Hs]; [vm_compute; reflexivity|].
  destruct (observations_are_recorded_once X st (observation "stopped" 2) env env (snd allocated)
    (snd stopped) (snd cleaned) ans (fst again) (snd again)) as (H & response & Hr & _).
  - exact (reachable_ok X st _ _ start_fresh run_allocated).
  - rewrite <- Hs. exact (surjective_pairing stopped).
  - apply rtc_once. exact step_cleaned.
  - vm_compute. discriminate.
  - exact (surjective_pairing again).
  - exact (conj H (ex_intro _ response Hr)).
Defined.

(** The receipt is valid, and it supports the transition. *)
Definition incomplete := record_observation X st (observation "stopped" 3) env (snd allocated).
Lemma incomplete_cleanups_are_never_recorded_witness :
  validate_executor_receipt (observed "stop" "stopped" "runtime_cleanup_incomplete" None) = Ok tt
  /\ transition_allowed "allocated" "stopped" = true
  /\ fst incomplete = Err database_unavailable /\ db (snd incomplete) = db (snd allocated).
Proof.
  split; [vm_compute; reflexivity|]. split; [vm_compute; reflexivity|].
  split; [vm_compute; reflexivity|].
  destruct (incomplete_cleanups_are_never_recorded X st (observation "stopped" 3) env (snd allocated)
    (fst incomplete) (snd incomplete) [3%Z] (observed "stop" "stopped" "runtime_cleanup_incomplete" None))
    as [H _]; [vm_compute; reflexivity..| |exact H].
  exact (surjective_pairing incomplete).
Defined.

Lemma percentile_95_is_exact_witness : exists r,
  percentile_95_u32 [900; 700; 800]%Z = Some r /\ r ∈ [900; 700; 800]%Z.
Proof.
  destruct (percentile_95_is_exact [900; 700; 800]%Z) as (r & Hr & Hin & _); [done|]. by exists r.
Defined.
End RuntimeDemo.
