(* ===== verification/BuildTables.v ===== *)
(** * The tables of build jobs (migrations/0006_m3_execution.sql)

    A build's job, its services, secret references, attempts, artifacts, usage
    reservation, effect and receipts, over the admission tables, which build usage
    is debited to.  Tables are keyed by their primary keys; [updated_at] columns are
    left out; foreign keys hold by the statements that insert the rows. *)

From stdpp Require Import base list option gmap strings.
From Stdlib Require Import ZArith Lia Ascii.
From S2P Require Import Prelude RustText Bytes ProjectContract PgTx Intent Secrets Admission.
From S2P Require Import PolicyClock ExecutionTables.

Local Open Scope string_scope.
Local Open Scope list_scope.

(** ** Rows *)

Inductive TrialState := TRunning | TSucceeded | TFailed | TRetriable | TExpired | TCanceled.
#[export] Instance TrialState_eq : EqDecision TrialState.
Proof. solve_decision. Defined.

(** A row of build_attempts. *)
Record BuildAttempt := {
  bt_id : Uuid; bt_account : Uuid; bt_project : Uuid; bt_job : Uuid; bt_number : Z; bt_fence : Z;
  bt_worker : string; bt_state : TrialState; bt_started : Z; bt_lease : Z; bt_launched : option Z;
  bt_finished : option Z; bt_code : option string; bt_hash : option bytes;
}.

(** Keyed by the job and the secret version. *)
Record BuildSecretRef := {
  sr_account : Uuid; sr_project : Uuid; sr_service : Uuid; sr_secret : Uuid; sr_name : string;
}.

(** Every row is [ready]. *)
Record Materialization := {
  mt_account : Uuid; mt_project : Uuid; mt_deployment : Uuid; mt_source : Uuid; mt_config : Uuid;
  mt_report : Uuid; mt_commit : string; mt_tree : string; mt_revision : string; mt_bundle : string;
  mt_manifest : string; mt_entries : Z; mt_bytes : Z;
}.

Record CompatibilityReport := {
  cp_account : Uuid; cp_project : Uuid; cp_config : Uuid; cp_source : Uuid; cp_analyzer : string;
  cp_status : string;
}.

(** Keyed by the configuration and the service; a kind occurs once. *)
Record ServiceConfiguration := { sc_account : Uuid; sc_project : Uuid; sc_kind : string }.

Record Configuration := { cn_account : Uuid; cn_project : Uuid; cn_spec : StandardProjectSpec }.

(** ** Responses that are stored *)

Record BuildJobRecord := {
  br_id : Uuid; br_project : Uuid; br_deployment : Uuid; br_source : Uuid; br_config : Uuid;
  br_compatibility : Uuid; br_commit : string; br_tree : string; br_profile : string;
  br_profile_digest : string; br_input_digest : string; br_state : BuildState; br_revision : Z;
  br_attempts : Z; br_current : option Uuid; br_fence : Z; br_lease : option Z;
  br_code : option string; br_cleanup : CleanupStatus; br_created : Z;
}.

Definition build_record (j : BuildJob) : BuildJobRecord := {|
  br_id := bj_id j; br_project := bj_project j; br_deployment := bj_deployment j;
  br_source := bj_source j; br_config := bj_config j; br_compatibility := bj_compatibility j;
  br_commit := bj_commit j; br_tree := bj_tree j; br_profile := bj_profile j;
  br_profile_digest := bj_profile_digest j; br_input_digest := bj_input_digest j;
  br_state := bj_state j; br_revision := bj_revision j; br_attempts := bj_attempts j;
  br_current := bj_current j; br_fence := bj_fence j; br_lease := bj_lease j;
  br_code := bj_code j; br_cleanup := bj_cleanup j; br_created := bj_created j |}.

Record CompletionEffect := {
  ce_state : string; ce_code : string; ce_result : string; ce_cleanup : string;
}.
Record Meter := { me_reserved : Z; me_finalized : Z; me_debit : option Uuid }.
Record CompleteResponse := {
  cr_build : BuildJobRecord; cr_effect : CompletionEffect; cr_artifacts : list Artifact; cr_meter : Meter;
}.
Record CancelAckResponse := {
  ck_job : Uuid; ck_attempt : Uuid; ck_fence : Z; ck_cleanup : string; ck_finalized : Z;
  ck_debit : option Uuid;
}.

(** The body of an attempt's receipt. *)
Inductive ReceiptBody := RComplete (r : CompleteResponse) | RCancelAck (r : CancelAckResponse).
(** The body of a job's effect: a completion's, or the reaper's. *)
Inductive EffectBody :=
| EComplete (r : CompleteResponse)
| EReaped (code : string) (cleanup : string) (finalized : Z).

(** Keyed by the attempt. *)
Record BuildReceipt := { rp_job : Uuid; rp_fence : Z; rp_hash : bytes; rp_body : ReceiptBody }.
(** Keyed by the job. *)
Record BuildEffect := {
  ef_attempt : Uuid; ef_fence : Z; ef_state : string; ef_code : string; ef_hash : bytes;
  ef_body : EffectBody;
}.

(** ** The database *)

(** [source_trees] is the column tree_sha of the source revisions, where not NULL. *)
Record BxDb := MkBxDb {
  adm : AdmDb;
  accounts : gset Uuid;
  jobs : gmap Uuid BuildJob;
  services : gmap (Uuid * Uuid) BuildService;
  secret_refs : gmap (Uuid * Uuid) BuildSecretRef;
  attempts : gmap Uuid BuildAttempt;
  artifacts : gmap Uuid Artifact;
  reserved : gmap Uuid UsageReservation;
  effects : gmap Uuid BuildEffect;
  attempt_receipts : gmap Uuid BuildReceipt;
  materializations : gmap Uuid Materialization;
  source_trees : gmap Uuid string;
  reports : gmap Uuid CompatibilityReport;
  configurations : gmap Uuid Configuration;
  service_configurations : gmap (Uuid * Uuid) ServiceConfiguration;
  secrets : gmap Uuid SecretRow;
  secret_versions : gmap Uuid SecretVersionRow;
  bx_clock : option (Z * Z);
  bx_idem : gmap (Uuid * string * string) (IdemRow BuildJobRecord);
  bx_audits : list AuditEvent;
}.

Definition set_adm v d := MkBxDb v (accounts d) (jobs d) (services d) (secret_refs d) (attempts d)
  (artifacts d) (reserved d) (effects d) (attempt_receipts d) (materializations d) (source_trees d)
  (reports d) (configurations d) (service_configurations d) (secrets d) (secret_versions d) (bx_clock d)
  (bx_idem d) (bx_audits d).
Definition set_jobs v d := MkBxDb (adm d) (accounts d) v (services d) (secret_refs d) (attempts d)
  (artifacts d) (reserved d) (effects d) (attempt_receipts d) (materializations d) (source_trees d)
  (reports d) (configurations d) (service_configurations d) (secrets d) (secret_versions d) (bx_clock d)
  (bx_idem d) (bx_audits d).
Definition set_services v d := MkBxDb (adm d) (accounts d) (jobs d) v (secret_refs d) (attempts d)
  (artifacts d) (reserved d) (effects d) (attempt_receipts d) (materializations d) (source_trees d)
  (reports d) (configurations d) (service_configurations d) (secrets d) (secret_versions d) (bx_clock d)
  (bx_idem d) (bx_audits d).
Definition set_secret_refs v d := MkBxDb (adm d) (accounts d) (jobs d) (services d) v (attempts d)
  (artifacts d) (reserved d) (effects d) (attempt_receipts d) (materializations d) (source_trees d)
  (reports d) (configurations d) (service_configurations d) (secrets d) (secret_versions d) (bx_clock d)
  (bx_idem d) (bx_audits d).
Definition set_attempts v d := MkBxDb (adm d) (accounts d) (jobs d) (services d) (secret_refs d) v
  (artifacts d) (reserved d) (effects d) (attempt_receipts d) (materializations d) (source_trees d)
  (reports d) (configurations d) (service_configurations d) (secrets d) (secret_versions d) (bx_clock d)
  (bx_idem d) (bx_audits d).
Definition set_artifacts v d := MkBxDb (adm d) (accounts d) (jobs d) (services d) (secret_refs d)
  (attempts d) v (reserved d) (effects d) (attempt_receipts d) (materializations d) (source_trees d)
  (reports d) (configurations d) (service_configurations d) (secrets d) (secret_versions d) (bx_clock d)
  (bx_idem d) (bx_audits d).
Definition set_reserved v d := MkBxDb (adm d) (accounts d) (jobs d) (services d) (secret_refs d)
  (attempts d) (artifacts d) v (effects d) (attempt_receipts d) (materializations d) (source_trees d)
  (reports d) (configurations d) (service_configurations d) (secrets d) (secret_versions d) (bx_clock d)
  (bx_idem d) (bx_audits d).
Definition set_effects v d := MkBxDb (adm d) (accounts d) (jobs d) (services d) (secret_refs d)
  (attempts d) (artifacts d) (reserved d) v (attempt_receipts d) (materializations d) (source_trees d)
  (reports d) (configurations d) (service_configurations d) (secrets d) (secret_versions d) (bx_clock d)
  (bx_idem d) (bx_audits d).
Definition set_attempt_receipts v d := MkBxDb (adm d) (accounts d) (jobs d) (services d) (secret_refs d)
  (attempts d) (artifacts d) (reserved d) (effects d) v (materializations d) (source_trees d)
  (reports d) (configurations d) (service_configurations d) (secrets d) (secret_versions d) (bx_clock d)
  (bx_idem d) (bx_audits d).
Definition set_materializations v d := MkBxDb (adm d) (accounts d) (jobs d) (services d) (secret_refs d)
  (attempts d) (artifacts d) (reserved d) (effects d) (attempt_receipts d) v (source_trees d)
  (reports d) (configurations d) (service_configurations d) (secrets d) (secret_versions d) (bx_clock d)
  (bx_idem d) (bx_audits d).
Definition set_bx_clock v d := MkBxDb (adm d) (accounts d) (jobs d) (services d) (secret_refs d)
  (attempts d) (artifacts d) (reserved d) (effects d) (attempt_receipts d) (materializations d)
  (source_trees d) (reports d) (configurations d) (service_configurations d) (secrets d)
  (secret_versions d) v (bx_idem d) (bx_audits d).
Definition set_bx_idem v d := MkBxDb (adm d) (accounts d) (jobs d) (services d) (secret_refs d)
  (attempts d) (artifacts d) (reserved d) (effects d) (attempt_receipts d) (materializations d)
  (source_trees d) (reports d) (configurations d) (service_configurations d) (secrets d)
  (secret_versions d) (bx_clock d) v (bx_audits d).
Definition set_bx_audits v d := MkBxDb (adm d) (accounts d) (jobs d) (services d) (secret_refs d)
  (attempts d) (artifacts d) (reserved d) (effects d) (attempt_receipts d) (materializations d)
  (source_trees d) (reports d) (configurations d) (service_configurations d) (secrets d)
  (secret_versions d) (bx_clock d) (bx_idem d) v.

#[export] Instance bx_intent_store : IntentStore BxDb BuildJobRecord := {
  idempotency_records := bx_idem; set_idempotency_records := set_bx_idem;
  audit_events := bx_audits; set_audit_events := set_bx_audits;
}.
#[export] Instance bx_intent_store_laws : IntentStoreLaws BxDb BuildJobRecord.
Proof. by split. Qed.
#[export] Instance bx_clock_store : ClockStore BxDb := {
  clock_row := bx_clock; set_clock_row := set_bx_clock;
}.
#[export] Instance bx_clock_laws : ClockStoreLaws BxDb.
Proof. by split. Qed.

(** ** Constraints *)

Definition text_within (lo hi : nat) (s : string) : bool :=
  (lo <=? String.length s)%nat && (String.length s <=? hi)%nat.

Definition BUILD_PROFILES : list string :=
  ["m3-owned-node24-v1"; "m3-owned-node22-v1"; "m3-owned-node24-cache-miss-v1"].

Definition job_check (j : BuildJob) : bool :=
  is_commit (bj_commit j) && is_commit (bj_tree j) && one_of (bj_profile j) BUILD_PROFILES
  && is_digest (bj_profile_digest j) && is_none_or is_digest (bj_bundle j)
  && is_none_or is_digest (bj_tree_manifest j) && is_digest (bj_input_digest j)
  && (0 <? bj_revision j)%Z && (0 <=? bj_attempts j)%Z && (bj_attempts j <=? 3)%Z
  && (0 <=? bj_fence j)%Z && is_none_or (text_within 1 64) (bj_code j)
  && Bool.eqb (bool_decide (bj_state j = BRunning)) (negb (is_none (bj_current j)) && negb (is_none (bj_lease j)))
  && (negb (bool_decide (bj_state j = BSucceeded))
      || negb (is_none (bj_materialization j)) && negb (is_none (bj_bundle j)) && negb (is_none (bj_tree_manifest j))).

(** The index build_jobs_one_active_account_idx. *)
Definition occupies (j : BuildJob) : bool :=
  bool_decide (bj_state j = BRunning) || bool_decide (bj_cleanup j = CleanupPending).

Definition job_unique (t : gmap Uuid BuildJob) (j : BuildJob) : bool :=
  negb (exists_row (fun o => negb (bool_decide (bj_id o = bj_id j))
    && (bool_decide (bj_deployment o = bj_deployment j) && bool_decide (bj_input_digest o = bj_input_digest j)
        || bool_decide (bj_account o = bj_account j) && occupies o && occupies j)) t).

(** [root !~ '(^/|\\.\\.)']: the backslashes are doubled in a string that does not
    interpret them, so the second branch matches a backslash, any character, a
    backslash and any character, not two dots. *)
Fixpoint skip_continuation (s : bytes) : bytes :=
  match s with c :: s' => if continuation c then skip_continuation s' else s | [] => [] end.
Definition skip_char (s : bytes) : option bytes :=
  match s with _ :: s' => Some (skip_continuation s') | [] => None end.
Definition escaped_pair (s : bytes) : bool :=
  match (a ← strip [ch "\"] s; b ← skip_char a; strip [ch "\"] b) with
  | Some (_ :: _) => true
  | _ => false
  end.
Fixpoint has_escaped_pair (s : bytes) : bool :=
  match s with [] => false | _ :: s' => escaped_pair s || has_escaped_pair s' end.
Definition root_allowed (root : string) : bool :=
  let s := as_bytes root in negb (starts_with (lit "/") s || has_escaped_pair s).

Definition service_check (s : BuildService) : bool :=
  (0 <=? bs_ordinal s)%Z && (bs_ordinal s <=? 1)%Z && one_of (bs_node_major s) [22; 24]%Z
  && one_of (bs_framework s) ["vite_static"; "static_export"; "node_http"; "nextjs16_standalone"]
  && is_none_or (fun r => text_within 1 1024 r && root_allowed r) (bs_root s)
  && text_within 1 1024 (bs_lockfile s) && text_within 1 4096 (bs_build_command s)
  && text_within 1 1024 (bs_output s)
  && Bool.eqb (bool_decide (bs_kind s = ApplicationService))
       (negb (is_none (bs_start_command s)) && negb (is_none (bs_health_path s))).

Definition service_unique (job : Uuid) (t : gmap (Uuid * Uuid) BuildService) (s : BuildService) : bool :=
  forallb (fun kr => negb (bool_decide (kr.1.1 = job)
    && ((bs_ordinal kr.2 =? bs_ordinal s)%Z || bool_decide (bs_kind kr.2 = bs_kind s)))) (map_to_list t).

Definition attempt_check (a : BuildAttempt) : bool :=
  (1 <=? bt_number a)%Z && (bt_number a <=? 3)%Z && (0 <? bt_fence a)%Z
  && text_within 1 128 (bt_worker a) && is_none_or (text_within 1 64) (bt_code a)
  && (bt_started a <? bt_lease a)%Z
  && Bool.eqb (bool_decide (bt_state a = TRunning)) (is_none (bt_finished a) && is_none (bt_code a)).

Definition attempt_unique (t : gmap Uuid BuildAttempt) (a : BuildAttempt) : bool :=
  negb (exists_row (fun o => negb (bool_decide (bt_id o = bt_id a)) && bool_decide (bt_job o = bt_job a)
    && ((bt_number o =? bt_number a)%Z || (bt_fence o =? bt_fence a)%Z)) t).

Definition artifact_check (a : Artifact) : bool :=
  is_digest (at_archive a) && is_digest (at_manifest a)
  && (0 <=? at_packed a)%Z && (at_packed a <=? 1073741824)%Z
  && (0 <=? at_unpacked a)%Z && (at_unpacked a <=? 1073741824)%Z
  && (0 <=? at_entries a)%Z && (at_entries a <=? 10000)%Z
  && match at_kind a, at_argv a with
     | StaticArtifact, None => true
     | ApplicationArtifact, Some argv => (length argv =? 2)%nat
     | _, _ => false
     end.

Definition artifact_unique (t : gmap Uuid Artifact) (a : Artifact) : bool :=
  negb (exists_row (fun o => bool_decide (at_job o = at_job a) && bool_decide (at_kind o = at_kind a)) t).

(** The reserved seconds are always 600. *)
Definition reserved_check (u : UsageReservation) : bool :=
  is_none_or (fun s => (0 <=? s)%Z && (s <=? 600)%Z) (ur_seconds u)
  && match ur_state u with
     | UReserved => is_none (ur_seconds u) && is_none (ur_debit u) && is_none (ur_finalized u)
     | UFinalized => negb (is_none (ur_seconds u)) && negb (is_none (ur_finalized u))
                     && (negb (is_none (ur_debit u)) || bool_decide (ur_seconds u = Some 0%Z))
     | UReleased => bool_decide (ur_seconds u = Some 0%Z) && is_none (ur_debit u) && negb (is_none (ur_finalized u))
     end.

Definition secret_ref_unique (job : Uuid) (t : gmap (Uuid * Uuid) BuildSecretRef) (r : BuildSecretRef) : bool :=
  forallb (fun kr => negb (bool_decide (kr.1.1 = job) && bool_decide (sr_service kr.2 = sr_service r)
                           && bool_decide (sr_name kr.2 = sr_name r))) (map_to_list t).

Definition materialization_check (m : Materialization) : bool :=
  is_commit (mt_commit m) && is_commit (mt_tree m) && text_within 1 64 (mt_revision m)
  && is_digest (mt_bundle m) && is_digest (mt_manifest m)
  && (0 <=? mt_entries m)%Z && (mt_entries m <=? 10000)%Z
  && (0 <=? mt_bytes m)%Z && (mt_bytes m <=? 67108864)%Z.
