(* ===== verification/BuildInputs.v ===== *)
(** * What a build is made of (crates/control/src/build_jobs.rs)

    The profile, the services and the secret references that enqueueing a build
    fixes, and the content-addressed store its evidence is read from.  Files appear
    as what their metadata and contents show. *)

From stdpp Require Import base list option gmap strings sorting.
From Stdlib Require Import ZArith Lia Ascii.
From S2P Require Import Prelude RustText Bytes ProjectContract PgTx Intent Secrets Admission.
From S2P Require Import Wire PolicyClock ExecutionTables SourceBundle BuildTables.

Local Open Scope string_scope.
Local Open Scope list_scope.

Definition RESERVED_SECONDS : Z := 600.
Definition MAX_SECRETS : nat := 128.
Definition MAX_ARTIFACTS : nat := 2.
Definition DIGEST_BYTES : nat := 71.
Definition SOURCE_REJECTION_COMPLETION_SECONDS : Z := 30.
Definition MATERIALIZER_REVISION : string := "hostlet.source-bundle/hbs1".
Definition ANALYZER_REVISION : string := "hostlet.compatibility/v1+hostlet.compatibility-bounds/v1".
Definition NODE24_PROFILE : string := "m3-owned-node24-v1".
Definition NODE22_PROFILE : string := "m3-owned-node22-v1".
Definition CACHE_MISS_PROFILE : string := "m3-owned-node24-cache-miss-v1".

(** ** Requests *)

Record SecretRefRequest := { rq_service : Uuid; rq_version : Uuid }.
Record EnqueueRequest := {
  enq_source : Uuid; enq_report : Uuid; enq_proof : Uuid; enq_reservation : Uuid; enq_epoch : Uuid;
  enq_profile : string; enq_secrets : list SecretRefRequest;
}.
Record Profile := { pr_id : string; pr_digest : string }.
Record ServiceLease := {
  sl_service : Uuid; sl_kind : ServiceKind; sl_root : string; sl_node_major : Z; sl_framework : string;
  sl_lockfile : string; sl_build_command : string; sl_output : string; sl_start : option string;
  sl_health : option string;
}.
Record SecretLease := { se_service : Uuid; se_version : Uuid; se_name : string }.
Record Limits := {
  lm_cpu_millis : Z; lm_memory : Z; lm_timeout : Z; lm_workspace : Z; lm_static_output : Z;
  lm_runtime_output : Z; lm_max_entries : Z; lm_console : Z; lm_report : Z;
}.
Definition limits : Limits := {|
  lm_cpu_millis := 2000; lm_memory := 2147483648; lm_timeout := 600; lm_workspace := 4294967296;
  lm_static_output := 262144000; lm_runtime_output := 1073741824; lm_max_entries := 10000;
  lm_console := 4194304; lm_report := 1048576 |}.

(** The document whose digest identifies a build's input. *)
Record BuildInput := {
  in_execution : Uuid; in_source : Uuid; in_config : Uuid; in_report : Uuid; in_commit : string;
  in_tree : string; in_profile : Profile; in_services : list ServiceLease; in_secrets : list SecretLease;
}.

Record ArtifactCompletion := {
  ac_service : Uuid; ac_kind : string; ac_archive : string; ac_manifest : string; ac_packed : Z;
  ac_unpacked : Z; ac_entries : Z; ac_argv : option (list string);
}.
#[export] Instance ArtifactCompletion_eq : EqDecision ArtifactCompletion.
Proof. solve_decision. Defined.
Record CompletionOutcome := {
  oc_state : string; oc_code : string; oc_result : string; oc_cleanup : string; oc_elapsed : Z;
  oc_artifacts : list ArtifactCompletion;
}.
Record CancelAckRequest := {
  caq_worker : string; caq_attempt : Uuid; caq_fence : Z; caq_cleanup : string; caq_elapsed : Z;
}.

(** ** Documents read from files *)

Record ProfileFile := {
  pl_schema : string; pl_id : string; pl_qemu : string; pl_qemu_digest : string;
  pl_pinned : list (string * string); pl_mkfs : string; pl_sudo : string; pl_systemd_run : string;
  pl_systemctl : string;
}.
Record ProfileAdmissions := { pa_schema : string; pa_commits : list string }.
Record ResultManifest := {
  rm_schema : string; rm_job : Uuid; rm_attempt : Uuid; rm_fence : Z; rm_input : string;
  rm_state : string; rm_code : string; rm_elapsed : Z; rm_artifacts : list ArtifactCompletion;
}.
Record CleanupManifest := {
  cm_schema : string; cm_job : Uuid; cm_attempt : Uuid; cm_fence : Z; cm_status : string;
}.
Record ArtifactManifest := {
  am_schema : string; am_job : Uuid; am_attempt : Uuid; am_fence : Z; am_input : string;
  am_commit : string; am_service : Uuid; am_kind : string; am_archive : string; am_packed : Z;
  am_unpacked : Z; am_entries : Z; am_argv : option (list string);
}.

(** A file of the profile directory; [of_bytes] is [None] when reading fails. *)
Record OwnedFile := {
  of_regular : bool; of_length : Z; of_mode : Z; of_canonical : bool; of_in_parent : bool;
  of_bytes : option bytes;
}.
(** A file of the content store. *)
Record CasFile := { cf_regular : bool; cf_private : bool; cf_bytes : option bytes }.

(** Code outside the repository and the file system.  [b_cas_write] is what creating
    the directories of the store and linking a new file into it returns. *)
Record BuildExternals := {
  b_sha256 : bytes -> bytes;
  b_parse_uuid : string -> option Uuid;
  b_uuid_text : Uuid -> string;
  b_aead : bytes -> bytes -> bytes -> bytes -> bytes -> option bytes;
  b_lowercase : bytes -> bytes;
  b_profile_directory : option bool;
  b_owned_file : string -> option OwnedFile;
  b_profile_json : bytes -> option ProfileFile;
  b_admissions_json : bytes -> option ProfileAdmissions;
  b_input_json : BuildInput -> bytes;
  b_input_fits : BuildInput -> bool;
  b_tree_json : list SourceEntry -> bytes;
  b_outcome_json : CompletionOutcome -> bytes;
  b_cancel_json : CancelAckRequest -> bytes;
  b_result_json : bytes -> option ResultManifest;
  b_cleanup_json : bytes -> option CleanupManifest;
  b_artifact_json : bytes -> option ArtifactManifest;
  b_enqueue_hash : EnqueueRequest -> string;
  b_empty_hash : string;
  b_cas : bytes -> option CasFile;
  b_cas_write : bytes -> bytes -> res ApiError unit;
}.

Definition valid_digest (value : string) : bool :=
  (String.length value =? DIGEST_BYTES)%nat && is_digest value.

Definition all_distinct (l : list Uuid) : bool := bool_decide (NoDup l).

(** ** Profiles *)

Definition profile_allowed (value : string) : bool := one_of value BUILD_PROFILES.
Definition profile_unavailable (message : string) : ApiError :=
  unavailable "build_profile_unavailable" message.
Definition profile_invalid (message : string) : ApiError := unavailable "build_profile_invalid" message.
Definition path_absolute (path : string) : bool := starts_with (lit "/") (as_bytes path).

Section Inputs.
Context (B : BuildExternals) (m3 : option M3Config).

Definition text_digest (bs : bytes) : string := "sha256:" +:+ to_text (hex_encode (b_sha256 B bs)).

Definition owned_file (name : string) (max_bytes : Z) : res ApiError bytes :=
  res_bind (ok_or (b_owned_file B name)
    (profile_unavailable "an approved owned-fixture build profile is unavailable")) (fun f =>
  res_bind (guard_err (negb (of_regular f) || (max_bytes <? of_length f)%Z
                       || negb (one_of (of_mode f) [256; 384]%Z) || negb (of_canonical f)
                       || negb (of_in_parent f))
    (profile_invalid "an approved owned-fixture build profile is invalid")) (fun _ =>
  ok_or (of_bytes f) (profile_unavailable "an approved owned-fixture build profile is unavailable"))).

Definition profile_directory : res ApiError unit :=
  res_bind (require_enabled m3) (fun _ =>
  res_bind (ok_or (b_profile_directory B)
    (profile_unavailable "the owned-fixture profile directory is unavailable")) (fun valid =>
  guard_err (negb valid) (profile_invalid "the owned-fixture profile directory is invalid"))).

Definition profile_malformed (id : string) (p : ProfileFile) : bool :=
  negb (bool_decide (pl_schema p = "hostlet.build-profile/v1")) || negb (bool_decide (pl_id p = id))
  || negb (valid_digest (pl_qemu_digest p))
  || existsb (fun item => negb (path_absolute item.1) || negb (valid_digest item.2)) (pl_pinned p)
  || existsb (fun path => negb (path_absolute path))
       [pl_qemu p; pl_mkfs p; pl_sudo p; pl_systemd_run p; pl_systemctl p].

Definition load_profile (id : string) : res ApiError Profile :=
  res_bind (guard_err (negb (profile_allowed id))
    (unprocessable "build_profile_not_admitted" "the build profile is not admitted")) (fun _ =>
  res_bind profile_directory (fun _ =>
  res_bind (owned_file (id +:+ ".json") 65536) (fun bs =>
  res_bind (ok_or (b_profile_json B bs)
    (profile_invalid "the owned-fixture build profile is malformed")) (fun p =>
  res_bind (guard_err (profile_malformed id p)
    (profile_invalid "the owned-fixture build profile is malformed")) (fun _ =>
  Ok {| pr_id := id; pr_digest := text_digest bs |}))))).

Definition cache_miss_source_admitted (commit : string) : res ApiError bool :=
  res_bind profile_directory (fun _ =>
  res_bind (owned_file "admissions.json" 65536) (fun bs =>
  res_bind (ok_or (b_admissions_json B bs)
    (profile_invalid "the owned-fixture profile admission file is malformed")) (fun a =>
  res_bind (guard_err (negb (bool_decide (pa_schema a = "hostlet.build-profile-admissions/v1"))
                       || (32 <? length (pa_commits a))%nat
                       || existsb (fun v => negb (is_commit v)) (pa_commits a))
    (profile_invalid "the owned-fixture profile admission file is malformed")) (fun _ =>
  Ok (one_of commit (pa_commits a)))))).

Definition derive_profile_id (leases : list ServiceLease) (source_commit requested : string)
    : res ApiError string :=
  let all22 := forallb (fun s => (sl_node_major s =? 22)%Z) leases in
  let all24 := forallb (fun s => (sl_node_major s =? 24)%Z) leases in
  if negb all22 && negb all24 then
    Err (unprocessable "unsupported_node_mix" "one build cannot mix Node major versions")
  else if all22 then Ok NODE22_PROFILE
  else
    res_bind (if bool_decide (requested = CACHE_MISS_PROFILE)
              then cache_miss_source_admitted source_commit else Ok false) (fun admitted =>
    Ok (if admitted : bool then CACHE_MISS_PROFILE else NODE24_PROFILE)).

(** ** The content store *)

Definition cas_path (digest : string) : res ApiError bytes :=
  match strip (lit "sha256:") (as_bytes digest) with
  | Some hash =>
      if (length hash =? 64)%nat && forallb is_lower_hex hash then Ok hash
      else Err (unprocessable "invalid_digest" "a lowercase sha256 digest is required")
  | None => Err (unprocessable "invalid_digest" "a lowercase sha256 digest is required")
  end.

Definition cas_missing : ApiError :=
  unavailable "cas_object_missing" "a required private CAS object is unavailable".
Definition cas_invalid : ApiError :=
  unavailable "cas_object_invalid" "a private CAS object failed verification".

(** The bytes that were verified. *)
Definition verify_cas_bytes (path : bytes) (digest : string) : res ApiError bytes :=
  res_bind (ok_or (b_cas B path) cas_missing) (fun f =>
  res_bind (guard_err (negb (cf_regular f) || negb (cf_private f)) cas_invalid) (fun _ =>
  res_bind (ok_or (cf_bytes f) cas_missing) (fun bs =>
  res_bind (guard_err (negb (bool_decide (text_digest bs = digest))) cas_invalid) (fun _ =>
  Ok bs)))).

Definition verify_cas_digest (digest : string) : res ApiError unit :=
  res_bind (cas_path digest) (fun path =>
  res_bind (verify_cas_bytes path digest) (fun _ => Ok tt)).

Definition store_cas (digest : string) (bs : bytes) : res ApiError unit :=
  res_bind (cas_path digest) (fun path =>
  res_bind (b_cas_write B path bs) (fun _ =>
  res_bind (verify_cas_bytes path digest) (fun _ => Ok tt))).

Definition result_invalid (message : string) : ApiError := unprocessable "build_result_invalid" message.

Definition read_cas_json {T} (parse : bytes -> option T) (digest : string) (max_bytes : Z)
    : res ApiError T :=
  res_bind (cas_path digest) (fun path =>
  res_bind (verify_cas_bytes path digest) (fun bs =>
  res_bind (guard_err (max_bytes <? Z.of_nat (length bs))%Z
    (result_invalid "a completion manifest exceeds its limit")) (fun _ =>
  ok_or (parse bs) (result_invalid "a completion manifest is malformed")))).
End Inputs.

(** ** Services *)

Definition unsupported_graph (message : string) : ApiError :=
  unprocessable "unsupported_build_graph" message.
Definition text (s : rstr) : string := to_text (utf8_encode s).

(** The kind and framework of a service that is built; [None] for the database. *)
Definition build_kind (s : ServiceSpec) : res ApiError (option (ServiceKind * string)) :=
  match ProjectContract.kind s, framework s with
  | ProjectContract.StaticFrontend, ViteStatic => Ok (Some (StaticFrontend, "vite_static"))
  | ProjectContract.StaticFrontend, StaticExport => Ok (Some (StaticFrontend, "static_export"))
  | ProjectContract.Application, NodeHttp => Ok (Some (ApplicationService, "node_http"))
  | ProjectContract.Application, Nextjs16Standalone => Ok (Some (ApplicationService, "nextjs16_standalone"))
  | ProjectContract.Postgres, Postgresql18 => Ok None
  | _, _ => Err (unsupported_graph "the admitted service graph is outside the owned build profile")
  end.

Definition kind_text (k : ServiceKind) : string :=
  match k with StaticFrontend => "static_frontend" | ApplicationService => "application" end.

(** The service of the configuration that has the kind. *)
Definition service_of_kind (d : BxDb) (account project config : Uuid) (k : ServiceKind) : option Uuid :=
  fold_right (fun kr found =>
    if bool_decide (kr.1.1 = config) && bool_decide (sc_account kr.2 = account)
       && bool_decide (sc_project kr.2 = project) && bool_decide (sc_kind kr.2 = kind_text k)
    then Some kr.1.2 else found) None (map_to_list (service_configurations d)).

Definition snapshot_service (d : BxDb) (account project config : Uuid) (lockfile : string)
    (s : ServiceSpec) : res ApiError (option ServiceLease) :=
  res_bind (build_kind s) (fun built =>
  match built with
  | None => Ok None
  | Some (kind, framework) =>
      res_bind (ok_or (service_of_kind d account project config kind)
        (conflict "build_configuration_stale"
           "the saved service graph does not match its configuration")) (fun service =>
      res_bind (ok_or (n ← node s; if one_of (major n) [22; 24]%Z then Some (major n) else None)
        (unprocessable "unsupported_node_version" "the owned build profile supports Node 22 or 24"))
        (fun node_major =>
      res_bind (ok_or (build_command s)
        (unsupported_graph "each build service requires an explicit build command")) (fun command =>
      res_bind (ok_or (output_directory s)
        (unsupported_graph "each build service requires an explicit output directory")) (fun output =>
      res_bind (match kind with
                | ApplicationService =>
                    res_bind (ok_or (start_command s)
                      (unsupported_graph "application service requires a start command")) (fun start =>
                    res_bind (ok_or (health_check s)
                      (unsupported_graph "application service requires an HTTP health path")) (fun h =>
                    Ok (Some (text start), Some (text (hc_path h)))))
                | StaticFrontend => Ok (None, None)
                end) (fun commands =>
      Ok (Some {| sl_service := service; sl_kind := kind;
                  sl_root := from_option text "." (root s); sl_node_major := node_major;
                  sl_framework := framework; sl_lockfile := lockfile; sl_build_command := text command;
                  sl_output := text output; sl_start := commands.1; sl_health := commands.2 |}))))))
  end).

Fixpoint snapshot_each (d : BxDb) (account project config : Uuid) (lockfile : string)
    (specs : list ServiceSpec) : res ApiError (list ServiceLease) :=
  match specs with
  | [] => Ok []
  | s :: rest =>
      res_bind (snapshot_service d account project config lockfile s) (fun o =>
      res_bind (snapshot_each d account project config lockfile rest) (fun leases =>
      Ok (match o with Some l => l :: leases | None => leases end)))
  end.

Definition is_static (s : ServiceLease) : bool := bool_decide (sl_kind s = StaticFrontend).

(** A stable sort: the static frontends first. *)
Definition snapshot_services (d : BxDb) (account project config : Uuid) (spec : StandardProjectSpec)
    : res ApiError (list ServiceLease) :=
  res_bind (ok_or (r ← head (repositories spec); text <$> lockfile_path r)
    (unsupported_graph "a declared lockfile is required")) (fun lockfile =>
  res_bind (snapshot_each d account project config lockfile (ProjectContract.services spec)) (fun leases =>
  let output := List.filter is_static leases ++ List.filter (fun s => negb (is_static s)) leases in
  res_bind (guard_err (bool_decide (output = []) || (2 <? length output)%nat)
    (unsupported_graph "one or two build services are required")) (fun _ =>
  Ok output))).

(** ** Secret references *)

Definition secret_scope_invalid (message : string) : ApiError :=
  unprocessable "build_secret_scope_invalid" message.

Definition secret_snapshot (d : BxDb) (account project service version : Uuid)
    : option (SecretRow * SecretVersionRow) :=
  v ← secret_versions d !! version;
  s ← secrets d !! sv_secret v;
  _ ← where_ (bool_decide (sv_account v = s_account s) && bool_decide (sv_project v = s_project s)
              && bool_decide (sv_service v = s_service s) && bool_decide (s_account s = account)
              && bool_decide (s_project s = project) && bool_decide (s_service s = service)
              && bool_decide (s_operation s = "build"));
  Some (s, v).

Definition snapshot_secret (d : BxDb) (account project : Uuid) (allowed : list Uuid)
    (r : SecretRefRequest) : res ApiError SecretLease :=
  res_bind (guard_err (negb (one_of (rq_service r) allowed))
    (secret_scope_invalid "build environment references must belong to a build service")) (fun _ =>
  res_bind (ok_or (secret_snapshot d account project (rq_service r) (rq_version r))
    (secret_scope_invalid "a secret version is not available in the build scope")) (fun row =>
  res_bind (guard_err (negb (bool_decide (s_credential_kind row.1 = "build_environment"))
                       || negb (s_active row.1))
    (unprocessable "build_credential_kind_denied"
       "only active build_environment credentials may enter the guest")) (fun _ =>
  Ok {| se_service := s_service row.1; se_version := rq_version r; se_name := s_name row.1 |}))).

Fixpoint snapshot_secrets (d : BxDb) (account project : Uuid) (allowed : list Uuid)
    (refs : list SecretRefRequest) : res ApiError (list SecretLease) :=
  match refs with
  | [] => Ok []
  | r :: rest =>
      res_bind (snapshot_secret d account project allowed r) (fun s =>
      res_bind (snapshot_secrets d account project allowed rest) (fun l => Ok (s :: l)))
  end.

(** By service, name and version. *)
Definition secret_le (a b : SecretLease) : Prop :=
  (se_service a < se_service b)%N
  \/ se_service a = se_service b
     /\ (bytes_lt (as_bytes (se_name a)) (as_bytes (se_name b)) = true
         \/ se_name a = se_name b /\ (se_version a <= se_version b)%N).
#[export] Instance secret_le_dec a b : Decision (secret_le a b).
Proof. unfold secret_le. apply _. Defined.

Fixpoint bound_twice (l : list SecretLease) : bool :=
  match l with
  | a :: ((b :: _) as rest) =>
      bool_decide (se_service a = se_service b) && bool_decide (se_name a = se_name b) || bound_twice rest
  | _ => false
  end.

Definition validate_secret_refs (d : BxDb) (account project : Uuid) (refs : list SecretRefRequest)
    (leases : list ServiceLease) : res ApiError (list SecretLease) :=
  res_bind (snapshot_secrets d account project (map sl_service leases) refs) (fun found =>
  let output := merge_sort secret_le found in
  res_bind (guard_err (bound_twice output)
    (secret_scope_invalid "a build environment name may be bound once per service")) (fun _ =>
  Ok output)).
