(* ===== verification/BuildJobs.v ===== *)
(** * Build jobs (crates/control/src/build_jobs.rs)

    An owner enqueues a build of an admitted deployment, which reserves 600 seconds
    of its allowance; a worker leases it under a fence, has its source materialized,
    gets its secrets, and completes it with artifacts; an ended attempt is debited
    for the time it ran.  The source snapshot comes from the GitHub integration and
    is an argument of [materialize]. *)

From stdpp Require Import base list option gmap strings pretty sorting.
From Stdlib Require Import ZArith Lia Ascii.
From S2P Require Import Prelude RustText Bytes ProjectContract PgTx Intent Secrets Admission.
From S2P Require Import Wire PolicyClock ExecutionTables SourceBundle BuildTables BuildInputs.

Local Open Scope string_scope.
Local Open Scope list_scope.

Definition SECOND : Z := 1000000.

(** The configuration of the service. *)
Record BuildConfig := { bc_m3 : option M3Config; bc_key : option SecretKey; bc_lease_seconds : Z }.

(** ** Requests and responses *)

Record LeaseRequest := { lq_worker : string; lq_kinds : list string; lq_profiles : list Profile }.
Record LeaseJob := {
  lj_id : Uuid; lj_account : Uuid; lj_project : Uuid; lj_deployment : Uuid; lj_config : Uuid;
  lj_source : Uuid; lj_report : Uuid; lj_commit : string; lj_tree : string; lj_profile : Profile;
  lj_input_digest : string; lj_secrets : list SecretLease; lj_limits : Limits;
}.
Record AttemptLease := {
  at_lease_id : Uuid; at_number : Z; at_lease_fence : Z; at_worker : string; at_expires : Z;
}.
Record LeaseResponse := { ls_job : LeaseJob; ls_services : list ServiceLease; ls_attempt : AttemptLease }.
Record LiveAttemptRequest := { lv_worker : string; lv_attempt : Uuid; lv_fence : Z }.
Record RenewResponse := { rn_job : Uuid; rn_attempt : Uuid; rn_fence : Z; rn_expires : Z }.
Record MaterializationResponse := {
  ms_commit : string; ms_tree : string; ms_bundle : string; ms_manifest : string; ms_entries : Z;
  ms_bytes : Z;
}.
Record CredentialsRequest := { crq_live : LiveAttemptRequest; crq_versions : list Uuid }.
Record Credential := { cd_service : Uuid; cd_version : Uuid; cd_name : string; cd_value : bytes }.
Record CompleteRequest := { cmq_live : LiveAttemptRequest; cmq_outcome : CompletionOutcome }.
Record BuildDetail := {
  bd_build : BuildJobRecord; bd_artifacts : list Artifact; bd_report : option EffectBody;
}.

Definition fenced : ApiError := conflict "build_job_fenced" "the build lease is no longer current".
Definition source_rejected : ApiError :=
  unprocessable "build_source_rejected" "the exact build source failed immutable source verification".
Definition artifact_invalid (message : string) : ApiError := unprocessable "build_artifact_invalid" message.

Definition valid_worker_id (value : string) : bool :=
  (1 <=? String.length value)%nat && (String.length value <=? 128)%nat
  && negb (existsb is_ascii_control (as_bytes value)).

(** ** Rows after a statement *)

Definition with_build (j : BuildJob) (state : BuildState) (revision attempt_count : Z)
    (current : option Uuid) (fence : Z) (lease : option Z) (code : option string)
    (cleanup : CleanupStatus) : BuildJob := {|
  bj_id := bj_id j; bj_account := bj_account j; bj_project := bj_project j;
  bj_deployment := bj_deployment j; bj_reservation := bj_reservation j; bj_epoch := bj_epoch j;
  bj_proof := bj_proof j; bj_source := bj_source j; bj_compatibility := bj_compatibility j;
  bj_config := bj_config j; bj_commit := bj_commit j; bj_tree := bj_tree j; bj_profile := bj_profile j;
  bj_profile_digest := bj_profile_digest j; bj_materialization := bj_materialization j;
  bj_bundle := bj_bundle j; bj_tree_manifest := bj_tree_manifest j;
  bj_input_digest := bj_input_digest j; bj_state := state; bj_revision := revision;
  bj_attempts := attempt_count; bj_current := current; bj_fence := fence; bj_lease := lease;
  bj_code := code; bj_cleanup := cleanup; bj_created := bj_created j |}.

Definition with_source (j : BuildJob) (materialization : Uuid) (bundle manifest : string) : BuildJob := {|
  bj_id := bj_id j; bj_account := bj_account j; bj_project := bj_project j;
  bj_deployment := bj_deployment j; bj_reservation := bj_reservation j; bj_epoch := bj_epoch j;
  bj_proof := bj_proof j; bj_source := bj_source j; bj_compatibility := bj_compatibility j;
  bj_config := bj_config j; bj_commit := bj_commit j; bj_tree := bj_tree j; bj_profile := bj_profile j;
  bj_profile_digest := bj_profile_digest j; bj_materialization := Some materialization;
  bj_bundle := Some bundle; bj_tree_manifest := Some manifest; bj_input_digest := bj_input_digest j;
  bj_state := bj_state j; bj_revision := bj_revision j; bj_attempts := bj_attempts j;
  bj_current := bj_current j; bj_fence := bj_fence j; bj_lease := bj_lease j; bj_code := bj_code j;
  bj_cleanup := bj_cleanup j; bj_created := bj_created j |}.

(** Only the lease. *)
Definition with_lease (j : BuildJob) (expires : Z) : BuildJob :=
  with_build j (bj_state j) (bj_revision j) (bj_attempts j) (bj_current j) (bj_fence j) (Some expires)
    (bj_code j) (bj_cleanup j).

Definition with_trial (a : BuildAttempt) (state : TrialState) (lease : Z) (launched finished : option Z)
    (code : option string) (hash : option bytes) : BuildAttempt := {|
  bt_id := bt_id a; bt_account := bt_account a; bt_project := bt_project a; bt_job := bt_job a;
  bt_number := bt_number a; bt_fence := bt_fence a; bt_worker := bt_worker a; bt_state := state;
  bt_started := bt_started a; bt_lease := lease; bt_launched := launched; bt_finished := finished;
  bt_code := code; bt_hash := hash |}.

Definition ended_trial (a : BuildAttempt) (state : TrialState) (t : Z) (code : string)
    (hash : option bytes) : BuildAttempt :=
  with_trial a state (bt_lease a) (bt_launched a) (Some t) (Some code) hash.

Definition with_reserved (u : UsageReservation) (state : UsageState) (seconds : Z) (debit : option Uuid)
    (t : Z) : UsageReservation := {|
  ur_account := ur_account u; ur_project := ur_project u; ur_deployment := ur_deployment u;
  ur_entitlement := ur_entitlement u; ur_seconds := Some seconds; ur_state := state; ur_debit := debit;
  ur_finalized := Some t |}.

(** ** Statements *)

Definition update_build (id : Uuid) (cond : BuildJob -> bool) (f : BuildJob -> option BuildJob) : M BxDb nat :=
  d <~ get_db;;
  r <~ sql (update_pk (fun j => job_check j && job_unique (jobs d) j) cond f id (jobs d));;
  put_db (set_jobs r.1 d);;; tret r.2.

(** [WHERE job_id=$1 AND id=$2 AND fence=$3 AND state='running']. *)
Definition running_attempt (job : Uuid) (fence : Z) (a : BuildAttempt) : bool :=
  bool_decide (bt_job a = job) && (bt_fence a =? fence)%Z && bool_decide (bt_state a = TRunning).

Definition update_attempt (job attempt : Uuid) (fence : Z) (also : BuildAttempt -> bool)
    (f : BuildAttempt -> BuildAttempt) : M BxDb nat :=
  d <~ get_db;;
  r <~ sql (update_pk attempt_check (fun a => running_attempt job fence a && also a)
              (fun a => Some (f a)) attempt (attempts d));;
  put_db (set_attempts r.1 d);;; tret r.2.

Definition is_reserved (u : UsageReservation) : bool := bool_decide (ur_state u = UReserved).

(** [UPDATE build_usage_reservations ... WHERE job_id=$1 AND state='reserved']. *)
Definition settle_reservation (job : Uuid) (state : UsageState) (seconds : Z) (debit : option Uuid) : M BxDb unit :=
  t <~ clock_timestamp;;
  d <~ get_db;;
  r <~ sql (update_pk reserved_check is_reserved (fun u => Some (with_reserved u state seconds debit t)) job
              (reserved d));;
  put_db (set_reserved r.1 d).
Definition release_reservation (job : Uuid) : M BxDb unit := settle_reservation job UReleased 0 None.
Definition finalize_reservation (job : Uuid) (billed : Z) (debit : option Uuid) : M BxDb unit :=
  settle_reservation job UFinalized billed debit.

(** The debit of the seconds an attempt ran. *)
Definition debit_usage (job account project deployment attempt : Uuid) (billed : Z) : M BxDb (option Uuid) :=
  if (0 <? billed)%Z then
    d <~ get_db;;
    entitlement <~ sql (u ← reserved d !! job; _ ← where_ (is_reserved u); Some (ur_entitlement u));;
    event <~ new_uuid;;
    zoom adm set_adm (insert_usage event {|
      u_account := account; u_project := project; u_deployment := deployment;
      u_entitlement := entitlement; u_attempt := attempt; u_kind := Debit; u_seconds := billed;
      u_debit := None; u_fault := None |});;;
    tret (Some event)
  else tret None.

Definition load_build (d : BxDb) (account project job : Uuid) : option BuildJob :=
  j ← jobs d !! job;
  _ ← where_ (bool_decide (bj_account j = account) && bool_decide (bj_project j = project));
  Some j.

(** [ORDER BY kind]; a kind occurs once. *)
Definition load_artifacts (d : BxDb) (job : Uuid) : list Artifact :=
  omap (fun kind => select_first (fun _ a => bool_decide (at_job a = job) && bool_decide (at_kind a = kind))
                      (fun _ _ => true) (artifacts d))
    [ApplicationArtifact; StaticArtifact].

Section Handlers.
Context (B : BuildExternals) (st : BuildConfig).

(** ** Enqueueing *)

Definition validate_enqueue (q : EnqueueRequest) : res ApiError unit :=
  guard_err (negb (profile_allowed (enq_profile q)) || (MAX_SECRETS <? length (enq_secrets q))%nat
             || negb (all_distinct (map rq_version (enq_secrets q))))
    (unprocessable "invalid_build_request" "the build profile or secret references are invalid").

Record EnqueueContext := {
  ec_project : Project; ec_deployment : Deployment; ec_source : SourceRevision;
  ec_tree : option string; ec_report : CompatibilityReport; ec_proof : SourceProof;
  ec_reservation : Reservation; ec_entitlement : Entitlement;
}.

Definition enqueue_context (d : BxDb) (account project deployment : Uuid) (q : EnqueueRequest)
    : option EnqueueContext :=
  p ← projects (adm d) !! project;
  dp ← deployments (adm d) !! deployment;
  s ← source_revisions (adm d) !! enq_source q;
  c ← reports d !! enq_report q;
  sp ← proofs (adm d) !! enq_proof q;
  r ← reservations (adm d) !! enq_reservation q;
  e ← entitlements (adm d) !! account;
  _ ← where_ (bool_decide (pj_account p = account)
              && bool_decide (dp_account dp = account) && bool_decide (dp_project dp = project)
              && bool_decide (gs_account s = account) && bool_decide (gs_project s = project)
              && bool_decide (cp_account c = account) && bool_decide (cp_project c = project)
              && bool_decide (sp_account sp = account) && bool_decide (sp_project sp = project)
              && bool_decide (sp_deployment sp = deployment)
              && bool_decide (rv_account r = account) && bool_decide (rv_project r = project)
              && bool_decide (en_id e = rv_entitlement r));
  Some {| ec_project := p; ec_deployment := dp; ec_source := s; ec_tree := source_trees d !! enq_source q;
          ec_report := c; ec_proof := sp; ec_reservation := r; ec_entitlement := e |}.

(** The tuple that must match exactly; a proof expires on real time. *)
Definition source_stale (c : EnqueueContext) (q : EnqueueRequest) (utc_now : Z) : bool :=
  let config := dp_config (ec_deployment c) in
  let commit := dp_commit (ec_deployment c) in
  negb (bool_decide (pj_config (ec_project c) = Some config))
  || negb (bool_decide (gs_config (ec_source c) = config))
  || negb (bool_decide (cp_config (ec_report c) = config))
  || negb (bool_decide (sp_config (ec_proof c) = config))
  || negb (bool_decide (cp_source (ec_report c) = enq_source q))
  || negb (bool_decide (commit = gs_commit (ec_source c)))
  || negb (bool_decide (commit = sp_commit (ec_proof c)))
  || negb (bool_decide (cp_analyzer (ec_report c) = ANALYZER_REVISION))
  || negb (bool_decide (cp_status (ec_report c) = "candidate"))
  || negb (bool_decide (sp_state (ec_proof c) = PValid)) || (sp_expires (ec_proof c) <=? utc_now)%Z.

Definition entitled (e : Entitlement) (now : Z) : bool :=
  bool_decide (en_state e = EActive) && (en_starts e <=? now)%Z && (now <? en_ends e)%Z.

Definition not_admitted (c : EnqueueContext) (q : EnqueueRequest) (now : Z) : bool :=
  negb (bool_decide (enq_epoch q = rv_epoch (ec_reservation c)))
  || negb (one_of (rv_state (ec_reservation c)) [Reserved; ResourcesRetained])
  || negb (entitled (ec_entitlement c) now)
  || negb (one_of (dp_lifecycle (ec_deployment c)) [LQueued; AdmissionRequired]).

Definition rollout_admitted (d : BxDb) (account project deployment : Uuid) (q : EnqueueRequest) : bool :=
  exists_row (fun h => bool_decide (h_account h = account) && bool_decide (h_project h = project)
    && bool_decide (h_deployment h = deployment) && bool_decide (h_reservation h = Some (enq_reservation q))
    && bool_decide (h_epoch h = Some (enq_epoch q)) && bool_decide (h_kind h = Rollout)
    && bool_decide (h_state h = HConsumed)) (holds (adm d)).

(** Debits less credits, and what is reserved, of an entitlement. *)
Definition signed_seconds (u : Usage) : Z :=
  match u_kind u with Debit => u_seconds u | PlatformFaultCredit => - u_seconds u end.
Definition seconds_used (d : BxDb) (entitlement : Uuid) : Z :=
  (table_sum (fun _ u => if bool_decide (u_entitlement u = entitlement) then signed_seconds u else 0%Z)
     (usage (adm d))
   + table_sum (fun _ u => if bool_decide (ur_entitlement u = entitlement) && is_reserved u
                           then RESERVED_SECONDS else 0%Z) (reserved d))%Z.

Definition admission_invalid (message : string) : ApiError := conflict "build_admission_invalid" message.

Fixpoint insert_service_snapshots (job : Uuid) (ordinal : Z) (leases : list ServiceLease) : M BxDb unit :=
  match leases with
  | [] => tret tt
  | s :: rest =>
      d <~ get_db;;
      rows <~ sql (insert_pk (fun r => service_check r && service_unique job (services d) r)
        (job, sl_service s)
        {| bs_ordinal := ordinal; bs_kind := sl_kind s; bs_root := Some (sl_root s);
           bs_node_major := sl_node_major s; bs_framework := sl_framework s; bs_lockfile := sl_lockfile s;
           bs_build_command := sl_build_command s; bs_output := sl_output s;
           bs_start_command := sl_start s; bs_health_path := sl_health s |} (services d));;
      put_db (set_services rows d);;; insert_service_snapshots job (ordinal + 1) rest
  end.

Fixpoint insert_secret_snapshots (job account project : Uuid) (leases : list SecretLease) : M BxDb unit :=
  match leases with
  | [] => tret tt
  | s :: rest =>
      d <~ get_db;;
      secret <~ sql (v ← secret_versions d !! se_version s;
                     _ ← where_ (bool_decide (sv_account v = account) && bool_decide (sv_project v = project)
                                 && bool_decide (sv_service v = se_service s));
                     Some (sv_secret v));;
      rows <~ sql (insert_pk (fun r => text_within 1 128 (sr_name r) && secret_ref_unique job (secret_refs d) r)
        (job, se_version s)
        {| sr_account := account; sr_project := project; sr_service := se_service s; sr_secret := secret;
           sr_name := se_name s |} (secret_refs d));;
      put_db (set_secret_refs rows d);;; insert_secret_snapshots job account project rest
  end.

Definition insert_reservation (job account project deployment entitlement : Uuid) : M BxDb unit :=
  d <~ get_db;;
  rows <~ sql (insert_pk reserved_check job
    {| ur_account := account; ur_project := project; ur_deployment := deployment;
       ur_entitlement := entitlement; ur_seconds := None; ur_state := UReserved; ur_debit := None;
       ur_finalized := None |} (reserved d));;
  put_db (set_reserved rows d).

Definition insert_job (j : BuildJob) : M BxDb unit :=
  d <~ get_db;;
  rows <~ sql (insert_pk (fun r => job_check r && job_unique (jobs d) r) (bj_id j) j (jobs d));;
  put_db (set_jobs rows d).

Definition new_build (id account project deployment : Uuid) (c : EnqueueContext) (q : EnqueueRequest)
    (tree : string) (profile : Profile) (input_digest : string) (created : Z) : BuildJob := {|
  bj_id := id; bj_account := account; bj_project := project; bj_deployment := deployment;
  bj_reservation := enq_reservation q; bj_epoch := enq_epoch q; bj_proof := enq_proof q;
  bj_source := enq_source q; bj_compatibility := enq_report q; bj_config := dp_config (ec_deployment c);
  bj_commit := dp_commit (ec_deployment c); bj_tree := tree; bj_profile := pr_id profile;
  bj_profile_digest := pr_digest profile; bj_materialization := None; bj_bundle := None;
  bj_tree_manifest := None; bj_input_digest := input_digest; bj_state := BQueued; bj_revision := 1;
  bj_attempts := 0; bj_current := None; bj_fence := 0; bj_lease := None; bj_code := None;
  bj_cleanup := NotStarted; bj_created := created |}.

(** The checks of an admitted build: the tree and the profile. *)
Definition enqueue_checks (d : BxDb) (account project deployment expected : _) (q : EnqueueRequest)
    (c : EnqueueContext) (now utc_now : Z)
    : res ApiError (string * list ServiceLease * Profile * list SecretLease) :=
  res_bind (ok_or (ec_tree c)
    (conflict "build_source_unverified" "the exact source tree is not verified")) (fun tree =>
  res_bind (guard_err (negb (pj_revision (ec_project c) =? expected)%Z) stale_revision) (fun _ =>
  res_bind (guard_err (source_stale c q utc_now) (conflict "build_source_stale"
    "the current source, compatibility report, and admission proof must match exactly")) (fun _ =>
  res_bind (guard_err (not_admitted c q now)
    (admission_invalid "an active admitted reservation generation is required")) (fun _ =>
  res_bind (guard_err (negb (bool_decide (rv_first (ec_reservation c) = deployment))
                       && negb (rollout_admitted d account project deployment q))
    (admission_invalid "a consumed rollout hold is required for this deployment")) (fun _ =>
  res_bind (guard_err (en_build_seconds (ec_entitlement c)
                       <? seconds_used d (rv_entitlement (ec_reservation c)) + RESERVED_SECONDS)%Z
    (conflict "build_allowance_exhausted" "the admitted build allowance cannot reserve this build")) (fun _ =>
  res_bind (ok_or (s ← configurations d !! dp_config (ec_deployment c);
                   _ ← where_ (bool_decide (cn_account s = account) && bool_decide (cn_project s = project));
                   Some (cn_spec s)) database_unavailable) (fun spec =>
  res_bind (snapshot_services d account project (dp_config (ec_deployment c)) spec) (fun leases =>
  res_bind (derive_profile_id B (bc_m3 st) leases (dp_commit (ec_deployment c)) (enq_profile q)) (fun derived =>
  res_bind (guard_err (negb (bool_decide (enq_profile q = derived)))
    (unprocessable "build_profile_not_admitted"
       "the owned-fixture source and service graph require a different build profile")) (fun _ =>
  res_bind (load_profile B (bc_m3 st) derived) (fun profile =>
  res_bind (validate_secret_refs d account project (enq_secrets q) leases) (fun secret_leases =>
  Ok (tree, leases, profile, secret_leases))))))))))))).

Definition enqueue (caller : Authenticated) (project_id deployment_id : string) (headers : Headers)
    (q : EnqueueRequest) : M BxDb (Answer BuildJobRecord) :=
  _ <~ lift (require_enabled (bc_m3 st));;
  _ <~ lift (validate_enqueue q);;
  let account := account_id caller in
  project <~ lift (path_uuid (b_parse_uuid B) project_id);;
  deployment <~ lift (path_uuid (b_parse_uuid B) deployment_id);;
  expected <~ lift (if_match_revision headers);;
  key <~ lift (idempotency_key headers);;
  let hash := b_enqueue_hash B q in
  let operation := "m3.build.enqueue/" +:+ b_uuid_text B project +:+ "/" +:+ b_uuid_text B deployment in
  clock_transaction (
    created <~ clock_timestamp;;
    stored <~ replay Some account operation key hash;;
    match stored with
    | Match value => tret (Ok (Found value))
    | Changed => raise idempotency_changed
    | Miss =>
        d <~ get_db;;
        reject_if (negb (bool_decide (account ∈ accounts d))) not_found;;;
        c <~ lift (ok_or (enqueue_context d account project deployment q) not_found);;
        now <~ policy_now (bc_m3 st);;
        utc_now <~ clock_timestamp;;
        d <~ get_db;;
        '(tree, leases, profile, secret_leases) <~
          lift (enqueue_checks d account project deployment expected q c now utc_now);;
        job <~ new_uuid;;
        let input := {|
          in_execution := job; in_source := enq_source q; in_config := dp_config (ec_deployment c);
          in_report := enq_report q; in_commit := dp_commit (ec_deployment c); in_tree := tree;
          in_profile := profile; in_services := leases; in_secrets := secret_leases |} in
        let digest := text_digest B (b_input_json B input) in
        match select_first (fun _ j => bool_decide (bj_deployment j = deployment)
                                       && bool_decide (bj_input_digest j = digest))
                (fun _ _ => true) (jobs d) with
        | Some existing =>
            j <~ lift (ok_or (load_build d account project (bj_id existing)) internal);;
            store_replay account operation key hash 200 (build_record j);;;
            tret (Ok (Found (build_record j)))
        | None =>
            _ <~ sql (where_ (b_input_fits B input));;
            insert_job (new_build job account project deployment c q tree profile digest created);;;
            insert_service_snapshots job 0 leases;;;
            insert_secret_snapshots job account project secret_leases;;;
            insert_reservation job account project deployment (rv_entitlement (ec_reservation c));;;
            d' <~ get_db;;
            j <~ lift (ok_or (load_build d' account project job) internal);;
            audit account (session_id caller) "m3.build.enqueue" "build_job" (Some job) "succeeded";;;
            store_replay account operation key hash 201 (build_record j);;;
            tret (Ok (Created (build_record j)))
        end
    end).

Definition get_build (caller : Authenticated) (project_id job_id : string) : M BxDb BuildDetail :=
  _ <~ lift (require_enabled (bc_m3 st));;
  project <~ lift (path_uuid (b_parse_uuid B) project_id);;
  job <~ lift (path_uuid (b_parse_uuid B) job_id);;
  d <~ get_db;;
  j <~ lift (ok_or (load_build d (account_id caller) project job) not_found);;
  tret {| bd_build := build_record j; bd_artifacts := load_artifacts d job;
          bd_report := ef_body <$> effects d !! job |}.

(** ** Cancelling *)

Definition ended (s : BuildState) : bool := one_of s [BSucceeded; BFailed; BCanceled].

Definition cancel_job (job : Uuid) (j : BuildJob) : M BxDb unit :=
  match bj_current j with
  | Some attempt =>
      t <~ clock_timestamp;;
      _ <~ update_attempt job attempt (bj_fence j) (fun _ => true)
             (fun a => ended_trial a TCanceled t "build_canceled" (bt_hash a));;
      tret tt
  | None => release_reservation job
  end;;;
  _ <~ update_build job (fun _ => true) (fun j =>
    r ← bigint_succ (bj_revision j); f ← bigint_succ (bj_fence j);
    Some (with_build j BCanceled r (bj_attempts j) None f None (Some "build_canceled")
            (if is_none (bj_current j) then NotStarted else CleanupPending)));;
  tret tt.

Definition cancel (caller : Authenticated) (project_id job_id : string) (headers : Headers)
    : M BxDb BuildJobRecord :=
  _ <~ lift (require_enabled (bc_m3 st));;
  let account := account_id caller in
  project <~ lift (path_uuid (b_parse_uuid B) project_id);;
  job <~ lift (path_uuid (b_parse_uuid B) job_id);;
  expected <~ lift (if_match_revision headers);;
  key <~ lift (idempotency_key headers);;
  let hash := b_empty_hash B in
  let operation := "m3.build.cancel/" +:+ b_uuid_text B job in
  transaction (
    stored <~ replay Some account operation key hash;;
    match stored with
    | Match value => tret (Ok value)
    | Changed => raise idempotency_changed
    | Miss =>
        d <~ get_db;;
        j <~ lift (ok_or (load_build d account project job) not_found);;
        reject_if (negb (bj_revision j =? expected)%Z) stale_revision;;;
        (if ended (bj_state j) then tret tt else cancel_job job j);;;
        d' <~ get_db;;
        j' <~ lift (ok_or (load_build d' account project job) internal);;
        audit account (session_id caller) "m3.build.cancel" "build_job" (Some job) "succeeded";;;
        store_replay account operation key hash 200 (build_record j');;;
        tret (Ok (build_record j'))
    end).

(** ** Leasing *)

Definition lease_seconds : Z := Z.max 5 (Z.min (bc_lease_seconds st) 300).

Definition invalid_worker (q : LeaseRequest) : bool :=
  negb (valid_worker_id (lq_worker q)) || negb (bool_decide (lq_kinds q = ["project_build"]))
  || bool_decide (lq_profiles q = []) || (3 <? length (lq_profiles q))%nat
  || negb (bool_decide (NoDup (map pr_id (lq_profiles q)))).

Fixpoint check_offered (offered : list Profile) : res ApiError unit :=
  match offered with
  | [] => Ok tt
  | p :: rest =>
      res_bind (load_profile B (bc_m3 st) (pr_id p)) (fun current =>
      res_bind (guard_err (negb (bool_decide (pr_digest current = pr_digest p)))
        (unprocessable "build_profile_digest_changed"
           "the worker profile does not match the approved current profile bytes")) (fun _ =>
      check_offered rest))
  end.

Definition offered (q : LeaseRequest) (j : BuildJob) : bool :=
  existsb (fun p => bool_decide (pr_id p = bj_profile j) && bool_decide (pr_digest p = bj_profile_digest j))
    (lq_profiles q).

(** The account runs a build, or one of its builds has not been cleaned up. *)
Definition account_busy (d : BxDb) (account : Uuid) : bool :=
  exists_row (fun j => bool_decide (bj_account j = account) && occupies j) (jobs d).

Definition claimable (d : BxDb) (q : LeaseRequest) (j : BuildJob) : bool :=
  one_of (bj_state j) [BQueued; BRetriable] && (bj_attempts j <? 3)%Z && offered q j
  && negb (account_busy d (bj_account j)).

(** [ORDER BY created_at,id]. *)
Definition created_order (a b : BuildJob) : bool :=
  (bj_created a <? bj_created b)%Z || (bj_created a =? bj_created b)%Z && (bj_id a <=? bj_id b)%N.

(** Is the build still admitted? [None] when a row is missing. *)
Definition still_admitted (d : BxDb) (j : BuildJob) (now : Z) : option bool :=
  r ← reservations (adm d) !! bj_reservation j;
  e ← entitlements (adm d) !! bj_account j;
  sp ← proofs (adm d) !! bj_proof j;
  _ ← where_ (bool_decide (rv_account r = bj_account j) && bool_decide (rv_project r = bj_project j)
              && bool_decide (en_id e = rv_entitlement r)
              && bool_decide (sp_account sp = bj_account j) && bool_decide (sp_project sp = bj_project j)
              && bool_decide (sp_deployment sp = bj_deployment j));
  Some (one_of (rv_state r) [Reserved; ResourcesRetained] && bool_decide (rv_epoch r = bj_epoch j)
        && entitled e now && bool_decide (sp_state sp = PValid) && (now <? sp_expires sp)%Z).

Definition service_lease (service : Uuid) (s : BuildService) : option ServiceLease :=
  root ← bs_root s;
  Some {| sl_service := service; sl_kind := bs_kind s; sl_root := root; sl_node_major := bs_node_major s;
          sl_framework := bs_framework s; sl_lockfile := bs_lockfile s;
          sl_build_command := bs_build_command s; sl_output := bs_output s;
          sl_start := bs_start_command s; sl_health := bs_health_path s |}.

Definition ordinal_le (a b : Uuid * BuildService) : Prop := (bs_ordinal a.2 <= bs_ordinal b.2)%Z.
#[local] Instance ordinal_le_dec a b : Decision (ordinal_le a b).
Proof. unfold ordinal_le. apply _. Defined.

(** The services of a job in their order, and its secret references in theirs. *)
Definition job_services (d : BxDb) (job : Uuid) : list (Uuid * BuildService) :=
  merge_sort ordinal_le (omap (fun kr => if bool_decide (kr.1.1 = job) then Some (kr.1.2, kr.2) else None)
                           (map_to_list (services d))).
Definition job_secrets (d : BxDb) (job : Uuid) : list SecretLease :=
  merge_sort secret_le (omap (fun kr => if bool_decide (kr.1.1 = job)
      then Some {| se_service := sr_service kr.2; se_version := kr.1.2; se_name := sr_name kr.2 |} else None)
    (map_to_list (secret_refs d))).

Definition insert_attempt (a : BuildAttempt) : M BxDb unit :=
  d <~ get_db;;
  rows <~ sql (insert_pk (fun r => attempt_check r && attempt_unique (attempts d) r) (bt_id a) a (attempts d));;
  put_db (set_attempts rows d).

Definition start_attempt (j : BuildJob) (worker : string) : M BxDb LeaseResponse :=
  let job := bj_id j in
  let number := (bj_attempts j + 1)%Z in
  let fence := wrap_i64 (bj_fence j + 1) in
  attempt <~ new_uuid;;
  t <~ clock_timestamp;;
  let expires := (t + lease_seconds * SECOND)%Z in
  started <~ clock_timestamp;;
  insert_attempt {|
    bt_id := attempt; bt_account := bj_account j; bt_project := bj_project j; bt_job := job;
    bt_number := number; bt_fence := fence; bt_worker := worker; bt_state := TRunning;
    bt_started := started; bt_lease := expires; bt_launched := None; bt_finished := None;
    bt_code := None; bt_hash := None |};;;
  _ <~ update_build job (fun _ => true) (fun j =>
    r ← bigint_succ (bj_revision j);
    Some (with_build j BRunning r number (Some attempt) fence (Some expires) (bj_code j) (bj_cleanup j)));;
  d <~ get_db;;
  leases <~ sql (mapM (fun ks => service_lease ks.1 ks.2) (job_services d job));;
  tret {|
    ls_job := {|
      lj_id := job; lj_account := bj_account j; lj_project := bj_project j;
      lj_deployment := bj_deployment j; lj_config := bj_config j; lj_source := bj_source j;
      lj_report := bj_compatibility j; lj_commit := bj_commit j; lj_tree := bj_tree j;
      lj_profile := {| pr_id := bj_profile j; pr_digest := bj_profile_digest j |};
      lj_input_digest := bj_input_digest j; lj_secrets := job_secrets d job; lj_limits := limits |};
    ls_services := leases;
    ls_attempt := {| at_lease_id := attempt; at_number := number; at_lease_fence := fence;
                     at_worker := worker; at_expires := expires |} |}.

(** A build that is no longer admitted ends without having been launched. *)
Definition fail_stale (job : Uuid) : M BxDb unit :=
  _ <~ update_build job (fun _ => true) (fun j =>
    r ← bigint_succ (bj_revision j);
    Some (with_build j BFailed r (bj_attempts j) (bj_current j) (bj_fence j) (bj_lease j)
            (Some "build_admission_stale") (bj_cleanup j)));;
  release_reservation job.

(** [None] is the answer without content. *)
Definition lease (q : LeaseRequest) : M BxDb (option LeaseResponse) :=
  _ <~ lift (require_enabled (bc_m3 st));;
  _ <~ lift (guard_err (invalid_worker q) (unprocessable "invalid_build_worker"
    "the worker identity, kind, or profile is unsupported"));;
  _ <~ lift (check_offered (lq_profiles q));;
  transaction (
    now <~ clock_timestamp;;
    locked <~ locked_rows;;
    d <~ get_db;;
    match select_first (fun id j => claimable d q j && negb (locked id)) created_order (jobs d) with
    | None => tret (Ok None)
    | Some j =>
        if account_busy d (bj_account j) then tret (Ok None)
        else if bool_decide (still_admitted d j now = Some true) then
          response <~ start_attempt j (lq_worker q);; tret (Ok (Some response))
        else fail_stale (bj_id j);;; tret (Ok None)
    end).

(** ** The live attempt *)

Definition lock_live_attempt (job : Uuid) (q : LiveAttemptRequest) : M BxDb BuildJob :=
  reject_if (negb (valid_worker_id (lv_worker q)) || (lv_fence q <=? 0)%Z) fenced;;;
  now <~ clock_timestamp;;
  d <~ get_db;;
  match jobs d !! job, attempts d !! lv_attempt q with
  | Some j, Some a =>
      if bool_decide (bj_state j = BRunning) && bool_decide (bj_current j = Some (lv_attempt q))
         && (bj_fence j =? lv_fence q)%Z && is_some_and (fun l => now <? l)%Z (bj_lease j)
         && bool_decide (bt_job a = job) && (bt_fence a =? bj_fence j)%Z
         && bool_decide (bt_state a = TRunning) && bool_decide (bt_worker a = lv_worker q)
         && (now <? bt_lease a)%Z
      then tret j else raise fenced
  | _, _ => raise fenced
  end.

Definition live_job (q : LiveAttemptRequest) (j : BuildJob) : bool :=
  bool_decide (bj_state j = BRunning) && bool_decide (bj_current j = Some (lv_attempt q))
  && (bj_fence j =? lv_fence q)%Z.

(** Both leases; the rows that were written. *)
Definition extend_leases (job : Uuid) (q : LiveAttemptRequest) (also : BuildAttempt -> bool) (expires : Z)
    : M BxDb (nat * nat) :=
  n <~ update_attempt job (lv_attempt q) (lv_fence q) also
         (fun a => with_trial a (bt_state a) expires (bt_launched a) (bt_finished a) (bt_code a) (bt_hash a));;
  m <~ update_build job (live_job q) (fun j => Some (with_lease j expires));;
  tret (n, m).

Definition renew (job_id : string) (q : LiveAttemptRequest) : M BxDb RenewResponse :=
  _ <~ lift (require_enabled (bc_m3 st));;
  job <~ lift (path_uuid (b_parse_uuid B) job_id);;
  transaction (
    _ <~ lock_live_attempt job q;;
    t <~ clock_timestamp;;
    let expires := (t + lease_seconds * SECOND)%Z in
    _ <~ extend_leases job q (fun _ => true) expires;;
    tret (Ok {| rn_job := job; rn_attempt := lv_attempt q; rn_fence := lv_fence q; rn_expires := expires |})).

(** ** Materialization *)

Definition handoff_source_rejection (job : Uuid) (q : LiveAttemptRequest) : M BxDb unit :=
  t <~ clock_timestamp;;
  '(n, m) <~ extend_leases job q (fun a => bool_decide (bt_worker a = lv_worker q))
               (t + SOURCE_REJECTION_COMPLETION_SECONDS * SECOND)%Z;;
  reject_if (negb (n =? 1)%nat || negb (m =? 1)%nat) fenced.

Definition deterministic_source_rejection (e : ApiError) : bool :=
  one_of (error_code e)
    ["build_source_rejected"; "build_source_stale"; "github_access_denied";
     "github_provider_limit_exceeded"; "invalid_github_source"; "source_limit_exceeded";
     "source_path_invalid"; "unsupported_github_source"].

Definition materialization_key (m o : Materialization) : bool :=
  bool_decide (mt_deployment o = mt_deployment m) && bool_decide (mt_source o = mt_source m)
  && bool_decide (mt_config o = mt_config m) && bool_decide (mt_commit o = mt_commit m)
  && bool_decide (mt_tree o = mt_tree m) && bool_decide (mt_revision o = mt_revision m).

(** [INSERT ... ON CONFLICT ... DO UPDATE ... RETURNING id] and the stored row. *)
Definition insert_materialization (m : Materialization) : M BxDb (Uuid * Materialization) :=
  id <~ new_uuid;;
  d <~ get_db;;
  _ <~ sql (where_ (materialization_check m));;
  match List.find (fun kr => materialization_key m kr.2) (map_to_list (materializations d)) with
  | Some (k, o) => tret (k, o)
  | None =>
      rows <~ sql (insert_pk (fun _ => true) id m (materializations d));;
      put_db (set_materializations rows d);;; tret (id, m)
  end.

(** The commit of the rejection, and the answer. *)
Definition reject_source {A} (job : Uuid) (q : LiveAttemptRequest) : M BxDb (res ApiError A) :=
  handoff_source_rejection job q;;; tret (Err source_rejected).

Definition stored_response (j : BuildJob) (bundle manifest : string) (m : Materialization) : MaterializationResponse :=
  {| ms_commit := bj_commit j; ms_tree := bj_tree j; ms_bundle := bundle; ms_manifest := manifest;
     ms_entries := mt_entries m; ms_bytes := mt_bytes m |}.

Definition write_source (job : Uuid) (q : LiveAttemptRequest) (j : BuildJob) (count : Z)
    (bundle : bytes) (entries : list SourceEntry) (total : Z) : M BxDb (res ApiError MaterializationResponse) :=
  let bundle_digest := text_digest B bundle in
  let manifest_bytes := b_tree_json B entries in
  let manifest_digest := text_digest B manifest_bytes in
  _ <~ lift (store_cas B bundle_digest bundle);;
  _ <~ lift (store_cas B manifest_digest manifest_bytes);;
  _ <~ lift (guard_err ((max_i32 <? count)%Z || (max_i64 <? total)%Z) internal);;
  let m := {|
    mt_account := bj_account j; mt_project := bj_project j; mt_deployment := bj_deployment j;
    mt_source := bj_source j; mt_config := bj_config j; mt_report := bj_compatibility j;
    mt_commit := bj_commit j; mt_tree := bj_tree j; mt_revision := MATERIALIZER_REVISION;
    mt_bundle := bundle_digest; mt_manifest := manifest_digest; mt_entries := count; mt_bytes := total |} in
  '(id, stored) <~ insert_materialization m;;
  if bool_decide (mt_bundle stored = bundle_digest) && bool_decide (mt_manifest stored = manifest_digest)
     && (mt_entries stored =? count)%Z && (mt_bytes stored =? total)%Z
  then
    n <~ update_build job (live_job q) (fun j => Some (with_source j id bundle_digest manifest_digest));;
    reject_if (negb (n =? 1)%nat) fenced;;;
    tret (Ok (stored_response j bundle_digest manifest_digest m))
  else reject_source job q.

(** [snapshot] is what the GitHub integration returns for the job. *)
Definition materialize (snapshot : BxDb -> BuildJob -> res ApiError (list BuildSourceFile))
    (job_id : string) (q : LiveAttemptRequest) : M BxDb MaterializationResponse :=
  _ <~ lift (require_enabled (bc_m3 st));;
  job <~ lift (path_uuid (b_parse_uuid B) job_id);;
  transaction (
    j <~ lock_live_attempt job q;;
    d <~ get_db;;
    match bj_materialization j, bj_bundle j, bj_tree_manifest j with
    | Some id, Some bundle, Some manifest =>
        m <~ lift (ok_or (materializations d !! id) internal);;
        _ <~ lift (verify_cas_digest B bundle);;
        _ <~ lift (verify_cas_digest B manifest);;
        tret (Ok (stored_response j bundle manifest m))
    | _, _, _ =>
        match snapshot d j with
        | Err e => if deterministic_source_rejection e then reject_source job q else raise e
        | Ok files =>
            match canonical_source_bundle (b_lowercase B) (fun bs => to_text (hex_encode (b_sha256 B bs))) files with
            | Err e => if deterministic_source_rejection e then reject_source job q else raise e
            | Ok (bundle, entries, total) =>
                write_source job q j (Z.of_nat (length files)) bundle entries total
            end
        end
    end).

(** ** Credentials *)

Definition build_secret_aad (account project service secret version : Uuid) : bytes :=
  fold_left append_field
    [lit "hostlet-secret/v1"; uuid_bytes account; uuid_bytes project; uuid_bytes service; lit "build";
     lit "build_environment"; uuid_bytes secret; uuid_bytes version] [].

(** An active build secret bound to the job, with its version. *)
Definition bound_secret (d : BxDb) (job account project version : Uuid) (r : BuildSecretRef)
    : option SecretVersionRow :=
  s ← secrets d !! sr_secret r;
  v ← secret_versions d !! version;
  _ ← where_ (bool_decide (sr_account r = account) && bool_decide (sr_project r = project)
              && bool_decide (s_account s = sr_account r) && bool_decide (s_project s = sr_project r)
              && bool_decide (s_service s = sr_service r) && bool_decide (s_operation s = "build")
              && bool_decide (s_credential_kind s = "build_environment") && s_active s
              && bool_decide (sv_account v = sr_account r) && bool_decide (sv_project v = sr_project r)
              && bool_decide (sv_service v = sr_service r) && bool_decide (sv_secret v = sr_secret r));
  Some v.

Record CredentialRow := { cw_lease : SecretLease; cw_secret : Uuid; cw_row : SecretVersionRow }.
Definition credential_le (a b : CredentialRow) : Prop := secret_le (cw_lease a) (cw_lease b).
#[local] Instance credential_le_dec a b : Decision (credential_le a b).
Proof. unfold credential_le. apply _. Defined.

Definition credential_rows (d : BxDb) (job account project : Uuid) (versions : list Uuid) : list CredentialRow :=
  merge_sort credential_le (omap (fun kr : (Uuid * Uuid) * BuildSecretRef =>
    if bool_decide (kr.1.1 = job) && one_of kr.1.2 versions then
      v ← bound_secret d job account project kr.1.2 kr.2;
      Some {| cw_lease := {| se_service := sr_service kr.2; se_version := kr.1.2; se_name := sr_name kr.2 |};
              cw_secret := sr_secret kr.2; cw_row := v |}
    else None) (map_to_list (secret_refs d))).

Definition open_credential (key : SecretKey) (account project : Uuid) (r : CredentialRow)
    : res ApiError Credential :=
  let v := cw_row r in
  res_bind (guard_err (negb (bool_decide (sv_key_version v = key_version key))) foundation_unavailable) (fun _ =>
  res_bind (ok_or (decrypt (b_aead B) key
      (build_secret_aad account project (se_service (cw_lease r)) (cw_secret r) (se_version (cw_lease r)))
      (sv_nonce v) (sv_ciphertext v) (sv_auth_tag v)) foundation_unavailable) (fun plaintext =>
  res_bind (guard_err (negb (utf8_valid plaintext)) foundation_unavailable) (fun _ =>
  Ok {| cd_service := se_service (cw_lease r); cd_version := se_version (cw_lease r);
        cd_name := se_name (cw_lease r); cd_value := plaintext |}))).

Fixpoint open_credentials (key : SecretKey) (account project : Uuid) (rows : list CredentialRow)
    : res ApiError (list Credential) :=
  match rows with
  | [] => Ok []
  | r :: rest =>
      res_bind (open_credential key account project r) (fun c =>
      res_bind (open_credentials key account project rest) (fun l => Ok (c :: l)))
  end.

(** [COALESCE(launched_at, clock_timestamp())]. *)
Definition mark_launched (job : Uuid) (q : LiveAttemptRequest) : M BxDb unit :=
  t <~ clock_timestamp;;
  _ <~ update_attempt job (lv_attempt q) (lv_fence q) (fun _ => true) (fun a =>
    with_trial a (bt_state a) (bt_lease a) (Some (default t (bt_launched a))) (bt_finished a) (bt_code a)
      (bt_hash a));;
  tret tt.

Definition resolve_credentials (job_id : string) (q : CredentialsRequest) : M BxDb (list Credential) :=
  _ <~ lift (require_enabled (bc_m3 st));;
  job <~ lift (path_uuid (b_parse_uuid B) job_id);;
  _ <~ lift (guard_err ((MAX_SECRETS <? length (crq_versions q))%nat || negb (all_distinct (crq_versions q)))
    (secret_scope_invalid "secret version ids must be unique and bounded"));;
  transaction (
    j <~ lock_live_attempt job (crq_live q);;
    mark_launched job (crq_live q);;;
    d <~ get_db;;
    let rows := credential_rows d job (bj_account j) (bj_project j) (crq_versions q) in
    reject_if (negb (length rows =? length (crq_versions q))%nat)
      (secret_scope_invalid "only exact secret versions bound at enqueue may be resolved");;;
    key <~ lift (ok_or (bc_key st) foundation_unavailable);;
    credentials <~ lift (open_credentials key (bj_account j) (bj_project j) rows);;
    tret (Ok credentials)).

(** ** Completion *)

Definition valid_completion (o : CompletionOutcome) : bool :=
  (if bool_decide (oc_state o = "succeeded") then
     bool_decide (oc_code o = "build_succeeded") && (0 <? oc_elapsed o)%Z
     && negb (bool_decide (oc_artifacts o = []))
   else if bool_decide (oc_state o = "failed") then
     one_of (oc_code o)
       ["build_failed"; "dependency_not_available_offline"; "build_timeout"; "memory_limit";
        "workspace_limit"; "static_output_too_large"; "runtime_output_too_large"; "output_invalid";
        "source_policy_rejected"; "platform_fault"; "cleanup_failed"]
     && bool_decide (oc_artifacts o = [])
   else if bool_decide (oc_state o = "retriable") then
     bool_decide (oc_code o = "platform_prelaunch_fault") && (oc_elapsed o =? 0)%Z
     && bool_decide (oc_artifacts o = [])
   else false)
  && (0 <=? oc_elapsed o)%Z && (oc_elapsed o <=? RESERVED_SECONDS)%Z
  && (length (oc_artifacts o) <=? MAX_ARTIFACTS)%nat
  && valid_digest (oc_result o) && valid_digest (oc_cleanup o).

Definition outcome_states (o : CompletionOutcome) : option (TrialState * BuildState) :=
  if bool_decide (oc_state o = "succeeded") then Some (TSucceeded, BSucceeded)
  else if bool_decide (oc_state o = "failed") then Some (TFailed, BFailed)
  else if bool_decide (oc_state o = "retriable") then Some (TRetriable, BRetriable)
  else None.

Definition completion_hash (job : Uuid) (q : CompleteRequest) : bytes :=
  b_sha256 B (uuid_bytes job ++ uuid_bytes (lv_attempt (cmq_live q))
    ++ be_bytes 8 (lv_fence (cmq_live q)) ++ as_bytes (lv_worker (cmq_live q))
    ++ b_outcome_json B (cmq_outcome q)).

(** What may be completed before the source was materialized. *)
Definition needs_no_source (o : CompletionOutcome) : bool :=
  bool_decide (oc_state o = "failed") && bool_decide (oc_code o = "source_policy_rejected")
    && (oc_elapsed o =? 0)%Z
  || bool_decide (oc_state o = "retriable") && bool_decide (oc_code o = "platform_prelaunch_fault")
    && (oc_elapsed o =? 0)%Z.

Definition result_mismatch (j : BuildJob) (q : LiveAttemptRequest) (o : CompletionOutcome) (r : ResultManifest) : bool :=
  negb (bool_decide (rm_schema r = "hostlet.build-result/v1")) || negb (bool_decide (rm_job r = bj_id j))
  || negb (bool_decide (rm_attempt r = lv_attempt q)) || negb (rm_fence r =? lv_fence q)%Z
  || negb (bool_decide (rm_input r = bj_input_digest j)) || negb (bool_decide (rm_state r = oc_state o))
  || negb (bool_decide (rm_code r = oc_code o)) || negb (rm_elapsed r =? oc_elapsed o)%Z
  || negb (bool_decide (rm_artifacts r = oc_artifacts o)).

Definition cleanup_mismatch (job attempt : Uuid) (fence : Z) (c : CleanupManifest) : bool :=
  negb (bool_decide (cm_schema c = "hostlet.build-cleanup/v1")) || negb (bool_decide (cm_job c = job))
  || negb (bool_decide (cm_attempt c = attempt)) || negb (cm_fence c =? fence)%Z.

Definition artifact_out_of_bounds (a : ArtifactCompletion) : bool :=
  negb (valid_digest (ac_archive a)) || negb (valid_digest (ac_manifest a))
  || (ac_packed a <? 0)%Z || (ac_unpacked a <? 0)%Z || (ac_entries a <? 0)%Z
  || (lm_max_entries limits <? ac_entries a)%Z || (lm_runtime_output limits <? ac_packed a)%Z
  || bool_decide (ac_kind a = "static") && (lm_static_output limits <? ac_unpacked a)%Z
  || bool_decide (ac_kind a = "application") && (lm_runtime_output limits <? ac_unpacked a)%Z.

Definition artifact_kind (k : ServiceKind) : ArtifactKind :=
  match k with StaticFrontend => StaticArtifact | ApplicationService => ApplicationArtifact end.
Definition artifact_kind_text (k : ArtifactKind) : string :=
  match k with StaticArtifact => "static" | ApplicationArtifact => "application" end.

(** The entry point that a service's framework and start command fix. *)
Definition expected_argv (s : BuildService) : res ApiError (option (list string)) :=
  let mismatch := artifact_invalid
    "the packaged application entrypoint does not match the immutable service graph" in
  match bs_kind s, bs_start_command s with
  | StaticFrontend, _ => Ok None
  | ApplicationService, Some start =>
      if bool_decide (start = "npm run start") && bool_decide (bs_framework s = "node_http")
      then Ok (Some ["node"; "dist/server.mjs"])
      else if bool_decide (start = "npm run start") && bool_decide (bs_framework s = "nextjs16_standalone")
      then Ok (Some ["node"; "server.js"])
      else Err mismatch
  | ApplicationService, None => Err mismatch
  end.

Definition manifest_mismatch (j : BuildJob) (q : LiveAttemptRequest) (a : ArtifactCompletion) (m : ArtifactManifest) : bool :=
  negb (bool_decide (am_schema m = "hostlet.build-artifact/v1")) || negb (bool_decide (am_job m = bj_id j))
  || negb (bool_decide (am_attempt m = lv_attempt q)) || negb (am_fence m =? lv_fence q)%Z
  || negb (bool_decide (am_input m = bj_input_digest j)) || negb (bool_decide (am_commit m = bj_commit j))
  || negb (bool_decide (am_service m = ac_service a)) || negb (bool_decide (am_kind m = ac_kind a))
  || negb (bool_decide (am_archive m = ac_archive a)) || negb (am_packed m =? ac_packed a)%Z
  || negb (am_unpacked m =? ac_unpacked a)%Z || negb (am_entries m =? ac_entries a)%Z
  || negb (bool_decide (am_argv m = ac_argv a)).

Definition check_artifact (d : BxDb) (j : BuildJob) (q : LiveAttemptRequest) (a : ArtifactCompletion) : res ApiError unit :=
  let graph := artifact_invalid "an artifact does not match the immutable service graph" in
  res_bind (guard_err (artifact_out_of_bounds a) (artifact_invalid "artifact metadata is invalid")) (fun _ =>
  res_bind (ok_or (services d !! (bj_id j, ac_service a)) graph) (fun s =>
  res_bind (guard_err (negb (bool_decide (artifact_kind_text (artifact_kind (bs_kind s)) = ac_kind a))) graph) (fun _ =>
  res_bind (expected_argv s) (fun argv =>
  res_bind (guard_err (negb (bool_decide (ac_argv a = argv)))
    (artifact_invalid "the packaged application entrypoint is invalid")) (fun _ =>
  res_bind (read_cas_json B (b_artifact_json B) (ac_manifest a) 1048576) (fun m =>
  res_bind (guard_err (manifest_mismatch j q a m)
    (artifact_invalid "an artifact manifest does not match the fenced build")) (fun _ =>
  verify_cas_digest B (ac_archive a)))))))).

(** The kinds that were seen, the latest first. *)
Fixpoint check_artifacts (d : BxDb) (j : BuildJob) (q : LiveAttemptRequest) (seen : list string)
    (l : list ArtifactCompletion) : res ApiError (list string) :=
  match l with
  | [] => Ok seen
  | a :: rest =>
      res_bind (guard_err (one_of (ac_kind a) seen) (artifact_invalid "artifact metadata is invalid")) (fun _ =>
      res_bind (check_artifact d j q a) (fun _ =>
      check_artifacts d j q (ac_kind a :: seen) rest))
  end.

Definition completed_artifact (id : Uuid) (j : BuildJob) (q : LiveAttemptRequest) (kind : ArtifactKind)
    (a : ArtifactCompletion) : Artifact := {|
  at_id := id; at_account := bj_account j; at_project := bj_project j; at_job := bj_id j;
  at_attempt := lv_attempt q; at_fence := lv_fence q; at_service := ac_service a; at_kind := kind;
  at_archive := ac_archive a; at_manifest := ac_manifest a; at_packed := ac_packed a;
  at_unpacked := ac_unpacked a; at_entries := ac_entries a; at_argv := ac_argv a |}.

Definition kind_of_text (k : string) : option ArtifactKind :=
  if bool_decide (k = "static") then Some StaticArtifact
  else if bool_decide (k = "application") then Some ApplicationArtifact else None.

Fixpoint insert_artifacts (j : BuildJob) (q : LiveAttemptRequest) (l : list ArtifactCompletion) : M BxDb unit :=
  match l with
  | [] => tret tt
  | a :: rest =>
      id <~ new_uuid;;
      kind <~ sql (kind_of_text (ac_kind a));;
      d <~ get_db;;
      rows <~ sql (insert_pk (fun r => artifact_check r && artifact_unique (artifacts d) r) id
                     (completed_artifact id j q kind a) (artifacts d));;
      put_db (set_artifacts rows d);;; insert_artifacts j q rest
  end.

(** Every check of a completion that reads evidence; the status of the cleanup. *)
Definition completion_checks (d : BxDb) (j : BuildJob) (q : LiveAttemptRequest) (o : CompletionOutcome) : res ApiError CleanupStatus :=
  res_bind (guard_err (is_none (bj_bundle j) && negb (needs_no_source o))
    (conflict "source_materialization_required"
       "the exact source must be materialized before completion")) (fun _ =>
  res_bind (read_cas_json B (b_result_json B) (oc_result o) 1048576) (fun r =>
  res_bind (guard_err (result_mismatch j q o r)
    (result_invalid "the result manifest does not match the fenced completion")) (fun _ =>
  res_bind (read_cas_json B (b_cleanup_json B) (oc_cleanup o) 1048576) (fun c =>
  res_bind (guard_err (cleanup_mismatch (bj_id j) (lv_attempt q) (lv_fence q) c
                       || negb (one_of (cm_status c) ["confirmed"; "pending"])
                       || bool_decide (oc_state o = "succeeded") && negb (bool_decide (cm_status c = "confirmed")))
    (unprocessable "build_cleanup_invalid"
       "the cleanup receipt does not match the fenced completion")) (fun _ =>
  res_bind (check_artifacts d j q [] (oc_artifacts o)) (fun seen =>
  res_bind (guard_err (bool_decide (oc_state o = "succeeded")
                       && negb (length seen =? length (job_services d (bj_id j)))%nat)
    (artifact_invalid "successful completion must register every declared build output")) (fun _ =>
  Ok (if bool_decide (cm_status c = "confirmed") then Confirmed else CleanupPending)))))))).

Definition insert_receipt (attempt : Uuid) (r : BuildReceipt) : M BxDb unit :=
  d <~ get_db;;
  rows <~ sql (insert_pk (fun _ => true) attempt r (attempt_receipts d));;
  put_db (set_attempt_receipts rows d).

Definition insert_effect (job : Uuid) (e : BuildEffect) : M BxDb unit :=
  d <~ get_db;;
  rows <~ sql (insert_pk (fun e => text_within 1 64 (ef_code e)) job e (effects d));;
  put_db (set_effects rows d).

Definition receipt_of (d : BxDb) (job attempt : Uuid) (fence : Z) : option BuildReceipt :=
  r ← attempt_receipts d !! attempt;
  _ ← where_ (bool_decide (rp_job r = job) && (rp_fence r =? fence)%Z);
  Some r.

(** The attempt and the job as the completion leaves them. *)
Definition end_attempt (job : Uuid) (q : LiveAttemptRequest) (o : CompletionOutcome) (states : TrialState * BuildState)
    (cleanup : CleanupStatus) (hash : bytes) : M BxDb unit :=
  t <~ clock_timestamp;;
  _ <~ update_attempt job (lv_attempt q) (lv_fence q) (fun _ => true)
         (fun a => ended_trial a states.1 t (oc_code o) (Some hash));;
  _ <~ update_build job (live_job q) (fun j =>
    r ← bigint_succ (bj_revision j);
    Some (with_build j states.2 r (bj_attempts j) None (bj_fence j) None (Some (oc_code o)) cleanup));;
  tret tt.

Definition complete (job_id : string) (q : CompleteRequest) : M BxDb CompleteResponse :=
  _ <~ lift (require_enabled (bc_m3 st));;
  job <~ lift (path_uuid (b_parse_uuid B) job_id);;
  let live := cmq_live q in
  let o := cmq_outcome q in
  _ <~ lift (guard_err (negb (valid_worker_id (lv_worker live)) || negb (valid_completion o))
    (result_invalid "the build completion is outside the accepted contract"));;
  let hash := completion_hash job q in
  transaction (
    d <~ get_db;;
    match receipt_of d job (lv_attempt live) (lv_fence live) with
    | Some r =>
        reject_if (negb (bool_decide (rp_hash r = hash)))
          (conflict "build_completion_conflict"
             "the build already has a different terminal completion");;;
        match rp_body r with
        | RComplete response => tret (Ok response)
        | RCancelAck _ => raise internal
        end
    | None =>
        j <~ lock_live_attempt job live;;
        cleanup <~ lift (completion_checks d j live o);;
        insert_artifacts j live (oc_artifacts o);;;
        debit <~ debit_usage job (bj_account j) (bj_project j) (bj_deployment j) (lv_attempt live) (oc_elapsed o);;
        let retriable := bool_decide (oc_state o = "retriable") in
        (if retriable then tret tt else finalize_reservation job (oc_elapsed o) debit);;;
        states <~ sql (outcome_states o);;
        end_attempt job live o states cleanup hash;;;
        d' <~ get_db;;
        j' <~ lift (ok_or (load_build d' (bj_account j) (bj_project j) job) internal);;
        let response := {|
          cr_build := build_record j';
          cr_effect := {| ce_state := oc_state o; ce_code := oc_code o; ce_result := oc_result o;
                          ce_cleanup := oc_cleanup o |};
          cr_artifacts := load_artifacts d' job;
          cr_meter := {| me_reserved := RESERVED_SECONDS; me_finalized := oc_elapsed o; me_debit := debit |} |} in
        insert_receipt (lv_attempt live)
          {| rp_job := job; rp_fence := lv_fence live; rp_hash := hash; rp_body := RComplete response |};;;
        (if retriable then tret tt
         else insert_effect job {|
           ef_attempt := lv_attempt live; ef_fence := lv_fence live; ef_state := oc_state o;
           ef_code := oc_code o; ef_hash := hash; ef_body := EComplete response |});;;
        tret (Ok response)
    end).

(** ** The acknowledgment of a cancellation *)

Definition invalid_cancel_ack (q : CancelAckRequest) : bool :=
  negb (valid_worker_id (caq_worker q)) || (caq_fence q <=? 0)%Z || (caq_elapsed q <? 0)%Z
  || (RESERVED_SECONDS <? caq_elapsed q)%Z || negb (valid_digest (caq_cleanup q)).

Definition awaits_ack (d : BxDb) (job : Uuid) (q : CancelAckRequest) : option BuildJob :=
  j ← jobs d !! job;
  a ← attempts d !! caq_attempt q;
  _ ← where_ (bool_decide (bj_state j = BCanceled) && bool_decide (bj_cleanup j = CleanupPending)
              && bool_decide (bt_job a = job) && (bt_fence a =? caq_fence q)%Z
              && bool_decide (bt_worker a = caq_worker q) && bool_decide (bt_state a = TCanceled));
  Some j.

Definition confirm_cleanup (job : Uuid) : M BxDb unit :=
  _ <~ update_build job
         (fun j => bool_decide (bj_state j = BCanceled) && bool_decide (bj_cleanup j = CleanupPending))
         (fun j => r ← bigint_succ (bj_revision j);
            Some (with_build j (bj_state j) r (bj_attempts j) (bj_current j) (bj_fence j) (bj_lease j)
                    (bj_code j) Confirmed));;
  tret tt.

Definition cancel_ack (job_id : string) (q : CancelAckRequest) : M BxDb CancelAckResponse :=
  _ <~ lift (require_enabled (bc_m3 st));;
  job <~ lift (path_uuid (b_parse_uuid B) job_id);;
  _ <~ lift (guard_err (invalid_cancel_ack q)
    (unprocessable "build_cancel_ack_invalid" "the cancellation cleanup acknowledgment is invalid"));;
  let hash := b_sha256 B (b_cancel_json B q) in
  transaction (
    d <~ get_db;;
    match (r ← receipt_of d job (caq_attempt q) (caq_fence q); j ← jobs d !! job; Some (r, j)) with
    | Some (r, j) =>
        reject_if (bool_decide (bj_state j = BCanceled)) fenced;;;
        reject_if (negb (bool_decide (rp_hash r = hash)))
          (conflict "build_cancel_ack_conflict"
             "the canceled attempt already has a different cleanup acknowledgment");;;
        match rp_body r with
        | RCancelAck response => tret (Ok response)
        | RComplete _ => raise internal
        end
    | None =>
        j <~ lift (ok_or (awaits_ack d job q) (conflict "build_job_fenced"
          "the canceled build attempt is not awaiting this cleanup acknowledgment"));;
        c <~ lift (read_cas_json B (b_cleanup_json B) (caq_cleanup q) 1048576);;
        reject_if (cleanup_mismatch job (caq_attempt q) (caq_fence q) c
                   || negb (bool_decide (cm_status c = "confirmed")))
          (unprocessable "build_cleanup_invalid"
             "cancellation acknowledgment requires a matching confirmed cleanup receipt");;;
        debit <~ debit_usage job (bj_account j) (bj_project j) (bj_deployment j) (caq_attempt q) (caq_elapsed q);;
        finalize_reservation job (caq_elapsed q) debit;;;
        confirm_cleanup job;;;
        let response := {|
          ck_job := job; ck_attempt := caq_attempt q; ck_fence := caq_fence q; ck_cleanup := "confirmed";
          ck_finalized := caq_elapsed q; ck_debit := debit |} in
        insert_receipt (caq_attempt q)
          {| rp_job := job; rp_fence := caq_fence q; rp_hash := hash; rp_body := RCancelAck response |};;;
        tret (Ok response)
    end).

(** ** Reaping *)

Definition expired_at (d : BxDb) (now : Z) (j : BuildJob) : bool :=
  bool_decide (bj_state j = BRunning) && is_some_and (fun l => l <=? now)%Z (bj_lease j)
  && match bj_current j with
     | Some a => is_some_and (fun t => bool_decide (bt_job t = bj_id j) && (bt_fence t =? bj_fence j)%Z)
                   (attempts d !! a)
     | None => false
     end.

(** [ORDER BY lease_expires_at,id]. *)
Definition lease_order (a b : BuildJob) : bool :=
  let x := default 0%Z (bj_lease a) in
  let y := default 0%Z (bj_lease b) in
  (x <? y)%Z || (x =? y)%Z && (bj_id a <=? bj_id b)%N.

(** [LEAST(600,GREATEST(1,CEIL(EXTRACT(EPOCH FROM ...))::integer))]. *)
Definition billed_seconds (now launched : Z) : option Z :=
  let s := (- ((launched - now) / SECOND))%Z in
  if (- max_i32 - 1 <=? s)%Z && (s <=? max_i32)%Z then Some (Z.min RESERVED_SECONDS (Z.max 1 s)) else None.

Definition reaped_code (launched terminal : bool) : string :=
  if launched then "lease_expired_after_launch"
  else if terminal then "attempts_exhausted" else "platform_prelaunch_fault".

Definition reaped_effect (job attempt : Uuid) (fence : Z) (code : string) (launched : bool) (billed : Z) : M BxDb unit :=
  d <~ get_db;;
  if bool_decide (is_Some (effects d !! job)) then tret tt
  else insert_effect job {|
    ef_attempt := attempt; ef_fence := fence; ef_state := "failed"; ef_code := code;
    ef_hash := b_sha256 B (as_bytes (code +:+ ":" +:+ b_uuid_text B attempt +:+ ":" +:+ pretty fence));
    ef_body := EReaped code (if launched then "pending" else "not_started") billed |}.

(** One iteration: was there an expired lease? *)
Definition reap_one : M BxDb bool :=
  transaction (
    now <~ clock_timestamp;;
    locked <~ locked_rows;;
    d <~ get_db;;
    match (j ← select_first (fun id j => expired_at d now j && negb (locked id)) lease_order (jobs d);
           a ← bj_current j; t ← attempts d !! a; Some (j, t)) with
    | None => tret (Ok false)
    | Some (j, t) =>
        let job := bj_id j in
        let launched := negb (is_none (bt_launched t)) in
        let terminal := launched || (3 <=? bj_attempts j)%Z in
        let code := reaped_code launched terminal in
        billed <~ match bt_launched t with
                  | Some at_ => read <~ clock_timestamp;; sql (billed_seconds read at_)
                  | None => tret 0%Z
                  end;;
        finished <~ clock_timestamp;;
        _ <~ update_attempt job (bt_id t) (bj_fence j) (fun _ => true)
               (fun a => ended_trial a (if terminal then TFailed else TRetriable) finished code (bt_hash a));;
        _ <~ update_build job (fun _ => true) (fun j =>
          r ← bigint_succ (bj_revision j);
          Some (with_build j (if terminal then BFailed else BRetriable) r (bj_attempts j) None (bj_fence j) None
                  (if terminal then Some code else None)
                  (if launched then CleanupPending else bj_cleanup j)));;
        (if terminal then
           debit <~ debit_usage job (bj_account j) (bj_project j) (bj_deployment j) (bt_id t) billed;;
           finalize_reservation job billed debit;;;
           reaped_effect job (bt_id t) (bj_fence j) code launched billed
         else tret tt);;;
        tret (Ok true)
    end).

Fixpoint reap_loop (n : nat) : M BxDb unit :=
  match n with
  | O => tret tt
  | S n' => more <~ reap_one;; if (more : bool) then reap_loop n' else tret tt
  end.

Definition reap_expired : M BxDb unit := reap_loop 64.
End Handlers.
