(* ===== verification/BuildLedger.v ===== *)
(** * What builds do to the ledger of admission

    Builds keep their tables next to admission's.  Of the latter they write usage events
    only, and all of them are debits ([bills]): the entitlement is not consulted again
    when a build is debited. *)

From stdpp Require Import base list option gmap strings relations.
From Stdlib Require Import ZArith Lia Ascii.
From S2P Require Import Prelude RustText Bytes ProjectContract PgTx Intent Secrets Admission AdmissionSpec AdmissionSteps.
From S2P Require Import Wire PolicyClock ExecutionTables SourceBundle BuildTables BuildInputs BuildJobs.

Local Open Scope string_scope.
Local Open Scope list_scope.

(** One more debit. *)
Inductive debit_step (a a' : AdmDb) : Prop :=
| debit_step_intro id u :
    usage a !! id = None -> usage_check u = true -> u_kind u = Debit ->
    a' = set_usage (<[id := u]> (usage a)) a -> debit_step a a'.

Definition bills (d d' : BxDb) : Prop := rtc debit_step (adm d) (adm d').
#[export] Instance bills_preorder : PreOrder bills.
Proof. split; [intros d; apply rtc_refl|]. intros d1 d2 d3 H1 H2. unfold bills in *. by etrans. Qed.

Lemma bills_same d d' : adm d' = adm d -> bills d d'.
Proof. unfold bills. by intros ->. Qed.

(** ** Statements *)

(** A statement either fails and changes nothing, or puts its table. *)
Ltac bills_nothing :=
  intros ? ? ? ?; unfold tbind, get_db, sql, put_db, raise, tret, clock_timestamp, new_uuid;
  repeat case_match; intros; simplify_eq; try done; by apply bills_same.

Lemma update_build_bills id cond f : keeps bills (update_build id cond f).
Proof. unfold update_build. bills_nothing. Qed.
Lemma update_attempt_bills job attempt fence also f : keeps bills (update_attempt job attempt fence also f).
Proof. unfold update_attempt. bills_nothing. Qed.
Lemma settle_reservation_bills job s n debit : keeps bills (settle_reservation job s n debit).
Proof. unfold settle_reservation. bills_nothing. Qed.
Lemma insert_job_bills j : keeps bills (insert_job j).
Proof. unfold insert_job. bills_nothing. Qed.
Lemma build_reservation_bills job account project deployment e :
  keeps bills (insert_reservation job account project deployment e).
Proof. unfold insert_reservation. bills_nothing. Qed.
Lemma insert_attempt_bills a : keeps bills (insert_attempt a).
Proof. unfold insert_attempt. bills_nothing. Qed.
Lemma insert_materialization_bills m : keeps bills (insert_materialization m).
Proof. unfold insert_materialization. bills_nothing. Qed.
Lemma build_receipt_bills attempt r : keeps bills (insert_receipt attempt r).
Proof. unfold insert_receipt. bills_nothing. Qed.
Lemma insert_effect_bills job e : keeps bills (insert_effect job e).
Proof. unfold insert_effect. bills_nothing. Qed.
Lemma build_replay_bills actor operation key hash status (r : BuildJobRecord) :
  keeps bills (store_replay (D := BxDb) actor operation key hash status r).
Proof. unfold store_replay. bills_nothing. Qed.
Lemma build_audit_bills actor session et tt ti oc :
  keeps bills (audit (D := BxDb) (B := BuildJobRecord) actor session et tt ti oc).
Proof. unfold audit. bills_nothing. Qed.
Lemma upsert_clock_bills generation now : keeps bills (upsert_clock (D := BxDb) generation now).
Proof. unfold upsert_clock. bills_nothing. Qed.

(** The debit of a build: the one statement on admission's tables. *)
Lemma debit_usage_bills job account project deployment attempt billed :
  keeps bills (debit_usage job account project deployment attempt billed).
Proof.
  unfold debit_usage. case_match; [|keeps_ro]. do 3 keeps_step. keeps_step; [|keeps_ro].
  intros env w r w'. unfold zoom. destruct (insert_usage _ _ _ _) as [x w1] eqn:E. intros [= _ <-].
  unfold bills. cbn. destruct x as [x|e].
  - apply insert_usage_Ok in E as (Hn & Hc & ->). apply rtc_once. by econstructor.
  - unfold insert_usage, tbind, get_db, sql, put_db, raise in E. repeat case_match; by simplify_eq.
Qed.

Create HintDb bills.
#[export] Hint Resolve update_build_bills update_attempt_bills settle_reservation_bills insert_job_bills
  build_reservation_bills insert_attempt_bills insert_materialization_bills build_receipt_bills
  insert_effect_bills build_replay_bills build_audit_bills upsert_clock_bills debit_usage_bills : bills.

(** The loops: a row, and the rest. *)
Ltac bills_row IH :=
  intros env w r w'; unfold tbind, get_db, sql, put_db, new_uuid, raise, tret; cbn;
  repeat case_match; intros; simplify_eq; try done;
  match goal with E : _ = (_, _) |- _ => exact (IH _ _ _ _ E) end.

Lemma service_snapshots_bills job n l : keeps bills (insert_service_snapshots job n l).
Proof.
  revert n. induction l as [|s l IH]; intros n; cbn [insert_service_snapshots]; [keeps_ro|].
  specialize (IH (n + 1)%Z). bills_row IH.
Qed.
Lemma secret_snapshots_bills job account project l : keeps bills (insert_secret_snapshots job account project l).
Proof. induction l as [|s l IH]; cbn [insert_secret_snapshots]; [keeps_ro|]. bills_row IH. Qed.
Lemma insert_artifacts_bills j q l : keeps bills (insert_artifacts j q l).
Proof. induction l as [|a l IH]; cbn [insert_artifacts]; [keeps_ro|]. bills_row IH. Qed.
#[export] Hint Resolve service_snapshots_bills secret_snapshots_bills insert_artifacts_bills : bills.

(** ** Handlers *)

Lemma bills_atomic {A} (body : M BxDb (res ApiError A)) : keeps bills body -> keeps bills (transaction body).
Proof. intros Hb. apply keeps_transaction; [apply _|]. intros env w r w' H. exact (Hb _ _ _ _ H). Qed.
Lemma bills_clock_atomic {A} (body : M BxDb (res ApiError A)) : keeps bills body -> keeps bills (clock_transaction body).
Proof.
  intros Hb env w r w'. unfold clock_transaction. destruct (body env w) as [[x|e] w1] eqn:E; intros [= _ <-].
  - exact (Hb _ _ _ _ E).
  - by apply bills_same.
Qed.

Ltac bills_steps :=
  repeat (intros; lazymatch goal with
  | |- keeps _ (let _ := _ in _) => cbv zeta
  | |- keeps _ (tbind (lift _) _) => apply keeps_lift; [apply _|intros ? ?]
  | |- keeps _ (tbind (reject_if _ _) _) => apply keeps_reject; [apply _|intros ?]
  | |- keeps _ (tbind _ _) => apply keeps_bind; [apply _|first [keeps_ro|solve [auto with bills]|idtac]|intros ?]
  | |- keeps _ (transaction _) => apply bills_atomic
  | |- keeps _ (clock_transaction _) => apply bills_clock_atomic
  | |- keeps _ ?m =>
      first [ keeps_ro | solve [auto with bills]
            | match m with context [match ?x with _ => _ end] => destruct x end ]
  end).

Lemma build_policy_now_bills m3 : keeps bills (policy_now (D := BxDb) m3).
Proof. unfold policy_now, policy_time. bills_steps. Qed.
#[export] Hint Resolve build_policy_now_bills : bills.

Section Handlers.
Context (B : BuildExternals) (st : BuildConfig).

Lemma enqueue_bills caller project deployment headers q :
  keeps bills (enqueue B st caller project deployment headers q).
Proof. unfold enqueue. bills_steps. Qed.
Lemma get_build_bills caller project job : keeps bills (get_build B st caller project job).
Proof. unfold get_build. keeps_ro. Qed.
Lemma cancel_bills caller project job headers : keeps bills (cancel B st caller project job headers).
Proof. unfold cancel, cancel_job, release_reservation. bills_steps. Qed.
Lemma lease_bills q : keeps bills (lease B st q).
Proof. unfold lease, start_attempt, fail_stale, release_reservation. bills_steps. Qed.
Lemma renew_bills job q : keeps bills (renew B st job q).
Proof. unfold renew, extend_leases. bills_steps. Qed.
Lemma write_source_bills job q j n bundle entries total : keeps bills (write_source B job q j n bundle entries total).
Proof. unfold write_source, reject_source, handoff_source_rejection, extend_leases. bills_steps. Qed.
#[local] Hint Resolve write_source_bills : bills.
Lemma materialize_bills snapshot job q : keeps bills (materialize B st snapshot job q).
Proof. unfold materialize, reject_source, handoff_source_rejection, extend_leases. bills_steps. Qed.
Lemma credentials_bills job q : keeps bills (resolve_credentials B st job q).
Proof. unfold resolve_credentials, mark_launched. bills_steps. Qed.
Lemma complete_bills job q : keeps bills (complete B st job q).
Proof. unfold complete, finalize_reservation, end_attempt. bills_steps. Qed.
Lemma cancel_ack_bills job q : keeps bills (cancel_ack B st job q).
Proof. unfold cancel_ack, finalize_reservation, confirm_cleanup. bills_steps. Qed.
Lemma reap_one_bills : keeps bills (reap_one B).
Proof. unfold reap_one, finalize_reservation, reaped_effect. bills_steps. Qed.
Lemma reap_expired_bills : keeps bills (reap_expired B).
Proof.
  unfold reap_expired. generalize 64%nat. intros n. induction n as [|n IH]; cbn [reap_loop]; [keeps_ro|].
  apply keeps_bind; [apply _|apply reap_one_bills|]. intros [|]; [exact IH|keeps_ro].
Qed.

(** One build request served, whatever its result. *)
Inductive build_request (env : Env) (w w' : World BxDb) : Prop :=
| br_enqueue caller project deployment headers q r :
    enqueue B st caller project deployment headers q env w = (r, w') -> build_request env w w'
| br_get caller project job r : get_build B st caller project job env w = (r, w') -> build_request env w w'
| br_cancel caller project job headers r :
    cancel B st caller project job headers env w = (r, w') -> build_request env w w'
| br_lease q r : lease B st q env w = (r, w') -> build_request env w w'
| br_renew job q r : renew B st job q env w = (r, w') -> build_request env w w'
| br_materialize snapshot job q r : materialize B st snapshot job q env w = (r, w') -> build_request env w w'
| br_credentials job q r : resolve_credentials B st job q env w = (r, w') -> build_request env w w'
| br_complete job q r : complete B st job q env w = (r, w') -> build_request env w w'
| br_cancel_ack job q r : cancel_ack B st job q env w = (r, w') -> build_request env w w'
| br_reap r : reap_expired B env w = (r, w') -> build_request env w w'.

Lemma build_request_bills env w w' : build_request env w w' -> bills (db w) (db w').
Proof.
  intros []; lazymatch goal with H : _ = (_, _) |- _ => revert H end; intros Hm.
  - by eapply enqueue_bills.
  - by eapply get_build_bills.
  - by eapply cancel_bills.
  - by eapply lease_bills.
  - by eapply renew_bills.
  - by eapply materialize_bills.
  - by eapply credentials_bills.
  - by eapply complete_bills.
  - by eapply cancel_ack_bills.
  - by eapply reap_expired_bills.
Qed.
End Handlers.

(** Of the ledger, a debit is a step of another component; the rest stays. *)
Lemma debit_step_outside a a' : debit_step a a' -> outside_step a a'.
Proof. intros [id u Hn Hc Hk ->]. by apply (os_debit _ _ id u). Qed.
Lemma debit_steps_frame a a' : rtc debit_step a a' ->
  projects a' = projects a /\ deployments a' = deployments a /\ lifecycle_intents a' = lifecycle_intents a.
Proof. induction 1 as [|a a1 a' [id u _ _ _ ->] _ IH]; [done|]. exact IH. Qed.
