(* ===== verification/BuildSpec.v ===== *)
(** * What build jobs promise

    A step changes at most one build by a transition of its life cycle; a build's
    usage reservation is held exactly while the build can still run or awaits the
    acknowledgment of its cancellation, and is settled by a debit of at most what was
    reserved.  [bx_step] is indexed by the builds that may be cancelled. *)

From stdpp Require Import base list option gmap strings relations.
From Stdlib Require Import ZArith Lia Ascii.
From S2P Require Import Prelude RustText Bytes PgTx Intent Secrets Admission.
From S2P Require Import PolicyClock ExecutionTables BuildTables BuildInputs BuildJobs.

Local Open Scope string_scope.
Local Open Scope list_scope.

(** ** The life cycle of a build *)

(** What never changes. *)
Record same_build (j j' : BuildJob) : Prop := {
  sb_id : bj_id j' = bj_id j; sb_account : bj_account j' = bj_account j;
  sb_project : bj_project j' = bj_project j; sb_deployment : bj_deployment j' = bj_deployment j;
  sb_config : bj_config j' = bj_config j; sb_commit : bj_commit j' = bj_commit j;
  sb_input : bj_input_digest j' = bj_input_digest j;
}.

(** A build that can still run, or waits for its cancellation to be cleaned up. *)
Definition can_run (s : BuildState) : bool := one_of s [BQueued; BRunning; BRetriable].
Definition holds_reservation (j : BuildJob) : bool :=
  can_run (bj_state j) || bool_decide (bj_state j = BCanceled) && bool_decide (bj_cleanup j = CleanupPending).

Inductive job_next (cancelable : Prop) (j j' : BuildJob) : Prop :=
| next_touch : bj_state j' = bj_state j -> bj_attempts j' = bj_attempts j -> bj_current j' = bj_current j ->
    bj_fence j' = bj_fence j -> bj_cleanup j' = bj_cleanup j -> job_next cancelable j j'
| next_lease : one_of (bj_state j) [BQueued; BRetriable] = true -> (bj_attempts j < 3)%Z ->
    bj_state j' = BRunning -> bj_attempts j' = (bj_attempts j + 1)%Z ->
    bj_fence j' = (bj_fence j + 1)%Z -> (bj_fence j' <= max_i64)%Z -> bj_cleanup j' = bj_cleanup j -> job_next cancelable j j'
| next_stale : one_of (bj_state j) [BQueued; BRetriable] = true -> (bj_attempts j < 3)%Z ->
    bj_state j' = BFailed -> bj_fence j' = bj_fence j -> job_next cancelable j j'
| next_end : bj_state j = BRunning -> one_of (bj_state j') [BSucceeded; BFailed; BRetriable] = true ->
    bj_attempts j' = bj_attempts j -> bj_fence j' = bj_fence j -> job_next cancelable j j'
| next_cancel : cancelable -> ended (bj_state j) = false -> bj_state j' = BCanceled ->
    bj_fence j' = (bj_fence j + 1)%Z -> (bj_fence j' <= max_i64)%Z ->
    bj_cleanup j' = (if is_none (bj_current j) then NotStarted else CleanupPending) ->
    job_next cancelable j j'
| next_confirm : bj_state j = BCanceled -> bj_cleanup j = CleanupPending -> bj_state j' = BCanceled ->
    bj_cleanup j' = Confirmed -> bj_fence j' = bj_fence j -> job_next cancelable j j'.

(** ** Usage *)

Definition entitlement_of (e : Uuid) (u : Usage) : Z :=
  if bool_decide (u_entitlement u = e) then signed_seconds u else 0%Z.
Definition reserved_of (e : Uuid) (u : UsageReservation) : Z :=
  if bool_decide (ur_entitlement u = e) && is_reserved u then RESERVED_SECONDS else 0%Z.

(** How a step on build [k] treats its reservation. *)
Inductive settles (k : Uuid) (j j' : BuildJob) (d d' : BxDb) : Prop :=
| settles_kept : reserved d' = reserved d -> usage (adm d') = usage (adm d) ->
    holds_reservation j' = holds_reservation j -> settles k j j' d d'
| settles_paid u u' : reserved d !! k = Some u -> is_reserved u = true ->
    reserved d' = <[k := u']> (reserved d) -> is_reserved u' = false ->
    ur_entitlement u' = ur_entitlement u -> holds_reservation j' = false ->
    (usage (adm d') = usage (adm d)
     \/ exists event r, usage (adm d) !! event = None /\ usage (adm d') = <[event := r]> (usage (adm d))
          /\ u_kind r = Debit /\ u_entitlement r = ur_entitlement u /\ (u_seconds r <= RESERVED_SECONDS)%Z) ->
    settles k j j' d d'.

(** ** Outputs *)

(** The artifact that build [k] registered for a service. *)
Record output_of (k service : Uuid) (s : BuildService) (a : Artifact) : Prop := {
  oo_job : at_job a = k; oo_service : at_service a = service;
  oo_kind : at_kind a = artifact_kind (bs_kind s); oo_argv : expected_argv s = Ok (at_argv a);
}.
Definition outputs_registered (d : BxDb) (k : Uuid) : Prop :=
  forall service s, services d !! (k, service) = Some s ->
  exists id a, artifacts d !! id = Some a /\ output_of k service s a.

(** ** Steps *)

Definition receipt_fits (j : BuildJob) (r : BuildReceipt) : Prop :=
  rp_job r = bj_id j
  /\ match rp_body r with RCancelAck _ => bj_state j = BCanceled | RComplete _ => True end.

Record bx_frame (d d' : BxDb) : Prop := {
  fr_jobs : jobs d' = jobs d; fr_services : services d' = services d;
  fr_artifacts : artifacts d' = artifacts d; fr_reserved : reserved d' = reserved d;
  fr_receipts : attempt_receipts d' = attempt_receipts d; fr_effects : effects d' = effects d;
  fr_usage : usage (adm d') = usage (adm d); fr_entitlements : entitlements (adm d') = entitlements (adm d);
}.

Record job_step (k : Uuid) (j j' : BuildJob) (d d' : BxDb) : Prop := {
  js_job : jobs d !! k = Some j; js_jobs : jobs d' = <[k := j']> (jobs d); js_same : same_build j j';
  js_services : services d' = services d;
  js_artifacts : artifacts d ⊆ artifacts d';
  js_outputs : bj_state j <> BSucceeded -> bj_state j' = BSucceeded -> outputs_registered d' k;
  js_settles : settles k j j' d d';
  js_receipts : attempt_receipts d' = attempt_receipts d
    \/ exists a r, attempt_receipts d !! a = None /\ attempt_receipts d' = <[a := r]> (attempt_receipts d)
         /\ receipt_fits j' r;
  js_effects : effects d ⊆ effects d';
  js_entitlements : entitlements (adm d') = entitlements (adm d);
}.

(** A new build, which reserves seconds of an entitlement that has them. *)
Record enqueue_step (k account : Uuid) (j : BuildJob) (d d' : BxDb) : Prop := {
  es_new : jobs d !! k = None; es_reserved_new : reserved d !! k = None;
  es_id : bj_id j = k; es_state : bj_state j = BQueued; es_fence : bj_fence j = 0%Z;
  es_jobs : jobs d' = <[k := j]> (jobs d);
  es_services : forall key s, services d' !! key = Some s -> services d !! key = Some s \/ key.1 = k;
  es_services_kept : services d ⊆ services d';
  es_artifacts : artifacts d' = artifacts d; es_receipts : attempt_receipts d' = attempt_receipts d;
  es_effects : effects d' = effects d; es_usage : usage (adm d') = usage (adm d);
  es_entitlements : entitlements (adm d') = entitlements (adm d);
  es_reserves : exists e u, entitlements (adm d) !! account = Some e /\ reserved d' = <[k := u]> (reserved d)
    /\ ur_entitlement u = en_id e /\ is_reserved u = true
    /\ (seconds_used d (en_id e) + RESERVED_SECONDS <= en_build_seconds e)%Z;
}.

Inductive bx_step (C : Uuid -> Prop) (d d' : BxDb) : Prop :=
| step_frame : bx_frame d d' -> bx_step C d d'
| step_job k j j' : job_next (C k) j j' -> job_step k j j' d d' -> bx_step C d d'
| step_enqueue k account j : enqueue_step k account j d d' -> bx_step C d d'.

(** The primary key of entitlements. *)
Definition entitlement_ids (a : AdmDb) : Prop := forall x y e f,
  entitlements a !! x = Some e -> entitlements a !! y = Some f -> en_id e = en_id f -> x = y.

(** The other components leave the tables of builds alone; those of admission they may
    change in any way that keeps the key. *)
Record bx_elsewhere (d d' : BxDb) : Prop := {
  el_jobs : jobs d' = jobs d; el_services : services d' = services d;
  el_artifacts : artifacts d' = artifacts d; el_reserved : reserved d' = reserved d;
  el_receipts : attempt_receipts d' = attempt_receipts d; el_effects : effects d' = effects d;
  el_ids : entitlement_ids (adm d');
}.

(** ** The invariant *)

Record bx_ok (d : BxDb) : Prop := {
  ok_id : forall k j, jobs d !! k = Some j -> bj_id j = k;
  ok_reserved : forall k j, jobs d !! k = Some j ->
    exists u, reserved d !! k = Some u /\ is_reserved u = holds_reservation j;
  ok_outputs : forall k j, jobs d !! k = Some j -> bj_state j = BSucceeded -> outputs_registered d k;
  ok_receipts : forall a r, attempt_receipts d !! a = Some r ->
    exists j, jobs d !! rp_job r = Some j /\ receipt_fits j r;
  ok_fence : forall k j, jobs d !! k = Some j -> (0 <= bj_fence j <= max_i64)%Z;
  ok_entitlements : entitlement_ids (adm d);
}.

(** ** Steps keep the invariant *)

Lemma seconds_used_sums d e :
  seconds_used d e = (table_sum (fun _ => entitlement_of e) (usage (adm d))
                      + table_sum (fun _ => reserved_of e) (reserved d))%Z.
Proof. done. Qed.

Lemma sum_replace {R} (f : Uuid -> R -> Z) (t : gmap Uuid R) k r r' :
  t !! k = Some r -> table_sum f (<[k := r']> t) = (table_sum f t - f k r + f k r')%Z.
Proof.
  intros Hk. rewrite <- insert_delete_eq, table_sum_insert by apply lookup_delete_eq.
  rewrite (table_sum_delete f t k r Hk). lia.
Qed.

Lemma seconds_used_ext d d' e :
  usage (adm d') = usage (adm d) -> reserved d' = reserved d -> seconds_used d' e = seconds_used d e.
Proof. intros E1 E2. by rewrite !seconds_used_sums, E1, E2. Qed.

(** A settled reservation gives back what it held, and pays at most that. *)
Lemma settles_within k j j' d d' e : settles k j j' d d' -> (seconds_used d' e <= seconds_used d e)%Z.
Proof.
  intros [Hr Hu _|u u' Hu Hres Hr Hres' Hent _ Hpaid].
  { by rewrite (seconds_used_ext d d'). }
  rewrite !seconds_used_sums, Hr, (sum_replace _ _ _ u u' Hu).
  assert (reserved_of e u' = 0%Z) as -> by (unfold reserved_of; by rewrite Hres', andb_false_r).
  destruct Hpaid as [->|(event & r & Hnew & -> & Hk & He & Hs)].
  - unfold reserved_of, RESERVED_SECONDS. destruct (_ && _); lia.
  - rewrite table_sum_insert by done. unfold entitlement_of, signed_seconds, reserved_of.
    rewrite Hk, He, Hres, andb_true_r. case_bool_decide; unfold RESERVED_SECONDS in *; lia.
Qed.

Lemma job_next_fence C j j' : job_next C j j' -> (bj_fence j <= bj_fence j')%Z /\
  (bj_fence j' = bj_fence j \/ (bj_fence j' <= max_i64)%Z).
Proof. intros []; lia. Qed.

(** What has ended stays ended. *)
Lemma job_next_ended C j j' : job_next C j j' -> ended (bj_state j) = true -> bj_state j' = bj_state j.
Proof.
  intros [] He; unfold ended, one_of in *; try congruence; destruct (bj_state j); done.
Qed.

Lemma receipt_fits_next C j j' r : same_build j j' -> job_next C j j' -> receipt_fits j r -> receipt_fits j' r.
Proof.
  intros Hs Hn [Hid Hb]. split; [by rewrite (sb_id _ _ Hs)|]. destruct (rp_body r); [done|].
  rewrite (job_next_ended _ _ _ Hn), Hb; [done|]. by rewrite Hb.
Qed.

Lemma outputs_registered_mono d d' k :
  artifacts d ⊆ artifacts d' ->
  (forall s x, services d' !! (k, s) = Some x -> services d !! (k, s) = Some x) ->
  outputs_registered d k -> outputs_registered d' k.
Proof.
  intros Ha Hs Ho service s Hl. destruct (Ho service s (Hs _ _ Hl)) as (id & a & Hid & ?).
  exists id, a. split; [by eapply lookup_weaken|done].
Qed.

(** The builds after one of them changed. *)
Lemma jobs_after (t : gmap Uuid BuildJob) k j' k' x :
  <[k := j']> t !! k' = Some x -> k' = k /\ x = j' \/ k' <> k /\ t !! k' = Some x.
Proof. rewrite lookup_insert. case_decide; [intros [= <-]|]; auto. Qed.

Lemma bx_frame_ok d d' : bx_frame d d' -> bx_ok d -> bx_ok d'.
Proof.
  intros [Ej Es Ea Er Et Ee Eu En] [].
  by split; unfold outputs_registered, entitlement_ids in *; rewrite ?Ej, ?Es, ?Ea, ?Er, ?Et, ?En.
Qed.

Lemma bx_elsewhere_ok d d' : bx_elsewhere d d' -> bx_ok d -> bx_ok d'.
Proof.
  intros [Ej Es Ea Er Et Ee En] [].
  by split; unfold outputs_registered in *; rewrite ?Ej, ?Es, ?Ea, ?Er, ?Et.
Qed.

Lemma job_step_ok C k j j' d d' : job_next C j j' -> job_step k j j' d d' -> bx_ok d -> bx_ok d'.
Proof.
  intros Hn [Hj Ejobs Hs Es Ha Hout Hset Hrc _ Een] [Hid Hres Houts Hrec Hf Hu].
  split.
  - intros k' x. rewrite Ejobs. intros [[-> ->]|[? ?]]%jobs_after; [|by apply Hid].
    rewrite (sb_id _ _ Hs). by apply Hid.
  - intros k' x. rewrite Ejobs. destruct Hset as [Er _ Eh|u u' Hl Hr Er Hr' _ Hh _].
    + rewrite Er. intros [[-> ->]|[? ?]]%jobs_after; [|by apply Hres].
      rewrite Eh. by apply Hres.
    + rewrite Er. intros [[-> ->]|[? ?]]%jobs_after.
      * exists u'. rewrite lookup_insert_eq, Hh. done.
      * rewrite lookup_insert_ne by done. by apply Hres.
  - intros k' x. rewrite Ejobs. intros [[-> ->]|[? ?]]%jobs_after Hst.
    + destruct (decide (bj_state j = BSucceeded)) as [E|E]; [|by apply Hout].
      apply (outputs_registered_mono d); [done|by rewrite Es|by eapply Houts].
    + apply (outputs_registered_mono d); [done|by rewrite Es|by eapply Houts].
  - assert (Hold : forall a r, attempt_receipts d !! a = Some r ->
      exists x, jobs d' !! rp_job r = Some x /\ receipt_fits x r).
    { intros a r (x & Hx & Hfit)%Hrec. rewrite Ejobs, lookup_insert.
      case_decide as E; [|eauto]. subst k. assert (x = j) as -> by congruence.
      exists j'. split; [done|]. by eapply receipt_fits_next. }
    intros a r. destruct Hrc as [->|(a' & r' & Hnone & -> & Hfit)]; [apply Hold|].
    rewrite lookup_insert. case_decide; [|apply Hold]. intros [= <-].
    exists j'. split; [|done]. destruct Hfit as [-> _]. rewrite Ejobs, (sb_id _ _ Hs), (Hid _ _ Hj).
    apply lookup_insert_eq.
  - intros k' x. rewrite Ejobs. intros [[-> ->]|[? ?]]%jobs_after; [|by eapply Hf].
    pose proof (Hf _ _ Hj). pose proof (job_next_fence _ _ _ Hn). lia.
  - unfold entitlement_ids. by rewrite Een.
Qed.

Lemma enqueue_step_ok k account j d d' : enqueue_step k account j d d' -> bx_ok d -> bx_ok d'.
Proof.
  intros [Hnew Hrnew Eid Est Efe Ejobs Hsv _ Ea Er _ Eu Een (e & u & He & Erv & Hue & Hur & Hfit)]
         [Hid Hres Houts Hrec Hf Hu].
  split.
  - intros k' x. rewrite Ejobs. intros [[-> ->]|[? ?]]%jobs_after; [done|by apply Hid].
  - intros k' x. rewrite Ejobs, Erv. intros [[-> ->]|[? ?]]%jobs_after.
    + exists u. rewrite lookup_insert_eq, Hur. split; [done|].
      unfold holds_reservation. by rewrite Est.
    + rewrite lookup_insert_ne by done. by apply Hres.
  - intros k' x. rewrite Ejobs. intros [[-> ->]|[? ?]]%jobs_after Hst; [congruence|].
    apply (outputs_registered_mono d); [by rewrite Ea| |by eapply Houts].
    intros s y [?|Hk]%Hsv; done.
  - intros a r. rewrite Er. intros (x & Hx & Hfitr)%Hrec. exists x. split; [|done].
    rewrite Ejobs, lookup_insert_ne; [done|congruence].
  - intros k' x. rewrite Ejobs. intros [[-> ->]|[? ?]]%jobs_after; [|by eapply Hf].
    rewrite Efe. unfold max_i64. lia.
  - unfold entitlement_ids. by rewrite Een.
Qed.

(** ** Steps and the allowance *)

(** The use of an entitlement only ever grows within what it allows. *)
Definition use_within (d d' : BxDb) : Prop :=
  entitlements (adm d') = entitlements (adm d) /\
  forall account e, entitlements (adm d) !! account = Some e ->
    (seconds_used d' (en_id e) <= Z.max (seconds_used d (en_id e)) (en_build_seconds e))%Z.

#[export] Instance use_within_preorder : PreOrder use_within.
Proof.
  split; [intros d; split; [done|lia]|]. intros d1 d2 d3 [E12 H12] [E23 H23]. split; [congruence|].
  intros account e He. specialize (H12 account e He). rewrite <- E12 in He. specialize (H23 account e He). lia.
Qed.

Lemma enqueue_use_within k account j d d' : enqueue_step k account j d d' -> bx_ok d -> use_within d d'.
Proof.
  intros [_ Hrnew _ _ _ _ _ _ _ _ _ Eu Een (e & u & He & Erv & Hue & Hur & Hfit)] Hok.
  split; [done|]. intros a f Hf. rewrite (seconds_used_sums d'), Eu, Erv, table_sum_insert by done.
  rewrite seconds_used_sums in Hfit |- *.
  unfold reserved_of at 1. rewrite Hue, Hur, andb_true_r. case_bool_decide as E; [|lia].
  assert (a = account) as -> by (by eapply (ok_entitlements d Hok)). assert (f = e) as -> by congruence. lia.
Qed.

Lemma bx_step_use_within C d d' : bx_step C d d' -> bx_ok d -> use_within d d'.
Proof.
  intros [[_ _ _ Er _ _ Eu En]|k j j' Hn H|k account j H] Hok.
  - split; [done|]. intros a e _. rewrite (seconds_used_ext d d') by done. lia.
  - split; [by eapply js_entitlements|]. intros a e _.
    pose proof (settles_within k j j' d d' (en_id e) (js_settles _ _ _ _ _ H)). lia.
  - by eapply enqueue_use_within.
Qed.

Lemma bx_step_ok C d d' : bx_step C d d' -> bx_ok d -> bx_ok d'.
Proof.
  intros [H|k j j' Hn H|k account j H].
  - by apply bx_frame_ok.
  - by eapply job_step_ok.
  - by eapply enqueue_step_ok.
Qed.

Lemma bx_steps_ok C d d' : rtc (bx_step C) d d' -> bx_ok d -> bx_ok d'.
Proof. induction 1; eauto using bx_step_ok. Qed.

Lemma bx_steps_use_within C d d' : rtc (bx_step C) d d' -> bx_ok d -> use_within d d'.
Proof.
  induction 1; [done|]. intros Hok. etrans; [by eapply bx_step_use_within|]. eauto using bx_step_ok.
Qed.
