(* ===== verification/BuildSteps.v ===== *)
(** * Build jobs: the handlers refine the specification

    Every handler, whatever its result, takes only steps of [bx_step]; only a
    cancellation may cancel, and only its own build. *)

From stdpp Require Import base list option gmap strings relations sorting.
From Stdlib Require Import ZArith Lia Ascii.
From S2P Require Import Prelude RustText Bytes ProjectContract PgTx Intent Secrets Admission.
From S2P Require Import Wire PolicyClock ExecutionTables SourceBundle BuildTables BuildInputs BuildJobs BuildSpec.

Local Open Scope string_scope.
Local Open Scope list_scope.

(** ** Statements *)

Lemma set_jobs_id (d : BxDb) : set_jobs (jobs d) d = d.
Proof. by destruct d. Qed.
Lemma set_attempts_id (d : BxDb) : set_attempts (attempts d) d = d.
Proof. by destruct d. Qed.

Lemma update_build_Ok id cond f env (w w' : World BxDb) n j :
  jobs (db w) !! id = Some j -> update_build id cond f env w = (Ok n, w') ->
  if cond j then n = 1%nat /\ exists j', f j = Some j' /\ job_check j' = true /\ job_unique (jobs (db w)) j' = true
                   /\ db w' = set_jobs (<[id := j']> (jobs (db w))) (db w)
  else n = 0%nat /\ db w' = db w.
Proof.
  intros Hj. unfold update_build. intros Hm.
  apply tbind_Ok in Hm as (d & w1 & [-> ->]%get_db_Ok & Hm).
  apply tbind_Ok in Hm as ([t m] & w2 & [Hup ->]%sql_Ok & Hm).
  apply tbind_Ok in Hm as (? & w3 & ->%put_db_Ok & [-> ->]%tret_Ok). cbn [db fst snd].
  apply update_pk_Some in Hup as [(-> & -> & Hc)|(-> & j1 & j2 & Hj1 & Hc & Hf & Hk & ->)].
  - rewrite (Hc j Hj). by rewrite set_jobs_id.
  - assert (j1 = j) as -> by congruence. rewrite Hc. apply andb_true_iff in Hk as [? ?]. eauto 10.
Qed.

(** Attempts alone. *)
Definition attempts_only (d d' : BxDb) : Prop := exists t, d' = set_attempts t d.

Lemma build_update_attempt_Ok job attempt fence also f env (w w' : World BxDb) n :
  update_attempt job attempt fence also f env w = (Ok n, w') -> attempts_only (db w) (db w').
Proof.
  unfold update_attempt. intros Hm.
  apply tbind_Ok in Hm as (d & w1 & [-> ->]%get_db_Ok & Hm).
  apply tbind_Ok in Hm as ([t m] & w2 & [Hup ->]%sql_Ok & Hm).
  apply tbind_Ok in Hm as (? & w3 & ->%put_db_Ok & [-> ->]%tret_Ok). by eexists.
Qed.

Lemma settle_reservation_Ok job state seconds debit env (w w' : World BxDb) v u :
  reserved (db w) !! job = Some u -> is_reserved u = true ->
  settle_reservation job state seconds debit env w = (Ok v, w') ->
  exists t, db w' = set_reserved (<[job := with_reserved u state seconds debit t]> (reserved (db w))) (db w).
Proof.
  intros Hu Hr. unfold settle_reservation. intros Hm.
  apply tbind_Ok in Hm as (t & w1 & [-> ->]%clock_Ok & Hm).
  apply tbind_Ok in Hm as (d & w2 & [-> ->]%get_db_Ok & Hm).
  apply tbind_Ok in Hm as ([rows m] & w3 & [Hup ->]%sql_Ok & ->%put_db_Ok). cbn [db] in *.
  apply update_pk_Some in Hup as [(_ & _ & Hc)|(_ & u1 & u2 & Hu1 & _ & [= <-] & _ & ->)].
  - by rewrite (Hc u Hu) in Hr.
  - assert (u1 = u) as -> by congruence. by eexists.
Qed.

Lemma build_insert_usage_Ok id u env (w w' : World AdmDb) v :
  insert_usage id u env w = (Ok v, w') ->
  usage (db w) !! id = None /\ db w' = set_usage (<[id := u]> (usage (db w))) (db w).
Proof.
  unfold insert_usage. intros Hm. apply tbind_Ok in Hm as (d & w1 & [-> ->]%get_db_Ok & Hm).
  case_match; [done|]. apply tbind_Ok in Hm as (t & w2 & [Hi ->]%sql_Ok & ->%put_db_Ok).
  apply insert_pk_Some in Hi as (? & _ & ->). done.
Qed.

(** What a debit does to the admission tables. *)
Definition debited (u : UsageReservation) (billed : Z) (d d' : BxDb) : Prop :=
  exists a, d' = set_adm a d /\ entitlements a = entitlements (adm d)
    /\ (usage a = usage (adm d) \/ exists event r, usage (adm d) !! event = None
         /\ usage a = <[event := r]> (usage (adm d))
         /\ u_kind r = Debit /\ u_entitlement r = ur_entitlement u /\ u_seconds r = billed).

Lemma debit_usage_Ok job account project deployment attempt billed env (w w' : World BxDb) v u :
  reserved (db w) !! job = Some u -> is_reserved u = true ->
  debit_usage job account project deployment attempt billed env w = (Ok v, w') ->
  debited u billed (db w) (db w').
Proof.
  intros Hu Hr. unfold debit_usage. case_match eqn:E.
  2: { intros [_ ->]%tret_Ok. exists (adm (db w)). split; [by destruct (db w)|auto]. }
  intros Hm. apply tbind_Ok in Hm as (d & w1 & [-> ->]%get_db_Ok & Hm).
  apply tbind_Ok in Hm as (e & w2 & [He ->]%sql_Ok & Hm).
  apply tbind_Ok in Hm as (event & w3 & [-> ->]%new_uuid_Ok & Hm).
  apply tbind_Ok in Hm as (? & w4 & Hz & [_ ->]%tret_Ok). cbn [db] in *.
  rewrite Hu in He. csimpl in He. unfold where_ in He. rewrite Hr in He. injection He as <-.
  unfold zoom in Hz. destruct (insert_usage _ _ _ _) as [[?|?] w5] eqn:Hi; [|done].
  injection Hz as _ <-. apply build_insert_usage_Ok in Hi as [Hnone Hi]. cbn [db] in *.
  eexists. split; [reflexivity|]. rewrite Hi. split; [done|]. right. by eexists _, _.
Qed.

Lemma debit_nothing job account project deployment attempt env (w w' : World BxDb) v :
  debit_usage job account project deployment attempt 0 env w = (Ok v, w') -> v = None /\ db w' = db w.
Proof. unfold debit_usage. by intros [-> ->]%tret_Ok. Qed.

Lemma insert_receipt_Ok attempt r env (w w' : World BxDb) u :
  insert_receipt attempt r env w = (Ok u, w') ->
  attempt_receipts (db w) !! attempt = None
  /\ db w' = set_attempt_receipts (<[attempt := r]> (attempt_receipts (db w))) (db w).
Proof.
  unfold insert_receipt. intros Hm. apply tbind_Ok in Hm as (d & w1 & [-> ->]%get_db_Ok & Hm).
  apply tbind_Ok in Hm as (t & w2 & [Hi ->]%sql_Ok & ->%put_db_Ok).
  apply insert_pk_Some in Hi as (? & _ & ->). done.
Qed.

(** Effects are only added. *)
Definition effects_grow (d d' : BxDb) : Prop := exists t, d' = set_effects t d /\ effects d ⊆ t.

Lemma build_insert_effect_Ok job e env (w w' : World BxDb) u :
  insert_effect job e env w = (Ok u, w') -> effects_grow (db w) (db w').
Proof.
  unfold insert_effect. intros Hm. apply tbind_Ok in Hm as (d & w1 & [-> ->]%get_db_Ok & Hm).
  apply tbind_Ok in Hm as (t & w2 & [Hi ->]%sql_Ok & ->%put_db_Ok).
  apply insert_pk_Some in Hi as (? & _ & ->). eexists. split; [done|]. by apply insert_subseteq.
Qed.

Lemma effects_stay (d : BxDb) : effects_grow d d.
Proof. exists (effects d). split; [by destruct d|done]. Qed.

(** ** By steps *)

Definition by_steps (C : Uuid -> Prop) (d d' : BxDb) : Prop := bx_ok d -> rtc (bx_step C) d d'.

#[export] Instance by_steps_preorder C : PreOrder (by_steps C).
Proof.
  split; [intros d _; constructor|]. intros d1 d2 d3 H1 H2 Hok.
  etrans; [by apply H1|]. apply H2. by eapply bx_steps_ok; [apply H1|].
Qed.

(** No build may be cancelled. *)
Definition nobody : Uuid -> Prop := fun _ => False.

Lemma build_one_step C d d' : (bx_ok d -> bx_step C d d') -> by_steps C d d'.
Proof. intros H Hok. by apply rtc_once, H. Qed.

Lemma frame_by_steps C d d' : bx_frame d d' -> by_steps C d d'.
Proof. intros H. apply build_one_step. intros _. by apply step_frame. Qed.

#[export] Instance bx_frame_preorder : PreOrder bx_frame.
Proof. split; [done|]. intros d1 d2 d3 [] []. split; congruence. Qed.

Lemma attempts_frame d d' : attempts_only d d' -> bx_frame d d'.
Proof. intros [t ->]. done. Qed.

(** A step on one build that leaves its reservation alone. *)
Lemma kept_step (C : Uuid -> Prop) d d' k j j' :
  jobs d !! k = Some j -> d' = set_jobs (<[k := j']> (jobs d)) d ->
  same_build j j' -> job_next (C k) j j' -> holds_reservation j' = holds_reservation j ->
  (bj_state j <> BSucceeded -> bj_state j' <> BSucceeded) ->
  bx_step C d d'.
Proof.
  intros Hj -> Hs Hn Hh Hst. apply (step_job C d _ k j j'); [done|]. split; try done.
  - intros ? ?. by exfalso; apply Hst.
  - by apply settles_kept.
  - by left.
Qed.

(** A build that is only touched: its lease, its source, its revision. *)
Lemma touch_step C d d' k j j' :
  jobs d !! k = Some j -> d' = set_jobs (<[k := j']> (jobs d)) d -> same_build j j' ->
  bj_state j' = bj_state j -> bj_attempts j' = bj_attempts j -> bj_current j' = bj_current j ->
  bj_fence j' = bj_fence j -> bj_cleanup j' = bj_cleanup j -> bx_step C d d'.
Proof.
  intros Hj Hd Hs E1 E2 E3 E4 E5. eapply kept_step; [done..| | |congruence].
  - by apply next_touch.
  - unfold holds_reservation. by rewrite E1, E5.
Qed.

(** The frame around a step. *)
Lemma framed_step C d0 d1 d2 d3 :
  bx_frame d0 d1 -> bx_step C d1 d2 -> bx_frame d2 d3 -> by_steps C d0 d3.
Proof.
  intros H1 H2 H3 _. eapply rtc_l; [by apply step_frame|]. eapply rtc_l; [done|]. by apply rtc_once, step_frame.
Qed.

Section Handlers.
Context (B : BuildExternals) (st : BuildConfig).

(** ** The live attempt *)

Lemma lock_live_attempt_Ok job q env (w w' : World BxDb) j :
  lock_live_attempt job q env w = (Ok j, w') ->
  db w' = db w /\ jobs (db w) !! job = Some j /\ live_job q j = true /\ bj_state j = BRunning
  /\ exists a, attempts (db w) !! lv_attempt q = Some a /\ running_attempt job (lv_fence q) a = true
       /\ bt_worker a = lv_worker q /\ (clock env (ticks w) < bt_lease a)%Z
       /\ is_some_and (fun l => clock env (ticks w) <? l)%Z (bj_lease j) = true.
Proof.
  unfold lock_live_attempt. intros Hm.
  apply tbind_Ok in Hm as (? & w1 & [_ ->]%reject_if_Ok & Hm).
  apply tbind_Ok in Hm as (now & w2 & [-> ->]%clock_Ok & Hm).
  apply tbind_Ok in Hm as (d & w3 & [-> ->]%get_db_Ok & Hm). cbn [db] in Hm.
  destruct (jobs (db w) !! job) as [j'|] eqn:Hj; [|done].
  destruct (attempts (db w) !! lv_attempt q) as [a|] eqn:Ha; [|done].
  destruct (_ && _) eqn:Hc in Hm; [|done]. apply tret_Ok in Hm as [-> ->].
  apply andb_true_iff in Hc as [Hc Hlease]. apply andb_true_iff in Hc as [Hc Hw].
  apply andb_true_iff in Hc as [Hc Hst]. apply andb_true_iff in Hc as [Hc Hf].
  apply andb_true_iff in Hc as [Hc Hjob]. apply andb_true_iff in Hc as [Hc Hl].
  split_and!; [done|done|exact Hc| |].
  - bool_simpl. done.
  - exists a. bool_simpl. split_and!; try done. unfold running_attempt.
    rewrite !bool_decide_eq_true_2 by done. rewrite andb_true_r. cbn. apply Z.eqb_eq. congruence.
Qed.

Lemma extend_leases_Ok job q also expires env (w w' : World BxDb) v j :
  jobs (db w) !! job = Some j -> live_job q j = true ->
  extend_leases job q also expires env w = (Ok v, w') ->
  exists d, attempts_only (db w) d /\ db w' = set_jobs (<[job := with_lease j expires]> (jobs d)) d.
Proof.
  intros Hj Hl. unfold extend_leases. intros Hm.
  apply tbind_Ok in Hm as (n & w1 & Ha%build_update_attempt_Ok & Hm).
  apply tbind_Ok in Hm as (m & w2 & Hb & [_ ->]%tret_Ok).
  exists (db w1). split; [done|]. destruct Ha as [t Ed].
  eapply (update_build_Ok _ _ _ _ _ _ _ j) in Hb; [|by rewrite Ed]. rewrite Hl in Hb.
  destruct Hb as (_ & j' & [= <-] & _ & _ & ->). done.
Qed.

Lemma extend_leases_step C job q also expires env (w w' : World BxDb) v j :
  jobs (db w) !! job = Some j -> live_job q j = true ->
  extend_leases job q also expires env w = (Ok v, w') -> by_steps C (db w) (db w').
Proof.
  intros Hj Hl Hm. eapply extend_leases_Ok in Hm as (d & Ha & ->); [|done..].
  eapply framed_step; [by apply attempts_frame| |done].
  eapply (touch_step C _ _ job j); [|done..]. by destruct Ha as [t ->].
Qed.

Lemma renew_steps C job q : keeps (by_steps C) (renew B st job q).
Proof.
  unfold renew. do 2 keeps_step. keeps_step. intros env w r w' Hm.
  apply tbind_Ok in Hm as (j & w1 & Hl & Hm).
  apply lock_live_attempt_Ok in Hl as (Ed & Hj & Hlive & _).
  apply tbind_Ok in Hm as (t & w2 & [-> ->]%clock_Ok & Hm).
  apply tbind_Ok in Hm as (v & w3 & He & [_ ->]%tret_Ok).
  eapply extend_leases_step in He; [|cbn; by rewrite Ed|done]. cbn [db] in He. by rewrite Ed in He.
Qed.

Lemma insert_materialization_Ok m env (w w' : World BxDb) v :
  insert_materialization m env w = (Ok v, w') -> exists t, db w' = set_materializations t (db w).
Proof.
  unfold insert_materialization. intros Hm.
  apply tbind_Ok in Hm as (id & w1 & [_ ->]%new_uuid_Ok & Hm).
  apply tbind_Ok in Hm as (d & w2 & [-> ->]%get_db_Ok & Hm).
  apply tbind_Ok in Hm as (? & w3 & [_ ->]%sql_Ok & Hm). cbn [db] in *.
  destruct (List.find _ _) as [[k o]|].
  - apply tret_Ok in Hm as [_ ->]. cbn [db]. exists (materializations (db w)). by destruct (db w).
  - apply tbind_Ok in Hm as (rows & w4 & [_ ->]%sql_Ok & Hm).
    apply tbind_Ok in Hm as (? & w5 & ->%put_db_Ok & [_ ->]%tret_Ok). by eexists.
Qed.

Lemma reject_source_step C {A} job q env (w w' : World BxDb) (v : res ApiError A) j :
  jobs (db w) !! job = Some j -> live_job q j = true ->
  reject_source job q env w = (Ok v, w') -> by_steps C (db w) (db w').
Proof.
  intros Hj Hl. unfold reject_source, handoff_source_rejection. intros Hm.
  apply tbind_Ok in Hm as (? & w1 & Hm & [_ ->]%tret_Ok).
  apply tbind_Ok in Hm as (t & w2 & [-> ->]%clock_Ok & Hm).
  apply tbind_Ok in Hm as ([n m] & w3 & He & [_ ->]%reject_if_Ok).
  by eapply extend_leases_step in He.
Qed.

Lemma write_source_step C job q j count bundle entries total env (w w' : World BxDb) v :
  jobs (db w) !! job = Some j -> live_job q j = true ->
  write_source B job q j count bundle entries total env w = (Ok v, w') -> by_steps C (db w) (db w').
Proof.
  intros Hj Hl. unfold write_source. cbn zeta. intros Hm.
  do 3 apply tbind_Ok in Hm as (? & ? & [_ ->]%lift_Ok & Hm).
  apply tbind_Ok in Hm as ([id stored] & w4 & [t Ed]%insert_materialization_Ok & Hm).
  transitivity (db w4); [apply frame_by_steps; by rewrite Ed|].
  assert (Hj4 : jobs (db w4) !! job = Some j) by (by rewrite Ed).
  destruct (_ && _) in Hm; [|by eapply reject_source_step].
  apply tbind_Ok in Hm as (n & w5 & Hb & Hm).
  apply tbind_Ok in Hm as (? & w6 & [_ ->]%reject_if_Ok & [_ ->]%tret_Ok).
  eapply (update_build_Ok _ _ _ _ _ _ _ j) in Hb; [|done]. rewrite Hl in Hb.
  destruct Hb as (_ & j' & [= <-] & _ & _ & ->). apply build_one_step. intros _.
  by eapply (touch_step C _ _ job j).
Qed.

Lemma materialize_steps C snapshot job q : keeps (by_steps C) (materialize B st snapshot job q).
Proof.
  unfold materialize. keeps_step. apply keeps_lift; [apply _|intros id _]. keeps_step. intros env w r w' Hm.
  apply tbind_Ok in Hm as (j & w1 & Hl & Hm).
  apply lock_live_attempt_Ok in Hl as (Ed & Hj & Hlive & _). rewrite <- Ed in Hj |- *.
  apply tbind_Ok in Hm as (d & w2 & [-> ->]%get_db_Ok & Hm).
  assert (Hfresh : forall w r w', match snapshot (db w) j with
      | Err e => if deterministic_source_rejection e then reject_source id q else raise e
      | Ok files =>
          match canonical_source_bundle (b_lowercase B) (fun bs => to_text (hex_encode (b_sha256 B bs))) files with
          | Err e => if deterministic_source_rejection e then reject_source id q else raise e
          | Ok (bundle, entries, total) =>
              write_source B id q j (Z.of_nat (length files)) bundle entries total
          end
      end env w = (Ok r, w') -> jobs (db w) !! id = Some j -> by_steps C (db w) (db w')).
  { clear Hm. intros v s v' Hm Hjv. destruct (snapshot _ _) as [files|e].
    - destruct (canonical_source_bundle _ _ _) as [[[? ?] ?]|e]; [by eapply write_source_step|].
      destruct (deterministic_source_rejection e); [by eapply reject_source_step|done].
    - destruct (deterministic_source_rejection e); [by eapply reject_source_step|done]. }
  destruct (bj_materialization j), (bj_bundle j), (bj_tree_manifest j); try by eapply Hfresh.
  do 3 apply tbind_Ok in Hm as (? & ? & [_ ->]%lift_Ok & Hm). by apply tret_Ok in Hm as [_ ->].
Qed.

Lemma build_resolve_credentials_steps C job q : keeps (by_steps C) (resolve_credentials B st job q).
Proof.
  unfold resolve_credentials. do 3 keeps_step. keeps_step. intros env w r w' Hm.
  apply tbind_Ok in Hm as (j & w1 & Hl & Hm).
  apply lock_live_attempt_Ok in Hl as (Ed & _). rewrite <- Ed.
  apply tbind_Ok in Hm as (? & w2 & Hmark & Hm).
  unfold mark_launched in Hmark.
  apply tbind_Ok in Hmark as (t & w3 & [-> ->]%clock_Ok & Hmark).
  apply tbind_Ok in Hmark as (n & w4 & Ha%build_update_attempt_Ok & [_ ->]%tret_Ok).
  apply tbind_Ok in Hm as (d & w5 & [-> ->]%get_db_Ok & Hm).
  apply tbind_Ok in Hm as (? & w6 & [_ ->]%reject_if_Ok & Hm).
  do 2 apply tbind_Ok in Hm as (? & ? & [_ ->]%lift_Ok & Hm). apply tret_Ok in Hm as [_ ->].
  by apply frame_by_steps, attempts_frame.
Qed.

(** ** Leasing *)

Lemma claimable_true d q j : claimable d q j = true ->
  one_of (bj_state j) [BQueued; BRetriable] = true /\ (bj_attempts j < 3)%Z /\ offered q j = true
  /\ account_busy d (bj_account j) = false.
Proof. unfold claimable. intros H. bool_simpl. done. Qed.

Lemma waiting_holds j : one_of (bj_state j) [BQueued; BRetriable] = true -> holds_reservation j = true.
Proof. unfold holds_reservation, one_of, can_run. by destruct (bj_state j). Qed.

Lemma build_insert_attempt_Ok a env (w w' : World BxDb) u :
  insert_attempt a env w = (Ok u, w') ->
  attempts (db w) !! bt_id a = None /\ attempt_check a = true
  /\ db w' = set_attempts (<[bt_id a := a]> (attempts (db w))) (db w).
Proof.
  unfold insert_attempt. intros Hm. apply tbind_Ok in Hm as (d & w1 & [-> ->]%get_db_Ok & Hm).
  apply tbind_Ok in Hm as (t & w2 & [Hi ->]%sql_Ok & ->%put_db_Ok).
  apply insert_pk_Some in Hi as (? & Hc & ->). by apply andb_true_iff in Hc as [? _].
Qed.

Lemma start_attempt_step C j worker env (w w' : World BxDb) v :
  bx_ok (db w) -> jobs (db w) !! bj_id j = Some j ->
  one_of (bj_state j) [BQueued; BRetriable] = true -> (bj_attempts j < 3)%Z ->
  start_attempt st j worker env w = (Ok v, w') -> by_steps C (db w) (db w').
Proof.
  intros Hok Hj Hst Hn. unfold start_attempt. cbn zeta. intros Hm.
  apply tbind_Ok in Hm as (attempt & w1 & [_ ->]%new_uuid_Ok & Hm).
  apply tbind_Ok in Hm as (t & w2 & [_ ->]%clock_Ok & Hm).
  apply tbind_Ok in Hm as (started & w3 & [_ ->]%clock_Ok & Hm).
  apply tbind_Ok in Hm as (? & w4 & (_ & Hc & Ed)%build_insert_attempt_Ok & Hm).
  apply tbind_Ok in Hm as (n & w5 & Hb & Hm).
  apply tbind_Ok in Hm as (d & w6 & [-> ->]%get_db_Ok & Hm).
  apply tbind_Ok in Hm as (leases & w7 & [_ ->]%sql_Ok & [_ ->]%tret_Ok). cbn [db] in Ed.
  eapply (update_build_Ok _ _ _ _ _ _ _ j) in Hb; [|by rewrite Ed].
  destruct Hb as (_ & j' & Hf & _ & _ & ->). apply bind_Some in Hf as (r & _ & [= <-]).
  assert (Hpos : (0 < wrap_i64 (bj_fence j + 1))%Z).
  { unfold attempt_check in Hc. cbn [bt_fence] in Hc. bool_simpl. done. }
  destruct (wrap_i64_succ _ (ok_fence _ Hok _ _ Hj) Hpos) as [Ew Hle].
  apply (framed_step C _ (db w4) (set_jobs (<[bj_id j := with_build j BRunning r (bj_attempts j + 1)
      (Some attempt) (wrap_i64 (bj_fence j + 1)) (Some (t + lease_seconds st * SECOND)%Z) (bj_code j)
      (bj_cleanup j)]> (jobs (db w4))) (db w4))); [apply attempts_frame; rewrite Ed; by eexists| |done].
  eapply (kept_step C _ _ (bj_id j) j); [by rewrite Ed|done|done|..].
  - apply next_lease; cbn; rewrite ?Ew; done.
  - rewrite (waiting_holds _ Hst). done.
  - done.
Qed.

(** A build that ends without an attempt of its own, and releases its reservation. *)
Lemma released_step (C : Uuid -> Prop) d d' k j j' u u' :
  jobs d !! k = Some j -> reserved d !! k = Some u -> is_reserved u = true ->
  d' = set_reserved (<[k := u']> (reserved d)) (set_jobs (<[k := j']> (jobs d)) d) ->
  is_reserved u' = false -> ur_entitlement u' = ur_entitlement u ->
  same_build j j' -> job_next (C k) j j' -> holds_reservation j' = false ->
  bj_state j' <> BSucceeded -> bx_step C d d'.
Proof.
  intros Hj Hu Hr -> Hr' He Hs Hn Hh Hst. apply (step_job C d _ k j j'); [done|]. split; try done.
  - eapply settles_paid; try done. by left.
  - by left.
Qed.

Lemma fail_stale_step C job j env (w w' : World BxDb) v :
  bx_ok (db w) -> jobs (db w) !! job = Some j ->
  one_of (bj_state j) [BQueued; BRetriable] = true -> (bj_attempts j < 3)%Z ->
  fail_stale job env w = (Ok v, w') -> by_steps C (db w) (db w').
Proof.
  intros Hok Hj Hst Hn. unfold fail_stale. intros Hm.
  apply tbind_Ok in Hm as (n & w1 & Hb & Hm).
  eapply (update_build_Ok _ _ _ _ _ _ _ j) in Hb; [|done]. destruct Hb as (_ & j' & Hf & _ & _ & Ed).
  apply bind_Some in Hf as (r & _ & [= <-]).
  destruct (ok_reserved _ Hok _ _ Hj) as (u & Hu & Hr). rewrite (waiting_holds _ Hst) in Hr.
  eapply (settle_reservation_Ok _ _ _ _ _ _ _ _ u) in Hm as (t & Ed'); [|by rewrite Ed|done].
  apply build_one_step. intros _. rewrite Ed' , Ed. eapply (released_step C); try done.
  by apply next_stale.
Qed.

Lemma lease_steps C q : keeps (by_steps C) (lease B st q).
Proof.
  unfold lease. do 3 keeps_step. keeps_step. intros env w r w' Hm.
  apply tbind_Ok in Hm as (now & w1 & [_ ->]%clock_Ok & Hm).
  apply tbind_Ok in Hm as (locked & w2 & [_ ->]%locked_rows_Ok & Hm).
  apply tbind_Ok in Hm as (d & w3 & [-> ->]%get_db_Ok & Hm). cbn [db] in *.
  destruct (select_first _ _ _) as [j|] eqn:Hsel; [|by apply tret_Ok in Hm as [_ ->]].
  apply select_first_in in Hsel as (k & Hk & Hc). apply andb_true_iff in Hc as [Hc _].
  apply claimable_true in Hc as (Hst & Hn & _).
  destruct (account_busy _ _); [by apply tret_Ok in Hm as [_ ->]|]. intros Hok.
  pose proof (ok_id _ Hok _ _ Hk) as Hid. subst k.
  case_bool_decide; apply tbind_Ok in Hm as (v & w4 & Hm & [_ ->]%tret_Ok).
  - by eapply start_attempt_step in Hm; [apply Hm|..].
  - by eapply fail_stale_step in Hm; [apply Hm|..].
Qed.

(** ** Cancelling *)

Lemma load_build_Some d account project job j :
  load_build d account project job = Some j ->
  jobs d !! job = Some j /\ bj_account j = account /\ bj_project j = project.
Proof. unfold load_build, where_. intros H. simplify_option_eq. bool_simpl. done. Qed.

Definition canceled (j : BuildJob) (r : Z) : BuildJob :=
  with_build j BCanceled r (bj_attempts j) None (bj_fence j + 1) None (Some "build_canceled")
    (if is_none (bj_current j) then NotStarted else CleanupPending).

Lemma not_ended_holds j : ended (bj_state j) = false -> holds_reservation j = true.
Proof. unfold holds_reservation, ended, can_run, one_of. by destruct (bj_state j). Qed.

Lemma build_cancel_job_Ok job j env (w w' : World BxDb) v :
  bx_ok (db w) -> jobs (db w) !! job = Some j -> ended (bj_state j) = false ->
  cancel_job job j env w = (Ok v, w') ->
  exists r, (bj_fence j + 1 <= max_i64)%Z /\ jobs (db w') = <[job := canceled j r]> (jobs (db w))
    /\ bx_step (fun k => k = job) (db w) (db w').
Proof.
  intros Hok Hj Hend. unfold cancel_job. intros Hm.
  apply tbind_Ok in Hm as (? & w1 & Hhead & Hm). apply tbind_Ok in Hm as (n & w2 & Hb & [_ ->]%tret_Ok).
  assert (Hj1 : jobs (db w1) = jobs (db w) -> exists r, (bj_fence j + 1 <= max_i64)%Z
    /\ db w2 = set_jobs (<[job := canceled j r]> (jobs (db w))) (db w1)).
  { intros E. eapply (update_build_Ok _ _ _ _ _ _ _ j) in Hb; [|by rewrite E].
    destruct Hb as (_ & j' & Hf & _ & _ & ->). apply bind_Some in Hf as (r & _ & Hf).
    apply bind_Some in Hf as (f & [-> Hle]%bigint_succ_Some & [= <-]). exists r. by rewrite E. }
  destruct (bj_current j) as [attempt|] eqn:Ecur.
  - apply tbind_Ok in Hhead as (t & w3 & [_ ->]%clock_Ok & Hhead).
    apply tbind_Ok in Hhead as (m & w4 & [at_ Ed]%build_update_attempt_Ok & [_ ->]%tret_Ok). cbn [db] in Ed.
    destruct Hj1 as (r & Hle & Ed'); [by rewrite Ed|]. exists r. split; [done|].
    split; [by rewrite Ed'|]. rewrite Ed', Ed.
    apply (step_job _ _ _ job j (canceled j r)).
    + apply next_cancel; cbn; try done.
    + split; try done; [|by left]. apply settles_kept; try done.
      rewrite (not_ended_holds _ Hend). unfold holds_reservation, canceled. cbn. by rewrite Ecur.
  - destruct (ok_reserved _ Hok _ _ Hj) as (u & Hu & Hr). rewrite (not_ended_holds _ Hend) in Hr.
    eapply (settle_reservation_Ok _ _ _ _ _ _ _ _ u) in Hhead as (t & Ed); [|done..].
    destruct Hj1 as (r & Hle & Ed'); [by rewrite Ed|]. exists r. split; [done|].
    split; [by rewrite Ed'|]. rewrite Ed', Ed.
    eapply (released_step _ _ _ job j (canceled j r) u); try done.
    + by apply next_cancel.
    + unfold holds_reservation, canceled. cbn. by rewrite Ecur.
Qed.

Lemma bx_step_mono (C C' : Uuid -> Prop) d d' : (forall k, C k -> C' k) -> bx_step C d d' -> bx_step C' d d'.
Proof.
  intros H [?|k j j' Hn ?|k account j ?]; [by apply step_frame| |by eapply step_enqueue].
  eapply step_job; [|done]. destruct Hn.
  - by apply next_touch.
  - by apply next_lease.
  - by apply next_stale.
  - by apply next_end.
  - apply next_cancel; auto.
  - by apply next_confirm.
Qed.

Lemma by_steps_mono (C C' : Uuid -> Prop) d d' : (forall k, C k -> C' k) -> by_steps C d d' -> by_steps C' d d'.
Proof.
  intros H Hs Hok. specialize (Hs Hok). clear Hok. induction Hs; [constructor|].
  eapply rtc_l; [by eapply bx_step_mono|done].
Qed.

(** The record of a request and its audit event. *)
Lemma store_frame actor operation key hash status (b : BuildJobRecord) env (w w' : World BxDb) u :
  store_replay actor operation key hash status b env w = (Ok u, w') -> bx_frame (db w) (db w').
Proof. by intros [_ ->]%store_replay_Ok. Qed.
Lemma audit_frame actor session et tt ti oc env (w w' : World BxDb) u :
  audit actor session et tt ti oc env w = (Ok u, w') -> bx_frame (db w) (db w').
Proof. by intros (? & ->)%audit_Ok. Qed.

Lemma cancel_steps caller project job_id headers :
  keeps (by_steps (fun k => path_uuid (b_parse_uuid B) job_id = Ok k)) (cancel B st caller project job_id headers).
Proof.
  unfold cancel. cbn zeta. keeps_step. apply keeps_lift; [apply _|intros pr _].
  apply keeps_lift; [apply _|intros job Hjob]. do 2 keeps_step.
  keeps_step. intros env w r w' Hm.
  apply tbind_Ok in Hm as (stored & w1 & [-> _]%replay_Ok & Hm).
  destruct stored; [|by apply tret_Ok in Hm as [_ ->]|done].
  apply tbind_Ok in Hm as (d & w2 & [-> ->]%get_db_Ok & Hm).
  apply tbind_Ok in Hm as (j & w3 & [Hj ->]%lift_Ok & Hm).
  apply tbind_Ok in Hm as (? & w4 & [_ ->]%reject_if_Ok & Hm).
  apply tbind_Ok in Hm as (? & w5 & Hc & Hm).
  apply tbind_Ok in Hm as (d & w6 & [-> ->]%get_db_Ok & Hm).
  apply tbind_Ok in Hm as (j' & w7 & [_ ->]%lift_Ok & Hm).
  apply tbind_Ok in Hm as (? & w8 & Ha%audit_frame & Hm).
  apply tbind_Ok in Hm as (? & w9 & Hs%store_frame & [_ ->]%tret_Ok).
  transitivity (db w5).
  - destruct (ended (bj_state j)) eqn:Hend; [by apply tret_Ok in Hc as [_ ->]|].
    unfold ok_or in Hj. destruct (load_build _ _ _ _) eqn:Hl; [|done]. injection Hj as ->.
    apply load_build_Some in Hl as (Hk & _ & _). apply build_one_step. intros Hok.
    eapply build_cancel_job_Ok in Hc as (r' & _ & _ & Hstep); [|done..].
    eapply bx_step_mono; [|exact Hstep]. by intros k ->.
  - apply frame_by_steps. by etrans.
Qed.

(** ** Completion *)

Lemma job_services_in d job service s :
  (service, s) ∈ job_services d job <-> services d !! (job, service) = Some s.
Proof.
  unfold job_services. rewrite (merge_sort_Permutation ordinal_le), list_elem_of_omap. split.
  - intros ([[j' s'] x] & Hin & Hc). apply elem_of_map_to_list in Hin. cbn in Hc.
    case_bool_decide; by simplify_eq.
  - intros Hl. exists ((job, service), s). rewrite elem_of_map_to_list. cbn.
    by rewrite bool_decide_eq_true_2.
Qed.

(** What the checks of an artifact establish. *)
Definition matches_service (d : BxDb) (job : Uuid) (a : ArtifactCompletion) : Prop :=
  exists s, services d !! (job, ac_service a) = Some s
    /\ artifact_kind_text (artifact_kind (bs_kind s)) = ac_kind a
    /\ expected_argv s = Ok (ac_argv a).

Lemma check_artifact_Ok d j q a : check_artifact B d j q a = Ok tt -> matches_service d (bj_id j) a.
Proof.
  unfold check_artifact. cbn zeta. intros (_ & _ & Hm)%res_bind_Ok.
  apply res_bind_Ok in Hm as (s & Hs & Hm). apply res_bind_Ok in Hm as (u & Hk & Hm).
  apply res_bind_Ok in Hm as (argv & Hargv & Hm). apply res_bind_Ok in Hm as (v & Ha & _).
  rewrite guard_err_Ok in Hk, Ha. bool_simpl. exists s. unfold ok_or in Hs.
  destruct (services d !! _); [|done]. split_and!; congruence.
Qed.

Lemma check_artifacts_Ok d j q l : forall seen seen',
  check_artifacts B d j q seen l = Ok seen' ->
  length seen' = (length seen + length l)%nat /\ Forall (matches_service d (bj_id j)) l
  /\ NoDup (map ac_kind l) /\ (forall a, a ∈ l -> ac_kind a ∉ seen).
Proof.
  induction l as [|a l IH]; intros seen seen'; cbn [check_artifacts].
  - intros [= <-]. split_and!; [cbn; lia|done|constructor|]. intros a Ha. by apply not_elem_of_nil in Ha.
  - intros (u & Hseen & Hm)%res_bind_Ok. apply res_bind_Ok in Hm as ([] & Hc%check_artifact_Ok & Hm).
    rewrite guard_err_Ok in Hseen. apply IH in Hm as (Hlen & Hall & Hnd & Hout).
    assert (Hne : ac_kind a ∉ seen).
    { unfold one_of in Hseen. by apply bool_decide_eq_false in Hseen. }
    split_and!; [cbn in *; lia|by constructor| |].
    + cbn. constructor; [|done]. intros (b & Eb & Hb)%list_elem_of_In%in_map_iff.
      apply (Hout b); [by apply list_elem_of_In|]. rewrite Eb. left.
    + intros b [->|Hb]%elem_of_cons; [done|]. intros Hin. apply (Hout b Hb). by right.
Qed.

(** Distinct kinds name distinct services; as many artifacts as services cover them all. *)
Lemma artifacts_cover d job l service s :
  Forall (matches_service d job) l -> NoDup (map ac_kind l) ->
  length l = length (job_services d job) -> services d !! (job, service) = Some s ->
  exists a, a ∈ l /\ ac_service a = service.
Proof.
  intros Hall Hnd Hlen Hs.
  assert (Hsnd : NoDup (map ac_service l)).
  { clear Hlen. induction l as [|a l IH]; cbn; [constructor|].
    inversion Hall as [|? ? Ha Hl]; subst. cbn in Hnd. apply NoDup_cons in Hnd as [Hna Hnd].
    constructor; [|by apply IH]. intros (b & Eb & Hb)%list_elem_of_In%in_map_iff.
    apply Hna, list_elem_of_In, in_map_iff. exists b. split; [|done].
    rewrite Forall_forall in Hl. apply list_elem_of_In in Hb.
    destruct (Hl b Hb) as (s1 & H1 & E1 & _), Ha as (s2 & H2 & E2 & _). congruence. }
  assert (Hsub : map ac_service l ⊆+ map fst (job_services d job)).
  { apply NoDup_submseteq; [done|]. intros x (a & <- & Ha)%list_elem_of_In%in_map_iff.
    rewrite Forall_forall in Hall. destruct (Hall a) as (s' & Hs' & _); [by apply list_elem_of_In|].
    apply list_elem_of_In, in_map_iff. exists (ac_service a, s'). split; [done|].
    by apply list_elem_of_In, job_services_in. }
  apply submseteq_length_Permutation in Hsub; [|rewrite !length_map; lia].
  assert (Hin : service ∈ map ac_service l).
  { rewrite Hsub. apply list_elem_of_In, in_map_iff. exists (service, s). split; [done|].
    by apply list_elem_of_In, job_services_in. }
  apply list_elem_of_In, in_map_iff in Hin as (a & <- & Ha). exists a. by rewrite list_elem_of_In.
Qed.

Definition registered (j : BuildJob) (q : LiveAttemptRequest) (t : gmap Uuid Artifact) (a : ArtifactCompletion) : Prop :=
  exists id kind, kind_of_text (ac_kind a) = Some kind /\ t !! id = Some (completed_artifact id j q kind a).

Lemma insert_artifacts_Ok j q l env : forall (w w' : World BxDb) u,
  insert_artifacts j q l env w = (Ok u, w') ->
  exists t, db w' = set_artifacts t (db w) /\ artifacts (db w) ⊆ t /\ Forall (registered j q t) l.
Proof.
  induction l as [|a l IH]; intros w w' u Hm; cbn [insert_artifacts] in Hm.
  - apply tret_Ok in Hm as [_ ->]. exists (artifacts (db w)). split; [by destruct (db w)|done].
  - apply tbind_Ok in Hm as (id & w1 & [_ ->]%new_uuid_Ok & Hm).
    apply tbind_Ok in Hm as (kind & w2 & [Hk ->]%sql_Ok & Hm).
    apply tbind_Ok in Hm as (d & w3 & [-> ->]%get_db_Ok & Hm).
    apply tbind_Ok in Hm as (rows & w4 & [Hi ->]%sql_Ok & Hm).
    apply tbind_Ok in Hm as (? & w5 & ->%put_db_Ok & Hm). cbn [db] in Hi.
    apply insert_pk_Some in Hi as (Hnone & _ & ->).
    apply IH in Hm as (t & Et & Hsub & Hall). cbn [db artifacts set_artifacts] in *.
    exists t. split; [by rewrite Et|]. split; [etrans; [by apply insert_subseteq|done]|].
    constructor; [|done]. exists id, kind. split; [done|].
    eapply lookup_weaken; [apply lookup_insert_eq|done].
Qed.

Lemma kind_of_own_text k : kind_of_text (artifact_kind_text k) = Some k.
Proof. by destruct k. Qed.

(** A registered artifact is the output of its service. *)
Lemma registered_output d j q t a service s :
  matches_service d (bj_id j) a -> registered j q t a -> ac_service a = service ->
  services d !! (bj_id j, service) = Some s ->
  exists id x, t !! id = Some x /\ output_of (bj_id j) service s x.
Proof.
  intros (s' & Hs' & Hkind & Hargv) (id & kind & Hk & Hid) Es Hs.
  assert (s' = s) as -> by (subst service; congruence).
  rewrite <- Hkind, kind_of_own_text in Hk. injection Hk as <-.
  exists id, (completed_artifact id j q (artifact_kind (bs_kind s)) a). split; done.
Qed.

Lemma completion_checks_Ok d j q o cleanup :
  completion_checks B d j q o = Ok cleanup ->
  Forall (matches_service d (bj_id j)) (oc_artifacts o) /\ NoDup (map ac_kind (oc_artifacts o))
  /\ (oc_state o = "succeeded" -> length (oc_artifacts o) = length (job_services d (bj_id j)))
  /\ (oc_state o = "succeeded" -> cleanup = Confirmed).
Proof.
  unfold completion_checks. intros (_ & _ & Hm)%res_bind_Ok. apply res_bind_Ok in Hm as (r & _ & Hm).
  apply res_bind_Ok in Hm as (_ & _ & Hm). apply res_bind_Ok in Hm as (c & _ & Hm).
  apply res_bind_Ok in Hm as (u & Hc & Hm). apply res_bind_Ok in Hm as (seen & Hseen & Hm).
  apply res_bind_Ok in Hm as (v & Hn & [= <-]). rewrite guard_err_Ok in Hc, Hn.
  apply check_artifacts_Ok in Hseen as (Hlen & Hall & Hnd & _). split_and!; [done|done|..].
  - intros Hst. rewrite (bool_decide_eq_true_2 _ Hst) in Hn. apply negb_false_iff, Nat.eqb_eq in Hn.
    cbn in Hlen. lia.
  - intros Hst. rewrite (bool_decide_eq_true_2 _ Hst) in Hc. apply orb_false_iff in Hc as [_ Hc].
    apply negb_false_iff in Hc. by rewrite Hc.
Qed.

Lemma outcome_states_Some o ts bs :
  outcome_states o = Some (ts, bs) ->
  one_of bs [BSucceeded; BFailed; BRetriable] = true /\ (bs = BSucceeded <-> oc_state o = "succeeded")
  /\ (bs = BRetriable <-> oc_state o = "retriable").
Proof.
  unfold outcome_states. destruct (bool_decide (oc_state o = "succeeded")) eqn:E1;
    [|destruct (bool_decide (oc_state o = "failed")) eqn:E2;
      [|destruct (bool_decide (oc_state o = "retriable")) eqn:E3]]; bool_simpl;
    intros [= <- <-]; (split; [reflexivity|split; split; congruence]).
Qed.

Lemma valid_completion_bounds o : valid_completion o = true ->
  (0 <= oc_elapsed o <= RESERVED_SECONDS)%Z /\ (oc_state o = "retriable" -> oc_elapsed o = 0%Z).
Proof.
  unfold valid_completion. intros H. do 3 (apply andb_true_iff in H as [H _]).
  apply andb_true_iff in H as [H Hhi]. apply andb_true_iff in H as [H Hlo]. bool_simpl.
  split; [done|]. intros Hst. rewrite Hst in H. rewrite !bool_decide_eq_false_2 in H by done.
  rewrite bool_decide_eq_true_2 in H by done. bool_simpl. done.
Qed.

(** The build as a completion leaves it. *)
Definition completed (j : BuildJob) (state : BuildState) (r : Z) (code : string) (cleanup : CleanupStatus) : BuildJob :=
  with_build j state r (bj_attempts j) None (bj_fence j) None (Some code) cleanup.

Lemma end_attempt_Ok job q o states cleanup hash env (w w' : World BxDb) u j :
  jobs (db w) !! job = Some j -> live_job q j = true ->
  end_attempt job q o states cleanup hash env w = (Ok u, w') ->
  exists d r, attempts_only (db w) d
    /\ db w' = set_jobs (<[job := completed j states.2 r (oc_code o) cleanup]> (jobs d)) d.
Proof.
  intros Hj Hl. unfold end_attempt. intros Hm.
  apply tbind_Ok in Hm as (t & w1 & [_ ->]%clock_Ok & Hm).
  apply tbind_Ok in Hm as (n & w2 & Ha%build_update_attempt_Ok & Hm).
  apply tbind_Ok in Hm as (m & w3 & Hb & [_ ->]%tret_Ok). cbn [db] in Ha.
  exists (db w2). pose proof Ha as [at_ Ed].
  eapply (update_build_Ok _ _ _ _ _ _ _ j) in Hb; [|by rewrite Ed]. rewrite Hl in Hb.
  destruct Hb as (_ & j' & Hf & _ & _ & ->). apply bind_Some in Hf as (r & _ & [= <-]). by exists r.
Qed.

(** A debit, and a reservation that is finalized, settle it. *)
Lemma paid_settles k j j' d d1 d' u u' billed :
  reserved d !! k = Some u -> is_reserved u = true -> (billed <= RESERVED_SECONDS)%Z ->
  debited u billed d d1 -> reserved d' = <[k := u']> (reserved d) -> usage (adm d') = usage (adm d1) ->
  is_reserved u' = false -> ur_entitlement u' = ur_entitlement u -> holds_reservation j' = false ->
  settles k j j' d d'.
Proof.
  intros Hu Hr Hb (a & -> & _ & Hd) Er Eu Hr' He Hh. eapply settles_paid; try done. rewrite Eu. cbn [adm set_adm].
  destruct Hd as [->|(event & r & ? & -> & ? & ? & <-)]; [by left|right]. eexists _, _. by split_and!.
Qed.

(** What a completion writes: the build, the receipt, and more outputs and effects. *)
Record completion_step (job : Uuid) (q : CompleteRequest) (response : CompleteResponse) (j j' : BuildJob)
    (d d' : BxDb) : Prop := {
  st_states : exists states r cleanup, outcome_states (cmq_outcome q) = Some states
    /\ j' = completed j states.2 r (oc_code (cmq_outcome q)) cleanup;
  st_jobs : jobs d' = <[job := j']> (jobs d);
  st_receipt : attempt_receipts d' = <[lv_attempt (cmq_live q) :=
    {| rp_job := job; rp_fence := lv_fence (cmq_live q); rp_hash := completion_hash B job q;
       rp_body := RComplete response |}]> (attempt_receipts d);
  st_step : job_step job j j' d d';
  st_retriable : oc_state (cmq_outcome q) = "retriable" -> reserved d' = reserved d;
}.

Lemma running_holds j : bj_state j = BRunning -> holds_reservation j = true.
Proof. unfold holds_reservation, can_run, one_of. by intros ->. Qed.
Lemma retriable_holds j : bj_state j = BRetriable -> holds_reservation j = true.
Proof. unfold holds_reservation, can_run, one_of. by intros ->. Qed.
Lemma done_holds_not j : one_of (bj_state j) [BSucceeded; BFailed] = true -> holds_reservation j = false.
Proof. unfold holds_reservation, can_run, one_of. by destruct (bj_state j). Qed.

Lemma live_job_state q j : live_job q j = true ->
  bj_state j = BRunning /\ bj_current j = Some (lv_attempt q) /\ bj_fence j = lv_fence q.
Proof. unfold live_job. intros H. bool_simpl. done. Qed.

(** The reservation after a completion. *)
Lemma settle_unless_Ok (kept : bool) job billed debit env (w w' : World BxDb) v u :
  reserved (db w) !! job = Some u -> is_reserved u = true ->
  (if kept then tret tt else finalize_reservation job billed debit) env w = (Ok v, w') ->
  exists t, db w' = set_reserved t (db w)
    /\ if kept then t = reserved (db w)
       else exists u', t = <[job := u']> (reserved (db w)) /\ is_reserved u' = false
                       /\ ur_entitlement u' = ur_entitlement u.
Proof.
  intros Hu Hr. destruct kept.
  - intros [_ ->]%tret_Ok. exists (reserved (db w)). split; [by destruct (db w)|done].
  - intros Hm. eapply settle_reservation_Ok in Hm as (t & ->); [|done..]. eexists. split; [done|].
    by eexists.
Qed.

Lemma effect_unless_Ok (kept : bool) job e env (w w' : World BxDb) v :
  (if kept then tret tt else insert_effect job e) env w = (Ok v, w') -> effects_grow (db w) (db w').
Proof. destruct kept; [intros [_ ->]%tret_Ok; apply effects_stay|by intros ?%build_insert_effect_Ok]. Qed.

Lemma completed_settles j q o states cleanup r d d1 d' u t :
  jobs d !! bj_id j = Some j -> bj_state j = BRunning -> reserved d !! bj_id j = Some u -> is_reserved u = true ->
  outcome_states o = Some states -> valid_completion o = true ->
  debited u (oc_elapsed o) d d1 -> usage (adm d') = usage (adm d1) -> reserved d' = t ->
  (if bool_decide (oc_state o = "retriable") then usage (adm d1) = usage (adm d) /\ t = reserved d
   else exists u', t = <[bj_id j := u']> (reserved d) /\ is_reserved u' = false
                   /\ ur_entitlement u' = ur_entitlement u) ->
  settles (bj_id j) j (completed j states.2 r q cleanup) d d'.
Proof.
  intros Hj Hrun Hu Hr Hst Hv Hd Eu Er Ht. destruct states as [ts bs].
  apply outcome_states_Some in Hst as (Hbs & _ & Hretr). case_bool_decide as Hc.
  - destruct Ht as [Ed Et]. apply settles_kept; [congruence..|]. rewrite (running_holds _ Hrun).
    apply retriable_holds. cbn. by apply Hretr.
  - destruct Ht as (u' & -> & Hr' & He).
    apply (paid_settles _ _ _ _ d1 _ u u' (oc_elapsed o)); try done.
    + by apply valid_completion_bounds in Hv as [[_ ?] _].
    + apply done_holds_not. cbn. destruct bs; try done. by destruct Hc; apply Hretr.
Qed.

Lemma complete_Ok job_id q env (w w' : World BxDb) r :
  bx_ok (db w) -> complete B st job_id q env w = (r, w') ->
  (exists e, r = Err e /\ db w' = db w)
  \/ exists response job, r = Ok response /\ path_uuid (b_parse_uuid B) job_id = Ok job
       /\ valid_completion (cmq_outcome q) = true
       /\ ((db w' = db w /\ exists rc, receipt_of (db w) job (lv_attempt (cmq_live q)) (lv_fence (cmq_live q)) = Some rc
              /\ rp_hash rc = completion_hash B job q /\ rp_body rc = RComplete response)
           \/ (receipt_of (db w) job (lv_attempt (cmq_live q)) (lv_fence (cmq_live q)) = None
               /\ exists j j', jobs (db w) !! job = Some j /\ live_job (cmq_live q) j = true
                    /\ completion_step job q response j j' (db w) (db w'))).
Proof.
  intros Hok. unfold complete. cbn zeta. intros Hm.
  apply lift_cases in Hm as [(e & _ & -> & ->)|(m3 & _ & Hm)]; [left; eauto|].
  apply lift_cases in Hm as [(e & _ & -> & ->)|(job & Hjob & Hm)]; [left; eauto|].
  apply lift_cases in Hm as [(e & _ & -> & ->)|(u & Hvalid & Hm)]; [left; eauto|].
  rewrite guard_err_Ok in Hvalid. apply orb_false_iff in Hvalid as [_ Hvalid].
  apply negb_false_iff in Hvalid.
  apply transaction_cases in Hm as [(e & -> & ?)|Hm]; [left; eauto|]. right.
  apply tbind_Ok in Hm as (d & w1 & [-> ->]%get_db_Ok & Hm).
  destruct (receipt_of _ _ _ _) as [rc|] eqn:Hrc.
  - apply tbind_Ok in Hm as (? & w2 & [Hh ->]%reject_if_Ok & Hm).
    destruct (rp_body rc) as [response|] eqn:Hbody; [|done]. apply tret_Ok in Hm as [-> ->].
    exists response, job. split_and!; try done. left. split; [done|]. exists rc. bool_simpl. done.
  - apply tbind_Ok in Hm as (j & w2 & Hl & Hm).
    apply lock_live_attempt_Ok in Hl as (E0 & Hj & Hlive & Hrun & _).
    pose proof (ok_id _ Hok _ _ Hj) as Hid. rewrite <- Hid in *.
    apply tbind_Ok in Hm as (cleanup & w3 & [Hchecks ->]%lift_Ok & Hm).
    apply tbind_Ok in Hm as (? & w4 & Hart & Hm).
    apply tbind_Ok in Hm as (debit & w5 & Hdeb & Hm).
    apply tbind_Ok in Hm as (? & w6 & Hfin & Hm).
    apply tbind_Ok in Hm as (states & w7 & [Hstates ->]%sql_Ok & Hm).
    apply tbind_Ok in Hm as (? & w8 & Hend & Hm).
    apply tbind_Ok in Hm as (d' & w9 & [-> ->]%get_db_Ok & Hm).
    apply tbind_Ok in Hm as (j2 & w10 & [_ ->]%lift_Ok & Hm).
    apply tbind_Ok in Hm as (? & w11 & Hrcp & Hm).
    apply tbind_Ok in Hm as (? & w12 & Heff & [-> ->]%tret_Ok).
    eexists _, (bj_id j). split; [reflexivity|]. split; [done|]. split; [done|]. right. split; [done|].
    destruct (ok_reserved _ Hok _ _ Hj) as (u0 & Hu0 & Hr0). rewrite (running_holds _ Hrun) in Hr0.
    apply insert_artifacts_Ok in Hart as (t & E1 & Hsub & Hreg). rewrite E0 in *.
    assert (Hretr : bool_decide (oc_state (cmq_outcome q) = "retriable") = true -> db w5 = db w4).
    { intros Hc%bool_decide_eq_true. apply valid_completion_bounds in Hvalid as [_ H0].
      rewrite (H0 Hc) in Hdeb. by apply debit_nothing in Hdeb as [_ ?]. }
    eapply (debit_usage_Ok _ _ _ _ _ _ _ _ _ _ u0) in Hdeb as (a & E2 & Hent & Hdeb); [|by rewrite E1|done].
    eapply (settle_unless_Ok _ _ _ _ _ _ _ _ u0) in Hfin as (rs & E3 & Hrs); [|by rewrite E2, E1|done].
    eapply (end_attempt_Ok _ _ _ _ _ _ _ _ _ _ j) in Hend as (d4 & r4 & [at_ ->] & E4);
      [|by rewrite E3, E2, E1|done].
    apply insert_receipt_Ok in Hrcp as [Hnone E5]. apply effect_unless_Ok in Heff as (ef & E6 & Hef).
    apply completion_checks_Ok in Hchecks as (Hall & Hnd & Hlen & _).
    rewrite E2 in Hretr, Hrs. rewrite E5, E4, E3, E2, E1 in Hef. rewrite E1 in Hent, Hdeb, Hretr, Hrs.
    rewrite E6, E5, E4, E3, E2, E1.
    cbn [adm jobs artifacts reserved usage effects set_adm set_jobs set_artifacts set_reserved
         set_attempts set_attempt_receipts attempt_receipts] in Hent, Hdeb, Hretr, Hrs, Hef.
    exists j. eexists. split; [done|]. split; [done|]. destruct states as [ts bs].
    split; [by exists (ts, bs), r4, cleanup|done|done| |].
    + split; try done.
      * intros _ Hbs. apply outcome_states_Some in Hstates as (_ & Hs & _). cbn in Hbs.
        apply Hs in Hbs. intros service s Hsv.
        destruct (artifacts_cover _ _ _ service s Hall Hnd (Hlen Hbs) Hsv) as (ac & Hac & Eac).
        rewrite Forall_forall in Hall, Hreg. by eapply registered_output; [apply Hall|apply Hreg|..].
      * eapply (completed_settles j _ _ (ts, bs) _ _ _ (set_adm a (db w)) _ u0 rs); try done;
          [by exists a|].
        destruct (bool_decide (oc_state (cmq_outcome q) = "retriable")); [|done]. split; [|done]. specialize (Hretr eq_refl).
        apply (f_equal adm) in Hretr. cbn in Hretr |- *. by rewrite Hretr.
      * right. eexists _, _. split; [|split; [done|split; [done|done]]]. by rewrite E4, E3, E2, E1 in Hnone.
    + intros Hc. by rewrite (bool_decide_eq_true_2 _ Hc) in Hrs.
Qed.

Lemma completion_next (C : Prop) job q response j j' d d' :
  live_job (cmq_live q) j = true -> completion_step job q response j j' d d' -> job_next C j j'.
Proof.
  intros (Hrun & _ & _)%live_job_state [([ts bs] & r & cleanup & Hst & ->) _ _ _ _].
  apply outcome_states_Some in Hst as (Hbs & _ & _). by apply next_end.
Qed.

Lemma complete_steps C job_id q : keeps (by_steps C) (complete B st job_id q).
Proof.
  intros env w r w' Hm Hok.
  apply complete_Ok in Hm as [(e & _ & ->)|(response & job & _ & _ & _ & Hm)]; [done| |done].
  destruct Hm as [[-> _]|(_ & j & j' & Hj & Hl & Hs)]; [done|].
  apply rtc_once. eapply (step_job C _ _ job j j'); [by eapply completion_next|by destruct Hs].
Qed.

(** ** The acknowledgment of a cancellation *)

Lemma awaits_ack_Some d job q j :
  awaits_ack d job q = Some j ->
  jobs d !! job = Some j /\ bj_state j = BCanceled /\ bj_cleanup j = CleanupPending.
Proof.
  unfold awaits_ack. intros (j' & Hj & H)%bind_Some. apply bind_Some in H as (a & _ & H).
  apply bind_Some in H as (u & Hw & [= ->]). unfold where_ in Hw. case_match eqn:E; [|done].
  bool_simpl. done.
Qed.

Definition confirmed (j : BuildJob) (r : Z) : BuildJob :=
  with_build j (bj_state j) r (bj_attempts j) (bj_current j) (bj_fence j) (bj_lease j) (bj_code j) Confirmed.

Lemma confirm_cleanup_Ok job env (w w' : World BxDb) u j :
  jobs (db w) !! job = Some j -> bj_state j = BCanceled -> bj_cleanup j = CleanupPending ->
  confirm_cleanup job env w = (Ok u, w') ->
  exists r, db w' = set_jobs (<[job := confirmed j r]> (jobs (db w))) (db w).
Proof.
  intros Hj Hst Hcl. unfold confirm_cleanup. intros Hm.
  apply tbind_Ok in Hm as (n & w1 & Hb & [_ ->]%tret_Ok).
  eapply (update_build_Ok _ _ _ _ _ _ _ j) in Hb; [|done].
  cbv beta in Hb. rewrite !bool_decide_eq_true_2 in Hb by done.
  destruct Hb as (_ & j' & Hf & _ & _ & ->). apply bind_Some in Hf as (r & _ & [= <-]). by exists r.
Qed.

(** A settled step that changes the build's row, and adds a receipt and effects. *)
Lemma paid_step (C : Uuid -> Prop) d d' k j j' u u' d1 billed :
  jobs d !! k = Some j -> same_build j j' -> job_next (C k) j j' ->
  reserved d !! k = Some u -> is_reserved u = true -> (billed <= RESERVED_SECONDS)%Z ->
  debited u billed d d1 -> is_reserved u' = false -> ur_entitlement u' = ur_entitlement u ->
  holds_reservation j' = false -> bj_state j' <> BSucceeded ->
  jobs d' = <[k := j']> (jobs d) -> services d' = services d -> artifacts d' = artifacts d ->
  reserved d' = <[k := u']> (reserved d) -> adm d' = adm d1 -> effects d ⊆ effects d' ->
  (attempt_receipts d' = attempt_receipts d
   \/ exists a r, attempt_receipts d !! a = None /\ attempt_receipts d' = <[a := r]> (attempt_receipts d)
        /\ receipt_fits j' r) ->
  bx_step C d d'.
Proof.
  intros Hj Hs Hn Hu Hr Hb Hd Hr' He Hh Hst Ej Es Ea Er Eadm Hef Hrc.
  apply (step_job C d d' k j j'); [done|]. split; try done.
  - by rewrite Ea.
  - eapply (paid_settles _ _ _ _ d1); try done. by rewrite Eadm.
  - rewrite Eadm. destruct Hd as (a & -> & Hent & _). exact Hent.
Qed.

Lemma cancel_ack_steps C job_id q : keeps (by_steps C) (cancel_ack B st job_id q).
Proof.
  unfold cancel_ack. keeps_step. apply keeps_lift; [apply _|intros job _].
  apply keeps_lift; [apply _|intros u Hq]. cbn zeta. keeps_step. intros env w r w' Hm.
  apply tbind_Ok in Hm as (d & w1 & [-> ->]%get_db_Ok & Hm).
  destruct (_ ≫= _) as [[rc j]|] in Hm.
  { do 2 apply tbind_Ok in Hm as (? & ? & [_ ->]%reject_if_Ok & Hm).
    destruct (rp_body rc); [done|]. by apply tret_Ok in Hm as [_ ->]. }
  apply tbind_Ok in Hm as (j & w2 & [Hj ->]%lift_Ok & Hm).
  apply tbind_Ok in Hm as (c & w3 & [_ ->]%lift_Ok & Hm).
  apply tbind_Ok in Hm as (? & w4 & [_ ->]%reject_if_Ok & Hm).
  apply tbind_Ok in Hm as (debit & w5 & Hdeb & Hm).
  apply tbind_Ok in Hm as (? & w6 & Hfin & Hm).
  apply tbind_Ok in Hm as (? & w7 & Hconf & Hm).
  apply tbind_Ok in Hm as (? & w8 & [Hnone E4]%insert_receipt_Ok & [_ ->]%tret_Ok).
  unfold ok_or in Hj. destruct (awaits_ack _ _ _) as [j'|] eqn:Haw; [|done]. injection Hj as ->.
  apply awaits_ack_Some in Haw as (Hj & Hst & Hcl). intros Hok.
  assert (Hhold : holds_reservation j = true).
  { unfold holds_reservation. rewrite Hst, Hcl. done. }
  destruct (ok_reserved _ Hok _ _ Hj) as (v & Hv & Hr). rewrite Hhold in Hr.
  eapply (debit_usage_Ok _ _ _ _ _ _ _ _ _ _ v) in Hdeb as Hdeb'; [|done..].
  destruct Hdeb' as (al & E1 & Hdeb'). assert (Hpaid : debited v (caq_elapsed q) (db w) (db w5)) by (by exists al).
  eapply (settle_reservation_Ok _ _ _ _ _ _ _ _ v) in Hfin as (t & E2); [|by rewrite E1|done].
  eapply confirm_cleanup_Ok in Hconf as (r' & E3); [|by rewrite E2, E1|done..].
  assert (Hb : (caq_elapsed q <= RESERVED_SECONDS)%Z).
  { rewrite guard_err_Ok in Hq. unfold invalid_cancel_ack in Hq. bool_simpl. done. }
  apply rtc_once. eapply (paid_step C _ _ job j (confirmed j r') v
    (with_reserved v UFinalized (caq_elapsed q) debit t) (db w5)); try done.
  all: rewrite ?E4, ?E3, ?E2, ?E1; try done.
  - by apply next_confirm.
  - unfold holds_reservation, confirmed. cbn. by rewrite Hst.
  - unfold confirmed. cbn. by rewrite Hst.
  - right. eexists _, _. split; [by rewrite E3, E2, E1 in Hnone|]. split; [done|].
    split; cbn; [symmetry; by apply (ok_id _ Hok)|done].
Qed.

(** ** Reaping *)

Lemma billed_bounds now launched billed : billed_seconds now launched = Some billed -> (0 <= billed <= RESERVED_SECONDS)%Z.
Proof. unfold billed_seconds. case_match; [|done]. intros [= <-]. unfold RESERVED_SECONDS. lia. Qed.

Lemma billed_read t env (w w' : World BxDb) billed :
  match t with Some at_ => read <~ clock_timestamp;; sql (billed_seconds read at_) | None => tret 0%Z end
    env w = (Ok billed, w') -> db w' = db w /\ (0 <= billed <= RESERVED_SECONDS)%Z.
Proof.
  destruct t.
  - intros (read & w1 & [_ ->]%clock_Ok & [Hb%billed_bounds ->]%sql_Ok)%tbind_Ok. done.
  - intros [-> ->]%tret_Ok. done.
Qed.

Definition reaped (j : BuildJob) (terminal launched : bool) (code : string) (r : Z) : BuildJob :=
  with_build j (if terminal then BFailed else BRetriable) r (bj_attempts j) None (bj_fence j) None
    (if terminal then Some code else None) (if launched then CleanupPending else bj_cleanup j).

Lemma reaped_effect_grow job attempt fence code launched billed env (w w' : World BxDb) u :
  reaped_effect B job attempt fence code launched billed env w = (Ok u, w') -> effects_grow (db w) (db w').
Proof.
  unfold reaped_effect. intros (d & w1 & [-> ->]%get_db_Ok & Hm)%tbind_Ok.
  case_bool_decide; [apply tret_Ok in Hm as [_ ->]; apply effects_stay|by apply build_insert_effect_Ok in Hm].
Qed.

Lemma reaped_next (C : Prop) j terminal launched code r :
  bj_state j = BRunning -> job_next C j (reaped j terminal launched code r).
Proof. intros Hj. apply next_end; [done| |done..]. by destruct terminal. Qed.

(** The end of a terminal attempt: its debit, its reservation and its effect. *)
Lemma settle_terminal_Ok job j attempt code launched billed env (w w' : World BxDb) v u :
  reserved (db w) !! job = Some u -> is_reserved u = true ->
  (debit <~ debit_usage job (bj_account j) (bj_project j) (bj_deployment j) attempt billed;;
   finalize_reservation job billed debit;;;
   reaped_effect B job attempt (bj_fence j) code launched billed) env w = (Ok v, w') ->
  exists a debit t ef, debited u billed (db w) (set_adm a (db w)) /\ effects (db w) ⊆ ef
    /\ db w' = set_effects ef (set_reserved (<[job := with_reserved u UFinalized billed debit t]> (reserved (db w)))
                                (set_adm a (db w))).
Proof.
  intros Hu Hr Hm. apply tbind_Ok in Hm as (debit & w1 & Hdeb & Hm).
  apply tbind_Ok in Hm as (x & w2 & Hfin & Hm). apply reaped_effect_grow in Hm as (ef & E3 & Hef).
  eapply (debit_usage_Ok _ _ _ _ _ _ _ _ _ _ u) in Hdeb; [|done..].
  pose proof Hdeb as (a & E1 & _). rewrite E1 in Hdeb.
  eapply (settle_reservation_Ok _ _ _ _ _ _ _ _ u) in Hfin as (t & E2); [|by rewrite E1|done].
  exists a, debit, t, ef. split; [done|]. rewrite E3, E2, E1 in *. done.
Qed.

Lemma build_reap_one_steps C : keeps (by_steps C) (reap_one B).
Proof.
  unfold reap_one. keeps_step. intros env w r w' Hm.
  apply tbind_Ok in Hm as (now & w1 & [-> ->]%clock_Ok & Hm).
  apply tbind_Ok in Hm as (locked & w2 & [-> ->]%locked_rows_Ok & Hm).
  apply tbind_Ok in Hm as (d & w3 & [-> ->]%get_db_Ok & Hm). cbn [db] in Hm.
  destruct (_ ≫= _) as [[j t]|] eqn:Hsel in Hm; [|by apply tret_Ok in Hm as [_ ->]].
  apply bind_Some in Hsel as (j' & Hsel & Ht). apply bind_Some in Ht as (a & _ & Ht).
  apply bind_Some in Ht as (t' & _ & [= -> ->]).
  apply select_first_in in Hsel as (k & Hj & Hc). apply andb_true_iff in Hc as [Hc _].
  unfold expired_at in Hc. do 2 apply andb_true_iff in Hc as [Hc _].
  apply bool_decide_eq_true in Hc. intros Hok. pose proof (ok_id _ Hok _ _ Hj) as <-.
  apply tbind_Ok in Hm as (billed & w4 & [E1 Hb]%billed_read & Hm).
  apply tbind_Ok in Hm as (finished & w5 & [-> ->]%clock_Ok & Hm).
  apply tbind_Ok in Hm as (n & w6 & [at_ E2]%build_update_attempt_Ok & Hm).
  apply tbind_Ok in Hm as (m & w7 & Hup & Hm). cbn [db] in E1, E2. rewrite E1 in E2.
  eapply (update_build_Ok _ _ _ _ _ _ _ j) in Hup; [|by rewrite E2].
  destruct Hup as (_ & j' & Hf & _ & _ & E3). apply bind_Some in Hf as (rev & _ & [= <-]).
  apply tbind_Ok in Hm as (? & w8 & Hend & [_ ->]%tret_Ok).
  set (launched := negb (is_none (bt_launched t))) in *.
  set (terminal := launched || (3 <=? bj_attempts j)%Z) in *.
  set (code := reaped_code launched terminal) in *.
  assert (E3' : db w7 = set_jobs (<[bj_id j := reaped j terminal launched code rev]> (jobs (db w)))
                          (set_attempts at_ (db w))) by (by rewrite E3, E2).
  clear E3. apply rtc_once. destruct (ok_reserved _ Hok _ _ Hj) as (u & Hu & Hr).
  rewrite (running_holds _ Hc) in Hr. destruct terminal.
  - eapply (settle_terminal_Ok _ _ _ _ _ _ _ _ _ _ u) in Hend as (al & debit & tm & ef & Hd & Hef & E4);
      [|by rewrite E3'|done]. rewrite E3' in *.
    eapply (paid_step C _ _ _ j (reaped j true launched code rev) u
              (with_reserved u UFinalized billed debit tm) (set_adm al (db w)) billed); try done.
    all: rewrite ?E4; try done.
    + by apply reaped_next.
    + lia.
    + destruct Hd as (al' & Eal & Hd). apply (f_equal adm) in Eal. cbn in Eal. subst al'. by exists al.
    + by left.
  - apply tret_Ok in Hend as [_ ->]. rewrite E3'.
    apply (step_job C _ _ (bj_id j) j (reaped j false launched code rev)); [by apply reaped_next|].
    split; try done; [|by left]. apply settles_kept; try done. by rewrite (running_holds _ Hc).
Qed.

Lemma reap_expired_steps C : keeps (by_steps C) (reap_expired B).
Proof.
  unfold reap_expired. generalize 64. intros n. induction n as [|n IH]; cbn [reap_loop]; [keeps_ro|].
  apply keeps_bind; [apply _|apply build_reap_one_steps|intros []]; [done|keeps_ro].
Qed.

(** ** Enqueueing *)

Lemma insert_service_snapshots_Ok job leases env : forall n (w w' : World BxDb) u,
  insert_service_snapshots job n leases env w = (Ok u, w') ->
  exists t, db w' = set_services t (db w) /\ services (db w) ⊆ t
    /\ forall key s, t !! key = Some s -> services (db w) !! key = Some s \/ key.1 = job.
Proof.
  induction leases as [|s leases IH]; intros n w w' u; cbn [insert_service_snapshots].
  - intros [_ ->]%tret_Ok. exists (services (db w)). split; [by destruct (db w)|auto].
  - intros (d & w1 & [-> ->]%get_db_Ok & Hm)%tbind_Ok.
    apply tbind_Ok in Hm as (rows & w2 & [Hi ->]%sql_Ok & Hm).
    apply tbind_Ok in Hm as (? & w3 & ->%put_db_Ok & Hm).
    apply insert_pk_Some in Hi as (Hnone & _ & ->). apply IH in Hm as (t & E & Hsub & Hnew).
    cbn [db services set_services] in *. exists t. split; [by rewrite E|]. split.
    + etrans; [by apply insert_subseteq|done].
    + intros key y [Hy|?]%Hnew; [|by right]. rewrite lookup_insert in Hy.
      case_decide; [right; by subst|by left].
Qed.

Lemma insert_secret_snapshots_Ok job account project leases env : forall (w w' : World BxDb) u,
  insert_secret_snapshots job account project leases env w = (Ok u, w') ->
  exists t, db w' = set_secret_refs t (db w).
Proof.
  induction leases as [|s leases IH]; intros w w' u; cbn [insert_secret_snapshots].
  - intros [_ ->]%tret_Ok. exists (secret_refs (db w)). by destruct (db w).
  - intros (d & w1 & [-> ->]%get_db_Ok & Hm)%tbind_Ok.
    apply tbind_Ok in Hm as (secret & w2 & [_ ->]%sql_Ok & Hm).
    apply tbind_Ok in Hm as (rows & w3 & [_ ->]%sql_Ok & Hm).
    apply tbind_Ok in Hm as (? & w4 & ->%put_db_Ok & Hm). apply IH in Hm as (t & E).
    exists t. by rewrite E.
Qed.

Lemma build_insert_job_Ok j env (w w' : World BxDb) u :
  insert_job j env w = (Ok u, w') ->
  jobs (db w) !! bj_id j = None /\ db w' = set_jobs (<[bj_id j := j]> (jobs (db w))) (db w).
Proof.
  unfold insert_job. intros (d & w1 & [-> ->]%get_db_Ok & Hm)%tbind_Ok.
  apply tbind_Ok in Hm as (t & w2 & [Hi ->]%sql_Ok & ->%put_db_Ok).
  apply insert_pk_Some in Hi as (? & _ & ->). done.
Qed.

Lemma build_insert_reservation_Ok job account project deployment entitlement env (w w' : World BxDb) v :
  insert_reservation job account project deployment entitlement env w = (Ok v, w') ->
  reserved (db w) !! job = None
  /\ exists u, ur_entitlement u = entitlement /\ is_reserved u = true
       /\ db w' = set_reserved (<[job := u]> (reserved (db w))) (db w).
Proof.
  unfold insert_reservation. intros (d & w1 & [-> ->]%get_db_Ok & Hm)%tbind_Ok.
  apply tbind_Ok in Hm as (t & w2 & [Hi ->]%sql_Ok & ->%put_db_Ok).
  apply insert_pk_Some in Hi as (? & _ & ->). split; [done|].
  eexists. split; [|split; [|reflexivity]]; done.
Qed.

Lemma enqueue_context_Some d account project deployment q c :
  enqueue_context d account project deployment q = Some c ->
  entitlements (adm d) !! account = Some (ec_entitlement c)
  /\ en_id (ec_entitlement c) = rv_entitlement (ec_reservation c).
Proof.
  unfold enqueue_context. intros (p & _ & H)%bind_Some. do 5 apply bind_Some in H as (? & _ & H).
  apply bind_Some in H as (e & He & H). apply bind_Some in H as (? & Hw & [= <-]).
  unfold where_ in Hw. case_match eqn:E; [|done]. apply andb_true_iff in E as [_ E]. bool_simpl. done.
Qed.

Lemma enqueue_checks_Ok d account project deployment expected q c now utc_now v :
  enqueue_checks B st d account project deployment expected q c now utc_now = Ok v ->
  (seconds_used d (rv_entitlement (ec_reservation c)) + RESERVED_SECONDS
   <= en_build_seconds (ec_entitlement c))%Z.
Proof.
  unfold enqueue_checks. intros (tree & _ & Hm)%res_bind_Ok.
  do 4 apply res_bind_Ok in Hm as (? & _ & Hm). apply res_bind_Ok in Hm as (? & H & _).
  rewrite guard_err_Ok in H. by apply Z.ltb_ge in H.
Qed.

(** The rows of a new build. *)
Lemma new_build_step C account project deployment c q tree profile digest created job leases secret_leases env
    (w w' : World BxDb) v e :
  entitlements (adm (db w)) !! account = Some e -> en_id e = rv_entitlement (ec_reservation c) ->
  (seconds_used (db w) (rv_entitlement (ec_reservation c)) + RESERVED_SECONDS <= en_build_seconds e)%Z ->
  (insert_job (new_build job account project deployment c q tree profile digest created);;;
   insert_service_snapshots job 0 leases;;;
   insert_secret_snapshots job account project secret_leases;;;
   insert_reservation job account project deployment (rv_entitlement (ec_reservation c))) env w = (Ok v, w') ->
  bx_step C (db w) (db w').
Proof.
  intros He Een Hfit Hm.
  apply tbind_Ok in Hm as (? & w1 & [Hnew E1]%build_insert_job_Ok & Hm).
  apply tbind_Ok in Hm as (? & w2 & (sv & E2 & Hsub & Hsv)%insert_service_snapshots_Ok & Hm).
  apply tbind_Ok in Hm as (? & w3 & (sr & E3)%insert_secret_snapshots_Ok & Hm).
  apply build_insert_reservation_Ok in Hm as (Hrnew & u & Hue & Hur & E4).
  rewrite E3, E2, E1 in Hrnew. rewrite E1 in Hsub, Hsv.
  apply (step_enqueue C _ _ job account
    (new_build job account project deployment c q tree profile digest created)). split; rewrite ?E4, ?E3, ?E2, ?E1; try done.
  exists e, u. rewrite Een. done.
Qed.

Lemma policy_now_frame env (w w' : World BxDb) r : policy_now (bc_m3 st) env w = (r, w') -> bx_frame (db w) (db w').
Proof.
  assert (Hk : keeps bx_frame (policy_now (D := BxDb) (bc_m3 st))); [|apply Hk].
  unfold policy_now, policy_time. keeps_step; [|keeps_step].
  do 3 keeps_step. destruct (policy_clock _); [|keeps_step].
  keeps_step; [|case_match; keeps_step].
  intros env0 w0 r0 w0' Hm. unfold upsert_clock, tbind, get_db, put_db, tret, raise in Hm.
  repeat case_match; simplify_eq; done.
Qed.

Lemma tbind_assoc {D X Y Z} (m : M D X) (f : X -> M D Y) (g : Y -> M D Z) env w :
  tbind (tbind m f) g env w = tbind m (fun x => tbind (f x) g) env w.
Proof. unfold tbind. by destruct (m env w) as [[?|?] ?]. Qed.

Lemma enqueue_steps C caller project_id deployment_id headers q :
  keeps (by_steps C) (enqueue B st caller project_id deployment_id headers q).
Proof.
  unfold enqueue. cbn zeta. do 2 keeps_step.
  apply keeps_lift; [apply _|intros project _]. apply keeps_lift; [apply _|intros deployment _].
  do 2 keeps_step. intros env w r w' Hm.
  apply clock_transaction_cases in Hm as [(e & c & _ & ->)|Hm]; [by apply frame_by_steps|].
  apply tbind_Ok in Hm as (created & w1 & [_ ->]%clock_Ok & Hm).
  apply tbind_Ok in Hm as (stored & w2 & [-> _]%replay_Ok & Hm).
  destruct stored as [|found|]; [|by apply tret_Ok in Hm as [_ ->]|done].
  apply tbind_Ok in Hm as (d & w3 & [-> ->]%get_db_Ok & Hm).
  apply tbind_Ok in Hm as (? & w4 & [_ ->]%reject_if_Ok & Hm).
  apply tbind_Ok in Hm as (c & w5 & [Hc ->]%lift_Ok & Hm).
  apply tbind_Ok in Hm as (now & w6 & Hf%policy_now_frame & Hm).
  apply tbind_Ok in Hm as (utc & w7 & [_ ->]%clock_Ok & Hm).
  apply tbind_Ok in Hm as (d & w8 & [-> ->]%get_db_Ok & Hm).
  apply tbind_Ok in Hm as ([[[tree leases] profile] secret_leases] & w9 & [Hchk ->]%lift_Ok & Hm).
  apply tbind_Ok in Hm as (job & w10 & [_ ->]%new_uuid_Ok & Hm). cbn [db] in *.
  unfold ok_or in Hc. destruct (enqueue_context _ _ _ _ _) as [c'|] eqn:Hctx; [|done]. injection Hc as ->.
  apply enqueue_context_Some in Hctx as [He Een]. apply enqueue_checks_Ok in Hchk.
  transitivity (db w6); [by apply frame_by_steps|].
  destruct (select_first _ _ _) as [existing|].
  { apply tbind_Ok in Hm as (j & w11 & [_ ->]%lift_Ok & Hm).
    apply tbind_Ok in Hm as (? & w12 & Hs%store_frame & [_ ->]%tret_Ok). by apply frame_by_steps. }
  apply tbind_Ok in Hm as (? & w11 & [_ ->]%sql_Ok & Hm).
  rewrite <- !tbind_assoc in Hm. apply tbind_Ok in Hm as (j & w12 & Hnew & Hm).
  apply tbind_Ok in Hnew as (d' & w13 & Hnew & [_ ->]%lift_Ok).
  apply tbind_Ok in Hnew as (? & w14 & Hnew & [-> ->]%get_db_Ok). rewrite !tbind_assoc in Hnew.
  eapply (new_build_step C) in Hnew; [|cbn; by rewrite (fr_entitlements _ _ Hf)|done|done].
  apply tbind_Ok in Hm as (? & w15 & Ha%audit_frame & Hm).
  apply tbind_Ok in Hm as (? & w16 & Hs%store_frame & [_ ->]%tret_Ok).
  intros _. eapply rtc_l; [exact Hnew|]. apply rtc_once, step_frame. by etrans.
Qed.

Lemma get_build_steps C caller project job : keeps (by_steps C) (get_build B st caller project job).
Proof. unfold get_build. keeps_ro. Qed.
End Handlers.
