(* ===== verification/BuildTheorems.v ===== *)
(** * Properties of build jobs

    Executions are sequences of requests; other components leave the tables of builds
    alone and do what they like to the entitlements and to usage.  They are indexed by
    the builds that an owner may cancel. *)

From stdpp Require Import base list option gmap strings relations sorting.
From Stdlib Require Import ZArith Lia Ascii.
From S2P Require Import Prelude RustText Bytes ProjectContract PgTx Intent Secrets Admission.
From S2P Require Import Wire PolicyClock ExecutionTables SourceBundle BuildTables BuildInputs BuildJobs.
From S2P Require Import BuildLedger BuildSpec BuildSteps.

Local Open Scope string_scope.
Local Open Scope list_scope.

(** ** Executions *)

Section Executions.
Context (B : BuildExternals) (st : BuildConfig).

Inductive bx_api (C : Uuid -> Prop) : World BxDb -> World BxDb -> Prop :=
| bx_enqueue caller project deployment headers q env w r w' :
    enqueue B st caller project deployment headers q env w = (r, w') -> bx_api C w w'
| bx_get caller project job env w r w' : get_build B st caller project job env w = (r, w') -> bx_api C w w'
| bx_cancel caller project job headers env w r w' :
    (forall k, path_uuid (b_parse_uuid B) job = Ok k -> C k) ->
    cancel B st caller project job headers env w = (r, w') -> bx_api C w w'
| bx_lease q env w r w' : lease B st q env w = (r, w') -> bx_api C w w'
| bx_renew job q env w r w' : renew B st job q env w = (r, w') -> bx_api C w w'
| bx_materialize snapshot job q env w r w' : materialize B st snapshot job q env w = (r, w') -> bx_api C w w'
| bx_credentials job q env w r w' : resolve_credentials B st job q env w = (r, w') -> bx_api C w w'
| bx_complete job q env w r w' : complete B st job q env w = (r, w') -> bx_api C w w'
| bx_cancel_ack job q env w r w' : cancel_ack B st job q env w = (r, w') -> bx_api C w w'
| bx_reap env w r w' : reap_expired B env w = (r, w') -> bx_api C w w'
| bx_others w w' : bx_elsewhere (db w) (db w') -> bx_api C w w'.

(** Any build may be cancelled. *)
Definition anybody : Uuid -> Prop := fun _ => True.

Lemma bx_api_moves C w w' : bx_api C w w' -> by_steps C (db w) (db w') \/ bx_elsewhere (db w) (db w').
Proof.
  destruct 1 as [caller project deployment headers q|caller project job|caller project job headers env w r w' HC Hm
                |q|job q|snapshot job q|job q|job q|job q| |]; [left..|by right].
  - by eapply enqueue_steps.
  - by eapply get_build_steps.
  - eapply by_steps_mono; [exact HC|]. by eapply cancel_steps.
  - by eapply lease_steps.
  - by eapply renew_steps.
  - by eapply materialize_steps.
  - by eapply build_resolve_credentials_steps.
  - by eapply complete_steps.
  - by eapply cancel_ack_steps.
  - by eapply reap_expired_steps.
Qed.

(** Every execution is a sequence of steps of builds and of the others. *)
Lemma bx_api_ok C w w' : bx_api C w w' -> bx_ok (db w) ->
  bx_ok (db w') /\ (rtc (bx_step C) (db w) (db w') \/ bx_elsewhere (db w) (db w')).
Proof.
  intros [Hs|Hs]%bx_api_moves Hok; split; eauto using bx_steps_ok, bx_elsewhere_ok.
Qed.

(** What every such step keeps, an execution keeps. *)
Lemma bx_apis_keep C (R : BxDb -> BxDb -> Prop) `{!PreOrder R} w w' :
  (forall d d', bx_step C d d' -> R d d') -> (forall d d', bx_elsewhere d d' -> R d d') ->
  rtc (bx_api C) w w' -> bx_ok (db w) -> bx_ok (db w') /\ R (db w) (db w').
Proof.
  intros Hstep Helse. induction 1 as [w|w w1 w2 Hs _ IH]; intros Hok; [done|].
  apply bx_api_ok in Hs as [Hok1 Hs]; [|done]. destruct (IH Hok1) as [Hok2 HR]. split; [done|].
  etrans; [|exact HR]. destruct Hs as [Hs|Hs]; [|by apply Helse].
  clear -Hs Hstep PreOrder0. induction Hs; [done|]. etrans; [by apply Hstep|done].
Qed.

(** A request is one of these steps, too. *)
Lemma build_request_api env w w' : build_request B st env w w' -> bx_api anybody w w'.
Proof.
  intros []; [eapply bx_enqueue|eapply bx_get|eapply bx_cancel; [done|]|eapply bx_lease|eapply bx_renew
    |eapply bx_materialize|eapply bx_credentials|eapply bx_complete|eapply bx_cancel_ack|eapply bx_reap]; eassumption.
Qed.
Lemma build_request_steps env w w' : build_request B st env w w' -> by_steps anybody (db w) (db w').
Proof.
  intros []; lazymatch goal with H : _ = (_, _) |- _ => revert H end; intros Hm.
  - by eapply enqueue_steps.
  - by eapply get_build_steps.
  - eapply by_steps_mono; [|by eapply cancel_steps]. done.
  - by eapply lease_steps.
  - by eapply renew_steps.
  - by eapply materialize_steps.
  - by eapply build_resolve_credentials_steps.
  - by eapply complete_steps.
  - by eapply cancel_ack_steps.
  - by eapply reap_expired_steps.
Qed.

(** No build yet. *)
Record bx_fresh (d : BxDb) : Prop := {
  bf_jobs : jobs d = ∅; bf_reserved : reserved d = ∅; bf_receipts : attempt_receipts d = ∅;
  bf_entitlements : entitlement_ids (adm d);
}.

Lemma fresh_bx_ok d : bx_fresh d -> bx_ok d.
Proof. intros [Ej Er Et He]. split; rewrite ?Ej, ?Et; done. Qed.

Lemma builds_ok_from C w w' : bx_ok (db w) -> rtc (bx_api C) w w' -> bx_ok (db w').
Proof. intros Hok Hr. induction Hr as [|w w1 w' Hs _ IH]; [done|]. apply IH. by eapply bx_api_ok. Qed.

Lemma builds_ok C w w' : bx_fresh (db w) -> rtc (bx_api C) w w' -> bx_ok (db w').
Proof. intros Hf%fresh_bx_ok. by apply builds_ok_from. Qed.

(** ** History *)

Record bx_history (d d' : BxDb) : Prop := {
  bh_jobs : forall k j, jobs d !! k = Some j -> exists j', jobs d' !! k = Some j' /\ same_build j j'
    /\ (bj_fence j <= bj_fence j')%Z /\ (ended (bj_state j) = true -> bj_state j' = bj_state j);
  bh_services : services d ⊆ services d';
  bh_artifacts : artifacts d ⊆ artifacts d';
  bh_receipts : attempt_receipts d ⊆ attempt_receipts d';
  bh_effects : effects d ⊆ effects d';
}.

#[export] Instance bx_history_preorder : PreOrder bx_history.
Proof.
  split.
  - intros d. split; try done. intros k j Hj. exists j. split_and!; done.
  - intros d1 d2 d3 [H1 ? ? ? ?] [H2 ? ? ? ?]. split; try (by etrans).
    intros k j Hj. destruct (H1 k j Hj) as (j2 & Hj2 & [] & ? & E1).
    destruct (H2 k j2 Hj2) as (j3 & Hj3 & [] & ? & E2). exists j3.
    split; [done|]. split; [split; congruence|]. split; [lia|]. intros He.
    rewrite E2; [by apply E1|]. by rewrite E1.
Qed.

Lemma bx_step_history C d d' : bx_step C d d' -> bx_history d d'.
Proof.
  assert (Hkept : forall (t : gmap Uuid BuildJob) k j, t !! k = Some j -> exists j', t !! k = Some j'
    /\ same_build j j' /\ (bj_fence j <= bj_fence j')%Z /\ (ended (bj_state j) = true -> bj_state j' = bj_state j)).
  { intros t k j Hj. exists j. split_and!; done. }
  intros [[Ej Es Ea Er Et Ee Eu En]|k j j' Hn Hs|k account j Hs].
  - split; rewrite ?Ej, ?Es, ?Ea, ?Et, ?Ee; auto.
  - destruct Hs as [Hj Ejobs Hsame Es Ha _ _ Hrc Hef _]. split; try done.
    + intros k' x. rewrite Ejobs, lookup_insert. case_decide as E; [|by apply Hkept].
      subst k'. intros Hx. assert (x = j) as -> by congruence. exists j'. split; [done|].
      split; [done|]. split; [by eapply job_next_fence|]. by eapply job_next_ended.
    + by rewrite Es.
    + destruct Hrc as [->|(at_ & r & ? & -> & _)]; [done|]. by apply insert_subseteq.
  - destruct Hs as [Hnew _ _ _ _ Ejobs _ Hsv Ea Er Hef _ _ _]. split; try done.
    + intros k' x Hx. rewrite Ejobs, lookup_insert_ne by congruence. by apply Hkept.
    + by rewrite Ea.
    + by rewrite Er.
    + by rewrite Hef.
Qed.

Lemma bx_elsewhere_history d d' : bx_elsewhere d d' -> bx_history d d'.
Proof.
  intros [Ej Es Ea Er Et Ee _]. split; rewrite ?Ej, ?Es, ?Ea, ?Et, ?Ee; try done.
  intros k j Hj. exists j. split_and!; done.
Qed.

Lemma bx_apis_history C w w' : bx_ok (db w) -> rtc (bx_api C) w w' -> bx_history (db w) (db w').
Proof.
  intros Hok Hr. apply (bx_apis_keep C bx_history w w'); [apply bx_step_history|apply bx_elsewhere_history|done|done].
Qed.

(** ** A build that has used up its attempts *)

Definition exhausted (d : BxDb) (k : Uuid) (n : Z) : Prop :=
  exists j, jobs d !! k = Some j /\ bj_state j = BRetriable /\ bj_attempts j = n.

Lemma exhausted_next j j' : job_next False j j' -> bj_state j = BRetriable -> (3 <= bj_attempts j)%Z ->
  bj_state j' = BRetriable /\ bj_attempts j' = bj_attempts j.
Proof. intros [] Hs Hn; first [done|lia|split; congruence|congruence]. Qed.

Lemma exhausted_step (C : Uuid -> Prop) k n d d' :
  ~ C k -> (3 <= n)%Z -> bx_step C d d' -> exhausted d k n -> exhausted d' k n.
Proof.
  intros HC Hn Hs (j & Hj & Hst & Ha).
  destruct Hs as [[Ej _ _ _ _ _ _ _]|k' j1 j2 Hnext [Hj1 Ej _ _ _ _ _ _ _ _]|k' account j1 Hs].
  - exists j. by rewrite Ej.
  - destruct (decide (k' = k)) as [->|Hne].
    + assert (j1 = j) as -> by congruence. exists j2. rewrite Ej, lookup_insert_eq.
      destruct (exhausted_next j j2) as [? ?]; [|done|lia|split_and!; congruence].
      destruct Hnext; [by apply next_touch|by apply next_lease|by apply next_stale|by apply next_end|done|
                       by apply next_confirm].
    + exists j. rewrite Ej, lookup_insert_ne by done. done.
  - exists j. rewrite (es_jobs _ _ _ _ _ Hs), lookup_insert_ne; [done|].
    intros ->. pose proof (es_new _ _ _ _ _ Hs). congruence.
Qed.

Definition stays_exhausted k n (d d' : BxDb) : Prop := exhausted d k n -> exhausted d' k n.
#[export] Instance stays_exhausted_preorder k n : PreOrder (stays_exhausted k n).
Proof. split; unfold stays_exhausted; [by intros d|]. intros d1 d2 d3. auto. Qed.

Lemma exhausted_stays (C : Uuid -> Prop) k n w w' :
  ~ C k -> (3 <= n)%Z -> bx_ok (db w) -> rtc (bx_api C) w w' -> exhausted (db w) k n -> exhausted (db w') k n.
Proof.
  intros HC Hn Hok Hr. apply (bx_apis_keep C (stays_exhausted k n) w w'); [..|done|done].
  - intros d d' Hs Hx. by eapply exhausted_step.
  - intros d d' [Ej _ _ _ _ _ _] (j & Hj & ?). exists j. by rewrite Ej.
Qed.

(** ** Repeated requests *)

Lemma receipt_kept d d' job attempt fence r :
  bx_history d d' -> receipt_of d job attempt fence = Some r -> receipt_of d' job attempt fence = Some r.
Proof.
  intros Hh. unfold receipt_of. intros (r' & Hr & H)%bind_Some.
  rewrite (lookup_weaken _ _ _ _ Hr (bh_receipts _ _ Hh)). exact H.
Qed.

Lemma new_receipt d job attempt fence hash body t :
  attempt_receipts d = <[attempt := {| rp_job := job; rp_fence := fence; rp_hash := hash; rp_body := body |}]> t ->
  receipt_of d job attempt fence = Some {| rp_job := job; rp_fence := fence; rp_hash := hash; rp_body := body |}.
Proof.
  intros E. unfold receipt_of, where_. rewrite E, lookup_insert_eq. cbn.
  by rewrite bool_decide_eq_true_2, Z.eqb_refl.
Qed.

(** A completion that was answered has left the receipt that repeats the answer. *)
Lemma completed_receipt job_id q env (w w' : World BxDb) response :
  bx_ok (db w) -> complete B st job_id q env w = (Ok response, w') ->
  exists job rc, path_uuid (b_parse_uuid B) job_id = Ok job
    /\ receipt_of (db w') job (lv_attempt (cmq_live q)) (lv_fence (cmq_live q)) = Some rc
    /\ rp_hash rc = completion_hash B job q /\ rp_body rc = RComplete response.
Proof.
  intros Hok Hm. apply complete_Ok in Hm as [(e & He & _)|(response' & job & [= <-] & Hjob & _ & Hm)]; [done| |done].
  exists job. destruct Hm as [[E (rc & Hrc & ? & ?)]|(_ & j & j' & _ & _ & [_ _ E _ _])].
  - exists rc. by rewrite E.
  - eexists. split; [done|]. split; [by eapply new_receipt|done].
Qed.

Lemma complete_repeats job_id job q env (w w' : World BxDb) rc response r :
  (exists m3, require_enabled (bc_m3 st) = Ok m3) -> path_uuid (b_parse_uuid B) job_id = Ok job ->
  negb (valid_worker_id (lv_worker (cmq_live q))) || negb (valid_completion (cmq_outcome q)) = false ->
  receipt_of (db w) job (lv_attempt (cmq_live q)) (lv_fence (cmq_live q)) = Some rc ->
  rp_hash rc = completion_hash B job q -> rp_body rc = RComplete response ->
  complete B st job_id q env w = (r, w') -> r = Ok response /\ w' = w.
Proof.
  intros [m3 Hm3] Hjob Hvalid Hrc Hhash Hbody. unfold complete. rewrite Hm3, Hjob. cbn zeta. rewrite Hvalid.
  unfold tbind at 1 2 3, lift. cbn [guard_err]. unfold transaction, tbind at 1, get_db. rewrite Hrc.
  unfold tbind, reject_if. rewrite Hhash, bool_decide_eq_true_2 by done. cbn [negb tret].
  rewrite Hbody. cbn. by intros [= <- <-].
Qed.

Lemma complete_passes job_id q env (w w' : World BxDb) response :
  complete B st job_id q env w = (Ok response, w') ->
  (exists m3, require_enabled (bc_m3 st) = Ok m3)
  /\ negb (valid_worker_id (lv_worker (cmq_live q))) || negb (valid_completion (cmq_outcome q)) = false.
Proof.
  unfold complete. cbn zeta. intros Hm.
  apply lift_cases in Hm as [(e & _ & [=] & _)|(m3 & Hm3 & Hm)].
  apply lift_cases in Hm as [(e & _ & [=] & _)|(job & _ & Hm)].
  apply lift_cases in Hm as [(e & _ & [=] & _)|(u & Hv & _)]. rewrite guard_err_Ok in Hv. eauto.
Qed.

(** An acknowledgment that was accepted has left its receipt. *)
Lemma acknowledged_receipt job_id q env (w w' : World BxDb) response :
  cancel_ack B st job_id q env w = (Ok response, w') ->
  exists job rc, path_uuid (b_parse_uuid B) job_id = Ok job
    /\ (exists m3, require_enabled (bc_m3 st) = Ok m3) /\ invalid_cancel_ack q = false
    /\ receipt_of (db w') job (caq_attempt q) (caq_fence q) = Some rc /\ rp_body rc = RCancelAck response.
Proof.
  unfold cancel_ack. cbn zeta. intros Hm.
  apply lift_cases in Hm as [(e & _ & [=] & _)|(m3 & Hm3 & Hm)].
  apply lift_cases in Hm as [(e & _ & [=] & _)|(job & Hjob & Hm)].
  apply lift_cases in Hm as [(e & _ & [=] & _)|(u & Hv & Hm)]. rewrite guard_err_Ok in Hv.
  apply transaction_cases in Hm as [(e & [=] & _)|Hm]. exists job.
  apply tbind_Ok in Hm as (d & w1 & [-> ->]%get_db_Ok & Hm).
  destruct (_ ≫= _) as [[rc j]|] eqn:Hfound in Hm.
  - do 2 apply tbind_Ok in Hm as (? & ? & [_ ->]%reject_if_Ok & Hm).
    destruct (rp_body rc) as [|ack] eqn:Hbody; [done|]. apply tret_Ok in Hm as [[= <-] ->].
    apply bind_Some in Hfound as (rc' & Hrc & Hj). apply bind_Some in Hj as (j' & _ & [= -> ->]).
    exists rc. split_and!; eauto.
  - do 2 apply tbind_Ok in Hm as (? & ? & [_ ->]%lift_Ok & Hm).
    apply tbind_Ok in Hm as (? & ? & [_ ->]%reject_if_Ok & Hm).
    do 3 apply tbind_Ok in Hm as (? & ? & _ & Hm).
    apply tbind_Ok in Hm as (? & w8 & [_ E]%insert_receipt_Ok & [[= ->] ->]%tret_Ok).
    eexists. split; [done|]. split; [eauto|]. split; [done|].
    split; [eapply new_receipt; by rewrite E|reflexivity].
Qed.

(** While its receipt is there, an acknowledgment is fenced. *)
Lemma acknowledgment_fenced job_id job q env (w w' : World BxDb) rc ack r :
  bx_ok (db w) -> (exists m3, require_enabled (bc_m3 st) = Ok m3) ->
  path_uuid (b_parse_uuid B) job_id = Ok job -> invalid_cancel_ack q = false ->
  receipt_of (db w) job (caq_attempt q) (caq_fence q) = Some rc -> rp_body rc = RCancelAck ack ->
  cancel_ack B st job_id q env w = (r, w') -> r = Err fenced /\ db w' = db w.
Proof.
  intros Hok [m3 Hm3] Hjob Hvalid Hrc Hbody. unfold cancel_ack. rewrite Hm3, Hjob. cbn zeta. rewrite Hvalid.
  unfold tbind at 1 2 3, lift. cbn [guard_err]. unfold transaction, tbind at 1, get_db.
  assert (Hr : exists j, jobs (db w) !! job = Some j /\ bj_state j = BCanceled).
  { pose proof Hrc as Hrc'. unfold receipt_of in Hrc'. apply bind_Some in Hrc' as (rc' & Hl & Hw).
    apply bind_Some in Hw as (u & Hw & [= ->]). unfold where_ in Hw. case_match eqn:E; [|done].
    apply andb_true_iff in E as [E _]. apply bool_decide_eq_true in E.
    destruct (ok_receipts _ Hok _ _ Hl) as (j & Hj & _ & Hst). rewrite Hbody in Hst.
    exists j. by rewrite E in Hj. }
  destruct Hr as (j & Hj & Hst). rewrite Hrc, Hj. cbn [mbind option_bind].
  unfold tbind, reject_if. rewrite Hst, bool_decide_eq_true_2 by done. cbn. by intros [= <- <-].
Qed.

(** ** Credentials *)

Definition row_version (r : CredentialRow) : Uuid := se_version (cw_lease r).

(** The row of an active build secret that is bound to the build. *)
Definition bound_row (d : BxDb) (job account project : Uuid) (r : CredentialRow) : Prop :=
  exists ref, secret_refs d !! (job, row_version r) = Some ref
    /\ bound_secret d job account project (row_version r) ref = Some (cw_row r)
    /\ cw_secret r = sr_secret ref /\ se_service (cw_lease r) = sr_service ref
    /\ se_name (cw_lease r) = sr_name ref.

Lemma versions_nodup (job : Uuid) (f : (Uuid * Uuid) * BuildSecretRef -> option CredentialRow) l :
  (forall kr r, f kr = Some r -> kr.1 = (job, row_version r)) ->
  NoDup (map fst l) -> NoDup (map row_version (omap f l)).
Proof.
  intros Hf. induction l as [|kr l IH]; csimpl; [constructor|]. intros [Hna Hnd]%NoDup_cons.
  destruct (f kr) as [r|] eqn:E; csimpl; [|by apply IH]. constructor; [|by apply IH].
  intros (r' & Ev & (kr' & Hin & E')%list_elem_of_In%list_elem_of_omap)%list_elem_of_In%in_map_iff.
  apply Hna, list_elem_of_In, in_map_iff. exists kr'. split; [|by apply list_elem_of_In].
  rewrite (Hf _ _ E), (Hf _ _ E'). congruence.
Qed.

Lemma credential_rows_spec d job account project versions :
  NoDup (map row_version (credential_rows d job account project versions))
  /\ Forall (fun r => bound_row d job account project r /\ row_version r ∈ versions)
       (credential_rows d job account project versions).
Proof.
  unfold credential_rows. set (f := fun kr : (Uuid * Uuid) * BuildSecretRef => _).
  assert (Hf : forall kr r, f kr = Some r -> kr.1 = (job, row_version r) /\ row_version r ∈ versions
    /\ bound_secret d job account project (row_version r) kr.2 = Some (cw_row r)
    /\ cw_secret r = sr_secret kr.2 /\ se_service (cw_lease r) = sr_service kr.2
    /\ se_name (cw_lease r) = sr_name kr.2).
  { intros [[j v] ref] r. unfold f. cbn. destruct (_ && _) eqn:Hc; [|done].
    intros (row & Hrow & [= <-])%bind_Some. unfold one_of in Hc. bool_simpl. done. }
  split.
  - rewrite (merge_sort_Permutation credential_le). apply (versions_nodup job); [by intros kr r [? _]%Hf|].
    apply NoDup_fst_map_to_list.
  - rewrite (merge_sort_Permutation credential_le). apply Forall_forall.
    intros r (kr & Hin & Hr)%list_elem_of_omap. apply Hf in Hr as (Ek & Hv & Hb & Hs & Hsv & Hn).
    destruct kr as [key ref]. cbn in Ek. subst key. apply elem_of_map_to_list in Hin.
    split; [|done]. by exists ref.
Qed.

(** As many rows as versions: every version has its row. *)
Lemma rows_complete (rows : list CredentialRow) versions :
  NoDup (map row_version rows) -> Forall (fun r => row_version r ∈ versions) rows ->
  length rows = length versions -> map row_version rows ≡ₚ versions.
Proof.
  intros Hnd Hin Hlen. apply submseteq_length_Permutation; [|rewrite length_map; lia].
  apply NoDup_submseteq; [done|]. intros v (r & <- & Hr)%list_elem_of_In%in_map_iff.
  rewrite Forall_forall in Hin. by apply Hin, list_elem_of_In.
Qed.

(** What was opened from a row. *)
Definition opened (key : SecretKey) (account project : Uuid) (r : CredentialRow) (c : Credential) : Prop :=
  cd_service c = se_service (cw_lease r) /\ cd_version c = row_version r /\ cd_name c = se_name (cw_lease r)
  /\ sv_key_version (cw_row r) = key_version key
  /\ decrypt (b_aead B) key
       (build_secret_aad account project (cd_service c) (cw_secret r) (cd_version c))
       (sv_nonce (cw_row r)) (sv_ciphertext (cw_row r)) (sv_auth_tag (cw_row r)) = Some (cd_value c).

Lemma open_credential_Ok key account project r c :
  open_credential B key account project r = Ok c -> opened key account project r c.
Proof.
  unfold open_credential. cbn zeta. intros (u & Hk & Hm)%res_bind_Ok.
  apply res_bind_Ok in Hm as (plain & Hp & Hm). apply res_bind_Ok in Hm as (u' & _ & [= <-]).
  rewrite guard_err_Ok in Hk. unfold ok_or in Hp. bool_simpl.
  destruct (decrypt _ _ _ _ _ _) as [p|] eqn:Hd; [|done]. injection Hp as ->. done.
Qed.

Lemma open_credentials_Ok key account project rows : forall l,
  open_credentials B key account project rows = Ok l -> Forall2 (opened key account project) rows l.
Proof.
  induction rows as [|r rows IH]; cbn; intros l; [by intros [= <-]|].
  intros (c & Hc%open_credential_Ok & Hm)%res_bind_Ok. apply res_bind_Ok in Hm as (l' & Hl & [= <-]).
  constructor; auto.
Qed.

Lemma opened_versions key account project rows l :
  Forall2 (opened key account project) rows l -> map cd_version l = map row_version rows.
Proof. induction 1 as [|r c rows l (_ & E & _) _ IH]; cbn; [done|]. by rewrite E, IH. Qed.
End Executions.

(** ** Launching *)

Lemma mark_launched_Ok job q env (w w' : World BxDb) u a :
  attempts (db w) !! lv_attempt q = Some a -> running_attempt job (lv_fence q) a = true ->
  mark_launched job q env w = (Ok u, w') ->
  exists a', db w' = set_attempts (<[lv_attempt q := a']> (attempts (db w))) (db w) /\ is_Some (bt_launched a').
Proof.
  intros Ha Hr. unfold mark_launched, update_attempt. intros (t & w1 & [-> ->]%clock_Ok & Hm)%tbind_Ok.
  apply tbind_Ok in Hm as (n & w2 & Hm & [_ ->]%tret_Ok).
  apply tbind_Ok in Hm as (d & w3 & [-> ->]%get_db_Ok & Hm).
  apply tbind_Ok in Hm as ([rows m] & w4 & [Hup ->]%sql_Ok & Hm).
  apply tbind_Ok in Hm as (? & w5 & ->%put_db_Ok & [_ ->]%tret_Ok). cbn [db] in *.
  apply update_pk_Some in Hup as [(_ & _ & Hc)|(_ & a1 & a2 & Ha1 & _ & [= <-] & _ & ->)].
  - specialize (Hc a Ha). cbv beta in Hc. by rewrite Hr in Hc.
  - eexists. split; [done|]. done.
Qed.

(** ** Properties *)

(** C30: However requests follow one another, and whatever other components do to
    entitlements and usage in between, no build request takes an account beyond its
    entitlement: the seconds that builds were debited, less credits, and the 600 that
    each pending build holds end up within the seconds of the entitlement, or no higher
    than they were; so they stay within it for as long as only builds use it.  Every
    build that can still run holds its 600 seconds. *)
Theorem builds_stay_within_their_allowance B st env w w1 w2 account e
    (Hfresh : bx_fresh (db w)) (Hrun : rtc (bx_api B st anybody) w w1)
    (Hrequest : build_request B st env w1 w2)
    (He : entitlements (adm (db w1)) !! account = Some e) :
  entitlements (adm (db w2)) !! account = Some e
  /\ (seconds_used (db w2) (en_id e) <= Z.max (seconds_used (db w1) (en_id e)) (en_build_seconds e))%Z
  /\ forall k j, jobs (db w2) !! k = Some j -> can_run (bj_state j) = true ->
       exists u, reserved (db w2) !! k = Some u /\ is_reserved u = true.
Proof.
  pose proof (builds_ok B st anybody w w1 Hfresh Hrun) as Hok.
  pose proof (build_request_steps B st env w1 w2 Hrequest Hok) as Hs.
  destruct (bx_steps_use_within _ _ _ Hs Hok) as [Een Huse].
  split_and!; [by rewrite Een|by eapply Huse|].
  apply bx_steps_ok in Hs; [|done]. intros k j Hj Hr. destruct (ok_reserved _ Hs k j Hj) as (u & Hu & E).
  exists u. split; [done|]. rewrite E. unfold holds_reservation. by rewrite Hr.
Qed.

(** C31: Credentials reach only the worker that holds the live lease of the build's current
    attempt, under its fence; they are the values sealed in exactly the requested
    versions, each an active build secret that enqueueing bound to the build; and the
    attempt is marked as launched, so that the time it ran will be billed. *)
Theorem build_credentials_only_for_the_live_attempt B st job_id q env w w' creds
    (Hres : resolve_credentials B st job_id q env w = (Ok creds, w')) :
  exists job j a key rows, path_uuid (b_parse_uuid B) job_id = Ok job /\ jobs (db w) !! job = Some j
    /\ bj_state j = BRunning /\ bj_current j = Some (lv_attempt (crq_live q))
    /\ bj_fence j = lv_fence (crq_live q)
    /\ attempts (db w) !! lv_attempt (crq_live q) = Some a /\ bt_worker a = lv_worker (crq_live q)
    /\ (clock env (ticks w) < bt_lease a)%Z
    /\ map cd_version creds ≡ₚ crq_versions q
    /\ Forall (bound_row (db w) job (bj_account j) (bj_project j)) rows
    /\ Forall2 (opened B key (bj_account j) (bj_project j)) rows creds
    /\ exists a', attempts (db w') !! lv_attempt (crq_live q) = Some a' /\ is_Some (bt_launched a').
Proof.
  unfold resolve_credentials in Hres.
  apply tbind_Ok in Hres as (m3 & w1 & [_ ->]%lift_Ok & Hres).
  apply tbind_Ok in Hres as (job & w2 & [Hjob ->]%lift_Ok & Hres).
  apply tbind_Ok in Hres as (? & w3 & [_ ->]%lift_Ok & Hres).
  apply transaction_cases in Hres as [(e & [=] & _)|Hm].
  apply tbind_Ok in Hm as (j & w4 & Hl & Hm).
  pose proof (lock_live_attempt_Ok _ _ _ _ _ _ Hl) as (E0 & Hj & Hlive & Hrun & a & Ha & Hrt & Hw & Ht & _).
  apply live_job_state in Hlive as (_ & Hcur & Hf).
  apply tbind_Ok in Hm as (? & w5 & Hmark & Hm).
  eapply mark_launched_Ok in Hmark as (a' & E1 & Hlaunched); [|by rewrite E0|done]. rewrite E0 in E1.
  apply tbind_Ok in Hm as (d & w6 & [-> ->]%get_db_Ok & Hm).
  apply tbind_Ok in Hm as (? & w7 & [Hlen ->]%reject_if_Ok & Hm).
  apply tbind_Ok in Hm as (key & w8 & [_ ->]%lift_Ok & Hm).
  apply tbind_Ok in Hm as (credentials & w9 & [Hopen%open_credentials_Ok ->]%lift_Ok & Hm).
  apply tret_Ok in Hm as [[= <-] ->]. apply negb_false_iff, Nat.eqb_eq in Hlen. rewrite E1 in *.
  set (d := set_attempts _ _) in *.
  pose proof (credential_rows_spec d job (bj_account j) (bj_project j) (crq_versions q)) as [Hnd Hall].
  exists job, j, a, key, (credential_rows d job (bj_account j) (bj_project j) (crq_versions q)).
  split_and!; try done.
  - rewrite (opened_versions _ _ _ _ _ _ Hopen). apply rows_complete; [done| |done].
    by eapply Forall_impl; [exact Hall|]; intros r [_ ?].
  - eapply Forall_impl; [exact Hall|]. intros r [Hb _]. exact Hb.
  - exists a'. split; [apply lookup_insert_eq|done].
Qed.

(** However requests follow one another, a succeeded build has registered the artifact of
    every service it was enqueued with, of the service's kind and with the entry
    point that the service's framework and start command fix. *)
Theorem succeeded_builds_register_every_output B st w w' k j
    (Hfresh : bx_fresh (db w)) (Hrun : rtc (bx_api B st anybody) w w')
    (Hj : jobs (db w') !! k = Some j) (Hst : bj_state j = BSucceeded) :
  forall service s, services (db w') !! (k, service) = Some s ->
  exists id a, artifacts (db w') !! id = Some a /\ output_of k service s a.
Proof. exact (ok_outputs _ (builds_ok B st anybody w w' Hfresh Hrun) k j Hj Hst). Qed.

(** A completion that was answered is answered the same whenever it is repeated, whatever
    happened in between, and its repetition changes nothing. *)
Theorem build_completions_replay B st job_id q env env' w w1 w2 w3 response r
    (Hok : bx_ok (db w)) (Hfirst : complete B st job_id q env w = (Ok response, w1))
    (Hbetween : rtc (bx_api B st anybody) w1 w2)
    (Hagain : complete B st job_id q env' w2 = (r, w3)) :
  r = Ok response /\ w3 = w2.
Proof.
  assert (Hok1 : bx_ok (db w1)) by (eapply bx_steps_ok; [by eapply (complete_steps B st nobody)|done]).
  destruct (completed_receipt B st job_id q env w w1 response Hok Hfirst) as (job & rc & Hjob & Hrc & Hh & Hb).
  apply complete_passes in Hfirst as [Hm3 Hv].
  eapply (complete_repeats B st job_id job q env' w2 w3 rc response r); try done.
  eapply receipt_kept; [|done]. by eapply bx_apis_history.
Qed.

(** An acknowledgment of a cancellation that was accepted is refused as fenced whenever it
    is repeated: the branch of the handler that would replay its answer is never
    reached. *)
Theorem accepted_cancel_acks_are_never_replayed B st job_id q env env' w w1 w2 w3 response r
    (Hok : bx_ok (db w)) (Hfirst : cancel_ack B st job_id q env w = (Ok response, w1))
    (Hbetween : rtc (bx_api B st anybody) w1 w2)
    (Hagain : cancel_ack B st job_id q env' w2 = (r, w3)) :
  r = Err fenced /\ db w3 = db w2.
Proof.
  assert (Hok1 : bx_ok (db w1)) by (eapply bx_steps_ok; [by eapply (cancel_ack_steps B st nobody)|done]).
  destruct (acknowledged_receipt B st job_id q env w w1 response Hfirst) as (job & rc & Hjob & Hm3 & Hv & Hrc & Hb).
  eapply (acknowledgment_fenced B st job_id job q env' w2 w3 rc response r); try done.
  - by eapply builds_ok_from.
  - eapply receipt_kept; [|done]. by eapply bx_apis_history.
Qed.

(** A completion that asks for another attempt on the last one leaves a build that is
    never leased again: unless the owner cancels it, it stays retriable and holds its
    600 seconds. *)
Theorem exhausted_retriable_builds_are_stuck B st C job_id job q env w w1 w2 response j
    (Hok : bx_ok (db w)) (Hjob : path_uuid (b_parse_uuid B) job_id = Ok job)
    (Hfirst : complete B st job_id q env w = (Ok response, w1))
    (Hfresh : receipt_of (db w) job (lv_attempt (cmq_live q)) (lv_fence (cmq_live q)) = None)
    (Hretry : oc_state (cmq_outcome q) = "retriable")
    (Hj : jobs (db w) !! job = Some j) (Hlast : bj_attempts j = 3%Z)
    (Hbetween : rtc (bx_api B st C) w1 w2) (Hkeep : ~ C job) :
  exists j' u, jobs (db w2) !! job = Some j' /\ bj_state j' = BRetriable /\ bj_attempts j' = 3%Z
    /\ reserved (db w2) !! job = Some u /\ is_reserved u = true.
Proof.
  assert (Hok1 : bx_ok (db w1)) by (eapply bx_steps_ok; [by eapply (complete_steps B st nobody)|done]).
  apply complete_Ok in Hfirst as [(e & [=] & _)|(? & job' & _ & Hjob' & _ & Hm)]; [|done].
  assert (job' = job) as -> by congruence.
  destruct Hm as [[_ (rc & Hrc & _)]|(_ & j0 & j' & Hj0 & _ & [([ts bs] & rv & cl & Hs & ->) Ej _ _ _])]; [congruence|].
  assert (j0 = j) as -> by congruence. apply outcome_states_Some in Hs as (_ & _ & Hs).
  assert (Hex : exhausted (db w1) job 3).
  { eexists. rewrite Ej, lookup_insert_eq. split; [done|]. cbn. split; [by apply Hs|done]. }
  destruct (exhausted_stays B st C job 3 w1 w2) as (j2 & Hj2 & Hst2 & Ha2); [done..|].
  destruct (ok_reserved _ (builds_ok_from B st C w1 w2 Hok1 Hbetween) job j2 Hj2) as (u & Hu & Hr).
  exists j2, u. split_and!; [done..|]. rewrite Hr. by apply retriable_holds.
Qed.

(** Whatever requests follow, a build keeps what it was enqueued for, its fence never
    decreases and its end is final; its services, artifacts, receipts and effect stay
    as they are. *)
Theorem builds_keep_their_history B st w w'
    (Hok : bx_ok (db w)) (Hrun : rtc (bx_api B st anybody) w w') : bx_history (db w) (db w').
Proof. by eapply bx_apis_history. Qed.

(** ** A build from its enqueueing to its end *)

Module BuildDemo.

Definition text (c : Z) (n : nat) : string := to_text (replicate n c).
(** The file that holds the byte [n], and its digest. *)
Definition file_digest (n : Z) : string := "sha256:" +:+ to_text (hex_encode (replicate 32 n)).
Definition sum_digest (bs : bytes) : bytes := replicate 32 (fold_right Z.add 0 bs mod 256)%Z.
Definition digit (c : Z) : Z := if (c <? 97)%Z then (c - 48)%Z else (c - 87)%Z.
Definition stored (path : bytes) : option CasFile :=
  match path with
  | a :: b :: _ => Some {| cf_regular := true; cf_private := true; cf_bytes := Some [digit a * 16 + digit b]%Z |}
  | _ => None
  end.
(** Identifiers are written in unary. *)
Definition unary (n : Uuid) : string := text 97 (N.to_nat n).

(** Files 1 to 3 are the results of failing attempts, 4 to 6 of their cleanups, 10 to 12 of the attempt that succeeds. *)
Definition input_digest : string := file_digest 7.
Definition output : ArtifactCompletion := {|
  ac_service := 16; ac_kind := "application"; ac_archive := file_digest 20; ac_manifest := file_digest 12;
  ac_packed := 10; ac_unpacked := 20; ac_entries := 2; ac_argv := Some ["node"; "dist/server.mjs"] |}.
Definition result (attempt : Uuid) (fence : Z) (state code : string) (elapsed : Z) (l : list ArtifactCompletion)
    : ResultManifest := {|
  rm_schema := "hostlet.build-result/v1"; rm_job := 100; rm_attempt := attempt; rm_fence := fence;
  rm_input := input_digest; rm_state := state; rm_code := code; rm_elapsed := elapsed; rm_artifacts := l |}.
Definition results (bs : bytes) : option ResultManifest :=
  match bs with
  | [n] =>
      if (n =? 10)%Z then Some (result 101 1 "succeeded" "build_succeeded" 60 [output])
      else Some (result (Z.to_N (100 + n)) n "retriable" "platform_prelaunch_fault" 0 [])
  | _ => None
  end.
Definition cleanups (bs : bytes) : option CleanupManifest :=
  match bs with
  | [n] =>
      let k := if (n =? 11)%Z then 1%Z else (n - 3)%Z in
      Some {| cm_schema := "hostlet.build-cleanup/v1"; cm_job := 100; cm_attempt := Z.to_N (100 + k);
              cm_fence := k; cm_status := "confirmed" |}
  | _ => None
  end.
Definition manifests (bs : bytes) : option ArtifactManifest := Some {|
  am_schema := "hostlet.build-artifact/v1"; am_job := 100; am_attempt := 101; am_fence := 1;
  am_input := input_digest; am_commit := text 97 40; am_service := 16; am_kind := "application";
  am_archive := file_digest 20; am_packed := 10; am_unpacked := 20; am_entries := 2;
  am_argv := Some ["node"; "dist/server.mjs"] |}.
Definition profile (bs : bytes) : option ProfileFile := Some {|
  pl_schema := "hostlet.build-profile/v1"; pl_id := NODE22_PROFILE; pl_qemu := "/usr/bin/qemu";
  pl_qemu_digest := file_digest 0; pl_pinned := []; pl_mkfs := "/sbin/mkfs"; pl_sudo := "/usr/bin/sudo";
  pl_systemd_run := "/usr/bin/systemd-run"; pl_systemctl := "/usr/bin/systemctl" |}.

Definition B : BuildExternals := {|
  b_sha256 := sum_digest; b_parse_uuid := fun s => Some (N.of_nat (String.length s)); b_uuid_text := unary;
  b_aead := fun _ _ _ sealed _ => Some sealed; b_lowercase := fun bs => bs;
  b_profile_directory := Some true;
  b_owned_file := fun _ => Some {| of_regular := true; of_length := 1; of_mode := 256; of_canonical := true;
                                   of_in_parent := true; of_bytes := Some [9%Z] |};
  b_profile_json := profile; b_admissions_json := fun _ => None; b_input_json := fun _ => [7%Z];
  b_input_fits := fun _ => true; b_tree_json := fun _ => [5%Z]; b_outcome_json := fun o => as_bytes (oc_state o);
  b_cancel_json := fun _ => [8%Z]; b_result_json := results; b_cleanup_json := cleanups;
  b_artifact_json := manifests; b_enqueue_hash := fun _ => "enqueue"; b_empty_hash := "empty"; b_cas := stored;
  b_cas_write := fun _ _ => Ok tt |}.
Definition st : BuildConfig := {|
  bc_m3 := Some {| policy_clock := None; worker_hashes := [] |};
  bc_key := Some {| key_bytes := [1%Z]; key_version := "v1" |}; bc_lease_seconds := 30 |}.

(** *** An admitted deployment of account 1's project 2, with 1000 build seconds *)
Definition service : ServiceSpec := {|
  name := lit "api"; ProjectContract.kind := ProjectContract.Application; root := Some (lit "apps/api");
  framework := NodeHttp; node := Some {| major := 22 |}; build_command := Some (lit "npm run build");
  output_directory := Some (lit "dist"); start_command := Some (lit "npm run start");
  health_check := Some {| protocol := Http; hc_path := lit "/health" |}; uses_durable_data := true |}.
Definition spec : StandardProjectSpec := {|
  contract_version := PROJECT_CONTRACT_VERSION;
  repositories := [{| layout := Monorepo; package_manager := Npm; lockfile_path := Some (lit "package-lock.json") |}];
  ProjectContract.services := [service]; resources := {| ProjectContract.limits := [] |} |}.
Definition admitted : AdmDb := MkAdmDb ∅
  {[ 1%N := {| en_id := 17; en_pool := "p"; en_slots := 1; en_build_seconds := 1000; en_starts := 0;
               en_ends := 1000000000000; en_state := EActive; en_revision := 1 |} ]}
  {[ 7%N := {| sp_account := 1; sp_project := 2; sp_deployment := 4; sp_config := 10; sp_commit := text 97 40;
               sp_inventory := 1; sp_state := PValid; sp_expires := 1000000000000 |} ]}
  ∅
  {[ 5%N := {| rv_id := 5; rv_account := 1; rv_project := 2; rv_first := 4; rv_entitlement := 17; rv_pool := "p";
               rv_hold := 18; rv_epoch := 6; rv_state := Reserved; rv_reason := None; rv_observation := None;
               rv_released := None |} ]}
  ∅ ∅ ∅ ∅
  {[ 2%N := {| pj_account := 1; pj_slots := 1; pj_slot_state := SReserved; pj_config := Some 10%N; pj_revision := 1 |} ]}
  {[ 4%N := {| dp_account := 1; dp_project := 2; dp_config := 10; dp_commit := text 97 40; dp_lifecycle := LQueued |} ]}
  ∅ [] ∅ ∅ ∅
  {[ 8%N := {| gs_binding := 30; gs_account := 1; gs_project := 2; gs_repository := 31; gs_owner_resolve := false;
               gs_config := 10; gs_commit := text 97 40 |} ]}
  ∅ [].
Definition d0 : BxDb := MkBxDb admitted {[ 1%N ]} ∅ ∅ ∅ ∅ ∅ ∅ ∅ ∅ ∅
  {[ 8%N := text 97 40 ]}
  {[ 9%N := {| cp_account := 1; cp_project := 2; cp_config := 10; cp_source := 8; cp_analyzer := ANALYZER_REVISION;
               cp_status := "candidate" |} ]}
  {[ 10%N := {| cn_account := 1; cn_project := 2; cn_spec := spec |} ]}
  {[ (10%N, 16%N) := {| sc_account := 1; sc_project := 2; sc_kind := "application" |} ]}
  {[ 40%N := {| s_account := 1; s_project := 2; s_service := 16; s_name := "TOKEN"; s_operation := "build";
                s_credential_kind := "build_environment"; s_active := true |} ]}
  {[ 41%N := {| sv_account := 1; sv_project := 2; sv_service := 16; sv_secret := 40; sv_key_version := "v1";
                sv_nonce := replicate 24 0%Z; sv_ciphertext := replicate 8 65%Z; sv_auth_tag := replicate 16 0%Z |} ]}
  None ∅ [].
Definition start : World BxDb := MkWorld d0 0 0.
Definition env : Env :=
  {| clock := fun _ => 1000000000%Z; fresh := fun n => N.of_nat (100 + n); row_locked := fun _ _ => false |}.

(** *** The requests *)
Definition owner : Authenticated := {| account_id := 1; session_id := 3 |}.
Definition quoted (s : string) : string :=
  String (Ascii.ascii_of_nat 34) (s +:+ String (Ascii.ascii_of_nat 34) EmptyString).
Definition headers (key revision : string) : Headers := {|
  h_idempotency_key := Some (Some key); h_if_match := Some (Some (quoted revision)) |}.
Definition enqueue_request : EnqueueRequest := {|
  enq_source := 8; enq_report := 9; enq_proof := 7; enq_reservation := 5; enq_epoch := 6;
  enq_profile := NODE22_PROFILE; enq_secrets := [{| rq_service := 16; rq_version := 41 |}] |}.
Definition enqueued := enqueue B st owner (unary 2) (unary 4) (headers "build" "1") enqueue_request env start.

Definition lease_request : LeaseRequest := {|
  lq_worker := "worker"; lq_kinds := ["project_build"];
  lq_profiles := [{| pr_id := NODE22_PROFILE; pr_digest := file_digest 9 |}] |}.
Definition leased (w : World BxDb) := lease B st lease_request env w.
Definition live (attempt : Uuid) (fence : Z) : LiveAttemptRequest :=
  {| lv_worker := "worker"; lv_attempt := attempt; lv_fence := fence |}.
Definition first := leased (snd enqueued).

Definition credentials_request : CredentialsRequest := {| crq_live := live 101 1; crq_versions := [41%N] |}.
Definition resolved := resolve_credentials B st (unary 100) credentials_request env (snd first).
Definition source_file : BuildSourceFile := {|
  file_path := lit "server.js"; executable := false; blob_sha := text 97 40; content := [65; 66]%Z |}.
Definition snapshot (_ : BxDb) (_ : BuildJob) : res ApiError (list BuildSourceFile) := Ok [source_file].
Definition materialized := materialize B st snapshot (unary 100) (live 101 1) env (snd resolved).
Definition success_request : CompleteRequest := {| cmq_live := live 101 1; cmq_outcome := {|
  oc_state := "succeeded"; oc_code := "build_succeeded"; oc_result := file_digest 10; oc_cleanup := file_digest 11;
  oc_elapsed := 60; oc_artifacts := [output] |} |}.
Definition succeeded := complete B st (unary 100) success_request env (snd materialized).

(** Three attempts that ask for another. *)
Definition retry_request (n : Z) : CompleteRequest := {| cmq_live := live (Z.to_N (100 + n)) n; cmq_outcome := {|
  oc_state := "retriable"; oc_code := "platform_prelaunch_fault"; oc_result := file_digest n;
  oc_cleanup := file_digest (n + 3); oc_elapsed := 0; oc_artifacts := [] |} |}.
Definition retried1 := complete B st (unary 100) (retry_request 1) env (snd first).
Definition second := leased (snd retried1).
Definition retried2 := complete B st (unary 100) (retry_request 2) env (snd second).
Definition third := leased (snd retried2).
Definition retried3 := complete B st (unary 100) (retry_request 3) env (snd third).
Definition idle := leased (snd retried3).

(** A cancellation and its acknowledgment. *)
Definition cancellation := cancel B st owner (unary 2) (unary 100) (headers "cancel" "2") env (snd first).
Definition ack_request : CancelAckRequest := {|
  caq_worker := "worker"; caq_attempt := 101; caq_fence := 1; caq_cleanup := file_digest 4; caq_elapsed := 5 |}.
Definition acked := cancel_ack B st (unary 100) ack_request env (snd cancellation).
Definition acked_again := cancel_ack B st (unary 100) ack_request env (snd acked).

Example build_runs :
  is_ok (fst enqueued) = true /\ is_ok (fst resolved) = true /\ is_ok (fst materialized) = true
  /\ is_ok (fst succeeded) = true /\ is_ok (fst retried3) = true /\ is_ok (fst acked) = true.
Proof. vm_compute. split_and!; reflexivity. Qed.

Lemma build_start_fresh : bx_fresh (db start).
Proof.
  split; try reflexivity.
  - intros a b e f. cbn. intros [<- _]%lookup_singleton_Some [<- _]%lookup_singleton_Some. done.
Qed.

Lemma step_enqueued C : bx_api B st C start (snd enqueued).
Proof.
  exact (bx_enqueue B st C owner (unary 2) (unary 4) (headers "build" "1") enqueue_request env start
           (fst enqueued) (snd enqueued) (surjective_pairing enqueued)).
Qed.
Lemma step_leased C w : bx_api B st C w (snd (leased w)).
Proof. exact (bx_lease B st C lease_request env w (fst (leased w)) (snd (leased w)) (surjective_pairing (leased w))). Qed.
Lemma step_resolved C : bx_api B st C (snd first) (snd resolved).
Proof.
  exact (bx_credentials B st C (unary 100) credentials_request env (snd first) (fst resolved) (snd resolved)
           (surjective_pairing resolved)).
Qed.
Lemma step_materialized C : bx_api B st C (snd resolved) (snd materialized).
Proof.
  exact (bx_materialize B st C snapshot (unary 100) (live 101 1) env (snd resolved) (fst materialized)
           (snd materialized) (surjective_pairing materialized)).
Qed.
Lemma step_succeeded C : bx_api B st C (snd materialized) (snd succeeded).
Proof.
  exact (bx_complete B st C (unary 100) success_request env (snd materialized) (fst succeeded) (snd succeeded)
           (surjective_pairing succeeded)).
Qed.
Lemma step_cancelled : bx_api B st anybody (snd first) (snd cancellation).
Proof.
  exact (bx_cancel B st anybody owner (unary 2) (unary 100) (headers "cancel" "2") env (snd first)
           (fst cancellation) (snd cancellation) (fun _ _ => I) (surjective_pairing cancellation)).
Qed.
Lemma step_retried C n w :
  bx_api B st C w (snd (complete B st (unary 100) (retry_request n) env w)).
Proof.
  exact (bx_complete B st C (unary 100) (retry_request n) env w _ _
           (surjective_pairing (complete B st (unary 100) (retry_request n) env w))).
Qed.

Lemma run_first C : rtc (bx_api B st C) start (snd first).
Proof. eapply rtc_l; [exact (step_enqueued C)|]. apply rtc_once. exact (step_leased C (snd enqueued)). Qed.
Lemma run_materialized C : rtc (bx_api B st C) start (snd materialized).
Proof.
  etrans; [exact (run_first C)|]. eapply rtc_l; [exact (step_resolved C)|].
  apply rtc_once. exact (step_materialized C).
Qed.
Lemma run_succeeded C : rtc (bx_api B st C) start (snd succeeded).
Proof. etrans; [exact (run_materialized C)|]. apply rtc_once. exact (step_succeeded C). Qed.
Lemma run_third C : rtc (bx_api B st C) start (snd third).
Proof.
  etrans; [exact (run_first C)|]. eapply rtc_l; [exact (step_retried C 1 (snd first))|].
  eapply rtc_l; [exact (step_leased C (snd retried1))|]. eapply rtc_l; [exact (step_retried C 2 (snd second))|].
  apply rtc_once. exact (step_leased C (snd retried2)).
Qed.
Lemma run_cancelled : rtc (bx_api B st anybody) start (snd cancellation).
Proof. etrans; [exact (run_first anybody)|]. apply rtc_once. exact step_cancelled. Qed.

Lemma build_Ok_of {A} (r : res ApiError A) : is_ok r = true -> exists a, r = Ok a.
Proof. destruct r; [eauto|done]. Qed.
Definition job_in (w : World BxDb) : option (BuildState * Z) :=
  j ← jobs (db w) !! 100%N; Some (bj_state j, bj_attempts j).
Lemma job_in_Some w s n :
  job_in w = Some (s, n) -> exists j, jobs (db w) !! 100%N = Some j /\ bj_state j = s /\ bj_attempts j = n.
Proof. unfold job_in. intros (j & Hj & [= <- <-])%bind_Some. eauto. Qed.

(** The operator lowers the entitlement to 30 seconds once the build holds 600: its
    completion brings the use down from 600 to the 60 seconds that it ran. *)
Definition lowered (w : World BxDb) : World BxDb :=
  let a := adm (db w) in
  let e := {| en_id := 17; en_pool := "p"; en_slots := 1; en_build_seconds := 30; en_starts := 0;
              en_ends := 1000000000000; en_state := EActive; en_revision := 2 |} in
  MkWorld (set_adm (set_entitlements (<[1%N := e]> (entitlements a)) a) (db w)) (ticks w) (drawn w).
Definition overdrawn : World BxDb := lowered (snd materialized).
Definition succeeded_overdrawn := complete B st (unary 100) success_request env overdrawn.
Lemma lowered_elsewhere w : (forall x e, entitlements (adm (db w)) !! x = Some e -> x = 1%N) ->
  bx_elsewhere (db w) (db (lowered w)).
Proof.
  intros Hone. split; try reflexivity. intros x y e f. cbn. rewrite !lookup_insert.
  repeat case_decide; subst; try done; [intros _ ?%Hone|intros ?%Hone _|intros ->%Hone ->%Hone]; done.
Qed.
Lemma one_entitlement x e : entitlements (adm (db (snd materialized))) !! x = Some e -> x = 1%N.
Proof.
  intros Hx. assert (map fst (map_to_list (entitlements (adm (db (snd materialized))))) = [1%N]) as Hl
    by (vm_compute; reflexivity).
  apply elem_of_map_to_list in Hx. apply (list_elem_of_fmap_2 fst) in Hx.
  change (fst <$> ?l) with (map fst l) in Hx. rewrite Hl in Hx. by apply list_elem_of_singleton in Hx.
Qed.
Lemma run_overdrawn : rtc (bx_api B st anybody) start overdrawn.
Proof.
  etrans; [exact (run_materialized anybody)|]. apply rtc_once, bx_others, lowered_elsewhere, one_entitlement.
Qed.

Lemma builds_stay_within_their_allowance_witness : exists e f,
  (entitlements (adm (db (snd materialized))) !! 1%N = Some e /\ en_build_seconds e = 1000%Z
   /\ seconds_used (db (snd materialized)) (en_id e) = 600%Z
   /\ (seconds_used (db (snd succeeded)) (en_id e) <= Z.max 600 1000)%Z)
  /\ (entitlements (adm (db overdrawn)) !! 1%N = Some f /\ en_build_seconds f = 30%Z
   /\ seconds_used (db (snd succeeded_overdrawn)) (en_id f) = 60%Z
   /\ (seconds_used (db (snd succeeded_overdrawn)) (en_id f) <= Z.max 600 30)%Z).
Proof.
  destruct (entitlements (adm (db (snd materialized))) !! 1%N) as [e|] eqn:He; [|exfalso; by vm_compute in He].
  destruct (entitlements (adm (db overdrawn)) !! 1%N) as [f|] eqn:Hf; [|exfalso; by vm_compute in Hf].
  exists e, f.
  destruct (builds_stay_within_their_allowance B st env start (snd materialized) (snd succeeded) 1 e build_start_fresh
    (run_materialized anybody) (br_complete B st env _ _ _ _ _ (surjective_pairing succeeded)) He) as (_ & Hle & _).
  destruct (builds_stay_within_their_allowance B st env start overdrawn (snd succeeded_overdrawn) 1 f build_start_fresh
    run_overdrawn (br_complete B st env _ _ _ _ _ (surjective_pairing succeeded_overdrawn)) Hf) as (_ & Hlf & _).
  assert (e = {| en_id := 17; en_pool := "p"; en_slots := 1; en_build_seconds := 1000; en_starts := 0;
                 en_ends := 1000000000000; en_state := EActive; en_revision := 1 |}) as ->
    by (vm_compute in He; injection He as <-; reflexivity).
  assert (f = {| en_id := 17; en_pool := "p"; en_slots := 1; en_build_seconds := 30; en_starts := 0;
                 en_ends := 1000000000000; en_state := EActive; en_revision := 2 |}) as ->
    by (vm_compute in Hf; injection Hf as <-; reflexivity).
  assert (seconds_used (db (snd materialized)) 17 = 600%Z) as E1 by (vm_compute; reflexivity).
  assert (seconds_used (db overdrawn) 17 = 600%Z) as E2 by (vm_compute; reflexivity).
  cbn [en_id en_build_seconds] in Hle, Hlf |- *. rewrite E1 in Hle. rewrite E2 in Hlf.
  split.
  - split; [reflexivity|]. split; [reflexivity|]. split; [exact E1|exact Hle].
  - split; [reflexivity|]. split; [reflexivity|]. split; [vm_compute; reflexivity|exact Hlf].
Defined.

Lemma build_credentials_only_for_the_live_attempt_witness : exists creds,
  fst resolved = Ok creds /\ map cd_version creds ≡ₚ [41%N] /\ map cd_value creds = [replicate 8 65%Z].
Proof.
  destruct (build_Ok_of (fst resolved)) as [creds Hc]; [vm_compute; reflexivity|].
  exists creds. split; [exact Hc|]. split.
  - destruct (build_credentials_only_for_the_live_attempt B st (unary 100) credentials_request env (snd first)
      (snd resolved) creds) as (job & j & a & key & rows & _ & _ & _ & _ & _ & _ & _ & _ & Hv & _).
    + rewrite <- Hc. exact (surjective_pairing resolved).
    + exact Hv.
  - vm_compute in Hc. injection Hc as <-. vm_compute. reflexivity.
Defined.

Lemma succeeded_builds_register_every_output_witness : exists s id a,
  services (db (snd succeeded)) !! (100%N, 16%N) = Some s /\ artifacts (db (snd succeeded)) !! id = Some a
  /\ output_of 100 16 s a.
Proof.
  destruct (job_in_Some (snd succeeded) BSucceeded 1) as (j & Hj & Hs & _); [vm_compute; reflexivity|].
  destruct (services (db (snd succeeded)) !! (100%N, 16%N)) as [s|] eqn:Hsv; [|exfalso; by vm_compute in Hsv].
  destruct (succeeded_builds_register_every_output B st start (snd succeeded) 100 j build_start_fresh
              (run_succeeded anybody) Hj Hs 16 s Hsv) as (id & a & Ha & Ho).
  exists s, id, a. exact (conj eq_refl (conj Ha Ho)).
Defined.

Definition after := leased (snd succeeded).
Definition repeated := complete B st (unary 100) success_request env (snd after).
Lemma build_completions_replay_witness : fst repeated = fst succeeded /\ snd repeated = snd after.
Proof.
  destruct (build_Ok_of (fst succeeded)) as [response Hr]; [vm_compute; reflexivity|]. rewrite Hr.
  apply (build_completions_replay B st (unary 100) success_request env env (snd materialized) (snd succeeded)
           (snd after) (snd repeated) response (fst repeated)).
  - exact (builds_ok B st anybody _ _ build_start_fresh (run_materialized anybody)).
  - rewrite <- Hr. exact (surjective_pairing succeeded).
  - apply rtc_once. exact (step_leased anybody (snd succeeded)).
  - exact (surjective_pairing repeated).
Defined.

Lemma accepted_cancel_acks_are_never_replayed_witness :
  is_ok (fst acked) = true /\ fst acked_again = Err fenced /\ db (snd acked_again) = db (snd acked).
Proof.
  destruct (build_Ok_of (fst acked)) as [response Hr]; [vm_compute; reflexivity|]. rewrite Hr.
  split; [reflexivity|].
  apply (accepted_cancel_acks_are_never_replayed B st (unary 100) ack_request env env (snd cancellation)
           (snd acked) (snd acked) (snd acked_again) response (fst acked_again)).
  - exact (builds_ok B st anybody _ _ build_start_fresh run_cancelled).
  - rewrite <- Hr. exact (surjective_pairing acked).
  - apply rtc_refl.
  - exact (surjective_pairing acked_again).
Defined.

Lemma exhausted_retriable_builds_are_stuck_witness : exists j u,
  jobs (db (snd idle)) !! 100%N = Some j /\ bj_state j = BRetriable
  /\ reserved (db (snd idle)) !! 100%N = Some u /\ is_reserved u = true.
Proof.
  destruct (build_Ok_of (fst retried3)) as [response Hr]; [vm_compute; reflexivity|].
  destruct (job_in_Some (snd third) BRunning 3) as (j & Hj & _ & Hn); [vm_compute; reflexivity|].
  destruct (exhausted_retriable_builds_are_stuck B st nobody (unary 100) 100 (retry_request 3) env (snd third)
    (snd retried3) (snd idle) response j) as (j' & u & Hj' & Hs & _ & Hu & Hres).
  - exact (builds_ok B st anybody _ _ build_start_fresh (run_third anybody)).
  - vm_compute. reflexivity.
  - rewrite <- Hr. exact (surjective_pairing retried3).
  - vm_compute. reflexivity.
  - vm_compute. reflexivity.
  - exact Hj.
  - exact Hn.
  - apply rtc_once. exact (step_leased nobody (snd retried3)).
  - exact (fun H => H).
  - exists j', u. exact (conj Hj' (conj Hs (conj Hu Hres))).
Defined.

Lemma builds_keep_their_history_witness :
  bx_history (db (snd first)) (db (snd succeeded)) /\ is_ok (fst succeeded) = true.
Proof.
  split; [|vm_compute; reflexivity].
  apply (builds_keep_their_history B st (snd first) (snd succeeded)).
  - exact (builds_ok B st anybody _ _ build_start_fresh (run_first anybody)).
  - eapply rtc_l; [exact (step_resolved anybody)|]. eapply rtc_l; [exact (step_materialized anybody)|].
    apply rtc_once. exact (step_succeeded anybody).
Defined.
End BuildDemo.
