(* ===== verification/ReleaseTables.v ===== *)
(** * The tables of releases (migrations/0006_m3_execution.sql)

    Application releases, the route of each project, the reconciliations that promote
    a release or roll back to it with their attempts, and the events of a release, over
    the runtime tables; beside them the archives and migrations of tenant databases
    that a release requests.  JSON columns whose shape the code fixes are records.
    [portfolio] is the state of the portfolio component, of any type. *)

From stdpp Require Import base list option gmap strings.
From Stdlib Require Import ZArith Lia Ascii.
From S2P Require Import Prelude RustText Bytes PgTx Intent Secrets Admission PolicyClock.
From S2P Require Import ExecutionTables BuildTables RuntimeEvidence Runtime.

Local Open Scope string_scope.
Local Open Scope list_scope.

(** ** States *)

Inductive ReleaseState := RlStaged | RlHealthy | RlFailed | RlRetired.
Inductive ReconciliationKind := Promote | RollBack.
Inductive ReconciliationState :=
| RcQueued | RcRunning | RcAwaitingTrial | RcAwaitingApply | RcPrepared | RcRetriable | RcSucceeded | RcFailed.
Inductive AttemptState := AtRunning | AtSucceeded | AtFailed | AtRetriable | AtExpired.
Inductive ReleasePhase := PreparedSwitch | PostLiveApply | IsolatedValidation | PrepareTrial | StandardPhase.
Inductive MigrationState := MPlanned | MTrialPrepared | MIsolatedValidated | MApplied | MFailed.
Inductive ArchiveKind := ArDaily | ArPreMigration | ArExport.
Inductive ArchiveState := ArCreating | ArUsable | ArCorrupt | ArExpired | ArDeleted.

#[export] Instance ReleaseState_eq : EqDecision ReleaseState.
Proof. solve_decision. Defined.
#[export] Instance ReconciliationKind_eq : EqDecision ReconciliationKind.
Proof. solve_decision. Defined.
#[export] Instance ReconciliationState_eq : EqDecision ReconciliationState.
Proof. solve_decision. Defined.
#[export] Instance AttemptState_eq : EqDecision AttemptState.
Proof. solve_decision. Defined.
#[export] Instance ReleasePhase_eq : EqDecision ReleasePhase.
Proof. solve_decision. Defined.
#[export] Instance MigrationState_eq : EqDecision MigrationState.
Proof. solve_decision. Defined.
#[export] Instance ArchiveKind_eq : EqDecision ArchiveKind.
Proof. solve_decision. Defined.
#[export] Instance ArchiveState_eq : EqDecision ArchiveState.
Proof. solve_decision. Defined.

(** ** What a lease requires *)

Record HostedRequiredProbe := {
  hp_kind : string; hp_release : Uuid; hp_peer : option Uuid; hp_allocation : Uuid; hp_generation : Z;
  hp_fence : Z; hp_artifact : string; hp_receipt : string; hp_database : option Uuid;
  hp_migration : option Uuid;
}.
Record ProbeExecutorRequest := {
  px_binary : string; px_policy : string; px_capability : string; px_platform : string;
  px_profile : string; px_argv : list string; px_application_port : Z; px_health_port : Z;
  px_health_path : string;
}.
Record IsolatedRequiredProbe := {
  ip_execution : Uuid; ip_reconciliation : Uuid; ip_attempt : Uuid; ip_fence : Z; ip_kind : string;
  ip_release : Uuid; ip_peer : option Uuid; ip_allocation : Uuid; ip_generation : Z;
  ip_source_fence : Z; ip_artifact : string; ip_manifest : string; ip_profile_digest : string;
  ip_template : string; ip_database : Uuid; ip_database_generation : Uuid; ip_migration : Uuid;
  ip_target : string; ip_executor : ProbeExecutorRequest;
}.
Inductive RequiredProbe := Hosted (p : HostedRequiredProbe) | Isolated (p : IsolatedRequiredProbe).
#[export] Instance HostedRequiredProbe_eq : EqDecision HostedRequiredProbe.
Proof. solve_decision. Defined.
#[export] Instance ProbeExecutorRequest_eq : EqDecision ProbeExecutorRequest.
Proof. solve_decision. Defined.
#[export] Instance IsolatedRequiredProbe_eq : EqDecision IsolatedRequiredProbe.
Proof. solve_decision. Defined.
#[export] Instance RequiredProbe_eq : EqDecision RequiredProbe.
Proof. solve_decision. Defined.

(** [None] is the empty object of a new reconciliation. *)
Record Requirements := {
  rq_probes : list RequiredProbe; rq_candidate : Uuid; rq_current : option Uuid;
  rq_retained : list Uuid; rq_policy : Z; rq_phase : ReleasePhase;
}.

(** ** Rows *)

Record SecretReference := {
  sx_service : Uuid; sx_secret : Uuid; sx_version : Uuid; sx_name : string; sx_operation : string;
  sx_kind : string;
}.

(** [rl_health] is the digests of the probes' and the switch's receipts. *)
Record Release := {
  rl_id : Uuid; rl_account : Uuid; rl_project : Uuid; rl_deployment : Uuid; rl_config : Uuid;
  rl_job : Uuid; rl_commit : string; rl_frontend : option string; rl_backend : option string;
  rl_database : option Uuid; rl_database_generation : option Uuid; rl_revision : option string;
  rl_migration_digest : option string; rl_migration_path : option string; rl_migration : option Uuid;
  rl_allocation : option Uuid; rl_service : option Uuid; rl_generation : option Z;
  rl_fence : option Z; rl_observation : option Uuid; rl_receipt : option string;
  rl_state : ReleaseState; rl_secrets : list SecretReference; rl_health : option (list string * string);
  rl_expected : Z; rl_url : option string; rl_promoted : option Z; rl_failure : option string;
  rl_created : Z;
}.

Record ArtifactLease := { af_artifact : Uuid; af_archive : string; af_manifest : string }.
#[export] Instance ArtifactLease_eq : EqDecision ArtifactLease.
Proof. solve_decision. Defined.

Record BackendRef := {
  mb_ref : string; mb_allocation : Uuid; mb_generation : Z; mb_fence : Z; mb_artifact : string;
  mb_manifest : string;
}.
Record DatabaseRef := {
  md_database : Uuid; md_generation : option Uuid; md_migration : option Uuid;
  md_revision : option string; md_digest : option string; md_path : option string;
}.
Record RetainedAsset := { ma_release : Uuid; ma_archive : string; ma_manifest : string }.

(** Its schema is hostlet.route-manifest/v1. *)
Record RouteManifest := {
  mf_project : Uuid; mf_release : Uuid; mf_deployment : Uuid; mf_commit : string; mf_generation : Z;
  mf_frontend : option (string * string); mf_backend : option BackendRef;
  mf_database : option DatabaseRef; mf_config : Uuid; mf_secrets : list SecretReference;
  mf_observation : option Uuid; mf_receipt : option string; mf_previous : option Uuid;
  mf_assets : list RetainedAsset; mf_drain : Z;
}.
#[export] Instance SecretReference_eq : EqDecision SecretReference.
Proof. solve_decision. Defined.
#[export] Instance BackendRef_eq : EqDecision BackendRef.
Proof. solve_decision. Defined.
#[export] Instance DatabaseRef_eq : EqDecision DatabaseRef.
Proof. solve_decision. Defined.
#[export] Instance RetainedAsset_eq : EqDecision RetainedAsset.
Proof. solve_decision. Defined.
#[export] Instance RouteManifest_eq : EqDecision RouteManifest.
Proof. solve_decision. Defined.

(** Keyed by the project. *)
Record Route := {
  ro_account : Uuid; ro_release : Uuid; ro_generation : Z; ro_availability : string;
  ro_observed : Z; ro_demo_revision : Z; ro_digest : string; ro_manifest : RouteManifest;
  ro_assets : list RetainedAsset; ro_drain : Z;
}.

Record PreparedIntent := {
  pp_manifest : RouteManifest; pp_json : string; pp_digest : string; pp_generation : Z; pp_drain : Z;
  pp_probes : list string;
}.
Inductive ReconciliationResult :=
| Unsuccessful (probes : list string)
| AwaitingTrialResult (operation : Uuid) (materialized stage_receipt : string)
| AwaitingApplyResult (operation : Uuid) (probes : list string) (apply_receipt : string)
| PreparedResult (p : PreparedIntent).

Record Reconciliation := {
  rn_id : Uuid; rn_account : Uuid; rn_project : Uuid; rn_release : Uuid; rn_kind : ReconciliationKind;
  rn_state : ReconciliationState; rn_expected : Z; rn_requirements : option Requirements;
  rn_attempts : Z; rn_current : option Uuid; rn_fence : Z; rn_lease : option Z;
  rn_code : option string; rn_result : option ReconciliationResult; rn_created : Z;
}.

Record ReleaseAttempt := {
  ra_id : Uuid; ra_account : Uuid; ra_project : Uuid; ra_release : Uuid; ra_reconciliation : Uuid;
  ra_number : Z; ra_fence : Z; ra_worker : string; ra_state : AttemptState; ra_started : Z;
  ra_lease : Z; ra_finished : option Z; ra_code : option string; ra_hash : option bytes;
}.

Inductive EventEvidence :=
| EvStaged (job : Uuid) (commit : string)
| EvFailed (code : string)
| EvActivated (manifest_digest switch_digest : string) (previous : option Uuid)
| EvRetired (retained_by : Uuid).

(** Keyed by the release and the event's key. *)
Record ReleaseEvent := {
  re_id : Uuid; re_account : Uuid; re_project : Uuid; re_kind : string; re_generation : option Z;
  re_evidence : EventEvidence; re_occurred : Z;
}.

(** ** Archives and migrations *)

Record Archive := {
  ax_id : Uuid; ax_account : Uuid; ax_project : Uuid; ax_database : Uuid; ax_generation : Uuid;
  ax_kind : ArchiveKind; ax_state : ArchiveState; ax_scheduled : option Z; ax_intended : option string;
  ax_source : Z; ax_object : option string; ax_format : option string; ax_key : option string;
  ax_plain : option string; ax_encrypted : option string; ax_plain_bytes : option Z;
  ax_encrypted_bytes : option Z; ax_snapshot : option Z; ax_verified : option Z; ax_expires : Z;
  ax_created : Z;
}.

Record RetainedEvidence := {
  rte_release : Uuid; rte_binary : string; rte_allocation : Uuid; rte_generation : Z; rte_fence : Z;
  rte_schema : string; rte_read_ok : bool; rte_write_ok : bool; rte_receipt : string;
}.

(** The members of the compatibility evidence that are read. *)
Record CompatibilityEvidence := {
  ce_expected_digests : list string; ce_identity : option Uuid; ce_ref : option Uuid;
  ce_apply_receipt : option string; ce_expected_count : option Z; ce_populated : bool;
  ce_read_ok : bool; ce_write_ok : bool; ce_connection : bool; ce_unchanged : bool;
}.

Record Migration := {
  mg_id : Uuid; mg_account : Uuid; mg_project : Uuid; mg_database : Uuid; mg_generation : Uuid;
  mg_deployment : Uuid; mg_config : Uuid; mg_revision : string; mg_digest : string; mg_source : Z;
  mg_archive : Uuid; mg_validation : option Uuid; mg_state : MigrationState; mg_current_schema : string;
  mg_candidate_schema : string; mg_current_binary : string; mg_artifact : MigrationArtifact;
  mg_retained : list RetainedEvidence; mg_evidence : CompatibilityEvidence; mg_effect : option Uuid;
  mg_validated : option Z; mg_applied : option Z;
}.

(** Columns of deployments that a promoted release fills. *)
Record DeploymentRefs := {
  dr_health : string; dr_revision : option string; dr_secrets : list SecretReference;
}.

(** ** Responses that are stored *)

Record PrepareMigrationResponse := { pm_phase : string; pm_archive : Uuid; pm_migration : option Uuid }.
Inductive ReleaseResponse :=
| Envelope (release : Release) (reconciliation : Reconciliation)
| MigrationPlan (r : PrepareMigrationResponse).
Definition envelope_of (r : ReleaseResponse) : option (Release * Reconciliation) :=
  match r with Envelope release rcn => Some (release, rcn) | MigrationPlan _ => None end.
Definition plan_of (r : ReleaseResponse) : option PrepareMigrationResponse :=
  match r with MigrationPlan p => Some p | Envelope _ _ => None end.

(** ** The database *)

Record RlDb {P : Type} := MkRlDb {
  rl_runtime : RtDb;
  rl_accounts : gset Uuid;
  rl_secret_refs : gmap (Uuid * Uuid) BuildSecretRef;
  rl_secret_rows : gmap Uuid SecretRow;
  rl_secret_versions : gmap Uuid SecretVersionRow;
  archives : gmap Uuid Archive;
  migrations : gmap Uuid Migration;
  deployment_refs : gmap Uuid DeploymentRefs;
  releases : gmap Uuid Release;
  routes : gmap Uuid Route;
  reconciliations : gmap Uuid Reconciliation;
  release_attempts : gmap Uuid ReleaseAttempt;
  release_events : gmap (Uuid * string) ReleaseEvent;
  portfolio : P;
  rl_idem : gmap (Uuid * string * string) (IdemRow ReleaseResponse);
  rl_audits : list AuditEvent;
}.
Arguments RlDb P : clear implicits.

Section Database.
Context {P : Type}.
Implicit Types d : RlDb P.

Definition set_runtime v d : RlDb P := MkRlDb P v (rl_accounts d) (rl_secret_refs d)
  (rl_secret_rows d) (rl_secret_versions d) (archives d) (migrations d) (deployment_refs d) (releases d)
  (routes d) (reconciliations d) (release_attempts d) (release_events d) (portfolio d) (rl_idem d)
  (rl_audits d).
Definition set_archives v d : RlDb P := MkRlDb P (rl_runtime d) (rl_accounts d) (rl_secret_refs d)
  (rl_secret_rows d) (rl_secret_versions d) v (migrations d) (deployment_refs d) (releases d) (routes d)
  (reconciliations d) (release_attempts d) (release_events d) (portfolio d) (rl_idem d) (rl_audits d).
Definition set_migrations v d : RlDb P := MkRlDb P (rl_runtime d) (rl_accounts d) (rl_secret_refs d)
  (rl_secret_rows d) (rl_secret_versions d) (archives d) v (deployment_refs d) (releases d) (routes d)
  (reconciliations d) (release_attempts d) (release_events d) (portfolio d) (rl_idem d) (rl_audits d).
Definition set_deployment_refs v d : RlDb P := MkRlDb P (rl_runtime d) (rl_accounts d)
  (rl_secret_refs d) (rl_secret_rows d) (rl_secret_versions d) (archives d) (migrations d) v
  (releases d) (routes d) (reconciliations d) (release_attempts d) (release_events d) (portfolio d)
  (rl_idem d) (rl_audits d).
Definition set_releases v d : RlDb P := MkRlDb P (rl_runtime d) (rl_accounts d) (rl_secret_refs d)
  (rl_secret_rows d) (rl_secret_versions d) (archives d) (migrations d) (deployment_refs d) v (routes d)
  (reconciliations d) (release_attempts d) (release_events d) (portfolio d) (rl_idem d) (rl_audits d).
Definition set_routes v d : RlDb P := MkRlDb P (rl_runtime d) (rl_accounts d) (rl_secret_refs d)
  (rl_secret_rows d) (rl_secret_versions d) (archives d) (migrations d) (deployment_refs d) (releases d)
  v (reconciliations d) (release_attempts d) (release_events d) (portfolio d) (rl_idem d) (rl_audits d).
Definition set_reconciliations v d : RlDb P := MkRlDb P (rl_runtime d) (rl_accounts d)
  (rl_secret_refs d) (rl_secret_rows d) (rl_secret_versions d) (archives d) (migrations d)
  (deployment_refs d) (releases d) (routes d) v (release_attempts d) (release_events d) (portfolio d)
  (rl_idem d) (rl_audits d).
Definition set_release_attempts v d : RlDb P := MkRlDb P (rl_runtime d) (rl_accounts d)
  (rl_secret_refs d) (rl_secret_rows d) (rl_secret_versions d) (archives d) (migrations d)
  (deployment_refs d) (releases d) (routes d) (reconciliations d) v (release_events d) (portfolio d)
  (rl_idem d) (rl_audits d).
Definition set_release_events v d : RlDb P := MkRlDb P (rl_runtime d) (rl_accounts d) (rl_secret_refs d)
  (rl_secret_rows d) (rl_secret_versions d) (archives d) (migrations d) (deployment_refs d) (releases d)
  (routes d) (reconciliations d) (release_attempts d) v (portfolio d) (rl_idem d) (rl_audits d).
Definition set_portfolio v d : RlDb P := MkRlDb P (rl_runtime d) (rl_accounts d) (rl_secret_refs d)
  (rl_secret_rows d) (rl_secret_versions d) (archives d) (migrations d) (deployment_refs d) (releases d)
  (routes d) (reconciliations d) (release_attempts d) (release_events d) v (rl_idem d) (rl_audits d).
Definition set_rl_idem v d : RlDb P := MkRlDb P (rl_runtime d) (rl_accounts d) (rl_secret_refs d)
  (rl_secret_rows d) (rl_secret_versions d) (archives d) (migrations d) (deployment_refs d) (releases d)
  (routes d) (reconciliations d) (release_attempts d) (release_events d) (portfolio d) v (rl_audits d).
Definition set_rl_audits v d : RlDb P := MkRlDb P (rl_runtime d) (rl_accounts d) (rl_secret_refs d)
  (rl_secret_rows d) (rl_secret_versions d) (archives d) (migrations d) (deployment_refs d) (releases d)
  (routes d) (reconciliations d) (release_attempts d) (release_events d) (portfolio d) (rl_idem d) v.
End Database.

#[export] Instance rl_intent_store {P} : IntentStore (RlDb P) ReleaseResponse := {
  idempotency_records := rl_idem; set_idempotency_records := set_rl_idem;
  audit_events := rl_audits; set_audit_events := set_rl_audits;
}.
#[export] Instance rl_intent_store_laws {P} : IntentStoreLaws (RlDb P) ReleaseResponse.
Proof. by split. Qed.
#[export] Instance rl_clock_store {P} : ClockStore (RlDb P) := {
  clock_row d := clock_row (rl_runtime d);
  set_clock_row c d := set_runtime (set_clock_row c (rl_runtime d)) d;
}.
#[export] Instance rl_clock_laws {P} : ClockStoreLaws (RlDb P).
Proof. by split. Qed.

(** The tables of the execution schema. *)
Definition tables {P} (d : RlDb P) : Execution := execution (rl_runtime d).
Definition set_tables {P} (x : Execution) (d : RlDb P) : RlDb P :=
  set_runtime (MkRtDb x (policy_clock_row (rl_runtime d)) (eval_intents (rl_runtime d))
    (evaluations (rl_runtime d)) (allocations (rl_runtime d)) (probe_intents (rl_runtime d))
    (rt_observations (rl_runtime d))) d.
Definition set_deployments {P} v (d : RlDb P) : RlDb P :=
  set_tables {| build_jobs := build_jobs (tables d); build_services := build_services (tables d);
    build_artifacts := build_artifacts (tables d); build_usage := build_usage (tables d);
    x_deployments := v; x_reservations := x_reservations (tables d); x_projects := x_projects (tables d);
    tenant_databases := tenant_databases (tables d);
    database_credentials := database_credentials (tables d); recoveries := recoveries (tables d);
    database_operations := database_operations (tables d) |} d.
Definition set_operations {P} v (d : RlDb P) : RlDb P :=
  set_tables {| build_jobs := build_jobs (tables d); build_services := build_services (tables d);
    build_artifacts := build_artifacts (tables d); build_usage := build_usage (tables d);
    x_deployments := x_deployments (tables d); x_reservations := x_reservations (tables d);
    x_projects := x_projects (tables d); tenant_databases := tenant_databases (tables d);
    database_credentials := database_credentials (tables d); recoveries := recoveries (tables d);
    database_operations := v |} d.

(** ** Constraints *)

Definition both_or_none {A B} (a : option A) (b : option B) : bool := Bool.eqb (is_none a) (is_none b).

Definition migration_path_allowed (path : string) : bool :=
  text_within 1 1024 path && starts_with (lit "dist/migrations/") (as_bytes path) && root_allowed path.

Definition release_check (r : Release) : bool :=
  is_commit (rl_commit r) && is_none_or is_digest (rl_frontend r) && is_none_or is_digest (rl_backend r)
  && is_none_or (text_within 1 256) (rl_revision r) && is_none_or is_digest (rl_migration_digest r)
  && is_none_or migration_path_allowed (rl_migration_path r)
  && is_none_or (fun g => 0 <? g)%Z (rl_generation r) && is_none_or (fun f => 0 <? f)%Z (rl_fence r)
  && is_none_or is_digest (rl_receipt r) && (0 <=? rl_expected r)%Z
  && is_none_or (text_within 1 2048) (rl_url r) && is_none_or (text_within 1 96) (rl_failure r)
  && negb (is_none (rl_frontend r) && is_none (rl_backend r))
  && both_or_none (rl_database r) (rl_database_generation r)
  && both_or_none (rl_revision r) (rl_migration_digest r)
  && both_or_none (rl_revision r) (rl_migration_path r)
  && both_or_none (rl_backend r) (rl_allocation r) && both_or_none (rl_allocation r) (rl_service r)
  && both_or_none (rl_allocation r) (rl_generation r) && both_or_none (rl_allocation r) (rl_fence r)
  && both_or_none (rl_allocation r) (rl_observation r) && both_or_none (rl_allocation r) (rl_receipt r)
  && (negb (one_of (rl_state r) [RlHealthy; RlRetired]) || negb (is_none (rl_promoted r))).

Definition release_unique (t : gmap Uuid Release) (r : Release) : bool :=
  negb (exists_row (fun o => bool_decide (rl_deployment o = rl_deployment r)
                             && bool_decide (rl_job o = rl_job r)) t).

Definition route_check (r : Route) : bool :=
  (0 <? ro_generation r)%Z && one_of (ro_availability r) ["available"; "degraded"; "demo_offline"]
  && (0 <? ro_demo_revision r)%Z && is_digest (ro_digest r).

Definition leased (s : ReconciliationState) : bool := one_of s [RcRunning; RcPrepared].
(** The index release_reconciliations_one_active_project_idx. *)
Definition active (s : ReconciliationState) : bool :=
  one_of s [RcQueued; RcRunning; RcAwaitingTrial; RcAwaitingApply; RcPrepared; RcRetriable].

Definition reconciliation_check (r : Reconciliation) : bool :=
  (0 <=? rn_expected r)%Z && (0 <=? rn_attempts r)%Z && (rn_attempts r <=? 6)%Z && (0 <=? rn_fence r)%Z
  && is_none_or (text_within 1 96) (rn_code r)
  && Bool.eqb (leased (rn_state r)) (negb (is_none (rn_current r)) && negb (is_none (rn_lease r))).

Definition reconciliation_unique (t : gmap Uuid Reconciliation) (r : Reconciliation) : bool :=
  negb (exists_row (fun o => negb (bool_decide (rn_id o = rn_id r)) && active (rn_state o)
    && active (rn_state r) && bool_decide (rn_project o = rn_project r)) t).

Definition release_attempt_check (a : ReleaseAttempt) : bool :=
  (1 <=? ra_number a)%Z && (ra_number a <=? 6)%Z && (0 <? ra_fence a)%Z
  && text_within 1 128 (ra_worker a) && is_none_or (text_within 1 96) (ra_code a)
  && is_none_or (fun h => length h =? 32)%nat (ra_hash a) && (ra_started a <? ra_lease a)%Z
  && Bool.eqb (bool_decide (ra_state a = AtRunning)) (is_none (ra_finished a) && is_none (ra_code a)).

Definition release_attempt_unique (t : gmap Uuid ReleaseAttempt) (a : ReleaseAttempt) : bool :=
  negb (exists_row (fun o => negb (bool_decide (ra_id o = ra_id a))
    && bool_decide (ra_reconciliation o = ra_reconciliation a)
    && ((ra_number o =? ra_number a)%Z || (ra_fence o =? ra_fence a)%Z)) t).

Definition event_kinds : list string :=
  ["staged"; "failed"; "promoted"; "rollback"; "retired"; "observation"].
Definition event_check (key : string) (e : ReleaseEvent) : bool :=
  text_within 1 128 key && one_of (re_kind e) event_kinds && is_none_or (fun g => 0 <? g)%Z (re_generation e).

Definition archive_check (a : Archive) : bool :=
  is_none_or (text_within 1 256) (ax_intended a) && (0 <? ax_source a)%Z
  && is_none_or (text_within 1 512) (ax_object a) && is_none_or (text_within 1 96) (ax_format a)
  && is_none_or (text_within 1 128) (ax_key a) && is_none_or is_raw_digest (ax_plain a)
  && is_none_or is_raw_digest (ax_encrypted a) && is_none_or (fun n => 0 <? n)%Z (ax_plain_bytes a)
  && is_none_or (fun n => 0 <? n)%Z (ax_encrypted_bytes a)
  && match ax_kind a with
     | ArDaily => negb (is_none (ax_scheduled a)) && is_none (ax_intended a)
     | ArPreMigration => is_none (ax_scheduled a) && negb (is_none (ax_intended a))
     | ArExport => is_none (ax_scheduled a) && is_none (ax_intended a)
     end
  && (negb (bool_decide (ax_state a = ArUsable))
      || negb (is_none (ax_object a) || is_none (ax_format a) || is_none (ax_key a) || is_none (ax_plain a)
               || is_none (ax_encrypted a) || is_none (ax_plain_bytes a) || is_none (ax_encrypted_bytes a)
               || is_none (ax_snapshot a) || is_none (ax_verified a)))
  && (ax_created a <? ax_expires a)%Z.

Definition archive_unique (t : gmap Uuid Archive) (a : Archive) : bool :=
  negb (exists_row (fun o => bool_decide (ax_database o = ax_database a)
    && bool_decide (ax_generation o = ax_generation a) && bool_decide (ax_kind o = ax_kind a)
    && match ax_kind a with
       | ArDaily => bool_decide (ax_scheduled o = ax_scheduled a)
       | ArPreMigration => bool_decide (ax_intended o = ax_intended a) && (ax_source o =? ax_source a)%Z
       | ArExport => false
       end) t).

Definition migration_check (m : Migration) : bool :=
  text_within 1 256 (mg_revision m) && is_digest (mg_digest m) && (0 <? mg_source m)%Z
  && text_within 1 256 (mg_current_schema m) && text_within 1 256 (mg_candidate_schema m)
  && is_digest (mg_current_binary m)
  && Bool.eqb (one_of (mg_state m) [MIsolatedValidated; MApplied]) (negb (is_none (mg_validated m)))
  && Bool.eqb (bool_decide (mg_state m = MApplied))
       (negb (is_none (mg_applied m)) && negb (is_none (mg_effect m))).

Definition migration_unique (t : gmap Uuid Migration) (m : Migration) : bool :=
  negb (exists_row (fun o => bool_decide (mg_database o = mg_database m)
    && bool_decide (mg_generation o = mg_generation m) && bool_decide (mg_revision o = mg_revision m)) t).

Definition operation_check (o : DatabaseOperation) : bool :=
  text_within 1 256 (do_key o) && (length (do_credentials o) <=? 8)%nat
  && (0 <=? do_attempts o)%Z && (do_attempts o <=? 5)%Z && (0 <=? do_fence o)%Z
  && Bool.eqb (bool_decide (do_state o = ORunning))
       (negb (is_none (do_current o)) && negb (is_none (do_lease o))).
Definition operation_unique (t : gmap Uuid DatabaseOperation) (o : DatabaseOperation) : bool :=
  negb (exists_row (fun p => bool_decide (do_database p = do_database o)
    && bool_decide (do_generation p = do_generation o) && bool_decide (do_kind p = do_kind o)
    && bool_decide (do_key p = do_key o)) t).
