(* ===== verification/ReleaseEvidence.v ===== *)
(** * The evidence of a release (crates/control/src/releases.rs)

    What a reconciliation must be shown before it prepares a route: the plan of probes
    over the candidate, the current and the retained releases, and the receipts, read
    from files named by their digest, that answer it. *)

From stdpp Require Import base list option gmap strings pretty.
From Stdlib Require Import ZArith Lia Ascii.
From S2P Require Import Prelude RustText Bytes PgTx Intent Secrets Admission PolicyClock.
From S2P Require Import ExecutionTables BuildTables RuntimeEvidence Runtime ReleaseTables.

Local Open Scope string_scope.
Local Open Scope list_scope.

(** ** Receipts *)

Record ProbeHttp := {
  ph_method : string; ph_path : string; ph_status : option Z; ph_sha256 : option string; ph_elapsed : Z;
}.
Record ProbeAssertion := { pas_name : string; pas_passed : bool; pas_sha256 : option string }.
Record ProbeReceipt := {
  prc_schema : string; prc_kind : string; prc_release : Uuid; prc_peer : option Uuid;
  prc_allocation : Uuid; prc_generation : Z; prc_fence : Z; prc_artifact : string;
  prc_database : option Uuid; prc_migration : option Uuid; prc_executor : string; prc_result : string;
  prc_reason : string; prc_observed : Z; prc_http : ProbeHttp; prc_assertions : list ProbeAssertion;
}.
Record IsolatedAssertion := { ias_name : string; ias_passed : bool }.
Record IsolatedProbeReceipt := {
  ipr_schema : string; ipr_execution : Uuid; ipr_reconciliation : Uuid; ipr_attempt : Uuid;
  ipr_fence : Z; ipr_kind : string; ipr_release : Uuid; ipr_peer : option Uuid; ipr_allocation : Uuid;
  ipr_generation : Z; ipr_source_fence : Z; ipr_artifact : string; ipr_manifest : string;
  ipr_profile_digest : string; ipr_database_generation : Uuid; ipr_migration : Uuid;
  ipr_target : string; ipr_executor : string; ipr_application : string; ipr_cleanup : string;
  ipr_result : string; ipr_reason : string; ipr_observed : Z; ipr_assertions : list IsolatedAssertion;
}.
Record ApplicationProbeReceipt := {
  apr_schema : string; apr_execution : Uuid; apr_allocation : Uuid; apr_generation : Z; apr_fence : Z;
  apr_artifact : string; apr_database_generation : Uuid; apr_migration : Uuid; apr_kind : string;
  apr_target : string; apr_result : string; apr_reason : string; apr_observed : Z;
  apr_write_status : option Z; apr_read_status : option Z; apr_sha256 : option string; apr_elapsed : Z;
  apr_assertions : list IsolatedAssertion;
}.
Record SwitchReceipt := {
  sw_schema : string; sw_reconciliation : Uuid; sw_attempt : Uuid; sw_fence : Z; sw_project : Uuid;
  sw_release : Uuid; sw_previous : option Uuid; sw_generation : Z; sw_digest : string;
  sw_result : string; sw_observed : Z;
}.
Record MigrationStageReceipt := {
  sg_schema : string; sg_result : string; sg_release : Uuid; sg_project : Uuid; sg_ref : string;
  sg_observed : Z;
}.

(** The members of an executor's receipt, as [as_str], [as_u64] and [as_bool] see them. *)
Record CleanupValue := {
  cv_sandbox_absent : option bool; cv_application_absent : option bool; cv_gateway_absent : option bool;
  cv_cgroup_absent : option bool; cv_state_retained : option bool;
}.
Record ExecutorValue := {
  xv_schema : option string; xv_operation : option string; xv_result : option string;
  xv_status : option string; xv_allocation : option string; xv_generation : option Z;
  xv_fence : option Z; xv_artifact : option string; xv_binary : option string; xv_policy : option string;
  xv_capability : option string; xv_platform : option string; xv_profile : option string;
  xv_runsc : option string; xv_limits_object : bool; xv_health_passing : option bool;
  xv_cleanup : option CleanupValue;
}.

(** A probe's file: which schema it names, and the receipt if it has that shape. *)
Inductive ProbeFile := IsolatedFile (r : option IsolatedProbeReceipt) | HostedFile (r : option ProbeReceipt).

Record StageReleaseRequest := {
  stq_job : Uuid; stq_allocation : option Uuid; stq_database : option Uuid;
  stq_database_generation : option Uuid; stq_revision : option string; stq_digest : option string;
  stq_path : option string; stq_url : string;
}.
Record PrepareMigrationRequest := {
  pmq_job : Uuid; pmq_database : Uuid; pmq_database_generation : Uuid; pmq_revision : string;
  pmq_digest : string; pmq_path : string; pmq_current_schema : string; pmq_candidate_schema : string;
}.
Record CompletionOutcome := {
  co_state : string; co_code : string; co_probes : list string; co_apply : option string;
  co_materialized : option string; co_stage : option string;
}.

(** Code outside the repository: SHA-256, UUIDs, the cipher, JSON and time conversion,
    and the evidence directory.  [y_parse_manifest] is [None] for text that is not JSON
    and [Some None] for JSON that is not a stored manifest. *)
Record ReleaseExternals := {
  y_sha256 : bytes -> bytes;
  y_parse_uuid : string -> option Uuid;
  y_uuid_text : Uuid -> string;
  y_uuid_simple : Uuid -> string;
  y_aead : bytes -> bytes -> bytes -> bytes -> bytes -> option bytes;
  y_millis : Z -> option Z;
  y_evidence : bytes -> option EvidenceFile;
  y_probe_json : bytes -> option ProbeFile;
  y_application_json : bytes -> option ApplicationProbeReceipt;
  y_executor_json : bytes -> option ExecutorValue;
  y_switch_json : bytes -> option SwitchReceipt;
  y_stage_json : bytes -> option MigrationStageReceipt;
  y_credential_json : bytes -> option (string * string * string);
  y_manifest_json : RouteManifest -> string;
  y_parse_manifest : string -> option (option RouteManifest);
  y_stage_hash : StageReleaseRequest -> string;
  y_prepare_hash : PrepareMigrationRequest -> string;
  y_rollback_hash : Uuid -> string;
  y_outcome_hash : CompletionOutcome -> bytes;
}.

(** ** Errors *)

Definition fenced : ApiError :=
  conflict "release_reconciliation_fenced" "the release reconciliation lease is no longer current".
Definition evidence_missing : ApiError :=
  unprocessable "release_evidence_missing" "the digest-addressed release evidence is unavailable".
Definition evidence_invalid : ApiError :=
  unprocessable "release_evidence_invalid" "the digest-addressed release evidence is invalid".

(** ** What a worker is told of a release *)

Record RuntimeLease := {
  rtl_allocation : Uuid; rtl_service : Uuid; rtl_generation : Z; rtl_fence : Z; rtl_state : string;
  rtl_artifact : string; rtl_manifest : string; rtl_profile_digest : string; rtl_binary : string;
  rtl_policy : string; rtl_capability : string; rtl_platform : string; rtl_profile : string;
  rtl_argv : list string; rtl_application_port : Z; rtl_health_port : Z; rtl_health_path : string;
}.
Record ReleaseLease := {
  rll_release : Uuid; rll_project : Uuid; rll_deployment : Uuid; rll_config : Uuid; rll_job : Uuid;
  rll_commit : string; rll_frontend : option ArtifactLease; rll_backend : option ArtifactLease;
  rll_runtime : option RuntimeLease; rll_database : option Uuid; rll_database_generation : option Uuid;
  rll_migration : option Uuid; rll_revision : option string; rll_digest : option string;
  rll_path : option string; rll_apply_receipt : option string; rll_secrets : list SecretReference;
  rll_observation : option Uuid; rll_receipt : option string;
}.
Record LoadedRelease := {
  ld_release : Release; ld_lease : ReleaseLease; ld_runtime : option RuntimeLease;
}.
Definition ld_id (l : LoadedRelease) : Uuid := rl_id (ld_release l).

(** The application and health port of an allocation are always 3000. *)
Definition runtime_lease (a : Allocation) : RuntimeLease := {|
  rtl_allocation := al_id a; rtl_service := al_service a; rtl_generation := al_generation a;
  rtl_fence := al_fence a; rtl_state := al_state a; rtl_artifact := al_archive a;
  rtl_manifest := al_manifest a; rtl_profile_digest := al_profile_digest a; rtl_binary := al_binary a;
  rtl_policy := al_policy a; rtl_capability := al_capability a; rtl_platform := al_platform a;
  rtl_profile := al_profile a; rtl_argv := al_argv a; rtl_application_port := 3000;
  rtl_health_port := 3000; rtl_health_path := al_health_path a |}.

(** ** The plan of probes *)

Record ProbePlanContext := {
  pc_database : option Uuid; pc_database_generation : option Uuid; pc_migration : option Uuid;
  pc_phase : ReleasePhase; pc_reconciliation : Uuid; pc_attempt : Uuid; pc_fence : Z;
}.

Definition CACHED_OLD_FRONTEND : string := "cached_old_frontend_candidate_api".
Definition CANDIDATE_FRONTEND : string := "candidate_frontend_retained_api".

Definition health_receipt (l : LoadedRelease) : res ApiError string :=
  ok_or (d ← rl_receipt (ld_release l); if is_digest d then Some d else None)
    (conflict "release_health_evidence_missing"
       "the exact accepted runtime health receipt is unavailable").

Section Plan.
Context {D : Type}.

Fixpoint collect {A B} (f : A -> M D (list B)) (l : list A) : M D (list B) :=
  match l with
  | [] => tret []
  | a :: rest => b <~ f a;; bs <~ collect f rest;; tret (b ++ bs)
  end.

Definition probe (kind : string) (release : Uuid) (peer : option Uuid) (runtime : RuntimeLease)
    (receipt : string) (ctx : ProbePlanContext) : M D RequiredProbe :=
  if bool_decide (pc_phase ctx = IsolatedValidation) then
    execution <~ new_uuid;;
    database <~ lift (ok_or (pc_database ctx) internal);;
    generation <~ lift (ok_or (pc_database_generation ctx) internal);;
    migration <~ lift (ok_or (pc_migration ctx) internal);;
    tret (Isolated {|
      ip_execution := execution; ip_reconciliation := pc_reconciliation ctx; ip_attempt := pc_attempt ctx;
      ip_fence := pc_fence ctx; ip_kind := kind; ip_release := release; ip_peer := peer;
      ip_allocation := rtl_allocation runtime; ip_generation := rtl_generation runtime;
      ip_source_fence := rtl_fence runtime; ip_artifact := rtl_artifact runtime;
      ip_manifest := rtl_manifest runtime; ip_profile_digest := rtl_profile_digest runtime;
      ip_template := receipt; ip_database := database; ip_database_generation := generation;
      ip_migration := migration; ip_target := "isolated";
      ip_executor := {|
        px_binary := rtl_binary runtime; px_policy := rtl_policy runtime;
        px_capability := rtl_capability runtime; px_platform := rtl_platform runtime;
        px_profile := "evidence_gated_owned_fixture"; px_argv := rtl_argv runtime;
        px_application_port := rtl_application_port runtime; px_health_port := rtl_health_port runtime;
        px_health_path := rtl_health_path runtime |} |})
  else
    tret (Hosted {|
      hp_kind := kind; hp_release := release; hp_peer := peer; hp_allocation := rtl_allocation runtime;
      hp_generation := rtl_generation runtime; hp_fence := rtl_fence runtime;
      hp_artifact := rtl_artifact runtime; hp_receipt := receipt;
      hp_database := pc_database_generation ctx; hp_migration := pc_migration ctx |}).

Definition probe_of (kind : string) (release : Uuid) (peer : option Uuid) (runtime : RuntimeLease)
    (evidence : LoadedRelease) (ctx : ProbePlanContext) : M D (list RequiredProbe) :=
  receipt <~ lift (health_receipt evidence);;
  p <~ probe kind release peer runtime receipt ctx;;
  tret [p].

Definition health_probes (candidate : LoadedRelease) (ctx : ProbePlanContext) : M D (list RequiredProbe) :=
  match ld_runtime candidate with
  | Some runtime =>
      if bool_decide (pc_phase ctx = IsolatedValidation) then tret []
      else probe_of "health" (ld_id candidate) None runtime candidate ctx
  | None => tret []
  end.

Definition data_probes (all : list LoadedRelease) (ctx : ProbePlanContext) : M D (list RequiredProbe) :=
  if is_none (pc_database_generation ctx) then tret []
  else collect (fun l =>
    runtime <~ lift (ok_or (ld_runtime l) (conflict "release_database_runtime_missing"
      "a database release requires an exact application runtime"));;
    probe_of "current_data" (ld_id l) None runtime l ctx) all.

(** Every frontend against every other release's application. *)
Definition pair_probes (candidate : LoadedRelease) (all : list LoadedRelease) (ctx : ProbePlanContext)
    : M D (list RequiredProbe) :=
  collect (fun frontend => collect (fun api =>
    if bool_decide (ld_id frontend = ld_id api) then tret []
    else
      runtime <~ lift (ok_or (ld_runtime api) (conflict "release_overlap_runtime_missing"
        "every migrated retained release requires an exact application runtime"));;
      let kind := if bool_decide (ld_id api = ld_id candidate) then CACHED_OLD_FRONTEND
                  else CANDIDATE_FRONTEND in
      probe_of kind (ld_id frontend) (Some (ld_id api)) runtime api ctx) all) all.

Definition overlap_probes (candidate : LoadedRelease) (previous : list LoadedRelease)
    (ctx : ProbePlanContext) : M D (list RequiredProbe) :=
  cached <~ (if is_none (rl_backend (ld_release candidate)) then tret []
             else
               runtime <~ lift (ok_or (ld_runtime candidate) internal);;
               collect (fun old =>
                 if is_none (rl_frontend (ld_release old)) then tret []
                 else probe_of CACHED_OLD_FRONTEND (ld_id old) (Some (ld_id candidate)) runtime candidate ctx)
                 previous);;
  fresh <~ (if is_none (rl_frontend (ld_release candidate)) then tret []
            else collect (fun old =>
              match ld_runtime old with
              | Some runtime => probe_of CANDIDATE_FRONTEND (ld_id candidate) (Some (ld_id old)) runtime old ctx
              | None => tret []
              end) previous);;
  tret (cached ++ fresh).

Definition required_probes (candidate : LoadedRelease) (current : option LoadedRelease)
    (retained : list LoadedRelease) (ctx : ProbePlanContext) : M D (list RequiredProbe) :=
  let previous := option_list current ++ retained in
  let all := candidate :: previous in
  health <~ health_probes candidate ctx;;
  data <~ data_probes all ctx;;
  overlap <~ (if is_none (pc_migration ctx) then overlap_probes candidate previous ctx
              else pair_probes candidate all ctx);;
  let probes := health ++ data ++ overlap in
  reject_if (negb (bool_decide (NoDup probes))) internal;;;
  tret probes.
End Plan.
