(* ===== verification/ReleaseReceipts.v ===== *)
(** * Receipts of a release (crates/control/src/releases.rs)

    Evidence files are read by digest; each probe's receipt must answer one required
    probe, with the executor's receipts behind it; the gateway's receipt must repeat the
    prepared route. *)

From stdpp Require Import base list option gmap strings pretty.
From Stdlib Require Import ZArith Lia Ascii.
From S2P Require Import Prelude RustText Bytes PgTx Intent Secrets Admission PolicyClock.
From S2P Require Import ExecutionTables BuildTables RuntimeEvidence Runtime ReleaseTables ReleaseEvidence.

Local Open Scope string_scope.
Local Open Scope list_scope.

Definition FIVE_MINUTES : Z := 300000000.
Definition HOUR : Z := 3600000000.

(** [value.contains(part)]. *)
Fixpoint contains_bytes (part s : bytes) : bool :=
  starts_with part s || match s with [] => false | _ :: s' => contains_bytes part s' end.
Definition is_frontend_kind (kind : string) : bool := contains_bytes (lit "frontend") (as_bytes kind).

Definition str_is (o : option string) (s : string) : bool := bool_decide (o = Some s).
Definition is_true (o : option bool) : bool := bool_decide (o = Some true).

(** The time of a receipt is at most five minutes ahead and an hour behind. *)
Definition out_of_window (observed now : Z) : bool :=
  (now + FIVE_MINUTES <? observed)%Z || (HOUR <? now - observed)%Z.

Section Receipts.
Context (Y : ReleaseExternals) (m3 : option M3Config).

Definition release_digest_hex (value : string) : res ApiError bytes :=
  ok_or (hex ← strip (lit "sha256:") (as_bytes value); if is_digest value then Some hex else None)
    evidence_invalid.

Definition read_evidence (digest : string) : res ApiError bytes :=
  res_bind (release_digest_hex digest) (fun hex =>
  res_bind (require_enabled m3) (fun _ =>
  res_bind (ok_or (y_evidence Y hex) evidence_missing) (fun f =>
  res_bind (guard_err (negb (fl_regular f) || (MAX_RECEIPT_BYTES <? fl_length f)%Z
                       || negb (fl_private f) || negb (fl_canonical f)) evidence_invalid) (fun _ =>
  res_bind (guard_err (negb (fl_same f)) evidence_invalid) (fun _ =>
  res_bind (guard_err (negb (Z.of_nat (length (fl_bytes f)) =? fl_length f)%Z
                       || negb (bool_decide (y_sha256 Y (fl_bytes f) = decode_hex hex)))
              (conflict "release_evidence_digest_mismatch"
                 "the release evidence file does not match its digest")) (fun _ =>
  Ok (fl_bytes f))))))).

Definition prefixed_digest (bs : bytes) : string :=
  "sha256:" +:+ to_text (hex_encode (y_sha256 Y bs)).

Definition read_evidence_value (digest : string) : res ApiError ExecutorValue :=
  res_bind (read_evidence digest) (fun bs => ok_or (y_executor_json Y bs) evidence_invalid).

Definition observed_at (millis : Z) : res ApiError Z := ok_or (y_millis Y millis) evidence_invalid.

(** ** Isolated probes *)

Definition executor_envelope_ok (v : ExecutorValue) (r : IsolatedProbeReceipt) (p : IsolatedRequiredProbe)
    (cleanup : bool) : bool :=
  str_is (xv_schema v) "hostlet.runtime.executor-receipt/v1"
  && str_is (xv_operation v) (if cleanup then "cleanup" else "inspect") && str_is (xv_result v) "passed"
  && str_is (xv_status v) (if cleanup then "cleaned" else "running")
  && str_is (xv_allocation v) (y_uuid_text Y (ipr_execution r)) && bool_decide (xv_generation v = Some 1%Z)
  && bool_decide (xv_fence v = Some (ipr_fence r)) && str_is (xv_artifact v) (ip_artifact p)
  && str_is (xv_binary v) (px_binary (ip_executor p)) && str_is (xv_policy v) (px_policy (ip_executor p))
  && str_is (xv_capability v) (px_capability (ip_executor p)) && str_is (xv_platform v) (px_platform (ip_executor p))
  && str_is (xv_profile v) "evidence_gated_owned_fixture".

Definition cleaned_up (c : CleanupValue) : bool :=
  is_true (cv_sandbox_absent c) && is_true (cv_application_absent c) && is_true (cv_gateway_absent c)
  && is_true (cv_cgroup_absent c) && bool_decide (cv_state_retained c = Some false).

Definition validate_disposable_executor (v : ExecutorValue) (r : IsolatedProbeReceipt)
    (p : IsolatedRequiredProbe) (cleanup : bool) : res ApiError unit :=
  res_bind (guard_err (negb (executor_envelope_ok v r p cleanup)) evidence_invalid) (fun _ =>
  if cleanup then
    res_bind (ok_or (xv_cleanup v) evidence_invalid) (fun c =>
    guard_err (negb (cleaned_up c)) evidence_invalid)
  else guard_err (negb (str_is (xv_runsc v) "running") || negb (xv_limits_object v)
                  || negb (default false (xv_health_passing v))) evidence_invalid).

Definition assertions_pass (l : list IsolatedAssertion) : bool :=
  negb (bool_decide (l = [])) && forallb (fun a => negb (bool_decide (ias_name a = "")) && ias_passed a) l.
#[local] Instance IsolatedAssertion_eq : EqDecision IsolatedAssertion.
Proof. solve_decision. Defined.

(** [i64::try_from]. *)
Definition as_i64 (v : Z) : option Z := if (v <=? max_i64)%Z then Some v else None.

Definition isolated_receipt_ok (r : IsolatedProbeReceipt) (p : IsolatedRequiredProbe)
    (reconciliation attempt : Uuid) (fence observed now : Z) : bool :=
  bool_decide (ipr_schema r = "hostlet.runtime.probe-receipt/v2")
  && bool_decide (ipr_execution r = ip_execution p)
  && bool_decide (ipr_reconciliation r = reconciliation)
  && bool_decide (ipr_reconciliation r = ip_reconciliation p)
  && bool_decide (ipr_attempt r = attempt) && bool_decide (ipr_attempt r = ip_attempt p)
  && bool_decide (as_i64 (ipr_fence r) = Some fence) && (fence =? ip_fence p)%Z
  && bool_decide (ipr_kind r = ip_kind p) && bool_decide (ipr_release r = ip_release p)
  && bool_decide (ipr_peer r = ip_peer p) && bool_decide (ipr_allocation r = ip_allocation p)
  && bool_decide (as_i64 (ipr_generation r) = Some (ip_generation p))
  && bool_decide (as_i64 (ipr_source_fence r) = Some (ip_source_fence p))
  && bool_decide (ipr_artifact r = ip_artifact p) && bool_decide (ipr_manifest r = ip_manifest p)
  && bool_decide (ipr_profile_digest r = ip_profile_digest p)
  && bool_decide (ipr_database_generation r = ip_database_generation p)
  && bool_decide (ipr_migration r = ip_migration p) && bool_decide (ipr_target r = "isolated")
  && bool_decide (ip_target p = "isolated") && bool_decide (ipr_result r = "passed")
  && bool_decide (ipr_reason r = "runtime_isolated_probe_passed")
  && negb (out_of_window observed now) && assertions_pass (ipr_assertions r).

Definition application_receipt_ok (a : ApplicationProbeReceipt) (r : IsolatedProbeReceipt) : bool :=
  bool_decide (apr_schema a = "hostlet.runtime.application-probe-receipt/v1")
  && bool_decide (apr_execution a = ipr_execution r) && bool_decide (apr_allocation a = ipr_execution r)
  && (apr_generation a =? 1)%Z && (apr_fence a =? ipr_fence r)%Z
  && bool_decide (apr_artifact a = ipr_artifact r)
  && bool_decide (apr_database_generation a = ipr_database_generation r)
  && bool_decide (apr_migration a = ipr_migration r) && bool_decide (apr_kind a = ipr_kind r)
  && bool_decide (apr_target a = "isolated") && bool_decide (apr_result a = "passed")
  && bool_decide (apr_reason a = "runtime_application_probe_passed")
  && (apr_observed a <=? ipr_observed r)%Z
  && is_some_and (fun s => (200 <=? s) && (s <? 300))%Z (apr_write_status a)
  && bool_decide (apr_read_status a = Some 200%Z) && negb (apr_elapsed a =? 0)%Z
  && is_some_and is_digest (apr_sha256 a) && assertions_pass (apr_assertions a).

(** The receipt of the isolated probe, in the shape of a hosted one. *)
Definition normalized (r : IsolatedProbeReceipt) (a : ApplicationProbeReceipt) : ProbeReceipt := {|
  prc_schema := ipr_schema r; prc_kind := ipr_kind r; prc_release := ipr_release r; prc_peer := ipr_peer r;
  prc_allocation := ipr_allocation r; prc_generation := ipr_generation r; prc_fence := ipr_source_fence r;
  prc_artifact := ipr_artifact r; prc_database := Some (ipr_database_generation r);
  prc_migration := Some (ipr_migration r); prc_executor := ipr_executor r; prc_result := ipr_result r;
  prc_reason := ipr_reason r; prc_observed := ipr_observed r;
  prc_http := {| ph_method := "POST"; ph_path := "/isolated-application-probe";
                 ph_status := apr_read_status a; ph_sha256 := apr_sha256 a; ph_elapsed := apr_elapsed a |};
  prc_assertions := map (fun x => {| pas_name := ias_name x; pas_passed := ias_passed x;
                                     pas_sha256 := None |}) (apr_assertions a) |}.

Definition validate_isolated_probe_receipt (r : IsolatedProbeReceipt) (p : IsolatedRequiredProbe)
    (reconciliation attempt : Uuid) (fence now : Z) : res ApiError ProbeReceipt :=
  res_bind (observed_at (ipr_observed r)) (fun observed =>
  res_bind (guard_err (negb (isolated_receipt_ok r p reconciliation attempt fence observed now))
              evidence_invalid) (fun _ =>
  res_bind (read_evidence_value (ipr_executor r)) (fun executor =>
  res_bind (validate_disposable_executor executor r p false) (fun _ =>
  res_bind (read_evidence_value (ipr_cleanup r)) (fun cleanup =>
  res_bind (validate_disposable_executor cleanup r p true) (fun _ =>
  res_bind (read_evidence (ipr_application r)) (fun bs =>
  res_bind (ok_or (y_application_json Y bs) evidence_invalid) (fun a =>
  res_bind (guard_err (negb (application_receipt_ok a r)) evidence_invalid) (fun _ =>
  Ok (normalized r a)))))))))).

(** ** Hosted probes *)

Definition expected_reason (kind : string) : res ApiError string :=
  if bool_decide (kind = "health") then Ok "runtime_health_passed"
  else if bool_decide (kind = "current_data") then Ok "runtime_current_data_passed"
  else if one_of kind [CACHED_OLD_FRONTEND; CANDIDATE_FRONTEND] then Ok "runtime_cross_version_passed"
  else Err evidence_invalid.

Definition http_ok (h : ProbeHttp) : bool :=
  one_of (ph_method h) ["GET"; "POST"] && starts_with (lit "/") (as_bytes (ph_path h))
  && negb (ph_elapsed h =? 0)%Z && is_none_or is_digest (ph_sha256 h) && negb (is_none (ph_status h)).

Definition probe_assertion_ok (a : ProbeAssertion) : bool :=
  negb (bool_decide (pas_name a = "")) && pas_passed a && is_none_or is_digest (pas_sha256 a).

Definition hosted_receipt_ok (r : ProbeReceipt) (reason : string) (observed now : Z) : bool :=
  bool_decide (prc_schema r = "hostlet.runtime.probe-receipt/v1") && bool_decide (prc_result r = "passed")
  && bool_decide (prc_reason r = reason) && negb (prc_generation r =? 0)%Z && negb (prc_fence r =? 0)%Z
  && negb (out_of_window observed now) && is_digest (prc_artifact r) && is_digest (prc_executor r)
  && match prc_assertions r with [] => false | l => forallb probe_assertion_ok l end
  && http_ok (prc_http r).

Definition executor_matches (v : ExecutorValue) (r : ProbeReceipt) : bool :=
  str_is (xv_schema v) "hostlet.runtime.executor-receipt/v1"
  && str_is (xv_allocation v) (y_uuid_text Y (prc_allocation r))
  && bool_decide (xv_generation v = Some (prc_generation r)) && bool_decide (xv_fence v = Some (prc_fence r))
  && str_is (xv_artifact v) (prc_artifact r) && str_is (xv_runsc v) "running" && xv_limits_object v.

Definition validate_executor_receipt (r : ProbeReceipt) : res ApiError unit :=
  res_bind (read_evidence (prc_executor r)) (fun bs =>
  res_bind (ok_or (y_executor_json Y bs) evidence_invalid) (fun v =>
  guard_err (negb (executor_matches v r)) (conflict "release_executor_identity_mismatch"
    "a probe executor receipt does not match the exact runtime allocation"))).

Definition validate_probe_receipt (r : ProbeReceipt) (now : Z) : res ApiError unit :=
  res_bind (observed_at (prc_observed r)) (fun observed =>
  res_bind (expected_reason (prc_kind r)) (fun reason =>
  res_bind (guard_err (negb (hosted_receipt_ok r reason observed now)) evidence_invalid) (fun _ =>
  res_bind (guard_err (bool_decide (prc_kind r = "health") && negb (is_none (prc_peer r)))
              evidence_invalid) (fun _ =>
  res_bind (guard_err (one_of (prc_kind r) ["current_data"; CACHED_OLD_FRONTEND; CANDIDATE_FRONTEND]
                       && is_none (prc_database r)) evidence_invalid) (fun _ =>
  res_bind (guard_err (is_frontend_kind (prc_kind r) && is_none (prc_peer r)) evidence_invalid) (fun _ =>
  validate_executor_receipt r)))))).

(** ** The set of receipts *)

Definition isolated_with (execution : Uuid) (p : RequiredProbe) : option IsolatedRequiredProbe :=
  match p with
  | Isolated i => if bool_decide (ip_execution i = execution) then Some i else None
  | Hosted _ => None
  end.

Definition hosted_key (r : ProbeReceipt) : res ApiError RequiredProbe :=
  res_bind (ok_or (as_i64 (prc_generation r)) evidence_invalid) (fun generation =>
  res_bind (ok_or (as_i64 (prc_fence r)) evidence_invalid) (fun fence =>
  Ok (Hosted {|
    hp_kind := prc_kind r; hp_release := prc_release r; hp_peer := prc_peer r;
    hp_allocation := prc_allocation r; hp_generation := generation; hp_fence := fence;
    hp_artifact := prc_artifact r; hp_receipt := prc_executor r; hp_database := prc_database r;
    hp_migration := prc_migration r |}))).

(** The probe that a file answers. *)
Definition answered_probe (expected : list RequiredProbe) (reconciliation attempt : Uuid) (fence now : Z)
    (digest : string) : res ApiError (RequiredProbe * ProbeReceipt) :=
  res_bind (read_evidence digest) (fun bs =>
  res_bind (ok_or (y_probe_json Y bs) evidence_invalid) (fun file =>
  match file with
  | IsolatedFile parsed =>
      res_bind (ok_or parsed evidence_invalid) (fun r =>
      res_bind (ok_or (head (omap (isolated_with (ipr_execution r)) expected)) evidence_invalid) (fun p =>
      res_bind (validate_isolated_probe_receipt r p reconciliation attempt fence now) (fun receipt =>
      Ok (Isolated p, receipt))))
  | HostedFile parsed =>
      res_bind (ok_or parsed evidence_invalid) (fun r =>
      res_bind (validate_probe_receipt r now) (fun _ =>
      res_bind (hosted_key r) (fun key => Ok (key, r))))
  end)).

Context {D : Type}.

Fixpoint observe_receipts (expected : list RequiredProbe) (reconciliation attempt : Uuid) (fence : Z)
    (digests : list string) (observed : list RequiredProbe)
    : M D (list RequiredProbe * list (string * ProbeReceipt)) :=
  match digests with
  | [] => tret (observed, [])
  | digest :: rest =>
      now <~ clock_timestamp;;
      answer <~ lift (answered_probe expected reconciliation attempt fence now digest);;
      reject_if (bool_decide (answer.1 ∈ observed))
        (unprocessable "release_probe_duplicate" "probe receipts must be unique");;;
      more <~ observe_receipts expected reconciliation attempt fence rest (observed ++ [answer.1]);;
      tret (more.1, (digest, answer.2) :: more.2)
  end.

Definition same_probes (a b : list RequiredProbe) : bool :=
  forallb (fun p => bool_decide (p ∈ b)) a && forallb (fun p => bool_decide (p ∈ a)) b.

Definition validate_probe_receipts (expected : list RequiredProbe) (digests : list string)
    (reconciliation attempt : Uuid) (fence : Z) : M D (list (string * ProbeReceipt)) :=
  reject_if (negb (length digests =? length expected)%nat || negb (bool_decide (NoDup digests)))
    (unprocessable "release_probe_set_invalid"
       "the probe receipt set must exactly match the reconciliation lease");;;
  answers <~ observe_receipts expected reconciliation attempt fence digests [];;
  reject_if (negb (same_probes answers.1 expected))
    (conflict "release_probe_set_mismatch"
       "the probe receipts do not match the exact leased release identities");;;
  tret answers.2.
End Receipts.
