(* ===== verification/Migrations.v ===== *)
(** * Migrations of tenant databases (crates/control/src/tenant_databases.rs)

    What a release requests of a tenant database: the backup before a migration, the
    plan of the migration, its trial on a restored copy once the artifact has been
    materialized, the record of the probes that ran against that copy, which requests
    the live apply, and the gate that the applied migration opens. *)

From stdpp Require Import base list option gmap strings pretty sorting.
From Stdlib Require Import ZArith Lia Ascii.
From S2P Require Import Prelude RustText Bytes PgTx Intent Secrets Admission PolicyClock.
From S2P Require Import ExecutionTables BuildTables RuntimeEvidence Runtime.
From S2P Require Import ReleaseTables ReleaseEvidence ReleaseReceipts.

Local Open Scope string_scope.
Local Open Scope list_scope.

Definition OWNED_MIGRATION_ENTRIES : list string :=
  ["dist/migrations/002_additive_client_compatibility.sql"; "dist/migrations/003_destructive.sql"].
Definition BACKUP_RETENTION_DAYS : Z := 7.

(** ** The order of promotions *)

Definition promoted_key (r : Release) : Z := default 0%Z (rl_promoted r).
Definition newest_le (a b : Release) : Prop :=
  (promoted_key b < promoted_key a)%Z \/ promoted_key a = promoted_key b /\ (rl_id b <= rl_id a)%N.
#[export] Instance newest_le_dec a b : Decision (newest_le a b).
Proof. unfold newest_le. apply _. Defined.

(** [WHERE keep ORDER BY promoted_at DESC,id DESC]. *)
Definition newest_first {P} (keep : Release -> bool) (d : RlDb P) : list Release :=
  merge_sort newest_le (filter (fun r => keep r = true) (map snd (map_to_list (releases d)))).

Definition promoted_in (account project : Uuid) (r : Release) : bool :=
  bool_decide (rl_account r = account) && bool_decide (rl_project r = project)
  && bool_decide (rl_state r = RlHealthy) && negb (is_none (rl_promoted r)).

(** ** Requests *)

Record MigrationTrialRequest := {
  mt_account : Uuid; mt_project : Uuid; mt_database : Uuid; mt_generation : Uuid; mt_deployment : Uuid;
  mt_config : Uuid; mt_revision : string; mt_digest : string; mt_current_schema : string;
  mt_candidate_schema : string; mt_current_binary : string; mt_retained : list string;
  mt_artifact : MigrationArtifact;
}.
Record MaterializedMigrationTrial := {
  mm_release : Uuid; mm_reconciliation : Uuid; mm_attempt : Uuid; mm_fence : Z; mm_migration : Uuid;
  mm_ref : string; mm_stage_receipt : string; mm_policy : Z;
}.
Record MigrationProbeReceipt := {
  mpr_release : Uuid; mpr_artifact : string; mpr_allocation : Uuid; mpr_generation : Z; mpr_fence : Z;
  mpr_database_generation : Uuid; mpr_migration : Uuid; mpr_digest : string; mpr_kind : string;
  mpr_receipt : string; mpr_observed : Z;
}.
Record CrossVersionProbeReceipt := { cvr_frontend : Uuid; cvr_api : Uuid; cvr_receipt : string }.
Record MigrationRuntimeValidation := {
  mv_release : Uuid; mv_reconciliation : Uuid; mv_attempt : Uuid; mv_fence : Z; mv_migration : Uuid;
  mv_apply_receipt : string; mv_probes : list MigrationProbeReceipt;
  mv_cross : list CrossVersionProbeReceipt; mv_validated : Z;
}.
Record VerifiedMigrationGate := {
  vg_migration : Uuid; vg_revision : string; vg_digest : string; vg_archive : Uuid; vg_source : Z;
  vg_current_schema : string; vg_candidate_schema : string; vg_current_binary : string;
  vg_retained : list RetainedEvidence; vg_evidence : CompatibilityEvidence; vg_effect : option Uuid;
  vg_live_apply : option Uuid;
}.

(** ** Evidence *)

Definition retained_item_ok (e : RetainedEvidence) : bool :=
  is_digest (rte_binary e) && text_within 1 256 (rte_schema e) && rte_read_ok e && rte_write_ok e.

(** Every binary works, and no two have the same digest. *)
Definition retained_evidence_passed (items : list RetainedEvidence) (expected : option Z) : bool :=
  bool_decide (expected = Some (Z.of_nat (length items))) && forallb retained_item_ok items
  && bool_decide (NoDup (map rte_binary items)).

Definition compatibility_evidence_passed (e : CompatibilityEvidence) : bool :=
  ce_populated e && ce_read_ok e && ce_write_ok e && ce_connection e && ce_unchanged e.

Definition migration_materialized_ref (digest : string) : res ApiError string :=
  match strip (lit "sha256:") (as_bytes digest) with
  | Some hex =>
      if is_digest digest
      then Ok ("migration-artifacts/sha256/" +:+ to_text (firstn 2 hex) +:+ "/" +:+ to_text (skipn 2 hex)
               +:+ ".sql")
      else Err (unprocessable "migration_digest_invalid" "the migration digest is invalid")
  | None => Err (unprocessable "migration_digest_invalid" "the migration digest is invalid")
  end.

(** [i64] to [u64]. *)
Definition to_u64 (v : Z) : res ApiError Z := if (v <? 0)%Z then Err internal else Ok v.

Section Migrations.
Context (Y : ReleaseExternals) (m3 : option M3Config) {P : Type}.
Implicit Types d : RlDb P.

Definition repository_namespace (database : Uuid) : string := "tenant_" +:+ y_uuid_simple Y database.

(** ** Statements *)

Definition insert_archive (a : Archive) : M (RlDb P) unit :=
  d <~ get_db;;
  rows <~ sql (insert_pk (fun r => archive_check r && archive_unique (archives d) r) (ax_id a) a (archives d));;
  put_db (set_archives rows d).

(** The row of a time: [created_at] has a default. *)
Definition insert_operation (row : Z -> DatabaseOperation) : M (RlDb P) unit :=
  created <~ clock_timestamp;;
  let o := row created in
  d <~ get_db;;
  let t := database_operations (tables d) in
  rows <~ sql (insert_pk (fun r => operation_check r && operation_unique t r) (do_id o) o t);;
  put_db (set_operations rows d).

Definition update_migration (id : Uuid) (cond : Migration -> bool) (f : Migration -> Migration)
    : M (RlDb P) nat :=
  d <~ get_db;;
  r <~ sql (update_pk migration_check cond (fun m => Some (f m)) id (migrations d));;
  put_db (set_migrations r.1 d);;; tret r.2.

Definition queued_operation (id account project database generation : Uuid) (kind : OperationKind)
    (key : string) (spec : OperationSpec) (credentials : list Uuid) (policy created : Z) : DatabaseOperation := {|
  do_id := id; do_account := account; do_project := project; do_database := database;
  do_generation := generation; do_kind := kind; do_state := OQueued; do_key := key; do_spec := spec;
  do_proof := None; do_credentials := credentials; do_attempts := 0; do_current := None; do_fence := 0;
  do_lease := None; do_policy := policy; do_created := created |}.

Definition active_credential (database : Uuid) (purpose : CredentialPurpose) (c : DatabaseCredential) : bool :=
  bool_decide (dc_database c = database) && bool_decide (dc_purpose c = purpose)
  && bool_decide (dc_status c = CActive).

Definition active_credential_id d (database : Uuid) (purpose : CredentialPurpose) : res ApiError Uuid :=
  ok_or (dc_id <$> select_first (fun _ => active_credential database purpose) any_order
                     (database_credentials (tables d))) foundation_unavailable.

(** One of each purpose, by the name of the purpose. *)
Definition active_credential_ids d (database : Uuid) : res ApiError (list Uuid) :=
  let rows := flat_map (fun purpose =>
    map (fun kr => dc_id kr.2) (filter (fun kr => active_credential database purpose kr.2 = true)
      (map_to_list (database_credentials (tables d)))))
    [BackupPurpose; MigrationPurpose; RuntimePurpose] in
  res_bind (guard_err (negb (length rows =? 3)%nat) foundation_unavailable) (fun _ => Ok rows).

Definition usable_database d (account project database generation : Uuid) : option TenantDatabase :=
  t ← tenant_databases (tables d) !! database;
  _ ← where_ (bool_decide (td_account t = account) && bool_decide (td_project t = project)
              && bool_decide (td_generation t = generation) && one_of (td_state t) [DbReady; RecoveryAttention]);
  Some t.

(** ** The backup before a migration *)

Definition pre_migration_archive (database generation : Uuid) (revision : string) (source : Z)
    (_ : Uuid) (a : Archive) : bool :=
  bool_decide (ax_database a = database) && bool_decide (ax_generation a = generation)
  && bool_decide (ax_kind a = ArPreMigration) && bool_decide (ax_intended a = Some revision)
  && (ax_source a =? source)%Z.

Definition request_pre_migration_backup (account project database generation : Uuid) (revision : string)
    : M (RlDb P) Uuid :=
  _ <~ lift (require_enabled m3);;
  reject_if (negb (text_within 1 256 revision))
    (unprocessable "invalid_migration_revision" "the migration revision is invalid");;;
  policy <~ policy_now m3;;
  transaction (
    created <~ clock_timestamp;;
    d <~ get_db;;
    t <~ lift (ok_or (usable_database d account project database generation) not_found);;
    match select_first (pre_migration_archive database generation revision (td_source t)) any_order
            (archives d) with
    | Some existing => tret (Ok (ax_id existing))
    | None =>
        archive <~ new_uuid;;
        let expires := (policy + BACKUP_RETENTION_DAYS * DAY)%Z in
        insert_archive {|
          ax_id := archive; ax_account := account; ax_project := project; ax_database := database;
          ax_generation := generation; ax_kind := ArPreMigration; ax_state := ArCreating;
          ax_scheduled := None; ax_intended := Some revision; ax_source := td_source t;
          ax_object := None; ax_format := None; ax_key := None; ax_plain := None; ax_encrypted := None;
          ax_plain_bytes := None; ax_encrypted_bytes := None; ax_snapshot := None; ax_verified := None;
          ax_expires := expires;
          ax_created := created |};;;
        credential <~ lift (active_credential_id d database BackupPurpose);;
        operation <~ new_uuid;;
        insert_operation (queued_operation operation account project database generation
          BackupPreMigration (revision +:+ ":" +:+ pretty (td_source t))
          {| os_recovery_id := None; os_archive_id := Some (y_uuid_text Y archive);
             os_replacement_ref := None;
             os_body := ArchiveBody "pre_migration" (repository_namespace database) None (Some revision)
                          (td_source t) expires |} [credential] policy);;;
        tret (Ok archive)
    end).

(** ** The plan *)

Definition invalid_trial_request (q : MigrationTrialRequest) : bool :=
  let a := mt_artifact q in
  negb (is_digest (mt_digest q)) || negb (is_digest (mt_current_binary q))
  || (2 <? length (mt_retained q))%nat || negb (forallb is_digest (mt_retained q))
  || is_nil (mx_job a) || is_nil (mx_artifact a) || is_nil (mx_service a)
  || negb (is_digest (mx_archive a)) || negb (is_digest (mx_manifest a))
  || negb (one_of (mx_entry a) OWNED_MIGRATION_ENTRIES) || negb (bool_decide (mx_file a = mt_digest q)).

(** A verified backup of the database as it is now, at most an hour old. *)
Definition fresh_archive d (q : MigrationTrialRequest) (archive : Uuid) (policy : Z) : option Archive :=
  a ← archives d !! archive;
  t ← tenant_databases (tables d) !! ax_database a;
  _ ← where_ (bool_decide (td_account t = ax_account a) && bool_decide (td_project t = ax_project a)
              && bool_decide (td_generation t = ax_generation a)
              && bool_decide (ax_account a = mt_account q) && bool_decide (ax_project a = mt_project q)
              && bool_decide (ax_database a = mt_database q) && bool_decide (ax_generation a = mt_generation q)
              && bool_decide (ax_kind a = ArPreMigration) && bool_decide (ax_state a = ArUsable)
              && bool_decide (ax_intended a = Some (mt_revision q)) && (ax_source a =? td_source t)%Z
              && is_some_and (fun s => policy - HOUR <=? s)%Z (ax_snapshot a)
              && negb (is_none (ax_verified a)) && (policy <=? ax_expires a)%Z);
  Some a.

Definition planned_evidence (retained : list string) : CompatibilityEvidence := {|
  ce_expected_digests := retained; ce_identity := None; ce_ref := None; ce_apply_receipt := None;
  ce_expected_count := None; ce_populated := false; ce_read_ok := false; ce_write_ok := false;
  ce_connection := false; ce_unchanged := false |}.

Definition enqueue_migration_trial (q : MigrationTrialRequest) (archive : Uuid) : M (RlDb P) Uuid :=
  _ <~ lift (require_enabled m3);;
  reject_if (invalid_trial_request q) (unprocessable "invalid_migration_evidence"
    "migration and binary digests must be exact SHA-256 values");;;
  policy <~ policy_now m3;;
  transaction (
    d <~ get_db;;
    a <~ lift (ok_or (fresh_archive d q archive policy)
      (conflict "pre_migration_backup_unavailable" "an exact fresh verified pre-migration backup is required"));;
    match select_first (fun _ m => bool_decide (mg_database m = mt_database q)
                          && bool_decide (mg_generation m = mt_generation q)
                          && bool_decide (mg_revision m = mt_revision q)) any_order (migrations d) with
    | Some existing => tret (Ok (mg_id existing))
    | None =>
        id <~ new_uuid;;
        let m := {|
          mg_id := id; mg_account := mt_account q; mg_project := mt_project q;
          mg_database := mt_database q; mg_generation := mt_generation q; mg_deployment := mt_deployment q;
          mg_config := mt_config q; mg_revision := mt_revision q; mg_digest := mt_digest q;
          mg_source := ax_source a; mg_archive := archive; mg_validation := None; mg_state := MPlanned;
          mg_current_schema := mt_current_schema q; mg_candidate_schema := mt_candidate_schema q;
          mg_current_binary := mt_current_binary q; mg_artifact := mt_artifact q; mg_retained := [];
          mg_evidence := planned_evidence (mt_retained q); mg_effect := None; mg_validated := None;
          mg_applied := None |} in
        rows <~ sql (insert_pk (fun r => migration_check r && migration_unique (migrations d) r) id m
                      (migrations d));;
        put_db (set_migrations rows d);;;
        tret (Ok id)
    end).

(** ** The trial *)

(** The plan and its backup, while both can be used. *)
Definition planned_migration d (id : Uuid) (policy : Z) : option (Migration * Archive) :=
  m ← migrations d !! id;
  a ← archives d !! mg_archive m;
  _ ← where_ (bool_decide (ax_account a = mg_account m) && bool_decide (ax_project a = mg_project m)
              && bool_decide (ax_database a = mg_database m) && bool_decide (ax_generation a = mg_generation m)
              && bool_decide (mg_state m = MPlanned) && bool_decide (ax_state a = ArUsable)
              && (policy <=? ax_expires a)%Z);
  Some (m, a).

(** The live attempt of a running reconciliation. *)
Definition live_attempt d (r : Reconciliation) (attempt : Uuid) (fence now : Z) : option ReleaseAttempt :=
  a ← release_attempts d !! attempt;
  _ ← where_ (bool_decide (rn_state r = RcRunning) && bool_decide (rn_current r = Some attempt)
              && (rn_fence r =? fence)%Z && is_some_and (fun l => now <? l)%Z (rn_lease r)
              && bool_decide (ra_reconciliation a = rn_id r) && bool_decide (ra_release a = rn_release r)
              && bool_decide (ra_account a = rn_account r) && bool_decide (ra_project a = rn_project r)
              && (ra_fence a =? fence)%Z && bool_decide (ra_state a = AtRunning) && (now <? ra_lease a)%Z);
  Some a.

Definition reconciles (r : Reconciliation) (release : Release) : bool :=
  bool_decide (rn_release r = rl_id release) && bool_decide (rn_account r = rl_account release)
  && bool_decide (rn_project r = rl_project release).

(** The release, its live attempt and the artifact it was built from. *)
Definition release_bound d (m : Migration) (q : MaterializedMigrationTrial) (now : Z) : bool :=
  bool_decide (is_Some (
    r ← releases d !! mm_release q;
    rcn ← reconciliations d !! mm_reconciliation q;
    _ ← live_attempt d rcn (mm_attempt q) (mm_fence q) now;
    b ← build_artifacts (tables d) !! mx_artifact (mg_artifact m);
    where_ (bool_decide (rl_migration r = Some (mm_migration q)) && reconciles rcn r
            && bool_decide (rl_job r = mx_job (mg_artifact m)) && bool_decide (at_job b = rl_job r)
            && bool_decide (at_service b = mx_service (mg_artifact m))
            && bool_decide (at_kind b = ApplicationArtifact)
            && bool_decide (at_archive b = mx_archive (mg_artifact m))
            && bool_decide (at_manifest b = mx_manifest (mg_artifact m))))).

Definition materialized (a : MigrationArtifact) (ref stage_receipt : string) : MigrationArtifact := {|
  mx_job := mx_job a; mx_artifact := mx_artifact a; mx_service := mx_service a; mx_archive := mx_archive a;
  mx_manifest := mx_manifest a; mx_entry := mx_entry a; mx_file := mx_file a;
  mx_materialized := Some (ref, stage_receipt) |}.

Definition with_trial_operation (m : Migration) (a : MigrationArtifact) (operation : Uuid) : Migration := {|
  mg_id := mg_id m; mg_account := mg_account m; mg_project := mg_project m; mg_database := mg_database m;
  mg_generation := mg_generation m; mg_deployment := mg_deployment m; mg_config := mg_config m;
  mg_revision := mg_revision m; mg_digest := mg_digest m; mg_source := mg_source m;
  mg_archive := mg_archive m; mg_validation := Some operation; mg_state := mg_state m;
  mg_current_schema := mg_current_schema m; mg_candidate_schema := mg_candidate_schema m;
  mg_current_binary := mg_current_binary m; mg_artifact := a; mg_retained := mg_retained m;
  mg_evidence := mg_evidence m; mg_effect := mg_effect m; mg_validated := mg_validated m;
  mg_applied := mg_applied m |}.

Definition enqueue_materialized_migration_trial (q : MaterializedMigrationTrial) : M (RlDb P) Uuid :=
  reject_if ((mm_fence q <=? 0)%Z || negb (is_digest (mm_stage_receipt q)))
    (unprocessable "migration_materialization_invalid"
       "the authenticated migration materialization receipt is invalid");;;
  d <~ get_db;;
  '(m, a) <~ lift (ok_or (planned_migration d (mm_migration q) (mm_policy q))
    (conflict "migration_plan_unavailable" "the exact planned migration and backup are unavailable"));;
  expected <~ lift (migration_materialized_ref (mg_digest m));;
  reject_if (negb (bool_decide (mm_ref q = expected)))
    (unprocessable "migration_materialization_ref_invalid"
       "the migration artifact reference is not derived from its exact digest");;;
  now <~ clock_timestamp;;
  reject_if (negb (release_bound d m q now))
    (conflict "migration_materialization_unbound"
       "the materialized migration is not bound to the live release attempt and HCA");;;
  let artifact := materialized (mg_artifact m) (mm_ref q) (mm_stage_receipt q) in
  operation <~ new_uuid;;
  credentials <~ lift (active_credential_ids d (mg_database m));;
  insert_operation (queued_operation operation (mg_account m) (mg_project m) (mg_database m)
    (mg_generation m) MigrationTrial (y_uuid_text Y (mm_migration q))
    {| os_recovery_id := None; os_archive_id := Some (y_uuid_text Y (mg_archive m));
       os_replacement_ref := None;
       os_body := TrialBody (mm_migration q) (repository_namespace (mg_database m)) (ax_encrypted a)
                    (mg_revision m) (mg_digest m) (mg_source m) (mg_current_schema m)
                    (mg_candidate_schema m) artifact |} credentials (mm_policy q));;;
  _ <~ update_migration (mm_migration q) (fun m => bool_decide (mg_state m = MPlanned))
         (fun m => with_trial_operation m artifact operation);;
  tret operation.

(** ** The validation *)

Record ExpectedProbe := {
  xp_release : Uuid; xp_binary : string; xp_allocation : Uuid; xp_generation : Z; xp_fence : Z;
  xp_kind : string;
}.

Definition expected_probe d (kind : string) (r : Release) : option ExpectedProbe :=
  binary ← rl_backend r;
  allocation ← rl_allocation r;
  a ← allocations (rl_runtime d) !! allocation;
  Some {| xp_release := rl_id r; xp_binary := binary; xp_allocation := al_id a;
          xp_generation := al_generation a; xp_fence := al_fence a; xp_kind := kind |}.

Definition route_release d (project : Uuid) : option Uuid := ro_release <$> routes d !! project.

Definition expected_le (a b : ExpectedProbe) : Prop := (xp_release a <= xp_release b)%N.
#[local] Instance expected_le_dec a b : Decision (expected_le a b).
Proof. unfold expected_le. apply _. Defined.

(** The candidate and the three newest healthy releases that run an application. *)
Definition expected_releases d (candidate account project : Uuid) : list ExpectedProbe :=
  let others := firstn 3 (newest_first (fun r => promoted_in account project r
    && negb (bool_decide (rl_id r = candidate)) && negb (is_none (rl_backend r))
    && negb (is_none (rl_allocation r))) d) in
  merge_sort expected_le
    (option_list (releases d !! candidate ≫= expected_probe d "candidate")
     ++ omap (fun r => expected_probe d (if bool_decide (route_release d project = Some (rl_id r))
                                         then "current" else "retained") r) others).

Definition receipt_for (m : Migration) (x : ExpectedProbe) (r : MigrationProbeReceipt) : bool :=
  bool_decide (mpr_release r = xp_release x) && bool_decide (mpr_artifact r = xp_binary x)
  && bool_decide (mpr_allocation r = xp_allocation x) && (mpr_generation r =? xp_generation x)%Z
  && (mpr_fence r =? xp_fence x)%Z && bool_decide (mpr_database_generation r = mg_generation m)
  && bool_decide (mpr_migration r = mg_id m) && bool_decide (mpr_digest r = mg_digest m)
  && bool_decide (mpr_kind r = xp_kind x) && is_digest (mpr_receipt r).

Definition retained_evidence (m : Migration) (x : ExpectedProbe) (r : MigrationProbeReceipt)
    : RetainedEvidence := {|
  rte_release := xp_release x; rte_binary := xp_binary x; rte_allocation := xp_allocation x;
  rte_generation := xp_generation x; rte_fence := xp_fence x; rte_schema := mg_candidate_schema m;
  rte_read_ok := true; rte_write_ok := true; rte_receipt := mpr_receipt r |}.

(** Each expected release has a receipt: the releases seen and the evidence to keep. *)
Fixpoint observe_expected (m : Migration) (receipts : list MigrationProbeReceipt)
    (expected : list ExpectedProbe) (observed : list Uuid) (kept : list RetainedEvidence)
    : res ApiError (list Uuid * list RetainedEvidence) :=
  match expected with
  | [] => Ok (observed, kept)
  | x :: rest =>
      res_bind (ok_or (List.find (receipt_for m x) receipts)
        (conflict "migration_runtime_evidence_incomplete"
           "a candidate, current, or retained runtime probe receipt is missing")) (fun r =>
      res_bind (guard_err (bool_decide (mpr_release r ∈ observed))
        (unprocessable "migration_runtime_evidence_duplicate"
           "runtime probe receipts must be unique per release")) (fun _ =>
      observe_expected m receipts rest (observed ++ [mpr_release r])
        (if bool_decide (xp_kind x = "candidate") then kept else kept ++ [retained_evidence m x r])))
  end.

Definition cross_pair (c : CrossVersionProbeReceipt) : Uuid * Uuid := (cvr_frontend c, cvr_api c).

(** Every ordered pair of distinct releases, exactly once. *)
Definition cross_receipts_complete (ids : list Uuid) (cross : list CrossVersionProbeReceipt) : bool :=
  let pairs := map cross_pair cross in
  let n := length ids in
  (length cross =? n * (n - 1))%nat && (size (list_to_set pairs : gset (Uuid * Uuid)) =? n * (n - 1))%nat
  && forallb (fun c => negb (bool_decide (cvr_frontend c = cvr_api c)) && bool_decide (cvr_frontend c ∈ ids)
                       && bool_decide (cvr_api c ∈ ids) && is_digest (cvr_receipt c)) cross
  && forallb (fun l => forallb (fun r => bool_decide (l = r) || bool_decide ((l, r) ∈ pairs)) ids) ids.

Definition text_le (a b : string) : Prop := String.leb a b = true.
#[local] Instance text_le_dec a b : Decision (text_le a b).
Proof. unfold text_le. apply _. Defined.

Definition targets_unchanged (m : Migration) (expected : list ExpectedProbe) : bool :=
  existsb (fun x => bool_decide (xp_kind x = "current") && bool_decide (xp_binary x = mg_current_binary m))
    expected
  && bool_decide (merge_sort text_le (ce_expected_digests (mg_evidence m))
                  = merge_sort text_le (map xp_binary (filter (fun x => xp_kind x = "retained") expected))).

Definition validated_evidence (apply_receipt : string) (count : nat) : CompatibilityEvidence := {|
  ce_expected_digests := []; ce_identity := None; ce_ref := None; ce_apply_receipt := Some apply_receipt;
  ce_expected_count := Some (Z.of_nat count); ce_populated := true; ce_read_ok := true;
  ce_write_ok := true; ce_connection := true; ce_unchanged := true |}.

Definition with_validation (m : Migration) (kept : list RetainedEvidence) (e : CompatibilityEvidence)
    (validated : Z) : Migration := {|
  mg_id := mg_id m; mg_account := mg_account m; mg_project := mg_project m; mg_database := mg_database m;
  mg_generation := mg_generation m; mg_deployment := mg_deployment m; mg_config := mg_config m;
  mg_revision := mg_revision m; mg_digest := mg_digest m; mg_source := mg_source m;
  mg_archive := mg_archive m; mg_validation := mg_validation m; mg_state := MIsolatedValidated;
  mg_current_schema := mg_current_schema m; mg_candidate_schema := mg_candidate_schema m;
  mg_current_binary := mg_current_binary m; mg_artifact := mg_artifact m; mg_retained := kept;
  mg_evidence := e; mg_effect := mg_effect m; mg_validated := Some validated; mg_applied := mg_applied m |}.

Definition validation_matches d (m : Migration) (v : MigrationRuntimeValidation) (now : Z) : bool :=
  bool_decide (is_Some (
    r ← releases d !! mv_release v;
    rcn ← reconciliations d !! mv_reconciliation v;
    _ ← live_attempt d rcn (mv_attempt v) (mv_fence v) now;
    where_ (reconciles rcn r && bool_decide (rl_account r = mg_account m)
            && bool_decide (rl_project r = mg_project m) && bool_decide (rl_deployment r = mg_deployment m)
            && bool_decide (rl_migration r = Some (mv_migration v))
            && bool_decide (rl_database r = Some (mg_database m))
            && bool_decide (rl_database_generation r = Some (mg_generation m))
            && bool_decide (rl_state r = RlStaged)))).

(** What the probes of the trial must show: the evidence to keep. *)
Definition validation_evidence d (m : Migration) (v : MigrationRuntimeValidation)
    : res ApiError (list RetainedEvidence) :=
  let expected := expected_releases d (mv_release v) (mg_account m) (mg_project m) in
  res_bind (guard_err (forallb (fun x => negb (bool_decide (xp_kind x = "candidate"))) expected)
    (conflict "migration_runtime_targets_missing"
       "the candidate or retained runtime targets are unavailable")) (fun _ =>
  res_bind (observe_expected m (mv_probes v) expected [] []) (fun '(observed, kept) =>
  res_bind (guard_err (negb (length observed =? length (mv_probes v))%nat)
    (unprocessable "migration_runtime_evidence_unexpected"
       "an unexpected runtime probe receipt was supplied")) (fun _ =>
  res_bind (guard_err (negb (cross_receipts_complete (map xp_release expected) (mv_cross v)))
    (conflict "migration_cross_version_evidence_incomplete"
       "every retained frontend and API pairing requires an authenticated probe receipt")) (fun _ =>
  res_bind (guard_err (negb (targets_unchanged m expected))
    (conflict "migration_runtime_targets_changed"
       "the current or retained release set differs from the planned migration evidence")) (fun _ =>
  Ok kept))))).

Definition record_migration_runtime_validation (v : MigrationRuntimeValidation)
    : M (RlDb P) VerifiedMigrationGate :=
  reject_if ((mv_fence v <=? 0)%Z || negb (is_digest (mv_apply_receipt v)) || bool_decide (mv_probes v = []))
    (unprocessable "migration_runtime_evidence_invalid"
       "authenticated populated runtime probe evidence is incomplete");;;
  d <~ get_db;;
  m <~ lift (ok_or (m ← migrations d !! mv_migration v;
                    _ ← where_ (bool_decide (mg_state m = MTrialPrepared)); Some m)
    (conflict "migration_trial_not_prepared" "the exact isolated migration trial is not prepared"));;
  reject_if (negb (bool_decide (ce_apply_receipt (mg_evidence m) = Some (mv_apply_receipt v))))
    (conflict "migration_trial_apply_receipt_mismatch"
       "runtime probes are not bound to the exact isolated database apply receipt");;;
  now <~ clock_timestamp;;
  reject_if (negb (validation_matches d m v now))
    (conflict "migration_release_mismatch" "the migration evidence is not bound to the staged release");;;
  kept <~ lift (validation_evidence d m v);;
  let evidence := validated_evidence (mv_apply_receipt v) (length kept) in
  _ <~ update_migration (mv_migration v) (fun m => bool_decide (mg_state m = MTrialPrepared))
         (fun m => with_validation m kept evidence (mv_validated v));;
  operation <~ new_uuid;;
  d' <~ get_db;;
  credential <~ lift (active_credential_id d' (mg_database m) MigrationPurpose);;
  insert_operation (queued_operation operation (mg_account m) (mg_project m) (mg_database m)
    (mg_generation m) MigrationLiveApply (y_uuid_text Y (mv_migration v))
    {| os_recovery_id := None; os_archive_id := None; os_replacement_ref := None;
       os_body := ApplyBody (mv_migration v) (mg_revision m) (mg_digest m) (mg_artifact m) (mg_source m)
                    (mg_current_schema m) (mg_candidate_schema m) (mv_apply_receipt v) |}
    [credential] (mv_validated v));;;
  source <~ lift (to_u64 (mg_source m));;
  tret {|
    vg_migration := mv_migration v; vg_revision := mg_revision m; vg_digest := mg_digest m;
    vg_archive := mg_archive m; vg_source := source; vg_current_schema := mg_current_schema m;
    vg_candidate_schema := mg_candidate_schema m; vg_current_binary := mg_current_binary m;
    vg_retained := kept; vg_evidence := evidence; vg_effect := None; vg_live_apply := Some operation |}.

(** ** The gate *)

(** The applied migration, while its backup can be used. *)
Definition applied_migration d (account project database generation deployment : Uuid)
    (revision digest : string) (policy : Z) (_ : Uuid) (m : Migration) : bool :=
  bool_decide (mg_account m = account) && bool_decide (mg_project m = project)
  && bool_decide (mg_database m = database) && bool_decide (mg_generation m = generation)
  && bool_decide (mg_deployment m = deployment) && bool_decide (mg_revision m = revision)
  && bool_decide (mg_digest m = digest) && bool_decide (mg_state m = MApplied)
  && match archives d !! mg_archive m with
     | Some a => bool_decide (ax_account a = mg_account m) && bool_decide (ax_project a = mg_project m)
                 && bool_decide (ax_database a = mg_database m)
                 && bool_decide (ax_generation a = mg_generation m) && bool_decide (ax_kind a = ArPreMigration)
                 && bool_decide (ax_state a = ArUsable) && bool_decide (ax_intended a = Some (mg_revision m))
                 && (ax_source a =? mg_source m)%Z && negb (is_none (ax_verified a))
                 && (policy <=? ax_expires a)%Z
     | None => false
     end.

(** The operation is unique by its key. *)
Definition live_apply_operation d (m : Migration) : option Uuid :=
  do_id <$> select_first (fun _ o => bool_decide (do_database o = mg_database m)
    && bool_decide (do_generation o = mg_generation m) && bool_decide (do_kind o = MigrationLiveApply)
    && bool_decide (do_key o = y_uuid_text Y (mg_id m))) any_order (database_operations (tables d)).

Definition verified_migration_gate d (account project database generation deployment : Uuid)
    (revision digest : string) (policy : Z) : res ApiError VerifiedMigrationGate :=
  res_bind (ok_or (select_first (applied_migration d account project database generation deployment
                     revision digest policy) any_order (migrations d))
    (conflict "migration_evidence_unavailable"
       "the exact populated migration has no current verified compatibility evidence")) (fun m =>
  res_bind (guard_err (negb (retained_evidence_passed (mg_retained m) (ce_expected_count (mg_evidence m)))
                       || negb (compatibility_evidence_passed (mg_evidence m)))
    (conflict "migration_incompatible"
       "a current or retained application binary did not pass populated compatibility")) (fun _ =>
  res_bind (to_u64 (mg_source m)) (fun source =>
  Ok {| vg_migration := mg_id m; vg_revision := mg_revision m; vg_digest := mg_digest m;
        vg_archive := mg_archive m; vg_source := source; vg_current_schema := mg_current_schema m;
        vg_candidate_schema := mg_candidate_schema m; vg_current_binary := mg_current_binary m;
        vg_retained := mg_retained m; vg_evidence := mg_evidence m; vg_effect := mg_effect m;
        vg_live_apply := live_apply_operation d m |}))).
End Migrations.
