(* ===== verification/Releases.v ===== *)
(** * Releases (crates/control/src/releases.rs)

    An owner stages a release of a succeeded build or asks to roll back to a retained
    one, which queues a reconciliation; a worker leases it under a fence, shows the
    probes' receipts, which prepares a route, and activates the route with the gateway's
    receipt.  A migration is tried on a restored copy, validated and applied in between.
    The refresh of the portfolio's facts is the interface [FactRefresh]. *)

From stdpp Require Import base list option gmap strings pretty sorting.
From Stdlib Require Import ZArith Lia Ascii.
From S2P Require Import Prelude RustText Bytes PgTx Intent Secrets Admission PolicyClock.
From S2P Require Import ExecutionTables BuildTables Credentials RuntimeEvidence Runtime.
From S2P Require Import ReleaseTables ReleaseEvidence ReleaseReceipts Migrations.

Local Open Scope string_scope.
Local Open Scope list_scope.

Definition DRAIN_SECONDS : Z := 30.
Definition MAX_ATTEMPTS : Z := 6.
Definition MICROS : Z := 1000000.

(** The configuration of the service. *)
Record ReleaseConfig := { rg_m3 : option M3Config; rg_key : option SecretKey; rg_lease_seconds : Z }.

(** What the portfolio component offers to an activation: it brings the facts of the
    approved portfolios up to the release that a project's route now shows. *)
Record TrustedRelease := {
  tr_release : Uuid; tr_account : Uuid; tr_project : Uuid; tr_deployment : Uuid; tr_commit : string;
  tr_promoted : option Z; tr_url : option string; tr_availability : string; tr_observed : Z;
  tr_demo_revision : Z;
}.
Class FactRefresh (P : Type) := { refresh_heads : TrustedRelease -> Z -> M P unit }.

(** ** Requests and responses *)

Record LeaseIdentity := { lid_worker : string; lid_attempt : Uuid; lid_fence : Z }.
Record CompleteRequest := { cmr_live : LeaseIdentity; cmr_outcome : CompletionOutcome }.
Record ActivateRequest := { acr_live : LeaseIdentity; acr_switch : string }.
Record ReleaseProbeRequest := {
  rpq_live : LeaseIdentity; rpq_execution : Uuid; rpq_release : Uuid; rpq_target : string;
}.
Record AttemptLease := {
  atl_id : Uuid; atl_number : Z; atl_fence : Z; atl_worker : string; atl_expires : Z;
}.
Record ReconciliationLeaseResponse := {
  rlr_reconciliation : Reconciliation; rlr_attempt : AttemptLease; rlr_candidate : ReleaseLease;
  rlr_current : option ReleaseLease; rlr_retained : list ReleaseLease;
  rlr_probes : list RequiredProbe; rlr_drain : Z;
}.
Record ReleaseProbeCredential := {
  rpc_credential : Uuid; rpc_execution : Uuid; rpc_reconciliation : Uuid; rpc_attempt : Uuid;
  rpc_fence : Z; rpc_release : Uuid; rpc_target : string; rpc_database : Uuid; rpc_generation : Uuid;
  rpc_migration : Uuid; rpc_database_name : string; rpc_role_name : string; rpc_password : string;
}.
Inductive ReleaseCompletion :=
| CompletedUnsuccessful (r : Reconciliation)
| CompletedAwaiting (r : Reconciliation) (operation : Uuid)
| CompletedPrepared (r : Reconciliation) (p : PreparedIntent).
Record ActivateResponse := {
  avr_release : Release; avr_reconciliation : Reconciliation; avr_route : Route; avr_retired : list Uuid;
}.
Record ReleaseListResponse := { rls_route : option Route; rls_releases : list Release }.

(** ** Errors *)

Definition secret_refs_invalid (message : string) : ApiError := conflict "release_secret_refs_invalid" message.
Definition rollback_ineligible (message : string) : ApiError := conflict "rollback_target_ineligible" message.
Definition route_stale : ApiError :=
  conflict "release_route_generation_stale" "the project route changed after this reconciliation was created".
Definition intent_missing (message : string) : ApiError := conflict "release_prepared_intent_missing" message.

(** ** Text *)

Definition validate_worker_id (value : string) : res ApiError unit :=
  guard_err (bool_decide (value = "") || (128 <? String.length value)%nat
             || existsb (fun c => is_control c || is_whitespace c) (utf8_chars (as_bytes value)))
    (unprocessable "release_worker_id_invalid" "worker_id must contain 1 to 128 non-whitespace bytes").

Definition valid_migration_path (value : string) : bool :=
  let s := as_bytes value in
  starts_with (lit "dist/migrations/") s && (String.length value <=? 1024)%nat
  && negb (existsb (fun c => (c =? ch "\") || (c =? 0) || (c =? 13) || (c =? 10))%Z s)
  && negb (existsb (fun part => bool_decide (part = []) || bool_decide (part = lit ".")
                                || bool_decide (part = lit "..")) (split_on (ch "/") s)).

Definition code_byte (b : Z) : bool := ((97 <=? b) && (b <=? 122))%Z || is_ascii_digit b || (b =? ch "_")%Z.

Definition validate_completion (o : CompletionOutcome) : res ApiError unit :=
  guard_err (negb (one_of (co_state o) ["succeeded"; "failed"; "retriable"])
             || negb (text_within 1 96 (co_code o)) || negb (forallb code_byte (as_bytes (co_code o)))
             || existsb (fun v => negb (is_digest v)) (co_probes o)
             || is_some_and (fun v => negb (is_digest v)) (co_apply o)
             || is_some_and (fun v => negb (is_digest v)) (co_stage o)
             || is_some_and (fun v => negb (text_within 1 1024 v) || starts_with (lit "/") (as_bytes v)
                                      || contains_bytes (lit "..") (as_bytes v)) (co_materialized o)
             || bool_decide (co_state o = "succeeded")
                && negb (bool_decide (co_code o = "release_checks_passed")))
    (unprocessable "release_completion_invalid"
       "the release completion has an unsupported state, code, or digest").

Definition validate_stage_request (q : StageReleaseRequest) : res ApiError unit :=
  guard_err (negb (both_or_none (stq_database q) (stq_database_generation q))
             || negb (both_or_none (stq_revision q) (stq_digest q))
             || negb (both_or_none (stq_revision q) (stq_path q))
             || negb (is_none (stq_revision q)) && is_none (stq_database q)
             || is_some_and (fun v => negb (text_within 1 256 v)) (stq_revision q)
             || is_some_and (fun v => negb (is_digest v)) (stq_digest q)
             || is_some_and (fun v => negb (valid_migration_path v)) (stq_path q)
             || (2048 <? String.length (stq_url q))%nat
             || negb (starts_with (lit "https://") (as_bytes (stq_url q))))
    (unprocessable "release_request_invalid" "the release request has invalid or incomplete exact references").

Section Rows.
Context {P : Type}.
Implicit Types d : RlDb P.

(** ** Reading *)

Definition load_release d (account project id : Uuid) : res ApiError Release :=
  ok_or (r ← releases d !! id;
         _ ← where_ (bool_decide (rl_account r = account) && bool_decide (rl_project r = project));
         Some r) not_found.

Definition load_reconciliation d (id : Uuid) : res ApiError Reconciliation :=
  ok_or (reconciliations d !! id) not_found.

(** Every artifact is registered. *)
Definition registered_artifacts d (account project job : Uuid) : list Artifact :=
  filter (fun a => at_account a = account /\ at_project a = project /\ at_job a = job)
    (map snd (map_to_list (build_artifacts (tables d)))).

Definition one_artifact (artifacts : list Artifact) (kind : ArtifactKind) : res ApiError (option ArtifactLease) :=
  match filter (fun a => at_kind a = kind) artifacts with
  | [] => Ok None
  | [a] => Ok (Some {| af_artifact := at_id a; af_archive := at_archive a; af_manifest := at_manifest a |})
  | _ => Err internal
  end.

(** The allocation of a release, while its evaluation is current. *)
Definition release_runtime d (r : Release) (allocation : Uuid) (now : Z) : option Allocation :=
  a ← allocations (rl_runtime d) !! allocation;
  e ← evaluations (rl_runtime d) !! al_evaluation a;
  _ ← where_ (bool_decide (al_account a = rl_account r) && bool_decide (al_project a = rl_project r)
              && bool_decide (al_deployment a = rl_deployment r) && bool_decide (Some (al_service a) = rl_service r)
              && bool_decide (Some (al_generation a) = rl_generation r)
              && bool_decide (Some (al_fence a) = rl_fence r) && bool_decide (ea_result e = "passed")
              && (now <? ea_expires e)%Z);
  Some a.

Definition load_runtime d (r : Release) (now : Z) : res ApiError (option RuntimeLease) :=
  match rl_allocation r with
  | None => Ok None
  | Some allocation =>
      res_bind (ok_or (release_runtime d r allocation now) (conflict "release_runtime_ineligible"
        "the exact runtime allocation or capability evidence is unavailable")) (fun a =>
      Ok (Some (runtime_lease a)))
  end.

Definition apply_receipt_of d (r : Release) : option string :=
  id ← rl_migration r; m ← migrations d !! id; ce_apply_receipt (mg_evidence m).

Definition release_lease (r : Release) (frontend backend : option ArtifactLease)
    (runtime : option RuntimeLease) (apply_receipt : option string) : ReleaseLease := {|
  rll_release := rl_id r; rll_project := rl_project r; rll_deployment := rl_deployment r;
  rll_config := rl_config r; rll_job := rl_job r; rll_commit := rl_commit r; rll_frontend := frontend;
  rll_backend := backend; rll_runtime := runtime; rll_database := rl_database r;
  rll_database_generation := rl_database_generation r; rll_migration := rl_migration r;
  rll_revision := rl_revision r; rll_digest := rl_migration_digest r; rll_path := rl_migration_path r;
  rll_apply_receipt := apply_receipt; rll_secrets := rl_secrets r; rll_observation := rl_observation r;
  rll_receipt := rl_receipt r |}.

Definition load_release_lease d (id : Uuid) (now : Z) : res ApiError LoadedRelease :=
  res_bind (ok_or (releases d !! id) not_found) (fun r =>
  let artifacts := registered_artifacts d (rl_account r) (rl_project r) (rl_job r) in
  res_bind (one_artifact artifacts StaticArtifact) (fun frontend =>
  res_bind (one_artifact artifacts ApplicationArtifact) (fun backend =>
  res_bind (guard_err (negb (bool_decide (af_archive <$> frontend = rl_frontend r))
                       || negb (bool_decide (af_archive <$> backend = rl_backend r)))
    (conflict "release_artifact_drift"
       "the release artifacts no longer match their exact durable references")) (fun _ =>
  res_bind (load_runtime d r now) (fun runtime =>
  res_bind (guard_err (negb (bool_decide (rtl_artifact <$> runtime = rl_backend r)))
    (conflict "release_runtime_artifact_mismatch"
       "the runtime allocation does not match the release backend artifact")) (fun _ =>
  Ok {| ld_release := r; ld_lease := release_lease r frontend backend runtime (apply_receipt_of d r);
        ld_runtime := runtime |})))))).

(** The current release and the two newest others, of the three that are loaded. *)
Fixpoint load_previous d (now : Z) (current_id : option Uuid) (ids : list Uuid)
    (current : option LoadedRelease) (retained : list LoadedRelease)
    : res ApiError (option LoadedRelease * list LoadedRelease) :=
  match ids with
  | [] => Ok (current, retained)
  | id :: rest =>
      res_bind (load_release_lease d id now) (fun l =>
      if bool_decide (Some id = current_id) then load_previous d now current_id rest (Some l) retained
      else load_previous d now current_id rest current
             (if (length retained <? 2)%nat then retained ++ [l] else retained))
  end.

Definition project_route d (account project : Uuid) : option Route :=
  r ← routes d !! project; _ ← where_ (bool_decide (ro_account r = account)); Some r.

Definition previous_ids d (account project candidate : Uuid) : list Uuid :=
  map rl_id (firstn 3 (newest_first (fun r => promoted_in account project r
                                              && negb (bool_decide (rl_id r = candidate))) d)).

Definition load_current_and_retained d (account project candidate : Uuid) (now : Z)
    : res ApiError (option LoadedRelease * list LoadedRelease) :=
  let current_id := ro_release <$> project_route d account project in
  res_bind (load_previous d now current_id (previous_ids d account project candidate) None []) (fun r =>
  res_bind (guard_err (negb (is_none current_id) && is_none r.1)
    (conflict "current_release_ineligible"
       "the current routed release is not eligible for safe overlap")) (fun _ => Ok r)).

(** ** Checks *)

(** A version of an active secret under the names that the release recorded. *)
Definition secret_ref_valid d (account project : Uuid) (x : SecretReference) : bool :=
  match rl_secret_versions d !! sx_version x, rl_secret_rows d !! sx_secret x with
  | Some v, Some s =>
      bool_decide (sv_secret v = sx_secret x) && bool_decide (sv_account v = account)
      && bool_decide (sv_project v = project) && bool_decide (sv_service v = sx_service x)
      && bool_decide (s_account s = account) && bool_decide (s_project s = project)
      && bool_decide (s_service s = sx_service x) && bool_decide (s_name s = sx_name x)
      && bool_decide (s_operation s = sx_operation x) && bool_decide (s_credential_kind s = sx_kind x)
      && s_active s
  | _, _ => false
  end.

Definition validate_secret_refs d (account project : Uuid) (refs : list SecretReference) : res ApiError unit :=
  res_bind (guard_err (negb (bool_decide (NoDup (map sx_version refs))))
    (secret_refs_invalid "release secret references must be unique")) (fun _ =>
  guard_err (negb (forallb (secret_ref_valid d account project) refs))
    (conflict "release_secret_version_expired"
       "a retained release secret version is no longer valid for runtime")).

Definition route_generation d (account project : Uuid) : Z :=
  default 0%Z (ro_generation <$> project_route d account project).

Definition validate_route_generation d (r : Reconciliation) : res ApiError unit :=
  guard_err (negb (route_generation d (rn_account r) (rn_project r) =? rn_expected r)%Z) route_stale.

Definition prepared_intent (r : Reconciliation) : option PreparedIntent :=
  match rn_result r with Some (PreparedResult p) => Some p | _ => None end.

Definition live_reconciliation d (id : Uuid) (q : LeaseIdentity) (state : ReconciliationState) (now : Z)
    : option Reconciliation :=
  r ← reconciliations d !! id;
  a ← release_attempts d !! lid_attempt q;
  _ ← where_ (bool_decide (ra_reconciliation a = rn_id r) && (ra_fence a =? rn_fence r)%Z
              && bool_decide (rn_state r = state) && bool_decide (rn_current r = Some (lid_attempt q))
              && (rn_fence r =? lid_fence q)%Z && bool_decide (ra_worker a = lid_worker q)
              && bool_decide (ra_state a = AtRunning) && is_some_and (fun l => now <? l)%Z (rn_lease r)
              && (now <? ra_lease a)%Z);
  Some r.

Definition lock_live_reconciliation (id : Uuid) (q : LeaseIdentity) (state : ReconciliationState)
    : M (RlDb P) Reconciliation :=
  reject_if (lid_fence q <=? 0)%Z fenced;;;
  now <~ clock_timestamp;;
  d <~ get_db;;
  lift (ok_or (live_reconciliation d id q state now) fenced).

(** ** Rows after a statement *)

Definition with_reconciliation (r : Reconciliation) (state : ReconciliationState)
    (requirements : option Requirements) (attempts : Z) (current : option Uuid) (fence : Z)
    (lease : option Z) (code : option string) (result : option ReconciliationResult) : Reconciliation := {|
  rn_id := rn_id r; rn_account := rn_account r; rn_project := rn_project r; rn_release := rn_release r;
  rn_kind := rn_kind r; rn_state := state; rn_expected := rn_expected r; rn_requirements := requirements;
  rn_attempts := attempts; rn_current := current; rn_fence := fence; rn_lease := lease; rn_code := code;
  rn_result := result; rn_created := rn_created r |}.

(** The attempt is over: its state, code and result. *)
Definition ended (r : Reconciliation) (state : ReconciliationState) (code : string)
    (result : option ReconciliationResult) : Reconciliation :=
  with_reconciliation r state (rn_requirements r) (rn_attempts r) None (rn_fence r) None (Some code) result.

Definition with_release (r : Release) (state : ReleaseState) (health : option (list string * string))
    (promoted : option Z) (failure : option string) : Release := {|
  rl_id := rl_id r; rl_account := rl_account r; rl_project := rl_project r;
  rl_deployment := rl_deployment r; rl_config := rl_config r; rl_job := rl_job r; rl_commit := rl_commit r;
  rl_frontend := rl_frontend r; rl_backend := rl_backend r; rl_database := rl_database r;
  rl_database_generation := rl_database_generation r; rl_revision := rl_revision r;
  rl_migration_digest := rl_migration_digest r; rl_migration_path := rl_migration_path r;
  rl_migration := rl_migration r; rl_allocation := rl_allocation r; rl_service := rl_service r;
  rl_generation := rl_generation r; rl_fence := rl_fence r; rl_observation := rl_observation r;
  rl_receipt := rl_receipt r; rl_state := state; rl_secrets := rl_secrets r; rl_health := health;
  rl_expected := rl_expected r; rl_url := rl_url r; rl_promoted := promoted; rl_failure := failure;
  rl_created := rl_created r |}.
Definition failed_release (r : Release) (code : string) : Release :=
  with_release r RlFailed (rl_health r) (rl_promoted r) (Some code).
Definition retired_release (r : Release) : Release :=
  with_release r RlRetired (rl_health r) (rl_promoted r) (rl_failure r).

Definition with_attempt (a : ReleaseAttempt) (fence : Z) (worker : string) (state : AttemptState)
    (started lease : Z) (finished : option Z) (code : option string) (hash : option bytes)
    : ReleaseAttempt := {|
  ra_id := ra_id a; ra_account := ra_account a; ra_project := ra_project a; ra_release := ra_release a;
  ra_reconciliation := ra_reconciliation a; ra_number := ra_number a; ra_fence := fence;
  ra_worker := worker; ra_state := state; ra_started := started; ra_lease := lease;
  ra_finished := finished; ra_code := code; ra_hash := hash |}.
Definition ended_attempt (a : ReleaseAttempt) (state : AttemptState) (t : Z) (code : string)
    (hash : option bytes) : ReleaseAttempt :=
  with_attempt a (ra_fence a) (ra_worker a) state (ra_started a) (ra_lease a) (Some t) (Some code) hash.

(** ** Statements *)

Definition update_reconciliation (id : Uuid) (f : Reconciliation -> Reconciliation) : M (RlDb P) unit :=
  d <~ get_db;;
  r <~ sql (update_pk (fun x => reconciliation_check x && reconciliation_unique (reconciliations d) x)
              (fun _ => true) (fun x => Some (f x)) id (reconciliations d));;
  put_db (set_reconciliations r.1 d).

Definition insert_reconciliation (r : Reconciliation) : M (RlDb P) unit :=
  d <~ get_db;;
  rows <~ sql (insert_pk (fun x => reconciliation_check x && reconciliation_unique (reconciliations d) x)
                (rn_id r) r (reconciliations d));;
  put_db (set_reconciliations rows d).

Definition update_release (id : Uuid) (cond : Release -> bool) (f : Release -> Release) : M (RlDb P) unit :=
  d <~ get_db;;
  r <~ sql (update_pk release_check cond (fun x => Some (f x)) id (releases d));;
  put_db (set_releases r.1 d).

Definition staged (r : Release) : bool := bool_decide (rl_state r = RlStaged).
Definition fail_release (id : Uuid) (code : string) : M (RlDb P) unit :=
  update_release id staged (fun r => failed_release r code).

Definition update_attempt (id : Uuid) (cond : ReleaseAttempt -> bool) (f : ReleaseAttempt -> ReleaseAttempt)
    : M (RlDb P) unit :=
  d <~ get_db;;
  r <~ sql (update_pk (fun x => release_attempt_check x && release_attempt_unique (release_attempts d) x)
              cond (fun x => Some (f x)) id (release_attempts d));;
  put_db (set_release_attempts r.1 d).

Definition running_attempt (reconciliation : Uuid) (a : ReleaseAttempt) : bool :=
  bool_decide (ra_reconciliation a = reconciliation) && bool_decide (ra_state a = AtRunning).

(** [WHERE reconciliation_id=$1 AND id=$2 AND fence=$3 AND state='running']. *)
Definition end_attempt (reconciliation : Uuid) (q : LeaseIdentity) (state : AttemptState) (code : string)
    (hash : bytes) : M (RlDb P) unit :=
  t <~ clock_timestamp;;
  update_attempt (lid_attempt q)
    (fun a => running_attempt reconciliation a && (ra_fence a =? lid_fence q)%Z)
    (fun a => ended_attempt a state t code (Some hash)).

(** [ON CONFLICT (release_id,event_key) DO NOTHING]. *)
Definition insert_release_event (account project release : Uuid) (key kind : string)
    (generation : option Z) (evidence : EventEvidence) : M (RlDb P) unit :=
  id <~ new_uuid;;
  t <~ clock_timestamp;;
  d <~ get_db;;
  let e := {| re_id := id; re_account := account; re_project := project; re_kind := kind;
              re_generation := generation; re_evidence := evidence; re_occurred := t |} in
  _ <~ sql (where_ (event_check key e));;
  match release_events d !! (release, key) with
  | Some _ => tret tt
  | None => put_db (set_release_events (<[(release, key) := e]> (release_events d)) d)
  end.
End Rows.

(** ** Handlers *)

Section Handlers.
Context {P : Type} `{FactRefresh P}.
Context (Y : ReleaseExternals) (st : ReleaseConfig).
Implicit Types d : RlDb P.

Notation m3 := (rg_m3 st).

(** *** Leases that have run out, and migrations that have failed *)

Definition id_order (a b : Reconciliation) : Prop := (rn_id a <= rn_id b)%N.
#[local] Instance id_order_dec a b : Decision (id_order a b).
Proof. unfold id_order. apply _. Defined.

Definition lease_over (now : Z) (r : Reconciliation) : bool := is_some_and (fun l => l <=? now)%Z (rn_lease r).

Definition expired_reconciliations d (now : Z) (locked : Uuid -> bool) : list Reconciliation :=
  firstn 64 (merge_sort id_order (filter (fun r =>
    bool_decide (rn_state r = RcRunning) && lease_over now r && negb (locked (rn_id r)) = true)
    (map snd (map_to_list (reconciliations d))))).

Definition exhausted (r : Reconciliation) : bool := (MAX_ATTEMPTS <=? rn_attempts r)%Z.

Definition expire_one (r : Reconciliation) : M (RlDb P) unit :=
  attempt <~ sql (rn_current r);;
  t <~ clock_timestamp;;
  update_attempt attempt (running_attempt (rn_id r))
    (fun a => ended_attempt a AtExpired t "lease_expired" (ra_hash a));;;
  update_reconciliation (rn_id r) (fun r =>
    ended r (if exhausted r then RcFailed else RcRetriable) "lease_expired" (rn_result r));;;
  if exhausted r && bool_decide (rn_kind r = Promote)
  then fail_release (rn_release r) "release_reconciliation_exhausted"
  else tret tt.

Fixpoint for_each {A} (f : A -> M (RlDb P) unit) (l : list A) : M (RlDb P) unit :=
  match l with [] => tret tt | a :: rest => f a;;; for_each f rest end.

Definition expire_reconciliations : M (RlDb P) unit :=
  now <~ clock_timestamp;;
  locked <~ locked_rows;;
  d <~ get_db;;
  for_each expire_one (expired_reconciliations d now locked).

Definition awaited_operation (r : Reconciliation) : option Uuid :=
  match rn_result r with
  | Some (AwaitingTrialResult o _ _) | Some (AwaitingApplyResult o _ _) => Some o
  | _ => None
  end.

(** The migration operation that a reconciliation waits for has failed. *)
Definition failed_migration d (r : Reconciliation) : option string :=
  release ← releases d !! rn_release r;
  _ ← rl_migration release ≫= (fun m => migrations d !! m);
  o ← awaited_operation r ≫= (fun o => database_operations (tables d) !! o);
  _ ← where_ (one_of (do_state o) [OFailed; OCanceled]);
  match rn_state r, do_kind o with
  | RcAwaitingTrial, MigrationTrial => Some "migration_trial_failed"
  | RcAwaitingApply, MigrationLiveApply => Some "migration_live_apply_failed"
  | _, _ => None
  end.

Definition fail_migration_one (failure : Reconciliation * string) : M (RlDb P) unit :=
  let '(r, code) := failure in
  update_reconciliation (rn_id r) (fun r => with_reconciliation r RcFailed (rn_requirements r) (rn_attempts r)
    (rn_current r) (rn_fence r) (rn_lease r) (Some code) (rn_result r));;;
  fail_release (rn_release r) code.

Definition fail_migration_reconciliations : M (RlDb P) unit :=
  d <~ get_db;;
  for_each fail_migration_one
    (omap (fun kr => code ← failed_migration d kr.2; Some (kr.2, code)) (map_to_list (reconciliations d))).

(** *** Leasing *)

Definition release_migration d (r : Reconciliation) : option Migration :=
  release ← releases d !! rn_release r; id ← rl_migration release; migrations d !! id.
Definition migration_is d (r : Reconciliation) (s : MigrationState) : bool :=
  is_some_and (fun m => bool_decide (mg_state m = s)) (release_migration d r).

Definition claimable d (now : Z) (r : Reconciliation) : bool :=
  one_of (rn_state r) [RcQueued; RcRetriable] && (rn_attempts r <? MAX_ATTEMPTS)%Z
  || bool_decide (rn_state r = RcPrepared) && lease_over now r
  || bool_decide (rn_state r = RcAwaitingTrial) && (rn_attempts r <? MAX_ATTEMPTS)%Z
     && migration_is d r MTrialPrepared
  || bool_decide (rn_state r = RcAwaitingApply) && (rn_attempts r <? MAX_ATTEMPTS)%Z
     && migration_is d r MApplied.

(** [ORDER BY created_at,id]. *)
Definition created_le (a b : Reconciliation) : bool :=
  (rn_created a <? rn_created b)%Z || (rn_created a =? rn_created b)%Z && (rn_id a <=? rn_id b)%N.

Definition next_reconciliation d (now : Z) (locked : Uuid -> bool) : option Reconciliation :=
  select_first (fun k r => claimable d now r && negb (locked k)) created_le (reconciliations d).

Definition validate_prepared_route_intent (r : Reconciliation) : res ApiError unit :=
  res_bind (ok_or (rn_result r) (intent_missing "the prepared route intent is unavailable")) (fun _ =>
  res_bind (ok_or (prepared_intent r) (intent_missing "the exact prepared route bytes are unavailable")) (fun p =>
  res_bind (ok_or (y_parse_manifest Y (pp_json p)) evidence_invalid) (fun parsed =>
  guard_err (negb (bool_decide (prefixed_digest Y (as_bytes (pp_json p)) = pp_digest p)
                   && bool_decide (parsed = Some (pp_manifest p))
                   && (pp_generation p =? wrap_i64 (rn_expected r + 1))%Z
                   && bool_decide (mf_project (pp_manifest p) = rn_project r)
                   && bool_decide (mf_release (pp_manifest p) = rn_release r)
                   && (mf_generation (pp_manifest p) =? pp_generation p)%Z
                   && (mf_drain (pp_manifest p) =? pp_drain p)%Z))
    (conflict "release_prepared_intent_invalid"
       "the prepared route bytes do not match the durable route intent")))).

(** The checks of the release that is to be leased. *)
Definition lease_checks d (r : Reconciliation) (policy : Z)
    : res ApiError (LoadedRelease * option LoadedRelease * list LoadedRelease) :=
  res_bind (validate_route_generation d r) (fun _ =>
  res_bind (if bool_decide (rn_state r = RcPrepared) then validate_prepared_route_intent r else Ok tt) (fun _ =>
  res_bind (load_release_lease d (rn_release r) policy) (fun candidate =>
  res_bind (guard_err (one_of (rl_state (ld_release candidate)) [RlFailed; RlRetired])
    (conflict "release_reconciliation_ineligible"
       "the release is no longer eligible for reconciliation")) (fun _ =>
  res_bind (guard_err (bool_decide (rn_kind r = RollBack) && negb (is_none (rl_backend (ld_release candidate)))
                       && is_none_or (fun x => negb (bool_decide (rtl_state x = "healthy"))) (ld_runtime candidate))
    (rollback_ineligible "the retained release exact runtime allocation is not healthy")) (fun _ =>
  res_bind (validate_secret_refs d (rn_account r) (rn_project r) (rl_secrets (ld_release candidate))) (fun _ =>
  res_bind (load_current_and_retained d (rn_account r) (rn_project r) (rn_release r) policy) (fun '(current, retained) =>
  Ok (candidate, current, retained)))))))).

Definition lease_phase d (r : Reconciliation) : ReleasePhase :=
  if bool_decide (rn_state r = RcPrepared) then PreparedSwitch
  else if bool_decide (rn_state r = RcAwaitingApply) then PostLiveApply
  else if bool_decide (rn_state r = RcAwaitingTrial) || migration_is d r MTrialPrepared then IsolatedValidation
  else if migration_is d r MPlanned then PrepareTrial
  else StandardPhase.

(** A prepared route keeps its attempt under a new fence; others start one. *)
Definition write_attempt (r : Reconciliation) (attempt : Uuid) (number fence : Z) (worker : string)
    (expires : Z) : M (RlDb P) unit :=
  started <~ clock_timestamp;;
  if bool_decide (rn_state r = RcPrepared) then
    update_attempt attempt (fun a => bool_decide (ra_reconciliation a = rn_id r))
      (fun a => with_attempt a fence worker AtRunning started expires None None None)
  else
    d <~ get_db;;
    rows <~ sql (insert_pk (fun x => release_attempt_check x && release_attempt_unique (release_attempts d) x)
      attempt {| ra_id := attempt; ra_account := rn_account r; ra_project := rn_project r;
                 ra_release := rn_release r; ra_reconciliation := rn_id r; ra_number := number;
                 ra_fence := fence; ra_worker := worker; ra_state := AtRunning; ra_started := started;
                 ra_lease := expires; ra_finished := None; ra_code := None; ra_hash := None |}
      (release_attempts d));;
    put_db (set_release_attempts rows d).

Definition leased_reconciliation (r : Reconciliation) (requirements : Requirements) (attempt : Uuid)
    (number fence expires : Z) : Reconciliation :=
  with_reconciliation r (if bool_decide (rn_state r = RcPrepared) then RcPrepared else RcRunning)
    (Some requirements) number (Some attempt) fence (Some expires) (rn_code r) (rn_result r).

Definition start_lease (r : Reconciliation) (worker : string) (policy : Z) : M (RlDb P) ReconciliationLeaseResponse :=
  d <~ get_db;;
  '(candidate, current, retained) <~ lift (lease_checks d r policy);;
  let phase := lease_phase d r in
  let resume := bool_decide (rn_state r = RcPrepared) in
  attempt <~ (if resume then lift (ok_or (rn_current r) internal) else new_uuid);;
  let number := if resume then rn_attempts r else (rn_attempts r + 1)%Z in
  let fence := wrap_i64 (rn_fence r + 1) in
  probes <~ (if bool_decide (phase = PrepareTrial) || resume then tret []
             else required_probes candidate current retained {|
               pc_database := rl_database (ld_release candidate);
               pc_database_generation := rl_database_generation (ld_release candidate);
               pc_migration := rl_migration (ld_release candidate); pc_phase := phase;
               pc_reconciliation := rn_id r; pc_attempt := attempt; pc_fence := fence |});;
  let requirements := {|
    rq_probes := probes; rq_candidate := ld_id candidate; rq_current := ld_id <$> current;
    rq_retained := map ld_id retained; rq_policy := policy; rq_phase := phase |} in
  t <~ clock_timestamp;;
  let expires := (t + rg_lease_seconds st * MICROS)%Z in
  write_attempt r attempt number fence worker expires;;;
  update_reconciliation (rn_id r) (fun r => leased_reconciliation r requirements attempt number fence expires);;;
  tret {|
    rlr_reconciliation := leased_reconciliation r requirements attempt number fence expires;
    rlr_attempt := {| atl_id := attempt; atl_number := number; atl_fence := fence; atl_worker := worker;
                      atl_expires := expires |};
    rlr_candidate := ld_lease candidate; rlr_current := ld_lease <$> current;
    rlr_retained := map ld_lease retained; rlr_probes := probes; rlr_drain := DRAIN_SECONDS |}.

Definition lease_reconciliation (worker : string) : M (RlDb P) (option ReconciliationLeaseResponse) :=
  _ <~ lift (require_enabled m3);;
  _ <~ lift (validate_worker_id worker);;
  policy <~ policy_now m3;;
  transaction (
    expire_reconciliations;;;
    fail_migration_reconciliations;;;
    now <~ clock_timestamp;;
    locked <~ locked_rows;;
    d <~ get_db;;
    match next_reconciliation d now locked with
    | None => tret (Ok None)
    | Some r => response <~ start_lease r worker policy;; tret (Ok (Some response))
    end).

Definition renewed_lease (r : Reconciliation) (expires : Z) : Reconciliation :=
  with_reconciliation r (rn_state r) (rn_requirements r) (rn_attempts r) (rn_current r) (rn_fence r)
    (Some expires) (rn_code r) (rn_result r).

Definition renew_reconciliation (id_text : string) (q : LeaseIdentity) : M (RlDb P) AttemptLease :=
  _ <~ lift (require_enabled m3);;
  _ <~ lift (validate_worker_id (lid_worker q));;
  id <~ lift (path_uuid (y_parse_uuid Y) id_text);;
  transaction (
    now <~ clock_timestamp;;
    d <~ get_db;;
    r <~ lift (ok_or (match live_reconciliation d id q RcRunning now with
                      | Some r => Some r
                      | None => live_reconciliation d id q RcPrepared now
                      end) fenced);;
    number <~ lift (ok_or (ra_number <$> release_attempts d !! lid_attempt q) fenced);;
    let expires := (now + rg_lease_seconds st * MICROS)%Z in
    update_reconciliation id (fun r => renewed_lease r expires);;;
    update_attempt (lid_attempt q)
      (fun a => bool_decide (ra_reconciliation a = id) && (ra_fence a =? lid_fence q)%Z)
      (fun a => with_attempt a (ra_fence a) (ra_worker a) (ra_state a) (ra_started a) expires
                  (ra_finished a) (ra_code a) (ra_hash a));;;
    tret (Ok {| atl_id := lid_attempt q; atl_number := number; atl_fence := lid_fence q;
                atl_worker := lid_worker q; atl_expires := expires |})).

(** *** The credential of an isolated probe *)

Definition leased_isolated (probes : list RequiredProbe) (q : ReleaseProbeRequest)
    : option IsolatedRequiredProbe :=
  head (omap (fun p => match p with
    | Isolated i => if bool_decide (ip_execution i = rpq_execution q) && bool_decide (ip_release i = rpq_release q)
                       && bool_decide (ip_target i = rpq_target q) then Some i else None
    | Hosted _ => None
    end) probes).

Definition leased_releases (x : Requirements) : list Uuid :=
  rq_candidate x :: option_list (rq_current x) ++ rq_retained x.

(** The database of a release and the migration of the candidate; the columns of the
    database are decoded as not NULL. *)
Definition probe_target d (r : Reconciliation) (release : Uuid) : res ApiError (Uuid * Uuid * Migration) :=
  res_bind (ok_or (x ← releases d !! release; c ← releases d !! rn_release r;
                   id ← rl_migration c; m ← migrations d !! id;
                   _ ← where_ (bool_decide (rl_account x = rn_account r) && bool_decide (rl_project x = rn_project r)
                               && bool_decide (rl_account c = rl_account x) && bool_decide (rl_project c = rl_project x));
                   Some (x, m)) not_found) (fun '(x, m) =>
  res_bind (ok_or (rl_database x) database_unavailable) (fun database =>
  res_bind (ok_or (rl_database_generation x) database_unavailable) (fun generation =>
  Ok (database, generation, m)))).

Definition bind_probe (id : Uuid) (q : ReleaseProbeRequest)
    : M (RlDb P) (Reconciliation * (Uuid * Uuid * Migration)) :=
  r <~ lock_live_reconciliation id (rpq_live q) RcRunning;;
  d <~ get_db;;
  requirements <~ lift (ok_or (rn_requirements r) fenced);;
  reject_if (negb (bool_decide (rq_phase requirements = IsolatedValidation))) fenced;;;
  p <~ lift (ok_or (leased_isolated (rq_probes requirements) q) fenced);;
  reject_if (negb (bool_decide (rpq_release q ∈ leased_releases requirements))) not_found;;;
  target <~ lift (probe_target d r (rpq_release q));;
  let '(database, generation, m) := target in
  reject_if (negb (bool_decide (ip_database p = database)) || negb (bool_decide (ip_database_generation p = generation))
             || negb (bool_decide (ip_migration p = mg_id m))) fenced;;;
  tret (r, target).

Definition password_ok (password : string) : bool :=
  text_within 16 1024 password && negb (existsb is_control (utf8_chars (as_bytes password))).

(** The password in an opened credential that names its own database and role. *)
Definition credential_password (c : ResolvedRuntimeCredential) : res ApiError string :=
  res_bind (ok_or (y_credential_json Y (rr_value c)) foundation_unavailable) (fun '(database_ref, role_ref, password) =>
  res_bind (guard_err (negb (bool_decide (database_ref = rr_database_ref c))
                       || negb (bool_decide (role_ref = rr_role_ref c))) foundation_unavailable) (fun _ =>
  res_bind (guard_err (negb (password_ok password)) foundation_unavailable) (fun _ => Ok password))).

Definition trial_target_ok (m : Migration) : res ApiError unit :=
  res_bind (ok_or (ce_identity (mg_evidence m)) (conflict "migration_trial_target_missing"
    "the prepared isolated database target is unavailable")) (fun _ =>
  guard_err (negb (bool_decide (mg_state m = MTrialPrepared))
             || negb (bool_decide (ce_ref (mg_evidence m) = Some (mg_id m))))
    (conflict "migration_trial_target_mismatch"
       "the prepared isolated database reference does not match the migration")).

Definition resolve_probe_credential (id_text : string) (q : ReleaseProbeRequest)
    : M (RlDb P) ReleaseProbeCredential :=
  _ <~ lift (require_enabled m3);;
  _ <~ lift (validate_worker_id (lid_worker (rpq_live q)));;
  reject_if (negb (bool_decide (rpq_target q = "isolated")))
    (unprocessable "release_probe_target_invalid" "the probe credential target must be isolated");;;
  id <~ lift (path_uuid (y_parse_uuid Y) id_text);;
  bound <~ transaction (b <~ bind_probe id q;; tret (Ok b));;
  let '(r, (database, generation, m)) := bound in
  key <~ lift (ok_or (rg_key st) foundation_unavailable);;
  d <~ get_db;;
  c <~ lift (resolve_runtime_credential (y_aead Y) (y_parse_uuid Y) (y_uuid_text Y) (y_uuid_simple Y)
               (tables d) key (rn_account r) (rn_project r) database generation);;
  _ <~ lift (trial_target_ok m);;
  password <~ lift (credential_password c);;
  tret {|
    rpc_credential := rr_credential c; rpc_execution := rpq_execution q; rpc_reconciliation := id;
    rpc_attempt := lid_attempt (rpq_live q); rpc_fence := lid_fence (rpq_live q);
    rpc_release := rpq_release q; rpc_target := rpq_target q; rpc_database := database;
    rpc_generation := generation; rpc_migration := mg_id m;
    rpc_database_name := "hdr_" +:+ y_uuid_simple Y (mg_id m); rpc_role_name := rr_role_name c;
    rpc_password := password |}.

(** *** Completing *)

Definition finish_unsuccessful (r : Reconciliation) (q : LeaseIdentity) (o : CompletionOutcome) (hash : bytes)
    : M (RlDb P) unit :=
  let retry := bool_decide (co_state o = "retriable") && (rn_attempts r <? MAX_ATTEMPTS)%Z in
  end_attempt (rn_id r) q (if retry then AtRetriable else AtFailed) (co_code o) hash;;;
  update_reconciliation (rn_id r) (fun r =>
    ended r (if retry then RcRetriable else RcFailed) (co_code o) (Some (Unsuccessful (co_probes o))));;;
  if negb retry && bool_decide (rn_kind r = Promote) then
    fail_release (rn_release r) (co_code o);;;
    insert_release_event (rn_account r) (rn_project r) (rn_release r) ("failed:" +:+ y_uuid_text Y (rn_id r))
      "failed" None (EvFailed (co_code o))
  else tret tt.

Definition stage_receipt_ok (g : MigrationStageReceipt) (c : LoadedRelease) (ref : string) (observed now : Z) : bool :=
  bool_decide (sg_schema g = "hostlet.release-stage-receipt/v1") && bool_decide (sg_result g = "staged")
  && bool_decide (sg_release g = ld_id c) && bool_decide (sg_project g = rl_project (ld_release c))
  && bool_decide (sg_ref g = ref) && negb (out_of_window observed now).

Definition materialization_missing (message : string) : ApiError :=
  unprocessable "migration_materialization_missing" message.

(** The attempt has done its part and the reconciliation waits for the database worker. *)
Definition await (r : Reconciliation) (q : LeaseIdentity) (state : ReconciliationState) (code : string)
    (hash : bytes) (operation : Uuid) (result : ReconciliationResult) : M (RlDb P) ReleaseCompletion :=
  end_attempt (rn_id r) q AtSucceeded code hash;;;
  update_reconciliation (rn_id r) (fun r => ended r state code (Some result));;;
  d <~ get_db;;
  updated <~ lift (load_reconciliation d (rn_id r));;
  tret (CompletedAwaiting updated operation).

Definition complete_trial (r : Reconciliation) (q : LeaseIdentity) (o : CompletionOutcome) (hash : bytes)
    (c : LoadedRelease) (policy : Z) : M (RlDb P) ReleaseCompletion :=
  reject_if (negb (bool_decide (co_probes o = []))) (unprocessable "migration_stage_probe_unexpected"
    "migration materialization does not accept runtime probe receipts");;;
  migration <~ lift (ok_or (rl_migration (ld_release c)) internal);;
  ref <~ lift (ok_or (co_materialized o)
    (materialization_missing "the exact materialized migration reference is required"));;
  stage_digest <~ lift (ok_or (co_stage o)
    (materialization_missing "the exact migration stage receipt is required"));;
  bs <~ lift (read_evidence Y m3 stage_digest);;
  g <~ lift (ok_or (y_stage_json Y bs) evidence_invalid);;
  observed <~ lift (observed_at Y (sg_observed g));;
  now <~ clock_timestamp;;
  reject_if (negb (stage_receipt_ok g c ref observed now)) evidence_invalid;;;
  operation <~ enqueue_materialized_migration_trial Y {|
    mm_release := ld_id c; mm_reconciliation := rn_id r; mm_attempt := lid_attempt q; mm_fence := lid_fence q;
    mm_migration := migration; mm_ref := ref; mm_stage_receipt := stage_digest; mm_policy := policy |};;
  await r q RcAwaitingTrial "migration_trial_materialized" hash operation
    (AwaitingTrialResult operation ref stage_digest).

Definition kind_of (candidate : LoadedRelease) (current : option LoadedRelease) (retained : list LoadedRelease)
    (id : Uuid) : res ApiError string :=
  if bool_decide (id ∈ map ld_id retained) then Ok "retained"
  else if bool_decide (Some id = (ld_id <$> current)) then Ok "current"
  else if bool_decide (id = ld_id candidate) then Ok "candidate"
  else Err evidence_invalid.

(** The receipts by what they show: on the data, or of a frontend against another release. *)
Fixpoint sort_receipts (candidate : LoadedRelease) (current : option LoadedRelease)
    (retained : list LoadedRelease) (generation migration : Uuid) (digest : string)
    (receipts : list (string * ProbeReceipt)) (latest : Z)
    : res ApiError (list MigrationProbeReceipt * list CrossVersionProbeReceipt * Z) :=
  match receipts with
  | [] => Ok ([], [], latest)
  | (file, x) :: rest =>
      res_bind (observed_at Y (prc_observed x)) (fun observed =>
      let continue := sort_receipts candidate current retained generation migration digest rest
                        (Z.max latest observed) in
      if bool_decide (prc_kind x = "current_data") then
        res_bind (ok_or (as_i64 (prc_generation x)) evidence_invalid) (fun runtime_generation =>
        res_bind (ok_or (as_i64 (prc_fence x)) evidence_invalid) (fun fence =>
        res_bind (kind_of candidate current retained (prc_release x)) (fun kind =>
        res_bind continue (fun '(probes, cross, latest) =>
        Ok ({| mpr_release := prc_release x; mpr_artifact := prc_artifact x;
               mpr_allocation := prc_allocation x; mpr_generation := runtime_generation; mpr_fence := fence;
               mpr_database_generation := generation; mpr_migration := migration; mpr_digest := digest;
               mpr_kind := kind; mpr_receipt := file; mpr_observed := observed |} :: probes, cross, latest)))))
      else if is_frontend_kind (prc_kind x) then
        res_bind (ok_or (prc_peer x) evidence_invalid) (fun api =>
        res_bind continue (fun '(probes, cross, latest) =>
        Ok (probes, {| cvr_frontend := prc_release x; cvr_api := api; cvr_receipt := file |} :: cross, latest)))
      else continue)
  end.

Definition migration_validation (candidate : LoadedRelease) (current : option LoadedRelease)
    (retained : list LoadedRelease) (receipts : list (string * ProbeReceipt)) (r : Reconciliation)
    (q : LeaseIdentity) (migration : Uuid) (apply_receipt : string) : res ApiError MigrationRuntimeValidation :=
  res_bind (ok_or (rl_database_generation (ld_release candidate)) internal) (fun generation =>
  res_bind (ok_or (rl_migration_digest (ld_release candidate)) internal) (fun digest =>
  res_bind (sort_receipts candidate current retained generation migration digest receipts 0) (fun '(probes, cross, latest) =>
  Ok {| mv_release := ld_id candidate; mv_reconciliation := rn_id r; mv_attempt := lid_attempt q;
        mv_fence := lid_fence q; mv_migration := migration; mv_apply_receipt := apply_receipt;
        mv_probes := probes; mv_cross := cross; mv_validated := latest |}))).

Definition backend_ref (x : RuntimeLease) : BackendRef := {|
  mb_ref := "runtime-allocation:" +:+ y_uuid_text Y (rtl_allocation x) +:+ ":" +:+ pretty (rtl_generation x)
            +:+ ":" +:+ pretty (rtl_fence x);
  mb_allocation := rtl_allocation x; mb_generation := rtl_generation x; mb_fence := rtl_fence x;
  mb_artifact := rtl_artifact x; mb_manifest := rtl_manifest x |}.

Definition retained_asset (l : LoadedRelease) : option RetainedAsset :=
  a ← rll_frontend (ld_lease l);
  Some {| ma_release := ld_id l; ma_archive := af_archive a; ma_manifest := af_manifest a |}.

Definition route_manifest (candidate : LoadedRelease) (current : option LoadedRelease)
    (retained : list LoadedRelease) (generation drain : Z) : RouteManifest :=
  let r := ld_release candidate in {|
  mf_project := rl_project r; mf_release := rl_id r; mf_deployment := rl_deployment r;
  mf_commit := rl_commit r; mf_generation := generation;
  mf_frontend := (fun a => (af_archive a, af_manifest a)) <$> rll_frontend (ld_lease candidate);
  mf_backend := backend_ref <$> ld_runtime candidate;
  mf_database := (fun id => {| md_database := id; md_generation := rl_database_generation r;
                               md_migration := rl_migration r; md_revision := rl_revision r;
                               md_digest := rl_migration_digest r; md_path := rl_migration_path r |})
                 <$> rl_database r;
  mf_config := rl_config r; mf_secrets := rl_secrets r; mf_observation := rl_observation r;
  mf_receipt := rl_receipt r; mf_previous := ld_id <$> current;
  mf_assets := omap retained_asset (option_list current ++ retained); mf_drain := drain |}.

(** [timestamp_millis]: whole milliseconds. *)
Definition to_millis (t : Z) : Z := (t / 1000 * 1000)%Z.

Definition prepared (r : Reconciliation) (code : string) (p : PreparedIntent) : Reconciliation :=
  with_reconciliation r RcPrepared (rn_requirements r) (rn_attempts r) (rn_current r) (rn_fence r)
    (rn_lease r) (Some code) (Some (PreparedResult p)).

Definition prepare_route (r : Reconciliation) (o : CompletionOutcome) (candidate : LoadedRelease)
    (current : option LoadedRelease) (retained : list LoadedRelease) : M (RlDb P) ReleaseCompletion :=
  let generation := wrap_i64 (rn_expected r + 1) in
  now <~ clock_timestamp;;
  let drain := to_millis (now + DRAIN_SECONDS * MICROS) in
  let manifest := route_manifest candidate current retained generation drain in
  let json := y_manifest_json Y manifest in
  let p := {| pp_manifest := manifest; pp_json := json; pp_digest := prefixed_digest Y (as_bytes json);
              pp_generation := generation; pp_drain := drain; pp_probes := co_probes o |} in
  update_reconciliation (rn_id r) (fun r => prepared r (co_code o) p);;;
  d <~ get_db;;
  updated <~ lift (load_reconciliation d (rn_id r));;
  tret (CompletedPrepared updated p).

(** A release with a migration: it awaits the live apply, or goes through its gate. *)
Definition gate_checks d (r : Reconciliation) (c : LoadedRelease) (migration : Uuid) (rollback : bool)
    (policy : Z) : res ApiError unit :=
  let x := ld_release c in
  res_bind (ok_or (rl_database x) internal) (fun database =>
  res_bind (ok_or (rl_database_generation x) internal) (fun generation =>
  res_bind (ok_or (rl_revision x) internal) (fun revision =>
  res_bind (ok_or (rl_migration_digest x) internal) (fun digest =>
  res_bind (verified_migration_gate Y d (rn_account r) (rn_project r) database generation
              (rl_deployment x) revision digest policy) (fun gate =>
  guard_err (negb (bool_decide (vg_migration gate = migration)) || is_none (vg_effect gate)
             || rollback && negb (bool_decide (vg_live_apply gate = vg_effect gate)))
    (conflict "migration_live_apply_pending"
       "the controlled live migration has not completed successfully")))))).

Definition complete_migration (r : Reconciliation) (q : LeaseIdentity) (o : CompletionOutcome) (hash : bytes)
    (candidate : LoadedRelease) (current : option LoadedRelease) (retained : list LoadedRelease)
    (receipts : list (string * ProbeReceipt)) (phase : ReleasePhase) (policy : Z) (migration : Uuid)
    : M (RlDb P) ReleaseCompletion :=
  d <~ get_db;;
  apply_receipt <~ lift (ok_or (rll_apply_receipt (ld_lease candidate))
    (unprocessable "migration_apply_evidence_missing"
       "the exact isolated migration apply receipt is unavailable"));;
  reject_if (is_some_and (fun v => negb (bool_decide (v = apply_receipt))) (co_apply o))
    (conflict "migration_apply_evidence_mismatch"
       "the completion does not match the server-selected isolated apply receipt");;;
  _ <~ lift (read_evidence Y m3 apply_receipt);;
  let rollback := bool_decide (rn_kind r = RollBack) && migration_is d r MApplied in
  if negb (bool_decide (phase = PostLiveApply)) && negb rollback then
    validation <~ lift (migration_validation candidate current retained receipts r q migration apply_receipt);;
    gate <~ record_migration_runtime_validation Y validation;;
    operation <~ lift (ok_or (vg_live_apply gate) internal);;
    await r q RcAwaitingApply "isolated_validation_passed" hash operation
      (AwaitingApplyResult operation (co_probes o) apply_receipt)
  else
    _ <~ lift (gate_checks d r candidate migration rollback policy);;
    prepare_route r o candidate current retained.

Definition complete_successful (r : Reconciliation) (q : LeaseIdentity) (o : CompletionOutcome) (hash : bytes)
    : M (RlDb P) ReleaseCompletion :=
  policy <~ policy_now m3;;
  d <~ get_db;;
  candidate <~ lift (load_release_lease d (rn_release r) policy);;
  '(current, retained) <~ lift (load_current_and_retained d (rn_account r) (rn_project r) (rn_release r) policy);;
  _ <~ lift (validate_secret_refs d (rn_account r) (rn_project r) (rl_secrets (ld_release candidate)));;
  let phase := default StandardPhase (rq_phase <$> rn_requirements r) in
  if bool_decide (phase = PrepareTrial) then complete_trial r q o hash candidate policy
  else
    requirements <~ lift (ok_or (rn_requirements r) fenced);;
    receipts <~ validate_probe_receipts Y m3 (rq_probes requirements) (co_probes o) (rn_id r)
                  (lid_attempt q) (lid_fence q);;
    match rl_migration (ld_release candidate) with
    | Some migration => complete_migration r q o hash candidate current retained receipts phase policy migration
    | None =>
        reject_if (negb (is_none (co_apply o))) (unprocessable "unexpected_migration_evidence"
          "migration evidence was supplied for a release without a migration");;;
        prepare_route r o candidate current retained
    end.

Definition complete_reconciliation (id_text : string) (q : CompleteRequest) : M (RlDb P) ReleaseCompletion :=
  let live := cmr_live q in
  let o := cmr_outcome q in
  _ <~ lift (require_enabled m3);;
  _ <~ lift (validate_worker_id (lid_worker live));;
  _ <~ lift (validate_completion o);;
  id <~ lift (path_uuid (y_parse_uuid Y) id_text);;
  clock_transaction (
    r <~ lock_live_reconciliation id live RcRunning;;
    d <~ get_db;;
    _ <~ lift (validate_route_generation d r);;
    let hash := y_outcome_hash Y o in
    if negb (bool_decide (co_state o = "succeeded")) then
      finish_unsuccessful r live o hash;;;
      d <~ get_db;;
      updated <~ lift (load_reconciliation d (rn_id r));;
      tret (Ok (CompletedUnsuccessful updated))
    else
      c <~ complete_successful r live o hash;;
      tret (Ok c)).

(** *** Staging *)

(** The candidate's allocation with its evaluation and latest observation. *)
Record CandidateRuntime := { cr_allocation : Allocation; cr_evaluation : Evaluation; cr_observation : RtObservation }.

Definition latest_observation d (allocation : Uuid) : option RtObservation :=
  select_first (fun _ o => bool_decide (rb_allocation o = allocation))
    (fun a b => (rb_sequence b <=? rb_sequence a)%Z) (rt_observations (rl_runtime d)).

Definition candidate_runtime d (account project deployment job allocation : Uuid) : option CandidateRuntime :=
  a ← allocations (rl_runtime d) !! allocation;
  e ← evaluations (rl_runtime d) !! al_evaluation a;
  o ← latest_observation d (al_id a);
  _ ← where_ (bool_decide (al_account a = account) && bool_decide (al_project a = project)
              && bool_decide (al_deployment a = deployment) && bool_decide (al_job a = job)
              && bool_decide (al_state a = "healthy") && bool_decide (rb_state o = "healthy"));
  Some {| cr_allocation := a; cr_evaluation := e; cr_observation := o |}.

Definition runtime_fits (c : CandidateRuntime) (backend : ArtifactLease) (now : Z) : bool :=
  let a := cr_allocation c in
  bool_decide (al_archive a = af_archive backend) && bool_decide (al_manifest a = af_manifest backend)
  && bool_decide (ea_result (cr_evaluation c) = "passed") && (now <? ea_expires (cr_evaluation c))%Z
  && is_digest (rb_digest (cr_observation c)) && is_digest (al_binary a) && is_digest (al_policy a)
  && is_digest (al_capability a) && one_of (al_platform a) ["systrap"; "kvm"] && one_of (al_profile a) PROFILES.

Definition load_candidate_runtime d (account project deployment job : Uuid) (allocation : option Uuid)
    (backend : option ArtifactLease) (now : Z) : res ApiError (option CandidateRuntime) :=
  match allocation, backend with
  | None, None => Ok None
  | Some id, Some b =>
      res_bind (ok_or (candidate_runtime d account project deployment job id) (conflict "release_runtime_unhealthy"
        "the exact runtime allocation has no current authenticated healthy observation")) (fun c =>
      res_bind (guard_err (negb (runtime_fits c b now)) (conflict "release_runtime_ineligible"
        "the runtime tuple does not match the exact artifact and current capability evidence")) (fun _ =>
      Ok (Some c)))
  | _, _ => Err (conflict "release_runtime_mismatch"
      "an application artifact and exact healthy runtime allocation are required together")
  end.

Definition stage_migration_row (account project deployment config database generation : Uuid)
    (revision digest : string) (_ : Uuid) (m : Migration) : bool :=
  bool_decide (mg_account m = account) && bool_decide (mg_project m = project)
  && bool_decide (mg_database m = database) && bool_decide (mg_generation m = generation)
  && bool_decide (mg_deployment m = deployment) && bool_decide (mg_config m = config)
  && bool_decide (mg_revision m = revision) && bool_decide (mg_digest m = digest)
  && one_of (mg_state m) [MPlanned; MTrialPrepared; MIsolatedValidated; MApplied].

Definition load_stage_migration d (account project deployment config : Uuid) (q : StageReleaseRequest)
    : res ApiError (option Uuid) :=
  match stq_database q with
  | None => Ok None
  | Some database =>
      res_bind (ok_or (stq_database_generation q) internal) (fun generation =>
      res_bind (ok_or (usable_database d account project database generation) (conflict "release_database_ineligible"
        "the exact configured tenant database generation is unavailable")) (fun _ =>
      match stq_revision q with
      | None => Ok None
      | Some revision =>
          res_bind (ok_or (stq_digest q) internal) (fun digest =>
          res_bind (ok_or (select_first (stage_migration_row account project deployment config database generation
                             revision digest) any_order (migrations d)) (conflict "release_migration_ineligible"
            "the exact prepared migration trial is unavailable")) (fun m =>
          Ok (Some (mg_id m))))
      end))
  end.

(** The secret references of the build, in their order; every row is of the kind
    [build_environment]. *)
Definition reference_le (a b : SecretReference) : Prop :=
  (sx_service a < sx_service b)%N
  \/ sx_service a = sx_service b /\ (String.ltb (sx_name a) (sx_name b) = true
     \/ sx_name a = sx_name b /\ (sx_version a <= sx_version b)%N).
#[local] Instance reference_le_dec a b : Decision (reference_le a b).
Proof. unfold reference_le. apply _. Defined.

Definition load_build_secret_refs d (account project job : Uuid) : list SecretReference :=
  merge_sort reference_le (omap (fun kr =>
    s ← rl_secret_rows d !! sr_secret kr.2;
    _ ← where_ (bool_decide (kr.1.1 = job) && bool_decide (sr_account kr.2 = account)
                && bool_decide (sr_project kr.2 = project) && bool_decide (s_account s = account)
                && bool_decide (s_project s = project) && bool_decide (s_service s = sr_service kr.2));
    Some {| sx_service := sr_service kr.2; sx_secret := sr_secret kr.2; sx_version := kr.1.2;
            sx_name := sr_name kr.2; sx_operation := s_operation s; sx_kind := "build_environment" |})
    (map_to_list (rl_secret_refs d))).

Record StagePlan := {
  sp_build : BuildJob; sp_frontend : option ArtifactLease; sp_backend : option ArtifactLease;
  sp_runtime : option CandidateRuntime; sp_migration : option Uuid; sp_secrets : list SecretReference;
  sp_expected : Z;
}.

Definition stage_plan d (account project deployment : Uuid) (q : StageReleaseRequest) (now : Z)
    : res ApiError StagePlan :=
  res_bind (ok_or (j ← build_jobs (tables d) !! stq_job q;
                   _ ← where_ (bool_decide (bj_account j = account) && bool_decide (bj_project j = project)
                               && bool_decide (bj_deployment j = deployment));
                   Some j) not_found) (fun j =>
  res_bind (guard_err (negb (bool_decide (bj_state j = BSucceeded)))
    (conflict "release_build_ineligible" "the exact build has not succeeded")) (fun _ =>
  let refs := load_build_secret_refs d account project (stq_job q) in
  res_bind (validate_secret_refs d account project refs) (fun _ =>
  let artifacts := registered_artifacts d account project (stq_job q) in
  res_bind (one_artifact artifacts StaticArtifact) (fun frontend =>
  res_bind (one_artifact artifacts ApplicationArtifact) (fun backend =>
  res_bind (guard_err (is_none frontend && is_none backend) (conflict "release_artifacts_missing"
    "the succeeded build has no registered release artifacts")) (fun _ =>
  res_bind (load_candidate_runtime d account project deployment (stq_job q) (stq_allocation q) backend now) (fun runtime =>
  res_bind (load_stage_migration d account project deployment (bj_config j) q) (fun migration =>
  Ok {| sp_build := j; sp_frontend := frontend; sp_backend := backend; sp_runtime := runtime;
        sp_migration := migration; sp_secrets := refs; sp_expected := route_generation d account project |})))))))).

Definition new_release (id account project deployment : Uuid) (q : StageReleaseRequest) (p : StagePlan)
    (created : Z) : Release := {|
  rl_id := id; rl_account := account; rl_project := project; rl_deployment := deployment;
  rl_config := bj_config (sp_build p); rl_job := stq_job q; rl_commit := bj_commit (sp_build p);
  rl_frontend := af_archive <$> sp_frontend p; rl_backend := af_archive <$> sp_backend p;
  rl_database := stq_database q; rl_database_generation := stq_database_generation q;
  rl_revision := stq_revision q; rl_migration_digest := stq_digest q; rl_migration_path := stq_path q;
  rl_migration := sp_migration p; rl_allocation := (fun c => al_id (cr_allocation c)) <$> sp_runtime p;
  rl_service := (fun c => al_service (cr_allocation c)) <$> sp_runtime p;
  rl_generation := (fun c => al_generation (cr_allocation c)) <$> sp_runtime p;
  rl_fence := (fun c => al_fence (cr_allocation c)) <$> sp_runtime p;
  rl_observation := (fun c => rb_id (cr_observation c)) <$> sp_runtime p;
  rl_receipt := (fun c => rb_digest (cr_observation c)) <$> sp_runtime p; rl_state := RlStaged;
  rl_secrets := sp_secrets p; rl_health := None; rl_expected := sp_expected p; rl_url := Some (stq_url q);
  rl_promoted := None; rl_failure := None; rl_created := created |}.

Definition new_reconciliation (id account project release : Uuid) (kind : ReconciliationKind)
    (expected created : Z) : Reconciliation := {|
  rn_id := id; rn_account := account; rn_project := project; rn_release := release; rn_kind := kind;
  rn_state := RcQueued; rn_expected := expected; rn_requirements := None; rn_attempts := 0;
  rn_current := None; rn_fence := 0; rn_lease := None; rn_code := None; rn_result := None;
  rn_created := created |}.

Definition insert_release (r : Release) : M (RlDb P) unit :=
  d <~ get_db;;
  rows <~ sql (insert_pk (fun x => release_check x && release_unique (releases d) x) (rl_id r) r (releases d));;
  put_db (set_releases rows d).

Definition stage_release (caller : Authenticated) (project_id deployment_id : string) (headers : Headers)
    (q : StageReleaseRequest) : M (RlDb P) (Answer (Release * Reconciliation)) :=
  _ <~ lift (require_enabled m3);;
  _ <~ lift (validate_stage_request q);;
  let account := account_id caller in
  project <~ lift (path_uuid (y_parse_uuid Y) project_id);;
  deployment <~ lift (path_uuid (y_parse_uuid Y) deployment_id);;
  key <~ lift (idempotency_key headers);;
  let hash := y_stage_hash Y q in
  let operation := "release.stage/" +:+ y_uuid_text Y project +:+ "/" +:+ y_uuid_text Y deployment in
  transaction (
    created <~ clock_timestamp;;
    stored <~ replay envelope_of account operation key hash;;
    match stored with
    | Match value => tret (Ok (Found value))
    | Changed => raise idempotency_changed
    | Miss =>
        now <~ clock_timestamp;;
        d <~ get_db;;
        p <~ lift (stage_plan d account project deployment q now);;
        release <~ new_uuid;;
        t <~ clock_timestamp;;
        insert_release (new_release release account project deployment q p t);;;
        insert_release_event account project release ("staged:" +:+ y_uuid_text Y release) "staged" None
          (EvStaged (stq_job q) (bj_commit (sp_build p)));;;
        reconciliation <~ new_uuid;;
        insert_reconciliation
          (new_reconciliation reconciliation account project release Promote (sp_expected p) created);;;
        d' <~ get_db;;
        r <~ lift (load_release d' account project release);;
        rcn <~ lift (load_reconciliation d' reconciliation);;
        audit account (session_id caller) "release.stage" "application_release" (Some release) "queued";;;
        store_replay account operation key hash 201 (Envelope r rcn);;;
        tret (Ok (Created (r, rcn)))
    end).

(** [ORDER BY promoted_at DESC NULLS LAST,created_at DESC,id DESC]. *)
Definition history_le (a b : Release) : Prop :=
  match rl_promoted a, rl_promoted b with
  | Some p, Some q => (q < p)%Z \/ p = q /\ ((rl_created b < rl_created a)%Z
                       \/ rl_created a = rl_created b /\ (rl_id b <= rl_id a)%N)
  | Some _, None => True
  | None, Some _ => False
  | None, None => (rl_created b < rl_created a)%Z \/ rl_created a = rl_created b /\ (rl_id b <= rl_id a)%N
  end.
#[local] Instance history_le_dec a b : Decision (history_le a b).
Proof. unfold history_le. repeat case_match; apply _. Defined.

Definition list_releases (caller : Authenticated) (project_id : string) : M (RlDb P) ReleaseListResponse :=
  _ <~ lift (require_enabled m3);;
  let account := account_id caller in
  project <~ lift (path_uuid (y_parse_uuid Y) project_id);;
  d <~ get_db;;
  let rows := merge_sort history_le (filter (fun r => rl_account r = account /\ rl_project r = project)
                (map snd (map_to_list (releases d)))) in
  reject_if (match rows with
             | [] => negb (is_some_and (fun p => bool_decide (pj_account p = account)) (x_projects (tables d) !! project))
             | _ => false
             end) not_found;;;
  tret {| rls_route := project_route d account project; rls_releases := rows |}.

(** *** Rolling back *)

Definition rollback_runtime_healthy d (r : Release) : bool :=
  is_some_and (fun a => bool_decide (al_account a = rl_account r) && bool_decide (al_project a = rl_project r)
    && bool_decide (al_deployment a = rl_deployment r) && bool_decide (Some (al_service a) = rl_service r)
    && bool_decide (Some (al_generation a) = rl_generation r) && bool_decide (Some (al_fence a) = rl_fence r)
    && bool_decide (al_state a = "healthy"))
    (rl_allocation r ≫= (fun id => allocations (rl_runtime d) !! id)).

Definition rollback_target d (account project release : Uuid) : res ApiError (Release * Route) :=
  res_bind (load_release d account project release) (fun r =>
  res_bind (guard_err (negb (bool_decide (rl_state r = RlHealthy)) || is_none (rl_promoted r))
    (rollback_ineligible "the target is not a retained successful release")) (fun _ =>
  res_bind (guard_err (negb (is_none (rl_backend r)) && negb (rollback_runtime_healthy d r))
    (rollback_ineligible "the retained release exact runtime allocation is not healthy")) (fun _ =>
  res_bind (validate_secret_refs d account project (rl_secrets r)) (fun _ =>
  res_bind (ok_or (project_route d account project)
    (conflict "rollback_route_missing" "the project has no current route")) (fun route =>
  res_bind (guard_err (bool_decide (ro_release route = release))
    (conflict "rollback_target_current" "the requested release is already current")) (fun _ =>
  Ok (r, route))))))).

Definition request_rollback (caller : Authenticated) (project_id release_id : string) (headers : Headers)
    : M (RlDb P) (Answer (Release * Reconciliation)) :=
  _ <~ lift (require_enabled m3);;
  let account := account_id caller in
  project <~ lift (path_uuid (y_parse_uuid Y) project_id);;
  release <~ lift (path_uuid (y_parse_uuid Y) release_id);;
  key <~ lift (idempotency_key headers);;
  let hash := y_rollback_hash Y release in
  let operation := "release.rollback/" +:+ y_uuid_text Y project +:+ "/" +:+ y_uuid_text Y release in
  transaction (
    created <~ clock_timestamp;;
    stored <~ replay envelope_of account operation key hash;;
    match stored with
    | Match value => tret (Ok (Found value))
    | Changed => raise idempotency_changed
    | Miss =>
        d <~ get_db;;
        '(r, route) <~ lift (rollback_target d account project release);;
        reconciliation <~ new_uuid;;
        insert_reconciliation
          (new_reconciliation reconciliation account project release RollBack (ro_generation route) created);;;
        d' <~ get_db;;
        rcn <~ lift (load_reconciliation d' reconciliation);;
        audit account (session_id caller) "release.rollback.request" "application_release" (Some release) "queued";;;
        store_replay account operation key hash 201 (Envelope r rcn);;;
        tret (Ok (Created (r, rcn)))
    end).

(** *** Activating *)

Definition as_u64 (v : Z) : option Z := if (0 <=? v)%Z then Some v else None.

Definition validate_switch_receipt (s : SwitchReceipt) (r : Reconciliation) (q : LeaseIdentity)
    (previous : option Uuid) (p : PreparedIntent) (now : Z) : res ApiError unit :=
  res_bind (observed_at Y (sw_observed s)) (fun observed =>
  let mismatch := conflict "release_switch_receipt_mismatch"
    "the gateway switch receipt does not match the prepared route" in
  res_bind (guard_err (negb (bool_decide (sw_schema s = "hostlet.release-route-switch/v1")
                             && bool_decide (sw_reconciliation s = rn_id r)
                             && bool_decide (sw_attempt s = lid_attempt q))) mismatch) (fun _ =>
  res_bind (ok_or (as_u64 (lid_fence q)) evidence_invalid) (fun fence =>
  res_bind (guard_err (negb ((sw_fence s =? fence)%Z && bool_decide (sw_project s = rn_project r)
                             && bool_decide (sw_release s = rn_release r)
                             && bool_decide (sw_previous s = previous))) mismatch) (fun _ =>
  res_bind (ok_or (as_u64 (pp_generation p)) evidence_invalid) (fun generation =>
  guard_err (negb ((sw_generation s =? generation)%Z && bool_decide (sw_digest s = pp_digest p)
                   && bool_decide (sw_result s = "switched") && negb (out_of_window observed now))) mismatch))))).

(** [INSERT ... ON CONFLICT (project_id) DO UPDATE ... WHERE ...]. *)
Definition upsert_route (r : Reconciliation) (p : PreparedIntent) : M (RlDb P) unit :=
  t <~ clock_timestamp;;
  d <~ get_db;;
  let fresh := {| ro_account := rn_account r; ro_release := rn_release r; ro_generation := pp_generation p;
                  ro_availability := "available"; ro_observed := t; ro_demo_revision := 1;
                  ro_digest := pp_digest p; ro_manifest := pp_manifest p;
                  ro_assets := mf_assets (pp_manifest p); ro_drain := pp_drain p |} in
  _ <~ sql (where_ (route_check fresh));;
  match routes d !! rn_project r with
  | None => put_db (set_routes (<[rn_project r := fresh]> (routes d)) d)
  | Some o =>
      if bool_decide (ro_account o = rn_account r) && (ro_generation o =? rn_expected r)%Z then
        let next := {| ro_account := ro_account o; ro_release := rn_release r; ro_generation := pp_generation p;
                       ro_availability := "available"; ro_observed := t; ro_demo_revision := ro_demo_revision o;
                       ro_digest := pp_digest p; ro_manifest := pp_manifest p;
                       ro_assets := mf_assets (pp_manifest p); ro_drain := pp_drain p |} in
        _ <~ sql (where_ (route_check next));;
        put_db (set_routes (<[rn_project r := next]> (routes d)) d)
      else tret tt
  end.

Definition update_deployment (r : Release) (switch_digest : string) : M (RlDb P) unit :=
  d <~ get_db;;
  match x_deployments (tables d) !! rl_deployment r with
  | Some x =>
      if bool_decide (dp_account x = rl_account r) && bool_decide (dp_project x = rl_project r) then
        put_db (set_deployment_refs (<[rl_deployment r := {| dr_health := switch_digest;
                    dr_revision := rl_revision r; dr_secrets := rl_secrets r |}]> (deployment_refs d))
                 (set_deployments (<[rl_deployment r := {| dp_account := dp_account x; dp_project := dp_project x;
                    dp_config := dp_config x; dp_commit := dp_commit x; dp_lifecycle := Healthy |}]>
                    (x_deployments (tables d))) d))
      else tret tt
  | None => tret tt
  end.

(** portfolio_approval::refresh_deployment_facts_in_transaction, up to its heads. *)
Definition trusted_release d (release : Uuid) : option TrustedRelease :=
  r ← releases d !! release;
  o ← routes d !! rl_project r;
  _ ← where_ (bool_decide (ro_account o = rl_account r) && bool_decide (ro_release o = rl_id r)
              && bool_decide (rl_state r = RlHealthy));
  Some {| tr_release := rl_id r; tr_account := rl_account r; tr_project := rl_project r;
          tr_deployment := rl_deployment r; tr_commit := rl_commit r; tr_promoted := rl_promoted r;
          tr_url := rl_url r; tr_availability := ro_availability o; tr_observed := ro_observed o;
          tr_demo_revision := ro_demo_revision o |}.

Definition refresh_deployment_facts (release : Uuid) (policy : Z) : M (RlDb P) unit :=
  d <~ get_db;;
  t <~ lift (ok_or (trusted_release d release) (unprocessable "untrusted_deployment_facts"
    "the release is not the current healthy trusted route"));;
  zoom portfolio set_portfolio (refresh_heads t policy).

Definition excess_releases d (account project current : Uuid) : list Uuid :=
  map rl_id (skipn 2 (newest_first (fun r => bool_decide (rl_account r = account)
    && bool_decide (rl_project r = project) && bool_decide (rl_state r = RlHealthy)
    && negb (bool_decide (rl_id r = current))) d)).

(** [UPDATE ... WHERE id=ANY(ids) AND state='healthy']. *)
Definition retire_all (ids : list Uuid) (t : gmap Uuid Release) : gmap Uuid Release :=
  (fun r => if bool_decide (rl_id r ∈ ids) && bool_decide (rl_state r = RlHealthy) then retired_release r else r)
  <$> t.

Definition retire_excess_releases (account project current : Uuid) : M (RlDb P) (list Uuid) :=
  d <~ get_db;;
  let ids := excess_releases d account project current in
  put_db (set_releases (retire_all ids (releases d)) d);;;
  for_each (fun id => insert_release_event account project id ("retired:" +:+ y_uuid_text Y current)
    "retired" None (EvRetired current)) ids;;;
  tret ids.

(** The route is switched: everything that changes with it. *)
Definition switch_route (r : Reconciliation) (q : ActivateRequest) (release : Release) (p : PreparedIntent)
    (previous : option Uuid) (policy : Z) (hash : bytes) : M (RlDb P) (list Uuid) :=
  upsert_route r p;;;
  t <~ clock_timestamp;;
  update_release (rn_release r) (fun _ => true) (fun x =>
    with_release x RlHealthy (Some (pp_probes p, acr_switch q)) (Some t) None);;;
  update_deployment release (acr_switch q);;;
  refresh_deployment_facts (rn_release r) policy;;;
  end_attempt (rn_id r) (acr_live q) AtSucceeded "route_activated" hash;;;
  update_reconciliation (rn_id r) (fun r => ended r RcSucceeded "route_activated" (rn_result r));;;
  insert_release_event (rn_account r) (rn_project r) (rn_release r) ("activate:" +:+ y_uuid_text Y (rn_id r))
    (if bool_decide (rn_kind r = RollBack) then "rollback" else "promoted") (Some (pp_generation p))
    (EvActivated (pp_digest p) (acr_switch q) previous);;;
  retire_excess_releases (rn_account r) (rn_project r) (rn_release r).

Definition activate_reconciliation (id_text : string) (q : ActivateRequest) : M (RlDb P) ActivateResponse :=
  _ <~ lift (require_enabled m3);;
  _ <~ lift (validate_worker_id (lid_worker (acr_live q)));;
  id <~ lift (path_uuid (y_parse_uuid Y) id_text);;
  bs <~ lift (read_evidence Y m3 (acr_switch q));;
  receipt <~ lift (ok_or (y_switch_json Y bs) evidence_invalid);;
  policy <~ policy_now m3;;
  transaction (
    d <~ get_db;;
    account <~ lift (ok_or (rn_account <$> reconciliations d !! id) fenced);;
    _ <~ sql (where_ (bool_decide (account ∈ rl_accounts d)));;
    r <~ lock_live_reconciliation id (acr_live q) RcPrepared;;
    _ <~ lift (validate_route_generation d r);;
    _ <~ lift (ok_or (rn_result r) fenced);;
    p <~ lift (ok_or (prepared_intent r) internal);;
    let previous := ro_release <$> project_route d (rn_account r) (rn_project r) in
    now <~ clock_timestamp;;
    _ <~ lift (validate_switch_receipt receipt r (acr_live q) previous p now);;
    release <~ lift (load_release d (rn_account r) (rn_project r) (rn_release r));;
    _ <~ lift (validate_secret_refs d (rn_account r) (rn_project r) (rl_secrets release));;
    retired <~ switch_route r q release p previous policy (y_sha256 Y bs);;
    d' <~ get_db;;
    route <~ sql (project_route d' (rn_account r) (rn_project r));;
    release' <~ lift (load_release d' (rn_account r) (rn_project r) (rn_release r));;
    rcn' <~ lift (load_reconciliation d' (rn_id r));;
    tret (Ok {| avr_release := release'; avr_reconciliation := rcn'; avr_route := route; avr_retired := retired |})).

(** *** Preparing a migration *)

Definition invalid_prepare_request (q : PrepareMigrationRequest) : bool :=
  negb (text_within 1 256 (pmq_revision q)) || negb (is_digest (pmq_digest q))
  || negb (valid_migration_path (pmq_path q)) || negb (text_within 1 256 (pmq_current_schema q))
  || negb (text_within 1 256 (pmq_candidate_schema q)).

(** The application artifact of the succeeded build; a kind occurs once. *)
Definition migration_candidate d (account project deployment : Uuid) (q : PrepareMigrationRequest)
    : option (BuildJob * Artifact) :=
  j ← build_jobs (tables d) !! pmq_job q;
  a ← select_first (fun _ a => bool_decide (at_job a = bj_id j) && bool_decide (at_account a = bj_account j)
                      && bool_decide (at_project a = bj_project j) && bool_decide (at_kind a = ApplicationArtifact))
        any_order (build_artifacts (tables d));
  _ ← where_ (bool_decide (bj_account j = account) && bool_decide (bj_project j = project)
              && bool_decide (bj_deployment j = deployment) && bool_decide (bj_state j = BSucceeded));
  Some (j, a).

(** The binaries of the two newest releases that the route does not show. *)
Definition retained_binaries d (account project : Uuid) : list string :=
  omap rl_backend (firstn 2 (newest_first (fun r => promoted_in account project r && negb (is_none (rl_backend r))
    && negb (bool_decide (ro_release <$> project_route d account project = Some (rl_id r)))) d)).

Definition current_binary d (account project : Uuid) : option string :=
  route ← project_route d account project;
  r ← releases d !! ro_release route;
  _ ← where_ (bool_decide (rl_account r = account) && bool_decide (rl_project r = project));
  rl_backend r.

Definition prepare_plan d (account project deployment : Uuid) (q : PrepareMigrationRequest)
    : res ApiError MigrationTrialRequest :=
  res_bind (ok_or (migration_candidate d account project deployment q) (conflict "migration_candidate_ineligible"
    "the exact succeeded application artifact is unavailable")) (fun '(j, a) =>
  res_bind (ok_or (usable_database d account project (pmq_database q) (pmq_database_generation q)) not_found) (fun _ =>
  res_bind (ok_or (current_binary d account project) (conflict "migration_current_binary_missing"
    "a populated migration requires a current routed application binary")) (fun binary =>
  Ok {| mt_account := account; mt_project := project; mt_database := pmq_database q;
        mt_generation := pmq_database_generation q; mt_deployment := deployment; mt_config := bj_config j;
        mt_revision := pmq_revision q; mt_digest := pmq_digest q; mt_current_schema := pmq_current_schema q;
        mt_candidate_schema := pmq_candidate_schema q; mt_current_binary := binary;
        mt_retained := retained_binaries d account project;
        mt_artifact := {| mx_job := pmq_job q; mx_artifact := at_id a; mx_service := at_service a;
                          mx_archive := at_archive a; mx_manifest := at_manifest a; mx_entry := pmq_path q;
                          mx_file := pmq_digest q; mx_materialized := None |} |}))).

Definition archive_usable d (account project archive database generation : Uuid) : bool :=
  is_some_and (fun a => bool_decide (ax_account a = account) && bool_decide (ax_project a = project)
    && bool_decide (ax_database a = database) && bool_decide (ax_generation a = generation)
    && bool_decide (ax_state a = ArUsable)) (archives d !! archive).

(** The backup first; the plan once it can be used. *)
Definition plan_or_back_up (t : MigrationTrialRequest) : M (RlDb P) (Z * PrepareMigrationResponse) :=
  archive <~ request_pre_migration_backup Y m3 (mt_account t) (mt_project t) (mt_database t) (mt_generation t)
               (mt_revision t);;
  d <~ get_db;;
  if archive_usable d (mt_account t) (mt_project t) archive (mt_database t) (mt_generation t) then
    migration <~ enqueue_migration_trial m3 t archive;;
    tret (201, {| pm_phase := "migration_planned"; pm_archive := archive; pm_migration := Some migration |})%Z
  else tret (202, {| pm_phase := "pre_migration_backup_queued"; pm_archive := archive; pm_migration := None |})%Z.

Definition prepare_migration_trial (caller : Authenticated) (project_id deployment_id : string)
    (headers : Headers) (q : PrepareMigrationRequest) : M (RlDb P) (Z * PrepareMigrationResponse) :=
  _ <~ lift (require_enabled m3);;
  let account := account_id caller in
  project <~ lift (path_uuid (y_parse_uuid Y) project_id);;
  deployment <~ lift (path_uuid (y_parse_uuid Y) deployment_id);;
  key <~ lift (idempotency_key headers);;
  let hash := y_prepare_hash Y q in
  reject_if (invalid_prepare_request q) (unprocessable "migration_trial_request_invalid"
    "the exact migration and schema revision references are required");;;
  let operation := "release.migration_trial/" +:+ y_uuid_text Y project +:+ "/" +:+ y_uuid_text Y deployment in
  stored <~ replay plan_of account operation key hash;;
  match stored with
  | Match value => tret (200%Z, value)
  | Changed => raise idempotency_changed
  | Miss =>
      d <~ get_db;;
      t <~ lift (prepare_plan d account project deployment q);;
      answer <~ plan_or_back_up t;;
      transaction (
        store_replay account operation key hash answer.1 (MigrationPlan answer.2);;;
        audit account (session_id caller) "release.migration_trial.prepare" "tenant_database_migration"
          (pm_migration answer.2) (pm_phase answer.2);;;
        tret (Ok answer))
  end.
End Handlers.
