(* ===== verification/ReleaseSpec.v ===== *)
(** * What releases promise

    A step moves at most one reconciliation along its life cycle; a project has at most
    one that is active, and that one expects the generation its route has, so a route is
    only replaced by the next generation of it.  The current release and at most two
    others of a project are healthy; what has failed or been retired stays so. *)

From stdpp Require Import base list option gmap strings relations sorting.
From Stdlib Require Import ZArith Lia Ascii.
From S2P Require Import Prelude RustText Bytes PgTx Intent Secrets Admission PolicyClock.
From S2P Require Import ExecutionTables BuildTables RuntimeEvidence Runtime.
From S2P Require Import ReleaseTables ReleaseEvidence ReleaseReceipts Migrations Releases.

Local Open Scope string_scope.
Local Open Scope list_scope.

(** ** The life cycle of a reconciliation *)

(** What never changes. *)
Record same_reconciliation (r r' : Reconciliation) : Prop := {
  sn_id : rn_id r' = rn_id r; sn_account : rn_account r' = rn_account r;
  sn_project : rn_project r' = rn_project r; sn_release : rn_release r' = rn_release r;
  sn_kind : rn_kind r' = rn_kind r; sn_expected : rn_expected r' = rn_expected r;
  sn_created : rn_created r' = rn_created r;
}.

Section Spec.
Context (Y : ReleaseExternals) {P : Type}.
Implicit Types d : RlDb P.

(** The route that a reconciliation has prepared. *)
Record intent_ok (r : Reconciliation) (p : PreparedIntent) : Prop := {
  io_json : pp_json p = y_manifest_json Y (pp_manifest p);
  io_digest : pp_digest p = prefixed_digest Y (as_bytes (pp_json p));
  io_generation : pp_generation p = wrap_i64 (rn_expected r + 1);
  io_project : mf_project (pp_manifest p) = rn_project r;
  io_release : mf_release (pp_manifest p) = rn_release r;
  io_manifest : mf_generation (pp_manifest p) = pp_generation p;
  io_drain : mf_drain (pp_manifest p) = pp_drain p;
}.

Definition leasable (s : ReconciliationState) : bool :=
  one_of s [RcQueued; RcRetriable; RcAwaitingTrial; RcAwaitingApply].
Definition awaiting (s : ReconciliationState) : bool := one_of s [RcAwaitingTrial; RcAwaitingApply].

Inductive rcn_next (operation_failed : Prop) (r r' : Reconciliation) : Prop :=
| rn_touch : rn_state r' = rn_state r -> rn_attempts r' = rn_attempts r -> rn_fence r' = rn_fence r ->
    rn_result r' = rn_result r -> rcn_next operation_failed r r'
| rn_lease_step : leasable (rn_state r) = true -> (rn_attempts r < 6)%Z -> rn_state r' = RcRunning ->
    rn_attempts r' = (rn_attempts r + 1)%Z -> rn_fence r' = (rn_fence r + 1)%Z ->
    (rn_fence r' <= max_i64)%Z -> rcn_next operation_failed r r'
| rn_resume : rn_state r = RcPrepared -> rn_state r' = RcPrepared -> rn_attempts r' = rn_attempts r ->
    rn_fence r' = (rn_fence r + 1)%Z -> (rn_fence r' <= max_i64)%Z -> rn_result r' = rn_result r ->
    rcn_next operation_failed r r'
| rn_end : rn_state r = RcRunning ->
    one_of (rn_state r') [RcRetriable; RcFailed; RcAwaitingTrial; RcAwaitingApply] = true ->
    (rn_state r' = RcRetriable -> (rn_attempts r' < 6)%Z) ->
    rn_attempts r' = rn_attempts r -> rn_fence r' = rn_fence r -> rcn_next operation_failed r r'
| rn_prepare p : rn_state r = RcRunning -> rn_state r' = RcPrepared -> rn_result r' = Some (PreparedResult p) ->
    intent_ok r p -> rn_attempts r' = rn_attempts r -> rn_fence r' = rn_fence r ->
    rcn_next operation_failed r r'
| rn_fail : awaiting (rn_state r) = true -> operation_failed -> rn_state r' = RcFailed ->
    rn_attempts r' = rn_attempts r -> rn_fence r' = rn_fence r -> rcn_next operation_failed r r'.

(** ** Releases *)

(** What never changes. *)
Record same_release (x x' : Release) : Prop := {
  sr_same_id : rl_id x' = rl_id x; sr_same_account : rl_account x' = rl_account x;
  sr_same_project : rl_project x' = rl_project x; sr_same_deployment : rl_deployment x' = rl_deployment x;
  sr_same_config : rl_config x' = rl_config x; sr_same_job : rl_job x' = rl_job x;
  sr_same_commit : rl_commit x' = rl_commit x; sr_same_frontend : rl_frontend x' = rl_frontend x;
  sr_same_backend : rl_backend x' = rl_backend x; sr_same_migration : rl_migration x' = rl_migration x;
  sr_same_secrets : rl_secrets x' = rl_secrets x;
}.

(** The release of a reconciliation that fails before its promotion fails with it. *)
Inductive release_fails (r r' : Reconciliation) d d' : Prop :=
| fails_not : releases d' = releases d -> release_fails r r' d d'
| fails_staged x code : active (rn_state r) = true -> rn_state r' = RcFailed -> releases d !! rn_release r = Some x ->
    rl_state x = RlStaged -> releases d' = <[rn_release r := failed_release x code]> (releases d) ->
    release_fails r r' d d'.

Definition healthy_in (account project : Uuid) (x : Release) : bool :=
  bool_decide (rl_account x = account) && bool_decide (rl_project x = project)
  && bool_decide (rl_state x = RlHealthy).

(** ** Steps *)

Definition operations d : gmap Uuid DatabaseOperation := database_operations (tables d).

(** The database component's promise: what has succeeded stays so. *)
Definition operation_succeeded d (o : Uuid) : Prop :=
  exists x, operations d !! o = Some x /\ do_state x = OSucceeded.
Definition succeeded_kept d d' : Prop := forall o, operation_succeeded d o -> operation_succeeded d' o.
Definition operation_failed d (r : Reconciliation) : Prop :=
  exists o x, awaited_operation r = Some o /\ operations d !! o = Some x
    /\ one_of (do_state x) [OFailed; OCanceled] = true.

Record rl_frame d d' : Prop := {
  lf_releases : releases d' = releases d; lf_routes : routes d' = routes d;
  lf_reconciliations : reconciliations d' = reconciliations d; lf_events : release_events d ⊆ release_events d';
  lf_operations : succeeded_kept d d';
}.

Record reconcile_step (k : Uuid) (r r' : Reconciliation) d d' : Prop := {
  ks_before : reconciliations d !! k = Some r;
  ks_after : reconciliations d' = <[k := r']> (reconciliations d);
  ks_same : same_reconciliation r r';
  ks_routes : routes d' = routes d;
  ks_release : release_fails r r' d d';
  ks_events : release_events d ⊆ release_events d';
  ks_operations : succeeded_kept d d';
}.

(** A new reconciliation, of a new release or of one that is retained. *)
Record enqueue_step (k : Uuid) (r : Reconciliation) d d' : Prop := {
  qs_new : reconciliations d !! k = None;
  qs_after : reconciliations d' = <[k := r]> (reconciliations d);
  qs_id : rn_id r = k; qs_state : rn_state r = RcQueued; qs_attempts : rn_attempts r = 0%Z;
  qs_fence : rn_fence r = 0%Z; qs_expected : rn_expected r = route_generation d (rn_account r) (rn_project r);
  qs_alone : forall k' r', reconciliations d !! k' = Some r' -> active (rn_state r') = true ->
    rn_project r' <> rn_project r;
  qs_routes : routes d' = routes d;
  qs_release :
    (exists x, rn_kind r = Promote /\ releases d !! rn_release r = None
       /\ releases d' = <[rn_release r := x]> (releases d) /\ rl_id x = rn_release r /\ rl_state x = RlStaged
       /\ rl_account x = rn_account r /\ rl_project x = rn_project r)
    \/ (exists x, rn_kind r = RollBack /\ releases d' = releases d /\ releases d !! rn_release r = Some x
       /\ rl_state x = RlHealthy /\ rl_account x = rn_account r /\ rl_project x = rn_project r);
  qs_events : release_events d ⊆ release_events d';
  qs_operations : succeeded_kept d d';
}.

(** The releases after an activation: the new one healthy, the excess retired. *)
Definition promoted_releases d (release : Uuid) (x : Release) : gmap Uuid Release := <[release := x]> (releases d).

Record activate_step (k : Uuid) (r r' : Reconciliation) (o : Route) (x x' : Release) d d' : Prop := {
  as_before : reconciliations d !! k = Some r;
  as_state : rn_state r = RcPrepared; as_state' : rn_state r' = RcSucceeded;
  as_after : reconciliations d' = <[k := r']> (reconciliations d);
  as_same : same_reconciliation r r'; as_attempts : rn_attempts r' = rn_attempts r; as_fence : rn_fence r' = rn_fence r;
  as_expected : route_generation d (rn_account r) (rn_project r) = rn_expected r;
  as_routes : routes d' = <[rn_project r := o]> (routes d);
  as_owner : forall o', routes d !! rn_project r = Some o' -> ro_account o' = rn_account r;
  as_route : ro_account o = rn_account r /\ ro_release o = rn_release r
    /\ ro_generation o = wrap_i64 (rn_expected r + 1) /\ (0 < ro_generation o)%Z;
  as_release : releases d !! rn_release r = Some x /\ same_release x x' /\ rl_state x' = RlHealthy;
  as_releases : releases d' = retire_all (excess_releases (set_releases (promoted_releases d (rn_release r) x') d)
    (rn_account r) (rn_project r) (rn_release r)) (promoted_releases d (rn_release r) x');
  as_events : release_events d ⊆ release_events d';
  as_operations : succeeded_kept d d';
}.

Inductive rl_step d d' : Prop :=
| step_frame : rl_frame d d' -> rl_step d d'
| step_reconcile k r r' : rcn_next (operation_failed d r) r r' -> reconcile_step k r r' d d' -> rl_step d d'
| step_enqueue k r : enqueue_step k r d d' -> rl_step d d'
| step_activate k r r' o x x' : activate_step k r r' o x x' d d' -> rl_step d d'.

(** ** The invariant *)

Definition within (lo hi v : Z) : Prop := (lo <= v <= hi)%Z.

Record route_ok d (project : Uuid) (o : Route) : Prop := {
  rk_generation : within 1 max_i64 (ro_generation o);
  rk_release : exists x, releases d !! ro_release o = Some x /\ healthy_in (ro_account o) project x = true;
}.

Record rcn_ok d (r : Reconciliation) : Prop := {
  ck_attempts : within 0 6 (rn_attempts r);
  ck_retriable : rn_state r = RcRetriable -> (rn_attempts r < 6)%Z;
  ck_fence : within 0 max_i64 (rn_fence r);
  ck_expected : active (rn_state r) = true -> route_generation d (rn_account r) (rn_project r) = rn_expected r;
  ck_prepared : rn_state r = RcPrepared -> exists p, rn_result r = Some (PreparedResult p) /\ intent_ok r p;
  ck_release : exists x, releases d !! rn_release r = Some x /\ rl_account x = rn_account r
    /\ rl_project x = rn_project r
    /\ (active (rn_state r) = true -> rl_state x = match rn_kind r with Promote => RlStaged | RollBack => RlHealthy end);
}.

(** How many releases of a project are healthy. *)
Definition healthy_count d (account project : Uuid) : nat := count_where (healthy_in account project) (releases d).
Definition healthy_bound d (account project : Uuid) : nat :=
  if project_route d account project then 3%nat else 0%nat.

Record rl_ok d : Prop := {
  ok_release_id : forall k x, releases d !! k = Some x -> rl_id x = k;
  ok_reconciliation_id : forall k r, reconciliations d !! k = Some r -> rn_id r = k;
  ok_reconciliation : forall k r, reconciliations d !! k = Some r -> rcn_ok d r;
  ok_one_active : forall k k' r r', reconciliations d !! k = Some r -> reconciliations d !! k' = Some r' ->
    active (rn_state r) = true -> active (rn_state r') = true -> rn_project r = rn_project r' -> k = k';
  ok_routes : forall project o, routes d !! project = Some o -> route_ok d project o;
  ok_retained : forall account project, (healthy_count d account project <= healthy_bound d account project)%nat;
}.

(** ** Lemmas on steps *)

Lemma next_active F r r' : rcn_next F r r' -> active (rn_state r') = true -> active (rn_state r) = true.
Proof.
  intros [E|Hl _ _ _ _ _|E _ _ _ _ _|E _ _ _ _|p E _ _ _ _ _|E _ E' _ _]; rewrite ?E; try done.
  - unfold leasable, active, one_of in *. by destruct (rn_state r).
  - by rewrite E'.
Qed.

(** An attempt and a fence only go up. *)
Lemma next_counters F r r' : rcn_next F r r' ->
  (rn_attempts r <= rn_attempts r')%Z /\ (rn_fence r <= rn_fence r')%Z
  /\ (rn_attempts r' = rn_attempts r \/ (rn_attempts r' <= 6)%Z)
  /\ (rn_fence r' = rn_fence r \/ (rn_fence r' <= max_i64)%Z).
Proof. intros []; lia. Qed.

Lemma next_retriable F r r' : rcn_next F r r' ->
  (rn_state r = RcRetriable -> (rn_attempts r < 6)%Z) -> rn_state r' = RcRetriable -> (rn_attempts r' < 6)%Z.
Proof.
  intros [E Ea| | | |p|] Hr Hs; try congruence; [|by auto].
  rewrite Ea. apply Hr. congruence.
Qed.

Lemma next_prepared F r r' : rcn_next F r r' -> same_reconciliation r r' ->
  (rn_state r = RcPrepared -> exists p, rn_result r = Some (PreparedResult p) /\ intent_ok r p) ->
  rn_state r' = RcPrepared -> exists p, rn_result r' = Some (PreparedResult p) /\ intent_ok r' p.
Proof.
  intros Hn Hs Hp E'.
  assert (Hio : forall p, intent_ok r p -> intent_ok r' p).
  { intros p [? ? ? ? ? ? ?]. destruct Hs as [? ? Ep Er _ Ee _].
    split; rewrite ?Ep, ?Er, ?Ee; done. }
  destruct Hn as [E _ _ Eres| |E _ _ _ _ Eres|_ Ho|p _ _ Eres Hok|]; try congruence.
  - rewrite Eres. destruct Hp as (p & ? & ?); [congruence|]. eauto.
  - rewrite Eres. destruct Hp as (p & ? & ?); [congruence|]. eauto.
  - by rewrite E' in Ho.
  - eauto.
Qed.

(** The row after an insertion. *)
Lemma row_after {A} (t : gmap Uuid A) k r' k' x :
  <[k := r']> t !! k' = Some x -> k' = k /\ x = r' \/ k' <> k /\ t !! k' = Some x.
Proof. rewrite lookup_insert. case_decide; [intros [= <-]|]; auto. Qed.

Lemma healthy_in_true account project x : healthy_in account project x = true <->
  rl_account x = account /\ rl_project x = project /\ rl_state x = RlHealthy.
Proof. unfold healthy_in. rewrite !andb_true_iff, !bool_decide_eq_true. naive_solver. Qed.

Lemma retire_lookup ids (t : gmap Uuid Release) k :
  retire_all ids t !! k = (fun r => if bool_decide (rl_id r ∈ ids) && bool_decide (rl_state r = RlHealthy)
                                    then retired_release r else r) <$> t !! k.
Proof. apply lookup_fmap. Qed.

Lemma size_list_to_set_le (l : list Uuid) : (size (list_to_set (C := gset Uuid) l) <= length l)%nat.
Proof.
  induction l as [|k l IH]; cbn [list_to_set length]; [by rewrite size_empty|].
  pose proof (size_union_alt ({[k]} : gset Uuid) (list_to_set l)) as E. rewrite E, size_singleton.
  assert (size (list_to_set (C := gset Uuid) l ∖ {[k]}) <= size (list_to_set (C := gset Uuid) l))%nat; [|lia].
  apply subseteq_size. set_solver.
Qed.

(** The releases that stay healthy: the current one and the two newest others. *)
Section Retention.
Context d (account project release : Uuid) (x : Release).
Context (Hid : forall k y, releases d !! k = Some y -> rl_id y = k).

Notation ids := (excess_releases d account project release).
Notation others := (newest_first (fun r => bool_decide (rl_account r = account)
    && bool_decide (rl_project r = project) && bool_decide (rl_state r = RlHealthy)
    && negb (bool_decide (rl_id r = release))) d).

Lemma in_others y : y ∈ others <->
  (exists k, releases d !! k = Some y) /\ healthy_in account project y = true /\ rl_id y <> release.
Proof.
  unfold newest_first. rewrite merge_sort_Permutation, list_elem_of_filter, list_elem_of_fmap.
  rewrite !andb_true_iff, !bool_decide_eq_true, negb_true_iff, bool_decide_eq_false, healthy_in_true.
  split.
  - intros [? ([k ?] & -> & Hl%elem_of_map_to_list)]. split_and!; naive_solver.
  - intros [[k Hl] ?]. split; [naive_solver|]. exists (k, y). by rewrite elem_of_map_to_list.
Qed.

Lemma excess_are_others id : id ∈ ids ->
  exists y, releases d !! id = Some y /\ healthy_in account project y = true /\ id <> release.
Proof.
  unfold excess_releases. intros (y & -> & Hy)%list_elem_of_fmap.
  assert (Ho : y ∈ others) by (by eapply (subseteq_drop 2)).
  apply in_others in Ho as [[k Hk] ?]. exists y. by rewrite (Hid _ _ Hk) in *.
Qed.

Lemma retained_at_most_three :
  (count_where (healthy_in account project) (retire_all ids (releases d)) <= 3)%nat.
Proof.
  unfold count_where. rewrite <- size_dom.
  etrans; [apply (subseteq_size _ ({[release]} ∪ list_to_set (map rl_id (firstn 2 others))))|].
  - intros k (y & [Hy Hh]%map_lookup_filter_Some)%elem_of_dom. cbn in Hh.
    rewrite retire_lookup in Hy. apply fmap_Some in Hy as (z & Hz & ->).
    assert (Hzh : healthy_in account project z = true /\ rl_id z ∉ ids).
    { case_bool_decide; [|done]. case_bool_decide; cbn in Hh.
      - apply healthy_in_true in Hh as (_ & _ & ?). done.
      - apply healthy_in_true in Hh as (_ & _ & ?). done. }
    destruct Hzh as [Hzh Hn]. pose proof (Hid _ _ Hz) as Ek.
    destruct (decide (k = release)) as [->|Hne]; [set_solver|].
    apply elem_of_union_r, elem_of_list_to_set, list_elem_of_fmap. exists z. split; [done|].
    assert (Ho : z ∈ others) by (apply in_others; rewrite Ek; eauto).
    rewrite <- (take_drop 2 others) in Ho. apply elem_of_app in Ho as [?|Hd]; [done|].
    exfalso. apply Hn. unfold excess_releases. apply list_elem_of_fmap. eauto.
  - change ({[release]} ∪ list_to_set (map rl_id (firstn 2 others)))
      with (list_to_set (C := gset Uuid) (release :: map rl_id (firstn 2 others))).
    etrans; [apply size_list_to_set_le|]. cbn [length]. rewrite length_map, length_firstn. lia.
Qed.
End Retention.

(** A release that is healthy neither before nor after, or both times, is counted alike. *)
Lemma count_kept d d' account project k x x' :
  releases d !! k = Some x -> releases d' = <[k := x']> (releases d) ->
  healthy_in account project x' = healthy_in account project x ->
  healthy_count d' account project = healthy_count d account project.
Proof.
  intros Hx E Eh. unfold healthy_count. apply Nat2Z.inj. rewrite E, (count_replace _ _ _ x) by done.
  rewrite Eh. lia.
Qed.

Lemma retire_other ids account project (t : gmap Uuid Release) :
  (forall k y, t !! k = Some y -> rl_id y = k) ->
  (forall k y, t !! k = Some y -> k ∈ ids -> healthy_in account project y = false) ->
  count_where (healthy_in account project) (retire_all ids t) = count_where (healthy_in account project) t.
Proof.
  intros Hid Hids. unfold count_where. f_equal. apply map_eq. intros k. unfold retire_all.
  rewrite !map_lookup_filter, lookup_fmap. destruct (t !! k) as [y|] eqn:Hy; cbn; [|done].
  rewrite (Hid _ _ Hy). case_bool_decide as Hk; cbn; [|done]. rewrite (Hids _ _ Hy Hk).
  case_bool_decide; cbn; [|by rewrite (Hids _ _ Hy Hk)].
  destruct (healthy_in account project (retired_release y)) eqn:Eh; [|done].
  by apply healthy_in_true in Eh as (_ & _ & ?).
Qed.

Lemma same_release_id x x' : same_release x x' -> rl_id x' = rl_id x.
Proof. by intros []. Qed.

Lemma failed_unhealthy account project x code : healthy_in account project (failed_release x code) = false.
Proof. unfold healthy_in. cbn. by rewrite andb_false_r. Qed.

Lemma staged_unhealthy account project x : rl_state x = RlStaged -> healthy_in account project x = false.
Proof. unfold healthy_in. intros ->. by rewrite andb_false_r. Qed.

(** ** Steps keep the invariant *)

Lemma route_generation_ext d d' account project :
  routes d' = routes d -> route_generation d' account project = route_generation d account project.
Proof. unfold route_generation, project_route. by intros ->. Qed.

Lemma rl_frame_ok d d' : rl_frame d d' -> rl_ok d -> rl_ok d'.
Proof.
  intros [El Er Ek _ _] [Hl Hk Hr Ho Hro Hc].
  split; unfold healthy_count, healthy_bound, project_route in *; rewrite ?El, ?Er, ?Ek; try done.
  - intros k r [? ? ? ? ? ?]%Hr. split; rewrite ?El; try done. by rewrite (route_generation_ext d).
  - intros project o [? ?]%Hro. split; by rewrite ?El.
Qed.

(** What a step on a reconciliation may do to another row's release. *)
Lemma release_fails_other r r' d d' k x : release_fails r r' d d' -> releases d !! k = Some x ->
  exists x', releases d' !! k = Some x' /\ rl_id x' = rl_id x /\ rl_account x' = rl_account x
    /\ rl_project x' = rl_project x /\ (rl_state x = RlHealthy -> x' = x)
    /\ (k <> rn_release r \/ rn_state r' <> RcFailed -> x' = x).
Proof.
  intros [->|y code _ Hf Hy Hst ->] Hx; [by eauto 10|].
  destruct (decide (k = rn_release r)) as [->|Hne].
  - assert (y = x) as -> by congruence. exists (failed_release x code). rewrite lookup_insert_eq.
    split_and!; try done; [congruence|]. intros []; done.
  - rewrite lookup_insert_ne by done. by eauto 10.
Qed.

Lemma release_fails_count r r' d d' account project : release_fails r r' d d' ->
  healthy_count d' account project = healthy_count d account project.
Proof.
  intros [E|y code _ _ Hy Hst E]; [unfold healthy_count; by rewrite E|].
  eapply count_kept; [done..|]. by rewrite failed_unhealthy, staged_unhealthy.
Qed.

Lemma release_fails_back r r' d d' k x' : release_fails r r' d d' -> releases d' !! k = Some x' ->
  exists x, releases d !! k = Some x /\ rl_id x' = rl_id x.
Proof.
  intros [->|y code _ _ Hy _ ->]; [eauto|]. intros [[-> ->]|[_ ?]]%row_after; eauto.
Qed.

(** The release of any reconciliation after the step. *)
Lemma release_after_fails d d' r r' s : release_fails r r' d d' -> rcn_ok d s ->
  exists x, releases d' !! rn_release s = Some x /\ rl_account x = rn_account s /\ rl_project x = rn_project s
    /\ (active (rn_state s) = true -> rn_release s <> rn_release r \/ rn_state r' <> RcFailed ->
        rl_state x = match rn_kind s with Promote => RlStaged | RollBack => RlHealthy end).
Proof.
  intros Hf [_ _ _ _ _ (x & Hx & Hxa & Hxp & Hxs)].
  destruct (release_fails_other _ _ _ _ _ _ Hf Hx) as (x' & Hx' & _ & E1 & E2 & _ & E3).
  exists x'. rewrite E1, E2. split_and!; try done. intros Hact Hne. rewrite (E3 Hne). by apply Hxs.
Qed.

(** Two reconciliations of one release are of one project. *)
Lemma one_active_release d k k' r s : rl_ok d -> reconciliations d !! k = Some r -> reconciliations d !! k' = Some s ->
  active (rn_state r) = true -> active (rn_state s) = true -> rn_release s = rn_release r -> k = k'.
Proof.
  intros Hok Hr Hs Ar As E. eapply (ok_one_active _ Hok); [done..|].
  destruct (ck_release _ _ (ok_reconciliation _ Hok _ _ Hr)) as (x & Hx & _ & <- & _).
  destruct (ck_release _ _ (ok_reconciliation _ Hok _ _ Hs)) as (y & Hy & _ & <- & _). congruence.
Qed.

Lemma next_rcn_ok F k r r' d d' : rcn_next F r r' -> reconcile_step k r r' d d' -> rcn_ok d r -> rcn_ok d' r'.
Proof.
  intros Hn [_ _ Hs Ero Hf _ _] Hok. pose proof Hs as [Eid Eac Ep Erl Eki Eex _].
  pose proof (release_after_fails _ _ _ _ _ Hf Hok) as (x & Hx & Hxa & Hxp & Hxs).
  destruct Hok as [Hat Hre Hfe Hex Hpr _]. pose proof (next_counters _ _ _ Hn).
  unfold within in *. split; unfold within; try lia.
  - by apply (next_retriable _ _ _ Hn).
  - intros Hact. rewrite (route_generation_ext d) by done. rewrite Eac, Ep, Eex. by eapply Hex, next_active.
  - by eapply next_prepared.
  - rewrite Erl, Eac, Ep, Eki. exists x. split_and!; try done. intros Hact.
    apply Hxs; [by eapply next_active|]. right. intros E. by rewrite E in Hact.
Qed.

Lemma reconcile_step_ok F k r r' d d' :
  rcn_next F r r' -> reconcile_step k r r' d d' -> rl_ok d -> rl_ok d'.
Proof.
  intros Hn Hst Hok. pose proof Hst as [Hb Ea Hs Ero Hf _ _].
  pose proof Hok as [Hl Hk Hr Ho Hro Hc]. pose proof Hs as [Eid _ Ep _ _ _ _].
  split.
  - intros k' x' Hx'. destruct (release_fails_back _ _ _ _ _ _ Hf Hx') as (x & Hx & ->). by apply Hl.
  - intros k' x. rewrite Ea. intros [[-> ->]|[_ ?]]%row_after; [rewrite Eid|]; by apply Hk.
  - intros k' s. rewrite Ea. intros [[-> ->]|[Hne Hsl]]%row_after; [by eapply next_rcn_ok; eauto|].
    destruct (release_after_fails _ _ _ _ _ Hf (Hr _ _ Hsl)) as (x & Hx & Hxa & Hxp & Hxs).
    destruct (Hr _ _ Hsl) as [? ? ? ? ? (y & Hy & _ & _ & Hys)].
    split; try done; [by rewrite (route_generation_ext d)|].
    exists x. split_and!; try done. intros Hact. destruct Hf as [E|z code Hract Hfl _ _ _].
    + rewrite E in Hx. assert (x = y) as -> by congruence. by apply Hys.
    + apply Hxs; [done|]. left. intros E. apply Hne. symmetry. by eapply one_active_release.
  - intros k1 k2 r1 r2. rewrite Ea.
    intros [[-> ->]|[? H1]]%row_after [[-> ->]|[? H2]]%row_after A1 A2 E; [done|..].
    + rewrite Ep in E. eapply Ho; [exact Hb|exact H2|by eapply next_active|done..].
    + rewrite Ep in E. eapply Ho; [exact H1|exact Hb|done|by eapply next_active|done].
    + by eapply Ho.
  - intros project o. rewrite Ero. intros [Hg (x & Hx & Hh)]%Hro. split; [done|].
    destruct (release_fails_other _ _ _ _ _ _ Hf Hx) as (x' & Hx' & _ & _ & _ & E & _).
    apply healthy_in_true in Hh as Hh'. rewrite E in Hx' by apply Hh'. eauto.
  - intros account project. rewrite (release_fails_count _ _ _ _ _ _ Hf).
    unfold healthy_bound, project_route in *. rewrite Ero. by apply Hc.
Qed.

(** A queued reconciliation of a staged or a retained release. *)
Lemma enqueue_release d d' k r : enqueue_step k r d d' -> rl_ok d ->
  (forall k' x, releases d' !! k' = Some x -> rl_id x = k')
  /\ (forall k' x, releases d !! k' = Some x -> releases d' !! k' = Some x)
  /\ (exists x, releases d' !! rn_release r = Some x /\ rl_account x = rn_account r /\ rl_project x = rn_project r
        /\ rl_state x = match rn_kind r with Promote => RlStaged | RollBack => RlHealthy end)
  /\ forall account project, healthy_count d' account project = healthy_count d account project.
Proof.
  intros [_ _ _ _ _ _ _ _ _ [(x & Ek & Hn & E & Ei & Es & Ea & Ep)|(x & Ek & E & Hx & Es & Ea & Ep)] _ _] Hok.
  all: rewrite Ek, E; split_and!; [| | |intros account project]; unfold healthy_count; rewrite ?E; try done.
  - intros k' y [[-> ->]|[_ ?]]%row_after; [done|by apply Hok].
  - intros k' y Hy. rewrite lookup_insert_ne; [done|congruence].
  - exists x. by rewrite lookup_insert_eq.
  - apply Nat2Z.inj. rewrite count_insert_new, staged_unhealthy by done. cbn. lia.
  - apply Hok.
  - by exists x.
Qed.

Lemma route_generation_bounds d account project : rl_ok d -> within 0 max_i64 (route_generation d account project).
Proof.
  intros Hok. unfold route_generation, project_route, within.
  destruct (routes d !! project) as [o|] eqn:E; csimpl; [|by vm_compute].
  unfold where_. destruct (bool_decide _); csimpl; [|by vm_compute].
  destruct (rk_generation _ _ _ (ok_routes _ Hok _ _ E)). lia.
Qed.

Lemma rl_enqueue_step_ok k r d d' : enqueue_step k r d d' -> rl_ok d -> rl_ok d'.
Proof.
  intros Hst Hok. destruct (enqueue_release _ _ _ _ Hst Hok) as (Hl' & Hkeep & Hx & Hcount).
  destruct Hst as [Hn Ea Ei Es Eat Efe Eex Hal Ero _ _ _]. pose proof Hok as [Hl Hk Hr Ho Hro Hc].
  assert (Hold : forall k' s, reconciliations d !! k' = Some s -> rcn_ok d' s).
  { intros k' s [? ? ? ? ? (x & Hx' & ? & ? & ?)]%Hr. split; try done; [by rewrite (route_generation_ext d)|].
    exists x. split_and!; try done. by apply Hkeep. }
  split; [done|..].
  - intros k' x. rewrite Ea. intros [[-> ->]|[_ ?]]%row_after; [done|by apply Hk].
  - intros k' s. rewrite Ea. intros [[-> ->]|[_ Hs]]%row_after; [|by eapply Hold].
    split; rewrite ?Es, ?Eat, ?Efe; try done; unfold within; try (unfold max_i64; lia).
    + intros _. by rewrite (route_generation_ext d), Eex.
    + destruct Hx as (x & ? & ? & ? & ?). eauto 10.
  - intros k1 k2 r1 r2. rewrite Ea.
    intros [[-> ->]|[? H1]]%row_after [[-> ->]|[? H2]]%row_after A1 A2 E; [done|..|by eapply Ho].
    + exfalso. by apply (Hal _ _ H2).
    + exfalso. by apply (Hal _ _ H1).
  - intros project o. rewrite Ero. intros [Hg (x & Hx' & Hh)]%Hro. split; [done|]. eauto.
  - intros account project. rewrite Hcount. unfold healthy_bound, project_route in *. rewrite Ero. apply Hc.
Qed.

(** The releases after an activation of the project of [r]. *)
Section Activation.
Context d d' (k : Uuid) (r r' : Reconciliation) (o : Route) (x x' : Release).
Context (Hst : activate_step k r r' o x x' d d') (Hok : rl_ok d).

Notation promoted_table := (promoted_releases d (rn_release r) x').
Notation ids := (excess_releases (set_releases promoted_table d) (rn_account r) (rn_project r) (rn_release r)).

Lemma activated_of : rl_account x = rn_account r /\ rl_project x = rn_project r.
Proof.
  destruct (ck_release _ _ (ok_reconciliation _ Hok _ _ (as_before _ _ _ _ _ _ _ _ Hst))) as (y & Hy & ? & ? & _).
  destruct (as_release _ _ _ _ _ _ _ _ Hst) as (Hx & _). assert (y = x) as -> by congruence. done.
Qed.

Lemma promoted_healthy : healthy_in (rn_account r) (rn_project r) x' = true.
Proof.
  destruct (as_release _ _ _ _ _ _ _ _ Hst) as (_ & [_ Ea Ep _ _ _ _ _ _ _ _] & Hs).
  apply healthy_in_true. rewrite Ea, Ep. split_and!; [apply activated_of..|done].
Qed.

Lemma promoted_ids : forall j y, promoted_table !! j = Some y -> rl_id y = j.
Proof.
  intros j y [[-> ->]|[_ ?]]%row_after; [|by apply Hok].
  destruct (as_release _ _ _ _ _ _ _ _ Hst) as (Hx & [-> _ _ _ _ _ _ _ _ _ _] & _). by apply Hok.
Qed.

Lemma excess_of_project j y : promoted_table !! j = Some y -> j ∈ ids ->
  healthy_in (rn_account r) (rn_project r) y = true /\ j <> rn_release r.
Proof.
  intros Hy Hj. apply (excess_are_others (set_releases promoted_table d) _ _ _ promoted_ids) in Hj as (z & Hz & ? & ?).
  cbn [releases set_releases] in Hz. assert (z = y) as -> by congruence. done.
Qed.

(** A release before is one after, changed in the project of [r] only. *)
Lemma activated_release j y : releases d !! j = Some y ->
  exists y', releases d' !! j = Some y' /\ rl_id y' = rl_id y /\ rl_account y' = rl_account y
    /\ rl_project y' = rl_project y /\ (rl_project y <> rn_project r -> y' = y).
Proof.
  intros Hy. rewrite (as_releases _ _ _ _ _ _ _ _ Hst), retire_lookup.
  destruct (as_release _ _ _ _ _ _ _ _ Hst) as (Hx & Hsame & _). unfold promoted_releases.
  destruct (decide (j = rn_release r)) as [->|Hne].
  - assert (y = x) as -> by congruence. rewrite lookup_insert_eq. cbn. destruct Hsame as [Ei Ea Ep _ _ _ _ _ _ _ _].
    eexists. split; [done|]. destruct (_ && _); cbn; (split_and!; try done; intros []; apply activated_of).
  - rewrite lookup_insert_ne, Hy by done. cbn. eexists. split; [done|].
    case_bool_decide as Hin; cbn; [|done]. case_bool_decide; cbn; [|done]. split_and!; try done.
    intros []. assert (Hyp : promoted_table !! j = Some y) by (unfold promoted_releases; by rewrite lookup_insert_ne).
    rewrite (promoted_ids _ _ Hyp) in Hin. apply (excess_of_project _ _ Hyp) in Hin as [Hh _].
    by apply healthy_in_true in Hh as (_ & ? & _).
Qed.

Lemma activated_current : releases d' !! rn_release r = Some x'.
Proof.
  rewrite (as_releases _ _ _ _ _ _ _ _ Hst), retire_lookup. unfold promoted_releases. rewrite lookup_insert_eq. cbn.
  assert (Hx' : promoted_table !! rn_release r = Some x') by apply lookup_insert_eq.
  rewrite (promoted_ids _ _ Hx'). case_bool_decide as Hin; [|done].
  by apply (excess_of_project _ _ Hx') in Hin as [_ ?].
Qed.

Lemma activated_back j y' : releases d' !! j = Some y' -> rl_id y' = j.
Proof.
  rewrite (as_releases _ _ _ _ _ _ _ _ Hst), retire_lookup. intros (z & Hz & ->)%fmap_Some.
  apply promoted_ids in Hz as <-. by destruct (_ && _).
Qed.

Lemma activated_count account project :
  healthy_count d' account project =
    if decide (account = rn_account r /\ project = rn_project r)
    then healthy_count d' (rn_account r) (rn_project r) else healthy_count d account project.
Proof.
  case_decide as E; [by destruct E as [-> ->]|].
  unfold healthy_count. rewrite (as_releases _ _ _ _ _ _ _ _ Hst), retire_other.
  - destruct (as_release _ _ _ _ _ _ _ _ Hst) as (Hx & Hsame & _).
    unfold promoted_releases. apply Nat2Z.inj. rewrite (count_replace _ _ _ x) by done.
    assert (Hne : forall z, rl_account z = rn_account r -> rl_project z = rn_project r -> healthy_in account project z = false).
    { intros z Ea Ep. destruct (healthy_in account project z) eqn:Eh; [|done].
      apply healthy_in_true in Eh as (<- & <- & _). by destruct E. }
    destruct activated_of as [Ea Ep]. destruct Hsame as [_ Ea' Ep' _ _ _ _ _ _ _ _].
    rewrite !Hne by congruence. cbn. lia.
  - apply promoted_ids.
  - intros j y Hy Hj. apply (excess_of_project _ _ Hy) in Hj as [Hh _].
    destruct (healthy_in account project y) eqn:Eh; [|done].
    apply healthy_in_true in Hh as (Ea & Ep & _), Eh as (Ea' & Ep' & _). destruct E. by rewrite <- Ea', <- Ep'.
Qed.

Lemma activated_route project : project <> rn_project r -> routes d' !! project = routes d !! project.
Proof. intros Hne. rewrite (as_routes _ _ _ _ _ _ _ _ Hst). by rewrite lookup_insert_ne. Qed.

Lemma activated_retained account project :
  (healthy_count d' account project <= healthy_bound d' account project)%nat.
Proof.
  pose proof (ok_retained _ Hok account project) as Hold.
  rewrite activated_count. unfold healthy_bound, project_route in *. case_decide as E.
  - destruct E as [-> ->]. rewrite (as_routes _ _ _ _ _ _ _ _ Hst), lookup_insert_eq. csimpl.
    unfold where_. destruct (as_route _ _ _ _ _ _ _ _ Hst) as [-> _]. rewrite bool_decide_eq_true_2 by done. csimpl.
    unfold healthy_count. rewrite (as_releases _ _ _ _ _ _ _ _ Hst).
    apply (retained_at_most_three (set_releases promoted_table d)), promoted_ids.
  - destruct (decide (project = rn_project r)) as [->|Hp]; [|by rewrite activated_route].
    rewrite (as_routes _ _ _ _ _ _ _ _ Hst), lookup_insert_eq. csimpl.
    destruct (as_route _ _ _ _ _ _ _ _ Hst) as [-> _]. unfold where_. rewrite bool_decide_eq_false_2 by naive_solver.
    csimpl. destruct (routes d !! rn_project r) as [o'|] eqn:Ho'; csimpl in Hold; [|done].
    rewrite (as_owner _ _ _ _ _ _ _ _ Hst _ Ho') in Hold. unfold where_ in Hold.
    rewrite bool_decide_eq_false_2 in Hold by naive_solver. done.
Qed.
End Activation.

Lemma activate_step_ok k r r' o x x' d d' : activate_step k r r' o x x' d d' -> rl_ok d -> rl_ok d'.
Proof.
  intros Hst Hok. pose proof (activated_release _ _ _ _ _ _ _ _ Hst Hok) as Hrel.
  pose proof (activated_route _ _ _ _ _ _ _ _ Hst) as Hroute.
  pose proof Hst as [Hb Es Es' Ea Hs Eat Efe Eex _ _ (Hoa & Hor & Hog & Hpos) _ _ _ _].
  pose proof Hok as [Hl Hk Hr Ho Hro Hc]. pose proof Hs as [Eid Eac Ep Erl Eki Eex' _].
  assert (Hact : active (rn_state r) = true) by by rewrite Es.
  split.
  - by apply (activated_back _ _ _ _ _ _ _ _ Hst).
  - intros k' s. rewrite Ea. intros [[-> ->]|[_ ?]]%row_after; [rewrite Eid|]; by apply Hk.
  - intros k' s. rewrite Ea. intros [[-> ->]|[Hne Hsl]]%row_after.
    + destruct (Hr _ _ Hb) as [? _ ? _ _ (y & Hy & ? & ? & _)].
      split; rewrite ?Es', ?Eat, ?Efe; try done. destruct (Hrel _ _ Hy) as (y' & ? & _ & ? & ? & _).
      exists y'. rewrite Erl, Eac, Ep. split_and!; try done; congruence.
    + destruct (Hr _ _ Hsl) as [? ? ? Hex ? (y & Hy & ? & Eyp & ?)].
      destruct (Hrel _ _ Hy) as (y' & Hy' & _ & ? & ? & Ey).
      assert (Hne' : active (rn_state s) = true -> rn_project s <> rn_project r).
      { intros As E. apply Hne. by eapply Ho. }
      split; try done.
      * intros As. unfold route_generation, project_route. rewrite Hroute by by apply Hne'. by apply Hex.
      * exists y'. split_and!; [done|congruence|congruence|].
        intros As. rewrite Ey by (rewrite Eyp; by apply Hne'). auto.
  - intros k1 k2 r1 r2. rewrite Ea.
    intros [[-> ->]|[? H1]]%row_after [[-> ->]|[? H2]]%row_after A1 A2 E; [done|..|by eapply Ho].
    + by rewrite Es' in A1.
    + by rewrite Es' in A2.
  - intros project q Hq. destruct (decide (project = rn_project r)) as [->|Hne].
    + rewrite (as_routes _ _ _ _ _ _ _ _ Hst), lookup_insert_eq in Hq. injection Hq as <-. split.
      * rewrite Hog in Hpos |- *. pose proof (route_generation_bounds d (rn_account r) (rn_project r) Hok) as Hg.
        rewrite Eex in Hg. unfold within in *. destruct (wrap_i64_succ _ Hg Hpos) as [-> ?]. lia.
      * exists x'. rewrite Hoa, Hor. split; [by eapply activated_current|by eapply promoted_healthy].
    + rewrite Hroute in Hq by done. destruct (Hro _ _ Hq) as [? (y & Hy & Hh)].
      split; [done|]. destruct (Hrel _ _ Hy) as (y' & Hy' & _ & _ & _ & Ey). exists y'.
      apply healthy_in_true in Hh as Hh'. rewrite Ey in Hy' |- * by (destruct Hh' as (_ & -> & _); done). done.
  - by apply (activated_retained _ _ _ _ _ _ _ _ Hst).
Qed.

Lemma rl_step_ok d d' : rl_step d d' -> rl_ok d -> rl_ok d'.
Proof.
  intros [H|k r r' Hn H|k r H|k r r' o x x' H].
  - by apply rl_frame_ok.
  - by eapply reconcile_step_ok.
  - by eapply rl_enqueue_step_ok.
  - by eapply activate_step_ok.
Qed.

Lemma rl_steps_ok d d' : rtc rl_step d d' -> rl_ok d -> rl_ok d'.
Proof. induction 1; eauto using rl_step_ok. Qed.
End Spec.
