(* ===== verification/ReleaseSteps.v ===== *)
(** * Releases: the handlers refine the specification

    Every handler, whatever its result, takes only steps of [rl_step]. *)

From stdpp Require Import base list option gmap strings relations sorting.
From Stdlib Require Import ZArith Lia Ascii.
From S2P Require Import Prelude RustText Bytes PgTx Intent Secrets Admission PolicyClock.
From S2P Require Import ExecutionTables BuildTables Credentials RuntimeEvidence Runtime.
From S2P Require Import ReleaseTables ReleaseEvidence ReleaseReceipts Migrations Releases ReleaseSpec.

Local Open Scope string_scope.
Local Open Scope list_scope.

Section Statements.
Context {P : Type}.
Implicit Types (d : RlDb P) (w : World (RlDb P)).

#[export] Instance rl_frame_preorder : PreOrder (rl_frame (P := P)).
Proof.
  split; [intros d; split; try done; by intros o|]. intros d1 d2 d3 [? ? ? ? H1] [? ? ? ? H2].
  split; [congruence..|by etrans|]. intros o Ho. by apply H2, H1.
Qed.

(** ** What leaves releases, routes and reconciliations alone *)

Lemma frame_same d d' : releases d' = releases d -> routes d' = routes d -> reconciliations d' = reconciliations d ->
  release_events d' = release_events d -> tables d' = tables d -> rl_frame d d'.
Proof.
  intros E1 E2 E3 E4 E5. split; [done..|by rewrite E4|].
  intros o. unfold operation_succeeded, operations. by rewrite E5.
Qed.

Lemma frame_put d' : (forall w, rl_frame (db w) d') -> keeps rl_frame (put_db (D := RlDb P) d').
Proof. intros H env w r w' [= _ <-]. apply H. Qed.

(** A statement that reads the database and writes a new one. *)
Lemma keeps_update {A} (o : RlDb P -> option A) (f : RlDb P -> A -> RlDb P) :
  (forall d a, o d = Some a -> rl_frame d (f d a)) ->
  keeps rl_frame (d <~ get_db;; a <~ sql (o d);; put_db (f d a)).
Proof.
  intros Hf env w r w'. unfold tbind, get_db, sql, put_db. destruct (o (db w)) as [a|] eqn:E; cbn.
  - intros [= _ <-]. by apply Hf.
  - by intros [= _ <-].
Qed.

Lemma update_attempt_frame id cond f : keeps rl_frame (update_attempt (P := P) id cond f).
Proof. apply keeps_update. intros d a _. by apply frame_same. Qed.

Lemma end_attempt_frame rcn q state code hash : keeps rl_frame (end_attempt (P := P) rcn q state code hash).
Proof. unfold end_attempt. keeps_step. apply update_attempt_frame. Qed.

Lemma insert_archive_frame a : keeps rl_frame (insert_archive (P := P) a).
Proof. apply keeps_update. intros d r _. by apply frame_same. Qed.

Lemma insert_operation_frame o : keeps rl_frame (insert_operation (P := P) o).
Proof.
  unfold insert_operation. keeps_step.
  apply (keeps_update (fun d => insert_pk _ _ _ (database_operations (tables d)))). intros d t Hi.
  apply insert_pk_Some in Hi as (Hn & _ & ->). split; try done. intros k (x & Hx & Hs).
  exists x. split; [|done]. unfold operations in *. cbn. rewrite lookup_insert_ne; [done|congruence].
Qed.

Lemma update_migration_frame id cond f : keeps rl_frame (update_migration (P := P) id cond f).
Proof.
  unfold update_migration. intros env w r w'. unfold tbind, get_db, sql, put_db, tret.
  destruct (update_pk _ _ _ _ _) as [[t n]|]; intros [= _ <-]; [|done]. by apply frame_same.
Qed.

Lemma insert_release_event_frame account project release key kind generation evidence :
  keeps rl_frame (insert_release_event (P := P) account project release key kind generation evidence).
Proof.
  unfold insert_release_event. do 2 keeps_step. intros env w r w'. unfold tbind, get_db, sql, put_db, tret.
  destruct (where_ _); cbn; [|by intros [= _ <-]].
  destruct (release_events _ !! _) eqn:E; intros [= _ <-]; [done|].
  split; try done; cbn; [by apply insert_subseteq|by intros o].
Qed.

Lemma rl_policy_now_frame m3 : keeps rl_frame (policy_now (D := RlDb P) m3).
Proof.
  unfold policy_now, policy_time. keeps_step; [|keeps_step].
  do 3 keeps_step. destruct (policy_clock _); [|keeps_step].
  keeps_step; [|case_match; keeps_step].
  intros env0 w0 r0 w0' Hm. unfold upsert_clock, tbind, get_db, put_db, tret, raise in Hm.
  repeat case_match; simplify_eq; try done; by apply frame_same.
Qed.

Lemma store_replay_frame actor operation key hash status (b : ReleaseResponse) :
  keeps rl_frame (store_replay (D := RlDb P) actor operation key hash status b).
Proof.
  apply (keeps_update (fun d => insert_pk _ _ _ (idempotency_records d))). intros d t _. by apply frame_same.
Qed.

Lemma rl_audit_frame actor session et tt ti oc :
  keeps rl_frame (audit (D := RlDb P) actor session et tt ti oc).
Proof. intros env w r w' [= _ <-]. by apply frame_same. Qed.
Lemma keeps_atomic {A} (m : M (RlDb P) (res ApiError A)) : keeps rl_frame m -> keeps rl_frame (transaction m).
Proof. intros Hm. apply keeps_transaction; [apply _|]. intros env w r w'. apply Hm. Qed.
End Statements.

Create HintDb frame.
#[export] Hint Resolve update_attempt_frame end_attempt_frame insert_archive_frame insert_operation_frame
  update_migration_frame insert_release_event_frame rl_policy_now_frame store_replay_frame rl_audit_frame : frame.

(** Walk through a computation whose statements are all of the frame. *)
Ltac frame_walk :=
  repeat (intros; lazymatch goal with
  | |- keeps _ (tbind (lift _) _) => apply keeps_lift; [apply _|intros ? ?]
  | |- keeps _ (tbind (reject_if _ _) _) => apply keeps_reject; [apply _|intros ?]
  | |- keeps _ (tbind _ _) => apply keeps_bind; [apply _|first [keeps_ro|solve [auto with frame]|idtac]|intros ?]
  | |- keeps _ (transaction _) => apply keeps_atomic
  | |- keeps _ ?m =>
      first [ keeps_ro | solve [auto with frame]
            | match m with context [match ?x with _ => _ end] => destruct x end ]
  end).

(** ** What the other statements write *)

Section Writes.
Context {P : Type}.
Implicit Types (d : RlDb P) (w : World (RlDb P)).

Lemma set_releases_id d : set_releases (releases d) d = d.
Proof. by destruct d. Qed.

Lemma update_reconciliation_Ok id f env w w' u r :
  reconciliations (db w) !! id = Some r -> update_reconciliation id f env w = (Ok u, w') ->
  reconciliation_check (f r) = true /\ db w' = set_reconciliations (<[id := f r]> (reconciliations (db w))) (db w).
Proof.
  intros Hr. unfold update_reconciliation. intros Hm.
  apply tbind_Ok in Hm as (d & w1 & [-> ->]%get_db_Ok & Hm).
  apply tbind_Ok in Hm as ([t n] & w2 & [Hup ->]%sql_Ok & ->%put_db_Ok). cbn [db fst].
  apply update_pk_Some in Hup as [(_ & _ & Hc)|(_ & r1 & r2 & Hr1 & _ & [= <-] & Hk & ->)].
  - by specialize (Hc _ Hr).
  - assert (r1 = r) as -> by congruence. by apply andb_true_iff in Hk as [? _].
Qed.

Lemma update_release_Ok id cond f env w w' u x :
  releases (db w) !! id = Some x -> update_release id cond f env w = (Ok u, w') ->
  db w' = if cond x then set_releases (<[id := f x]> (releases (db w))) (db w) else db w.
Proof.
  intros Hx. unfold update_release. intros Hm.
  apply tbind_Ok in Hm as (d & w1 & [-> ->]%get_db_Ok & Hm).
  apply tbind_Ok in Hm as ([t n] & w2 & [Hup ->]%sql_Ok & ->%put_db_Ok). cbn [db fst].
  apply update_pk_Some in Hup as [(-> & _ & Hc)|(_ & x1 & x2 & Hx1 & Hc & [= <-] & Hk & ->)].
  - rewrite (Hc _ Hx). apply set_releases_id.
  - assert (x1 = x) as -> by congruence. by rewrite Hc.
Qed.

Lemma update_release_absent id cond f env w w' u :
  releases (db w) !! id = None -> update_release id cond f env w = (Ok u, w') -> db w' = db w.
Proof.
  intros Hx. unfold update_release. intros Hm.
  apply tbind_Ok in Hm as (d & w1 & [-> ->]%get_db_Ok & Hm).
  apply tbind_Ok in Hm as ([t n] & w2 & [Hup ->]%sql_Ok & ->%put_db_Ok). cbn [db fst].
  unfold update_pk in Hup. rewrite Hx in Hup. injection Hup as <- <-. apply set_releases_id.
Qed.

Lemma fail_release_Ok id code env w w' u : fail_release id code env w = (Ok u, w') ->
  exists t, db w' = set_releases t (db w) /\ (t = releases (db w) \/ exists x, releases (db w) !! id = Some x
    /\ rl_state x = RlStaged /\ t = <[id := failed_release x code]> (releases (db w))).
Proof.
  unfold fail_release. intros Hm. destruct (releases (db w) !! id) as [x|] eqn:Hx.
  - apply (update_release_Ok _ _ _ _ _ _ _ _ Hx) in Hm. unfold staged in Hm. case_bool_decide.
    + eexists. split; [exact Hm|]. right. eauto.
    + exists (releases (db w)). rewrite Hm, set_releases_id. auto.
  - apply (update_release_absent _ _ _ _ _ _ _ Hx) in Hm. exists (releases (db w)). rewrite Hm, set_releases_id. auto.
Qed.

Lemma release_update_attempt_Ok id cond f env w w' u :
  update_attempt id cond f env w = (Ok u, w') -> exists t, db w' = set_release_attempts t (db w).
Proof.
  unfold update_attempt. intros Hm. apply tbind_Ok in Hm as (d & w1 & [-> ->]%get_db_Ok & Hm).
  apply tbind_Ok in Hm as ([t n] & w2 & [_ ->]%sql_Ok & ->%put_db_Ok). by eexists.
Qed.

Lemma rl_end_attempt_Ok rcn q state code hash env w w' u :
  end_attempt rcn q state code hash env w = (Ok u, w') -> exists t, db w' = set_release_attempts t (db w).
Proof.
  unfold end_attempt. intros Hm. apply tbind_Ok in Hm as (t & w1 & [_ ->]%clock_Ok & Hm).
  by apply release_update_attempt_Ok in Hm.
Qed.

Lemma insert_reconciliation_Ok r env w w' u : insert_reconciliation r env w = (Ok u, w') ->
  reconciliations (db w) !! rn_id r = None /\ reconciliation_unique (reconciliations (db w)) r = true
  /\ db w' = set_reconciliations (<[rn_id r := r]> (reconciliations (db w))) (db w).
Proof.
  unfold insert_reconciliation. intros Hm. apply tbind_Ok in Hm as (d & w1 & [-> ->]%get_db_Ok & Hm).
  apply tbind_Ok in Hm as (t & w2 & [Hi ->]%sql_Ok & ->%put_db_Ok).
  apply insert_pk_Some in Hi as (? & Hc & ->). by apply andb_true_iff in Hc as [_ ?].
Qed.

Lemma insert_release_Ok x env w w' u : insert_release x env w = (Ok u, w') ->
  releases (db w) !! rl_id x = None /\ db w' = set_releases (<[rl_id x := x]> (releases (db w))) (db w).
Proof.
  unfold insert_release. intros Hm. apply tbind_Ok in Hm as (d & w1 & [-> ->]%get_db_Ok & Hm).
  apply tbind_Ok in Hm as (t & w2 & [Hi ->]%sql_Ok & ->%put_db_Ok).
  by apply insert_pk_Some in Hi as (? & _ & ->).
Qed.

Lemma frame_Ok {A} (m : M (RlDb P) A) env w a w' :
  keeps rl_frame m -> m env w = (Ok a, w') -> rl_frame (db w) (db w').
Proof. intros H. apply H. Qed.
End Writes.

(** ** By steps *)

Section Steps.
Context (Y : ReleaseExternals) {P : Type}.
Implicit Types (d : RlDb P) (w : World (RlDb P)).

Definition by_steps d d' : Prop := rl_ok Y d -> rtc (rl_step Y) d d'.

#[export] Instance by_steps_preorder : PreOrder by_steps.
Proof.
  split; [intros d _; constructor|]. intros d1 d2 d3 H1 H2 Hok.
  etrans; [by apply H1|]. apply H2. by eapply rl_steps_ok; [apply H1|].
Qed.

Lemma rl_one_step d d' : (rl_ok Y d -> rl_step Y d d') -> by_steps d d'.
Proof. intros H Hok. by apply rtc_once, H. Qed.

Lemma rl_frame_by_steps d d' : rl_frame d d' -> by_steps d d'.
Proof. intros H. apply rl_one_step. intros _. by apply step_frame. Qed.

Lemma keeps_frame {A} (m : M (RlDb P) A) : keeps rl_frame m -> keeps by_steps m.
Proof. intros Hm env w r w' H. by eapply rl_frame_by_steps, Hm. Qed.

(** The reconciliation changes, and with it a release that is staged and fails. *)
Lemma reconcile_by_steps d d' k r r' t :
  reconciliations d !! k = Some r -> same_reconciliation r r' -> rcn_next Y (operation_failed d r) r r' ->
  d' = set_releases t (set_reconciliations (<[k := r']> (reconciliations d)) d) ->
  (t = releases d \/ active (rn_state r) = true /\ rn_state r' = RcFailed /\ exists x code, releases d !! rn_release r = Some x
    /\ rl_state x = RlStaged /\ t = <[rn_release r := failed_release x code]> (releases d)) ->
  rl_step Y d d'.
Proof.
  intros Hr Hs Hn -> Ht. eapply step_reconcile; [exact Hn|]. split; try done.
  - destruct Ht as [->|(Ha & Hf & x & code & ? & ? & ->)]; [by apply fails_not|by eapply fails_staged].
  - by intros o.
Qed.

(** ... alone. *)
Lemma touch_by_steps d d' k r r' :
  reconciliations d !! k = Some r -> same_reconciliation r r' -> rcn_next Y (operation_failed d r) r r' ->
  d' = set_reconciliations (<[k := r']> (reconciliations d)) d -> rl_step Y d d'.
Proof.
  intros Hr Hs Hn ->. apply (reconcile_by_steps _ _ k r r' (releases d)); [done..| |by left]. by destruct d.
Qed.
End Steps.

(** The plan of probes draws identifiers only. *)
Section Plan.
Context {D : Type}.

Lemma ro_collect {A B} (f : A -> M D (list B)) l : (forall a, read_only (f a)) -> read_only (collect f l).
Proof. intros Hf. induction l as [|a l IH]; cbn [collect]; read_only; auto. Qed.

Lemma ro_probe kind release peer runtime receipt c :
  read_only (D := D) (probe kind release peer runtime receipt c).
Proof. unfold probe. read_only. Qed.

Lemma ro_required_probes candidate current retained c :
  read_only (D := D) (required_probes candidate current retained c).
Proof.
  unfold required_probes, health_probes, data_probes, overlap_probes, pair_probes.
  repeat first [progress read_only | apply ro_collect | apply ro_probe].
Qed.
End Plan.

Lemma next_fence f : within 0 max_i64 f -> (0 <= wrap_i64 (f + 1))%Z ->
  wrap_i64 (f + 1) = (f + 1)%Z /\ (f + 1 <= max_i64)%Z.
Proof.
  unfold within, wrap_i64, max_i64. intros Hv Hpos.
  destruct (decide (f = 9223372036854775807)%Z) as [->|Hne]; [by vm_compute in Hpos|].
  rewrite Z.mod_small by lia. lia.
Qed.

Section Handlers.
Context {P : Type} `{FactRefresh P}.
Context (Y : ReleaseExternals) (st : ReleaseConfig).
Implicit Types (d : RlDb P) (w : World (RlDb P)).

Notation steps := (by_steps (P := P) Y).

(** ** The loops at the head of a lease *)

Section Loop.
Context {A : Type} (f : A -> M (RlDb P) unit) (key : A -> Uuid) (Q : RlDb P -> A -> Prop).
Context (Hf : forall a env w w' u, Q (db w) a -> f a env w = (Ok u, w') ->
  by_steps Y (db w) (db w') /\ forall b, key b <> key a -> Q (db w) b -> Q (db w') b).

Lemma for_each_steps l env w w' u :
  NoDup (map key l) -> (forall a, a ∈ l -> Q (db w) a) -> for_each f l env w = (Ok u, w') ->
  by_steps Y (db w) (db w').
Proof.
  revert w. induction l as [|a l IH]; intros w Hnd Hq; cbn [for_each].
  - by intros [_ ->]%tret_Ok.
  - apply NoDup_cons in Hnd as [Hn Hnd]. intros Hm. apply tbind_Ok in Hm as (v & w1 & Ha & Hm).
    destruct (Hf _ _ _ _ _ (Hq a (list_elem_of_here _ _)) Ha) as [Hs Hother].
    etrans; [exact Hs|]. apply (IH w1); [done| |done]. intros b Hb. apply Hother.
    + intros E. apply Hn. rewrite <- E. apply list_elem_of_fmap. eauto.
    + apply Hq. by right.
Qed.
End Loop.

Lemma reconciliation_keys d : rl_ok Y d -> NoDup (map rn_id (map snd (map_to_list (reconciliations d)))).
Proof.
  intros Hok. rewrite map_map.
  replace (map (fun kr => rn_id kr.2) (map_to_list (reconciliations d)))
    with ((map_to_list (reconciliations d)).*1); [apply NoDup_fst_map_to_list|].
  apply map_ext_in. intros [k r] Hin%list_elem_of_In. apply elem_of_map_to_list in Hin.
  symmetry. by apply (ok_reconciliation_id _ _ Hok).
Qed.

Lemma NoDup_map_sublist {A B} (g : A -> B) (l l' : list A) :
  l `sublist_of` l' -> NoDup (map g l') -> NoDup (map g l).
Proof. intros Hs Hnd. eapply sublist_NoDup; [exact Hnd|]. by apply fmap_sublist. Qed.

(** A running reconciliation whose lease is over. *)
Definition running_row d (r : Reconciliation) : Prop :=
  reconciliations d !! rn_id r = Some r /\ rn_state r = RcRunning.

Lemma expire_one_step r env w w' u : running_row (db w) r -> expire_one r env w = (Ok u, w') ->
  by_steps Y (db w) (db w') /\ forall b, rn_id b <> rn_id r -> running_row (db w) b -> running_row (db w') b.
Proof.
  intros [Hr Hs]. unfold expire_one. intros Hm.
  apply tbind_Ok in Hm as (attempt & w1 & [_ ->]%sql_Ok & Hm).
  apply tbind_Ok in Hm as (t & w2 & [_ ->]%clock_Ok & Hm).
  apply tbind_Ok in Hm as (? & w3 & (ats & E3)%release_update_attempt_Ok & Hm). cbn [db] in E3.
  apply tbind_Ok in Hm as (? & w4 & H4 & Hm).
  assert (Hr3 : reconciliations (db w3) !! rn_id r = Some r) by (by rewrite E3).
  apply (update_reconciliation_Ok _ _ _ _ _ _ _ Hr3) in H4 as [_ E4].
  set (r' := ended r (if exhausted r then RcFailed else RcRetriable) "lease_expired" (rn_result r)) in E4.
  assert (Hfin : exists t, db w' = set_releases t (db w4) /\ (t = releases (db w4) \/ exhausted r = true
    /\ exists x code, releases (db w4) !! rn_release r = Some x
    /\ rl_state x = RlStaged /\ t = <[rn_release r := failed_release x code]> (releases (db w4)))).
  { destruct (exhausted r && _) eqn:Ex.
    - apply andb_true_iff in Ex as [Ex _]. apply fail_release_Ok in Hm as (t' & E5 & Ht).
      exists t'. split; [done|]. destruct Ht as [?|(rel & Hrel)]; [by left|]. right. eauto.
    - apply tret_Ok in Hm as [_ ->]. exists (releases (db w4)). rewrite set_releases_id. auto. }
  destruct Hfin as (t' & E5 & Ht). split.
  - etrans; [apply rl_frame_by_steps; apply (frame_same _ (db w3)); by rewrite E3|].
    apply rl_one_step. intros _. apply (reconcile_by_steps _ _ _ (rn_id r) r r' t'); [done|done| |by rewrite E5, E4|].
    + apply rn_end; try done; unfold r', ended, with_reconciliation, exhausted; cbn.
      * by destruct (MAX_ATTEMPTS <=? rn_attempts r)%Z.
      * unfold MAX_ATTEMPTS. destruct (6 <=? rn_attempts r)%Z eqn:E; [done|]. intros _. bool_simpl. lia.
    + destruct Ht as [->|(Ex & rel & code & Hx & Hst & ->)]; rewrite E4 in *; [by left|]. right.
      split_and!; [by rewrite Hs|unfold r', ended; cbn; by rewrite Ex|]. eauto.
  - intros b Hne [Hb Hbs]. split; [|done]. rewrite E5, E4. cbn. rewrite lookup_insert_ne by done. by rewrite E3.
Qed.

Lemma expired_rows d now locked : rl_ok Y d ->
  NoDup (map rn_id (expired_reconciliations d now locked))
  /\ forall r, r ∈ expired_reconciliations d now locked -> running_row d r.
Proof.
  intros Hok. unfold expired_reconciliations. split.
  - eapply NoDup_map_sublist; [apply sublist_take|].
    eapply NoDup_Permutation_proper; [apply fmap_Permutation, merge_sort_Permutation|].
    eapply NoDup_map_sublist; [apply sublist_filter|]. by apply reconciliation_keys.
  - intros r Hr%(subseteq_take 64). rewrite merge_sort_Permutation in Hr.
    apply list_elem_of_filter in Hr as [Hc ([k r'] & -> & Hin%elem_of_map_to_list)%list_elem_of_fmap].
    cbn in *. bool_simpl. split; [by rewrite (ok_reconciliation_id _ _ Hok _ _ Hin)|done].
Qed.

Lemma expire_steps env w w' u : expire_reconciliations env w = (Ok u, w') -> by_steps Y (db w) (db w').
Proof.
  unfold expire_reconciliations. intros Hm Hok. apply tbind_Ok in Hm as (now & w1 & [_ ->]%clock_Ok & Hm).
  apply tbind_Ok in Hm as (locked & w2 & [_ ->]%locked_rows_Ok & Hm).
  apply tbind_Ok in Hm as (d & w3 & [-> ->]%get_db_Ok & Hm). cbn [db] in Hm.
  destruct (expired_rows _ now locked Hok) as [Hnd Hrows]. revert Hok.
  exact (for_each_steps _ rn_id running_row expire_one_step _ _ (MkWorld _ _ _) _ _ Hnd Hrows Hm).
Qed.

(** A reconciliation that waits for an operation that has failed. *)
Definition waiting_row d (f : Reconciliation * string) : Prop :=
  reconciliations d !! rn_id f.1 = Some f.1 /\ awaiting (rn_state f.1) = true /\ operation_failed d f.1.

Lemma failed_migration_row d k r code : rl_ok Y d -> reconciliations d !! k = Some r ->
  failed_migration d r = Some code -> waiting_row d (r, code).
Proof.
  intros Hok Hr. unfold failed_migration. intros (x & Hx & Hm)%bind_Some.
  apply bind_Some in Hm as (m & Hm & Ho). apply bind_Some in Ho as (o & Ho & Hw).
  apply bind_Some in Ho as (op & Hop & Hlook). apply bind_Some in Hw as (? & Hst & Hk).
  unfold where_ in Hst. destruct (one_of _ _) eqn:E; [|done].
  split_and!; cbn; [by rewrite (ok_reconciliation_id _ _ Hok _ _ Hr)|by destruct (rn_state r), (do_kind o)|].
  exists op, o. done.
Qed.

Lemma fail_migration_one_step f env w w' u : waiting_row (db w) f -> fail_migration_one f env w = (Ok u, w') ->
  by_steps Y (db w) (db w') /\ forall b, rn_id b.1 <> rn_id f.1 -> waiting_row (db w) b -> waiting_row (db w') b.
Proof.
  destruct f as [r code]. intros (Hr & Hs & Ho). unfold fail_migration_one. cbn [fst] in *. intros Hm.
  apply tbind_Ok in Hm as (? & w1 & H1 & Hm).
  apply (update_reconciliation_Ok _ _ _ _ _ _ _ Hr) in H1 as [_ E1].
  apply fail_release_Ok in Hm as (t & E2 & Ht). split.
  - apply rl_one_step. intros _. eapply (reconcile_by_steps _ _ _ (rn_id r) r _ t); [done| | |by rewrite E2, E1|].
    + done.
    + by apply rn_fail.
    + destruct Ht as [->|(rel & Hx & Hst & ->)]; rewrite E1 in *; [by left|]. right. split_and!; [|done|eauto].
      unfold active, awaiting, one_of in *. by destruct (rn_state r).
  - intros [b c] Hne (Hb & Hbs & o & op & Ho1 & Ho2 & Ho3). cbn [fst] in *.
    split_and!; [|done|]; cbn; rewrite E2, E1; [cbn; by rewrite lookup_insert_ne|]. by exists o, op.
Qed.

Lemma fail_migrations_steps env w w' u : fail_migration_reconciliations env w = (Ok u, w') -> by_steps Y (db w) (db w').
Proof.
  unfold fail_migration_reconciliations. intros Hm Hok. apply tbind_Ok in Hm as (d & w1 & [-> ->]%get_db_Ok & Hm).
  refine (for_each_steps _ (fun f => rn_id f.1) waiting_row fail_migration_one_step _ _ _ _ _ _ _ Hm Hok).
  - assert (Hsub : forall l : list (Uuid * Reconciliation),
      map (fun f => rn_id f.1) (omap (fun kr => code ← failed_migration (db w) kr.2; Some (kr.2, code)) l)
      `sublist_of` map (fun kr => rn_id kr.2) l).
    { induction l as [|[k r] l IH]; csimpl; [constructor|]. destruct (failed_migration _ r); csimpl; by constructor. }
    eapply sublist_NoDup; [|apply Hsub]. pose proof (reconciliation_keys _ Hok) as Hn. by rewrite map_map in Hn.
  - intros [r code] Hin. apply list_elem_of_omap in Hin as ([k r'] & Hin%elem_of_map_to_list & Hc).
    cbn in Hc. apply bind_Some in Hc as (c & Hc & [= <- <-]). by eapply failed_migration_row.
Qed.

(** ** Leasing *)

Lemma write_attempt_Ok r attempt number fence worker expires env w w' u :
  write_attempt r attempt number fence worker expires env w = (Ok u, w') ->
  exists t, db w' = set_release_attempts t (db w).
Proof.
  unfold write_attempt. intros Hm. apply tbind_Ok in Hm as (t & w1 & [_ ->]%clock_Ok & Hm).
  case_bool_decide; [by apply release_update_attempt_Ok in Hm|].
  apply tbind_Ok in Hm as (d & w2 & [-> ->]%get_db_Ok & Hm).
  apply tbind_Ok in Hm as (rows & w3 & [_ ->]%sql_Ok & ->%put_db_Ok). by eexists.
Qed.

Lemma claimable_cases d now r : claimable d now r = true ->
  rn_state r = RcPrepared \/ rn_state r <> RcPrepared /\ leasable (rn_state r) = true /\ (rn_attempts r < 6)%Z.
Proof.
  unfold claimable, MAX_ATTEMPTS. intros Hc. rewrite !orb_true_iff, !andb_true_iff, !bool_decide_eq_true, !Z.ltb_lt in Hc.
  destruct (rn_state r) eqn:E; unfold leasable, one_of in *; naive_solver.
Qed.

Lemma start_lease_step r worker policy env w w' v :
  rl_ok Y (db w) -> reconciliations (db w) !! rn_id r = Some r ->
  rn_state r = RcPrepared \/ rn_state r <> RcPrepared /\ leasable (rn_state r) = true /\ (rn_attempts r < 6)%Z ->
  start_lease Y st r worker policy env w = (Ok v, w') -> by_steps Y (db w) (db w').
Proof.
  intros Hok Hr Hc. unfold start_lease. cbn zeta. intros Hm.
  apply tbind_Ok in Hm as (d & w1 & [-> ->]%get_db_Ok & Hm).
  apply tbind_Ok in Hm as ([[candidate current] retained] & w2 & [_ ->]%lift_Ok & Hm).
  apply tbind_Ok in Hm as (attempt & w3 & Ha & Hm).
  assert (E3 : db w3 = db w) by (destruct (bool_decide _) in Ha; [by apply lift_Ok in Ha as [_ ->]|by apply new_uuid_Ok in Ha as [_ ->]]).
  apply tbind_Ok in Hm as (probes & w4 & Hp & Hm).
  assert (E4 : db w4 = db w3).
  { destruct (_ || _) in Hp; [by apply tret_Ok in Hp as [_ ->]|].
    exact (ro_required_probes _ _ _ _ _ _ _ _ Hp). }
  apply tbind_Ok in Hm as (t & w5 & [_ ->]%clock_Ok & Hm).
  apply tbind_Ok in Hm as (? & w6 & (ats & E6)%write_attempt_Ok & Hm). cbn [db] in E6. rewrite E4, E3 in E6.
  apply tbind_Ok in Hm as (? & w7 & H7 & [_ ->]%tret_Ok).
  eapply (update_reconciliation_Ok _ _ _ _ _ _ r) in H7 as [Hck E7]; [|by rewrite E6].
  etrans; [apply rl_frame_by_steps; apply (frame_same _ (db w6)); by rewrite E6|].
  apply rl_one_step. intros _. eapply (touch_by_steps _ _ _ (rn_id r) r); [by rewrite E6| | |exact E7]; [done|].
  assert (Hf : wrap_i64 (rn_fence r + 1) = (rn_fence r + 1)%Z /\ (rn_fence r + 1 <= max_i64)%Z).
  { apply next_fence; [apply (ok_reconciliation _ _ Hok _ _ Hr)|]. unfold reconciliation_check in Hck.
    rewrite !andb_true_iff in Hck. destruct Hck as ((((_ & _) & Hle) & _) & _). apply Z.leb_le in Hle. exact Hle. }
  destruct Hf as [Ef Hmax]. unfold leased_reconciliation. destruct Hc as [Es|(Es & Hl & Hn)].
  - rewrite (bool_decide_eq_true_2 _ Es). apply rn_resume; cbn; rewrite ?Ef; done.
  - rewrite (bool_decide_eq_false_2 _ Es). apply rn_lease_step; cbn; rewrite ?Ef; done.
Qed.

Lemma rl_lease_steps worker : keeps steps (lease_reconciliation Y st worker).
Proof.
  unfold lease_reconciliation. do 2 keeps_step.
  apply keeps_bind; [apply _|apply keeps_frame, rl_policy_now_frame|intros policy].
  keeps_step. intros env w r w' Hm.
  apply tbind_Ok in Hm as (? & w1 & Hex%expire_steps & Hm).
  apply tbind_Ok in Hm as (? & w2 & Hfm%fail_migrations_steps & Hm). etrans; [exact Hex|]. etrans; [exact Hfm|].
  apply tbind_Ok in Hm as (now & w3 & [_ ->]%clock_Ok & Hm).
  apply tbind_Ok in Hm as (locked & w4 & [_ ->]%locked_rows_Ok & Hm).
  apply tbind_Ok in Hm as (d & w5 & [-> ->]%get_db_Ok & Hm). cbn [db] in *.
  destruct (next_reconciliation _ _ _) as [rcn|] eqn:Hn; [|by apply tret_Ok in Hm as [_ ->]].
  apply select_first_in in Hn as (k & Hk & Hc). apply andb_true_iff in Hc as [Hc _].
  apply tbind_Ok in Hm as (v & w6 & Hl & [_ ->]%tret_Ok). intros Hok.
  refine (start_lease_step _ _ _ _ (MkWorld _ _ _) _ _ Hok _ _ Hl Hok).
  - by rewrite (ok_reconciliation_id _ _ Hok _ _ Hk).
  - by eapply claimable_cases.
Qed.

(** ** The live reconciliation *)

Lemma live_reconciliation_Some d id q state now r : live_reconciliation d id q state now = Some r ->
  reconciliations d !! id = Some r /\ rn_state r = state
  /\ exists a, release_attempts d !! lid_attempt q = Some a /\ ra_reconciliation a = rn_id r
     /\ ra_fence a = rn_fence r /\ rn_fence r = lid_fence q /\ ra_worker a = lid_worker q
     /\ ra_state a = AtRunning /\ (now < ra_lease a)%Z /\ is_some_and (fun l => now <? l)%Z (rn_lease r) = true
     /\ rn_current r = Some (lid_attempt q).
Proof.
  unfold live_reconciliation. intros (r' & Hr & Hm)%bind_Some. apply bind_Some in Hm as (a & Ha & Hm).
  apply bind_Some in Hm as (? & Hw & [= ->]). unfold where_ in Hw. destruct (_ && _) eqn:E; [|done].
  bool_simpl. split_and!; [done..|]. exists a. split_and!; done.
Qed.

Lemma lock_live_Ok id q state env w w' r :
  lock_live_reconciliation id q state env w = (Ok r, w') ->
  db w' = db w /\ (0 < lid_fence q)%Z /\ live_reconciliation (db w) id q state (clock env (ticks w)) = Some r.
Proof.
  unfold lock_live_reconciliation. intros Hm. apply tbind_Ok in Hm as (? & w1 & [Hf ->]%reject_if_Ok & Hm).
  apply tbind_Ok in Hm as (now & w2 & [-> ->]%clock_Ok & Hm).
  apply tbind_Ok in Hm as (d & w3 & [-> ->]%get_db_Ok & Hm). apply lift_Ok in Hm as [Hm ->]. cbn [db] in *.
  bool_simpl. destruct (live_reconciliation _ _ _ _ _); [|done]. by injection Hm as ->.
Qed.

Lemma rl_renew_steps id q : keeps steps (renew_reconciliation Y st id q).
Proof.
  unfold renew_reconciliation. do 2 keeps_step. apply keeps_lift; [apply _|intros key _]. keeps_step.
  intros env w r w' Hm.
  apply tbind_Ok in Hm as (now & w1 & [_ ->]%clock_Ok & Hm).
  apply tbind_Ok in Hm as (d & w2 & [-> ->]%get_db_Ok & Hm).
  apply tbind_Ok in Hm as (rcn & w3 & [Hl ->]%lift_Ok & Hm). cbn [db] in *.
  assert (Hr : reconciliations (db w) !! key = Some rcn).
  { destruct (live_reconciliation _ _ _ RcRunning _) eqn:E1; [|destruct (live_reconciliation _ _ _ RcPrepared _) eqn:E2; [|done]];
      injection Hl as ->; by eapply live_reconciliation_Some. }
  apply tbind_Ok in Hm as (number & w4 & [_ ->]%lift_Ok & Hm).
  apply tbind_Ok in Hm as (? & w5 & H5 & Hm).
  eapply (update_reconciliation_Ok _ _ _ _ _ _ rcn) in H5 as [_ E5]; [|done]. cbn [db] in E5.
  apply tbind_Ok in Hm as (? & w6 & H6 & [_ ->]%tret_Ok).
  apply (frame_Ok _ _ _ _ _ (update_attempt_frame _ _ _)) in H6.
  etrans; [|by apply rl_frame_by_steps]. apply rl_one_step. intros _.
  eapply (touch_by_steps _ _ _ key rcn); [done| | |exact E5]; [done|]. by apply rn_touch.
Qed.

Lemma resolve_probe_credential_steps id q : keeps steps (resolve_probe_credential Y st id q).
Proof.
  apply keeps_frame. unfold resolve_probe_credential, bind_probe, lock_live_reconciliation.
  apply keeps_read_only; [apply _|read_only].
Qed.

(** ** Completing *)

Lemma enqueue_trial_frame q : keeps rl_frame (enqueue_materialized_migration_trial (P := P) Y q).
Proof. unfold enqueue_materialized_migration_trial. frame_walk. Qed.

Lemma record_validation_frame v : keeps rl_frame (record_migration_runtime_validation (P := P) Y v).
Proof. unfold record_migration_runtime_validation. frame_walk. Qed.

(** The row that an attempt works on. *)
Definition live_row d (r : Reconciliation) : Prop := running_row d r.

Lemma frame_live d d' r : rl_frame d d' -> live_row d r -> live_row d' r.
Proof. intros [_ _ E _ _] [? ?]. split; [by rewrite E|done]. Qed.

(** The attempt ends, and its reconciliation with it. *)
Lemma end_step r r' d d1 d' t at_ :
  live_row d r -> d1 = set_release_attempts at_ d -> same_reconciliation r r' ->
  one_of (rn_state r') [RcRetriable; RcFailed; RcAwaitingTrial; RcAwaitingApply] = true ->
  (rn_state r' = RcRetriable -> (rn_attempts r' < 6)%Z) -> rn_attempts r' = rn_attempts r -> rn_fence r' = rn_fence r ->
  d' = set_releases t (set_reconciliations (<[rn_id r := r']> (reconciliations d1)) d1) ->
  (t = releases d1 \/ rn_state r' = RcFailed /\ exists x code, releases d1 !! rn_release r = Some x
    /\ rl_state x = RlStaged /\ t = <[rn_release r := failed_release x code]> (releases d1)) ->
  steps d d'.
Proof.
  intros [Hr Hs] E1 Hsame Hst Hret Ha Hf -> Ht.
  etrans; [apply rl_frame_by_steps; apply (frame_same _ d1); by rewrite E1|]. apply rl_one_step. intros _.
  eapply (reconcile_by_steps _ _ _ (rn_id r) r r' t); [by rewrite E1|done|by apply rn_end|done|].
  destruct Ht as [->|(? & ?)]; [by left|]. right. by rewrite Hs.
Qed.

Lemma finish_unsuccessful_step r q o hash env w w' u :
  live_row (db w) r -> finish_unsuccessful Y r q o hash env w = (Ok u, w') -> steps (db w) (db w').
Proof.
  intros Hl. unfold finish_unsuccessful. cbn zeta.
  set (retry := bool_decide (co_state o = "retriable") && (rn_attempts r <? MAX_ATTEMPTS)%Z). intros Hm.
  apply tbind_Ok in Hm as (? & w1 & (ats & E1)%rl_end_attempt_Ok & Hm).
  apply tbind_Ok in Hm as (? & w2 & H2 & Hm).
  eapply (update_reconciliation_Ok _ _ _ _ _ _ r) in H2 as [_ E2]; [|rewrite E1; apply Hl].
  assert (Hret : retry = true -> (rn_attempts r < 6)%Z).
  { unfold retry. intros [_ Hlt]%andb_true_iff. apply Z.ltb_lt in Hlt. exact Hlt. }
  set (r' := ended r _ _ _) in E2.
  assert (Hend : forall t d', d' = set_releases t (db w2) ->
    (t = releases (db w1) \/ retry = false /\ exists x code, releases (db w1) !! rn_release r = Some x
      /\ rl_state x = RlStaged /\ t = <[rn_release r := failed_release x code]> (releases (db w1))) ->
    steps (db w) d').
  { intros t d' -> Ht. eapply (end_step r r' _ (db w1) _ t); [done|exact E1|done|..|by rewrite E2|]; try done.
    - unfold r', ended; cbn. by destruct retry.
    - unfold r', ended; cbn. destruct retry; [by auto|done].
    - destruct Ht as [?|[Eretry ?]]; [by left|]. right. split; [|done]. unfold r', ended; cbn. by rewrite Eretry. }
  destruct (negb retry && _) eqn:Ec.
  - apply andb_true_iff in Ec as [Ec%negb_true_iff _].
    apply tbind_Ok in Hm as (? & w3 & (t & E3 & Ht)%fail_release_Ok & Hm).
    apply (frame_Ok _ _ _ _ _ (insert_release_event_frame _ _ _ _ _ _ _)) in Hm.
    etrans; [|by apply rl_frame_by_steps]. apply (Hend t); [done|]. rewrite E2 in Ht.
    destruct Ht as [?|(rel & Hrel)]; [by left|]. right. eauto.
  - apply tret_Ok in Hm as [_ ->]. apply (Hend (releases (db w2))); [by rewrite set_releases_id|].
    left. by rewrite E2.
Qed.

Lemma await_step r q state code hash operation result env w w' v :
  live_row (db w) r -> awaiting state = true ->
  await r q state code hash operation result env w = (Ok v, w') -> steps (db w) (db w').
Proof.
  intros Hl Hst. unfold await. intros Hm.
  apply tbind_Ok in Hm as (? & w1 & (ats & E1)%rl_end_attempt_Ok & Hm).
  apply tbind_Ok in Hm as (? & w2 & H2 & Hm).
  eapply (update_reconciliation_Ok _ _ _ _ _ _ r) in H2 as [_ E2]; [|rewrite E1; apply Hl].
  apply tbind_Ok in Hm as (d & w3 & [-> ->]%get_db_Ok & Hm).
  apply tbind_Ok in Hm as (updated & w4 & [_ ->]%lift_Ok & [_ ->]%tret_Ok).
  eapply (end_step r (ended r state code (Some result)) _ (db w1) _ (releases (db w1)));
    [done|exact E1|done|..|by left]; try done.
  - unfold awaiting, one_of in *. cbn. by destruct state.
  - cbn. intros ->. by unfold awaiting in Hst.
Qed.

(** What a candidate was loaded from. *)
Lemma load_release_lease_Ok d id now l : load_release_lease d id now = Ok l -> releases d !! id = Some (ld_release l).
Proof.
  unfold load_release_lease. destruct (releases d !! id) as [x|]; [|done]. cbn. intros Hm.
  apply res_bind_Ok in Hm as (a & _ & Hm). apply res_bind_Ok in Hm as (b & _ & Hm).
  apply res_bind_Ok in Hm as (u & _ & Hm). apply res_bind_Ok in Hm as (rt & _ & Hm).
  apply res_bind_Ok in Hm as (v & _ & Hm). by injection Hm as <-.
Qed.

Lemma prepare_route_step r o candidate current retained env w w' v :
  rl_ok Y (db w) -> live_row (db w) r -> releases (db w) !! rn_release r = Some (ld_release candidate) ->
  prepare_route Y r o candidate current retained env w = (Ok v, w') -> steps (db w) (db w').
Proof.
  intros Hok [Hr Hs] Hc. unfold prepare_route. cbn zeta. intros Hm.
  apply tbind_Ok in Hm as (now & w1 & [_ ->]%clock_Ok & Hm).
  apply tbind_Ok in Hm as (? & w2 & H2 & Hm).
  eapply (update_reconciliation_Ok _ _ _ _ _ _ r) in H2 as [_ E2]; [|done]. cbn [db] in E2.
  apply tbind_Ok in Hm as (d & w3 & [-> ->]%get_db_Ok & Hm).
  apply tbind_Ok in Hm as (updated & w4 & [_ ->]%lift_Ok & [_ ->]%tret_Ok).
  apply rl_one_step. intros _. eapply (touch_by_steps _ _ _ (rn_id r) r); [done| | |exact E2]; [done|].
  eapply rn_prepare; [done..| |done|done].
  destruct (ck_release _ _ _ (ok_reconciliation _ _ Hok _ _ Hr)) as (rel & Hx & _ & Hp & _).
  assert (rel = ld_release candidate) as -> by congruence.
  split; cbn; try done. by apply (ok_release_id _ _ Hok).
Qed.

Lemma complete_trial_step r q o hash c policy env w w' v :
  live_row (db w) r -> complete_trial Y st r q o hash c policy env w = (Ok v, w') -> steps (db w) (db w').
Proof.
  intros Hl. unfold complete_trial. intros Hm.
  apply tbind_Ok in Hm as (? & w1 & [_ ->]%reject_if_Ok & Hm).
  do 5 apply tbind_Ok in Hm as (? & ? & [_ ->]%lift_Ok & Hm).
  apply tbind_Ok in Hm as (observed & w2 & [_ ->]%lift_Ok & Hm).
  apply tbind_Ok in Hm as (now & w3 & [_ ->]%clock_Ok & Hm).
  apply tbind_Ok in Hm as (? & w4 & [_ ->]%reject_if_Ok & Hm).
  apply tbind_Ok in Hm as (operation & w5 & Hf & Hm).
  apply (frame_Ok _ _ _ _ _ (enqueue_trial_frame _)) in Hf. cbn [db] in Hf.
  etrans; [by apply rl_frame_by_steps|]. eapply await_step; [by eapply frame_live| |exact Hm]. done.
Qed.

Lemma complete_migration_step r q o hash candidate current retained receipts phase policy migration env w w' v :
  rl_ok Y (db w) -> live_row (db w) r -> releases (db w) !! rn_release r = Some (ld_release candidate) ->
  complete_migration Y st r q o hash candidate current retained receipts phase policy migration env w = (Ok v, w') ->
  steps (db w) (db w').
Proof.
  intros Hok Hl Hc. unfold complete_migration. cbn zeta. intros Hm.
  apply tbind_Ok in Hm as (d & w1 & [-> ->]%get_db_Ok & Hm).
  apply tbind_Ok in Hm as (receipt & w2 & [_ ->]%lift_Ok & Hm).
  apply tbind_Ok in Hm as (? & w3 & [_ ->]%reject_if_Ok & Hm).
  apply tbind_Ok in Hm as (bs & w4 & [_ ->]%lift_Ok & Hm).
  destruct (negb _ && negb _) in Hm.
  - apply tbind_Ok in Hm as (validation & w5 & [_ ->]%lift_Ok & Hm).
    apply tbind_Ok in Hm as (gate & w6 & Hf & Hm).
    apply tbind_Ok in Hm as (operation & w7 & [_ ->]%lift_Ok & Hm).
    apply (frame_Ok _ _ _ _ _ (record_validation_frame _)) in Hf.
    etrans; [by apply rl_frame_by_steps|]. eapply await_step; [by eapply frame_live| |exact Hm]. done.
  - apply tbind_Ok in Hm as (? & w5 & [_ ->]%lift_Ok & Hm). by eapply prepare_route_step.
Qed.

Lemma ro_validate_receipts m3 required digests rcn attempt fence :
  read_only (D := RlDb P) (validate_probe_receipts Y m3 required digests rcn attempt fence).
Proof.
  assert (Hobs : forall observed, read_only (D := RlDb P) (observe_receipts Y m3 required rcn attempt fence digests observed)).
  { induction digests as [|digest rest IH]; intros observed; cbn [observe_receipts]; read_only. }
  unfold validate_probe_receipts. read_only.
Qed.

Lemma complete_successful_step r q o hash env w w' v :
  rl_ok Y (db w) -> live_row (db w) r -> complete_successful Y st r q o hash env w = (Ok v, w') -> steps (db w) (db w').
Proof.
  intros Hok Hl. unfold complete_successful. cbn zeta. intros Hm.
  apply tbind_Ok in Hm as (policy & w1 & Hf%(frame_Ok _ _ _ _ _ (rl_policy_now_frame _)) & Hm).
  etrans; [by apply rl_frame_by_steps|]. apply (rl_frame_ok Y _ _ Hf) in Hok. apply (frame_live _ _ _ Hf) in Hl. clear Hf.
  apply tbind_Ok in Hm as (d & w2 & [-> ->]%get_db_Ok & Hm).
  apply tbind_Ok in Hm as (candidate & w3 & [Hc%load_release_lease_Ok ->]%lift_Ok & Hm).
  apply tbind_Ok in Hm as ([current retained] & w4 & [_ ->]%lift_Ok & Hm).
  apply tbind_Ok in Hm as (? & w5 & [_ ->]%lift_Ok & Hm).
  destruct (bool_decide _) in Hm; [by eapply complete_trial_step|].
  apply tbind_Ok in Hm as (requirements & w6 & [_ ->]%lift_Ok & Hm).
  apply tbind_Ok in Hm as (receipts & w7 & Hr%ro_validate_receipts & Hm). rewrite <- Hr in *.
  destruct (rl_migration _); [by eapply complete_migration_step|].
  apply tbind_Ok in Hm as (? & w8 & [_ ->]%reject_if_Ok & Hm). by eapply prepare_route_step.
Qed.

Lemma rl_complete_steps id q : keeps steps (complete_reconciliation Y st id q).
Proof.
  unfold complete_reconciliation. cbn zeta. do 3 keeps_step. apply keeps_lift; [apply _|intros key _].
  intros env w r w' [(e & c & -> & ->)|Hm]%clock_transaction_cases; [by apply rl_frame_by_steps, frame_same|].
  apply tbind_Ok in Hm as (rcn & w1 & (Ed & _ & Hl)%lock_live_Ok & Hm). rewrite <- Ed in Hl |- *.
  apply live_reconciliation_Some in Hl as (Hr & Hs & _).
  apply tbind_Ok in Hm as (d & w2 & [-> ->]%get_db_Ok & Hm).
  apply tbind_Ok in Hm as (? & w3 & [_ ->]%lift_Ok & Hm). intros Hok.
  assert (Hlive : live_row (db w1) rcn) by (split; [by rewrite (ok_reconciliation_id _ _ Hok _ _ Hr)|done]).
  destruct (negb _) in Hm.
  - apply tbind_Ok in Hm as (? & w4 & Hf & Hm). apply tbind_Ok in Hm as (d & w5 & [-> ->]%get_db_Ok & Hm).
    apply tbind_Ok in Hm as (updated & w6 & [_ ->]%lift_Ok & [_ ->]%tret_Ok).
    by eapply finish_unsuccessful_step.
  - apply tbind_Ok in Hm as (c & w4 & Hc & [_ ->]%tret_Ok). by eapply complete_successful_step.
Qed.

(** ** Staging and rolling back *)

Lemma unique_alone d r : rl_ok Y d -> reconciliations d !! rn_id r = None -> rn_state r = RcQueued ->
  reconciliation_unique (reconciliations d) r = true ->
  forall k' r', reconciliations d !! k' = Some r' -> active (rn_state r') = true -> rn_project r' <> rn_project r.
Proof.
  intros Hok Hn Hs Hu k' r' Hr' Ha Ep. unfold reconciliation_unique in Hu. apply negb_true_iff in Hu.
  pose proof (exists_row_false _ _ Hu _ _ Hr') as Hf. cbn beta in Hf.
  assert (Hid : rn_id r' <> rn_id r) by (rewrite (ok_reconciliation_id _ _ Hok _ _ Hr'); congruence).
  rewrite Ha, Hs, Ep, (bool_decide_eq_false_2 _ Hid), bool_decide_eq_true_2 in Hf by done. done.
Qed.

Lemma load_release_Ok d account project id x : load_release d account project id = Ok x ->
  releases d !! id = Some x /\ rl_account x = account /\ rl_project x = project.
Proof.
  unfold load_release. destruct (releases d !! id) as [y|]; [|done]. csimpl. unfold where_.
  destruct (_ && _) eqn:E; csimpl; [|done]. intros [= <-]. bool_simpl. done.
Qed.

Lemma stage_plan_expected d account project deployment q now p :
  stage_plan d account project deployment q now = Ok p -> sp_expected p = route_generation d account project.
Proof.
  unfold stage_plan. intros Hm.
  do 8 apply res_bind_Ok in Hm as (? & _ & Hm). by injection Hm as <-.
Qed.

Lemma stage_steps caller project deployment headers q : keeps steps (stage_release Y st caller project deployment headers q).
Proof.
  unfold stage_release. cbn zeta. do 2 keeps_step. apply keeps_lift; [apply _|intros prj _].
  apply keeps_lift; [apply _|intros dep _]. keeps_step. keeps_step. intros env w r w' Hm Hok.
  apply tbind_Ok in Hm as (created & w1 & [_ ->]%clock_Ok & Hm).
  apply tbind_Ok in Hm as (stored & w2 & [-> _]%replay_Ok & Hm).
  destruct stored; [|by apply tret_Ok in Hm as [_ ->]|by apply raise_Ok in Hm].
  apply tbind_Ok in Hm as (now & w3 & [_ ->]%clock_Ok & Hm).
  apply tbind_Ok in Hm as (d & w4 & [-> ->]%get_db_Ok & Hm). cbn [db] in Hm.
  apply tbind_Ok in Hm as (p & w5 & [Hp%stage_plan_expected ->]%lift_Ok & Hm).
  apply tbind_Ok in Hm as (release & w6 & [_ ->]%new_uuid_Ok & Hm).
  apply tbind_Ok in Hm as (t & w7 & [_ ->]%clock_Ok & Hm). cbn [ticks] in Hm.
  apply tbind_Ok in Hm as (? & w8 & [Hnr Er]%insert_release_Ok & Hm). cbn [db] in Hnr, Er.
  apply tbind_Ok in Hm as (? & w9 & Hev%(frame_Ok _ _ _ _ _ (insert_release_event_frame _ _ _ _ _ _ _)) & Hm).
  apply tbind_Ok in Hm as (id & w10 & [_ ->]%new_uuid_Ok & Hm).
  apply tbind_Ok in Hm as (? & w11 & (Hn & Hu & Ec)%insert_reconciliation_Ok & Hm). cbn [db] in Hn, Hu, Ec.
  apply tbind_Ok in Hm as (d & w12 & [-> ->]%get_db_Ok & Hm).
  do 2 apply tbind_Ok in Hm as (? & ? & [_ ->]%lift_Ok & Hm).
  apply tbind_Ok in Hm as (? & w13 & Ha%(frame_Ok _ _ _ _ _ (rl_audit_frame _ _ _ _ _ _)) & Hm).
  apply tbind_Ok in Hm as (? & w14 & Hs%(frame_Ok _ _ _ _ _ (store_replay_frame _ _ _ _ _ _)) & [_ ->]%tret_Ok).
  destruct Hev as [F1 F2 F3 F4 F5]. rewrite Er in F1, F2, F3, F4, F5. cbn in F1, F2, F3, F4.
  transitivity (db w11); [|apply rtc_once, step_frame; by etrans].
  apply rtc_once, (step_enqueue _ _ _ id (new_reconciliation id (account_id caller) prj release Promote (sp_expected p) created)).
  rewrite F3 in Hn, Hu. pose proof (unique_alone _ _ Hok Hn eq_refl Hu) as Hal.
  split; try done; rewrite ?Ec; cbn; try done; [by rewrite F3|].
  left. eexists. split_and!; [done|exact Hnr|exact F1|done..].
Qed.

Lemma rollback_target_Ok d account project release x o : rollback_target d account project release = Ok (x, o) ->
  releases d !! release = Some x /\ rl_account x = account /\ rl_project x = project /\ rl_state x = RlHealthy
  /\ project_route d account project = Some o.
Proof.
  unfold rollback_target. intros Hm. apply res_bind_Ok in Hm as (y & Hx%load_release_Ok & Hm).
  apply res_bind_Ok in Hm as (? & Hh%guard_err_Ok & Hm). do 2 apply res_bind_Ok in Hm as (? & _ & Hm).
  apply res_bind_Ok in Hm as (o' & Ho & Hm). apply res_bind_Ok in Hm as (? & _ & Hm). injection Hm as -> ->.
  destruct (project_route _ _ _); [|done]. injection Ho as ->. bool_simpl. destruct Hx as (? & ? & ?). split_and!; done.
Qed.

Lemma rollback_steps caller project release headers : keeps steps (request_rollback Y st caller project release headers).
Proof.
  unfold request_rollback. cbn zeta. keeps_step. apply keeps_lift; [apply _|intros prj _].
  apply keeps_lift; [apply _|intros rel _]. keeps_step. keeps_step. intros env w r w' Hm Hok.
  apply tbind_Ok in Hm as (created & w1 & [_ ->]%clock_Ok & Hm).
  apply tbind_Ok in Hm as (stored & w2 & [-> _]%replay_Ok & Hm).
  destruct stored; [|by apply tret_Ok in Hm as [_ ->]|by apply raise_Ok in Hm].
  apply tbind_Ok in Hm as (d & w3 & [-> ->]%get_db_Ok & Hm). cbn [db] in Hm.
  apply tbind_Ok in Hm as ([y o] & w4 & [Ht ->]%lift_Ok & Hm).
  apply rollback_target_Ok in Ht as (Hx & Hxa & Hxp & Hxs & Ho).
  apply tbind_Ok in Hm as (id & w5 & [_ ->]%new_uuid_Ok & Hm).
  apply tbind_Ok in Hm as (? & w6 & (Hn & Hu & Ec)%insert_reconciliation_Ok & Hm). cbn [db] in Hn, Hu, Ec.
  apply tbind_Ok in Hm as (d & w7 & [-> ->]%get_db_Ok & Hm).
  apply tbind_Ok in Hm as (? & ? & [_ ->]%lift_Ok & Hm).
  apply tbind_Ok in Hm as (? & w8 & Ha%(frame_Ok _ _ _ _ _ (rl_audit_frame _ _ _ _ _ _)) & Hm).
  apply tbind_Ok in Hm as (? & w9 & Hs%(frame_Ok _ _ _ _ _ (store_replay_frame _ _ _ _ _ _)) & [_ ->]%tret_Ok).
  transitivity (db w6); [|apply rtc_once, step_frame; by etrans].
  apply rtc_once, (step_enqueue _ _ _ id (new_reconciliation id (account_id caller) prj rel RollBack (ro_generation o) created)).
  pose proof (unique_alone _ _ Hok Hn eq_refl Hu) as Hal.
  split; try done; rewrite ?Ec; cbn; try done.
  - unfold route_generation. by rewrite Ho.
  - right. exists y. split_and!; done.
  - by intros ? ?.
Qed.

(** ** Activating *)

Lemma upsert_route_Ok r p env w w' u : upsert_route r p env w = (Ok u, w') ->
  (exists o, db w' = set_routes (<[rn_project r := o]> (routes (db w))) (db w)
    /\ ro_account o = rn_account r /\ ro_release o = rn_release r /\ ro_generation o = pp_generation p
    /\ (0 < ro_generation o)%Z /\ ro_digest o = pp_digest p /\ ro_manifest o = pp_manifest p
    /\ forall o', routes (db w) !! rn_project r = Some o' -> ro_account o' = rn_account r)
  \/ db w' = db w /\ exists o', routes (db w) !! rn_project r = Some o'
    /\ (ro_account o' <> rn_account r \/ ro_generation o' <> rn_expected r).
Proof.
  assert (Hpos : forall o, where_ (route_check o) <> None -> (0 < ro_generation o)%Z).
  { intros o Hw. unfold where_, route_check in Hw. destruct (_ && _) eqn:E in Hw; [|done]. bool_simpl. done. }
  unfold upsert_route. cbn zeta. intros Hm.
  apply tbind_Ok in Hm as (t & w1 & [_ ->]%clock_Ok & Hm).
  apply tbind_Ok in Hm as (d & w2 & [-> ->]%get_db_Ok & Hm). cbn [db] in Hm.
  apply tbind_Ok in Hm as (? & w3 & [Hw ->]%sql_Ok & Hm).
  destruct (routes (db w) !! rn_project r) as [o|] eqn:Ho.
  - destruct (_ && _) eqn:E in Hm.
    + apply tbind_Ok in Hm as (? & w4 & [Hw' ->]%sql_Ok & ->%put_db_Ok). left. eexists. split; [done|]. bool_simpl.
      split_and!; try done; [by apply Hpos; rewrite Hw'|]. intros ? [= <-]. done.
    + apply tret_Ok in Hm as [_ ->]. right. split; [done|]. exists o. split; [done|].
      apply andb_false_iff in E as [E|E]; [left; by apply bool_decide_eq_false in E|right; by apply Z.eqb_neq in E].
  - apply put_db_Ok in Hm as ->. left. eexists. split; [done|]. split_and!; try done. by apply Hpos; rewrite Hw.
Qed.

Lemma update_deployment_frame x digest : keeps rl_frame (update_deployment (P := P) x digest).
Proof.
  intros env w r w'. unfold update_deployment, tbind, get_db, put_db, tret.
  destruct (x_deployments _ !! _); [destruct (_ && _)|]; intros [= _ <-]; try done. split; try done. by intros o.
Qed.

Lemma refresh_frame release policy : keeps rl_frame (refresh_deployment_facts (P := P) release policy).
Proof.
  unfold refresh_deployment_facts. keeps_step. keeps_step. intros env w r w'. unfold zoom.
  destruct (refresh_heads _ _ _ _). intros [= _ <-]. by apply frame_same.
Qed.

Lemma for_each_frame {A} (f : A -> M (RlDb P) unit) l :
  (forall a, keeps rl_frame (f a)) -> keeps rl_frame (for_each f l).
Proof.
  intros Hf. induction l as [|a l IH]; cbn [for_each]; [by keeps_ro|]. by apply keeps_bind; [apply _|..].
Qed.

Lemma excess_releases_ext d d' account project current : releases d' = releases d ->
  excess_releases d' account project current = excess_releases d account project current.
Proof. unfold excess_releases, newest_first. by intros ->. Qed.

Lemma retire_excess_Ok account project current env w w' ids :
  retire_excess_releases Y account project current env w = (Ok ids, w') ->
  ids = excess_releases (db w) account project current
  /\ rl_frame (set_releases (retire_all (excess_releases (db w) account project current) (releases (db w))) (db w)) (db w').
Proof.
  unfold retire_excess_releases. cbn zeta. intros Hm. apply tbind_Ok in Hm as (d & w1 & [-> ->]%get_db_Ok & Hm).
  apply tbind_Ok in Hm as (? & w2 & ->%put_db_Ok & Hm). apply tbind_Ok in Hm as (? & w3 & Hf & [-> ->]%tret_Ok).
  apply (frame_Ok _ _ _ _ _ (for_each_frame _ _ (fun _ => insert_release_event_frame _ _ _ _ _ _ _))) in Hf. done.
Qed.

(** The route that an activation leaves. *)
Definition route_switched d d' (r : Reconciliation) (p : PreparedIntent) : Prop :=
  (exists o, routes d' = <[rn_project r := o]> (routes d)
    /\ ro_account o = rn_account r /\ ro_release o = rn_release r /\ ro_generation o = pp_generation p
    /\ (0 < ro_generation o)%Z /\ ro_digest o = pp_digest p /\ ro_manifest o = pp_manifest p
    /\ forall o', routes d !! rn_project r = Some o' -> ro_account o' = rn_account r)
  \/ routes d' = routes d /\ exists o', routes d !! rn_project r = Some o'
    /\ (ro_account o' <> rn_account r \/ ro_generation o' <> rn_expected r).

Lemma switch_route_Ok r q release p previous policy hash env w w' ids x :
  reconciliations (db w) !! rn_id r = Some r -> releases (db w) !! rn_release r = Some x ->
  switch_route Y r q release p previous policy hash env w = (Ok ids, w') ->
  route_switched (db w) (db w') r p
  /\ reconciliations (db w') = <[rn_id r := ended r RcSucceeded "route_activated" (rn_result r)]> (reconciliations (db w))
  /\ release_events (db w) ⊆ release_events (db w') /\ succeeded_kept (db w) (db w')
  /\ exists t, let x' := with_release x RlHealthy (Some (pp_probes p, acr_switch q)) (Some t) None in
     ids = excess_releases (set_releases (promoted_releases (db w) (rn_release r) x') (db w))
             (rn_account r) (rn_project r) (rn_release r)
     /\ releases (db w') = retire_all ids (promoted_releases (db w) (rn_release r) x').
Proof.
  intros Hr Hx. unfold switch_route. intros Hm.
  apply tbind_Ok in Hm as (? & w1 & Hup%upsert_route_Ok & Hm).
  assert (Hroute : route_switched (db w) (db w1) r p).
  { destruct Hup as [(o & E & Ho)|[-> Ho]]; [left; exists o; by rewrite E|by right]. }
  assert (Hsame : releases (db w1) = releases (db w) /\ reconciliations (db w1) = reconciliations (db w)
    /\ release_events (db w1) = release_events (db w) /\ operations (db w1) = operations (db w)).
  { by destruct Hup as [(o & -> & _)|[-> _]]. }
  destruct Hsame as (S1 & S2 & S3 & S4). clear Hup.
  apply tbind_Ok in Hm as (t & w2 & [_ ->]%clock_Ok & Hm).
  apply tbind_Ok in Hm as (? & w3 & H3 & Hm). cbn [db] in H3.
  eapply (update_release_Ok _ _ _ _ _ _ _ x) in H3; [|cbn; by rewrite S1]. cbn [db] in H3.
  apply tbind_Ok in Hm as (? & w4 & F4%(frame_Ok _ _ _ _ _ (update_deployment_frame _ _)) & Hm).
  apply tbind_Ok in Hm as (? & w5 & F5%(frame_Ok _ _ _ _ _ (refresh_frame _ _)) & Hm).
  apply tbind_Ok in Hm as (? & w6 & F6%(frame_Ok _ _ _ _ _ (end_attempt_frame _ _ _ _ _)) & Hm).
  assert (F : rl_frame (db w3) (db w6)) by (etrans; [exact F4|by etrans]). clear F4 F5 F6.
  apply tbind_Ok in Hm as (? & w7 & H7 & Hm).
  eapply (update_reconciliation_Ok _ _ _ _ _ _ r) in H7 as [_ E7].
  2: { rewrite (lf_reconciliations _ _ F), H3. cbn. by rewrite S2. }
  apply tbind_Ok in Hm as (? & w8 & F8%(frame_Ok _ _ _ _ _ (insert_release_event_frame _ _ _ _ _ _ _)) & Hm).
  apply retire_excess_Ok in Hm as [-> Hm]. destruct F as [A1 A2 A3 A4 A5], F8 as [B1 B2 B3 B4 B5], Hm as [C1 C2 C3 C4 C5].
  rewrite E7 in B1, B2, B3, B4, B5. rewrite H3 in A1, A2, A3, A4, A5. cbn in *.
  set (x' := with_release _ _ _ _ _) in *.
  assert (Erel : releases (db w8) = promoted_releases (db w) (rn_release r) x').
  { unfold promoted_releases. congruence. }
  split_and!.
  - unfold route_switched in *. by rewrite C2, B2, A2.
  - by rewrite C3, B3, A3, S2.
  - rewrite <- S3. etrans; [exact A4|]. by etrans.
  - intros o (op & Ho & Hso). apply C5, B5, A5. exists op. split; [|done].
    change (operations (db w1) !! o = Some op). by rewrite S4.
  - exists t. cbn zeta. fold x'. split; [by apply excess_releases_ext|]. by rewrite C1, Erel.
Qed.

(** What a route is activated with, and what that does. *)
Record activated (id : Uuid) (q : ActivateRequest) (bs : bytes) (receipt : SwitchReceipt) (now : Z)
    (r : Reconciliation) (p : PreparedIntent) (x : Release) (t : Z) (o : Route) d d' : Prop := {
  av_live : live_reconciliation d id (acr_live q) RcPrepared now = Some r;
  av_generation : route_generation d (rn_account r) (rn_project r) = rn_expected r;
  av_prepared : rn_result r = Some (PreparedResult p); av_intent : intent_ok Y r p;
  av_evidence : read_evidence Y (rg_m3 st) (acr_switch q) = Ok bs; av_json : y_switch_json Y bs = Some receipt;
  av_receipt : exists now', validate_switch_receipt Y receipt r (acr_live q)
    (ro_release <$> project_route d (rn_account r) (rn_project r)) p now' = Ok tt;
  av_release : load_release d (rn_account r) (rn_project r) (rn_release r) = Ok x;
  av_secrets : validate_secret_refs d (rn_account r) (rn_project r) (rl_secrets x) = Ok tt;
  av_routes : routes d' = <[rn_project r := o]> (routes d);
  av_owner : forall o', routes d !! rn_project r = Some o' -> ro_account o' = rn_account r;
  av_route : ro_account o = rn_account r /\ ro_release o = rn_release r /\ ro_generation o = pp_generation p
    /\ (0 < ro_generation o)%Z /\ ro_digest o = pp_digest p /\ ro_manifest o = pp_manifest p;
  av_reconciliations : reconciliations d'
    = <[rn_id r := ended r RcSucceeded "route_activated" (rn_result r)]> (reconciliations d);
  av_releases : let x' := with_release x RlHealthy (Some (pp_probes p, acr_switch q)) (Some t) None in
    releases d' = retire_all (excess_releases (set_releases (promoted_releases d (rn_release r) x') d)
      (rn_account r) (rn_project r) (rn_release r)) (promoted_releases d (rn_release r) x');
  av_events : release_events d ⊆ release_events d'; av_operations : succeeded_kept d d';
}.

Lemma activated_step id q bs receipt now r p x t o d d' :
  rl_ok Y d -> activated id q bs receipt now r p x t o d d' -> rl_step Y d d'.
Proof.
  intros Hok [Hl%live_reconciliation_Some Hg _ Hio _ _ _ Hx%load_release_Ok _ Er Hown Ho Ec Erel Hev Hop].
  destruct Hl as (Hr & Hs & _), Hx as (Hx & _). pose proof (ok_reconciliation_id _ _ Hok _ _ Hr). subst id.
  destruct Ho as (? & ? & Hog & ? & _).
  eapply (step_activate _ _ _ (rn_id r) r _ o x _). split; [exact Hr|exact Hs|..|exact Erel|done|done]; try done.
  all: cbn; try done. split_and!; try done. by rewrite Hog, (io_generation _ _ _ Hio).
Qed.

Lemma activate_cases id_text q env w r w' :
  activate_reconciliation Y st id_text q env w = (r, w') ->
  (exists e, r = Err e) /\ rl_frame (db w) (db w') \/
  exists d id bs receipt response, r = Ok response /\ rl_frame (db w) d
    /\ path_uuid (y_parse_uuid Y) id_text = Ok id
    /\ (rl_ok Y d -> exists now rcn p x t o, activated id q bs receipt now rcn p x t o d (db w')
         /\ avr_route response = o /\ avr_retired response = excess_releases (set_releases (promoted_releases d (rn_release rcn)
              (with_release x RlHealthy (Some (pp_probes p, acr_switch q)) (Some t) None)) d)
              (rn_account rcn) (rn_project rcn) (rn_release rcn)).
Proof.
  unfold activate_reconciliation. intros Hm.
  apply lift_cases in Hm as [(e & _ & -> & ->)|(m3 & _ & Hm)]; [left; split; [eauto|done]|].
  apply lift_cases in Hm as [(e & _ & -> & ->)|(u & _ & Hm)]; [left; split; [eauto|done]|].
  apply lift_cases in Hm as [(e & _ & -> & ->)|(key & Hkey & Hm)]; [left; split; [eauto|done]|].
  apply lift_cases in Hm as [(e & _ & -> & ->)|(bs & Hbs & Hm)]; [left; split; [eauto|done]|].
  apply lift_cases in Hm as [(e & _ & -> & ->)|(receipt & Hrec & Hm)]; [left; split; [eauto|done]|].
  unfold tbind at 1 in Hm. destruct (policy_now _ _ _) as [[policy|e] w0] eqn:Hpol.
  2: { injection Hm as <- <-. left. split; [eauto|]. by apply rl_policy_now_frame in Hpol. }
  apply rl_policy_now_frame in Hpol.
  apply transaction_cases in Hm as [(e & -> & ->)|Hm]; [left; split; [eauto|done]|]. right.
  apply tbind_Ok in Hm as (d & w1 & [-> ->]%get_db_Ok & Hm).
  apply tbind_Ok in Hm as (account & w2 & [_ ->]%lift_Ok & Hm).
  apply tbind_Ok in Hm as (? & w3 & [_ ->]%sql_Ok & Hm).
  apply tbind_Ok in Hm as (rcn & w4 & (Ed & _ & Hl)%lock_live_Ok & Hm).
  apply tbind_Ok in Hm as (? & w5 & [Hg%guard_err_Ok ->]%lift_Ok & Hm).
  apply tbind_Ok in Hm as (? & w6 & [_ ->]%lift_Ok & Hm).
  apply tbind_Ok in Hm as (p & w7 & [Hp ->]%lift_Ok & Hm). cbn zeta in Hm.
  apply tbind_Ok in Hm as (now & w8 & [_ ->]%clock_Ok & Hm).
  apply tbind_Ok in Hm as ([] & w9 & [Hv ->]%lift_Ok & Hm).
  apply tbind_Ok in Hm as (rel & w10 & [Hx ->]%lift_Ok & Hm).
  apply tbind_Ok in Hm as ([] & w11 & [Hsec ->]%lift_Ok & Hm).
  apply tbind_Ok in Hm as (retired & w12 & Hsw & Hm).
  apply tbind_Ok in Hm as (d' & w13 & [-> ->]%get_db_Ok & Hm).
  apply tbind_Ok in Hm as (route & w14 & [Hroute ->]%sql_Ok & Hm).
  do 2 apply tbind_Ok in Hm as (? & ? & [_ ->]%lift_Ok & Hm). apply tret_Ok in Hm as [-> ->].
  apply live_reconciliation_Some in Hl as Hl'. destruct Hl' as (Hr & Hs & _).
  assert (Hpr : rn_result rcn = Some (PreparedResult p)).
  { unfold prepared_intent in Hp. destruct (rn_result rcn) as [[]|]; try done. by injection Hp as ->. }
  cbn [db] in Hsw. apply negb_false_iff, Z.eqb_eq in Hg.
  exists (db w0), key, bs, receipt. eexists. split; [done|]. split; [done|]. split; [done|].
  intros Hok. exists (clock env (ticks w0)), rcn, p, rel. pose proof (ok_reconciliation_id _ _ Hok _ _ Hr) as Hid. subst key.
  apply load_release_Ok in Hx as Hx'. destruct Hx' as (Hxl & _).
  eapply (switch_route_Ok _ _ _ _ _ _ _ _ _ _ _ rel) in Hsw as (Hsw & Ec & Hev & Hop & t & Erel); [|cbn; by rewrite Ed..].
  cbn [db] in *. rewrite Ed in *. exists t.
  assert (Hpi : intent_ok Y rcn p).
  { destruct (ck_prepared _ _ _ (ok_reconciliation _ _ Hok _ _ Hr) Hs) as (p' & Hres & Hio).
    rewrite Hpr in Hres. by injection Hres as <-. }
  destruct Hsw as [(o & Ero & Hoa & Hor & Hog & Hpos & Hod & Hom & Hown)|(Ero & o & Ho & Hne)].
  - destruct Erel as [-> Erel]. exists o. split; [split; try done|].
    + by destruct (y_switch_json Y bs); [injection Hrec as ->|].
    + by eexists.
    + split; [|done]. cbn. unfold project_route in Hroute. rewrite Ero, lookup_insert_eq in Hroute. csimpl in Hroute.
      unfold where_ in Hroute. rewrite Hoa, bool_decide_eq_true_2 in Hroute by done. by injection Hroute.
  - exfalso. unfold project_route, route_generation in *. unfold project_route in Hg. rewrite Ero, Ho in Hroute. rewrite Ho in Hg.
    csimpl in *. unfold where_ in *. case_bool_decide as Ea; csimpl in *; [|done].
    destruct Hne as [?|?]; congruence.
Qed.

Lemma activate_steps id q : keeps steps (activate_reconciliation Y st id q).
Proof.
  intros env w r w' [[_ Hf]|(d & key & bs & receipt & response & _ & Hf & _ & Ha)]%activate_cases Hok.
  - by apply rtc_once, step_frame.
  - eapply rtc_l; [by apply step_frame|]. apply (rl_frame_ok Y _ _ Hf) in Hok.
    destruct (Ha Hok) as (now & rcn & p & x & t & o & Hact & _). apply rtc_once. by eapply activated_step.
Qed.

(** ** The rest *)

Lemma list_steps caller project : keeps steps (list_releases Y st caller project).
Proof. apply keeps_frame. unfold list_releases. frame_walk. Qed.

Lemma enqueue_plan_frame m3 q archive : keeps rl_frame (enqueue_migration_trial (P := P) m3 q archive).
Proof.
  unfold enqueue_migration_trial. do 2 keeps_step.
  apply keeps_bind; [apply _|apply rl_policy_now_frame|intros policy]. keeps_step. intros env w r w' Hm.
  apply tbind_Ok in Hm as (d & w1 & [-> ->]%get_db_Ok & Hm).
  apply tbind_Ok in Hm as (backup & w2 & [_ ->]%lift_Ok & Hm).
  destruct (select_first _ _ _); [by apply tret_Ok in Hm as [_ ->]|].
  apply tbind_Ok in Hm as (id & w3 & [_ ->]%new_uuid_Ok & Hm).
  apply tbind_Ok in Hm as (rows & w4 & [_ ->]%sql_Ok & Hm).
  apply tbind_Ok in Hm as (? & w5 & ->%put_db_Ok & [_ ->]%tret_Ok). by apply frame_same.
Qed.
#[local] Hint Resolve enqueue_plan_frame : frame.

Lemma prepare_migration_steps caller project deployment headers q :
  keeps steps (prepare_migration_trial Y st caller project deployment headers q).
Proof.
  apply keeps_frame. unfold prepare_migration_trial, replay, plan_or_back_up, request_pre_migration_backup.
  frame_walk.
Qed.
End Handlers.
