(* ===== verification/ManifestText.v ===== *)
(** * A concrete text of route manifests

    An encoding of route manifests that can be read back, for the executions that need
    one: a concrete instance of what releases rely on of JSON. *)

From stdpp Require Import base list option strings.
From Stdlib Require Import ZArith Lia Ascii.
From S2P Require Import Prelude PgTx ReleaseTables.

Local Open Scope string_scope.
Local Open Scope list_scope.

(** A code whose words can be told apart from what follows them. *)
Class Codec (A : Type) := {
  enc : A -> list bool;
  dec : list bool -> option (A * list bool);
  dec_enc : forall a s, dec (enc a ++ s) = Some (a, s);
}.

Fixpoint enc_positive (p : positive) : list bool :=
  match p with
  | xH => [false]
  | xO p => true :: false :: enc_positive p
  | xI p => true :: true :: enc_positive p
  end.
Fixpoint dec_positive (s : list bool) : option (positive * list bool) :=
  match s with
  | false :: s => Some (xH, s)
  | true :: b :: s =>
      match dec_positive s with Some (p, s) => Some (if b then xI p else xO p, s) | None => None end
  | _ => None
  end.
#[export] Instance positive_codec : Codec positive.
Proof.
  refine {| enc := enc_positive; dec := dec_positive |}.
  intros p s. induction p as [p IH|p IH|]; cbn; [by rewrite IH|by rewrite IH|done].
Defined.

(** A type that goes into another and back. *)
Definition via {A B} `{Codec B} (f : A -> B) (g : B -> A) (Hgf : forall a, g (f a) = a) : Codec A.
Proof.
  refine {| enc a := enc (f a); dec s := match dec s with Some (b, s) => Some (g b, s) | None => None end |}.
  intros a s. by rewrite dec_enc, Hgf.
Defined.

#[export] Instance N_codec : Codec N.
Proof. refine (via N.succ_pos Pos.pred_N _). apply N.pos_pred_succ. Defined.
#[export] Instance prod_codec {A B} `{Codec A, Codec B} : Codec (A * B).
Proof.
  refine {| enc p := enc p.1 ++ enc p.2;
            dec s := match dec s with
                     | Some (a, s) => match dec s with Some (b, s) => Some ((a, b), s) | None => None end
                     | None => None
                     end |}.
  intros [a b] s. cbn. by rewrite <- app_assoc, !dec_enc.
Defined.
#[export] Instance option_codec {A} `{Codec A} : Codec (option A).
Proof.
  refine {| enc o := match o with Some a => true :: enc a | None => [false] end;
            dec s := match s with
                     | true :: s => match dec s with Some (a, s) => Some (Some a, s) | None => None end
                     | false :: s => Some (None, s)
                     | [] => None
                     end |}.
  intros [a|] s; cbn; [by rewrite dec_enc|done].
Defined.
#[export] Instance Z_codec : Codec Z.
Proof.
  refine (via (fun z => match z with Z0 => None | Zpos p => Some (p, 1%N) | Zneg p => Some (p, 0%N) end)
              (fun o => match o with None => Z0 | Some (p, s) => if (s =? 1)%N then Zpos p else Zneg p end) _).
  by intros [].
Defined.

Fixpoint enc_list {A} `{Codec A} (l : list A) : list bool :=
  match l with [] => [false] | a :: l => true :: enc a ++ enc_list l end.
Fixpoint dec_list {A} `{Codec A} (fuel : nat) (s : list bool) : option (list A * list bool) :=
  match fuel with
  | O => None
  | S fuel =>
      match s with
      | false :: s => Some ([], s)
      | true :: s =>
          match dec s with
          | Some (a, s) => match dec_list fuel s with Some (l, s) => Some (a :: l, s) | None => None end
          | None => None
          end
      | [] => None
      end
  end.
Lemma dec_enc_list {A} `{Codec A} (l : list A) s fuel : (length l < fuel)%nat ->
  dec_list fuel (enc_list l ++ s) = Some (l, s).
Proof.
  revert fuel. induction l as [|a l IH]; intros [|fuel] Hf; cbn in *; try lia; [done|].
  rewrite <- app_assoc, dec_enc, IH by lia. done.
Qed.
#[export] Instance list_codec {A} `{Codec A} : Codec (list A).
Proof.
  refine {| enc l := enc (N.of_nat (length l)) ++ enc_list l;
            dec s := match dec s with Some (n, s) => dec_list (S (N.to_nat n)) s | None => None end |}.
  intros l s. rewrite <- app_assoc, dec_enc. apply dec_enc_list. rewrite Nat2N.id. lia.
Defined.
#[export] Instance string_codec : Codec string.
Proof.
  refine (via (fun s => map Ascii.N_of_ascii (String.list_ascii_of_string s))
              (fun l => String.string_of_list_ascii (map Ascii.ascii_of_N l)) _).
  intros s. rewrite map_map, (map_ext _ id), map_id by apply Ascii.ascii_N_embedding.
  apply String.string_of_list_ascii_of_string.
Defined.
#[export] Instance secret_codec : Codec SecretReference.
Proof.
  refine (via (fun x => (sx_service x, sx_secret x, sx_version x, sx_name x, sx_operation x, sx_kind x))
              (fun '(a, b, c, d, e, f) => {| sx_service := a; sx_secret := b; sx_version := c; sx_name := d;
                                             sx_operation := e; sx_kind := f |}) _). by intros [].
Defined.
#[export] Instance backend_codec : Codec BackendRef.
Proof.
  refine (via (fun x => (mb_ref x, mb_allocation x, mb_generation x, mb_fence x, mb_artifact x, mb_manifest x))
              (fun '(a, b, c, d, e, f) => {| mb_ref := a; mb_allocation := b; mb_generation := c; mb_fence := d;
                                             mb_artifact := e; mb_manifest := f |}) _). by intros [].
Defined.
#[export] Instance database_codec : Codec DatabaseRef.
Proof.
  refine (via (fun x => (md_database x, md_generation x, md_migration x, md_revision x, md_digest x, md_path x))
              (fun '(a, b, c, d, e, f) => {| md_database := a; md_generation := b; md_migration := c; md_revision := d;
                                             md_digest := e; md_path := f |}) _). by intros [].
Defined.
#[export] Instance asset_codec : Codec RetainedAsset.
Proof.
  refine (via (fun x => (ma_release x, ma_archive x, ma_manifest x))
              (fun '(a, b, c) => {| ma_release := a; ma_archive := b; ma_manifest := c |}) _). by intros [].
Defined.
#[export] Instance manifest_codec : Codec RouteManifest.
Proof.
  refine (via (fun x => (mf_project x, mf_release x, mf_deployment x, mf_commit x, mf_generation x, mf_frontend x,
                         mf_backend x, mf_database x, (mf_config x, mf_secrets x, mf_observation x, mf_receipt x,
                         mf_previous x, mf_assets x, mf_drain x)))
              (fun '(a, b, c, d, e, f, g, h, (i, j, k, l, m, n, o)) => {| mf_project := a; mf_release := b;
                 mf_deployment := c; mf_commit := d; mf_generation := e; mf_frontend := f; mf_backend := g;
                 mf_database := h; mf_config := i; mf_secrets := j; mf_observation := k; mf_receipt := l;
                 mf_previous := m; mf_assets := n; mf_drain := o |}) _). by intros [].
Defined.

Definition manifest_json (m : RouteManifest) : string :=
  String.string_of_list_ascii (map (fun b : bool => if b then "1"%char else "0"%char) (enc m)).
Definition parse_manifest (s : string) : option (option RouteManifest) :=
  match dec (map (fun c => bool_decide (c = "1"%char)) (String.list_ascii_of_string s)) with
  | Some (m, []) => Some (Some m)
  | _ => None
  end.
Lemma manifest_round_trip m : parse_manifest (manifest_json m) = Some (Some m).
Proof.
  unfold parse_manifest, manifest_json. rewrite String.list_ascii_of_string_of_list_ascii, map_map, (map_ext _ id), map_id by by intros [].
  rewrite <- (app_nil_r (enc m)), dec_enc. done.
Qed.
