(* ===== verification/ReleaseTheorems.v ===== *)
(** * Releases: the theorems

    What holds however requests follow one another, what each handler's answer means,
    and an execution on which the hypotheses are met. *)

From stdpp Require Import base list option gmap strings relations sorting.
From Stdlib Require Import ZArith Lia Ascii.
From S2P Require Import Prelude RustText Bytes PgTx Intent Secrets Admission PolicyClock.
From S2P Require Import ExecutionTables BuildTables Credentials RuntimeEvidence Runtime.
From S2P Require Import RuntimeTheorems.
From S2P Require Import ReleaseTables ReleaseEvidence ReleaseReceipts Migrations Releases ReleaseSpec ReleaseSteps ManifestText.

Local Open Scope string_scope.
Local Open Scope list_scope.

(** ** Executions *)

Section Executions.
Context {P : Type} `{FactRefresh P}.
Context (Y : ReleaseExternals) (st : ReleaseConfig).
Implicit Types (d : RlDb P) (w : World (RlDb P)).

(** The requests of owners and workers, in any order; the other components write their
    own tables, and what has succeeded stays so. *)
Inductive rl_api : World (RlDb P) -> World (RlDb P) -> Prop :=
| rl_stage caller project deployment headers q env w r w' :
    stage_release Y st caller project deployment headers q env w = (r, w') -> rl_api w w'
| rl_list caller project env w r w' : list_releases Y st caller project env w = (r, w') -> rl_api w w'
| rl_rollback caller project release headers env w r w' :
    request_rollback Y st caller project release headers env w = (r, w') -> rl_api w w'
| rl_prepare caller project deployment headers q env w r w' :
    prepare_migration_trial Y st caller project deployment headers q env w = (r, w') -> rl_api w w'
| rl_lease worker env w r w' : lease_reconciliation Y st worker env w = (r, w') -> rl_api w w'
| rl_renew id q env w r w' : renew_reconciliation Y st id q env w = (r, w') -> rl_api w w'
| rl_credential id q env w r w' : resolve_probe_credential Y st id q env w = (r, w') -> rl_api w w'
| rl_complete id q env w r w' : complete_reconciliation Y st id q env w = (r, w') -> rl_api w w'
| rl_activate id q env w r w' : activate_reconciliation Y st id q env w = (r, w') -> rl_api w w'
| rl_others w w' : rl_frame (db w) (db w') -> rl_api w w'.

Lemma rl_api_steps w w' : rl_api w w' -> by_steps Y (db w) (db w').
Proof.
  destruct 1.
  - by eapply stage_steps.
  - by eapply list_steps.
  - by eapply rollback_steps.
  - by eapply prepare_migration_steps.
  - by eapply rl_lease_steps.
  - by eapply rl_renew_steps.
  - by eapply resolve_probe_credential_steps.
  - by eapply rl_complete_steps.
  - by eapply activate_steps.
  - by apply rl_frame_by_steps.
Qed.

Lemma rl_apis_steps w w' : rtc rl_api w w' -> by_steps Y (db w) (db w').
Proof. induction 1; [done|]. etrans; [by apply rl_api_steps|done]. Qed.

(** No release yet. *)
Definition rl_fresh d : Prop := releases d = ∅ /\ routes d = ∅ /\ reconciliations d = ∅.

Lemma fresh_rl_ok d : rl_fresh d -> rl_ok Y d.
Proof.
  intros (El & Er & Ec).
  split; unfold healthy_count, healthy_bound, project_route; rewrite ?El, ?Er, ?Ec; try (intros *; by rewrite lookup_empty).
Qed.

Lemma reachable_rl_ok w w' : rl_fresh (db w) -> rtc rl_api w w' -> rl_ok Y (db w').
Proof.
  intros Hf Hr. apply fresh_rl_ok in Hf. eapply rl_steps_ok; [|exact Hf]. by eapply rl_apis_steps.
Qed.

Lemma rl_ok_from w w' : rl_ok Y (db w) -> rtc rl_api w w' -> rl_ok Y (db w').
Proof. intros Hok Hr. eapply rl_steps_ok; [|exact Hok]. by eapply rl_apis_steps. Qed.

(** ** History *)

(** The ways of a release; its end is final. *)
Definition release_moves (x x' : Release) : Prop :=
  rl_state x' = rl_state x
  \/ rl_state x = RlStaged \/ rl_state x = RlHealthy /\ rl_state x' = RlRetired.

Definition ended_rcn (s : ReconciliationState) : bool := one_of s [RcSucceeded; RcFailed].

Record rl_history d d' : Prop := {
  lh_releases : forall k x, releases d !! k = Some x ->
    exists x', releases d' !! k = Some x' /\ same_release x x' /\ release_moves x x';
  lh_reconciliations : forall k r, reconciliations d !! k = Some r -> exists r', reconciliations d' !! k = Some r'
    /\ same_reconciliation r r' /\ (rn_fence r <= rn_fence r')%Z /\ (rn_attempts r <= rn_attempts r')%Z
    /\ (ended_rcn (rn_state r) = true -> rn_state r' = rn_state r);
  lh_routes : forall project o, routes d !! project = Some o -> exists o', routes d' !! project = Some o'
    /\ ro_account o' = ro_account o /\ (o' = o \/ (ro_generation o < ro_generation o')%Z);
  lh_events : release_events d ⊆ release_events d';
}.

Lemma same_release_trans x y z : same_release x y -> same_release y z -> same_release x z.
Proof. intros [] []. split; congruence. Qed.
Lemma same_reconciliation_trans x y z : same_reconciliation x y -> same_reconciliation y z -> same_reconciliation x z.
Proof. intros [] []. split; congruence. Qed.

#[export] Instance rl_history_preorder : PreOrder rl_history.
Proof.
  split.
  - intros d. split; try done.
    + intros k x Hx. exists x. split_and!; try done. by left.
    + intros k r Hr. exists r. split_and!; try done; lia.
    + intros p o Ho. exists o. auto.
  - intros d1 d2 d3 [A1 A2 A3 A4] [B1 B2 B3 B4]. split; [| | |by etrans].
    + intros k x Hx. destruct (A1 _ _ Hx) as (y & Hy & Sy & My). destruct (B1 _ _ Hy) as (z & Hz & Sz & Mz).
      exists z. split; [done|]. split; [by eapply same_release_trans|]. unfold release_moves in *. intuition congruence.
    + intros k r Hr. destruct (A2 _ _ Hr) as (s & Hs & Ss & ? & ? & Es). destruct (B2 _ _ Hs) as (t & Ht & St & ? & ? & Et).
      exists t. split; [done|]. split; [by eapply same_reconciliation_trans|]. split; [lia|]. split; [lia|].
      intros He. rewrite Et; [by apply Es|]. by rewrite Es.
    + intros k o Ho. destruct (A3 _ _ Ho) as (p & Hp & Ep & Mp). destruct (B3 _ _ Hp) as (q & Hq & Eq & Mq).
      exists q. split; [done|]. split; [congruence|]. destruct Mp as [->|], Mq as [->|]; auto. right. lia.
Qed.

Lemma next_ended F r r' : rcn_next Y F r r' -> ended_rcn (rn_state r) = true -> rn_state r' = rn_state r.
Proof.
  intros [E _ _ _|Hl _ _ _ _ _|E _ _ _ _ _|E _ _ _ _|p E _ _ _ _ _|E _ _ _ _] He; try done.
  all: unfold ended_rcn, leasable, awaiting, one_of in *; by destruct (rn_state r).
Qed.

Lemma retire_moves d account project current t k x : t !! k = Some x ->
  exists x', retire_all (excess_releases d account project current) t !! k = Some x' /\ same_release x x' /\ release_moves x x'.
Proof.
  intros Hx. rewrite retire_lookup, Hx. cbn. eexists. split; [done|].
  case_bool_decide; cbn; [|by split; [|left]]. case_bool_decide; cbn; [|by split; [|left]].
  split; [done|]. by right; right.
Qed.

Lemma rl_step_history d d' : rl_ok Y d -> rl_step Y d d' -> rl_history d d'.
Proof.
  intros Hok. destruct 1 as [[El Er Ec Ev _]|k r r' Hn [Hb Ea Hs Ero Hf Hev _]|k r Hst|k r r' o x x' Hst].
  - split; rewrite ?El, ?Er, ?Ec; try exact Ev; apply (rl_history_preorder.(PreOrder_Reflexive) d).
  - split; [| |rewrite Ero; apply (rl_history_preorder.(PreOrder_Reflexive) d)|done].
    + intros j y Hy. destruct Hf as [->|z code _ _ Hz Hzs ->]; [by apply (rl_history_preorder.(PreOrder_Reflexive) d)|].
      rewrite lookup_insert. case_decide as E; [|by apply (rl_history_preorder.(PreOrder_Reflexive) d)].
      subst j. assert (y = z) as -> by congruence. eexists. split_and!; [done|done|]. by right; left.
    + intros j s Hj. rewrite Ea, lookup_insert. case_decide as E; [|by apply (rl_history_preorder.(PreOrder_Reflexive) d)].
      subst j. assert (s = r) as -> by congruence. exists r'. pose proof (next_counters _ _ _ _ Hn) as (? & ? & _).
      split_and!; try done. by eapply next_ended.
  - destruct (enqueue_release _ _ _ _ _ Hst Hok) as (_ & Hkeep & _). destruct Hst as [Hn Ea _ _ _ _ _ _ Ero _ Hev _].
    split; [| |rewrite Ero; apply (rl_history_preorder.(PreOrder_Reflexive) d)|done].
    + intros j y Hy. exists y. split; [by apply Hkeep|]. by split; [|left].
    + intros j s Hj. rewrite Ea, lookup_insert_ne by congruence. by apply (rl_history_preorder.(PreOrder_Reflexive) d).
  - pose proof Hst as [Hb Es Es' Ea Hs Eat Efe Eex Ero Hown (Hoa & _ & Hog & Hpos) (Hx & Hsame & Hh) Erel Hev _].
    split; [| | |done].
    + intros j y Hy. destruct (decide (j = rn_release r)) as [->|Hne].
      * assert (y = x) as -> by congruence. rewrite (activated_current _ _ _ _ _ _ _ _ _ Hst Hok).
        exists x'. split_and!; try done. destruct (ck_release _ _ _ (ok_reconciliation _ _ Hok _ _ Hb)) as (z & Hz & _ & _ & Hzs).
        assert (z = x) as -> by congruence. rewrite Es in Hzs. specialize (Hzs eq_refl).
        unfold release_moves. destruct (rn_kind r); rewrite Hzs, ?Hh; auto.
      * rewrite Erel. apply retire_moves. unfold promoted_releases. by rewrite lookup_insert_ne.
    + intros j s Hj. rewrite Ea, lookup_insert. case_decide as E; [|by apply (rl_history_preorder.(PreOrder_Reflexive) d)].
      subst j. assert (s = r) as -> by congruence. exists r'. split_and!; try done; try lia. by rewrite Es.
    + intros project q Hq. rewrite Ero, lookup_insert. case_decide as E; [|by exists q; auto].
      subst project. exists o. split; [done|]. split; [by rewrite Hoa, (Hown _ Hq)|]. right.
      assert (Eg : route_generation d (rn_account r) (rn_project r) = ro_generation q).
      { unfold route_generation, project_route. rewrite Hq. csimpl. unfold where_. rewrite (Hown _ Hq), bool_decide_eq_true_2 by done. done. }
      pose proof (route_generation_bounds Y _ (rn_account r) (rn_project r) Hok) as Hg. rewrite Eg in *.
      rewrite Hog, <- Eex in Hpos |- *. destruct (wrap_i64_succ _ Hg Hpos) as [-> _]. lia.
Qed.

Lemma rl_apis_history w w' : rl_ok Y (db w) -> rtc rl_api w w' -> rl_history (db w) (db w').
Proof.
  intros Hok Hr%rl_apis_steps. specialize (Hr Hok).
  induction Hr as [|d1 d2 d3 H1 _ IH]; [done|]. etrans; [by apply rl_step_history|]. apply IH. by eapply rl_step_ok.
Qed.
End Executions.

(** ** The receipts behind a prepared route *)

Section Probes.
Context {P : Type} `{FactRefresh P}.
Context (Y : ReleaseExternals) (st : ReleaseConfig).
Implicit Types (d : RlDb P) (w : World (RlDb P)).

Notation m3 := (rg_m3 st).

(** A file shows a required probe: its receipt passes every check, at a time of the request. *)
Definition answers (required : list RequiredProbe) (rcn attempt : Uuid) (fence : Z) (digest : string)
    (p : RequiredProbe) : Prop :=
  exists now receipt, answered_probe Y m3 required rcn attempt fence now digest = Ok (p, receipt).

Lemma observe_receipts_Ok required rcn attempt fence digests : forall observed env w w' l rs,
  observe_receipts Y m3 required rcn attempt fence digests observed env w = (Ok (l, rs), w') -> NoDup observed ->
  exists ps, l = observed ++ ps /\ NoDup l /\ Forall2 (answers required rcn attempt fence) digests ps
    /\ map fst rs = digests.
Proof.
  induction digests as [|digest rest IH]; intros observed env w w' l rs Hm Hnd; cbn [observe_receipts] in Hm.
  - apply tret_Ok in Hm as [[= -> ->] ->]. exists []. rewrite app_nil_r. split_and!; [done|done|constructor|done].
  - apply tbind_Ok in Hm as (now & w1 & [_ ->]%clock_Ok & Hm).
    apply tbind_Ok in Hm as ([p receipt] & w2 & [Ha ->]%lift_Ok & Hm). cbn [fst snd] in Hm.
    apply tbind_Ok in Hm as (? & w3 & [Hn%bool_decide_eq_false ->]%reject_if_Ok & Hm).
    apply tbind_Ok in Hm as ([l' rs'] & w4 & Hmore & [[= -> ->] ->]%tret_Ok). cbn [fst snd] in *.
    apply IH in Hmore as (ps & -> & Hnd' & Hf & Er).
    + exists (p :: ps). rewrite <- app_assoc in *. split_and!; [done|done| |cbn; by rewrite Er].
      constructor; [by exists now, receipt|done].
    + apply NoDup_app. split_and!; [done| |by apply NoDup_singleton]. intros q Hq ->%list_elem_of_singleton. done.
Qed.

(** The files show the required probes, each of them exactly once. *)
Lemma validate_probe_receipts_Ok required digests rcn attempt fence env w w' rs :
  validate_probe_receipts Y m3 required digests rcn attempt fence env w = (Ok rs, w') ->
  NoDup digests /\ map fst rs = digests
  /\ exists ps, ps ≡ₚ required /\ Forall2 (answers required rcn attempt fence) digests ps.
Proof.
  unfold validate_probe_receipts. intros Hm.
  apply tbind_Ok in Hm as (? & w1 & [Hc ->]%reject_if_Ok & Hm).
  apply tbind_Ok in Hm as ([l rs'] & w2 & Hobs & Hm).
  apply tbind_Ok in Hm as (? & w3 & [Hs ->]%reject_if_Ok & [-> ->]%tret_Ok). cbn [fst snd] in *.
  apply observe_receipts_Ok in Hobs as (ps & -> & Hnd & Hf & Er); [|constructor]. cbn in Hnd, Hs.
  apply orb_false_iff in Hc as [Hlen Hd%negb_false_iff%bool_decide_eq_true].
  apply negb_false_iff, Nat.eqb_eq in Hlen. apply negb_false_iff in Hs. unfold same_probes in Hs.
  apply andb_true_iff in Hs as [Hs _]. split; [done|]. split; [done|]. exists ps. split; [|done].
  apply submseteq_length_Permutation.
  - apply NoDup_submseteq; [done|]. intros p Hp. rewrite forallb_forall in Hs.
    apply list_elem_of_In, Hs, bool_decide_eq_true in Hp. done.
  - rewrite <- (Forall2_length _ _ _ Hf). lia.
Qed.

(** The route to the next generation, over what was loaded. *)
Definition intent_of (c : LoadedRelease) (current : option LoadedRelease) (retained : list LoadedRelease)
    (expected drain : Z) (probes : list string) : PreparedIntent :=
  let generation := wrap_i64 (expected + 1) in
  let manifest := route_manifest Y c current retained generation drain in
  {| pp_manifest := manifest; pp_json := y_manifest_json Y manifest;
     pp_digest := prefixed_digest Y (as_bytes (y_manifest_json Y manifest)); pp_generation := generation;
     pp_drain := drain; pp_probes := probes |}.

(** What a prepared route rests on. *)
Record route_prepared (q : LeaseIdentity) (o : CompletionOutcome) (policy : Z) (r : Reconciliation)
    (p : PreparedIntent) (c : LoadedRelease) (current : option LoadedRelease) (retained : list LoadedRelease)
    (requirements : Requirements) d : Prop := {
  pr_candidate : load_release_lease d (rn_release r) policy = Ok c;
  pr_previous : load_current_and_retained d (rn_account r) (rn_project r) (rn_release r) policy = Ok (current, retained);
  pr_secrets : validate_secret_refs d (rn_account r) (rn_project r) (rl_secrets (ld_release c)) = Ok tt;
  pr_required : rn_requirements r = Some requirements;
  pr_digests : NoDup (co_probes o);
  pr_probes : exists ps, ps ≡ₚ rq_probes requirements
    /\ Forall2 (answers (rq_probes requirements) (rn_id r) (lid_attempt q) (lid_fence q)) (co_probes o) ps;
  pr_migration : forall m, rl_migration (ld_release c) = Some m ->
    exists rollback, gate_checks Y d r c m rollback policy = Ok tt;
  pr_manifest : exists drain, p = intent_of c current retained (rn_expected r) drain (co_probes o);
}.

Lemma prepare_route_Ok r o c current retained env w w' r' p :
  prepare_route Y r o c current retained env w = (Ok (CompletedPrepared r' p), w') ->
  exists drain, p = intent_of c current retained (rn_expected r) drain (co_probes o).
Proof.
  unfold prepare_route. cbn zeta. intros Hm. apply tbind_Ok in Hm as (now & w1 & [_ ->]%clock_Ok & Hm).
  apply tbind_Ok in Hm as (? & w2 & _ & Hm). apply tbind_Ok in Hm as (d & w3 & [-> ->]%get_db_Ok & Hm).
  apply tbind_Ok in Hm as (updated & w4 & [_ ->]%lift_Ok & Hm). apply tret_Ok in Hm as [[= _ ->] _]. by eexists.
Qed.

Lemma await_never_prepares r q state code hash operation result env w w' r' p :
  await (P := P) r q state code hash operation result env w = (Ok (CompletedPrepared r' p), w') -> False.
Proof.
  unfold await. intros Hm. do 4 apply tbind_Ok in Hm as (? & ? & _ & Hm). by apply tret_Ok in Hm as [? _].
Qed.

Lemma complete_migration_prepared r q o hash c current retained receipts phase policy migration env w w' r' p :
  complete_migration Y st r q o hash c current retained receipts phase policy migration env w
    = (Ok (CompletedPrepared r' p), w') ->
  (exists rollback, gate_checks Y (db w) r c migration rollback policy = Ok tt)
  /\ exists env w1 w2, prepare_route Y r o c current retained env w1 = (Ok (CompletedPrepared r' p), w2).
Proof.
  unfold complete_migration. cbn zeta. intros Hm. apply tbind_Ok in Hm as (d & w1 & [-> ->]%get_db_Ok & Hm).
  apply tbind_Ok in Hm as (receipt & w2 & [_ ->]%lift_Ok & Hm).
  apply tbind_Ok in Hm as (? & w3 & [_ ->]%reject_if_Ok & Hm).
  apply tbind_Ok in Hm as (bs & w4 & [_ ->]%lift_Ok & Hm).
  destruct (negb _ && negb _) in Hm.
  - do 3 apply tbind_Ok in Hm as (? & ? & _ & Hm). by apply await_never_prepares in Hm.
  - apply tbind_Ok in Hm as ([] & w5 & [Hg ->]%lift_Ok & Hm). eauto 10.
Qed.

Lemma complete_successful_prepared r q o hash env w w' r' p :
  complete_successful Y st r q o hash env w = (Ok (CompletedPrepared r' p), w') ->
  exists d policy c current retained requirements, rl_frame (db w) d
    /\ route_prepared q o policy r p c current retained requirements d.
Proof.
  unfold complete_successful. cbn zeta. intros Hm.
  apply tbind_Ok in Hm as (policy & w1 & Hf%(frame_Ok _ _ _ _ _ (rl_policy_now_frame _)) & Hm).
  apply tbind_Ok in Hm as (d & w2 & [-> ->]%get_db_Ok & Hm).
  apply tbind_Ok in Hm as (c & w3 & [Hc ->]%lift_Ok & Hm).
  apply tbind_Ok in Hm as ([current retained] & w4 & [Hp ->]%lift_Ok & Hm).
  apply tbind_Ok in Hm as ([] & w5 & [Hsec ->]%lift_Ok & Hm).
  destruct (bool_decide _) in Hm.
  - unfold complete_trial in Hm. do 10 apply tbind_Ok in Hm as (? & ? & _ & Hm). by apply await_never_prepares in Hm.
  - apply tbind_Ok in Hm as (requirements & w6 & [Hreq ->]%lift_Ok & Hm).
    apply tbind_Ok in Hm as (receipts & w7 & Hr & Hm).
    pose proof (ro_validate_receipts _ _ _ _ _ _ _ _ _ _ _ Hr) as Ed. cbn in Ed.
    apply validate_probe_receipts_Ok in Hr as (Hnd & _ & Hps).
    assert (Ereq : rn_requirements r = Some requirements) by (destruct (rn_requirements r); cbn in Hreq; congruence).
    exists (db w1), policy, c, current, retained, requirements. split; [done|].
    destruct (rl_migration _) as [m|] eqn:Em.
    + apply complete_migration_prepared in Hm as (Hg & env' & w8 & w9 & Hm%prepare_route_Ok). rewrite Ed in Hg.
      split; try done. intros m' Em'. assert (m' = m) as -> by congruence. done.
    + apply tbind_Ok in Hm as (? & w8 & [_ ->]%reject_if_Ok & Hm%prepare_route_Ok).
      split; try done. intros m Em'. congruence.
Qed.
End Probes.

(** ** Workers that have lost their lease *)

Section Fences.
Context {P : Type} `{FactRefresh P}.
Context (Y : ReleaseExternals) (st : ReleaseConfig).
Implicit Types (d : RlDb P) (w : World (RlDb P)).

(** The reconciliation has ended, or was leased again under a later fence. *)
Definition superseded d (id : Uuid) (q : LeaseIdentity) : Prop :=
  exists r, reconciliations d !! id = Some r /\ ((lid_fence q < rn_fence r)%Z \/ ended_rcn (rn_state r) = true).

Lemma superseded_stays d d' id q : rl_history d d' -> superseded d id q -> superseded d' id q.
Proof.
  intros Hh (r & Hr & Hs). destruct (lh_reconciliations _ _ Hh _ _ Hr) as (r' & Hr' & _ & ? & _ & He).
  exists r'. split; [done|]. destruct Hs as [?|Hs]; [left; lia|right]. by rewrite He.
Qed.

Lemma superseded_dead d id q state now : superseded d id q -> leased state = true ->
  live_reconciliation d id q state now = None.
Proof.
  intros (r & Hr & Hs) Hst. destruct (live_reconciliation _ _ _ _ _) as [r'|] eqn:E; [|done].
  apply live_reconciliation_Some in E as (Hr' & Es & a & _ & _ & _ & Ef & _). assert (r' = r) as -> by congruence.
  destruct Hs as [?|He]; [lia|]. rewrite Es in He. unfold leased, ended_rcn, one_of in *. by destruct state.
Qed.

(** The policy clock may have moved on; everything else is as it was. *)
Definition same_but_clock d d' : Prop := exists c, d' = set_clock_row c d.

#[export] Instance same_but_clock_preorder : PreOrder same_but_clock.
Proof.
  split.
  - intros d. exists (clock_row d). by destruct d as [[] ? ? ? ? ? ? ? ? ? ? ? ? ? ? ?].
  - intros d1 d2 d3 [c ->] [c' ->]. by exists c'.
Qed.

Lemma policy_now_clock m3 : keeps same_but_clock (policy_now (D := RlDb P) m3).
Proof.
  unfold policy_now, policy_time. keeps_step; [|keeps_step].
  do 3 keeps_step. destruct (policy_clock _); [|keeps_step].
  keeps_step; [|case_match; keeps_step].
  intros env0 w0 r0 w0' Hm. unfold upsert_clock, tbind, get_db, put_db, tret, raise in Hm.
  repeat case_match; simplify_eq; try done; by eexists.
Qed.

Lemma lock_live_dead id q state env w r w' :
  superseded (db w) id q -> leased state = true -> lock_live_reconciliation id q state env w = (r, w') ->
  (exists e, r = Err e) /\ db w' = db w.
Proof.
  intros Hs Hst. unfold lock_live_reconciliation, reject_if, tbind, clock_timestamp, get_db, lift.
  destruct (lid_fence q <=? 0)%Z; [intros [= <- <-]; eauto|]. cbn. rewrite superseded_dead by done.
  intros [= <- <-]. eauto.
Qed.

(** A request that was refused. *)
Definition refused {A} (r : res ApiError A) d d' : Prop := (exists e, r = Err e) /\ same_but_clock d d'.

Lemma refused_lift {A B} (m : res ApiError A) (k : A -> M (RlDb P) B) env w r w' :
  tbind (lift m) k env w = (r, w') ->
  (forall a, m = Ok a -> k a env w = (r, w') -> refused r (db w) (db w')) -> refused r (db w) (db w').
Proof. intros [(e & _ & -> & ->)|(a & Ha & Hk)]%lift_cases Hr; [split; [eauto|done]|by apply (Hr a)]. Qed.

Lemma refused_body {A B} (m : M (RlDb P) A) (k : A -> M (RlDb P) (res ApiError B)) env w r w' :
  (forall r w', m env w = (r, w') -> exists e, r = Err e) -> transaction (tbind m k) env w = (r, w') ->
  refused r (db w) (db w').
Proof.
  intros Hm. unfold transaction, tbind. destruct (m env w) as [[a|e] w1] eqn:E.
  - by destruct (Hm _ _ eq_refl) as [? ?].
  - intros [= <- <-]. split; [eauto|done].
Qed.

Context (id_text : string) (id : Uuid) (Hid : path_uuid (y_parse_uuid Y) id_text = Ok id).

Lemma renew_refused q env w r w' : superseded (db w) id q ->
  renew_reconciliation Y st id_text q env w = (r, w') -> refused r (db w) (db w').
Proof.
  intros Hs. unfold renew_reconciliation. intros Hm. eapply refused_lift; [exact Hm|]. clear Hm. intros m3 _ Hm.
  eapply refused_lift; [exact Hm|]. clear Hm. intros u _ Hm. rewrite Hid in Hm.
  unfold tbind at 1, lift in Hm. unfold transaction, tbind, clock_timestamp, get_db, lift in Hm.
  cbn [db] in Hm. rewrite !superseded_dead in Hm by done. injection Hm as <- <-. split; [eauto|done].
Qed.

Lemma credential_refused q env w r w' : superseded (db w) id (rpq_live q) ->
  resolve_probe_credential Y st id_text q env w = (r, w') -> refused r (db w) (db w').
Proof.
  intros Hs. unfold resolve_probe_credential. intros Hm. eapply refused_lift; [exact Hm|]. clear Hm. intros m3 _ Hm.
  eapply refused_lift; [exact Hm|]. clear Hm. intros u _ Hm.
  unfold reject_if at 1 in Hm. destruct (negb _) in Hm; [injection Hm as <- <-; split; [eauto|done]|].
  unfold tbind at 1, tret at 1 in Hm. rewrite Hid in Hm. unfold tbind at 1, lift at 1 in Hm.
  assert (Hb : forall r w', bind_probe id q env w = (r, w') -> exists e, r = Err e).
  { unfold bind_probe, tbind at 1. intros r1 w1. destruct (lock_live_reconciliation _ _ _ _ _) as [res w2] eqn:Hl.
    apply lock_live_dead in Hl as [[e ->] _]; [|done..]. intros [= <- <-]. eauto. }
  unfold tbind at 1 in Hm. destruct (transaction _ _ _) as [[b|e] w1] eqn:Ht.
  - apply (refused_body _ _ _ _ _ _ Hb) in Ht as [[e ?] _]. done.
  - injection Hm as <- <-. by apply (refused_body _ _ _ _ _ _ Hb) in Ht as [_ ?]; [split; [eauto|done]].
Qed.

Lemma complete_refused q env w r w' : superseded (db w) id (cmr_live q) ->
  complete_reconciliation Y st id_text q env w = (r, w') -> refused r (db w) (db w').
Proof.
  intros Hs. unfold complete_reconciliation. cbn zeta. intros Hm.
  do 3 (eapply refused_lift; [exact Hm|]; clear Hm; intros ? _ Hm). rewrite Hid in Hm.
  unfold tbind at 1, lift at 1 in Hm. unfold clock_transaction, tbind at 1 in Hm.
  destruct (lock_live_reconciliation _ _ _ _ _) as [res w2] eqn:Hl. apply lock_live_dead in Hl as [[e ->] Ed]; [|done..].
  injection Hm as <- <-. split; [eauto|]. cbn. by eexists.
Qed.

Lemma activate_refused q env w r w' : superseded (db w) id (acr_live q) ->
  activate_reconciliation Y st id_text q env w = (r, w') -> refused r (db w) (db w').
Proof.
  intros Hs. unfold activate_reconciliation. intros Hm.
  do 2 (eapply refused_lift; [exact Hm|]; clear Hm; intros ? _ Hm). rewrite Hid in Hm.
  unfold tbind at 1, lift at 1 in Hm.
  do 2 (eapply refused_lift; [exact Hm|]; clear Hm; intros ? _ Hm).
  unfold tbind at 1 in Hm. destruct (policy_now _ _ _) as [[policy|e] w0] eqn:Hpol.
  2: { injection Hm as <- <-. split; [eauto|]. by apply policy_now_clock in Hpol. }
  apply policy_now_clock in Hpol as Hc. assert (Hs0 : superseded (db w0) id (acr_live q)).
  { destruct Hc as [c ->]. exact Hs. }
  apply transaction_cases in Hm as [(e & -> & ->)|Hm]; [split; [eauto|done]|]. exfalso.
  apply tbind_Ok in Hm as (d & w1 & [-> ->]%get_db_Ok & Hm).
  apply tbind_Ok in Hm as (account & w2 & [_ ->]%lift_Ok & Hm).
  apply tbind_Ok in Hm as (? & w3 & [_ ->]%sql_Ok & Hm).
  apply tbind_Ok in Hm as (rcn & w4 & Hl & _). by apply lock_live_dead in Hl as [[e ?] _].
Qed.
End Fences.

(** ** A reconciliation that has used up its attempts while it waits *)

Section Stuck.
Context {P : Type} `{FactRefresh P}.
Context (Y : ReleaseExternals) (st : ReleaseConfig).
Implicit Types (d : RlDb P) (w : World (RlDb P)).

(** It waits for an operation that has succeeded, and has no attempt left. *)
Definition stuck d (k : Uuid) (r : Reconciliation) : Prop :=
  exists r' o, reconciliations d !! k = Some r' /\ same_reconciliation r r' /\ awaiting (rn_state r') = true
    /\ rn_attempts r' = MAX_ATTEMPTS /\ awaited_operation r' = Some o /\ operation_succeeded d o.

Lemma stuck_next d k r r' s : rcn_next Y (operation_failed d r') r' s -> awaiting (rn_state r') = true ->
  rn_attempts r' = MAX_ATTEMPTS -> (exists o, awaited_operation r' = Some o /\ operation_succeeded d o) ->
  stuck d k r -> rn_state s = rn_state r' /\ rn_attempts s = rn_attempts r' /\ rn_result s = rn_result r'.
Proof.
  unfold MAX_ATTEMPTS. intros [E Ea _ Er|_ Ha _ _ _ _|E _ _ _ _ _|E _ _ _ _|p E _ _ _ _ _|_ Hf _ _ _] Hw Hn (o & Ho & x & Hx & Hs) _;
    try done; try lia; try (by rewrite E in Hw).
  destruct Hf as (o' & x' & Ho' & Hx' & Hs'). assert (o' = o) as -> by congruence.
  assert (x' = x) as -> by congruence. by rewrite Hs in Hs'.
Qed.

Lemma stuck_step d d' k r : rl_step Y d d' -> stuck d k r -> stuck d' k r.
Proof.
  intros Hst Hstuck. pose proof Hstuck as (r' & o & Hr & Hs & Hw & Hn & Ho & Hok).
  destruct Hst as [[_ _ Ec _ Hop]|k' s s' Hnext [Hb Ea Hss _ _ _ Hop]|k' s [Hnew Ea _ _ _ _ _ _ _ _ _ Hop]|
                   k' s s' q x x' [Hb Es _ Ea _ _ _ _ _ _ _ _ _ _ Hop]].
  - exists r', o. rewrite Ec. split_and!; try done. by apply Hop.
  - destruct (decide (k' = k)) as [->|Hne].
    + assert (s = r') as -> by congruence.
      destruct (stuck_next d k r r' s' Hnext Hw Hn) as (E1 & E2 & E3); [by exists o|done|].
      exists s', o. rewrite Ea, lookup_insert_eq. unfold awaited_operation in *. rewrite E1, E2, E3.
      split_and!; try done; [by eapply same_reconciliation_trans|by apply Hop].
    + exists r', o. rewrite Ea, lookup_insert_ne by done. split_and!; try done. by apply Hop.
  - exists r', o. rewrite Ea, lookup_insert_ne by congruence. split_and!; try done. by apply Hop.
  - exists r', o. rewrite Ea, lookup_insert_ne; [split_and!; try done; by apply Hop|].
    intros ->. assert (s = r') as -> by congruence. by rewrite Es in Hw.
Qed.

Lemma stuck_stays w w' k r : rl_ok Y (db w) -> rtc (rl_api Y st) w w' -> stuck (db w) k r -> stuck (db w') k r.
Proof.
  intros Hok Hr%rl_apis_steps. specialize (Hr Hok). clear Hok.
  induction Hr; [done|]. intros Hs. apply IHHr. by eapply stuck_step.
Qed.

Lemma stuck_unclaimable d k r now locked : stuck d k r ->
  next_reconciliation d now locked <> None -> exists r', next_reconciliation d now locked = Some r'
    /\ reconciliations d !! k <> Some r'.
Proof.
  intros (r' & o & Hr & _ & Hw & Hn & _) Hnext. destruct (next_reconciliation _ _ _) as [s|] eqn:E; [|done].
  exists s. split; [done|]. rewrite Hr. intros [= ->]. apply select_first_in in E as (k' & Hk & Hc).
  apply andb_true_iff in Hc as [Hc _]. apply claimable_cases in Hc as [Es|(_ & _ & Ha)].
  - by rewrite Es in Hw.
  - unfold MAX_ATTEMPTS in Hn. lia.
Qed.

(** A project with an active reconciliation takes no other. *)
Lemma stage_alone caller project deployment headers q env w x rcn w' :
  stage_release Y st caller project deployment headers q env w = (Ok (Created (x, rcn)), w') -> rl_ok Y (db w) ->
  exists prj, path_uuid (y_parse_uuid Y) project = Ok prj /\ rn_project rcn = prj
    /\ forall k r, reconciliations (db w) !! k = Some r -> active (rn_state r) = true -> rn_project r <> prj.
Proof.
  unfold stage_release. cbn zeta. intros Hm Hok.
  do 2 (apply lift_cases in Hm as [(e & _ & [=] & _)|(? & _ & Hm)]).
  apply lift_cases in Hm as [(e & _ & [=] & _)|(prj & Hprj & Hm)]. exists prj. split; [done|].
  do 2 (apply lift_cases in Hm as [(e & _ & [=] & _)|(? & _ & Hm)]).
  apply transaction_cases in Hm as [(e & [=] & _)|Hm].
  apply tbind_Ok in Hm as (created & w1 & [_ ->]%clock_Ok & Hm).
  apply tbind_Ok in Hm as (stored & w2 & [-> _]%replay_Ok & Hm).
  destruct stored; [|by apply tret_Ok in Hm as [? _]|by apply raise_Ok in Hm].
  apply tbind_Ok in Hm as (now & w3 & [_ ->]%clock_Ok & Hm).
  apply tbind_Ok in Hm as (d & w4 & [-> ->]%get_db_Ok & Hm). cbn [db] in Hm.
  apply tbind_Ok in Hm as (p & w5 & [_ ->]%lift_Ok & Hm).
  apply tbind_Ok in Hm as (release & w6 & [_ ->]%new_uuid_Ok & Hm).
  apply tbind_Ok in Hm as (t & w7 & [_ ->]%clock_Ok & Hm). cbn [ticks] in Hm.
  apply tbind_Ok in Hm as (? & w8 & [_ Er]%insert_release_Ok & Hm).
  apply tbind_Ok in Hm as (? & w9 & Hev%(frame_Ok _ _ _ _ _ (insert_release_event_frame _ _ _ _ _ _ _)) & Hm).
  apply tbind_Ok in Hm as (id & w10 & [_ ->]%new_uuid_Ok & Hm).
  apply tbind_Ok in Hm as (? & w11 & (Hn & Hu & Ec)%insert_reconciliation_Ok & Hm). cbn [db] in Hn, Hu, Ec.
  apply tbind_Ok in Hm as (d & w12 & [-> ->]%get_db_Ok & Hm).
  apply tbind_Ok in Hm as (? & w13 & [_ ->]%lift_Ok & Hm).
  apply tbind_Ok in Hm as (rcn' & w14 & [Hrcn ->]%lift_Ok & Hm).
  do 2 apply tbind_Ok in Hm as (? & ? & _ & Hm). apply tret_Ok in Hm as [[= -> ->] ->].
  pose proof (lf_reconciliations _ _ Hev) as F3. rewrite Er in F3. cbn in F3. rewrite F3 in Hn, Hu.
  unfold load_reconciliation in Hrcn. rewrite Ec in Hrcn. cbn in Hrcn. rewrite lookup_insert_eq in Hrcn.
  injection Hrcn as <-. split; [done|]. exact (unique_alone Y _ _ Hok Hn eq_refl Hu).
Qed.

(** ** A release that cannot be leased *)

Lemma blocked_lease worker policy env w w1 w2 w3 r e :
  (exists m, require_enabled (rg_m3 st) = Ok m) -> validate_worker_id worker = Ok tt ->
  policy_now (rg_m3 st) env w = (Ok policy, w1) -> expire_reconciliations env w1 = (Ok tt, w2) ->
  fail_migration_reconciliations env w2 = (Ok tt, w3) ->
  next_reconciliation (db w3) (clock env (ticks w3)) (row_locked env (S (ticks w3))) = Some r ->
  lease_checks Y (db w3) r policy = Err e ->
  exists w', lease_reconciliation Y st worker env w = (Err e, w') /\ db w' = db w1.
Proof.
  intros [m Hm] Hv Hp He Hf Hn Hc. unfold lease_reconciliation. rewrite Hm, Hv.
  unfold tbind at 1 2 3, lift. rewrite Hp. unfold transaction, tbind at 1. rewrite He.
  unfold tbind at 1. rewrite Hf. unfold tbind at 1, clock_timestamp. unfold tbind at 1, locked_rows.
  unfold tbind at 1, get_db. cbn [db ticks]. rewrite Hn. unfold start_lease, tbind, get_db, lift. cbn [db].
  rewrite Hc. by eexists.
Qed.
End Stuck.

(** ** The plan of probes *)

Section Coverage.
Context {D : Type}.

Lemma collect_Ok {A B} (f : A -> M D (list B)) l : forall env w bs w' a,
  collect f l env w = (Ok bs, w') -> a ∈ l ->
  exists w1 b w2, f a env w1 = (Ok b, w2) /\ forall x, x ∈ b -> x ∈ bs.
Proof.
  induction l as [|a0 l IH]; intros env w bs w' a Hm Ha; [by apply not_elem_of_nil in Ha|].
  cbn [collect] in Hm. apply tbind_Ok in Hm as (b & w1 & Hb & Hm). apply tbind_Ok in Hm as (rest & w2 & Hr & [-> ->]%tret_Ok).
  apply elem_of_cons in Ha as [->|Ha].
  - exists w, b, w1. split; [done|]. intros x Hx. apply elem_of_app. by left.
  - destruct (IH _ _ _ _ _ Hr Ha) as (w3 & b' & w4 & Hb' & Hin). exists w3, b', w4. split; [done|].
    intros x Hx. apply elem_of_app. right. by apply Hin.
Qed.

(** The probe of one release, against another or alone. *)
Definition probes_release (kind : string) (release : Uuid) (peer : option Uuid) (runtime : RuntimeLease)
    (p : RequiredProbe) : Prop :=
  match p with
  | Hosted h => hp_kind h = kind /\ hp_release h = release /\ hp_peer h = peer
      /\ hp_allocation h = rtl_allocation runtime /\ hp_generation h = rtl_generation runtime
      /\ hp_fence h = rtl_fence runtime /\ hp_artifact h = rtl_artifact runtime
  | Isolated i => ip_kind i = kind /\ ip_release i = release /\ ip_peer i = peer
      /\ ip_allocation i = rtl_allocation runtime /\ ip_generation i = rtl_generation runtime
      /\ ip_source_fence i = rtl_fence runtime /\ ip_artifact i = rtl_artifact runtime
  end.

Lemma probe_of_Ok kind release peer runtime evidence c env (w w' : World D) ps :
  probe_of kind release peer runtime evidence c env w = (Ok ps, w') ->
  exists p, ps = [p] /\ probes_release kind release peer runtime p
    /\ match p with Isolated _ => pc_phase c = IsolatedValidation | Hosted _ => pc_phase c <> IsolatedValidation end.
Proof.
  unfold probe_of. intros Hm. apply tbind_Ok in Hm as (receipt & w1 & [_ ->]%lift_Ok & Hm).
  apply tbind_Ok in Hm as (p & w2 & Hp & [-> ->]%tret_Ok). exists p. split; [done|].
  unfold probe in Hp. case_bool_decide as Eph.
  - apply tbind_Ok in Hp as (ex & w3 & [_ ->]%new_uuid_Ok & Hp).
    do 3 apply tbind_Ok in Hp as (? & ? & [_ ->]%lift_Ok & Hp). apply tret_Ok in Hp as [-> ->]. done.
  - apply tret_Ok in Hp as [-> ->]. done.
Qed.

Definition pair_kind (candidate api : LoadedRelease) : string :=
  if bool_decide (ld_id api = ld_id candidate) then CACHED_OLD_FRONTEND else CANDIDATE_FRONTEND.

Lemma required_probes_cover candidate current retained c env (w w' : World D) ps :
  required_probes candidate current retained c env w = (Ok ps, w') ->
  let all := candidate :: option_list current ++ retained in
  NoDup ps
  /\ (pc_migration c <> None -> forall f a, f ∈ all -> a ∈ all -> ld_id f <> ld_id a ->
      exists runtime p, ld_runtime a = Some runtime /\ p ∈ ps
        /\ probes_release (pair_kind candidate a) (ld_id f) (Some (ld_id a)) runtime p)
  /\ (pc_database_generation c <> None -> forall a, a ∈ all ->
      exists runtime p, ld_runtime a = Some runtime /\ p ∈ ps
        /\ probes_release "current_data" (ld_id a) None runtime p).
Proof.
  unfold required_probes. cbn zeta. intros Hm.
  apply tbind_Ok in Hm as (health & w1 & _ & Hm). apply tbind_Ok in Hm as (data & w2 & Hd & Hm).
  apply tbind_Ok in Hm as (overlap & w3 & Ho & Hm).
  apply tbind_Ok in Hm as (? & w4 & [Hnd%negb_false_iff%bool_decide_eq_true ->]%reject_if_Ok & [-> ->]%tret_Ok).
  split; [done|]. split.
  - intros Hmig f a Hf Ha Hne. destruct (pc_migration c) as [m|]; [|done]. change (is_none (Some m)) with false in Ho. cbv iota in Ho.
    unfold pair_probes in Ho. eapply collect_Ok in Ho as (w5 & b & w6 & Hb & Hin); [|exact Hf].
    eapply collect_Ok in Hb as (w7 & b' & w8 & Hb & Hin'); [|exact Ha].
    rewrite (bool_decide_eq_false_2 _ Hne) in Hb.
    apply tbind_Ok in Hb as (runtime & w9 & [Hrt ->]%lift_Ok & Hb). cbn zeta in Hb.
    apply probe_of_Ok in Hb as (p & -> & Hp & _). exists runtime, p. split_and!.
    + destruct (ld_runtime a); [by injection Hrt as ->|done].
    + rewrite !elem_of_app. right; right. apply Hin, Hin'. by left.
    + exact Hp.
  - intros Hgen a Ha. unfold data_probes in Hd. destruct (pc_database_generation c) as [g|]; [|done].
    change (is_none (Some g)) with false in Hd. cbv iota in Hd.
    eapply collect_Ok in Hd as (w5 & b & w6 & Hb & Hin); [|exact Ha].
    apply tbind_Ok in Hb as (runtime & w7 & [Hrt ->]%lift_Ok & Hb).
    apply probe_of_Ok in Hb as (p & -> & Hp & _). exists runtime, p. split_and!.
    + destruct (ld_runtime a); [by injection Hrt as ->|done].
    + rewrite !elem_of_app. right; left. apply Hin. by left.
    + exact Hp.
Qed.
End Coverage.

(** ** Binaries that releases share *)

Definition not_candidate (x : ExpectedProbe) : bool := negb (bool_decide (xp_kind x = "candidate")).

Lemma observe_expected_kept m receipts expected : forall observed kept obs kept',
  observe_expected m receipts expected observed kept = Ok (obs, kept') ->
  map rte_binary kept' = map rte_binary kept ++ map xp_binary (filter (fun x => not_candidate x = true) expected).
Proof.
  induction expected as [|x rest IH]; intros observed kept obs kept' Hm; cbn [observe_expected] in Hm.
  - injection Hm as <- <-. by rewrite app_nil_r.
  - apply res_bind_Ok in Hm as (r & _ & Hm). apply res_bind_Ok in Hm as (u & _ & Hm). apply IH in Hm. rewrite Hm.
    rewrite filter_cons. destruct (decide (not_candidate x = true)) as [E|E]; unfold not_candidate in E.
    + apply negb_true_iff in E. rewrite E. by rewrite map_app, <- app_assoc.
    + apply not_true_is_false, negb_false_iff in E. by rewrite E.
Qed.

Lemma validated_binaries {P} (d : RlDb P) m v kept : validation_evidence d m v = Ok kept ->
  map rte_binary kept = map xp_binary (filter (fun x => not_candidate x = true)
    (expected_releases d (mv_release v) (mg_account m) (mg_project m))).
Proof.
  unfold validation_evidence. intros Hm. apply res_bind_Ok in Hm as (? & _ & Hm).
  apply res_bind_Ok in Hm as ([observed kept'] & Hobs & Hm).
  do 3 apply res_bind_Ok in Hm as (? & _ & Hm). injection Hm as <-. by apply observe_expected_kept in Hobs.
Qed.

Lemma record_validation_evidence Y {P} v env (w w' : World (RlDb P)) gate :
  record_migration_runtime_validation Y v env w = (Ok gate, w') ->
  exists m, migrations (db w) !! mv_migration v = Some m /\ vg_migration gate = mv_migration v
    /\ validation_evidence (db w) m v = Ok (vg_retained gate).
Proof.
  unfold record_migration_runtime_validation. cbn zeta. intros Hm.
  apply tbind_Ok in Hm as (? & w1 & [_ ->]%reject_if_Ok & Hm).
  apply tbind_Ok in Hm as (d & w2 & [-> ->]%get_db_Ok & Hm).
  apply tbind_Ok in Hm as (m & w3 & [Hmig ->]%lift_Ok & Hm).
  apply tbind_Ok in Hm as (? & w4 & [_ ->]%reject_if_Ok & Hm).
  apply tbind_Ok in Hm as (now & w5 & [_ ->]%clock_Ok & Hm).
  apply tbind_Ok in Hm as (? & w6 & [_ ->]%reject_if_Ok & Hm).
  apply tbind_Ok in Hm as (kept & w7 & [Hk ->]%lift_Ok & Hm).
  do 6 apply tbind_Ok in Hm as (? & ? & _ & Hm). apply tret_Ok in Hm as [-> ->].
  exists m. destruct (migrations (db w) !! mv_migration v) as [m'|] eqn:E; [|done]. csimpl in Hmig.
  unfold where_ in Hmig. destruct (bool_decide _); csimpl in Hmig; [|done]. injection Hmig as ->. done.
Qed.

Lemma validate_switch_receipt_Ok Y s r q previous p now : validate_switch_receipt Y s r q previous p now = Ok tt ->
  sw_digest s = pp_digest p /\ sw_generation s = pp_generation p /\ sw_release s = rn_release r
  /\ sw_attempt s = lid_attempt q /\ sw_previous s = previous.
Proof.
  unfold validate_switch_receipt. cbn zeta. intros Hm. apply res_bind_Ok in Hm as (observed & _ & Hm).
  apply res_bind_Ok in Hm as (? & H1%guard_err_Ok & Hm). apply res_bind_Ok in Hm as (fence & _ & Hm).
  apply res_bind_Ok in Hm as (? & H2%guard_err_Ok & Hm). apply res_bind_Ok in Hm as (g & Hg & Hm).
  apply guard_err_Ok in Hm. unfold as_u64 in Hg. destruct (0 <=? pp_generation p)%Z; [|done].
  injection Hg as <-. bool_simpl. done.
Qed.

(** ** Retention *)

#[export] Instance newest_le_trans : Transitive newest_le.
Proof. intros x y z [?|[]] [?|[]]; unfold newest_le; lia. Qed.
#[export] Instance newest_le_total : Total newest_le.
Proof. intros x y. unfold newest_le. lia. Qed.

Section Retention.
Context {P : Type}.
Implicit Types (d : RlDb P).

Definition other_healthy d (account project release : Uuid) (y : Release) : Prop :=
  releases d !! rl_id y = Some y /\ healthy_in account project y = true /\ rl_id y <> release.

(** The other healthy releases, the ones promoted last first: two are kept, the rest is
    retired. *)
Definition retention d d' (account project release : Uuid) (retired : list Uuid) : Prop :=
  exists kept gone,
    NoDup (kept ++ gone) /\ StronglySorted newest_le (kept ++ gone)
    /\ (forall y, y ∈ kept ++ gone <-> other_healthy d account project release y)
    /\ (length kept <= 2)%nat /\ (gone <> [] -> length kept = 2%nat)
    /\ retired = map rl_id gone
    /\ forall k y, releases d !! k = Some y -> k <> release ->
         releases d' !! k = Some (if bool_decide (k ∈ retired) then retired_release y else y).

Lemma others_nodup (keep : Release -> bool) d : (forall k y, releases d !! k = Some y -> rl_id y = k) ->
  NoDup (newest_first keep d).
Proof.
  intros Hid. unfold newest_first. rewrite merge_sort_Permutation. apply NoDup_filter.
  change (map snd ?l) with (snd <$> l). apply NoDup_fmap_2_strong; [|apply NoDup_map_to_list].
  intros [k y] [k' y'] Hy%elem_of_map_to_list%Hid Hy'%elem_of_map_to_list%Hid. cbn. intros ->. congruence.
Qed.

(** An activation puts the new release into the table and retires the excess. *)
Lemma retained_of d0 d x account project release d' : releases d = releases d0 ->
  (forall k y, releases d !! k = Some y -> rl_id y = k) -> rl_id x = release ->
  let p := promoted_releases d release x in let ids := excess_releases (set_releases p d) account project release in
  releases d' = retire_all ids p -> retention d0 d' account project release ids.
Proof.
  intros E0 Hid Hx p ids E. subst p. set (d2 := set_releases (promoted_releases d release x) d) in *.
  assert (Hid2 : forall k y, releases d2 !! k = Some y -> rl_id y = k).
  { intros k y. cbn. unfold promoted_releases. rewrite lookup_insert. case_decide; [congruence|apply Hid]. }
  set (keep := fun r => bool_decide (rl_account r = account) && bool_decide (rl_project r = project)
    && bool_decide (rl_state r = RlHealthy) && negb (bool_decide (rl_id r = release))).
  assert (Hin : forall y, y ∈ newest_first keep d2 <-> other_healthy d0 account project release y).
  { intros y. etrans; [exact (in_others d2 account project release y)|]. unfold other_healthy. rewrite <- E0. cbn.
    unfold promoted_releases. split.
    - intros ([k Hk] & Hh & Hne). split; [|done]. rewrite (Hid2 _ _ Hk) in *.
      cbn in Hk. unfold promoted_releases in Hk. by rewrite lookup_insert_ne in Hk.
    - intros (Hk & Hh & Hne). split; [|done]. exists (rl_id y). by rewrite lookup_insert_ne. }
  exists (firstn 2 (newest_first keep d2)), (skipn 2 (newest_first keep d2)).
  rewrite take_drop. split_and!.
  - by apply others_nodup.
  - apply StronglySorted_merge_sort; apply _.
  - exact Hin.
  - rewrite length_firstn. lia.
  - intros Hne. rewrite length_firstn. destruct (newest_first keep d2) as [|a [|b l]]; cbn in *; done.
  - reflexivity.
  - intros k y Hy Hne. rewrite E, retire_lookup. unfold promoted_releases.
    rewrite lookup_insert_ne, E0, Hy by done. cbn. rewrite <- E0 in Hy. rewrite (Hid _ _ Hy). f_equal.
    case_bool_decide as Hk; cbn; [|done].
    destruct (excess_are_others d2 account project release Hid2 k Hk) as (z & Hz & Hh & _).
    cbn in Hz. unfold promoted_releases in Hz. rewrite lookup_insert_ne in Hz by done.
    apply healthy_in_true in Hh as (_ & _ & Hs). by rewrite bool_decide_eq_true_2; [|congruence].
Qed.
End Retention.

(** ** Properties *)

(** C5: However requests follow one another, the route of a project shows a healthy release of
    that project under a positive generation, and beside it at most two other releases of the
    project are healthy. *)
Theorem routes_show_healthy_releases {P} `{FactRefresh P} Y st (w w' : World (RlDb P)) project o
    (Hfresh : rl_fresh (db w)) (Hrun : rtc (rl_api Y st) w w') (Ho : routes (db w') !! project = Some o) :
  within 1 max_i64 (ro_generation o)
  /\ (exists x, releases (db w') !! ro_release o = Some x /\ rl_account x = ro_account o
        /\ rl_project x = project /\ rl_state x = RlHealthy)
  /\ (healthy_count (db w') (ro_account o) project <= 3)%nat.
Proof.
  pose proof (reachable_rl_ok Y st _ _ Hfresh Hrun) as Hok. destruct (ok_routes _ _ Hok _ _ Ho) as [Hg (x & Hx & Hh)].
  split; [done|]. split; [exists x; split; [done|]; by apply healthy_in_true in Hh|].
  pose proof (ok_retained _ _ Hok (ro_account o) project) as Hc. unfold healthy_bound in Hc. by destruct (project_route _ _ _); [|lia].
Qed.

(** However requests follow one another, a project has at most one active reconciliation,
    and it expects the generation that the project's route has: the check of the generation
    never fails for a reconciliation that can be leased, completed or activated. *)
Theorem active_reconciliations_expect_the_route {P} `{FactRefresh P} Y st (w w' : World (RlDb P)) k r
    (Hfresh : rl_fresh (db w)) (Hrun : rtc (rl_api Y st) w w')
    (Hr : reconciliations (db w') !! k = Some r) (Ha : active (rn_state r) = true) :
  validate_route_generation (db w') r = Ok tt
  /\ forall k' r', reconciliations (db w') !! k' = Some r' -> active (rn_state r') = true ->
       rn_project r' = rn_project r -> k' = k.
Proof.
  pose proof (reachable_rl_ok Y st _ _ Hfresh Hrun) as Hok. split.
  - unfold validate_route_generation. rewrite (ck_expected _ _ _ (ok_reconciliation _ _ Hok _ _ Hr) Ha), Z.eqb_refl. done.
  - intros k' r' Hr' Ha' E. by eapply (ok_one_active _ _ Hok).
Qed.

(** C35: However requests follow one another, a reconciliation in the state prepared holds the
    text of a route manifest that decodes to its route, agrees with its digest, its project, its
    release and the generation after the expected one: resuming it never finds an invalid intent. *)
Theorem prepared_intents_always_decode {P} `{FactRefresh P} Y st (w w' : World (RlDb P)) k r
    (Hjson : forall m, y_parse_manifest Y (y_manifest_json Y m) = Some (Some m))
    (Hfresh : rl_fresh (db w)) (Hrun : rtc (rl_api Y st) w w')
    (Hr : reconciliations (db w') !! k = Some r) (Hs : rn_state r = RcPrepared) :
  validate_prepared_route_intent Y r = Ok tt.
Proof.
  pose proof (reachable_rl_ok Y st _ _ Hfresh Hrun) as Hok.
  destruct (ck_prepared _ _ _ (ok_reconciliation _ _ Hok _ _ Hr) Hs) as (p & Hp & [Ej Ed Eg Epr Er Em Edr]).
  unfold validate_prepared_route_intent, prepared_intent. rewrite Hp. cbn. rewrite Ej, Hjson. cbn.
  rewrite <- Ej, <- Ed, <- Eg, Epr, Er, Em, Edr, !Z.eqb_refl, !bool_decide_eq_true_2 by done. done.
Qed.

(** Whatever requests follow, releases keep what they were staged with and stay failed or
    retired, reconciliations stay ended and their fences and attempts never decrease, the route of
    a project stays the project owner's and is only replaced under a greater generation, and the
    recorded events stay. *)
Theorem releases_keep_their_history {P} `{FactRefresh P} Y st (w w1 w2 : World (RlDb P))
    (Hfresh : rl_fresh (db w)) (Hbefore : rtc (rl_api Y st) w w1) (Hafter : rtc (rl_api Y st) w1 w2) :
  rl_history (db w1) (db w2).
Proof. eapply rl_apis_history; [|exact Hafter]. by eapply reachable_rl_ok. Qed.

(** C6: An activation that is answered switched the route of the project to the one that the live
    attempt prepared, exactly one generation on: the gateway's file repeats its digest and
    generation, the release becomes healthy with the probes' and the gateway's digests, the
    reconciliation ends, and no other route or reconciliation changes.  Of the other healthy
    releases of the project the two promoted last stay as they are; exactly those beyond them
    are retired and named in the answer, and no other release changes. *)
Theorem activation_switches_to_the_prepared_route {P} `{FactRefresh P} Y st id_text q env (w w' : World (RlDb P)) response
    (Hok : rl_ok Y (db w)) (Hrun : activate_reconciliation Y st id_text q env w = (Ok response, w')) :
  exists id r p bs receipt o x,
    path_uuid (y_parse_uuid Y) id_text = Ok id /\ reconciliations (db w) !! id = Some r
    /\ rn_state r = RcPrepared /\ rn_fence r = lid_fence (acr_live q)
    /\ rn_result r = Some (PreparedResult p) /\ intent_ok Y r p
    /\ (read_evidence Y (rg_m3 st) (acr_switch q) = Ok bs /\ y_switch_json Y bs = Some receipt
        /\ sw_digest receipt = pp_digest p /\ sw_generation receipt = pp_generation p
        /\ sw_release receipt = rn_release r /\ sw_attempt receipt = lid_attempt (acr_live q)
        /\ sw_previous receipt = ro_release <$> project_route (db w) (rn_account r) (rn_project r))
    /\ routes (db w') = <[rn_project r := o]> (routes (db w))
    /\ ro_generation o = (route_generation (db w) (rn_account r) (rn_project r) + 1)%Z
    /\ ro_release o = rn_release r /\ ro_manifest o = pp_manifest p /\ ro_digest o = pp_digest p
    /\ releases (db w') !! rn_release r = Some x /\ rl_state x = RlHealthy
    /\ rl_health x = Some (pp_probes p, acr_switch q)
    /\ reconciliations (db w') = <[id := ended r RcSucceeded "route_activated" (rn_result r)]> (reconciliations (db w))
    /\ avr_route response = o
    /\ retention (db w) (db w') (rn_account r) (rn_project r) (rn_release r) (avr_retired response).
Proof.
  apply activate_cases in Hrun as [[[e [=]] _]|(d & id & bs & receipt & response' & [= <-] & Hf & Hid & Ha)].
  apply (rl_frame_ok Y _ _ Hf) in Hok as Hokd.
  destruct (Ha Hokd) as (now & r & p & x & t & o & Hact & Hroute & Hretired).
  destruct Hact as [Hl Hg Hp Hio Hev Hj [now' Hv] Hx _ Er _ (_ & Hor & Hog & Hpos & Hod & Hom) Ec Erel _ _].
  destruct Hf as [F1 F2 F3 _ _].
  assert (Epr : forall a p, project_route d a p = project_route (db w) a p) by (intros; unfold project_route; by rewrite F2).
  apply live_reconciliation_Some in Hl as (Hr & Hs & a & _ & _ & _ & Hfe & _).
  pose proof (ok_reconciliation_id _ _ Hokd _ _ Hr) as Eid. rewrite F3 in Hr, Ec. rewrite F2 in Er.
  apply validate_switch_receipt_Ok in Hv as (? & ? & ? & ? & Hprev).
  assert (Hgen : ro_generation o = (route_generation (db w) (rn_account r) (rn_project r) + 1)%Z).
  { rewrite Hog, (io_generation _ _ _ Hio), <- Hg in Hpos |- *. unfold route_generation in *. rewrite Epr in *.
    pose proof (route_generation_bounds Y _ (rn_account r) (rn_project r) Hok) as Hb. by apply wrap_i64_succ. }
  set (x' := with_release x RlHealthy (Some (pp_probes p, acr_switch q)) (Some t) None) in *.
  assert (Hx' : releases (db w') !! rn_release r = Some x').
  { rewrite Erel, retire_lookup. unfold promoted_releases. rewrite lookup_insert_eq. cbn.
    case_bool_decide as Hin; [|done]. exfalso. apply load_release_Ok in Hx as (Hx & _).
    pose proof (ok_release_id _ _ Hokd _ _ Hx) as Ei. rewrite Ei in Hin.
    apply (excess_are_others (set_releases (promoted_releases d (rn_release r) x') d)) in Hin as (_ & _ & _ & ?); [done|].
    cbn. intros j y [[-> ->]|[_ ?]]%row_after; [done|by apply (ok_release_id _ _ Hokd)]. }
  exists id, r, p, bs, receipt, o, x'. rewrite <- Epr. rewrite Eid in Ec. split_and!; try done.
  rewrite Hretired. apply (retained_of _ d x'); [by rewrite F1|exact (ok_release_id _ _ Hokd)| |exact Erel].
  apply load_release_Ok in Hx as (Hx & _). exact (ok_release_id _ _ Hokd _ _ Hx).
Qed.

(** C7: A route is prepared only when the live attempt's completion shows every probe that its
    lease required, each with one distinct file that passes every check of its receipt, and nothing
    else; when the secrets are still valid and, for a release with a migration, its gate is passed.
    The prepared route is the one over the releases as they are loaded. *)
Theorem routes_are_prepared_with_every_probe {P} `{FactRefresh P} Y st id_text q env (w w' : World (RlDb P)) r' p
    (Hrun : complete_reconciliation Y st id_text q env w = (Ok (CompletedPrepared r' p), w')) :
  exists id r d policy c current retained requirements,
    path_uuid (y_parse_uuid Y) id_text = Ok id /\ reconciliations (db w) !! id = Some r
    /\ rn_state r = RcRunning /\ rn_fence r = lid_fence (cmr_live q)
    /\ co_state (cmr_outcome q) = "succeeded" /\ rl_frame (db w) d
    /\ route_prepared Y st (cmr_live q) (cmr_outcome q) policy r p c current retained requirements d.
Proof.
  unfold complete_reconciliation in Hrun. cbn zeta in Hrun.
  do 3 (apply lift_cases in Hrun as [(e & _ & [=] & _)|(? & _ & Hrun)]).
  apply lift_cases in Hrun as [(e & _ & [=] & _)|(id & Hid & Hrun)].
  apply clock_transaction_cases in Hrun as [(e & c & [=] & _)|Hm].
  apply tbind_Ok in Hm as (r & w1 & (Ed & _ & Hl)%lock_live_Ok & Hm).
  apply live_reconciliation_Some in Hl as (Hr & Hs & a & _ & _ & _ & Hf & _).
  apply tbind_Ok in Hm as (d & w2 & [-> ->]%get_db_Ok & Hm).
  apply tbind_Ok in Hm as (? & w3 & [_ ->]%lift_Ok & Hm). destruct (negb _) eqn:Hsucc in Hm.
  - do 3 apply tbind_Ok in Hm as (? & ? & _ & Hm). by apply tret_Ok in Hm as [? _].
  - apply negb_false_iff, bool_decide_eq_true in Hsucc.
    apply tbind_Ok in Hm as (c & w4 & Hc & [[= <-] ->]%tret_Ok).
    apply complete_successful_prepared in Hc as (d & policy & c & current & retained & requirements & Hfr & Hp).
    rewrite Ed in Hfr. exists id, r, d, policy, c, current, retained, requirements. split_and!; done.
Qed.

(** C8: A worker whose reconciliation has ended or was leased again stays fenced: whatever
    requests follow, its renewals, completions, activations and requests for credentials are
    refused and change nothing but, at most, the reading of the policy clock. *)
Theorem superseded_release_workers_stay_fenced {P} `{FactRefresh P} Y st id_text id q (w w' : World (RlDb P))
    (Hid : path_uuid (y_parse_uuid Y) id_text = Ok id) (Hok : rl_ok Y (db w))
    (Hs : superseded (db w) id q) (Hrun : rtc (rl_api Y st) w w') :
  (forall env r w2, renew_reconciliation Y st id_text q env w' = (r, w2) -> refused r (db w') (db w2))
  /\ (forall o env r w2, complete_reconciliation Y st id_text {| cmr_live := q; cmr_outcome := o |} env w' = (r, w2) ->
        refused r (db w') (db w2))
  /\ (forall switch env r w2,
        activate_reconciliation Y st id_text {| acr_live := q; acr_switch := switch |} env w' = (r, w2) ->
        refused r (db w') (db w2))
  /\ forall execution release target env r w2,
        resolve_probe_credential Y st id_text {| rpq_live := q; rpq_execution := execution; rpq_release := release;
          rpq_target := target |} env w' = (r, w2) -> refused r (db w') (db w2).
Proof.
  assert (Hs' : superseded (db w') id q) by (eapply superseded_stays; [by eapply rl_apis_history|done]).
  split_and!.
  - intros env r w2. by apply (renew_refused Y st id_text id Hid).
  - intros o env r w2. by apply (complete_refused Y st id_text id Hid).
  - intros switch env r w2. by apply (activate_refused Y st id_text id Hid).
  - intros execution release target env r w2. by apply (credential_refused Y st id_text id Hid).
Qed.

(** A reconciliation that has used its six attempts while it waits for a database operation
    that succeeds is stuck: whatever requests follow, it stays active, it is never the next to be
    leased, and no release of its project can be staged. *)
Theorem exhausted_waiting_reconciliations_are_stuck {P} `{FactRefresh P} Y st (w w' : World (RlDb P)) k r o
    (Hok : rl_ok Y (db w)) (Hr : reconciliations (db w) !! k = Some r) (Hw : awaiting (rn_state r) = true)
    (Hn : rn_attempts r = MAX_ATTEMPTS) (Ho : awaited_operation r = Some o) (Hop : operation_succeeded (db w) o)
    (Hrun : rtc (rl_api Y st) w w') :
  (exists r', reconciliations (db w') !! k = Some r' /\ awaiting (rn_state r') = true /\ rn_attempts r' = MAX_ATTEMPTS
     /\ forall now locked, next_reconciliation (db w') now locked <> Some r')
  /\ forall caller project deployment headers q env x rcn w2,
       path_uuid (y_parse_uuid Y) project = Ok (rn_project r) ->
       stage_release Y st caller project deployment headers q env w' <> (Ok (Created (x, rcn)), w2).
Proof.
  assert (Hst : stuck (db w') k r).
  { eapply stuck_stays; [done..|]. exists r, o. split_and!; done. }
  pose proof Hst as (r' & o' & Hr' & Hsame & Hw' & Hn' & _). split.
  - exists r'. split_and!; try done. intros now locked E.
    destruct (stuck_unclaimable (db w') k r now locked Hst) as (s & E' & Hne); [by rewrite E|]. congruence.
  - intros caller project deployment headers q env x rcn w2 Hp Hm.
    apply stage_alone in Hm as (prj & Hprj & _ & Hal); [|by eapply rl_ok_from].
    apply (Hal _ _ Hr'); [|rewrite (sn_project _ _ Hsame); congruence].
    unfold active, awaiting, one_of in *. by destruct (rn_state r').
Qed.

(** When the release of the reconciliation that is next does not pass the checks of a lease,
    the lease is refused and rolled back as a whole: no reconciliation is leased or expired, of
    whatever project, and the same one is next again. *)
Theorem one_ineligible_release_blocks_leasing {P} `{FactRefresh P} Y st worker policy env (w w1 w2 w3 : World (RlDb P)) m r e
    (Hm : require_enabled (rg_m3 st) = Ok m) (Hv : validate_worker_id worker = Ok tt)
    (Hp : policy_now (rg_m3 st) env w = (Ok policy, w1))
    (He : expire_reconciliations env w1 = (Ok tt, w2)) (Hf : fail_migration_reconciliations env w2 = (Ok tt, w3))
    (Hn : next_reconciliation (db w3) (clock env (ticks w3)) (row_locked env (S (ticks w3))) = Some r)
    (Hc : lease_checks Y (db w3) r policy = Err e) :
  exists w', lease_reconciliation Y st worker env w = (Err e, w') /\ same_but_clock (db w) (db w').
Proof.
  destruct (blocked_lease Y st worker policy env w w1 w2 w3 r e) as (w' & Hl & E); [by exists m|done..|].
  exists w'. split; [done|]. rewrite E. by apply policy_now_clock in Hp.
Qed.

(** The plan of probes is complete: its probes are distinct; with a database there is one on
    the data of every release that is kept, and with a migration one of every release's frontend
    against every other release's application, each naming the runtime that was loaded. *)
Theorem probe_plan_covers_every_release {P} candidate current retained c env (w w' : World (RlDb P)) ps
    (Hrun : required_probes candidate current retained c env w = (Ok ps, w')) :
  let all := candidate :: option_list current ++ retained in
  NoDup ps
  /\ (pc_migration c <> None -> forall f a, f ∈ all -> a ∈ all -> ld_id f <> ld_id a ->
      exists runtime p, ld_runtime a = Some runtime /\ p ∈ ps
        /\ probes_release (pair_kind candidate a) (ld_id f) (Some (ld_id a)) runtime p)
  /\ (pc_database_generation c <> None -> forall a, a ∈ all ->
      exists runtime p, ld_runtime a = Some runtime /\ p ∈ ps
        /\ probes_release "current_data" (ld_id a) None runtime p).
Proof. by eapply required_probes_cover. Qed.

(** C36: When two of the releases that must keep working share one application binary, the
    validation of a migration accepts their probes, but the gate refuses the migration as
    incompatible once it is applied, at whatever time. *)
Theorem shared_binaries_never_pass_the_gate {P} Y v env (w w' : World (RlDb P)) gate m (d : RlDb P) m'
    account project database generation deployment revision digest policy
    (Hrun : record_migration_runtime_validation Y v env w = (Ok gate, w'))
    (Hm : migrations (db w) !! mv_migration v = Some m)
    (Hshared : ~ NoDup (map xp_binary (filter (fun x => not_candidate x = true)
                 (expected_releases (db w) (mv_release v) (mg_account m) (mg_project m)))))
    (Hgate : select_first (applied_migration d account project database generation deployment revision digest policy)
               any_order (migrations d) = Some m')
    (Hkept : mg_retained m' = vg_retained gate) :
  verified_migration_gate Y d account project database generation deployment revision digest policy
    = Err (conflict "migration_incompatible"
             "a current or retained application binary did not pass populated compatibility").
Proof.
  apply record_validation_evidence in Hrun as (m0 & Hm0 & _ & Hv). assert (m0 = m) as -> by congruence.
  apply validated_binaries in Hv. unfold verified_migration_gate. rewrite Hgate. cbn.
  unfold retained_evidence_passed. rewrite Hkept, Hv, (bool_decide_eq_false_2 _ Hshared), andb_false_r. done.
Qed.

(** ** An execution *)

Module ReleaseDemo.
Import RuntimeDemo.


#[export] Instance no_portfolio : FactRefresh unit := { refresh_heads _ _ := tret tt }.

(** *** Files: a probe's receipt (2), the executor's (3), the gateway's (4), a stage receipt (5) *)

Definition probe_receipt : ProbeReceipt := {|
  prc_schema := "hostlet.runtime.probe-receipt/v1"; prc_kind := "health"; prc_release := 100; prc_peer := None;
  prc_allocation := 60; prc_generation := 1; prc_fence := 1; prc_artifact := zeros; prc_database := None;
  prc_migration := None; prc_executor := file_digest 3; prc_result := "passed";
  prc_reason := "runtime_health_passed"; prc_observed := 1000000;
  prc_http := {| ph_method := "GET"; ph_path := "/health"; ph_status := Some 200%Z; ph_sha256 := None; ph_elapsed := 5 |};
  prc_assertions := [{| pas_name := "status"; pas_passed := true; pas_sha256 := None |}] |}.
Definition executor_value : ExecutorValue := {|
  xv_schema := Some "hostlet.runtime.executor-receipt/v1"; xv_operation := Some "inspect"; xv_result := Some "passed";
  xv_status := Some "running"; xv_allocation := Some (unary 60); xv_generation := Some 1%Z; xv_fence := Some 1%Z;
  xv_artifact := Some zeros; xv_binary := Some zeros; xv_policy := Some zeros; xv_capability := Some zeros;
  xv_platform := Some "systrap"; xv_profile := Some "evidence_gated_owned_fixture"; xv_runsc := Some "running";
  xv_limits_object := true; xv_health_passing := Some true; xv_cleanup := None |}.
Definition stage_receipt : MigrationStageReceipt := {|
  sg_schema := "hostlet.release-stage-receipt/v1"; sg_result := "staged"; sg_release := 100; sg_project := 2;
  sg_ref := "migration-artifacts/sha256/00/" +:+ text 48 62 +:+ ".sql"; sg_observed := 1000000 |}.

(** The gateway's receipt repeats the digest of the prepared route. *)
Definition externals (prepared : string) : ReleaseExternals := {|
  y_sha256 := sum_digest; y_parse_uuid := fun s => Some (N.of_nat (String.length s)); y_uuid_text := unary;
  y_uuid_simple := unary; y_aead := fun _ _ _ sealed _ => Some sealed; y_millis := fun ms => Some (ms * 1000)%Z;
  y_evidence := evidence;
  y_probe_json := fun bs => if bool_decide (bs = [2%Z]) then Some (HostedFile (Some probe_receipt)) else None;
  y_application_json := fun _ => None;
  y_executor_json := fun bs => if bool_decide (bs = [3%Z]) then Some executor_value else None;
  y_switch_json := fun bs => if bool_decide (bs = [4%Z]) then Some {|
    sw_schema := "hostlet.release-route-switch/v1"; sw_reconciliation := 102; sw_attempt := 103; sw_fence := 1;
    sw_project := 2; sw_release := 100; sw_previous := None; sw_generation := 1; sw_digest := prepared;
    sw_result := "switched"; sw_observed := 1000000 |} else None;
  y_stage_json := fun bs => if bool_decide (bs = [5%Z]) then Some stage_receipt else None;
  y_credential_json := fun _ => None; y_manifest_json := manifest_json; y_parse_manifest := parse_manifest;
  y_stage_hash := fun _ => "stage"; y_prepare_hash := fun _ => "prepare"; y_rollback_hash := fun _ => "rollback";
  y_outcome_hash := fun _ => replicate 32 0%Z |}.

Definition st : ReleaseConfig := {|
  rg_m3 := Some {| policy_clock := None; worker_hashes := [] |};
  rg_key := Some {| key_bytes := [1%Z]; key_version := "v1" |}; rg_lease_seconds := 60 |}.

(** *** A healthy allocation of the build of account 1's project 2 *)

Definition healthy_evaluation : Evaluation := {|
  ea_id := 61; ea_intent := 62; ea_subject := 63; ea_generation := 1; ea_fence := 1; ea_evidence := zeros;
  ea_capability := zeros; ea_result := "passed"; ea_reason := "passed"; ea_binary := zeros; ea_policy := zeros;
  ea_platform := "systrap"; ea_observed := 1000000000; ea_expires := 2000000000; ea_facts := facts; ea_created := 0 |}.
Definition allocation (archive : string) (id : Uuid) : Allocation := {|
  al_id := id; al_account := 1; al_project := 2; al_deployment := 4; al_service := 16; al_job := 3; al_artifact := 15;
  al_evaluation := 61; al_reservation := 5; al_epoch := 6; al_config := 10; al_commit := text 97 40; al_generation := 1;
  al_fence := 1; al_state := "healthy"; al_reason := None; al_archive := archive; al_manifest := zeros;
  al_profile_digest := zeros; al_binary := zeros; al_policy := zeros; al_capability := zeros; al_platform := "systrap";
  al_profile := "node22-http-v1"; al_argv := ["node"; "dist/server.mjs"]; al_health_path := "/health" |}.
Definition healthy_observation : RtObservation := {|
  rb_id := 64; rb_allocation := 60; rb_account := 1; rb_project := 2; rb_deployment := 4; rb_service := 16;
  rb_generation := 1; rb_fence := 1; rb_sequence := 1; rb_state := "healthy"; rb_reason := "runtime_healthy";
  rb_digest := file_digest 3; rb_receipt := observed "inspect" "running" "runtime_healthy" None;
  rb_observed := 1000000000 |}.

(** A static site of account 1's project 8. *)
Definition site_job : BuildJob := {|
  bj_id := 33; bj_account := 1; bj_project := 8; bj_deployment := 9; bj_reservation := 5; bj_epoch := 6; bj_proof := 7;
  bj_source := 8; bj_compatibility := 9; bj_config := 10; bj_commit := text 97 40; bj_tree := text 97 40;
  bj_profile := "m3-owned-node24-v1"; bj_profile_digest := zeros; bj_materialization := Some 24%N;
  bj_bundle := Some zeros; bj_tree_manifest := Some zeros; bj_input_digest := zeros; bj_state := BSucceeded;
  bj_revision := 1; bj_attempts := 1; bj_current := None; bj_fence := 1; bj_lease := None; bj_code := None;
  bj_cleanup := Confirmed; bj_created := 0 |}.
Definition site_artifact : Artifact := {|
  at_id := 34; at_account := 1; at_project := 8; at_job := 33; at_attempt := 14; at_fence := 1; at_service := 35;
  at_kind := StaticArtifact; at_archive := zeros; at_manifest := zeros; at_packed := 1; at_unpacked := 1;
  at_entries := 1; at_argv := None |}.

Definition other_credential (id : Uuid) (purpose : CredentialPurpose) : DatabaseCredential := {|
  dc_id := id; dc_account := 1; dc_project := 2; dc_database := 11; dc_generation := 19; dc_purpose := purpose;
  dc_role := unary 13; dc_status := CActive; dc_key_version := "v1"; dc_nonce := replicate 24 0%Z;
  dc_ciphertext := replicate 32 65%Z; dc_tag := replicate 16 0%Z |}.

Definition executed : Execution := {|
  build_jobs := {[ 3%N := job 3 zeros; 33%N := site_job ]}; build_services := {[ (3%N, 16%N) := service 22 ]};
  build_artifacts := {[ 15%N := artifact 15 3 16; 34%N := site_artifact ]}; build_usage := ∅;
  x_deployments := x_deployments built; x_reservations := x_reservations built; x_projects := x_projects built;
  tenant_databases := tenant_databases built;
  database_credentials := {[ 20%N := other_credential 20 RuntimePurpose; 21%N := other_credential 21 MigrationPurpose;
                             22%N := other_credential 22 BackupPurpose ]};
  recoveries := ∅; database_operations := ∅ |}.

(** A planned migration of the database of project 2, over its backup. *)
Definition backup : Archive := {|
  ax_id := 71; ax_account := 1; ax_project := 2; ax_database := 11; ax_generation := 19; ax_kind := ArPreMigration;
  ax_state := ArUsable; ax_scheduled := None; ax_intended := Some "r1"; ax_source := 1;
  ax_object := Some "tenant_11/71.htb"; ax_format := Some "hostlet.tenant-backup/v1"; ax_key := Some "k1";
  ax_plain := Some (text 48 64); ax_encrypted := Some (text 48 64); ax_plain_bytes := Some 1%Z;
  ax_encrypted_bytes := Some 1%Z; ax_snapshot := Some 1000000000%Z; ax_verified := Some 1000000000%Z;
  ax_expires := 9000000000; ax_created := 0 |}.
Definition planned : Migration := {|
  mg_id := 70; mg_account := 1; mg_project := 2; mg_database := 11; mg_generation := 19; mg_deployment := 4;
  mg_config := 10; mg_revision := "r1"; mg_digest := zeros; mg_source := 1; mg_archive := 71; mg_validation := None;
  mg_state := MPlanned; mg_current_schema := "s1"; mg_candidate_schema := "s2"; mg_current_binary := zeros;
  mg_artifact := {| mx_job := 3; mx_artifact := 15; mx_service := 16; mx_archive := zeros; mx_manifest := zeros;
                    mx_entry := "dist/migrations/0001.sql"; mx_file := zeros; mx_materialized := None |};
  mg_retained := []; mg_evidence := planned_evidence [zeros]; mg_effect := None; mg_validated := None;
  mg_applied := None |}.

Definition start : World (RlDb unit) := MkWorld (MkRlDb unit
  (MkRtDb executed None ∅ {[ 61%N := healthy_evaluation ]} {[ 60%N := allocation zeros 60 ]} ∅ {[ 64%N := healthy_observation ]})
  {[ 1%N ]} ∅ ∅ ∅ {[ 71%N := backup ]} {[ 70%N := planned ]} ∅ ∅ ∅ ∅ ∅ ∅ tt ∅ []) 0 0.

Definition env_at (t : Z) : Env :=
  {| clock := fun _ => t; fresh := fun n => N.of_nat (100 + n); row_locked := fun _ _ => false |}.
Definition env : Env := env_at 1000000000.
Definition later : Env := env_at 3000000000.

Definition owner : Authenticated := {| account_id := 1; session_id := 3 |}.
Definition headers (key : string) : Headers := {|
  h_idempotency_key := Some (Some key); h_if_match := None |}.

(** *** The first release: staged, leased, shown to pass, activated *)

Definition stage_request : StageReleaseRequest := {|
  stq_job := 3; stq_allocation := Some 60%N; stq_database := None; stq_database_generation := None;
  stq_revision := None; stq_digest := None; stq_path := None; stq_url := "https://a" |}.
Definition live : LeaseIdentity := {| lid_worker := "worker"; lid_attempt := 103; lid_fence := 1 |}.
Definition passed : CompleteRequest := {| cmr_live := live; cmr_outcome := {|
  co_state := "succeeded"; co_code := "release_checks_passed"; co_probes := [file_digest 2]; co_apply := None;
  co_materialized := None; co_stage := None |} |}.
Definition activation : ActivateRequest := {| acr_live := live; acr_switch := file_digest 4 |}.

Section Run.
Context (Y : ReleaseExternals).
Definition staged := stage_release Y st owner (unary 2) (unary 4) (headers "stage") stage_request env start.
Definition leased := lease_reconciliation Y st "worker" env (snd staged).
Definition completed := complete_reconciliation Y st (unary 102) passed env (snd leased).
Definition activated := activate_reconciliation Y st (unary 102) activation env (snd completed).
End Run.

(** The gateway answers with the digest that the completion returned. *)
Definition Y : ReleaseExternals := externals
  match fst (completed (externals zeros)) with Ok (CompletedPrepared _ p) => pp_digest p | _ => "" end.

Lemma release_start_fresh : rl_fresh (db start).
Proof. by split_and!. Qed.
Lemma step_staged : rl_api Y st start (snd (staged Y)).
Proof.
  exact (rl_stage Y st owner (unary 2) (unary 4) (headers "stage") stage_request env start (fst (staged Y))
           (snd (staged Y)) (surjective_pairing (staged Y))).
Qed.
Lemma rl_step_leased w : rl_api Y st w (snd (lease_reconciliation Y st "worker" env w)).
Proof. exact (rl_lease Y st "worker" env w _ _ (surjective_pairing (lease_reconciliation Y st "worker" env w))). Qed.
Lemma step_completed q w : rl_api Y st w (snd (complete_reconciliation Y st (unary 102) q env w)).
Proof. exact (rl_complete Y st (unary 102) q env w _ _ (surjective_pairing (complete_reconciliation Y st (unary 102) q env w))). Qed.
Lemma step_activated w : rl_api Y st w (snd (activate_reconciliation Y st (unary 102) activation env w)).
Proof.
  exact (rl_activate Y st (unary 102) activation env w _ _ (surjective_pairing (activate_reconciliation Y st (unary 102) activation env w))).
Qed.
Lemma run_leased : rtc (rl_api Y st) start (snd (leased Y)).
Proof. eapply rtc_l; [exact step_staged|]. apply rtc_once, rl_step_leased. Qed.
Lemma run_completed : rtc (rl_api Y st) start (snd (completed Y)).
Proof. etrans; [exact run_leased|]. apply rtc_once, step_completed. Qed.
Lemma run_activated : rtc (rl_api Y st) start (snd (activated Y)).
Proof. etrans; [exact run_completed|]. apply rtc_once, step_activated. Qed.

Definition rcn_in (w : World (RlDb unit)) : option (ReconciliationState * Z) :=
  (fun r => (rn_state r, rn_attempts r)) <$> reconciliations (db w) !! 102%N.
Lemma rcn_in_Some w s n : rcn_in w = Some (s, n) ->
  exists r, reconciliations (db w) !! 102%N = Some r /\ rn_state r = s /\ rn_attempts r = n.
Proof. unfold rcn_in. intros (r & -> & [= -> ->])%fmap_Some. eauto. Qed.

Lemma routes_show_healthy_releases_witness : exists o,
  routes (db (snd (activated Y))) !! 2%N = Some o /\ ro_release o = 100%N /\ ro_generation o = 1%Z
  /\ exists x, releases (db (snd (activated Y))) !! 100%N = Some x /\ rl_state x = RlHealthy.
Proof.
  destruct (routes (db (snd (activated Y))) !! 2%N) as [o|] eqn:Ho; [|vm_compute in Ho; discriminate].
  destruct (routes_show_healthy_releases Y st start (snd (activated Y)) 2 o release_start_fresh run_activated Ho)
    as (_ & (x & Hx & _ & _ & Hs) & _).
  assert (E : (fun o => (ro_release o, ro_generation o)) <$> routes (db (snd (activated Y))) !! 2%N = Some (100%N, 1%Z))
    by (vm_compute; reflexivity).
  rewrite Ho in E. injection E as E1 E2. exists o. split; [done|]. split; [done|]. split; [done|].
  exists x. split; [by rewrite <- E1|done].
Defined.

Lemma active_reconciliations_expect_the_route_witness : exists r,
  reconciliations (db (snd (leased Y))) !! 102%N = Some r /\ rn_state r = RcRunning
  /\ validate_route_generation (db (snd (leased Y))) r = Ok tt.
Proof.
  destruct (rcn_in_Some (snd (leased Y)) RcRunning 1) as (r & Hr & Hs & _); [vm_compute; reflexivity|].
  assert (Ha : active (rn_state r) = true) by by rewrite Hs.
  exists r. split; [done|]. split; [done|].
  exact (proj1 (active_reconciliations_expect_the_route Y st start (snd (leased Y)) 102 r release_start_fresh run_leased Hr Ha)).
Defined.

Lemma prepared_intents_always_decode_witness : exists r,
  reconciliations (db (snd (completed Y))) !! 102%N = Some r /\ rn_state r = RcPrepared
  /\ validate_prepared_route_intent Y r = Ok tt.
Proof.
  destruct (rcn_in_Some (snd (completed Y)) RcPrepared 1) as (r & Hr & Hs & _); [vm_compute; reflexivity|].
  exists r. split; [done|]. split; [done|].
  exact (prepared_intents_always_decode Y st start (snd (completed Y)) 102 r manifest_round_trip release_start_fresh run_completed Hr Hs).
Defined.

Lemma releases_keep_their_history_witness :
  rl_history (db (snd (completed Y))) (db (snd (activated Y)))
  /\ rcn_in (snd (completed Y)) = Some (RcPrepared, 1%Z) /\ rcn_in (snd (activated Y)) = Some (RcSucceeded, 1%Z).
Proof.
  split; [|split; vm_compute; reflexivity].
  apply (releases_keep_their_history Y st start (snd (completed Y)) (snd (activated Y)) release_start_fresh run_completed).
  apply rtc_once, step_activated.
Defined.

Lemma activation_switches_to_the_prepared_route_witness : exists response x,
  fst (activated Y) = Ok response /\ ro_generation (avr_route response) = 1%Z
  /\ releases (db (snd (activated Y))) !! 100%N = Some x /\ rl_state x = RlHealthy.
Proof.
  destruct (fst (activated Y)) as [response|e] eqn:E; [|vm_compute in E; discriminate].
  destruct (activation_switches_to_the_prepared_route Y st (unary 102) activation env (snd (completed Y)) (snd (activated Y))
              response (reachable_rl_ok Y st _ _ release_start_fresh run_completed))
    as (id & r & p & bs & receipt & o & x & Hid & Hr & _ & _ & _ & _ & _ & _ & Hg & _ & _ & _ & Hx & Hs & _ & _ & Ho & _).
  { rewrite <- E. apply surjective_pairing. }
  assert (id = 102%N) as -> by (vm_compute in Hid; congruence).
  assert (Er : (fun r => (rn_release r, rn_account r, rn_project r)) <$> reconciliations (db (snd (completed Y))) !! 102%N
               = Some (100%N, 1%N, 2%N)) by (vm_compute; reflexivity).
  rewrite Hr in Er. injection Er as E1 E2 E3. rewrite E1 in Hx. rewrite E2, E3 in Hg.
  exists response, x. split; [done|]. split; [|by split]. rewrite Ho, Hg. vm_compute. reflexivity.
Defined.

Lemma routes_are_prepared_with_every_probe_witness : exists r p,
  fst (completed Y) = Ok (CompletedPrepared r p) /\ exists requirements, length (rq_probes requirements) = 1%nat
  /\ exists ps, ps ≡ₚ rq_probes requirements
     /\ Forall2 (answers Y st (rq_probes requirements) 102 103 1) [file_digest 2] ps.
Proof.
  destruct (fst (completed Y)) as [[|?|r p]|e] eqn:E; [vm_compute in E; discriminate..| |vm_compute in E; discriminate].
  exists r, p. split; [done|].
  destruct (routes_are_prepared_with_every_probe Y st (unary 102) passed env (snd (leased Y)) (snd (completed Y)) r p)
    as (id & rcn & d & policy & c & current & retained & requirements & Hid & Hr & _ & _ & _ & _ & [_ _ _ Hreq _ Hps _ _]).
  { rewrite <- E. apply surjective_pairing. }
  assert (id = 102%N) as -> by (vm_compute in Hid; congruence). exists requirements.
  assert (Er : (fun r => (rn_id r, length (default [] (rq_probes <$> rn_requirements r)))) <$> reconciliations (db (snd (leased Y))) !! 102%N
               = Some (102%N, 1%nat)) by (vm_compute; reflexivity).
  rewrite Hr in Er. injection Er as E1 E2. rewrite Hreq in E2. cbn in E2. rewrite E1 in Hps. split; [exact E2|exact Hps].
Defined.

Definition renewed := renew_reconciliation Y st (unary 102) live env (snd (activated Y)).
Lemma superseded_release_workers_stay_fenced_witness : refused (fst renewed) (db (snd (activated Y))) (db (snd renewed)).
Proof.
  destruct (superseded_release_workers_stay_fenced Y st (unary 102) 102 live (snd (activated Y)) (snd (activated Y)))
    as (Hrenew & _); [vm_compute; reflexivity| | |constructor|].
  - exact (reachable_rl_ok Y st _ _ release_start_fresh run_activated).
  - destruct (rcn_in_Some (snd (activated Y)) RcSucceeded 1) as (r & Hr & Hs & _); [vm_compute; reflexivity|].
    exists r. split; [done|]. right. by rewrite Hs.
  - apply (Hrenew env). apply surjective_pairing.
Defined.

(** *** Five attempts fail, the sixth hands the migration over *)

Definition migrated_request : StageReleaseRequest := {|
  stq_job := 3; stq_allocation := Some 60%N; stq_database := Some 11%N; stq_database_generation := Some 19%N;
  stq_revision := Some "r1"; stq_digest := Some zeros; stq_path := Some "dist/migrations/0001.sql"; stq_url := "https://a" |}.
Definition staged_migration := stage_release Y st owner (unary 2) (unary 4) (headers "stage") migrated_request env start.
Definition attempt (n : Z) : LeaseIdentity := {| lid_worker := "worker"; lid_attempt := Z.to_N (102 + n); lid_fence := n |}.
Definition try_again (n : Z) : CompleteRequest := {| cmr_live := attempt n; cmr_outcome := {|
  co_state := "retriable"; co_code := "stage_failed"; co_probes := []; co_apply := None; co_materialized := None;
  co_stage := None |} |}.
Definition handed_over : CompleteRequest := {| cmr_live := attempt 6; cmr_outcome := {|
  co_state := "succeeded"; co_code := "release_checks_passed"; co_probes := []; co_apply := None;
  co_materialized := Some (sg_ref stage_receipt); co_stage := Some (file_digest 5) |} |}.
Definition round (q : CompleteRequest) (w : World (RlDb unit)) : World (RlDb unit) :=
  snd (complete_reconciliation Y st (unary 102) q env (snd (lease_reconciliation Y st "worker" env w))).
Definition waiting : World (RlDb unit) :=
  round handed_over (round (try_again 5) (round (try_again 4) (round (try_again 3) (round (try_again 2)
    (round (try_again 1) (snd staged_migration)))))).

(** The database worker succeeds. *)
Definition succeeded_operation (o : DatabaseOperation) : DatabaseOperation := {|
  do_id := do_id o; do_account := do_account o; do_project := do_project o; do_database := do_database o;
  do_generation := do_generation o; do_kind := do_kind o; do_state := OSucceeded; do_key := do_key o;
  do_spec := do_spec o; do_proof := do_proof o; do_credentials := do_credentials o;
  do_attempts := do_attempts o; do_current := None; do_fence := do_fence o; do_lease := None;
  do_policy := do_policy o; do_created := do_created o |}.
Definition worked : World (RlDb unit) :=
  MkWorld (set_operations (succeeded_operation <$> operations (db waiting)) (db waiting)) (ticks waiting) (drawn waiting).

Lemma step_round q w : rtc (rl_api Y st) w (round q w).
Proof. eapply rtc_l; [apply rl_step_leased|]. apply rtc_once, step_completed. Qed.
Lemma run_waiting : rtc (rl_api Y st) start waiting.
Proof.
  eapply rtc_l; [exact (rl_stage Y st owner (unary 2) (unary 4) (headers "stage") migrated_request env start
    (fst staged_migration) (snd staged_migration) (surjective_pairing staged_migration))|].
  unfold waiting. do 6 (etrans; [|apply step_round]). constructor.
Qed.
Lemma worked_frame (d : RlDb unit) : rl_frame d (set_operations (succeeded_operation <$> operations d) d).
Proof.
  split; try done. intros o (x & Hx & Hs). exists (succeeded_operation x). split; [|done].
  change ((succeeded_operation <$> operations d) !! o = Some (succeeded_operation x)). by rewrite lookup_fmap, Hx.
Qed.
Lemma step_worked : rl_api Y st waiting worked.
Proof. exact (rl_others Y st waiting worked (worked_frame (db waiting))). Qed.
Lemma run_worked : rtc (rl_api Y st) start worked.
Proof. etrans; [exact run_waiting|]. apply rtc_once. exact step_worked. Qed.

Lemma exhausted_waiting_reconciliations_are_stuck_witness :
  exists r, reconciliations (db worked) !! 102%N = Some r /\ rn_state r = RcAwaitingTrial
  /\ (forall x, fst (stage_release Y st owner (unary 2) (unary 4) (headers "again") stage_request env worked) <> Ok (Created (x, r)))
  /\ forall now locked, next_reconciliation (db worked) now locked <> Some r.
Proof.
  destruct (rcn_in_Some worked RcAwaitingTrial 6) as (r & Hr & Hs & Hn); [vm_compute; reflexivity|].
  assert (Ho : awaited_operation r = Some 109%N).
  { assert (E : awaited_operation <$> reconciliations (db worked) !! 102%N = Some (Some 109%N)) by (vm_compute; reflexivity).
    rewrite Hr in E. by injection E. }
  assert (Hp : rn_project r = 2%N).
  { assert (E : rn_project <$> reconciliations (db worked) !! 102%N = Some 2%N) by (vm_compute; reflexivity).
    rewrite Hr in E. by injection E. }
  assert (Hop : operation_succeeded (db worked) 109).
  { destruct (operations (db worked) !! 109%N) as [x|] eqn:Hx; [|vm_compute in Hx; discriminate]. exists x. split; [done|].
    assert (E : do_state <$> operations (db worked) !! 109%N = Some OSucceeded) by (vm_compute; reflexivity).
    rewrite Hx in E. by injection E. }
  assert (Hw : awaiting (rn_state r) = true) by by rewrite Hs.
  destruct (exhausted_waiting_reconciliations_are_stuck Y st worked worked 102 r 109
    (reachable_rl_ok Y st start worked release_start_fresh run_worked)
    Hr Hw Hn Ho Hop (rtc_refl _ _)) as [(r' & Hr' & _ & _ & Hnext) Hstage].
  exists r. assert (r' = r) as -> by congruence. split; [done|]. split; [done|]. split; [|exact Hnext].
  intros x E. refine (Hstage owner (unary 2) (unary 4) (headers "again") stage_request env x r _ _ _).
  - rewrite Hp. vm_compute. reflexivity.
  - rewrite <- E. apply surjective_pairing.
Defined.

(** *** The evidence of the first release's runtime has expired *)

Definition site_request : StageReleaseRequest := {|
  stq_job := 33; stq_allocation := None; stq_database := None; stq_database_generation := None; stq_revision := None;
  stq_digest := None; stq_path := None; stq_url := "https://b" |}.
Definition both_staged := stage_release Y st owner (unary 8) (unary 9) (headers "site") site_request env (snd (staged Y)).
Definition policy_read := policy_now (rg_m3 st) later (snd both_staged).
Definition expired := expire_reconciliations (P := unit) later (snd policy_read).
Definition failed := fail_migration_reconciliations (P := unit) later (snd expired).
Definition refused_lease := lease_reconciliation Y st "worker" later (snd both_staged).

Lemma release_Ok_of {A} (r : res ApiError A) : is_ok r = true -> exists a, r = Ok a.
Proof. destruct r; [eauto|done]. Qed.

Lemma one_ineligible_release_blocks_leasing_witness :
  (exists e, fst refused_lease = Err e) /\ same_but_clock (db (snd both_staged)) (db (snd refused_lease))
  /\ (fun r => (rn_state r, claimable (db (snd failed)) 3000000000 r)) <$> reconciliations (db (snd failed)) !! 105%N
     = Some (RcQueued, true).
Proof.
  destruct (release_Ok_of (fst policy_read)) as [policy Hp]; [vm_compute; reflexivity|].
  destruct (release_Ok_of (fst expired)) as [[] He]; [vm_compute; reflexivity|].
  destruct (release_Ok_of (fst failed)) as [[] Hf]; [vm_compute; reflexivity|].
  set (w3 := snd failed) in *.
  destruct (next_reconciliation (db w3) (clock later (ticks w3)) (row_locked later (S (ticks w3)))) as [r|] eqn:Hn;
    [|vm_compute in Hn; discriminate].
  assert (Epolicy : policy = 3000000000%Z) by (vm_compute in Hp; congruence).
  destruct (lease_checks Y (db w3) r policy) as [l|e] eqn:Hc.
  { exfalso. assert (E : is_ok <$> (r ← next_reconciliation (db w3) (clock later (ticks w3)) (row_locked later (S (ticks w3)));
        Some (lease_checks Y (db w3) r 3000000000)) = Some false) by (vm_compute; reflexivity).
    rewrite Hn in E. cbn [mbind option_bind fmap option_fmap option_map] in E. rewrite <- Epolicy, Hc in E. discriminate. }
  destruct (one_ineligible_release_blocks_leasing Y st "worker" policy later (snd both_staged) (snd policy_read) (snd expired)
    w3 {| policy_clock := None; worker_hashes := [] |} r e) as (w' & Hl & Hsame).
  - reflexivity.
  - vm_compute. reflexivity.
  - rewrite <- Hp. apply surjective_pairing.
  - rewrite <- He. apply surjective_pairing.
  - rewrite <- Hf. apply surjective_pairing.
  - exact Hn.
  - exact Hc.
  - split; [|split; [|vm_compute; reflexivity]].
    + exists e. unfold refused_lease. by rewrite Hl.
    + unfold refused_lease. by rewrite Hl.
Defined.

(** *** The probes of a migration over two releases *)

Definition loaded (id : Uuid) : LoadedRelease :=
  let runtime := runtime_lease (allocation zeros 60) in
  let release := {|
    rl_id := id; rl_account := 1; rl_project := 2; rl_deployment := 4; rl_config := 10; rl_job := 3;
    rl_commit := text 97 40; rl_frontend := None; rl_backend := Some zeros; rl_database := Some 11%N;
    rl_database_generation := Some 19%N; rl_revision := None; rl_migration_digest := None; rl_migration_path := None;
    rl_migration := Some 70%N; rl_allocation := Some 60%N; rl_service := Some 16%N; rl_generation := Some 1%Z;
    rl_fence := Some 1%Z; rl_observation := Some 64%N; rl_receipt := Some zeros; rl_state := RlStaged; rl_secrets := [];
    rl_health := None; rl_expected := 0; rl_url := None; rl_promoted := None; rl_failure := None; rl_created := 0 |} in
  {| ld_release := release; ld_lease := release_lease release None None (Some runtime) None; ld_runtime := Some runtime |}.
Definition plan : ProbePlanContext := {|
  pc_database := Some 11%N; pc_database_generation := Some 19%N; pc_migration := Some 70%N;
  pc_phase := IsolatedValidation; pc_reconciliation := 102; pc_attempt := 103; pc_fence := 1 |}.
Definition probes := required_probes (loaded 1) (Some (loaded 2)) [] plan env start.
Lemma probe_plan_covers_every_release_witness : exists ps runtime p,
  fst probes = Ok ps /\ length ps = 4%nat /\ p ∈ ps
  /\ probes_release CACHED_OLD_FRONTEND 2 (Some 1%N) runtime p.
Proof.
  destruct (release_Ok_of (fst probes)) as [ps Hps]; [vm_compute; reflexivity|].
  assert (Hlen : length ps = 4%nat).
  { assert (E : match fst probes with Ok ps => length ps | Err _ => O end = 4%nat) by (vm_compute; reflexivity).
    by rewrite Hps in E. }
  destruct (probe_plan_covers_every_release (P := unit) (loaded 1) (Some (loaded 2)) [] plan env start (snd probes) ps)
    as (_ & Hpairs & _).
  { rewrite <- Hps. apply surjective_pairing. }
  destruct (Hpairs ltac:(done) (loaded 2) (loaded 1)) as (runtime & p & _ & Hin & Hp); [by right; left|by left|done|].
  exists ps, runtime, p. done.
Defined.
(** *** Two promoted releases that run one binary, and a candidate with a migration *)

Definition release_at (id : Uuid) (state : ReleaseState) (promoted : option Z) : Release := {|
  rl_id := id; rl_account := 1; rl_project := 2; rl_deployment := 4; rl_config := 10; rl_job := 3;
  rl_commit := text 97 40; rl_frontend := None; rl_backend := Some zeros; rl_database := Some 11%N;
  rl_database_generation := Some 19%N; rl_revision := Some "r1"; rl_migration_digest := Some zeros;
  rl_migration_path := Some "dist/migrations/0001.sql"; rl_migration := Some 70%N; rl_allocation := Some 60%N;
  rl_service := Some 16%N; rl_generation := Some 1%Z; rl_fence := Some 1%Z; rl_observation := Some 64%N;
  rl_receipt := Some zeros; rl_state := state; rl_secrets := []; rl_health := None; rl_expected := 0; rl_url := None;
  rl_promoted := promoted; rl_failure := None; rl_created := 0 |}.
Definition no_manifest : RouteManifest := {|
  mf_project := 2; mf_release := 81; mf_deployment := 4; mf_commit := text 97 40; mf_generation := 2;
  mf_frontend := None; mf_backend := None; mf_database := None; mf_config := 10; mf_secrets := [];
  mf_observation := None; mf_receipt := None; mf_previous := None; mf_assets := []; mf_drain := 0 |}.
Definition trial_prepared : Migration := {|
  mg_id := 70; mg_account := 1; mg_project := 2; mg_database := 11; mg_generation := 19; mg_deployment := 4;
  mg_config := 10; mg_revision := "r1"; mg_digest := zeros; mg_source := 1; mg_archive := 71; mg_validation := None;
  mg_state := MTrialPrepared; mg_current_schema := "s1"; mg_candidate_schema := "s2"; mg_current_binary := zeros;
  mg_artifact := mg_artifact planned; mg_retained := []; mg_evidence := {|
    ce_expected_digests := [zeros]; ce_identity := None; ce_ref := None; ce_apply_receipt := Some zeros;
    ce_expected_count := None; ce_populated := false; ce_read_ok := false; ce_write_ok := false;
    ce_connection := false; ce_unchanged := false |}; mg_effect := None; mg_validated := None; mg_applied := None |}.
Definition shared_db : RlDb unit := MkRlDb unit (rl_runtime (db start)) {[ 1%N ]} ∅ ∅ ∅ {[ 71%N := backup ]}
  {[ 70%N := trial_prepared ]} ∅
  {[ 80%N := release_at 80 RlStaged None; 81%N := release_at 81 RlHealthy (Some 2%Z);
     82%N := release_at 82 RlHealthy (Some 1%Z) ]}
  {[ 2%N := {| ro_account := 1; ro_release := 81; ro_generation := 2; ro_availability := "available";
               ro_observed := 0; ro_demo_revision := 0; ro_digest := zeros; ro_manifest := no_manifest;
               ro_assets := []; ro_drain := 0 |} ]}
  {[ 90%N := {| rn_id := 90; rn_account := 1; rn_project := 2; rn_release := 80; rn_kind := Promote;
                rn_state := RcRunning; rn_expected := 2; rn_requirements := None; rn_attempts := 1;
                rn_current := Some 91%N; rn_fence := 1; rn_lease := Some 2000000000%Z; rn_code := None;
                rn_result := None; rn_created := 0 |} ]}
  {[ 91%N := {| ra_id := 91; ra_account := 1; ra_project := 2; ra_release := 80; ra_reconciliation := 90;
                ra_number := 1; ra_fence := 1; ra_worker := "worker"; ra_state := AtRunning; ra_started := 0;
                ra_lease := 2000000000; ra_finished := None; ra_code := None; ra_hash := None |} ]}
  ∅ tt ∅ [].
Definition populated (release : Uuid) (kind : string) : MigrationProbeReceipt := {|
  mpr_release := release; mpr_artifact := zeros; mpr_allocation := 60; mpr_generation := 1; mpr_fence := 1;
  mpr_database_generation := 19; mpr_migration := 70; mpr_digest := zeros; mpr_kind := kind;
  mpr_receipt := zeros; mpr_observed := 0 |}.
Definition crossed (frontend api : Uuid) : CrossVersionProbeReceipt :=
  {| cvr_frontend := frontend; cvr_api := api; cvr_receipt := zeros |}.
Definition validation : MigrationRuntimeValidation := {|
  mv_release := 80; mv_reconciliation := 90; mv_attempt := 91; mv_fence := 1; mv_migration := 70;
  mv_apply_receipt := zeros; mv_probes := [populated 80 "candidate"; populated 81 "current"; populated 82 "retained"];
  mv_cross := [crossed 80 81; crossed 80 82; crossed 81 80; crossed 81 82; crossed 82 80; crossed 82 81];
  mv_validated := 1000000000 |}.
Definition validated := record_migration_runtime_validation Y validation env (MkWorld shared_db 0 0).

(** The database worker has applied the validated migration. *)
Definition applied (m : Migration) : Migration := {|
  mg_id := mg_id m; mg_account := mg_account m; mg_project := mg_project m; mg_database := mg_database m;
  mg_generation := mg_generation m; mg_deployment := mg_deployment m; mg_config := mg_config m;
  mg_revision := mg_revision m; mg_digest := mg_digest m; mg_source := mg_source m; mg_archive := mg_archive m;
  mg_validation := mg_validation m; mg_state := MApplied; mg_current_schema := mg_current_schema m;
  mg_candidate_schema := mg_candidate_schema m; mg_current_binary := mg_current_binary m;
  mg_artifact := mg_artifact m; mg_retained := mg_retained m; mg_evidence := mg_evidence m;
  mg_effect := Some 100%N; mg_validated := mg_validated m; mg_applied := Some 1000000000%Z |}.
Definition applied_db : RlDb unit := set_migrations (applied <$> migrations (db (snd validated))) (db (snd validated)).

Lemma shared_binaries_never_pass_the_gate_witness :
  verified_migration_gate Y applied_db 1 2 11 19 4 "r1" zeros 1000000000
  = Err (conflict "migration_incompatible"
           "a current or retained application binary did not pass populated compatibility").
Proof.
  destruct (release_Ok_of (fst validated)) as [gate Hg]; [vm_compute; reflexivity|].
  assert (Hrun : validated = (Ok gate, snd validated)) by (rewrite <- Hg; apply surjective_pairing).
  assert (Hm' : exists m', migrations applied_db !! 70%N = Some m').
  { destruct (migrations applied_db !! 70%N) as [m'|] eqn:E; [by exists m'|].
    exfalso. revert E. vm_compute. discriminate. }
  destruct Hm' as [m' Hm'].
  apply (shared_binaries_never_pass_the_gate Y validation env (MkWorld shared_db 0 0) (snd validated) gate
           trial_prepared applied_db m' 1 2 11 19 4 "r1" zeros 1000000000 Hrun).
  - reflexivity.
  - intros Hn. pose proof (bool_decide_eq_true_2 _ Hn) as E. vm_compute in E. discriminate.
  - rewrite <- Hm'. vm_compute. reflexivity.
  - assert (Hv : option_map mg_retained (migrations applied_db !! 70%N)
              = option_map vg_retained (match fst validated with Ok g => Some g | Err _ => None end))
      by (vm_compute; reflexivity).
    rewrite Hm', Hg in Hv. by injection Hv.
Defined.
End ReleaseDemo.
