(* ===== verification/TableHistory.v ===== *)
(** * Histories of tables

    How the rows of a table change, one step of a row at a time: [evolves R Q t t'] when
    every row of [t] has taken steps of [R] on its way to [t'], and every other row of
    [t'] has taken such steps since it was inserted as [Q] says.  Rows are never
    deleted. *)

From stdpp Require Import base option gmap relations.
From Stdlib Require Import ZArith Lia.
From S2P Require Import Prelude PgTx.

Section Evolves.
Context {A : Type} (R : relation A) (Q : Uuid -> A -> Prop).
Implicit Types (t : gmap Uuid A) (k : Uuid).

Definition row_evolves k (o o' : option A) : Prop :=
  match o, o' with
  | Some r, Some r' => rtc R r r'
  | None, Some r' => exists r0, Q k r0 /\ rtc R r0 r'
  | None, None => True
  | Some _, None => False
  end.
Definition evolves t t' : Prop := forall k, row_evolves k (t !! k) (t' !! k).

#[export] Instance evolves_preorder : PreOrder evolves.
Proof.
  split.
  - intros t k. unfold row_evolves. by destruct (t !! k).
  - intros t1 t2 t3 H1 H2 k. specialize (H1 k). specialize (H2 k). unfold row_evolves in *.
    destruct (t1 !! k), (t2 !! k), (t3 !! k); try done; [by etrans|].
    destruct H1 as (r & Hr & Hs). exists r. split; [done|by etrans].
Qed.

Lemma evolves_insert t k r : t !! k = None -> Q k r -> evolves t (<[k := r]> t).
Proof.
  intros Hk Hr j. rewrite lookup_insert. case_decide as E.
  - subst j. rewrite Hk. by exists r.
  - by apply evolves_preorder.(PreOrder_Reflexive).
Qed.

Lemma evolves_update t k r r' : t !! k = Some r -> R r r' -> evolves t (<[k := r']> t).
Proof.
  intros Hk Hr j. rewrite lookup_insert. case_decide as E.
  - subst j. rewrite Hk. by apply rtc_once.
  - by apply evolves_preorder.(PreOrder_Reflexive).
Qed.

Lemma evolves_insert_pk check t t' k r : insert_pk check k r t = Some t' -> Q k r -> evolves t t'.
Proof. intros (Hk & _ & ->)%insert_pk_Some Hr. by apply evolves_insert. Qed.

Lemma evolves_update_pk check cond f t t' n k :
  update_pk check cond (fun r => f r) k t = Some (t', n) ->
  (forall r r', t !! k = Some r -> cond r = true -> f r = Some r' -> check r' = true -> R r r') -> evolves t t'.
Proof.
  intros [(-> & _)|(_ & r & r' & Hk & Hc & Hf & Hch & ->)]%update_pk_Some HR; [done|].
  eapply evolves_update; [exact Hk|]. by apply HR.
Qed.

(** ** What follows of rows *)

Lemma evolves_row t t' k r : evolves t t' -> t !! k = Some r -> exists r', t' !! k = Some r' /\ rtc R r r'.
Proof.
  intros He Hk. specialize (He k). unfold row_evolves in He. rewrite Hk in He.
  destruct (t' !! k) as [r'|]; [|done]. by exists r'.
Qed.

Lemma evolves_back t t' k r' : evolves t t' -> t' !! k = Some r' ->
  (exists r, t !! k = Some r /\ rtc R r r') \/ t !! k = None /\ exists r0, Q k r0 /\ rtc R r0 r'.
Proof.
  intros He Hk. specialize (He k). unfold row_evolves in He. rewrite Hk in He.
  destruct (t !! k) as [r|]; [left; by exists r|by right].
Qed.

(** A row invariant: of every row inserted, and kept by every step. *)
Lemma evolves_invariant (I : Uuid -> A -> Prop) t t' :
  (forall k r, Q k r -> I k r) -> (forall k r r', R r r' -> I k r -> I k r') -> evolves t t' ->
  map_Forall I t -> map_Forall I t'.
Proof.
  intros HQ HR He Ht k r' Hk.
  assert (Hrtc : forall r r', rtc R r r' -> I k r -> I k r') by (induction 1; eauto).
  destruct (evolves_back _ _ _ _ He Hk) as [(r & Hr & Hs)|(_ & r & Hr & Hs)]; eauto.
Qed.
End Evolves.

(** A preorder of rows that every step respects. *)
Lemma rtc_respects {A} (R S : relation A) `{!PreOrder S} : (forall r r', R r r' -> S r r') ->
  forall r r', rtc R r r' -> S r r'.
Proof. intros H r r'. induction 1; [done|]. etrans; [by apply H|done]. Qed.

Lemma evolves_mono {A} (R R' : relation A) (Q Q' : Uuid -> A -> Prop) t t' :
  (forall r r', R r r' -> R' r r') -> (forall k r, Q k r -> Q' k r) -> evolves R Q t t' -> evolves R' Q' t t'.
Proof.
  intros HR HQ He k. specialize (He k). unfold row_evolves in *.
  destruct (t !! k), (t' !! k); try done; [by eapply rtc_subrel; [|exact He]|].
  destruct He as (r & Hr & Hs). exists r. split; [by apply HQ|]. by eapply rtc_subrel; [|exact Hs].
Qed.
