(* ===== verification/TenantTables.v ===== *)
(** * The tables of tenant databases (migrations/0006_m3_execution.sql)

    The tables of tenant databases stand beside those of releases: both components
    write the archives, the migrations and the operations.  What is added here is the
    attempts at operations, the configurations a database is created from, and the
    records that owners see. *)

From stdpp Require Import base list option gmap strings pretty.
From Stdlib Require Import ZArith Lia Ascii.
From S2P Require Import Prelude RustText Bytes PgTx Intent Secrets Admission PolicyClock.
From S2P Require Import ProjectContract ExecutionTables BuildTables RuntimeEvidence Runtime ReleaseTables.

Local Open Scope string_scope.
Local Open Scope list_scope.

(** ** Rows and records *)

(** Columns that are only written are left out. *)
Record OperationAttempt := {
  oa_id : Uuid; oa_operation : Uuid; oa_number : Z; oa_fence : Z; oa_worker : string;
  oa_state : AttemptState; oa_started : Z; oa_lease : Z; oa_finished : option Z;
  oa_code : option string; oa_hash : option bytes;
}.

(** The columns of the row, with its last usable daily backup and its last drill. *)
Record TenantDatabaseRecord := {
  tdr_row : TenantDatabase; tdr_backup : option Z; tdr_drill : option Z;
}.
Record ArchiveRecord := {
  axr_id : Uuid; axr_database : Uuid; axr_generation : Uuid; axr_kind : ArchiveKind;
  axr_state : ArchiveState; axr_scheduled : option Z; axr_intended : option string; axr_source : Z;
  axr_snapshot : option Z; axr_verified : option Z; axr_expires : Z; axr_plain : option string;
  axr_plain_bytes : option Z; axr_created : Z;
}.
Record RecoveryRecord := {
  rcr_id : Uuid; rcr_database : Uuid; rcr_archive : Uuid; rcr_state : RecoveryState; rcr_week : Z;
  rcr_identity : option Uuid; rcr_validated : option Z; rcr_elapsed : option Z;
  rcr_error : option string; rcr_created : Z;
}.

Inductive TenantResponse :=
| DatabaseResponse (r : TenantDatabaseRecord)
| ArchiveResponse (r : ArchiveRecord)
| RecoveryResponse (r : RecoveryRecord).
Definition database_of (r : TenantResponse) : option TenantDatabaseRecord :=
  match r with DatabaseResponse r => Some r | _ => None end.
Definition archive_of (r : TenantResponse) : option ArchiveRecord :=
  match r with ArchiveResponse r => Some r | _ => None end.
Definition recovery_of (r : TenantResponse) : option RecoveryRecord :=
  match r with RecoveryResponse r => Some r | _ => None end.

(** ** The database *)

Record TbDb {P : Type} := MkTbDb {
  tb_rl : RlDb P;
  tb_attempts : gmap Uuid OperationAttempt;
  tb_configurations : gmap Uuid Configuration;
  tb_service_configurations : gmap (Uuid * Uuid) ServiceConfiguration;
  tb_idem : gmap (Uuid * string * string) (IdemRow TenantResponse);
  tb_audits : list AuditEvent;
}.
Arguments TbDb P : clear implicits.

Section Database.
Context {P : Type}.
Implicit Types d : TbDb P.

Definition set_tb_rl v d : TbDb P := MkTbDb P v (tb_attempts d) (tb_configurations d)
  (tb_service_configurations d) (tb_idem d) (tb_audits d).
Definition set_tb_attempts v d : TbDb P := MkTbDb P (tb_rl d) v (tb_configurations d)
  (tb_service_configurations d) (tb_idem d) (tb_audits d).
Definition set_tb_idem v d : TbDb P := MkTbDb P (tb_rl d) (tb_attempts d) (tb_configurations d)
  (tb_service_configurations d) v (tb_audits d).
Definition set_tb_audits v d : TbDb P := MkTbDb P (tb_rl d) (tb_attempts d) (tb_configurations d)
  (tb_service_configurations d) (tb_idem d) v.

(** A computation on the tables shared with releases. *)
Definition in_rl {A} (m : M (RlDb P) A) : M (TbDb P) A := zoom tb_rl set_tb_rl m.

Definition tb_tables d : Execution := tables (tb_rl d).
Definition databases d : gmap Uuid TenantDatabase := tenant_databases (tb_tables d).
Definition tb_credentials d : gmap Uuid DatabaseCredential := database_credentials (tb_tables d).
Definition tb_recoveries d : gmap Uuid Recovery := recoveries (tb_tables d).
Definition tb_operations d : gmap Uuid DatabaseOperation := database_operations (tb_tables d).
Definition tb_archives d : gmap Uuid Archive := archives (tb_rl d).
Definition tb_migrations d : gmap Uuid Migration := migrations (tb_rl d).

(** The tables of an execution that this component writes. *)
Definition with_tables (reservations : gmap Uuid Reservation) (projects : gmap Uuid Project)
    (dbs : gmap Uuid TenantDatabase) (creds : gmap Uuid DatabaseCredential)
    (recs : gmap Uuid Recovery) (ops : gmap Uuid DatabaseOperation) (x : Execution) : Execution := {|
  build_jobs := build_jobs x; build_services := build_services x; build_artifacts := build_artifacts x;
  build_usage := build_usage x; x_deployments := x_deployments x; x_reservations := reservations;
  x_projects := projects; tenant_databases := dbs; database_credentials := creds; recoveries := recs;
  database_operations := ops |}.
Definition set_tb_tables x d : TbDb P := set_tb_rl (set_tables x (tb_rl d)) d.
Definition set_reservations v d : TbDb P := let x := tb_tables d in
  set_tb_tables (with_tables v (x_projects x) (tenant_databases x) (database_credentials x) (recoveries x)
    (database_operations x) x) d.
Definition set_projects v d : TbDb P := let x := tb_tables d in
  set_tb_tables (with_tables (x_reservations x) v (tenant_databases x) (database_credentials x) (recoveries x)
    (database_operations x) x) d.
Definition set_databases v d : TbDb P := let x := tb_tables d in
  set_tb_tables (with_tables (x_reservations x) (x_projects x) v (database_credentials x) (recoveries x)
    (database_operations x) x) d.
Definition set_credentials v d : TbDb P := let x := tb_tables d in
  set_tb_tables (with_tables (x_reservations x) (x_projects x) (tenant_databases x) v (recoveries x)
    (database_operations x) x) d.
Definition set_recoveries v d : TbDb P := let x := tb_tables d in
  set_tb_tables (with_tables (x_reservations x) (x_projects x) (tenant_databases x) (database_credentials x) v
    (database_operations x) x) d.
Definition set_tb_operations v d : TbDb P := let x := tb_tables d in
  set_tb_tables (with_tables (x_reservations x) (x_projects x) (tenant_databases x) (database_credentials x)
    (recoveries x) v x) d.
Definition set_tb_archives v d : TbDb P := set_tb_rl (set_archives v (tb_rl d)) d.
Definition set_tb_migrations v d : TbDb P := set_tb_rl (set_migrations v (tb_rl d)) d.
End Database.

#[export] Instance tb_intent_store {P} : IntentStore (TbDb P) TenantResponse := {
  idempotency_records := tb_idem; set_idempotency_records := set_tb_idem;
  audit_events := tb_audits; set_audit_events := set_tb_audits;
}.
#[export] Instance tb_intent_store_laws {P} : IntentStoreLaws (TbDb P) TenantResponse.
Proof. by split. Qed.
#[export] Instance tb_clock_store {P} : ClockStore (TbDb P) := {
  clock_row d := clock_row (tb_rl d);
  set_clock_row c d := set_tb_rl (set_clock_row c (tb_rl d)) d;
}.
#[export] Instance tb_clock_laws {P} : ClockStoreLaws (TbDb P).
Proof. by split. Qed.

(** ** Constraints *)

Definition database_check (t : TenantDatabase) : bool :=
  (0 <? td_connections t)%Z && (0 <? td_limit t)%Z && text_within 1 128 (td_ref t) && (0 <? td_source t)%Z
  && is_none_or (fun n => 0 <=? n)%Z (td_measured t) && (0 <? td_revision t)%Z
  && is_none_or (text_within 1 96) (td_error t)
  && (Bool.eqb (bool_decide (td_state t = DbReady)) (negb (is_none (td_ready t)))
      || one_of (td_state t) [RecoveryAttention; DbFailedResourcesRetained; DbRemoved])
  && both_or_none (td_measured t) (td_observed t)
  && (bool_decide (td_mode t = Writable) || negb (is_none (td_observed t))).

(** The generation, and tenant_databases_one_live_service_idx. *)
Definition live_database (t : TenantDatabase) : bool := negb (bool_decide (td_state t = DbRemoved)).
Definition database_unique (rows : gmap Uuid TenantDatabase) (t : TenantDatabase) : bool :=
  negb (exists_row (fun o => negb (bool_decide (td_id o = td_id t))
    && (bool_decide (td_generation o = td_generation t)
        || live_database o && live_database t && bool_decide (td_service o = td_service t))) rows).

Definition credential_check (c : DatabaseCredential) : bool :=
  text_within 1 128 (dc_role c) && text_within 1 64 (dc_key_version c) && (length (dc_nonce c) =? 24)%nat
  && (1 <=? length (dc_ciphertext c))%nat && (Z.of_nat (length (dc_ciphertext c)) <=? 16384)%Z
  && (length (dc_tag c) =? 16)%nat.
(** Every version number is the default. *)
Definition credential_unique (rows : gmap Uuid DatabaseCredential) (c : DatabaseCredential) : bool :=
  negb (exists_row (fun o => bool_decide (dc_database o = dc_database c)
                             && bool_decide (dc_purpose o = dc_purpose c)) rows).

Definition recovery_check (r : Recovery) : bool :=
  is_none_or (text_within 1 256) (rc_replacement_ref r) && is_none_or (fun n => 0 <=? n)%Z (rc_elapsed r)
  && is_none_or (text_within 1 96) (rc_error r)
  && (negb (one_of (rc_state r) [RValidated; RCleaned])
      || negb (is_none (rc_validated r)) && negb (is_none (rc_replacement_identity r))).
Definition recovery_unique (rows : gmap Uuid Recovery) (r : Recovery) : bool :=
  negb (exists_row (fun o => bool_decide (rc_database o = rc_database r)
    && bool_decide (rc_generation o = rc_generation r) && (rc_week o =? rc_week r)%Z) rows).

Definition operation_attempt_check (a : OperationAttempt) : bool :=
  (0 <? oa_number a)%Z && (0 <? oa_fence a)%Z && text_within 1 128 (oa_worker a)
  && is_none_or (text_within 1 96) (oa_code a) && is_none_or (fun h => length h =? 32)%nat (oa_hash a)
  && (oa_started a <? oa_lease a)%Z
  && Bool.eqb (bool_decide (oa_state a = AtRunning)) (is_none (oa_finished a) && is_none (oa_code a)).
Definition operation_attempt_unique (rows : gmap Uuid OperationAttempt) (a : OperationAttempt) : bool :=
  negb (exists_row (fun o => negb (bool_decide (oa_id o = oa_id a))
    && bool_decide (oa_operation o = oa_operation a)
    && ((oa_number o =? oa_number a)%Z || (oa_fence o =? oa_fence a)%Z)) rows).

(** ** Records *)

(** [into_record]: the conversions to unsigned integers. *)
Definition database_record (t : TenantDatabase) (backup drill : option Z) : res ApiError TenantDatabaseRecord :=
  res_bind (guard_err ((td_connections t <? 0)%Z || (td_limit t <? 0)%Z || (td_source t <? 0)%Z
                       || is_some_and (fun n => n <? 0)%Z (td_measured t) || (td_revision t <? 0)%Z) internal)
    (fun _ => Ok {| tdr_row := t; tdr_backup := backup; tdr_drill := drill |}).

Definition archive_record (a : Archive) : res ApiError ArchiveRecord :=
  res_bind (guard_err ((ax_source a <? 0)%Z || is_some_and (fun n => n <? 0)%Z (ax_plain_bytes a)) internal)
    (fun _ => Ok {|
  axr_id := ax_id a; axr_database := ax_database a; axr_generation := ax_generation a; axr_kind := ax_kind a;
  axr_state := ax_state a; axr_scheduled := ax_scheduled a; axr_intended := ax_intended a; axr_source := ax_source a;
  axr_snapshot := ax_snapshot a; axr_verified := ax_verified a; axr_expires := ax_expires a; axr_plain := ax_plain a;
  axr_plain_bytes := ax_plain_bytes a; axr_created := ax_created a |}).

Definition recovery_record (r : Recovery) : res ApiError RecoveryRecord :=
  res_bind (guard_err (is_some_and (fun n => n <? 0)%Z (rc_elapsed r)) internal) (fun _ => Ok {|
  rcr_id := rc_id r; rcr_database := rc_database r; rcr_archive := rc_archive r; rcr_state := rc_state r;
  rcr_week := rc_week r; rcr_identity := rc_replacement_identity r; rcr_validated := rc_validated r;
  rcr_elapsed := rc_elapsed r; rcr_error := rc_error r; rcr_created := rc_created r |}).

Definition operation_record (o : DatabaseOperation) : res ApiError DatabaseOperation :=
  res_bind (guard_err ((do_attempts o <? 0)%Z || (do_fence o <? 0)%Z) internal) (fun _ => Ok o).

(** ** What a worker reports *)

(** An object of JSON: what the accessors of its members return ([as_str], [as_i64],
    [as_u64], [as_bool]), and the text of a member once it is stored ([#>>]). *)
Record JsonObject := {
  j_keys : list string; j_str : string -> option string; j_i64 : string -> option Z;
  j_u64 : string -> option Z; j_bool : string -> option bool; j_text : string -> option string;
}.

(** The proof of a completion, with its members that are objects; its size is that of
    its text. *)
Record CompletionProof := {
  pr_object : option JsonObject; pr_size : Z; pr_manifest : option JsonObject;
  pr_validation : option JsonObject;
}.
Record OperationOutcome := { oo_state : string; oo_code : string; oo_proof : CompletionProof }.

Definition member {A} (get : JsonObject -> string -> option A) (o : option JsonObject) (key : string) : option A :=
  o ← o; get o key.

(** The stored result: the code and the proof. *)
Definition stored_proof (code : string) (p : CompletionProof) : OperationProof := {|
  op_code := Some code; op_recovery_id := member j_text (pr_object p) "recovery_id";
  op_archive_id := member j_text (pr_object p) "archive_id";
  op_replacement_ref := member j_text (pr_object p) "replacement_ref";
  op_replacement_identity := member j_text (pr_object p) "replacement_identity";
  op_elapsed := member j_text (pr_object p) "elapsed_milliseconds";
  op_endpoint := member j_text (pr_object p) "replacement_endpoint_sha256";
  op_rows := member j_text (pr_validation p) "rows_match";
  op_relationships := member j_text (pr_validation p) "relationships_match";
  op_grants := member j_text (pr_validation p) "grants_match";
  op_connection := member j_text (pr_validation p) "application_connection_verified";
  op_unchanged := member j_text (pr_validation p) "source_unchanged" |}.
Definition stored_code (code : string) : OperationProof := {|
  op_code := Some code; op_recovery_id := None; op_archive_id := None; op_replacement_ref := None;
  op_replacement_identity := None; op_elapsed := None; op_endpoint := None; op_rows := None;
  op_relationships := None; op_grants := None; op_connection := None; op_unchanged := None |}.
