(* ===== verification/TenantCompletion.v ===== *)
(** * Completions of database operations (crates/control/src/tenant_databases.rs)

    What a worker must prove for each kind of operation, and what its success or its
    failure changes. *)

From stdpp Require Import base list option gmap strings pretty.
From Stdlib Require Import ZArith Lia Ascii.
From S2P Require Import Prelude RustText Bytes PgTx Intent Secrets Admission PolicyClock.
From S2P Require Import ExecutionTables BuildTables RuntimeEvidence Runtime.
From S2P Require Import ReleaseTables ReleaseEvidence ReleaseReceipts Migrations TenantTables.

Local Open Scope string_scope.
Local Open Scope list_scope.

Definition GRANT_PLAN_VERSION : string := "hostlet.tenant-grants/v1".
Definition ARCHIVE_FORMAT : string := "hostlet.tenant-backup/v1".
Definition APPLICATION_CONNECTION_LIMIT : Z := 10.
Definition STORAGE_LIMIT_BYTES : Z := 1073741824.
Definition MAX_OPERATION_ATTEMPTS : Z := 5.

(** ** Members of a specification *)

Definition body_database_ref (b : OperationBody) : option string :=
  match b with ProvisionBody r _ _ _ _ _ _ => Some r | _ => None end.
Definition body_source (b : OperationBody) : option Z :=
  match b with
  | ArchiveBody _ _ _ _ source _ => Some source
  | TrialBody _ _ _ _ _ source _ _ _ => Some source
  | _ => None
  end.
Definition body_storage_limit (b : OperationBody) : option Z :=
  match b with StorageBody limit _ _ _ => Some limit | ProvisionBody _ _ _ _ _ _ limit => Some limit | _ => None end.
Definition body_encrypted (b : OperationBody) : option string :=
  match b with
  | RestoreBody _ encrypted _ => encrypted
  | ExpireBody _ _ encrypted _ _ => encrypted
  | TrialBody _ _ encrypted _ _ _ _ _ _ => encrypted
  | _ => None
  end.
Definition body_migration (b : OperationBody) : option Uuid :=
  match b with TrialBody m _ _ _ _ _ _ _ _ => Some m | ApplyBody m _ _ _ _ _ _ _ => Some m | _ => None end.
Definition body_migration_digest (b : OperationBody) : option string :=
  match b with TrialBody _ _ _ _ g _ _ _ _ => Some g | ApplyBody _ _ g _ _ _ _ _ => Some g | _ => None end.
Definition body_candidate (b : OperationBody) : option string :=
  match b with TrialBody _ _ _ _ _ _ _ c _ => Some c | ApplyBody _ _ _ _ _ _ c _ => Some c | _ => None end.
Definition body_expected_source (b : OperationBody) : option Z :=
  match b with ApplyBody _ _ _ _ source _ _ _ => Some source | _ => None end.

(** ** Readers *)

Definition invalid_proof (message : string) : ApiError := unprocessable "invalid_database_proof" message.

Definition bounded_string (max : nat) (v : string) : bool :=
  negb (bool_decide (v = "")) && (String.length v <=? max)%nat
  && negb (existsb is_ascii_control (as_bytes v)).
Definition required (o : option string) (max : nat) : res ApiError string :=
  ok_or (v ← o; _ ← where_ (bounded_string max v); Some v)
    (invalid_proof "a required bounded proof field is invalid").
Definition required_string (o : option JsonObject) (key : string) (max : nat) : res ApiError string :=
  required (member j_str o key) max.
Definition sha256_text (o : option string) : res ApiError string :=
  res_bind (required o 64) (fun v =>
  if is_raw_digest v then Ok v else Err (invalid_proof "a SHA-256 proof field is invalid")).
Definition required_sha256 (o : option JsonObject) (key : string) : res ApiError string :=
  sha256_text (member j_str o key).
Definition positive (o : option Z) : res ApiError Z :=
  ok_or (v ← o; _ ← where_ (0 <? v)%Z; Some v) (invalid_proof "a required positive proof value is invalid").
Definition required_positive (o : option JsonObject) (key : string) : res ApiError Z :=
  positive (member j_i64 o key).
Definition required_nonnegative (o : option JsonObject) (key : string) : res ApiError Z :=
  ok_or (v ← member j_i64 o key; _ ← where_ (0 <=? v)%Z; Some v)
    (invalid_proof "a required nonnegative proof value is invalid").

(** [object.len() == fields.len()], and every field is a key. *)
Definition has_exactly (fields : list string) (o : option JsonObject) : bool :=
  is_some_and (fun o => (length (j_keys o) =? length fields)%nat
                        && forallb (fun f => bool_decide (f ∈ j_keys o)) fields) o.
Definition is_set (o : option JsonObject) (key : string) : bool :=
  bool_decide (member j_bool o key = Some true).

(** ** Rows after a statement *)

Definition with_database (t : TenantDatabase) (state : DatabaseState) (source : Z) (mode : GrowthMode)
    (measured observed : option Z) (error : option string) (ready : option Z) : option TenantDatabase :=
  revision ← bigint_succ (td_revision t);
  Some {| td_id := td_id t; td_account := td_account t; td_project := td_project t; td_service := td_service t;
          td_config := td_config t; td_deployment := td_deployment t; td_reservation := td_reservation t;
          td_epoch := td_epoch t; td_generation := td_generation t; td_state := state;
          td_connections := td_connections t; td_limit := td_limit t; td_ref := td_ref t; td_source := source;
          td_mode := mode; td_measured := measured; td_observed := observed; td_revision := revision;
          td_error := error; td_created := td_created t; td_ready := ready |}.
Definition database_in (t : TenantDatabase) (state : DatabaseState) (error : option string) (ready : option Z)
    : option TenantDatabase :=
  with_database t state (td_source t) (td_mode t) (td_measured t) (td_observed t) error ready.

Definition archive_in (a : Archive) (state : ArchiveState) : Archive := {|
  ax_id := ax_id a; ax_account := ax_account a; ax_project := ax_project a; ax_database := ax_database a;
  ax_generation := ax_generation a; ax_kind := ax_kind a; ax_state := state; ax_scheduled := ax_scheduled a;
  ax_intended := ax_intended a; ax_source := ax_source a; ax_object := ax_object a; ax_format := ax_format a;
  ax_key := ax_key a; ax_plain := ax_plain a; ax_encrypted := ax_encrypted a; ax_plain_bytes := ax_plain_bytes a;
  ax_encrypted_bytes := ax_encrypted_bytes a; ax_snapshot := ax_snapshot a; ax_verified := ax_verified a;
  ax_expires := ax_expires a; ax_created := ax_created a |}.

(** What a completed archive is known by. *)
Record ArchiveReceipt := {
  ar_object : string; ar_format : string; ar_key : string; ar_plain : string; ar_encrypted : string;
  ar_plain_bytes : Z; ar_encrypted_bytes : Z; ar_snapshot : Z;
}.
Definition usable_archive (a : Archive) (r : ArchiveReceipt) (verified : Z) : Archive := {|
  ax_id := ax_id a; ax_account := ax_account a; ax_project := ax_project a; ax_database := ax_database a;
  ax_generation := ax_generation a; ax_kind := ax_kind a; ax_state := ArUsable; ax_scheduled := ax_scheduled a;
  ax_intended := ax_intended a; ax_source := ax_source a; ax_object := Some (ar_object r);
  ax_format := Some (ar_format r); ax_key := Some (ar_key r); ax_plain := Some (ar_plain r);
  ax_encrypted := Some (ar_encrypted r); ax_plain_bytes := Some (ar_plain_bytes r);
  ax_encrypted_bytes := Some (ar_encrypted_bytes r); ax_snapshot := Some (ar_snapshot r);
  ax_verified := Some verified; ax_expires := ax_expires a; ax_created := ax_created a |}.

Definition recovery_in (r : Recovery) (state : RecoveryState) (error : option string) : Recovery := {|
  rc_id := rc_id r; rc_account := rc_account r; rc_project := rc_project r; rc_database := rc_database r;
  rc_generation := rc_generation r; rc_archive := rc_archive r; rc_state := state; rc_week := rc_week r;
  rc_replacement_ref := rc_replacement_ref r; rc_replacement_identity := rc_replacement_identity r;
  rc_restored := rc_restored r; rc_validated := rc_validated r; rc_elapsed := rc_elapsed r; rc_error := error;
  rc_created := rc_created r |}.
Definition validated_recovery (r : Recovery) (reference : string) (identity : Uuid) (restored elapsed validated : Z)
    : Recovery := {|
  rc_id := rc_id r; rc_account := rc_account r; rc_project := rc_project r; rc_database := rc_database r;
  rc_generation := rc_generation r; rc_archive := rc_archive r; rc_state := RValidated; rc_week := rc_week r;
  rc_replacement_ref := Some reference; rc_replacement_identity := Some identity;
  rc_restored := Some restored; rc_validated := Some validated; rc_elapsed := Some elapsed; rc_error := None;
  rc_created := rc_created r |}.

Definition with_migration_state (m : Migration) (state : MigrationState) (e : CompatibilityEvidence)
    (effect : option Uuid) (applied : option Z) : Migration := {|
  mg_id := mg_id m; mg_account := mg_account m; mg_project := mg_project m; mg_database := mg_database m;
  mg_generation := mg_generation m; mg_deployment := mg_deployment m; mg_config := mg_config m;
  mg_revision := mg_revision m; mg_digest := mg_digest m; mg_source := mg_source m;
  mg_archive := mg_archive m; mg_validation := mg_validation m; mg_state := state;
  mg_current_schema := mg_current_schema m; mg_candidate_schema := mg_candidate_schema m;
  mg_current_binary := mg_current_binary m; mg_artifact := mg_artifact m; mg_retained := mg_retained m;
  mg_evidence := e; mg_effect := effect; mg_validated := mg_validated m; mg_applied := applied |}.

(** ** Parameters *)

Record CreateDatabaseRequest := {
  cdq_config : Uuid; cdq_service : Uuid; cdq_reservation : Uuid; cdq_epoch : Uuid;
}.

(** RFC 3339 times, the texts of a date and of an hour, the password and the nonce that
    a draw of random bytes gives, JSON, SHA-256 and the cipher. *)
Record TenantExternals := {
  n_time : string -> option Z;
  n_date_text : Z -> string;
  n_hour_text : Z -> string;
  n_password : Uuid -> string;
  n_credential_json : string -> string -> string -> bytes;
  n_seal : Uuid -> bytes -> bytes -> bytes -> option (bytes * bytes * bytes);
  n_database_hash : CreateDatabaseRequest -> string;
  n_export_hash : string;
  n_recovery_hash : Uuid -> string;
  n_outcome_hash : OperationOutcome -> bytes;
}.

Section Completion.
Context (Y : ReleaseExternals) (N : TenantExternals) {P : Type}.
Implicit Types (d : TbDb P) (o : DatabaseOperation).

Definition value_uuid (v : option string) : option Uuid := v ≫= y_parse_uuid Y.
Definition proof_uuid (p : CompletionProof) (key : string) : option Uuid := value_uuid (member j_str (pr_object p) key).
Definition spec_archive o : res ApiError Uuid := ok_or (value_uuid (os_archive_id (do_spec o))) internal.
Definition spec_recovery o : option Uuid := value_uuid (os_recovery_id (do_spec o)).
Definition required_timestamp (o : option JsonObject) (key : string) : res ApiError Z :=
  ok_or (member j_str o key ≫= n_time N) (invalid_proof "a required timestamp proof field is invalid").

(** ** Statements: [rows_affected()] *)

Definition update_database (id : Uuid) (cond : TenantDatabase -> bool) (f : TenantDatabase -> option TenantDatabase)
    : M (TbDb P) nat :=
  d <~ get_db;;
  r <~ sql (update_pk database_check cond f id (databases d));;
  put_db (set_databases r.1 d);;; tret r.2.
Definition update_archive (id : Uuid) (cond : Archive -> bool) (f : Archive -> Archive) : M (TbDb P) nat :=
  d <~ get_db;;
  r <~ sql (update_pk archive_check cond (fun a => Some (f a)) id (tb_archives d));;
  put_db (set_tb_archives r.1 d);;; tret r.2.
Definition update_recovery (id : Uuid) (cond : Recovery -> bool) (f : Recovery -> Recovery) : M (TbDb P) nat :=
  d <~ get_db;;
  r <~ sql (update_pk recovery_check cond (fun a => Some (f a)) id (tb_recoveries d));;
  put_db (set_recoveries r.1 d);;; tret r.2.
Definition change_migration (id : Uuid) (cond : Migration -> bool) (f : Migration -> Migration) : M (TbDb P) nat :=
  in_rl (update_migration id cond f).
Definition exactly_one (n : nat) (e : ApiError) : M (TbDb P) unit := reject_if (negb (n =? 1)%nat) e.

(** ** Provisioning *)

Definition ISOLATION_INVARIANTS : list string :=
  ["app_connection_verified"; "cross_tenant_denied"; "system_schema_denied"; "public_access_revoked"].

Definition provision_proved o (p : CompletionProof) : res ApiError unit :=
  res_bind (guard_err (negb (forallb (is_set (pr_object p)) ISOLATION_INVARIANTS))
    (unprocessable "invalid_provisioning_proof"
       "the provisioning proof did not establish every required isolation invariant")) (fun _ =>
  res_bind (required_sha256 (pr_object p) "role_grants_sha256") (fun _ =>
  res_bind (required_string (pr_object p) "database_ref" 128) (fun database_ref =>
  guard_err (negb (bool_decide (body_database_ref (os_body (do_spec o)) = Some database_ref)))
    (unprocessable "provisioning_target_mismatch"
       "the provisioning proof does not match the assigned database")))).

Definition being_provisioned o (t : TenantDatabase) : bool :=
  bool_decide (td_generation t = do_generation o) && one_of (td_state t) [ProvisionRequested; Provisioning].

Definition apply_provision_success o (p : CompletionProof) : M (TbDb P) unit :=
  _ <~ lift (provision_proved o p);;
  t <~ clock_timestamp;;
  n <~ update_database (do_database o) (being_provisioned o) (fun r => database_in r DbReady None (Some t));;
  exactly_one n (conflict "database_generation_stale" "the database generation is no longer current").

(** ** Archives *)

Definition validate_manifest (manifest : JsonObject) o (archive : Uuid) : res ApiError unit :=
  let m := Some manifest in
  let valid := bool_decide (member j_str m "format" = Some ARCHIVE_FORMAT)
    && bool_decide (value_uuid (member j_str m "archive_id") = Some archive)
    && bool_decide (value_uuid (member j_str m "tenant_database_id") = Some (do_database o))
    && bool_decide (value_uuid (member j_str m "database_generation") = Some (do_generation o))
    && bool_decide (member j_i64 m "source_data_generation" = body_source (os_body (do_spec o)))
    && bool_decide (member j_u64 m "postgres_server_major" = Some 18%Z)
    && bool_decide (member j_u64 m "pg_dump_major" = Some 18%Z)
    && is_set m "no_owner" && is_set m "no_privileges"
    && bool_decide (member j_bool m "cluster_roles_included" = Some false) in
  guard_err (negb valid) (unprocessable "archive_manifest_mismatch"
    "the archive manifest does not match the exact role-free database generation").

Definition object_ref (database archive : Uuid) : string :=
  repository_namespace Y database +:+ "/" +:+ y_uuid_text Y archive +:+ ".htb".

Definition archive_proved o (p : CompletionProof) : res ApiError (Uuid * ArchiveReceipt) :=
  let v := pr_object p in
  res_bind (spec_archive o) (fun archive =>
  res_bind (guard_err (negb (bool_decide (proof_uuid p "archive_id" = Some archive)))
    (unprocessable "archive_receipt_mismatch" "the archive receipt does not match the operation")) (fun _ =>
  res_bind (required_string v "object_ref" 512) (fun object =>
  res_bind (guard_err (negb (bool_decide (object = object_ref (do_database o) archive)))
    (unprocessable "archive_object_ref_invalid"
       "the archive receipt is outside the assigned repository namespace")) (fun _ =>
  res_bind (required_string v "format" 96) (fun format =>
  res_bind (guard_err (negb (bool_decide (format = ARCHIVE_FORMAT)))
    (unprocessable "archive_format_invalid" "the archive format is unsupported")) (fun _ =>
  res_bind (required_string v "recovery_key_id" 128) (fun key =>
  res_bind (required_sha256 v "plaintext_sha256") (fun plain =>
  res_bind (required_sha256 v "encrypted_sha256") (fun encrypted =>
  res_bind (required_positive v "plaintext_bytes") (fun plain_bytes =>
  res_bind (required_positive v "encrypted_bytes") (fun encrypted_bytes =>
  res_bind (required_timestamp v "snapshot_at") (fun snapshot =>
  res_bind (ok_or (pr_manifest p) (unprocessable "archive_manifest_invalid" "the archive manifest is required"))
    (fun manifest =>
  res_bind (validate_manifest manifest o archive) (fun _ =>
  Ok (archive, {| ar_object := object; ar_format := format; ar_key := key; ar_plain := plain;
                  ar_encrypted := encrypted; ar_plain_bytes := plain_bytes;
                  ar_encrypted_bytes := encrypted_bytes; ar_snapshot := snapshot |}))))))))))))))).

Definition archive_for o (a : Archive) : bool :=
  bool_decide (ax_database a = do_database o) && bool_decide (ax_generation a = do_generation o).

Definition apply_archive_success o (p : CompletionProof) : M (TbDb P) unit :=
  proved <~ lift (archive_proved o p);;
  t <~ clock_timestamp;;
  n <~ update_archive proved.1 (fun a => archive_for o a && bool_decide (ax_state a = ArCreating))
         (fun a => usable_archive a proved.2 t);;
  exactly_one n (conflict "archive_generation_stale"
    "the archive no longer belongs to a current creating operation").

(** ** Recovery drills *)

Definition RECOVERY_CHECKS : list string :=
  ["rows_match"; "relationships_match"; "grants_match"; "application_connection_verified"; "source_unchanged"].

Record RecoveryReceipt := {
  rr_recovery : Uuid; rr_reference : string; rr_identity : Uuid; rr_restored : Z; rr_elapsed : Z;
}.
Definition recovery_proof o (p : CompletionProof) : res ApiError RecoveryReceipt :=
  let v := pr_object p in
  res_bind (ok_or (spec_recovery o) internal) (fun recovery =>
  res_bind (guard_err (negb (bool_decide (proof_uuid p "recovery_id" = Some recovery)))
    (unprocessable "recovery_receipt_mismatch" "the recovery receipt does not match the operation")) (fun _ =>
  res_bind (ok_or (proof_uuid p "replacement_identity")
    (unprocessable "recovery_identity_missing" "the replacement database identity is required")) (fun identity =>
  res_bind (required_nonnegative v "elapsed_milliseconds") (fun elapsed =>
  res_bind (ok_or (pr_validation p)
    (unprocessable "recovery_validation_invalid" "the recovery validation is required")) (fun validation =>
  res_bind (guard_err (negb (forallb (is_set (Some validation)) RECOVERY_CHECKS))
    (unprocessable "recovery_validation_failed" "the isolated recovery did not pass every validation")) (fun _ =>
  res_bind (required_string v "replacement_ref" 256) (fun reference =>
  res_bind (required_timestamp v "restored_at") (fun restored =>
  Ok {| rr_recovery := recovery; rr_reference := reference; rr_identity := identity; rr_restored := restored;
        rr_elapsed := elapsed |})))))))).

Definition recovery_for o (r : Recovery) : bool :=
  bool_decide (rc_database r = do_database o) && bool_decide (rc_generation r = do_generation o).

Definition apply_recovery_success o (p : CompletionProof) : M (TbDb P) unit :=
  x <~ lift (recovery_proof o p);;
  t <~ clock_timestamp;;
  n <~ update_recovery (rr_recovery x) (fun r => recovery_for o r && bool_decide (rc_state r = RRestoring))
         (fun r => validated_recovery r (rr_reference x) (rr_identity x) (rr_restored x) (rr_elapsed x) t);;
  exactly_one n (conflict "recovery_generation_stale" "the recovery is no longer current").

(** ** Storage *)

Definition STORAGE_FIELDS : list string :=
  ["storage_bytes"; "storage_limit_bytes"; "observed_at"; "growth_mode"; "write_denied"; "reads_preserved";
   "export_preserved"].
Definition mode_text (m : GrowthMode) : string :=
  match m with Writable => "writable" | ReadOnlyOverLimit => "read_only_over_limit" end.
Definition expected_mode (current : GrowthMode) (stored limit : Z) : GrowthMode :=
  if bool_decide (current = ReadOnlyOverLimit) || (limit <? stored)%Z then ReadOnlyOverLimit else Writable.

Definition database_for o (t : TenantDatabase) : bool := bool_decide (td_generation t = do_generation o).

(** The bytes, the time and the mode to record. *)
Definition storage_proved d o (p : CompletionProof) : res ApiError (Z * Z * GrowthMode) :=
  let v := pr_object p in
  res_bind (guard_err (negb (has_exactly STORAGE_FIELDS v)) (unprocessable "storage_proof_invalid"
    "storage enforcement requires the exact bounded verification receipt")) (fun _ =>
  res_bind (required_nonnegative v "storage_bytes") (fun stored =>
  res_bind (required_positive v "storage_limit_bytes") (fun limit =>
  res_bind (ok_or (t ← databases d !! do_database o; _ ← where_ (database_for o t); Some t) not_found) (fun t =>
  res_bind (guard_err (negb (bool_decide (body_storage_limit (os_body (do_spec o)) = Some limit))
                       || negb (limit =? td_limit t)%Z || negb (limit =? STORAGE_LIMIT_BYTES)%Z)
    (unprocessable "storage_limit_mismatch"
       "the enforced storage limit does not match the admitted database limit")) (fun _ =>
  res_bind (required_timestamp v "observed_at") (fun observed =>
  res_bind (guard_err (negb (observed =? do_policy o)%Z || negb (is_set v "reads_preserved")
                       || negb (is_set v "export_preserved"))
    (unprocessable "storage_verification_failed"
       "the observation must preserve tenant reads and backup export")) (fun _ =>
  let mode := expected_mode (td_mode t) stored limit in
  res_bind (guard_err (negb (bool_decide (member j_str v "growth_mode" = Some (mode_text mode)))
                       || negb (bool_decide (member j_bool v "write_denied" = Some (bool_decide (mode = ReadOnlyOverLimit)))))
    (unprocessable "storage_enforcement_failed"
       "the measured size and verified growth mode do not agree")) (fun _ =>
  Ok (stored, observed, mode))))))))).

Definition apply_storage_success o (p : CompletionProof) : M (TbDb P) unit :=
  d <~ get_db;;
  x <~ lift (storage_proved d o p);;
  let '(stored, observed, mode) := x in
  n <~ update_database (do_database o)
         (fun t => database_for o t
                   && (bool_decide (td_mode t = Writable) || bool_decide (mode = ReadOnlyOverLimit)))
         (fun t => with_database t (td_state t) (td_source t) mode (Some stored) (Some observed) (td_error t)
                     (td_ready t));;
  exactly_one n (conflict "storage_freeze_sticky"
    "a read-only over-limit database cannot be automatically unfrozen").

(** ** Migrations *)

Definition TRIAL_FIELDS : list string :=
  ["migration_id"; "archive_id"; "replacement_identity"; "replacement_ref"; "prepared_at";
   "endpoint_descriptor_hash"; "migration_file_digest"; "schema_revision"; "migration_apply_receipt_digest";
   "applied_at"].
Definition trial_invalid (message : string) : ApiError := unprocessable "migration_trial_proof_invalid" message.

(** The migration, its archive, and what the trial adds to the evidence. *)
Record TrialReceipt := {
  tp_migration : Uuid; tp_archive : Uuid; tp_identity : Uuid; tp_ref : string; tp_apply_receipt : string;
}.
Definition trial_proved o (p : CompletionProof) : res ApiError TrialReceipt :=
  let v := pr_object p in
  let body := os_body (do_spec o) in
  res_bind (guard_err (negb (has_exactly TRIAL_FIELDS v))
    (trial_invalid "the database worker may report only the bounded prepared-trial receipt")) (fun _ =>
  res_bind (ok_or (body_migration body) internal) (fun migration =>
  res_bind (spec_archive o) (fun archive =>
  res_bind (guard_err (negb (bool_decide (proof_uuid p "migration_id" = Some migration)))
    (unprocessable "migration_receipt_mismatch" "the migration receipt does not match the operation")) (fun _ =>
  res_bind (guard_err (negb (bool_decide (proof_uuid p "archive_id" = Some archive)))
    (trial_invalid "the prepared trial does not match the exact archive")) (fun _ =>
  res_bind (ok_or (proof_uuid p "replacement_identity") (trial_invalid "replacement identity is required"))
    (fun identity =>
  res_bind (required_string v "replacement_ref" 256) (fun reference =>
  res_bind (required_timestamp v "prepared_at") (fun _ =>
  res_bind (required_sha256 v "endpoint_descriptor_hash") (fun _ =>
  res_bind (required_string v "migration_file_digest" 72) (fun file =>
  res_bind (required_string v "schema_revision" 256) (fun schema =>
  res_bind (required_string v "migration_apply_receipt_digest" 72) (fun receipt =>
  res_bind (required_timestamp v "applied_at") (fun _ =>
  res_bind (guard_err (negb (is_digest file) || negb (is_digest receipt)
                       || negb (bool_decide (body_migration_digest body = Some file))
                       || negb (bool_decide (body_candidate body = Some schema)))
    (unprocessable "migration_trial_apply_mismatch"
       "the isolated database did not apply the exact migration artifact and schema revision")) (fun _ =>
  Ok {| tp_migration := migration; tp_archive := archive; tp_identity := identity; tp_ref := reference;
        tp_apply_receipt := receipt |})))))))))))))).

(** [compatibility_evidence || receipt]. *)
Definition trial_evidence (e : CompatibilityEvidence) (x : TrialReceipt) : CompatibilityEvidence := {|
  ce_expected_digests := ce_expected_digests e; ce_identity := Some (tp_identity x);
  ce_ref := y_parse_uuid Y (tp_ref x); ce_apply_receipt := Some (tp_apply_receipt x);
  ce_expected_count := ce_expected_count e; ce_populated := ce_populated e; ce_read_ok := ce_read_ok e;
  ce_write_ok := ce_write_ok e; ce_connection := ce_connection e; ce_unchanged := ce_unchanged e |}.

Definition migration_of o (m : Migration) : bool :=
  bool_decide (mg_database m = do_database o) && bool_decide (mg_generation m = do_generation o)
  && bool_decide (mg_validation m = Some (do_id o)) && bool_decide (mg_state m = MPlanned).

Definition apply_migration_trial_success o (p : CompletionProof) : M (TbDb P) unit :=
  x <~ lift (trial_proved o p);;
  n <~ change_migration (tp_migration x)
         (fun m => migration_of o m && bool_decide (mg_account m = do_account o)
                   && bool_decide (mg_project m = do_project o) && bool_decide (mg_archive m = tp_archive x))
         (fun m => with_migration_state m MTrialPrepared (trial_evidence (mg_evidence m) x) (mg_effect m)
                     (mg_applied m));;
  exactly_one n (conflict "migration_plan_stale"
    "the planned migration is no longer bound to this trial operation").

(** The effect of a live migration happens once. *)
Definition record_migration_applied_once (migration effect : Uuid) : M (TbDb P) unit :=
  t <~ clock_timestamp;;
  n <~ change_migration migration (fun m => bool_decide (mg_state m = MIsolatedValidated))
         (fun m => with_migration_state m MApplied (mg_evidence m) (Some effect) (Some t));;
  d <~ get_db;;
  match tb_migrations d !! migration with
  | Some m =>
      if (n =? 1)%nat then
        advanced <~ update_database (mg_database m)
          (fun t => bool_decide (td_generation t = mg_generation m) && (td_source t =? mg_source m)%Z)
          (fun t => source ← bigint_succ (td_source t);
                    with_database t (td_state t) source (td_mode t) (td_measured t) (td_observed t) (td_error t)
                      (td_ready t));;
        exactly_one advanced (conflict "migration_source_generation_changed"
          "tenant data changed outside the exact isolated migration generation")
      else reject_if (negb (bool_decide (mg_state m = MApplied) && bool_decide (mg_effect m = Some effect)))
             (conflict "migration_effect_conflict" "the migration was already completed by another effect")
  | None => raise (conflict "migration_effect_conflict" "the migration was already completed by another effect")
  end.

Definition LIVE_FIELDS : list string :=
  ["migration_id"; "migration_file_digest"; "migration_apply_receipt_digest"; "schema_revision";
   "source_data_generation_before"; "source_data_generation_after"; "application_mode"; "applied_at"].
Definition live_mismatch : ApiError := unprocessable "migration_live_apply_mismatch"
  "the live apply receipt does not match the exact isolated migration plan".

Definition live_proved o (p : CompletionProof) : res ApiError Uuid :=
  let v := pr_object p in
  let body := os_body (do_spec o) in
  res_bind (guard_err (negb (has_exactly LIVE_FIELDS v)) (unprocessable "migration_live_apply_proof_invalid"
    "live migration completion requires the exact bounded apply receipt")) (fun _ =>
  res_bind (ok_or (body_migration body) internal) (fun migration =>
  res_bind (required_positive v "source_data_generation_before") (fun before =>
  res_bind (required_positive v "source_data_generation_after") (fun after =>
  res_bind (positive (body_expected_source body)) (fun expected_before =>
  res_bind (required_string v "application_mode" 32) (fun mode =>
  res_bind (guard_err (negb (bool_decide (proof_uuid p "migration_id" = Some migration))) live_mismatch) (fun _ =>
  res_bind (required_string v "migration_file_digest" 72) (fun file =>
  res_bind (required (body_migration_digest body) 72) (fun digest =>
  res_bind (guard_err (negb (bool_decide (file = digest))) live_mismatch) (fun _ =>
  res_bind (required_string v "schema_revision" 256) (fun schema =>
  res_bind (required (body_candidate body) 256) (fun candidate =>
  res_bind (guard_err (negb (bool_decide (schema = candidate))) live_mismatch) (fun _ =>
  res_bind (required_string v "migration_apply_receipt_digest" 72) (fun receipt =>
  res_bind (guard_err (negb (is_digest receipt) || negb (before =? expected_before)%Z
                       || negb (after =? wrap_i64 (before + 1))%Z || negb (one_of mode ["applied"; "already_applied"]))
    live_mismatch) (fun _ =>
  res_bind (required_timestamp v "applied_at") (fun _ => Ok migration)))))))))))))))).

Definition apply_live_migration_success o (p : CompletionProof) : M (TbDb P) unit :=
  migration <~ lift (live_proved o p);;
  record_migration_applied_once migration (do_id o).

(** ** Deletion of expired archives *)

Definition deletion_proved o (p : CompletionProof) : res ApiError Uuid :=
  let v := pr_object p in
  res_bind (spec_archive o) (fun archive =>
  res_bind (guard_err (negb (bool_decide (proof_uuid p "archive_id" = Some archive))
                       || negb (is_set v "authenticated") || negb (is_set v "deleted"))
    (unprocessable "archive_deletion_proof_invalid"
       "archive deletion requires authenticated exact-object proof")) (fun _ =>
  res_bind (sha256_text (body_encrypted (os_body (do_spec o)))) (fun expected =>
  res_bind (required_sha256 v "encrypted_sha256") (fun encrypted =>
  res_bind (guard_err (negb (bool_decide (encrypted = expected)))
    (unprocessable "archive_deletion_digest_mismatch" "archive deletion proof digest does not match")) (fun _ =>
  Ok archive))))).

Definition apply_archive_expiry_success o (p : CompletionProof) : M (TbDb P) unit :=
  archive <~ lift (deletion_proved o p);;
  _ <~ update_archive archive
         (fun a => archive_for o a && one_of (ax_state a) [ArUsable; ArCorrupt; ArExpired])
         (fun a => archive_in a ArDeleted);;
  tret tt.

(** ** Failures *)

Definition update_reservation (id : Uuid) (cond : Reservation -> bool) (f : Reservation -> Reservation)
    : M (TbDb P) unit :=
  d <~ get_db;;
  r <~ sql (update_pk reservation_check cond (fun x => Some (f x)) id (x_reservations (tb_tables d)));;
  put_db (set_reservations r.1 d).
Definition retained_reservation (r : Reservation) : Reservation := {|
  rv_id := rv_id r; rv_account := rv_account r; rv_project := rv_project r; rv_first := rv_first r;
  rv_entitlement := rv_entitlement r; rv_pool := rv_pool r; rv_hold := rv_hold r; rv_epoch := rv_epoch r;
  rv_state := ResourcesRetained; rv_reason := Some "tenant_database"; rv_observation := rv_observation r;
  rv_released := rv_released r |}.
Definition update_project (id : Uuid) (cond : Project -> bool) (f : Project -> option Project)
    : M (TbDb P) unit :=
  d <~ get_db;;
  r <~ sql (update_pk project_check cond f id (x_projects (tb_tables d)));;
  put_db (set_projects r.1 d).
Definition retained_project (p : Project) : option Project :=
  revision ← bigint_succ (pj_revision p);
  Some {| pj_account := pj_account p; pj_slots := 1; pj_slot_state := SResourcesRetained;
          pj_config := pj_config p; pj_revision := revision |}.

(** A failed provisioning whose resources remain: the slot stays taken. *)
Definition retain_resources o (code : string) : M (TbDb P) unit :=
  _ <~ update_database (do_database o) (database_for o)
         (fun t => database_in t DbFailedResourcesRetained (Some code) (td_ready t));;
  d <~ get_db;;
  match databases d !! do_database o with
  | Some t =>
      update_reservation (td_reservation t)
        (fun r => bool_decide (rv_epoch r = td_epoch t) && negb (bool_decide (rv_state r = RReleased)))
        retained_reservation;;;
      update_project (td_project t) (fun p => bool_decide (pj_account p = td_account t)) retained_project
  | None => tret tt
  end.

Definition ARCHIVE_KINDS : list OperationKind := [BackupDaily; BackupPreMigration; Export].

Definition apply_unsuccessful_completion o (outcome : OperationOutcome) : M (TbDb P) unit :=
  let failed := bool_decide (oo_state outcome = "failed") in
  (if bool_decide (do_kind o = MigrationTrial) && failed
   then migration <~ lift (ok_or (body_migration (os_body (do_spec o))) internal);;
        _ <~ change_migration migration (migration_of o)
               (fun m => with_migration_state m MFailed (mg_evidence m) (mg_effect m) (mg_applied m));;
        tret tt
   else tret tt);;;
  (if bool_decide (do_kind o = Provision) && is_set (pr_object (oo_proof outcome)) "resources_retained"
   then retain_resources o (oo_code outcome)
   else tret tt);;;
  (match spec_recovery o with
   | Some recovery =>
       if failed && bool_decide (do_kind o = RestoreDrill)
       then _ <~ update_recovery recovery (fun _ => true) (fun r => recovery_in r RFailed (Some (oo_code outcome)));;
            tret tt
       else tret tt
   | None => tret tt
   end);;;
  match value_uuid (os_archive_id (do_spec o)) with
  | Some archive =>
      if failed && one_of (do_kind o) ARCHIVE_KINDS
      then _ <~ update_archive archive (fun a => bool_decide (ax_state a = ArCreating))
                  (fun a => archive_in a ArCorrupt);;
           tret tt
      else tret tt
  | None => tret tt
  end.

(** ** Every kind *)

Definition apply_completion o (outcome : OperationOutcome) : M (TbDb P) unit :=
  if negb (bool_decide (oo_state outcome = "succeeded")) then apply_unsuccessful_completion o outcome
  else match do_kind o with
  | Provision => apply_provision_success o (oo_proof outcome)
  | BackupDaily | BackupPreMigration | Export => apply_archive_success o (oo_proof outcome)
  | RestoreDrill => apply_recovery_success o (oo_proof outcome)
  | ObserveStorage => apply_storage_success o (oo_proof outcome)
  | MigrationTrial =>
      if bool_decide (oo_code outcome = "migration_trial_prepared")
      then apply_migration_trial_success o (oo_proof outcome)
      else raise (unprocessable "migration_trial_code_invalid"
                    "the database worker may only prepare an isolated migration trial")
  | MigrationLiveApply =>
      if bool_decide (oo_code outcome = "migration_live_applied")
      then apply_live_migration_success o (oo_proof outcome)
      else raise (unprocessable "migration_live_apply_code_invalid"
                    "the database worker must report the exact controlled live migration effect")
  | ArchiveExpire => apply_archive_expiry_success o (oo_proof outcome)
  end.

Definition outcome_byte (b : Z) : bool := ((97 <=? b) && (b <=? 122))%Z || is_ascii_digit b || (b =? ch "_")%Z.
Definition valid_completion (outcome : OperationOutcome) : bool :=
  one_of (oo_state outcome) ["succeeded"; "failed"; "retriable"]
  && negb (bool_decide (oo_code outcome = "")) && (String.length (oo_code outcome) <=? 96)%nat
  && forallb outcome_byte (as_bytes (oo_code outcome))
  && negb (is_none (pr_object (oo_proof outcome))) && (pr_size (oo_proof outcome) <=? 64 * 1024)%Z.
End Completion.
