(* ===== verification/Tenants.v ===== *)
(** * Tenant databases (crates/control/src/tenant_databases.rs)

    What owners ask of their databases (creation, exports, recovery drills), what the
    scheduler enqueues, and the leases under which a worker carries the operations out. *)

From stdpp Require Import base list option gmap strings pretty sorting.
From Stdlib Require Import ZArith Lia Ascii.
From S2P Require Import Prelude RustText Bytes PgTx Intent Secrets Admission PolicyClock.
From S2P Require Import ProjectContract ExecutionTables BuildTables Credentials RuntimeEvidence Runtime.
From S2P Require Import ReleaseTables ReleaseEvidence ReleaseReceipts Migrations Releases TenantTables TenantCompletion.

Local Open Scope string_scope.
Local Open Scope list_scope.

Definition EXPORT_TTL_HOURS : Z := 24.
Definition MAX_WORKER_KINDS : nat := 16.
Definition MAX_CREDENTIAL_IDS : nat := 8.

(** ** Requests and responses *)

Record OperationLease := { olr_operation : DatabaseOperation; olr_attempt : AttemptLease }.
Record OperationRenewal := { orn_operation : Uuid; orn_attempt : Uuid; orn_fence : Z; orn_expires : Z }.
Record OperationCredential := {
  ocr_id : Uuid; ocr_purpose : CredentialPurpose; ocr_role : string; ocr_value : bytes;
}.
Record OperationEffect := { oef_id : Uuid; oef_kind : OperationKind; oef_created : bool }.
Record OperationCompletion := { ocp_operation : DatabaseOperation; ocp_effect : OperationEffect }.
Record SchedulerResponse := {
  scr_policy : Z; scr_daily : nat; scr_storage : nat; scr_drills : nat; scr_expired : nat;
}.
Record DatabaseLeaseRequest := { dlr_worker : string; dlr_kinds : list string }.
Record CredentialsRequest := { crq_live : LeaseIdentity; crq_ids : list Uuid }.
Record OperationRequest := { orq_live : LeaseIdentity; orq_outcome : OperationOutcome }.

Definition operation_fenced : ApiError :=
  conflict "database_operation_fenced" "the database operation lease is no longer current".
Definition payload_changed : ApiError := conflict "idempotency_payload_changed"
  "the idempotency key was already used with a different payload".
Definition backup_unavailable (message : string) : ApiError := conflict "backup_unavailable" message.
Definition recovery_scheduled : ApiError := conflict "recovery_already_scheduled"
  "this database already has a recovery drill in the policy week".
Definition kinds_invalid (message : string) : ApiError := unprocessable "invalid_operation_kinds" message.

(** ** Validation *)

Definition valid_database_worker (value : string) : res ApiError unit :=
  guard_err (bool_decide (value = "") || (128 <? String.length value)%nat
             || negb (forallb is_ascii_graphic (as_bytes value)))
    (unprocessable "invalid_worker_id" "worker_id must contain 1 to 128 graphic bytes").

Definition OPERATION_KINDS : list (string * OperationKind) :=
  [("provision", Provision); ("backup_daily", BackupDaily); ("backup_pre_migration", BackupPreMigration);
   ("export", Export); ("restore_drill", RestoreDrill); ("observe_storage", ObserveStorage);
   ("migration_trial", MigrationTrial); ("migration_live_apply", MigrationLiveApply);
   ("archive_expire", ArchiveExpire)].
Definition kind_of_text (s : string) : option OperationKind :=
  snd <$> List.find (fun p => bool_decide (p.1 = s)) OPERATION_KINDS.

Definition validate_kinds (kinds : list string) : res ApiError (list OperationKind) :=
  res_bind (guard_err (bool_decide (kinds = []) || (MAX_WORKER_KINDS <? length kinds)%nat)
    (kinds_invalid "one or more bounded operation kinds are required")) (fun _ =>
  res_bind (guard_err (negb (forallb (fun k => negb (is_none (kind_of_text k))) kinds)
                       || negb (bool_decide (NoDup kinds)))
    (kinds_invalid "operation kinds must be unique supported values")) (fun _ =>
  Ok (omap kind_of_text kinds))).

(** The limits of the configuration: the last limit of each resource counts. *)
Definition limit_amount (r : ResourceKind) (spec : StandardProjectSpec) : option Z :=
  fold_left (fun found l => if bool_decide (resource l = r) then amount l else found)
    (limits (resources spec)) None.
Definition configuration_invalid (message : string) : ApiError :=
  unprocessable "invalid_database_configuration" message.
Definition project_database_limits (spec : StandardProjectSpec) : res ApiError (Z * Z) :=
  res_bind (guard_err (negb (bool_decide (limit_amount DatabaseConnections spec = Some APPLICATION_CONNECTION_LIMIT)))
    (configuration_invalid "the database connection limit is missing or unsupported")) (fun _ =>
  res_bind (guard_err (negb (bool_decide (limit_amount DatabaseStorage spec = Some 1%Z)))
    (configuration_invalid "the database storage limit is missing or unsupported")) (fun _ =>
  Ok (APPLICATION_CONNECTION_LIMIT, STORAGE_LIMIT_BYTES))).

(** Days since 1970-01-01, a Thursday. *)
Definition date_naive (t : Z) : Z := (t / DAY)%Z.
Definition week_start (date : Z) : Z := (date - (date + 3) mod 7)%Z.

Section Tenants.
Context (Y : ReleaseExternals) (N : TenantExternals) (st : ReleaseConfig) {P : Type}.
Implicit Types (d : TbDb P) (o : DatabaseOperation) (t : TenantDatabase).

Notation m3 := (rg_m3 st).
Notation parse := (y_parse_uuid Y).

(** ** Queries *)

(** [max] ignores NULL. *)
Definition max_of {A} (f : A -> option Z) (rows : gmap Uuid A) : option Z :=
  map_fold (fun _ a m => match f a, m with
                         | Some v, Some w => Some (Z.max v w)
                         | Some v, None => Some v
                         | None, m => m
                         end) None rows.

Definition last_usable_backup d t : option Z :=
  max_of (fun a => _ ← where_ (bool_decide (ax_database a = td_id t) && bool_decide (ax_generation a = td_generation t)
                               && bool_decide (ax_kind a = ArDaily) && bool_decide (ax_state a = ArUsable));
                   ax_snapshot a) (tb_archives d).
Definition last_drill d t : option Z :=
  max_of (fun r => _ ← where_ (bool_decide (rc_database r = td_id t) && bool_decide (rc_generation r = td_generation t)
                               && one_of (rc_state r) [RValidated; RCleaned]);
                   rc_validated r) (tb_recoveries d).

Definition owned_database (account project : Uuid) t : bool :=
  bool_decide (td_account t = account) && bool_decide (td_project t = project) && live_database t.

(** At most one row: tenant_databases_one_live_service_idx. *)
Definition fetch_database_by_service d (account project service : Uuid) : option TenantDatabase :=
  select_first (fun _ t => owned_database account project t && bool_decide (td_service t = service)) any_order
    (databases d).
Definition fetch_database_by_id d (account project id : Uuid) : option TenantDatabase :=
  t ← databases d !! id; _ ← where_ (owned_database account project t); Some t.
Definition into_record d t : res ApiError TenantDatabaseRecord :=
  database_record t (last_usable_backup d t) (last_drill d t).

Definition fetch_archive d (account project id : Uuid) : option Archive :=
  a ← tb_archives d !! id;
  _ ← where_ (bool_decide (ax_account a = account) && bool_decide (ax_project a = project)); Some a.
Definition fetch_recovery d (account project id : Uuid) : option Recovery :=
  r ← tb_recoveries d !! id;
  _ ← where_ (bool_decide (rc_account r = account) && bool_decide (rc_project r = project)); Some r.

(** The digest and the object of a usable archive. *)
Definition archive_worker_metadata d (id : Uuid) : res ApiError (string * string) :=
  ok_or (a ← tb_archives d !! id; _ ← where_ (bool_decide (ax_state a = ArUsable));
         encrypted ← ax_encrypted a; object ← ax_object a; Some (encrypted, object))
    (backup_unavailable "the selected backup has no authenticated object receipt").

(** ** Inserts *)

Definition insert_database t : M (TbDb P) unit :=
  d <~ get_db;;
  rows <~ sql (insert_pk (fun r => database_check r && database_unique (databases d) r) (td_id t) t (databases d));;
  put_db (set_databases rows d).

Definition insert_credential (c : DatabaseCredential) : M (TbDb P) unit :=
  d <~ get_db;;
  rows <~ sql (insert_pk (fun r => credential_check r && credential_unique (tb_credentials d) r) (dc_id c) c
                 (tb_credentials d));;
  put_db (set_credentials rows d).

(** [None] when a unique constraint is violated. *)
Definition insert_recovery (r : Recovery) : M (TbDb P) (option unit) :=
  d <~ get_db;;
  _ <~ sql (where_ (recovery_check r));;
  match insert_pk (recovery_unique (tb_recoveries d)) (rc_id r) r (tb_recoveries d) with
  | Some rows => put_db (set_recoveries rows d);;; tret (Some tt)
  | None => tret None
  end.

Definition create_credential (account project database generation : Uuid) (purpose : CredentialPurpose)
    (role database_ref : string) : M (TbDb P) Uuid :=
  key <~ lift (ok_or (rg_key st) foundation_unavailable);;
  credential <~ new_uuid;;
  seed <~ new_uuid;;
  let plaintext := n_credential_json N database_ref role (n_password N seed) in
  let aad := credential_aad (y_uuid_text Y) account project database generation (purpose_text purpose) credential in
  nonce_seed <~ new_uuid;;
  x <~ lift (ok_or (n_seal N nonce_seed (key_bytes key) aad plaintext) foundation_unavailable);;
  let '(nonce, ciphertext, tag) := x in
  insert_credential {|
    dc_id := credential; dc_account := account; dc_project := project; dc_database := database;
    dc_generation := generation; dc_purpose := purpose; dc_role := role; dc_status := CActive;
    dc_key_version := key_version key; dc_nonce := nonce; dc_ciphertext := ciphertext; dc_tag := tag |};;;
  tret credential.

(** ** Creation *)

(** The configuration is the project's current one and has the database; the revision of
    the project and the specification. *)
Definition eligible d (account project deployment : Uuid) (q : CreateDatabaseRequest)
    : option (Z * StandardProjectSpec) :=
  p ← x_projects (tb_tables d) !! project;
  c ← tb_configurations d !! cdq_config q;
  s ← tb_service_configurations d !! (cdq_config q, cdq_service q);
  dp ← x_deployments (tb_tables d) !! deployment;
  r ← x_reservations (tb_tables d) !! cdq_reservation q;
  _ ← where_ (bool_decide (pj_account p = account) && bool_decide (pj_config p = Some (cdq_config q))
              && bool_decide (cn_account c = account) && bool_decide (cn_project c = project)
              && bool_decide (sc_account s = account) && bool_decide (sc_project s = project)
              && bool_decide (sc_kind s = "postgres")
              && bool_decide (dp_account dp = account) && bool_decide (dp_project dp = project)
              && bool_decide (dp_config dp = cdq_config q)
              && bool_decide (rv_account r = account) && bool_decide (rv_project r = project)
              && bool_decide (rv_epoch r = cdq_epoch q) && negb (bool_decide (rv_state r = RReleased)));
  Some (pj_revision p, cn_spec c).

Definition new_database (id generation account project deployment : Uuid) (q : CreateDatabaseRequest)
    (limits : Z * Z) (created : Z) : TenantDatabase := {|
  td_id := id; td_account := account; td_project := project; td_service := cdq_service q;
  td_config := cdq_config q; td_deployment := deployment; td_reservation := cdq_reservation q;
  td_epoch := cdq_epoch q; td_generation := generation; td_state := ProvisionRequested;
  td_connections := limits.1; td_limit := limits.2; td_ref := y_uuid_text Y id; td_source := 1;
  td_mode := Writable; td_measured := None; td_observed := None; td_revision := 1; td_error := None;
  td_created := created; td_ready := None |}.

Definition create_database_rows (account project deployment : Uuid) (q : CreateDatabaseRequest)
    (limits : Z * Z) (policy : Z) : M (TbDb P) Uuid :=
  id <~ new_uuid;;
  generation <~ new_uuid;;
  runtime <~ new_uuid;;
  migration <~ new_uuid;;
  backup <~ new_uuid;;
  created <~ clock_timestamp;;
  let text := y_uuid_text Y in
  insert_database (new_database id generation account project deployment q limits created);;;
  c1 <~ create_credential account project id generation RuntimePurpose (text runtime) (text id);;
  c2 <~ create_credential account project id generation MigrationPurpose (text migration) (text id);;
  c3 <~ create_credential account project id generation BackupPurpose (text backup) (text id);;
  operation <~ new_uuid;;
  in_rl (insert_operation (queued_operation operation account project id generation Provision "initial"
    {| os_recovery_id := None; os_archive_id := None; os_replacement_ref := None;
       os_body := ProvisionBody (text id) (text runtime) (text migration) (text backup) id limits.1 limits.2 |}
    [c1; c2; c3] policy));;;
  tret id.

Definition create_database (caller : Authenticated) (project_id deployment_id : string) (headers : Headers)
    (q : CreateDatabaseRequest) : M (TbDb P) (Answer TenantDatabaseRecord) :=
  _ <~ lift (require_enabled m3);;
  let account := account_id caller in
  project <~ lift (path_uuid parse project_id);;
  deployment <~ lift (path_uuid parse deployment_id);;
  expected <~ lift (if_match_revision headers);;
  key <~ lift (idempotency_key headers);;
  let operation := "tenant_database.create/" +:+ y_uuid_text Y project +:+ "/" +:+ y_uuid_text Y deployment in
  let hash := n_database_hash N q in
  policy <~ policy_now m3;;
  transaction (
    stored <~ replay database_of account operation key hash;;
    match stored with
    | Match record => tret (Ok (Found record))
    | Changed => raise payload_changed
    | Miss =>
        d <~ get_db;;
        x <~ lift (ok_or (eligible d account project deployment q) not_found);;
        reject_if (negb (x.1 =? expected)%Z) stale_revision;;;
        limits <~ lift (project_database_limits x.2);;
        match fetch_database_by_service d account project (cdq_service q) with
        | Some t =>
            record <~ lift (into_record d t);;
            store_replay account operation key hash 201 (DatabaseResponse record);;;
            tret (Ok (Found record))
        | None =>
            id <~ create_database_rows account project deployment q limits policy;;
            d' <~ get_db;;
            t <~ lift (ok_or (fetch_database_by_id d' account project id) internal);;
            record <~ lift (into_record d' t);;
            audit account (session_id caller) "tenant_database.create" "tenant_database" (Some id) "queued";;;
            store_replay account operation key hash 201 (DatabaseResponse record);;;
            tret (Ok (Created record))
        end
    end).

Definition get_database (caller : Authenticated) (project_id service_id : string)
    : M (TbDb P) TenantDatabaseRecord :=
  _ <~ lift (require_enabled m3);;
  let account := account_id caller in
  project <~ lift (path_uuid parse project_id);;
  service <~ lift (path_uuid parse service_id);;
  transaction (
    d <~ get_db;;
    t <~ lift (ok_or (fetch_database_by_service d account project service) not_found);;
    record <~ lift (into_record d t);;
    audit account (session_id caller) "tenant_database.read" "tenant_database" (Some (td_id t)) "success";;;
    tret (Ok record)).

(** ** Archives *)

Definition archive_newest_first (a b : Archive) : Prop :=
  (ax_created b < ax_created a)%Z \/ ax_created a = ax_created b /\ (ax_id b <= ax_id a)%N.
#[local] Instance archive_newest_first_dec a b : Decision (archive_newest_first a b).
Proof. unfold archive_newest_first. apply _. Defined.

Fixpoint archive_records (rows : list Archive) : res ApiError (list ArchiveRecord) :=
  match rows with
  | [] => Ok []
  | a :: rest => res_bind (archive_record a) (fun r => res_bind (archive_records rest) (fun l => Ok (r :: l)))
  end.

Definition list_backups (caller : Authenticated) (project_id service_id : string)
    : M (TbDb P) (list ArchiveRecord) :=
  _ <~ lift (require_enabled m3);;
  let account := account_id caller in
  project <~ lift (path_uuid parse project_id);;
  service <~ lift (path_uuid parse service_id);;
  d <~ get_db;;
  t <~ lift (ok_or (fetch_database_by_service d account project service) not_found);;
  d <~ get_db;;
  lift (archive_records (firstn 100 (merge_sort archive_newest_first (filter (fun a =>
    bool_decide (ax_account a = account) && bool_decide (ax_project a = project)
    && bool_decide (ax_database a = td_id t) && negb (bool_decide (ax_kind a = ArExport)) = true)
    (map snd (map_to_list (tb_archives d))))))).

Definition new_archive (id account project database generation : Uuid) (kind : ArchiveKind)
    (scheduled : option Z) (source expires created : Z) : Archive := {|
  ax_id := id; ax_account := account; ax_project := project; ax_database := database;
  ax_generation := generation; ax_kind := kind; ax_state := ArCreating; ax_scheduled := scheduled;
  ax_intended := None; ax_source := source; ax_object := None; ax_format := None; ax_key := None;
  ax_plain := None; ax_encrypted := None; ax_plain_bytes := None; ax_encrypted_bytes := None;
  ax_snapshot := None; ax_verified := None; ax_expires := expires; ax_created := created |}.
Definition archive_spec (database id : Uuid) (kind : string) (scheduled : option Z) (intended : option string)
    (source expires : Z) : OperationSpec := {|
  os_recovery_id := None; os_archive_id := Some (y_uuid_text Y id); os_replacement_ref := None;
  os_body := ArchiveBody kind (repository_namespace Y database) scheduled intended source expires |}.

Definition create_export (caller : Authenticated) (project_id service_id : string) (headers : Headers)
    : M (TbDb P) (Answer ArchiveRecord) :=
  _ <~ lift (require_enabled m3);;
  let account := account_id caller in
  project <~ lift (path_uuid parse project_id);;
  service <~ lift (path_uuid parse service_id);;
  expected <~ lift (if_match_revision headers);;
  key <~ lift (idempotency_key headers);;
  policy <~ policy_now m3;;
  let operation := "tenant_database.export.create/" +:+ y_uuid_text Y project +:+ "/" +:+ y_uuid_text Y service in
  let hash := n_export_hash N in
  transaction (
    stored <~ replay archive_of account operation key hash;;
    match stored with
    | Match record => tret (Ok (Created record))
    | Changed => raise payload_changed
    | Miss =>
        d <~ get_db;;
        t <~ lift (ok_or (fetch_database_by_service d account project service) not_found);;
        reject_if (negb (td_revision t =? expected)%Z) stale_revision;;;
        reject_if (negb (one_of (td_state t) [DbReady; RecoveryAttention]))
          (conflict "tenant_database_not_ready" "the tenant database is not ready for export");;;
        archive <~ new_uuid;;
        created <~ clock_timestamp;;
        let expires := (policy + EXPORT_TTL_HOURS * HOUR)%Z in
        in_rl (insert_archive (new_archive archive account project (td_id t) (td_generation t) ArExport None
                                 (td_source t) expires created));;;
        credential <~ lift (active_credential_id (tb_rl d) (td_id t) BackupPurpose);;
        op <~ new_uuid;;
        in_rl (insert_operation (queued_operation op account project (td_id t) (td_generation t) Export
          (y_uuid_text Y archive) (archive_spec (td_id t) archive "export" None None (td_source t) expires)
          [credential] policy));;;
        d' <~ get_db;;
        a <~ lift (ok_or (fetch_archive d' account project archive) internal);;
        record <~ lift (archive_record a);;
        audit account (session_id caller) "tenant_database.export.create" "tenant_database_archive"
          (Some archive) "queued";;;
        store_replay account operation key hash 201 (ArchiveResponse record);;;
        tret (Ok (Created record))
    end).

Definition export_of (t : TenantDatabase) (service : Uuid) (a : Archive) : bool :=
  bool_decide (td_account t = ax_account a) && bool_decide (td_project t = ax_project a)
  && bool_decide (td_service t = service) && bool_decide (ax_kind a = ArExport).

Definition get_export (caller : Authenticated) (project_id service_id archive_id : string)
    : M (TbDb P) ArchiveRecord :=
  _ <~ lift (require_enabled m3);;
  project <~ lift (path_uuid parse project_id);;
  service <~ lift (path_uuid parse service_id);;
  archive <~ lift (path_uuid parse archive_id);;
  d <~ get_db;;
  a <~ lift (ok_or (a ← fetch_archive d (account_id caller) project archive;
                    t ← databases d !! ax_database a; _ ← where_ (export_of t service a); Some a) not_found);;
  lift (archive_record a).

(** ** Recovery drills *)

Definition new_recovery (id account project database generation archive : Uuid) (week created : Z) : Recovery := {|
  rc_id := id; rc_account := account; rc_project := project; rc_database := database;
  rc_generation := generation; rc_archive := archive; rc_state := RRequested; rc_week := week;
  rc_replacement_ref := None; rc_replacement_identity := None; rc_restored := None; rc_validated := None;
  rc_elapsed := None; rc_error := None; rc_created := created |}.
Definition recovery_spec (database recovery archive : Uuid) (encrypted : string) (object : option string)
    : OperationSpec := {|
  os_recovery_id := Some (y_uuid_text Y recovery); os_archive_id := Some (y_uuid_text Y archive);
  os_replacement_ref := Some (y_uuid_text Y recovery);
  os_body := RestoreBody (repository_namespace Y database) (Some encrypted) object |}.

Definition restorable (t : TenantDatabase) (a : Archive) (policy : Z) : bool :=
  bool_decide (ax_database a = td_id t) && bool_decide (ax_generation a = td_generation t)
  && bool_decide (ax_state a = ArUsable) && negb (bool_decide (ax_kind a = ArExport))
  && (policy <=? ax_expires a)%Z.

(** The archive named by the request is its argument. *)
Definition create_recovery (caller : Authenticated) (project_id service_id : string) (headers : Headers)
    (archive : Uuid) : M (TbDb P) (Answer RecoveryRecord) :=
  _ <~ lift (require_enabled m3);;
  let account := account_id caller in
  project <~ lift (path_uuid parse project_id);;
  service <~ lift (path_uuid parse service_id);;
  expected <~ lift (if_match_revision headers);;
  key <~ lift (idempotency_key headers);;
  policy <~ policy_now m3;;
  let operation := "tenant_database.recovery.create/" +:+ y_uuid_text Y project +:+ "/" +:+ y_uuid_text Y service in
  let hash := n_recovery_hash N archive in
  transaction (
    stored <~ replay recovery_of account operation key hash;;
    match stored with
    | Match record => tret (Ok (Created record))
    | Changed => raise payload_changed
    | Miss =>
        d <~ get_db;;
        t <~ lift (ok_or (fetch_database_by_service d account project service) not_found);;
        reject_if (negb (td_revision t =? expected)%Z) stale_revision;;;
        a <~ lift (ok_or (fetch_archive d account project archive) not_found);;
        reject_if (negb (restorable t a policy))
          (backup_unavailable "the selected backup is not usable for this database");;;
        metadata <~ lift (archive_worker_metadata d archive);;
        recovery <~ new_uuid;;
        created <~ clock_timestamp;;
        inserted <~ insert_recovery (new_recovery recovery account project (td_id t) (td_generation t) archive
                                       (week_start (date_naive policy)) created);;
        reject_if (is_none inserted) recovery_scheduled;;;
        credentials <~ lift (active_credential_ids (tb_rl d) (td_id t));;
        op <~ new_uuid;;
        in_rl (insert_operation (queued_operation op account project (td_id t) (td_generation t) RestoreDrill
          (y_uuid_text Y recovery) (recovery_spec (td_id t) recovery archive metadata.1 (Some metadata.2))
          credentials policy));;;
        d' <~ get_db;;
        r <~ lift (ok_or (fetch_recovery d' account project recovery) internal);;
        record <~ lift (recovery_record r);;
        audit account (session_id caller) "tenant_database.recovery.create" "tenant_database_recovery"
          (Some recovery) "queued";;;
        store_replay account operation key hash 201 (RecoveryResponse record);;;
        tret (Ok (Created record))
    end).

Definition get_recovery (caller : Authenticated) (project_id service_id recovery_id : string)
    : M (TbDb P) RecoveryRecord :=
  _ <~ lift (require_enabled m3);;
  project <~ lift (path_uuid parse project_id);;
  service <~ lift (path_uuid parse service_id);;
  recovery <~ lift (path_uuid parse recovery_id);;
  d <~ get_db;;
  r <~ lift (ok_or (r ← fetch_recovery d (account_id caller) project recovery;
                    t ← databases d !! rc_database r; _ ← where_ (bool_decide (td_service t = service)); Some r)
               not_found);;
  lift (recovery_record r).
End Tenants.
