(* ===== verification/TenantLeases.v ===== *)
(** * The scheduler and the leases of tenant databases (crates/control/src/tenant_databases.rs)

    What a tick of the scheduler enqueues, and the leases under which a worker carries
    the operations out. *)

From stdpp Require Import base list option gmap strings pretty sorting.
From Stdlib Require Import ZArith Lia Ascii.
From S2P Require Import Prelude RustText Bytes PgTx Intent Secrets Admission PolicyClock.
From S2P Require Import ProjectContract ExecutionTables BuildTables Credentials RuntimeEvidence Runtime.
From S2P Require Import ReleaseTables ReleaseEvidence ReleaseReceipts Migrations Releases TenantTables TenantCompletion Tenants.

Local Open Scope string_scope.
Local Open Scope list_scope.

Definition attempt_state_text (s : AttemptState) : string :=
  match s with
  | AtRunning => "running" | AtSucceeded => "succeeded" | AtFailed => "failed"
  | AtRetriable => "retriable" | AtExpired => "expired"
  end.
(** The states of a completion. *)
Definition completed_attempt (state : string) : AttemptState :=
  if bool_decide (state = "succeeded") then AtSucceeded
  else if bool_decide (state = "failed") then AtFailed else AtRetriable.
Definition completed_operation (state : string) : OperationState :=
  if bool_decide (state = "succeeded") then OSucceeded
  else if bool_decide (state = "failed") then OFailed else ORetriable.

Definition with_operation (o : DatabaseOperation) (state : OperationState) (proof : option OperationProof)
    (attempts : Z) (current : option Uuid) (fence : Z) (lease : option Z) : DatabaseOperation := {|
  do_id := do_id o; do_account := do_account o; do_project := do_project o; do_database := do_database o;
  do_generation := do_generation o; do_kind := do_kind o; do_state := state; do_key := do_key o;
  do_spec := do_spec o; do_proof := proof; do_credentials := do_credentials o; do_attempts := attempts;
  do_current := current; do_fence := fence; do_lease := lease; do_policy := do_policy o;
  do_created := do_created o |}.
(** No attempt is current any more. *)
Definition ended_operation (o : DatabaseOperation) (state : OperationState) (proof : option OperationProof)
    : DatabaseOperation := with_operation o state proof (do_attempts o) None (do_fence o) None.

Definition with_operation_attempt (a : OperationAttempt) (state : AttemptState) (lease : Z)
    (finished : option Z) (code : option string) (hash : option bytes) : OperationAttempt := {|
  oa_id := oa_id a; oa_operation := oa_operation a; oa_number := oa_number a; oa_fence := oa_fence a;
  oa_worker := oa_worker a; oa_state := state; oa_started := oa_started a; oa_lease := lease;
  oa_finished := finished; oa_code := code; oa_hash := hash |}.

Section Leases.
Context (Y : ReleaseExternals) (N : TenantExternals) (st : ReleaseConfig) {P : Type}.
Implicit Types (d : TbDb P) (o : DatabaseOperation) (t : TenantDatabase).

Notation m3 := (rg_m3 st).
Notation parse := (y_parse_uuid Y).

(** ** The scheduler *)

Fixpoint each {A} (f : A -> M (TbDb P) unit) (l : list A) : M (TbDb P) unit :=
  match l with [] => tret tt | a :: rest => f a;;; each f rest end.
(** How many of two kinds were enqueued. *)
Fixpoint each_count {A} (f : A -> M (TbDb P) (nat * nat)) (l : list A) : M (TbDb P) (nat * nat) :=
  match l with
  | [] => tret (0, 0)
  | a :: rest => n <~ f a;; m <~ each_count f rest;; tret (n.1 + m.1, n.2 + m.2)
  end.

(** [ON CONFLICT (tenant_database_id,database_generation,scheduled_for) WHERE kind='daily'
    DO NOTHING]: whether the row was inserted. *)
Definition insert_daily (a : Archive) : M (TbDb P) bool :=
  d <~ get_db;;
  _ <~ sql (where_ (archive_check a));;
  if archive_unique (tb_archives d) a
  then rows <~ sql (insert_pk (fun _ => true) (ax_id a) a (tb_archives d));;
       put_db (set_tb_archives rows d);;; tret true
  else tret false.

(** [ON CONFLICT (tenant_database_id,database_generation,kind,operation_key) DO NOTHING]. *)
Definition insert_operation_once (row : Z -> DatabaseOperation) : M (TbDb P) bool :=
  created <~ clock_timestamp;;
  let o := row created in
  d <~ get_db;;
  _ <~ sql (where_ (operation_check o));;
  if operation_unique (tb_operations d) o
  then rows <~ sql (insert_pk (fun _ => true) (do_id o) o (tb_operations d));;
       put_db (set_tb_operations rows d);;; tret true
  else tret false.

(** The active credentials by the name of their purpose; one of each is required. *)
Definition active_rows d (database : Uuid) : list DatabaseCredential :=
  flat_map (fun purpose => filter (fun c => active_credential database purpose c = true)
                             (map snd (map_to_list (tb_credentials d))))
    [BackupPurpose; MigrationPurpose; RuntimePurpose].
Definition role_of (purpose : CredentialPurpose) (rows : list DatabaseCredential) : res ApiError string :=
  ok_or (last (map dc_role (filter (fun c => dc_purpose c = purpose) rows))) foundation_unavailable.
Definition active_credential_scope d (database : Uuid) : res ApiError (list Uuid * (string * string * string)) :=
  let rows := active_rows d database in
  res_bind (guard_err (negb (length rows =? 3)%nat) foundation_unavailable) (fun _ =>
  res_bind (role_of RuntimePurpose rows) (fun runtime =>
  res_bind (role_of MigrationPurpose rows) (fun migration =>
  res_bind (role_of BackupPurpose rows) (fun backup =>
  Ok (map dc_id rows, (runtime, migration, backup)))))).

Definition served (t : TenantDatabase) : bool := one_of (td_state t) [DbReady; RecoveryAttention].
Definition database_id_order (a b : TenantDatabase) : Prop := (td_id a <= td_id b)%N.
#[local] Instance database_id_order_dec a b : Decision (database_id_order a b).
Proof. unfold database_id_order. apply _. Defined.
Definition served_databases d : list TenantDatabase :=
  merge_sort database_id_order (filter (fun t => served t = true) (map snd (map_to_list (databases d)))).

(** The daily backup and the hourly observation of a database. *)
Definition tick_daily (policy : Z) (t : TenantDatabase) : M (TbDb P) bool :=
  archive <~ new_uuid;;
  created <~ clock_timestamp;;
  let date := date_naive policy in
  let expires := (policy + BACKUP_RETENTION_DAYS * DAY)%Z in
  inserted <~ insert_daily (new_archive archive (td_account t) (td_project t) (td_id t) (td_generation t)
                              ArDaily (Some date) (td_source t) expires created);;
  if inserted : bool then
    d <~ get_db;;
    credential <~ lift (active_credential_id (tb_rl d) (td_id t) BackupPurpose);;
    operation <~ new_uuid;;
    in_rl (insert_operation (queued_operation operation (td_account t) (td_project t) (td_id t)
      (td_generation t) BackupDaily (n_date_text N date)
      (archive_spec Y (td_id t) archive "daily" (Some date) None (td_source t) expires) [credential] policy));;;
    tret true
  else tret false.

Definition tick_storage (policy : Z) (t : TenantDatabase) : M (TbDb P) bool :=
  d <~ get_db;;
  scope <~ lift (active_credential_scope d (td_id t));;
  let '(credentials, (runtime, migration, backup)) := scope in
  operation <~ new_uuid;;
  insert_operation_once (queued_operation operation (td_account t) (td_project t) (td_id t) (td_generation t)
    ObserveStorage (n_hour_text N policy)
    {| os_recovery_id := None; os_archive_id := None; os_replacement_ref := None;
       os_body := StorageBody (td_limit t) runtime migration backup |} credentials policy).

Definition tick_database (policy : Z) (t : TenantDatabase) : M (TbDb P) (nat * nat) :=
  daily <~ tick_daily policy t;;
  storage <~ tick_storage policy t;;
  tret (Nat.b2n daily, Nat.b2n storage).

(** Archives that have expired and that no operation deletes yet. *)
Definition expiry_order (a b : Archive) : Prop :=
  (ax_expires a < ax_expires b)%Z \/ ax_expires a = ax_expires b /\ (ax_id a <= ax_id b)%N.
#[local] Instance expiry_order_dec a b : Decision (expiry_order a b).
Proof. unfold expiry_order. apply _. Defined.
Definition deletion_requested d (a : Archive) : bool :=
  exists_row (fun o => bool_decide (do_database o = ax_database a) && bool_decide (do_generation o = ax_generation a)
                       && bool_decide (do_kind o = ArchiveExpire)
                       && bool_decide (do_key o = y_uuid_text Y (ax_id a))) (tb_operations d).
Definition to_expire d (policy : Z) (a : Archive) : bool :=
  one_of (ax_state a) [ArUsable; ArCorrupt] && (ax_expires a <? policy)%Z && negb (is_none (ax_object a))
  && negb (is_none (ax_encrypted a)) && negb (deletion_requested d a).
Definition expired_archives d (policy : Z) : list Archive :=
  merge_sort expiry_order (filter (fun a => to_expire d policy a = true) (map snd (map_to_list (tb_archives d)))).

Definition tick_expired (policy : Z) (a : Archive) : M (TbDb P) unit :=
  archive <~ lift (ok_or (parse (y_uuid_text Y (ax_id a))) internal);;
  operation <~ new_uuid;;
  in_rl (insert_operation (queued_operation operation (ax_account a) (ax_project a) (ax_database a)
    (ax_generation a) ArchiveExpire (y_uuid_text Y archive)
    {| os_recovery_id := None; os_archive_id := Some (y_uuid_text Y archive); os_replacement_ref := None;
       os_body := ExpireBody (repository_namespace Y (ax_database a)) (ax_object a) (ax_encrypted a)
                    (ax_generation a) (ax_expires a) |} [] policy)).

(** [ORDER BY snapshot_at DESC,id DESC]. *)
Definition newer_snapshot (a b : Archive) : bool :=
  match ax_snapshot a, ax_snapshot b with
  | None, None => (ax_id b <=? ax_id a)%N
  | None, Some _ => true
  | Some _, None => false
  | Some s, Some u => (u <? s)%Z || (u =? s)%Z && (ax_id b <=? ax_id a)%N
  end.
Definition drillable (policy : Z) t (_ : Uuid) (a : Archive) : bool :=
  bool_decide (ax_database a = td_id t) && bool_decide (ax_generation a = td_generation t)
  && bool_decide (ax_kind a = ArDaily) && bool_decide (ax_state a = ArUsable) && (policy <=? ax_expires a)%Z
  && negb (is_none (ax_encrypted a)).
Definition drilled_in_week d (week : Z) t : bool :=
  exists_row (fun r => bool_decide (rc_database r = td_id t) && bool_decide (rc_generation r = td_generation t)
                       && (rc_week r =? week)%Z) (tb_recoveries d).

Record DrillCandidate := { dr_database : TenantDatabase; dr_archive : Uuid; dr_encrypted : string; dr_last : option Z }.
Definition drill_candidate d (policy week : Z) t : option DrillCandidate :=
  _ ← where_ (served t && negb (drilled_in_week d week t));
  a ← select_first (drillable policy t) newer_snapshot (tb_archives d);
  encrypted ← ax_encrypted a;
  Some {| dr_database := t; dr_archive := ax_id a; dr_encrypted := encrypted; dr_last := last_drill d t |}.

(** [ORDER BY (last drill) NULLS FIRST,id]. *)
Definition drill_key_le (a b : option Z) : Prop :=
  match a, b with None, _ => True | Some _, None => False | Some v, Some w => (v <= w)%Z end.
Definition drill_order (a b : DrillCandidate) : Prop :=
  (drill_key_le (dr_last a) (dr_last b) /\ dr_last a <> dr_last b)
  \/ dr_last a = dr_last b /\ (td_id (dr_database a) <= td_id (dr_database b))%N.
#[local] Instance drill_order_dec a b : Decision (drill_order a b).
Proof. unfold drill_order, drill_key_le. destruct (dr_last a), (dr_last b); apply _. Defined.

(** [div_ceil(4).max(usize::from(n > 0))]. *)
Definition drill_budget (n : nat) : nat :=
  Nat.max (Nat.div (n + 3) 4) (Nat.b2n (0 <? n)%nat).
Definition drill_candidates d (policy week : Z) (budget : nat) : list DrillCandidate :=
  firstn budget (merge_sort drill_order
    (omap (fun kt => drill_candidate d policy week kt.2) (map_to_list (databases d)))).

Definition tick_drill (policy week : Z) (c : DrillCandidate) : M (TbDb P) unit :=
  let t := dr_database c in
  recovery <~ new_uuid;;
  created <~ clock_timestamp;;
  inserted <~ insert_recovery (new_recovery recovery (td_account t) (td_project t) (td_id t) (td_generation t)
                                 (dr_archive c) week created);;
  _ <~ sql inserted;;
  d <~ get_db;;
  credentials <~ lift (active_credential_ids (tb_rl d) (td_id t));;
  operation <~ new_uuid;;
  in_rl (insert_operation (queued_operation operation (td_account t) (td_project t) (td_id t) (td_generation t)
    RestoreDrill (y_uuid_text Y recovery) (recovery_spec Y (td_id t) recovery (dr_archive c) (dr_encrypted c) None)
    credentials policy)).

Definition scheduler_tick : M (TbDb P) SchedulerResponse :=
  _ <~ lift (require_enabled m3);;
  policy <~ policy_now m3;;
  let week := week_start (date_naive policy) in
  transaction (
    d <~ get_db;;
    let served := served_databases d in
    counts <~ each_count (tick_database policy) served;;
    d <~ get_db;;
    let expired := expired_archives d policy in
    each (tick_expired policy) expired;;;
    d <~ get_db;;
    let candidates := drill_candidates d policy week (drill_budget (length served)) in
    each (tick_drill policy week) candidates;;;
    tret (Ok {| scr_policy := policy; scr_daily := counts.1; scr_storage := counts.2;
                scr_drills := length candidates; scr_expired := length expired |})).

(** ** Leases *)

Definition update_operation (id : Uuid) (cond : DatabaseOperation -> bool)
    (f : DatabaseOperation -> DatabaseOperation) : M (TbDb P) nat :=
  d <~ get_db;;
  r <~ sql (update_pk operation_check cond (fun o => Some (f o)) id (tb_operations d));;
  put_db (set_tb_operations r.1 d);;; tret r.2.
Definition update_operation_attempt (id : Uuid) (cond : OperationAttempt -> bool)
    (f : OperationAttempt -> OperationAttempt) : M (TbDb P) unit :=
  d <~ get_db;;
  r <~ sql (update_pk operation_attempt_check cond (fun a => Some (f a)) id (tb_attempts d));;
  put_db (set_tb_attempts r.1 d).
Definition insert_operation_attempt (a : OperationAttempt) : M (TbDb P) unit :=
  d <~ get_db;;
  rows <~ sql (insert_pk (fun a => operation_attempt_check a && operation_attempt_unique (tb_attempts d) a)
                 (oa_id a) a (tb_attempts d));;
  put_db (set_tb_attempts rows d).

Definition operation_id_order (a b : DatabaseOperation) : Prop := (do_id a <= do_id b)%N.
#[local] Instance operation_id_order_dec a b : Decision (operation_id_order a b).
Proof. unfold operation_id_order. apply _. Defined.

Definition operation_over (now : Z) o : bool :=
  bool_decide (do_state o = ORunning) && is_some_and (fun l => l <=? now)%Z (do_lease o).
Definition expired_operations d (now : Z) (locked : Uuid -> bool) : list DatabaseOperation :=
  firstn 64 (merge_sort operation_id_order (filter (fun o =>
    operation_over now o && negb (locked (do_id o)) = true) (map snd (map_to_list (tb_operations d))))).

Definition attempts_exhausted o : bool := (MAX_OPERATION_ATTEMPTS <=? do_attempts o)%Z.

Definition reap_operation o : M (TbDb P) unit :=
  attempt <~ sql (do_current o);;
  finished <~ clock_timestamp;;
  update_operation_attempt attempt
    (fun a => bool_decide (oa_operation a = do_id o) && bool_decide (oa_state a = AtRunning))
    (fun a => with_operation_attempt a AtExpired (oa_lease a) (Some finished) (Some "lease_expired") (oa_hash a));;;
  _ <~ update_operation (do_id o) (fun _ => true) (fun r =>
    if attempts_exhausted o then ended_operation r OFailed (Some (stored_code "attempts_exhausted"))
    else ended_operation r ORetriable (do_proof r));;
  tret tt.

Definition reap_expired_operations : M (TbDb P) unit :=
  now <~ clock_timestamp;;
  locked <~ locked_rows;;
  d <~ get_db;;
  each reap_operation (expired_operations d now locked).

Definition waiting (kinds : list OperationKind) (locked : Uuid -> bool) (_ : Uuid) o : bool :=
  one_of (do_state o) [OQueued; ORetriable] && one_of (do_kind o) kinds && negb (locked (do_id o)).
Definition operation_created_le (a b : DatabaseOperation) : bool :=
  (do_created a <? do_created b)%Z || (do_created a =? do_created b)%Z && (do_id a <=? do_id b)%N.
Definition next_operation d (kinds : list OperationKind) (locked : Uuid -> bool) : option DatabaseOperation :=
  select_first (waiting kinds locked) operation_created_le (tb_operations d).

Definition leased_operation o (attempt : Uuid) (fence expires : Z) : DatabaseOperation :=
  with_operation o ORunning (do_proof o) (do_attempts o + 1) (Some attempt) fence (Some expires).

(** The work has begun: the database is being provisioned, or the copy restored. *)
Definition mark_begun o : M (TbDb P) unit :=
  if bool_decide (do_kind o = Provision) then
    _ <~ update_database (do_database o) (fun t => bool_decide (td_state t = ProvisionRequested))
           (fun t => database_in t Provisioning (td_error t) (td_ready t));;
    tret tt
  else match spec_recovery Y o with
  | Some recovery =>
      if bool_decide (do_kind o = RestoreDrill) then
        _ <~ update_recovery recovery (fun r => bool_decide (rc_state r = RRequested))
               (fun r => recovery_in r RRestoring (rc_error r));;
        tret tt
      else tret tt
  | None => tret tt
  end.

Definition start_operation o (worker : string) : M (TbDb P) OperationLease :=
  attempt <~ new_uuid;;
  let number := (do_attempts o + 1)%Z in
  let fence := wrap_i64 (do_fence o + 1) in
  started <~ clock_timestamp;;
  now <~ clock_timestamp;;
  let expires := (now + rg_lease_seconds st * MICROS)%Z in
  insert_operation_attempt {|
    oa_id := attempt; oa_operation := do_id o; oa_number := number; oa_fence := fence; oa_worker := worker;
    oa_state := AtRunning; oa_started := started; oa_lease := expires; oa_finished := None; oa_code := None;
    oa_hash := None |};;;
  _ <~ update_operation (do_id o) (fun _ => true) (fun r => leased_operation r attempt fence expires);;
  mark_begun o;;;
  record <~ lift (operation_record (leased_operation o attempt fence expires));;
  tret {| olr_operation := record;
          olr_attempt := {| atl_id := attempt; atl_number := number; atl_fence := fence; atl_worker := worker;
                            atl_expires := expires |} |}.

Definition lease_operation (q : DatabaseLeaseRequest) : M (TbDb P) (option OperationLease) :=
  _ <~ lift (require_enabled m3);;
  _ <~ lift (valid_database_worker (dlr_worker q));;
  kinds <~ lift (validate_kinds (dlr_kinds q));;
  transaction (
    reap_expired_operations;;;
    locked <~ locked_rows;;
    d <~ get_db;;
    match next_operation d kinds locked with
    | None => tret (Ok None)
    | Some o =>
        if attempts_exhausted o then
          _ <~ update_operation (do_id o) (fun _ => true) (fun r =>
                 with_operation r OFailed (Some (stored_code "attempts_exhausted")) (do_attempts r)
                   (do_current r) (do_fence r) (do_lease r));;
          tret (Ok None)
        else
          response <~ start_operation o (dlr_worker q);;
          tret (Ok (Some response))
    end).

(** The attempt of a worker at an operation. *)
Definition own_attempt d (id : Uuid) (q : LeaseIdentity) : option OperationAttempt :=
  a ← tb_attempts d !! lid_attempt q;
  _ ← where_ (bool_decide (oa_operation a = id) && (oa_fence a =? lid_fence q)%Z
              && bool_decide (oa_worker a = lid_worker q));
  Some a.

(** The lease of the worker is current. *)
Definition live_operation d (id : Uuid) (q : LeaseIdentity) (now : Z) : option DatabaseOperation :=
  o ← tb_operations d !! id;
  a ← own_attempt d id q;
  _ ← where_ (bool_decide (do_state o = ORunning) && bool_decide (do_current o = Some (lid_attempt q))
              && (do_fence o =? lid_fence q)%Z && bool_decide (oa_state a = AtRunning)
              && is_some_and (fun l => now <? l)%Z (do_lease o) && (now <? oa_lease a)%Z);
  Some o.

Definition renew_operation (operation_id : string) (q : LeaseIdentity) : M (TbDb P) OperationRenewal :=
  _ <~ lift (require_enabled m3);;
  _ <~ lift (valid_database_worker (lid_worker q));;
  id <~ lift (path_uuid parse operation_id);;
  reject_if (lid_fence q <=? 0)%Z operation_fenced;;;
  transaction (
    now <~ clock_timestamp;;
    d <~ get_db;;
    o <~ lift (ok_or (live_operation d id q now) operation_fenced);;
    let expires := (now + rg_lease_seconds st * MICROS)%Z in
    _ <~ update_operation id (fun _ => true) (fun r =>
           with_operation r (do_state r) (do_proof r) (do_attempts r) (do_current r) (do_fence r) (Some expires));;
    update_operation_attempt (lid_attempt q)
      (fun a => bool_decide (oa_operation a = id) && (oa_fence a =? lid_fence q)%Z)
      (fun a => with_operation_attempt a (oa_state a) expires (oa_finished a) (oa_code a) (oa_hash a));;;
    tret (Ok {| orn_operation := id; orn_attempt := lid_attempt q; orn_fence := lid_fence q;
                orn_expires := expires |})).

(** ** Credentials *)

Definition credential_id_order (a b : DatabaseCredential) : Prop := (dc_id a <= dc_id b)%N.
#[local] Instance credential_id_order_dec a b : Decision (credential_id_order a b).
Proof. unfold credential_id_order. apply _. Defined.

Definition operation_credential o (ids : list Uuid) (c : DatabaseCredential) : bool :=
  bool_decide (dc_account c = do_account o) && bool_decide (dc_project c = do_project o)
  && bool_decide (dc_database c = do_database o) && bool_decide (dc_generation c = do_generation o)
  && one_of (dc_id c) ids && bool_decide (dc_status c = CActive).
Definition credential_rows d o (ids : list Uuid) : list DatabaseCredential :=
  merge_sort credential_id_order (filter (fun c => operation_credential o ids c = true)
    (map snd (map_to_list (tb_credentials d)))).

Definition open_operation_credential (key : SecretKey) o (c : DatabaseCredential) : res ApiError OperationCredential :=
  res_bind (guard_err (negb (bool_decide (dc_key_version c = key_version key))) foundation_unavailable) (fun _ =>
  let aad := credential_aad (y_uuid_text Y) (do_account o) (do_project o) (do_database o) (do_generation o)
               (purpose_text (dc_purpose c)) (dc_id c) in
  res_bind (ok_or (decrypt (y_aead Y) key aad (dc_nonce c) (dc_ciphertext c) (dc_tag c)) foundation_unavailable)
    (fun plaintext =>
  res_bind (guard_err (negb (utf8_valid plaintext)) foundation_unavailable) (fun _ =>
  Ok {| ocr_id := dc_id c; ocr_purpose := dc_purpose c; ocr_role := dc_role c; ocr_value := plaintext |}))).
Fixpoint open_operation_credentials (key : SecretKey) o (rows : list DatabaseCredential)
    : res ApiError (list OperationCredential) :=
  match rows with
  | [] => Ok []
  | c :: rest =>
      res_bind (open_operation_credential key o c) (fun x =>
      res_bind (open_operation_credentials key o rest) (fun l => Ok (x :: l)))
  end.

Definition resolve_credentials (operation_id : string) (q : CredentialsRequest)
    : M (TbDb P) (list OperationCredential) :=
  let live := crq_live q in
  _ <~ lift (require_enabled m3);;
  _ <~ lift (valid_database_worker (lid_worker live));;
  id <~ lift (path_uuid parse operation_id);;
  reject_if ((lid_fence live <=? 0)%Z || (MAX_CREDENTIAL_IDS <? length (crq_ids q))%nat) operation_fenced;;;
  reject_if (negb (bool_decide (NoDup (crq_ids q))))
    (unprocessable "invalid_credential_request" "credential identifiers must be unique");;;
  transaction (
    now <~ clock_timestamp;;
    d <~ get_db;;
    o <~ lift (ok_or (live_operation d id live now) operation_fenced);;
    reject_if (negb (forallb (fun c => one_of c (do_credentials o)) (crq_ids q))) not_found;;;
    key <~ lift (ok_or (rg_key st) foundation_unavailable);;
    let rows := credential_rows d o (crq_ids q) in
    reject_if (negb (length rows =? length (crq_ids q))%nat) not_found;;;
    credentials <~ lift (open_operation_credentials key o rows);;
    tret (Ok credentials)).

(** ** Completions *)

Definition invalid_database_completion : ApiError :=
  unprocessable "invalid_database_completion" "the completion outcome is invalid".

Definition finish_operation o (q : LeaseIdentity) (outcome : OperationOutcome) (hash : bytes) : M (TbDb P) unit :=
  apply_completion Y N o outcome;;;
  finished <~ clock_timestamp;;
  update_operation_attempt (lid_attempt q)
    (fun a => bool_decide (oa_operation a = do_id o) && (oa_fence a =? lid_fence q)%Z)
    (fun a => with_operation_attempt a (completed_attempt (oo_state outcome)) (oa_lease a) (Some finished)
                (Some (oo_code outcome)) (Some hash));;;
  _ <~ update_operation (do_id o) (fun _ => true) (fun r =>
         ended_operation r (completed_operation (oo_state outcome))
           (Some (stored_proof (oo_code outcome) (oo_proof outcome))));;
  tret tt.

Definition completed_before (a : OperationAttempt) (outcome : OperationOutcome) (hash : bytes) : bool :=
  bool_decide (oa_hash a = Some hash) && bool_decide (attempt_state_text (oa_state a) = oo_state outcome).

Definition complete_operation (operation_id : string) (q : OperationRequest) : M (TbDb P) OperationCompletion :=
  let live := orq_live q in
  let outcome := orq_outcome q in
  _ <~ lift (require_enabled m3);;
  _ <~ lift (valid_database_worker (lid_worker live));;
  reject_if (negb (valid_completion outcome)) invalid_database_completion;;;
  id <~ lift (path_uuid parse operation_id);;
  reject_if (lid_fence live <=? 0)%Z operation_fenced;;;
  let hash := n_outcome_hash N outcome in
  transaction (
    d <~ get_db;;
    o <~ lift (ok_or (tb_operations d !! id) operation_fenced);;
    if bool_decide (do_current o = Some (lid_attempt live)) && (do_fence o =? lid_fence live)%Z
       && bool_decide (do_state o = ORunning)
    then
      now <~ clock_timestamp;;
      reject_if (negb (is_some_and (fun a => bool_decide (oa_state a = AtRunning) && (now <? oa_lease a)%Z)
                         (own_attempt d id live))) operation_fenced;;;
      finish_operation o live outcome hash;;;
      d' <~ get_db;;
      o' <~ lift (ok_or (tb_operations d' !! id) internal);;
      record <~ lift (operation_record o');;
      tret (Ok {| ocp_operation := record;
                  ocp_effect := {| oef_id := id; oef_kind := do_kind o; oef_created := true |} |})
    else
      reject_if (negb (is_some_and (fun a => completed_before a outcome hash) (own_attempt d id live)))
        operation_fenced;;;
      record <~ lift (operation_record o);;
      tret (Ok {| ocp_operation := record;
                  ocp_effect := {| oef_id := id; oef_kind := do_kind o; oef_created := false |} |})).
End Leases.
