(* ===== verification/TenantLedger.v ===== *)
(** * What tenant databases do to the ledger of admission

    Tenant databases share the tables of reservations and of projects.  They write them in
    one place: when a provisioning fails and leaves resources behind, its reservation is
    retained, unless it was released, and the slot of its project taken ([retains]). *)

From stdpp Require Import base list option gmap strings relations sorting.
From Stdlib Require Import ZArith Lia Ascii.
From S2P Require Import Prelude RustText Bytes PgTx Intent Secrets Admission AdmissionSpec AdmissionFrame PolicyClock.
From S2P Require Import ProjectContract ExecutionTables BuildTables Credentials RuntimeEvidence Runtime.
From S2P Require Import ReleaseTables ReleaseEvidence ReleaseReceipts Migrations Releases.
From S2P Require Import TableHistory TenantTables TenantCompletion Tenants TenantLeases.

Local Open Scope string_scope.
Local Open Scope list_scope.

(** The two tables. *)
Definition SlotTables : Type := gmap Uuid Reservation * gmap Uuid Project.
Definition slot_tables {P} (b : TbDb P) : SlotTables := (x_reservations (tb_tables b), x_projects (tb_tables b)).

Inductive retain_step (s s' : SlotTables) : Prop :=
| retain_reservation id r :
    s.1 !! id = Some r -> not_released r = true -> s' = (<[id := retained_reservation r]> s.1, s.2) -> retain_step s s'
| retain_project p x x' :
    s.2 !! p = Some x -> retained_project x = Some x' -> project_check x' = true ->
    s' = (s.1, <[p := x']> s.2) -> retain_step s s'.

Section Retains.
Context {P : Type}.
Implicit Types (b : TbDb P).

Definition retains b b' : Prop := rtc retain_step (slot_tables b) (slot_tables b').
#[export] Instance retains_preorder : PreOrder retains.
Proof. split; [intros b; apply rtc_refl|]. intros b1 b2 b3 H1 H2. unfold retains in *. by etrans. Qed.

Lemma retains_same b b' : slot_tables b' = slot_tables b -> retains b b'.
Proof. unfold retains. by intros ->. Qed.
End Retains.

(** A statement either fails and changes nothing, or puts another table. *)
Ltac retains_nothing :=
  intros ? ? ? ?;
  unfold in_rl, zoom, tbind, get_db, sql, put_db, raise, tret, clock_timestamp, new_uuid;
  repeat case_match; intros; simplify_eq; try done; by apply retains_same.

Section Statements.
Context {P : Type}.
Notation retains := (retains (P := P)).

Lemma insert_database_retains t : keeps retains (insert_database t).
Proof. unfold insert_database. retains_nothing. Qed.
Lemma insert_credential_retains c : keeps retains (insert_credential c).
Proof. unfold insert_credential. retains_nothing. Qed.
Lemma insert_recovery_retains r : keeps retains (insert_recovery r).
Proof. unfold insert_recovery. retains_nothing. Qed.
Lemma insert_archive_retains a : keeps retains (in_rl (insert_archive a)).
Proof. unfold insert_archive. retains_nothing. Qed.
Lemma insert_operation_retains row : keeps retains (in_rl (insert_operation row)).
Proof. unfold insert_operation. retains_nothing. Qed.
Lemma insert_daily_retains a : keeps retains (insert_daily a).
Proof. unfold insert_daily. retains_nothing. Qed.
Lemma insert_once_retains row : keeps retains (insert_operation_once row).
Proof. unfold insert_operation_once. retains_nothing. Qed.
Lemma insert_operation_attempt_retains a : keeps retains (insert_operation_attempt a).
Proof. unfold insert_operation_attempt. retains_nothing. Qed.
Lemma update_operation_attempt_retains id cond f : keeps retains (update_operation_attempt id cond f).
Proof. unfold update_operation_attempt. retains_nothing. Qed.
Lemma update_operation_retains id cond f : keeps retains (update_operation id cond f).
Proof. unfold update_operation. retains_nothing. Qed.
Lemma update_database_retains id cond f : keeps retains (update_database id cond f).
Proof. unfold update_database. retains_nothing. Qed.
Lemma update_archive_retains id cond f : keeps retains (update_archive id cond f).
Proof. unfold update_archive. retains_nothing. Qed.
Lemma update_recovery_retains id cond f : keeps retains (update_recovery id cond f).
Proof. unfold update_recovery. retains_nothing. Qed.
Lemma change_migration_retains id cond f : keeps retains (change_migration id cond f).
Proof. unfold change_migration, update_migration. retains_nothing. Qed.
Lemma tb_replay_retains actor operation key hash status (r : TenantResponse) :
  keeps retains (store_replay (D := TbDb P) actor operation key hash status r).
Proof. unfold store_replay. retains_nothing. Qed.
Lemma tb_audit_retains actor session et tt ti oc : keeps retains (audit (D := TbDb P) actor session et tt ti oc).
Proof. unfold audit. retains_nothing. Qed.
Lemma tb_clock_retains generation now : keeps retains (upsert_clock (D := TbDb P) generation now).
Proof. unfold upsert_clock. retains_nothing. Qed.

(** The two statements on the shared tables. *)
Lemma update_reservation_retains id (epoch : Uuid) :
  keeps retains (update_reservation id
    (fun r => bool_decide (rv_epoch r = epoch) && negb (bool_decide (rv_state r = RReleased))) retained_reservation).
Proof.
  intros env w x w'. unfold update_reservation, tbind, get_db, sql, put_db, tret, raise.
  destruct (update_pk _ _ _ _ _) as [[t n]|] eqn:E; intros [= _ <-]; [|done].
  apply update_pk_Some in E as [(-> & _)|(_ & r & r' & Hr & Hc & [= <-] & _ & ->)]; [by apply retains_same|].
  apply andb_true_iff in Hc as [_ Hc]. apply rtc_once. by eapply retain_reservation.
Qed.
Lemma update_project_retains id cond : keeps retains (update_project id cond retained_project).
Proof.
  intros env w x w'. unfold update_project, tbind, get_db, sql, put_db, tret, raise.
  destruct (update_pk _ _ _ _ _) as [[t n]|] eqn:E; intros [= _ <-]; [|done].
  apply update_pk_Some in E as [(-> & _)|(_ & r & r' & Hr & _ & Hf & Hk & ->)]; [by apply retains_same|].
  apply rtc_once. by eapply retain_project.
Qed.
Lemma each_retains {A} (f : A -> M (TbDb P) unit) l : (forall a, keeps retains (f a)) -> keeps retains (each f l).
Proof.
  intros Hf. induction l as [|a l IH]; cbn [each]; [by keeps_ro|]. by apply keeps_bind; [apply _|..].
Qed.
Lemma each_count_retains {A} (f : A -> M (TbDb P) (nat * nat)) l : (forall a, keeps retains (f a)) ->
  keeps retains (each_count f l).
Proof.
  intros Hf. induction l as [|a l IH]; cbn [each_count]; [by keeps_ro|].
  apply keeps_bind; [apply _|apply Hf|]. intros n. apply keeps_bind; [apply _|exact IH|]. intros m. by keeps_ro.
Qed.
Lemma retains_atomic {A} (m : M (TbDb P) (res ApiError A)) : keeps retains m -> keeps retains (transaction m).
Proof. intros Hm. apply keeps_transaction; [apply _|]. intros env w r w'. apply Hm. Qed.
End Statements.

Create HintDb retains.
#[export] Hint Resolve insert_database_retains insert_credential_retains insert_recovery_retains insert_archive_retains
  insert_operation_retains insert_daily_retains insert_once_retains insert_operation_attempt_retains
  update_operation_attempt_retains update_operation_retains update_database_retains update_archive_retains
  update_recovery_retains change_migration_retains tb_replay_retains tb_audit_retains tb_clock_retains
  update_reservation_retains update_project_retains : retains.

Ltac retains_steps :=
  repeat (intros; lazymatch goal with
  | |- keeps _ (let _ := _ in _) => cbv zeta
  | |- keeps _ (tbind (lift _) _) => apply keeps_lift; [apply _|intros ? ?]
  | |- keeps _ (tbind (reject_if _ _) _) => apply keeps_reject; [apply _|intros ?]
  | |- keeps _ (tbind _ _) => apply keeps_bind; [apply _|first [keeps_ro|solve [auto with retains]|idtac]|intros ?]
  | |- keeps _ (transaction _) => apply retains_atomic
  | |- keeps _ (each _ _) => apply each_retains
  | |- keeps _ (each_count _ _) => apply each_count_retains
  | |- keeps _ ?m =>
      first [ keeps_ro | solve [auto with retains]
            | match m with context [match ?x with _ => _ end] => destruct x end ]
  end).

(** ** Handlers *)

Section Handlers.
Context {P : Type}.
Context (Y : ReleaseExternals) (N : TenantExternals) (st : ReleaseConfig).
Notation retains := (retains (P := P)).

Lemma tb_policy_now_retains m3 : keeps retains (policy_now (D := TbDb P) m3).
Proof. unfold policy_now, policy_time. retains_steps. Qed.
#[local] Hint Resolve tb_policy_now_retains : retains.

Lemma create_database_retains caller project deployment headers q :
  keeps retains (create_database Y N st caller project deployment headers q).
Proof. unfold create_database, replay, create_database_rows, create_credential. retains_steps. Qed.
Lemma get_database_retains caller project service : keeps retains (get_database Y st caller project service).
Proof. unfold get_database. retains_steps. Qed.
Lemma list_backups_retains caller project service : keeps retains (list_backups Y st caller project service).
Proof. unfold list_backups. retains_steps. Qed.
Lemma create_export_retains caller project service headers :
  keeps retains (create_export Y N st caller project service headers).
Proof. unfold create_export, replay. retains_steps. Qed.
Lemma get_export_retains caller project service archive : keeps retains (get_export Y st caller project service archive).
Proof. unfold get_export. retains_steps. Qed.
Lemma create_recovery_retains caller project service headers archive :
  keeps retains (create_recovery Y N st caller project service headers archive).
Proof. unfold create_recovery, replay. retains_steps. Qed.
Lemma get_recovery_retains caller project service recovery :
  keeps retains (get_recovery Y st caller project service recovery).
Proof. unfold get_recovery. retains_steps. Qed.
Lemma scheduler_tick_retains : keeps retains (scheduler_tick Y N st).
Proof. unfold scheduler_tick, tick_database, tick_daily, tick_storage, tick_expired, tick_drill. retains_steps. Qed.
Lemma lease_operation_retains q : keeps retains (lease_operation Y st q).
Proof.
  unfold lease_operation, reap_expired_operations, reap_operation, start_operation, mark_begun. retains_steps.
Qed.
Lemma renew_operation_retains id q : keeps retains (renew_operation Y st id q).
Proof. unfold renew_operation. retains_steps. Qed.
Lemma operation_credentials_retains id q : keeps retains (resolve_credentials Y st id q).
Proof. unfold resolve_credentials. retains_steps. Qed.

Lemma unsuccessful_retains o outcome : keeps retains (apply_unsuccessful_completion Y o outcome).
Proof. unfold apply_unsuccessful_completion, retain_resources. retains_steps. Qed.
#[local] Hint Resolve unsuccessful_retains : retains.
Lemma live_migration_retains o p : keeps retains (apply_live_migration_success Y N o p).
Proof. unfold apply_live_migration_success, record_migration_applied_once, exactly_one. retains_steps. Qed.
#[local] Hint Resolve live_migration_retains : retains.
Lemma apply_completion_retains o outcome : keeps retains (apply_completion Y N o outcome).
Proof.
  unfold apply_completion, apply_provision_success, apply_archive_success, apply_recovery_success,
    apply_storage_success, apply_migration_trial_success, apply_archive_expiry_success, exactly_one. retains_steps.
Qed.
#[local] Hint Resolve apply_completion_retains : retains.
Lemma complete_operation_retains id q : keeps retains (complete_operation Y N st id q).
Proof. unfold complete_operation, finish_operation. retains_steps. Qed.

(** One request to tenant databases served, whatever its result. *)
Inductive database_request (env : Env) (w w' : World (TbDb P)) : Prop :=
| dq_create caller project deployment headers q r :
    create_database Y N st caller project deployment headers q env w = (r, w') -> database_request env w w'
| dq_get caller project service r : get_database Y st caller project service env w = (r, w') -> database_request env w w'
| dq_backups caller project service r : list_backups Y st caller project service env w = (r, w') -> database_request env w w'
| dq_create_export caller project service headers r :
    create_export Y N st caller project service headers env w = (r, w') -> database_request env w w'
| dq_export caller project service archive r :
    get_export Y st caller project service archive env w = (r, w') -> database_request env w w'
| dq_create_recovery caller project service headers archive r :
    create_recovery Y N st caller project service headers archive env w = (r, w') -> database_request env w w'
| dq_recovery caller project service recovery r :
    get_recovery Y st caller project service recovery env w = (r, w') -> database_request env w w'
| dq_tick r : scheduler_tick Y N st env w = (r, w') -> database_request env w w'
| dq_lease q r : lease_operation Y st q env w = (r, w') -> database_request env w w'
| dq_renew id q r : renew_operation Y st id q env w = (r, w') -> database_request env w w'
| dq_credentials id q r : resolve_credentials Y st id q env w = (r, w') -> database_request env w w'
| dq_complete id q r : complete_operation Y N st id q env w = (r, w') -> database_request env w w'.

Lemma database_request_retains env w w' : database_request env w w' -> retains (db w) (db w').
Proof.
  intros []; lazymatch goal with H : _ = (_, _) |- _ => revert H end; intros Hm.
  - by eapply create_database_retains.
  - by eapply get_database_retains.
  - by eapply list_backups_retains.
  - by eapply create_export_retains.
  - by eapply get_export_retains.
  - by eapply create_recovery_retains.
  - by eapply get_recovery_retains.
  - by eapply scheduler_tick_retains.
  - by eapply lease_operation_retains.
  - by eapply renew_operation_retains.
  - by eapply operation_credentials_retains.
  - by eapply complete_operation_retains.
Qed.
End Handlers.
