(* ===== verification/TenantSpec.v ===== *)
(** * What tenant databases promise

    Rows are never deleted, and each moves along the life cycle of its table: a database
    that became read-only stays so, an archive's receipt never changes, an operation ends
    once and its attempts and fences only go up, a migration is applied once.  The source
    generation of a database is one more than the migrations applied to it. *)

From stdpp Require Import base list option gmap strings relations.
From Stdlib Require Import ZArith Lia Ascii.
From S2P Require Import Prelude RustText Bytes PgTx Intent Secrets Admission PolicyClock.
From S2P Require Import ExecutionTables BuildTables RuntimeEvidence Runtime.
From S2P Require Import ReleaseTables ReleaseEvidence ReleaseReceipts Migrations Releases ReleaseSpec ReleaseSteps.
From S2P Require Import TableHistory TenantTables TenantCompletion Tenants TenantLeases.

Local Open Scope string_scope.
Local Open Scope list_scope.

(** ** Databases *)

Record same_database (t t' : TenantDatabase) : Prop := {
  sd_id : td_id t' = td_id t; sd_account : td_account t' = td_account t; sd_project : td_project t' = td_project t;
  sd_service : td_service t' = td_service t; sd_config : td_config t' = td_config t;
  sd_deployment : td_deployment t' = td_deployment t; sd_reservation : td_reservation t' = td_reservation t;
  sd_generation : td_generation t' = td_generation t; sd_limit : td_limit t' = td_limit t;
  sd_connections : td_connections t' = td_connections t; sd_ref : td_ref t' = td_ref t;
}.

Inductive database_moves : relation DatabaseState :=
| dm_same s : database_moves s s
| dm_provisioning : database_moves ProvisionRequested Provisioning
| dm_ready s : one_of s [ProvisionRequested; Provisioning] = true -> database_moves s DbReady
| dm_failed s : database_moves s DbFailedResourcesRetained.

Record database_step (t t' : TenantDatabase) : Prop := {
  ds_same : same_database t t';
  ds_state : database_moves (td_state t) (td_state t');
  ds_revision : td_revision t' = (td_revision t + 1)%Z;
  ds_source : td_source t' = td_source t \/ td_source t' = (td_source t + 1)%Z;
  ds_mode : td_mode t = ReadOnlyOverLimit -> td_mode t' = ReadOnlyOverLimit;
}.
Record database_starts (k : Uuid) (t : TenantDatabase) : Prop := {
  dn_id : td_id t = k; dn_state : td_state t = ProvisionRequested; dn_source : td_source t = 1%Z;
  dn_revision : td_revision t = 1%Z; dn_mode : td_mode t = Writable;
  dn_limit : td_limit t = STORAGE_LIMIT_BYTES; dn_connections : td_connections t = APPLICATION_CONNECTION_LIMIT;
}.

(** Credentials are inserted, and nothing else. *)
Definition credential_starts (k : Uuid) (c : DatabaseCredential) : Prop := dc_id c = k /\ dc_status c = CActive.
Definition never {A} (_ _ : A) : Prop := False.

(** ** Archives *)

Record same_archive (a a' : Archive) : Prop := {
  sa_id : ax_id a' = ax_id a; sa_account : ax_account a' = ax_account a; sa_project : ax_project a' = ax_project a;
  sa_database : ax_database a' = ax_database a; sa_generation : ax_generation a' = ax_generation a;
  sa_kind : ax_kind a' = ax_kind a; sa_scheduled : ax_scheduled a' = ax_scheduled a;
  sa_intended : ax_intended a' = ax_intended a; sa_source : ax_source a' = ax_source a;
  sa_expires : ax_expires a' = ax_expires a; sa_created : ax_created a' = ax_created a;
}.
Record same_receipt (a a' : Archive) : Prop := {
  st_object : ax_object a' = ax_object a; st_plain : ax_plain a' = ax_plain a;
  st_encrypted : ax_encrypted a' = ax_encrypted a; st_snapshot : ax_snapshot a' = ax_snapshot a;
  st_verified : ax_verified a' = ax_verified a; st_key : ax_key a' = ax_key a;
}.
Inductive archive_step (a a' : Archive) : Prop :=
| ar_completes : same_archive a a' -> ax_state a = ArCreating -> ax_state a' = ArUsable -> archive_step a a'
| ar_fails : same_archive a a' -> same_receipt a a' -> ax_state a = ArCreating -> ax_state a' = ArCorrupt ->
    archive_step a a'
| ar_deleted : same_archive a a' -> same_receipt a a' ->
    one_of (ax_state a) [ArUsable; ArCorrupt; ArExpired] = true -> ax_state a' = ArDeleted -> archive_step a a'.
Definition archive_starts (k : Uuid) (a : Archive) : Prop := ax_id a = k /\ ax_state a = ArCreating.

(** A backup of a revision and a source generation that cannot be used: it was corrupt, or
    it has been deleted since, and no other takes its place. *)
Definition backup_of (database generation : Uuid) (revision : string) (source : Z) (a : Archive) : bool :=
  bool_decide (ax_database a = database) && bool_decide (ax_generation a = generation)
  && bool_decide (ax_kind a = ArPreMigration) && bool_decide (ax_intended a = Some revision)
  && (ax_source a =? source)%Z.
Definition backup_lost (database generation : Uuid) (revision : string) (source : Z) (t : gmap Uuid Archive) : Prop :=
  (exists k a, t !! k = Some a /\ backup_of database generation revision source a = true)
  /\ forall k a, t !! k = Some a -> backup_of database generation revision source a = true ->
       one_of (ax_state a) [ArCorrupt; ArDeleted] = true.

Lemma backup_of_same database generation revision source a a' : same_archive a a' ->
  backup_of database generation revision source a' = backup_of database generation revision source a.
Proof. intros [_ _ _ E1 E2 E3 _ E4 E5 _ _]. unfold backup_of. by rewrite E1, E2, E3, E4, E5. Qed.

Lemma lost_update database generation revision source t k a a' : t !! k = Some a -> archive_step a a' ->
  backup_lost database generation revision source t -> backup_lost database generation revision source (<[k := a']> t).
Proof.
  intros Hk Hs [(j & x & Hj & Hx) Hl].
  assert (Hsame : same_archive a a') by (by destruct Hs).
  split.
  - destruct (decide (j = k)) as [->|Hne].
    + exists k, a'. rewrite lookup_insert_eq, (backup_of_same _ _ _ _ a) by done. split; congruence.
    + exists j, x. by rewrite lookup_insert_ne.
  - intros i y. rewrite lookup_insert. case_decide as E; [|apply Hl]. subst i. intros [= <-].
    rewrite (backup_of_same _ _ _ _ a) by done. intros Hb. specialize (Hl _ _ Hk Hb).
    destruct Hs as [_ E|_ _ E|_ _ _ E]; [rewrite E in Hl; by vm_compute in Hl..|by rewrite E].
Qed.

(** The unique index keeps the backup from being taken again. *)
Lemma lost_insert database generation revision source t k a :
  t !! k = None -> ax_kind a <> ArPreMigration \/ archive_unique t a = true ->
  backup_lost database generation revision source t -> backup_lost database generation revision source (<[k := a]> t).
Proof.
  intros Hk Hu [(j & x & Hj & Hx) Hl]. split.
  - exists j, x. rewrite lookup_insert_ne; [done|congruence].
  - intros i y. rewrite lookup_insert. case_decide as E; [|apply Hl]. subst i. intros [= <-] Hb. exfalso.
    unfold backup_of in *. bool_simpl. destruct Hu as [?|Hu]; [done|].
    unfold archive_unique in Hu. apply negb_true_iff in Hu. pose proof (exists_row_false _ _ Hu _ _ Hj) as Hf. cbn beta in Hf.
    repeat match goal with H : ax_kind a = _ |- _ => rewrite H in Hf; clear H end.
    rewrite !bool_decide_eq_true_2 in Hf by congruence. cbn in Hf. apply Z.eqb_neq in Hf. congruence.
Qed.

(** ** Recovery drills *)

Record same_recovery (r r' : Recovery) : Prop := {
  sc_id : rc_id r' = rc_id r; sc_database : rc_database r' = rc_database r;
  sc_generation : rc_generation r' = rc_generation r; sc_archive : rc_archive r' = rc_archive r;
  sc_week : rc_week r' = rc_week r;
}.
Inductive recovery_moves : relation RecoveryState :=
| rm_restoring : recovery_moves RRequested RRestoring
| rm_validated : recovery_moves RRestoring RValidated
| rm_failed s : recovery_moves s RFailed.
Definition recovery_step (r r' : Recovery) : Prop := same_recovery r r' /\ recovery_moves (rc_state r) (rc_state r').
Definition recovery_starts (k : Uuid) (r : Recovery) : Prop := rc_id r = k /\ rc_state r = RRequested.

(** ** Migrations *)

Record same_migration (m m' : Migration) : Prop := {
  sm_id : mg_id m' = mg_id m; sm_database : mg_database m' = mg_database m;
  sm_generation : mg_generation m' = mg_generation m; sm_revision : mg_revision m' = mg_revision m;
  sm_digest : mg_digest m' = mg_digest m; sm_source : mg_source m' = mg_source m;
  sm_archive : mg_archive m' = mg_archive m; sm_binary : mg_current_binary m' = mg_current_binary m;
}.
Inductive migration_step (m m' : Migration) : Prop :=
| mg_touch : same_migration m m' -> mg_state m = MPlanned -> mg_state m' = MPlanned -> migration_step m m'
| mg_trial : same_migration m m' -> mg_state m = MPlanned -> mg_state m' = MTrialPrepared -> migration_step m m'
| mg_fail : same_migration m m' -> mg_state m = MPlanned -> mg_state m' = MFailed -> migration_step m m'
| mg_validate : same_migration m m' -> mg_state m = MTrialPrepared -> mg_state m' = MIsolatedValidated ->
    migration_step m m'
| mg_apply e : same_migration m m' -> mg_state m = MIsolatedValidated -> mg_state m' = MApplied ->
    mg_effect m' = Some e -> migration_step m m'.
Definition migration_starts (k : Uuid) (m : Migration) : Prop := mg_id m = k /\ mg_state m = MPlanned.

(** ** Operations and their attempts *)

Record same_operation (o o' : DatabaseOperation) : Prop := {
  so_id : do_id o' = do_id o; so_account : do_account o' = do_account o; so_project : do_project o' = do_project o;
  so_database : do_database o' = do_database o; so_generation : do_generation o' = do_generation o;
  so_kind : do_kind o' = do_kind o; so_key : do_key o' = do_key o; so_spec : do_spec o' = do_spec o;
  so_credentials : do_credentials o' = do_credentials o;
}.
Definition ended_op (s : OperationState) : bool := one_of s [OSucceeded; OFailed; OCanceled].
Definition waiting_op (s : OperationState) : bool := one_of s [OQueued; ORetriable].

Inductive operation_step (o o' : DatabaseOperation) : Prop :=
| op_renew : same_operation o o' -> do_state o = ORunning -> do_state o' = ORunning ->
    do_attempts o' = do_attempts o -> do_fence o' = do_fence o -> do_current o' = do_current o ->
    operation_step o o'
| op_lease : same_operation o o' -> waiting_op (do_state o) = true -> do_state o' = ORunning ->
    (do_attempts o < MAX_OPERATION_ATTEMPTS)%Z -> do_attempts o' = (do_attempts o + 1)%Z ->
    do_fence o' = (do_fence o + 1)%Z -> (do_fence o' <= max_i64)%Z -> operation_step o o'
| op_end : same_operation o o' -> do_state o = ORunning ->
    one_of (do_state o') [ORetriable; OSucceeded; OFailed] = true -> do_attempts o' = do_attempts o ->
    do_fence o' = do_fence o -> do_current o' = None -> operation_step o o'
| op_exhausted : same_operation o o' -> waiting_op (do_state o) = true -> do_state o' = OFailed ->
    (MAX_OPERATION_ATTEMPTS <= do_attempts o)%Z -> do_attempts o' = do_attempts o -> do_fence o' = do_fence o ->
    do_current o' = do_current o -> operation_step o o'.
Record operation_starts (k : Uuid) (o : DatabaseOperation) : Prop := {
  on_id : do_id o = k; on_state : do_state o = OQueued; on_attempts : do_attempts o = 0%Z;
  on_fence : do_fence o = 0%Z; on_current : do_current o = None;
}.

Record same_attempt (a a' : OperationAttempt) : Prop := {
  se_id : oa_id a' = oa_id a; se_operation : oa_operation a' = oa_operation a; se_number : oa_number a' = oa_number a;
  se_fence : oa_fence a' = oa_fence a; se_worker : oa_worker a' = oa_worker a;
}.
Inductive attempt_step (a a' : OperationAttempt) : Prop :=
| oat_renew : same_attempt a a' -> oa_state a' = oa_state a -> oa_hash a' = oa_hash a -> attempt_step a a'
| oat_end : same_attempt a a' -> oa_state a = AtRunning -> oa_state a' <> AtRunning -> attempt_step a a'.
Definition attempt_starts (k : Uuid) (a : OperationAttempt) : Prop :=
  oa_id a = k /\ oa_state a = AtRunning /\ oa_hash a = None.

(** ** The tables that releases share *)

Section Spec.
Context {P : Type}.
Implicit Types (d : RlDb P) (b : TbDb P).

Record data_moves d d' : Prop := {
  mv_databases : evolves database_step database_starts (tenant_databases (tables d)) (tenant_databases (tables d'));
  mv_credentials : evolves never credential_starts (database_credentials (tables d)) (database_credentials (tables d'));
  mv_recoveries : evolves recovery_step recovery_starts (recoveries (tables d)) (recoveries (tables d'));
  mv_operations : evolves operation_step operation_starts (operations d) (operations d');
  mv_archives : evolves archive_step archive_starts (archives d) (archives d');
  mv_migrations : evolves migration_step migration_starts (migrations d) (migrations d');
  mv_lost : forall database generation revision source,
    backup_lost database generation revision source (archives d) ->
    backup_lost database generation revision source (archives d');
}.
#[export] Instance data_moves_preorder : PreOrder data_moves.
Proof.
  split; [by intros d; split|]. intros d1 d2 d3 [] []. split; try by etrans. auto.
Qed.

Record tb_moves b b' : Prop := {
  bm_frame : rl_frame (tb_rl b) (tb_rl b');
  bm_data : data_moves (tb_rl b) (tb_rl b');
  bm_attempts : evolves attempt_step attempt_starts (tb_attempts b) (tb_attempts b');
}.
#[export] Instance tb_moves_preorder : PreOrder tb_moves.
Proof.
  split; [by intros b; split|]. intros b1 b2 b3 [] []. split; by etrans.
Qed.

(** ** The invariant of operations *)

Record operation_ok (k : Uuid) (o : DatabaseOperation) : Prop := {
  oo_id : do_id o = k;
  oo_fence : within 0 max_i64 (do_fence o);
  oo_attempts : within 0 MAX_OPERATION_ATTEMPTS (do_attempts o);
}.
Definition data_ok d : Prop := map_Forall operation_ok (operations d).

Lemma operation_step_ok k o o' : operation_step o o' -> operation_ok k o -> operation_ok k o'.
Proof.
  intros H [Hid Hf Ha]. unfold within, MAX_OPERATION_ATTEMPTS in *.
  destruct H as [[Ei]|[Ei]|[Ei]|[Ei]]; unfold MAX_OPERATION_ATTEMPTS in *; split; try congruence;
    unfold within, MAX_OPERATION_ATTEMPTS; lia.
Qed.

Lemma data_moves_ok d d' : data_moves d d' -> data_ok d -> data_ok d'.
Proof.
  intros H Hok. refine (evolves_invariant _ _ operation_ok _ _ _ _ (mv_operations _ _ H) Hok).
  - intros k o [Ei _ Ea Ef _]. split; [done|rewrite Ef|rewrite Ea]; by vm_compute.
  - apply operation_step_ok.
Qed.

(** What has ended stays as it is. *)
Lemma ended_stays o o' : rtc operation_step o o' -> ended_op (do_state o) = true -> o' = o.
Proof.
  intros Hr. destruct Hr as [o|o o1 o' H _]; [done|]. intros He. exfalso.
  unfold ended_op, waiting_op, one_of in *.
  destruct H as [_ E|_ E|_ E|_ E]; first [rewrite E in He; by vm_compute in He|destruct (do_state o); done].
Qed.

Lemma moves_succeeded_kept d d' :
  evolves operation_step operation_starts (operations d) (operations d') -> succeeded_kept d d'.
Proof.
  intros He k (o & Ho & Hs). destruct (evolves_row _ _ _ _ _ _ He Ho) as (o' & Ho' & Hr).
  exists o'. split; [done|]. apply ended_stays in Hr as ->; [done|by rewrite Hs].
Qed.

(** ** The source generation *)

Definition applied_to (k : Uuid) (m : Migration) : bool :=
  bool_decide (mg_database m = k) && bool_decide (mg_state m = MApplied).
Record counted d : Prop := {
  ct_source : forall k t, tenant_databases (tables d) !! k = Some t ->
    td_source t = (1 + Z.of_nat (count_where (applied_to k) (migrations d)))%Z;
  ct_reference : forall j m, migrations d !! j = Some m -> is_Some (tenant_databases (tables d) !! mg_database m);
}.
Definition counts_kept d d' : Prop := counted d -> counted d'.
#[export] Instance counts_kept_preorder : PreOrder counts_kept.
Proof. unfold counts_kept. split; [by intros d|]. intros d1 d2 d3. auto. Qed.
End Spec.
