(* ===== verification/ReleaseData.v ===== *)
(** * What releases do to the tables of tenant databases

    The handlers of releases request backups, plan migrations, enqueue their trials and
    record their validation; none of them applies a migration. *)

From stdpp Require Import base list option gmap strings relations.
From Stdlib Require Import ZArith Lia Ascii.
From S2P Require Import Prelude RustText Bytes PgTx Intent Secrets Admission PolicyClock.
From S2P Require Import ExecutionTables BuildTables Credentials RuntimeEvidence Runtime.
From S2P Require Import ReleaseTables ReleaseEvidence ReleaseReceipts Migrations Releases ReleaseSpec ReleaseSteps.
From S2P Require Import TableHistory TenantTables TenantCompletion Tenants TenantLeases TenantSpec.

Local Open Scope string_scope.
Local Open Scope list_scope.

Section Counts.
Context {P : Type}.
Implicit Types d : RlDb P.

Lemma counted_same d d' : tenant_databases (tables d') = tenant_databases (tables d) -> migrations d' = migrations d ->
  counts_kept d d'.
Proof. intros E1 E2 [Hs Hr]. split; intros k x; rewrite ?E1, ?E2; [apply Hs|apply Hr]. Qed.

(** A migration changes without being applied. *)
Lemma counted_update_migration d d' k m m' : migrations d !! k = Some m ->
  migrations d' = <[k := m']> (migrations d) -> tenant_databases (tables d') = tenant_databases (tables d) ->
  mg_database m' = mg_database m -> mg_state m <> MApplied -> mg_state m' <> MApplied -> counts_kept d d'.
Proof.
  intros Hm E1 E2 Ed H H' [Hs Hr]. split; rewrite E2.
  - intros j t Ht. rewrite (Hs _ _ Ht), E1. f_equal. rewrite (count_replace _ _ _ m) by done. unfold applied_to.
    rewrite !(bool_decide_eq_false_2 (_ = MApplied)) by done. rewrite !andb_false_r. cbn. lia.
  - intros j x. rewrite E1. intros [[-> ->]|[_ Hx]]%row_after; [rewrite Ed|]; by eapply Hr.
Qed.

Lemma counted_insert_migration d d' k m t : migrations d !! k = None ->
  migrations d' = <[k := m]> (migrations d) -> tenant_databases (tables d') = tenant_databases (tables d) ->
  tenant_databases (tables d) !! mg_database m = Some t -> mg_state m <> MApplied -> counts_kept d d'.
Proof.
  intros Hm E1 E2 Ht H [Hs Hr]. split; rewrite E2.
  - intros j u Hu. rewrite (Hs _ _ Hu), E1. f_equal. rewrite count_insert_new by done. unfold applied_to.
    rewrite (bool_decide_eq_false_2 (_ = MApplied)) by done. rewrite andb_false_r. cbn. lia.
  - intros j x. rewrite E1. intros [[-> ->]|[_ Hx]]%row_after; [eauto|by eapply Hr].
Qed.

(** A database changes, and its source generation does not. *)
Lemma counted_update_database d d' k t t' : tenant_databases (tables d) !! k = Some t ->
  tenant_databases (tables d') = <[k := t']> (tenant_databases (tables d)) -> migrations d' = migrations d ->
  td_source t' = td_source t -> counts_kept d d'.
Proof.
  intros Ht E1 E2 Es [Hs Hr]. split; rewrite E1, E2.
  - intros j u [[-> ->]|[_ Hu]]%row_after; [rewrite Es|]; by apply Hs.
  - intros j m Hm. rewrite lookup_insert. case_decide; [done|by eapply Hr].
Qed.

Lemma counted_insert_database d d' k t : tenant_databases (tables d) !! k = None ->
  tenant_databases (tables d') = <[k := t]> (tenant_databases (tables d)) -> migrations d' = migrations d ->
  td_source t = 1%Z -> counts_kept d d'.
Proof.
  intros Hk E1 E2 Es [Hs Hr]. split; rewrite E1, E2.
  - intros j u [[-> ->]|[_ Hu]]%row_after; [|by apply Hs].
    rewrite Es, count_where_0; [lia|]. intros i m Hm. unfold applied_to. apply andb_false_iff. left.
    apply bool_decide_eq_false. intros Ek. destruct (Hr _ _ Hm) as [x Hx]. congruence.
  - intros j m Hm. rewrite lookup_insert. case_decide; [done|by eapply Hr].
Qed.
End Counts.

(** ** Statements *)

Definition rl_kept {P} (d d' : RlDb P) : Prop := data_moves d d' /\ counts_kept d d'.
#[export] Instance rl_kept_preorder {P} : PreOrder (rl_kept (P := P)).
Proof. split; [by intros d; split|]. intros d1 d2 d3 [] []. split; by etrans. Qed.

Section Statements.
Context {P : Type}.
Implicit Types (d : RlDb P) (w : World (RlDb P)).

Record same_data d d' : Prop := {
  sx_databases : tenant_databases (tables d') = tenant_databases (tables d);
  sx_credentials : database_credentials (tables d') = database_credentials (tables d);
  sx_recoveries : recoveries (tables d') = recoveries (tables d);
  sx_operations : operations d' = operations d;
  sx_archives : archives d' = archives d;
  sx_migrations : migrations d' = migrations d;
}.
Lemma same_data_kept d d' : same_data d d' -> rl_kept d d'.
Proof.
  intros [E1 E2 E3 E4 E5 E6]. split; [|by apply counted_same]. split; by rewrite ?E1, ?E2, ?E3, ?E4, ?E5, ?E6.
Qed.

Lemma kept_put f : (forall d, rl_kept d (f d)) -> keeps rl_kept (d <~ get_db (D := RlDb P);; put_db (f d)).
Proof. intros Hf env w r w' [= _ <-]. apply Hf. Qed.
Lemma kept_update {A} (o : RlDb P -> option A) (f : RlDb P -> A -> RlDb P) :
  (forall d a, o d = Some a -> rl_kept d (f d a)) ->
  keeps rl_kept (d <~ get_db;; a <~ sql (o d);; put_db (f d a)).
Proof.
  intros Hf env w r w'. unfold tbind, get_db, sql, put_db. destruct (o (db w)) as [a|] eqn:E; cbn.
  - intros [= _ <-]. by apply Hf.
  - by intros [= _ <-].
Qed.
Ltac same_update := apply kept_update; intros; by apply same_data_kept; split.

Lemma update_attempt_kept id cond f : keeps rl_kept (update_attempt (P := P) id cond f).
Proof. same_update. Qed.
Lemma end_attempt_kept rcn q state code hash : keeps rl_kept (end_attempt (P := P) rcn q state code hash).
Proof. unfold end_attempt. keeps_step. apply update_attempt_kept. Qed.
Lemma update_reconciliation_kept id f : keeps rl_kept (update_reconciliation (P := P) id f).
Proof. same_update. Qed.
Lemma insert_reconciliation_kept r : keeps rl_kept (insert_reconciliation (P := P) r).
Proof. same_update. Qed.
Lemma update_release_kept id cond f : keeps rl_kept (update_release (P := P) id cond f).
Proof. same_update. Qed.
Lemma insert_release_kept r : keeps rl_kept (insert_release (P := P) r).
Proof. same_update. Qed.
Lemma fail_release_kept id code : keeps rl_kept (fail_release (P := P) id code).
Proof. apply update_release_kept. Qed.
Lemma store_replay_kept actor operation key hash status (b : ReleaseResponse) :
  keeps rl_kept (store_replay (D := RlDb P) actor operation key hash status b).
Proof. same_update. Qed.
Lemma rl_audit_kept actor session et tt ti oc : keeps rl_kept (audit (D := RlDb P) actor session et tt ti oc).
Proof. intros env w r w' [= _ <-]. by apply same_data_kept; split. Qed.
Lemma insert_release_event_kept account project release key kind generation evidence :
  keeps rl_kept (insert_release_event (P := P) account project release key kind generation evidence).
Proof.
  unfold insert_release_event. do 2 keeps_step. intros env w r w'. unfold tbind, get_db, sql, put_db, tret.
  destruct (where_ _); cbn; [|by intros [= _ <-]].
  destruct (release_events _ !! _) eqn:E; intros [= _ <-]; [done|]. by apply same_data_kept; split.
Qed.
Lemma rl_policy_now_kept m3 : keeps rl_kept (policy_now (D := RlDb P) m3).
Proof.
  unfold policy_now, policy_time. keeps_step; [|keeps_step].
  do 3 keeps_step. destruct (policy_clock _); [|keeps_step].
  keeps_step; [|case_match; keeps_step].
  intros env0 w0 r0 w0' Hm. unfold upsert_clock, tbind, get_db, put_db, tret, raise in Hm.
  repeat case_match; simplify_eq; try done; by apply same_data_kept; split.
Qed.
Lemma upsert_route_kept r p : keeps rl_kept (upsert_route (P := P) r p).
Proof.
  unfold upsert_route. cbn zeta. keeps_step. intros env w x w'. unfold tbind, get_db, sql, put_db, tret.
  destruct (where_ _); cbn; [|by intros [= _ <-]]. destruct (routes _ !! _); [destruct (_ && _); [destruct (where_ _)|]|];
    intros [= _ <-]; try done; by apply same_data_kept; split.
Qed.
Lemma update_deployment_kept x digest : keeps rl_kept (update_deployment (P := P) x digest).
Proof.
  intros env w r w'. unfold update_deployment, tbind, get_db, put_db, tret.
  destruct (x_deployments _ !! _); [destruct (_ && _)|]; intros [= _ <-]; try done. by apply same_data_kept; split.
Qed.
Lemma rl_for_each_kept {A} (f : A -> M (RlDb P) unit) l : (forall a, keeps rl_kept (f a)) -> keeps rl_kept (for_each f l).
Proof.
  intros Hf. induction l as [|a l IH]; cbn [for_each]; [by keeps_ro|]. by apply keeps_bind; [apply _|..].
Qed.

(** *** On the tables of databases *)

Lemma insert_archive_kept a : ax_state a = ArCreating -> keeps rl_kept (insert_archive (P := P) a).
Proof.
  intros Ha. apply kept_update. intros d t Hi. split; [|by apply counted_same].
  apply insert_pk_Some in Hi as (Hn & Hc & ->). apply andb_true_iff in Hc as [_ Hu].
  split; try done; [by apply evolves_insert|]. intros. by apply lost_insert; [|right|].
Qed.

Lemma insert_operation_kept row : (forall t, operation_starts (do_id (row t)) (row t)) ->
  keeps rl_kept (insert_operation (P := P) row).
Proof.
  intros Hrow. unfold insert_operation. keeps_step.
  apply (kept_update (fun d => insert_pk _ _ _ (database_operations (tables d)))). intros d t Hi.
  split; [|by apply counted_same]. split; try done. by eapply evolves_insert_pk.
Qed.

Lemma update_migration_kept id cond f :
  (forall m, cond m = true -> migration_step m (f m) /\ mg_state m <> MApplied /\ mg_state (f m) <> MApplied) ->
  keeps rl_kept (update_migration (P := P) id cond f).
Proof.
  intros Hf env w r w'. unfold update_migration, tbind, get_db, sql, put_db, tret.
  destruct (update_pk _ _ _ _ _) as [[t n]|] eqn:E; intros [= _ <-]; [|done]. cbn.
  apply update_pk_Some in E as [(-> & _)|(_ & m & m' & Hm & Hc & [= <-] & _ & ->)].
  { apply same_data_kept. by split. }
  destruct (Hf _ Hc) as (Hs & H1 & H2). split.
  - split; try done. by eapply evolves_update.
  - eapply counted_update_migration; try done. by destruct Hs as [[]|[]|[]|[]|e []].
Qed.
End Statements.

Create HintDb data.
#[export] Hint Resolve update_attempt_kept end_attempt_kept update_reconciliation_kept insert_reconciliation_kept
  update_release_kept insert_release_kept fail_release_kept store_replay_kept rl_audit_kept insert_release_event_kept
  rl_policy_now_kept upsert_route_kept update_deployment_kept : data.

Lemma kept_atomic {P A} (m : M (RlDb P) (res ApiError A)) : keeps rl_kept m -> keeps rl_kept (transaction m).
Proof. intros Hm. apply keeps_transaction; [apply _|]. intros env w r w'. apply Hm. Qed.

Lemma kept_clock_atomic {P A} (m : M (RlDb P) (res ApiError A)) : keeps rl_kept m -> keeps rl_kept (clock_transaction m).
Proof.
  intros Hm env w r w' [(e & c & -> & ->)|H]%clock_transaction_cases; [by apply same_data_kept; split|].
  by apply Hm in H.
Qed.

(** Walk through a computation whose statements keep the tables of databases. *)
Ltac data_walk :=
  repeat (intros; lazymatch goal with
  | |- keeps _ (tbind (lift _) _) => apply keeps_lift; [apply _|intros ? ?]
  | |- keeps _ (tbind (reject_if _ _) _) => apply keeps_reject; [apply _|intros ?]
  | |- keeps _ (tbind _ _) => apply keeps_bind; [apply _|first [keeps_ro|solve [auto with data]|idtac]|intros ?]
  | |- keeps _ (transaction _) => apply kept_atomic
  | |- keeps _ (clock_transaction _) => apply kept_clock_atomic
  | |- keeps _ (for_each _ _) => apply rl_for_each_kept
  | |- keeps _ ?m =>
      first [ keeps_ro | solve [auto with data]
            | match m with context [match ?x with _ => _ end] => destruct x end ]
  end).

(** ** Handlers *)

Section Handlers.
Context {P : Type} `{FactRefresh P}.
Context (Y : ReleaseExternals) (st : ReleaseConfig).
Implicit Types (d : RlDb P) (w : World (RlDb P)).

Notation kept := (rl_kept (P := P)).

Lemma queued_starts id account project database generation kind key spec credentials policy t :
  operation_starts (do_id (queued_operation id account project database generation kind key spec credentials policy t))
    (queued_operation id account project database generation kind key spec credentials policy t).
Proof. by split. Qed.
#[local] Hint Extern 1 (keeps _ (insert_operation _)) => (apply insert_operation_kept; intros; apply queued_starts) : data.
#[local] Hint Extern 1 (keeps _ (insert_archive _)) => (apply insert_archive_kept; done) : data.

Lemma refresh_kept release policy : keeps kept (refresh_deployment_facts release policy).
Proof.
  unfold refresh_deployment_facts. keeps_step. keeps_step. intros env w r w'. unfold zoom.
  destruct (refresh_heads _ _ _ _). intros [= _ <-]. by apply same_data_kept; split.
Qed.
#[local] Hint Resolve refresh_kept : data.

Lemma kept_put_then {A} (f : RlDb P -> RlDb P) (k : RlDb P -> M (RlDb P) A) :
  (forall d, rl_kept d (f d)) -> (forall d, keeps kept (k d)) ->
  keeps kept (d <~ get_db;; put_db (f d);;; k d).
Proof. intros Hf Hk env w r w' Hm. etrans; [apply (Hf (db w))|]. by apply (Hk (db w)) in Hm. Qed.

Lemma retire_excess_kept account project current : keeps kept (retire_excess_releases Y account project current).
Proof.
  unfold retire_excess_releases. cbn zeta. apply kept_put_then; [intros d; by apply same_data_kept; split|data_walk].
Qed.
#[local] Hint Resolve retire_excess_kept : data.

Lemma write_attempt_kept r attempt number fence worker expires :
  keeps kept (write_attempt (P := P) r attempt number fence worker expires).
Proof.
  unfold write_attempt. keeps_step. case_bool_decide; [auto with data|]. apply kept_update. intros.
  by apply same_data_kept; split.
Qed.
#[local] Hint Resolve write_attempt_kept : data.

Lemma enqueue_trial_kept q : keeps kept (enqueue_materialized_migration_trial (P := P) Y q).
Proof.
  unfold enqueue_materialized_migration_trial. data_walk. apply update_migration_kept. intros m' Hc%bool_decide_eq_true.
  cbn. rewrite Hc. split; [|done]. by apply mg_touch.
Qed.
Lemma record_validation_kept v : keeps kept (record_migration_runtime_validation (P := P) Y v).
Proof.
  unfold record_migration_runtime_validation. data_walk. apply update_migration_kept. intros m' Hc%bool_decide_eq_true.
  cbn. rewrite Hc. split; [|done]. by apply mg_validate.
Qed.
#[local] Hint Resolve enqueue_trial_kept record_validation_kept : data.

Lemma enqueue_plan_kept m3 q archive : keeps kept (enqueue_migration_trial (P := P) m3 q archive).
Proof.
  unfold enqueue_migration_trial. do 2 keeps_step.
  apply keeps_bind; [apply _|apply rl_policy_now_kept|intros policy]. keeps_step. intros env w r w' Hm.
  apply tbind_Ok in Hm as (d & w1 & [-> ->]%get_db_Ok & Hm).
  apply tbind_Ok in Hm as (backup & w2 & [Ha ->]%lift_Ok & Hm).
  destruct (select_first _ _ _); [by apply tret_Ok in Hm as [_ ->]|].
  apply tbind_Ok in Hm as (id & w3 & [_ ->]%new_uuid_Ok & Hm).
  apply tbind_Ok in Hm as (rows & w4 & [Hi ->]%sql_Ok & Hm).
  apply tbind_Ok in Hm as (? & w5 & ->%put_db_Ok & [_ ->]%tret_Ok). cbn [db] in *.
  apply insert_pk_Some in Hi as (Hn & _ & ->).
  assert (Ht : is_Some (tenant_databases (tables (db w)) !! mt_database q)).
  { unfold fresh_archive in Ha. destruct (archives (db w) !! archive) as [bk|]; csimpl in Ha; [|done].
    destruct (tenant_databases _ !! _) as [t|] eqn:Et; csimpl in Ha; [|done]. unfold where_ in Ha.
    destruct (_ && _) eqn:E; csimpl in Ha; [|done]. bool_simpl. eexists.
    match goal with H : ax_database _ = _ |- _ => by rewrite H in Et end. }
  destruct Ht as [t Ht]. split.
  - split; try done. by apply evolves_insert.
  - by eapply counted_insert_migration; [exact Hn|done|done|exact Ht|].
Qed.
#[local] Hint Resolve enqueue_plan_kept : data.

(** *** Leasing *)

Lemma expire_kept : keeps kept (expire_reconciliations (P := P)).
Proof. unfold expire_reconciliations, expire_one. data_walk. Qed.
Lemma fail_migrations_kept : keeps kept (fail_migration_reconciliations (P := P)).
Proof. unfold fail_migration_reconciliations, fail_migration_one. data_walk. Qed.
#[local] Hint Resolve expire_kept fail_migrations_kept : data.

Lemma probes_kept candidate current retained c : keeps kept (required_probes candidate current retained c).
Proof. apply keeps_read_only; [apply _|apply ro_required_probes]. Qed.
#[local] Hint Resolve probes_kept : data.

Lemma rl_lease_kept worker : keeps kept (lease_reconciliation Y st worker).
Proof. unfold lease_reconciliation, start_lease. data_walk. Qed.
Lemma rl_renew_kept id q : keeps kept (renew_reconciliation Y st id q).
Proof. unfold renew_reconciliation. data_walk. Qed.
Lemma resolve_probe_kept id q : keeps kept (resolve_probe_credential Y st id q).
Proof.
  unfold resolve_probe_credential, bind_probe, lock_live_reconciliation. apply keeps_read_only; [apply _|read_only].
Qed.

(** *** Completing *)

Lemma receipts_kept required digests rcn attempt fence :
  keeps kept (validate_probe_receipts (D := RlDb P) Y (rg_m3 st) required digests rcn attempt fence).
Proof. apply keeps_read_only; [apply _|apply ro_validate_receipts]. Qed.
#[local] Hint Resolve receipts_kept : data.

Lemma rl_complete_kept id q : keeps kept (complete_reconciliation Y st id q).
Proof.
  unfold complete_reconciliation, lock_live_reconciliation, complete_successful, complete_trial, complete_migration,
    prepare_route, finish_unsuccessful, await. data_walk.
Qed.

(** *** Owners and activation *)

Lemma rl_stage_kept caller project deployment headers q :
  keeps kept (stage_release Y st caller project deployment headers q).
Proof. unfold stage_release, replay. data_walk. Qed.
Lemma rl_list_kept caller project : keeps kept (list_releases Y st caller project).
Proof. unfold list_releases. data_walk. Qed.
Lemma rl_rollback_kept caller project release headers : keeps kept (request_rollback Y st caller project release headers).
Proof. unfold request_rollback, replay. data_walk. Qed.
Lemma rl_prepare_kept caller project deployment headers q :
  keeps kept (prepare_migration_trial Y st caller project deployment headers q).
Proof. unfold prepare_migration_trial, replay, plan_or_back_up, request_pre_migration_backup. data_walk. Qed.
Lemma rl_activate_kept id q : keeps kept (activate_reconciliation Y st id q).
Proof. unfold activate_reconciliation, lock_live_reconciliation, switch_route. data_walk. Qed.
End Handlers.
