(* ===== verification/TenantSteps.v ===== *)
(** * Tenant databases: the handlers refine the specification

    Every handler, whatever its result, moves rows along their life cycles, leaves
    releases and routes alone, and keeps the source generations counted. *)

From stdpp Require Import base list option gmap strings relations sorting.
From Stdlib Require Import ZArith Lia Ascii.
From S2P Require Import Prelude RustText Bytes PgTx Intent Secrets Admission PolicyClock.
From S2P Require Import ProjectContract ExecutionTables BuildTables Credentials RuntimeEvidence Runtime.
From S2P Require Import ReleaseTables ReleaseEvidence ReleaseReceipts Migrations Releases ReleaseSpec ReleaseSteps.
From S2P Require Import TableHistory TenantTables TenantCompletion Tenants TenantLeases TenantSpec ReleaseData.

Local Open Scope string_scope.
Local Open Scope list_scope.

Section Statements.
Context {P : Type}.
Implicit Types (d : RlDb P) (b : TbDb P) (w : World (TbDb P)).

Definition tb_kept b b' : Prop := tb_moves b b' /\ counts_kept (tb_rl b) (tb_rl b').
#[export] Instance tb_kept_preorder : PreOrder tb_kept.
Proof. split; [by intros b; split|]. intros b1 b2 b3 [] []. split; by etrans. Qed.

Lemma kept_frame b b' : rl_frame (tb_rl b) (tb_rl b') -> rl_kept (tb_rl b) (tb_rl b') ->
  tb_attempts b' = tb_attempts b -> tb_kept b b'.
Proof. intros Hf [Hd Hc] Ha. split; [|done]. split; [done..|by rewrite Ha]. Qed.
Lemma kept_same b b' : tb_rl b' = tb_rl b -> tb_attempts b' = tb_attempts b -> tb_kept b b'.
Proof. intros E Ea. apply kept_frame; by rewrite ?E. Qed.

Lemma tb_update {A} (o : TbDb P -> option A) (f : TbDb P -> A -> TbDb P) :
  (forall b a, o b = Some a -> tb_kept b (f b a)) ->
  keeps tb_kept (d <~ get_db;; a <~ sql (o d);; put_db (f d a)).
Proof.
  intros Hf env w r w'. unfold tbind, get_db, sql, put_db. destruct (o (db w)) as [a|] eqn:E; cbn.
  - intros [= _ <-]. by apply Hf.
  - by intros [= _ <-].
Qed.
Lemma in_rl_kept {A} (m : M (RlDb P) A) : keeps rl_frame m -> keeps rl_kept m -> keeps tb_kept (in_rl m).
Proof.
  intros Hf Hk env w r w'. unfold in_rl, zoom. destruct (m _ _) as [r' w1] eqn:E. intros [= _ <-].
  apply kept_frame; [by apply Hf in E|by apply Hk in E|done].
Qed.

Lemma tb_store_replay_kept actor operation key hash status (r : TenantResponse) :
  keeps tb_kept (store_replay (D := TbDb P) actor operation key hash status r).
Proof. apply tb_update. intros. by apply kept_same. Qed.
Lemma tb_audit_kept actor session et tt ti oc : keeps tb_kept (audit (D := TbDb P) actor session et tt ti oc).
Proof. intros env w r w' [= _ <-]. by apply kept_same. Qed.
Lemma clock_row_kept b c : tb_kept b (set_clock_row c b).
Proof. apply kept_frame; [by apply frame_same|by apply same_data_kept; split|done]. Qed.
Lemma tb_policy_now_kept m3 : keeps tb_kept (policy_now (D := TbDb P) m3).
Proof.
  unfold policy_now, policy_time. keeps_step; [|keeps_step].
  do 3 keeps_step. destruct (policy_clock _); [|keeps_step].
  keeps_step; [|case_match; keeps_step].
  intros env0 w0 r0 w0' Hm. unfold upsert_clock, tbind, get_db, put_db, tret, raise in Hm.
  repeat case_match; simplify_eq; try done; by apply clock_row_kept.
Qed.

(** ** The tables of this component *)

Lemma frame_tables b x : operations (set_tables x (tb_rl b)) = operations (tb_rl b) ->
  rl_frame (tb_rl b) (set_tables x (tb_rl b)).
Proof. intros E. split; try done. intros o. unfold operation_succeeded. by rewrite E. Qed.

Lemma databases_kept b rows :
  evolves database_step database_starts (databases b) rows -> counts_kept (tb_rl b) (tb_rl (set_databases rows b)) ->
  tb_kept b (set_databases rows b).
Proof. intros He Hc. apply kept_frame; [by apply frame_tables|by split|done]. Qed.
Lemma credentials_kept b rows : evolves never credential_starts (tb_credentials b) rows ->
  tb_kept b (set_credentials rows b).
Proof. intros He. apply kept_frame; [by apply frame_tables|by split; [|apply counted_same]|done]. Qed.
Lemma recoveries_kept b rows : evolves recovery_step recovery_starts (tb_recoveries b) rows ->
  tb_kept b (set_recoveries rows b).
Proof. intros He. apply kept_frame; [by apply frame_tables|by split; [|apply counted_same]|done]. Qed.
Lemma operations_kept b rows : evolves operation_step operation_starts (tb_operations b) rows ->
  tb_kept b (set_tb_operations rows b).
Proof.
  intros He. apply kept_frame; [|by split; [|apply counted_same]|done].
  split; try done. by apply moves_succeeded_kept.
Qed.
Lemma archives_kept b rows : evolves archive_step archive_starts (tb_archives b) rows ->
  (forall database generation revision source, backup_lost database generation revision source (tb_archives b) ->
     backup_lost database generation revision source rows) ->
  tb_kept b (set_tb_archives rows b).
Proof. intros He Hl. apply kept_frame; [by apply frame_same|by split; [|apply counted_same]|done]. Qed.
Lemma attempts_kept b rows : evolves attempt_step attempt_starts (tb_attempts b) rows ->
  tb_kept b (set_tb_attempts rows b).
Proof. intros He. split; [|done]. by split. Qed.

Lemma insert_database_kept t : database_starts (td_id t) t -> keeps tb_kept (insert_database (P := P) t).
Proof.
  intros Ht. apply tb_update. intros b rows Hi. apply insert_pk_Some in Hi as (Hn & _ & ->).
  apply databases_kept; [by apply evolves_insert|].
  by eapply counted_insert_database; [exact Hn|..|apply Ht].
Qed.
Lemma insert_credential_kept c : dc_status c = CActive -> keeps tb_kept (insert_credential (P := P) c).
Proof. intros Hc. apply tb_update. intros b rows Hi. apply credentials_kept. by eapply evolves_insert_pk. Qed.
Lemma insert_recovery_kept r : rc_state r = RRequested -> keeps tb_kept (insert_recovery (P := P) r).
Proof.
  intros Hr env w x w'. unfold insert_recovery, tbind, get_db, sql, put_db, tret.
  destruct (where_ _); cbn; [|by intros [= _ <-]]. destruct (insert_pk _ _ _ _) as [rows|] eqn:Hi; intros [= _ <-]; [|done].
  apply recoveries_kept. by eapply evolves_insert_pk.
Qed.

(** The operations and their attempts stay as they are. *)
Definition tb_done b b' : Prop :=
  tb_kept b b' /\ tb_operations b' = tb_operations b /\ tb_attempts b' = tb_attempts b.
#[export] Instance tb_done_preorder : PreOrder tb_done.
Proof. split; [by intros b; split|]. intros b1 b2 b3 (? & ? & ?) (? & ? & ?). split_and!; [by etrans|congruence..]. Qed.
Lemma done_kept {A} (m : M (TbDb P) A) : keeps tb_done m -> keeps tb_kept m.
Proof. intros Hm env w r w' H. by apply Hm in H as []. Qed.

Lemma tb_update_count {A} (o : TbDb P -> option (A * nat)) (f : TbDb P -> A -> TbDb P) :
  (forall b a, o b = Some a -> tb_done b (f b a.1)) ->
  keeps tb_done (d <~ get_db;; a <~ sql (o d);; put_db (f d a.1);;; tret a.2).
Proof.
  intros Hf env w r w'. unfold tbind, get_db, sql, put_db, tret. destruct (o (db w)) as [a|] eqn:E; cbn.
  - intros [= _ <-]. by apply Hf.
  - by intros [= _ <-].
Qed.

(** The statement changes one row, or none. *)
Lemma update_database_done id cond f :
  (forall t t', cond t = true -> f t = Some t' -> database_step t t' /\ td_source t' = td_source t) ->
  keeps tb_done (update_database (P := P) id cond f).
Proof.
  intros Hf. apply (tb_update_count (fun b => update_pk _ _ _ _ (databases b)) (fun b rows => set_databases rows b)).
  intros b [rows n] Hu. split; [|done]. cbn.
  pose proof (update_pk_Some _ _ _ _ _ _ _ Hu) as [(-> & _)|(_ & t & t' & Ht & Hc & Hft & _ & ->)].
  { by apply databases_kept; [|apply counted_same]. }
  destruct (Hf _ _ Hc Hft) as [Hs He]. apply databases_kept; [by eapply evolves_update|].
  by eapply counted_update_database; [exact Ht|..].
Qed.
Lemma update_archive_done id cond f : (forall a, cond a = true -> archive_step a (f a)) ->
  keeps tb_done (update_archive (P := P) id cond f).
Proof.
  intros Hf. apply (tb_update_count (fun b => update_pk _ _ _ _ (tb_archives b)) (fun b rows => set_tb_archives rows b)).
  intros b [rows n] Hu. split; [|done]. apply archives_kept.
  - eapply evolves_update_pk; [exact Hu|]. intros a a' _ Hc [= <-] _. by apply Hf.
  - apply update_pk_Some in Hu as [(-> & _)|(_ & a & a' & Ha & Hc & [= <-] & _ & ->)]; [done|].
    intros. eapply lost_update; [exact Ha|by apply Hf|done].
Qed.
Lemma update_recovery_done id cond f : (forall r, cond r = true -> recovery_step r (f r)) ->
  keeps tb_done (update_recovery (P := P) id cond f).
Proof.
  intros Hf. apply (tb_update_count (fun b => update_pk _ _ _ _ (tb_recoveries b)) (fun b rows => set_recoveries rows b)).
  intros b [rows n] Hu. split; [|done]. apply recoveries_kept.
  eapply evolves_update_pk; [exact Hu|]. intros a a' _ Hc [= <-] _. by apply Hf.
Qed.
Lemma change_migration_Ok id cond f env w n w' : change_migration (P := P) id cond f env w = (Ok n, w') ->
  exists rows, update_pk migration_check cond (fun m => Some (f m)) id (tb_migrations (db w)) = Some (rows, n)
    /\ db w' = set_tb_migrations rows (db w).
Proof.
  unfold change_migration, in_rl, zoom, update_migration, tbind, get_db, sql, put_db, tret. cbn [db].
  destruct (update_pk _ _ _ _ _) as [[rows k]|] eqn:E; intros [= -> <-]. by exists rows.
Qed.
Lemma change_migration_done id cond f :
  (forall m, cond m = true -> migration_step m (f m) /\ mg_state m <> MApplied /\ mg_state (f m) <> MApplied) ->
  keeps tb_done (change_migration (P := P) id cond f).
Proof.
  intros Hf env w [n|e] w' H; split.
  1, 3: by apply (in_rl_kept _ (update_migration_frame _ _ _) (update_migration_kept _ _ _ Hf)) in H.
  - apply change_migration_Ok in H as (rows & _ & ->). done.
  - revert H. unfold change_migration, in_rl, zoom, update_migration, tbind, get_db, sql, put_db, tret. cbn [db].
    destruct (update_pk _ _ _ _ _) as [[rows k]|] eqn:E; intros [= _ <-]. done.
Qed.
Lemma update_reservation_done id cond f : keeps tb_done (update_reservation (P := P) id cond f).
Proof.
  intros env w r w'. unfold update_reservation, tbind, get_db, sql, put_db. destruct (update_pk _ _ _ _ _); intros [= _ <-]; [|done].
  split; [|done]. apply kept_frame; [by apply frame_tables|by apply same_data_kept; split|done].
Qed.
Lemma update_project_done id cond f : keeps tb_done (update_project (P := P) id cond f).
Proof.
  intros env w r w'. unfold update_project, tbind, get_db, sql, put_db. destruct (update_pk _ _ _ _ _); intros [= _ <-]; [|done].
  split; [|done]. apply kept_frame; [by apply frame_tables|by apply same_data_kept; split|done].
Qed.
Lemma insert_operation_attempt_kept a : attempt_starts (oa_id a) a -> keeps tb_kept (insert_operation_attempt (P := P) a).
Proof. intros Ha. apply tb_update. intros b rows Hi. apply attempts_kept. by eapply evolves_insert_pk. Qed.
Lemma update_operation_attempt_kept id cond f : (forall a, cond a = true -> attempt_step a (f a)) ->
  keeps tb_kept (update_operation_attempt (P := P) id cond f).
Proof.
  intros Hf. apply tb_update. intros b [rows n] Hu. apply attempts_kept.
  eapply evolves_update_pk; [exact Hu|]. intros a a' _ Hc [= <-] _. by apply Hf.
Qed.
Lemma insert_archive_tb_kept a : ax_state a = ArCreating -> keeps tb_kept (in_rl (insert_archive (P := P) a)).
Proof. intros Ha. apply in_rl_kept; [apply insert_archive_frame|by apply insert_archive_kept]. Qed.
Lemma insert_operation_tb_kept row : (forall t, operation_starts (do_id (row t)) (row t)) ->
  keeps tb_kept (in_rl (insert_operation (P := P) row)).
Proof. intros Ho. apply in_rl_kept; [apply insert_operation_frame|by apply insert_operation_kept]. Qed.

(** [ON CONFLICT DO NOTHING]. *)
Lemma insert_daily_kept a : ax_state a = ArCreating -> ax_kind a = ArDaily ->
  keeps tb_kept (insert_daily (P := P) a).
Proof.
  intros Ha Hkd env w x w'. unfold insert_daily, tbind, get_db, sql, put_db, tret.
  destruct (where_ _); cbn; [|by intros [= _ <-]]. destruct (archive_unique _ _); [|by intros [= _ <-]].
  destruct (insert_pk _ _ _ _) as [rows|] eqn:Hi; intros [= _ <-]; [|done]. apply insert_pk_Some in Hi as (Hn & _ & ->).
  apply archives_kept; [by apply evolves_insert|]. intros. apply lost_insert; [done|left; congruence|done].
Qed.
Lemma insert_operation_once_kept row : (forall t, operation_starts (do_id (row t)) (row t)) ->
  keeps tb_kept (insert_operation_once (P := P) row).
Proof.
  intros Ho. unfold insert_operation_once. keeps_step. intros env w x w'. unfold tbind, get_db, sql, put_db, tret.
  destruct (where_ _); cbn; [|by intros [= _ <-]]. destruct (operation_unique _ _); [|by intros [= _ <-]].
  destruct (insert_pk _ _ _ _) as [rows|] eqn:Hi; intros [= _ <-]; [|done]. apply operations_kept.
  by eapply evolves_insert_pk.
Qed.

Lemma tb_kept_atomic {A} (m : M (TbDb P) (res ApiError A)) : keeps tb_kept m -> keeps tb_kept (transaction m).
Proof. intros Hm. apply keeps_transaction; [apply _|]. intros env w r w'. apply Hm. Qed.
Lemma each_kept {A} (f : A -> M (TbDb P) unit) l : (forall a, keeps tb_kept (f a)) -> keeps tb_kept (each f l).
Proof.
  intros Hf. induction l as [|a l IH]; cbn [each]; [by keeps_ro|]. by apply keeps_bind; [apply _|..].
Qed.
Lemma each_count_kept {A} (f : A -> M (TbDb P) (nat * nat)) l : (forall a, keeps tb_kept (f a)) ->
  keeps tb_kept (each_count f l).
Proof.
  intros Hf. induction l as [|a l IH]; cbn [each_count]; [by keeps_ro|].
  apply keeps_bind; [apply _|apply Hf|]. intros n. apply keeps_bind; [apply _|exact IH|]. intros m. by keeps_ro.
Qed.
End Statements.

Create HintDb tenant.
#[export] Hint Resolve tb_store_replay_kept tb_audit_kept tb_policy_now_kept insert_credential_kept insert_recovery_kept
  insert_daily_kept insert_archive_tb_kept : tenant.
#[export] Hint Extern 1 (keeps _ (in_rl (insert_operation _))) =>
  (apply insert_operation_tb_kept; intros; apply queued_starts) : tenant.
#[export] Hint Extern 1 (keeps _ (insert_operation_once _)) =>
  (apply insert_operation_once_kept; intros; apply queued_starts) : tenant.

(** Walk through a computation whose statements keep the tables. *)
Ltac tenant_walk :=
  repeat (intros; lazymatch goal with
  | |- keeps _ (tbind (lift _) _) => apply keeps_lift; [apply _|intros ? ?]
  | |- keeps _ (tbind (reject_if _ _) _) => apply keeps_reject; [apply _|intros ?]
  | |- keeps _ (tbind _ _) => apply keeps_bind; [apply _|first [keeps_ro|solve [auto with tenant]|idtac]|intros ?]
  | |- keeps _ (transaction _) => apply tb_kept_atomic
  | |- keeps _ (each _ _) => apply each_kept
  | |- keeps _ (each_count _ _) => apply each_count_kept
  | |- keeps _ ?m =>
      first [ keeps_ro | solve [auto with tenant]
            | match m with context [match ?x with _ => _ end] => destruct x end ]
  end).

(** ** Owners *)

Section Handlers.
Context {P : Type}.
Context (Y : ReleaseExternals) (N : TenantExternals) (st : ReleaseConfig).
Implicit Types (b : TbDb P) (w : World (TbDb P)).

Notation kept := (tb_kept (P := P)).

Lemma project_limits_Ok spec l : project_database_limits spec = Ok l ->
  l = (APPLICATION_CONNECTION_LIMIT, STORAGE_LIMIT_BYTES).
Proof.
  unfold project_database_limits. intros (? & _ & H)%res_bind_Ok. apply res_bind_Ok in H as (? & _ & H). by injection H as <-.
Qed.

Lemma create_database_kept caller project deployment headers q :
  keeps kept (create_database Y N st caller project deployment headers q).
Proof.
  unfold create_database, replay, create_database_rows, create_credential. tenant_walk.
  match goal with H : project_database_limits _ = Ok _ |- _ => apply project_limits_Ok in H as -> end.
  by apply insert_database_kept.
Qed.
Lemma get_database_kept caller project service : keeps kept (get_database Y st caller project service).
Proof. unfold get_database. tenant_walk. Qed.
Lemma list_backups_kept caller project service : keeps kept (list_backups Y st caller project service).
Proof. unfold list_backups. tenant_walk. Qed.
Lemma create_export_kept caller project service headers : keeps kept (create_export Y N st caller project service headers).
Proof. unfold create_export, replay. tenant_walk. Qed.
Lemma get_export_kept caller project service archive : keeps kept (get_export Y st caller project service archive).
Proof. unfold get_export. tenant_walk. Qed.
Lemma create_recovery_kept caller project service headers archive :
  keeps kept (create_recovery Y N st caller project service headers archive).
Proof. unfold create_recovery, replay. tenant_walk. Qed.
Lemma get_recovery_kept caller project service recovery : keeps kept (get_recovery Y st caller project service recovery).
Proof. unfold get_recovery. tenant_walk. Qed.

(** ** The scheduler *)

Lemma scheduler_tick_kept : keeps kept (scheduler_tick Y N st).
Proof. unfold scheduler_tick, tick_database, tick_daily, tick_storage, tick_expired, tick_drill. tenant_walk. Qed.

(** ** Completions *)

Lemma database_in_step t t' state error ready : database_in t state error ready = Some t' ->
  database_moves (td_state t) state -> database_step t t' /\ td_source t' = td_source t.
Proof.
  unfold database_in, with_database. destruct (bigint_succ _) as [v|] eqn:E; [|done]. csimpl. intros [= <-] Hm.
  apply bigint_succ_Some in E. split; [|done]. split; try done; [cbn; lia|by left].
Qed.

(** The migration is applied, and the source generation of its database advances. *)
Lemma applied_once_done b k m m' t t' : tb_migrations b !! k = Some m -> mg_state m = MIsolatedValidated ->
  migration_step m m' -> mg_database m' = mg_database m -> mg_state m' = MApplied ->
  databases b !! mg_database m = Some t -> database_step t t' -> td_source t' = (td_source t + 1)%Z ->
  tb_done b (set_databases (<[mg_database m := t']> (databases b)) (set_tb_migrations (<[k := m']> (tb_migrations b)) b)).
Proof.
  intros Hl Hs Hms Hd Hs' Hx Hds Hsrc'. split; [|done]. split.
  - split; [split; try done; by intros o| |done]. split; try done; [by eapply evolves_update|by eapply evolves_update].
  - intros [Hsrc Href]. split; cbn.
    + intros j y Hy. rewrite (count_replace _ _ _ m) by done. unfold tb_migrations, applied_to in *. rewrite Hs, Hs', Hd.
      rewrite (bool_decide_eq_true_2 (MApplied = MApplied)), (bool_decide_eq_false_2 (MIsolatedValidated = MApplied)) by done.
      rewrite andb_false_r, andb_true_r. apply row_after in Hy as [[-> ->]|[Hne Hy]].
      * rewrite (bool_decide_eq_true_2 (mg_database m = mg_database m)) by done. cbn. rewrite Hsrc', (Hsrc _ _ Hx). lia.
      * rewrite (bool_decide_eq_false_2 (mg_database m = j)) by congruence. cbn. rewrite (Hsrc _ _ Hy). lia.
    + intros j y [[-> ->]|[_ Hy]]%row_after; rewrite lookup_insert; (case_decide; [done|]); [rewrite Hd|]; by eapply Href.
Qed.

Lemma record_applied_Ok migration effect env w u w' :
  record_migration_applied_once (P := P) migration effect env w = (Ok u, w') -> tb_done (db w) (db w').
Proof.
  unfold record_migration_applied_once. intros Hm.
  apply tbind_Ok in Hm as (t & w1 & [_ ->]%clock_Ok & Hm).
  apply tbind_Ok in Hm as (n & w2 & (rows & Hu & E2)%change_migration_Ok & Hm). cbn [db] in Hu, E2.
  apply tbind_Ok in Hm as (d & w3 & [-> ->]%get_db_Ok & Hm).
  apply update_pk_Some in Hu as [(-> & -> & _)|(-> & m & m' & Hl & Hs & [= <-] & _ & ->)].
  - rewrite E2 in Hm. cbn in Hm. destruct (tb_migrations (db w) !! migration); [|by apply raise_Ok in Hm].
    apply reject_if_Ok in Hm as [_ ->]. rewrite E2. split; [|done]. by apply kept_frame; [apply frame_same|apply same_data_kept; split|].
  - apply bool_decide_eq_true in Hs. rewrite E2 in Hm. cbn in Hm. rewrite lookup_insert_eq in Hm. cbn in Hm.
    apply tbind_Ok in Hm as (a & w4 & Ha & [Hone ->]%reject_if_Ok).
    unfold update_database in Ha. apply tbind_Ok in Ha as (d & w5 & [-> ->]%get_db_Ok & Ha).
    apply tbind_Ok in Ha as ([dbs k] & w6 & [Hu ->]%sql_Ok & Ha).
    apply tbind_Ok in Ha as (? & w7 & ->%put_db_Ok & [-> ->]%tret_Ok). cbn [db fst snd] in *. rewrite E2 in *.
    apply update_pk_Some in Hu as [(_ & -> & _)|(-> & t0 & t1 & Hx & Hc & Hf & _ & ->)]; [done|].
    apply bind_Some in Hf as (source & [-> _]%bigint_succ_Some & Hf).
    apply bind_Some in Hf as (revision & [-> _]%bigint_succ_Some & [= <-]).
    apply (applied_once_done (db w) migration m _ t0 _ Hl Hs); try done.
    + by eapply mg_apply.
    + split; try done; [constructor|by right].
Qed.

(** What a completion does, by its kind and state. *)
Lemma provision_done o p : keeps tb_done (apply_provision_success (P := P) o p).
Proof.
  unfold apply_provision_success. do 2 keeps_step. keeps_step; [|unfold exactly_one; keeps_ro]. apply update_database_done.
  intros t t' Hc Hf. unfold being_provisioned in Hc. bool_simpl. eapply database_in_step; [exact Hf|]. by apply dm_ready.
Qed.
Lemma archive_done o p : keeps tb_done (apply_archive_success (P := P) Y N o p).
Proof.
  unfold apply_archive_success. do 2 keeps_step. keeps_step; [|unfold exactly_one; keeps_ro]. apply update_archive_done.
  intros a' Hc. bool_simpl. by apply ar_completes.
Qed.
Lemma recovery_done o p : keeps tb_done (apply_recovery_success (P := P) Y N o p).
Proof.
  unfold apply_recovery_success. do 2 keeps_step. keeps_step; [|unfold exactly_one; keeps_ro]. apply update_recovery_done.
  intros r Hc. bool_simpl. split; [done|]. cbn.
  match goal with H : rc_state r = _ |- _ => rewrite H end. constructor.
Qed.
Lemma storage_done o p : keeps tb_done (apply_storage_success (P := P) N o p).
Proof.
  unfold apply_storage_success. do 2 keeps_step. destruct a0 as [[stored observed] mode].
  keeps_step; [|unfold exactly_one; keeps_ro]. apply update_database_done. intros t t' Hc Hf. apply andb_true_iff in Hc as [_ Hc].
  apply bind_Some in Hf as (revision & [-> _]%bigint_succ_Some & [= <-]). split; [|done].
  split; try done; [constructor|by left|]. cbn. intros Em. rewrite Em in Hc. cbn in Hc. by apply bool_decide_eq_true in Hc.
Qed.
Lemma trial_done o p : keeps tb_done (apply_migration_trial_success (P := P) Y N o p).
Proof.
  unfold apply_migration_trial_success. keeps_step. keeps_step; [|unfold exactly_one; keeps_ro]. apply change_migration_done.
  intros m Hc. unfold migration_of in Hc. bool_simpl.
  match goal with H : mg_state m = _ |- _ => rewrite H; split; [by apply mg_trial|done] end.
Qed.
Lemma expiry_done o p : keeps tb_done (apply_archive_expiry_success (P := P) Y o p).
Proof.
  unfold apply_archive_expiry_success. keeps_step. keeps_step; [|unfold exactly_one; keeps_ro]. apply update_archive_done.
  intros a' Hc. bool_simpl. by apply ar_deleted.
Qed.
Lemma retain_done o code : keeps tb_done (retain_resources (P := P) o code).
Proof.
  unfold retain_resources. keeps_step.
  - apply update_database_done. intros t t' _ Hf. eapply database_in_step; [exact Hf|]. constructor.
  - keeps_step. destruct (databases _ !! _); [|keeps_ro]. keeps_step; [apply update_reservation_done|apply update_project_done].
Qed.

Lemma unsuccessful_done o outcome : keeps tb_done (apply_unsuccessful_completion (P := P) Y o outcome).
Proof.
  unfold apply_unsuccessful_completion. cbn zeta. keeps_step; [|keeps_step; [|keeps_step]].
  - destruct (_ && _); [|keeps_ro]. keeps_step. keeps_step; [|keeps_ro]. apply change_migration_done.
    intros m Hc. unfold migration_of in Hc. bool_simpl.
    match goal with H : mg_state m = _ |- _ => rewrite H; split; [by apply mg_fail|done] end.
  - destruct (_ && _); [|keeps_ro]. apply retain_done.
  - destruct (spec_recovery _ _); [|keeps_ro]. destruct (_ && _); [|keeps_ro]. keeps_step; [|keeps_ro].
    apply update_recovery_done. intros r _. split; [done|]. constructor.
  - destruct (value_uuid _ _); [|keeps_ro]. destruct (_ && _); [|keeps_ro]. keeps_step; [|keeps_ro].
    apply update_archive_done. intros a' Hc%bool_decide_eq_true. by apply ar_fails.
Qed.

Lemma apply_completion_Ok o outcome env w u w' :
  apply_completion (P := P) Y N o outcome env w = (Ok u, w') -> tb_done (db w) (db w').
Proof.
  unfold apply_completion. destruct (negb _); [apply unsuccessful_done|].
  destruct (do_kind o).
  - apply provision_done.
  - apply archive_done.
  - apply archive_done.
  - apply archive_done.
  - apply recovery_done.
  - apply storage_done.
  - case_bool_decide; [apply trial_done|by intros ?%raise_Ok].
  - case_bool_decide; [|by intros ?%raise_Ok]. unfold apply_live_migration_success. intros Hm.
    apply tbind_Ok in Hm as (m & w1 & [_ ->]%lift_Ok & Hm). by eapply record_applied_Ok.
  - apply expiry_done.
Qed.

(** ** Operations, by the rows they are *)

Definition tb_by b b' : Prop := data_ok (tb_rl b) -> tb_kept b b'.
#[export] Instance tb_by_preorder : PreOrder tb_by.
Proof.
  split; [by intros b _|]. intros b1 b2 b3 H1 H2 Hok. etrans; [by apply H1|]. apply H2.
  eapply data_moves_ok; [|exact Hok]. by apply H1.
Qed.
Lemma kept_by b b' : tb_kept b b' -> tb_by b b'.
Proof. by intros H _. Qed.
Lemma keeps_by {A} (m : M (TbDb P) A) : keeps tb_kept m -> keeps tb_by m.
Proof. intros Hm env w r w' H. by apply kept_by; eapply Hm. Qed.

Lemma kept_ok b b' : tb_kept b b' -> data_ok (tb_rl b) -> data_ok (tb_rl b').
Proof. intros [[_ Hd _] _]. by apply data_moves_ok. Qed.

Lemma update_operation_Ok id f env w n w' o : tb_operations (db w) !! id = Some o ->
  update_operation (P := P) id (fun _ => true) f env w = (Ok n, w') ->
  operation_check (f o) = true /\ db w' = set_tb_operations (<[id := f o]> (tb_operations (db w))) (db w).
Proof.
  intros Ho Hm. apply tbind_Ok in Hm as (d & w1 & [-> ->]%get_db_Ok & Hm).
  apply tbind_Ok in Hm as ([rows k] & w2 & [Hu ->]%sql_Ok & Hm).
  apply tbind_Ok in Hm as (? & w3 & ->%put_db_Ok & [_ ->]%tret_Ok). cbn [db fst].
  apply update_pk_Some in Hu as [(_ & _ & Hc)|(_ & o1 & o2 & Ho1 & _ & [= <-] & Hk & ->)].
  - by specialize (Hc _ Ho).
  - assert (o1 = o) as -> by congruence. done.
Qed.
Lemma update_operation_attempt_Ok id cond f env w u w' :
  update_operation_attempt (P := P) id cond f env w = (Ok u, w') ->
  exists rows n, update_pk operation_attempt_check cond (fun a => Some (f a)) id (tb_attempts (db w)) = Some (rows, n)
    /\ db w' = set_tb_attempts rows (db w).
Proof.
  intros Hm. apply tbind_Ok in Hm as (d & w1 & [-> ->]%get_db_Ok & Hm).
  apply tbind_Ok in Hm as ([rows n] & w2 & [Hu ->]%sql_Ok & ->%put_db_Ok). cbn [db fst]. eauto.
Qed.

(** An attempt and its operation change together. *)
Lemma attempt_and_operation b rows id o o' :
  evolves attempt_step attempt_starts (tb_attempts b) rows -> tb_operations b !! id = Some o -> operation_step o o' ->
  tb_kept b (set_tb_operations (<[id := o']> (tb_operations (set_tb_attempts rows b))) (set_tb_attempts rows b)).
Proof.
  intros Ha Ho Hs. etrans; [by apply attempts_kept|].
  apply (operations_kept (set_tb_attempts rows b)). by eapply evolves_update.
Qed.

(** *** Leases that have run out *)

Definition running_operation b o : Prop := tb_operations b !! do_id o = Some o /\ do_state o = ORunning.

Lemma reap_operation_Ok o env w u w' : running_operation (db w) o ->
  reap_operation (P := P) o env w = (Ok u, w') ->
  tb_kept (db w) (db w')
  /\ (forall p, do_id p <> do_id o -> running_operation (db w) p -> running_operation (db w') p)
  /\ exists o', tb_operations (db w') !! do_id o = Some o' /\ (attempts_exhausted o = true -> do_state o' = OFailed).
Proof.
  intros [Ho Hs]. unfold reap_operation. intros Hm.
  apply tbind_Ok in Hm as (attempt & w1 & [_ ->]%sql_Ok & Hm).
  apply tbind_Ok in Hm as (t & w2 & [_ ->]%clock_Ok & Hm).
  apply tbind_Ok in Hm as (? & w3 & (rows & n & Hu & E3)%update_operation_attempt_Ok & Hm). cbn [db] in Hu, E3.
  apply tbind_Ok in Hm as (k & w4 & H4 & [_ ->]%tret_Ok).
  eapply (update_operation_Ok _ _ _ _ _ _ o) in H4 as [_ E4]; [|by rewrite E3]. rewrite E3 in E4. rewrite E4. split_and!.
  - apply (attempt_and_operation _ _ _ o); [|done|].
    + eapply evolves_update_pk; [exact Hu|]. intros a a' _ Hc [= <-] _. cbn beta in Hc. bool_simpl. by apply oat_end.
    + destruct (attempts_exhausted o); by apply op_end.
  - intros p Hne [Hp Hps]. split; [|done]. cbn. by rewrite lookup_insert_ne.
  - eexists. cbn. rewrite lookup_insert_eq. split; [done|]. by intros ->.
Qed.

Lemma each_reaped l env w w' u : NoDup (map do_id l) -> (forall o, o ∈ l -> running_operation (db w) o) ->
  each (reap_operation (P := P)) l env w = (Ok u, w') -> tb_kept (db w) (db w').
Proof.
  revert w. induction l as [|o l IH]; intros w Hnd Hq; cbn [each]; [by intros [_ ->]%tret_Ok|].
  apply NoDup_cons in Hnd as [Hn Hnd]. intros Hm. apply tbind_Ok in Hm as (v & w1 & Ho & Hm).
  apply reap_operation_Ok in Ho as (Hs & Hother & _); [|apply Hq; by left].
  etrans; [exact Hs|]. apply (IH w1); [done| |done]. intros p Hp. apply Hother.
  - intros E. apply Hn. rewrite <- E. apply list_elem_of_fmap. eauto.
  - apply Hq. by right.
Qed.

Lemma operation_keys b : data_ok (tb_rl b) -> NoDup (map do_id (map snd (map_to_list (tb_operations b)))).
Proof.
  intros Hok. rewrite map_map.
  replace (map (fun kr => do_id kr.2) (map_to_list (tb_operations b)))
    with ((map_to_list (tb_operations b)).*1); [apply NoDup_fst_map_to_list|].
  apply map_ext_in. intros [k o] Hin%list_elem_of_In. apply elem_of_map_to_list in Hin.
  symmetry. by apply (Hok _ _ Hin).
Qed.

Lemma expired_operations_running b now locked : data_ok (tb_rl b) ->
  NoDup (map do_id (expired_operations b now locked))
  /\ forall o, o ∈ expired_operations b now locked -> running_operation b o.
Proof.
  intros Hok. unfold expired_operations. split.
  - eapply NoDup_map_sublist; [apply sublist_take|].
    eapply NoDup_Permutation_proper; [apply fmap_Permutation, merge_sort_Permutation|].
    eapply NoDup_map_sublist; [apply sublist_filter|]. by apply operation_keys.
  - intros o Ho%(subseteq_take 64). rewrite merge_sort_Permutation in Ho.
    apply list_elem_of_filter in Ho as [Hc ([k o'] & -> & Hin%elem_of_map_to_list)%list_elem_of_fmap].
    unfold operation_over in Hc. cbn in *. bool_simpl. split; [|done].
    by rewrite (oo_id _ _ (Hok _ _ Hin)).
Qed.

Lemma reap_by env w w' u : reap_expired_operations (P := P) env w = (Ok u, w') -> tb_by (db w) (db w').
Proof.
  unfold reap_expired_operations. intros Hm Hok. apply tbind_Ok in Hm as (now & w1 & [_ ->]%clock_Ok & Hm).
  apply tbind_Ok in Hm as (locked & w2 & [_ ->]%locked_rows_Ok & Hm).
  apply tbind_Ok in Hm as (d & w3 & [-> ->]%get_db_Ok & Hm). cbn [db] in Hm.
  destruct (expired_operations_running _ now locked Hok) as [Hnd Hrows]. by apply each_reaped in Hm.
Qed.

(** *** A lease *)

Lemma next_operation_Some b kinds locked o : data_ok (tb_rl b) -> next_operation b kinds locked = Some o ->
  tb_operations b !! do_id o = Some o /\ waiting_op (do_state o) = true.
Proof.
  intros Hok (k & Hk & Hw)%select_first_in. rewrite (oo_id _ _ (Hok _ _ Hk)). split; [done|].
  unfold waiting in Hw. by bool_simpl.
Qed.

Lemma mark_begun_done o : keeps tb_done (mark_begun (P := P) Y o).
Proof.
  unfold mark_begun. case_bool_decide.
  - keeps_step; [|keeps_ro]. apply update_database_done. intros t t' Hc%bool_decide_eq_true Hf.
    eapply database_in_step; [exact Hf|]. rewrite Hc. constructor.
  - destruct (spec_recovery _ _); [|keeps_ro]. case_bool_decide; [|keeps_ro]. keeps_step; [|keeps_ro].
    apply update_recovery_done. intros r Hc%bool_decide_eq_true. split; [done|]. cbn. rewrite Hc. constructor.
Qed.

Lemma start_operation_Ok o worker env w v w' : data_ok (tb_rl (db w)) ->
  tb_operations (db w) !! do_id o = Some o -> waiting_op (do_state o) = true -> attempts_exhausted o = false ->
  start_operation Y st o worker env w = (Ok v, w') -> tb_kept (db w) (db w').
Proof.
  intros Hok Ho Hw He. unfold start_operation. cbn zeta. intros Hm.
  apply tbind_Ok in Hm as (attempt & w1 & [_ ->]%new_uuid_Ok & Hm).
  apply tbind_Ok in Hm as (started & w2 & [_ ->]%clock_Ok & Hm).
  apply tbind_Ok in Hm as (now & w3 & [_ ->]%clock_Ok & Hm). cbn [db ticks drawn] in Hm.
  apply tbind_Ok in Hm as (? & w4 & H4 & Hm).
  assert (Hin : exists rows, evolves attempt_step attempt_starts (tb_attempts (db w)) rows
                  /\ db w4 = set_tb_attempts rows (db w)).
  { apply tbind_Ok in H4 as (d & w5 & [-> ->]%get_db_Ok & H4).
    apply tbind_Ok in H4 as (rows & w6 & [Hi ->]%sql_Ok & ->%put_db_Ok). exists rows. split; [|done].
    by eapply evolves_insert_pk. }
  destruct Hin as (rows & Hev & E4).
  apply tbind_Ok in Hm as (n & w5 & H5 & Hm).
  eapply (update_operation_Ok _ _ _ _ _ _ o) in H5 as [Hck E5]; [|by rewrite E4]. rewrite E4 in E5.
  apply tbind_Ok in Hm as (? & w6 & [Hb _]%mark_begun_done & Hm).
  apply tbind_Ok in Hm as (record & w7 & [_ ->]%lift_Ok & [_ ->]%tret_Ok).
  etrans; [|exact Hb]. rewrite E5. apply (attempt_and_operation _ _ _ o); [done|done|].
  destruct (Hok _ _ Ho) as [_ Hf _]. unfold operation_check in Hck. cbn in Hck. bool_simpl.
  destruct (next_fence (do_fence o)) as [Ew Hle]; [done|lia|].
  apply op_lease; cbn; try done; [|lia]. unfold attempts_exhausted in He. lia.
Qed.

Lemma lease_operation_by q : keeps tb_by (lease_operation Y st q).
Proof.
  unfold lease_operation. do 3 keeps_step. keeps_step. intros env w r w' Hm Hok.
  apply tbind_Ok in Hm as (? & w1 & Hr%reap_by & Hm). specialize (Hr Hok). pose proof (kept_ok _ _ Hr Hok) as Hok1.
  apply tbind_Ok in Hm as (locked & w2 & [_ ->]%locked_rows_Ok & Hm).
  apply tbind_Ok in Hm as (d & w3 & [-> ->]%get_db_Ok & Hm).
  destruct (next_operation _ _ _) as [o|] eqn:Hn; [|by apply tret_Ok in Hm as [_ ->]].
  apply (next_operation_Some _ _ _ _ Hok1) in Hn as [Ho Hw]. etrans; [exact Hr|].
  destruct (attempts_exhausted o) eqn:He.
  - apply tbind_Ok in Hm as (n & w4 & H4 & [_ ->]%tret_Ok).
    eapply (update_operation_Ok _ _ _ _ _ _ o) in H4 as [_ E4]; [|done]. rewrite E4. apply operations_kept.
    eapply evolves_update; [exact Ho|]. unfold attempts_exhausted in He. apply op_exhausted; try done. cbn. lia.
  - apply tbind_Ok in Hm as (v & w4 & H4 & [_ ->]%tret_Ok). by eapply start_operation_Ok.
Qed.

Lemma ok_or_Ok {A} (x : option A) (e : ApiError) a : ok_or x e = Ok a -> x = Some a.
Proof. destruct x; [by intros [= ->]|done]. Qed.

Lemma live_operation_Some b id q now o : live_operation b id q now = Some o ->
  tb_operations b !! id = Some o /\ do_state o = ORunning /\ do_current o = Some (lid_attempt q)
  /\ do_fence o = lid_fence q /\ is_some_and (fun l => now <? l)%Z (do_lease o) = true
  /\ exists a, own_attempt b id q = Some a /\ oa_state a = AtRunning /\ (now < oa_lease a)%Z.
Proof.
  unfold live_operation. intros (o1 & Ho & H)%bind_Some. apply bind_Some in H as (a & Ha & H).
  unfold where_ in H. destruct (_ && _) eqn:E; [|done]. injection H as <-. bool_simpl. split_and!; try done.
  exists a. split_and!; try done.
Qed.

Lemma renew_operation_by id q : keeps tb_by (renew_operation Y st id q).
Proof.
  unfold renew_operation. do 2 keeps_step. apply keeps_lift; [apply _|intros key _]. do 2 keeps_step.
  intros env w r w' Hm Hok. cbn zeta in Hm.
  apply tbind_Ok in Hm as (now & w1 & [_ ->]%clock_Ok & Hm).
  apply tbind_Ok in Hm as (d & w2 & [-> ->]%get_db_Ok & Hm).
  apply tbind_Ok in Hm as (o & w3 & [Hl ->]%lift_Ok & Hm). cbn [db] in Hm, Hl.
  apply ok_or_Ok, live_operation_Some in Hl as (Ho & Hs & Hcur & Hf & _).
  apply tbind_Ok in Hm as (n & w4 & H4 & Hm).
  eapply (update_operation_Ok _ _ _ _ _ _ o) in H4 as [_ E4]; [|done]. cbn [db] in E4.
  apply tbind_Ok in Hm as (? & w5 & H5 & [_ ->]%tret_Ok).
  apply update_operation_attempt_kept in H5; [|intros a' _; by apply oat_renew].
  etrans; [|exact H5]. rewrite E4. apply operations_kept. eapply evolves_update; [exact Ho|]. by apply op_renew.
Qed.

Lemma resolve_credentials_kept id q : keeps kept (resolve_credentials Y st id q).
Proof. unfold resolve_credentials. tenant_walk. Qed.

(** *** A completion *)

Lemma completed_attempt_ends s : completed_attempt s <> AtRunning.
Proof. unfold completed_attempt. by repeat case_bool_decide. Qed.
Lemma completed_operation_ends s : one_of (completed_operation s) [ORetriable; OSucceeded; OFailed] = true.
Proof. unfold completed_operation. by repeat case_bool_decide. Qed.

(** What a completion leaves: the attempt and its operation have ended. *)
Record finished id o (q : LeaseIdentity) (outcome : OperationOutcome) (hash : bytes) b b' : Prop := {
  fi_kept : tb_kept b b';
  fi_operation : tb_operations b' = <[id := ended_operation o (completed_operation (oo_state outcome))
    (Some (stored_proof (oo_code outcome) (oo_proof outcome)))]> (tb_operations b);
  fi_attempt : exists t a, tb_attempts b !! lid_attempt q = Some a /\ tb_attempts b' = <[lid_attempt q :=
    with_operation_attempt a (completed_attempt (oo_state outcome)) (oa_lease a) (Some t) (Some (oo_code outcome))
      (Some hash)]> (tb_attempts b);
}.

Lemma own_attempt_Some b id q a : own_attempt b id q = Some a ->
  tb_attempts b !! lid_attempt q = Some a /\ oa_operation a = id /\ oa_fence a = lid_fence q
  /\ oa_worker a = lid_worker q.
Proof.
  unfold own_attempt. intros (a1 & Ha & H)%bind_Some. unfold where_ in H. destruct (_ && _) eqn:E; [|done].
  injection H as <-. bool_simpl. split_and!; try done.
Qed.

Lemma finish_operation_Ok id o q outcome hash a env w u w' : data_ok (tb_rl (db w)) ->
  tb_operations (db w) !! id = Some o -> do_state o = ORunning ->
  own_attempt (db w) id q = Some a -> oa_state a = AtRunning ->
  finish_operation Y N o q outcome hash env w = (Ok u, w') -> finished id o q outcome hash (db w) (db w').
Proof.
  intros Hok Ho Hs Ha Has. pose proof (oo_id _ _ (Hok _ _ Ho)) as Hid. subst id. unfold finish_operation. intros Hm.
  apply tbind_Ok in Hm as (? & w1 & (Hk & Eo & Ea)%apply_completion_Ok & Hm).
  apply tbind_Ok in Hm as (t & w2 & [_ ->]%clock_Ok & Hm).
  apply tbind_Ok in Hm as (? & w3 & (rows & n & Hu & E3)%update_operation_attempt_Ok & Hm). cbn [db] in Hu, E3.
  apply tbind_Ok in Hm as (k & w4 & H4 & [_ ->]%tret_Ok).
  apply own_attempt_Some in Ha as (Ha & Hao & Haf & _). rewrite Ea in Hu.
  apply update_pk_Some in Hu as [(_ & _ & Hc)|(_ & a1 & a2 & Ha1 & Hc & [= <-] & _ & ->)].
  { specialize (Hc _ Ha). rewrite Hao, Haf, bool_decide_eq_true_2, Z.eqb_refl in Hc by done. done. }
  assert (a1 = a) as -> by congruence.
  eapply (update_operation_Ok _ _ _ _ _ _ o) in H4 as [_ E4]; [|rewrite E3; cbn; by rewrite <- Ho, <- Eo].
  rewrite E3 in E4. split.
  - etrans; [exact Hk|]. rewrite E4. apply (attempt_and_operation _ _ _ o).
    + rewrite Ea. eapply evolves_update; [exact Ha|]. apply oat_end; [done|done|]. apply completed_attempt_ends.
    + by rewrite Eo.
    + apply op_end; try done. apply completed_operation_ends.
  - rewrite E4. cbn. change (tb_operations (set_tb_attempts ?x ?y)) with (tb_operations y). by rewrite Eo.
  - exists t, a. split; [done|]. by rewrite E4.
Qed.

Lemma reject_cases {D A} c e (k : unit -> M D A) env (w w' : World D) r : tbind (reject_if c e) k env w = (r, w') ->
  (c = true /\ r = Err e /\ w' = w) \/ (c = false /\ k tt env w = (r, w')).
Proof. unfold tbind, reject_if. destruct c; cbn; [intros [= <- <-]|]; auto. Qed.

(** A completion that takes effect. *)
Record takes_effect (id_text : string) (q : OperationRequest) (id : Uuid) o (c : OperationCompletion) b b' : Prop := {
  te_enabled : is_ok (require_enabled (rg_m3 st)) = true;
  te_worker : valid_database_worker (lid_worker (orq_live q)) = Ok tt;
  te_valid : valid_completion (orq_outcome q) = true;
  te_id : path_uuid (y_parse_uuid Y) id_text = Ok id;
  te_fence : (0 < lid_fence (orq_live q))%Z;
  te_operation : tb_operations b !! id = Some o;
  te_live : do_state o = ORunning /\ do_current o = Some (lid_attempt (orq_live q)) /\ do_fence o = lid_fence (orq_live q);
  te_attempt : exists a, own_attempt b id (orq_live q) = Some a /\ oa_state a = AtRunning;
  te_effect : ocp_effect c = {| oef_id := id; oef_kind := do_kind o; oef_created := true |};
  te_applied : exists env t k w, apply_completion Y N o (orq_outcome q) env (MkWorld b t k) = (Ok tt, w);
  te_finished : finished id o (orq_live q) (orq_outcome q) (n_outcome_hash N (orq_outcome q)) b b';
}.

(** A completion changes nothing, or ends the operation it is about. *)
Lemma complete_operation_cases id_text q env w r w' : data_ok (tb_rl (db w)) ->
  complete_operation Y N st id_text q env w = (r, w') ->
  (db w' = db w /\ forall c, r = Ok c -> oef_created (ocp_effect c) = false) \/
  exists id o c, r = Ok c /\ takes_effect id_text q id o c (db w) (db w').
Proof.
  intros Hok. unfold complete_operation. cbn zeta. intros Hm.
  apply lift_cases in Hm as [(e & _ & -> & ->)|(m3 & Hen & Hm)]; [by left|].
  apply lift_cases in Hm as [(e & _ & -> & ->)|([] & Hwk & Hm)]; [by left|].
  apply reject_cases in Hm as [(_ & -> & ->)|[Hvalid%negb_false_iff Hm]]; [by left|].
  apply lift_cases in Hm as [(e & _ & -> & ->)|(id & Hid & Hm)]; [by left|].
  apply reject_cases in Hm as [(_ & -> & ->)|[Hpos%Z.leb_gt Hm]]; [by left|].
  apply transaction_cases in Hm as [(e & -> & ->)|Hm]; [by left|].
  apply tbind_Ok in Hm as (d & w1 & [-> ->]%get_db_Ok & Hm).
  apply tbind_Ok in Hm as (o & w2 & [Ho%ok_or_Ok ->]%lift_Ok & Hm). destruct (_ && _) eqn:E in Hm.
  - right. bool_simpl. apply tbind_Ok in Hm as (now & w3 & [_ ->]%clock_Ok & Hm).
    apply tbind_Ok in Hm as (? & w4 & [Hv ->]%reject_if_Ok & Hm). apply negb_false_iff in Hv.
    destruct (own_attempt _ _ _) as [a|] eqn:Ha; [|done]. cbn in Hv. bool_simpl.
    apply tbind_Ok in Hm as (? & w5 & Hf & Hm). pose proof Hf as Happ.
    unfold finish_operation in Happ. apply tbind_Ok in Happ as ([] & w7 & Happ & _).
    eapply (finish_operation_Ok id o _ _ _ a) in Hf; [|done..]. cbn [db] in Hf.
    apply tbind_Ok in Hm as (d' & w6 & [-> ->]%get_db_Ok & Hm).
    do 2 apply tbind_Ok in Hm as (? & ? & [_ ->]%lift_Ok & Hm). apply tret_Ok in Hm as [-> ->].
    exists id, o. eexists. split; [done|]. split; try done; [by rewrite Hen|by exists a|by repeat eexists].
  - left. apply tbind_Ok in Hm as (? & w4 & [_ ->]%reject_if_Ok & Hm).
    apply tbind_Ok in Hm as (? & ? & [_ ->]%lift_Ok & Hm). apply tret_Ok in Hm as [-> ->].
    split; [done|]. by intros c [= <-].
Qed.

Lemma complete_operation_by id q : keeps tb_by (complete_operation Y N st id q).
Proof.
  intros env w r w' Hm Hok.
  apply (complete_operation_cases _ _ _ _ _ _ Hok) in Hm as [[-> _]|(? & o & c & _ & Ht)]; [done|]. apply Ht.
Qed.
End Handlers.
