(* ===== verification/TenantTheorems.v ===== *)
(** * Tenant databases: the theorems

    Executions in which the requests of releases and of tenant databases interleave:
    what holds of every state they reach, what completions and credentials mean, what a
    tick of the scheduler guarantees. *)

From stdpp Require Import base list option gmap strings relations sorting.
From Stdlib Require Import ZArith Lia Ascii.
From S2P Require Import Prelude RustText Bytes PgTx Intent Secrets Admission PolicyClock.
From S2P Require Import ProjectContract ExecutionTables BuildTables Credentials RuntimeEvidence Runtime.
From S2P Require Import ReleaseTables ReleaseEvidence ReleaseReceipts Migrations Releases ReleaseSpec ReleaseSteps ReleaseTheorems.
From S2P Require Import TableHistory TenantTables TenantCompletion Tenants TenantLeases TenantSpec ReleaseData TenantSteps.

Local Open Scope string_scope.
Local Open Scope list_scope.

(** ** Executions *)

Section Executions.
Context {P : Type} `{FactRefresh P}.
Context (Y : ReleaseExternals) (N : TenantExternals) (st : ReleaseConfig).
Implicit Types (b : TbDb P) (w : World (TbDb P)).

(** The requests that releases answer. *)
Inductive release_request : forall {A}, M (RlDb P) A -> Prop :=
| rq_stage caller project deployment headers q :
    release_request (stage_release Y st caller project deployment headers q)
| rq_list caller project : release_request (list_releases Y st caller project)
| rq_rollback caller project release headers : release_request (request_rollback Y st caller project release headers)
| rq_prepare caller project deployment headers q :
    release_request (prepare_migration_trial Y st caller project deployment headers q)
| rq_lease worker : release_request (lease_reconciliation Y st worker)
| rq_renew id q : release_request (renew_reconciliation Y st id q)
| rq_credential id q : release_request (resolve_probe_credential Y st id q)
| rq_complete id q : release_request (complete_reconciliation Y st id q)
| rq_activate id q : release_request (activate_reconciliation Y st id q).

Lemma release_request_steps {A} (m : M (RlDb P) A) : release_request m ->
  keeps (by_steps Y) m /\ keeps rl_kept m.
Proof.
  destruct 1; split.
  - apply stage_steps.
  - apply rl_stage_kept.
  - apply list_steps.
  - apply rl_list_kept.
  - apply rollback_steps.
  - apply rl_rollback_kept.
  - apply prepare_migration_steps.
  - apply rl_prepare_kept.
  - apply rl_lease_steps.
  - apply rl_lease_kept.
  - apply rl_renew_steps.
  - apply rl_renew_kept.
  - apply resolve_probe_credential_steps.
  - apply resolve_probe_kept.
  - apply rl_complete_steps.
  - apply rl_complete_kept.
  - apply activate_steps.
  - apply rl_activate_kept.
Qed.

(** The requests of owners, of the scheduler and of the workers of databases; and those
    of releases, on the tables they share. *)
Inductive tenant_request : forall {A}, M (TbDb P) A -> Prop :=
| tq_create caller project deployment headers q :
    tenant_request (create_database Y N st caller project deployment headers q)
| tq_get caller project service : tenant_request (get_database Y st caller project service)
| tq_backups caller project service : tenant_request (list_backups Y st caller project service)
| tq_create_export caller project service headers : tenant_request (create_export Y N st caller project service headers)
| tq_export caller project service archive : tenant_request (get_export Y st caller project service archive)
| tq_create_recovery caller project service headers archive :
    tenant_request (create_recovery Y N st caller project service headers archive)
| tq_recovery caller project service recovery : tenant_request (get_recovery Y st caller project service recovery)
| tq_tick : tenant_request (scheduler_tick Y N st)
| tq_lease q : tenant_request (lease_operation Y st q)
| tq_renew id q : tenant_request (renew_operation Y st id q)
| tq_credentials id q : tenant_request (resolve_credentials Y st id q)
| tq_complete id q : tenant_request (complete_operation Y N st id q)
| tq_release {A} (m : M (RlDb P) A) : release_request m -> tenant_request (in_rl m).

(** The other components leave these tables alone. *)
Inductive tb_api w w' : Prop :=
| api_request {A} (m : M (TbDb P) A) env r : tenant_request m -> m env w = (r, w') -> tb_api w w'
| api_others : rl_frame (tb_rl (db w)) (tb_rl (db w')) -> same_data (tb_rl (db w)) (tb_rl (db w')) ->
    tb_attempts (db w') = tb_attempts (db w) -> tb_api w w'.

(** What a step does to both components. *)
Record both_move b b' : Prop := {
  bt_releases : by_steps Y (tb_rl b) (tb_rl b');
  bt_data : data_moves (tb_rl b) (tb_rl b');
  bt_counts : counts_kept (tb_rl b) (tb_rl b');
  bt_attempts : evolves attempt_step attempt_starts (tb_attempts b) (tb_attempts b');
}.
#[export] Instance both_move_preorder : PreOrder both_move.
Proof. split; [by intros b; split|]. intros b1 b2 b3 [] []. split; by etrans. Qed.

Lemma kept_both b b' : tb_kept b b' -> both_move b b'.
Proof. intros [[Hf Hd Ha] Hc]. split; try done. by apply rl_frame_by_steps. Qed.

Lemma tb_api_moves w w' : tb_api w w' -> data_ok (tb_rl (db w)) -> both_move (db w) (db w').
Proof.
  intros [A m env r Hm Hr|Hf Hd Ha] Hok; [|by apply kept_both, kept_frame; [|apply same_data_kept|]].
  destruct Hm as [| | | | | | | |q|id q| |id q|A m Hm].
  1-12: apply kept_both.
  - by eapply create_database_kept.
  - by eapply get_database_kept.
  - by eapply list_backups_kept.
  - by eapply create_export_kept.
  - by eapply get_export_kept.
  - by eapply create_recovery_kept.
  - by eapply get_recovery_kept.
  - by eapply scheduler_tick_kept.
  - by eapply lease_operation_by.
  - by eapply renew_operation_by.
  - by eapply resolve_credentials_kept.
  - by eapply complete_operation_by.
  - apply release_request_steps in Hm as [Hs Hk]. unfold in_rl, zoom in Hr.
    destruct (m _ _) as [r' w1] eqn:E. injection Hr as _ <-. cbn. apply Hk in E as Hd. apply Hs in E. cbn in *.
    split; [done|apply Hd|apply Hd|done].
Qed.

Lemma tb_apis_move w w' : rtc tb_api w w' -> data_ok (tb_rl (db w)) -> both_move (db w) (db w').
Proof.
  induction 1 as [w|w w1 w' H1 _ IH]; [done|]. intros Hok. pose proof (tb_api_moves _ _ H1 Hok) as Hm.
  etrans; [exact Hm|]. apply IH. by eapply data_moves_ok; [apply Hm|].
Qed.

(** No release and no tenant database yet. *)
Definition tb_fresh b : Prop :=
  rl_fresh (tb_rl b) /\ databases b = ∅ /\ tb_operations b = ∅ /\ tb_migrations b = ∅.

Lemma fresh_data_ok b : tb_fresh b -> data_ok (tb_rl b).
Proof. intros (_ & _ & Ho & _) k o. unfold operations. change (database_operations _) with (tb_operations b). by rewrite Ho, lookup_empty. Qed.
Lemma fresh_counted b : tb_fresh b -> counted (tb_rl b).
Proof.
  intros (_ & Hd & _ & Hm). split; intros k x; [change (tenant_databases _) with (databases b)|change (migrations _) with (tb_migrations b)];
    by rewrite ?Hd, ?Hm, lookup_empty.
Qed.

Lemma reachable_data_ok w w' : tb_fresh (db w) -> rtc tb_api w w' -> data_ok (tb_rl (db w')).
Proof. intros Hf%fresh_data_ok Hr. eapply data_moves_ok; [|exact Hf]. by apply tb_apis_move. Qed.
Lemma reachable_counted w w' : tb_fresh (db w) -> rtc tb_api w w' -> counted (tb_rl (db w')).
Proof. intros Hf Hr. apply (tb_apis_move _ _ Hr (fresh_data_ok _ Hf)). by apply fresh_counted. Qed.
Lemma reachable_releases_ok w w' : tb_fresh (db w) -> rtc tb_api w w' -> rl_ok Y (tb_rl (db w')).
Proof.
  intros Hf Hr. pose proof (fresh_rl_ok Y _ (proj1 Hf)) as Hok.
  eapply rl_steps_ok; [|exact Hok]. by apply (tb_apis_move _ _ Hr (fresh_data_ok _ Hf)).
Qed.
End Executions.

(** ** Histories of rows *)

Lemma same_database_trans t u v : same_database t u -> same_database u v -> same_database t v.
Proof. intros [] []. split; congruence. Qed.
Lemma same_archive_trans a b c : same_archive a b -> same_archive b c -> same_archive a c.
Proof. intros [] []. split; congruence. Qed.
Lemma same_receipt_trans a b c : same_receipt a b -> same_receipt b c -> same_receipt a c.
Proof. intros [] []. split; congruence. Qed.
Lemma same_operation_trans a b c : same_operation a b -> same_operation b c -> same_operation a c.
Proof. intros [] []. split; congruence. Qed.
Lemma same_migration_trans a b c : same_migration a b -> same_migration b c -> same_migration a c.
Proof. intros [] []. split; congruence. Qed.

(** A database keeps its identity and its limits; its counters only go up; once it is read
    only, or has failed, it stays so. *)
Record database_history (t t' : TenantDatabase) : Prop := {
  dh_same : same_database t t';
  dh_revision : (td_revision t <= td_revision t')%Z;
  dh_source : (td_source t <= td_source t')%Z;
  dh_mode : td_mode t = ReadOnlyOverLimit -> td_mode t' = ReadOnlyOverLimit;
  dh_ready : td_state t = DbReady -> td_state t' = DbReady \/ td_state t' = DbFailedResourcesRetained;
  dh_failed : td_state t = DbFailedResourcesRetained -> td_state t' = DbFailedResourcesRetained;
}.
#[export] Instance database_history_preorder : PreOrder database_history.
Proof.
  split; [intros t; split; auto; [by split|lia..]|]. intros t u v [] []. split; [by eapply same_database_trans|lia|lia|auto..|auto].
  intros E. destruct dh_ready0 as [E'|E']; auto.
Qed.
Lemma database_step_history t t' : database_step t t' -> database_history t t'.
Proof.
  intros [Hs Hm Hr Hso Hmo]. split; [done|lia|lia|done|..]; intros E; rewrite E in Hm;
    inversion Hm as [s|s|s Ho|s]; auto; by vm_compute in Ho.
Qed.

(** An archive keeps its identity, and its receipt once it has ended; it can only be
    deleted. *)
Record archive_history (a a' : Archive) : Prop := {
  ah_same : same_archive a a';
  ah_receipt : ax_state a <> ArCreating -> same_receipt a a';
  ah_state : ax_state a <> ArCreating -> ax_state a' = ax_state a \/ ax_state a' = ArDeleted;
}.
#[export] Instance archive_history_preorder : PreOrder archive_history.
Proof.
  split; [intros a; split; auto; by split|]. intros a b c [S1 R1 T1] [S2 R2 T2].
  split; [by eapply same_archive_trans|..]; intros Ha; specialize (R1 Ha); specialize (T1 Ha).
  - assert (Hb : ax_state b <> ArCreating) by (destruct T1 as [->| ->]; done). eapply same_receipt_trans; [exact R1|by apply R2].
  - assert (Hb : ax_state b <> ArCreating) by (destruct T1 as [->| ->]; done).
    destruct (T2 Hb) as [E| E], T1 as [E'|E']; rewrite ?E'; intuition congruence.
Qed.
Lemma archive_step_history a a' : archive_step a a' -> archive_history a a'.
Proof.
  intros [Hs E E'|Hs Hr E E'|Hs Hr E E']; split; try done; intros Hn; try congruence. by right.
Qed.

(** An operation keeps what it is to do; its attempts and fence only go up, and what has
    ended stays as it is. *)
Record operation_history (o o' : DatabaseOperation) : Prop := {
  ph_same : same_operation o o';
  ph_attempts : (do_attempts o <= do_attempts o')%Z;
  ph_fence : (do_fence o <= do_fence o')%Z;
  ph_ended : ended_op (do_state o) = true -> o' = o;
}.
#[export] Instance operation_history_preorder : PreOrder operation_history.
Proof.
  split; [intros o; split; auto; [by split|lia..]|]. intros a b c [S1 A1 F1 E1] [S2 A2 F2 E2].
  split; [by eapply same_operation_trans|lia|lia|]. intros He. specialize (E1 He). subst b. by apply E2.
Qed.
Lemma operation_step_history o o' : operation_step o o' -> operation_history o o'.
Proof.
  intros H. split.
  - by destruct H.
  - destruct H; lia.
  - destruct H; lia.
  - intros He. eapply ended_stays; [by apply rtc_once|done].
Qed.

(** A migration keeps what it was planned with, and once it is applied or has failed it
    stays as it is. *)
Definition ended_migration (m : Migration) : bool := one_of (mg_state m) [MApplied; MFailed].
Record migration_history (m m' : Migration) : Prop := {
  gh_same : same_migration m m';
  gh_ended : ended_migration m = true -> m' = m;
}.
#[export] Instance migration_history_preorder : PreOrder migration_history.
Proof.
  split; [intros m; split; auto; by split|]. intros a b c [S1 E1] [S2 E2].
  split; [by eapply same_migration_trans|]. intros He. specialize (E1 He). subst b. by apply E2.
Qed.
Lemma migration_step_history m m' : migration_step m m' -> migration_history m m'.
Proof.
  intros H. split; [by destruct H|]. unfold ended_migration. intros He. exfalso.
  destruct H as [_ E|_ E|_ E|_ E|e _ E]; rewrite E in He; by vm_compute in He.
Qed.

Record tenant_history {P} (d d' : RlDb P) : Prop := {
  hi_databases : forall k t, tenant_databases (tables d) !! k = Some t ->
    exists t', tenant_databases (tables d') !! k = Some t' /\ database_history t t';
  hi_archives : forall k a, archives d !! k = Some a -> exists a', archives d' !! k = Some a' /\ archive_history a a';
  hi_operations : forall k o, operations d !! k = Some o ->
    exists o', operations d' !! k = Some o' /\ operation_history o o';
  hi_migrations : forall k m, migrations d !! k = Some m ->
    exists m', migrations d' !! k = Some m' /\ migration_history m m';
  hi_credentials : database_credentials (tables d) ⊆ database_credentials (tables d');
}.

Lemma evolves_history {A} (R S : relation A) Q `{!PreOrder S} t t' k r : (forall r r', R r r' -> S r r') ->
  evolves R Q t t' -> t !! k = Some r -> exists r', t' !! k = Some r' /\ S r r'.
Proof.
  intros HRS He Hk. destruct (evolves_row _ _ _ _ _ _ He Hk) as (r' & Hk' & Hr). exists r'. split; [done|].
  by eapply rtc_respects.
Qed.

Lemma data_moves_history {P} (d d' : RlDb P) : data_moves d d' -> tenant_history d d'.
Proof.
  intros [Hd Hc _ Ho Ha Hm _]. split.
  - intros k t. eapply evolves_history; [apply _|apply database_step_history|done].
  - intros k a. eapply evolves_history; [apply _|apply archive_step_history|done].
  - intros k o. eapply evolves_history; [apply _|apply operation_step_history|done].
  - intros k m. eapply evolves_history; [apply _|apply migration_step_history|done].
  - apply map_subseteq_spec. intros k c Hk. destruct (evolves_row _ _ _ _ _ _ Hc Hk) as (c' & Hk' & Hr).
    rewrite Hk'. by inversion Hr.
Qed.

(** ** Completions *)

Section Completions.
Context {P : Type} `{FactRefresh P}.
Context (Y : ReleaseExternals) (N : TenantExternals) (st : ReleaseConfig).
Implicit Types (b : TbDb P) (w : World (TbDb P)).

(** The operation has gone past the lease with this fence. *)
Definition past_fence (f : Z) (o : DatabaseOperation) : Prop :=
  (f < do_fence o)%Z \/ do_fence o = f /\ do_state o <> ORunning.
Lemma past_step f o o' : operation_step o o' -> past_fence f o -> past_fence f o'.
Proof.
  unfold past_fence. intros Hs [Hf|[Hf Hr]].
  - left. destruct Hs; lia.
  - destruct Hs as [_ E|_ _ _ _ _ E|_ E|_ _ E _ _ E']; [done|left; lia|done|right].
    split; [congruence|by rewrite E].
Qed.

Record completed_with b (id : Uuid) (q : LeaseIdentity) (outcome : OperationOutcome) (hash : bytes) : Prop := {
  cw_attempt : exists a, own_attempt b id q = Some a /\ oa_state a = completed_attempt (oo_state outcome)
    /\ oa_hash a = Some hash;
  cw_operation : exists o, tb_operations b !! id = Some o /\ past_fence (lid_fence q) o;
}.

Lemma attempt_ended_stays a a' : rtc attempt_step a a' -> oa_state a <> AtRunning ->
  same_attempt a a' /\ oa_state a' = oa_state a /\ oa_hash a' = oa_hash a.
Proof.
  intros Hr. induction Hr as [a|a a1 a' Hs _ IH]; intros He; [by split_and!|].
  destruct Hs as [[? ? ? ? ?] E1 E2|_ E _]; [|congruence].
  destruct IH as ([? ? ? ? ?] & ? & ?); [by rewrite E1|]. split_and!; [split|..]; congruence.
Qed.

Lemma completed_with_stays b b' id q outcome hash : both_move Y b b' -> completed_with b id q outcome hash ->
  completed_with b' id q outcome hash.
Proof.
  intros [_ Hd _ Ha] [(a & Hown & Hs & Hh) (o & Ho & Hp)]. split.
  - apply own_attempt_Some in Hown as (Hl & E1 & E2 & E3).
    destruct (evolves_row _ _ _ _ _ _ Ha Hl) as (a' & Hl' & Hr).
    apply attempt_ended_stays in Hr as ([_ S1 _ S2 S3] & S4 & S5); [|rewrite Hs; apply completed_attempt_ends].
    exists a'. split_and!; [|congruence..]. unfold own_attempt. rewrite Hl'. csimpl. unfold where_.
    by rewrite S1, S2, S3, E1, E2, E3, Z.eqb_refl, !bool_decide_eq_true_2 by done.
  - destruct (evolves_row _ _ _ _ _ _ (mv_operations _ _ Hd) Ho) as (o' & Ho' & Hr). exists o'. split; [done|].
    clear -Hr Hp. induction Hr; eauto using past_step.
Qed.

Lemma completed_text s : one_of s ["succeeded"; "failed"; "retriable"] = true ->
  attempt_state_text (completed_attempt s) = s.
Proof.
  unfold one_of, completed_attempt. intros Hs%bool_decide_eq_true.
  repeat (apply elem_of_cons in Hs as [->|Hs]; [done|]). by apply elem_of_nil in Hs.
Qed.

Lemma finished_completed id o a q outcome hash b b' : tb_operations b !! id = Some o -> do_fence o = lid_fence q ->
  own_attempt b id q = Some a -> finished id o q outcome hash b b' -> completed_with b' id q outcome hash.
Proof.
  intros Ho Hf Hown [_ Eo (t & a1 & Ha & Ea)]. apply own_attempt_Some in Hown as (Hl & E1 & E2 & E3).
  assert (a1 = a) as -> by congruence. split.
  - eexists. unfold own_attempt. rewrite Ea, lookup_insert_eq. csimpl. unfold where_.
    by rewrite E1, E2, E3, Z.eqb_refl, !bool_decide_eq_true_2 by done.
  - eexists. rewrite Eo, lookup_insert_eq. split; [done|]. right. split; [done|]. cbn.
    pose proof (completed_operation_ends (oo_state outcome)) as He. intros E. rewrite E in He. by vm_compute in He.
Qed.

(** A repetition is answered, and does nothing. *)
Lemma complete_again id_text id q env w : data_ok (tb_rl (db w)) ->
  is_ok (require_enabled (rg_m3 st)) = true -> valid_database_worker (lid_worker (orq_live q)) = Ok tt ->
  valid_completion (orq_outcome q) = true -> path_uuid (y_parse_uuid Y) id_text = Ok id ->
  (0 < lid_fence (orq_live q))%Z ->
  completed_with (db w) id (orq_live q) (orq_outcome q) (n_outcome_hash N (orq_outcome q)) ->
  exists o, tb_operations (db w) !! id = Some o
    /\ complete_operation Y N st id_text q env w
       = (Ok {| ocp_operation := o; ocp_effect := {| oef_id := id; oef_kind := do_kind o; oef_created := false |} |}, w).
Proof.
  intros Hok Hen Hwk Hv Hid Hf [(a & Hown & Hs & Hh) (o & Ho & Hp)]. exists o. split; [done|].
  assert (Hrec : operation_record o = Ok o).
  { destruct (Hok _ _ Ho) as [_ [? _] [? _]]. unfold operation_record.
    rewrite (proj2 (Z.ltb_ge (do_attempts o) 0)), (proj2 (Z.ltb_ge (do_fence o) 0)) by lia. done. }
  unfold complete_operation. cbn zeta. unfold tbind at 1, lift at 1.
  destruct (require_enabled _) as [m|]; [|done]. unfold tbind at 1, lift at 1. rewrite Hwk.
  unfold tbind at 1, reject_if at 1. rewrite Hv. cbn [negb tret]. unfold tbind at 1, lift at 1. rewrite Hid.
  unfold tbind at 1, reject_if at 1. rewrite (proj2 (Z.leb_gt _ _) Hf). cbn [tret].
  unfold transaction, tbind, get_db, lift. cbn [ok_or]. rewrite Ho. cbn.
  replace (_ && _) with false.
  - unfold reject_if. rewrite Hown. cbn. unfold completed_before. rewrite Hh, Hs, completed_text, !bool_decide_eq_true_2; [|done..|].
    + cbn. rewrite Hrec. cbn. by destruct w.
    + unfold valid_completion in Hv. by bool_simpl.
  - symmetry. apply andb_false_iff. destruct Hp as [Hp|[Hp Hr]].
    + left. apply andb_false_iff. right. lia.
    + right. by apply bool_decide_eq_false.
Qed.
End Completions.

(** ** Credentials *)

Section CredentialRows.
Context {P : Type}.
Implicit Types (b : TbDb P).

Lemma operation_credential_rows b o ids c : c ∈ credential_rows b o ids <->
  (exists k, tb_credentials b !! k = Some c) /\ operation_credential o ids c = true.
Proof.
  unfold credential_rows. rewrite merge_sort_Permutation, list_elem_of_filter, list_elem_of_fmap. split.
  - intros [Hc ([k x] & -> & Hl%elem_of_map_to_list)]. eauto.
  - intros [[k Hl] Hc]. split; [done|]. exists (k, c). by rewrite elem_of_map_to_list.
Qed.

(** What is opened from a row, for the operation [o]. *)
Definition opened_for Y (key : SecretKey) (o : DatabaseOperation) (c : DatabaseCredential) (x : OperationCredential) : Prop :=
  ocr_id x = dc_id c /\ ocr_purpose x = dc_purpose c /\ ocr_role x = dc_role c
  /\ dc_key_version c = key_version key
  /\ decrypt (y_aead Y) key (credential_aad (y_uuid_text Y) (do_account o) (do_project o) (do_database o)
       (do_generation o) (purpose_text (dc_purpose c)) (dc_id c)) (dc_nonce c) (dc_ciphertext c) (dc_tag c)
     = Some (ocr_value x).
Lemma open_operation_credentials_Ok Y key o rows : forall l,
  open_operation_credentials Y key o rows = Ok l -> Forall2 (opened_for Y key o) rows l.
Proof.
  induction rows as [|c rows IH]; intros l; cbn [open_operation_credentials]; [intros [= <-]; constructor|].
  intros Hm. apply res_bind_Ok in Hm as (x & Hx & Hm). apply res_bind_Ok in Hm as (rest & Hr & [= <-]).
  constructor; [|by apply IH]. unfold open_operation_credential in Hx. cbn zeta in Hx.
  apply res_bind_Ok in Hx as (? & Hk%guard_err_Ok & Hx). apply res_bind_Ok in Hx as (plain & Hp & Hx).
  apply res_bind_Ok in Hx as (? & _ & [= <-]). apply negb_false_iff, bool_decide_eq_true in Hk.
  unfold ok_or in Hp. destruct (decrypt _ _ _ _ _ _) eqn:Hd; [|done]. injection Hp as ->. by split_and!.
Qed.
End CredentialRows.

(** ** A tick of the scheduler *)

Section Tick.
Context {P : Type}.
Context (Y : ReleaseExternals) (N : TenantExternals) (st : ReleaseConfig).
Implicit Types (b : TbDb P) (w : World (TbDb P)).

(** The budget is the ceiling alone: it is at least one where there is a database. *)
Lemma drill_budget_div_ceil n : drill_budget n = ((n + 3) / 4)%nat.
Proof.
  unfold drill_budget. destruct n as [|n]; [done|]. cbn [Nat.ltb Nat.leb Nat.b2n].
  pose proof (Nat.Div0.div_le_mono 4 (S n + 3) 4 ltac:(lia)) as H. rewrite Nat.div_same in H by done. lia.
Qed.

Definition has_daily (date : Z) b (t : TenantDatabase) : Prop := exists k a, tb_archives b !! k = Some a
  /\ ax_database a = td_id t /\ ax_generation a = td_generation t /\ ax_kind a = ArDaily /\ ax_scheduled a = Some date.
Definition has_operation (kind : OperationKind) (key : string) b (database generation : Uuid) : Prop :=
  exists k o, tb_operations b !! k = Some o /\ do_database o = database /\ do_generation o = generation
    /\ do_kind o = kind /\ do_key o = key.

Lemma has_daily_stays date b b' t : tb_kept b b' -> has_daily date b t -> has_daily date b' t.
Proof.
  intros [[_ Hd _] _] (k & a & Ha & E1 & E2 & E3 & E4).
  destruct (hi_archives _ _ (data_moves_history _ _ Hd) _ _ Ha) as (a' & Ha' & [[_ _ _ S1 S2 S3 S4 _ _ _ _] _ _]).
  exists k, a'. split_and!; [done|congruence..].
Qed.
Lemma has_operation_stays kind key b b' database generation : tb_kept b b' ->
  has_operation kind key b database generation -> has_operation kind key b' database generation.
Proof.
  intros [[_ Hd _] _] (k & o & Ho & E1 & E2 & E3 & E4).
  destruct (hi_operations _ _ (data_moves_history _ _ Hd) _ _ Ho) as (o' & Ho' & [[_ _ _ S1 S2 S3 S4 _ _] _ _ _]).
  exists k, o'. split_and!; [done|congruence..].
Qed.

Lemma insert_daily_Ok a env w i w' : insert_daily a env w = (Ok i, w') ->
  exists k x, tb_archives (db w') !! k = Some x /\ ax_database x = ax_database a /\ ax_generation x = ax_generation a
    /\ ax_kind x = ax_kind a /\ (ax_kind a = ArDaily -> ax_scheduled x = ax_scheduled a).
Proof.
  unfold insert_daily. intros Hm. apply tbind_Ok in Hm as (d & w1 & [-> ->]%get_db_Ok & Hm).
  apply tbind_Ok in Hm as (? & w2 & [_ ->]%sql_Ok & Hm). destruct (archive_unique _ _) eqn:Hu.
  - apply tbind_Ok in Hm as (rows & w3 & [Hi ->]%sql_Ok & Hm).
    apply tbind_Ok in Hm as (? & w4 & ->%put_db_Ok & [_ ->]%tret_Ok). apply insert_pk_Some in Hi as (_ & _ & ->).
    exists (ax_id a), a. cbn. by rewrite lookup_insert_eq.
  - apply tret_Ok in Hm as [_ ->]. unfold archive_unique in Hu. apply negb_false_iff in Hu.
    apply exists_row_spec in Hu as (k & found & Hx & Hc). bool_simpl. exists k, found. split_and!; try done.
    intros E. match goal with H : context [match ax_kind a with _ => _ end] |- _ => rewrite E in H end. by bool_simpl.
Qed.

Lemma insert_operation_Ok row env w u w' : in_rl (insert_operation (P := P) row) env w = (Ok u, w') ->
  exists t, tb_operations (db w') = <[do_id (row t) := row t]> (tb_operations (db w))
    /\ tb_archives (db w') = tb_archives (db w).
Proof.
  unfold in_rl, zoom, insert_operation, tbind, clock_timestamp, get_db, sql, put_db. cbn [db].
  destruct (insert_pk _ _ _ _) as [rows|] eqn:Hi; intros [= _ <-]. apply insert_pk_Some in Hi as (_ & _ & ->).
  eexists. split; [reflexivity|done].
Qed.
Lemma insert_operation_once_Ok row env w i w' : insert_operation_once (P := P) row env w = (Ok i, w') ->
  exists t k o, tb_operations (db w') !! k = Some o /\ do_database o = do_database (row t)
    /\ do_generation o = do_generation (row t) /\ do_kind o = do_kind (row t) /\ do_key o = do_key (row t).
Proof.
  unfold insert_operation_once. intros Hm. apply tbind_Ok in Hm as (t & w0 & [_ ->]%clock_Ok & Hm). cbn zeta in Hm.
  apply tbind_Ok in Hm as (d & w1 & [-> ->]%get_db_Ok & Hm). exists t.
  apply tbind_Ok in Hm as (? & w2 & [_ ->]%sql_Ok & Hm). destruct (operation_unique _ _) eqn:Hu.
  - apply tbind_Ok in Hm as (rows & w3 & [Hi ->]%sql_Ok & Hm).
    apply tbind_Ok in Hm as (? & w4 & ->%put_db_Ok & [_ ->]%tret_Ok). apply insert_pk_Some in Hi as (_ & _ & ->).
    eexists _, _. cbn. by rewrite lookup_insert_eq.
  - apply tret_Ok in Hm as [_ ->]. unfold operation_unique in Hu. apply negb_false_iff in Hu.
    apply exists_row_spec in Hu as (k & found & Hx & Hc). bool_simpl. by exists k, found.
Qed.

Definition covered (policy : Z) b (t : TenantDatabase) : Prop :=
  has_daily (date_naive policy) b t
  /\ has_operation ObserveStorage (n_hour_text N policy) b (td_id t) (td_generation t).
Lemma covered_stays policy b b' t : tb_kept b b' -> covered policy b t -> covered policy b' t.
Proof. intros Hk [H1 H2]. split; [by eapply has_daily_stays|by eapply has_operation_stays]. Qed.

Lemma tick_daily_kept policy t : keeps tb_kept (tick_daily (P := P) Y N policy t).
Proof. unfold tick_daily. tenant_walk. Qed.
Lemma tick_storage_kept policy t : keeps tb_kept (tick_storage (P := P) N policy t).
Proof. unfold tick_storage. tenant_walk. Qed.
Lemma tick_expired_kept policy a : keeps tb_kept (tick_expired (P := P) Y policy a).
Proof. unfold tick_expired. tenant_walk. Qed.
Lemma tick_drill_kept policy week c : keeps tb_kept (tick_drill (P := P) Y policy week c).
Proof. unfold tick_drill. tenant_walk. Qed.

Lemma tick_database_Ok policy t env w n w' : tick_database Y N policy t env w = (Ok n, w') ->
  tb_kept (db w) (db w') /\ covered policy (db w') t.
Proof.
  unfold tick_database. intros Hm. apply tbind_Ok in Hm as (daily & w1 & Hd & Hm).
  apply tbind_Ok in Hm as (storage & w2 & Hs & [_ ->]%tret_Ok).
  assert (Hdaily : has_daily (date_naive policy) (db w1) t).
  { pose proof Hd as Hd'. unfold tick_daily in Hd. cbn zeta in Hd.
    apply tbind_Ok in Hd as (archive & w3 & [_ ->]%new_uuid_Ok & Hd).
    apply tbind_Ok in Hd as (created & w4 & [_ ->]%clock_Ok & Hd).
    apply tbind_Ok in Hd as (inserted & w5 & (k & x & Hx & E1 & E2 & E3 & E4)%insert_daily_Ok & Hd).
    specialize (E4 eq_refl). destruct inserted.
    - apply tbind_Ok in Hd as (d & w6 & [-> ->]%get_db_Ok & Hd).
      apply tbind_Ok in Hd as (c & w7 & [_ ->]%lift_Ok & Hd). apply tbind_Ok in Hd as (o & w8 & [_ ->]%new_uuid_Ok & Hd).
      apply tbind_Ok in Hd as (? & w9 & (row & _ & Ea)%insert_operation_Ok & [_ ->]%tret_Ok). exists k, x. by rewrite Ea.
    - apply tret_Ok in Hd as [_ ->]. by exists k, x. }
  pose proof Hs as Hs'. apply tick_daily_kept in Hd. apply tick_storage_kept in Hs'.
  split; [by etrans|]. split; [by eapply has_daily_stays|].
  unfold tick_storage in Hs. apply tbind_Ok in Hs as (d & w3 & [-> ->]%get_db_Ok & Hs).
  apply tbind_Ok in Hs as ([credentials [[runtime migration] backup]] & w4 & [_ ->]%lift_Ok & Hs).
  apply tbind_Ok in Hs as (o & w5 & [_ ->]%new_uuid_Ok & Hs).
  apply insert_operation_once_Ok in Hs as (row & k & x & Hx & E). by exists k, x.
Qed.

Lemma each_count_covered policy l env : forall w n w',
  each_count (tick_database Y N policy) l env w = (Ok n, w') ->
  tb_kept (db w) (db w') /\ forall t, t ∈ l -> covered policy (db w') t.
Proof.
  induction l as [|t l IH]; intros w n w'; cbn [each_count].
  - intros [_ ->]%tret_Ok. split; [done|]. intros t Ht. by apply elem_of_nil in Ht.
  - intros Hm. apply tbind_Ok in Hm as (m & w1 & [H1 Hc]%tick_database_Ok & Hm).
    apply tbind_Ok in Hm as (k & w2 & [H2 Hl]%IH & [_ ->]%tret_Ok). split; [by etrans|].
    intros u [->|Hu]%elem_of_cons; [by eapply covered_stays|by apply Hl].
Qed.

(** The deletion of an archive is requested under the text of its identifier. *)
Context (Htext : forall u, y_parse_uuid Y (y_uuid_text Y u) = Some u).

Definition deletion_due b (a : Archive) : Prop :=
  has_operation ArchiveExpire (y_uuid_text Y (ax_id a)) b (ax_database a) (ax_generation a).
Lemma deletion_requested_due b a : deletion_requested Y b a = true -> deletion_due b a.
Proof. intros (k & o & Ho & Hc)%exists_row_spec. bool_simpl. by exists k, o. Qed.

Lemma tick_expired_Ok policy a env w u w' : tick_expired Y policy a env w = (Ok u, w') ->
  tb_kept (db w) (db w') /\ deletion_due (db w') a /\ tb_archives (db w') = tb_archives (db w).
Proof.
  intros Hm. split; [by apply tick_expired_kept in Hm|]. unfold tick_expired in Hm.
  apply tbind_Ok in Hm as (archive & w1 & [Ha ->]%lift_Ok & Hm). rewrite Htext in Ha. injection Ha as <-.
  apply tbind_Ok in Hm as (o & w2 & [_ ->]%new_uuid_Ok & Hm).
  apply insert_operation_Ok in Hm as (t & Eo & Ea). split; [|done].
  eexists _, _. rewrite Eo, lookup_insert_eq. by split_and!.
Qed.
Lemma each_expired_Ok policy l env : forall w u w', each (tick_expired Y policy) l env w = (Ok u, w') ->
  tb_kept (db w) (db w') /\ (forall a, a ∈ l -> deletion_due (db w') a) /\ tb_archives (db w') = tb_archives (db w).
Proof.
  induction l as [|a l IH]; intros w u w'; cbn [each].
  - intros [_ ->]%tret_Ok. split; [done|]. split; [|done]. intros a Ha. by apply elem_of_nil in Ha.
  - intros Hm. apply tbind_Ok in Hm as (v & w1 & (H1 & Hd & E1)%tick_expired_Ok & Hm).
    apply IH in Hm as (H2 & Hl & E2). split; [by etrans|]. split; [|congruence].
    intros x [->|Hx]%elem_of_cons; [by eapply has_operation_stays|by apply Hl].
Qed.

Lemma each_drills_archives policy week l env : forall w u w', each (tick_drill Y policy week) l env w = (Ok u, w') ->
  tb_kept (db w) (db w') /\ tb_archives (db w') = tb_archives (db w).
Proof.
  induction l as [|c l IH]; intros w u w'; cbn [each]; [by intros [_ ->]%tret_Ok|].
  intros Hm. apply tbind_Ok in Hm as (v & w1 & Hd & Hm). apply IH in Hm as [H2 E2].
  pose proof Hd as Hk. apply tick_drill_kept in Hk. split; [by etrans|]. rewrite E2.
  unfold tick_drill in Hd. cbn zeta in Hd. apply tbind_Ok in Hd as (recovery & w2 & [_ ->]%new_uuid_Ok & Hd).
  apply tbind_Ok in Hd as (created & w3 & [_ ->]%clock_Ok & Hd).
  apply tbind_Ok in Hd as (inserted & w4 & Hi & Hd). apply tbind_Ok in Hd as (? & w5 & [_ ->]%sql_Ok & Hd).
  apply tbind_Ok in Hd as (d & w6 & [-> ->]%get_db_Ok & Hd).
  apply tbind_Ok in Hd as (credentials & w7 & [_ ->]%lift_Ok & Hd).
  apply tbind_Ok in Hd as (o & w8 & [_ ->]%new_uuid_Ok & Hd). apply insert_operation_Ok in Hd as (_ & _ & ->). cbn [db].
  revert Hi. unfold insert_recovery, tbind, get_db, sql, put_db, tret. destruct (where_ _); [|done]. cbn [db].
  destruct (insert_pk _ _ _ _); by intros [= _ <-].
Qed.
End Tick.

Lemma policy_now_databases {P} m3 env (w : World (TbDb P)) t w' : policy_now m3 env w = (Ok t, w') ->
  databases (db w') = databases (db w).
Proof.
  unfold policy_now. intros Hm. apply tbind_Ok in Hm as (p & w1 & Hp & [_ ->]%tret_Ok).
  by apply policy_time_Ok in Hp as [[->|[-> _]] _].
Qed.

(** ** A backup that was lost *)

Lemma lost_backup_request {P} Y m3 account project database generation revision source env (w w' : World (RlDb P)) r :
  backup_lost database generation revision source (archives (db w)) ->
  (forall t, tenant_databases (tables (db w)) !! database = Some t -> td_source t = source) ->
  request_pre_migration_backup Y m3 account project database generation revision env w = (r, w') ->
  archives (db w') = archives (db w).
Proof.
  intros [(k & a & Ha & Hb) _] Hsrc. unfold request_pre_migration_backup. intros Hm.
  apply lift_cases in Hm as [(e & _ & _ & ->)|(c & _ & Hm)]; [done|].
  apply reject_cases in Hm as [(_ & _ & ->)|[_ Hm]]; [done|].
  unfold tbind at 1 in Hm. destruct (policy_now _ _ _) as [[policy|e] w0] eqn:Hp; apply policy_now_clock in Hp as [c' Ec].
  2: { injection Hm as _ <-. by rewrite Ec. }
  apply transaction_cases in Hm as [(e & _ & ->)|Hm]; [by rewrite Ec|].
  apply tbind_Ok in Hm as (created & w1 & [_ ->]%clock_Ok & Hm). apply tbind_Ok in Hm as (d & w2 & [-> ->]%get_db_Ok & Hm).
  apply tbind_Ok in Hm as (t & w3 & [Ht%ok_or_Ok ->]%lift_Ok & Hm). cbn [db] in Hm, Ht. rewrite Ec in Hm, Ht.
  assert (Es : td_source t = source).
  { apply Hsrc. revert Ht. unfold usable_database. destruct (tenant_databases _ !! _) as [u|]; csimpl; [|done].
    unfold where_. destruct (_ && _); csimpl; congruence. }
  rewrite Es in Hm. destruct (select_first _ _ _) as [x|] eqn:Hsel; [by apply tret_Ok in Hm as [_ ->]|].
  pose proof (select_first_none _ _ _ Hsel _ _ Ha) as Hno. unfold pre_migration_archive in Hno. unfold backup_of in Hb. congruence.
Qed.

(** ** Requests for work *)

Section Leases.
Context {P : Type} `{FactRefresh P}.
Context (Y : ReleaseExternals) (N : TenantExternals) (st : ReleaseConfig).
Implicit Types (b : TbDb P) (w : World (TbDb P)) (o : DatabaseOperation).

(** What operations are about. *)
Record same_subjects b b' : Prop := {
  su_databases : databases b' = databases b; su_archives : tb_archives b' = tb_archives b;
  su_recoveries : tb_recoveries b' = tb_recoveries b; su_migrations : tb_migrations b' = tb_migrations b;
}.
#[export] Instance same_subjects_preorder : PreOrder same_subjects.
Proof. split; [by split|]. intros a b c [] []. split; congruence. Qed.

Lemma update_operation_subjects id cond f : keeps same_subjects (update_operation (P := P) id cond f).
Proof.
  intros env w r w' Hm. unfold update_operation, tbind, get_db, sql, put_db, tret in Hm.
  destruct (update_pk _ _ _ _ _) as [[rows n]|]; injection Hm as _ <-; by split.
Qed.
Lemma update_attempt_subjects id cond f : keeps same_subjects (update_operation_attempt (P := P) id cond f).
Proof.
  intros env w r w' Hm. unfold update_operation_attempt, tbind, get_db, sql, put_db in Hm.
  destruct (update_pk _ _ _ _ _) as [[rows n]|]; injection Hm as _ <-; by split.
Qed.
Lemma reap_subjects env w w' u : reap_expired_operations env w = (Ok u, w') -> same_subjects (db w) (db w').
Proof.
  assert (Hr : forall o, keeps same_subjects (reap_operation (P := P) o)).
  { intros o. unfold reap_operation. do 2 (keeps_step; intros). keeps_step; [apply update_attempt_subjects|]. intros.
    keeps_step; [apply update_operation_subjects|keeps_step]. }
  assert (He : forall l, keeps same_subjects (each (reap_operation (P := P)) l)).
  { induction l; cbn [each]; keeps_step; auto. }
  unfold reap_expired_operations. intros Hm. apply tbind_Ok in Hm as (now & w1 & [_ ->]%clock_Ok & Hm).
  apply tbind_Ok in Hm as (locked & w2 & [_ ->]%locked_rows_Ok & Hm).
  apply tbind_Ok in Hm as (d & w3 & [-> ->]%get_db_Ok & Hm). by apply He in Hm.
Qed.

Lemma each_reaped_fails l env o : forall w w' u, NoDup (map do_id l) -> (forall p, p ∈ l -> running_operation (db w) p) ->
  each (reap_operation (P := P)) l env w = (Ok u, w') -> o ∈ l -> attempts_exhausted o = true ->
  exists o', tb_operations (db w') !! do_id o = Some o' /\ do_state o' = OFailed.
Proof.
  induction l as [|p l IH]; intros w w' u Hnd Hq Hm Hin Hex; [by apply elem_of_nil in Hin|]. cbn [each] in Hm.
  apply NoDup_cons in Hnd as [Hn Hnd]. apply tbind_Ok in Hm as (v & w1 & Hp & Hm).
  apply reap_operation_Ok in Hp as (_ & Hother & Hfail); [|apply Hq; by left].
  assert (Hrest : forall x, x ∈ l -> running_operation (db w1) x).
  { intros x Hx. apply Hother; [|apply Hq; by right]. intros E. apply Hn. rewrite <- E. apply list_elem_of_fmap. eauto. }
  apply elem_of_cons in Hin as [->|Hin]; [|by eapply IH].
  destruct Hfail as (o' & Ho' & Hs). specialize (Hs Hex). apply each_reaped in Hm as [[_ Hd _] _]; [|done..].
  destruct (hi_operations _ _ (data_moves_history _ _ Hd) _ _ Ho') as (o'' & Ho'' & [_ _ _ He]).
  exists o''. split; [done|]. by rewrite He by by rewrite Hs.
Qed.
Lemma reap_fails env w w' u o : data_ok (tb_rl (db w)) -> reap_expired_operations env w = (Ok u, w') ->
  o ∈ expired_operations (db w) (clock env (ticks w)) (row_locked env (S (ticks w))) -> attempts_exhausted o = true ->
  exists o', tb_operations (db w') !! do_id o = Some o' /\ do_state o' = OFailed.
Proof.
  unfold reap_expired_operations. intros Hok Hm Hover Hex. apply tbind_Ok in Hm as (now & w1 & [-> ->]%clock_Ok & Hm).
  apply tbind_Ok in Hm as (locked & w2 & [-> ->]%locked_rows_Ok & Hm). cbn [ticks] in Hm.
  apply tbind_Ok in Hm as (d & w3 & [-> ->]%get_db_Ok & Hm). cbn [db] in Hm.
  destruct (expired_operations_running (db w) (clock env (ticks w)) (row_locked env (S (ticks w))) Hok) as [Hnd Hrows].
  refine (each_reaped_fails _ _ _ _ _ _ Hnd _ Hm Hover Hex). exact Hrows.
Qed.

(** What is under way, or has ended, stays as it is; work that was only requested may begin. *)
Record under_way_kept b b' : Prop := {
  uw_archives : tb_archives b' = tb_archives b; uw_migrations : tb_migrations b' = tb_migrations b;
  uw_databases : forall k t, databases b !! k = Some t -> td_state t <> ProvisionRequested -> databases b' !! k = Some t;
  uw_recoveries : forall k r, tb_recoveries b !! k = Some r -> rc_state r <> RRequested -> tb_recoveries b' !! k = Some r;
}.
#[export] Instance under_way_preorder : PreOrder under_way_kept.
Proof. split; [by split|]. intros a b c [] []. split; [congruence|congruence|auto|auto]. Qed.
Lemma same_under_way b b' : same_subjects b b' -> under_way_kept b b'.
Proof. intros [Ed Ea Er Em]. split; rewrite ?Ed, ?Er; auto. Qed.
Lemma same_keeps {A} (m : M (TbDb P) A) : keeps same_subjects m -> keeps under_way_kept m.
Proof. intros Hm env w r w' Hr. by apply same_under_way; eapply Hm. Qed.

Lemma insert_attempt_subjects a : keeps same_subjects (insert_operation_attempt (P := P) a).
Proof.
  intros env w r w' Hm. unfold insert_operation_attempt, tbind, get_db, sql, put_db in Hm.
  destruct (insert_pk _ _ _ _) as [rows|]; injection Hm as _ <-; by split.
Qed.
Lemma update_under_way {R : Type} (check : R -> bool) cond f id (t rows : gmap Uuid R) n :
  update_pk check cond f id t = Some (rows, n) ->
  forall k x, t !! k = Some x -> cond x = false -> rows !! k = Some x.
Proof.
  intros [(-> & _)|(_ & x & y & Hx & Hc & _ & _ & ->)]%update_pk_Some k z Hz Hs; [done|].
  rewrite lookup_insert_ne; congruence.
Qed.
Lemma mark_begun_under_way o : keeps under_way_kept (mark_begun (P := P) Y o).
Proof.
  unfold mark_begun. case_bool_decide.
  - keeps_step; [|keeps_ro]. intros env w r w'. unfold update_database, tbind, get_db, sql, put_db, tret.
    destruct (update_pk _ _ _ _ _) as [[rows m]|] eqn:E; intros [= _ <-]; [|done].
    split; try done. intros k t Ht Hs. eapply (update_under_way _ _ _ _ _ _ _ E); [done|by apply bool_decide_eq_false].
  - destruct (spec_recovery _ _); [|keeps_ro]. case_bool_decide; [|keeps_ro].
    keeps_step; [|keeps_ro]. intros env w r w'. unfold update_recovery, tbind, get_db, sql, put_db, tret.
    destruct (update_pk _ _ _ _ _) as [[rows m]|] eqn:E; intros [= _ <-]; [|done].
    split; try done. intros k t Ht Hs. eapply (update_under_way _ _ _ _ _ _ _ E); [done|by apply bool_decide_eq_false].
Qed.
Lemma start_under_way o worker : keeps under_way_kept (start_operation Y st o worker).
Proof.
  unfold start_operation. cbn zeta. do 3 (keeps_step; intros).
  keeps_step; [apply same_keeps, insert_attempt_subjects|].
  keeps_step; [apply same_keeps, update_operation_subjects|]. keeps_step; [apply mark_begun_under_way|]. keeps_ro.
Qed.
Lemma lease_under_way lq : keeps under_way_kept (lease_operation Y st lq).
Proof.
  unfold lease_operation. do 3 keeps_step. keeps_step. intros env w r w' Hm.
  apply tbind_Ok in Hm as (u & w1 & Hr%reap_subjects%same_under_way & Hm). etrans; [exact Hr|].
  apply tbind_Ok in Hm as (locked & w2 & [_ ->]%locked_rows_Ok & Hm).
  apply tbind_Ok in Hm as (d & w3 & [-> ->]%get_db_Ok & Hm).
  destruct (next_operation _ _ _) as [p|]; [|by apply tret_Ok in Hm as [_ ->]]. destruct (attempts_exhausted p).
  - apply tbind_Ok in Hm as (n & w4 & Hu & [_ ->]%tret_Ok). by apply update_operation_subjects, same_under_way in Hu.
  - apply tbind_Ok in Hm as (v & w4 & Hs & [_ ->]%tret_Ok). by apply start_under_way in Hs.
Qed.

(** A request for work that is answered, with work or without, fails what ran out. *)
Lemma answered_lease lq env w w' o answer : data_ok (tb_rl (db w)) -> lease_operation Y st lq env w = (Ok answer, w') ->
  o ∈ expired_operations (db w) (clock env (ticks w)) (row_locked env (S (ticks w))) -> attempts_exhausted o = true ->
  exists o', tb_operations (db w') !! do_id o = Some o' /\ do_state o' = OFailed.
Proof.
  unfold lease_operation. intros Hok Hm Hover Hex. apply lift_cases in Hm as [(e & _ & [=] & _)|(m3 & _ & Hm)].
  apply lift_cases in Hm as [(e & _ & [=] & _)|(worker & _ & Hm)].
  apply lift_cases in Hm as [(e & _ & [=] & _)|(kinds & _ & Hm)].
  apply transaction_cases in Hm as [(e & [=] & _)|Hm]. apply tbind_Ok in Hm as (u & w1 & Hr & Hm).
  pose proof (reap_by _ _ _ _ Hr Hok) as Hk. pose proof (kept_ok _ _ Hk Hok) as Hok1.
  apply (reap_fails _ _ _ _ o Hok) in Hr as (o' & Ho' & Hs); [|done..].
  apply tbind_Ok in Hm as (locked & w2 & [_ ->]%locked_rows_Ok & Hm).
  apply tbind_Ok in Hm as (d & w3 & [-> ->]%get_db_Ok & Hm). cbn [db] in Hm.
  assert (tb_kept (db w1) (db w')) as [[_ Hd _] _].
  { destruct (next_operation _ _ _) as [p|] eqn:Hn; [|by apply tret_Ok in Hm as [_ ->]].
    apply (next_operation_Some _ _ _ _ Hok1) in Hn as [Hp Hw]. destruct (attempts_exhausted p) eqn:He.
    - apply tbind_Ok in Hm as (n & w4 & H4 & [_ ->]%tret_Ok).
      eapply (update_operation_Ok _ _ _ _ _ _ p) in H4 as [_ E4]; [|done]. rewrite E4. apply operations_kept.
      eapply evolves_update; [exact Hp|]. unfold attempts_exhausted in He. apply op_exhausted; try done. cbn. lia.
    - apply tbind_Ok in Hm as (v & w4 & H4 & [_ ->]%tret_Ok). by eapply start_operation_Ok. }
  destruct (hi_operations _ _ (data_moves_history _ _ Hd) _ _ Ho') as (o'' & Ho'' & [_ _ _ He]).
  exists o''. split; [done|]. by rewrite He by by rewrite Hs.
Qed.

(** A request for work that finds none. *)
Lemma idle_lease lq env w w' : lease_operation Y st lq env w = (Ok None, w') -> same_subjects (db w) (db w').
Proof.
  unfold lease_operation. intros Hm. apply lift_cases in Hm as [(e & _ & [=] & _)|(m3 & _ & Hm)].
  apply lift_cases in Hm as [(e & _ & [=] & _)|(worker & _ & Hm)].
  apply lift_cases in Hm as [(e & _ & [=] & _)|(kinds & _ & Hm)].
  apply transaction_cases in Hm as [(e & [=] & _)|Hm]. apply tbind_Ok in Hm as (u & w1 & Hr%reap_subjects & Hm).
  apply tbind_Ok in Hm as (locked & w2 & [_ ->]%locked_rows_Ok & Hm).
  apply tbind_Ok in Hm as (d & w3 & [-> ->]%get_db_Ok & Hm). cbn [db] in Hm.
  destruct (next_operation _ _ _) as [p|]; [|by apply tret_Ok in Hm as [_ ->]].
  destruct (attempts_exhausted p); [|by apply tbind_Ok in Hm as (? & ? & _ & [[=] _]%tret_Ok)].
  apply tbind_Ok in Hm as (n & w4 & Hu%update_operation_subjects & [_ ->]%tret_Ok). by etrans.
Qed.

(** A completion of an operation that has ended takes no effect. *)
Lemma ended_completion id_text id q env w r w' o : data_ok (tb_rl (db w)) ->
  path_uuid (y_parse_uuid Y) id_text = Ok id -> tb_operations (db w) !! id = Some o -> do_state o <> ORunning ->
  complete_operation Y N st id_text q env w = (r, w') ->
  db w' = db w /\ forall c, r = Ok c -> oef_created (ocp_effect c) = false.
Proof.
  intros Hok Hid Ho Hs Hm.
  destruct (complete_operation_cases _ _ _ _ _ _ _ _ _ Hok Hm) as [?|(id' & o' & c & -> & [_ _ _ Hid' _ Ho' [Hr _] _ _ _ _])]; [done|].
  congruence.
Qed.
End Leases.

(** ** Composition with releases *)

Section Composition.
Context {P : Type} `{FactRefresh P}.
Context (Y : ReleaseExternals) (N : TenantExternals) (st : ReleaseConfig).
Implicit Types (w : World (TbDb P)).

(** The tables that releases see. *)
Definition shared w : World (RlDb P) := MkWorld (tb_rl (db w)) (ticks w) (drawn w).

Lemma release_request_api {A} (m : M (RlDb P) A) env (w w' : World (RlDb P)) r : release_request Y st m -> m env w = (r, w') -> rl_api Y st w w'.
Proof.
  destruct 1; intros E.
  - by eapply rl_stage.
  - by eapply rl_list.
  - by eapply rl_rollback.
  - by eapply rl_prepare.
  - by eapply rl_lease.
  - by eapply rl_renew.
  - by eapply rl_credential.
  - by eapply rl_complete.
  - by eapply rl_activate.
Qed.

(** A request to tenant databases is one of the others' steps to releases. *)
Lemma tb_api_shared w w' : tb_api Y N st w w' -> data_ok (tb_rl (db w)) -> rl_api Y st (shared w) (shared w').
Proof.
  intros [A m env r Hm Hr|Hf _ _] Hok; [|by apply rl_others].
  destruct Hm as [| | | | | | | |q|id q| |id q|A m Hm].
  1-12: apply rl_others, bm_frame.
  - by eapply create_database_kept.
  - by eapply get_database_kept.
  - by eapply list_backups_kept.
  - by eapply create_export_kept.
  - by eapply get_export_kept.
  - by eapply create_recovery_kept.
  - by eapply get_recovery_kept.
  - by eapply scheduler_tick_kept.
  - by eapply lease_operation_by.
  - by eapply renew_operation_by.
  - by eapply resolve_credentials_kept.
  - by eapply complete_operation_by.
  - unfold in_rl, zoom in Hr. destruct (m env (shared w)) as [r' w1] eqn:E.
    assert (w1 = shared w') as ->; [|by eapply release_request_api].
    unfold shared in E. rewrite E in Hr. injection Hr as _ <-. by destruct w1.
Qed.

Lemma tb_apis_shared w w' : rtc (tb_api Y N st) w w' -> data_ok (tb_rl (db w)) ->
  rtc (rl_api Y st) (shared w) (shared w').
Proof.
  induction 1 as [w|w w1 w' H1 _ IH]; [done|]. intros Hok. eapply rtc_l; [by apply tb_api_shared|].
  apply IH. eapply data_moves_ok; [|exact Hok]. by eapply bt_data, tb_api_moves.
Qed.
End Composition.

(** ** Properties *)

(** C9: On the tables they share, an execution in which the requests of releases, of owners of
    databases, of the scheduler and of database workers interleave is an execution of releases
    alone among other components: what releases assume of the others, that they leave releases,
    routes and reconciliations alone and that operations which succeeded stay so, is what tenant
    databases provide. *)
Theorem mixed_executions_are_release_executions {P} `{FactRefresh P} Y N st (w w' : World (TbDb P))
    (Hfresh : tb_fresh (db w)) (Hrun : rtc (tb_api Y N st) w w') :
  rtc (rl_api Y st) (shared w) (shared w').
Proof. eapply tb_apis_shared; [exact Hrun|]. by apply fresh_data_ok. Qed.

(** Whatever requests follow, databases keep their identity and limits, and once read only
    or failed they stay so; archives keep their receipt once they have ended and can then only be
    deleted; operations keep their specification and credentials, their attempts and fences never
    decrease, and what has ended never changes; applied and failed migrations never change; and
    credentials stay. *)
Theorem tenant_rows_keep_their_history {P} `{FactRefresh P} Y N st (w w1 w2 : World (TbDb P))
    (Hfresh : tb_fresh (db w)) (Hbefore : rtc (tb_api Y N st) w w1) (Hafter : rtc (tb_api Y N st) w1 w2) :
  tenant_history (tb_rl (db w1)) (tb_rl (db w2)).
Proof.
  apply data_moves_history. eapply bt_data, tb_apis_move; [exact Hafter|]. by eapply reachable_data_ok.
Qed.

(** C10: However requests to releases and to databases interleave, the source generation of a
    database is one more than the number of migrations that were applied to it, so no migration
    is applied twice and none is applied without advancing it; and every migration is of a
    database that exists. *)
Theorem source_generation_counts_applied_migrations {P} `{FactRefresh P} Y N st (w w' : World (TbDb P))
    (Hfresh : tb_fresh (db w)) (Hrun : rtc (tb_api Y N st) w w') :
  (forall k t, databases (db w') !! k = Some t ->
     td_source t = (1 + Z.of_nat (count_where (applied_to k) (tb_migrations (db w'))))%Z)
  /\ forall j m, tb_migrations (db w') !! j = Some m -> is_Some (databases (db w') !! mg_database m).
Proof. by destruct (reachable_counted Y N st _ _ Hfresh Hrun). Qed.

(** However requests interleave, an operation has at most five attempts, its fence is a
    nonnegative 64-bit integer, so that its record can always be returned, and its row is stored
    under its identifier. *)
Theorem operations_stay_well_formed {P} `{FactRefresh P} Y N st (w w' : World (TbDb P)) k o
    (Hfresh : tb_fresh (db w)) (Hrun : rtc (tb_api Y N st) w w') (Ho : tb_operations (db w') !! k = Some o) :
  do_id o = k /\ within 0 5 (do_attempts o) /\ within 0 max_i64 (do_fence o)
  /\ operation_record o = Ok o.
Proof.
  destruct (reachable_data_ok Y N st _ _ Hfresh Hrun _ _ Ho) as [Hid Hf Ha]. split_and!; try done.
  unfold operation_record. unfold within in *. by rewrite (proj2 (Z.ltb_ge _ 0)), (proj2 (Z.ltb_ge _ 0)) by lia.
Qed.

(** C11: The effect of a completion happens once: when a worker's completion took effect, the same
    request, however late and whatever has happened since, is answered with the operation as it
    then is, says that it created no effect, and changes nothing. *)
Theorem completion_effects_happen_once {P} `{FactRefresh P} Y N st id_text q env env' (w w1 w2 w3 : World (TbDb P)) c
    (Hfresh : tb_fresh (db w)) (Hbefore : rtc (tb_api Y N st) w w1)
    (Hrun : complete_operation Y N st id_text q env w1 = (Ok c, w2))
    (Heffect : oef_created (ocp_effect c) = true) (Hafter : rtc (tb_api Y N st) w2 w3) :
  exists o, tb_operations (db w3) !! oef_id (ocp_effect c) = Some o
    /\ complete_operation Y N st id_text q env' w3 = (Ok {| ocp_operation := o; ocp_effect := {|
         oef_id := oef_id (ocp_effect c); oef_kind := do_kind o; oef_created := false |} |}, w3).
Proof.
  pose proof (reachable_data_ok Y N st _ _ Hfresh Hbefore) as Hok1.
  assert (Hreach2 : rtc (tb_api Y N st) w w2).
  { eapply rtc_r; [exact Hbefore|]. eapply api_request; [|exact Hrun]. constructor. }
  pose proof (reachable_data_ok Y N st _ _ Hfresh Hreach2) as Hok2.
  assert (Hok3 : data_ok (tb_rl (db w3))) by (eapply reachable_data_ok; [exact Hfresh|by etrans]).
  destruct (complete_operation_cases _ _ _ _ _ _ _ _ _ Hok1 Hrun) as [[_ Hno]|(id & o & c' & [= <-] & Ht)].
  { by rewrite (Hno c eq_refl) in Heffect. }
  pose proof Ht as [Hen Hwk Hv Hid Hf Ho (_ & _ & Hfe) (a & Hown & _) He _ Hfin]. rewrite He. cbn [oef_id].
  apply (complete_again Y N st _ _ _ _ _ Hok3 Hen Hwk Hv Hid Hf).
  eapply completed_with_stays; [by apply (tb_apis_move Y N st)|]. by eapply finished_completed.
Qed.

(** C12: Credentials are opened for nobody but the worker that holds the lease of the current
    attempt of a running operation, while the leases of the operation and of the attempt run at
    the time of the request: as many as it asked for, each the value of an active credential of
    the database and the generation that the operation is about, asked for by the worker and
    declared by the operation; and nothing changes. *)
Theorem operation_credentials_go_to_the_lease_holder {P} Y st id_text q env (w w' : World (TbDb P)) l
    (Hrun : resolve_credentials Y st id_text q env w = (Ok l, w')) :
  db w' = db w /\ exists id o a key expires,
    path_uuid (y_parse_uuid Y) id_text = Ok id /\ tb_operations (db w) !! id = Some o /\ do_state o = ORunning
    /\ do_current o = Some (lid_attempt (crq_live q)) /\ do_fence o = lid_fence (crq_live q)
    /\ tb_attempts (db w) !! lid_attempt (crq_live q) = Some a /\ oa_operation a = id
    /\ oa_worker a = lid_worker (crq_live q) /\ oa_fence a = lid_fence (crq_live q) /\ oa_state a = AtRunning
    /\ do_lease o = Some expires /\ (clock env (ticks w) < expires)%Z /\ (clock env (ticks w) < oa_lease a)%Z
    /\ rg_key st = Some key /\ length l = length (crq_ids q)
    /\ forall x, x ∈ l -> ocr_id x ∈ crq_ids q /\ ocr_id x ∈ do_credentials o /\ exists k c,
         tb_credentials (db w) !! k = Some c /\ dc_id c = ocr_id x /\ dc_status c = CActive
         /\ dc_account c = do_account o /\ dc_project c = do_project o
         /\ dc_database c = do_database o /\ dc_generation c = do_generation o
         /\ dc_purpose c = ocr_purpose x /\ dc_role c = ocr_role x
         /\ dc_key_version c = key_version key
         /\ decrypt (y_aead Y) key (credential_aad (y_uuid_text Y) (dc_account c) (dc_project c) (dc_database c)
              (dc_generation c) (purpose_text (dc_purpose c)) (dc_id c)) (dc_nonce c) (dc_ciphertext c) (dc_tag c)
            = Some (ocr_value x).
Proof.
  unfold resolve_credentials in Hrun. cbn zeta in Hrun.
  apply lift_cases in Hrun as [(e & _ & [=] & _)|(m3 & _ & Hm)]. apply lift_cases in Hm as [(e & _ & [=] & _)|(worker & _ & Hm)].
  apply lift_cases in Hm as [(e & _ & [=] & _)|(id & Hid & Hm)]. apply reject_cases in Hm as [(_ & [=] & _)|[_ Hm]].
  apply reject_cases in Hm as [(_ & [=] & _)|[_ Hm]]. apply transaction_cases in Hm as [(e & [=] & _)|Hm].
  apply tbind_Ok in Hm as (now & w1 & [-> ->]%clock_Ok & Hm). apply tbind_Ok in Hm as (d & w2 & [-> ->]%get_db_Ok & Hm).
  apply tbind_Ok in Hm as (o & w3 & [Hl%ok_or_Ok ->]%lift_Ok & Hm). cbn [db] in *.
  apply live_operation_Some in Hl as (Ho & Hs & Hc & Hf & Hexp & a & Ha & Has & Hlease).
  unfold own_attempt in Ha. apply bind_Some in Ha as (a' & Ha & Hown). unfold where_ in Hown.
  destruct (_ && _) eqn:Hown' in Hown; [|done]. injection Hown as ->.
  destruct (do_lease o) as [expires|] eqn:Hdl; [|done]. cbn in Hexp.
  apply tbind_Ok in Hm as (? & w4 & [Hdecl%negb_false_iff ->]%reject_if_Ok & Hm).
  apply tbind_Ok in Hm as (key & w5 & [Hkeyed%ok_or_Ok ->]%lift_Ok & Hm).
  apply tbind_Ok in Hm as (? & w6 & [Hlen%negb_false_iff%Nat.eqb_eq ->]%reject_if_Ok & Hm).
  apply tbind_Ok in Hm as (l' & w7 & [Hopen%open_operation_credentials_Ok ->]%lift_Ok & Hm).
  apply tret_Ok in Hm as [[= <-] ->]. split; [done|]. exists id, o, a, key, expires. bool_simpl.
  split_and!; try done; [by rewrite <- (Forall2_length _ _ _ Hopen)|].
  intros cr [i Hi]%list_elem_of_lookup. destruct (Forall2_lookup_r _ _ _ _ _ Hopen Hi) as (c & Hci & -> & -> & -> & Hkey & Hdec).
  apply list_elem_of_lookup_2, operation_credential_rows in Hci as [[k Hk] Hoc].
  unfold operation_credential, one_of in Hoc. bool_simpl.
  match goal with H : dc_id c ∈ crq_ids q |- _ => rename H into Hin end.
  split; [done|]. split; [|exists k, c; split_and!; congruence].
  apply list_elem_of_In in Hin. apply (proj1 (forallb_forall _ _) Hdecl) in Hin.
  by apply bool_decide_eq_true in Hin.
Qed.

(** C25: After a tick of the scheduler every database that was ready has a daily backup of the
    policy date and an observation of its storage in the policy hour, and a deletion has been
    requested for every usable or corrupt archive that has an object and the digest of its
    encryption and has expired (archives still being created, and those without an object or a
    digest, are left alone). The drills it started are at most a quarter of the ready databases,
    rounded up. *)
Theorem scheduler_tick_covers_every_database {P} Y N st env (w w' : World (TbDb P)) response
    (Htext : forall u, y_parse_uuid Y (y_uuid_text Y u) = Some u)
    (Hrun : scheduler_tick Y N st env w = (Ok response, w')) :
  (forall k t, databases (db w) !! k = Some t -> served t = true -> covered N (scr_policy response) (db w') t)
  /\ (forall k a, tb_archives (db w') !! k = Some a -> one_of (ax_state a) [ArUsable; ArCorrupt] = true ->
        (ax_expires a < scr_policy response)%Z -> is_Some (ax_object a) -> is_Some (ax_encrypted a) ->
        deletion_due Y (db w') a)
  /\ (scr_drills response <= (length (served_databases (db w)) + 3) / 4)%nat.
Proof.
  rewrite <- drill_budget_div_ceil. unfold scheduler_tick in Hrun. apply lift_cases in Hrun as [(e & _ & [=] & _)|(m3 & _ & Hm)].
  apply tbind_Ok in Hm as (policy & w0 & Hp & Hm). cbn zeta in Hm.
  assert (Hsame : databases (db w0) = databases (db w)) by (by apply policy_now_databases in Hp).
  apply transaction_cases in Hm as [(e & [=] & _)|Hm].
  apply tbind_Ok in Hm as (d & w1 & [-> ->]%get_db_Ok & Hm).
  apply tbind_Ok in Hm as (counts & w2 & [Hk2 Hcov]%each_count_covered & Hm).
  apply tbind_Ok in Hm as (d & w3 & [-> ->]%get_db_Ok & Hm).
  apply tbind_Ok in Hm as (? & w4 & Hex & Hm).
  apply (each_expired_Ok Y Htext) in Hex as (Hk4 & Hdel & Ea4).
  apply tbind_Ok in Hm as (d & w5 & [-> ->]%get_db_Ok & Hm).
  apply tbind_Ok in Hm as (? & w6 & [Hk6 Ea6]%each_drills_archives & Hm). apply tret_Ok in Hm as [[= ->] ->]. cbn.
  assert (Hserved : served_databases (db w0) = served_databases (db w)) by (unfold served_databases; by rewrite Hsame).
  split_and!.
  - intros k t Ht Hs. eapply covered_stays; [exact (transitivity Hk4 Hk6)|]. apply Hcov. unfold served_databases.
    rewrite merge_sort_Permutation. apply list_elem_of_filter. split; [done|]. apply list_elem_of_fmap.
    exists (k, t). by rewrite elem_of_map_to_list, Hsame.
  - intros k a Ha Hst He [o Hobj] [enc Henc]. eapply has_operation_stays; [exact Hk6|].
    destruct (deletion_requested Y (db w2) a) eqn:Hreq.
    + eapply has_operation_stays; [exact Hk4|]. by apply deletion_requested_due.
    + apply Hdel. unfold expired_archives. rewrite merge_sort_Permutation. apply list_elem_of_filter. split.
      * unfold to_expire. rewrite Hst, Hreq, Hobj, Henc. cbn. rewrite (proj2 (Z.ltb_lt _ _) He). done.
      * apply list_elem_of_fmap. exists (k, a). rewrite elem_of_map_to_list. by rewrite <- Ea4, <- Ea6.
  - rewrite <- Hserved. unfold drill_candidates. rewrite length_take. lia.
Qed.

(** A pre-migration backup that turned out corrupt is never taken again while the source
    generation of its database stays the same: no archive is fresh enough to plan the migration
    of that revision, and another request of the backup takes none. *)
Theorem lost_backups_block_their_migration {P} `{FactRefresh P} Y N st (w w1 w2 : World (TbDb P))
    database generation revision source
    (Hfresh : tb_fresh (db w)) (Hbefore : rtc (tb_api Y N st) w w1)
    (Hlost : backup_lost database generation revision source (tb_archives (db w1)))
    (Hafter : rtc (tb_api Y N st) w1 w2)
    (Hsource : forall t, databases (db w2) !! database = Some t -> td_source t = source) :
  (forall q archive policy, mt_database q = database -> mt_generation q = generation -> mt_revision q = revision ->
     fresh_archive (tb_rl (db w2)) q archive policy = None)
  /\ forall account project env r w3,
       request_pre_migration_backup Y (rg_m3 st) account project database generation revision env (shared w2) = (r, w3) ->
       archives (db w3) = tb_archives (db w2).
Proof.
  assert (Hl : backup_lost database generation revision source (tb_archives (db w2))).
  { eapply mv_lost; [|exact Hlost]. eapply bt_data, tb_apis_move; [exact Hafter|]. by eapply reachable_data_ok. }
  split.
  - intros q archive policy <- <- <-. unfold fresh_archive.
    destruct (archives (tb_rl (db w2)) !! archive) as [a|] eqn:Ha; csimpl; [|done].
    destruct (tenant_databases _ !! ax_database a) as [t|] eqn:Ht; csimpl; [|done]. unfold where_.
    destruct (_ && _) eqn:E; csimpl; [|done]. exfalso. bool_simpl.
    assert (Hb : backup_of (mt_database q) (mt_generation q) (mt_revision q) source a = true).
    { unfold backup_of. rewrite !bool_decide_eq_true_2 by done. cbn. apply Z.eqb_eq.
      match goal with Hd : ax_database a = _ |- _ => rewrite Hd in Ht end. rewrite <- (Hsource _ Ht). lia. }
    pose proof (proj2 Hl _ _ Ha Hb) as Hst.
    match goal with Hu : ax_state a = ArUsable |- _ => rewrite Hu in Hst; by vm_compute in Hst end.
  - intros account project env r w3 Hm.
    exact (lost_backup_request _ _ _ _ _ _ _ _ _ (shared w2) _ _ Hl Hsource Hm).
Qed.

(** C37: A provisioning that failed with its resources retained is final, even where the worker
    reported it as retriable: whatever is done afterwards, the database stays retained, and the
    provisioning can never again be completed as a success. *)
Theorem retained_databases_never_become_ready {P} `{FactRefresh P} Y N st (w w1 w2 w3 : World (TbDb P)) k t id id_text q o env r
    (Hfresh : tb_fresh (db w)) (Hbefore : rtc (tb_api Y N st) w w1)
    (Hdatabase : databases (db w1) !! k = Some t) (Hretained : td_state t = DbFailedResourcesRetained)
    (Hafter : rtc (tb_api Y N st) w1 w2)
    (Hid : path_uuid (y_parse_uuid Y) id_text = Ok id) (Hop : tb_operations (db w2) !! id = Some o)
    (Hkind : do_kind o = Provision) (Habout : do_database o = k)
    (Hsuccess : oo_state (orq_outcome q) = "succeeded")
    (Hrun : complete_operation Y N st id_text q env w2 = (r, w3)) :
  db w3 = db w2 /\ (forall c, r = Ok c -> oef_created (ocp_effect c) = false)
  /\ exists t', databases (db w3) !! k = Some t' /\ td_state t' = DbFailedResourcesRetained.
Proof.
  pose proof (reachable_data_ok Y N st _ _ Hfresh Hbefore) as Hok1.
  assert (Hok2 : data_ok (tb_rl (db w2))) by (eapply reachable_data_ok; [exact Hfresh|by etrans]).
  destruct (hi_databases _ _ (data_moves_history _ _ (bt_data _ _ _ (tb_apis_move Y N st _ _ Hafter Hok1))) _ _ Hdatabase)
    as (t' & Ht' & [_ _ _ _ _ Hfailed]). specialize (Hfailed Hretained).
  destruct (complete_operation_cases _ _ _ _ _ _ _ _ _ Hok2 Hrun) as [[E Hno]|(id' & o' & c & _ & Ht)].
  { split_and!; [done|done|]. rewrite E. by exists t'. }
  exfalso. destruct Ht as [_ _ _ Hid' _ Ho' _ _ _ (env' & ti & dr & w5 & Happ) _].
  assert (id' = id) as -> by congruence. assert (o' = o) as -> by congruence.
  unfold apply_completion in Happ. rewrite Hsuccess, Hkind in Happ. cbn in Happ.
  unfold apply_provision_success in Happ. apply tbind_Ok in Happ as (u & w6 & [_ ->]%lift_Ok & Happ).
  apply tbind_Ok in Happ as (now & w7 & [_ ->]%clock_Ok & Happ).
  apply tbind_Ok in Happ as (n & w8 & Hupd & [Hn _]%reject_if_Ok). revert Hupd.
  unfold update_database, tbind, get_db, sql, put_db, tret. cbn [db].
  destruct (update_pk _ _ _ _ _) as [[rows m]|] eqn:Hu; [|done]. intros [= <- _].
  apply update_pk_Some in Hu as [(_ & -> & _)|(_ & x & y & Hx & Hc & _)]; [done|].
  rewrite Habout in Hx. assert (Some x = Some t') as [= ->] by (rewrite <- Hx; exact Ht').
  unfold being_provisioned in Hc. rewrite Hfailed, andb_false_r in Hc. done.
Qed.

