(* ===== verification/TenantDemo.v ===== *)
(** A database of account 1's project 2, from its creation on: the theorems on tenant
    databases applied to concrete executions. *)

From Stdlib Require Import ZArith List String Bool Lia.
From stdpp Require Import base gmap strings list relations pretty.
From S2P Require Import Prelude RustText Bytes ProjectContract ProjectTheorems PgTx Intent Secrets Jobs Admission Wire.
From S2P Require Import PolicyClock ExecutionTables Credentials BuildTables RuntimeEvidence Runtime RuntimeTheorems.
From S2P Require Import ReleaseTables ReleaseEvidence ReleaseReceipts Migrations Releases ReleaseSpec ReleaseTheorems.
From S2P Require Import TableHistory TenantTables TenantCompletion Tenants TenantLeases TenantSpec ReleaseData TenantSteps.
From S2P Require Import TenantTheorems.
Import RuntimeDemo ReleaseDemo.

Open Scope string_scope.

Module TenantDemo.

Definition sealed : bytes * bytes * bytes := (replicate 24 0%Z, replicate 32 65%Z, replicate 16 0%Z).
Definition N : TenantExternals := {|
  n_time := fun _ => Some 1000000000%Z; n_date_text := pretty; n_hour_text := pretty; n_password := unary;
  n_credential_json := fun _ _ _ => [1%Z]; n_seal := fun _ _ _ _ => Some sealed; n_database_hash := fun _ => "create";
  n_export_hash := "export"; n_recovery_hash := fun _ => "recovery"; n_outcome_hash := fun _ => replicate 32 0%Z |}.
Definition Y : ReleaseExternals := externals "".

(** The project, its configuration with a database, and a backup that turned out corrupt. *)
Definition tables : Execution := {|
  build_jobs := ∅; build_services := ∅; build_artifacts := ∅; build_usage := ∅; x_deployments := x_deployments built;
  x_reservations := x_reservations built; x_projects := x_projects built; tenant_databases := ∅;
  database_credentials := ∅; recoveries := ∅; database_operations := ∅ |}.
Definition corrupt : Archive := {|
  ax_id := 39; ax_account := 1; ax_project := 2; ax_database := 40; ax_generation := 41; ax_kind := ArPreMigration;
  ax_state := ArCorrupt; ax_scheduled := None; ax_intended := Some "r1"; ax_source := 1; ax_object := None;
  ax_format := None; ax_key := None; ax_plain := None; ax_encrypted := None; ax_plain_bytes := None;
  ax_encrypted_bytes := None; ax_snapshot := None; ax_verified := None; ax_expires := 9000000000; ax_created := 0 |}.
Definition start : World (TbDb unit) := MkWorld (MkTbDb unit
  (MkRlDb unit (MkRtDb tables None ∅ ∅ ∅ ∅ ∅) {[ 1%N ]} ∅ ∅ ∅ {[ 39%N := corrupt ]} ∅ ∅ ∅ ∅ ∅ ∅ ∅ tt ∅ [])
  ∅ {[ 10%N := {| cn_account := 1; cn_project := 2; cn_spec := sample_project |} ]}
  {[ (10%N, 17%N) := {| sc_account := 1; sc_project := 2; sc_kind := "postgres" |} ]} ∅ []) 0 0.

Definition env_at (t : Z) : Env :=
  {| clock := fun _ => t; fresh := fun n => N.of_nat (40 + n); row_locked := fun _ _ => false |}.
Definition at_start : Env := env_at 1000000000.

(** *** Created, leased, provisioned *)

Definition quoted : string := String (Ascii.ascii_of_nat 34) (String (Ascii.ascii_of_nat 49) (String (Ascii.ascii_of_nat 34) "")).
Definition create_headers : Headers := {| h_idempotency_key := Some (Some "create"); h_if_match := Some (Some quoted) |}.
Definition create_request : CreateDatabaseRequest := {| cdq_config := 10; cdq_service := 17; cdq_reservation := 5; cdq_epoch := 6 |}.
Definition create := create_database (P := unit) Y N st owner (unary 2) (unary 4) create_headers create_request.
Definition created := create at_start start.
Definition provision_request : DatabaseLeaseRequest := {| dlr_worker := "worker"; dlr_kinds := ["provision"] |}.
Definition lease_at (t : Z) (w : World (TbDb unit)) := lease_operation Y st provision_request (env_at t) w.
Definition leased := lease_at 1000000000 (snd created).
Definition proof_object (retained : bool) : JsonObject := {|
  j_keys := []; j_str := fun k => if bool_decide (k = "role_grants_sha256") then Some (text 48 64)
    else if bool_decide (k = "database_ref") then Some (unary 40) else None;
  j_i64 := fun _ => None; j_u64 := fun _ => None;
  j_bool := fun k => if bool_decide (k ∈ ISOLATION_INVARIANTS) || retained && bool_decide (k = "resources_retained")
    then Some true else None; j_text := fun _ => None |}.
Definition outcome (state code : string) (retained : bool) : OperationOutcome := {|
  oo_state := state; oo_code := code; oo_proof := {|
    pr_object := Some (proof_object retained); pr_size := 2; pr_manifest := None; pr_validation := None |} |}.
Definition live : LeaseIdentity := {| lid_worker := "worker"; lid_attempt := 55; lid_fence := 1 |}.
Definition success : OperationRequest := {| orq_live := live; orq_outcome := outcome "succeeded" "provisioned" false |}.
Definition complete q w := complete_operation (P := unit) Y N st (unary 54) q at_start w.
Definition provisioned := complete success (snd leased).
Definition again := complete_operation (P := unit) Y N st (unary 54) success (env_at 9000000000) (snd provisioned).
Definition ask : CredentialsRequest := {| crq_live := live; crq_ids := [48%N] |}.
Definition opened := resolve_credentials (P := unit) Y st (unary 54) ask at_start (snd leased).
Definition ticked := scheduler_tick (P := unit) Y N st at_start (snd provisioned).
Definition retained := complete {| orq_live := live; orq_outcome := outcome "retriable" "grants_failed" true |} (snd leased).
Definition leased_again := lease_at 1000000000 (snd retained).
Definition live_again : LeaseIdentity := {| lid_worker := "worker"; lid_attempt := 56; lid_fence := 2 |}.
Definition success_again : OperationRequest := {| orq_live := live_again; orq_outcome := outcome "succeeded" "provisioned" false |}.
Definition refused_success := complete success_again (snd leased_again).
Definition five := snd (lease_at 9000000000 (snd (lease_at 7000000000 (snd (lease_at 5000000000 (snd (lease_at 3000000000 (snd leased)))))))).
Definition stranded := lease_at 11000000000 five.

Lemma tenant_start_fresh : tb_fresh (db start).
Proof. by split_and!. Qed.
Lemma tenant_step {A} (m : M (TbDb unit) A) env w : tenant_request Y N st m -> tb_api Y N st w (snd (m env w)).
Proof. intros Hm. exact (api_request Y N st w _ m env _ Hm (surjective_pairing (m env w))). Qed.
Lemma tenant_run_created : rtc (tb_api Y N st) start (snd created).
Proof. apply rtc_once. exact (tenant_step create at_start start (tq_create Y N st _ _ _ _ _)). Qed.
Lemma tenant_step_lease t w : tb_api Y N st w (snd (lease_at t w)).
Proof. exact (tenant_step (lease_operation Y st provision_request) (env_at t) w (tq_lease Y N st provision_request)). Qed.
Lemma tenant_step_complete q w : tb_api Y N st w (snd (complete q w)).
Proof. exact (tenant_step (complete_operation Y N st (unary 54) q) at_start w (tq_complete Y N st (unary 54) q)). Qed.
Lemma tenant_run_leased : rtc (tb_api Y N st) start (snd leased).
Proof. eapply rtc_r; [exact tenant_run_created|]. exact (tenant_step_lease 1000000000 (snd created)). Qed.
Lemma tenant_run_provisioned : rtc (tb_api Y N st) start (snd provisioned).
Proof. eapply rtc_r; [exact tenant_run_leased|]. exact (tenant_step_complete success (snd leased)). Qed.
Lemma tenant_run_five : rtc (tb_api Y N st) start five.
Proof. do 4 (eapply rtc_r; [|apply tenant_step_lease]). exact tenant_run_leased. Qed.

(** What the theorems need of a database, read off the state. *)
Definition state_in (w : World (TbDb unit)) : option DatabaseState := td_state <$> databases (db w) !! 40%N.
Lemma tenant_state_in_Some w s : state_in w = Some s -> exists t, databases (db w) !! 40%N = Some t /\ td_state t = s.
Proof. unfold state_in. intros (t & -> & ->)%fmap_Some. eauto. Qed.
Definition about_in (w : World (TbDb unit)) : option (OperationKind * Uuid) :=
  (fun o => (do_kind o, do_database o)) <$> tb_operations (db w) !! 54%N.
Lemma tenant_about_in_Some w kind k : about_in w = Some (kind, k) ->
  exists o, tb_operations (db w) !! 54%N = Some o /\ do_kind o = kind /\ do_database o = k.
Proof. unfold about_in. intros (o & -> & [= -> ->])%fmap_Some. eauto. Qed.

Lemma mixed_executions_are_release_executions_witness :
  rtc (rl_api Y st) (shared start) (shared (snd provisioned)) /\ state_in (snd provisioned) = Some DbReady.
Proof.
  split; [|vm_compute; reflexivity].
  exact (mixed_executions_are_release_executions Y N st start (snd provisioned) tenant_start_fresh tenant_run_provisioned).
Defined.

Lemma tenant_rows_keep_their_history_witness :
  tenant_history (tb_rl (db (snd leased))) (tb_rl (db (snd provisioned)))
  /\ state_in (snd leased) = Some Provisioning /\ state_in (snd provisioned) = Some DbReady.
Proof.
  split; [|split; vm_compute; reflexivity].
  exact (tenant_rows_keep_their_history Y N st start (snd leased) (snd provisioned) tenant_start_fresh tenant_run_leased
           (rtc_once _ _ (tenant_step_complete success (snd leased)))).
Defined.

Lemma source_generation_counts_applied_migrations_witness : exists t,
  databases (db (snd provisioned)) !! 40%N = Some t
  /\ td_source t = (1 + Z.of_nat (count_where (applied_to 40) (tb_migrations (db (snd provisioned)))))%Z.
Proof.
  destruct (tenant_state_in_Some (snd provisioned) DbReady) as (t & Ht & _); [vm_compute; reflexivity|]. exists t. split; [done|].
  exact (proj1 (source_generation_counts_applied_migrations Y N st start (snd provisioned) tenant_start_fresh tenant_run_provisioned) 40%N t Ht).
Defined.

Lemma operations_stay_well_formed_witness : exists o,
  tb_operations (db (snd leased)) !! 54%N = Some o /\ within 0 5 (do_attempts o).
Proof.
  destruct (tenant_about_in_Some (snd leased) Provision 40) as (o & Ho & _); [vm_compute; reflexivity|]. exists o. split; [done|].
  exact (proj1 (proj2 (operations_stay_well_formed Y N st start (snd leased) 54 o tenant_start_fresh tenant_run_leased Ho))).
Defined.

Lemma completion_effects_happen_once_witness : exists o,
  again = (Ok {| ocp_operation := o; ocp_effect := {| oef_id := 54; oef_kind := do_kind o; oef_created := false |} |},
           snd provisioned).
Proof.
  destruct (fst provisioned) as [c|e] eqn:E; [|vm_compute in E; discriminate].
  assert (He : ocp_effect c = {| oef_id := 54; oef_kind := Provision; oef_created := true |}).
  { assert (Ec : (match fst provisioned with Ok x => Some (ocp_effect x) | Err _ => None end)
                 = Some {| oef_id := 54; oef_kind := Provision; oef_created := true |}) by (vm_compute; reflexivity).
    rewrite E in Ec. by injection Ec. }
  destruct (completion_effects_happen_once Y N st (unary 54) success at_start (env_at 9000000000) start (snd leased)
    (snd provisioned) (snd provisioned) c tenant_start_fresh tenant_run_leased) as (o & _ & Hagain);
    [rewrite <- E; apply surjective_pairing|by rewrite He|constructor|].
  exists o. rewrite He in Hagain. exact Hagain.
Defined.

Lemma operation_credentials_go_to_the_lease_holder_witness : exists l,
  fst opened = Ok l /\ length l = 1%nat /\ db (snd opened) = db (snd leased).
Proof.
  destruct (fst opened) as [l|e] eqn:E; [|vm_compute in E; discriminate]. exists l. split; [done|].
  destruct (operation_credentials_go_to_the_lease_holder Y st (unary 54) ask at_start (snd leased) (snd opened) l)
    as (Hdb & id & o & a & key & expires & _ & _ & _ & _ & _ & _ & _ & _ & _ & _ & _ & _ & _ & _ & Hl & _); [rewrite <- E; apply surjective_pairing|].
  split; [exact Hl|exact Hdb].
Defined.

Lemma tenant_unary_texts u : y_parse_uuid Y (y_uuid_text Y u) = Some u.
Proof.
  change (Some (N.of_nat (String.length (unary u))) = Some u). unfold unary, text, to_text. f_equal.
  rewrite <- (N2Nat.id u) at 2. f_equal. induction (N.to_nat u) as [|n IH]; [done|]. simpl. by f_equal.
Qed.
Lemma scheduler_tick_covers_every_database_witness : exists response t,
  fst ticked = Ok response /\ databases (db (snd provisioned)) !! 40%N = Some t
  /\ covered N (scr_policy response) (db (snd ticked)) t.
Proof.
  destruct (fst ticked) as [response|e] eqn:E; [|vm_compute in E; discriminate].
  destruct (tenant_state_in_Some (snd provisioned) DbReady) as (t & Ht & Hs); [vm_compute; reflexivity|].
  exists response, t. split; [done|]. split; [done|].
  assert (Hserved : served t = true) by (unfold served; rewrite Hs; vm_compute; reflexivity).
  refine (proj1 (scheduler_tick_covers_every_database Y N st at_start (snd provisioned) (snd ticked) response tenant_unary_texts _)
            40%N t Ht Hserved).
  rewrite <- E. apply surjective_pairing.
Defined.

Lemma lost_backups_block_their_migration_witness :
  archives (db (snd (request_pre_migration_backup Y (rg_m3 st) 1 2 40 41 "r1" at_start (shared (snd provisioned)))))
  = tb_archives (db (snd provisioned)).
Proof.
  refine (proj2 (lost_backups_block_their_migration Y N st start start (snd provisioned) 40 41 "r1" 1 tenant_start_fresh (rtc_refl _ _)
    _ tenant_run_provisioned _) 1%N 2%N at_start _ _ (surjective_pairing _)).
  - split.
    + exists 39%N, corrupt. split; vm_compute; reflexivity.
    + intros k a Ha _. change (({[ 39%N := corrupt ]} : gmap Uuid Archive) !! k = Some a) in Ha.
      apply lookup_singleton_Some in Ha as [_ <-]. vm_compute. reflexivity.
  - intros t Ht. assert (E : td_source <$> databases (db (snd provisioned)) !! 40%N = Some 1%Z) by (vm_compute; reflexivity).
    rewrite Ht in E. by injection E.
Defined.

Lemma retained_databases_never_become_ready_witness : state_in (snd refused_success) = Some DbFailedResourcesRetained.
Proof.
  destruct (tenant_state_in_Some (snd retained) DbFailedResourcesRetained) as (t & Ht & Hs); [vm_compute; reflexivity|].
  destruct (tenant_about_in_Some (snd leased_again) Provision 40) as (o & Ho & Hk & Hd); [vm_compute; reflexivity|].
  destruct (retained_databases_never_become_ready Y N st start (snd retained) (snd leased_again) (snd refused_success) 40 t 54
    (unary 54) success_again o at_start (fst refused_success)) as (_ & _ & t' & Ht' & Hs');
    [exact tenant_start_fresh|..|done|done| |vm_compute; reflexivity|exact Ho|done|done|done|apply surjective_pairing|].
  - eapply rtc_r; [exact tenant_run_leased|]. apply tenant_step_complete.
  - apply rtc_once. apply tenant_step_lease.
  - unfold state_in. rewrite Ht'. cbn. by rewrite Hs'.
Defined.

End TenantDemo.
