(* ===== verification/GraphTables.v ===== *)
(** * The project graph: tables, records and constraints (crates/control/src/graph.rs)

    The tables of migrations/0002_project_graph.sql.  Those that admission reads too
    (projects, deployments, lifecycle intents) are [Admission]'s; the columns of a
    project that only the graph uses are a table beside it. *)

From stdpp Require Import base list option gmap strings sorting.
From Stdlib Require Import ZArith Lia Ascii.
From S2P Require Import Prelude RustText Bytes PgTx Intent ExecutionTables ReleaseTables Admission ProjectContract.

Local Open Scope string_scope.
Local Open Scope list_scope.

#[export] Instance ServiceKind_eq : EqDecision ServiceKind.
Proof. solve_decision. Defined.

(** ** Rows *)

Inductive ProjectMode :=
| Draft | CompatibilityCheck | DeploymentIntent | ShowcaseOnly | PortfolioOnly | ExternalCaseStudy.
Record ProjectDetails := { pd_name : rstr; pd_mode : ProjectMode }.

(** A JSON document is the value it was made from. *)
Record ConfigurationRow := {
  cf_account : Uuid; cf_project : Uuid; cf_number : Z; cf_spec : StandardProjectSpec;
}.
Record RepositoryRow := { rp_id : Uuid; rp_account : Uuid; rp_project : Uuid }.
Record RepositoryConfiguration := {
  rf_account : Uuid; rf_project : Uuid; rf_spec : RepositorySpec;
}.
Record ServiceRow := { sv_id : Uuid; sv_account : Uuid; sv_project : Uuid; sv_kind : ServiceKind }.
Record ServiceConfigurationRow := {
  sf_account : Uuid; sf_project : Uuid; sf_name : rstr; sf_kind : ServiceKind; sf_spec : ServiceSpec;
}.
Inductive DeployedKind := StaticRef | ApplicationRef.
Record ArtifactRow := {
  af_account : Uuid; af_project : Uuid; af_deployment : Uuid; af_kind : DeployedKind;
  af_service : Uuid; af_digest : string;
}.
(** The rows of hosting_state_events that the graph writes. *)
Record OwnerEvent := {
  oe_account : Uuid; oe_project : Uuid; oe_deployment : option Uuid; oe_state : string; oe_reason : string;
}.

(** ** Records *)

Record ProjectRecord := {
  pr_id : Uuid; pr_owner : Uuid; pr_name : rstr; pr_mode : ProjectMode; pr_slots : Z;
  pr_slot_state : SlotState; pr_revision : Z;
}.
Record ConfigurationRecord := {
  cr_id : Uuid; cr_project : Uuid; cr_revision : Z; cr_spec : StandardProjectSpec;
}.
Record RepositoryRecord := {
  ry_id : Uuid; ry_project : Uuid; ry_configuration : RepositorySpec; ry_revision : Z;
}.
Record ServiceRecord := {
  sr_id : Uuid; sr_project : Uuid; sr_configuration : ServiceSpec; sr_revision : Z;
}.
Record ConfigurationGraph := {
  cg_configuration : ConfigurationRecord; cg_repositories : list RepositoryRecord;
  cg_services : list ServiceRecord;
}.
Record ProjectGraph := { pg_project : ProjectRecord; pg_graph : ConfigurationGraph }.
Record ArtifactReference := { fr_service : Uuid; fr_digest : string }.
Record DeploymentRecord := {
  de_id : Uuid; de_project : Uuid; de_config : Uuid; de_commit : string; de_lifecycle : Lifecycle;
  de_static : option ArtifactReference; de_application : option ArtifactReference;
  de_health : option string; de_migration : option string; de_secrets : list SecretReference;
}.
Record IntentRecord := {
  ir_id : Uuid; ir_project : Uuid; ir_kind : IntentKind; ir_target : option Uuid;
  ir_state : IntentState; ir_revision : Z;
}.

Inductive GraphResponse :=
| ProjectResponse (g : ProjectGraph)
| DeploymentResponse (r : DeploymentRecord)
| IntentResponse (r : IntentRecord).
Definition project_graph_of (r : GraphResponse) : option ProjectGraph :=
  match r with ProjectResponse g => Some g | _ => None end.
Definition deployment_of (r : GraphResponse) : option DeploymentRecord :=
  match r with DeploymentResponse r => Some r | _ => None end.
Definition intent_of (r : GraphResponse) : option IntentRecord :=
  match r with IntentResponse r => Some r | _ => None end.

(** ** The database *)

Record GraphDb := MkGraphDb {
  gr_adm : AdmDb;
  gr_details : gmap Uuid ProjectDetails;
  gr_configurations : gmap Uuid ConfigurationRow;
  gr_repositories : gmap Uuid RepositoryRow;
  gr_repository_configurations : gmap (Uuid * Uuid) RepositoryConfiguration;
  gr_services : gmap Uuid ServiceRow;
  gr_service_configurations : gmap (Uuid * Uuid) ServiceConfigurationRow;
  gr_deployment_refs : gmap Uuid DeploymentRefs;
  gr_artifacts : gmap Uuid ArtifactRow;
  gr_events : list OwnerEvent;
  gr_idem : gmap (Uuid * string * string) (IdemRow GraphResponse);
  gr_audits : list AuditEvent;
}.
Implicit Types d : GraphDb.

Definition set_gr_adm v d := MkGraphDb v (gr_details d) (gr_configurations d) (gr_repositories d)
  (gr_repository_configurations d) (gr_services d) (gr_service_configurations d) (gr_deployment_refs d)
  (gr_artifacts d) (gr_events d) (gr_idem d) (gr_audits d).
Definition set_gr_details v d := MkGraphDb (gr_adm d) v (gr_configurations d) (gr_repositories d)
  (gr_repository_configurations d) (gr_services d) (gr_service_configurations d) (gr_deployment_refs d)
  (gr_artifacts d) (gr_events d) (gr_idem d) (gr_audits d).
Definition set_gr_configurations v d := MkGraphDb (gr_adm d) (gr_details d) v (gr_repositories d)
  (gr_repository_configurations d) (gr_services d) (gr_service_configurations d) (gr_deployment_refs d)
  (gr_artifacts d) (gr_events d) (gr_idem d) (gr_audits d).
Definition set_gr_repositories v d := MkGraphDb (gr_adm d) (gr_details d) (gr_configurations d) v
  (gr_repository_configurations d) (gr_services d) (gr_service_configurations d) (gr_deployment_refs d)
  (gr_artifacts d) (gr_events d) (gr_idem d) (gr_audits d).
Definition set_gr_repository_configurations v d := MkGraphDb (gr_adm d) (gr_details d) (gr_configurations d)
  (gr_repositories d) v (gr_services d) (gr_service_configurations d) (gr_deployment_refs d)
  (gr_artifacts d) (gr_events d) (gr_idem d) (gr_audits d).
Definition set_gr_services v d := MkGraphDb (gr_adm d) (gr_details d) (gr_configurations d) (gr_repositories d)
  (gr_repository_configurations d) v (gr_service_configurations d) (gr_deployment_refs d)
  (gr_artifacts d) (gr_events d) (gr_idem d) (gr_audits d).
Definition set_gr_service_configurations v d := MkGraphDb (gr_adm d) (gr_details d) (gr_configurations d)
  (gr_repositories d) (gr_repository_configurations d) (gr_services d) v (gr_deployment_refs d)
  (gr_artifacts d) (gr_events d) (gr_idem d) (gr_audits d).
Definition set_gr_events v d := MkGraphDb (gr_adm d) (gr_details d) (gr_configurations d) (gr_repositories d)
  (gr_repository_configurations d) (gr_services d) (gr_service_configurations d) (gr_deployment_refs d)
  (gr_artifacts d) v (gr_idem d) (gr_audits d).
Definition set_gr_idem v d := MkGraphDb (gr_adm d) (gr_details d) (gr_configurations d) (gr_repositories d)
  (gr_repository_configurations d) (gr_services d) (gr_service_configurations d) (gr_deployment_refs d)
  (gr_artifacts d) (gr_events d) v (gr_audits d).
Definition set_gr_audits v d := MkGraphDb (gr_adm d) (gr_details d) (gr_configurations d) (gr_repositories d)
  (gr_repository_configurations d) (gr_services d) (gr_service_configurations d) (gr_deployment_refs d)
  (gr_artifacts d) (gr_events d) (gr_idem d) v.
Definition set_lifecycle_intents t (d : AdmDb) := MkAdmDb (pools d) (entitlements d) (proofs d) (holds d)
  (reservations d) (observations d) (usage d) (refunds d) (receipts d) (projects d) (deployments d) t
  (hosting_events d) (user_authorizations d) (installations d) (bindings d) (source_revisions d)
  (adm_idem d) (adm_audits d).

(** The tables shared with admission, and a computation on them. *)
Definition gr_projects d : gmap Uuid Project := projects (gr_adm d).
Definition gr_deployments d : gmap Uuid Deployment := deployments (gr_adm d).
Definition gr_intents d : gmap Uuid LifecycleIntent := lifecycle_intents (gr_adm d).
Definition set_gr_projects v d := set_gr_adm (set_projects v (gr_adm d)) d.
Definition set_gr_deployments v d := set_gr_adm (set_deployments v (gr_adm d)) d.
Definition set_gr_intents v d := set_gr_adm (set_lifecycle_intents v (gr_adm d)) d.
Definition in_adm {A} (m : M AdmDb A) : M GraphDb A := zoom gr_adm set_gr_adm m.

#[export] Instance gr_intent_store : IntentStore GraphDb GraphResponse := {
  idempotency_records := gr_idem; set_idempotency_records := set_gr_idem;
  audit_events := gr_audits; set_audit_events := set_gr_audits;
}.
#[export] Instance gr_intent_store_laws : IntentStoreLaws GraphDb GraphResponse.
Proof. by split. Qed.

(** ** Constraints *)

(** [octet_length(name) BETWEEN 1 AND n]; the text type holds no NUL. *)
Definition text_ok (n : Z) (s : rstr) : bool :=
  (1 <=? byte_len s)%Z && (byte_len s <=? n)%Z && negb (contains_char 0 s).

(** jsonb holds no NUL either: the texts of a document. *)
Definition opt_text (o : option rstr) : list rstr := match o with Some s => [s] | None => [] end.
Definition service_texts (s : ServiceSpec) : list rstr :=
  name s :: opt_text (root s) ++ opt_text (build_command s) ++ opt_text (output_directory s)
  ++ opt_text (start_command s) ++ opt_text (hc_path <$> health_check s).
Definition repository_texts (r : RepositorySpec) : list rstr := opt_text (lockfile_path r).
Definition spec_texts (s : StandardProjectSpec) : list rstr :=
  contract_version s :: flat_map repository_texts (ProjectContract.repositories s)
  ++ flat_map service_texts (ProjectContract.services s).
Definition storable (texts : list rstr) : bool := forallb (fun s => negb (contains_char 0 s)) texts.

Definition details_check (p : ProjectDetails) : bool := text_ok 120 (pd_name p).

(** [UNIQUE (project_id, revision_number)] and the project it belongs to. *)
Definition owned_project d (account project : Uuid) : bool :=
  is_some_and (fun p => bool_decide (pj_account p = account)) (gr_projects d !! project).
Definition configuration_check d (c : ConfigurationRow) : bool :=
  (0 <? cf_number c)%Z && storable (spec_texts (cf_spec c)) && owned_project d (cf_account c) (cf_project c)
  && negb (exists_row (fun o => bool_decide (cf_project o = cf_project c) && (cf_number o =? cf_number c)%Z)
             (gr_configurations d)).
Definition owned_configuration d (account project id : Uuid) : bool :=
  is_some_and (fun c => bool_decide (cf_account c = account) && bool_decide (cf_project c = project))
    (gr_configurations d !! id).

Definition repository_check d (r : RepositoryRow) : bool := owned_project d (rp_account r) (rp_project r).
Definition repository_configuration_check d (k : Uuid * Uuid) (r : RepositoryConfiguration) : bool :=
  storable (repository_texts (rf_spec r)) && owned_configuration d (rf_account r) (rf_project r) k.1
  && is_some_and (fun x => bool_decide (rp_account x = rf_account r) && bool_decide (rp_project x = rf_project r))
       (gr_repositories d !! k.2)
  && negb (bool_decide (k.1 ∈ map (fun kr => kr.1.1) (map_to_list (gr_repository_configurations d)))).

Definition kind_allowed (k : ServiceKind) : bool := one_of k [StaticFrontend; Application; Postgres].
Definition service_check d (s : ServiceRow) : bool :=
  kind_allowed (sv_kind s) && owned_project d (sv_account s) (sv_project s).
Definition service_configuration_check d (k : Uuid * Uuid) (s : ServiceConfigurationRow) : bool :=
  text_ok 64 (sf_name s) && kind_allowed (sf_kind s) && storable (service_texts (sf_spec s))
  && owned_configuration d (sf_account s) (sf_project s) k.1
  && is_some_and (fun x => bool_decide (sv_account x = sf_account s) && bool_decide (sv_project x = sf_project s)
                           && bool_decide (sv_kind x = sf_kind s)) (gr_services d !! k.2)
  && forallb (fun kr => negb (bool_decide (kr.1.1 = k.1)
                              && (bool_decide (sf_name kr.2 = sf_name s) || bool_decide (sf_kind kr.2 = sf_kind s))))
       (map_to_list (gr_service_configurations d)).

Definition is_lower_hex (b : Z) : bool := is_ascii_digit b || is_lower_hex_letter b.
Definition commit_ok (value : string) : bool :=
  ((String.length value =? 40)%nat || (String.length value =? 64)%nat) && forallb is_lower_hex (as_bytes value).
(** [deployments_one_admission_required_idx]. *)
Definition deployment_check d (x : Deployment) : bool :=
  commit_ok (dp_commit x) && owned_configuration d (dp_account x) (dp_project x) (dp_config x)
  && negb (bool_decide (dp_lifecycle x = AdmissionRequired)
           && exists_row (fun o => bool_decide (dp_project o = dp_project x)
                                   && bool_decide (dp_lifecycle o = AdmissionRequired)) (gr_deployments d)).
(** [project_lifecycle_intents_one_requested_idx]. *)
Definition requested_of (project : Uuid) (i : LifecycleIntent) : bool :=
  bool_decide (li_project i = project) && bool_decide (li_state i = Requested).
Definition lifecycle_intent_check d (i : LifecycleIntent) : bool :=
  match li_kind i, li_target i with
  | Rollback, Some target =>
      is_some_and (fun x => bool_decide (dp_account x = li_account i) && bool_decide (dp_project x = li_project i))
        (gr_deployments d !! target)
  | Removal, None => owned_project d (li_account i) (li_project i)
  | _, _ => false
  end
  && negb (bool_decide (li_state i = Requested) && exists_row (requested_of (li_project i)) (gr_intents d)).
