(* ===== verification/Graph.v ===== *)
(** * The project graph: the handlers (crates/control/src/graph.rs)

    Owners create projects and configurations, and ask for deployments, rollbacks and
    removals.  Validation reports its issues before anything else happens; what follows
    is one transaction, which commits an audit record even when it refuses. *)

From stdpp Require Import base list option gmap strings sorting.
From Stdlib Require Import ZArith Lia Ascii.
From S2P Require Import Prelude RustText Bytes PgTx Intent ExecutionTables Runtime ReleaseTables Admission ProjectContract GraphTables.

Local Open Scope string_scope.
Local Open Scope list_scope.

(** ** Errors *)

Record GraphIssue := { gi_code : string; gi_path : string; gi_message : string }.
Inductive GraphError :=
| ApiFailure (e : ApiError)
| Detailed (status : Z) (code message : string) (issues : list GraphIssue).

Definition validation_error (issues : list GraphIssue) : GraphError :=
  Detailed 422 "invalid_project_configuration" "the request failed contract validation" issues.
Definition changed_payload : ApiError := conflict "idempotency_payload_changed"
  "the idempotency key was already used with a different request".
Definition lifecycle_pending : ApiError := conflict "lifecycle_intent_pending"
  "the project already has a pending lifecycle intent".

(** The name of a code in JSON. *)
Definition issue_code_text (c : ProjectIssueCode) : string :=
  match c with
  | UnsupportedContractVersion => "unsupported_contract_version" | RepositoryCount => "repository_count"
  | MissingLockfile => "missing_lockfile" | UnsupportedLockfile => "unsupported_lockfile"
  | UnsafeLockfilePath => "unsafe_lockfile_path" | MissingRunnableService => "missing_runnable_service"
  | InvalidServiceName => "invalid_service_name" | DuplicateServiceName => "duplicate_service_name"
  | TextFieldTooLong => "text_field_too_long" | UnsafeServiceRoot => "unsafe_service_root"
  | ExtraStaticFrontend => "extra_static_frontend" | ExtraApplicationService => "extra_application_service"
  | ExtraDatabase => "extra_database" | UnsupportedServiceKind => "unsupported_service_kind"
  | UnsupportedFrameworkPattern => "unsupported_framework_pattern" | MissingNodeRuntime => "missing_node_runtime"
  | UnsupportedNodeVersion => "unsupported_node_version" | MissingBuildCommand => "missing_build_command"
  | MissingOutputDirectory => "missing_output_directory" | MissingStartCommand => "missing_start_command"
  | MissingHealthCheck => "missing_health_check" | UnsupportedHealthCheck => "unsupported_health_check"
  | DatabaseRequired => "database_required" | DatabaseWithoutApplication => "database_without_application"
  | UnexpectedServiceConfiguration => "unexpected_service_configuration"
  | MissingResourceLimit => "missing_resource_limit" | DuplicateResourceLimit => "duplicate_resource_limit"
  | UnboundedResourceLimit => "unbounded_resource_limit" | ResourceAmountMismatch => "resource_amount_mismatch"
  | ResourceUnitMismatch => "resource_unit_mismatch" | ResourceScopeMismatch => "resource_scope_mismatch"
  | ResourceEnforcementMismatch => "resource_enforcement_mismatch"
  | ResourceNotBenchmarkCandidate => "resource_not_benchmark_candidate"
  end.

(** ** Validation *)

Definition ascii_control (c : rchar) : bool := (c <? 32)%Z || (c =? 127)%Z.
Definition validate_name (name : rstr) : res GraphError unit :=
  if bool_decide (trim name = []) || (120 <? byte_len name)%Z || existsb ascii_control name
  then Err (validation_error [{| gi_code := "invalid_name"; gi_path := "name";
         gi_message := "project name must contain 1 to 120 non-control bytes" |}])
  else Ok tt.
Definition graph_issue (i : ProjectValidationIssue) : GraphIssue :=
  {| gi_code := issue_code_text (code i); gi_path := ProjectContract.path i; gi_message := message i |}.
Definition validate_spec (spec : StandardProjectSpec) : res GraphError unit :=
  let issues := map graph_issue (validate spec) in
  if bool_decide (length issues = 0) then Ok tt else Err (validation_error issues).
Definition commit_invalid : GraphError :=
  validation_error [{| gi_code := "invalid_source_commit"; gi_path := "source_commit";
    gi_message := "source_commit must be 40 or 64 lowercase hexadecimal characters" |}].

(** A handler: what is checked first, then the request. *)
Definition GM (A : Type) : Type := Env -> World GraphDb -> res GraphError A * World GraphDb.
Definition checked {A} (check : res GraphError unit) (m : M GraphDb A) : GM A := fun env w =>
  match check with
  | Err e => (Err e, w)
  | Ok _ => match m env w with (Ok a, w') => (Ok a, w') | (Err e, w') => (Err (ApiFailure e), w') end
  end.

(** ** Reading *)

Definition as_u64 (v : Z) : res ApiError Z := if (v <? 0)%Z then Err internal else Ok v.

Definition by_repository (a b : RepositoryRecord) : Prop := (ry_id a <= ry_id b)%N.
#[local] Instance by_repository_dec a b : Decision (by_repository a b).
Proof. unfold by_repository. apply _. Defined.
(** [ORDER BY kind, name, service_id]: a configuration has one service of a kind. *)
Definition kind_rank (k : ServiceKind) : Z :=
  match k with Application => 0 | Postgres => 1 | StaticFrontend => 2 | _ => 3 end.
Definition by_kind (a b : ServiceRecord) : Prop :=
  (kind_rank (kind (sr_configuration a)) <= kind_rank (kind (sr_configuration b)))%Z.
#[local] Instance by_kind_dec a b : Decision (by_kind a b).
Proof. unfold by_kind. apply _. Defined.

Definition repositories_of d (account project configuration : Uuid) (revision : Z) : list RepositoryRecord :=
  merge_sort by_repository (omap (fun kr =>
    _ ← where_ (bool_decide (kr.1.1 = configuration) && bool_decide (rf_account kr.2 = account)
                && bool_decide (rf_project kr.2 = project));
    Some {| ry_id := kr.1.2; ry_project := project; ry_configuration := rf_spec kr.2; ry_revision := revision |})
    (map_to_list (gr_repository_configurations d))).
Definition services_of d (account project configuration : Uuid) (revision : Z) : list ServiceRecord :=
  merge_sort by_kind (omap (fun kr =>
    _ ← where_ (bool_decide (kr.1.1 = configuration) && bool_decide (sf_account kr.2 = account)
                && bool_decide (sf_project kr.2 = project));
    Some {| sr_id := kr.1.2; sr_project := project; sr_configuration := sf_spec kr.2; sr_revision := revision |})
    (map_to_list (gr_service_configurations d))).

Definition load_configuration d (account project configuration : Uuid) : res ApiError ConfigurationGraph :=
  res_bind (ok_or (c ← gr_configurations d !! configuration;
                   _ ← where_ (bool_decide (cf_account c = account) && bool_decide (cf_project c = project)); Some c)
    not_found) (fun c =>
  res_bind (as_u64 (cf_number c)) (fun revision =>
  Ok {| cg_configuration := {| cr_id := configuration; cr_project := project; cr_revision := revision;
                               cr_spec := cf_spec c |};
        cg_repositories := repositories_of d account project configuration revision;
        cg_services := services_of d account project configuration revision |})).

(** A project without a configuration does not fit the row that is read. *)
Definition load_project_graph d (account project : Uuid) : res ApiError ProjectGraph :=
  res_bind (ok_or (p ← gr_projects d !! project; x ← gr_details d !! project;
                   _ ← where_ (bool_decide (pj_account p = account)); Some (p, x)) not_found) (fun px =>
  res_bind (ok_or (pj_config px.1) database_unavailable) (fun configuration =>
  res_bind (load_configuration d account project configuration) (fun g =>
  res_bind (guard_err ((pj_slots px.1 <? 0) || (255 <? pj_slots px.1))%Z internal) (fun _ =>
  res_bind (as_u64 (pj_revision px.1)) (fun revision =>
  Ok {| pg_project := {| pr_id := project; pr_owner := account; pr_name := pd_name px.2; pr_mode := pd_mode px.2;
                         pr_slots := pj_slots px.1; pr_slot_state := pj_slot_state px.1; pr_revision := revision |};
        pg_graph := g |}))))).

Definition artifact_reference d (account project deployment : Uuid) (k : DeployedKind) : option ArtifactReference :=
  (fun r => {| fr_service := af_service r; fr_digest := af_digest r |}) <$>
    select_first (fun _ r => bool_decide (af_account r = account) && bool_decide (af_project r = project)
      && bool_decide (af_deployment r = deployment)
      && match af_kind r, k with StaticRef, StaticRef | ApplicationRef, ApplicationRef => true | _, _ => false end)
      any_order (gr_artifacts d).
Definition load_deployment d (account project deployment : Uuid) : res ApiError DeploymentRecord :=
  res_bind (ok_or (x ← gr_deployments d !! deployment;
                   _ ← where_ (bool_decide (dp_account x = account) && bool_decide (dp_project x = project)); Some x)
    not_found) (fun x =>
  let refs := gr_deployment_refs d !! deployment in
  Ok {| de_id := deployment; de_project := project; de_config := dp_config x; de_commit := dp_commit x;
        de_lifecycle := dp_lifecycle x; de_static := artifact_reference d account project deployment StaticRef;
        de_application := artifact_reference d account project deployment ApplicationRef;
        de_health := dr_health <$> refs; de_migration := refs ≫= dr_revision;
        de_secrets := default [] (dr_secrets <$> refs) |}).

(** ** Statements *)

Definition insert_configuration (id : Uuid) (c : ConfigurationRow) : M GraphDb unit :=
  d <~ get_db;;
  t <~ sql (insert_pk (configuration_check d) id c (gr_configurations d));;
  put_db (set_gr_configurations t d).

(** [ON CONFLICT (project_id) DO NOTHING]. *)
Definition insert_repository (r : RepositoryRow) : M GraphDb unit :=
  d <~ get_db;;
  if exists_row (fun o => bool_decide (rp_project o = rp_project r)) (gr_repositories d) then tret tt
  else
    t <~ sql (insert_pk (repository_check d) (rp_id r) r (gr_repositories d));;
    put_db (set_gr_repositories t d).
Definition insert_repository_configuration (k : Uuid * Uuid) (r : RepositoryConfiguration) : M GraphDb unit :=
  d <~ get_db;;
  t <~ sql (insert_pk (repository_configuration_check d k) k r (gr_repository_configurations d));;
  put_db (set_gr_repository_configurations t d).
Definition own_repository d (account project : Uuid) : option Uuid :=
  rp_id <$> select_first (fun _ r => bool_decide (rp_account r = account) && bool_decide (rp_project r = project))
    any_order (gr_repositories d).

(** [ON CONFLICT (project_id, kind) DO NOTHING]. *)
Definition insert_service (s : ServiceRow) : M GraphDb unit :=
  d <~ get_db;;
  if exists_row (fun o => bool_decide (sv_project o = sv_project s) && bool_decide (sv_kind o = sv_kind s))
       (gr_services d) then tret tt
  else
    t <~ sql (insert_pk (service_check d) (sv_id s) s (gr_services d));;
    put_db (set_gr_services t d).
Definition insert_service_configuration (k : Uuid * Uuid) (s : ServiceConfigurationRow) : M GraphDb unit :=
  d <~ get_db;;
  t <~ sql (insert_pk (service_configuration_check d k) k s (gr_service_configurations d));;
  put_db (set_gr_service_configurations t d).
Definition own_service d (account project : Uuid) (k : ServiceKind) : option Uuid :=
  sv_id <$> select_first (fun _ s => bool_decide (sv_account s = account) && bool_decide (sv_project s = project)
                                     && bool_decide (sv_kind s = k)) any_order (gr_services d).

(** The identifier found, or a new one. *)
Definition or_new (o : option Uuid) : M GraphDb Uuid := match o with Some id => tret id | None => new_uuid end.

(** [UPDATE projects SET ...]: the columns of admission, and the others. *)
Definition update_graph_project (account project : Uuid) (f : Project -> option Project) : M GraphDb unit :=
  d <~ get_db;;
  r <~ sql (update_pk project_check (fun p => bool_decide (pj_account p = account)) f project (gr_projects d));;
  put_db (set_gr_projects r.1 d).
Definition update_details (account project : Uuid) (f : ProjectDetails -> ProjectDetails) : M GraphDb unit :=
  d <~ get_db;;
  r <~ sql (update_pk details_check (fun _ => owned_project d account project) (fun x => Some (f x)) project
              (gr_details d));;
  put_db (set_gr_details r.1 d).
Definition owner_event (e : OwnerEvent) : M GraphDb unit :=
  d <~ get_db;;
  put_db (set_gr_events (gr_events d ++ [e]) d).

Definition with_config (configuration : Uuid) (p : Project) : Project := {|
  pj_account := pj_account p; pj_slots := pj_slots p; pj_slot_state := pj_slot_state p;
  pj_config := Some configuration; pj_revision := pj_revision p |}.
Definition with_slot (slots : Z) (state : SlotState) (p : Project) : Project := {|
  pj_account := pj_account p; pj_slots := slots; pj_slot_state := state; pj_config := pj_config p;
  pj_revision := pj_revision p |}.
(** [revision = revision + 1]. *)
Definition revised (p : Project) : option Project :=
  r ← bigint_succ (pj_revision p);
  Some {| pj_account := pj_account p; pj_slots := pj_slots p; pj_slot_state := pj_slot_state p;
          pj_config := pj_config p; pj_revision := r |}.

(** ** A configuration *)

Definition service_kind (k : ServiceKind) : res ApiError ServiceKind :=
  match k with StaticFrontend | Application | Postgres => Ok k | _ => Err internal end.

Definition persist_service (account project configuration : Uuid) (s : ServiceSpec) : M GraphDb unit :=
  k <~ lift (service_kind (kind s));;
  d <~ get_db;;
  id <~ or_new (own_service d account project k);;
  insert_service {| sv_id := id; sv_account := account; sv_project := project; sv_kind := k |};;;
  d <~ get_db;;
  id <~ sql (own_service d account project k);;
  insert_service_configuration (configuration, id) {|
    sf_account := account; sf_project := project; sf_name := name s; sf_kind := k; sf_spec := s |}.
Fixpoint persist_services (account project configuration : Uuid) (l : list ServiceSpec) : M GraphDb unit :=
  match l with
  | [] => tret tt
  | s :: rest => persist_service account project configuration s;;; persist_services account project configuration rest
  end.

Definition persist_configuration (account project : Uuid) (revision : Z) (spec : StandardProjectSpec)
    : M GraphDb Uuid :=
  configuration <~ new_uuid;;
  insert_configuration configuration {|
    cf_account := account; cf_project := project; cf_number := revision; cf_spec := spec |};;;
  d <~ get_db;;
  id <~ or_new (own_repository d account project);;
  insert_repository {| rp_id := id; rp_account := account; rp_project := project |};;;
  d <~ get_db;;
  repository <~ sql (own_repository d account project);;
  first <~ lift (ok_or (head (ProjectContract.repositories spec)) internal);;
  insert_repository_configuration (configuration, repository) {|
    rf_account := account; rf_project := project; rf_spec := first |};;;
  persist_services account project configuration (ProjectContract.services spec);;;
  tret configuration.

(** ** Requests *)

Record CreateProjectRequest := { cpq_name : rstr; cpq_configuration : StandardProjectSpec }.
Record UpdateProjectRequest := { upq_name : rstr }.
Record CreateConfigurationRequest := { ccq_configuration : StandardProjectSpec }.
Record DeploymentIntentRequest := { diq_configuration : string; diq_commit : string }.
Record RollbackIntentRequest := { riq_target : string }.
Record ProjectSummary := {
  ps_id : Uuid; ps_name : rstr; ps_mode : ProjectMode; ps_revision : Z; ps_configuration : option Uuid;
}.
Record ProjectListResponse := { pl_projects : list ProjectSummary; pl_next : option Uuid }.

(** Texts of identifiers, and the hashes of the requests. *)
Record GraphExternals := {
  g_parse_uuid : string -> option Uuid; g_uuid_text : Uuid -> string;
  g_create_hash : CreateProjectRequest -> string; g_update_hash : UpdateProjectRequest -> string;
  g_configuration_hash : CreateConfigurationRequest -> string;
  g_deployment_hash : DeploymentIntentRequest -> string; g_rollback_hash : RollbackIntentRequest -> string;
  g_removal_hash : string;
}.

Definition max_number d (account project : Uuid) : Z :=
  map_fold (fun _ c m => if bool_decide (cf_account c = account) && bool_decide (cf_project c = project)
                         then Z.max (cf_number c) m else m) 0%Z (gr_configurations d).
Definition pending_lifecycle_intent d (account project : Uuid) : bool :=
  exists_row (fun i => bool_decide (li_account i = account) && requested_of project i) (gr_intents d).
Definition pending_deployment d (account project : Uuid) : bool :=
  exists_row (fun x => bool_decide (dp_account x = account) && bool_decide (dp_project x = project)
                       && bool_decide (dp_lifecycle x = AdmissionRequired)) (gr_deployments d).
Definition project_of d (account project : Uuid) : option Project :=
  p ← gr_projects d !! project; _ ← where_ (bool_decide (pj_account p = account)); Some p.

Section Graph.
Context (G : GraphExternals).
#[local] Notation parse := (g_parse_uuid G).

Section Mutation.
Context (caller : Authenticated) (event : string).

(** A refusal that is audited. *)
Definition deny {A} (target : string) (id : option Uuid) (outcome : string) (e : ApiError)
    : M GraphDb (res ApiError A) :=
  audit (B := GraphResponse) (account_id caller) (session_id caller) event target id outcome;;;
  tret (Err e).

(** A request that changes a project: replayed, refused when another revision was
    expected, or served and its response stored. *)
Definition mutation {A} (from_value : GraphResponse -> option A) (into : A -> GraphResponse) (status : Z)
    (operation key hash : string) (subject : option Uuid)
    (serve : M GraphDb (res ApiError (A * string * option Uuid))) : M GraphDb A :=
  let account := account_id caller in
  transaction (
    stored <~ replay from_value account operation key hash;;
    match stored with
    | Match response => tret (Ok response)
    | Changed => deny "project" subject "idempotency_conflict" changed_payload
    | Miss =>
        served <~ serve;;
        match served with
        | Err e => tret (Err e)
        | Ok (response, target, id) =>
            audit (B := GraphResponse) account (session_id caller) event target id "succeeded";;;
            store_replay account operation key hash status (into response);;;
            tret (Ok response)
        end
    end).

Definition at_revision {A} (project : Uuid) (expected : Z) (k : Project -> M GraphDb (res ApiError A))
    : M GraphDb (res ApiError A) :=
  d <~ get_db;;
  p <~ lift (ok_or (project_of d (account_id caller) project) not_found);;
  if negb (pj_revision p =? expected)%Z then deny "project" (Some project) "stale_revision" stale_revision
  else k p.

(** No intent may be pending. *)
Definition unless_pending {A} (project : Uuid) (p : Project) (k : M GraphDb (res ApiError A))
    : M GraphDb (res ApiError A) :=
  d <~ get_db;;
  if bool_decide (pj_slot_state p = SReleasePending) || pending_lifecycle_intent d (account_id caller) project
  then deny "project" (Some project) "lifecycle_intent_pending" lifecycle_pending
  else k.
End Mutation.

(** ** Projects and configurations *)

Definition create_project (caller : Authenticated) (headers : Headers) (q : CreateProjectRequest) : GM ProjectGraph :=
  checked (res_bind (validate_name (cpq_name q)) (fun _ => validate_spec (cpq_configuration q))) (
  let account := account_id caller in
  key <~ lift (idempotency_key headers);;
  mutation caller "project.create" project_graph_of ProjectResponse 201 "project.create" key (g_create_hash G q) None (
    project <~ new_uuid;;
    d <~ get_db;;
    rows <~ sql (insert_pk project_check project {|
      pj_account := account; pj_slots := 0; pj_slot_state := NoSlot; pj_config := None; pj_revision := 1 |}
      (gr_projects d));;
    details <~ sql (insert_pk details_check project {| pd_name := trim (cpq_name q); pd_mode := Draft |} (gr_details d));;
    put_db (set_gr_details details (set_gr_projects rows d));;;
    configuration <~ persist_configuration account project 1 (cpq_configuration q);;
    update_graph_project account project (fun p => Some (with_config configuration p));;;
    d <~ get_db;;
    response <~ lift (load_project_graph d account project);;
    tret (Ok (response, "project", Some project)))).

Definition update_project (caller : Authenticated) (project_id : string) (headers : Headers) (q : UpdateProjectRequest)
    : GM ProjectGraph :=
  checked (validate_name (upq_name q)) (
  project <~ lift (path_uuid parse project_id);;
  let account := account_id caller in
  key <~ lift (idempotency_key headers);;
  expected <~ lift (if_match_revision headers);;
  mutation caller "project.update" project_graph_of ProjectResponse 200
    ("project.update/" +:+ g_uuid_text G project) key (g_update_hash G q) (Some project) (
    at_revision caller "project.update" project expected (fun _ =>
      update_graph_project account project revised;;;
      update_details account project (fun x => {| pd_name := trim (upq_name q); pd_mode := pd_mode x |});;;
      d <~ get_db;;
      response <~ lift (load_project_graph d account project);;
      tret (Ok (response, "project", Some project))))).

Definition create_configuration (caller : Authenticated) (project_id : string) (headers : Headers)
    (q : CreateConfigurationRequest) : GM ProjectGraph :=
  checked (validate_spec (ccq_configuration q)) (
  project <~ lift (path_uuid parse project_id);;
  let account := account_id caller in
  key <~ lift (idempotency_key headers);;
  expected <~ lift (if_match_revision headers);;
  mutation caller "project.configuration.create" project_graph_of ProjectResponse 201
    ("project.configuration.create/" +:+ g_uuid_text G project) key (g_configuration_hash G q) (Some project) (
    at_revision caller "project.configuration.create" project expected (fun _ =>
      d <~ get_db;;
      next <~ sql (bigint_succ (max_number d account project));;
      configuration <~ persist_configuration account project next (ccq_configuration q);;
      update_graph_project account project (fun p => revised (with_config configuration p));;;
      d <~ get_db;;
      response <~ lift (load_project_graph d account project);;
      tret (Ok (response, "configuration_revision", Some configuration))))).

Definition get_project (caller : Authenticated) (project_id : string) : M GraphDb ProjectGraph :=
  project <~ lift (path_uuid parse project_id);;
  d <~ get_db;;
  lift (load_project_graph d (account_id caller) project).
Definition get_configuration (caller : Authenticated) (project_id configuration_id : string)
    : M GraphDb ConfigurationGraph :=
  project <~ lift (path_uuid parse project_id);;
  configuration <~ lift (path_uuid parse configuration_id);;
  d <~ get_db;;
  lift (load_configuration d (account_id caller) project configuration).
Definition get_services (caller : Authenticated) (project_id : string) : M GraphDb (list ServiceRecord) :=
  project <~ lift (path_uuid parse project_id);;
  d <~ get_db;;
  g <~ lift (load_project_graph d (account_id caller) project);;
  tret (cg_services (pg_graph g)).
Definition get_service (caller : Authenticated) (project_id service_id : string) : M GraphDb ServiceRecord :=
  service <~ lift (path_uuid parse service_id);;
  project <~ lift (path_uuid parse project_id);;
  d <~ get_db;;
  g <~ lift (load_project_graph d (account_id caller) project);;
  lift (ok_or (List.find (fun s => bool_decide (g_uuid_text G (sr_id s) = g_uuid_text G service))
                 (cg_services (pg_graph g))) not_found).
Definition get_deployment (caller : Authenticated) (project_id deployment_id : string) : M GraphDb DeploymentRecord :=
  project <~ lift (path_uuid parse project_id);;
  deployment <~ lift (path_uuid parse deployment_id);;
  d <~ get_db;;
  lift (load_deployment d (account_id caller) project deployment).

(** ** The list of projects, a page of fifty at a time *)

Definition by_id (a b : ProjectSummary) : Prop := (ps_id a <= ps_id b)%N.
#[local] Instance by_id_dec a b : Decision (by_id a b).
Proof. unfold by_id. apply _. Defined.

Definition project_summary d (account : Uuid) (kp : Uuid * Project) : option ProjectSummary :=
  x ← gr_details d !! kp.1;
  _ ← where_ (bool_decide (pj_account kp.2 = account));
  Some {| ps_id := kp.1; ps_name := pd_name x; ps_mode := pd_mode x; ps_revision := pj_revision kp.2;
          ps_configuration := pj_config kp.2 |}.
Definition account_projects d (account : Uuid) : list ProjectSummary :=
  merge_sort by_id (omap (project_summary d account) (map_to_list (gr_projects d))).
Definition past_cursor (after : option Uuid) (s : ProjectSummary) : bool :=
  is_none_or (fun cursor => cursor <? ps_id s)%N after.

(** [None]: the query does not parse. *)
Definition list_projects (caller : Authenticated) (query : option (option Uuid)) : M GraphDb ProjectListResponse :=
  after <~ lift (ok_or query (bad_request "invalid_project_cursor" "use a valid project cursor"));;
  d <~ get_db;;
  let rows := firstn 51 (filter (fun s => past_cursor after s = true) (account_projects d (account_id caller))) in
  let page := firstn 50 rows in
  tret {| pl_projects := page;
          pl_next := if (50 <? length rows)%nat then ps_id <$> last page else None |}.

(** ** Deployments, rollbacks and removals *)

Definition insert_deployment (id : Uuid) (x : Deployment) : M GraphDb unit :=
  d <~ get_db;;
  t <~ sql (insert_pk (deployment_check d) id x (gr_deployments d));;
  put_db (set_gr_deployments t d).
Definition insert_lifecycle_intent (id : Uuid) (i : LifecycleIntent) : M GraphDb unit :=
  d <~ get_db;;
  t <~ sql (insert_pk (lifecycle_intent_check d) id i (gr_intents d));;
  put_db (set_gr_intents t d).
Definition requested_intent (account project : Uuid) (k : IntentKind) (target : option Uuid) : LifecycleIntent := {|
  li_account := account; li_project := project; li_kind := k; li_target := target; li_state := Requested |}.

(** Asking for a deployment needs capacity, unless the project holds a slot. *)
Definition awaiting_slot (p : Project) : Project :=
  if one_of (pj_slot_state p) [NoSlot; SReleased] then with_slot 0 SAdmissionRequired p else p.

Definition create_deployment_intent (caller : Authenticated) (project_id : string) (headers : Headers)
    (q : DeploymentIntentRequest) : GM DeploymentRecord :=
  fun env w =>
  match path_uuid parse project_id, path_uuid parse (diq_configuration q) with
  | Err e, _ | Ok _, Err e => (Err (ApiFailure e), w)
  | Ok project, Ok configuration =>
  checked (if commit_ok (diq_commit q) then Ok tt else Err commit_invalid) (
  let account := account_id caller in
  let event := "project.deployment_intent.create" in
  key <~ lift (idempotency_key headers);;
  expected <~ lift (if_match_revision headers);;
  mutation caller event deployment_of DeploymentResponse 201
    ("project.deployment_intent.create/" +:+ g_uuid_text G project) key (g_deployment_hash G q) (Some project) (
    at_revision caller event project expected (fun p =>
    unless_pending caller event project p (
      d <~ get_db;;
      if pending_deployment d account project
      then deny caller event "project" (Some project) "deployment_intent_pending"
             (conflict "deployment_intent_pending" "the project already has a deployment awaiting admission")
      else if negb (owned_configuration d account project configuration)
      then deny caller event "configuration_revision" (Some configuration) "denied" not_found
      else
        deployment <~ new_uuid;;
        insert_deployment deployment {|
          dp_account := account; dp_project := project; dp_config := configuration; dp_commit := diq_commit q;
          dp_lifecycle := AdmissionRequired |};;;
        _ <~ new_uuid;;
        owner_event {| oe_account := account; oe_project := project; oe_deployment := Some deployment;
          oe_state := "admission_required"; oe_reason := "deployment intent requires capacity admission" |};;;
        update_graph_project account project (fun r => revised (awaiting_slot r));;;
        update_details account project (fun x => {| pd_name := pd_name x; pd_mode := DeploymentIntent |});;;
        d <~ get_db;;
        response <~ lift (load_deployment d account project deployment);;
        tret (Ok (response, "deployment", Some deployment)))))) env w
  end.

(** The revision after the update, and the record of the intent. *)
Definition intent_response (account project intent : Uuid) (k : IntentKind) (target : option Uuid)
    : M GraphDb (res ApiError (IntentRecord * string * option Uuid)) :=
  d <~ get_db;;
  p <~ sql (project_of d account project);;
  revision <~ lift (as_u64 (pj_revision p));;
  tret (Ok ({| ir_id := intent; ir_project := project; ir_kind := k; ir_target := target; ir_state := Requested;
               ir_revision := revision |}, "lifecycle_intent", Some intent)).

Definition create_rollback_intent (caller : Authenticated) (project_id : string) (headers : Headers)
    (q : RollbackIntentRequest) : M GraphDb IntentRecord :=
  let account := account_id caller in
  let event := "project.rollback_intent.create" in
  project <~ lift (path_uuid parse project_id);;
  target <~ lift (path_uuid parse (riq_target q));;
  key <~ lift (idempotency_key headers);;
  expected <~ lift (if_match_revision headers);;
  mutation caller event intent_of IntentResponse 201
    ("project.rollback_intent.create/" +:+ g_uuid_text G project) key (g_rollback_hash G q) (Some project) (
    at_revision caller event project expected (fun p =>
    unless_pending caller event project p (
      d <~ get_db;;
      match x ← gr_deployments d !! target;
            _ ← where_ (bool_decide (dp_account x = account) && bool_decide (dp_project x = project)); Some x with
      | None => deny caller event "deployment" (Some target) "denied" not_found
      | Some x =>
          if negb (bool_decide (dp_lifecycle x = Healthy))
          then deny caller event "deployment" (Some target) "ineligible"
                 (conflict "rollback_target_ineligible" "the target deployment is not eligible for rollback")
          else
            intent <~ new_uuid;;
            insert_lifecycle_intent intent (requested_intent account project Rollback (Some target));;;
            _ <~ new_uuid;;
            owner_event {| oe_account := account; oe_project := project; oe_deployment := Some target;
              oe_state := "rollback_requested"; oe_reason := "owner requested rollback to a healthy deployment" |};;;
            update_graph_project account project revised;;;
            intent_response account project intent Rollback (Some target)
      end))).

Definition create_removal_intent (caller : Authenticated) (project_id : string) (headers : Headers)
    : M GraphDb IntentRecord :=
  let account := account_id caller in
  let event := "project.removal_intent.create" in
  project <~ lift (path_uuid parse project_id);;
  key <~ lift (idempotency_key headers);;
  expected <~ lift (if_match_revision headers);;
  mutation caller event intent_of IntentResponse 201
    ("project.removal_intent.create/" +:+ g_uuid_text G project) key (g_removal_hash G) (Some project) (
    at_revision caller event project expected (fun p =>
    unless_pending caller event project p (
      if one_of (pj_slot_state p) [NoSlot; SReleased]
      then deny caller event "project" (Some project) "ineligible"
             (conflict "removal_not_required" "the project has no hosted resources requiring removal")
      else
        intent <~ new_uuid;;
        insert_lifecycle_intent intent (requested_intent account project Removal None);;;
        _ <~ new_uuid;;
        owner_event {| oe_account := account; oe_project := project; oe_deployment := None;
          oe_state := "removal_pending"; oe_reason := "owner requested resource removal" |};;;
        update_graph_project account project (fun r => revised (with_slot (pj_slots r) SReleasePending r));;;
        intent_response account project intent Removal None))).
End Graph.
