(* ===== verification/GraphSpec.v ===== *)
(** * What the project graph promises

    Every request is one abstract step ([graph_step]): a refusal, which leaves an audit
    record and nothing else, or one of the changes an owner can ask for.  [graph_ok] is
    the invariant: every project has a current configuration, and every configuration
    satisfies the contract and has all its rows. *)

From stdpp Require Import base list option gmap strings sorting relations.
From Stdlib Require Import ZArith Lia Ascii.
From S2P Require Import Prelude RustText Bytes PgTx Intent ExecutionTables Runtime ReleaseTables Admission AdmissionSpec AdmissionFrame.
From S2P Require Import ProjectContract ProjectSpec GraphTables Graph.

Local Open Scope string_scope.
Local Open Scope list_scope.

(** ** Persisting a configuration *)

Section Persisted.
Context (account project c : Uuid).
Implicit Types d : GraphDb.

Definition service_row (s : ServiceSpec) : ServiceConfigurationRow := {|
  sf_account := account; sf_project := project; sf_name := name s; sf_kind := kind s; sf_spec := s |}.

(** One service: its row, made at its first configuration, and its settings. *)
Inductive service_added (s : ServiceSpec) (id : Uuid) : relation GraphDb :=
| service_added_intro d t :
    kind_allowed (kind s) = true ->
    (t = gr_services d \/
     exists new, gr_services d !! new = None /\ owned_project d account project = true /\
       (forall i x, gr_services d !! i = Some x -> ~ (sv_project x = project /\ sv_kind x = kind s)) /\
       t = <[new := {| sv_id := new; sv_account := account; sv_project := project; sv_kind := kind s |}]>
             (gr_services d)) ->
    (exists i x, t !! i = Some x /\ sv_id x = id /\ sv_account x = account /\ sv_project x = project /\
       sv_kind x = kind s) ->
    gr_service_configurations d !! (c, id) = None ->
    service_configuration_check (set_gr_services t d) (c, id) (service_row s) = true ->
    service_added s id d (set_gr_service_configurations
      (<[(c, id) := service_row s]> (gr_service_configurations d)) (set_gr_services t d)).

Inductive services_added : list ServiceSpec -> list Uuid -> relation GraphDb :=
| services_added_nil d : services_added [] [] d d
| services_added_cons s l id ids d d1 d2 :
    service_added s id d d1 -> services_added l ids d1 d2 -> services_added (s :: l) (id :: ids) d d2.

Inductive persisted (n : Z) (spec : StandardProjectSpec) : relation GraphDb :=
| persisted_intro d t r first ids d' :
    let row := {| cf_account := account; cf_project := project; cf_number := n; cf_spec := spec |} in
    gr_configurations d !! c = None -> configuration_check d row = true ->
    (t = gr_repositories d \/
     exists new, gr_repositories d !! new = None /\
       t = <[new := {| rp_id := new; rp_account := account; rp_project := project |}]> (gr_repositories d)) ->
    (exists i x, t !! i = Some x /\ rp_id x = r /\ rp_account x = account /\ rp_project x = project) ->
    head (repositories spec) = Some first ->
    gr_repository_configurations d !! (c, r) = None ->
    services_added (services spec) ids
      (set_gr_repository_configurations
         (<[(c, r) := {| rf_account := account; rf_project := project; rf_spec := first |}]>
            (gr_repository_configurations d))
         (set_gr_repositories t (set_gr_configurations (<[c := row]> (gr_configurations d)) d))) d' ->
    persisted n spec d d'.
End Persisted.

(** ** Steps *)

(** The tables that record requests. *)
Definition settled (d d' : GraphDb) : Prop :=
  exists e t l, d' = set_gr_events e (set_gr_idem t (set_gr_audits l d)).

(** The project is free for another intent. *)
Definition free_of_intents (d : GraphDb) (account project : Uuid) (p : Project) : Prop :=
  pj_slot_state p <> SReleasePending /\ pending_lifecycle_intent d account project = false.

Definition new_project (account : Uuid) : Project := {|
  pj_account := account; pj_slots := 0; pj_slot_state := NoSlot; pj_config := None; pj_revision := 1 |}.
Definition draft (name : rstr) : ProjectDetails := {| pd_name := trim name; pd_mode := Draft |}.
Definition put_project (p : Uuid) (r : Project) (d : GraphDb) : GraphDb :=
  set_gr_projects (<[p := r]> (gr_projects d)) d.
Definition put_details (p : Uuid) (x : ProjectDetails) (d : GraphDb) : GraphDb :=
  set_gr_details (<[p := x]> (gr_details d)) d.

Inductive graph_step (a : Uuid) (d d' : GraphDb) : Prop :=
| gs_created p c name spec d1 :
    gr_projects d !! p = None -> gr_details d !! p = None -> details_check (draft name) = true ->
    validate spec = [] ->
    persisted a p c 1 spec (put_details p (draft name) (put_project p (new_project a) d)) d1 ->
    settled (put_project p (with_config c (new_project a)) d1) d' -> graph_step a d d'
| gs_renamed p r r' x x' :
    gr_projects d !! p = Some r -> pj_account r = a -> revised r = Some r' -> project_check r' = true ->
    gr_details d !! p = Some x -> details_check x' = true ->
    settled (put_details p x' (put_project p r' d)) d' -> graph_step a d d'
| gs_configured p r r' c spec d1 :
    gr_projects d !! p = Some r -> pj_account r = a -> validate spec = [] ->
    persisted a p c (max_number d a p + 1) spec d d1 ->
    revised (with_config c r) = Some r' -> project_check r' = true ->
    settled (put_project p r' d1) d' -> graph_step a d d'
| gs_deployment p r r' id x t :
    gr_projects d !! p = Some r -> pj_account r = a -> free_of_intents d a p r ->
    gr_deployments d !! id = None -> deployment_check d x = true -> dp_account x = a -> dp_project x = p ->
    revised (awaiting_slot r) = Some r' -> project_check r' = true ->
    (t = gr_details d \/ exists y y', gr_details d !! p = Some y /\ details_check y' = true /\
       t = <[p := y']> (gr_details d)) ->
    settled (set_gr_details t (put_project p r' (set_gr_deployments (<[id := x]> (gr_deployments d)) d))) d' ->
    graph_step a d d'
| gs_intent p r r0 r' id i :
    gr_projects d !! p = Some r -> pj_account r = a -> free_of_intents d a p r ->
    gr_intents d !! id = None -> lifecycle_intent_check d i = true ->
    li_account i = a -> li_project i = p -> li_state i = Requested ->
    r0 = r \/ r0 = with_slot (pj_slots r) SReleasePending r ->
    revised r0 = Some r' -> project_check r' = true ->
    settled (put_project p r' (set_gr_intents (<[id := i]> (gr_intents d)) d)) d' -> graph_step a d d'.

(** What a request does, by its result: nothing but an audit record when it is refused. *)
Inductive graph_effect (a : Uuid) (d d' : GraphDb) : bool -> Prop :=
| ge_refused ok l : d' = set_gr_audits l d -> graph_effect a d d' ok
| ge_served : graph_step a d d' -> graph_effect a d d' true.

(** ** The invariant *)

(** The rows of a configuration are those of its document. *)
Definition repository_settled (d : GraphDb) (c : Uuid) (cf : ConfigurationRow) : Prop := exists r first,
  head (repositories (cf_spec cf)) = Some first /\
  gr_repository_configurations d !! (c, r) =
    Some {| rf_account := cf_account cf; rf_project := cf_project cf; rf_spec := first |} /\
  forall r' y, gr_repository_configurations d !! (c, r') = Some y -> r' = r.
Definition services_settled (d : GraphDb) (c : Uuid) (cf : ConfigurationRow) : Prop := exists ids,
  Forall2 (fun id s => gr_service_configurations d !! (c, id) = Some (service_row (cf_account cf) (cf_project cf) s))
    ids (services (cf_spec cf)) /\
  forall id y, gr_service_configurations d !! (c, id) = Some y -> id ∈ ids.

(** A project has one service of a kind, whatever its configurations. *)
Record services_ok (d : GraphDb) : Prop := {
  so_key : forall i x, gr_services d !! i = Some x -> sv_id x = i;
  so_kind : forall i x j y, gr_services d !! i = Some x -> gr_services d !! j = Some y ->
    sv_project x = sv_project y -> sv_kind x = sv_kind y -> i = j;
  so_settings : forall c s y, gr_service_configurations d !! (c, s) = Some y ->
    is_Some (gr_configurations d !! c) /\
    exists x, gr_services d !! s = Some x /\ sv_project x = sf_project y /\ sv_kind x = sf_kind y;
}.

Record configurations_ok (d : GraphDb) : Prop := {
  co_services : services_ok d;
  co_owners : (forall i x, gr_repositories d !! i = Some x -> rp_id x = i /\ owned_project d (rp_account x) (rp_project x) = true) /\
    (forall i x, gr_services d !! i = Some x -> owned_project d (sv_account x) (sv_project x) = true);
  co_repositories : forall c r y, gr_repository_configurations d !! (c, r) = Some y -> is_Some (gr_configurations d !! c);
  co_rows : forall c cf, gr_configurations d !! c = Some cf ->
    owned_project d (cf_account cf) (cf_project cf) = true /\ (1 <= cf_number cf)%Z /\ validate (cf_spec cf) = [] /\
    repository_settled d c cf /\ services_settled d c cf;
  co_one : forall c1 f1 c2 f2, gr_configurations d !! c1 = Some f1 -> gr_configurations d !! c2 = Some f2 ->
    cf_project f1 = cf_project f2 -> cf_number f1 = cf_number f2 -> c1 = c2;
  co_all : forall a p n, (1 <= n <= max_number d a p)%Z -> exists c cf,
    gr_configurations d !! c = Some cf /\ cf_account cf = a /\ cf_project cf = p /\ cf_number cf = n;
}.

(** The current configuration of a project is its last one. *)
Definition current (d : GraphDb) (p : Uuid) (r : Project) : Prop := exists c cf,
  pj_config r = Some c /\ gr_configurations d !! c = Some cf /\ cf_account cf = pj_account r /\ cf_project cf = p /\
  cf_number cf = max_number d (pj_account r) p.

Record graph_ok (d : GraphDb) : Prop := {
  go_configurations : configurations_ok d;
  go_projects : forall p r, gr_projects d !! p = Some r ->
    project_check r = true /\ is_Some (gr_details d !! p) /\ current d p r;
}.

(** A project's own tables. *)
Definition graph_tables (d : GraphDb) :=
  (gr_configurations d, gr_repositories d, gr_repository_configurations d, gr_services d, gr_service_configurations d).

(** The other components of the control service: they move a project's slots and
    revision and a deployment's lifecycle, whatever they do to the ledger of admission. *)
Record bystander (d d' : GraphDb) : Prop := {
  by_frame : adm_frame (gr_adm d) (gr_adm d');
  by_tables : graph_tables d' = graph_tables d;
  by_details : gr_details d' = gr_details d;
  by_idem : gr_idem d' = gr_idem d;
}.
