(* ===== verification/GraphSteps.v ===== *)
(** * The project graph: the handlers refine the specification

    Every request of an owner has the effect that its result says, and admission keeps
    the identities of projects and deployments. *)

From stdpp Require Import base list option gmap strings sorting relations.
From Stdlib Require Import ZArith Lia Ascii.
From S2P Require Import Prelude RustText Bytes PgTx Intent ExecutionTables Runtime ReleaseTables Admission.
From S2P Require Import AdmissionFrame ProjectContract ProjectSpec GraphTables Graph GraphSpec.

Local Open Scope string_scope.
Local Open Scope list_scope.

Section Statements.
Implicit Types (d : GraphDb) (w : World GraphDb).

(** ** Statements *)

Lemma or_new_Ok o env w id w' : or_new o env w = (Ok id, w') -> db w' = db w /\ (forall i, o = Some i -> id = i).
Proof. destruct o as [i|]; cbn [or_new]; intros Hm; tx_inv Hm; split; congruence. Qed.

Lemma insert_configuration_Ok id c env w u w' : insert_configuration id c env w = (Ok u, w') ->
  gr_configurations (db w) !! id = None /\ configuration_check (db w) c = true /\
  db w' = set_gr_configurations (<[id := c]> (gr_configurations (db w))) (db w).
Proof. unfold insert_configuration. intros Hm. tx_inv Hm. by apply insert_pk_Some in E as (? & ? & ->). Qed.

Lemma insert_repository_Ok r env w u w' : insert_repository r env w = (Ok u, w') ->
  exists t, db w' = set_gr_repositories t (db w) /\
    (t = gr_repositories (db w) \/
     gr_repositories (db w) !! rp_id r = None /\ t = <[rp_id r := r]> (gr_repositories (db w))).
Proof.
  unfold insert_repository. intros Hm. tx_inv Hm. case_hyp Hm; tx_inv Hm.
  - exists (gr_repositories (db w)). split; [by destruct w as [[] ? ?]|by left].
  - apply insert_pk_Some in E as (? & _ & ->). eauto.
Qed.

Lemma insert_repository_configuration_Ok k r env w u w' : insert_repository_configuration k r env w = (Ok u, w') ->
  gr_repository_configurations (db w) !! k = None /\
  db w' = set_gr_repository_configurations (<[k := r]> (gr_repository_configurations (db w))) (db w).
Proof. unfold insert_repository_configuration. intros Hm. tx_inv Hm. by apply insert_pk_Some in E as (? & ? & ->). Qed.

Lemma insert_service_Ok s env w u w' : insert_service s env w = (Ok u, w') ->
  exists t, db w' = set_gr_services t (db w) /\
    (t = gr_services (db w) \/
     gr_services (db w) !! sv_id s = None /\ service_check (db w) s = true /\
     (forall i x, gr_services (db w) !! i = Some x -> ~ (sv_project x = sv_project s /\ sv_kind x = sv_kind s)) /\
     t = <[sv_id s := s]> (gr_services (db w))).
Proof.
  unfold insert_service. intros Hm. tx_inv Hm. case_hyp Hm; tx_inv Hm.
  - exists (gr_services (db w)). split; [by destruct w as [[] ? ?]|by left].
  - apply insert_pk_Some in E as (? & ? & ->). eexists. split; [done|]. right. split_and!; [done..| |done].
    intros i x Hi [Hp Hk]. apply (exists_row_false _ _ Heqb) in Hi. by rewrite Hp, Hk, !bool_decide_eq_true_2 in Hi.
Qed.

Lemma insert_service_configuration_Ok k s env w u w' : insert_service_configuration k s env w = (Ok u, w') ->
  gr_service_configurations (db w) !! k = None /\ service_configuration_check (db w) k s = true /\
  db w' = set_gr_service_configurations (<[k := s]> (gr_service_configurations (db w))) (db w).
Proof. unfold insert_service_configuration. intros Hm. tx_inv Hm. by apply insert_pk_Some in E as (? & ? & ->). Qed.

Lemma own_repository_Some d account project r : own_repository d account project = Some r ->
  exists i x, gr_repositories d !! i = Some x /\ rp_id x = r /\ rp_account x = account /\ rp_project x = project.
Proof.
  intros (x & Hx & ->)%fmap_Some. apply select_first_in in Hx as (i & Hi & Hx). bool_simpl. eauto 10.
Qed.
Lemma own_service_Some d account project k id : own_service d account project k = Some id ->
  exists i x, gr_services d !! i = Some x /\ sv_id x = id /\ sv_account x = account /\ sv_project x = project
    /\ sv_kind x = k.
Proof.
  intros (x & Hx & ->)%fmap_Some. apply select_first_in in Hx as (i & Hi & Hx). bool_simpl. eauto 10.
Qed.

(** ** A configuration *)

Lemma service_kind_Ok k k' : service_kind k = Ok k' -> k' = k /\ kind_allowed k = true.
Proof. destruct k; intros [= <-]; done. Qed.

Lemma persist_service_Ok account project c s env w u w' :
  persist_service account project c s env w = (Ok u, w') ->
  exists id, service_added account project c s id (db w) (db w').
Proof.
  unfold persist_service. intros Hm.
  apply tbind_Ok in Hm as (k & w1 & [Hk ->]%lift_Ok & Hm). apply service_kind_Ok in Hk as (-> & Hk).
  apply tbind_Ok in Hm as (d & w1 & [-> ->]%get_db_Ok & Hm).
  apply tbind_Ok in Hm as (new & w1 & (E1 & _)%or_new_Ok & Hm).
  apply tbind_Ok in Hm as (? & w2 & (t & E2 & Ht)%insert_service_Ok & Hm).
  apply tbind_Ok in Hm as (d & w3 & [-> ->]%get_db_Ok & Hm).
  apply tbind_Ok in Hm as (id & w3 & [Hid ->]%sql_Ok & Hm).
  apply insert_service_configuration_Ok in Hm as (Hn & Hc & ->).
  apply own_service_Some in Hid. rewrite E2, E1 in *. exists id.
  apply (service_added_intro account project c s id (db w) t); [done| |done..].
  destruct Ht as [->|(Hnew & Hcheck & Hfree & ->)]; [by left|right]. exists new. split_and!; [done| |done..].
  unfold service_check in Hcheck. by bool_simpl.
Qed.

Lemma persist_services_Ok account project c l env : forall w u w',
  persist_services account project c l env w = (Ok u, w') ->
  exists ids, services_added account project c l ids (db w) (db w').
Proof.
  induction l as [|s l IH]; intros w u w' Hm; cbn [persist_services] in Hm.
  - tx_inv Hm. exists []. constructor.
  - apply tbind_Ok in Hm as (? & w1 & (id & Hs)%persist_service_Ok & Hm).
    apply IH in Hm as (ids & Hl). exists (id :: ids). by econstructor.
Qed.

Lemma persist_configuration_Ok account project n spec env w c w' :
  persist_configuration account project n spec env w = (Ok c, w') ->
  persisted account project c n spec (db w) (db w').
Proof.
  unfold persist_configuration. intros Hm.
  apply tbind_Ok in Hm as (id & w1 & [-> ->]%new_uuid_Ok & Hm).
  apply tbind_Ok in Hm as (? & w2 & (Hn & Hc & E1)%insert_configuration_Ok & Hm). cbn [db] in *.
  apply tbind_Ok in Hm as (d & w3 & [-> ->]%get_db_Ok & Hm).
  apply tbind_Ok in Hm as (new & w3 & (E2 & _)%or_new_Ok & Hm).
  apply tbind_Ok in Hm as (? & w4 & (t & E3 & Ht)%insert_repository_Ok & Hm).
  apply tbind_Ok in Hm as (d & w5 & [-> ->]%get_db_Ok & Hm).
  apply tbind_Ok in Hm as (r & w5 & [Hr ->]%sql_Ok & Hm). apply own_repository_Some in Hr.
  apply tbind_Ok in Hm as (first & w5 & [Hf ->]%lift_Ok & Hm).
  apply tbind_Ok in Hm as (? & w6 & (Hk & E4)%insert_repository_configuration_Ok & Hm).
  apply tbind_Ok in Hm as (? & w7 & (ids & Hs)%persist_services_Ok & [-> ->]%tret_Ok).
  rewrite E4, E3, E2, E1 in *. apply (persisted_intro _ _ _ _ _ _ t r first ids); try done.
  - destruct Ht as [->|(? & ->)]; [by left|right]. by eexists.
  - destruct (head _); [|done]. by injection Hf as ->.
Qed.

(** ** Rows of a project *)

Lemma update_graph_project_Ok account project f env w u w' r :
  gr_projects (db w) !! project = Some r -> pj_account r = account ->
  update_graph_project account project f env w = (Ok u, w') ->
  exists r', f r = Some r' /\ project_check r' = true /\ db w' = put_project project r' (db w).
Proof.
  unfold update_graph_project. intros Hr Ha Hm. tx_inv Hm. destruct v as [t n].
  apply update_pk_Some in E as [(_ & _ & Hn)|(_ & r1 & r' & Hr1 & _ & Hf & Hc & ->)].
  - specialize (Hn r Hr). cbn beta in Hn. by bool_simpl.
  - simplify_eq. eauto.
Qed.

Lemma update_details_Ok account project f env w u w' : update_details account project f env w = (Ok u, w') ->
  exists t, db w' = set_gr_details t (db w) /\
    (t = gr_details (db w) /\
       (owned_project (db w) account project = true -> gr_details (db w) !! project = None) \/
     exists x, gr_details (db w) !! project = Some x /\ details_check (f x) = true /\
       t = <[project := f x]> (gr_details (db w))).
Proof.
  unfold update_details. intros Hm. tx_inv Hm. destruct v as [t n]. exists t. split; [done|].
  apply update_pk_Some in E as [(-> & _ & Hn)|(_ & x & x' & Hx & _ & [= <-] & Hc & ->)]; [left|right; eauto].
  split; [done|]. intros Ho. destruct (gr_details (db w) !! project) as [x|] eqn:Hx; [|done].
  specialize (Hn x eq_refl). cbn beta in Hn. congruence.
Qed.

Lemma owner_event_Ok e env w u w' : owner_event e env w = (Ok u, w') ->
  db w' = set_gr_events (gr_events (db w) ++ [e]) (db w).
Proof. unfold owner_event. intros Hm. by tx_inv Hm. Qed.

Lemma insert_deployment_Ok id x env w u w' : insert_deployment id x env w = (Ok u, w') ->
  gr_deployments (db w) !! id = None /\ deployment_check (db w) x = true /\
  db w' = set_gr_deployments (<[id := x]> (gr_deployments (db w))) (db w).
Proof. unfold insert_deployment. intros Hm. tx_inv Hm. by apply insert_pk_Some in E as (? & ? & ->). Qed.

Lemma insert_lifecycle_intent_Ok id i env w u w' : insert_lifecycle_intent id i env w = (Ok u, w') ->
  gr_intents (db w) !! id = None /\ lifecycle_intent_check (db w) i = true /\
  db w' = set_gr_intents (<[id := i]> (gr_intents (db w))) (db w).
Proof. unfold insert_lifecycle_intent. intros Hm. tx_inv Hm. by apply insert_pk_Some in E as (? & ? & ->). Qed.

Lemma project_of_Some d account project r : project_of d account project = Some r ->
  gr_projects d !! project = Some r /\ pj_account r = account.
Proof.
  unfold project_of. destruct (gr_projects d !! project) as [p|]; [|done]. cbn.
  unfold where_. case_bool_decide; [|done]. by intros [= <-].
Qed.
End Statements.

(** ** Reading *)

Lemma where_Some (b : bool) u : where_ b = Some u -> b = true.
Proof. by destruct b. Qed.

Lemma load_configuration_Ok d account project c g : load_configuration d account project c = Ok g ->
  exists row, gr_configurations d !! c = Some row /\ cf_account row = account /\ cf_project row = project /\
  (0 <= cf_number row)%Z /\
  g = {| cg_configuration := {| cr_id := c; cr_project := project; cr_revision := cf_number row;
                               cr_spec := cf_spec row |};
         cg_repositories := repositories_of d account project c (cf_number row);
         cg_services := services_of d account project c (cf_number row) |}.
Proof.
  unfold load_configuration. intros (row & Hr & Hg)%res_bind_Ok. apply res_bind_Ok in Hg as (n & Hn & [= <-]).
  destruct (gr_configurations d !! c) as [row'|]; [|done]. cbn in Hr.
  destruct (where_ _) eqn:E in Hr; [|done]. injection Hr as ->. apply where_Some in E. bool_simpl.
  unfold as_u64 in Hn. destruct (Z.ltb_spec (cf_number row) 0); [done|]. injection Hn as <-. eauto 10.
Qed.

Lemma load_project_graph_Ok d account project g : load_project_graph d account project = Ok g ->
  exists r x c, gr_projects d !! project = Some r /\ gr_details d !! project = Some x /\ pj_account r = account /\
  pj_config r = Some c /\ load_configuration d account project c = Ok (pg_graph g) /\
  pg_project g = {| pr_id := project; pr_owner := account; pr_name := pd_name x; pr_mode := pd_mode x;
                    pr_slots := pj_slots r; pr_slot_state := pj_slot_state r; pr_revision := pj_revision r |}.
Proof.
  unfold load_project_graph. intros ([r x] & Hr & Hg)%res_bind_Ok. apply res_bind_Ok in Hg as (c & Hc & Hg).
  apply res_bind_Ok in Hg as (cg & Hcg & Hg). apply res_bind_Ok in Hg as (? & _ & Hg).
  apply res_bind_Ok in Hg as (n & Hn & [= <-]). cbn [fst snd] in *.
  destruct (gr_projects d !! project) as [r'|]; [|done]. destruct (gr_details d !! project) as [x'|]; [|done].
  cbn in Hr. destruct (where_ _) eqn:E in Hr; [|done]. injection Hr as -> ->. apply where_Some in E. bool_simpl.
  unfold as_u64 in Hn. destruct (Z.ltb_spec (pj_revision r) 0); [done|]. injection Hn as <-.
  destruct (pj_config r) as [c'|] eqn:Hpc; [|done]. injection Hc as ->. exists r, x, c. done.
Qed.

(** ** What persisting leaves alone *)

Definition aside d := (gr_adm d, gr_details d, gr_deployment_refs d, gr_artifacts d, gr_events d, gr_idem d, gr_audits d).
Lemma services_added_aside account project c l ids d d' :
  services_added account project c l ids d d' ->
  aside d' = aside d /\ gr_configurations d' = gr_configurations d /\ gr_repositories d' = gr_repositories d /\
  gr_repository_configurations d' = gr_repository_configurations d.
Proof. induction 1 as [|s l id ids d d1 d2 [] _ IH]; [done|]. by destruct IH as (-> & -> & -> & ->). Qed.
Lemma persisted_aside account project c n spec d d' : persisted account project c n spec d d' -> aside d' = aside d.
Proof.
  intros [? t r first ids ? row _ _ _ _ _ _ Hs]. by destruct (services_added_aside _ _ _ _ _ _ _ Hs) as (-> & _).
Qed.
Lemma persisted_adm account project c n spec d d' : persisted account project c n spec d d' -> gr_adm d' = gr_adm d.
Proof. intros H%persisted_aside. unfold aside in H. by simplify_eq. Qed.

Lemma persisted_rest account project c n spec d d' : persisted account project c n spec d d' ->
  gr_details d' = gr_details d /\ gr_deployment_refs d' = gr_deployment_refs d /\ gr_artifacts d' = gr_artifacts d.
Proof. intros H%persisted_aside. unfold aside in H. by injection H. Qed.

(** A new revision keeps whose project it is. *)
Lemma revised_identity r r' : revised r = Some r' -> project_identity r' = project_identity r.
Proof. unfold revised. destruct (bigint_succ _); [|done]. by intros [= <-]. Qed.
Lemma revised_account r r' : revised r = Some r' -> pj_account r' = pj_account r.
Proof. intros H%revised_identity. by injection H. Qed.

(** ** Settling *)

Lemma settled_refl d : settled d d.
Proof. destruct d. by eexists _, _, _. Qed.
Lemma settled_trans d1 d2 d3 : settled d1 d2 -> settled d2 d3 -> settled d1 d3.
Proof. intros (e & t & l & ->) (e' & t' & l' & ->). by exists e', t', l'. Qed.
Lemma settled_audits l d : settled d (set_gr_audits l d).
Proof. destruct d. by eexists _, _, l. Qed.
Lemma settled_idem t d : settled d (set_gr_idem t d).
Proof. destruct d. by eexists _, t, _. Qed.

Lemma settled_events e d : settled d (set_gr_events e d).
Proof. destruct d. by eexists e, _, _. Qed.

Lemma step_settled a d d1 d2 : graph_step a d d1 -> settled d1 d2 -> graph_step a d d2.
Proof.
  intros Hs H12. destruct Hs;
    [eapply gs_created|eapply gs_renamed|eapply gs_configured|eapply gs_deployment|eapply gs_intent];
    eauto using settled_trans.
Qed.

(** ** What a request does *)

Section Requests.
Context (caller : Authenticated) (event : string).
Notation a := (account_id caller).
Implicit Types (w : World GraphDb).

Definition outcome {A} w (r : res ApiError A) w1 : Prop :=
  match r with Err _ => exists l, db w1 = set_gr_audits l (db w) | Ok _ => graph_step a (db w) (db w1) end.

Lemma deny_outcome {A} target id oc e env w (r : res ApiError A) w1 :
  deny caller event target id oc e env w = (Ok r, w1) -> outcome w r w1.
Proof.
  unfold deny. intros Hm. apply tbind_Ok in Hm as (? & w2 & (ev & ->)%audit_Ok & [-> ->]%tret_Ok).
  by eexists.
Qed.

Lemma at_revision_outcome {A} project expected (k : Project -> M GraphDb (res ApiError A)) env w r w1 :
  (forall p r1 w2, gr_projects (db w) !! project = Some p -> pj_account p = a ->
     k p env w = (Ok r1, w2) -> outcome w r1 w2) ->
  at_revision caller event project expected k env w = (Ok r, w1) -> outcome w r w1.
Proof.
  intros Hk Hm. unfold at_revision in Hm.
  apply tbind_Ok in Hm as (d & w2 & [-> ->]%get_db_Ok & Hm).
  apply tbind_Ok in Hm as (p & w2 & [Hp ->]%lift_Ok & Hm).
  destruct (project_of (db w) a project) as [p'|] eqn:E; [|done]. injection Hp as ->.
  apply project_of_Some in E as [Hp Ha]. case_hyp Hm; [by apply deny_outcome in Hm|eauto].
Qed.

Lemma unless_pending_outcome {A} project p (k : M GraphDb (res ApiError A)) env w r w1 :
  (forall r1 w2, free_of_intents (db w) a project p -> k env w = (Ok r1, w2) -> outcome w r1 w2) ->
  unless_pending caller event project p k env w = (Ok r, w1) -> outcome w r w1.
Proof.
  intros Hk Hm. unfold unless_pending in Hm.
  apply tbind_Ok in Hm as (d & w2 & [-> ->]%get_db_Ok & Hm).
  case_hyp Hm; [by apply deny_outcome in Hm|]. bool_simpl. by apply Hk.
Qed.

Lemma effect_same d ok : graph_effect a d d ok.
Proof. apply (ge_refused _ _ _ _ (gr_audits d)). by destruct d. Qed.

Lemma mutation_effect {A} from_value into status operation key hash subject
    (serve : M GraphDb (res ApiError (A * string * option Uuid))) env w r w' :
  (forall r1 w1, serve env w = (Ok r1, w1) -> outcome w r1 w1) ->
  mutation caller event from_value into status operation key hash subject serve env w = (r, w') ->
  graph_effect a (db w) (db w') (is_ok r).
Proof.
  intros Hs Hm. unfold mutation in Hm.
  apply transaction_cases in Hm as [(e & -> & ->)|Hm]; [apply effect_same|].
  apply tbind_Ok in Hm as (stored & w1 & [-> _]%replay_Ok & Hm). destruct stored as [|response|].
  - apply tbind_Ok in Hm as (served & w1 & Hsv%Hs & Hm). destruct served as [[[response target] id]|e].
    + apply tbind_Ok in Hm as (? & w2 & (ev & ->)%audit_Ok & Hm).
      apply tbind_Ok in Hm as (? & w3 & (_ & ->)%store_replay_Ok & [-> ->]%tret_Ok). apply ge_served.
      eapply step_settled; [exact Hsv|]. eapply settled_trans; [apply settled_audits|apply settled_idem].
    + tx_inv Hm. destruct Hsv as (l & ->). by eapply ge_refused.
  - tx_inv Hm. apply effect_same.
  - apply deny_outcome in Hm. destruct r; [|destruct Hm as (l & ->); by eapply ge_refused].
    by apply ge_served.
Qed.
End Requests.

Lemma checked_cases {A} check (m : M GraphDb A) env w r w' : checked check m env w = (r, w') ->
  (exists e, check = Err e /\ r = Err e /\ w' = w) \/
  exists x r0, check = Ok x /\ m env w = (r0, w') /\ is_ok r = is_ok r0.
Proof.
  unfold checked. destruct check as [x|e]; [|intros [= <- <-]; eauto].
  destruct (m env w) as [[v|e] w1]; intros [= <- <-]; right; eauto.
Qed.

Lemma validate_spec_Ok spec x : validate_spec spec = Ok x -> validate spec = [].
Proof. unfold validate_spec. case_bool_decide as E; [|done]. intros _. by destruct (validate spec). Qed.

(** ** The handlers *)

Section Handlers.
Context (G : GraphExternals) (caller : Authenticated).
Notation a := (account_id caller).
Implicit Types (w : World GraphDb).

#[local] Tactic Notation "step" ident(H) simple_intropattern(p) := apply tbind_Ok in H as (? & ? & p & H).

Lemma create_project_effect headers q env w r w' : create_project G caller headers q env w = (r, w') ->
  graph_effect a (db w) (db w') (is_ok r).
Proof.
  unfold create_project. intros [(e & _ & -> & ->)|(? & r0 & Hc & Hm & ->)]%checked_cases; [apply effect_same|].
  apply res_bind_Ok in Hc as (? & _ & Hv%validate_spec_Ok).
  apply lift_cases in Hm as [(e & _ & -> & ->)|(key & _ & Hm)]; [apply effect_same|].
  eapply mutation_effect, Hm. clear r w' r0 Hm. intros r w' Hm.
  step Hm [-> ->]%new_uuid_Ok. step Hm [-> ->]%get_db_Ok. cbn [db] in Hm.
  apply tbind_Ok in Hm as (rows & ? & [(Hp & _ & ->)%insert_pk_Some ->]%sql_Ok & Hm).
  apply tbind_Ok in Hm as (details & ? & [(Hd & Hdc & ->)%insert_pk_Some ->]%sql_Ok & Hm).
  step Hm ->%put_db_Ok. apply tbind_Ok in Hm as (c & w1 & Hc%persist_configuration_Ok & Hm). cbn [db] in Hc.
  apply tbind_Ok in Hm as (? & w2 & Hu & Hm).
  step Hm [-> ->]%get_db_Ok. apply tbind_Ok in Hm as (g & ? & [_ ->]%lift_Ok & [-> ->]%tret_Ok).
  assert (gr_projects (db w1) !! fresh env (drawn w) = Some (new_project a)) as Hp1
    by (unfold gr_projects; rewrite (persisted_adm _ _ _ _ _ _ _ Hc); apply lookup_insert_eq).
  apply (update_graph_project_Ok _ _ _ _ _ _ _ _ Hp1 eq_refl) in Hu as (r' & [= <-] & _ & Hw).
  unfold outcome. rewrite Hw. eapply gs_created; [exact Hp|exact Hd|exact Hdc|exact Hv|exact Hc|]. apply settled_refl.
Qed.

Lemma update_project_effect id headers q env w r w' : update_project G caller id headers q env w = (r, w') ->
  graph_effect a (db w) (db w') (is_ok r).
Proof.
  unfold update_project. intros [(e & _ & -> & ->)|(? & r0 & _ & Hm & ->)]%checked_cases; [apply effect_same|].
  do 3 (apply lift_cases in Hm as [(e & _ & -> & ->)|(? & _ & Hm)]; [apply effect_same|]).
  eapply mutation_effect, Hm. clear r w' r0 Hm. intros r w' Hm.
  eapply at_revision_outcome, Hm. clear r w' Hm. intros p r w' Hp Ha Hm.
  apply tbind_Ok in Hm as (? & w1 & Hu & Hm).
  apply (update_graph_project_Ok _ _ _ _ _ _ _ _ Hp Ha) in Hu as (r' & Hr' & Hc & Hw).
  apply tbind_Ok in Hm as (? & w2 & (t & Hw2 & Ht)%update_details_Ok & Hm).
  step Hm [-> ->]%get_db_Ok. apply tbind_Ok in Hm as (g & ? & [Hg ->]%lift_Ok & [-> ->]%tret_Ok).
  unfold outcome. rewrite Hw2, Hw in *. destruct Ht as [[-> Hn]|(det & Hx & Hxc & ->)].
  - exfalso. apply load_project_graph_Ok in Hg as (row & det & _ & Hrow & Hdet & Hacc & _).
    change (gr_details (put_project x0 r' (db w)) !! x0 = Some det) in Hdet.
    rewrite Hn in Hdet; [done|]. unfold owned_project.
    change (gr_projects (put_project x0 r' (db w)) !! x0 = Some row) in Hrow. rewrite Hrow. cbn.
    by apply bool_decide_eq_true.
  - eapply gs_renamed; [exact Hp|exact Ha|exact Hr'|exact Hc|exact Hx|exact Hxc|]. apply settled_refl.
Qed.

Lemma create_configuration_effect id headers q env w r w' :
  create_configuration G caller id headers q env w = (r, w') -> graph_effect a (db w) (db w') (is_ok r).
Proof.
  unfold create_configuration.
  intros [(e & _ & -> & ->)|(? & r0 & Hv%validate_spec_Ok & Hm & ->)]%checked_cases; [apply effect_same|].
  do 3 (apply lift_cases in Hm as [(e & _ & -> & ->)|(? & _ & Hm)]; [apply effect_same|]).
  eapply mutation_effect, Hm. clear r w' r0 Hm. intros r w' Hm.
  eapply at_revision_outcome, Hm. clear r w' Hm. intros p r w' Hp Ha Hm.
  step Hm [-> ->]%get_db_Ok. apply tbind_Ok in Hm as (n & ? & [(-> & _)%bigint_succ_Some ->]%sql_Ok & Hm).
  apply tbind_Ok in Hm as (c & w1 & Hc%persist_configuration_Ok & Hm).
  apply tbind_Ok in Hm as (? & w2 & Hu & Hm).
  assert (gr_projects (db w1) !! x0 = Some p) as Hp1 by (unfold gr_projects; by rewrite (persisted_adm _ _ _ _ _ _ _ Hc)).
  apply (update_graph_project_Ok _ _ _ _ _ _ _ _ Hp1 Ha) in Hu as (r' & Hr' & Hck & Hw).
  step Hm [-> ->]%get_db_Ok. apply tbind_Ok in Hm as (g & ? & [_ ->]%lift_Ok & [-> ->]%tret_Ok).
  unfold outcome. rewrite Hw. eapply gs_configured; [exact Hp|exact Ha|exact Hv|exact Hc|exact Hr'|exact Hck|].
  apply settled_refl.
Qed.

Lemma create_deployment_intent_effect id headers q env w r w' :
  create_deployment_intent G caller id headers q env w = (r, w') -> graph_effect a (db w) (db w') (is_ok r).
Proof.
  unfold create_deployment_intent.
  destruct (path_uuid _ id) as [p|e]; [|intros [= <- <-]; apply effect_same].
  destruct (path_uuid _ (diq_configuration q)) as [cfg|e]; [|intros [= <- <-]; apply effect_same].
  intros [(e & _ & -> & ->)|(? & r0 & _ & Hm & ->)]%checked_cases; [apply effect_same|].
  do 2 (apply lift_cases in Hm as [(e & _ & -> & ->)|(? & _ & Hm)]; [apply effect_same|]).
  eapply mutation_effect, Hm. clear r w' r0 Hm. intros r w' Hm.
  eapply at_revision_outcome, Hm. clear r w' Hm. intros row r w' Hp Ha Hm.
  eapply unless_pending_outcome, Hm. clear r w' Hm. intros r w' Hfree Hm.
  step Hm [-> ->]%get_db_Ok. case_hyp Hm; [by apply deny_outcome in Hm|].
  case_hyp Hm; [by apply deny_outcome in Hm|].
  apply tbind_Ok in Hm as (new & w1 & [-> ->]%new_uuid_Ok & Hm).
  apply tbind_Ok in Hm as (? & w2 & (Hn & Hck & E1)%insert_deployment_Ok & Hm). cbn [db] in *.
  apply tbind_Ok in Hm as (? & w3 & [_ ->]%new_uuid_Ok & Hm).
  apply tbind_Ok in Hm as (? & w4 & E2%owner_event_Ok & Hm). cbn [db] in E2.
  apply tbind_Ok in Hm as (? & w5 & Hu & Hm).
  assert (gr_projects (db w4) !! p = Some row) as Hp1 by (by rewrite E2, E1).
  apply (update_graph_project_Ok _ _ _ _ _ _ _ _ Hp1 Ha) in Hu as (r' & Hr' & Hc & E3).
  apply tbind_Ok in Hm as (? & w6 & (t & E4 & Ht)%update_details_Ok & Hm).
  step Hm [-> ->]%get_db_Ok. apply tbind_Ok in Hm as (g & ? & [_ ->]%lift_Ok & [-> ->]%tret_Ok).
  unfold outcome. rewrite E4, E3, E2, E1 in *.
  eapply (gs_deployment _ _ _ _ _ _ _ _ t Hp Ha Hfree Hn Hck eq_refl eq_refl Hr' Hc).
  - destruct Ht as [[-> _]|(det & Hd & Hdc & ->)]; [by left|right]. eauto.
  - by eexists _, (gr_idem (db w)), (gr_audits (db w)).
Qed.

(** A rollback or a removal, once it has been found possible. *)
Lemma lifecycle_requested project row r0 k target e f env w r w' :
  gr_projects (db w) !! project = Some row -> pj_account row = a -> free_of_intents (db w) a project row ->
  r0 = row \/ r0 = with_slot (pj_slots row) SReleasePending row -> f row = revised r0 ->
  (intent <~ new_uuid;;
   insert_lifecycle_intent intent (requested_intent a project k target);;;
   _ <~ new_uuid;;
   owner_event e;;;
   update_graph_project a project f;;;
   intent_response a project intent k target) env w = (Ok r, w') -> outcome caller w r w'.
Proof.
  intros Hp Ha Hfree Hr0 Hf Hm.
  apply tbind_Ok in Hm as (new & w1 & [-> ->]%new_uuid_Ok & Hm).
  apply tbind_Ok in Hm as (? & w2 & (Hn & Hck & E1)%insert_lifecycle_intent_Ok & Hm). cbn [db] in *.
  apply tbind_Ok in Hm as (? & w3 & [_ ->]%new_uuid_Ok & Hm).
  apply tbind_Ok in Hm as (? & w4 & E2%owner_event_Ok & Hm). cbn [db] in E2.
  apply tbind_Ok in Hm as (? & w5 & Hu & Hm).
  assert (gr_projects (db w4) !! project = Some row) as Hp1 by (by rewrite E2, E1).
  apply (update_graph_project_Ok _ _ _ _ _ _ _ _ Hp1 Ha) in Hu as (r' & Hr' & Hc & E3). rewrite Hf in Hr'.
  unfold intent_response in Hm. step Hm [-> ->]%get_db_Ok.
  apply tbind_Ok in Hm as (? & ? & [_ ->]%sql_Ok & Hm). apply tbind_Ok in Hm as (? & ? & [_ ->]%lift_Ok & [-> ->]%tret_Ok).
  unfold outcome. rewrite E3, E2, E1.
  eapply (gs_intent _ _ _ _ _ _ _ _ _ Hp Ha Hfree Hn Hck eq_refl eq_refl eq_refl Hr0 Hr' Hc).
  by eexists _, (gr_idem (db w)), (gr_audits (db w)).
Qed.

Lemma create_rollback_intent_effect id headers q env w r w' :
  create_rollback_intent G caller id headers q env w = (r, w') -> graph_effect a (db w) (db w') (is_ok r).
Proof.
  unfold create_rollback_intent. intros Hm.
  do 4 (apply lift_cases in Hm as [(e & _ & -> & ->)|(? & _ & Hm)]; [apply effect_same|]).
  eapply mutation_effect, Hm. clear r w' Hm. intros r w' Hm.
  eapply at_revision_outcome, Hm. clear r w' Hm. intros row r w' Hp Ha Hm.
  eapply unless_pending_outcome, Hm. clear r w' Hm. intros r w' Hfree Hm.
  step Hm [-> ->]%get_db_Ok. case_hyp Hm; [|by apply deny_outcome in Hm].
  case_hyp Hm; [by apply deny_outcome in Hm|].
  eapply lifecycle_requested, Hm; [exact Hp|exact Ha|exact Hfree|by left|done].
Qed.

Lemma create_removal_intent_effect id headers env w r w' :
  create_removal_intent G caller id headers env w = (r, w') -> graph_effect a (db w) (db w') (is_ok r).
Proof.
  unfold create_removal_intent. intros Hm.
  do 3 (apply lift_cases in Hm as [(e & _ & -> & ->)|(? & _ & Hm)]; [apply effect_same|]).
  eapply mutation_effect, Hm. clear r w' Hm. intros r w' Hm.
  eapply at_revision_outcome, Hm. clear r w' Hm. intros row r w' Hp Ha Hm.
  eapply unless_pending_outcome, Hm. clear r w' Hm. intros r w' Hfree Hm.
  case_hyp Hm; [by apply deny_outcome in Hm|].
  eapply lifecycle_requested, Hm; [exact Hp|exact Ha|exact Hfree|by right|done].
Qed.

(** ** Every request of an owner *)

Lemma ro_get_project id : read_only (get_project G caller id).
Proof. unfold get_project. read_only. Qed.
Lemma ro_get_configuration id c : read_only (get_configuration G caller id c).
Proof. unfold get_configuration. read_only. Qed.
Lemma ro_get_services id : read_only (get_services G caller id).
Proof. unfold get_services. read_only. Qed.
Lemma ro_get_service id s : read_only (get_service G caller id s).
Proof. unfold get_service. read_only. Qed.
Lemma ro_get_deployment id x : read_only (get_deployment G caller id x).
Proof. unfold get_deployment. read_only. Qed.
Lemma ro_list_projects query : read_only (list_projects caller query).
Proof. unfold list_projects. read_only. Qed.

(** [ok]: whether the request succeeded. *)
Inductive owner_request (env : Env) (w w' : World GraphDb) : bool -> Prop :=
| oq_create_project headers q r :
    create_project G caller headers q env w = (r, w') -> owner_request env w w' (is_ok r)
| oq_update_project id headers q r :
    update_project G caller id headers q env w = (r, w') -> owner_request env w w' (is_ok r)
| oq_create_configuration id headers q r :
    create_configuration G caller id headers q env w = (r, w') -> owner_request env w w' (is_ok r)
| oq_deployment_intent id headers q r :
    create_deployment_intent G caller id headers q env w = (r, w') -> owner_request env w w' (is_ok r)
| oq_rollback_intent id headers q r :
    create_rollback_intent G caller id headers q env w = (r, w') -> owner_request env w w' (is_ok r)
| oq_removal_intent id headers r :
    create_removal_intent G caller id headers env w = (r, w') -> owner_request env w w' (is_ok r)
| oq_get_project id r : get_project G caller id env w = (r, w') -> owner_request env w w' (is_ok r)
| oq_get_configuration id c r : get_configuration G caller id c env w = (r, w') -> owner_request env w w' (is_ok r)
| oq_get_services id r : get_services G caller id env w = (r, w') -> owner_request env w w' (is_ok r)
| oq_get_service id s r : get_service G caller id s env w = (r, w') -> owner_request env w w' (is_ok r)
| oq_get_deployment id x r : get_deployment G caller id x env w = (r, w') -> owner_request env w w' (is_ok r)
| oq_list_projects query r : list_projects caller query env w = (r, w') -> owner_request env w w' (is_ok r).

Lemma owner_request_effect env w w' ok : owner_request env w w' ok -> graph_effect a (db w) (db w') ok.
Proof.
  intros []; lazymatch goal with H : _ = (_, _) |- _ => revert H end; intros Hm.
  - by eapply create_project_effect.
  - by eapply update_project_effect.
  - by eapply create_configuration_effect.
  - by eapply create_deployment_intent_effect.
  - by eapply create_rollback_intent_effect.
  - by eapply create_removal_intent_effect.
  - rewrite (ro_get_project _ _ _ _ _ Hm). apply effect_same.
  - rewrite (ro_get_configuration _ _ _ _ _ _ Hm). apply effect_same.
  - rewrite (ro_get_services _ _ _ _ _ Hm). apply effect_same.
  - rewrite (ro_get_service _ _ _ _ _ _ Hm). apply effect_same.
  - rewrite (ro_get_deployment _ _ _ _ _ _ Hm). apply effect_same.
  - rewrite (ro_list_projects _ _ _ _ _ Hm). apply effect_same.
Qed.
End Handlers.
