(* ===== verification/GraphInvariant.v ===== *)
(** * The project graph: the invariant is kept

    Every step of [graph_step] keeps [graph_ok], and so does every component that only
    moves slots, revisions and lifecycles. *)

From stdpp Require Import base list option gmap strings sorting relations.
From Stdlib Require Import ZArith Lia Ascii.
From S2P Require Import Prelude RustText Bytes PgTx Intent ExecutionTables Runtime ReleaseTables Admission.
From S2P Require Import AdmissionFrame ProjectContract ProjectSpec GraphTables Graph GraphSpec GraphSteps.

Local Open Scope string_scope.
Local Open Scope list_scope.

Section Invariant.
Implicit Types (d : GraphDb).

(** ** Numbers *)

Lemma max_number_same d d' a p : gr_configurations d' = gr_configurations d -> max_number d' a p = max_number d a p.
Proof. unfold max_number. by intros ->. Qed.

Lemma max_number_insert d d' c cf a p :
  gr_configurations d !! c = None -> gr_configurations d' = <[c := cf]> (gr_configurations d) ->
  max_number d' a p = if bool_decide (cf_account cf = a) && bool_decide (cf_project cf = p)
                      then Z.max (cf_number cf) (max_number d a p) else max_number d a p.
Proof.
  intros Hc E. unfold max_number. rewrite E, map_fold_insert_L; [done| |done].
  intros. repeat case_match; lia.
Qed.

Lemma max_number_bound d c cf :
  gr_configurations d !! c = Some cf -> (cf_number cf <= max_number d (cf_account cf) (cf_project cf))%Z.
Proof.
  unfold max_number. generalize (gr_configurations d) as t. intros t. revert c.
  induction t as [|k x t Hk IH] using map_ind; intros c; [done|]. rewrite lookup_insert. intros Hc.
  rewrite map_fold_insert_L; [|intros; repeat case_match; lia|done]. case_decide; simplify_eq.
  - rewrite !bool_decide_eq_true_2 by done. cbn. lia.
  - specialize (IH _ Hc). case_match; lia.
Qed.

Lemma max_number_nonneg d a p : (0 <= max_number d a p)%Z.
Proof.
  unfold max_number. generalize (gr_configurations d) as t. intros t.
  induction t as [|k x t Hk IH] using map_ind; [done|].
  rewrite map_fold_insert_L; [|intros; repeat case_match; lia|done]. case_match; lia.
Qed.

(** ** Identities *)

Lemma owned_project_spec d a p : owned_project d a p = true <-> exists r, gr_projects d !! p = Some r /\ pj_account r = a.
Proof.
  unfold owned_project. destruct (gr_projects d !! p) as [r|]; cbn; [|naive_solver].
  rewrite bool_decide_eq_true. naive_solver.
Qed.

Definition identities_kept d d' : Prop := forall p r, gr_projects d !! p = Some r ->
  exists r', gr_projects d' !! p = Some r' /\ pj_account r' = pj_account r.

Lemma owned_kept d d' a p : identities_kept d d' -> owned_project d a p = true -> owned_project d' a p = true.
Proof.
  intros Hk (r & Hr & <-)%owned_project_spec. apply owned_project_spec. destruct (Hk _ _ Hr) as (r' & ? & ?). eauto.
Qed.

Lemma tables_split d d' : graph_tables d' = graph_tables d ->
  gr_configurations d' = gr_configurations d /\ gr_repositories d' = gr_repositories d /\
  gr_repository_configurations d' = gr_repository_configurations d /\ gr_services d' = gr_services d /\
  gr_service_configurations d' = gr_service_configurations d.
Proof. unfold graph_tables. by intros [=]. Qed.

Lemma configurations_ok_same d d' : graph_tables d' = graph_tables d -> identities_kept d d' ->
  configurations_ok d -> configurations_ok d'.
Proof.
  intros (Ec & Er & Erc & Es & Esc)%tables_split Hk [[Sk Su Ss] [Ow1 Ow2] Or Rows One All].
  split; [split|..]; rewrite ?Ec, ?Er, ?Erc, ?Es, ?Esc; try done.
  - split; [intros i x Hi; destruct (Ow1 i x Hi); split; [done|]|intros i x Hi]; eauto using owned_kept.
  - intros c cf Hc. destruct (Rows c cf Hc) as (? & ? & ? & Hr & Hs). split_and!; [by eapply owned_kept|done..| |].
    + unfold repository_settled. by rewrite Erc.
    + unfold services_settled. by rewrite Esc.
  - intros a p n. rewrite (max_number_same d d') by done. apply All.
Qed.

(** What changes neither configurations nor who owns which project. *)
Lemma graph_ok_kept d d' : graph_tables d' = graph_tables d ->
  (forall p r', gr_projects d' !! p = Some r' -> project_check r' = true /\ is_Some (gr_details d' !! p) /\
     exists r, gr_projects d !! p = Some r /\ project_identity r' = project_identity r) ->
  identities_kept d d' -> graph_ok d -> graph_ok d'.
Proof.
  intros Et Hp Hk [Hc Hpr]. split; [by eapply configurations_ok_same|].
  intros p r' Hr'. destruct (Hp p r' Hr') as (Hck & Hd & r & Hr & [= Ea Econf]). split_and!; [done..|].
  destruct (Hpr p r Hr) as (_ & _ & c & cf & E1 & E2 & E3 & E4 & E5). apply tables_split in Et as (Ec & _).
  exists c, cf. rewrite Ec, (max_number_same d d' _ _ Ec), Ea, Econf. done.
Qed.

Lemma bystander_ok d d' : bystander d d' -> graph_ok d -> graph_ok d'.
Proof.
  intros [[Fp Fc _ _] Et Ed _] Hok. pose proof (go_projects _ Hok) as Hpr.
  apply (graph_ok_kept d); [done| | |done].
  - intros p r' Hr'. destruct (identity_lookup project_identity _ (projects (gr_adm d)) p r' (eq_sym Fp) Hr') as (r & Hr & E).
    destruct (Hpr p r Hr) as (Hck & Hd & _). rewrite Ed. split_and!; [|done|by exists r].
    destruct (Fc p r' Hr') as [Hr2|]; [|done]. by destruct (Hpr p r' Hr2).
  - intros p r Hr. destruct (identity_lookup project_identity _ _ p r Fp Hr) as (r' & Hr' & E). exists r'.
    split; [done|]. by injection E.
Qed.

Lemma settled_bystander d d' : settled d d' -> graph_tables d' = graph_tables d /\ gr_adm d' = gr_adm d /\
  gr_details d' = gr_details d.
Proof. by intros (e & t & l & ->). Qed.

(** ** Persisting *)

Lemma service_added_ok account project c s id d d' :
  service_added account project c s id d d' -> is_Some (gr_configurations d !! c) -> services_ok d -> services_ok d'.
Proof.
  intros [d0 t Hk Ht (i & x & Hi & Hid & _ & Hp & Hkd) Hn _] Hc [Sk Su Ss].
  assert (forall i x, t !! i = Some x -> sv_id x = i) as Sk'.
  { destruct Ht as [->|(new & Hnew & _ & _ & ->)]; [done|]. intros j y. rewrite lookup_insert.
    case_decide; [by intros [= <-]|apply Sk]. }
  split.
  - exact Sk'.
  - destruct Ht as [->|(new & Hnew & _ & Hfree & ->)]; [done|]. cbn. intros j1 y1 j2 y2.
    rewrite !lookup_insert. repeat case_decide; subst; intros; simplify_eq; cbn in *; [done|..].
    + by destruct (Hfree j2 y2).
    + by destruct (Hfree j1 y1).
    + by eapply Su.
  - intros c0 s0 y. cbn. rewrite lookup_insert. case_decide as E.
    + injection E as <- <-. intros [= <-]. split; [done|]. exists x. rewrite <- Hid, (Sk' _ _ Hi). by cbn.
    + intros (Hco & z & Hz & ?)%Ss. split; [done|]. exists z. split; [|done].
      destruct Ht as [->|(new & Hnew & _ & _ & ->)]; [done|]. rewrite lookup_insert_ne; [done|]. intros <-. congruence.
Qed.

Lemma services_added_other account project c l ids d d' c' id : services_added account project c l ids d d' ->
  c' <> c -> gr_service_configurations d' !! (c', id) = gr_service_configurations d !! (c', id).
Proof.
  induction 1 as [d|s l i ids d d1 d2 [d0 t _ _ _ _ _] _ IH]; intros Hne; [done|].
  rewrite IH by done. cbn. by rewrite lookup_insert_ne by congruence.
Qed.

Lemma services_added_owners account project c l ids d d' : services_added account project c l ids d d' ->
  forall i x, gr_services d' !! i = Some x -> gr_services d !! i = Some x \/ sv_account x = account /\ sv_project x = project.
Proof.
  induction 1 as [d|s l id ids d d1 d2 [d0 t _ Ht _ _ _] _ IH]; intros i x Hi; [by left|].
  destruct (IH i x Hi) as [Hi1|]; [|by right]. cbn in Hi1.
  destruct Ht as [->|(new & _ & _ & _ & ->)]; [by left|]. rewrite lookup_insert in Hi1.
  case_decide; [injection Hi1 as <-; by right|by left].
Qed.

Lemma services_added_facts account project c l ids d d' :
  services_added account project c l ids d d' -> is_Some (gr_configurations d !! c) -> services_ok d ->
  services_ok d' /\ gr_service_configurations d ⊆ gr_service_configurations d' /\
  (forall c' id, c' <> c -> gr_service_configurations d' !! (c', id) = gr_service_configurations d !! (c', id)) /\
  Forall2 (fun id s => gr_service_configurations d' !! (c, id) = Some (service_row account project s)) ids l /\
  (forall id y, gr_service_configurations d' !! (c, id) = Some y ->
     gr_service_configurations d !! (c, id) = Some y \/ id ∈ ids).
Proof.
  induction 1 as [d|s l id ids d d1 d2 Hs _ IH]; intros Hc Hok.
  - split_and!; [done|done|done|constructor|auto].
  - pose proof (service_added_ok _ _ _ _ _ _ _ Hs Hc Hok) as Hok1. destruct Hs as [d t Hk Ht Hi Hn Hck].
    destruct IH as (Hok2 & Hsub & Hother & Hall & Hback); [done|done|].
    assert (gr_service_configurations d2 !! (c, id) = Some (service_row account project s)) as Hid
      by (eapply lookup_weaken; [apply lookup_insert_eq|exact Hsub]).
    split_and!; [done| | |by constructor|].
    + etrans; [|exact Hsub]. by apply insert_subseteq.
    + intros c' j Hne. rewrite Hother by done. cbn. by rewrite lookup_insert_ne by (intros [=]; congruence).
    + intros j y Hj. destruct (Hback j y Hj) as [Hj2|]; [|right; by right]. cbn in Hj2.
      rewrite lookup_insert in Hj2. case_decide as E; [injection E as ->; right; left|by left].
Qed.

Lemma persisted_configurations account project c n spec d d' : persisted account project c n spec d d' ->
  exists row, cf_account row = account /\ gr_configurations d' = <[c := row]> (gr_configurations d).
Proof.
  intros [d0 t r first ids d1 row _ _ _ _ _ _ Hs]. destruct (services_added_aside _ _ _ _ _ _ _ Hs) as (_ & Ec & _).
  by exists row.
Qed.

Lemma persisted_ok account project c n spec d d' :
  persisted account project c n spec d d' -> configurations_ok d -> validate spec = [] ->
  n = (max_number d account project + 1)%Z ->
  configurations_ok d' /\
  exists cf, cf_account cf = account /\ cf_project cf = project /\ cf_number cf = n /\ cf_spec cf = spec /\
    gr_configurations d !! c = None /\ gr_configurations d' = <[c := cf]> (gr_configurations d).
Proof.
  intros Hp [[Sk Su Ss] [Ow1 Ow2] Or Rows One All] Hv Hn.
  pose proof (persisted_adm _ _ _ _ _ _ _ Hp) as Eadm.
  destruct Hp as [d t r first ids d' row Hc Hck Ht Hr Hf Hcr Hs].
  set (d0 := set_gr_repository_configurations _ _) in Hs.
  destruct (services_added_aside _ _ _ _ _ _ _ Hs) as (_ & Ec & Er & Erc).
  assert (forall c' cf, gr_configurations d !! c' = Some cf -> c' <> c) as Hne by (intros; congruence).
  assert (services_ok d0) as Hok0.
  { split; [exact Sk|exact Su|]. intros c' s y Hy. destruct (Ss c' s y Hy) as ([cf Hcf] & ?).
    split; [|done]. cbn. rewrite lookup_insert_ne; [by exists cf|]. by apply not_eq_sym, (Hne c' cf). }
  destruct (services_added_facts _ _ _ _ _ _ _ Hs) as (Hok' & _ & Hother & Hall & Hback);
    [unfold d0; cbn; by rewrite lookup_insert_eq|done|].
  pose proof (max_number_nonneg d account project) as H0.
  assert (forall a p, owned_project d' a p = owned_project d a p) as Hown
    by (intros; unfold owned_project, gr_projects; by rewrite Eadm).
  assert (owned_project d account project = true) as Hmine by (unfold configuration_check in Hck; by bool_simpl).
  split; [|by exists row]. split; [done|..]; rewrite ?Ec, ?Erc; cbn.
  - split.
    + intros i x. rewrite Er, Hown. cbn. destruct Ht as [->|(new & Hnew & ->)]; [apply Ow1|].
      rewrite lookup_insert. case_decide; [by intros [= <-]|apply Ow1].
    + intros i x Hi. rewrite Hown. destruct (services_added_owners _ _ _ _ _ _ _ Hs i x Hi) as [Hi2|[-> ->]]; [by eapply Ow2|done].
  - intros c' r' y. rewrite !lookup_insert. repeat case_decide; simplify_eq; [done..|]. apply Or.
  -    intros c' cf. rewrite lookup_insert, Hown. case_decide as E.
    + intros [= <-]. subst c'. unfold configuration_check in Hck. bool_simpl. split_and!; try done; [cbn; lia|..].
      * exists r, first. rewrite Erc. split; [done|]. cbn. rewrite lookup_insert_eq. split; [done|].
        intros r' y. rewrite lookup_insert. case_decide as E; [by injection E|]. intros [x Hx]%Or. congruence.
      * exists ids. split; [exact Hall|]. intros id y Hy. destruct (Hback id y Hy) as [Hy2|]; [|done].
        destruct (Ss c id y Hy2) as ([x Hx] & _). congruence.
    + intros Hcf. destruct (Rows c' cf Hcf) as (? & ? & ? & (r1 & f1 & ? & Hl & Hu) & (ids1 & Hall1 & Hin1)).
      split_and!; try done.
      * exists r1, f1. rewrite Erc. cbn. rewrite lookup_insert_ne by congruence. split_and!; [done..|].
        intros r' y. rewrite lookup_insert_ne by congruence. apply Hu.
      * exists ids1. split.
        -- eapply Forall2_impl; [exact Hall1|]. intros id s Hid. by rewrite Hother.
        -- intros id y. rewrite Hother by done. apply Hin1.
  - assert (forall c' cf, gr_configurations d !! c' = Some cf -> cf_project cf = project -> cf_number cf <> n) as Hfresh.
    { intros c' cf Hcf Hpj Hnum. destruct (Rows c' cf Hcf) as (Ho & _). pose proof (max_number_bound d c' cf Hcf) as Hb.
      unfold configuration_check in Hck. bool_simpl. apply owned_project_spec in Ho as (p1 & Hp1 & Ea1).
      match goal with H : owned_project _ _ _ = true |- _ => apply owned_project_spec in H as (p2 & Hp2 & Ea2) end.
      cbn in Hp2, Ea2. assert (cf_account cf = account) as Ea by congruence. rewrite Ea in Hb. lia. }
    intros c1 f1 c2 f2. rewrite !lookup_insert. repeat case_decide; intros; simplify_eq; [done|..].
    + exfalso. by eapply Hfresh.
    + exfalso. by eapply Hfresh.
    + by eapply One.
  - intros a p k. rewrite (max_number_insert d d' c row a p Hc Ec). case_match eqn:E; cbn.
    + bool_simpl. cbn in *. intros Hk. destruct (decide (k = max_number d account project + 1)%Z) as [->|Hk2].
      * exists c, row. by rewrite lookup_insert_eq.
      * destruct (All account project k) as (c' & cf & Hcf & ?); [lia|]. exists c', cf.
        rewrite lookup_insert_ne; [done|]. by apply not_eq_sym, (Hne c' cf).
    + intros (c' & cf & Hcf & ?)%All. exists c', cf. rewrite lookup_insert_ne; [done|]. by apply not_eq_sym, (Hne c' cf).
Qed.

(** ** Steps *)

Lemma project_moved_ok d d' p r r' : graph_tables d' = graph_tables d ->
  gr_projects d !! p = Some r -> gr_projects d' = <[p := r']> (gr_projects d) ->
  project_identity r' = project_identity r -> project_check r' = true ->
  (forall q, is_Some (gr_details d !! q) -> is_Some (gr_details d' !! q)) -> graph_ok d -> graph_ok d'.
Proof.
  intros Et Hr Ep Ei Hck Hd Hok. apply (graph_ok_kept d); [done| | |done]; unfold identities_kept; rewrite Ep.
  - intros q x. rewrite lookup_insert. case_decide as E.
    + intros [= <-]. subst q. destruct (go_projects d Hok p r Hr) as (_ & ? & _). eauto 10.
    + intros Hx. destruct (go_projects d Hok q x Hx) as (? & ? & _). eauto 10.
  - intros q x Hx. rewrite lookup_insert. case_decide as E; [|by exists x]. subst q. exists r'.
    split; [done|]. injection Ei as Ea _. congruence.
Qed.

(** The project of a configuration that was just persisted. *)
Lemma persisted_graph_ok d0 d d1 d' account p r c n spec :
  graph_ok d0 -> graph_tables d = graph_tables d0 -> identities_kept d0 d ->
  (forall q x, q <> p -> gr_projects d !! q = Some x -> gr_projects d0 !! q = Some x) ->
  (forall q, is_Some (gr_details d0 !! q) -> is_Some (gr_details d !! q)) -> is_Some (gr_details d !! p) ->
  persisted account p c n spec d d1 -> validate spec = [] -> n = (max_number d account p + 1)%Z ->
  gr_projects d1 !! p = Some r -> pj_account r = account ->
  forall r', pj_account r' = account -> pj_config r' = Some c -> project_check r' = true ->
  settled (put_project p r' d1) d' -> graph_ok d'.
Proof.
  intros Hok Et Hk Hpr Hdet Hdp Hp Hv Hn Hr Ha r' Ha' Hc Hck (Es & Eadm & Ed)%settled_bystander.
  assert (configurations_ok d) as Hco by (eapply configurations_ok_same; [exact Et|exact Hk|apply Hok]).
  destruct (persisted_ok _ _ _ _ _ _ _ Hp Hco Hv Hn) as (Hco1 & cf & Ea & Epj & Enum & Espec & Hfresh & Econf).
  pose proof (persisted_adm _ _ _ _ _ _ _ Hp) as E1. pose proof (persisted_aside _ _ _ _ _ _ _ Hp) as E2.
  assert (gr_details d1 = gr_details d) as Ed1 by (unfold aside in E2; congruence).
  assert (gr_projects d' = <[p := r']> (gr_projects d1)) as Ep by (unfold gr_projects; by rewrite Eadm).
  assert (gr_projects d1 = gr_projects d) as Ep1 by (unfold gr_projects; by rewrite E1).
  assert (gr_details d' = gr_details d) as Ed' by (rewrite Ed, <- Ed1; done).
  assert (gr_configurations d' = gr_configurations d1) as Ec' by (by apply tables_split in Es as (-> & _)).
  split.
  - apply (configurations_ok_same d1); [by rewrite Es| |done]. intros q x Hx. rewrite Ep, lookup_insert.
    case_decide as E; [subst q; exists r'; split; [done|congruence]|by exists x].
  - intros q x. rewrite Ep, lookup_insert, Ed'. case_decide as E.
    + intros [= <-]. subst q. split_and!; [done..|]. exists c, cf. rewrite Ec', Econf, lookup_insert_eq.
      split_and!; try done; [congruence|]. rewrite (max_number_same d1 d' _ _ Ec'), Ha'.
      rewrite (max_number_insert d d1 c cf account p Hfresh Econf), !bool_decide_eq_true_2 by done. cbn. lia.
    + rewrite Ep1. intros Hx%Hpr; [|done]. destruct (go_projects d0 Hok q x Hx) as (? & ? & c2 & cf2 & Hc2 & Hcf2 & Ha2 & Hp2 & Hn2).
      split_and!; [done|by apply Hdet|]. exists c2, cf2. rewrite Ec', Econf.
      apply tables_split in Et as (Ec & _).
      rewrite lookup_insert_ne by (intros <-; rewrite Ec in Hfresh; congruence). rewrite Ec. split_and!; try done.
      rewrite (max_number_same d1 d' _ _ Ec'), (max_number_insert d d1 c cf _ _ Hfresh Econf), Hn2.
      rewrite (max_number_same d0 d _ _ Ec). rewrite andb_comm, (bool_decide_eq_false_2 (cf_project cf = q)); [done|]. congruence.
Qed.

Lemma max_number_fresh d a p : configurations_ok d -> gr_projects d !! p = None -> max_number d a p = 0%Z.
Proof.
  intros Hco Hp. pose proof (max_number_nonneg d a p). destruct (decide (max_number d a p = 0%Z)) as [|Hne]; [done|].
  destruct (co_all d Hco a p 1) as (c & cf & Hc & _ & Epj & _); [lia|].
  destruct (co_rows d Hco c cf Hc) as (Ho & _). apply owned_project_spec in Ho as (r & Hr & _). congruence.
Qed.

Lemma graph_step_ok a d d' : graph_step a d d' -> graph_ok d -> graph_ok d'.
Proof.
  intros Hs Hok. destruct Hs as [p c name spec d1 Hp Hd Hdc Hv Hper Hset|p r r' x x' Hp Ha Hr' Hck Hx Hxc Hset|
    p r r' c spec d1 Hp Ha Hv Hper Hr' Hck Hset|p r r' id x t Hp Ha _ _ _ _ _ Hr' Hck Ht Hset|
    p r r0 r' id i Hp Ha _ _ _ _ _ _ Hr0 Hr' Hck Hset].
  - eapply (persisted_graph_ok d (put_details p (draft name) (put_project p (new_project a) d)));
      [exact Hok|done| | | | |exact Hper|exact Hv| | | | | | |exact Hset]; try done.
    + intros q y Hy. exists y. cbn. rewrite lookup_insert_ne by congruence. done.
    + intros q y Hne. cbn. by rewrite lookup_insert_ne.
    + intros q Hq. cbn. rewrite lookup_insert. by case_decide.
    + cbn. by rewrite lookup_insert_eq.
    + by rewrite (max_number_same d (put_details p (draft name) (put_project p (new_project a) d)) a p eq_refl),
        (max_number_fresh d a p (go_configurations d Hok) Hp).
    + unfold gr_projects. rewrite (persisted_adm _ _ _ _ _ _ _ Hper). apply lookup_insert_eq.
    + done.
  - apply settled_bystander in Hset as (Es & Eadm & Ed).
    apply (project_moved_ok d d' p r r'); [by rewrite Es|done|unfold gr_projects; by rewrite Eadm| |done| |done].
    + by apply revised_identity.
    + intros q Hq. rewrite Ed. cbn. rewrite lookup_insert. by case_decide.
  - pose proof (revised_identity _ _ Hr') as [= Ea Ec].
    eapply (persisted_graph_ok d d); [exact Hok|done| |done|done| |exact Hper|exact Hv|done| |exact Ha| | |exact Hck|exact Hset].
    + intros q y Hy. by exists y.
    + by destruct (go_projects d Hok p r Hp) as (_ & ? & _).
    + unfold gr_projects. by rewrite (persisted_adm _ _ _ _ _ _ _ Hper).
    + congruence.
    + done.
  - apply settled_bystander in Hset as (Es & Eadm & Ed).
    apply (project_moved_ok d d' p r r'); [by rewrite Es|done|unfold gr_projects; by rewrite Eadm| |done| |done].
    + rewrite (revised_identity _ _ Hr'). unfold awaiting_slot. by case_match.
    + intros q Hq. rewrite Ed. cbn. destruct Ht as [->|(y & y' & _ & _ & ->)]; [done|].
      rewrite lookup_insert. by case_decide.
  - apply settled_bystander in Hset as (Es & Eadm & Ed).
    apply (project_moved_ok d d' p r r'); [by rewrite Es|done|unfold gr_projects; by rewrite Eadm| |done| |done].
    + rewrite (revised_identity _ _ Hr'). by destruct Hr0 as [->| ->].
    + intros q Hq. by rewrite Ed.
Qed.

Lemma graph_effect_ok a d d' ok : graph_effect a d d' ok -> graph_ok d -> graph_ok d'.
Proof.
  intros [ok' l ->|Hs] Hok; [|by eapply graph_step_ok].
  apply (graph_ok_kept d); [done| |by intros p r Hr; exists r|done].
  intros p r Hr. destruct (go_projects d Hok p r Hr) as (? & ? & _). eauto 10.
Qed.
End Invariant.
