(* ===== verification/GraphReads.v ===== *)
(** * The project graph: what is read

    A query lists the rows of a table that it selects, each once and in order; so what is
    read of a configuration is its document, and depends on its own rows only. *)

From stdpp Require Import base list option gmap strings sorting relations.
From Stdlib Require Import ZArith Lia Ascii.
From S2P Require Import Prelude RustText Bytes PgTx Intent ExecutionTables Runtime ReleaseTables Admission.
From S2P Require Import ProjectContract ProjectSpec GraphTables Graph GraphSpec GraphSteps GraphInvariant.

Local Open Scope string_scope.
Local Open Scope list_scope.

(** ** Listing the rows that a query selects *)

Section Listing.
Context {K R A : Type} `{Countable K} (f : K * R -> option A) (g : A -> K).
Context (Hkey : forall k r x, f (k, r) = Some x -> k = g x).
Implicit Types (t : gmap K R) (x : A).

Lemma listed_elem t x : x ∈ omap f (map_to_list t) <-> exists r, t !! g x = Some r /\ f (g x, r) = Some x.
Proof.
  rewrite list_elem_of_omap. split.
  - intros ([k r] & Hin%elem_of_map_to_list & Hf). pose proof (Hkey _ _ _ Hf) as ->. by exists r.
  - intros (r & Hr & Hf). exists (g x, r). split; [by apply elem_of_map_to_list|done].
Qed.

Lemma listed_keys t : NoDup (map g (omap f (map_to_list t))).
Proof.
  pose proof (NoDup_fst_map_to_list t) as Hn. revert Hn. generalize (map_to_list t) as l.
  induction l as [|[k r] l IH]; cbn; [constructor|]. intros [Hk Hl]%NoDup_cons.
  destruct (f (k, r)) as [x|] eqn:E; [|by apply IH]. cbn. constructor; [|by apply IH].
  rewrite <- (Hkey _ _ _ E). intros (y & Ey & Hy)%list_elem_of_fmap.
  apply list_elem_of_omap in Hy as ([k' r'] & Hin & Hf). apply Hkey in Hf. apply Hk.
  apply list_elem_of_fmap. exists (k', r'). split; [cbn; congruence|done].
Qed.

Lemma listed_nodup t : NoDup (omap f (map_to_list t)).
Proof. eapply NoDup_fmap_1, listed_keys. Qed.

Lemma listed_same t t' : (forall x, t !! g x = t' !! g x) -> omap f (map_to_list t) ≡ₚ omap f (map_to_list t').
Proof.
  intros E. apply NoDup_Permutation; [apply listed_nodup..|]. intros x. by rewrite !listed_elem, E.
Qed.
End Listing.

(** Sorting by an order that tells the elements apart. *)
Lemma merge_sort_unique {A} (R : relation A) `{!forall x y, Decision (R x y)} `{!Transitive R} `{!Total R} l l' :
  l ≡ₚ l' -> (forall x y, x ∈ l -> y ∈ l -> R x y -> R y x -> x = y) -> merge_sort R l = merge_sort R l'.
Proof.
  intros Hp Ha. apply (StronglySorted_unique_strong R).
  - intros x1 x2. rewrite !merge_sort_Permutation. intros H1 H2. apply Ha; [done|]. by rewrite Hp.
  - apply StronglySorted_merge_sort; apply _.
  - apply StronglySorted_merge_sort; apply _.
  - by rewrite !merge_sort_Permutation.
Qed.

#[export] Instance by_repository_trans : Transitive by_repository.
Proof. intros x y z. unfold by_repository. lia. Qed.
#[export] Instance by_repository_total : Total by_repository.
Proof. intros x y. unfold by_repository. lia. Qed.
#[export] Instance by_kind_trans : Transitive by_kind.
Proof. intros x y z. unfold by_kind. lia. Qed.
#[export] Instance by_kind_total : Total by_kind.
Proof. intros x y. unfold by_kind. lia. Qed.
#[export] Instance by_id_trans : Transitive by_id.
Proof. intros x y z. unfold by_id. lia. Qed.
#[export] Instance by_id_total : Total by_id.
Proof. intros x y. unfold by_id. lia. Qed.

(** ** The services of the contract *)

Lemma tally_in f s ss : s ∈ ss -> f s = true -> (1 <= tally f ss)%nat.
Proof.
  induction 1 as [s ss|s x ss _ IH]; intros Hf; rewrite tally_cons; [rewrite Hf; lia|]. specialize (IH Hf). lia.
Qed.

Lemma kinds_distinct ss : Forall service_kind_ok ss -> (tally is_static ss <= 1)%nat ->
  (tally is_application ss <= 1)%nat -> (tally is_postgres ss <= 1)%nat -> NoDup (map kind ss).
Proof.
  induction ss as [|s ss IH]; intros Hk H1 H2 H3; [constructor|]. rewrite !tally_cons in *.
  apply Forall_cons in Hk as [Hs Hk]. cbn. constructor; [|apply IH; [done|lia..]].
  intros (s' & Ek & Hin)%list_elem_of_fmap. unfold service_kind_ok in Hs.
  destruct (kind s) eqn:E; try done.
  - pose proof (tally_in is_static s' ss Hin) as Ht. unfold is_static in *. rewrite E, <- Ek in *. specialize (Ht eq_refl). lia.
  - pose proof (tally_in is_application s' ss Hin) as Ht. unfold is_application in *. rewrite E, <- Ek in *. specialize (Ht eq_refl). lia.
  - pose proof (tally_in is_postgres s' ss Hin) as Ht. unfold is_postgres in *. rewrite E, <- Ek in *. specialize (Ht eq_refl). lia.
Qed.

Lemma kind_rank_inj k k' : kind_allowed k = true -> kind_allowed k' = true -> kind_rank k = kind_rank k' -> k = k'.
Proof. by destruct k, k'. Qed.

Lemma standard_kinds p : standard_project p -> NoDup (map kind (services p)) /\
  forall s, s ∈ services p -> kind_allowed (kind s) = true.
Proof.
  intros Hp. pose proof (std_services _ Hp) as Hs. split; [apply kinds_distinct; apply Hs|].
  intros s Hin. pose proof (proj1 (Forall_forall _ _) (services_kinds _ Hs) s Hin) as Hk.
  unfold service_kind_ok in Hk. by destruct (kind s).
Qed.

(** ** The rows of a configuration *)

Section Configuration.
Implicit Types (d : GraphDb) (account project c : Uuid).

Lemma repositories_elem d account project c n x : x ∈ repositories_of d account project c n <->
  exists y, gr_repository_configurations d !! (c, ry_id x) = Some y /\ rf_account y = account /\ rf_project y = project /\
    x = {| ry_id := ry_id x; ry_project := project; ry_configuration := rf_spec y; ry_revision := n |}.
Proof.
  unfold repositories_of. rewrite merge_sort_Permutation, (listed_elem _ (fun x => (c, ry_id x))).
  - cbn. unfold where_. split.
    + intros (y & Hy & Hf). exists y. repeat case_bool_decide; cbn in Hf; try done. by injection Hf.
    + intros (y & Hy & Ha & Hp & ->). exists y. cbn. by rewrite !bool_decide_eq_true_2.
  - intros [c' i] y z. cbn. unfold where_. repeat case_bool_decide; try done. intros [= <-]. by subst.
Qed.

Lemma services_elem d account project c n x : x ∈ services_of d account project c n <->
  exists y, gr_service_configurations d !! (c, sr_id x) = Some y /\ sf_account y = account /\ sf_project y = project /\
    x = {| sr_id := sr_id x; sr_project := project; sr_configuration := sf_spec y; sr_revision := n |}.
Proof.
  unfold services_of. rewrite merge_sort_Permutation, (listed_elem _ (fun x => (c, sr_id x))).
  - cbn. unfold where_. split.
    + intros (y & Hy & Hf). exists y. repeat case_bool_decide; cbn in Hf; try done. by injection Hf.
    + intros (y & Hy & Ha & Hp & ->). exists y. cbn. by rewrite !bool_decide_eq_true_2.
  - intros [c' i] y z. cbn. unfold where_. repeat case_bool_decide; try done. intros [= <-]. by subst.
Qed.

Lemma repositories_nodup d account project c n : NoDup (repositories_of d account project c n).
Proof.
  unfold repositories_of. rewrite merge_sort_Permutation. apply (listed_nodup _ (fun x => (c, ry_id x))).
  intros [c' i] y z. cbn. unfold where_. repeat case_bool_decide; try done. intros [= <-]. by subst.
Qed.
Lemma services_nodup d account project c n : NoDup (services_of d account project c n).
Proof.
  unfold services_of. rewrite merge_sort_Permutation. apply (listed_nodup _ (fun x => (c, sr_id x))).
  intros [c' i] y z. cbn. unfold where_. repeat case_bool_decide; try done. intros [= <-]. by subst.
Qed.

Lemma configuration_repository d c cf n : repository_settled d c cf -> exists r first,
  head (repositories (cf_spec cf)) = Some first /\
  repositories_of d (cf_account cf) (cf_project cf) c n =
    [{| ry_id := r; ry_project := cf_project cf; ry_configuration := first; ry_revision := n |}].
Proof.
  intros (r & first & Hf & Hr & Hu). exists r, first. split; [done|].
  apply Permutation_singleton_r, NoDup_Permutation; [apply repositories_nodup|apply NoDup_singleton|].
  intros x. rewrite repositories_elem, list_elem_of_singleton. split.
  - intros (y & Hy & _ & _ & ->). pose proof (Hu _ _ Hy) as E. rewrite E in *. cbn in *. by simplify_eq.
  - intros ->. eexists. cbn. by rewrite Hr.
Qed.

(** The services as the document lists them. *)
Definition listed_service (project : Uuid) (n : Z) (id : Uuid) (s : ServiceSpec) : ServiceRecord :=
  {| sr_id := id; sr_project := project; sr_configuration := s; sr_revision := n |}.

Lemma configuration_services d c cf n : services_settled d c cf -> standard_project (cf_spec cf) -> exists ids,
  length ids = length (services (cf_spec cf)) /\
  services_of d (cf_account cf) (cf_project cf) c n ≡ₚ zip_with (listed_service (cf_project cf) n) ids (services (cf_spec cf)).
Proof.
  intros (ids & Hall & Hin) Hstd. pose proof (Forall2_length _ _ _ Hall) as Hlen. exists ids. split; [done|].
  assert (sr_configuration <$> zip_with (listed_service (cf_project cf) n) ids (services (cf_spec cf))
          = services (cf_spec cf)) as Hmap by (rewrite fmap_zip_with_r; [done|done|lia]).
  apply NoDup_Permutation; [apply services_nodup| |].
  - apply (NoDup_fmap_1 sr_configuration), (NoDup_fmap_1 kind). rewrite Hmap. by apply standard_kinds.
  - intros x. rewrite services_elem, elem_of_lookup_zip_with. split.
    + intros (y & Hy & _ & _ & ->). pose proof (Hin _ _ Hy) as [i Hi]%list_elem_of_lookup.
      destruct (Forall2_lookup_l _ _ _ _ _ Hall Hi) as (s & Hs & Hrow). exists i, (sr_id x), s.
      cbn in *. rewrite Hy in Hrow. injection Hrow as ->. done.
    + intros (i & id & s & -> & Hi & Hs). pose proof (Forall2_lookup_lr _ _ _ _ _ _ Hall Hi Hs) as Hrow.
      eexists. cbn. rewrite Hrow. done.
Qed.

Lemma configuration_service_list d c cf n : services_settled d c cf -> standard_project (cf_spec cf) ->
  map sr_configuration (services_of d (cf_account cf) (cf_project cf) c n) ≡ₚ services (cf_spec cf).
Proof.
  intros Hs Hstd. destruct (configuration_services d c cf n Hs Hstd) as (ids & Hlen & ->).
  rewrite fmap_zip_with_r; [done|done|lia].
Qed.

(** The order by kind tells a configuration's services apart. *)
Lemma services_apart d c cf n x y : services_settled d c cf -> standard_project (cf_spec cf) ->
  x ∈ services_of d (cf_account cf) (cf_project cf) c n -> y ∈ services_of d (cf_account cf) (cf_project cf) c n ->
  by_kind x y -> by_kind y x -> x = y.
Proof.
  intros Hs Hstd. destruct (configuration_services d c cf n Hs Hstd) as (ids & Hlen & ->).
  destruct (standard_kinds _ Hstd) as [Hn Hk].
  rewrite !elem_of_lookup_zip_with. intros (i & id & s & -> & Hi & Hsi) (j & id' & s' & -> & Hj & Hsj).
  unfold by_kind. cbn. intros H1 H2. assert (kind s = kind s') as E.
  { apply kind_rank_inj; [eapply Hk, list_elem_of_lookup_2, Hsi|eapply Hk, list_elem_of_lookup_2, Hsj|lia]. }
  assert (i = j) as ->; [|congruence]. eapply NoDup_lookup; [exact Hn|..].
  - rewrite list_lookup_fmap, Hsi. reflexivity.
  - rewrite list_lookup_fmap, Hsj. cbn. by rewrite E.
Qed.
End Configuration.

(** ** Projects *)

Section Projects.
Implicit Types (d : GraphDb).

(** The whole graph of a project that satisfies the contract. *)
Record complete_graph d (p : Uuid) (r : Project) (g : ProjectGraph) : Prop := {
  pg_record : pr_id (pg_project g) = p /\ pr_owner (pg_project g) = pj_account r /\
    pr_slots (pg_project g) = pj_slots r /\ pr_slot_state (pg_project g) = pj_slot_state r /\
    pr_revision (pg_project g) = pj_revision r;
  pg_last : cr_revision (cg_configuration (pg_graph g)) = max_number d (pj_account r) p;
  pg_standard : standard_project (cr_spec (cg_configuration (pg_graph g)));
  pg_repositories : map ry_configuration (cg_repositories (pg_graph g))
                    = repositories (cr_spec (cg_configuration (pg_graph g)));
  pg_services : map sr_configuration (cg_services (pg_graph g)) ≡ₚ services (cr_spec (cg_configuration (pg_graph g)));
}.

Lemma slots_in_range r : project_check r = true -> ((pj_slots r <? 0) || (255 <? pj_slots r))%Z = false /\ (0 < pj_revision r)%Z.
Proof.
  unfold project_check. intros Hc. bool_simpl. split; [|lia]. match goal with H : _ \/ _ |- _ => destruct H end; bool_simpl; lia.
Qed.

Lemma load_configuration_total d c cf : gr_configurations d !! c = Some cf -> (0 <= cf_number cf)%Z ->
  load_configuration d (cf_account cf) (cf_project cf) c = Ok
    {| cg_configuration := {| cr_id := c; cr_project := cf_project cf; cr_revision := cf_number cf; cr_spec := cf_spec cf |};
       cg_repositories := repositories_of d (cf_account cf) (cf_project cf) c (cf_number cf);
       cg_services := services_of d (cf_account cf) (cf_project cf) c (cf_number cf) |}.
Proof.
  intros Hc Hn. unfold load_configuration. rewrite Hc. cbn. rewrite !bool_decide_eq_true_2 by done. cbn.
  unfold as_u64. destruct (Z.ltb_spec (cf_number cf) 0); [lia|]. done.
Qed.

Lemma project_readable d p r : graph_ok d -> gr_projects d !! p = Some r ->
  exists g, load_project_graph d (pj_account r) p = Ok g /\ complete_graph d p r g.
Proof.
  intros Hok Hr. destruct (go_projects d Hok p r Hr) as (Hck & [x Hx] & c & cf & Hc & Hcf & Ha & Hp & Hn).
  destruct (slots_in_range r Hck) as [Hsl Hrev].
  destruct (co_rows d (go_configurations d Hok) c cf Hcf) as (_ & Hn1 & Hv & Hrep & Hser). apply validate_nil in Hv.
  pose proof (load_configuration_total d c cf Hcf ltac:(lia)) as Hl. rewrite Ha, Hp in Hl.
  eexists. split.
  - unfold load_project_graph. rewrite Hr, Hx. cbn. rewrite bool_decide_eq_true_2 by done. cbn. rewrite Hc. cbn.
    rewrite Hl. cbn. rewrite Hsl. cbn. unfold as_u64. destruct (Z.ltb_spec (pj_revision r) 0); [lia|]. reflexivity.
  - split; cbn; [done|done|done| |].
    + destruct (configuration_repository d c cf (cf_number cf) Hrep) as (r1 & first & Hf & Hrs). rewrite Ha, Hp in Hrs.
      rewrite Hrs. cbn. destruct (std_repository _ Hv) as (r2 & E & _). rewrite E in *. cbn in Hf. congruence.
    + pose proof (configuration_service_list d c cf (cf_number cf) Hser Hv) as E. by rewrite Ha, Hp in E.
Qed.

(** ** Configurations do not change *)

Definition configuration_rows_kept d d' : Prop := forall c cf, gr_configurations d !! c = Some cf ->
  gr_configurations d' !! c = Some cf /\
  (forall r, gr_repository_configurations d' !! (c, r) = gr_repository_configurations d !! (c, r)) /\
  (forall s, gr_service_configurations d' !! (c, s) = gr_service_configurations d !! (c, s)).

#[export] Instance configuration_rows_kept_preorder : PreOrder configuration_rows_kept.
Proof.
  split; [by intros d c cf Hc|]. intros d1 d2 d3 H1 H2 c cf Hc. destruct (H1 c cf Hc) as (Hc2 & Hr & Hs).
  destruct (H2 c cf Hc2) as (Hc3 & Hr2 & Hs2). split_and!; [done|intros; by rewrite Hr2|intros; by rewrite Hs2].
Qed.

Lemma rows_kept_same d d' : graph_tables d' = graph_tables d -> configuration_rows_kept d d'.
Proof. intros (Ec & _ & Er & _ & Es)%tables_split c cf Hc. by rewrite Ec, Er, Es. Qed.

Lemma persisted_rows_kept account project c n spec d d' : persisted account project c n spec d d' ->
  configurations_ok d -> configuration_rows_kept d d'.
Proof.
  intros [d0 t r first ids d1 row Hc Hck Ht Hr Hf Hcr Hs] Hok c' cf Hcf.
  assert (c' <> c) as Hne by congruence.
  destruct (services_added_aside _ _ _ _ _ _ _ Hs) as (_ & Ec & Er & Erc). rewrite Ec, Erc. cbn.
  rewrite lookup_insert_ne by congruence. split_and!; [done|intros; by rewrite lookup_insert_ne by congruence|].
  intros s. erewrite services_added_other; [|exact Hs|done]. done.
Qed.

Lemma graph_step_rows_kept a d d' : graph_step a d d' -> graph_ok d -> configuration_rows_kept d d'.
Proof.
  intros [p c name spec d1 Hp Hd _ _ Hper (Es & _)%settled_bystander|p r r' x x' _ _ _ _ _ _ (Es & _)%settled_bystander|
    p r r' c spec d1 _ _ _ Hper _ _ (Es & _)%settled_bystander|p r r' id x t _ _ _ _ _ _ _ _ _ _ (Es & _)%settled_bystander|
    p r r0 r' id i _ _ _ _ _ _ _ _ _ _ _ (Es & _)%settled_bystander] Hok; try by apply rows_kept_same.
  - transitivity d1; [|by apply rows_kept_same].
    transitivity (put_details p (draft name) (put_project p (new_project a) d)); [by apply rows_kept_same|].
    eapply persisted_rows_kept; [exact Hper|]. eapply configurations_ok_same; [|..|apply Hok]; [done|].
    intros q y Hy. exists y. cbn. by rewrite lookup_insert_ne by congruence.
  - transitivity d1; [|by apply rows_kept_same]. eapply persisted_rows_kept; [exact Hper|apply Hok].
Qed.

Lemma load_configuration_kept d d' account project c g : graph_ok d -> configuration_rows_kept d d' ->
  load_configuration d account project c = Ok g -> load_configuration d' account project c = Ok g.
Proof.
  intros Hok Hk (cf & Hcf & <- & <- & Hn & ->)%load_configuration_Ok.
  destruct (Hk c cf Hcf) as (Hcf' & Hr & Hs). rewrite (load_configuration_total d' c cf Hcf' Hn).
  destruct (co_rows d (go_configurations d Hok) c cf Hcf) as (_ & _ & Hv & Hrep & Hser). apply validate_nil in Hv.
  do 2 f_equal.
  - apply (StronglySorted_unique_strong by_repository).
    + intros x y Hx Hy. unfold by_repository. revert Hx Hy.
      destruct (configuration_repository d c cf (cf_number cf) Hrep) as (r1 & f1 & _ & E).
      rewrite repositories_elem. setoid_rewrite Hr. rewrite <- repositories_elem, E, !list_elem_of_singleton. congruence.
    + apply StronglySorted_merge_sort; apply _.
    + apply StronglySorted_merge_sort; apply _.
    + apply NoDup_Permutation; [apply repositories_nodup..|]. intros x. rewrite !repositories_elem.
      by setoid_rewrite Hr.
  - apply (StronglySorted_unique_strong by_kind).
    + intros x y Hx Hy. eapply services_apart; [exact Hser|exact Hv| |exact Hy].
      rewrite services_elem in Hx. setoid_rewrite Hs in Hx. by rewrite services_elem.
    + apply StronglySorted_merge_sort; apply _.
    + apply StronglySorted_merge_sort; apply _.
    + apply NoDup_Permutation; [apply services_nodup..|]. intros x. rewrite !services_elem.
      by setoid_rewrite Hs.
Qed.
End Projects.
