(* ===== verification/GraphAccounts.v ===== *)
(** * The project graph: accounts apart

    What an owner's request changes belongs to the owner, and what another account reads
    depends on that account's rows only. *)

From stdpp Require Import base list option gmap strings sorting relations.
From Stdlib Require Import ZArith Lia Ascii.
From S2P Require Import Prelude RustText Bytes PgTx Intent ExecutionTables Runtime ReleaseTables Admission.
From S2P Require Import ProjectContract ProjectSpec GraphTables Graph GraphSpec GraphSteps GraphInvariant GraphReads.

Local Open Scope string_scope.
Local Open Scope list_scope.

Section Accounts.
Implicit Types (d : GraphDb).

(** The rows of account [b] are the same; its configurations keep their rows. *)
Record rows_same (b : Uuid) d d' : Prop := {
  rs_projects : forall p r, pj_account r = b -> gr_projects d' !! p = Some r <-> gr_projects d !! p = Some r;
  rs_details : forall p r, pj_account r = b -> gr_projects d !! p = Some r -> gr_details d' !! p = gr_details d !! p;
  rs_kept : configuration_rows_kept d d';
  rs_configurations : forall c cf, cf_account cf = b -> gr_configurations d' !! c = Some cf -> gr_configurations d !! c = Some cf;
  rs_deployments : forall i x, dp_account x = b -> gr_deployments d' !! i = Some x <-> gr_deployments d !! i = Some x;
  rs_refs : gr_deployment_refs d' = gr_deployment_refs d;
  rs_artifacts : gr_artifacts d' = gr_artifacts d;
}.

Lemma insert_other {A} (f : A -> Uuid) (b : Uuid) (t : gmap Uuid A) k r' x i :
  f r' <> b -> (forall r, t !! k = Some r -> f r <> b) -> f x = b -> <[k := r']> t !! i = Some x <-> t !! i = Some x.
Proof.
  intros Hr' Hk Hx. rewrite lookup_insert. case_decide as E; [|done]. subst i. split.
  - intros [= <-]. done.
  - intros Hl%Hk. done.
Qed.

(** Steps of account [a] that persist nothing. *)
Lemma rows_same_put a b d d' p r r' : a <> b -> gr_projects d !! p = Some r -> pj_account r = a -> pj_account r' = a ->
  gr_projects d' = <[p := r']> (gr_projects d) -> (forall q, q <> p -> gr_details d' !! q = gr_details d !! q) ->
  graph_tables d' = graph_tables d ->
  (forall i x, dp_account x = b -> gr_deployments d' !! i = Some x <-> gr_deployments d !! i = Some x) ->
  gr_deployment_refs d' = gr_deployment_refs d -> gr_artifacts d' = gr_artifacts d -> rows_same b d d'.
Proof.
  intros Hne Hr Ha Ha' Ep Ed Et Hd Hrefs Harts. split; try done.
  - intros q x Hx. rewrite Ep. apply (insert_other pj_account b); [congruence| |done]. intros; congruence.
  - intros q x Hx Hq. apply Ed. intros ->. congruence.
  - by apply rows_kept_same.
  - apply tables_split in Et as (-> & _). done.
Qed.

Lemma settled_rest d d' : settled d d' -> gr_deployment_refs d' = gr_deployment_refs d /\ gr_artifacts d' = gr_artifacts d.
Proof. by intros (e & t & l & ->). Qed.

Lemma graph_step_rows_same a b d d' : graph_step a d d' -> graph_ok d -> a <> b -> rows_same b d d'.
Proof.
  intros Hs Hok Hne. pose proof (graph_step_rows_kept a d d' Hs Hok) as Hkept.
  destruct Hs as [p c name spec d1 Hp Hd _ Hv Hper Hset|p r r' x x' Hp Ha Hr' _ Hx _ Hset|
    p r r' c spec d1 Hp Ha Hv Hper Hr' _ Hset|p r r' id x t Hp Ha _ Hn _ Hxa _ Hr' _ Ht Hset|
    p r r0 r' id i Hp Ha _ _ _ _ _ _ Hr0 Hr' _ Hset];
    pose proof (settled_bystander _ _ Hset) as (Es & Ea & Ed); pose proof (settled_rest _ _ Hset) as (Er & Ef).
  - pose proof (persisted_rest _ _ _ _ _ _ _ Hper) as (Edet & Eref & Eart). pose proof (persisted_adm _ _ _ _ _ _ _ Hper) as E1.
    assert (gr_projects d' = <[p := with_config c (new_project a)]> (gr_projects d)) as Ep.
    { unfold gr_projects. rewrite Ea. cbn. unfold gr_projects. rewrite E1. cbn. apply insert_insert_eq. }
    assert (gr_details d' = <[p := draft name]> (gr_details d)) as Ed'
      by (rewrite Ed; exact Edet).
    split; [| |done| | | |].
    + intros q y Hy. rewrite Ep. apply (insert_other pj_account b); [done| |done]. intros; congruence.
    + intros q y Hy Hq. rewrite Ed', lookup_insert_ne; [done|]. intros <-. congruence.
    + intros c' cf Hcf Hl. apply tables_split in Es as (Ec & _). rewrite Ec in Hl.
      apply persisted_configurations in Hper as (row & Hrow & Erow). change (gr_configurations d1 !! c' = Some cf) in Hl.
      rewrite Erow in Hl. revert Hl. rewrite lookup_insert. case_decide; [|done]. intros [= <-]. congruence.
    + intros i y _. unfold gr_deployments. rewrite Ea. cbn. by rewrite E1.
    + rewrite Er. exact Eref.
    + rewrite Ef. exact Eart.
  - eapply (rows_same_put a b d d' p r r'); [done|done|done| | | |by rewrite Es
      |intros; unfold gr_deployments; by rewrite Ea|by rewrite Er|by rewrite Ef].
    + by rewrite (revised_account _ _ Hr').
    + unfold gr_projects. by rewrite Ea.
    + intros q Hq. rewrite Ed. cbn. by rewrite lookup_insert_ne.
  - pose proof (persisted_rest _ _ _ _ _ _ _ Hper) as (Edet & Eref & Eart). pose proof (persisted_adm _ _ _ _ _ _ _ Hper) as E1.
    assert (gr_projects d' = <[p := r']> (gr_projects d)) as Ep by (unfold gr_projects; rewrite Ea; cbn; unfold gr_projects; by rewrite E1).
    assert (pj_account r' = a) as Ha' by (rewrite (revised_account _ _ Hr'); done).
    split; [| |done| | | |].
    + intros q y Hy. rewrite Ep. apply (insert_other pj_account b); [congruence| |done]. intros; congruence.
    + intros q y Hy Hq. rewrite Ed. cbn. by rewrite Edet.
    + intros c' cf Hcf Hl. apply tables_split in Es as (Ec & _). rewrite Ec in Hl.
      apply persisted_configurations in Hper as (row & Hrow & Erow). change (gr_configurations d1 !! c' = Some cf) in Hl.
      rewrite Erow in Hl. revert Hl. rewrite lookup_insert. case_decide; [|done]. intros [= <-]. congruence.
    + intros i y _. unfold gr_deployments. rewrite Ea. cbn. by rewrite E1.
    + rewrite Er. exact Eref.
    + rewrite Ef. exact Eart.
  - eapply (rows_same_put a b d d' p r r'); [done|done|done| | | |by rewrite Es| |by rewrite Er|by rewrite Ef].
    + rewrite (revised_account _ _ Hr'). unfold awaiting_slot. by case_match.
    + unfold gr_projects. by rewrite Ea.
    + intros q Hq. rewrite Ed. cbn. destruct Ht as [->|(y & y' & _ & _ & ->)]; [done|]. by rewrite lookup_insert_ne.
    + intros j y Hy. unfold gr_deployments at 1. rewrite Ea. cbn. apply (insert_other dp_account b); [congruence| |done].
      intros y0 Hy0. unfold gr_deployments in Hn, Hy0. congruence.
  - eapply (rows_same_put a b d d' p r r'); [done|done|done| | | |by rewrite Es
      |intros; unfold gr_deployments; by rewrite Ea|by rewrite Er|by rewrite Ef].
    + rewrite (revised_account _ _ Hr'). by destruct Hr0 as [->| ->].
    + unfold gr_projects. by rewrite Ea.
    + intros q Hq. by rewrite Ed.
Qed.

(** ** Reads *)

Lemma load_configuration_missing d account project c :
  (forall cf, gr_configurations d !! c = Some cf -> ~ (cf_account cf = account /\ cf_project cf = project)) ->
  load_configuration d account project c = Err not_found.
Proof.
  intros Hn. unfold load_configuration. destruct (gr_configurations d !! c) as [cf|]; [|done]. cbn.
  specialize (Hn cf eq_refl). destruct (bool_decide_reflect (cf_account cf = account)); [|done].
  destruct (bool_decide_reflect (cf_project cf = project)); [|done]. naive_solver.
Qed.

Lemma load_configuration_same b d d' project c : graph_ok d -> rows_same b d d' ->
  load_configuration d' b project c = load_configuration d b project c.
Proof.
  intros Hok Hs. pose proof (rs_kept _ _ _ Hs) as Hk.
  destruct (load_configuration d b project c) as [g|e] eqn:E; [by eapply load_configuration_kept|].
  rewrite load_configuration_missing; [|intros cf Hcf [Ha Hp]].
  - symmetry. rewrite <- E. apply load_configuration_missing. intros cf Hcf [Ha Hp].
    destruct (co_rows d (go_configurations d Hok) c cf Hcf) as (_ & Hn & _).
    pose proof (load_configuration_total d c cf Hcf ltac:(lia)) as Hl. rewrite Ha, Hp in Hl. congruence.
  - pose proof (rs_configurations _ _ _ Hs c cf Ha Hcf) as Hcf'.
    destruct (co_rows d (go_configurations d Hok) c cf Hcf') as (_ & Hn & _).
    pose proof (load_configuration_total d c cf Hcf' ltac:(lia)) as Hl. rewrite Ha, Hp in Hl. congruence.
Qed.

Lemma load_project_graph_missing d account project :
  (forall r, gr_projects d !! project = Some r -> pj_account r <> account) ->
  load_project_graph d account project = Err not_found.
Proof.
  intros Hn. unfold load_project_graph. destruct (gr_projects d !! project) as [r|]; [|done]. cbn.
  destruct (gr_details d !! project) as [x|]; [|done]. cbn. specialize (Hn r eq_refl). by rewrite bool_decide_eq_false_2.
Qed.

Lemma load_project_graph_same b d d' project : graph_ok d -> rows_same b d d' ->
  load_project_graph d' b project = load_project_graph d b project.
Proof.
  intros Hok Hs. destruct (gr_projects d !! project) as [r|] eqn:Hr.
  - destruct (decide (pj_account r = b)) as [Hb|Hb].
    + unfold load_project_graph. rewrite (proj2 (rs_projects _ _ _ Hs project r Hb) Hr), Hr.
      rewrite (rs_details _ _ _ Hs project r Hb Hr). destruct (gr_details d !! project) as [x|]; [|done]. cbn.
      rewrite bool_decide_eq_true_2 by done. cbn. destruct (pj_config r); [|done]. cbn.
      by rewrite (load_configuration_same b d d').
    + rewrite !load_project_graph_missing; [done|congruence|]. intros r' Hr' <-.
      apply (rs_projects _ d d' Hs project r' eq_refl) in Hr'. congruence.
  - rewrite !load_project_graph_missing; [done|congruence|]. intros r' Hr' <-.
    apply (rs_projects _ d d' Hs project r' eq_refl) in Hr'. congruence.
Qed.

Lemma load_deployment_missing d account project id :
  (forall x, gr_deployments d !! id = Some x -> dp_account x <> account) ->
  load_deployment d account project id = Err not_found.
Proof.
  intros Hn. unfold load_deployment. destruct (gr_deployments d !! id) as [x|]; [|done]. cbn.
  by rewrite bool_decide_eq_false_2 by (by apply Hn).
Qed.

Lemma load_deployment_same b d d' project id : rows_same b d d' ->
  load_deployment d' b project id = load_deployment d b project id.
Proof.
  intros Hs. destruct (gr_deployments d !! id) as [x|] eqn:Hx.
  - destruct (decide (dp_account x = b)) as [Hb|Hb].
    + unfold load_deployment, artifact_reference. rewrite (proj2 (rs_deployments _ _ _ Hs id x Hb) Hx), Hx.
      by rewrite (rs_refs _ _ _ Hs), (rs_artifacts _ _ _ Hs).
    + rewrite !load_deployment_missing; [done|congruence|]. intros y Hy <-.
      apply (rs_deployments _ d d' Hs id y eq_refl) in Hy. congruence.
  - rewrite !load_deployment_missing; [done|congruence|]. intros y Hy <-.
    apply (rs_deployments _ d d' Hs id y eq_refl) in Hy. congruence.
Qed.

(** The summaries of an account's projects, each once and in order. *)
Lemma summary_key d account k r x : project_summary d account (k, r) = Some x -> k = ps_id x.
Proof.
  unfold project_summary, where_. cbn. destruct (gr_details d !! k); [|done]. cbn.
  case_bool_decide; [|done]. cbn. by intros [= <-].
Qed.
Lemma account_projects_elem d account x : x ∈ account_projects d account <->
  exists r, gr_projects d !! ps_id x = Some r /\ project_summary d account (ps_id x, r) = Some x.
Proof. unfold account_projects. rewrite merge_sort_Permutation. by apply listed_elem, summary_key. Qed.
Lemma account_projects_keys d account : NoDup (map ps_id (account_projects d account)).
Proof.
  assert (map ps_id (account_projects d account) ≡ₚ
    map ps_id (omap (project_summary d account) (map_to_list (gr_projects d)))) as ->
    by (apply fmap_Permutation, merge_sort_Permutation).
  apply listed_keys, summary_key.
Qed.
Lemma account_projects_sorted d account : StronglySorted by_id (account_projects d account).
Proof. apply StronglySorted_merge_sort; apply _. Qed.
Lemma account_projects_apart d account x y : x ∈ account_projects d account -> y ∈ account_projects d account ->
  ps_id x = ps_id y -> x = y.
Proof. rewrite !account_projects_elem. intros (r & Hr & Hx) (r' & Hr' & Hy) E. rewrite E in *. congruence. Qed.

Lemma account_projects_same b d d' : rows_same b d d' -> account_projects d' b = account_projects d b.
Proof.
  intros Hs. assert (forall x, x ∈ account_projects d' b <-> x ∈ account_projects d b) as Hin.
  { intros x. rewrite !account_projects_elem. unfold project_summary, where_. cbn. split; intros (r & Hr & Hf).
    - case_bool_decide as Hb; [|by destruct (gr_details d' !! _)].
      pose proof (proj1 (rs_projects _ _ _ Hs _ r Hb) Hr) as Hr2. exists r.
      rewrite (rs_details _ _ _ Hs _ r Hb Hr2) in Hf. by rewrite bool_decide_eq_true_2.
    - case_bool_decide as Hb; [|by destruct (gr_details d !! _)]. exists r.
      rewrite (rs_details _ _ _ Hs _ r Hb Hr), bool_decide_eq_true_2 by done. split; [|done].
      by apply (rs_projects _ _ _ Hs _ r Hb). }
  apply (StronglySorted_unique_strong by_id).
  - intros x y Hx Hy. rewrite Hin in Hx. unfold by_id. intros. apply (account_projects_apart d b); [done..|lia].
  - apply account_projects_sorted.
  - apply account_projects_sorted.
  - apply NoDup_Permutation; [..|done]; eapply NoDup_fmap_1, account_projects_keys.
Qed.
End Accounts.

(** ** Pages *)

Section Pages.
Context (caller : Authenticated) (env : Env).
Implicit Types (w : World GraphDb) (L : list ProjectSummary).

Lemma filter_all {A} (f : A -> bool) (l : list A) : (forall x, x ∈ l -> f x = true) -> filter (fun x => f x = true) l = l.
Proof.
  induction l as [|x l IH]; intros Hf; [done|]. rewrite filter_cons_True by (apply Hf; left).
  rewrite IH; [done|]. intros y Hy. apply Hf. by right.
Qed.
Lemma filter_none {A} (f : A -> bool) (l : list A) : (forall x, x ∈ l -> f x = false) -> filter (fun x => f x = true) l = [].
Proof.
  induction l as [|x l IH]; intros Hf; [done|]. rewrite filter_cons_False by (rewrite Hf; [done|left]).
  apply IH. intros y Hy. apply Hf. by right.
Qed.

(** Following the cursor of each page to the next. *)
Fixpoint all_pages (fuel : nat) (after : option Uuid) w : option (list ProjectSummary) :=
  match fuel with
  | O => None
  | S n =>
      match list_projects caller (Some after) env w with
      | (Ok page, _) =>
          match pl_next page with
          | None => Some (pl_projects page)
          | Some cursor => rest ← all_pages n (Some cursor) w; Some (pl_projects page ++ rest)
          end
      | (Err _, _) => None
      end
  end.

Lemma pages_split L A s B : StronglySorted by_id L -> NoDup (map ps_id L) -> L = A ++ s :: B ->
  filter (fun x => past_cursor (Some (ps_id s)) x = true) L = B.
Proof.
  intros Hs Hn ->. rewrite map_app in Hn. apply NoDup_app in Hn as (_ & Hd & Hn).
  cbn in Hn. apply NoDup_cons in Hn as [Hsb _].
  assert (Forall (by_id s) B) as HB by (apply StronglySorted_app_1_r in Hs; by apply StronglySorted_inv in Hs as [_ ?]).
  rewrite filter_app, (filter_none (past_cursor (Some (ps_id s)))), filter_cons_False, filter_all; [done|..].
  - intros x Hx. rewrite Forall_forall in HB. specialize (HB x Hx). unfold by_id in HB.
    apply N.ltb_lt. assert (ps_id x <> ps_id s); [|lia]. intros E. apply Hsb. rewrite <- E. by apply list_elem_of_fmap_2.
  - cbn. by rewrite N.ltb_irrefl.
  - intros x Hx. apply N.ltb_ge. apply (StronglySorted_app_1_elem_of by_id A (s :: B) x s Hs Hx). left.
Qed.

Lemma all_pages_suffix w after L1 L2 : forall fuel, (length L2 < fuel)%nat ->
  account_projects (db w) (account_id caller) = L1 ++ L2 ->
  filter (fun x => past_cursor after x = true) (L1 ++ L2) = L2 -> all_pages fuel after w = Some L2.
Proof.
  intros fuel. revert after L1 L2. induction fuel as [|fuel IH]; intros after L1 L2 Hlen Hl Hf; [lia|].
  pose proof (account_projects_sorted (db w) (account_id caller)) as Hsort.
  pose proof (account_projects_keys (db w) (account_id caller)) as Hkeys.
  cbn [all_pages]. unfold list_projects, tbind, lift, get_db, tret. cbn [ok_or db]. rewrite Hl, Hf.
  cbn [pl_next pl_projects]. rewrite take_take, length_take, (Nat.min_l 50 51) by lia.
  destruct (Nat.ltb_spec 50 (51 `min` length L2)) as [Hlt|Hge].
  - destruct (last (take 50 L2)) as [s|] eqn:Hlast.
    + cbn [option_fmap option_map fmap]. apply last_Some in Hlast as (Q & HQ).
      assert (L1 ++ L2 = (L1 ++ Q) ++ s :: drop 50 L2) as Hsplit
        by (rewrite <- (take_drop 50 L2) at 1; by rewrite HQ, <- !app_assoc).
      rewrite (IH (Some (ps_id s)) (L1 ++ take 50 L2) (drop 50 L2)).
      * cbn. by rewrite take_drop.
      * rewrite length_drop. lia.
      * by rewrite <- app_assoc, take_drop.
      * rewrite <- app_assoc, take_drop. rewrite Hl in Hsort, Hkeys. by eapply pages_split.
    + apply last_None in Hlast. assert (length (take 50 L2) = 0%nat) as H0 by (by rewrite Hlast). rewrite length_take in H0. lia.
  - f_equal. apply take_ge. lia.
Qed.

Lemma omap_length {A B} (f : A -> option B) l : (length (omap f l) <= length l)%nat.
Proof. induction l as [|x l IH]; [done|]. cbn. destruct (f x); cbn; lia. Qed.

Lemma account_projects_length w account : (length (account_projects (db w) account) <= size (gr_projects (db w)))%nat.
Proof.
  unfold account_projects. rewrite merge_sort_Permutation.
  etrans; [apply omap_length|]. by rewrite length_map_to_list.
Qed.

Lemma all_pages_runs w : all_pages (S (size (gr_projects (db w)))) None w
  = Some (account_projects (db w) (account_id caller)).
Proof.
  apply (all_pages_suffix w None [] (account_projects (db w) (account_id caller))); [pose proof (account_projects_length w (account_id caller)); lia|done|].
  by apply filter_all.
Qed.
End Pages.
