(* ===== verification/GraphPersist.v ===== *)
(** * The project graph: accepted configurations are persisted

    The constraints of the tables ask for nothing that the contract does not, except
    that texts hold no NUL. *)

From stdpp Require Import base list option gmap strings sorting relations.
From Stdlib Require Import ZArith Lia Ascii.
From S2P Require Import Prelude RustText Bytes PgTx Intent ExecutionTables Runtime ReleaseTables Admission.
From S2P Require Import ProjectContract ProjectSpec GraphTables Graph GraphSpec GraphSteps GraphInvariant GraphReads.

Local Open Scope string_scope.
Local Open Scope list_scope.

(** Identifiers that are yet to be drawn are not in use. *)
Definition unused {A} (env : Env) (n : nat) (t : gmap Uuid A) : Prop := forall i, (n <= i)%nat -> t !! fresh env i = None.
Definition fresh_supply (env : Env) (n : nat) : Prop :=
  forall i j, (n <= i)%nat -> (n <= j)%nat -> fresh env i = fresh env j -> i = j.

Lemma unused_later {A} env n m (t : gmap Uuid A) : (n <= m)%nat -> unused env n t -> unused env m t.
Proof. intros Hl Hu i Hi. apply Hu. lia. Qed.
Lemma unused_insert {A} env n (t : gmap Uuid A) x : fresh_supply env n -> unused env n t ->
  unused env (S n) (<[fresh env n := x]> t).
Proof.
  intros Hf Hu i Hi. rewrite lookup_insert_ne; [apply Hu; lia|]. intros E. apply Hf in E; lia.
Qed.

Section Services.
Context (env : Env) (account project c : Uuid).
Implicit Types (d : GraphDb) (w : World GraphDb).

(** What persisting a service relies on. *)
Record ready_for_services w : Prop := {
  rf_services : services_ok (db w);
  rf_owners : forall i x, gr_services (db w) !! i = Some x -> owned_project (db w) (sv_account x) (sv_project x) = true;
  rf_mine : owned_project (db w) account project = true;
  rf_configuration : owned_configuration (db w) account project c = true;
  rf_unused : unused env (drawn w) (gr_services (db w));
}.
Definition not_listed d (s : ServiceSpec) : Prop := forall id y, gr_service_configurations d !! (c, id) = Some y ->
  sf_name y <> name s /\ sf_kind y <> kind s.
Definition storable_service (s : ServiceSpec) : Prop :=
  text_ok 64 (name s) = true /\ kind_allowed (kind s) = true /\ storable (service_texts s) = true.

Lemma own_service_none d k : own_service d account project k = None -> owned_project d account project = true ->
  (forall i x, gr_services d !! i = Some x -> owned_project d (sv_account x) (sv_project x) = true) ->
  forall i x, gr_services d !! i = Some x -> ~ (sv_project x = project /\ sv_kind x = k).
Proof.
  intros Hn Hm Ho i x Hi [Hp Hk]. unfold own_service in Hn. apply fmap_None in Hn.
  pose proof (select_first_none _ _ _ Hn i x Hi) as Hf. cbn in Hf.
  pose proof (Ho i x Hi) as (r & Hr & Ha)%owned_project_spec. apply owned_project_spec in Hm as (r' & Hr' & Ha').
  rewrite !bool_decide_eq_true_2 in Hf; [done|done|done|]. congruence.
Qed.

Lemma own_service_total d k i x : gr_services d !! i = Some x -> sv_account x = account -> sv_project x = project ->
  sv_kind x = k -> is_Some (own_service d account project k).
Proof.
  intros Hi Ha Hp Hk. unfold own_service. destruct (select_first _ _ _) eqn:E; [by eexists|].
  pose proof (select_first_none _ _ _ E i x Hi) as Hf. cbn in Hf. by rewrite !bool_decide_eq_true_2 in Hf.
Qed.

(** The settings of a service that is there. *)
Lemma insert_settings_runs w s id x : services_ok (db w) -> owned_configuration (db w) account project c = true ->
  gr_services (db w) !! id = Some x -> sv_account x = account -> sv_project x = project -> sv_kind x = kind s ->
  not_listed (db w) s -> storable_service s ->
  exists w', insert_service_configuration (c, id) (service_row account project s) env w = (Ok tt, w') /\
    drawn w' = drawn w.
Proof.
  intros Hok Hc Hx Ha Hp Hk Hnl (Htext & Hkind & Hst).
  unfold insert_service_configuration, tbind, get_db.
  assert (insert_pk (service_configuration_check (db w) (c, id)) (c, id) (service_row account project s)
    (gr_service_configurations (db w)) = Some (<[(c, id) := service_row account project s]> (gr_service_configurations (db w)))) as ->.
  { apply insert_pk_Some. split_and!; [| |done].
    - destruct (gr_service_configurations (db w) !! (c, id)) as [y|] eqn:Hy; [|done]. exfalso.
      destruct (so_settings _ Hok _ _ _ Hy) as (_ & x' & Hx' & _ & Hk'). destruct (Hnl id y Hy) as [_ Hne]. congruence.
    - unfold service_configuration_check. cbn -[storable text_ok kind_allowed owned_configuration service_texts].
      rewrite Htext, Hkind, Hst, Hc, Hx. cbn.
      rewrite !bool_decide_eq_true_2 by done. cbn. apply forallb_forall. intros [[c' i] y] Hin%list_elem_of_In. cbn.
      apply elem_of_map_to_list in Hin. destruct (decide (c' = c)) as [->|Hne].
      + destruct (Hnl i y Hin) as [H1 H2]. by rewrite (bool_decide_eq_false_2 _ H1), (bool_decide_eq_false_2 _ H2), andb_false_r.
      + by rewrite bool_decide_eq_false_2. }
  eexists. split; [reflexivity|done].
Qed.

(** The project has a service of this kind. *)
Lemma persist_known_service w s id : ready_for_services w -> not_listed (db w) s -> storable_service s ->
  own_service (db w) account project (kind s) = Some id ->
  exists w', persist_service account project c s env w = (Ok tt, w') /\ (drawn w <= drawn w')%nat /\
    unused env (drawn w') (gr_services (db w')).
Proof.
  intros [Hok Ho Hm Hc Hu] Hnl Hst Eown. pose proof Hst as (_ & Hk & _).
  unfold persist_service. rewrite (tbind_run _ _ env w (Ok (kind s)) w) by (unfold lift; by destruct (kind s)).
  rewrite (tbind_run _ _ env w (Ok (db w)) w) by done. rewrite Eown.
  destruct (own_service_Some _ _ _ _ _ Eown) as (i & x & Hi & Hid & Ha & Hp & Hkx).
  pose proof (so_key _ Hok _ _ Hi). assert (i = id) as -> by congruence.
  destruct (insert_settings_runs w s id x) as (w' & Hw' & Hd); [done..|]. exists w'.
  assert (insert_service {| sv_id := id; sv_account := account; sv_project := project; sv_kind := kind s |} env w
          = (Ok tt, w)) as Hins.
  { unfold insert_service, tbind, get_db. cbn. assert (exists_row (fun o => bool_decide (sv_project o = project)
      && bool_decide (sv_kind o = kind s)) (gr_services (db w)) = true) as ->; [|done].
    apply exists_row_spec. exists id, x. by rewrite Hp, Hkx, !bool_decide_eq_true_2. }
  rewrite (tbind_run _ _ env w (Ok id) w) by done. rewrite (tbind_run _ _ _ _ _ _ Hins).
  rewrite (tbind_run _ _ env w (Ok (db w)) w) by done. rewrite Eown.
  rewrite (tbind_run _ _ env w (Ok id) w) by done. split; [exact Hw'|]. rewrite Hd. split; [done|].
  apply insert_service_configuration_Ok in Hw' as (_ & _ & ->). exact Hu.
Qed.

(** The first service of this kind. *)
Lemma persist_new_service w s : ready_for_services w -> not_listed (db w) s -> storable_service s ->
  fresh_supply env (drawn w) -> own_service (db w) account project (kind s) = None ->
  exists w', persist_service account project c s env w = (Ok tt, w') /\ (drawn w <= drawn w')%nat /\
    unused env (drawn w') (gr_services (db w')).
Proof.
  intros [Hok Ho Hm Hc Hu] Hnl Hst Hf Eown. pose proof Hst as (_ & Hk & _).
  unfold persist_service. rewrite (tbind_run _ _ env w (Ok (kind s)) w) by (unfold lift; by destruct (kind s)).
  rewrite (tbind_run _ _ env w (Ok (db w)) w) by done. rewrite Eown.
  pose proof (own_service_none _ _ Eown Hm Ho) as Hnone. set (id := fresh env (drawn w)).
  set (row := {| sv_id := id; sv_account := account; sv_project := project; sv_kind := kind s |}).
  set (w1 := MkWorld (db w) (ticks w) (S (drawn w))).
  set (w2 := MkWorld (set_gr_services (<[id := row]> (gr_services (db w))) (db w)) (ticks w) (S (drawn w))).
  rewrite (tbind_run _ _ env w (Ok id) w1) by done.
  assert (insert_service row env w1 = (Ok tt, w2)) as Hins.
  { unfold insert_service, tbind, get_db. cbn. assert (exists_row (fun o => bool_decide (sv_project o = project)
      && bool_decide (sv_kind o = kind s)) (gr_services (db w)) = false) as ->.
    { apply not_true_iff_false. rewrite exists_row_spec. intros (i & x & Hi & Hx). bool_simpl. by eapply Hnone. }
    assert (insert_pk (service_check (db w)) id row (gr_services (db w)) = Some (<[id := row]> (gr_services (db w)))) as ->
      by (apply insert_pk_Some; split_and!; [by apply Hu|unfold service_check; cbn [sv_kind sv_account sv_project row]; by rewrite Hk, Hm|done]).
    done. }
  rewrite (tbind_run _ _ _ _ _ _ Hins). rewrite (tbind_run _ _ env w2 (Ok (db w2)) w2) by done.
  assert (own_service (db w2) account project (kind s) = Some id) as Eown2.
  { destruct (own_service_total (db w2) (kind s) id row) as [id' E]; [apply lookup_insert_eq|done..|].
    rewrite E. apply own_service_Some in E as (i & x & Hi & <- & _ & Hp & Hkx). cbn in Hi. rewrite lookup_insert in Hi.
    case_decide; [by injection Hi as <-|]. by destruct (Hnone i x). }
  rewrite Eown2. rewrite (tbind_run _ _ env w2 (Ok id) w2) by done.
  assert (services_ok (db w2)) as Hok2.
  { split; cbn.
    - intros i x. rewrite lookup_insert. case_decide; [by intros [= <-]|apply Hok].
    - intros i x j y. rewrite !lookup_insert. repeat case_decide; subst; intros; simplify_eq; [done|..].
      + by destruct (Hnone j y).
      + by destruct (Hnone i x).
      + by eapply (so_kind _ Hok).
    - intros c0 s0 y Hy. destruct (so_settings _ Hok _ _ _ Hy) as (? & x & Hx & ?). split; [done|]. exists x.
      rewrite lookup_insert_ne; [done|]. intros <-. pose proof (Hu (drawn w) (le_n _)). unfold id in *. congruence. }
  destruct (insert_settings_runs w2 s id row) as (w' & Hw' & Hd); [done|done|apply lookup_insert_eq|done..|].
  exists w'. split; [exact Hw'|]. rewrite Hd. cbn. split; [lia|].
  apply insert_service_configuration_Ok in Hw' as (_ & _ & ->). by apply unused_insert.
Qed.

Lemma persist_service_runs w s : ready_for_services w -> not_listed (db w) s -> storable_service s ->
  fresh_supply env (drawn w) ->
  exists w', persist_service account project c s env w = (Ok tt, w') /\ (drawn w <= drawn w')%nat /\
    unused env (drawn w') (gr_services (db w')).
Proof.
  intros Hw Hnl Hst Hf. destruct (own_service (db w) account project (kind s)) as [id|] eqn:Eown.
  - by eapply persist_known_service.
  - by apply persist_new_service.
Qed.

Lemma service_added_lists d d' s s' id : service_added account project c s id d d' -> not_listed d s' ->
  name s <> name s' -> kind s <> kind s' -> not_listed d' s'.
Proof.
  intros [d0 t _ _ _ _ _] Hnl Hn Hk i y. cbn. rewrite lookup_insert. case_decide; [|apply Hnl].
  by intros [= <-].
Qed.

Lemma service_added_ready w w' s id : service_added account project c s id (db w) (db w') -> ready_for_services w ->
  unused env (drawn w') (gr_services (db w')) -> ready_for_services w'.
Proof.
  intros Hs [Hok Ho Hm Hc Hu] Hu'.
  assert (services_added account project c [s] [id] (db w) (db w')) as Hl by (econstructor; [exact Hs|constructor]).
  destruct (services_added_aside _ _ _ _ _ _ _ Hl) as (Ea & Ec & _ & _).
  assert (gr_adm (db w') = gr_adm (db w)) as Eadm by (unfold aside in Ea; by injection Ea).
  assert (forall a p, owned_project (db w') a p = owned_project (db w) a p) as Hown
    by (intros; unfold owned_project, gr_projects; by rewrite Eadm).
  split; [..|done].
  - eapply service_added_ok; [exact Hs| |done]. unfold owned_configuration in Hc.
    destruct (gr_configurations (db w) !! c); [by eexists|done].
  - intros i x Hi. rewrite Hown. destruct (services_added_owners _ _ _ _ _ _ _ Hl i x Hi) as [?|[-> ->]]; [by eapply Ho|done].
  - by rewrite Hown.
  - unfold owned_configuration. by rewrite Ec.
Qed.

Lemma persist_services_runs l : forall w, ready_for_services w -> fresh_supply env (drawn w) ->
  NoDup (map name l) -> NoDup (map kind l) ->
  (forall s, s ∈ l -> not_listed (db w) s /\ storable_service s) ->
  exists w', persist_services account project c l env w = (Ok tt, w').
Proof.
  induction l as [|s l IH]; intros w Hw Hf Hn Hk Hl; cbn [persist_services]; [by eexists|].
  apply NoDup_cons in Hn as [Hn1 Hn], Hk as [Hk1 Hk].
  destruct (Hl s) as [Hnl Hst]; [left|].
  destruct (persist_service_runs w s) as (w1 & Hw1 & Hd & Hu); [done..|]. rewrite (tbind_run _ _ _ _ _ _ Hw1).
  apply persist_service_Ok in Hw1 as (id & Hs). apply IH; [|intros i j ? ?; apply Hf; lia|done|done|].
  - by eapply service_added_ready.
  - intros s' Hin. destruct (Hl s') as [Hnl' Hst']; [by right|]. split; [|done].
    eapply service_added_lists; [exact Hs|exact Hnl'|intros E; apply Hn1; rewrite E|intros E; apply Hk1; rewrite E];
      by apply list_elem_of_fmap_2.
Qed.
End Services.

(** ** The contract suffices *)

Lemma storable_app l l' : storable (l ++ l') = storable l && storable l'.
Proof. apply forallb_app. Qed.

Lemma storable_in l x : storable l = true -> x ∈ l -> contains_char 0 x = false.
Proof. unfold storable. rewrite forallb_forall. intros Hl Hx%list_elem_of_In. apply Hl in Hx. by apply negb_true_iff. Qed.

Lemma storable_flat {A} (f : A -> list rstr) l x : storable (flat_map f l) = true -> x ∈ l -> storable (f x) = true.
Proof.
  intros Hl Hx. apply forallb_forall. intros t Ht. unfold storable in Hl. rewrite forallb_forall in Hl. apply Hl.
  apply in_flat_map. exists x. split; [by apply list_elem_of_In|done].
Qed.

Lemma utf8_len_pos c : (1 <= utf8_len c)%Z.
Proof. unfold utf8_len. repeat case_match; lia. Qed.
Lemma byte_len_nonneg l : (0 <= byte_len l)%Z.
Proof. induction l as [|c l IH]; [done|]. change (0 <= utf8_len c + byte_len l)%Z. pose proof (utf8_len_pos c). lia. Qed.
Lemma byte_len_pos c l : (1 <= byte_len (c :: l))%Z.
Proof. change (1 <= utf8_len c + byte_len l)%Z. pose proof (utf8_len_pos c). pose proof (byte_len_nonneg l). lia. Qed.

Lemma spec_services_storable spec : standard_project spec -> storable (spec_texts spec) = true ->
  forall s, s ∈ services spec -> storable_service s.
Proof.
  intros Hstd Hst s Hs. unfold spec_texts in Hst. cbn [app] in Hst. change (storable ([contract_version spec] ++
    flat_map repository_texts (repositories spec) ++ flat_map service_texts (services spec)) = true) in Hst.
  rewrite !storable_app in Hst. bool_simpl.
  match goal with H : storable (flat_map service_texts _) = true |- _ => pose proof (storable_flat _ _ _ H Hs) as Hst end.
  pose proof (proj1 (Forall_forall _ _) (services_fields _ (std_services _ Hstd)) s Hs) as Hf.
  split_and!; [|by apply (standard_kinds spec)|done].
  unfold text_ok. rewrite (storable_in _ (name s) Hst) by left. rewrite !andb_true_iff, !Z.leb_le. split_and!; [| |done].
  - destruct (name s) as [|c l] eqn:E; [by destruct (name_nonblank _ Hf); rewrite E|apply byte_len_pos].
  - apply Hf.
Qed.

Lemma spec_repository_storable spec first : storable (spec_texts spec) = true -> head (repositories spec) = Some first ->
  storable (repository_texts first) = true.
Proof.
  intros Hst Hf. change (storable ([contract_version spec] ++
    flat_map repository_texts (repositories spec) ++ flat_map service_texts (services spec)) = true) in Hst.
  rewrite !storable_app in Hst. bool_simpl.
  match goal with H : storable (flat_map repository_texts _) = true |- _ => eapply (storable_flat _ _ _ H) end.
  destruct (repositories spec); [done|]. injection Hf as ->. left.
Qed.

Section Configurations.
Context (env : Env) (account project : Uuid).
Implicit Types (d : GraphDb) (w : World GraphDb).

(** What persisting a configuration relies on. *)
Record ready_to_persist w (n : Z) : Prop := {
  rp_ok : configurations_ok (db w);
  rp_mine : owned_project (db w) account project = true;
  rp_number : n = (max_number (db w) account project + 1)%Z;
  rp_supply : fresh_supply env (drawn w);
  rp_configurations : unused env (drawn w) (gr_configurations (db w));
  rp_repositories : unused env (drawn w) (gr_repositories (db w));
  rp_services : unused env (drawn w) (gr_services (db w));
}.

Lemma new_number d n c cf : configurations_ok d -> owned_project d account project = true ->
  n = (max_number d account project + 1)%Z -> gr_configurations d !! c = Some cf -> cf_project cf = project -> cf_number cf <> n.
Proof.
  intros Hok Hm -> Hc Hp. destruct (co_rows d Hok c cf Hc) as (Ho & _). pose proof (max_number_bound d c cf Hc) as Hb.
  apply owned_project_spec in Ho as (r & Hr & Ha). apply owned_project_spec in Hm as (r' & Hr' & Ha').
  rewrite Hp in *. assert (cf_account cf = account) as Ea by congruence. rewrite Ea in Hb. lia.
Qed.

Lemma configuration_accepted w n spec : ready_to_persist w n ->
  configuration_check (db w) {| cf_account := account; cf_project := project; cf_number := n; cf_spec := spec |}
  = storable (spec_texts spec).
Proof.
  intros [Hok Hm Hn _ _ _ _]. pose proof (max_number_nonneg (db w) account project) as H0.
  unfold configuration_check. cbn [cf_account cf_project cf_number cf_spec]. rewrite Hm.
  destruct (Z.ltb_spec 0 n); [|lia]. cbn [andb]. rewrite andb_true_r.
  assert (exists_row (fun o => bool_decide (cf_project o = project) && (cf_number o =? n)%Z) (gr_configurations (db w)) = false) as ->
    by (apply not_true_iff_false; rewrite exists_row_spec; intros (c & cf & Hc & [Hp%bool_decide_eq_true Hz%Z.eqb_eq]%andb_true_iff);
        by eapply (new_number (db w) n c cf)).
  apply andb_true_r.
Qed.

Definition repositories_owned d : Prop :=
  forall i x, gr_repositories d !! i = Some x -> rp_id x = i /\ owned_project d (rp_account x) (rp_project x) = true.

Lemma own_repository_none d : own_repository d account project = None -> owned_project d account project = true ->
  repositories_owned d -> forall i x, gr_repositories d !! i = Some x -> rp_project x <> project.
Proof.
  intros Hn Hm Hok i x Hi Hp. apply fmap_None in Hn. pose proof (select_first_none _ _ _ Hn i x Hi) as Hf. cbn in Hf.
  destruct (Hok i x Hi) as (_ & Ho). apply owned_project_spec in Ho as (r & Hr & Ha).
  apply owned_project_spec in Hm as (r' & Hr' & Ha'). rewrite !bool_decide_eq_true_2 in Hf; [done|done|]. congruence.
Qed.

Lemma own_repository_total d i x : gr_repositories d !! i = Some x -> rp_account x = account -> rp_project x = project ->
  is_Some (own_repository d account project).
Proof.
  intros Hi Ha Hp. unfold own_repository. destruct (select_first _ _ _) eqn:E; [by eexists|].
  pose proof (select_first_none _ _ _ E i x Hi) as Hf. cbn in Hf. by rewrite !bool_decide_eq_true_2 in Hf.
Qed.

(** The project's repository, found or made. *)
Lemma repository_runs w : repositories_owned (db w) -> owned_project (db w) account project = true ->
  unused env (drawn w) (gr_repositories (db w)) ->
  exists id w1 w2 r t, or_new (own_repository (db w) account project) env w = (Ok id, w1) /\
    insert_repository {| rp_id := id; rp_account := account; rp_project := project |} env w1 = (Ok tt, w2) /\
    own_repository (db w2) account project = Some r /\
    (exists x, t !! r = Some x /\ rp_account x = account /\ rp_project x = project) /\
    db w2 = set_gr_repositories t (db w) /\ (drawn w <= drawn w2)%nat.
Proof.
  intros Hok Hm Hu. destruct (own_repository (db w) account project) as [r|] eqn:E.
  - pose proof (own_repository_Some _ _ _ _ E) as (i & x & Hi & Hid & Ha & Hp). destruct (Hok i x Hi) as (Hkey & _).
    assert (i = r) as -> by congruence. exists r, w, w, r, (gr_repositories (db w)). split; [done|].
    split; [|split; [done|split; [by exists x|split; [by destruct w as [[] ? ?]|done]]]].
    unfold insert_repository, tbind, get_db. cbn.
    assert (exists_row (fun o => bool_decide (rp_project o = project)) (gr_repositories (db w)) = true) as ->; [|done].
    apply exists_row_spec. exists r, x. split; [done|by apply bool_decide_eq_true_2].
  - pose proof (own_repository_none _ E Hm Hok) as Hnone. set (id := fresh env (drawn w)).
    set (row := {| rp_id := id; rp_account := account; rp_project := project |}).
    set (t := <[id := row]> (gr_repositories (db w))).
    exists id, (MkWorld (db w) (ticks w) (S (drawn w))), (MkWorld (set_gr_repositories t (db w)) (ticks w) (S (drawn w))), id, t.
    split; [done|]. split; [|split; [|split; [|split; [done|cbn; lia]]]].
    + unfold insert_repository, tbind, get_db. cbn [db rp_project rp_id].
      assert (exists_row (fun o => bool_decide (rp_project o = project)) (gr_repositories (db w)) = false) as ->.
      { apply not_true_iff_false. rewrite exists_row_spec. intros (i & x & Hi & Hx%bool_decide_eq_true). by destruct (Hnone i x). }
      fold row. assert (insert_pk (repository_check (db w)) id row (gr_repositories (db w)) = Some t) as ->; [|done].
      apply insert_pk_Some. split_and!; [by apply Hu|exact Hm|done].
    + destruct (own_repository_total (set_gr_repositories t (db w)) id row) as [r E2]; [apply lookup_insert_eq|done..|].
      cbn [db]. rewrite E2. apply own_repository_Some in E2 as (i & x & Hi & <- & _ & Hp). cbn in Hi. unfold t in Hi.
      rewrite lookup_insert in Hi. case_decide; [by injection Hi as <-|]. by destruct (Hnone i x).
    + exists row. split; [apply lookup_insert_eq|done].
Qed.

Lemma insert_repository_configuration_runs w c r x first cf :
  (forall r' y, gr_repository_configurations (db w) !! (c, r') = Some y -> False) ->
  storable (repository_texts first) = true -> gr_configurations (db w) !! c = Some cf -> cf_account cf = account ->
  cf_project cf = project -> gr_repositories (db w) !! r = Some x -> rp_account x = account -> rp_project x = project ->
  insert_repository_configuration (c, r) {| rf_account := account; rf_project := project; rf_spec := first |} env w =
    (Ok tt, MkWorld (set_gr_repository_configurations
       (<[(c, r) := {| rf_account := account; rf_project := project; rf_spec := first |}]>
          (gr_repository_configurations (db w))) (db w)) (ticks w) (drawn w)).
Proof.
  intros Hc Hst Hcf Ha Hp Hx Hxa Hxp. unfold insert_repository_configuration, tbind, get_db.
  set (row := {| rf_account := account; rf_project := project; rf_spec := first |}).
  assert (insert_pk (repository_configuration_check (db w) (c, r)) (c, r) row (gr_repository_configurations (db w))
    = Some (<[(c, r) := row]> (gr_repository_configurations (db w)))) as ->; [|done].
  apply insert_pk_Some. split_and!; [|  |done].
  { destruct (gr_repository_configurations (db w) !! (c, r)) as [y|] eqn:Hy; [by destruct (Hc r y)|done]. }
  unfold repository_configuration_check, owned_configuration. cbn -[storable]. rewrite Hst, Hcf, Hx. cbn.
  rewrite !bool_decide_eq_true_2 by done. cbn. apply negb_true_iff, bool_decide_eq_false.
  intros ([[c' r'] y] & Hy & Hin)%list_elem_of_fmap. cbn in Hy. subst c'. apply elem_of_map_to_list in Hin. by eapply Hc.
Qed.

(** The database refuses a text with a NUL. *)
Lemma configuration_refused w n spec : ready_to_persist w n -> storable (spec_texts spec) = false ->
  persist_configuration account project n spec env w = (Err database_unavailable, MkWorld (db w) (ticks w) (S (drawn w))).
Proof.
  intros Hw Hst. pose proof (configuration_accepted w n spec Hw) as Hc. rewrite Hst in Hc. unfold persist_configuration.
  rewrite (tbind_run _ _ env w (Ok (fresh env (drawn w))) (MkWorld (db w) (ticks w) (S (drawn w)))) by done.
  unfold insert_configuration at 1, tbind at 1 2 3, get_db at 1, sql, insert_pk. cbn [db].
  by rewrite (rp_configurations w n Hw), Hc.
Qed.

(** Once the configuration has its row, its services follow. *)
Lemma standard_services_run w w5 n spec c row : ready_to_persist w n -> standard_project spec ->
  storable (spec_texts spec) = true -> gr_configurations (db w) !! c = None ->
  cf_account row = account -> cf_project row = project ->
  gr_adm (db w5) = gr_adm (db w) -> gr_configurations (db w5) = <[c := row]> (gr_configurations (db w)) ->
  gr_services (db w5) = gr_services (db w) ->
  gr_service_configurations (db w5) = gr_service_configurations (db w) -> (drawn w <= drawn w5)%nat ->
  exists w6, persist_services account project c (services spec) env w5 = (Ok tt, w6).
Proof.
  intros [Hok Hm Hn Hsup Huc Hur Hus] Hstd Hst Hcn Ha Hp Eadm Ec Es Esc Hd.
  assert (forall a p, owned_project (db w5) a p = owned_project (db w) a p) as Hown
    by (intros; unfold owned_project, gr_projects; by rewrite Eadm).
  destruct (standard_kinds _ Hstd) as [Hkinds _].
  apply (persist_services_runs env); [|intros i j ? ?; apply Hsup; lia|apply (std_services _ Hstd)|done|].
  - split; [split| | | |]; rewrite ?Es, ?Esc, ?Hown; try apply (co_services _ Hok).
    + intros c' s y Hy. destruct (so_settings _ (co_services _ Hok) c' s y Hy) as ([cf Hcf] & ?).
      split; [|done]. rewrite Ec, lookup_insert_ne by congruence. by exists cf.
    + intros i x Hi. rewrite Hown. by eapply (co_owners _ Hok).
    + done.
    + unfold owned_configuration. rewrite Ec, lookup_insert_eq. cbn. by rewrite Ha, Hp, !bool_decide_eq_true_2.
    + by eapply unused_later.
  - intros s Hs. split; [|by eapply spec_services_storable]. intros id y. rewrite Esc. intros Hy.
    destruct (so_settings _ (co_services _ Hok) c id y Hy) as ([cf Hcf] & _). congruence.
Qed.

Lemma persist_configuration_runs w n spec : ready_to_persist w n -> standard_project spec ->
  storable (spec_texts spec) = true ->
  exists c w', persist_configuration account project n spec env w = (Ok c, w').
Proof.
  intros Hw Hstd Hst. pose proof (configuration_accepted w n spec Hw) as Hck. rewrite Hst in Hck.
  pose proof Hw as [Hok Hm Hn Hsup Huc Hur Hus]. unfold persist_configuration.
  set (c := fresh env (drawn w)).
  set (row := {| cf_account := account; cf_project := project; cf_number := n; cf_spec := spec |}) in *.
  set (w1 := MkWorld (db w) (ticks w) (S (drawn w))).
  set (w2 := MkWorld (set_gr_configurations (<[c := row]> (gr_configurations (db w))) (db w)) (ticks w) (S (drawn w))).
  rewrite (tbind_run _ _ env w (Ok c) w1) by done.
  assert (gr_configurations (db w) !! c = None) as Hcn by (by apply Huc).
  assert (insert_configuration c row env w1 = (Ok tt, w2)) as Hins.
  { unfold insert_configuration, tbind, get_db. cbn [db w1].
    assert (insert_pk (configuration_check (db w)) c row (gr_configurations (db w)) = Some (<[c := row]> (gr_configurations (db w)))) as ->
      by (by apply insert_pk_Some). done. }
  rewrite (tbind_run _ _ _ _ _ _ Hins), (tbind_run _ _ env w2 (Ok (db w2)) w2) by done.
  destruct (repository_runs w2) as (id & w3 & w4 & r & t & Hid & Hrep & Hown & (x & Hx & Hxa & Hxp) & Hdb & Hd);
    [exact (proj1 (co_owners _ Hok))|exact Hm|by eapply unused_later; [|exact Hur]; cbn; lia|].
  rewrite (tbind_run _ _ _ _ _ _ Hid), (tbind_run _ _ _ _ _ _ Hrep), (tbind_run _ _ env w4 (Ok (db w4)) w4) by done.
  rewrite Hown, (tbind_run _ _ env w4 (Ok r) w4) by done.
  destruct (std_repository _ Hstd) as (first & Hfirst & _).
  rewrite (tbind_run _ _ env w4 (Ok first) w4) by (unfold lift; by rewrite Hfirst).
  assert (forall r' y, gr_repository_configurations (db w4) !! (c, r') = Some y -> False) as Hnone.
  { intros r' y Hy. rewrite Hdb in Hy. destruct (co_repositories _ Hok c r' y Hy) as [? ?]. congruence. }
  assert (storable (repository_texts first) = true) as Hstf by (eapply spec_repository_storable; [exact Hst|by rewrite Hfirst]).
  assert (gr_configurations (db w4) !! c = Some row) as Hrow by (rewrite Hdb; apply lookup_insert_eq).
  assert (gr_repositories (db w4) !! r = Some x) as Hx4 by (by rewrite Hdb).
  pose proof (insert_repository_configuration_runs w4 c r x first row Hnone Hstf Hrow eq_refl eq_refl Hx4 Hxa Hxp) as Hrc.
  rewrite (tbind_run _ _ _ _ _ _ Hrc).
  match goal with |- context [tbind _ _ env ?w0] => set (w5 := w0) end.
  destruct (standard_services_run w w5 n spec c row) as [w6 Hw6]; try done; unfold w5; cbn [db drawn];
    [by rewrite Hdb..|cbn in Hd; lia|].
  rewrite (tbind_run _ _ _ _ _ _ Hw6). by eexists _, _.
Qed.
End Configurations.

(** ** Accepting a configuration *)

Section Accepting.
Context (G : GraphExternals) (env : Env) (caller : Authenticated).
Notation a := (account_id caller).
Implicit Types (d : GraphDb) (w : World GraphDb).

Lemma audit_runs event target id outcome w : exists l,
  audit (D := GraphDb) (B := GraphResponse) a (session_id caller) event target id outcome env w =
    (Ok tt, MkWorld (set_gr_audits l (db w)) (ticks w) (drawn w)).
Proof. by eexists. Qed.

(** The transaction of a request that is served for the first time. *)
Lemma mutation_served {A} event from_value into status operation key hash subject
    (serve : M GraphDb (res ApiError (A * string * option Uuid))) w g target id w1 :
  gr_idem (db w) !! (a, operation, key) = None ->
  serve env w = (Ok (Ok (g, target, id)), w1) -> gr_idem (db w1) = gr_idem (db w) ->
  exists w', mutation caller event from_value into status operation key hash subject serve env w = (Ok g, w') /\
    settled (db w1) (db w').
Proof.
  intros Hn Hs Hi. unfold mutation, transaction.
  rewrite (tbind_run _ _ env w (Ok Miss) w) by (unfold replay, tbind, get_db; cbn; by rewrite Hn).
  rewrite (tbind_run _ _ _ _ _ _ Hs).
  destruct (audit_runs event target id "succeeded" w1) as (l & Ha). rewrite (tbind_run _ _ _ _ _ _ Ha).
  unfold store_replay, tbind, get_db. cbn.
  assert (insert_pk (fun _ => true) (a, operation, key) (MkIdemRow hash status (into g)) (gr_idem (db w1))
          = Some (<[(a, operation, key) := MkIdemRow hash status (into g)]> (gr_idem (db w1)))) as ->
    by (apply insert_pk_Some; by rewrite Hi).
  cbn. eexists. split; [reflexivity|]. cbn [db].
  eapply settled_trans; [apply settled_audits|apply settled_idem].
Qed.

Lemma mutation_failed {A} event from_value into status operation key hash subject
    (serve : M GraphDb (res ApiError (A * string * option Uuid))) w e w1 :
  gr_idem (db w) !! (a, operation, key) = None -> serve env w = (Err e, w1) ->
  exists w', mutation caller event from_value into status operation key hash subject serve env w = (Err e, w') /\ db w' = db w.
Proof.
  intros Hn Hs. unfold mutation, transaction.
  rewrite (tbind_run _ _ env w (Ok Miss) w) by (unfold replay, tbind, get_db; cbn; by rewrite Hn).
  rewrite (tbind_run _ _ _ _ _ _ Hs). by eexists.
Qed.

Lemma at_revision_current {A} event project p expected (k : Project -> M GraphDb (res ApiError A)) w :
  gr_projects (db w) !! project = Some p -> pj_account p = a -> pj_revision p = expected ->
  at_revision caller event project expected k env w = k p env w.
Proof.
  intros Hp Ha Hr. unfold at_revision, tbind, get_db, lift, project_of. rewrite Hp. cbn.
  rewrite bool_decide_eq_true_2 by done. cbn. by rewrite Hr, Z.eqb_refl.
Qed.

Lemma update_graph_project_runs project p f p' w : gr_projects (db w) !! project = Some p -> pj_account p = a ->
  f p = Some p' -> project_check p' = true ->
  update_graph_project a project f env w = (Ok tt, MkWorld (put_project project p' (db w)) (ticks w) (drawn w)).
Proof.
  intros Hp Ha Hf Hc. unfold update_graph_project, tbind, get_db, update_pk. rewrite Hp.
  by rewrite bool_decide_eq_true_2, Hf, Hc.
Qed.

Lemma bigint_succ_below v : (v < max_i64)%Z -> bigint_succ v = Some (v + 1)%Z.
Proof. intros Hv. unfold bigint_succ. by destruct (Z.ltb_spec v max_i64); [|lia]. Qed.

Lemma validate_spec_nil spec : validate spec = [] -> validate_spec spec = Ok tt.
Proof. intros Hv. unfold validate_spec. by rewrite Hv. Qed.

Lemma current_configuration d account p g : load_project_graph d account p = Ok g -> exists r c row,
  gr_projects d !! p = Some r /\ pj_config r = Some c /\ gr_configurations d !! c = Some row /\
  cr_spec (cg_configuration (pg_graph g)) = cf_spec row /\ cr_revision (cg_configuration (pg_graph g)) = cf_number row.
Proof.
  intros (r & x & c & Hr & _ & _ & Hc & Hl & _)%load_project_graph_Ok.
  apply load_configuration_Ok in Hl as (row & Hrow & _ & _ & _ & ->). eauto 10.
Qed.

Lemma new_configuration_runs w p r spec : graph_ok (db w) -> gr_projects (db w) !! p = Some r -> pj_account r = a ->
  ready_to_persist env a p w (max_number (db w) a p + 1) -> validate spec = [] -> storable (spec_texts spec) = true ->
  (pj_revision r < max_i64)%Z ->
  exists c w1 r' g, persist_configuration a p (max_number (db w) a p + 1) spec env w = (Ok c, w1) /\
    update_graph_project a p (fun x => revised (with_config c x)) env w1 =
      (Ok tt, MkWorld (put_project p r' (db w1)) (ticks w1) (drawn w1)) /\
    load_project_graph (put_project p r' (db w1)) a p = Ok g /\
    cr_spec (cg_configuration (pg_graph g)) = spec /\
    cr_revision (cg_configuration (pg_graph g)) = (max_number (db w) a p + 1)%Z /\
    gr_idem (db w1) = gr_idem (db w).
Proof.
  intros Hok Hr Ha Hw Hv Hst Hrev. pose proof (proj1 (validate_nil _) Hv) as Hstd.
  destruct (persist_configuration_runs env a p w _ spec Hw Hstd Hst) as (c & w1 & Hp).
  pose proof (persist_configuration_Ok _ _ _ _ _ _ _ _ Hp) as Hper.
  assert (gr_projects (db w1) !! p = Some r) as Hr1 by (unfold gr_projects; by rewrite (persisted_adm _ _ _ _ _ _ _ Hper)).
  set (r' := {| pj_account := pj_account r; pj_slots := pj_slots r; pj_slot_state := pj_slot_state r;
                pj_config := Some c; pj_revision := (pj_revision r + 1)%Z |}).
  assert (revised (with_config c r) = Some r') as Hr' by (unfold revised; cbn; by rewrite bigint_succ_below).
  assert (project_check r' = true) as Hck.
  { destruct (go_projects _ Hok p r Hr) as (Hck & _). unfold project_check in *. cbn. apply andb_true_iff in Hck as [H1%Z.ltb_lt ->].
    rewrite andb_true_r. apply Z.ltb_lt. lia. }
  assert (graph_ok (put_project p r' (db w1))) as Hok'.
  { eapply (persisted_graph_ok (db w) (db w)) with (r' := r'); [exact Hok|done|by intros q x Hx; exists x|done|done| |exact Hper|exact Hv
      |done|exact Hr1|exact Ha|exact Ha|done|exact Hck|apply settled_refl]. by destruct (go_projects _ Hok p r Hr) as (_ & ? & _). }
  destruct (project_readable (put_project p r' (db w1)) p r') as (g & Hg & _); [done|apply lookup_insert_eq|].
  exists c, w1, r', g. change (pj_account r') with (pj_account r) in Hg. rewrite Ha in Hg.
  destruct (current_configuration _ _ _ _ Hg) as (r2 & c2 & row & Hr2 & Hc2 & Hrow & -> & ->).
  cbn in Hr2. rewrite lookup_insert_eq in Hr2. injection Hr2 as <-. injection Hc2 as <-.
  destruct (persisted_ok _ _ _ _ _ _ _ Hper (go_configurations _ Hok) Hv eq_refl) as (_ & cf & _ & _ & Hn & Hs & _ & Ec).
  change (gr_configurations (db w1) !! c = Some row) in Hrow. rewrite Ec, lookup_insert_eq in Hrow. injection Hrow as <-.
  split_and!; [done|by apply (update_graph_project_runs p r)|done|done|done|].
  - pose proof (persisted_aside _ _ _ _ _ _ _ Hper) as E. unfold aside in E. by injection E.
Qed.
End Accepting.
