(* ===== verification/GraphTheorems.v ===== *)
(** * Guarantees of the project graph

    About every execution in which owners' requests, admission's requests and the other
    components interleave ([graph_api]). *)

From stdpp Require Import base list option gmap strings sorting relations.
From Stdlib Require Import ZArith Lia Ascii.
From S2P Require Import Prelude RustText Bytes PgTx Intent ExecutionTables Runtime ReleaseTables Admission.
From S2P Require Import AdmissionSpec AdmissionTheorems AdmissionFrame ProjectContract ProjectSpec.
From S2P Require Import GraphTables Graph GraphSpec GraphSteps GraphInvariant GraphReads GraphAccounts GraphPersist.

Local Open Scope string_scope.
Local Open Scope list_scope.

(** ** Executions *)

(** What admission sees of the database. *)
Definition adm_world (w : World GraphDb) : World AdmDb := MkWorld (gr_adm (db w)) (ticks w) (drawn w).

Section Theorems.
Context (G : GraphExternals) (hold_request_hash : CreateHoldRequest -> string)
  (admit_request_hash : AdmitRequest -> string) (fixture_hash : FixtureRequest -> string) (env : Env).
Implicit Types (w : World GraphDb) (d : GraphDb).

(** A request of an owner, a request to admission, or a transaction of another component. *)
Inductive graph_api w w' : Prop :=
| ga_owner caller ok : owner_request G caller env w w' ok -> graph_api w w'
| ga_admission :
    adm_request (g_parse_uuid G) (g_uuid_text G) hold_request_hash admit_request_hash fixture_hash env
      (adm_world w) (adm_world w') ->
    db w' = set_gr_adm (gr_adm (db w')) (db w) -> graph_api w w'
| ga_other : bystander (db w) (db w') -> graph_api w w'.

Lemma graph_api_ok w w' : graph_api w w' -> graph_ok (db w) -> graph_ok (db w').
Proof.
  intros [caller ok Ho|Hr E|Hb] Hok.
  - eapply graph_effect_ok; [by eapply owner_request_effect|done].
  - apply adm_request_frame in Hr as [Fp Fc _ _]. cbn in Fp, Fc. pose proof (go_projects _ Hok) as Hpr.
    apply (graph_ok_kept (db w)); [by rewrite E| | |done].
    + intros p r' Hr'. destruct (identity_lookup project_identity _ _ p r' (eq_sym Fp) Hr') as (r & Hr & Ei).
      destruct (Hpr p r Hr) as (_ & Hd & _). rewrite E at 1. split_and!; [|done|by exists r].
      destruct (Fc p r' Hr') as [Hr2|]; [|done]. by destruct (Hpr p r' Hr2).
    + intros p r Hr. destruct (identity_lookup project_identity _ _ p r Fp Hr) as (r' & Hr' & Ei). exists r'.
      split; [done|]. by injection Ei.
  - by eapply bystander_ok.
Qed.

Lemma graph_apis_ok w w' : rtc graph_api w w' -> graph_ok (db w) -> graph_ok (db w').
Proof. induction 1; eauto using graph_api_ok. Qed.

(** ** Admission *)

Lemma slots_put d p r r' : gr_projects d !! p = Some r -> pj_account r' = pj_account r -> pj_slots r' = pj_slots r ->
  slots (gr_adm (put_project p r' d)) = slots (gr_adm d).
Proof.
  intros Hr Ha Hs. unfold slots, put_project. cbn. apply (identity_update _ _ _ r); [done|]. by rewrite Ha, Hs.
Qed.

Lemma core_put d p r r' : gr_projects d !! p = Some r -> pj_account r' = pj_account r -> pj_slots r' = pj_slots r ->
  core (gr_adm (put_project p r' d)) = core (gr_adm d).
Proof. intros Hr Ha Hs. pose proof (slots_put d p r r' Hr Ha Hs) as E. unfold core in *. by rewrite E. Qed.

Lemma revised_slots r r' : revised r = Some r' -> pj_slots r' = pj_slots r.
Proof. unfold revised. destruct (bigint_succ _); [|done]. by intros [= <-]. Qed.

Lemma awaiting_slots r : project_check r = true -> pj_slots (awaiting_slot r) = pj_slots r.
Proof.
  unfold awaiting_slot, project_check. intros Hc. destruct (one_of _ _) eqn:E; [|done]. cbn. bool_simpl.
  match goal with H : _ \/ _ |- _ => destruct H; bool_simpl; [done|] end.
  exfalso. match goal with H : _ ∈ _ |- _ => revert H E end. destruct (pj_slot_state r); try done; by set_unfold; naive_solver.
Qed.

Lemma graph_step_core a d d' : graph_step a d d' -> graph_ok d ->
  core (gr_adm d') = core (gr_adm d) \/
  exists p, slots (gr_adm d) !! p = None /\
    core (gr_adm d') = (pools (gr_adm d), entitlements (gr_adm d), holds (gr_adm d), reservations (gr_adm d),
                        usage (gr_adm d), <[p := (a, 0%Z)]> (slots (gr_adm d))).
Proof.
  intros Hs Hok. destruct Hs as [p c name spec d1 Hp Hd _ _ Hper (_ & E & _)%settled_bystander|
    p r r' x x' Hp Ha Hr' _ _ _ (_ & E & _)%settled_bystander|
    p r r' c spec d1 Hp Ha _ Hper Hr' _ (_ & E & _)%settled_bystander|
    p r r' id x t Hp Ha _ _ _ _ _ Hr' _ _ (_ & E & _)%settled_bystander|
    p r r0 r' id i Hp Ha _ _ _ _ _ _ Hr0 Hr' _ (_ & E & _)%settled_bystander]; rewrite E.
  - right. exists p. split; [unfold slots; unfold gr_projects in Hp; by rewrite lookup_fmap, Hp|].
    pose proof (persisted_adm _ _ _ _ _ _ _ Hper) as E1. unfold core, put_project, slots. cbn. unfold gr_projects.
    rewrite E1. cbn. by rewrite insert_insert_eq, fmap_insert.
  - left. apply (core_put d p r r'); [done|by apply revised_account|by apply revised_slots].
  - left. pose proof (persisted_adm _ _ _ _ _ _ _ Hper) as E1. rewrite <- E1.
    apply (core_put d1 p r r'); [unfold gr_projects; by rewrite E1| |].
    + by rewrite (revised_account _ _ Hr').
    + by rewrite (revised_slots _ _ Hr').
  - left. apply (core_put (set_gr_deployments (<[id := x]> (gr_deployments d)) d) p r r'); [done| |].
    + rewrite (revised_account _ _ Hr'). unfold awaiting_slot. by case_match.
    + rewrite (revised_slots _ _ Hr'). apply awaiting_slots. by destruct (go_projects d Hok p r Hp).
  - left. apply (core_put (set_gr_intents (<[id := i]> (gr_intents d)) d) p r r'); [done| |].
    + rewrite (revised_account _ _ Hr'). by destruct Hr0 as [->| ->].
    + rewrite (revised_slots _ _ Hr'). by destruct Hr0 as [->| ->].
Qed.

(** C14: a project can always be read whole by its owner, however requests follow one
    another: its current configuration is its last one, satisfies the contract, and its
    repository and services are those of the configuration's document. *)
Theorem projects_can_always_be_read w w' p r caller id :
  graph_ok (db w) -> rtc graph_api w w' -> gr_projects (db w') !! p = Some r -> account_id caller = pj_account r ->
  g_parse_uuid G id = Some p ->
  exists g, get_project G caller id env w' = (Ok g, w') /\ complete_graph (db w') p r g.
Proof.
  intros Hok Hs Hr Ha Hid. destruct (project_readable (db w') p r) as (g & Hg & Hc); [by eapply graph_apis_ok|done|].
  exists g. split; [|done]. unfold get_project, path_uuid, tbind, lift, get_db. by rewrite Hid, Ha, Hg.
Qed.

(** ** Configurations *)

Lemma graph_api_rows_kept w w' : graph_api w w' -> graph_ok (db w) -> configuration_rows_kept (db w) (db w').
Proof.
  intros [caller ok Ho|_ E|Hb] Hok.
  - apply owner_request_effect in Ho as [ok' l E|Hs]; [apply rows_kept_same; by rewrite E|by eapply graph_step_rows_kept].
  - apply rows_kept_same. by rewrite E.
  - apply rows_kept_same, Hb.
Qed.

Lemma graph_apis_rows_kept w w' : rtc graph_api w w' -> graph_ok (db w) -> configuration_rows_kept (db w) (db w').
Proof.
  induction 1 as [w|w w1 w2 Hs _ IH]; intros Hok; [done|].
  etrans; [by apply graph_api_rows_kept|]. apply IH. by eapply graph_api_ok.
Qed.

(** C17: a configuration never changes: once it has been read, its owner reads the same
    configuration, repository and services ever after. *)
Theorem configurations_never_change w w' caller id c g :
  graph_ok (db w) -> get_configuration G caller id c env w = (Ok g, w) -> rtc graph_api w w' ->
  get_configuration G caller id c env w' = (Ok g, w').
Proof.
  intros Hok Hg Hs. unfold get_configuration in *.
  apply tbind_Ok in Hg as (p & ? & [Ep ->]%lift_Ok & Hg). apply tbind_Ok in Hg as (x & ? & [Ex ->]%lift_Ok & Hg).
  apply tbind_Ok in Hg as (d & ? & [-> ->]%get_db_Ok & [Hg _]%lift_Ok).
  apply (load_configuration_kept (db w) (db w')) in Hg; [|done|by apply graph_apis_rows_kept].
  unfold tbind, lift, get_db. by rewrite Ep, Ex, Hg.
Qed.

(** ** Refusals *)

(** a request that is refused, or fails, changes nothing but the audit trail. *)
Theorem refused_requests_change_nothing caller w w' :
  owner_request G caller env w w' false -> exists l, db w' = set_gr_audits l (db w).
Proof. intros Ho. apply owner_request_effect in Ho. inversion Ho; subst; eauto. Qed.

(** ** Accounts *)

(** What an account can read. *)
Definition same_answers {A} (m : M GraphDb A) w w' : Prop := fst (m env w') = fst (m env w).
Record reads_the_same (caller : Authenticated) w w' : Prop := {
  ra_project : forall id, same_answers (get_project G caller id) w w';
  ra_configuration : forall id c, same_answers (get_configuration G caller id c) w w';
  ra_services : forall id, same_answers (get_services G caller id) w w';
  ra_service : forall id s, same_answers (get_service G caller id s) w w';
  ra_deployment : forall id x, same_answers (get_deployment G caller id x) w w';
  ra_list : forall query, same_answers (list_projects caller query) w w';
}.

Lemma rows_same_reads caller w w' : graph_ok (db w) -> rows_same (account_id caller) (db w) (db w') ->
  reads_the_same caller w w'.
Proof.
  intros Hok Hs. split; intros; unfold same_answers.
  - unfold get_project, tbind, lift, get_db. destruct (path_uuid _ _); [|done]. by rewrite (load_project_graph_same _ (db w)).
  - unfold get_configuration, tbind, lift, get_db. destruct (path_uuid _ _); [|done]. destruct (path_uuid _ _); [|done].
    by rewrite (load_configuration_same _ (db w)).
  - unfold get_services, tbind, lift, get_db. destruct (path_uuid _ _); [|done].
    rewrite (load_project_graph_same _ (db w)) by done. by destruct (load_project_graph _ _ _).
  - unfold get_service, tbind, lift, get_db. destruct (path_uuid _ _); [|done]. destruct (path_uuid _ _); [|done].
    rewrite (load_project_graph_same _ (db w)) by done. by destruct (load_project_graph _ _ _).
  - unfold get_deployment, tbind, lift, get_db. destruct (path_uuid _ _); [|done]. destruct (path_uuid _ _); [|done].
    by rewrite (load_deployment_same _ (db w)).
  - unfold list_projects, tbind, lift, get_db. destruct (ok_or _ _); [|done]. by rewrite (account_projects_same _ (db w)).
Qed.

(** C16: accounts are apart: whatever an owner requests, every other account reads
    exactly what it read before, of projects, configurations, services, deployments and
    lists. *)
Theorem accounts_are_apart caller other w w' ok :
  graph_ok (db w) -> owner_request G caller env w w' ok -> account_id other <> account_id caller ->
  reads_the_same other w w'.
Proof.
  intros Hok Ho Hne. apply rows_same_reads; [done|].
  apply owner_request_effect in Ho as [ok' l E|Hs]; [|by eapply graph_step_rows_same].
  rewrite E. by split; try apply rows_kept_same.
Qed.

(** ** Accepting configurations *)

(** C15: a configuration that satisfies the contract, at the current revision, is always
    persisted, as the project's next one, unless a text of it holds a NUL: then the
    database refuses it and the request fails as unavailable. *)
Theorem valid_configurations_are_persisted caller w id headers q p r key :
  graph_ok (db w) -> g_parse_uuid G id = Some p -> gr_projects (db w) !! p = Some r -> pj_account r = account_id caller ->
  idempotency_key headers = Ok key -> if_match_revision headers = Ok (pj_revision r) ->
  gr_idem (db w) !! (account_id caller, "project.configuration.create/" +:+ g_uuid_text G p, key) = None ->
  validate (ccq_configuration q) = [] -> (pj_revision r < max_i64)%Z -> (max_number (db w) (account_id caller) p < max_i64)%Z ->
  fresh_supply env (drawn w) -> unused env (drawn w) (gr_configurations (db w)) ->
  unused env (drawn w) (gr_repositories (db w)) -> unused env (drawn w) (gr_services (db w)) ->
  if storable (spec_texts (ccq_configuration q)) then
    exists g w', create_configuration G caller id headers q env w = (Ok g, w') /\
      cr_spec (cg_configuration (pg_graph g)) = ccq_configuration q /\
      cr_revision (cg_configuration (pg_graph g)) = (max_number (db w) (account_id caller) p + 1)%Z
  else
    exists w', create_configuration G caller id headers q env w = (Err (ApiFailure database_unavailable), w') /\
      db w' = db w.
Proof.
  intros Hok Hid Hr Ha Hkey Hmatch Hidem Hv Hrev Hmax Hsup Huc Hur Hus.
  assert (ready_to_persist env (account_id caller) p w (max_number (db w) (account_id caller) p + 1)) as Hw.
  { split; try done; [apply Hok|]. apply owned_project_spec. eauto. }
  unfold create_configuration, checked. rewrite (validate_spec_nil _ Hv).
  rewrite (tbind_run _ _ env w (Ok p) w) by (unfold lift, path_uuid; by rewrite Hid).
  rewrite (tbind_run _ _ env w (Ok key) w) by (unfold lift; by rewrite Hkey).
  rewrite (tbind_run _ _ env w (Ok (pj_revision r)) w) by (unfold lift; by rewrite Hmatch).
  destruct (storable _) eqn:Hst.
  - destruct (new_configuration_runs env caller w p r _ Hok Hr Ha Hw Hv Hst Hrev) as (c & w1 & r' & g & Hp & Hu & Hg & Hs & Hn & Hi).
    match goal with |- context [mutation caller ?ev ?from ?into ?st ?op ?k ?h ?sub ?serve env w] =>
      assert (serve env w = (Ok (Ok (g, "configuration_revision", Some c)),
                             MkWorld (put_project p r' (db w1)) (ticks w1) (drawn w1))) as Hserve;
      [|destruct (mutation_served env caller ev from into st op k h sub serve w g _ _ _ Hidem Hserve Hi) as (w' & -> & _);
        by exists g, w'] end.
    rewrite (at_revision_current env caller _ p r (pj_revision r)) by done.
    rewrite (tbind_run _ _ env w (Ok (db w)) w) by done.
    rewrite (bigint_succ_below _ Hmax). rewrite (tbind_run (sql _) _ env w (Ok _) w) by reflexivity.
    rewrite (tbind_run _ _ _ _ _ _ Hp), (tbind_run _ _ _ _ _ _ Hu).
    unfold tbind, get_db, lift. cbn [db]. by rewrite Hg.
  - match goal with |- context [mutation caller ?ev ?from ?into ?st ?op ?k ?h ?sub ?serve env w] =>
      assert (serve env w = (Err database_unavailable, MkWorld (db w) (ticks w) (S (drawn w)))) as Hserve;
      [|destruct (mutation_failed env caller ev from into st op k h sub serve w _ _ Hidem Hserve) as (w' & -> & Hw');
        by exists w'] end.
    rewrite (at_revision_current env caller _ p r (pj_revision r)) by done.
    rewrite (tbind_run _ _ env w (Ok (db w)) w) by done.
    rewrite (bigint_succ_below _ Hmax). rewrite (tbind_run (sql _) _ env w (Ok _) w) by reflexivity.
    by rewrite (tbind_run _ _ _ _ _ _ (configuration_refused env _ _ _ _ _ Hw Hst)).
Qed.

(** ** Pending intents *)

(** Refused, or answered from the record of an earlier request. *)
Definition nothing_new {E A} (r : res E A) w w' : Prop :=
  (exists l, db w' = set_gr_audits l (db w)) /\ (is_ok r = true -> db w' = db w).

Lemma nothing_new_same {E A} (r : res E A) w : nothing_new r w w.
Proof. split; [exists (gr_audits (db w)); by destruct (db w)|done]. Qed.
Lemma nothing_new_as {E E' A A'} (r : res E A) (r' : res E' A') w w' : is_ok r' = is_ok r -> nothing_new r w w' -> nothing_new r' w w'.
Proof. intros E0 [Hl Hs]. split; [done|]. by rewrite E0. Qed.

Section Blocked.
Context (caller : Authenticated) (event : string).

Definition blocked {A} w (r : res ApiError A) w1 : Prop :=
  (exists e, r = Err e) /\ exists l, db w1 = set_gr_audits l (db w).

Lemma deny_blocked {A} target id oc e w (r : res ApiError A) w1 :
  deny caller event target id oc e env w = (Ok r, w1) -> blocked w r w1.
Proof.
  unfold deny. intros Hm. apply tbind_Ok in Hm as (? & w2 & (ev & ->)%audit_Ok & [-> ->]%tret_Ok).
  split; [eauto|by eexists].
Qed.

Lemma mutation_blocked {A} from_value into status operation key hash subject
    (serve : M GraphDb (res ApiError (A * string * option Uuid))) w r w' :
  (forall r1 w1, serve env w = (Ok r1, w1) -> blocked w r1 w1) ->
  mutation caller event from_value into status operation key hash subject serve env w = (r, w') -> nothing_new r w w'.
Proof.
  intros Hs Hm. assert (exists l, db w = set_gr_audits l (db w)) as Hsame
    by (exists (gr_audits (db w)); by destruct (db w)).
  unfold mutation in Hm. apply transaction_cases in Hm as [(e & -> & E)|Hm]; [by split; rewrite E|].
  apply tbind_Ok in Hm as (stored & w1 & [-> _]%replay_Ok & Hm). destruct stored as [|response|].
  - apply tbind_Ok in Hm as (served & w1 & [[e ->] Hl]%Hs & [-> ->]%tret_Ok). by split.
  - apply tret_Ok in Hm as [-> ->]. by split.
  - apply deny_blocked in Hm as [[e ->] Hl]. by split.
Qed.

Lemma at_revision_blocked {A} project expected (k : Project -> M GraphDb (res ApiError A)) w r w1 :
  (forall p r1 w2, k p env w = (Ok r1, w2) -> blocked w r1 w2) ->
  at_revision caller event project expected k env w = (Ok r, w1) -> blocked w r w1.
Proof.
  intros Hk Hm. unfold at_revision in Hm. apply tbind_Ok in Hm as (d & w2 & [-> ->]%get_db_Ok & Hm).
  apply tbind_Ok in Hm as (p & w2 & [Hp ->]%lift_Ok & Hm). case_hyp Hm; [by apply deny_blocked in Hm|by eapply Hk].
Qed.

Lemma pending_blocked {A} project p (k : M GraphDb (res ApiError A)) w r w1 :
  pending_lifecycle_intent (db w) (account_id caller) project = true ->
  unless_pending caller event project p k env w = (Ok r, w1) -> blocked w r w1.
Proof.
  intros Hp Hm. unfold unless_pending in Hm. apply tbind_Ok in Hm as (d & w2 & [-> ->]%get_db_Ok & Hm).
  rewrite Hp, orb_true_r in Hm. by apply deny_blocked in Hm.
Qed.
End Blocked.

Lemma lifecycle_intent_stays w w' i x : graph_api w w' -> gr_intents (db w) !! i = Some x -> gr_intents (db w') !! i = Some x.
Proof.
  intros [caller ok Ho|Hr _|Hb] Hi.
  - apply owner_request_effect in Ho as [ok' l E|Hs]; [by rewrite E|].
    destruct Hs as [p c name spec d1 _ _ _ _ Hper (_ & E & _)%settled_bystander|
      p r r' y y' _ _ _ _ _ _ (_ & E & _)%settled_bystander|
      p r r' c spec d1 _ _ _ Hper _ _ (_ & E & _)%settled_bystander|
      p r r' id y t _ _ _ _ _ _ _ _ _ _ (_ & E & _)%settled_bystander|
      p r r0 r' id j _ _ _ Hn _ _ _ _ _ _ _ (_ & E & _)%settled_bystander]; unfold gr_intents in *; rewrite E; cbn.
    + by rewrite (persisted_adm _ _ _ _ _ _ _ Hper).
    + done.
    + by rewrite (persisted_adm _ _ _ _ _ _ _ Hper).
    + done.
    + rewrite lookup_insert_ne; [done|]. intros <-. unfold gr_intents in Hn. congruence.
  - apply adm_request_frame in Hr as [_ _ _ E]. unfold gr_intents in *. cbn in E. by rewrite E.
  - destruct Hb as [[_ _ _ E] _ _ _]. unfold gr_intents in *. by rewrite E.
Qed.

(** C39: nothing ever completes a lifecycle intent, so that one rollback or removal locks
    its project: however requests follow one another, its owner never again gets a new
    deployment, rollback or removal of it. *)
Theorem pending_intents_lock_their_project caller id p w w' i x :
  g_parse_uuid G id = Some p -> gr_intents (db w) !! i = Some x -> li_state x = Requested -> li_project x = p ->
  li_account x = account_id caller -> rtc graph_api w w' ->
  (forall headers q r w'', create_deployment_intent G caller id headers q env w' = (r, w'') -> nothing_new r w' w'') /\
  (forall headers q r w'', create_rollback_intent G caller id headers q env w' = (r, w'') -> nothing_new r w' w'') /\
  (forall headers r w'', create_removal_intent G caller id headers env w' = (r, w'') -> nothing_new r w' w'').
Proof.
  intros Hid Hi Hst Hp Ha Hs.
  assert (gr_intents (db w') !! i = Some x) as Hi' by (induction Hs; eauto using lifecycle_intent_stays).
  assert (pending_lifecycle_intent (db w') (account_id caller) p = true) as Hpending.
  { apply exists_row_spec. exists i, x. split; [done|]. unfold requested_of. by rewrite Ha, Hp, Hst, !bool_decide_eq_true_2. }
  split_and!.
  - intros headers q r w'' Hm. unfold create_deployment_intent, path_uuid in Hm. rewrite Hid in Hm.
    destruct (g_parse_uuid G (diq_configuration q)); [|injection Hm as <- <-; apply nothing_new_same].
    apply checked_cases in Hm as [(e & _ & -> & ->)|(? & r0 & _ & Hm & Er)]; [apply nothing_new_same|].
    apply (nothing_new_as r0); [done|]. clear r Er.
    do 2 (apply lift_cases in Hm as [(e & _ & -> & ->)|(? & _ & Hm)]; [apply nothing_new_same|]).
    eapply mutation_blocked, Hm. intros r1 w1. apply at_revision_blocked. intros row r2 w2. by apply pending_blocked.
  - intros headers q r w'' Hm. unfold create_rollback_intent, path_uuid in Hm. rewrite Hid in Hm.
    apply lift_cases in Hm as [(e & [=] & _)|(? & [= <-] & Hm)].
    do 3 (apply lift_cases in Hm as [(e & _ & -> & ->)|(? & _ & Hm)]; [apply nothing_new_same|]).
    eapply mutation_blocked, Hm. intros r1 w1. apply at_revision_blocked. intros row r2 w2. by apply pending_blocked.
  - intros headers r w'' Hm. unfold create_removal_intent, path_uuid in Hm. rewrite Hid in Hm.
    apply lift_cases in Hm as [(e & [=] & _)|(? & [= <-] & Hm)].
    do 2 (apply lift_cases in Hm as [(e & _ & -> & ->)|(? & _ & Hm)]; [apply nothing_new_same|]).
    eapply mutation_blocked, Hm. intros r1 w1. apply at_revision_blocked. intros row r2 w2. by apply pending_blocked.
Qed.

(** ** The list of projects *)

(** C40: following the cursors of the list of projects ends, and lists every project of
    the account exactly once, in the order of their identifiers. *)
Theorem pages_list_every_project_once caller w : graph_ok (db w) -> exists l,
  all_pages caller env (S (size (gr_projects (db w)))) None w = Some l /\
  NoDup (map ps_id l) /\ StronglySorted by_id l /\
  forall p, p ∈ map ps_id l <-> exists r, gr_projects (db w) !! p = Some r /\ pj_account r = account_id caller.
Proof.
  intros Hok. eexists. split; [apply all_pages_runs|].
  split; [apply account_projects_keys|]. split; [apply account_projects_sorted|]. intros p.
  rewrite list_elem_of_fmap. split.
  - intros (x & -> & (r & Hr & Hx)%account_projects_elem). exists r. split; [done|].
    unfold project_summary, where_ in Hx. cbn in Hx. case_bool_decide; [done|by destruct (gr_details _ !! _)].
  - intros (r & Hr & Ha). destruct (go_projects _ Hok p r Hr) as (_ & [x Hx] & _).
    exists {| ps_id := p; ps_name := pd_name x; ps_mode := pd_mode x; ps_revision := pj_revision r; ps_configuration := pj_config r |}.
    split; [done|]. apply account_projects_elem. exists r. split; [done|].
    unfold project_summary, where_. cbn. by rewrite Hx, bool_decide_eq_true_2.
Qed.
End Theorems.
