(* ===== verification/GraphDemo.v ===== *)
(** A project of account 1, from its creation to its removal: the theorems on the project
    graph applied to concrete executions. *)

From Stdlib Require Import ZArith List String Bool Lia.
From stdpp Require Import base gmap strings list relations sorting pretty.
From S2P Require Import Prelude RustText Bytes PgTx Intent ExecutionTables Runtime ReleaseTables Admission.
From S2P Require Import AdmissionSpec AdmissionTheorems AdmissionFrame ProjectContract ProjectSpec ProjectTheorems.
From S2P Require Import GraphTables Graph GraphSpec GraphSteps GraphInvariant GraphReads GraphAccounts GraphPersist.
From S2P Require Import GraphTheorems.

Open Scope string_scope.

Module GraphDemo.

Definition parse (s : string) : option Uuid :=
  if bool_decide (s = "100") then Some 100%N else if bool_decide (s = "101") then Some 101%N else None.
Definition G : GraphExternals := {|
  g_parse_uuid := parse; g_uuid_text := pretty; g_create_hash := fun _ => "create"; g_update_hash := fun _ => "update";
  g_configuration_hash := fun _ => "configuration"; g_deployment_hash := fun _ => "deployment";
  g_rollback_hash := fun _ => "rollback"; g_removal_hash := "removal" |}.
Definition hold_hash (q : CreateHoldRequest) : string := pretty (chq_proof q).
Definition admit_hash (q : AdmitRequest) : string := pretty (adq_hold q).
Definition event_hash (q : FixtureRequest) : string := "event".
Definition env : Env := {|
  clock := Z.of_nat; fresh := fun n => N.of_nat (100 + n); row_locked := fun _ _ => false |}.
Definition owner : Authenticated := {| account_id := 1; session_id := 2 |}.
Definition stranger : Authenticated := {| account_id := 7; session_id := 8 |}.
Definition quoted (s : string) : string :=
  String (Ascii.ascii_of_nat 34) (s +:+ String (Ascii.ascii_of_nat 34) EmptyString).
Definition headers (key revision : string) : Headers := {|
  h_idempotency_key := Some (Some key); h_if_match := Some (Some (quoted revision)) |}.

Definition empty : GraphDb := MkGraphDb (MkAdmDb ∅ ∅ ∅ ∅ ∅ ∅ ∅ ∅ ∅ ∅ ∅ ∅ [] ∅ ∅ ∅ ∅ ∅ []) ∅ ∅ ∅ ∅ ∅ ∅ ∅ ∅ [] ∅ [].
Definition w0 : World GraphDb := MkWorld empty 0 0.

(** Project 100 with configuration 101, a second configuration, a deployment of the
    first, and a removal. *)
Definition created := create_project G owner (headers "create" "1")
  {| cpq_name := lit " demo "; cpq_configuration := sample_project |} env w0.
Definition w1 := snd created.
Definition configuration : CreateConfigurationRequest := {| ccq_configuration := sample_project |}.
Definition configured := create_configuration G owner "100" (headers "configure" "1") configuration env w1.
Definition w2 := snd configured.
Definition stale := create_configuration G owner "100" (headers "again" "1") configuration env w2.
Definition commit : string := "0123456789abcdef0123456789abcdef01234567".
Definition deployed := create_deployment_intent G owner "100" (headers "deploy" "2")
  {| diq_configuration := "101"; diq_commit := commit |} env w2.
Definition w3 := snd deployed.
Definition removed := create_removal_intent G owner "100" (headers "remove" "3") env w3.
Definition w4 := snd removed.

Example demo_requests : is_ok (fst created) = true /\ is_ok (fst configured) = true /\ is_ok (fst stale) = false /\
  is_ok (fst deployed) = true /\ is_ok (fst removed) = true.
Proof. vm_compute. split_and!; reflexivity. Qed.

Lemma empty_ok : graph_ok empty.
Proof.
  repeat split; intros *; try done. intros [Hn Hm]. assert (n <= 0)%Z by exact Hm. lia.
Qed.

(** *** The execution *)

Definition step := graph_api G hold_hash admit_hash event_hash env.
Lemma owner_step caller w w' ok : owner_request G caller env w w' ok -> step w w'.
Proof. exact (ga_owner G hold_hash admit_hash event_hash env w w' caller ok). Qed.
Lemma create_request h q w : owner_request G owner env w (snd (create_project G owner h q env w))
  (is_ok (fst (create_project G owner h q env w))).
Proof. exact (oq_create_project G owner env w _ h q _ (surjective_pairing (create_project G owner h q env w))). Qed.
Lemma configure_request id h q w : owner_request G owner env w (snd (create_configuration G owner id h q env w))
  (is_ok (fst (create_configuration G owner id h q env w))).
Proof.
  exact (oq_create_configuration G owner env w _ id h q _ (surjective_pairing (create_configuration G owner id h q env w))).
Qed.
Lemma deploy_request id h q w : owner_request G owner env w (snd (create_deployment_intent G owner id h q env w))
  (is_ok (fst (create_deployment_intent G owner id h q env w))).
Proof.
  exact (oq_deployment_intent G owner env w _ id h q _ (surjective_pairing (create_deployment_intent G owner id h q env w))).
Qed.
Lemma remove_request id h w : owner_request G owner env w (snd (create_removal_intent G owner id h env w))
  (is_ok (fst (create_removal_intent G owner id h env w))).
Proof.
  exact (oq_removal_intent G owner env w _ id h _ (surjective_pairing (create_removal_intent G owner id h env w))).
Qed.
Lemma run : step w0 w1 /\ step w1 w2 /\ step w2 w3 /\ step w3 w4.
Proof.
  split; [exact (owner_step _ _ _ _ (create_request _ _ w0))|].
  split; [exact (owner_step _ _ _ _ (configure_request _ _ _ w1))|].
  split; [exact (owner_step _ _ _ _ (deploy_request _ _ _ w2))|exact (owner_step _ _ _ _ (remove_request _ _ w3))].
Qed.
Lemma run_01 : rtc step w0 w1.
Proof. exact (rtc_once _ _ (proj1 run)). Qed.
Lemma run_14 : rtc step w1 w4.
Proof.
  destruct run as (_ & H2 & H3 & H4). exact (rtc_l step w1 w2 w4 H2 (rtc_l step w2 w3 w4 H3 (rtc_once w3 w4 H4))).
Qed.
Lemma run_04 : rtc step w0 w4.
Proof. exact (transitivity run_01 run_14). Qed.
Lemma ok_1 : graph_ok (db w1).
Proof. exact (graph_apis_ok _ _ _ _ _ _ _ run_01 empty_ok). Qed.
Lemma ok_4 : graph_ok (db w4).
Proof. exact (graph_apis_ok _ _ _ _ _ _ _ run_04 empty_ok). Qed.

(** Facts of a table's rows. *)
Definition account_in (w : World GraphDb) (p : Uuid) : option (Uuid * Z) :=
  (fun r => (pj_account r, pj_revision r)) <$> gr_projects (db w) !! p.
Lemma project_row w p a n : account_in w p = Some (a, n) ->
  exists r, gr_projects (db w) !! p = Some r /\ pj_account r = a /\ pj_revision r = n.
Proof. intros (r & Hr & [= -> ->])%fmap_Some. by exists r. Qed.

Lemma project_1 : exists r, gr_projects (db w1) !! 100%N = Some r /\ pj_account r = 1%N /\ pj_revision r = 1%Z.
Proof. apply project_row. vm_compute. reflexivity. Qed.
Lemma project_4 : exists r, gr_projects (db w4) !! 100%N = Some r /\ pj_account r = 1%N /\ pj_revision r = 4%Z.
Proof. apply project_row. vm_compute. reflexivity. Qed.

(** Identifiers drawn later are above those in use. *)
Definition below {A} (bound : N) (t : gmap Uuid A) : bool := forallb (fun kr => kr.1 <? bound)%N (map_to_list t).
Lemma below_unused {A} n (t : gmap Uuid A) : below (N.of_nat (100 + n)) t = true -> unused env n t.
Proof.
  unfold below. rewrite forallb_forall. intros Hb i Hi. destruct (t !! fresh env i) as [x|] eqn:E; [|done].
  apply elem_of_map_to_list, list_elem_of_In, Hb, N.ltb_lt in E. cbn [fresh env fst] in E. lia.
Qed.
Lemma supply n : fresh_supply env n.
Proof. intros i j _ _. cbn [fresh env]. lia. Qed.

(** *** Witnesses *)

Lemma projects_can_always_be_read_witness : exists r g,
  get_project G owner "100" env w4 = (Ok g, w4) /\ complete_graph (db w4) 100 r g.
Proof.
  destruct project_4 as (r & Hr & Ha & _). exists r.
  exact (projects_can_always_be_read G hold_hash admit_hash event_hash env w0 w4 100 r owner "100" empty_ok run_04 Hr
           (eq_sym Ha) eq_refl).
Defined.

Lemma configuration_read id c w : snd (get_configuration G owner id c env w) = w.
Proof.
  unfold get_configuration, tbind, lift, get_db. destruct (path_uuid _ id); [|reflexivity].
  destruct (path_uuid _ c); reflexivity.
Qed.
Lemma answered {A} (m : M GraphDb A) w : is_ok (fst (m env w)) = true -> snd (m env w) = w ->
  exists g, m env w = (Ok g, w).
Proof. destruct (m env w) as [[g|e] w']; cbn [fst snd is_ok]; [intros _ ->; by exists g|discriminate]. Qed.
Lemma configurations_never_change_witness : exists g,
  get_configuration G owner "100" "101" env w1 = (Ok g, w1) /\ get_configuration G owner "100" "101" env w4 = (Ok g, w4).
Proof.
  assert (exists g, get_configuration G owner "100" "101" env w1 = (Ok g, w1)) as (g & Hg).
  { apply (answered (get_configuration G owner "100" "101")); [vm_compute; reflexivity|exact (configuration_read _ _ w1)]. }
  exists g. split; [exact Hg|].
  exact (configurations_never_change G hold_hash admit_hash event_hash env w1 w4 owner "100" "101" g ok_1 Hg run_14).
Defined.

Lemma refused_requests_change_nothing_witness : exists l, db (snd stale) = set_gr_audits l (db w2).
Proof.
  assert (is_ok (fst (create_configuration G owner "100" (headers "again" "1") configuration env w2)) = false) as E
    by (vm_compute; reflexivity).
  exact (refused_requests_change_nothing G env owner w2 (snd stale)
    (eq_rect _ (owner_request G owner env w2 (snd stale)) (configure_request "100" (headers "again" "1") configuration w2) _ E)).
Defined.

Lemma accounts_are_apart_witness : reads_the_same G env stranger w0 w1.
Proof.
  exact (accounts_are_apart G env owner stranger w0 w1 _ empty_ok
    (create_request _ _ w0) (fun E => ltac:(discriminate E))).
Defined.

Lemma valid_configurations_are_persisted_witness : exists g w',
  create_configuration G owner "100" (headers "configure" "1") configuration env w1 = (Ok g, w') /\
  cr_spec (cg_configuration (pg_graph g)) = sample_project /\
  cr_revision (cg_configuration (pg_graph g)) = (max_number (db w1) (account_id owner) 100 + 1)%Z.
Proof.
  destruct project_1 as (r & Hr & Ha & Hn).
  refine (valid_configurations_are_persisted G env owner w1 "100" (headers "configure" "1") configuration 100 r "configure"
    ok_1 eq_refl Hr Ha eq_refl _ _ _ _ _ (supply _) _ _ _).
  - rewrite Hn. vm_compute. reflexivity.
  - vm_compute. reflexivity.
  - vm_compute. reflexivity.
  - rewrite Hn. vm_compute. reflexivity.
  - vm_compute. reflexivity.
  - apply below_unused. vm_compute. reflexivity.
  - apply below_unused. vm_compute. reflexivity.
  - apply below_unused. vm_compute. reflexivity.
Defined.

Definition intent_in (w : World GraphDb) (i : Uuid) : option (Uuid * Uuid * IntentState) :=
  (fun x => (li_account x, li_project x, li_state x)) <$> gr_intents (db w) !! i.
Lemma intent_row w i a p s : intent_in w i = Some (a, p, s) ->
  exists x, gr_intents (db w) !! i = Some x /\ li_account x = a /\ li_project x = p /\ li_state x = s.
Proof. intros (x & Hx & [= -> -> ->])%fmap_Some. by exists x. Qed.
Lemma intent_4 : exists x, gr_intents (db w4) !! 109%N = Some x /\ li_account x = 1%N /\ li_project x = 100%N /\
  li_state x = Requested.
Proof. apply intent_row. vm_compute. reflexivity. Qed.
Lemma pending_intents_lock_their_project_witness :
  (forall headers q r w'', create_deployment_intent G owner "100" headers q env w4 = (r, w'') -> nothing_new r w4 w'') /\
  (forall headers q r w'', create_rollback_intent G owner "100" headers q env w4 = (r, w'') -> nothing_new r w4 w'') /\
  (forall headers r w'', create_removal_intent G owner "100" headers env w4 = (r, w'') -> nothing_new r w4 w'').
Proof.
  destruct intent_4 as (x & Hx & Ha & Hp & Hs).
  exact (pending_intents_lock_their_project G hold_hash admit_hash event_hash env owner "100" 100 w4 w4 109 x eq_refl Hx
           Hs Hp Ha (rtc_refl _ _)).
Defined.

Lemma pages_list_every_project_once_witness : exists l,
  all_pages owner env (S (size (gr_projects (db w4)))) None w4 = Some l /\
  NoDup (map ps_id l) /\ StronglySorted by_id l /\
  forall p, p ∈ map ps_id l <-> exists r, gr_projects (db w4) !! p = Some r /\ pj_account r = account_id owner.
Proof. exact (pages_list_every_project_once env owner w4 ok_4). Defined.
End GraphDemo.
