(* ===== verification/Ledger.v ===== *)
(** * One ledger for the whole control service

    Admission keeps the ledger of slots and build seconds; the project graph, builds and
    tenant databases write some of its tables in their own transactions.  Here their
    handlers run on the one database they share ([control_step]), and every execution is
    shown to be an execution of admission. *)

From stdpp Require Import base list option gmap strings relations.
From Stdlib Require Import ZArith Lia Ascii.
From S2P Require Import Prelude RustText Bytes ProjectContract PgTx Intent Secrets PolicyClock ExecutionTables.
From S2P Require Import Admission AdmissionSpec AdmissionSteps AdmissionFrame AdmissionTheorems.
From S2P Require Import BuildTables BuildInputs BuildJobs BuildLedger Credentials RuntimeEvidence Runtime.
From S2P Require Import ReleaseTables ReleaseEvidence ReleaseReceipts Migrations Releases.
From S2P Require Import TenantTables TenantCompletion Tenants TenantLeases TenantLedger.
From S2P Require Import GraphTables Graph GraphSpec GraphSteps GraphInvariant GraphTheorems.

Local Open Scope string_scope.
Local Open Scope list_scope.

(** ** What the other components do is a step of the ledger *)

Lemma retained_slots x x' : retained_project x = Some x' ->
  pj_account x' = pj_account x /\ pj_config x' = pj_config x /\ pj_slots x' = 1%Z.
Proof. unfold retained_project. destruct (bigint_succ _); [|done]. by intros [= <-]. Qed.

(** The ledger with these reservations and projects. *)
Definition with_slot_tables (s : SlotTables) (d : AdmDb) : AdmDb :=
  Admission.set_reservations s.1 (Admission.set_projects s.2 d).

Lemma retain_step_outside s s' d : retain_step s s' ->
  outside_step (with_slot_tables s d) (with_slot_tables s' d) /\ adm_frame (with_slot_tables s d) (with_slot_tables s' d).
Proof.
  intros [id r Hr Hn ->|p x x' Hx Hf Hc ->].
  - split; [|by apply adm_frame_same]. apply (os_retain _ _ id r (retained_reservation r)); try done.
    by exists ResourcesRetained, (Some "tenant_database"), (rv_observation r), (rv_released r).
  - destruct (retained_slots _ _ Hf) as (Ea & Ec & Es). split.
    + apply (os_take _ _ p (pj_account x) (pj_slots x)).
      * unfold slots. cbn. by rewrite lookup_fmap, Hx.
      * unfold core, slots. cbn. by rewrite fmap_insert, Ea, Es.
    + split; try done; cbn.
      * apply (identity_update _ _ _ x); [done|]. unfold project_identity. by rewrite Ea, Ec.
      * intros q y. rewrite lookup_insert. case_decide; [|by left]. intros [= <-]. by right.
Qed.

Lemma retain_steps_outside s s' d : rtc retain_step s s' ->
  rtc outside_step (with_slot_tables s d) (with_slot_tables s' d)
  /\ adm_frame (with_slot_tables s d) (with_slot_tables s' d).
Proof.
  induction 1 as [s|s s1 s' Hs _ [IHo IHf]]; [done|]. destruct (retain_step_outside _ _ d Hs) as [Ho Hf].
  split; [by eapply rtc_l|by etrans].
Qed.

Lemma debit_steps_outside a a' : rtc debit_step a a' -> rtc outside_step a a' /\ adm_frame a a'.
Proof.
  intros Hs. split; [|by apply adm_frame_same; apply debit_steps_frame].
  induction Hs; [done|]. eapply rtc_l; [by apply debit_step_outside|done].
Qed.

(** ** Executions *)

Section Theorems.
Context (G : GraphExternals) (hold_request_hash : CreateHoldRequest -> string)
  (admit_request_hash : AdmitRequest -> string) (fixture_hash : FixtureRequest -> string) (env : Env).
Context (B : BuildExternals) (bst : BuildConfig).
Context {P : Type} (Y : ReleaseExternals) (N : TenantExternals) (rst : ReleaseConfig).
Implicit Types (w : World GraphDb).

Notation admission := (adm_api (g_parse_uuid G) (g_uuid_text G) hold_request_hash admit_request_hash fixture_hash env).

(** The database of builds holds admission's tables; that of tenant databases the tables
    of reservations and projects.  Whatever else is in these databases, a request is
    served on the current ledger and leaves its own version of these tables. *)
Inductive control_step w w' : Prop :=
| cs_owner caller ok : owner_request G caller env w w' ok -> control_step w w'
| cs_admission :
    adm_request (g_parse_uuid G) (g_uuid_text G) hold_request_hash admit_request_hash fixture_hash env
      (adm_world w) (adm_world w') ->
    db w' = set_gr_adm (gr_adm (db w')) (db w) -> control_step w w'
| cs_build benv (x x' : World BxDb) :
    build_request B bst benv x x' -> adm (db x) = gr_adm (db w) ->
    db w' = set_gr_adm (adm (db x')) (db w) -> control_step w w'
| cs_tenant tenv (x x' : World (TbDb P)) :
    database_request Y N rst tenv x x' ->
    slot_tables (db x) = (reservations (gr_adm (db w)), projects (gr_adm (db w))) ->
    db w' = set_gr_adm (with_slot_tables (slot_tables (db x')) (gr_adm (db w))) (db w) -> control_step w w'
| cs_elsewhere : bystander (db w) (db w') -> core (gr_adm (db w')) = core (gr_adm (db w)) -> control_step w w'.

Lemma outside_admission a a' t n t' n' : rtc outside_step a a' ->
  rtc admission (MkWorld a t n) (MkWorld a' t' n').
Proof.
  intros Hs. revert t n. induction Hs as [a|a a1 a' Hs _ IH]; intros t n.
  - apply rtc_once, ad_outside. by apply os_same.
  - eapply (rtc_l _ _ (MkWorld a1 t n)); [by apply ad_outside|apply IH].
Qed.

Lemma set_adm_bystander a d : adm_frame (gr_adm d) a -> bystander d (set_gr_adm a d).
Proof. by split. Qed.

Lemma same_slot_tables d : with_slot_tables (reservations d, projects d) d = d.
Proof. by destruct d. Qed.

(** Every step is one of the graph's, and a sequence of steps of admission. *)
Lemma control_step_both w w' : control_step w w' -> graph_ok (db w) ->
  graph_api G hold_request_hash admit_request_hash fixture_hash env w w'
  /\ rtc admission (adm_world w) (adm_world w').
Proof.
  intros [caller ok Ho|Hr E|benv x x' Hb E1 E2|tenv x x' Ht E1 E2|Hb E] Hok.
  - split; [by eapply ga_owner|]. apply rtc_once, ad_outside.
    apply owner_request_effect in Ho as [ok' l E|Hs]; [apply os_same; unfold adm_world; cbn; by rewrite E|].
    destruct (graph_step_core _ _ _ Hs Hok) as [E|(p & Hp & E)]; [by apply os_same|by eapply os_project].
  - split; [by apply ga_admission|]. by apply rtc_once, ad_request.
  - apply build_request_bills in Hb. unfold bills in Hb. rewrite E1 in Hb.
    apply debit_steps_outside in Hb as [Ho Hf]. split.
    + apply ga_other. rewrite E2. by apply set_adm_bystander.
    + unfold adm_world. rewrite E2. by apply outside_admission.
  - apply database_request_retains in Ht. unfold retains in Ht. rewrite E1 in Ht.
    apply (retain_steps_outside _ _ (gr_adm (db w))) in Ht as [Ho Hf]. rewrite same_slot_tables in Ho, Hf. split.
    + apply ga_other. rewrite E2. by apply set_adm_bystander.
    + unfold adm_world. rewrite E2. by apply outside_admission.
  - split; [by apply ga_other|]. apply rtc_once, ad_outside. by apply os_same.
Qed.

Lemma control_executions w w' : rtc control_step w w' -> graph_ok (db w) ->
  rtc admission (adm_world w) (adm_world w').
Proof.
  induction 1 as [w|w w1 w' Hs _ IH]; intros Hok; [done|]. destruct (control_step_both _ _ Hs Hok) as [Hg Ha].
  etrans; [exact Ha|]. apply IH. by eapply graph_api_ok.
Qed.

End Theorems.
