(* ===== verification/LedgerDemo.v ===== *)
(** * The ledger at work

    A project of account 1 is created; a build of it is completed and debited beyond any
    entitlement; and the provisioning of its database fails and leaves resources behind:
    the theorem on the ledger applied to this execution. *)

From Stdlib Require Import ZArith List String Bool Lia.
From stdpp Require Import base gmap strings list relations pretty.
From S2P Require Import Prelude RustText Bytes PgTx Intent ExecutionTables Admission AdmissionSpec AdmissionFrame AdmissionTheorems.
From S2P Require Import ProjectContract ProjectTheorems BuildTables BuildInputs BuildJobs BuildLedger BuildTheorems.
From S2P Require Import ReleaseTheorems TenantTables TenantCompletion Tenants TenantLeases TenantLedger TenantDemo.
From S2P Require Import GraphTables Graph GraphSpec GraphSteps GraphInvariant GraphTheorems GraphDemo Ledger.

Open Scope string_scope.

Module LedgerDemo.

Definition env : Env := {|
  clock := Z.of_nat; fresh := fun n => N.of_nat (2 + n); row_locked := fun _ _ => false |}.
Definition w0 : World GraphDb := GraphDemo.w0.
Definition w1 : World GraphDb := snd (create_project GraphDemo.G GraphDemo.owner (GraphDemo.headers "create" "1")
  {| cpq_name := lit " demo "; cpq_configuration := sample_project |} env w0).

(** The databases of the other components, with the tables they share. *)
Definition building : World BxDb :=
  let w := snd BuildDemo.materialized in MkWorld (set_adm (gr_adm (db w1)) (db w)) (ticks w) (drawn w).
Definition built : World BxDb := snd (complete BuildDemo.B BuildDemo.st (BuildDemo.unary 100) BuildDemo.success_request
  BuildDemo.env building).
Definition w2 : World GraphDb := MkWorld (set_gr_adm (adm (db built)) (db w1)) (ticks w1) (drawn w1).
Definition provisioning : World (TbDb unit) :=
  let w := snd TenantDemo.leased in
  MkWorld (TenantTables.set_projects (projects (gr_adm (db w2))) (TenantTables.set_reservations (reservations (gr_adm (db w2))) (db w)))
    (ticks w) (drawn w).
Definition retention : OperationRequest := {|
  orq_live := TenantDemo.live; orq_outcome := TenantDemo.outcome "retriable" "grants_failed" true |}.
Definition retained : World (TbDb unit) := snd (TenantDemo.complete retention provisioning).
Definition w3 : World GraphDb :=
  MkWorld (set_gr_adm (with_slot_tables (slot_tables (db retained)) (gr_adm (db w2))) (db w2)) (ticks w2) (drawn w2).

Example ledger_demo :
  size (usage (gr_adm (db w1))) = 0%nat /\ size (usage (gr_adm (db w2))) = 1%nat /\
  map_to_list (slots (gr_adm (db w2))) = [(2%N, (1%N, 0%Z))] /\ map_to_list (slots (gr_adm (db w3))) = [(2%N, (1%N, 1%Z))].
Proof. vm_compute. repeat split. Qed.

Definition step : World GraphDb -> World GraphDb -> Prop :=
  control_step GraphDemo.G GraphDemo.hold_hash GraphDemo.admit_hash GraphDemo.event_hash env BuildDemo.B BuildDemo.st
    (P := unit) TenantDemo.Y TenantDemo.N ReleaseDemo.st.

Lemma ledger_run : rtc step w0 w3.
Proof.
  eapply (rtc_l _ _ w1); [|eapply (rtc_l _ _ w2); [|apply rtc_once]].
  - eapply cs_owner. exact (oq_create_project GraphDemo.G GraphDemo.owner env w0 _ _ _ _ (surjective_pairing _)).
  - apply (cs_build _ _ _ _ _ _ _ _ _ _ w1 w2 BuildDemo.env building built); [|unfold building; reflexivity|unfold w2; reflexivity].
    eapply br_complete. exact (surjective_pairing _).
  - apply (cs_tenant _ _ _ _ _ _ _ _ _ _ w2 w3 TenantDemo.at_start provisioning retained); [|unfold provisioning; reflexivity|unfold w3; reflexivity].
    eapply dq_complete. exact (surjective_pairing _).
Qed.

Lemma empty_ledger : fresh_ledger (gr_adm (db w0)).
Proof. repeat split. intros p row. cbn. rewrite lookup_empty. discriminate. Qed.

End LedgerDemo.
