(* ===== verification/JobsFrame.v ===== *)
(** * What job requests leave alone

    Jobs read the services, the secrets and the versions of their project and never
    change them; a job keeps its scope and its operation, and every reference it is
    created with binds an active version of that scope. *)

From stdpp Require Import base list option gmap strings relations.
From Stdlib Require Import ZArith Lia.
From S2P Require Import Prelude RustText Bytes PgTx Intent Secrets Jobs.

Local Open Scope string_scope.
Local Open Scope list_scope.
Implicit Types d : JobsDb.

Definition job_identity (j : Job) : Uuid * Uuid * Uuid * string :=
  (j_account j, j_project j, j_service j, j_operation j).

Definition bindable (s : SecretRow) : Prop :=
  s_active s = true /\ s_operation s = "build" /\
  (s_credential_kind s = "source_repository_read" \/ s_credential_kind s = "build_environment").

(** A reference: the job, the secret and the version it binds. *)
Definition ref_bound d (k : Uuid * Uuid) (r : SecretRef) : Prop :=
  exists j s v, jobs d !! k.1 = Some j /\ secrets d !! sr_secret r = Some s /\
    secret_versions d !! k.2 = Some v /\ sv_secret v = sr_secret r /\ bindable s /\
    (sr_account r, sr_project r, sr_service r, sr_operation r) = job_identity j /\
    (s_account s, s_project s, s_service s, s_operation s) = job_identity j /\
    (sv_account v, sv_project v, sv_service v) = (j_account j, j_project j, j_service j) /\
    sr_credential_kind r = s_credential_kind s.

Record job_move d d' : Prop := {
  jm_services : services d' = services d;
  jm_secrets : secrets d' = secrets d;
  jm_versions : secret_versions d' = secret_versions d;
  jm_jobs : forall id j, jobs d !! id = Some j ->
    exists j', jobs d' !! id = Some j' /\ job_identity j' = job_identity j;
  jm_refs : forall k r, secret_refs d' !! k = Some r -> secret_refs d !! k = Some r \/ ref_bound d' k r;
  jm_refs_kept : forall k r, secret_refs d !! k = Some r -> secret_refs d' !! k = Some r;
}.

(** A bound reference stays bound when rows are added and jobs keep their identity. *)
Lemma ref_bound_mono d d' k r :
  (forall id s, secrets d !! id = Some s -> secrets d' !! id = Some s) ->
  (forall id v, secret_versions d !! id = Some v -> secret_versions d' !! id = Some v) ->
  (forall id j, jobs d !! id = Some j -> exists j', jobs d' !! id = Some j' /\ job_identity j' = job_identity j) ->
  ref_bound d k r -> ref_bound d' k r.
Proof.
  intros Hs Hv Hj (j & s & v & E & ? & ? & ? & ? & Hr & Hsc & Hvs & ?). destruct (Hj _ _ E) as (j' & ? & I).
  exists j', s, v. rewrite I. injection I as -> -> -> _. split_and!; eauto.
Qed.

#[export] Instance job_move_preorder : PreOrder job_move.
Proof.
  split; [intros d; split; eauto|].
  intros d1 d2 d3 [] [S3 C3 V3 J3 R3 K3]. split; try congruence; eauto.
  - intros id j Hj. destruct (jm_jobs0 _ _ Hj) as (j2 & H2 & <-). eauto.
  - intros k r Hr. destruct (R3 _ _ Hr) as [H2|]; [|by right].
    destruct (jm_refs0 _ _ H2) as [|Hb]; [by left|right]. revert Hb.
    apply ref_bound_mono; rewrite ?C3, ?V3; eauto.
Qed.

Lemma job_move_same d d' : services d' = services d -> secrets d' = secrets d ->
  secret_versions d' = secret_versions d -> jobs d' = jobs d -> secret_refs d' = secret_refs d ->
  job_move d d'.
Proof. intros E1 E2 E3 E4 E5. split; rewrite ?E4, ?E5; eauto. Qed.

(** ** Statements *)

Ltac job_framed :=
  intros ? ? ? ?; unfold tbind, get_db, sql, put_db, raise, tret;
  repeat case_match; intros; simplify_eq; try done; by apply job_move_same.

Lemma update_job_move id cond f :
  (forall j j', f j = Some j' -> job_identity j' = job_identity j) -> keeps job_move (update_job id cond f).
Proof.
  intros Hf env w r w'. unfold update_job, tbind, get_db, sql, put_db, raise, tret.
  destruct (update_pk _ _ _ _ _) as [[t n]|] eqn:E; intros [= <- <-]; [cbn [db]|done].
  apply update_pk_Some in E as [(-> & _)|(_ & j & j' & Hj & _ & Hj' & _ & ->)]; [by apply job_move_same|].
  split; cbn; eauto. intros id0 j0 H0. rewrite lookup_insert. case_decide; [|eauto]. subst id0.
  rewrite Hj in H0. injection H0 as <-. eauto.
Qed.

Lemma update_attempt_move id cond f : keeps job_move (update_attempt id cond f).
Proof. unfold update_attempt. job_framed. Qed.
Lemma insert_attempt_move a : keeps job_move (insert_attempt a).
Proof. unfold insert_attempt. job_framed. Qed.
Lemma insert_effect_move e : keeps job_move (insert_effect e).
Proof. unfold insert_effect. job_framed. Qed.
Lemma insert_effect_if_absent_move e : keeps job_move (insert_effect_if_absent e).
Proof. unfold insert_effect_if_absent. job_framed. Qed.
Lemma worker_audit_move account job et worker attempt fence oc :
  keeps job_move (worker_audit account job et worker attempt fence oc).
Proof. unfold worker_audit. job_framed. Qed.
Lemma job_audit_move actor session et tt ti oc :
  keeps job_move (audit (D := JobsDb) (B := JobRecord) actor session et tt ti oc).
Proof. unfold audit. job_framed. Qed.
Lemma job_store_replay_move actor operation key hash status (r : JobRecord) :
  keeps job_move (store_replay (D := JobsDb) actor operation key hash status r).
Proof. unfold store_replay. job_framed. Qed.
Lemma load_job_ro account project job : read_only (load_job account project job).
Proof. unfold load_job, job_record. read_only. Qed.
#[export] Hint Resolve load_job_ro : read_only.

Create HintDb job_move.
#[export] Hint Resolve update_attempt_move insert_attempt_move insert_effect_move insert_effect_if_absent_move
  worker_audit_move job_audit_move job_store_replay_move : job_move.

(** The new row of an update: the columns of a job's identity are copied. *)
Ltac same_identity :=
  let H := fresh in intros ? ? H; repeat (apply bind_Some in H; destruct H as (? & _ & H));
  by injection H as <-.

Lemma job_move_atomic {A} (body : M JobsDb (res ApiError A)) :
  keeps job_move body -> keeps job_move (transaction body).
Proof. intros Hb. apply keeps_transaction; [apply _|]. intros env w r w' H. exact (Hb _ _ _ _ H). Qed.

Ltac job_steps :=
  repeat (intros; lazymatch goal with
  | |- keeps _ (let _ := _ in _) => cbv zeta
  | |- keeps _ (update_job _ _ _) => apply update_job_move; same_identity
  | |- keeps _ (tbind (lift _) _) => apply keeps_lift; [apply _|intros ? ?]
  | |- keeps _ (tbind _ _) => apply keeps_bind; [apply _|first [keeps_ro|solve [auto with job_move]|idtac]|intros ?]
  | |- keeps _ (transaction _) => apply job_move_atomic
  | |- keeps _ ?m =>
      first [ keeps_ro | solve [auto with job_move]
            | match m with context [match ?x with _ => _ end] => destruct x end ]
  end).

(** ** Requests of workers and the reaper *)

Section Requests.
Context (parse_uuid : string -> option Uuid) (sha256 : string -> string)
  (lease_seconds : Z) (aead_open : bytes -> bytes -> bytes -> bytes -> bytes -> option bytes)
  (complete_request_hash : CompleteRequest -> string) (uuid_text : Uuid -> string)
  (cancel_request_hash : string) (create_request_hash : CreateJobRequest -> string).

Lemma reap_one_move : keeps job_move (reap_one sha256).
Proof. unfold reap_one. job_steps. Qed.
Lemma reap_loop_move n : keeps job_move (reap_loop sha256 n).
Proof.
  induction n as [|n IH]; simpl; [keeps_ro|]. apply keeps_bind; [apply _|apply reap_one_move|].
  intros []; [done|keeps_ro].
Qed.
Lemma lease_candidate_move q : keeps job_move (lease_candidate lease_seconds q).
Proof. unfold lease_candidate. job_steps. Qed.
Lemma lease_job_move q : keeps job_move (lease_job sha256 lease_seconds q).
Proof.
  unfold lease_job. repeat case_match; try keeps_ro.
  apply keeps_bind; [apply _|apply reap_loop_move|intros _; apply lease_candidate_move].
Qed.
Lemma renew_job_move job q : keeps job_move (renew_job parse_uuid lease_seconds job q).
Proof. unfold renew_job. job_steps. Qed.
Lemma resolve_credentials_move key job q : keeps job_move (resolve_credentials parse_uuid aead_open key job q).
Proof. unfold resolve_credentials. job_steps. Qed.
Lemma commit_completion_move job j q js ats code :
  keeps job_move (commit_completion complete_request_hash job j q js ats code).
Proof. unfold commit_completion. job_steps. Qed.
#[local] Hint Resolve commit_completion_move : job_move.
Lemma complete_job_move job q : keeps job_move (complete_job parse_uuid complete_request_hash job q).
Proof. unfold complete_job, replay_retry, replay_terminal. job_steps. Qed.
Lemma get_job_move auth project job : keeps job_move (get_job parse_uuid auth project job).
Proof. unfold get_job. job_steps. Qed.
Lemma cancel_job_move auth project job headers :
  keeps job_move (cancel_job parse_uuid uuid_text cancel_request_hash auth project job headers).
Proof. unfold cancel_job. job_steps. Qed.

(** ** Creating a job *)

(** What a resolved reference binds. *)
Definition resolved_bound d (account project service : Uuid) (x : Uuid * Uuid * string) : Prop :=
  exists s v, secrets d !! x.1.1 = Some s /\ secret_versions d !! x.1.2 = Some v /\
    sv_secret v = x.1.1 /\ bindable s /\ s_credential_kind s = x.2 /\
    (s_account s, s_project s, s_service s) = (account, project, service) /\
    (sv_account v, sv_project v, sv_service v) = (account, project, service).

Lemma active_secret_Some d account project service version secret s :
  active_secret d account project service version = Some (secret, s) ->
  exists v, secrets d !! secret = Some s /\ secret_versions d !! version = Some v /\ sv_secret v = secret /\
    s_active s = true /\ (s_account s, s_project s, s_service s) = (account, project, service) /\
    (sv_account v, sv_project v, sv_service v) = (account, project, service).
Proof.
  unfold active_secret. intros H. apply bind_Some in H as (v & Hv & H). apply bind_Some in H as (s0 & Hs & H).
  case_match; [|done]. injection H as <- <-. bool_simpl. exists v. split_and!; congruence.
Qed.

Lemma resolve_refs_bound d account project service references seen_versions seen_secrets l :
  resolve_refs parse_uuid d account project service references seen_versions seen_secrets = Ok l ->
  Forall (resolved_bound d account project service) l.
Proof.
  revert seen_versions seen_secrets l. induction references as [|x rest IH]; simpl; intros sv ss l H.
  - injection H as <-. constructor.
  - apply res_bind_Ok in H as (rs & _ & H). apply res_bind_Ok in H as (version & _ & H).
    case_hyp H; [done|]. destruct (active_secret _ _ _ _ _) as [[secret s]|] eqn:Ha; [|done].
    case_hyp H; [done|]. case_hyp H; [done|]. case_hyp H; [done|].
    apply res_bind_Ok in H as (tail & Ht & [= <-]). constructor; [|by eapply IH].
    apply active_secret_Some in Ha as (v & ? & ? & ? & ? & Hss & Hsv). exists s, v. unfold bindable. bool_simpl.
    split_and!; try done; try congruence. destruct Heqb2; bool_simpl; auto.
Qed.

(** Only references of the job are added, one for each resolved version. *)
Lemma insert_secret_refs_rows account project service job l env w u w' :
  insert_secret_refs account project service job l env w = (Ok u, w') ->
  exists t, w' = MkWorld (set_secret_refs t (db w)) (ticks w) (drawn w) /\
    (forall k r, secret_refs (db w) !! k = Some r -> t !! k = Some r) /\
    (forall k r, t !! k = Some r -> secret_refs (db w) !! k = Some r \/
       k.1 = job /\ exists x, x ∈ l /\ k.2 = x.1.2 /\ sr_secret r = x.1.1 /\ sr_credential_kind r = x.2 /\
       (sr_account r, sr_project r, sr_service r, sr_operation r) = (account, project, service, JOB_OPERATION)).
Proof.
  revert w. induction l as [|[[secret version] kind] l IH]; simpl; intros w H.
  - tx_inv H. exists (secret_refs (db w)). split_and!; [by destruct w as [[] ? ?]|auto|auto].
  - tx_inv H. unfold insert_secret_ref in E. tx_inv E. match goal with X : insert_pk _ _ _ _ = Some _ |- _ => apply insert_pk_Some in X as (Hn & _ & ->) end.
    apply IH in H as (t & -> & Hkept & Hnew). cbn in *. exists t. split_and!; [done| |].
    + intros k r Hr. apply Hkept. rewrite lookup_insert_ne; [done|]. intros <-. congruence.
    + intros k r Hr. destruct (Hnew k r Hr) as [Hold|(Hk & x & Hx & Hrest)].
      * rewrite lookup_insert in Hold. case_decide; [|by left]. simplify_eq. right. split; [done|].
        exists (secret, version, kind). split; [left|done].
      * right. split; [done|]. exists x. split; [by right|done].
Qed.

Lemma create_job_move auth project headers q :
  keeps job_move (create_job parse_uuid uuid_text create_request_hash auth project headers q).
Proof.
  unfold create_job. repeat case_match; try keeps_ro.
  do 3 (apply keeps_lift; [apply _|intros ? ?]). cbv zeta.
  apply keeps_transaction; [apply _|]. intros env w r w' Hm. tx_inv Hm. apply replay_Ok in E as [-> _].
  case_hyp Hm; [|by tx_inv Hm|tx_inv Hm; exact (job_audit_move _ _ _ _ _ _ _ _ _ _ E)].
  tx_inv Hm. case_hyp Hm; [tx_inv Hm; exact (job_audit_move _ _ _ _ _ _ _ _ _ _ E)|].
  tx_inv Hm. apply resolve_refs_bound in E. unfold insert_job in E0. tx_inv E0.
  apply insert_pk_Some in E5 as (Hfree & _ & ->). cbn [j_id new_job] in Hfree.
  apply insert_secret_refs_rows in E1 as (t & -> & Hkept & Hnew). apply load_job_ro in E2 as Hro.
  transitivity (db w2).
  2:{ transitivity (db w3); [exact (job_audit_move _ _ _ _ _ _ _ _ _ _ E3)|exact (job_store_replay_move _ _ _ _ _ _ _ _ _ _ E4)]. }
  rewrite Hro. cbn in *. split; cbn; try done.
  - intros id j Hj. rewrite lookup_insert_ne; [by eauto|]. intros <-. congruence.
  - intros k row Hr. destruct (Hnew k row Hr) as [|(Hk & x & Hx & Hv & Hs & Hc & Hi)]; [by left|right].
    rewrite Forall_forall in E. destruct (E x Hx) as (s & sv & Hs' & Hv' & Hvs & Hb & Hck & Hss & Hsv).
    eexists _, s, sv. cbn. rewrite Hk, lookup_insert_eq, Hs, Hv. split_and!; try done; try congruence.
    destruct Hb as (_ & -> & _). injection Hss as -> -> ->. done.
Qed.
End Requests.
