(* ===== verification/Vault.v ===== *)
(** * The owner's secrets (crates/control/src/secrets.rs, crypto.rs)

    Definitions of secrets and their sealed versions: creation, rotation under the
    definition's revision, reads, and the check of the key when the service starts.
    The rows that jobs read are those of [Jobs]; the columns only these requests use
    are kept beside them, as are the idempotency records with their key version. *)

From stdpp Require Import base list option gmap strings.
From Stdlib Require Import ZArith Lia.
From S2P Require Import Prelude RustText Bytes PgTx Intent Secrets Jobs.

Local Open Scope string_scope.
Local Open Scope list_scope.

Definition CREATE_SECRET_OPERATION : string := "secret.create".
Definition CREATE_VERSION_OPERATION : string := "secret.version.create".
Definition MAX_SECRET_VALUE_BYTES : nat := 16384.
(** The bytes of the two domains of crypto.rs, with the NUL that ends each. *)
Definition KEY_ID_DOMAIN : bytes := lit "hostlet-secret-key-id/v1" ++ [0%Z].
Definition REPLAY_KEY_DOMAIN : bytes := lit "hostlet-secret-replay-key/v1" ++ [0%Z].

(** ** Requests and responses *)

Record CreateSecretRequest := { csr_name : string; csr_operation : string; csr_credential_kind : string }.

Record SecretMetadata := {
  sm_id : Uuid; sm_account : Uuid; sm_project : Uuid; sm_service : Uuid;
  sm_name : string; sm_operation : string; sm_credential_kind : string; sm_status : string;
  sm_revision : Z; sm_created : Z;
}.
Record SecretVersionMetadata := { vm_id : Uuid; vm_secret : Uuid; vm_version : Z; vm_created : Z }.

(** ** Tables *)

(** The columns of [secrets] and [secret_versions] that jobs do not read. *)
Record SecretDetail := { sd_revision : Z; sd_created : Z }.
Record VersionDetail := { vd_number : Z; vd_created : Z }.

(** The body of an idempotency record and its column [request_key_version]. *)
Inductive SecretBody := BodySecret (m : SecretMetadata) | BodyVersion (m : SecretVersionMetadata).
Record StoredResponse := { st_key_version : option string; st_body : SecretBody }.

Record VaultDb := MkVaultDb {
  vt_jobs : JobsDb;
  vt_secrets : gmap Uuid SecretDetail;
  vt_versions : gmap Uuid VersionDetail;
  vt_idem : gmap (Uuid * string * string) (IdemRow StoredResponse);
}.
Implicit Types d : VaultDb.

Definition set_vt_jobs v d := MkVaultDb v (vt_secrets d) (vt_versions d) (vt_idem d).
Definition set_vt_secrets v d := MkVaultDb (vt_jobs d) v (vt_versions d) (vt_idem d).
Definition set_vt_versions v d := MkVaultDb (vt_jobs d) (vt_secrets d) v (vt_idem d).
Definition set_vt_idem v d := MkVaultDb (vt_jobs d) (vt_secrets d) (vt_versions d) v.
Definition set_secrets t (j : JobsDb) := MkJobsDb (services j) t (secret_versions j) (jobs j)
  (attempts j) (secret_refs j) (effects j) (idem j) (audits j).
Definition set_secret_versions t (j : JobsDb) := MkJobsDb (services j) (secrets j) t (jobs j)
  (attempts j) (secret_refs j) (effects j) (idem j) (audits j).

Definition secret_rows d : gmap Uuid SecretRow := secrets (vt_jobs d).
Definition version_rows d : gmap Uuid SecretVersionRow := secret_versions (vt_jobs d).
Definition in_jobs {A} (m : M JobsDb A) : M VaultDb A := zoom vt_jobs set_vt_jobs m.

#[export] Instance vault_intent_store : IntentStore VaultDb StoredResponse := {
  idempotency_records := vt_idem; set_idempotency_records := set_vt_idem;
  audit_events := fun d => audits (vt_jobs d);
  set_audit_events := fun l d => set_vt_jobs (set_audits l (vt_jobs d)) d;
}.
#[export] Instance vault_intent_store_laws : IntentStoreLaws VaultDb StoredResponse.
Proof. by split. Qed.

(** ** Constraints *)

Definition SECRET_OPERATIONS : list string := ["build"; "runtime"; "database_migration"; "platform_management"].
Definition CREDENTIAL_KINDS : list string :=
  ["source_repository_read"; "build_environment"; "production_database"; "platform_management"].

(** [octet_length BETWEEN 1 AND n]. *)
Definition octets_within (n len : nat) : bool := (1 <=? len)%nat && (len <=? n)%nat.

Definition secret_check (s : SecretRow) : bool :=
  octets_within 128 (String.length (s_name s)) && bool_decide (s_operation s ∈ SECRET_OPERATIONS)
  && bool_decide (s_credential_kind s ∈ CREDENTIAL_KINDS).
Definition detail_check (x : SecretDetail) : bool := (0 <? sd_revision x)%Z.
Definition version_check (v : SecretVersionRow) (x : VersionDetail) : bool :=
  (0 <? vd_number x)%Z && octets_within 64 (String.length (sv_key_version v))
  && (length (sv_nonce v) =? 24)%nat && octets_within 16384 (length (sv_ciphertext v))
  && (length (sv_auth_tag v) =? 16)%nat.

(** [UNIQUE (account_id, project_id, service_id, name, operation, credential_kind)]. *)
Definition same_name (s t : SecretRow) : bool :=
  (s_account s =? s_account t)%N && (s_project s =? s_project t)%N && (s_service s =? s_service t)%N
  && bool_decide (s_name s = s_name t) && bool_decide (s_operation s = s_operation t)
  && bool_decide (s_credential_kind s = s_credential_kind t).
(** [UNIQUE (secret_id, version_number)]: the numbers of a secret's versions. *)
Definition version_numbers d (secret : Uuid) : list Z :=
  omap (fun kv => if (sv_secret kv.2 =? secret)%N then vd_number <$> vt_versions d !! kv.1 else None)
    (map_to_list (version_rows d)).

(** ** Checks *)

Definition invalid_secret (message : string) : ApiError := unprocessable "invalid_secret" message.

(** [str::trim] on a text kept as its UTF-8 bytes. *)
Definition trimmed (s : string) : string := to_text (utf8_encode (trim (utf8_chars (as_bytes s)))).

Definition validate_secret_request (q : CreateSecretRequest) : res ApiError unit :=
  if bool_decide (trimmed (csr_name q) = "") || (128 <? String.length (csr_name q))%nat
     || existsb is_ascii_control (as_bytes (csr_name q))
  then Err (invalid_secret "secret name must contain 1 to 128 non-control bytes")
  else if negb (bool_decide (csr_operation q ∈ SECRET_OPERATIONS))
  then Err (invalid_secret "the secret operation is unsupported")
  else if negb (bool_decide (csr_credential_kind q ∈ CREDENTIAL_KINDS))
  then Err (invalid_secret "the credential kind is unsupported")
  else Ok tt.

Definition validate_secret_value (value : string) : res ApiError unit :=
  if bool_decide (value = "") || (MAX_SECRET_VALUE_BYTES <? String.length value)%nat
  then Err (invalid_secret "secret value must contain 1 to 16384 UTF-8 bytes")
  else Ok tt.

(** ** Keys *)

(** Code outside the repository: the parser and the text of identifiers, SHA-256 of a
    request's JSON, HMAC-SHA-256, base64, the nonce that a random draw gives, and the
    two directions of XChaCha20-Poly1305 (key, nonce, additional data, text). *)
Record VaultExternals := {
  v_parse_uuid : string -> option Uuid;
  v_uuid_text : Uuid -> string;
  v_request_hash : CreateSecretRequest -> string;
  v_sha256 : bytes -> bytes;
  v_base64_url : bytes -> string;
  v_hmac : bytes -> bytes -> bytes;
  v_nonce : Uuid -> bytes;
  v_seal : bytes -> bytes -> bytes -> bytes -> option (bytes * bytes);
  v_open : bytes -> bytes -> bytes -> bytes -> bytes -> option bytes;
}.

Section Handlers.
Context (V : VaultExternals).

(** [SecretKey::new]. *)
Definition secret_key_new (key : bytes) : SecretKey :=
  {| key_bytes := key; key_version := "v1-" +:+ v_base64_url V (v_sha256 V (KEY_ID_DOMAIN ++ key)) |}.

(** [SecretKey::replay_fingerprint]. *)
Definition replay_fingerprint (key : SecretKey) (canonical_request : bytes) : string :=
  to_text (v_hmac V (v_hmac V (key_bytes key) REPLAY_KEY_DOMAIN) canonical_request).

Record EncryptedValue := { ev_nonce : bytes; ev_ciphertext : bytes; ev_auth_tag : bytes }.

(** [SecretKey::encrypt]: a failure surfaces as an unavailable foundation. *)
Definition encrypt (key : SecretKey) (aad plaintext : bytes) : M VaultDb EncryptedValue :=
  random <~ new_uuid;;
  let nonce := v_nonce V random in
  match v_seal V (key_bytes key) nonce aad plaintext with
  | None => raise foundation_unavailable
  | Some (ciphertext, tag) =>
      tret {| ev_nonce := nonce; ev_ciphertext := ciphertext; ev_auth_tag := tag |}
  end.

(** Some version, or some record of an idempotent request, was made under another key;
    [LIKE 'secret.version.create/%']. *)
Definition check_keyring (key : SecretKey) : M VaultDb unit :=
  d <~ get_db;;
  let other (o : option string) := match o with Some v => negb (bool_decide (v = key_version key)) | None => false end in
  let mismatch :=
    exists_row (fun v => other (Some (sv_key_version v))) (version_rows d)
    || existsb (fun kr => other (st_key_version (response_body kr.2))
         || starts_with (as_bytes "secret.version.create/") (as_bytes kr.1.1.2)
            && bool_decide (st_key_version (response_body kr.2) = None)) (map_to_list (vt_idem d)) in
  if mismatch then raise foundation_unavailable else tret tt.

(** ** Reading *)

Definition in_secret_scope (account project service : Uuid) (s : SecretRow) : bool :=
  (s_account s =? account)%N && (s_project s =? project)%N && (s_service s =? service)%N.

(** [WHERE account_id AND project_id AND service_id AND id]: the row and its other columns. *)
Definition secret_in d (account project service secret : Uuid) : option (SecretRow * SecretDetail) :=
  s ← secret_rows d !! secret;
  x ← vt_secrets d !! secret;
  if in_secret_scope account project service s then Some (s, x) else None.

Definition metadata (secret : Uuid) (s : SecretRow) (x : SecretDetail) : res ApiError SecretMetadata :=
  res_bind (as_u64 (sd_revision x)) (fun revision => Ok {|
    sm_id := secret; sm_account := s_account s; sm_project := s_project s; sm_service := s_service s;
    sm_name := s_name s; sm_operation := s_operation s; sm_credential_kind := s_credential_kind s;
    sm_status := (if s_active s then "active" else "revoked");
    sm_revision := revision; sm_created := sd_created x |}).

Definition version_metadata (version secret : Uuid) (x : VersionDetail) : res ApiError SecretVersionMetadata :=
  res_bind (as_u64 (vd_number x)) (fun number => Ok {|
    vm_id := version; vm_secret := secret; vm_version := number; vm_created := vd_created x |}).

Definition load_secret (account project service secret : Uuid) : M VaultDb (option SecretMetadata) :=
  d <~ get_db;;
  match secret_in d account project service secret with
  | None => tret None
  | Some (s, x) => m <~ lift (metadata secret s x);; tret (Some m)
  end.

#[local] Notation path_uuid := (path_uuid (v_parse_uuid V)).

Definition get_secret (auth : Authenticated) (project_id service_id secret_id : string) : M VaultDb SecretMetadata :=
  project <~ lift (path_uuid project_id);;
  service <~ lift (path_uuid service_id);;
  secret <~ lift (path_uuid secret_id);;
  transaction (
    found <~ load_secret (account_id auth) project service secret;;
    response <~ lift (ok_or found not_found);;
    tret (Ok response)).

Definition get_secret_version (auth : Authenticated) (project_id service_id secret_id version_id : string)
    : M VaultDb SecretVersionMetadata :=
  project <~ lift (path_uuid project_id);;
  service <~ lift (path_uuid service_id);;
  secret <~ lift (path_uuid secret_id);;
  version <~ lift (path_uuid version_id);;
  d <~ get_db;;
  match (v ← version_rows d !! version; x ← vt_versions d !! version;
         if (sv_account v =? account_id auth)%N && (sv_project v =? project)%N
            && (sv_service v =? service)%N && (sv_secret v =? secret)%N then Some x else None) with
  | None => raise not_found
  | Some x => lift (version_metadata version secret x)
  end.

(** ** Creating a secret *)

Definition secret_body (r : StoredResponse) : option SecretMetadata :=
  match st_body r with BodySecret m => Some m | BodyVersion _ => None end.
Definition version_body (r : StoredResponse) : option SecretVersionMetadata :=
  match st_body r with BodyVersion m => Some m | BodySecret _ => None end.

(** The insert: a row the database refuses because it exists is a conflict. *)
Definition insert_secret (secret : Uuid) (s : SecretRow) (x : SecretDetail) : M VaultDb unit :=
  d <~ get_db;;
  if negb (secret_check s && detail_check x) then raise database_unavailable
  else if bool_decide (is_Some (secret_rows d !! secret)) || exists_row (same_name s) (secret_rows d)
  then raise (conflict "secret_already_exists" "a secret with this scope and name already exists")
  else if negb (bool_decide ((s_account s, s_project s, s_service s) ∈ services (vt_jobs d)))
  then raise database_unavailable
  else
    put_db (set_vt_secrets (<[secret := x]> (vt_secrets d))
      (set_vt_jobs (set_secrets (<[secret := s]> (secret_rows d)) (vt_jobs d)) d)).

Definition create_secret (auth : Authenticated) (project_id service_id : string) (headers : Headers)
    (q : CreateSecretRequest) : M VaultDb SecretMetadata :=
  _ <~ lift (validate_secret_request q);;
  let account := account_id auth in
  project <~ lift (path_uuid project_id);;
  service <~ lift (path_uuid service_id);;
  key <~ lift (idempotency_key headers);;
  let hash := v_request_hash V q in
  let operation := CREATE_SECRET_OPERATION +:+ "/" +:+ v_uuid_text V project +:+ "/" +:+ v_uuid_text V service in
  let note := audit (D := VaultDb) (B := StoredResponse) account (session_id auth)
                CREATE_SECRET_OPERATION "secret" in
  transaction (
    begun <~ clock_timestamp;;
    prior <~ replay secret_body account operation key hash;;
    match prior with
    | Match response => tret (Ok response)
    | Changed => note None "idempotency_conflict";;; tret (Err idempotency_changed)
    | Miss =>
        d <~ get_db;;
        if negb (bool_decide ((account, project, service) ∈ services (vt_jobs d))) then
          note None "denied";;; tret (Err not_found)
        else
        secret <~ new_uuid;;
        let s := {| s_account := account; s_project := project; s_service := service;
                    s_name := trimmed (csr_name q); s_operation := csr_operation q;
                    s_credential_kind := csr_credential_kind q; s_active := true |} in
        let x := {| sd_revision := 1; sd_created := begun |} in
        insert_secret secret s x;;;
        response <~ lift (metadata secret s x);;
        note (Some secret) "succeeded";;;
        store_replay account operation key hash 201 {| st_key_version := None; st_body := BodySecret response |};;;
        tret (Ok response)
    end).

(** ** Creating a version *)

Definition secret_replay (account : Uuid) (operation key fingerprint key_version : string)
    : M VaultDb (Replay SecretVersionMetadata) :=
  d <~ get_db;;
  match vt_idem d !! (account, operation, key) with
  | None => tret Miss
  | Some row =>
      match st_key_version (response_body row) with
      | None => raise foundation_unavailable
      | Some stored =>
          if negb (bool_decide (stored = key_version)) then raise foundation_unavailable
          else if negb (bool_decide (request_hash row = fingerprint)) then tret Changed
          else match version_body (response_body row) with
               | Some m => tret (Match m)
               | None => raise internal
               end
      end
  end.

Definition store_secret_replay (account : Uuid) (operation key fingerprint key_version : string)
    (m : SecretVersionMetadata) : M VaultDb unit :=
  store_replay account operation key fingerprint 201
    {| st_key_version := Some key_version; st_body := BodyVersion m |}.

(** [COALESCE(MAX(version_number), 0) + 1]. *)
Definition next_version d (secret : Uuid) : option Z :=
  bigint_succ (fold_right Z.max 0%Z (version_numbers d secret)).

Definition insert_version (version : Uuid) (v : SecretVersionRow) (x : VersionDetail) : M VaultDb unit :=
  d <~ get_db;;
  if version_check v x && bool_decide (version_rows d !! version = None)
     && negb (bool_decide (vd_number x ∈ version_numbers d (sv_secret v)))
     && match secret_rows d !! sv_secret v with
        | Some s => in_secret_scope (sv_account v) (sv_project v) (sv_service v) s
        | None => false
        end
  then put_db (set_vt_versions (<[version := x]> (vt_versions d))
         (set_vt_jobs (set_secret_versions (<[version := v]> (version_rows d)) (vt_jobs d)) d))
  else raise database_unavailable.

(** [UPDATE secrets SET revision = revision + 1 WHERE ...]. *)
Definition bump_revision (account project service secret : Uuid) : M VaultDb unit :=
  d <~ get_db;;
  '(t, _) <~ sql (update_pk detail_check
     (fun _ => bool_decide (is_Some (secret_in d account project service secret)))
     (fun x => r ← bigint_succ (sd_revision x); Some {| sd_revision := r; sd_created := sd_created x |})
     secret (vt_secrets d));;
  put_db (set_vt_secrets t d).

Definition seal_version (key : SecretKey) (account project service secret : Uuid) (s : SecretRow)
    (value : string) (begun : Z) : M VaultDb SecretVersionMetadata :=
  d <~ get_db;;
  number <~ sql (next_version d secret);;
  version <~ new_uuid;;
  let aad := secret_aad account project service (s_operation s) (s_credential_kind s) secret version in
  encrypted <~ encrypt key aad (as_bytes value);;
  let x := {| vd_number := number; vd_created := begun |} in
  insert_version version {|
    sv_account := account; sv_project := project; sv_service := service; sv_secret := secret;
    sv_key_version := key_version key; sv_nonce := ev_nonce encrypted;
    sv_ciphertext := ev_ciphertext encrypted; sv_auth_tag := ev_auth_tag encrypted |} x;;;
  bump_revision account project service secret;;;
  lift (version_metadata version secret x).

Definition create_secret_version (secret_key : option SecretKey) (auth : Authenticated)
    (project_id service_id secret_id : string) (headers : Headers) (value : string)
    : M VaultDb SecretVersionMetadata :=
  _ <~ lift (validate_secret_value value);;
  let account := account_id auth in
  project <~ lift (path_uuid project_id);;
  service <~ lift (path_uuid service_id);;
  secret <~ lift (path_uuid secret_id);;
  idempotency <~ lift (idempotency_key headers);;
  expected_revision <~ lift (if_match_revision headers);;
  key <~ lift (ok_or secret_key foundation_unavailable);;
  let fingerprint := replay_fingerprint key
    (version_request_bytes account project service secret (as_bytes value)) in
  let operation := CREATE_VERSION_OPERATION +:+ "/" +:+ v_uuid_text V secret in
  let note := audit (D := VaultDb) (B := StoredResponse) account (session_id auth)
                CREATE_VERSION_OPERATION "secret_version" in
  transaction (
    begun <~ clock_timestamp;;
    prior <~ secret_replay account operation idempotency fingerprint (key_version key);;
    match prior with
    | Match response => tret (Ok response)
    | Changed => note None "idempotency_conflict";;; tret (Err idempotency_changed)
    | Miss =>
        d <~ get_db;;
        match secret_in d account project service secret with
        | Some (s, x) =>
            if negb (s_active s) then note None "denied";;; tret (Err not_found)
            else if negb (sd_revision x =? expected_revision)%Z then
              note None "stale_revision";;; tret (Err stale_revision)
            else
              response <~ seal_version key account project service secret s value begun;;
              note (Some (vm_id response)) "succeeded";;;
              store_secret_replay account operation idempotency fingerprint (key_version key) response;;;
              tret (Ok response)
        | None => note None "denied";;; tret (Err not_found)
        end
    end).
End Handlers.
