(* ===== verification/VaultSpec.v ===== *)
(** * What the secrets promise

    The steps that requests to secrets and to jobs take over the tables of both, and
    their invariant: every secret has its versions numbered from one without gaps, its
    revision is one above their number, and every version opens under the key. *)

From stdpp Require Import base list option gmap strings relations.
From Stdlib Require Import ZArith Lia.
From S2P Require Import Prelude RustText Bytes PgTx Intent Secrets Jobs JobsSpec JobsFrame Vault.

Local Open Scope string_scope.
Local Open Scope list_scope.
Implicit Types d : VaultDb.

(** ** Abstract steps *)

Definition secret_scope (s : SecretRow) : Uuid * Uuid * Uuid := (s_account s, s_project s, s_service s).
Definition version_scope (v : SecretVersionRow) : Uuid * Uuid * Uuid := (sv_account v, sv_project v, sv_service v).

Definition add_secret (secret : Uuid) (s : SecretRow) (x : SecretDetail) d : VaultDb :=
  set_vt_secrets (<[secret := x]> (vt_secrets d))
    (set_vt_jobs (set_secrets (<[secret := s]> (secret_rows d)) (vt_jobs d)) d).
Definition add_version (version : Uuid) (v : SecretVersionRow) (x : VersionDetail) d : VaultDb :=
  set_vt_versions (<[version := x]> (vt_versions d))
    (set_vt_jobs (set_secret_versions (<[version := v]> (version_rows d)) (vt_jobs d)) d).
Definition revise (secret : Uuid) (x : SecretDetail) d : VaultDb :=
  set_vt_secrets (<[secret := x]> (vt_secrets d)) d.

(** A version opens under its own scope, and what it holds is text. *)
Definition opens (V : VaultExternals) (key : SecretKey) (s : SecretRow) (version : Uuid)
    (v : SecretVersionRow) (value : bytes) : Prop :=
  sv_key_version v = key_version key /\ utf8_valid value = true /\
  decrypt (v_open V) key
    (secret_aad (sv_account v) (sv_project v) (sv_service v) (s_operation s) (s_credential_kind s)
       (sv_secret v) version) (sv_nonce v) (sv_ciphertext v) (sv_auth_tag v) = Some value.

Section Steps.
Context (V : VaultExternals) (key : SecretKey).

Inductive vault_step d d' : Prop :=
| vs_jobs : job_move (vt_jobs d) (vt_jobs d') -> jobs_ok (vt_jobs d') ->
    vt_secrets d' = vt_secrets d -> vt_versions d' = vt_versions d ->
    vt_idem d' = vt_idem d -> vault_step d d'
| vs_services t : services (vt_jobs d) ⊆ t ->
    d' = set_vt_jobs (MkJobsDb t (secrets (vt_jobs d)) (secret_versions (vt_jobs d)) (jobs (vt_jobs d))
      (attempts (vt_jobs d)) (secret_refs (vt_jobs d)) (effects (vt_jobs d)) (idem (vt_jobs d)) (audits (vt_jobs d))) d ->
    vault_step d d'
| vs_secret secret s x k r l m :
    secret_rows d !! secret = None ->
    (forall id t, secret_rows d !! id = Some t -> same_name s t = false) ->
    secret_scope s ∈ services (vt_jobs d) -> secret_check s = true -> s_active s = true ->
    sd_revision x = 1%Z -> vt_idem d !! k = None -> k.1.1 = s_account s ->
    st_body (response_body r) = BodySecret m -> metadata secret s x = Ok m ->
    d' = set_audit_events l (set_vt_idem (<[k := r]> (vt_idem d)) (add_secret secret s x d)) ->
    vault_step d d'
| vs_version version v secret s x y k r l m value :
    version_rows d !! version = None -> secret_rows d !! secret = Some s -> vt_secrets d !! secret = Some x ->
    sv_secret v = secret -> version_scope v = secret_scope s -> version_check v y = true ->
    vd_number y = sd_revision x -> (sd_revision x < max_i64)%Z -> opens V key s version v value ->
    vt_idem d !! k = None -> k.1.1 = s_account s ->
    st_body (response_body r) = BodyVersion m -> version_metadata version secret y = Ok m ->
    d' = set_audit_events l (set_vt_idem (<[k := r]> (vt_idem d))
           (revise secret {| sd_revision := (sd_revision x + 1)%Z; sd_created := sd_created x |}
              (add_version version v y d))) ->
    vault_step d d'.

(** ** The invariant *)

Record secret_ok d (id : Uuid) (s : SecretRow) : Prop := {
  so_detail : exists x, vt_secrets d !! id = Some x /\ (1 <= sd_revision x <= max_i64)%Z;
  so_check : secret_check s = true;
  so_active : s_active s = true;
  so_service : secret_scope s ∈ services (vt_jobs d);
}.

Record version_ok d (id : Uuid) (v : SecretVersionRow) : Prop := {
  vk_rows : exists y s x, vt_versions d !! id = Some y /\ secret_rows d !! sv_secret v = Some s /\
    vt_secrets d !! sv_secret v = Some x /\ version_scope v = secret_scope s /\
    version_check v y = true /\ (vd_number y < sd_revision x)%Z;
  vk_opens : forall s, secret_rows d !! sv_secret v = Some s -> exists value, opens V key s id v value;
}.

(** The version of a secret with a number. *)
Definition numbered d (secret : Uuid) (n : Z) (id : Uuid) : Prop :=
  exists v y, version_rows d !! id = Some v /\ sv_secret v = secret /\
    vt_versions d !! id = Some y /\ vd_number y = n.

(** A stored response names rows of the account it was stored for. *)
Definition response_ok d (account : Uuid) (r : IdemRow StoredResponse) : Prop :=
  match st_body (response_body r) with
  | BodySecret m => exists s, secret_rows d !! sm_id m = Some s /\ s_account s = account /\ sm_name m = s_name s
  | BodyVersion m => exists v, numbered d (vm_secret m) (vm_version m) (vm_id m) /\
      version_rows d !! vm_id m = Some v /\ sv_account v = account
  end.

Record vault_ok d : Prop := {
  vo_jobs : jobs_ok (vt_jobs d);
  vo_secrets : forall id s, secret_rows d !! id = Some s -> secret_ok d id s;
  vo_details : forall id x, vt_secrets d !! id = Some x -> is_Some (secret_rows d !! id);
  vo_names : forall i j s t, secret_rows d !! i = Some s -> secret_rows d !! j = Some t -> same_name s t = true -> i = j;
  vo_versions : forall id v, version_rows d !! id = Some v -> version_ok d id v;
  vo_version_details : forall id y, vt_versions d !! id = Some y -> is_Some (version_rows d !! id);
  vo_numbers : forall secret x n, vt_secrets d !! secret = Some x -> (1 <= n < sd_revision x)%Z ->
    exists id, numbered d secret n id;
  vo_unique : forall secret n i j, numbered d secret n i -> numbered d secret n j -> i = j;
  vo_refs : forall k r, secret_refs (vt_jobs d) !! k = Some r -> ref_bound (vt_jobs d) k r;
  vo_replays : forall k r, vt_idem d !! k = Some r -> response_ok d k.1.1 r;
}.
End Steps.

(** ** The invariant is inductive *)

Section Invariant.
Context (V : VaultExternals) (key : SecretKey).

Lemma same_name_refl s : same_name s s = true.
Proof. unfold same_name. by rewrite !N.eqb_refl, !bool_decide_eq_true_2. Qed.

Lemma same_name_sym s t : same_name s t = same_name t s.
Proof.
  unfold same_name. rewrite (N.eqb_sym (s_account s)), (N.eqb_sym (s_project s)), (N.eqb_sym (s_service s)).
  f_equal; [f_equal; [f_equal|]|]; apply bool_decide_ext; split; congruence.
Qed.

(** What a new state must keep for the rows that were there: their tables grow, and a
    revision never falls. *)
Record grows d d' : Prop := {
  gw_secrets : forall id s, secret_rows d !! id = Some s -> secret_rows d' !! id = Some s;
  gw_versions : forall id v, version_rows d !! id = Some v -> version_rows d' !! id = Some v;
  gw_numbers : forall id y, vt_versions d !! id = Some y -> vt_versions d' !! id = Some y;
  gw_details : forall id x, vt_secrets d !! id = Some x -> exists x', vt_secrets d' !! id = Some x' /\
    (sd_revision x <= sd_revision x')%Z /\ ((sd_revision x <= max_i64)%Z -> (sd_revision x' <= max_i64)%Z);
  gw_services : services (vt_jobs d) ⊆ services (vt_jobs d');
  gw_jobs : forall id j, jobs (vt_jobs d) !! id = Some j ->
    exists j', jobs (vt_jobs d') !! id = Some j' /\ job_identity j' = job_identity j;
  gw_replays : forall k r, vt_idem d !! k = Some r -> vt_idem d' !! k = Some r;
}.

#[export] Instance grows_preorder : PreOrder grows.
Proof.
  split; [intros d; split; eauto; intros id x Hx; exists x; split_and!; auto; lia|].
  intros d1 d2 d3 [S1 V1 N1 D1 C1 J1 R1] [S2 V2 N2 D2 C2 J2 R2]. split; eauto.
  - intros id x Hx. destruct (D1 _ _ Hx) as (x2 & H2 & L2 & B2). destruct (D2 _ _ H2) as (x3 & H3 & L3 & B3).
    exists x3. split_and!; [done|lia|auto].
  - by transitivity (services (vt_jobs d2)).
  - intros id j Hj. destruct (J1 _ _ Hj) as (j2 & H2 & <-). eauto.
Qed.

Lemma secret_ok_grows d d' id s : grows d d' -> secret_ok d id s -> secret_ok d' id s.
Proof.
  intros G [(x & Hx & Hb) Hc Ha Hs]. split; [|done|done|by apply (gw_services _ _ G)].
  destruct (gw_details _ _ G _ _ Hx) as (x' & Hx' & Hl & Hm). exists x'. split; [done|]. lia.
Qed.

Lemma version_ok_grows d d' id v : grows d d' -> version_ok V key d id v -> version_ok V key d' id v.
Proof.
  intros G [(y & s & x & Hy & Hs & Hx & Hsc & Hc & Hn) Ho]. split.
  - destruct (gw_details _ _ G _ _ Hx) as (x' & Hx' & Hl & _). exists y, s, x'.
    split_and!; eauto using gw_numbers, gw_secrets; lia.
  - intros s' Hs'. apply (gw_secrets _ _ G) in Hs as Hs2. rewrite Hs' in Hs2. injection Hs2 as ->. eauto.
Qed.

Lemma numbered_grows d d' secret n id : grows d d' -> numbered d secret n id -> numbered d' secret n id.
Proof. intros G (v & y & ? & ? & ? & ?). exists v, y. split_and!; eauto using gw_versions, gw_numbers. Qed.

Lemma response_ok_grows d d' account r : grows d d' -> response_ok d account r -> response_ok d' account r.
Proof.
  intros G. unfold response_ok. destruct (st_body _).
  - intros (s & ? & ? & ?). exists s. split_and!; eauto using gw_secrets.
  - intros (v & ? & ? & ?). exists v. split_and!; eauto using gw_versions, numbered_grows.
Qed.

Lemma ref_bound_grows d d' k r : grows d d' -> ref_bound (vt_jobs d) k r -> ref_bound (vt_jobs d') k r.
Proof. intros []. by apply ref_bound_mono. Qed.

Lemma vault_step_grows d d' : vault_ok V key d -> vault_step V key d d' -> grows d d'.
Proof.
  intros Hok. assert (Hsame : forall (x : SecretDetail), (sd_revision x <= sd_revision x /\
    (sd_revision x <= max_i64 -> sd_revision x <= max_i64))%Z) by (intros; lia).
  assert (Hfresh : forall {A} (t : gmap Uuid A) i a, t !! i = None -> forall j b, t !! j = Some b -> <[i := a]> t !! j = Some b).
  { intros A t i a Hn j b Hb. rewrite lookup_insert_ne; [done|]. intros <-. congruence. }
  destruct 1 as [Hm _ Es Ev Ei|t Ht ->|secret s x k r l m Hn _ _ _ _ _ Hk _ _ _ ->
    |version v secret s x y k r l m value Hn Hs Hx _ _ _ _ Hb _ Hk _ _ _ ->].
  - destruct Hm as [Ec E1 E2 ? _ _]. split; unfold secret_rows, version_rows;
      rewrite ?Es, ?Ev, ?Ei, ?Ec, ?E1, ?E2; eauto.
  - split; cbn; eauto.
  - split; cbn; eauto.
    + intros id y Hy. exists y. split; [|done]. rewrite lookup_insert_ne; [done|]. intros <-.
      destruct (vo_details _ _ _ Hok _ _ Hy). congruence.
    + intros k0 r0 Hr. rewrite lookup_insert_ne; [done|]. intros <-. congruence.
  - split; cbn; eauto.
    + intros id y0 Hy. rewrite lookup_insert_ne; [done|]. intros <-.
      destruct (vo_version_details _ _ _ Hok _ _ Hy). congruence.
    + intros id y0 Hy. rewrite lookup_insert. case_decide; [|eauto]. subst id. rewrite Hx in Hy. injection Hy as <-.
      eexists. split; [done|]. cbn. lia.
    + intros k0 r0 Hr. rewrite lookup_insert_ne; [done|]. intros <-. congruence.
Qed.

Lemma jobs_ok_same_tables j j' : jobs j' = jobs j -> attempts j' = attempts j -> effects j' = effects j ->
  jobs_ok j -> jobs_ok j'.
Proof. intros. by eapply same_ok. Qed.

(** The rows of secrets and versions stay, and so do the references. *)
Lemma quiet_rows_ok d d' : vault_ok V key d -> grows d d' -> jobs_ok (vt_jobs d') ->
  secret_rows d' = secret_rows d -> version_rows d' = version_rows d ->
  vt_secrets d' = vt_secrets d -> vt_versions d' = vt_versions d -> vt_idem d' = vt_idem d ->
  (forall k r, secret_refs (vt_jobs d') !! k = Some r -> ref_bound (vt_jobs d') k r) -> vault_ok V key d'.
Proof.
  intros [] G Hj Es Ev Ex Ey Ei Hr. split; rewrite ?Es, ?Ev, ?Ex, ?Ey, ?Ei; try done.
  - eauto using secret_ok_grows.
  - eauto using version_ok_grows.
  - intros secret x n Hx Hn. destruct (vo_numbers0 _ _ _ Hx Hn). eauto using numbered_grows.
  - unfold numbered. rewrite Ev, Ey. done.
  - eauto using response_ok_grows.
Qed.

(** A stored response for account [k.1.1] joins those that were stored. *)
Lemma replays_grow d d' k r : grows d d' -> (forall k r, vt_idem d !! k = Some r -> response_ok d k.1.1 r) ->
  vt_idem d' = <[k := r]> (vt_idem d) -> response_ok d' k.1.1 r ->
  forall k0 r0, vt_idem d' !! k0 = Some r0 -> response_ok d' k0.1.1 r0.
Proof.
  intros G Hold E Hr k0 r0. rewrite E, lookup_insert. case_decide; [by intros [= <-]; subst|].
  intros Hk. eapply response_ok_grows; eauto.
Qed.

Lemma add_secret_ok d d' secret s x k r l m :
  vault_ok V key d -> grows d d' -> secret_rows d !! secret = None ->
  (forall id t, secret_rows d !! id = Some t -> same_name s t = false) ->
  secret_scope s ∈ services (vt_jobs d) -> secret_check s = true -> s_active s = true ->
  sd_revision x = 1%Z -> k.1.1 = s_account s -> st_body (response_body r) = BodySecret m ->
  metadata secret s x = Ok m ->
  d' = set_audit_events l (set_vt_idem (<[k := r]> (vt_idem d)) (add_secret secret s x d)) -> vault_ok V key d'.
Proof.
  intros Hok G Hn Hu Hsv Hc Ha Hx Hka Hb Hmd E.
  assert (Es : secret_rows d' = <[secret := s]> (secret_rows d)) by (by subst d').
  assert (Ex : vt_secrets d' = <[secret := x]> (vt_secrets d)) by (by subst d').
  assert (Ev : version_rows d' = version_rows d) by (by subst d').
  assert (Ey : vt_versions d' = vt_versions d) by (by subst d').
  assert (Eb : forall s n i, numbered d' s n i <-> numbered d s n i) by (intros; unfold numbered; by rewrite Ev, Ey).
  split.
  - apply (jobs_ok_same_tables (vt_jobs d)); [by subst d'..|apply Hok].
  - intros id t. rewrite Es, lookup_insert. case_decide; intros Ht; [|eapply secret_ok_grows; eauto using vo_secrets].
    injection Ht as <-. subst id. split; [|done|done|by subst d']. exists x.
    rewrite Ex, lookup_insert_eq, Hx. unfold max_i64. split; [done|lia].
  - intros id y. rewrite Ex, Es, !lookup_insert. case_decide; [by eauto|]. apply (vo_details _ _ _ Hok).
  - intros i j t u. rewrite Es, !lookup_insert. repeat case_decide; intros Ht Hu'; simplify_eq; intros Hname.
    + done.
    + rewrite (Hu _ _ Hu') in Hname. done.
    + rewrite same_name_sym, (Hu _ _ Ht) in Hname. done.
    + eapply (vo_names _ _ _ Hok); eauto.
  - intros id v. rewrite Ev. intros Hv. eapply version_ok_grows; eauto using vo_versions.
  - intros id y. rewrite Ev, Ey. apply (vo_version_details _ _ _ Hok).
  - intros id y n. rewrite Ex, lookup_insert. case_decide; [intros [= <-]; lia|].
    intros Hy Hr. destruct (vo_numbers _ _ _ Hok _ _ _ Hy Hr) as (i & Hi). exists i. by apply Eb.
  - intros id n i j Hi Hj. eapply (vo_unique _ _ _ Hok); by apply Eb.
  - intros k0 r0 Hr. eapply ref_bound_grows; [done|]. apply (vo_refs _ _ _ Hok). by subst d'.
  - eapply replays_grow; [done|apply Hok|by subst d'|]. unfold response_ok. rewrite Hb. exists s.
    unfold metadata in Hmd. apply res_bind_Ok in Hmd as (? & _ & [= <-]). cbn.
    by rewrite Es, lookup_insert_eq.
Qed.

Lemma add_version_ok d d' version v secret s x y k r l m value :
  vault_ok V key d -> grows d d' -> version_rows d !! version = None ->
  secret_rows d !! secret = Some s -> vt_secrets d !! secret = Some x ->
  sv_secret v = secret -> version_scope v = secret_scope s -> version_check v y = true ->
  vd_number y = sd_revision x -> (sd_revision x < max_i64)%Z -> opens V key s version v value ->
  k.1.1 = s_account s -> st_body (response_body r) = BodyVersion m -> version_metadata version secret y = Ok m ->
  d' = set_audit_events l (set_vt_idem (<[k := r]> (vt_idem d))
         (revise secret {| sd_revision := (sd_revision x + 1)%Z; sd_created := sd_created x |}
            (add_version version v y d))) -> vault_ok V key d'.
Proof.
  intros Hok G Hn Hs Hx Hvs Hsc Hc Hnum Hmax Hop Hka Hb Hmd E.
  assert (Es : secret_rows d' = secret_rows d) by (by subst d').
  assert (Ex : vt_secrets d' = <[secret := {| sd_revision := (sd_revision x + 1)%Z; sd_created := sd_created x |}]>
    (vt_secrets d)) by (by subst d').
  assert (Ev : version_rows d' = <[version := v]> (version_rows d)) by (by subst d').
  assert (Ey : vt_versions d' = <[version := y]> (vt_versions d)) by (by subst d').
  assert (Hnew : numbered d' secret (sd_revision x) version).
  { exists v, y. by rewrite Ev, Ey, !lookup_insert_eq. }
  assert (Hold : forall t n i, numbered d' t n i -> i = version /\ t = secret /\ n = sd_revision x \/ numbered d t n i).
  { intros t n i (v0 & y0 & Hv0 & <- & Hy0 & <-). rewrite Ev, lookup_insert in Hv0. rewrite Ey, lookup_insert in Hy0.
    case_decide; simplify_eq; [by left|]. right. by exists v0, y0. }
  assert (Hbelow : forall n i, numbered d secret n i -> (n < sd_revision x)%Z).
  { intros n i (v0 & y0 & Hv0 & <- & Hy0 & <-). destruct (vo_versions _ _ _ Hok _ _ Hv0) as [(y1 & s1 & x1 & H1 & H2 & H3 & _ & _ & H4) _].
    congruence. }
  split.
  - apply (jobs_ok_same_tables (vt_jobs d)); [by subst d'..|apply Hok].
  - intros id t. rewrite Es. intros Ht. eapply secret_ok_grows; eauto using vo_secrets.
  - intros id z. rewrite Ex, Es, lookup_insert. case_decide; [subst; by eauto|]. apply (vo_details _ _ _ Hok).
  - rewrite Es. apply (vo_names _ _ _ Hok).
  - intros id u. rewrite Ev, lookup_insert. case_decide; intros Hu; [|eapply version_ok_grows; eauto using vo_versions].
    injection Hu as <-. subst id. split.
    + eexists y, s, _. rewrite Ey, Es, Ex, Hvs, !lookup_insert_eq. split_and!; try done. cbn. lia.
    + rewrite Es, Hvs. intros t Ht. exists value. congruence.
  - intros id z. rewrite Ey, Ev, !lookup_insert. case_decide; [by eauto|]. apply (vo_version_details _ _ _ Hok).
  - intros id z n. rewrite Ex, lookup_insert. case_decide.
    + intros [= <-] Hr. cbn in Hr. subst id. destruct (decide (n = sd_revision x)) as [->|]; [by exists version|].
      destruct (vo_numbers _ _ _ Hok _ _ n Hx) as (i & Hi); [lia|]. exists i. by eapply numbered_grows.
    + intros Hz Hr. destruct (vo_numbers _ _ _ Hok _ _ _ Hz Hr) as (i & Hi). exists i. by eapply numbered_grows.
  - intros t n i j [(-> & -> & ->)|Hi]%Hold [(-> & Ht & Hj')|Hj]%Hold; [done| | |].
    + apply Hbelow in Hj. lia.
    + subst. apply Hbelow in Hi. lia.
    + by eapply (vo_unique _ _ _ Hok).
  - intros k0 r0 Hr. eapply ref_bound_grows; [done|]. apply (vo_refs _ _ _ Hok). by subst d'.
  - eapply replays_grow; [done|apply Hok|by subst d'|]. unfold response_ok. rewrite Hb. exists v.
    unfold version_metadata in Hmd. apply res_bind_Ok in Hmd as (? & Hz & [= <-]). cbn.
    unfold as_u64 in Hz. case_hyp Hz; [done|]. injection Hz as <-. rewrite Hnum.
    split_and!; [done|by rewrite Ev, lookup_insert_eq|]. injection Hsc as -> _ _. done.
Qed.

Lemma vault_step_ok d d' : vault_step V key d d' -> vault_ok V key d -> vault_ok V key d'.
Proof.
  intros Hstep Hok. pose proof (vault_step_grows _ _ Hok Hstep) as G.
  destruct Hstep as [Hm Hj Es Ev Ei|t Ht ->|secret s x k r l m|version v secret s x y k r l m value].
  - eapply quiet_rows_ok; eauto using jm_secrets, jm_versions.
    intros k r Hr. destruct (jm_refs _ _ Hm _ _ Hr) as [Hold|]; [|done].
    eapply ref_bound_grows; [done|by apply (vo_refs _ _ _ Hok)].
  - eapply quiet_rows_ok; eauto; [apply (jobs_ok_same_tables (vt_jobs d)); try done; apply Hok|].
    intros k r Hr. eapply ref_bound_grows; [done|by apply (vo_refs _ _ _ Hok)].
  - by eapply add_secret_ok.
  - by eapply add_version_ok.
Qed.
End Invariant.
