(* ===== verification/VaultSteps.v ===== *)
(** * Requests to secrets take the steps of their specification *)

From stdpp Require Import base list option gmap strings relations.
From Stdlib Require Import ZArith Lia.
From S2P Require Import Prelude RustText Bytes PgTx Intent Secrets Jobs JobsSpec JobsTheorems JobsFrame Vault VaultSpec.

Local Open Scope string_scope.
Local Open Scope list_scope.
Implicit Types d : VaultDb.

(** ** The numbers of a secret's versions *)

Lemma elem_of_version_numbers d secret n : n ∈ version_numbers d secret <-> exists id, numbered d secret n id.
Proof.
  unfold version_numbers, numbered. rewrite list_elem_of_omap. split.
  - intros ([id v] & Hin & H). apply elem_of_map_to_list in Hin. cbn in H. case_hyp H; [|done].
    apply fmap_Some in H as (y & Hy & ->). bool_simpl. exists id, v, y. by subst.
  - intros (id & v & y & Hv & <- & Hy & <-). exists (id, v). split; [by apply elem_of_map_to_list|].
    cbn. by rewrite N.eqb_refl, Hy.
Qed.

Lemma fold_max_le l m : (0 <= m)%Z -> (forall n, n ∈ l -> n <= m)%Z -> (fold_right Z.max 0 l <= m)%Z.
Proof.
  intros Hm. induction l as [|n l IH]; intros Hl; simpl; [done|].
  pose proof (Hl n ltac:(left)). specialize (IH ltac:(intros; apply Hl; by right)). lia.
Qed.

Lemma fold_max_ge l n : n ∈ l -> (n <= fold_right Z.max 0 l)%Z.
Proof. induction 1; simpl; lia. Qed.

Section Numbers.
Context (V : VaultExternals) (key : SecretKey).

(** The next number of a secret's versions is its revision. *)
Lemma next_version_revision d secret x : vault_ok V key d -> vt_secrets d !! secret = Some x ->
  next_version d secret = bigint_succ (sd_revision x - 1).
Proof.
  intros Hok Hx. unfold next_version. f_equal. destruct (vo_details _ _ _ Hok _ _ Hx) as (s & Hs).
  destruct (vo_secrets _ _ _ Hok _ _ Hs) as [(x' & Hx' & Hb) _ _ _]. rewrite Hx in Hx'. injection Hx' as <-.
  apply Z.le_antisymm.
  - apply fold_max_le; [lia|]. intros n (id & v & y & Hv & Hsec & Hy & <-)%elem_of_version_numbers.
    destruct (vo_versions _ _ _ Hok _ _ Hv) as [(y' & s' & x' & H1 & _ & H3 & _ & _ & H5) _].
    rewrite Hsec, Hx in H3. injection H3 as <-. rewrite Hy in H1. injection H1 as <-. lia.
  - destruct (decide (sd_revision x = 1%Z)) as [->|].
    + clear. induction (version_numbers d secret); simpl; lia.
    + apply fold_max_ge, elem_of_version_numbers. eapply (vo_numbers _ _ _ Hok); [done|lia].
Qed.
End Numbers.

(** ** Statements *)

Section Statements.
Context (V : VaultExternals) (env : Env).

Lemma insert_secret_Ok secret s x (w w' : World VaultDb) u :
  insert_secret secret s x env w = (Ok u, w') ->
  secret_check s = true /\ secret_rows (db w) !! secret = None /\
  (forall id t, secret_rows (db w) !! id = Some t -> same_name s t = false) /\
  secret_scope s ∈ services (vt_jobs (db w)) /\ w' = MkWorld (add_secret secret s x (db w)) (ticks w) (drawn w).
Proof.
  unfold insert_secret. intros H. tx_inv H. case_hyp H; [by apply raise_Ok in H|].
  case_hyp H; [by apply raise_Ok in H|]. case_hyp H; [by apply raise_Ok in H|]. tx_inv H.
  apply negb_false_iff, andb_true_iff in Heqb as [Hc _]. apply orb_false_iff in Heqb0 as [Hn Hu].
  apply bool_decide_eq_false, eq_None_not_Some in Hn. apply negb_false_iff, bool_decide_eq_true in Heqb1.
  split_and!; try done. by apply exists_row_false.
Qed.

Lemma encrypt_Ok key aad plaintext (w w' : World VaultDb) e :
  encrypt V key aad plaintext env w = (Ok e, w') ->
  db w' = db w /\ v_seal V (key_bytes key) (ev_nonce e) aad plaintext = Some (ev_ciphertext e, ev_auth_tag e).
Proof.
  unfold encrypt. intros H. tx_inv H. destruct (v_seal _ _ _ _ _) as [[c t]|] eqn:Es; [|by apply raise_Ok in H].
  by tx_inv H.
Qed.

Lemma insert_version_Ok version v y (w w' : World VaultDb) u :
  insert_version version v y env w = (Ok u, w') ->
  version_check v y = true /\ version_rows (db w) !! version = None /\
  w' = MkWorld (add_version version v y (db w)) (ticks w) (drawn w).
Proof.
  unfold insert_version. intros H. tx_inv H. case_hyp H; [|by apply raise_Ok in H]. tx_inv H.
  bool_simpl. done.
Qed.

Lemma secret_in_Some d account project service secret s x :
  secret_in d account project service secret = Some (s, x) <->
  secret_rows d !! secret = Some s /\ vt_secrets d !! secret = Some x /\ secret_scope s = (account, project, service).
Proof.
  unfold secret_in, in_secret_scope, secret_scope. split.
  - intros H. apply bind_Some in H as (s' & Hs & H). apply bind_Some in H as (x' & Hx & H).
    case_match; [|done]. injection H as <- <-. bool_simpl. split_and!; congruence.
  - intros (-> & -> & [= <- <- <-]). cbn. by rewrite !N.eqb_refl.
Qed.

Lemma bump_revision_Ok account project service secret s x (w w' : World VaultDb) u :
  bump_revision account project service secret env w = (Ok u, w') ->
  secret_in (db w) account project service secret = Some (s, x) ->
  (sd_revision x < max_i64)%Z /\
  w' = MkWorld (revise secret {| sd_revision := (sd_revision x + 1)%Z; sd_created := sd_created x |} (db w))
         (ticks w) (drawn w).
Proof.
  unfold bump_revision. intros H Hin. tx_inv H. case_hyp H. tx_inv H.
  apply secret_in_Some in Hin as Hs. destruct Hs as (_ & Hx & _).
  apply update_pk_Some in E as [(_ & _ & Hn)|(_ & x1 & x2 & Hx1 & _ & Hf & _ & ->)].
  - specialize (Hn _ Hx). rewrite Hin in Hn. by rewrite bool_decide_eq_true_2 in Hn.
  - rewrite Hx in Hx1. injection Hx1 as <-. apply bind_Some in Hf as (r & [-> ?]%bigint_succ_Some & [= <-]).
    split; [lia|done].
Qed.
End Statements.

(** ** Handlers *)

(** The cipher's round trip, documented for XChaCha20-Poly1305. *)
Definition cipher_opens (V : VaultExternals) : Prop := forall key nonce aad plaintext ciphertext tag,
  v_seal V key nonce aad plaintext = Some (ciphertext, tag) ->
  v_open V key nonce aad ciphertext tag = Some plaintext.

Lemma sealed_opens V key nonce aad plaintext ciphertext tag : cipher_opens V ->
  v_seal V (key_bytes key) nonce aad plaintext = Some (ciphertext, tag) ->
  length nonce = 24%nat -> length tag = 16%nat ->
  decrypt (v_open V) key aad nonce ciphertext tag = Some plaintext.
Proof. intros Hc Hs Hn Ht. unfold decrypt. rewrite Hn, Ht. by apply Hc. Qed.

Lemma version_check_lengths v y :
  version_check v y = true -> length (sv_nonce v) = 24%nat /\ length (sv_auth_tag v) = 16%nat.
Proof. unfold version_check. intros H. bool_simpl. split; by apply Nat.eqb_eq. Qed.

(** Nothing changed but the audit trail. *)
Definition quiet d d' : Prop := exists l, d' = set_audit_events l d.

Lemma quiet_refl d : quiet d d.
Proof. exists (audit_events d). by destruct d as [[]]. Qed.
Lemma quiet_same d d' : d' = d -> quiet d d'.
Proof. intros ->. apply quiet_refl. Qed.
Lemma quiet_audit actor session et tt ti oc env (w w' : World VaultDb) u :
  audit (D := VaultDb) (B := StoredResponse) actor session et tt ti oc env w = (Ok u, w') -> quiet (db w) (db w').
Proof. intros H. apply audit_Ok in H as (ev & ->). by eexists. Qed.
#[export] Hint Resolve quiet_refl quiet_same quiet_audit : hostlet.

Section Requests.
Context (V : VaultExternals) (key : SecretKey) (env : Env).

Lemma quiet_step d d' : vault_ok V key d -> quiet d d' -> vault_step V key d d'.
Proof.
  intros Hok (l & ->). apply vs_jobs; try done; [by apply job_move_same|].
  apply (jobs_ok_same_tables (vt_jobs d)); try done. apply Hok.
Qed.

(** What a request that created a secret did. *)
Record secret_created d d' (m : SecretMetadata) : Prop := {
  sc_step : vault_step V key d d';
  sc_new : secret_rows d !! sm_id m = None;
  sc_there : exists s x, secret_rows d' !! sm_id m = Some s /\ vt_secrets d' !! sm_id m = Some x /\
    metadata (sm_id m) s x = Ok m;
  sc_revision : sm_revision m = 1%Z;
}.

Lemma create_secret_cases auth project_id service_id headers q w r w' :
  create_secret V auth project_id service_id headers q env w = (r, w') ->
  quiet (db w) (db w') \/
  exists m, r = Ok m /\ secret_created (db w) (db w') m /\
    sm_account m = account_id auth /\ sm_name m = trimmed (csr_name q) /\
    sm_operation m = csr_operation q /\ sm_credential_kind m = csr_credential_kind q.
Proof.
  unfold create_secret. intros H.
  apply lift_cases in H as [(e & _ & _ & ->)|(_ & _ & H)]; [auto with hostlet|].
  apply lift_cases in H as [(e & _ & _ & ->)|(project & _ & H)]; [auto with hostlet|].
  apply lift_cases in H as [(e & _ & _ & ->)|(service & _ & H)]; [auto with hostlet|].
  apply lift_cases in H as [(e & _ & _ & ->)|(idk & _ & H)]; [auto with hostlet|].
  apply transaction_cases in H as [(e & -> & ->)|H]; [auto with hostlet|].
  tx_inv H. apply replay_Ok in E as [-> _].
  case_hyp H; [|tx_inv H; auto with hostlet|tx_inv H; left; apply quiet_audit in E as (l & ->); by eexists].
  tx_inv H. case_hyp H; [tx_inv H; left; apply quiet_audit in E as (l & ->); by eexists|].
  tx_inv H. apply insert_secret_Ok in E as (Hc & Hn & Hu & Hs & ->). cbn [db ticks drawn] in *.
  rename E0 into Hmd. apply audit_Ok in E1 as (ev & ->). apply store_replay_Ok in E2 as (Hk & ->).
  cbn [db ticks drawn] in *. right. pose proof Hmd as Hm. unfold metadata in Hm.
  apply res_bind_Ok in Hm as (rv & Hrv & [= <-]). cbn in Hrv. injection Hrv as <-.
  eexists. split_and!; try done. split; cbn; try done.
  - eapply vs_secret; try done; cbn; try done.
  - eexists _, _. rewrite !lookup_insert_eq. split_and!; [done..|]. cbn. done.
Qed.

(** What a request that created a version did: the sealed version is stored, the secret's
    revision moves by one, and the response is kept under the request's key. *)
Record version_created d d' (m : SecretVersionMetadata) (account project service : Uuid) (value : bytes)
    (k : Uuid * string * string) (fingerprint : string) : Prop := {
  vc_secret : exists s x, secret_in d account project service (vm_secret m) = Some (s, x) /\ s_active s = true /\
    vm_version m = sd_revision x /\
    exists v, version_rows d' !! vm_id m = Some v /\ sv_secret v = vm_secret m /\ opens V key s (vm_id m) v value;
  vc_new : version_rows d !! vm_id m = None;
  vc_revision : exists x, vt_secrets d' !! vm_secret m = Some x /\ sd_revision x = (vm_version m + 1)%Z;
  vc_replay : vt_idem d !! k = None /\ vt_idem d' !! k = Some (MkIdemRow fingerprint 201
    {| st_key_version := Some (key_version key); st_body := BodyVersion m |});
}.

Lemma seal_version_Ok account project service secret s x value begun w m w' :
  vault_ok V key (db w) -> cipher_opens V -> utf8_valid (as_bytes value) = true ->
  secret_in (db w) account project service secret = Some (s, x) ->
  seal_version V key account project service secret s value begun env w = (Ok m, w') ->
  exists v y, version_rows (db w) !! vm_id m = None /\ sv_secret v = secret /\
    version_scope v = secret_scope s /\ version_check v y = true /\ vd_number y = sd_revision x /\
    (sd_revision x < max_i64)%Z /\ opens V key s (vm_id m) v (as_bytes value) /\
    version_metadata (vm_id m) secret y = Ok m /\
    db w' = revise secret {| sd_revision := (sd_revision x + 1)%Z; sd_created := sd_created x |}
      (add_version (vm_id m) v y (db w)).
Proof.
  intros Hok Hcipher Hutf Hin H. unfold seal_version in H. tx_inv H.
  apply secret_in_Some in Hin as Hs. destruct Hs as (Hs & Hx & Hsc). injection Hsc as Ha Hp Hse.
  erewrite next_version_revision in E by eauto. apply bigint_succ_Some in E as [-> _].
  apply encrypt_Ok in E0 as [Hdb Hseal]. destruct w0 as [d0 t0 n0]. cbn [db ticks drawn] in *. subst d0.
  apply insert_version_Ok in E1 as (Hc & Hn & ->). cbn [db ticks drawn] in *.
  eapply bump_revision_Ok in E2 as (Hmax & ->); [|exact Hin]. cbn [db].
  pose proof H as Hmd. unfold version_metadata in H. apply res_bind_Ok in H as (n & Hn' & [= <-]).
  eexists _, _. cbn. split_and!; try done.
  { done. }
  { unfold version_scope, secret_scope. cbn. congruence. }
  { cbn. lia. }
  split; [done|]. split; [done|]. apply version_check_lengths in Hc as [H24 H16].
  by apply sealed_opens.
Qed.

Lemma ro_secret_replay account operation k fingerprint kv : read_only (secret_replay account operation k fingerprint kv).
Proof. unfold secret_replay. read_only. Qed.

(** A response that is replayed names a version that exists. *)
Lemma secret_replay_match account operation k fingerprint kv (w w' : World VaultDb) m :
  vault_ok V key (db w) -> secret_replay account operation k fingerprint kv env w = (Ok (Match m), w') ->
  is_Some (version_rows (db w) !! vm_id m).
Proof.
  unfold secret_replay. intros Hok H. tx_inv H. destruct (vt_idem _ !! _) as [row|] eqn:Hrow; [|by tx_inv H].
  case_hyp H; [|by apply raise_Ok in H]. case_hyp H; [by apply raise_Ok in H|].
  case_hyp H; [by tx_inv H|]. case_hyp H; [|by apply raise_Ok in H]. tx_inv H. injection H as ->.
  pose proof (vo_replays _ _ _ Hok _ _ Hrow) as Hr. unfold response_ok, version_body in *.
  case_match; [done|]. simplify_eq. destruct Hr as (v & _ & -> & _). by eexists.
Qed.

Lemma secret_replay_miss account operation k fingerprint kv (w w' : World VaultDb) :
  secret_replay account operation k fingerprint kv env w = (Ok Miss, w') ->
  vt_idem (db w) !! (account, operation, k) = None.
Proof.
  unfold secret_replay. intros H. tx_inv H. destruct (vt_idem _ !! _) as [row|]; [|done].
  case_hyp H; [|by apply raise_Ok in H]. case_hyp H; [by apply raise_Ok in H|].
  case_hyp H; [by tx_inv H|]. case_hyp H; [by tx_inv H|by apply raise_Ok in H].
Qed.

(** The checks a request to create a version passes before its transaction. *)
Record version_request (auth : Authenticated) (project_id service_id secret_id : string) (headers : Headers)
    (value : string) (project service secret : Uuid) (idk : string) (expected : Z) : Prop := {
  vq_value : validate_secret_value value = Ok tt;
  vq_project : v_parse_uuid V project_id = Some project;
  vq_service : v_parse_uuid V service_id = Some service;
  vq_secret : v_parse_uuid V secret_id = Some secret;
  vq_key : idempotency_key headers = Ok idk;
  vq_revision : if_match_revision headers = Ok expected;
}.

Definition version_key (account secret : Uuid) (idk : string) : Uuid * string * string :=
  (account, CREATE_VERSION_OPERATION +:+ "/" +:+ v_uuid_text V secret, idk).
Definition version_fingerprint (account project service secret : Uuid) (value : string) : string :=
  replay_fingerprint V key (version_request_bytes account project service secret (as_bytes value)).

Lemma path_uuid_Ok s id : path_uuid (v_parse_uuid V) s = Ok id -> v_parse_uuid V s = Some id.
Proof. unfold path_uuid. by case_match; intros [= ->] || done. Qed.

Lemma create_version_cases auth project_id service_id secret_id headers value w r w' :
  vault_ok V key (db w) -> cipher_opens V -> utf8_valid (as_bytes value) = true ->
  create_secret_version V (Some key) auth project_id service_id secret_id headers value env w = (r, w') ->
  quiet (db w) (db w') /\ (forall m, r = Ok m -> is_Some (version_rows (db w) !! vm_id m)) \/
  exists m project service secret idk expected, r = Ok m /\
    version_request auth project_id service_id secret_id headers value project service secret idk expected /\
    vm_secret m = secret /\ vm_version m = expected /\ vault_step V key (db w) (db w') /\
    version_created (db w) (db w') m (account_id auth) project service (as_bytes value)
      (version_key (account_id auth) secret idk)
      (version_fingerprint (account_id auth) project service secret value).
Proof.
  intros Hok Hcipher Hutf H. unfold create_secret_version in H.
  apply lift_cases in H as [(e & _ & -> & ->)|([] & Hval & H)]; [by left; split; [apply quiet_refl|]|].
  apply lift_cases in H as [(e & _ & -> & ->)|(project & Hp & H)]; [by left; split; [apply quiet_refl|]|].
  apply lift_cases in H as [(e & _ & -> & ->)|(service & Hs & H)]; [by left; split; [apply quiet_refl|]|].
  apply lift_cases in H as [(e & _ & -> & ->)|(secret & Ht & H)]; [by left; split; [apply quiet_refl|]|].
  apply lift_cases in H as [(e & _ & -> & ->)|(idk & Hi & H)]; [by left; split; [apply quiet_refl|]|].
  apply lift_cases in H as [(e & _ & -> & ->)|(expected & Hr & H)]; [by left; split; [apply quiet_refl|]|].
  apply lift_cases in H as [(e & _ & -> & ->)|(k & [= <-] & H)]; [by left; split; [apply quiet_refl|]|].
  apply transaction_cases in H as [(e & -> & ->)|H]; [by left; split; [apply quiet_refl|]|].
  tx_inv H. apply ro_secret_replay in E as Hro. destruct w0 as [d0 t0 n0]. cbn [db ticks drawn] in *. subst d0.
  case_hyp H; [| |tx_inv H; left; apply quiet_audit in E0 as (l & ->); split; [by exists l|intros m Hm; discriminate Hm]].
  2:{ tx_inv H. left. split; [apply quiet_refl|]. intros m Hm. simplify_eq.
      exact (secret_replay_match _ _ _ _ _ (MkWorld (db w) _ _) _ _ Hok E). }
  apply secret_replay_miss in E. cbn [db] in E. tx_inv H.
  destruct (secret_in _ _ _ _ _) as [[s x]|] eqn:Hin;
    [|tx_inv H; left; apply quiet_audit in E0 as (l & ->); split; [by exists l|intros m Hm; discriminate Hm]].
  case_hyp H; [tx_inv H; left; apply quiet_audit in E0 as (l & ->); split; [by exists l|intros m Hm; discriminate Hm]|].
  case_hyp H; [tx_inv H; left; apply quiet_audit in E0 as (l & ->); split; [by exists l|intros m Hm; discriminate Hm]|].
  tx_inv H. apply audit_Ok in E1 as (ev & ->). apply store_replay_Ok in E2 as (Hfree & ->).
  cbn [db ticks drawn] in *. apply negb_false_iff in Heqb. apply negb_false_iff, Z.eqb_eq in Heqb0.
  eapply seal_version_Ok in E0 as (sv & y & Hn & Hsv & Hsc & Hc & Hnum & Hmax & Hop & Hmd & Hdb); [|done..].
  right. exists v, project, service, secret, idk, expected. cbn [db].
  apply secret_in_Some in Hin as Hrow. destruct Hrow as (Hrow & Hx & Hscope).
  pose proof Hmd as Hm. unfold version_metadata in Hm. apply res_bind_Ok in Hm as (z & Hz & [= Hm]).
  unfold as_u64 in Hz. case_hyp Hz; [done|]. injection Hz as <-.
  assert (Hms : vm_secret v = secret) by (by rewrite <- Hm).
  assert (Hmv : vm_version v = sd_revision x) by (by rewrite <- Hm, <- Hnum).
  split_and!; [done|by split; try apply path_uuid_Ok|done|congruence| |].
  - eapply vs_version; [done..| | | |exact Hmd|].
    4:{ rewrite Hdb. reflexivity. }
    + exact E.
    + cbn. by injection Hscope.
    + done.
  - split; rewrite ?Hms.
    + exists s, x. split_and!; [done..|]. exists sv. rewrite Hdb. split_and!; [by apply lookup_insert_eq|done..].
    + done.
    + eexists. rewrite Hdb. split; [by apply lookup_insert_eq|]. cbn. by rewrite Hmv.
    + split; [done|]. rewrite Hdb. by apply lookup_insert_eq.
Qed.

(** ** Reads and the requests of jobs *)

Lemma ro_get_secret auth p s t : read_only (get_secret V auth p s t).
Proof. unfold get_secret, load_secret. read_only. Qed.
Lemma ro_get_secret_version auth p s t v : read_only (get_secret_version V auth p s t v).
Proof. unfold get_secret_version. read_only. Qed.
End Requests.
