(* ===== verification/VaultTheorems.v ===== *)
(** * The owner's secrets and the jobs that use them: the theorems *)

From stdpp Require Import base list option gmap strings relations.
From Stdlib Require Import ZArith Lia.
From S2P Require Import Prelude RustText Bytes PgTx Intent Secrets Jobs JobsSpec JobsTheorems JobsFrame Vault VaultSpec VaultSteps.

Local Open Scope string_scope.
Local Open Scope list_scope.

(** What the handlers of jobs need besides the externals of secrets. *)
Record JobConfig := {
  jc_sha256 : string -> string;
  jc_lease_seconds : Z;
  jc_complete_hash : CompleteRequest -> string;
  jc_cancel_hash : string;
  jc_create_hash : CreateJobRequest -> string;
}.

Section Executions.
Context (V : VaultExternals) (J : JobConfig) (key : SecretKey) (env : Env).

(** A request to jobs. *)
Inductive job_request : forall A, M JobsDb A -> Prop :=
| jr_create auth project headers q :
    job_request _ (create_job (v_parse_uuid V) (v_uuid_text V) (jc_create_hash J) auth project headers q)
| jr_get auth project job : job_request _ (get_job (v_parse_uuid V) auth project job)
| jr_cancel auth project job headers :
    job_request _ (cancel_job (v_parse_uuid V) (v_uuid_text V) (jc_cancel_hash J) auth project job headers)
| jr_lease q : job_request _ (lease_job (jc_sha256 J) (jc_lease_seconds J) q)
| jr_renew job q : job_request _ (renew_job (v_parse_uuid V) (jc_lease_seconds J) job q)
| jr_resolve k job q : job_request _ (Jobs.resolve_credentials (v_parse_uuid V) (v_open V) k job q)
| jr_complete job q : job_request _ (complete_job (v_parse_uuid V) (jc_complete_hash J) job q).

(** One request served, whatever its result; the body of a request to create a version
    is text.  The project graph adds services. *)
Inductive vault_request (w w' : World VaultDb) : Prop :=
| vr_create_secret auth project service headers q r :
    create_secret V auth project service headers q env w = (r, w') -> vault_request w w'
| vr_create_version auth project service secret headers value r : utf8_valid (as_bytes value) = true ->
    create_secret_version V (Some key) auth project service secret headers value env w = (r, w') ->
    vault_request w w'
| vr_get_secret auth project service secret r :
    get_secret V auth project service secret env w = (r, w') -> vault_request w w'
| vr_get_version auth project service secret version r :
    get_secret_version V auth project service secret version env w = (r, w') -> vault_request w w'
| vr_job A (m : M JobsDb A) r : job_request A m -> in_jobs m env w = (r, w') -> vault_request w w'
| vr_services t : services (vt_jobs (db w)) ⊆ t ->
    w' = MkWorld (set_vt_jobs (MkJobsDb t (secrets (vt_jobs (db w))) (secret_versions (vt_jobs (db w)))
      (jobs (vt_jobs (db w))) (attempts (vt_jobs (db w))) (secret_refs (vt_jobs (db w))) (effects (vt_jobs (db w)))
      (idem (vt_jobs (db w))) (audits (vt_jobs (db w)))) (db w)) (ticks w) (drawn w) -> vault_request w w'.

Lemma job_request_move A (m : M JobsDb A) : job_request A m -> keeps job_move m.
Proof.
  destruct 1; [apply create_job_move|apply get_job_move|apply cancel_job_move|apply lease_job_move
    |apply renew_job_move|apply resolve_credentials_move|apply complete_job_move].
Qed.

Lemma job_request_ok A (m : M JobsDb A) w r w' :
  job_request A m -> m env w = (r, w') -> jobs_ok (db w) -> jobs_ok (db w').
Proof.
  intros Hm H Hok. assert (Hs : rtc core_step (db w) (db w')); [|by eapply core_steps_ok].
  eapply (api_step_core (v_parse_uuid V) (jc_sha256 J) (jc_lease_seconds J) (v_open V) (jc_complete_hash J)
    (v_uuid_text V) (jc_cancel_hash J) (jc_create_hash J)); [|done].
  destruct Hm; [eapply api_create|eapply api_get|eapply api_cancel|eapply api_lease
    |eapply api_renew|eapply api_resolve|eapply api_complete]; exact H.
Qed.

Lemma vault_request_step w w' : cipher_opens V -> vault_ok V key (db w) -> vault_request w w' ->
  vault_step V key (db w) (db w').
Proof.
  intros Hc Hok [auth project service headers q r H|auth project service secret headers value r Hu H
    |auth project service secret r H|auth project service secret version r H|A m r Hm H|t Ht ->].
  - apply (create_secret_cases V key) in H as [Hq|(m & _ & [] & _)]; [by apply quiet_step|done].
  - apply create_version_cases in H as [[Hq _]|(m & ? & ? & ? & ? & ? & _ & _ & _ & _ & Hs & _)]; [by apply quiet_step|done..].
  - apply ro_get_secret in H as ->. by apply quiet_step, quiet_refl.
  - apply ro_get_secret_version in H as ->. by apply quiet_step, quiet_refl.
  - unfold in_jobs, zoom in H. destruct (m env _) as [r0 w0] eqn:Em. injection H as <- <-.
    apply vs_jobs; cbn; try done.
    + exact (job_request_move _ _ Hm _ _ _ _ Em).
    + eapply job_request_ok in Em; [done..|]. apply Hok.
  - by eapply vs_services.
Qed.

Lemma vault_requests_steps w w' : cipher_opens V -> vault_ok V key (db w) -> rtc vault_request w w' ->
  rtc (vault_step V key) (db w) (db w') /\ vault_ok V key (db w').
Proof.
  intros Hc Hok. induction 1 as [w|w w1 w' H _ IH]; [by split|].
  pose proof (vault_request_step _ _ Hc Hok H) as Hs. pose proof (vault_step_ok _ _ _ _ Hs Hok) as Hok1.
  destruct (IH Hok1). split; [by eapply rtc_l|done].
Qed.

Lemma vault_steps_grow d d' : vault_ok V key d -> rtc (vault_step V key) d d' -> grows d d'.
Proof.
  intros Hok. induction 1 as [|d d1 d' Hs _ IH]; [done|]. etrans; [by eapply vault_step_grows|].
  apply IH. by eapply vault_step_ok.
Qed.

Lemma vault_requests_grow w w' : cipher_opens V -> vault_ok V key (db w) -> rtc vault_request w w' ->
  grows (db w) (db w').
Proof. intros Hc Hok H. destruct (vault_requests_steps _ _ Hc Hok H). by eapply vault_steps_grow. Qed.

(** C19: every sequence of requests to secrets and to jobs keeps the tables of both well
    formed: a secret's versions are numbered from one without gaps or repetitions and its
    revision is one above their number, names are unique in their scope, every version
    opens under the key and the scope it was sealed for, every reference of a job binds an
    active version of the job's own scope, and every stored response names a row of the
    account it answers. *)
Theorem secret_executions_keep_vault_ok w w' : cipher_opens V ->
  vault_ok V key (db w) -> rtc vault_request w w' -> vault_ok V key (db w').
Proof. intros Hc Hok H. by apply (vault_requests_steps _ _ Hc Hok H). Qed.

(** ** Credentials of a job *)

(** A reference of a job is a row of the join that credentials are read from. *)
Lemma resolve_row_bound j k v r (d : JobsDb) : jobs d !! j_id j = Some j -> k = (j_id j, v) ->
  secret_refs d !! k = Some r -> ref_bound d k r ->
  exists s sv, resolve_row d j v = Some (r, s, sv) /\ secrets d !! sr_secret r = Some s /\
    secret_versions d !! v = Some sv /\ sv_secret sv = sr_secret r /\ bindable s /\ j_operation j = "build" /\
    (sv_account sv, sv_project sv, sv_service sv) = (j_account j, j_project j, j_service j).
Proof.
  intros Hj -> Hr (j' & s & sv & Hj' & Hs & Hv & Hsv & Hb & Hri & Hsi & Hvi & Hk). cbn in Hj', Hv.
  rewrite Hj in Hj'. injection Hj' as <-. exists s, sv. unfold resolve_row. rewrite Hr. cbn. rewrite Hs. cbn.
  rewrite Hv. cbn. injection Hri as -> -> -> ->. injection Hsi as -> -> -> Ho. injection Hvi as -> -> ->.
  destruct Hb as (Ha & Hop & Hkind). rewrite Ha, Hsv, Hk, !N.eqb_refl, Ho, !bool_decide_eq_true_2 by done.
  cbn. split_and!; try done; congruence.
Qed.

(** The rows of versions that the job refers to open, each to what its version holds. *)
Lemma open_rows_run j rows :
  j_operation j = "build" ->
  Forall (fun x => exists value, bindable x.2.1.2 /\ sv_secret x.2.2 = sr_secret x.2.1.1 /\
    (sv_account x.2.2, sv_project x.2.2, sv_service x.2.2) = (j_account j, j_project j, j_service j) /\
    opens V key x.2.1.2 x.1 x.2.2 value) rows ->
  exists l, open_rows (v_open V) key j rows = Ok l /\
    Forall2 (fun x s => rs_version s = x.1 /\ opens V key x.2.1.2 x.1 x.2.2 (rs_value s)) rows l.
Proof.
  intros Hj. induction 1 as [|[v [[r s] sv]] rows (value & Hb & Hsv & Hsc & Ho) _ (l & Hl & Hf)]; [by exists []|].
  cbn [fst snd] in *. pose proof Ho as (Hk & Hu & Hd). destruct Hb as (_ & Hop & Hkind). injection Hsc as E1 E2 E3.
  exists ({| rs_version := v; rs_name := s_name s; rs_value := value |} :: l). split; [|by constructor].
  cbn [open_rows]. rewrite Hop, Hj, !(bool_decide_eq_true_2 ("build" = "build")) by done. cbn [negb orb].
  assert (bool_decide (s_credential_kind s = "source_repository_read")
    || bool_decide (s_credential_kind s = "build_environment") = true) as ->.
  { apply orb_true_iff. rewrite !bool_decide_eq_true. done. }
  rewrite Hk, bool_decide_eq_true_2 by done. cbn [negb].
  rewrite Hop, E1, E2, E3, Hsv in Hd. by rewrite Hd, Hu, Hl.
Qed.

Lemma omap_all {A B} (f : A -> option B) (P : A * B -> Prop) l :
  (forall x, x ∈ l -> exists y, f x = Some y /\ P (x, y)) ->
  exists rows, omap (fun x => pair x <$> f x) l = rows /\ map fst rows = l /\ Forall P rows.
Proof.
  induction l as [|x l IH]; intros Hl; [by exists []|].
  destruct (Hl x ltac:(left)) as (y & Hy & Hp). destruct IH as (rows & Hr & Hm & Hf); [intros; apply Hl; by right|].
  exists ((x, y) :: rows). cbn. rewrite Hy. cbn. rewrite Hr, Hm. split_and!; [done..|by constructor].
Qed.

(** The holder of a live lease is given every version its job refers to. *)
Lemma live_job_resolves d now job worker attempt fence requested :
  vault_ok V key d -> holds_lease (vt_jobs d) now job attempt fence worker -> NoDup requested ->
  (length requested <= MAX_JOB_SECRET_REFS)%nat ->
  (forall v, v ∈ requested -> is_Some (secret_refs (vt_jobs d) !! (job, v))) ->
  exists l, resolve_for_locked_live_job (v_open V) (vt_jobs d) now key job worker attempt fence requested = Ok l /\
    map rs_version l = requested /\
    Forall (fun s => forall sv sec, version_rows d !! rs_version s = Some sv ->
      secret_rows d !! sv_secret sv = Some sec -> opens V key sec (rs_version s) sv (rs_value s)) l.
Proof.
  intros Hok Hlease Hnd Hlen Hrefs. pose proof Hlease as (j0 & a0 & _ & _ & _ & Hf0 & _).
  destruct (holds_locked _ _ _ _ _ _ (vo_jobs _ _ _ Hok) Hlease) as (j & a & Hl & Hlive & Hrun & Hid & Ha).
  pose proof Hrun as (Hj & _). unfold resolve_for_locked_live_job, distinct.
  rewrite (proj2 (Nat.ltb_ge _ _)), bool_decide_eq_true_2 by done. cbn [orb negb]. subst job. rewrite Hj, Hl, Hlive.
  apply locked_attempt_running in Hl as (_ & _ & _ & Hf & _ & _); [|apply Hok].
  destruct Hrun as (_ & _ & _ & _ & _ & _ & Haf). rewrite Haf, Hf, Z.eqb_refl. cbn [andb negb].
  case_bool_decide as Hnil; [subst; by exists []|].
  destruct (omap_all (resolve_row (vt_jobs d) j) (fun x => exists value, bindable x.2.1.2 /\
    sv_secret x.2.2 = sr_secret x.2.1.1 /\
    (sv_account x.2.2, sv_project x.2.2, sv_service x.2.2) = (j_account j, j_project j, j_service j) /\
    opens V key x.2.1.2 x.1 x.2.2 value /\ j_operation j = "build" /\
    version_rows d !! x.1 = Some x.2.2 /\ secret_rows d !! sv_secret x.2.2 = Some x.2.1.2) requested)
    as (rows & -> & Hfst & Hall).
  { intros v Hv. destruct (Hrefs v Hv) as (r & Hr).
    destruct (resolve_row_bound j _ v r _ Hj eq_refl Hr (vo_refs _ _ _ Hok _ _ Hr))
      as (s & sv & Hrow & Hs & Hsv & Hsec & Hb & Ho & Hsc).
    destruct (vk_opens _ _ _ _ _ (vo_versions _ _ _ Hok _ _ Hsv) s) as (value & Hop); [by rewrite Hsec|].
    exists (r, s, sv). split; [done|]. exists value. cbn. rewrite Hsec. done. }
  rewrite <- Hfst, length_map, Nat.eqb_refl. cbn [negb].
  assert (Hb : j_operation j = "build").
  { destruct Hall as [|x ? (? & _ & _ & _ & _ & Hb & _) _]; [by subst|done]. }
  destruct (open_rows_run j rows Hb) as (l & Hl & Hfa); [eapply Forall_impl; [exact Hall|]; intros ? (value & ? & ? & ? & ? & _); by exists value|].
  exists l. split; [done|]. clear -Hfa Hall. induction Hfa as [|x s rows l [Hv Ho] _ IH]; [done|].
  apply Forall_cons in Hall as [(value & _ & _ & _ & _ & _ & H1 & H2) Hall]. destruct (IH Hall) as [Hm Hf].
  cbn. split; [by rewrite Hv, Hm|]. constructor; [|done]. rewrite Hv. intros sv sec Hsv Hsec.
  rewrite H1 in Hsv. injection Hsv as <-. rewrite H2 in Hsec. injection Hsec as <-. done.
Qed.
(** C18: a value that its owner stored reaches the job that refers to it: whatever requests to
    secrets and jobs are served in between, the worker that holds the job's live lease and
    asks for versions the job refers to is given exactly these, in the order it asked, and
    the version holds the value that was sent, byte for byte. *)
Theorem stored_values_reach_their_jobs auth project service secret headers value m job_id job q w0 w1 w2 :
  cipher_opens V -> vault_ok V key (db w0) -> utf8_valid (as_bytes value) = true ->
  create_secret_version V (Some key) auth project service secret headers value env w0 = (Ok m, w1) ->
  version_rows (db w0) !! vm_id m = None ->
  rtc vault_request w1 w2 ->
  v_parse_uuid V job_id = Some job -> valid_worker_id (rq_worker_id q) = true ->
  holds_lease (vt_jobs (db w2)) (clock env (ticks w2)) job (rq_attempt_id q) (rq_fence q) (rq_worker_id q) ->
  NoDup (rq_versions q) -> (length (rq_versions q) <= MAX_SECRET_REFS)%nat ->
  (forall v, v ∈ rq_versions q -> is_Some (secret_refs (vt_jobs (db w2)) !! (job, v))) ->
  vm_id m ∈ rq_versions q ->
  exists l w3, in_jobs (Jobs.resolve_credentials (v_parse_uuid V) (v_open V) (Some key) job_id q) env w2 = (Ok l, w3) /\
    map rs_version l = rq_versions q /\
    exists r, r ∈ l /\ rs_version r = vm_id m /\ rs_value r = as_bytes value.
Proof.
  intros Hc Hok Hu H Hfree Hreqs Hp Hw Hlease Hnd Hlen Hrefs Hin.
  assert (H1 : vault_request w0 w1) by (by eapply vr_create_version).
  apply create_version_cases in H as [[_ Hold]|(m' & pr & se & sc & idk & ex & [= <-] & _ & _ & _ & _ & Hcr)]; [| |done..].
  { destruct (Hold m eq_refl) as [? Hx]. congruence. }
  pose proof (vault_step_ok _ _ _ _ (vault_request_step _ _ Hc Hok H1) Hok) as Hok1.
  destruct (vault_requests_steps _ _ Hc Hok1 Hreqs) as [_ Hok2].
  pose proof (vault_requests_grow _ _ Hc Hok1 Hreqs) as G.
  pose proof (vault_step_grows _ _ _ _ Hok (vault_request_step _ _ Hc Hok H1)) as G01.
  destruct (vc_secret _ _ _ _ _ _ _ _ _ _ _ Hcr) as (s & x & Hs & _ & _ & sv & Hsv & Hsec & Hop).
  destruct (live_job_resolves (db w2) (clock env (ticks w2)) job (rq_worker_id q) (rq_attempt_id q) (rq_fence q)
    (rq_versions q)) as (l & Hl & Hm & Hall); [done..|].
  pose proof Hlease as (j & a & Hrun & Hj & Ha & Hf & _).
  assert (Hpos : (rq_fence q <=? 0)%Z = false).
  { apply Z.leb_gt. rewrite <- Hf. destruct Hrun as (_ & Hat & _).
    apply (attempt_check_bounds a), (at_check _ _ _ (attempts_all _ (vo_jobs _ _ _ Hok2) _ _ Hat)). }
  exists l. eexists. split; [|split; [done|]].
  - unfold in_jobs, zoom, Jobs.resolve_credentials, path_uuid, tbind, lift. rewrite Hp. cbn beta iota.
    unfold distinct. rewrite Hw, Hpos, (proj2 (Nat.ltb_ge _ _)), bool_decide_eq_true_2 by done. cbn [negb orb].
    unfold transaction, tbind, get_db, clock_timestamp. cbn [db ticks drawn]. rewrite Hl.
    destruct Hrun as (Hjr & _). rewrite Hj in Hjr. rewrite Hjr. reflexivity.
  - rewrite <- Hm in Hin. apply list_elem_of_fmap in Hin as (r & Hr & Hrl). exists r. split_and!; [done..|].
    rewrite Forall_forall in Hall. specialize (Hall r Hrl sv s). rewrite <- Hr, Hsec in Hall.
    apply secret_in_Some in Hs as (Hs & _ & _).
    destruct Hall as (_ & _ & Hd); [by apply (gw_versions _ _ G)|by apply (gw_secrets _ _ G), (gw_secrets _ _ G01)|].
    destruct Hop as (_ & _ & Hd'). rewrite Hd in Hd'. by injection Hd'.
Qed.

(** ** Repeating a request *)

(** A request that passes its checks, until its transaction. *)
Lemma create_version_checked auth project_id service_id secret_id headers value project service secret idk expected w :
  version_request V auth project_id service_id secret_id headers value project service secret idk expected ->
  exists body, create_secret_version V (Some key) auth project_id service_id secret_id headers value env w =
    transaction (begun <~ clock_timestamp;;
      prior <~ secret_replay (account_id auth) (CREATE_VERSION_OPERATION +:+ "/" +:+ v_uuid_text V secret) idk
        (version_fingerprint V key (account_id auth) project service secret value) (key_version key);;
      match prior with
      | Match response => tret (Ok response)
      | Changed =>
          audit (D := VaultDb) (B := StoredResponse) (account_id auth) (session_id auth)
            CREATE_VERSION_OPERATION "secret_version" None "idempotency_conflict";;;
          tret (Err idempotency_changed)
      | Miss => body begun
      end) env w.
Proof.
  intros [Hval Hp Hs Ht Hi Hr]. unfold create_secret_version, path_uuid.
  rewrite Hval, Hp, Hs, Ht, Hi, Hr. eexists. reflexivity.
Qed.

(** C20: a version that a request created is the answer to that request for good: whatever
    requests are served in between, repeating it under its idempotency key returns the
    first response and changes nothing, with whatever revision it is sent; a request under
    that key whose fingerprint differs is refused, and only the refusal is recorded.  The
    version's number is the revision the request expected. *)
Theorem version_requests_are_idempotent auth project service secret headers value m w0 w1 w2 :
  cipher_opens V -> vault_ok V key (db w0) -> utf8_valid (as_bytes value) = true ->
  create_secret_version V (Some key) auth project service secret headers value env w0 = (Ok m, w1) ->
  version_rows (db w0) !! vm_id m = None ->
  rtc vault_request w1 w2 ->
  if_match_revision headers = Ok (vm_version m) /\
  (forall headers' r, h_idempotency_key headers' = h_idempotency_key headers -> if_match_revision headers' = Ok r ->
     exists w3, create_secret_version V (Some key) auth project service secret headers' value env w2 = (Ok m, w3) /\
       db w3 = db w2) /\
  (forall project' service' headers' r value' pu su,
     h_idempotency_key headers' = h_idempotency_key headers -> if_match_revision headers' = Ok r ->
     v_parse_uuid V project' = Some pu -> v_parse_uuid V service' = Some su -> validate_secret_value value' = Ok tt ->
     (forall pu0 su0, v_parse_uuid V project = Some pu0 -> v_parse_uuid V service = Some su0 ->
        version_fingerprint V key (account_id auth) pu su (vm_secret m) value' <>
        version_fingerprint V key (account_id auth) pu0 su0 (vm_secret m) value) ->
     exists w3, create_secret_version V (Some key) auth project' service' secret headers' value' env w2
       = (Err idempotency_changed, w3) /\ quiet (db w2) (db w3)).
Proof.
  intros Hc Hok Hu H Hfree Hreqs.
  assert (H1 : vault_request w0 w1) by (by eapply vr_create_version).
  apply create_version_cases in H as [[_ Hold]|(m' & pr & se & sc & idk & ex & [= <-] & Hq & Hsc & Hex & _ & Hcr)]; [| |done..].
  { destruct (Hold m eq_refl) as [? Hx]. congruence. }
  pose proof (vault_step_ok _ _ _ _ (vault_request_step _ _ Hc Hok H1) Hok) as Hok1.
  pose proof (vault_requests_grow _ _ Hc Hok1 Hreqs) as G.
  destruct (vc_replay _ _ _ _ _ _ _ _ _ _ _ Hcr) as [_ Hrow]. apply (gw_replays _ _ G) in Hrow.
  subst sc ex. split; [by apply Hq|]. split.
  - intros headers' r Hk Hr. destruct Hq as [Hval Hp Hs Ht Hi _]. unfold idempotency_key in Hi. rewrite <- Hk in Hi.
    destruct (create_version_checked auth project service secret headers' value pr se (vm_secret m) idk r w2)
      as (body & ->); [by split|].
    eexists. unfold transaction, tbind, clock_timestamp, secret_replay, get_db. cbn [db ticks drawn].
    unfold version_key in Hrow. unfold tbind. cbn [db]. rewrite Hrow. cbn [response_body st_key_version request_hash].
    rewrite !bool_decide_eq_true_2 by done. cbn. done.
  - intros project' service' headers' r value' pu su Hk Hr Hp' Hs' Hval' Hne.
    destruct Hq as [Hval Hp Hs Ht Hi _]. unfold idempotency_key in Hi. rewrite <- Hk in Hi.
    destruct (create_version_checked auth project' service' secret headers' value' pu su (vm_secret m) idk r w2)
      as (body & ->); [by split|].
    eexists. unfold transaction, tbind, clock_timestamp, secret_replay, get_db. cbn [db ticks drawn].
    unfold version_key in Hrow. unfold tbind. cbn [db]. rewrite Hrow. cbn [response_body st_key_version request_hash].
    rewrite bool_decide_eq_true_2 by done. rewrite bool_decide_eq_false_2; [|by intros E; apply (Hne pr se)].
    cbn. split; [done|]. by eexists.
Qed.
End Executions.
