(* ===== verification/VaultDemo.v ===== *)
(** * A run of the secrets: an owner stores a value, a job of the owner reads it *)

From stdpp Require Import base list option gmap strings pretty relations.
From Stdlib Require Import ZArith Lia.
From S2P Require Import Prelude RustText Bytes PgTx Intent Secrets Jobs JobsSpec JobsTheorems JobsFrame Vault VaultSpec VaultSteps VaultTheorems.

Local Open Scope string_scope.
Local Open Scope list_scope.

Module VaultDemo.
Definition parse (s : string) : option Uuid :=
  if bool_decide (s = "10") then Some 10%N else if bool_decide (s = "20") then Some 20%N
  else if bool_decide (s = "100") then Some 100%N else if bool_decide (s = "101") then Some 101%N
  else if bool_decide (s = "103") then Some 103%N else None.

(** A cipher that leaves the text as it is. *)
Definition V : VaultExternals := {|
  v_parse_uuid := parse; v_uuid_text := pretty; v_request_hash := csr_name;
  v_sha256 := fun b => b; v_base64_url := to_text; v_hmac := fun k m => k ++ m;
  v_nonce := fun u => repeat (Z.of_N u mod 256)%Z 24;
  v_seal := fun _ _ _ p => Some (p, repeat 0%Z 16);
  v_open := fun _ _ _ c _ => Some c |}.
Definition J : JobConfig := {|
  jc_sha256 := fun s => s; jc_lease_seconds := 30; jc_complete_hash := fun q => oc_state (cq_outcome q);
  jc_cancel_hash := "cancel"; jc_create_hash := cj_source_commit |}.
Definition key : SecretKey := {| key_bytes := repeat 7%Z 32; key_version := "v1-demo" |}.
Definition env : Env := {|
  clock := Z.of_nat; fresh := fun n => N.of_nat (100 + n); row_locked := fun _ _ => false |}.

Definition d0 : VaultDb := MkVaultDb (MkJobsDb {[ (1, 10, 20)%N ]} ∅ ∅ ∅ ∅ ∅ ∅ ∅ []) ∅ ∅ ∅.
Definition w0 : World VaultDb := MkWorld d0 0 0.
Definition owner : Authenticated := {| account_id := 1; session_id := 2 |}.
Definition quoted (s : string) : string :=
  String (Ascii.ascii_of_nat 34) (s +:+ String (Ascii.ascii_of_nat 34) EmptyString).
Definition headers (k : string) (revision : string) : Headers := {|
  h_idempotency_key := Some (Some k); h_if_match := Some (Some (quoted revision)) |}.

Definition token : CreateSecretRequest :=
  {| csr_name := " TOKEN "; csr_operation := "build"; csr_credential_kind := "build_environment" |}.
Definition created := create_secret V owner "10" "20" (headers "k1" "1") token env w0.
Definition w1 : World VaultDb := snd created.
Definition versioned := create_secret_version V (Some key) owner "10" "20" "100" (headers "k2" "1") "s3cret" env w1.
Definition w2 : World VaultDb := snd versioned.
Definition job_request_body : CreateJobRequest := {|
  cj_kind := JOB_KIND; cj_operation := JOB_OPERATION; cj_service_id := "20";
  cj_source_commit := "0123456789abcdef0123456789abcdef01234567";
  cj_secret_version_refs := [{| svr_service_id := "20"; svr_secret_version_id := "101" |}] |}.
Definition job_created := in_jobs (create_job parse pretty cj_source_commit owner "10" (headers "k3" "1") job_request_body) env w2.
Definition w3 : World VaultDb := snd job_created.
Definition leased := in_jobs (lease_job (fun s => s) 30 {| lq_worker_id := "w"; lq_kinds := [JOB_KIND] |}) env w3.
Definition w4 : World VaultDb := snd leased.
Definition ask : ResolveCredentialsRequest :=
  {| rq_worker_id := "w"; rq_attempt_id := 104; rq_fence := 1; rq_versions := [101%N] |}.
Definition resolved := in_jobs (Jobs.resolve_credentials parse (v_open V) (Some key) "103" ask) env w4.
Definition meta : SecretVersionMetadata := {| vm_id := 101; vm_secret := 100; vm_version := 1; vm_created := 1 |}.

Example vault_run_results :
  (match fst created with Ok m => Some (sm_name m, sm_revision m) | _ => None end) = Some ("TOKEN", 1%Z) /\
  fst versioned = Ok meta /\ is_ok (fst job_created) = true /\ is_ok (fst leased) = true /\
  (match fst resolved with Ok l => map (fun r => to_text (rs_value r)) l | _ => [] end) = ["s3cret"].
Proof. vm_compute. done. Qed.

Lemma cipher_ok : cipher_opens V.
Proof. intros k n a p c t [= <- <-]. done. Qed.

Lemma vault_d0_ok : vault_ok V key d0.
Proof.
  split; unfold secret_rows, version_rows, numbered; cbn.
  - split; cbn; intros *; rewrite ?lookup_empty; done.
  - done.
  - done.
  - done.
  - done.
  - done.
  - done.
  - intros secret n i j (v & y & Hv & _). unfold version_rows in Hv. cbn in Hv. by rewrite lookup_empty in Hv.
  - done.
  - done.
Qed.

Definition request := vault_request V J key env.
Lemma request_secret : request w0 w1.
Proof. eapply vr_create_secret, surjective_pairing. Qed.
Lemma request_version : request w1 w2.
Proof. eapply vr_create_version; [|apply surjective_pairing]. vm_compute. done. Qed.
Lemma request_job : request w2 w3.
Proof. eapply vr_job, surjective_pairing. exact (jr_create V J owner "10" (headers "k3" "1") job_request_body). Qed.
Lemma request_lease : request w3 w4.
Proof. eapply vr_job, surjective_pairing. exact (jr_lease V J {| lq_worker_id := "w"; lq_kinds := [JOB_KIND] |}). Qed.
Lemma requests_after : rtc request w2 w4.
Proof. eapply rtc_l; [apply request_job|]. apply rtc_once, request_lease. Qed.
Lemma requests_all : rtc request w0 w4.
Proof. eapply rtc_l; [apply request_secret|]. eapply rtc_l; [apply request_version|apply requests_after]. Qed.

Lemma vault_w1_ok : vault_ok V key (db w1).
Proof. apply (vault_requests_steps V J key env w0 w1 cipher_ok vault_d0_ok). apply rtc_once, request_secret. Qed.
Lemma w4_ok : vault_ok V key (db w4).
Proof. apply (vault_requests_steps V J key env w0 w4 cipher_ok vault_d0_ok requests_all). Qed.

Lemma w4_lease : holds_lease (vt_jobs (db w4)) (clock env (ticks w4)) 103 104 1 "w".
Proof.
  assert (H : match locked_attempt (vt_jobs (db w4)) 103 104 1 "w" with
    | Some (j, a) => lease_live (clock env (ticks w4)) j a | None => false end = true) by (vm_compute; done).
  destruct (locked_attempt _ _ _ _ _) as [[j a]|] eqn:E; [|done].
  exact (live_holds _ _ _ _ _ _ _ _ (vo_jobs _ _ _ w4_ok) E H).
Qed.

Lemma versioned_eq : versioned = (Ok meta, w2).
Proof. rewrite (surjective_pairing versioned). by f_equal. Qed.

Lemma w4_refers : is_Some (secret_refs (vt_jobs (db w4)) !! (103, 101)%N).
Proof.
  assert (H : bool_decide (is_Some (secret_refs (vt_jobs (db w4)) !! (103, 101)%N)) = true) by (vm_compute; done).
  by apply bool_decide_eq_true in H.
Qed.

Lemma version_is_new : version_rows (db w1) !! vm_id meta = None.
Proof.
  assert (H : bool_decide (version_rows (db w1) !! vm_id meta = None) = true) by (vm_compute; done).
  by apply bool_decide_eq_true in H.
Qed.

Lemma secret_executions_keep_vault_ok_witness : vault_ok V key d0 /\ vault_ok V key (db w4).
Proof.
  split; [exact vault_d0_ok|].
  exact (secret_executions_keep_vault_ok V J key env w0 w4 cipher_ok vault_d0_ok requests_all).
Defined.

Lemma stored_values_reach_their_jobs_witness :
  exists l w5, resolved = (Ok l, w5) /\ map rs_version l = [101%N] /\
    exists r, r ∈ l /\ rs_version r = 101%N /\ rs_value r = as_bytes "s3cret".
Proof.
  apply (stored_values_reach_their_jobs V J key env owner "10" "20" "100" (headers "k2" "1") "s3cret" meta "103" 103 ask
    w1 w2 w4 cipher_ok vault_w1_ok); [vm_compute; done|exact versioned_eq|exact version_is_new|exact requests_after
    |reflexivity|vm_compute; done|exact w4_lease|apply NoDup_singleton|cbn; unfold MAX_SECRET_REFS; lia| |left].
  intros v Hv. apply list_elem_of_singleton in Hv as ->. exact w4_refers.
Defined.

Lemma version_requests_are_idempotent_witness :
  exists w5, create_secret_version V (Some key) owner "10" "20" "100" (headers "k2" "9") "s3cret" env w4 = (Ok meta, w5) /\
    db w5 = db w4.
Proof.
  apply (version_requests_are_idempotent V J key env owner "10" "20" "100" (headers "k2" "1") "s3cret" meta
    w1 w2 w4 cipher_ok vault_w1_ok) with (r := 9%Z); [vm_compute; done|exact versioned_eq|exact version_is_new
    |exact requests_after|reflexivity|vm_compute; done].
Defined.
End VaultDemo.
