(* ===== verification/Artifact.v ===== *)
(** * The output of a build (crates/builder/src/artifact.rs, digest.rs, build_protocol.rs)

    What the worker reads from the guest's output port: a report and at most two
    artifacts, each a framed list of files.  Every file is scanned for the credentials
    of the build while it is copied into the canonical archive (HCA1), which is stored
    under its digest.  Reads of the port may return fewer bytes than asked for. *)

From stdpp Require Import base list option gmap strings.
From Stdlib Require Import ZArith Lia.
From S2P Require Import Prelude RustText Bytes Wire.

Local Open Scope Z_scope.
Local Open Scope list_scope.

Definition GUEST_OUTPUT_MAGIC : bytes := lit "HBO1".
Definition CANONICAL_ARTIFACT_MAGIC : bytes := lit "HCA1".
Definition SHA256_PREFIX : string := "sha256:".

(** ** The protocol *)

Record BuildLimits := {
  bl_cpu_millis : Z; bl_memory_bytes : Z; bl_timeout_seconds : Z; bl_workspace_bytes : Z;
  bl_static_output_bytes : Z; bl_runtime_output_bytes : Z; bl_max_entries : Z;
  bl_console_bytes : Z; bl_report_bytes : Z;
}.
Record GuestReport := { gp_state : bytes; gp_code : bytes; gp_phase : bytes; gp_message : bytes }.

Record ReceivedArtifact := {
  ra_service_id : bytes; ra_kind : bytes; ra_archive_digest : string; ra_packed_bytes : Z;
  ra_unpacked_bytes : Z; ra_entry_count : Z; ra_paths : gset bytes; ra_package_json : option bytes;
}.
Record GuestOutput := { go_report : GuestReport; go_artifacts : list ReceivedArtifact }.

(** [io::Error::new(FileTooLarge, OutputLimitExceeded { code })], and its code. *)
Definition output_limit (code : string) : IoError := IoErr FileTooLarge (OutputLimitExceeded code).
Definition output_limit_code (e : IoError) : option string :=
  match cause e with OutputLimitExceeded code => Some code | _ => None end.

(** ** The content store and the quarantine *)

(** What [symlink_metadata] and a read of an object return. *)
Record CasObject := { co_regular : bool; co_mode : Z; co_bytes : bytes }.

(** The port, the objects by digest, and the temporary file of the artifact being received. *)
Record Receiver := MkReceiver {
  rx_input : Stream;
  rx_cas : gmap string CasObject;
  rx_temporary : option bytes;
}.

#[export] Instance receiver_stream : HasStream Receiver := {
  stream := rx_input; set_stream := fun t s => MkReceiver t (rx_cas s) (rx_temporary s);
}.
#[export] Instance receiver_stream_laws : HasStreamLaws Receiver.
Proof. by split; [| |intros []]. Qed.

Definition is_hex_lower (c : Z) : bool := in_range 48 57 c || in_range 97 102 c.
Definition valid_digest (value : string) : bool :=
  (String.length value =? 71)%nat && starts_with (as_bytes SHA256_PREFIX) (as_bytes value)
  && forallb is_hex_lower (drop 7 (as_bytes value)).

Definition is_hexdigit (c : Z) : bool := in_range 48 57 c || in_range 97 102 c || in_range 65 70 c.
Definition valid_uuid (value : bytes) : bool :=
  (length value =? 36)%nat
  && forallb (fun ic => if bool_decide (ic.1 ∈ [8; 13; 18; 23]%nat) then ic.2 =? 45 else is_hexdigit ic.2)
       (zip (seq 0 36) value).

Definition validate_path (value : bytes) : res IoError unit :=
  guard_err (bool_decide (value = []) || existsb (fun c => contains_char c value) [92; 0; 13; 10]
             || is_absolute value || existsb (fun c => negb (is_normal c)) (components value))
    (invalid "artifact path").

(** [haystack.windows(needle.len()).any(...)], for a needle that is not empty. *)
Fixpoint contains_bytes (haystack needle : bytes) : bool :=
  starts_with needle haystack
  || match haystack with [] => false | _ :: rest => contains_bytes rest needle end.

Definition kind_byte (kind : bytes) : Z := if bool_decide (kind = lit "static") then 1 else 2.

Section Receiving.
(** [serde_json::from_slice] of a report, and SHA-256 as lowercase hexadecimal digits. *)
Context (report_json : bytes -> option GuestReport) (sha256_hex : bytes -> string).

Definition digest_of (bs : bytes) : string := (SHA256_PREFIX +:+ sha256_hex bs)%string.

(** [verify_cas_file]. *)
Definition verify_cas_file (o : CasObject) (expected : string) : res IoError Z :=
  if negb (co_regular o) || negb (Z.land (co_mode o) 63 =? 0)
  then Err (IoErr Other (Message "CAS object permissions"))
  else if negb (bool_decide (digest_of (co_bytes o) = expected))
  then Err (IoErr Other (Message "object digest mismatch"))
  else Ok (Z.of_nat (length (co_bytes o))).

(** Both write to the temporary file and to the hasher of what it holds. *)
Definition write_hashed (bs : bytes) : IO Receiver unit :=
  let! s := io_get in
  io_put (MkReceiver (rx_input s) (rx_cas s) (Some (default [] (rx_temporary s) ++ bs))).
Definition write_hashed_string (value : bytes) : IO Receiver unit :=
  do! io_reject (65535 <? Z.of_nat (length value)) (invalid "artifact string length") in
  do! write_hashed (be_bytes 2 (Z.of_nat (length value))) in
  write_hashed value.

Definition read_string (maximum : nat) : IO Receiver bytes :=
  let! len := read_be 2 in
  do! io_reject ((len =? 0) || (Z.of_nat maximum <? len)) (invalid "string length") in
  let! bs := read_exact (Z.to_nat len) in
  do! io_reject (negb (utf8_valid bs)) (invalid "string UTF-8") in
  io_ret bs.

(** [hard_link] from the temporary file; an object that exists is verified instead. *)
Definition install_cas (digest : string) : IO Receiver unit :=
  do! io_reject (negb (valid_digest digest)) (invalid "CAS digest") in
  let! s := io_get in
  match rx_cas s !! digest with
  | Some o => let! _ := io_lift (verify_cas_file o digest) in io_ret tt
  | None =>
      io_put (MkReceiver (rx_input s)
        (<[digest := {| co_regular := true; co_mode := 384; co_bytes := default [] (rx_temporary s) |}]> (rx_cas s))
        (rx_temporary s))
  end.

(** ** Scanning *)

Section Scanning.
Context (forbidden_values : list bytes).

Definition maximum : nat := fold_right Nat.max 0%nat (map length forbidden_values).
Definition forbidden_in (scan : bytes) : bool :=
  existsb (fun value => negb (bool_decide (value = [])) && contains_bytes scan value) forbidden_values.

(** Copies [remaining] bytes; [tail] holds the last bytes scanned, one fewer than the
    longest value.  The result is what was copied.  Every read returns a byte or ends the
    loop, so the fuel that [copy_hashed] gives is enough. *)
Fixpoint copy_loop (fuel : nat) (remaining : Z) (tail captured : bytes) : IO Receiver bytes :=
  if remaining <=? 0 then io_ret captured
  else match fuel with
  | O => io_raise (IoErr Other (Message "unreachable"))
  | S fuel' =>
      let! chunk := read (Z.to_nat (Z.min remaining 65536)) in
      do! io_reject (bool_decide (chunk = [])) (unexpected_eof "artifact bytes") in
      let scan := tail ++ chunk in
      do! io_reject ((0 <? maximum)%nat && forbidden_in scan) (invalid "artifact contains a build credential") in
      let retain := Nat.min (maximum - 1) (length scan) in
      let tail' := if (0 <? maximum)%nat then drop (length scan - retain) scan else tail in
      do! write_hashed chunk in
      copy_loop fuel' (remaining - Z.of_nat (length chunk)) tail' (captured ++ chunk)
  end.

Definition copy_hashed (size : Z) : IO Receiver bytes :=
  let! s := io_get in
  copy_loop (S (length (pending (rx_input s)))) size [] [].

(** ** Entries *)

(** What the loop over the entries carries. *)
Record EntryLoop := {
  el_actual_bytes : Z; el_previous : option bytes; el_paths : gset bytes; el_package_json : option bytes;
}.

Definition package_json_path : bytes := lit "package.json".

Definition receive_entry (byte_limit : Z) (limit_code : string) (l : EntryLoop) : IO Receiver EntryLoop :=
  let! path := read_string 1024 in
  do! io_lift (validate_path path) in
  do! io_reject (match el_previous l with Some v => negb (bytes_lt v path) | None => false end)
        (invalid "artifact path ordering") in
  let! mode := read_be 4 in
  do! io_reject (negb ((mode =? 420) || (mode =? 493))) (invalid "artifact mode") in
  let! size := read_be 8 in
  let total := el_actual_bytes l + size in
  do! io_reject ((max_u64 <? total) || (byte_limit <? total)) (output_limit limit_code) in
  do! write_hashed_string path in
  do! write_hashed (be_bytes 4 mode) in
  do! write_hashed (be_bytes 8 size) in
  let! copied := copy_hashed size in
  io_ret {| el_actual_bytes := total; el_previous := Some path; el_paths := {[path]} ∪ el_paths l;
    el_package_json := if bool_decide (path = package_json_path) && (size <=? 65536)
                       then Some copied else el_package_json l |}.

Fixpoint receive_entries (n : nat) (byte_limit : Z) (limit_code : string) (l : EntryLoop) : IO Receiver EntryLoop :=
  match n with
  | O => io_ret l
  | S n' => let! l' := receive_entry byte_limit limit_code l in receive_entries n' byte_limit limit_code l'
  end.

(** [TemporaryArtifact]: the file exists while the body runs, whatever its result. *)
Definition with_temporary {A} (body : IO Receiver A) : IO Receiver A := fun s =>
  match body (MkReceiver (rx_input s) (rx_cas s) (Some [])) with
  | (r, s') => (r, MkReceiver (rx_input s') (rx_cas s') None)
  end.

(** ** Artifacts *)

Definition artifact_kind (limits : BuildLimits) (kind : Z) : res IoError (bytes * Z * string) :=
  if kind =? 1 then Ok (lit "static", bl_static_output_bytes limits, "static_output_too_large"%string)
  else if kind =? 2 then Ok (lit "application", bl_runtime_output_bytes limits, "runtime_output_too_large"%string)
  else Err (invalid "guest artifact kind").

Definition receive_archive (kind service_id : bytes) (entry_count claimed_bytes byte_limit : Z) (limit_code : string)
    : IO Receiver ReceivedArtifact :=
  with_temporary (
    do! write_hashed CANONICAL_ARTIFACT_MAGIC in
    do! write_hashed [kind_byte kind] in
    do! write_hashed_string service_id in
    do! write_hashed (be_bytes 4 entry_count) in
    do! write_hashed (be_bytes 8 claimed_bytes) in
    let! l := receive_entries (Z.to_nat entry_count) byte_limit limit_code
                {| el_actual_bytes := 0; el_previous := None; el_paths := ∅; el_package_json := None |} in
    do! io_reject (negb (el_actual_bytes l =? claimed_bytes)) (invalid "artifact byte total") in
    let! s := io_get in
    let archive := default [] (rx_temporary s) in
    do! install_cas (digest_of archive) in
    io_ret {| ra_service_id := service_id; ra_kind := kind; ra_archive_digest := digest_of archive;
      ra_packed_bytes := Z.of_nat (length archive); ra_unpacked_bytes := el_actual_bytes l;
      ra_entry_count := entry_count; ra_paths := el_paths l; ra_package_json := el_package_json l |}).

Definition receive_artifact (limits : BuildLimits) (kinds : list bytes) : IO Receiver ReceivedArtifact :=
  let! kind := read_be 1 in
  let! (kind, byte_limit, limit_code) := io_lift (artifact_kind limits kind) in
  do! io_reject (bool_decide (kind ∈ kinds)) (invalid "duplicate guest artifact kind") in
  let! service_id := read_string 128 in
  do! io_reject (negb (valid_uuid service_id)) (invalid "artifact service id") in
  let! entry_count := read_be 4 in
  let! claimed_bytes := read_be 8 in
  do! io_reject (entry_count =? 0) (invalid "artifact entry count") in
  do! io_reject (bl_max_entries limits <? entry_count) (IoErr FileTooLarge (Message "artifact entry limit")) in
  do! io_reject (byte_limit <? claimed_bytes) (output_limit limit_code) in
  receive_archive kind service_id entry_count claimed_bytes byte_limit limit_code.

Fixpoint receive_artifacts (n : nat) (limits : BuildLimits) (kinds : list bytes) : IO Receiver (list ReceivedArtifact) :=
  match n with
  | O => io_ret []
  | S n' =>
      let! a := receive_artifact limits kinds in
      let! rest := receive_artifacts n' limits (ra_kind a :: kinds) in
      io_ret (a :: rest)
  end.

Definition report_fields_invalid (r : GuestReport) : bool :=
  negb (bool_decide (gp_state r ∈ [lit "succeeded"; lit "failed"]))
  || bool_decide (gp_code r = []) || (64 <? length (gp_code r))%nat
  || bool_decide (gp_phase r = []) || (64 <? length (gp_phase r))%nat
  || (512 <? length (gp_message r))%nat.

(** A port that would block has no more to say yet; it reads as ended here. *)
Definition receive (limits : BuildLimits) : IO Receiver GuestOutput :=
  let! magic := read_exact 4 in
  do! io_reject (negb (bool_decide (magic = GUEST_OUTPUT_MAGIC))) (invalid "guest output magic") in
  let! report_length := read_be 4 in
  do! io_reject ((report_length =? 0) || (bl_report_bytes limits <? report_length)) (invalid "guest report length") in
  let! text := read_exact (Z.to_nat report_length) in
  let! report := io_lift (ok_or (report_json text) (invalid "guest report")) in
  do! io_reject (report_fields_invalid report) (invalid "guest report fields") in
  let! count := read_be 1 in
  do! io_reject ((2 <? count) || bool_decide (gp_state report = lit "failed") && negb (count =? 0))
        (invalid "guest artifact count") in
  let! artifacts := receive_artifacts (Z.to_nat count) limits [] in
  let! extra := read 1 in
  do! io_reject (negb (bool_decide (extra = []))) (invalid "trailing guest output") in
  io_ret {| go_report := report; go_artifacts := artifacts |}.
End Scanning.
End Receiving.
