(* ===== verification/ArtifactSpec.v ===== *)
(** * The framed output of a build

    The bytes of an artifact, as the guest sends them and as they are archived, and what
    the receiver makes of them: its scanner finds every credential whatever the reads
    return, it accepts every well-framed output, and nothing else. *)

From stdpp Require Import base list option gmap strings.
From Stdlib Require Import ZArith Lia.
From S2P Require Import Prelude RustText Bytes Wire SourceBundle SourceTheorems Artifact.

Local Open Scope Z_scope.
Local Open Scope list_scope.

(** ** The bytes of an output *)

Record FileEntry := { fe_path : bytes; fe_mode : Z; fe_content : bytes }.
Record OutputArtifact := { oa_kind : Z; oa_service_id : bytes; oa_entries : list FileEntry }.

Definition entry_frame (e : FileEntry) : bytes :=
  framed 2 (fe_path e) ++ be_bytes 4 (fe_mode e) ++ framed 8 (fe_content e).
Definition entries_bytes (es : list FileEntry) : bytes := concat (map entry_frame es).
Definition content_bytes (es : list FileEntry) : Z := foldr (fun e n => Z.of_nat (length (fe_content e)) + n) 0 es.

(** The body of an artifact, and its archive. *)
Definition artifact_body (a : OutputArtifact) : bytes :=
  [oa_kind a] ++ framed 2 (oa_service_id a) ++ be_bytes 4 (Z.of_nat (length (oa_entries a)))
  ++ be_bytes 8 (content_bytes (oa_entries a)) ++ entries_bytes (oa_entries a).
Definition canonical_archive (a : OutputArtifact) : bytes := CANONICAL_ARTIFACT_MAGIC ++ artifact_body a.

(** What the guest writes to its port. *)
Definition guest_output (report : bytes) (artifacts : list OutputArtifact) : bytes :=
  GUEST_OUTPUT_MAGIC ++ framed 4 report ++ [Z.of_nat (length artifacts)] ++ concat (map artifact_body artifacts).

Lemma write_hashed_run bs i cas t :
  write_hashed bs (MkReceiver i cas (Some t)) = (Ok tt, MkReceiver i cas (Some (t ++ bs))).
Proof. done. Qed.

(** ** Scanning *)

Definition occurs (v bs : bytes) : Prop := exists a b, bs = a ++ v ++ b.

Lemma starts_with_prefix p s : starts_with p s = true <-> exists r, s = p ++ r.
Proof.
  revert s. induction p as [|c p IH]; intros s; [split; eauto|]. destruct s as [|d s]; cbn.
  - split; [done|]. by intros (r & [=]).
  - rewrite andb_true_iff, IH, Z.eqb_eq. split.
    + intros (-> & r & ->). by exists r.
    + intros (r & [= -> ->]). eauto.
Qed.

Lemma contains_bytes_occurs h v : contains_bytes h v = true <-> occurs v h.
Proof.
  induction h as [|c h IH]; cbn; rewrite orb_true_iff, starts_with_prefix.
  - split; [intros [(r & E)|]; [by exists [], r|done]|]. intros (a & b & E). left.
    symmetry in E. apply app_eq_nil in E as [-> E]. by exists b.
  - rewrite IH. split.
    + intros [(r & ->)|(a & b & ->)]; [by exists [], r|by exists (c :: a), b].
    + intros ([|d a] & b & E); [left; by exists b|]. right. injection E as <- ->. by exists a, b.
Qed.

Section Scanning.
Context (forbidden_values : list bytes).

(** No credential of the build occurs in the text. *)
Definition clean (bs : bytes) : Prop := forall v, v ∈ forbidden_values -> v <> [] -> ~ occurs v bs.

Lemma forbidden_in_spec bs : forbidden_in forbidden_values bs = false <-> clean bs.
Proof.
  unfold forbidden_in, clean. split.
  - intros H v Hv Hn Ho. apply contains_bytes_occurs in Ho. assert (E : existsb (fun value =>
      negb (bool_decide (value = [])) && contains_bytes bs value) forbidden_values = true); [|congruence].
    apply existsb_exists. exists v. split; [by apply list_elem_of_In|]. by rewrite bool_decide_eq_false_2, Ho.
  - intros H. apply not_true_is_false. intros (v & Hv & Hc)%existsb_exists. apply list_elem_of_In in Hv.
    bool_simpl. apply (H v); [done..|]. by apply contains_bytes_occurs.
Qed.

Lemma length_maximum v : v ∈ forbidden_values -> (length v <= maximum forbidden_values)%nat.
Proof. unfold maximum. induction 1; cbn; lia. Qed.

Lemma clean_trivial bs : (maximum forbidden_values = 0)%nat -> clean bs.
Proof. intros Hm v Hv Hn. pose proof (length_maximum _ Hv). destruct v; [done|]. cbn in *. lia. Qed.

Lemma clean_prefix a b : clean (a ++ b) -> clean a.
Proof. intros H v Hv Hn (x & y & ->). apply (H v Hv Hn). exists x, (y ++ b). by rewrite <- !app_assoc. Qed.

Lemma clean_nil : clean [].
Proof.
  intros v _ Hn (a & b & E). symmetry in E. apply app_eq_nil in E as [_ E]. by apply app_eq_nil in E as [-> _].
Qed.

(** The last [n] bytes. *)
Definition lastn (n : nat) (bs : bytes) : bytes := drop (length bs - n) bs.

Lemma lastn_app n p c : lastn n (lastn n p ++ c) = lastn n (p ++ c).
Proof.
  unfold lastn. rewrite !length_app, length_drop.
  replace (drop (length p - n) p ++ c) with (drop (length p - n) (p ++ c)) by (apply drop_app_le; lia).
  rewrite drop_drop. f_equal. lia.
Qed.

(** The text scanned with the tail finds exactly what the whole text has. *)
Lemma scan_tail p c : clean p -> clean (lastn (maximum forbidden_values - 1) p ++ c) <-> clean (p ++ c).
Proof.
  intros Hp. set (k := (length p - (maximum forbidden_values - 1))%nat).
  assert (E : lastn (maximum forbidden_values - 1) p ++ c = drop k (p ++ c)).
  { unfold lastn. symmetry. apply drop_app_le. lia. }
  rewrite E. split; intros H v Hv Hn (a & b & Eo).
  - pose proof (length_maximum _ Hv) as Hmax. apply (H v Hv Hn).
    assert (Hlen : (length p + length c = length a + length v + length b)%nat).
    { apply (f_equal length) in Eo. rewrite !length_app in Eo. lia. }
    assert (0 < length v)%nat by (destruct v; [done|cbn; lia]).
    destruct (decide (length a + length v <= length p)%nat) as [Hb|Hb].
    + exfalso. apply (Hp v Hv Hn). exists a, (drop (length a + length v) p).
      apply (f_equal (take (length a + length v))) in Eo. rewrite take_app_le in Eo by done.
      rewrite app_assoc, (take_app_length' (a ++ v)) in Eo by (by rewrite length_app).
      by rewrite app_assoc, <- Eo, take_drop.
    + exists (drop k a), b. rewrite Eo. apply drop_app_le. lia.
  - apply (H v Hv Hn). exists (take k (p ++ c) ++ a), b. by rewrite <- app_assoc, <- Eo, take_drop.
Qed.

(** ** Copying *)

Definition tail_of (p tail : bytes) : Prop := (0 < maximum forbidden_values)%nat -> tail = lastn (maximum forbidden_values - 1) p.
Definition next_tail (scan tail : bytes) : bytes :=
  if (0 <? maximum forbidden_values)%nat
  then drop (length scan - Nat.min (maximum forbidden_values - 1) (length scan)) scan else tail.

Lemma tail_of_nil : tail_of [] [].
Proof. by intros _. Qed.

Lemma next_tail_of p tail c : tail_of p tail -> tail_of (p ++ c) (next_tail (tail ++ c) tail).
Proof.
  intros Ht Hm. unfold next_tail. rewrite (proj2 (Nat.ltb_lt _ _) Hm), (Ht Hm), <- lastn_app.
  unfold lastn at 4. f_equal. lia.
Qed.

(** What the scan of a chunk decides. *)
Lemma scan_chunk p tail c : clean p -> tail_of p tail ->
  ((0 <? maximum forbidden_values)%nat && forbidden_in forbidden_values (tail ++ c)) = false <-> clean (p ++ c).
Proof.
  intros Hp Ht. destruct (0 <? maximum forbidden_values)%nat eqn:E; cbn.
  - apply Nat.ltb_lt in E. by rewrite forbidden_in_spec, (Ht E), scan_tail.
  - split; [|done]. intros _. apply clean_trivial. apply Nat.ltb_ge in E. lia.
Qed.

(** The first read of a text that is not over returns some of it. *)
Lemma read_chunk n c rest r z cas t : 0 < n -> n = Z.of_nat (length c) ->
  exists a b, c = a ++ b /\ a <> [] /\ read (Z.to_nat (Z.min n 65536)) (MkReceiver (MkStream (c ++ rest) r z) cas t) =
    (Ok a, MkReceiver (MkStream (b ++ rest) (S r) z) cas t).
Proof.
  intros Hn E. set (k := read_size (Z.to_nat (Z.min n 65536)) (MkStream (c ++ rest) r z)).
  assert (Hk : (0 < k <= length c)%nat).
  { subst k. unfold read_size. cbn [pending sizes reads]. rewrite length_app. lia. }
  exists (take k c), (drop k c). split; [by rewrite take_drop|]. split.
  - intros Ec. apply (f_equal length) in Ec. rewrite length_take in Ec. cbn in Ec. lia.
  - unfold read. cbn [stream set_stream receiver_stream rx_input rx_cas rx_temporary pending reads sizes]. fold k.
    rewrite take_app_le, drop_app_le by lia. done.
Qed.

Lemma copy_loop_step fuel n tail p s : 0 < n ->
  copy_loop forbidden_values (S fuel) n tail p s =
  (let! chunk := read (Z.to_nat (Z.min n 65536)) in
   do! io_reject (bool_decide (chunk = [])) (unexpected_eof "artifact bytes") in
   do! io_reject ((0 <? maximum forbidden_values)%nat && forbidden_in forbidden_values (tail ++ chunk))
         (invalid "artifact contains a build credential") in
   do! write_hashed chunk in
   copy_loop forbidden_values fuel (n - Z.of_nat (length chunk)) (next_tail (tail ++ chunk) tail) (p ++ chunk)) s.
Proof. intros Hn. cbn [copy_loop]. by rewrite (proj2 (Z.leb_gt _ _) Hn). Qed.

Lemma copy_loop_done fuel tail p s : copy_loop forbidden_values fuel 0 tail p s = (Ok p, s).
Proof. by destruct fuel. Qed.

Lemma copy_loop_run fuel : forall c p tail rest r z cas t,
  (length c < fuel)%nat -> tail_of p tail -> clean (p ++ c) ->
  exists r', copy_loop forbidden_values fuel (Z.of_nat (length c)) tail p
    (MkReceiver (MkStream (c ++ rest) r z) cas (Some t)) =
    (Ok (p ++ c), MkReceiver (MkStream rest r' z) cas (Some (t ++ c))).
Proof.
  induction fuel as [|fuel IH]; intros c p tail rest r z cas t Hf Ht Hc; [lia|].
  destruct (decide (c = [])) as [->|Hne].
  { exists r. cbn [length Z.of_nat app]. by rewrite copy_loop_done, !app_nil_r. }
  assert (Hpos : 0 < Z.of_nat (length c)) by (destruct c; [done|cbn; lia]).
  destruct (read_chunk _ c rest r z cas (Some t) Hpos eq_refl) as (a & b & -> & Ha & Hr).
  rewrite copy_loop_step by done. erewrite io_bind_Ok by exact Hr.
  rewrite io_reject_run by (by rewrite bool_decide_eq_false_2). rewrite app_assoc in Hc.
  rewrite io_reject_run by (apply (scan_chunk p); [by do 2 apply clean_prefix in Hc|done|by apply clean_prefix in Hc]).
  erewrite io_bind_Ok by apply write_hashed_run.
  replace (Z.of_nat (length (a ++ b)) - Z.of_nat (length a)) with (Z.of_nat (length b)) by (rewrite length_app; lia).
  destruct (IH b (p ++ a) (next_tail (tail ++ a) tail) rest (S r) z cas (t ++ a)) as (r' & Hrun);
    [rewrite length_app in Hf; destruct a; [done|cbn in Hf; lia]|by apply next_tail_of|done|].
  exists r'. by rewrite Hrun, <- !app_assoc.
Qed.

Definition credential_found : IoError := invalid "artifact contains a build credential".

Lemma clean_dec bs : {clean bs} + {~ clean bs}.
Proof.
  destruct (forbidden_in forbidden_values bs) eqn:E; [right|left; by apply forbidden_in_spec].
  intros H. apply forbidden_in_spec in H. congruence.
Qed.

(** A credential stops the copy, wherever the reads split it. *)
Lemma copy_loop_refuses fuel : forall c p tail rest r z cas t,
  (length c < fuel)%nat -> tail_of p tail -> clean p -> ~ clean (p ++ c) ->
  exists s', copy_loop forbidden_values fuel (Z.of_nat (length c)) tail p
    (MkReceiver (MkStream (c ++ rest) r z) cas (Some t)) = (Err credential_found, s') /\ rx_cas s' = cas.
Proof.
  induction fuel as [|fuel IH]; intros c p tail rest r z cas t Hf Ht Hp Hc; [lia|].
  destruct (decide (c = [])) as [->|Hne]; [by rewrite app_nil_r in Hc|].
  assert (Hpos : 0 < Z.of_nat (length c)) by (destruct c; [done|cbn; lia]).
  destruct (read_chunk _ c rest r z cas (Some t) Hpos eq_refl) as (a & b & -> & Ha & Hr).
  rewrite copy_loop_step by done. erewrite io_bind_Ok by exact Hr.
  rewrite io_reject_run by (by rewrite bool_decide_eq_false_2).
  destruct (clean_dec (p ++ a)) as [Hpa|Hpa].
  - rewrite io_reject_run by (by apply (scan_chunk p)). erewrite io_bind_Ok by apply write_hashed_run.
    replace (Z.of_nat (length (a ++ b)) - Z.of_nat (length a)) with (Z.of_nat (length b)) by (rewrite length_app; lia).
    apply IH; [rewrite length_app in Hf; destruct a; [done|cbn in Hf; lia]|by apply next_tail_of|done|].
    by rewrite <- app_assoc.
  - eexists. unfold io_bind at 1, io_reject. rewrite (not_false_is_true _ (fun E => Hpa (proj1 (scan_chunk p tail a Hp Ht) E))).
    done.
Qed.

Lemma copy_loop_inv fuel : forall n p tail i cas t bs s',
  0 <= n -> tail_of p tail -> clean p ->
  copy_loop forbidden_values fuel n tail p (MkReceiver i cas (Some t)) = (Ok bs, s') ->
  exists c r', bs = p ++ c /\ Z.of_nat (length c) = n /\ pending i = c ++ pending (rx_input s') /\
    s' = MkReceiver (MkStream (pending (rx_input s')) r' (sizes i)) cas (Some (t ++ c)) /\ clean (p ++ c).
Proof.
  induction fuel as [|fuel IH]; intros n p tail i cas t bs s' Hn Ht Hp H.
  { cbn in H. case_match eqn:E; [|done]. apply Z.leb_le in E. injection H as <- <-. exists [], (reads i).
    rewrite !app_nil_r. destruct i. cbn. split_and!; try done. lia. }
  destruct (decide (n = 0)) as [->|].
  { rewrite copy_loop_done in H. injection H as <- <-. exists [], (reads i). rewrite !app_nil_r. by destruct i. }
  rewrite copy_loop_step in H by lia. io_step H a s1 Ea. io_reject_step H Hne. io_reject_step H Hscan.
  unfold read in Ea. injection Ea as Ea <-. cbn [set_stream receiver_stream rx_cas rx_temporary stream rx_input] in *.
  apply (scan_chunk p) in Hscan; [|done..].
  assert (Hl : (length a <= Z.to_nat n)%nat).
  { rewrite <- Ea, length_take. unfold read_size. lia. }
  erewrite io_bind_Ok in H by apply write_hashed_run.
  apply IH in H as (c & r' & -> & Hc & Hp' & Hs & Hclean); [|lia|by apply next_tail_of|done].
  cbn [pending sizes] in *. exists (a ++ c), r'. rewrite length_app, <- !app_assoc in *. split_and!; try done; try lia.
  rewrite <- Hp', <- Ea. by rewrite take_drop.
Qed.
End Scanning.
