(* ===== verification/ArtifactSteps.v ===== *)
(** * Receiving well-framed artifacts *)

From stdpp Require Import base list option gmap strings.
From Stdlib Require Import ZArith Lia.
From S2P Require Import Prelude RustText Bytes Wire SourceBundle SourceTheorems Artifact ArtifactSpec.

Local Open Scope Z_scope.
Local Open Scope list_scope.

Section Receiving.
Context (report_json : bytes -> option GuestReport) (sha256_hex : bytes -> string) (forbidden : list bytes).

#[local] Notation receiver p r z cas t := (MkReceiver (MkStream p r z) cas t).

(** ** What is accepted, and what is made of it *)

Record entry_ok (e : FileEntry) : Prop := {
  eo_path : validate_path (fe_path e) = Ok tt;
  eo_length : (length (fe_path e) <= 1024)%nat;
  eo_utf8 : utf8_valid (fe_path e) = true;
  eo_mode : fe_mode e = 420 \/ fe_mode e = 493;
  eo_clean : clean forbidden (fe_content e);
}.

(** Paths in strictly increasing order, after [previous]. *)
Fixpoint in_order (previous : option bytes) (es : list FileEntry) : Prop :=
  match es with
  | [] => True
  | e :: es' => follows previous (fe_path e) /\ in_order (Some (fe_path e)) es'
  end.

Definition advance (l : EntryLoop) (e : FileEntry) : EntryLoop := {|
  el_actual_bytes := el_actual_bytes l + Z.of_nat (length (fe_content e));
  el_previous := Some (fe_path e); el_paths := {[fe_path e]} ∪ el_paths l;
  el_package_json :=
    if bool_decide (fe_path e = package_json_path) && (Z.of_nat (length (fe_content e)) <=? 65536)
    then Some (fe_content e) else el_package_json l |}.
Definition no_entries : EntryLoop :=
  {| el_actual_bytes := 0; el_previous := None; el_paths := ∅; el_package_json := None |}.
Definition advance_all (l : EntryLoop) (es : list FileEntry) : EntryLoop := fold_left advance es l.

Definition kind_name (k : Z) : bytes := if k =? 1 then lit "static" else lit "application".
Definition kind_limit (limits : BuildLimits) (k : Z) : Z :=
  if k =? 1 then bl_static_output_bytes limits else bl_runtime_output_bytes limits.

Record artifact_ok (limits : BuildLimits) (a : OutputArtifact) : Prop := {
  ao_kind : oa_kind a = 1 \/ oa_kind a = 2;
  ao_service : valid_uuid (oa_service_id a) = true;
  ao_service_utf8 : utf8_valid (oa_service_id a) = true;
  ao_some : oa_entries a <> [];
  ao_count : Z.of_nat (length (oa_entries a)) <= bl_max_entries limits;
  ao_bytes : content_bytes (oa_entries a) <= kind_limit limits (oa_kind a);
  ao_order : in_order None (oa_entries a);
  ao_entries : Forall entry_ok (oa_entries a);
}.

(** What is checked before the entries are read. *)
Record header_ok (limits : BuildLimits) (a : OutputArtifact) : Prop := {
  ho_kind : oa_kind a = 1 \/ oa_kind a = 2;
  ho_service : valid_uuid (oa_service_id a) = true;
  ho_service_utf8 : utf8_valid (oa_service_id a) = true;
  ho_some : oa_entries a <> [];
  ho_count : Z.of_nat (length (oa_entries a)) <= bl_max_entries limits;
  ho_bytes : content_bytes (oa_entries a) <= kind_limit limits (oa_kind a);
}.
Lemma artifact_header limits a : artifact_ok limits a -> header_ok limits a.
Proof. intros []. by split. Qed.

(** The widths of the limits. *)
Record limits_ok (limits : BuildLimits) : Prop := {
  lo_entries : bl_max_entries limits <= max_u32;
  lo_static : bl_static_output_bytes limits <= max_u64;
  lo_runtime : bl_runtime_output_bytes limits <= max_u64;
  lo_report : bl_report_bytes limits <= max_u64;
}.

Definition received (a : OutputArtifact) : ReceivedArtifact :=
  let l := advance_all no_entries (oa_entries a) in {|
  ra_service_id := oa_service_id a; ra_kind := kind_name (oa_kind a);
  ra_archive_digest := digest_of sha256_hex (canonical_archive a);
  ra_packed_bytes := Z.of_nat (length (canonical_archive a));
  ra_unpacked_bytes := content_bytes (oa_entries a);
  ra_entry_count := Z.of_nat (length (oa_entries a));
  ra_paths := el_paths l; ra_package_json := el_package_json l |}.

Definition private_object (bs : bytes) : CasObject := {| co_regular := true; co_mode := 384; co_bytes := bs |}.
Definition stored (a : OutputArtifact) (cas : gmap string CasObject) : gmap string CasObject :=
  let digest := digest_of sha256_hex (canonical_archive a) in
  match cas !! digest with
  | Some _ => cas
  | None => <[digest := private_object (canonical_archive a)]> cas
  end.

(** Every object is private and is what its digest says. *)
Definition cas_ok (cas : gmap string CasObject) : Prop := forall digest o, cas !! digest = Some o ->
  co_regular o = true /\ Z.land (co_mode o) 63 = 0 /\ digest = digest_of sha256_hex (co_bytes o).

(** SHA-256 is written as 64 lowercase hexadecimal digits. *)
Definition sha256_digits : Prop := forall bs,
  String.length (sha256_hex bs) = 64%nat /\ forallb is_hex_lower (as_bytes (sha256_hex bs)) = true.

Lemma string_length_app (s1 s2 : string) : String.length (s1 +:+ s2) = (String.length s1 + String.length s2)%nat.
Proof. induction s1 as [|c s1 IH]; [done|]. change (String c s1 +:+ s2) with (String c (s1 +:+ s2)). cbn. by rewrite IH. Qed.

Lemma digest_valid bs : sha256_digits -> valid_digest (digest_of sha256_hex bs) = true.
Proof.
  intros H. destruct (H bs) as [Hl Hh]. unfold valid_digest, digest_of.
  assert (E : as_bytes (SHA256_PREFIX +:+ sha256_hex bs) = as_bytes SHA256_PREFIX ++ as_bytes (sha256_hex bs)) by done.
  rewrite E, string_length_app, Hl.
  cbn [Nat.eqb andb]. apply andb_true_iff. split; [apply starts_with_prefix; by eexists|]. exact Hh.
Qed.

Lemma stored_ok a cas : cas_ok cas -> cas_ok (stored a cas).
Proof.
  intros H digest o. unfold stored. case_match; [apply H|]. rewrite lookup_insert. case_decide; [|apply H].
  intros [= <-]. subst. done.
Qed.

(** ** Strings and entries *)

Lemma read_string_run maxlen v rest r z cas t :
  v <> [] -> (length v <= maxlen)%nat -> (maxlen <= 1024)%nat -> utf8_valid v = true ->
  read_string maxlen (receiver (framed 2 v ++ rest) r z cas t) = (Ok v, receiver rest r z cas t).
Proof.
  intros Hv Hl Hm Hu. unfold read_string, framed, length_prefixed. rewrite <- app_assoc.
  erewrite io_bind_Ok by (eapply read_be_run; [|done]; width).
  rewrite io_reject_run.
  2:{ apply orb_false_iff. split; [apply Z.eqb_neq; destruct v; [done|cbn; lia]|apply Z.ltb_ge; lia]. }
  rewrite Nat2Z.id. erewrite io_bind_Ok by (eapply read_exact_run; done). by rewrite io_reject_run by (by rewrite Hu).
Qed.

Lemma write_hashed_string_run v i cas t : (length v <= 1024)%nat ->
  write_hashed_string v (MkReceiver i cas (Some t)) = (Ok tt, MkReceiver i cas (Some (t ++ framed 2 v))).
Proof.
  intros Hl. unfold write_hashed_string. rewrite io_reject_run by (apply Z.ltb_ge; lia).
  erewrite io_bind_Ok by apply write_hashed_run. rewrite write_hashed_run. unfold framed, length_prefixed.
  by rewrite <- app_assoc.
Qed.

Lemma copy_hashed_run c rest r z cas t : clean forbidden c -> exists r',
  copy_hashed forbidden (Z.of_nat (length c)) (receiver (c ++ rest) r z cas (Some t)) =
    (Ok c, receiver rest r' z cas (Some (t ++ c))).
Proof.
  intros Hc. unfold copy_hashed, io_bind at 1, io_get. cbn [rx_input pending].
  apply (copy_loop_run forbidden _ c [] []); [rewrite length_app; lia|apply tail_of_nil|done].
Qed.

Lemma validate_path_nonempty p : validate_path p = Ok tt -> p <> [].
Proof. unfold validate_path. rewrite guard_err_Ok. intros H ->. done. Qed.

(** A good header of an entry, whatever its content. *)
Record entry_header_ok (e : FileEntry) : Prop := {
  eh_path : validate_path (fe_path e) = Ok tt;
  eh_length : (length (fe_path e) <= 1024)%nat;
  eh_utf8 : utf8_valid (fe_path e) = true;
  eh_mode : fe_mode e = 420 \/ fe_mode e = 493;
}.
Lemma entry_header e : entry_ok e -> entry_header_ok e.
Proof. intros []. by split. Qed.

Definition entry_head (e : FileEntry) : bytes :=
  framed 2 (fe_path e) ++ be_bytes 4 (fe_mode e) ++ be_bytes 8 (Z.of_nat (length (fe_content e))).

Lemma receive_entry_head limit code l e rest r z cas t :
  entry_header_ok e -> follows (el_previous l) (fe_path e) -> limit <= max_u64 ->
  0 <= el_actual_bytes l -> el_actual_bytes l + Z.of_nat (length (fe_content e)) <= limit ->
  receive_entry forbidden limit code l (receiver (entry_frame e ++ rest) r z cas (Some t)) =
  (let! copied := copy_hashed forbidden (Z.of_nat (length (fe_content e))) in
   io_ret {| el_actual_bytes := el_actual_bytes l + Z.of_nat (length (fe_content e)); el_previous := Some (fe_path e);
     el_paths := {[fe_path e]} ∪ el_paths l;
     el_package_json := if bool_decide (fe_path e = package_json_path) && (Z.of_nat (length (fe_content e)) <=? 65536)
                        then Some copied else el_package_json l |})
  (receiver (fe_content e ++ rest) r z cas (Some (t ++ entry_head e))).
Proof.
  intros [Hv Hl Hu Hm] Hf Hlim H0 Htot. unfold max_u64 in Hlim.
  unfold receive_entry, entry_frame. rewrite <- !app_assoc.
  erewrite io_bind_Ok by (apply read_string_run; [by apply validate_path_nonempty|done..]).
  erewrite io_bind_Ok by (unfold io_lift; by rewrite Hv).
  rewrite io_reject_run by (destruct (el_previous l); [by cbn in *; rewrite Hf|done]).
  erewrite io_bind_Ok by (eapply read_be_run; [|done]; destruct Hm as [-> | ->]; done).
  rewrite io_reject_run by (by destruct Hm as [-> | ->]).
  unfold framed at 1, length_prefixed at 1. rewrite <- app_assoc.
  erewrite io_bind_Ok by (eapply read_be_run; [|done]; width).
  cbn [stream set_stream receiver_stream rx_input rx_cas rx_temporary reads sizes pending].
  rewrite io_reject_run by (apply orb_false_iff; split; apply Z.ltb_ge; unfold max_u64; lia).
  erewrite io_bind_Ok by (by apply write_hashed_string_run).
  erewrite io_bind_Ok by apply write_hashed_run. erewrite io_bind_Ok by apply write_hashed_run.
  unfold entry_head. by rewrite <- !app_assoc.
Qed.

Lemma entry_head_content e : entry_head e ++ fe_content e = entry_frame e.
Proof. unfold entry_head, entry_frame, framed, length_prefixed. by rewrite <- ?app_assoc. Qed.

Lemma receive_entry_run limit code l e rest r z cas t :
  entry_ok e -> follows (el_previous l) (fe_path e) -> limit <= max_u64 ->
  0 <= el_actual_bytes l -> el_actual_bytes l + Z.of_nat (length (fe_content e)) <= limit ->
  exists r', receive_entry forbidden limit code l (receiver (entry_frame e ++ rest) r z cas (Some t)) =
    (Ok (advance l e), receiver rest r' z cas (Some (t ++ entry_frame e))).
Proof.
  intros He Hf Hlim H0 Htot. destruct (copy_hashed_run (fe_content e) rest r z cas (t ++ entry_head e)) as (r' & Hcopy);
    [apply He|]. exists r'.
  rewrite receive_entry_head by (done || by apply entry_header). erewrite io_bind_Ok by exact Hcopy.
  by rewrite <- app_assoc, entry_head_content.
Qed.

Lemma content_bytes_nonneg es : 0 <= content_bytes es.
Proof. unfold content_bytes. induction es; cbn; lia. Qed.

Lemma content_bytes_cons e es : content_bytes (e :: es) = Z.of_nat (length (fe_content e)) + content_bytes es.
Proof. done. Qed.

Lemma advance_all_bytes es : forall l, el_actual_bytes (advance_all l es) = el_actual_bytes l + content_bytes es.
Proof.
  induction es as [|e es IH]; intros l; [unfold content_bytes; cbn; lia|]. change (advance_all l (e :: es)) with (advance_all (advance l e) es).
  rewrite IH, content_bytes_cons. cbn [advance el_actual_bytes]. lia.
Qed.

Lemma receive_entries_run limit code es : forall l rest r z cas t,
  Forall entry_ok es -> in_order (el_previous l) es -> limit <= max_u64 ->
  0 <= el_actual_bytes l -> el_actual_bytes l + content_bytes es <= limit ->
  exists r', receive_entries forbidden (length es) limit code l (receiver (entries_bytes es ++ rest) r z cas (Some t)) =
    (Ok (advance_all l es), receiver rest r' z cas (Some (t ++ entries_bytes es))).
Proof.
  induction es as [|e es IH]; intros l rest r z cas t Hok Hord Hlim H0 Htot.
  { exists r. cbn. by rewrite app_nil_r. }
  apply Forall_cons in Hok as [He Hok]. destruct Hord as [Hf Hord]. rewrite content_bytes_cons in Htot.
  pose proof (content_bytes_nonneg es). unfold entries_bytes. cbn [map concat receive_entries length]. rewrite <- app_assoc.
  destruct (receive_entry_run limit code l e (entries_bytes es ++ rest) r z cas t) as (r1 & Hrun); [done..|lia|].
  erewrite io_bind_Ok by exact Hrun.
  destruct (IH (advance l e) rest r1 z cas (t ++ entry_frame e)) as (r' & Hrest); [done|done|done|cbn [advance el_actual_bytes]; lia..|].
  exists r'. rewrite Hrest. by rewrite <- app_assoc.
Qed.

Lemma install_cas_run bs i cas : sha256_digits -> cas_ok cas ->
  install_cas sha256_hex (digest_of sha256_hex bs) (MkReceiver i cas (Some bs)) =
    (Ok tt, MkReceiver i (match cas !! digest_of sha256_hex bs with
                          | Some _ => cas | None => <[digest_of sha256_hex bs := private_object bs]> cas end) (Some bs)).
Proof.
  intros Hd Hc. unfold install_cas. rewrite io_reject_run by (by rewrite digest_valid). unfold io_bind at 1, io_get.
  cbn [rx_cas]. destruct (cas !! _) as [o|] eqn:Ho; [|done]. destruct (Hc _ _ Ho) as (Hr & Hm & Hdig).
  unfold io_bind, io_lift, verify_cas_file. rewrite Hr, Hm. cbn [negb orb Z.eqb].
  by rewrite bool_decide_eq_true_2.
Qed.

Lemma kind_byte_name k : k = 1 \/ k = 2 -> kind_byte (kind_name k) = k.
Proof. by intros [-> | ->]. Qed.

Definition archive_head (a : OutputArtifact) : bytes :=
  CANONICAL_ARTIFACT_MAGIC ++ [oa_kind a] ++ framed 2 (oa_service_id a)
  ++ be_bytes 4 (Z.of_nat (length (oa_entries a))) ++ be_bytes 8 (content_bytes (oa_entries a)).

(** Reading the archive of an artifact: its head is written, then its entries are read. *)
Lemma receive_archive_head limits a code s : header_ok limits a ->
  receive_archive sha256_hex forbidden (kind_name (oa_kind a)) (oa_service_id a)
    (Z.of_nat (length (oa_entries a))) (content_bytes (oa_entries a)) (kind_limit limits (oa_kind a)) code s =
  (let (x, s') := (let! l := receive_entries forbidden (length (oa_entries a)) (kind_limit limits (oa_kind a)) code no_entries in
     do! io_reject (negb (el_actual_bytes l =? content_bytes (oa_entries a))) (invalid "artifact byte total") in
     let! s := io_get in
     let archive := default [] (rx_temporary s) in
     do! install_cas sha256_hex (digest_of sha256_hex archive) in
     io_ret {| ra_service_id := oa_service_id a; ra_kind := kind_name (oa_kind a);
       ra_archive_digest := digest_of sha256_hex archive; ra_packed_bytes := Z.of_nat (length archive);
       ra_unpacked_bytes := el_actual_bytes l; ra_entry_count := Z.of_nat (length (oa_entries a));
       ra_paths := el_paths l; ra_package_json := el_package_json l |})
    (MkReceiver (rx_input s) (rx_cas s) (Some (archive_head a))) in
   (x, MkReceiver (rx_input s') (rx_cas s') None)).
Proof.
  intros [Hk Hs _ _ _ _]. unfold receive_archive, with_temporary. cbn [rx_input rx_cas].
  rewrite !io_bind_Ok with (1 := write_hashed_run _ _ _ _). rewrite kind_byte_name by done.
  erewrite io_bind_Ok.
  2:{ apply write_hashed_string_run. unfold valid_uuid in Hs. apply andb_true_iff in Hs as [Hs%Nat.eqb_eq _]. lia. }
  rewrite !io_bind_Ok with (1 := write_hashed_run _ _ _ _). rewrite <- !app_assoc. by rewrite Nat2Z.id.
Qed.

Lemma kind_limit_u64 limits k : limits_ok limits -> kind_limit limits k <= max_u64.
Proof. intros []. unfold kind_limit. by case_match. Qed.

Lemma receive_archive_run limits a code rest r z cas t : sha256_digits -> cas_ok cas -> limits_ok limits -> artifact_ok limits a ->
  exists r', receive_archive sha256_hex forbidden (kind_name (oa_kind a)) (oa_service_id a)
      (Z.of_nat (length (oa_entries a))) (content_bytes (oa_entries a)) (kind_limit limits (oa_kind a)) code
      (receiver (entries_bytes (oa_entries a) ++ rest) r z cas t) =
    (Ok (received a), receiver rest r' z (stored a cas) None).
Proof.
  intros Hd Hc Hl Ha. pose proof (kind_limit_u64 limits (oa_kind a) Hl).
  destruct (receive_entries_run (kind_limit limits (oa_kind a)) code (oa_entries a) no_entries rest r z cas (archive_head a))
    as (r' & Hrun); [by apply Ha|by apply Ha|done|done|by apply Ha|]. exists r'.
  rewrite receive_archive_head by (by apply artifact_header). cbn [rx_input rx_cas].
  erewrite io_bind_Ok by exact Hrun. rewrite io_reject_run by (rewrite advance_all_bytes; cbn; by rewrite Z.eqb_refl).
  unfold io_bind at 1, io_get. cbn [rx_temporary default].
  assert (E : archive_head a ++ entries_bytes (oa_entries a) = canonical_archive a).
  { unfold archive_head, canonical_archive, artifact_body. by rewrite <- ?app_assoc. }
  change (id (archive_head a ++ entries_bytes (oa_entries a))) with (archive_head a ++ entries_bytes (oa_entries a)).
  rewrite E. erewrite io_bind_Ok by (by apply install_cas_run).
  unfold io_ret. cbn [rx_input rx_cas]. unfold received. by rewrite advance_all_bytes.
Qed.

Definition limit_code (a : OutputArtifact) : string :=
  if oa_kind a =? 1 then "static_output_too_large"%string else "runtime_output_too_large"%string.

(** After a good header, what is left is to read the archive. *)
Lemma receive_artifact_head limits kinds a rest r z cas t :
  limits_ok limits -> header_ok limits a -> kind_name (oa_kind a) ∉ kinds ->
  receive_artifact sha256_hex forbidden limits kinds (receiver (artifact_body a ++ rest) r z cas t) =
  receive_archive sha256_hex forbidden (kind_name (oa_kind a)) (oa_service_id a)
    (Z.of_nat (length (oa_entries a))) (content_bytes (oa_entries a)) (kind_limit limits (oa_kind a)) (limit_code a)
    (receiver (entries_bytes (oa_entries a) ++ rest) r z cas t).
Proof.
  intros [Hle Hls Hlr _] [Hk Hs Hu Hne Hn Hb] Hkinds.
  assert (Hlen : length (oa_service_id a) = 36%nat).
  { unfold valid_uuid in Hs. by apply andb_true_iff in Hs as [Hs%Nat.eqb_eq _]. }
  assert (Hlim : kind_limit limits (oa_kind a) <= max_u64) by (unfold kind_limit; case_match; done).
  unfold receive_artifact, artifact_body. rewrite <- !app_assoc.
  erewrite io_bind_Ok by (apply (read_be_run 1 (oa_kind a)); [|]; destruct Hk as [-> | ->]; done).
  assert (Hkind : artifact_kind limits (oa_kind a) = Ok (kind_name (oa_kind a), kind_limit limits (oa_kind a), limit_code a))
    by (unfold limit_code; by destruct Hk as [-> | ->]).
  rewrite Hkind. unfold io_bind at 1, io_lift.
  cbn [stream set_stream receiver_stream rx_input rx_cas rx_temporary reads sizes pending].
  rewrite io_reject_run by (by rewrite bool_decide_eq_false_2).
  erewrite io_bind_Ok by (apply read_string_run; [by destruct (oa_service_id a)|lia|lia|done]).
  rewrite io_reject_run by (by rewrite Hs).
  pose proof (content_bytes_nonneg (oa_entries a)). unfold max_u32, max_u64 in *.
  erewrite io_bind_Ok by (eapply read_be_run; [|done]; width).
  cbn [stream set_stream receiver_stream rx_input rx_cas rx_temporary reads sizes pending].
  erewrite io_bind_Ok by (eapply read_be_run; [|done]; width).
  cbn [stream set_stream receiver_stream rx_input rx_cas rx_temporary reads sizes pending].
  rewrite io_reject_run by (apply Z.eqb_neq; destruct (oa_entries a); [done|cbn; lia]).
  rewrite !io_reject_run by (apply Z.ltb_ge; lia). done.
Qed.

Lemma receive_artifact_run limits kinds a rest r z cas t :
  sha256_digits -> cas_ok cas -> limits_ok limits -> artifact_ok limits a -> kind_name (oa_kind a) ∉ kinds ->
  exists r', receive_artifact sha256_hex forbidden limits kinds (receiver (artifact_body a ++ rest) r z cas t) =
    (Ok (received a), receiver rest r' z (stored a cas) None).
Proof.
  intros Hd Hc Hl Ha Hkinds. destruct (receive_archive_run limits a (limit_code a) rest r z cas t) as (r' & Hrun); [done..|].
  exists r'. by rewrite receive_artifact_head by (done || by apply artifact_header).
Qed.

Definition store_all (artifacts : list OutputArtifact) (cas : gmap string CasObject) : gmap string CasObject :=
  fold_left (fun c a => stored a c) artifacts cas.

Lemma receive_artifacts_run limits artifacts : forall kinds rest r z cas t,
  sha256_digits -> cas_ok cas -> limits_ok limits -> Forall (artifact_ok limits) artifacts ->
  NoDup (map (fun a => kind_name (oa_kind a)) artifacts) ->
  (forall a, a ∈ artifacts -> kind_name (oa_kind a) ∉ kinds) ->
  exists r' t', receive_artifacts sha256_hex forbidden (length artifacts) limits kinds
      (receiver (concat (map artifact_body artifacts) ++ rest) r z cas t) =
    (Ok (map received artifacts), receiver rest r' z (store_all artifacts cas) t').
Proof.
  induction artifacts as [|a artifacts IH]; intros kinds rest r z cas t Hd Hc Hl Ha Hnd Hk.
  { by exists r, t. }
  apply Forall_cons in Ha as [Ha Has]. cbn in Hnd. apply NoDup_cons in Hnd as [Hnew Hnd].
  destruct (receive_artifact_run limits kinds a (concat (map artifact_body artifacts) ++ rest) r z cas t)
    as (r1 & Hrun); [done..|apply Hk; left|].
  destruct (IH (ra_kind (received a) :: kinds) rest r1 z (stored a cas) None) as (r' & t' & Hrest);
    [done|by apply stored_ok|done|done|done| |].
  { intros b Hb. cbn [received ra_kind]. intros [E|Hin]%elem_of_cons.
    - apply Hnew. rewrite <- E. by apply (list_elem_of_fmap_2 (fun a => kind_name (oa_kind a))).
    - by apply (Hk b); [right|]. }
  exists r', t'. cbn [length receive_artifacts map concat]. rewrite <- app_assoc.
  erewrite io_bind_Ok by exact Hrun. erewrite io_bind_Ok by exact Hrest. done.
Qed.

(** The report's length fits its limit, its fields theirs. *)
Record report_ok (limits : BuildLimits) (text : bytes) (report : GuestReport) (artifacts : list OutputArtifact) : Prop := {
  ro_text : text <> [] /\ Z.of_nat (length text) <= bl_report_bytes limits /\ Z.of_nat (length text) <= max_u32;
  ro_json : report_json text = Some report;
  ro_fields : report_fields_invalid report = false;
  ro_count : (length artifacts <= 2)%nat;
  ro_failed : gp_state report = lit "failed" -> artifacts = [];
}.

(** After a good report, what is left is to read the artifacts and the end. *)
Lemma receive_head limits text report artifacts r z cas t : report_ok limits text report artifacts ->
  receive report_json sha256_hex forbidden limits (receiver (guest_output text artifacts) r z cas t) =
  (let! received := receive_artifacts sha256_hex forbidden (length artifacts) limits [] in
   let! extra := read 1 in
   do! io_reject (negb (bool_decide (extra = []))) (invalid "trailing guest output") in
   io_ret {| go_report := report; go_artifacts := received |})
  (receiver (concat (map artifact_body artifacts)) r z cas t).
Proof.
  intros [(Hne & Hrep & H32) Hj Hf Hn Hfail]. unfold max_u32 in H32.
  unfold receive, guest_output, framed, length_prefixed.
  rewrite <- !app_assoc. erewrite io_bind_Ok by (eapply (read_exact_run _ GUEST_OUTPUT_MAGIC); done).
  rewrite io_reject_run by (by rewrite bool_decide_eq_true_2).
  erewrite io_bind_Ok by (eapply read_be_run; [|done]; width).
  rewrite io_reject_run by (apply orb_false_iff; split; [apply Z.eqb_neq; destruct text; [done|cbn; lia]|apply Z.ltb_ge; lia]).
  rewrite Nat2Z.id. erewrite io_bind_Ok by (eapply read_exact_run; done).
  erewrite io_bind_Ok by (unfold io_lift; by rewrite Hj). rewrite io_reject_run by done.
  erewrite io_bind_Ok.
  2:{ apply (read_be_run 1 (Z.of_nat (length artifacts))); [lia|].
      cbn [stream set_stream receiver_stream rx_input rx_cas rx_temporary reads sizes pending].
      f_equal. destruct artifacts as [|? [|? [|]]]; cbn in *; try done; lia. }
  rewrite io_reject_run.
  2:{ apply orb_false_iff. split; [apply Z.ltb_ge; lia|]. case_bool_decide as E; [|done]. by rewrite (Hfail E). }
  rewrite Nat2Z.id. done.
Qed.

Lemma receive_run limits text report artifacts r z cas t :
  sha256_digits -> cas_ok cas -> limits_ok limits -> report_ok limits text report artifacts ->
  Forall (artifact_ok limits) artifacts -> NoDup (map (fun a => kind_name (oa_kind a)) artifacts) ->
  exists r' t', receive report_json sha256_hex forbidden limits (receiver (guest_output text artifacts) r z cas t) =
    (Ok {| go_report := report; go_artifacts := map received artifacts |},
     receiver [] r' z (store_all artifacts cas) t').
Proof.
  intros Hd Hc Hl Hr Ha Hnd. destruct (receive_artifacts_run limits artifacts [] [] r z cas t) as (r1 & t1 & Hrun);
    [done..|intros a _; by apply not_elem_of_nil|].
  rewrite app_nil_r in Hrun. exists (S r1), t1. rewrite (receive_head limits text report) by done.
  erewrite io_bind_Ok by exact Hrun. unfold io_bind at 1, read.
  cbn [stream set_stream receiver_stream rx_input rx_cas rx_temporary reads sizes pending]. by rewrite take_nil, drop_nil.
Qed.
End Receiving.
