(* ===== verification/ArtifactInv.v ===== *)
(** * What the receiver accepts

    Everything [receive] accepts is a well-framed output, every file of which was scanned. *)

From stdpp Require Import base list option gmap strings.
From Stdlib Require Import ZArith Lia.
From S2P Require Import Prelude RustText Bytes Wire SourceBundle SourceTheorems Artifact ArtifactSpec ArtifactSteps.

Local Open Scope Z_scope.
Local Open Scope list_scope.

Section Accepting.
Context (report_json : bytes -> option GuestReport) (sha256_hex : bytes -> string) (forbidden : list bytes).

#[local] Notation receiver p r z cas t := (MkReceiver (MkStream p r z) cas t).

(** ** Primitives *)

Lemma receiver_be_inv n p r z cas t v s' : Forall is_byte p ->
  read_be n (receiver p r z cas t) = (Ok v, s') ->
  0 <= v < 256 ^ Z.of_nat n /\ exists p', p = be_bytes n v ++ p' /\ s' = receiver p' r z cas t /\ Forall is_byte p'.
Proof.
  intros Hb H. apply read_be_Ok in H as (Hv & Hp & [p' r' z'] & -> & [= ->] & [= ->]); [|done].
  cbn [stream set_stream receiver_stream rx_input rx_cas rx_temporary pending reads sizes] in *.
  split; [done|]. exists p'. split_and!; [done..|]. rewrite Hp in Hb. by apply Forall_app in Hb as [_ Hb].
Qed.

Lemma receiver_exact_inv n p r z cas t bs s' : Forall is_byte p ->
  read_exact n (receiver p r z cas t) = (Ok bs, s') ->
  length bs = n /\ exists p', p = bs ++ p' /\ s' = receiver p' r z cas t /\ Forall is_byte p'.
Proof.
  intros Hb H. apply read_exact_Ok in H as (Hl & Hp & [p' r' z'] & -> & [= ->] & [= ->]).
  cbn [stream set_stream receiver_stream rx_input rx_cas rx_temporary pending reads sizes] in *.
  split; [done|]. exists p'. split_and!; [done..|]. rewrite Hp in Hb. by apply Forall_app in Hb as [_ Hb].
Qed.

Lemma read_string_inv maxlen p r z cas t v s' : Forall is_byte p ->
  read_string maxlen (receiver p r z cas t) = (Ok v, s') ->
  v <> [] /\ (length v <= maxlen)%nat /\ utf8_valid v = true /\
  exists p', p = framed 2 v ++ p' /\ s' = receiver p' r z cas t /\ Forall is_byte p'.
Proof.
  intros Hb H. unfold read_string in H. io_step H n s1 E.
  apply receiver_be_inv in E as (Hn & p1 & -> & -> & Hb1); [|done]. io_reject_step H Hlen.
  apply orb_false_iff in Hlen as [H0%Z.eqb_neq Hmax%Z.ltb_ge].
  io_step H bs s2 E. apply receiver_exact_inv in E as (Hl & p2 & -> & -> & Hb2); [|done].
  io_reject_step H Hu. apply negb_false_iff in Hu. injection H as <- <-.
  split_and!; [intros ->; cbn in Hl; lia|lia|done|]. exists p2. split_and!; [|done..].
  unfold framed, length_prefixed. rewrite <- app_assoc. do 2 f_equal. lia.
Qed.

Lemma write_hashed_string_inv v i cas t u s' :
  write_hashed_string v (MkReceiver i cas (Some t)) = (Ok u, s') ->
  s' = MkReceiver i cas (Some (t ++ framed 2 v)).
Proof.
  unfold write_hashed_string. intros H. io_reject_step H Hl. erewrite io_bind_Ok in H by apply write_hashed_run.
  rewrite write_hashed_run in H. injection H as _ <-. unfold framed, length_prefixed. by rewrite <- app_assoc.
Qed.

(** ** Entries *)

Lemma receive_entry_inv limit code l p r z cas t l' s' : Forall is_byte p ->
  receive_entry forbidden limit code l (receiver p r z cas (Some t)) = (Ok l', s') ->
  exists e p' r', p = entry_frame e ++ p' /\ Forall is_byte p' /\
    s' = receiver p' r' z cas (Some (t ++ entry_frame e)) /\ entry_ok forbidden e /\
    follows (el_previous l) (fe_path e) /\ l' = advance l e /\ el_actual_bytes l' <= limit.
Proof.
  intros Hb H. unfold receive_entry in H. io_step H path s1 E.
  apply read_string_inv in E as (Hpn & Hpl & Hpu & p1 & -> & -> & Hb1); [|done].
  io_step H u s2 E. unfold io_lift in E. injection E as Hv <-. destruct u.
  io_reject_step H Hord. io_step H mode s2 E. apply receiver_be_inv in E as (_ & p2 & -> & -> & Hb2); [|done].
  io_reject_step H Hmode. io_step H sz s3 E. apply receiver_be_inv in E as (Hsz & p3 & -> & -> & Hb3); [|done].
  io_reject_step H Htot. apply orb_false_iff in Htot as [_ Htot%Z.ltb_ge].
  io_step H u s4 E. apply write_hashed_string_inv in E as ->.
  erewrite io_bind_Ok in H by apply write_hashed_run. erewrite io_bind_Ok in H by apply write_hashed_run.
  io_step H copied s5 E. unfold copy_hashed, io_bind, io_get in E. cbn [rx_input pending] in E.
  apply copy_loop_inv in E as (c & r' & -> & Hc & Hp3 & Hs5 & Hclean); [|lia|apply tail_of_nil|apply clean_nil].
  cbn [pending sizes app] in *. injection H as <- <-. rewrite Hp3 in Hb3. apply Forall_app in Hb3 as [_ Hb4].
  exists {| fe_path := path; fe_mode := mode; fe_content := c |}, (pending (rx_input s5)), r'.
  assert (E : entry_frame {| fe_path := path; fe_mode := mode; fe_content := c |}
    = framed 2 path ++ be_bytes 4 mode ++ be_bytes 8 sz ++ c).
  { unfold entry_frame, framed at 2, length_prefixed. cbn [fe_path fe_mode fe_content]. by rewrite Hc. }
  rewrite E. split_and!; [by rewrite Hp3, <- !app_assoc|done|by rewrite Hs5, <- !app_assoc| | | |cbn; done].
  - split; cbn [fe_path fe_mode fe_content]; [done..| |done].
    apply negb_false_iff, orb_true_iff in Hmode as [Hm|Hm]; apply Z.eqb_eq in Hm; auto.
  - cbn. destruct (el_previous l); [by apply negb_false_iff in Hord|done].
  - unfold advance. cbn [fe_path fe_content]. by rewrite Hc.
Qed.

Lemma receive_entries_inv n limit code : forall l p r z cas t l' s', Forall is_byte p ->
  receive_entries forbidden n limit code l (receiver p r z cas (Some t)) = (Ok l', s') ->
  exists es p' r', length es = n /\ p = entries_bytes es ++ p' /\ Forall is_byte p' /\
    s' = receiver p' r' z cas (Some (t ++ entries_bytes es)) /\ Forall (entry_ok forbidden) es /\
    in_order (el_previous l) es /\ l' = advance_all l es.
Proof.
  induction n as [|n IH]; intros l p r z cas t l' s' Hb H; cbn [receive_entries] in H.
  { injection H as <- <-. exists [], p, r. cbn. by rewrite app_nil_r. }
  io_step H l1 s1 E. apply receive_entry_inv in E as (e & p1 & r1 & -> & Hb1 & -> & He & Hf & -> & _); [|done].
  apply IH in H as (es & p2 & r2 & Hl & -> & Hb2 & -> & Hes & Ho & ->); [|done].
  exists (e :: es), p2, r2. unfold entries_bytes. cbn [map concat length]. rewrite <- !app_assoc.
  split_and!; [by f_equal|done..|by constructor|done|done].
Qed.

(** ** Artifacts *)

(** An installed object has the digest of the archive; a new one is the archive. *)
Lemma install_cas_inv bs i cas u s' :
  install_cas sha256_hex (digest_of sha256_hex bs) (MkReceiver i cas (Some bs)) = (Ok u, s') ->
  s' = MkReceiver i (match cas !! digest_of sha256_hex bs with
                     | Some _ => cas | None => <[digest_of sha256_hex bs := private_object bs]> cas end) (Some bs).
Proof.
  unfold install_cas. intros H. io_reject_step H Hv. unfold io_bind at 1, io_get in H. cbn [rx_cas] in H.
  destruct (cas !! _) as [o|].
  - io_step H v s1 E. unfold io_lift in E. injection E as _ <-. by injection H as _ <-.
  - by injection H as _ <-.
Qed.

Lemma receive_archive_inv limits k service count claimed code p r z cas t b s' : Forall is_byte p ->
  k = 1 \/ k = 2 -> 0 <= count -> claimed <= kind_limit limits k ->
  receive_archive sha256_hex forbidden (kind_name k) service count claimed (kind_limit limits k) code
    (receiver p r z cas t) = (Ok b, s') ->
  exists es p' r', Z.of_nat (length es) = count /\ content_bytes es = claimed /\ p = entries_bytes es ++ p' /\
    Forall is_byte p' /\ Forall (entry_ok forbidden) es /\ in_order None es /\
    let a := {| oa_kind := k; oa_service_id := service; oa_entries := es |} in
    b = received sha256_hex a /\ s' = receiver p' r' z (stored sha256_hex a cas) None.
Proof.
  intros Hb Hk Hc Hcl H. unfold receive_archive, with_temporary in H. cbn [rx_input rx_cas] in H.
  match type of H with (let (_, _) := ?m ?s in _) = _ => destruct (m s) as [rr s1] eqn:Em end.
  injection H as -> <-. erewrite io_bind_Ok in Em by apply write_hashed_run.
  erewrite io_bind_Ok in Em by apply write_hashed_run.
  io_step Em u s2 E. apply write_hashed_string_inv in E as ->.
  erewrite io_bind_Ok in Em by apply write_hashed_run. erewrite io_bind_Ok in Em by apply write_hashed_run.
  io_step Em l s3 E. apply receive_entries_inv in E as (es & p' & r' & Hlen & -> & Hb' & -> & Hes & Ho & ->); [|done].
  io_reject_step Em Htot. apply negb_false_iff, Z.eqb_eq in Htot.
  change {| el_actual_bytes := 0; el_previous := None; el_paths := ∅; el_package_json := None |} with no_entries in *.
  rewrite advance_all_bytes in Htot. change (el_actual_bytes no_entries) with 0 in Htot.
  assert (count = Z.of_nat (length es)) as -> by lia. assert (claimed = content_bytes es) as -> by lia.
  unfold io_bind at 1, io_get in Em. cbn [rx_temporary default] in Em.
  exists es, p', r'. set (a := {| oa_kind := k; oa_service_id := service; oa_entries := es |}).
  match type of Em with context [digest_of _ (id ?x)] => assert (Ea : x = canonical_archive a) end.
  { unfold canonical_archive, artifact_body. subst a. cbn [oa_kind oa_service_id oa_entries].
    by rewrite kind_byte_name, <- ?app_assoc by done. }
  rewrite Ea in Em. io_step Em u' s4 E. apply install_cas_inv in E as ->. injection Em as <- <-.
  split_and!; try done. cbv zeta. unfold received. cbn [oa_kind oa_service_id oa_entries].
  by rewrite advance_all_bytes.
Qed.

Lemma artifact_kind_inv limits k kind limit code : artifact_kind limits k = Ok (kind, limit, code) ->
  (k = 1 \/ k = 2) /\ kind = kind_name k /\ limit = kind_limit limits k.
Proof.
  unfold artifact_kind, kind_name, kind_limit. destruct (k =? 1) eqn:E1; [apply Z.eqb_eq in E1; by intros [= <- <- <-]; auto|].
  destruct (k =? 2) eqn:E2; [|done]. apply Z.eqb_eq in E2. by intros [= <- <- <-]; auto.
Qed.

Lemma receive_artifact_inv limits kinds p r z cas t b s' : Forall is_byte p ->
  receive_artifact sha256_hex forbidden limits kinds (receiver p r z cas t) = (Ok b, s') ->
  exists a p' r', p = artifact_body a ++ p' /\ Forall is_byte p' /\ artifact_ok forbidden limits a /\
    kind_name (oa_kind a) ∉ kinds /\ b = received sha256_hex a /\
    s' = receiver p' r' z (stored sha256_hex a cas) None.
Proof.
  intros Hb H. unfold receive_artifact in H. io_step H k s1 E.
  apply receiver_be_inv in E as (_ & p1 & -> & -> & Hb1); [|done].
  io_step H x s2 E. unfold io_lift in E. injection E as Ek <-. destruct x as [[kind limit] code].
  apply artifact_kind_inv in Ek as (Hk & -> & ->). io_reject_step H Hdup. apply bool_decide_eq_false in Hdup.
  io_step H service s2 E. apply read_string_inv in E as (Hne & Hl & Hu & p2 & -> & -> & Hb2); [|done].
  io_reject_step H Huuid. apply negb_false_iff in Huuid.
  io_step H count s3 E. apply receiver_be_inv in E as (Hcount & p3 & -> & -> & Hb3); [|done].
  io_step H claimed s4 E. apply receiver_be_inv in E as (Hclaimed & p4 & -> & -> & Hb4); [|done].
  io_reject_step H H0. apply Z.eqb_neq in H0. io_reject_step H Hmax. apply Z.ltb_ge in Hmax.
  io_reject_step H Hlim. apply Z.ltb_ge in Hlim.
  apply receive_archive_inv in H as (es & p5 & r5 & Hn & Hc & -> & Hb5 & Hes & Ho & -> & ->); [|done|done|lia|done].
  set (a := {| oa_kind := k; oa_service_id := service; oa_entries := es |}). exists a, p5, r5.
  split_and!; try done.
  - unfold artifact_body. subst a. cbn [oa_kind oa_service_id oa_entries]. subst count claimed.
    assert (be_bytes 1 k = [k]) as -> by (by destruct Hk as [-> | ->]). by rewrite <- !app_assoc.
  - subst a. split; cbn [oa_kind oa_service_id oa_entries]; try done; try lia. intros ->. cbn in Hn. lia.
Qed.

Lemma receive_artifacts_inv limits n : forall kinds p r z cas t bs s', Forall is_byte p ->
  receive_artifacts sha256_hex forbidden n limits kinds (receiver p r z cas t) = (Ok bs, s') ->
  exists artifacts p' r' t', length artifacts = n /\ p = concat (map artifact_body artifacts) ++ p' /\
    Forall is_byte p' /\ Forall (artifact_ok forbidden limits) artifacts /\
    NoDup (map (fun a => kind_name (oa_kind a)) artifacts) /\
    (forall a, a ∈ artifacts -> kind_name (oa_kind a) ∉ kinds) /\
    bs = map (received sha256_hex) artifacts /\
    s' = receiver p' r' z (store_all sha256_hex artifacts cas) t'.
Proof.
  induction n as [|n IH]; intros kinds p r z cas t bs s' Hb H; cbn [receive_artifacts] in H.
  { injection H as <- <-. exists [], p, r, t. split_and!; try done; [constructor|].
    intros a Ha. by apply not_elem_of_nil in Ha. }
  io_step H b s1 E. apply receive_artifact_inv in E as (a & p1 & r1 & -> & Hb1 & Ha & Hk & -> & ->); [|done].
  io_step H rest s2 E. apply IH in E as (artifacts & p2 & r2 & t2 & Hl & -> & Hb2 & Has & Hnd & Hks & -> & ->); [|done].
  injection H as <- <-. exists (a :: artifacts), p2, r2, t2. cbn [map concat length]. rewrite <- app_assoc.
  split_and!; [by f_equal|done|done|by constructor| | |done|done].
  - apply NoDup_cons. split; [|done]. intros (c & Ec & Hc)%list_elem_of_fmap. apply (Hks c Hc).
    cbn [received ra_kind]. rewrite <- Ec. left.
  - intros c [->|Hc]%elem_of_cons; [done|]. intros Hin. apply (Hks c Hc). by right.
Qed.

Lemma receive_inv limits p r z cas t out s' : Forall is_byte p ->
  receive report_json sha256_hex forbidden limits (receiver p r z cas t) = (Ok out, s') ->
  exists text artifacts r' t', p = guest_output text artifacts /\
    report_ok report_json limits text (go_report out) artifacts /\
    Forall (artifact_ok forbidden limits) artifacts /\
    NoDup (map (fun a => kind_name (oa_kind a)) artifacts) /\
    go_artifacts out = map (received sha256_hex) artifacts /\
    s' = receiver [] r' z (store_all sha256_hex artifacts cas) t'.
Proof.
  intros Hb H. unfold receive in H. io_step H magic s1 E.
  apply receiver_exact_inv in E as (_ & p1 & -> & -> & Hb1); [|done].
  io_reject_step H Hm. apply negb_false_iff, bool_decide_eq_true in Hm as ->.
  io_step H len s2 E. apply receiver_be_inv in E as (Hlen & p2 & -> & -> & Hb2); [|done].
  io_reject_step H Hl. apply orb_false_iff in Hl as [H0%Z.eqb_neq Hmax%Z.ltb_ge].
  io_step H text s3 E. apply receiver_exact_inv in E as (Ht & p3 & -> & -> & Hb3); [|done].
  io_step H report s4 E. unfold io_lift in E. injection E as Hj <-. unfold ok_or in Hj.
  case_match eqn:Ej; [|done]. injection Hj as ->. io_reject_step H Hf.
  io_step H count s5 E. apply receiver_be_inv in E as (Hcount & p4 & -> & -> & Hb4); [|done].
  io_reject_step H Hc. apply orb_false_iff in Hc as [Hc2%Z.ltb_ge Hfail].
  io_step H bs s6 E.
  apply receive_artifacts_inv in E as (artifacts & p5 & r5 & t5 & Hn & -> & Hb5 & Has & Hnd & _ & -> & ->); [|done].
  io_step H extra s7 E. unfold read in E. injection E as <- <-. io_reject_step H Hextra.
  apply negb_false_iff, bool_decide_eq_true in Hextra.
  cbn [stream set_stream receiver_stream rx_input rx_cas rx_temporary pending reads sizes] in *.
  assert (p5 = []) as ->.
  { destruct p5 as [|c p5]; [done|]. exfalso. unfold read_size in Hextra. cbn [pending sizes reads length] in Hextra.
    replace (Nat.min _ _) with 1%nat in Hextra by lia. done. }
  injection H as <- <-. rewrite drop_nil, app_nil_r. exists text, artifacts, (S r5), t5. cbn [go_report go_artifacts].
  assert (Hcn : count = Z.of_nat (length artifacts)) by lia.
  split_and!; try done.
  - unfold guest_output, framed, length_prefixed. rewrite <- !app_assoc. rewrite Hcn.
    replace (be_bytes 1 (Z.of_nat (length artifacts))) with [Z.of_nat (length artifacts)].
    2:{ destruct artifacts as [|? [|? [|]]]; cbn in *; try done; lia. }
    do 2 f_equal. by rewrite Ht, Z2Nat.id by lia.
  - split; try done; [|lia|].
    + split_and!; [intros ->; cbn in Ht; lia|lia|]. unfold max_u32. lia.
    + intros E. rewrite E, bool_decide_eq_true_2 in Hfail by done. cbn in Hfail. apply negb_false_iff, Z.eqb_eq in Hfail.
      destruct artifacts; [done|cbn in *; lia].
Qed.
End Accepting.
