(* ===== verification/ArtifactTheorems.v ===== *)
(** * What the receiver of a build's output guarantees

    Whatever the reads of the port return: an accepted output is a framed report and
    artifacts whose files hold no credential of the build, an output that is well framed is
    accepted and archived as it is, a file that holds a credential is refused, and the
    content store only grows, by private objects named by their digests. *)

From stdpp Require Import base list option gmap strings.
From Stdlib Require Import ZArith Lia.
From S2P Require Import Prelude RustText Bytes Wire SourceBundle SourceTheorems Artifact ArtifactSpec ArtifactSteps ArtifactInv.

Local Open Scope Z_scope.
Local Open Scope list_scope.

(** ** What no step undoes

    Steps related by a preorder that reading the port does not leave. *)

Section Framing.
Context (R : Receiver -> Receiver -> Prop) `{!PreOrder R}.
Context (R_same : forall s s', rx_cas s' = rx_cas s -> rx_temporary s' = rx_temporary s -> R s s').

Definition keeps {A} (m : IO Receiver A) : Prop := forall s r s', m s = (r, s') -> R s s'.

Lemma step_same {A} (m : IO Receiver A) :
  (forall s, rx_cas (snd (m s)) = rx_cas s /\ rx_temporary (snd (m s)) = rx_temporary s) -> keeps m.
Proof. intros H s r s' E. specialize (H s). rewrite E in H. by apply R_same; apply H. Qed.

Lemma step_bind {A B} (m : IO Receiver A) (k : A -> IO Receiver B) :
  keeps m -> (forall a, keeps (k a)) -> keeps (io_bind m k).
Proof.
  intros Hm Hk s r s' E. unfold io_bind in E. destruct (m s) as [[a|e] s1] eqn:E1.
  - etrans; [by eapply Hm|by eapply Hk].
  - injection E as _ <-. by eapply Hm.
Qed.

Lemma step_ret {A} (a : A) : keeps (io_ret a). Proof. by apply step_same. Qed.
Lemma step_get : keeps io_get. Proof. by apply step_same. Qed.
Lemma step_lift {A} (x : res IoError A) : keeps (io_lift x). Proof. by apply step_same. Qed.
Lemma step_raise {A} (e : IoError) : keeps (A := A) (io_raise e). Proof. by apply step_same. Qed.
Lemma step_reject c e : keeps (io_reject c e). Proof. apply step_same. intros s. by destruct c. Qed.
Lemma step_read n : keeps (read n). Proof. by apply step_same. Qed.
Lemma step_read_exact n : keeps (read_exact n).
Proof. apply step_same. intros s. unfold read_exact. by case_match. Qed.
End Framing.

Create HintDb frames.
#[export] Hint Extern 0 (PreOrder _) => apply _ : frames.
#[export] Hint Resolve step_ret step_get step_lift step_raise step_reject step_read step_read_exact : frames.
Ltac framing := repeat first
  [ by auto with frames | apply step_bind; [apply _| |intros ?] | case_match ].

Section Reading.
Context (R : Receiver -> Receiver -> Prop) `{!PreOrder R}.
Context (R_same : forall s s', rx_cas s' = rx_cas s -> rx_temporary s' = rx_temporary s -> R s s').
Lemma step_read_be n : keeps R (read_be n). Proof. unfold read_be. framing. Qed.
#[local] Hint Resolve step_read_be : frames.
Lemma step_read_string n : keeps R (read_string n). Proof. unfold read_string. framing. Qed.
End Reading.
#[export] Hint Resolve step_read_be step_read_string : frames.

Section Keeping.
Context (report_json : bytes -> option GuestReport) (sha256_hex : bytes -> string) (forbidden : list bytes).

(** *** The content store: objects stay as they are; new ones are private and have their digests. *)
Record cas_grows (s s' : Receiver) : Prop := {
  cg_kept : forall digest o, rx_cas s !! digest = Some o -> rx_cas s' !! digest = Some o;
  cg_ok : cas_ok sha256_hex (rx_cas s) -> cas_ok sha256_hex (rx_cas s');
}.
#[export] Instance cas_grows_preorder : PreOrder cas_grows.
Proof.
  split; [by split|]. intros s1 s2 s3 [K1 O1] [K2 O2]. split; [|by auto]. intros d o H. by apply K2, K1.
Qed.
Lemma cas_grows_same s s' : rx_cas s' = rx_cas s -> rx_temporary s' = rx_temporary s -> cas_grows s s'.
Proof. intros E _. split; by rewrite E. Qed.
#[local] Hint Resolve cas_grows_same : frames.

#[local] Notation grows := (keeps cas_grows).

Lemma grows_write bs : grows (write_hashed bs).
Proof. intros s r s' [= _ <-]. by split. Qed.
#[local] Hint Resolve grows_write : frames.
Lemma grows_write_string bs : grows (write_hashed_string bs). Proof. unfold write_hashed_string. framing. Qed.
#[local] Hint Resolve grows_write_string : frames.

Lemma grows_copy fuel : forall n tail p, grows (copy_loop forbidden fuel n tail p).
Proof. induction fuel as [|fuel IH]; intros n tail p; cbn [copy_loop]; framing; apply IH. Qed.
#[local] Hint Resolve grows_copy : frames.

Lemma grows_entry limit code l : grows (receive_entry forbidden limit code l).
Proof. unfold receive_entry, copy_hashed. framing. Qed.
#[local] Hint Resolve grows_entry : frames.
Lemma grows_entries n limit code : forall l, grows (receive_entries forbidden n limit code l).
Proof. induction n as [|n IH]; intros l; cbn [receive_entries]; framing; apply IH. Qed.
#[local] Hint Resolve grows_entries : frames.

(** The only write to the store: the temporary file, under its digest. *)
Lemma grows_install s r s' : install_cas sha256_hex (digest_of sha256_hex (default [] (rx_temporary s))) s = (r, s') ->
  cas_grows s s'.
Proof.
  unfold install_cas. set (digest := digest_of _ _). unfold io_reject. destruct (valid_digest digest); cbn [negb];
    [|by intros [= _ <-]]. unfold io_bind, io_ret, io_get, io_lift. destruct (rx_cas s !! digest) as [o|] eqn:Ho.
  { by case_match; intros [= _ <-]. }
  intros [= _ <-]. split; cbn [rx_cas].
  - intros d o Hd. rewrite lookup_insert_ne; [done|]. intros <-. congruence.
  - intros Hok d o. rewrite lookup_insert. case_decide as E; [|apply Hok]. intros [= <-]. subst. done.
Qed.

Lemma grows_with_temporary {A} (body : IO Receiver A) : grows body -> grows (with_temporary body).
Proof.
  intros Hb s r s' E. unfold with_temporary in E. case_match eqn:E1. injection E as <- <-.
  apply Hb in E1 as [K O]. by split.
Qed.

Lemma grows_archive kind service n claimed limit code :
  grows (receive_archive sha256_hex forbidden kind service n claimed limit code).
Proof.
  unfold receive_archive. apply grows_with_temporary. do 7 (apply step_bind; [apply _|by auto with frames|intros ?]).
  intros s r s' E. unfold io_bind at 1, io_get in E. unfold io_bind in E.
  destruct (install_cas _ _ s) as [[u|e] s1] eqn:E1; injection E as _ <-; by apply grows_install in E1.
Qed.
#[local] Hint Resolve grows_archive : frames.

Lemma grows_artifact limits kinds : grows (receive_artifact sha256_hex forbidden limits kinds).
Proof. unfold receive_artifact. framing. Qed.
#[local] Hint Resolve grows_artifact : frames.
Lemma grows_artifacts n limits : forall kinds, grows (receive_artifacts sha256_hex forbidden n limits kinds).
Proof. induction n as [|n IH]; intros kinds; cbn [receive_artifacts]; framing; apply IH. Qed.
#[local] Hint Resolve grows_artifacts : frames.
Lemma grows_receive limits : grows (receive report_json sha256_hex forbidden limits).
Proof. unfold receive. framing. Qed.

(** *** The temporary file is gone when there was none. *)
Definition temporary_gone (s s' : Receiver) : Prop := rx_temporary s = None -> rx_temporary s' = None.
#[export] Instance temporary_gone_preorder : PreOrder temporary_gone.
Proof. split; [by intros s H|]. intros s1 s2 s3 H1 H2 H. by apply H2, H1. Qed.
Lemma temporary_gone_same s s' : rx_cas s' = rx_cas s -> rx_temporary s' = rx_temporary s -> temporary_gone s s'.
Proof. intros _ E H. congruence. Qed.
#[local] Hint Resolve temporary_gone_same : frames.

Lemma gone_with_temporary {A} (body : IO Receiver A) : keeps temporary_gone (with_temporary body).
Proof. intros s r s' E _. unfold with_temporary in E. case_match. by injection E as <- <-. Qed.
Lemma gone_archive kind service n claimed limit code :
  keeps temporary_gone (receive_archive sha256_hex forbidden kind service n claimed limit code).
Proof. apply gone_with_temporary. Qed.
#[local] Hint Resolve gone_archive : frames.
Lemma gone_artifact limits kinds : keeps temporary_gone (receive_artifact sha256_hex forbidden limits kinds).
Proof. unfold receive_artifact. framing. Qed.
#[local] Hint Resolve gone_artifact : frames.
Lemma gone_artifacts n limits : forall kinds, keeps temporary_gone (receive_artifacts sha256_hex forbidden n limits kinds).
Proof. induction n as [|n IH]; intros kinds; cbn [receive_artifacts]; framing; apply IH. Qed.
#[local] Hint Resolve gone_artifacts : frames.
Lemma gone_receive limits : keeps temporary_gone (receive report_json sha256_hex forbidden limits).
Proof. unfold receive. framing. Qed.
End Keeping.

(** ** Credentials *)

Section Refusing.
Context (report_json : bytes -> option GuestReport) (sha256_hex : bytes -> string) (forbidden : list bytes).

#[local] Notation receiver p r z cas t := (MkReceiver (MkStream p r z) cas t).

Lemma io_bind_Err {S A B} (m : IO S A) (k : A -> IO S B) s e s' : m s = (Err e, s') -> io_bind m k s = (Err e, s').
Proof. intros H. unfold io_bind. by rewrite H. Qed.

Lemma content_bytes_app es es' : content_bytes (es ++ es') = content_bytes es + content_bytes es'.
Proof. induction es as [|e es IH]; [done|]. cbn [app]. rewrite !content_bytes_cons, IH. lia. Qed.

Lemma receive_entry_refuses limit code l e rest r z cas t :
  entry_header_ok e -> follows (el_previous l) (fe_path e) -> limit <= max_u64 ->
  0 <= el_actual_bytes l -> el_actual_bytes l + Z.of_nat (length (fe_content e)) <= limit ->
  ~ clean forbidden (fe_content e) ->
  exists s', receive_entry forbidden limit code l (receiver (entry_frame e ++ rest) r z cas (Some t)) =
    (Err credential_found, s') /\ rx_cas s' = cas.
Proof.
  intros He Hf Hlim H0 Htot Hc. rewrite receive_entry_head by done.
  destruct (copy_loop_refuses forbidden (S (length (fe_content e ++ rest))) (fe_content e) [] [] rest r z cas (t ++ entry_head e))
    as (s' & Hrun & Hcas); [rewrite length_app; lia|apply tail_of_nil|apply clean_nil|done|].
  exists s'. split; [|done]. apply io_bind_Err. exact Hrun.
Qed.

(** The entries before the one with a credential are read, then the reading stops. *)
Lemma receive_entries_refuses limit code es e n : forall l rest r z cas t,
  Forall (entry_ok forbidden) es -> in_order (el_previous l) (es ++ [e]) -> entry_header_ok e -> limit <= max_u64 ->
  0 <= el_actual_bytes l -> el_actual_bytes l + content_bytes (es ++ [e]) <= limit ->
  ~ clean forbidden (fe_content e) ->
  exists s', receive_entries forbidden (length es + S n) limit code l
      (receiver (entries_bytes (es ++ [e]) ++ rest) r z cas (Some t)) = (Err credential_found, s') /\ rx_cas s' = cas.
Proof.
  induction es as [|f es IH]; intros l rest r z cas t Hes Hord He Hlim H0 Htot Hc; unfold entries_bytes;
    cbn [app map concat length plus receive_entries] in *; rewrite <- app_assoc.
  - rewrite content_bytes_cons in Htot. destruct Hord as [Hf _].
    destruct (receive_entry_refuses limit code l e ([] ++ rest) r z cas t) as (s' & Hrun & Hcas);
      [done..|unfold content_bytes in Htot; cbn in Htot; lia|done|].
    exists s'. split; [|done]. by apply io_bind_Err.
  - apply Forall_cons in Hes as [Hf Hes]. destruct Hord as [Hff Hord]. rewrite content_bytes_cons in Htot.
    pose proof (content_bytes_nonneg (es ++ [e])).
    destruct (receive_entry_run forbidden limit code l f (entries_bytes (es ++ [e]) ++ rest) r z cas t) as (r1 & Hrun);
      [done..|lia|].
    erewrite io_bind_Ok by exact Hrun. apply IH; try done; cbn [advance el_actual_bytes]; lia.
Qed.

(** The first file with a credential, in the entries [es ++ e :: es'] of an artifact. *)
Record tainted (limits : BuildLimits) (a : OutputArtifact) (es : list FileEntry) (e : FileEntry) (es' : list FileEntry) : Prop := {
  ta_header : header_ok limits a;
  ta_entries : oa_entries a = es ++ e :: es';
  ta_before : Forall (entry_ok forbidden) es;
  ta_order : in_order None (es ++ [e]);
  ta_entry : entry_header_ok e;
  ta_found : ~ clean forbidden (fe_content e);
}.

Lemma receive_artifact_refuses limits kinds a es e es' rest r z cas t :
  limits_ok limits -> kind_name (oa_kind a) ∉ kinds -> tainted limits a es e es' ->
  exists s', receive_artifact sha256_hex forbidden limits kinds (receiver (artifact_body a ++ rest) r z cas t) =
    (Err credential_found, s') /\ rx_cas s' = cas /\ rx_temporary s' = None.
Proof.
  intros Hl Hk [Hh Hes Hb Ho He Hc]. rewrite receive_artifact_head, receive_archive_head by done. cbn [rx_input rx_cas].
  assert (Esplit : es ++ e :: es' = (es ++ [e]) ++ es') by (by rewrite <- app_assoc).
  assert (Eb : entries_bytes (oa_entries a) ++ rest = entries_bytes (es ++ [e]) ++ entries_bytes es' ++ rest).
  { rewrite Hes, Esplit. unfold entries_bytes. by rewrite map_app, concat_app, <- app_assoc. }
  assert (El : length (oa_entries a) = (length es + S (length es'))%nat) by (by rewrite Hes, length_app). rewrite Eb, El.
  destruct (receive_entries_refuses (kind_limit limits (oa_kind a)) (limit_code a) es e (length es') no_entries
    (entries_bytes es' ++ rest) r z cas (archive_head a)) as (s' & Hrun & Hcas); try done.
  { by apply kind_limit_u64. }
  { pose proof (ho_bytes _ _ Hh) as Hbytes. rewrite Hes, Esplit, content_bytes_app in Hbytes. pose proof (content_bytes_nonneg es'). cbn [no_entries el_actual_bytes]. lia. }
  erewrite io_bind_Err by exact Hrun. by exists (MkReceiver (rx_input s') (rx_cas s') None).
Qed.

Lemma receive_artifacts_refuses limits pre a post es e es' : forall kinds r z cas t,
  sha256_digits sha256_hex -> cas_ok sha256_hex cas -> limits_ok limits -> Forall (artifact_ok forbidden limits) pre ->
  NoDup (map (fun a => kind_name (oa_kind a)) (pre ++ [a])) ->
  (forall b, b ∈ pre ++ [a] -> kind_name (oa_kind b) ∉ kinds) -> tainted limits a es e es' ->
  exists s', receive_artifacts sha256_hex forbidden (length (pre ++ a :: post)) limits kinds
      (receiver (concat (map artifact_body (pre ++ a :: post))) r z cas t) =
    (Err credential_found, s') /\ rx_cas s' = store_all sha256_hex pre cas /\ rx_temporary s' = None.
Proof.
  induction pre as [|b pre IH]; intros kinds r z cas t Hd Hcas Hl Hpre Hnd Hk Ht;
    cbn [app map concat length receive_artifacts] in *.
  - destruct (receive_artifact_refuses limits kinds a es e es' (concat (map artifact_body post)) r z cas t)
      as (s' & Hrun & Hcas' & Htmp); [done|apply Hk; left|done|].
    exists s'. split; [|done]. by apply io_bind_Err.
  - apply Forall_cons in Hpre as [Hb Hpre]. apply NoDup_cons in Hnd as [Hnew Hnd].
    destruct (receive_artifact_run sha256_hex forbidden limits kinds b (concat (map artifact_body (pre ++ a :: post))) r z cas t)
      as (r1 & Hrun); [done..|apply Hk; left|]. erewrite io_bind_Ok by exact Hrun.
    destruct (IH (ra_kind (received sha256_hex b) :: kinds) r1 z (stored sha256_hex b cas) None) as (s' & Hrest & Hcas' & Htmp);
      [done|by apply stored_ok|done..| |done|].
    { intros c Hc. cbn [received ra_kind]. intros [E|Hin]%elem_of_cons; [|by apply (Hk c); [right|]].
      apply Hnew. rewrite <- E. by apply (list_elem_of_fmap_2 (fun a => kind_name (oa_kind a))). }
    exists s'. split; [|done]. by apply io_bind_Err.
Qed.
End Refusing.

(** ** Properties *)

Section Properties.
Context (report_json : bytes -> option GuestReport) (sha256_hex : bytes -> string) (forbidden : list bytes).

(** C21: Whatever sizes the reads of the port return, an output that [receive] accepts is the
    framing of a report and of artifacts of different kinds, none of whose files holds a
    credential of the build; the result describes them, the content store holds their
    archives and no temporary file is left. *)
Theorem accepted_outputs_hold_no_credential limits port sizes cas out s' : Forall is_byte port ->
  receive report_json sha256_hex forbidden limits (MkReceiver (MkStream port 0 sizes) cas None) = (Ok out, s') ->
  exists text artifacts, port = guest_output text artifacts /\
    report_ok report_json limits text (go_report out) artifacts /\
    go_artifacts out = map (received sha256_hex) artifacts /\
    NoDup (map (fun a => kind_name (oa_kind a)) artifacts) /\
    (forall a e credential, a ∈ artifacts -> e ∈ oa_entries a -> credential ∈ forbidden -> credential <> [] ->
       ~ occurs credential (fe_content e)) /\
    rx_cas s' = store_all sha256_hex artifacts cas /\ rx_temporary s' = None.
Proof.
  intros Hb H. pose proof (gone_receive report_json sha256_hex forbidden limits _ _ _ H eq_refl) as Htmp.
  apply receive_inv in H as (text & artifacts & r' & t' & -> & Hr & Ha & Hnd & Hout & ->); [|done].
  exists text, artifacts. split_and!; try done. intros a e v Hin He. rewrite Forall_forall in Ha.
  destruct (Ha a Hin) as [_ _ _ _ _ _ _ Hes]. rewrite Forall_forall in Hes. apply (Hes e He).
Qed.

(** C22: An output framed within the limits comes back as it was sent, whatever sizes the
    reads return: its report, and for each artifact its kind, service, counts and paths; its
    archive is stored under its digest, unless an object of that digest is already there. *)
Theorem framed_outputs_come_back limits text report artifacts sizes cas :
  sha256_digits sha256_hex -> cas_ok sha256_hex cas -> limits_ok limits ->
  report_ok report_json limits text report artifacts -> Forall (artifact_ok forbidden limits) artifacts ->
  NoDup (map (fun a => kind_name (oa_kind a)) artifacts) ->
  exists s', receive report_json sha256_hex forbidden limits (MkReceiver (MkStream (guest_output text artifacts) 0 sizes) cas None) =
      (Ok {| go_report := report; go_artifacts := map (received sha256_hex) artifacts |}, s') /\
    pending (rx_input s') = [] /\ rx_cas s' = store_all sha256_hex artifacts cas /\
    cas_ok sha256_hex (rx_cas s') /\ rx_temporary s' = None.
Proof.
  intros Hd Hc Hl Hr Ha Hnd.
  destruct (receive_run report_json sha256_hex forbidden limits text report artifacts 0 sizes cas None) as (r' & t' & H); [done..|].
  pose proof (gone_receive _ _ _ _ _ _ _ H eq_refl). pose proof (cg_ok _ _ _ (grows_receive _ _ _ _ _ _ _ H) Hc).
  eexists. split_and!; [exact H|done..].
Qed.

(** C23: The first file that holds a credential ends the receiving with an error, however the
    reads split the credential: its artifact is not stored, those before it are. *)
Theorem a_credential_refuses_the_output limits text report pre a post es e es' sizes cas :
  sha256_digits sha256_hex -> cas_ok sha256_hex cas -> limits_ok limits ->
  report_ok report_json limits text report (pre ++ a :: post) -> Forall (artifact_ok forbidden limits) pre ->
  NoDup (map (fun a => kind_name (oa_kind a)) (pre ++ [a])) -> tainted forbidden limits a es e es' ->
  exists s', receive report_json sha256_hex forbidden limits
      (MkReceiver (MkStream (guest_output text (pre ++ a :: post)) 0 sizes) cas None) = (Err credential_found, s') /\
    rx_cas s' = store_all sha256_hex pre cas /\ rx_temporary s' = None.
Proof.
  intros Hd Hc Hl Hr Hpre Hnd Ht. rewrite (receive_head _ _ _ _ _ report) by done.
  destruct (receive_artifacts_refuses sha256_hex forbidden limits pre a post es e es' [] 0 sizes cas None) as (s' & Hrun & H);
    [done..|intros b _; by apply not_elem_of_nil|done|].
  exists s'. split; [|done]. by apply io_bind_Err.
Qed.

(** C24: Receiving never changes or removes an object of the content store, whatever arrives
    and wherever it stops; every object it adds is private and has the digest it is named by,
    and no temporary file is left. *)
Theorem receiving_only_adds_objects limits s r s' :
  receive report_json sha256_hex forbidden limits s = (r, s') -> cas_ok sha256_hex (rx_cas s) -> rx_temporary s = None ->
  cas_ok sha256_hex (rx_cas s') /\ rx_temporary s' = None /\
  (forall digest o, rx_cas s !! digest = Some o -> rx_cas s' !! digest = Some o).
Proof.
  intros H Hc Ht. pose proof (grows_receive _ _ _ _ _ _ _ H) as [Hk Ho].
  split_and!; [by apply Ho|by apply (gone_receive _ _ _ _ _ _ _ H)|done].
Qed.
End Properties.
