(* ===== verification/ArtifactDemo.v ===== *)
(** * Outputs of a build, received *)

From stdpp Require Import base list option gmap strings.
From Stdlib Require Import ZArith Lia.
From S2P Require Import Prelude RustText Bytes Wire SourceBundle SourceTheorems Artifact ArtifactSpec ArtifactSteps ArtifactInv ArtifactTheorems.

Local Open Scope Z_scope.
Local Open Scope list_scope.

Module ArtifactDemo.
(** A checksum of 64 equal digits. *)
Definition hex_digit (n : nat) : Ascii.ascii :=
  Ascii.ascii_of_nat (if (n mod 16 <? 10)%nat then 48 + n mod 16 else 87 + n mod 16)%nat.
Fixpoint repeated (n : nat) (c : Ascii.ascii) : string := match n with O => EmptyString | S n' => String c (repeated n' c) end.
Definition sha (bs : bytes) : string := repeated 64 (hex_digit (length bs)).

Definition succeeded : GuestReport :=
  {| gp_state := lit "succeeded"; gp_code := lit "ok"; gp_phase := lit "build"; gp_message := [] |}.
Definition json (text : bytes) : option GuestReport := if bool_decide (text = lit "{}") then Some succeeded else None.
Definition secrets : list bytes := [lit "hunter2"; []].
Definition limits : BuildLimits := {|
  bl_cpu_millis := 1; bl_memory_bytes := 1; bl_timeout_seconds := 1; bl_workspace_bytes := 1;
  bl_static_output_bytes := 1000; bl_runtime_output_bytes := 1000; bl_max_entries := 10;
  bl_console_bytes := 1; bl_report_bytes := 100 |}.

Definition index : FileEntry := {| fe_path := lit "index.html"; fe_mode := 420; fe_content := lit "<p>hunter</p>" |}.
Definition leak : FileEntry := {| fe_path := lit "main.js"; fe_mode := 420; fe_content := lit "key=hunter2;" |}.
Definition site : OutputArtifact :=
  {| oa_kind := 1; oa_service_id := lit "01234567-89ab-cdef-0123-456789abcdef"; oa_entries := [index] |}.
Definition leaking : OutputArtifact :=
  {| oa_kind := 2; oa_service_id := lit "01234567-89ab-cdef-0123-456789abcdef"; oa_entries := [index; leak] |}.

(** The port returns one, two or three bytes at a time. *)
Definition three (n : nat) : nat := S (n mod 3).

Lemma sha_digits : sha256_digits sha.
Proof.
  intros bs. unfold sha, hex_digit. generalize (length bs). intros n.
  pose proof (Nat.mod_upper_bound n 16 ltac:(lia)) as H. revert H. generalize (n mod 16)%nat. intros m H.
  do 16 (destruct m as [|m]; [by vm_compute|]). lia.
Qed.

Lemma limits_fit : limits_ok limits.
Proof. split; vm_compute; discriminate. Qed.

Lemma report_fits artifacts : (length artifacts <= 2)%nat -> report_ok json limits (lit "{}") succeeded artifacts.
Proof. intros H. split; [split_and!; [done|vm_compute; discriminate..]|by vm_compute|by vm_compute|done|]. intros E. discriminate E. Qed.

Lemma clean_site : clean secrets (fe_content index).
Proof. apply forbidden_in_spec. by vm_compute. Qed.

Lemma index_ok : entry_ok secrets index.
Proof. split; [by vm_compute|vm_compute; lia|by vm_compute|by left|apply clean_site]. Qed.

Lemma site_ok : artifact_ok secrets limits site.
Proof.
  split; [by left|by vm_compute|by vm_compute|done|vm_compute; discriminate|vm_compute; discriminate|done|].
  apply Forall_cons; split; [apply index_ok|constructor].
Qed.

Lemma leak_tainted : tainted secrets limits leaking [index] leak [].
Proof.
  split; [split; [by right|by vm_compute|by vm_compute|done|vm_compute; discriminate|vm_compute; discriminate]
    |done|apply Forall_cons; split; [apply index_ok|constructor]| | |].
  - split; [done|]. split; [by vm_compute|done].
  - split; [by vm_compute|vm_compute; lia|by vm_compute|by left].
  - intros H. apply (H (lit "hunter2")); [left|done|]. exists (lit "key="), (lit ";"). by vm_compute.
Qed.

Lemma empty_cas_ok : cas_ok sha ∅.
Proof. intros d o H. by rewrite lookup_empty in H. Qed.

Definition port : bytes := guest_output (lit "{}") [site].
Definition ran := receive json sha secrets limits (MkReceiver (MkStream port 0 three) ∅ None).

Lemma framed_outputs_come_back_witness : exists s', ran =
  (Ok {| go_report := succeeded; go_artifacts := map (received sha) [site] |}, s') /\ pending (rx_input s') = [].
Proof.
  destruct (framed_outputs_come_back json sha secrets limits (lit "{}") succeeded [site] three ∅) as (s' & H & Hp & _).
  - apply sha_digits.
  - apply empty_cas_ok.
  - apply limits_fit.
  - apply report_fits. cbn. lia.
  - apply Forall_cons; split; [apply site_ok|constructor].
  - refine (bool_decide_unpack _ _). vm_compute. exact I.
  - exists s'. split; [exact H|exact Hp].
Defined.

Lemma accepted_outputs_hold_no_credential_witness : is_ok (fst ran) = true /\
  forall a e, a ∈ [site] -> e ∈ oa_entries a -> ~ occurs (lit "hunter2") (fe_content e).
Proof.
  assert (Hok : is_ok (fst ran) = true) by (vm_compute; reflexivity). split; [exact Hok|].
  destruct ran as [[out|er] s'] eqn:E; [|discriminate Hok].
  destruct (accepted_outputs_hold_no_credential json sha secrets limits port three ∅ out s') as (text & artifacts & Hp & H).
  - refine (bool_decide_unpack _ _). vm_compute. exact I.
  - exact E.
  - destruct framed_outputs_come_back_witness as (s2 & H2 & _). rewrite E in H2. injection H2 as -> ->.
    intros a e Ha He. apply list_elem_of_singleton in Ha as ->.
    apply list_elem_of_singleton in He as ->. apply clean_site; [left|done].
Defined.

Lemma a_credential_refuses_the_output_witness : exists s',
  receive json sha secrets limits (MkReceiver (MkStream (guest_output (lit "{}") [site; leaking]) 0 three) ∅ None) =
    (Err credential_found, s') /\ rx_cas s' = store_all sha [site] ∅.
Proof.
  destruct (a_credential_refuses_the_output json sha secrets limits (lit "{}") succeeded [site] leaking [] [index] leak [] three ∅)
    as (s' & H & Hc & _).
  - apply sha_digits.
  - apply empty_cas_ok.
  - apply limits_fit.
  - apply report_fits. cbn. lia.
  - apply Forall_cons; split; [apply site_ok|constructor].
  - refine (bool_decide_unpack _ _). vm_compute. exact I.
  - apply leak_tainted.
  - exists s'. split; [exact H|exact Hc].
Defined.

Lemma receiving_only_adds_objects_witness : cas_ok sha (rx_cas (snd ran)) /\ rx_temporary (snd ran) = None.
Proof.
  destruct ran as [r s'] eqn:E.
  destruct (receiving_only_adds_objects json sha secrets limits _ r s' E) as (H & Ht & _).
  - apply empty_cas_ok.
  - reflexivity.
  - split; [exact H|exact Ht].
Defined.
End ArtifactDemo.
